(* ===== verification/_CoqProject ===== *)
-Q . S2P
Prelude.v
AesTables.v
Aes.v
AesSpec.v
AesProofs.v
AesKeys.v
Base64.v
Sys.v
AexclLib.v
FdEvent.v
AudioStream.v
PcmStream.v
RtspClient.v
RtspProofs.v
RaopClient.v
RaopCrypto.v
RaopTime.v
RaopContent.v
RaopStream.v
RaopOpen.v
RaopConnect.v
RaopPlay.v
RaopArgs.v
Frame.v
PlayInvariant.v
SrcFloat.v
SrcCommon.v
SrcHold.v
SrcSinc.v
SampleRate.v
SrcLogic.v
SrcProofs.v
SrcNew.v
SrcArrays.v
SrcUnity.v
SrcBuffer.v
ClientTypes.v
Threads.v
AudioFlinger.v
Bridge.v
Streaming.v
Console.v
Sha1.v
Sha1Block.v
Sha1Stream.v
Runs.v
RsaOaep.v
RsaOaepProofs.v
Modular.v
Bn.v
BnProofs.v
BnMont.v
BnMontProofs.v
BnExpProofs.v
BnMul.v
ModExp.v
RsaEay.v
RsaEayProofs.v
RsaKey.v
KeyExchange.v
