(* ===== verification/Prelude.v ===== *)
(** * Waveplay: a verification library for the native RAOP streamer

    ** The program

    Waveplay is an Android application that plays sound on an AirPort Express
    or another RAOP device.  Its core is the C program under src/jni/raop_play:
    - raop_play.c is the player: it reads the command line or is entered from
      Java, keeps a table of file descriptors with callbacks, and runs a loop
      that reads a frame of sound, sends it and handles the events of the
      sockets, the console and the signals;
    - raop_client.c holds the connection to the device: it opens a session with
      random keys, announces it over RTSP, encrypts each frame with AES in CBC
      mode, wraps it into RTP packets that are written when the socket is ready,
      and looks after volume, pause, track information and clocks;
    - rtsp_client.c builds RTSP requests and parses the responses;
    - audio_stream.c and pcm_stream.c read PCM data from a file or a socket and
      write it as uncompressed ALAC frames;
    - aes.c, base64.c and aexcl_lib.c are the cipher, the text encoding and the
      helpers for lines, header arrays, sockets and memory.
    The resampler src/jni/libsamplerate is linked with it.  The sound comes from a
    patch of the Android audio server (src/audioflinger/4.1.2/AudioFlinger.cpp), which
    hands each mixed buffer to the sound device or, over a connection to port 4999,
    to pcm_stream.c; the file /data/raop_switch, which the Java application writes,
    says to which.  Two threads of raop_client.c keep the clocks of player and device
    together.  OpenSSL (src/jni/openssl) is linked for one thing: [rsa_encrypt] of
    raop_client.c encrypts the AES key of a session with the public key of the device,
    RSA with OAEP padding, which takes the big numbers of crypto/bn, the SHA-1 of
    crypto/sha and the random generator.

    ** Files

    - [Prelude]: machine integers with their wrap-around, arrays, C strings, the
      outcome of C code ([Ret], or [UB] with the kind of undefined behaviour),
      and the automation that the other files share.
    - [Sys]: pointers, the heap of blocks, the environment as a function of the
      history of calls, and the monad [M] that the code of the streamer is written
      in.
    - aes.c: [AesTables] (table generation and the fixed tables), [Aes] (key
      schedule and both directions), [AesSpec] (the cipher of FIPS 197),
      [AesProofs] and [AesKeys] (the code computes it; decryption inverts it).
    - base64.c: [Base64].  aexcl_lib.c and aexcl_lib.h: [AexclLib].
    - The event table of raop_play.c: [FdEvent].
    - audio_stream.c: [AudioStream].  pcm_stream.c: [PcmStream].
    - rtsp_client.c: [RtspClient] (the code), [RtspProofs].
    - raop_client.c: [RaopClient] (the code), [RaopCrypto] (encryption),
      [RaopTime] (clocks, play time, volume), [RaopContent] (track information),
      [RaopStream] (packets and their transfer), [RaopOpen], [RaopConnect].
    - raop_play.c: [RaopPlay] (the code), [RaopArgs] (command line), [Frame] (a
      logic for code that keeps the event table and the cipher's state),
      [PlayInvariant] (what the main loop keeps), [ClientTypes] (all operations on a
      client), [Streaming] (the main loop plays what it receives), [Console] (its
      commands).
    - The threads of raop_client.c, interleaved with the main thread: [Threads].
    - The patch of the audio server: [AudioFlinger]; its composition with
      pcm_stream.c: [Bridge].
    - libsamplerate: [SrcFloat] (binary32 and binary64 arithmetic), [SrcCommon]
      (common.h, samplerate.h and the memory of samples), [SrcHold] (src_zoh.c and
      src_linear.c), [SrcSinc] (src_sinc.c), [SampleRate] (samplerate.c),
      [SrcLogic] (a logic for its loops and writes), [SrcProofs], [SrcNew],
      [SrcArrays], [SrcUnity] and [SrcBuffer].
    - OpenSSL, what the key exchange runs: [Sha1] (sha_locl.h, md32_common.h),
      [Sha1Block] (the compression function of FIPS 180 and both forms of the code's),
      [Sha1Stream] (padding and buffering); [RsaOaep] (rsa_oaep.c, digest.c),
      [RsaOaepProofs]; [Modular] (congruence, with its setoid instances), [Bn] (bn_lib.c,
      bn_asm.c), [BnProofs], [BnMont] (bn_mont.c, bn_exp.c and the interfaces
      [Multiplier], [Temporaries] and [Division]), [BnMontProofs], [BnExpProofs], [BnMul]
      (bn_mul.c and bn_sqr.c of the small build, an instance of [Multiplier]), [ModExp];
      [RsaEay] (rsa_eay.c), [RsaEayProofs], [RsaKey] (a key to try it on); [Runs] (a logic
      for code that keeps the heap).  [KeyExchange] composes them with [rsa_encrypt].
    A definition has the name of the C function or type that it translates; a
    part of a long function has a name of its own, and its comment quotes the C
    text.

    ** Theorems

    - Cipher: the generated tables are the fixed ones, encryption is FIPS 197
      for the three key sizes, decryption inverts it, wrong sizes are rejected;
      packets are encrypted in CBC mode.
    - Key exchange: the hash is that of FIPS 180 for any cut of the message and for both
      forms of the compression function; the OAEP check accepts exactly the encodings;
      numbers and bytes convert back and forth; the Montgomery exponentiation computes
      the power, for every implementation of its three interfaces that keeps to its
      contract ([MultiplierOk], [TemporariesOk], [DivisionOk]); decryption with the private
      exponent alone, without blinding, inverts encryption; and [rsa_encrypt] stores the RSAES-OAEP encryption of the key, which is
      what the client's model gets from its one call.
    - Encodings: base64, the ALAC frame, the DMAP track information and the
      command line are each inverted by a decoder or parser; a request is one write of
      exactly the text RTSP asks for, and a response of up to 16 headers is read completely.
    - Streams and packets: reading a line and decoding end and stay in their
      buffers on any input; a frame read from a source is a frame of its bytes; a
      sample that is sent reaches the socket, whole and in order, whatever part
      of it each write takes; memory that is opened is closed.
    - Player: the event table refines a finite map; every sequence of operations on a
      client that returns keeps its structure well-formed.  The event loop end to end:
      while sound comes in and the socket can be written, the main loop ends with the
      speaker and the socket has taken exactly the packets of the frames received; the
      commands quit, stop and play typed at the console are obeyed.
    - Threads: in every interleaving in which the time stamp does not wrap around, the
      packets of [raopcl_sync] are well-formed and their time stamp is neither ahead of
      the client's nor 2^24 behind the one at its first byte.
    - Audio server: [threadLoop_write] refines a state machine of the bridge; losses
      are isolated, a failed connection gives the sound back to the device, and the
      frames of the player decode to the samples sent, a chunk of less than 32 of them
      filled up with silence.
    - Clocks: the NTP time stamp and the remaining play time are exact within
      stated bounds.
    - Resampler: the loops of every converter end, and a call that returns has written
      its output array alone; the sinc buffer refines a stream of samples; samples survive the conversion to floats; at
      ratio 1 the simplest converter delays its input by one frame.
    - Errors of the code, each as a theorem that the undefined behaviour is
      reached: the header block of [raopcl_connect] (which, with memory, every connection
      reaches), the argument array of
      [raopPlay], the double free of the extra headers, the dangling session
      string, the reads of the linear converter behind its input, the null
      pointer in [src_callback_new], the negative copy of the sinc converter, the
      block that the padding leaks without random bytes, the threads that use a closed
      client, and the letter O that the application writes for 0.

    ** Bounds and fuel

    [int], [long] and pointers have 32 bits (armeabi).  A loop that is not
    structural has fuel, and running out of it is the outcome [UB NoFuel], which a
    theorem with a [Ret] result, or one that says [<> UB NoFuel], excludes.  The
    fuel is computed from the data where the code bounds its loops: the length of
    a buffer for lines and texts, the number of blocks of a packet, the samples of
    an output array.  The class [LineBound] of [RtspClient] bounds the number of
    header lines that a peer sends, which nothing in the code does; the main loop
    of the player and the loop of [src_callback_read] take their number of rounds
    as an argument ([Streaming] shows how many are enough: one per chunk, and the
    bytes of a packet).  The sizes of packets and of base64 texts are integers without a
    bound where the C code has [int], so that they differ from the code for data of
    2^29 bytes and more, which no caller has.

    The environment ([Env]) is an arbitrary function from the history of calls to
    a reply; where a theorem needs what POSIX says of the results of [read],
    [recv] and [write] it has the hypothesis [Posix], which [clamp] satisfies for
    every environment.  The random generator, the JNI callbacks and the allocator are
    calls to the environment too, and in [RaopClient] the call of OpenSSL is one.
    [mem_available] says that no allocation fails; the sizes of numbers are below 2^20
    words where a theorem says so, because [BIGNUM] cannot grow further.

    ** Not modelled

    - The rest of the audio server, which the patch does not touch: the classes
      that [threadLoop_write] calls are declared outside the repository, so that the
      sinks, the HAL stream and the module loader are calls to the environment, and
      the types of two counters are parameters.  Several playback threads share the
      variables of the patch without a lock; one thread is modelled.
    - The coefficient tables of libsamplerate, which are generated data and
      parameters of the sinc converter; the addresses of its arrays are numbers
      and the position of its structures in memory is not modelled.
    - OpenSSL beyond the key exchange.  Of what the key exchange runs: division, the
      modular inverse and the pool of temporaries (interfaces with their contracts), the
      Karatsuba and comba multiplication that the default build uses for larger numbers
      (another implementation of [Multiplier]), the assembler, engines, and the random
      generator.  Of the private operation: blinding, the form with the factors of the
      modulus and the constant-time exponentiation (the interface [PrivateModes]); the
      player does not decrypt.
    - The Java application but for its writes to the switch file; hello-jni.c, which is
      not built.
    - The values that a C program can observe of memory it has not written
      are chosen by the environment. *)

From stdpp Require Export base list gmap.
From Stdlib Require Export ZArith Lia.
From Stdlib Require Import Btauto.
From Stdlib Require String Ascii.
Export (notations) String.

Open Scope Z_scope.

(** ** Notations: the bit operators of C *)

Declare Scope c_scope.
Delimit Scope c_scope with C.
Infix ".^" := Z.lxor (at level 45, left associativity) : c_scope.
Infix ".&" := Z.land (at level 42, left associativity) : c_scope.
Infix ".|" := Z.lor (at level 47, left associativity) : c_scope.
Infix ".<<" := Z.shiftl (at level 38, left associativity) : c_scope.
Infix ".>>" := Z.shiftr (at level 38, left associativity) : c_scope.
Open Scope c_scope.

(** ** Machine integers

    A [w]-bit integer is a [Z]; the conversions the C code performs are
    written out.  [u8], [u16], [u32] and [u64] are the conversions to the
    unsigned types, [s16] and [s32] the (two's complement) conversions to
    [__s16] and [int].  The build target is armeabi, where [int], [long] and
    pointers have 32 bits. *)

Definition u8 (x : Z) : Z := x mod 256.
Definition u16 (x : Z) : Z := x mod 65536.
Definition u32 (x : Z) : Z := x mod 4294967296.
Definition u64 (x : Z) : Z := x mod 18446744073709551616.
Definition s16 (x : Z) : Z := (x + 32768) mod 65536 - 32768.
Definition s32 (x : Z) : Z := (x + 2147483648) mod 4294967296 - 2147483648.

Definition INT_MAX : Z := 2147483647.
Definition INT_MIN : Z := -2147483648.

Definition is_u8 (x : Z) : Prop := 0 <= x < 256.
Definition is_u16 (x : Z) : Prop := 0 <= x < 65536.
Definition is_u32 (x : Z) : Prop := 0 <= x < 4294967296.
Definition is_int (x : Z) : Prop := INT_MIN <= x <= INT_MAX.

Abbreviation bytes := (Forall is_u8).

#[export] Instance is_u8_dec x : Decision (is_u8 x).
Proof. unfold is_u8. apply _. Defined.
#[export] Instance is_u32_dec x : Decision (is_u32 x).
Proof. unfold is_u32. apply _. Defined.
#[export] Instance is_int_dec x : Decision (is_int x).
Proof. unfold is_int. apply _. Defined.

(** ** Automation *)

Create HintDb cbits.
Create HintDb crange.
Create Rewrite HintDb zlen.

Lemma testbit_above (n x i : Z) : 0 <= n -> 0 <= x < 2 ^ n -> n <= i -> Z.testbit x i = false.
Proof.
  intros Hn Hx Hi. rewrite <- (Z.mod_small x (2 ^ n)) by lia.
  apply Z.mod_pow2_bits_high. lia.
Qed.

Lemma bound_of_testbit (n x : Z) :
  0 <= n -> 0 <= x -> (forall i, n <= i -> Z.testbit x i = false) -> x < 2 ^ n.
Proof.
  intros Hn Hx Hb.
  destruct (Z.eq_dec x 0) as [->|Hx0]; [apply Z.pow_pos_nonneg; lia|].
  destruct (Z.lt_ge_cases x (2 ^ n)) as [|Hge]; [done|].
  exfalso. assert (Hlog : n <= Z.log2 x) by (apply Z.log2_le_pow2; lia).
  specialize (Hb _ Hlog). rewrite Z.bit_log2 in Hb by lia. done.
Qed.

Lemma lxor_bound (n x y : Z) :
  0 <= n -> 0 <= x < 2 ^ n -> 0 <= y < 2 ^ n -> 0 <= x .^ y < 2 ^ n.
Proof.
  intros Hn Hx Hy. assert (0 <= x .^ y) by (apply Z.lxor_nonneg; lia).
  split; [done|]. apply bound_of_testbit; [done..|]. intros i Hi.
  rewrite Z.lxor_spec, !(testbit_above n) by lia. done.
Qed.

Lemma lor_bound (n x y : Z) :
  0 <= n -> 0 <= x < 2 ^ n -> 0 <= y < 2 ^ n -> 0 <= x .| y < 2 ^ n.
Proof.
  intros Hn Hx Hy. assert (0 <= x .| y) by (apply Z.lor_nonneg; lia).
  split; [done|]. apply bound_of_testbit; [done..|]. intros i Hi.
  rewrite Z.lor_spec, !(testbit_above n) by lia. done.
Qed.

Lemma u8_range x : is_u8 (u8 x).
Proof. unfold is_u8, u8. apply Z.mod_pos_bound. lia. Qed.

Lemma u16_range x : is_u16 (u16 x).
Proof. unfold is_u16, u16. apply Z.mod_pos_bound. lia. Qed.

Lemma u32_range x : is_u32 (u32 x).
Proof. unfold is_u32, u32. apply Z.mod_pos_bound. lia. Qed.

Lemma u8_id x : is_u8 x -> u8 x = x.
Proof. intros. apply Z.mod_small. done. Qed.

Lemma u32_id x : is_u32 x -> u32 x = x.
Proof. intros. apply Z.mod_small. done. Qed.

Lemma is_u8_lxor x y : is_u8 x -> is_u8 y -> is_u8 (x .^ y).
Proof. intros. apply (lxor_bound 8); [lia|done..]. Qed.

Lemma is_u32_lxor x y : is_u32 x -> is_u32 y -> is_u32 (x .^ y).
Proof. intros. apply (lxor_bound 32); [lia|done..]. Qed.

#[export] Hint Resolve u8_range u16_range u32_range is_u8_lxor is_u32_lxor : crange.

(** [bitwise] proves an equation between bit-operator expressions by
    comparing all bits; constants are compared by [lia]-driven case splits
    on the bit index. *)
Lemma u8_testbit x i :
  0 <= i -> Z.testbit (u8 x) i = (i <? 8) && Z.testbit x i.
Proof.
  intros Hi. unfold u8. change 256 with (2 ^ 8).
  destruct (Z.ltb_spec i 8).
  - by rewrite Z.mod_pow2_bits_low by lia.
  - by rewrite Z.mod_pow2_bits_high by lia.
Qed.

Lemma u32_testbit x i :
  0 <= i -> Z.testbit (u32 x) i = (i <? 32) && Z.testbit x i.
Proof.
  intros Hi. unfold u32. change 4294967296 with (2 ^ 32).
  destruct (Z.ltb_spec i 32).
  - by rewrite Z.mod_pow2_bits_low by lia.
  - by rewrite Z.mod_pow2_bits_high by lia.
Qed.

(** ** Big-endian words: four bytes and their word *)

Definition pack4 (a b c d : Z) : Z := a * 16777216 + b * 65536 + c * 256 + d.

(** The byte [(uint8) (x >> s)] of the code. *)
Definition byte_at (x s : Z) : Z := u8 (x .>> s).

Lemma byte_at_range x s : is_u8 (byte_at x s).
Proof. apply u8_range. Qed.
#[export] Hint Resolve byte_at_range : crange.

Lemma byte_at_lxor x y s : byte_at (x .^ y) s = byte_at x s .^ byte_at y s.
Proof.
  unfold byte_at. rewrite Z.shiftr_lxor. unfold u8. change 256 with (2 ^ 8).
  rewrite <- !Z.land_ones by lia. apply Z.bits_inj'. intros i Hi.
  rewrite Z.lxor_spec, !Z.land_spec, Z.lxor_spec. btauto.
Qed.

Lemma pack4_range a b c d :
  is_u8 a -> is_u8 b -> is_u8 c -> is_u8 d -> is_u32 (pack4 a b c d).
Proof. unfold is_u8, is_u32, pack4. lia. Qed.
#[export] Hint Resolve pack4_range : crange.

Lemma byte_at_pack4 a b c d :
  is_u8 a -> is_u8 b -> is_u8 c -> is_u8 d ->
  byte_at (pack4 a b c d) 24 = a /\ byte_at (pack4 a b c d) 16 = b /\
  byte_at (pack4 a b c d) 8 = c /\ byte_at (pack4 a b c d) 0 = d.
Proof.
  unfold is_u8, pack4, byte_at, u8. intros.
  rewrite !Z.shiftr_div_pow2 by lia.
  change (2 ^ 24) with 16777216. change (2 ^ 16) with 65536.
  change (2 ^ 8) with 256. change (2 ^ 0) with 1.
  repeat split; Z.div_mod_to_equations; lia.
Qed.

Lemma pack4_byte_at x :
  is_u32 x -> pack4 (byte_at x 24) (byte_at x 16) (byte_at x 8) (byte_at x 0) = x.
Proof.
  unfold is_u32, pack4, byte_at, u8. intros.
  rewrite !Z.shiftr_div_pow2 by lia.
  change (2 ^ 24) with 16777216. change (2 ^ 16) with 65536.
  change (2 ^ 8) with 256. change (2 ^ 0) with 1.
  Z.div_mod_to_equations; lia.
Qed.

Lemma pack4_inj x y :
  is_u32 x -> is_u32 y ->
  byte_at x 24 = byte_at y 24 -> byte_at x 16 = byte_at y 16 ->
  byte_at x 8 = byte_at y 8 -> byte_at x 0 = byte_at y 0 -> x = y.
Proof.
  intros Hx Hy E1 E2 E3 E4.
  by rewrite <- (pack4_byte_at x), <- (pack4_byte_at y), E1, E2, E3, E4.
Qed.

(** Exclusive or of words is exclusive or of their bytes. *)
Lemma pack4_lxor a b c d a' b' c' d' :
  is_u8 a -> is_u8 b -> is_u8 c -> is_u8 d ->
  is_u8 a' -> is_u8 b' -> is_u8 c' -> is_u8 d' ->
  pack4 a b c d .^ pack4 a' b' c' d' =
  pack4 (a .^ a') (b .^ b') (c .^ c') (d .^ d').
Proof.
  intros. destruct (byte_at_pack4 a b c d) as (?&?&?&?); [done..|].
  destruct (byte_at_pack4 a' b' c' d') as (?&?&?&?); [done..|].
  destruct (byte_at_pack4 (a .^ a') (b .^ b') (c .^ c') (d .^ d')) as (?&?&?&?);
    [auto with crange..|].
  apply pack4_inj; [auto with crange..| | | |]; rewrite byte_at_lxor; congruence.
Qed.

Lemma pack4_shifts a b c d :
  is_u8 a -> is_u8 b -> is_u8 c -> is_u8 d ->
  (a .<< 24) .^ (b .<< 16) .^ (c .<< 8) .^ d = pack4 a b c d.
Proof.
  intros. rewrite !Z.shiftl_mul_pow2 by lia.
  replace (a * 2 ^ 24) with (pack4 a 0 0 0) by (unfold pack4; lia).
  replace (b * 2 ^ 16) with (pack4 0 b 0 0) by (unfold pack4; lia).
  replace (c * 2 ^ 8) with (pack4 0 0 c 0) by (unfold pack4; lia).
  replace d with (pack4 0 0 0 d) at 1 by (unfold pack4; lia).
  assert (is_u8 0) by (unfold is_u8; lia).
  rewrite !pack4_lxor by auto with crange.
  by rewrite ?Z.lxor_0_l, ?Z.lxor_0_r.
Qed.

Lemma byte_at_lor x y s : byte_at (x .| y) s = byte_at x s .| byte_at y s.
Proof.
  unfold byte_at. rewrite Z.shiftr_lor. unfold u8. change 256 with (2 ^ 8).
  rewrite <- !Z.land_ones by lia. apply Z.bits_inj'. intros i Hi.
  rewrite Z.lor_spec, !Z.land_spec, Z.lor_spec. btauto.
Qed.

Lemma is_u8_lor x y : is_u8 x -> is_u8 y -> is_u8 (x .| y).
Proof. intros. apply (lor_bound 8); [lia|done..]. Qed.

Lemma is_u32_lor x y : is_u32 x -> is_u32 y -> is_u32 (x .| y).
Proof. intros. apply (lor_bound 32); [lia|done..]. Qed.
#[export] Hint Resolve is_u8_lor is_u32_lor : crange.

Lemma pack4_lor a b c d a' b' c' d' :
  is_u8 a -> is_u8 b -> is_u8 c -> is_u8 d ->
  is_u8 a' -> is_u8 b' -> is_u8 c' -> is_u8 d' ->
  pack4 a b c d .| pack4 a' b' c' d' =
  pack4 (a .| a') (b .| b') (c .| c') (d .| d').
Proof.
  intros. destruct (byte_at_pack4 a b c d) as (?&?&?&?); [done..|].
  destruct (byte_at_pack4 a' b' c' d') as (?&?&?&?); [done..|].
  destruct (byte_at_pack4 (a .| a') (b .| b') (c .| c') (d .| d')) as (?&?&?&?);
    [auto with crange..|].
  apply pack4_inj; [auto with crange..| | | |]; rewrite byte_at_lor; congruence.
Qed.

Lemma pack4_shifts_lor a b c d :
  is_u8 a -> is_u8 b -> is_u8 c -> is_u8 d ->
  (a .<< 24) .| (b .<< 16) .| (c .<< 8) .| d = pack4 a b c d.
Proof.
  intros. rewrite !Z.shiftl_mul_pow2 by lia.
  replace (a * 2 ^ 24) with (pack4 a 0 0 0) by (unfold pack4; lia).
  replace (b * 2 ^ 16) with (pack4 0 b 0 0) by (unfold pack4; lia).
  replace (c * 2 ^ 8) with (pack4 0 0 c 0) by (unfold pack4; lia).
  replace d with (pack4 0 0 0 d) at 1 by (unfold pack4; lia).
  assert (is_u8 0) by (unfold is_u8; lia).
  rewrite !pack4_lor by auto with crange.
  by rewrite ?Z.lor_0_l, ?Z.lor_0_r.
Qed.

(** ** Arrays

    A C array of integers is a list; [znth] is a read at an index that the
    code keeps in range (a [uint8] index into a table of 256 entries), [zset]
    a write.  [buf_get] and [buf_set] are the checked accesses used where the
    index is not bounded by its type. *)

Definition znth (l : list Z) (i : Z) : Z := nth (Z.to_nat i) l 0.
Definition zset (l : list Z) (i v : Z) : list Z := <[Z.to_nat i := v]> l.
Arguments znth : simpl never.
Arguments zset : simpl never.

(** [for_ i n f s] runs [f i], [f (i+1)], ..., [f (i+n-1)]: a counted loop. *)
Fixpoint for_ {S : Type} (i : Z) (n : nat) (f : Z -> S -> S) (s : S) : S :=
  match n with
  | O => s
  | Datatypes.S n' => for_ (i + 1) n' f (f i s)
  end.

(** All bytes, and the finite check of a boolean predicate over them. *)
Definition byte_range : list Z := map Z.of_nat (List.seq 0 256).

Lemma check_bytes (P : Z -> bool) :
  forallb P byte_range = true -> forall b, is_u8 b -> P b = true.
Proof.
  intros HP b Hb. rewrite forallb_forall in HP. apply HP.
  unfold byte_range. apply in_map_iff. exists (Z.to_nat b).
  unfold is_u8 in Hb. split; [lia|]. apply List.in_seq. lia.
Qed.

Lemma check_bytes_range (f : Z -> Z) :
  forallb (fun b => (0 <=? f b) && (f b <? 256)) byte_range = true ->
  forall b, is_u8 b -> is_u8 (f b).
Proof.
  intros HP b Hb. pose proof (check_bytes _ HP b Hb) as H. simpl in H.
  apply andb_prop in H as [? ?]. unfold is_u8. lia.
Qed.

Lemma check_bytes2 (P : Z -> Z -> bool) :
  forallb (fun a => forallb (P a) byte_range) byte_range = true ->
  forall a b, is_u8 a -> is_u8 b -> P a b = true.
Proof.
  intros HP a b Ha Hb.
  apply (check_bytes (P a)); [|done].
  apply (check_bytes (fun a => forallb (P a) byte_range)); done.
Qed.

(** Counted loops: unfolding at the end, and invariants. *)
Lemma for_succ {S : Type} (f : Z -> S -> S) i n s :
  for_ i (Datatypes.S n) f s = f (i + Z.of_nat n) (for_ i n f s).
Proof.
  revert i s. induction n as [|n IH]; intros i s.
  - simpl. f_equal. lia.
  - change (for_ i (Datatypes.S (Datatypes.S n)) f s)
      with (for_ (i + 1) (Datatypes.S n) f (f i s)).
    rewrite IH. simpl. f_equal. lia.
Qed.

Lemma for_inv {S : Type} (I : Z -> S -> Prop) (f : Z -> S -> S) i n s :
  I i s ->
  (forall j t, i <= j < i + Z.of_nat n -> I j t -> I (j + 1) (f j t)) ->
  I (i + Z.of_nat n) (for_ i n f s).
Proof.
  intros H0 Hs. induction n as [|n IH].
  - simpl. by replace (i + Z.of_nat 0) with i by lia.
  - rewrite for_succ. replace (i + Z.of_nat (Datatypes.S n)) with (i + Z.of_nat n + 1) by lia.
    apply Hs; [lia|]. apply IH. intros. apply Hs; [lia|done].
Qed.

(** Array reads over writes. *)
Lemma length_zset l i v : length (zset l i v) = length l.
Proof. apply length_insert. Qed.

Lemma znth_lookup l i : 0 <= i -> znth l i = default 0 (l !! Z.to_nat i).
Proof. intros. unfold znth. by rewrite nth_lookup. Qed.

Lemma znth_zset_eq l i v : 0 <= i < Z.of_nat (length l) -> znth (zset l i v) i = v.
Proof.
  intros. rewrite znth_lookup by lia. unfold zset.
  rewrite list_lookup_insert_eq by lia. done.
Qed.

Lemma znth_zset_ne l i j v : 0 <= i -> 0 <= j -> i <> j -> znth (zset l i v) j = znth l j.
Proof.
  intros. rewrite !znth_lookup by lia. unfold zset.
  rewrite list_lookup_insert_ne by lia. done.
Qed.

Lemma znth_app_l l l' i : 0 <= i < Z.of_nat (length l) -> znth (l ++ l') i = znth l i.
Proof. intros. unfold znth. apply app_nth1. lia. Qed.

Lemma znth_app_r l l' i :
  Z.of_nat (length l) <= i -> znth (l ++ l') i = znth l' (i - Z.of_nat (length l)).
Proof. intros. unfold znth. rewrite app_nth2 by lia. f_equal. lia. Qed.

Lemma znth_ext (l l' : list Z) :
  length l = length l' ->
  (forall i, 0 <= i < Z.of_nat (length l) -> znth l i = znth l' i) -> l = l'.
Proof.
  intros Hl H. apply nth_ext with (d := 0) (d' := 0); [done|].
  intros n Hn. specialize (H (Z.of_nat n) ltac:(lia)). unfold znth in H.
  by rewrite Nat2Z.id in H.
Qed.

Lemma znth_bytes l i : bytes l -> is_u8 (znth l i).
Proof.
  intros Hl. unfold znth. destruct (Nat.lt_ge_cases (Z.to_nat i) (length l)).
  - rewrite Forall_forall in Hl. apply Hl. apply list_elem_of_In. by apply nth_In.
  - rewrite nth_overflow by done. unfold is_u8. lia.
Qed.
#[export] Hint Resolve znth_bytes : crange.

(** ** Text: C strings as byte lists *)

Definition lit (s : String.string) : list Z :=
  map (fun a => Z.of_N (Ascii.N_of_ascii a)) (String.list_ascii_of_string s).
Arguments lit s%_string.

(** ** Outcomes of C code

    [Ret] is an execution that completes; [UB] one that reaches undefined
    behaviour, with its kind. *)

Inductive ub : Type :=
| OutOfBounds      (** access outside an object *)
| NullDeref        (** dereference of a null pointer *)
| DanglingPtr      (** access to a freed block *)
| Uninit           (** use of an indeterminate value *)
| Overflow         (** signed integer overflow *)
| DivByZero
| NoFuel.          (** not an error of the program: the bound of a loop model was
                       too small; a theorem with a [Ret] result excludes it *)

Inductive outcome (A : Type) : Type :=
| Ret (a : A)
| UB (u : ub).
Arguments Ret {A} a.
Arguments UB {A} u.

Definition obind {A B} (m : outcome A) (f : A -> outcome B) : outcome B :=
  match m with Ret a => f a | UB u => UB u end.

Notation "'do' x <- m ; k" := (obind m (fun x => k))
  (at level 10, x name, m at level 100, k at level 200) : c_scope.
Notation "'do' ' p <- m ; k" := (obind m (fun p => k))
  (at level 10, p pattern, m at level 100, k at level 200) : c_scope.

Definition defined {A} (m : outcome A) : Prop := exists a, m = Ret a.

Lemma obind_Ret {A B} (m : outcome A) (f : A -> outcome B) b :
  obind m f = Ret b <-> exists a, m = Ret a /\ f a = Ret b.
Proof.
  destruct m as [a|u]; simpl; split.
  - intros H. by exists a.
  - intros (? & [= <-] & ?). done.
  - done.
  - intros (? & ? & ?). done.
Qed.

Definition in_range (i n : Z) : bool := (0 <=? i) && (i <? n).

Definition zlen {A} (l : list A) : Z := Z.of_nat (length l).

Definition buf_get (l : list Z) (i : Z) : outcome Z :=
  if in_range i (zlen l) then Ret (znth l i) else UB OutOfBounds.

Definition buf_set (l : list Z) (i v : Z) : outcome (list Z) :=
  if in_range i (zlen l) then Ret (zset l i v) else UB OutOfBounds.

(** ** C strings in memory

    A pointer into a string is modelled by the bytes from that address to the
    end of its object.  [cstr] is the string it denotes (the bytes before the
    first NUL), [strlen] its length; scanning past the object is undefined. *)

Fixpoint cstr (s : list Z) : outcome (list Z) :=
  match s with
  | [] => UB OutOfBounds
  | c :: s' => if c =? 0 then Ret [] else do r <- cstr s'; Ret (c :: r)
  end.

Definition strlen (s : list Z) : outcome Z := do r <- cstr s; Ret (zlen r).

Definition deref (s : list Z) : outcome Z :=
  match s with [] => UB OutOfBounds | c :: _ => Ret c end.

(** Bytes without NUL. *)
Definition nonul (s : list Z) : Prop := Forall (fun c => c <> 0) s.

Lemma cstr_nul s r : nonul s -> cstr (s ++ 0 :: r) = Ret s.
Proof.
  induction 1 as [|c s Hc _ IH]; simpl; [done|].
  destruct (Z.eqb_spec c 0); [done|]. by rewrite IH.
Qed.

Lemma strlen_nul s r : nonul s -> strlen (s ++ 0 :: r) = Ret (zlen s).
Proof. intros. unfold strlen. by rewrite cstr_nul. Qed.

(** Overwriting a segment of a buffer: [memcpy], [strcpy] and loops that
    store consecutive bytes.  The destination range must lie in the object. *)
Definition splice {A} (buf : list A) (o : Z) (src : list A) : list A :=
  take (Z.to_nat o) buf ++ src ++ drop (Z.to_nat o + length src) buf.

Definition buf_write {A} (buf : list A) (o : Z) (src : list A) : outcome (list A) :=
  if (0 <=? o) && (o + zlen src <=? zlen buf) then Ret (splice buf o src) else UB OutOfBounds.

Lemma length_splice {A} (buf : list A) (o : Z) (src : list A) :
  0 <= o -> o + zlen src <= zlen buf -> length (splice buf o src) = length buf.
Proof.
  unfold zlen, splice. intros. rewrite !length_app, length_take, length_drop. lia.
Qed.

Lemma buf_set_write buf o v : buf_set buf o v = buf_write buf o [v].
Proof.
  unfold buf_set, buf_write, in_range, zlen. simpl length.
  destruct (Z.leb_spec 0 o), (Z.ltb_spec o (Z.of_nat (length buf))),
    (Z.leb_spec (o + Z.of_nat 1) (Z.of_nat (length buf))); simpl; try lia; try done.
  unfold zset, splice. f_equal. rewrite insert_take_drop by lia. simpl length.
  by replace (Z.to_nat o + 1)%nat with (S (Z.to_nat o)) by lia.
Qed.

Lemma buf_write_app {A} (buf : list A) (o : Z) (s1 : list A) (s2 : list A) :
  (do b <- buf_write buf o s1; buf_write b (o + zlen s1) s2) = buf_write buf o (s1 ++ s2).
Proof.
  unfold buf_write, zlen. rewrite length_app.
  destruct (Z.leb_spec 0 o); simpl; [|done].
  destruct (Z.leb_spec (o + Z.of_nat (length s1)) (Z.of_nat (length buf))); simpl.
  2:{ destruct (Z.leb_spec (o + Z.of_nat (length s1 + length s2)) (Z.of_nat (length buf))); [lia|done]. }
  rewrite length_splice by (unfold zlen; lia).
  replace (0 <=? o + Z.of_nat (length s1)) with true by lia. simpl.
  replace (o + Z.of_nat (length s1) + Z.of_nat (length s2))
    with (o + Z.of_nat (length s1 + length s2)) by lia.
  destruct (Z.leb_spec (o + Z.of_nat (length s1 + length s2)) (Z.of_nat (length buf))); [|done].
  f_equal. unfold splice.
  replace (Z.to_nat (o + Z.of_nat (length s1))) with (Z.to_nat o + length s1)%nat by lia.
  assert (Ht : length (take (Z.to_nat o) buf) = Z.to_nat o) by (rewrite length_take; lia).
  rewrite !app_assoc, length_app.
  f_equal.
  - rewrite <- !app_assoc. rewrite app_assoc, take_app_length'.
    + by rewrite app_assoc.
    + rewrite length_app. lia.
  - rewrite <- app_assoc, app_assoc.
    rewrite drop_app, drop_ge by (rewrite length_app; lia).
    rewrite drop_drop, length_app. simpl. f_equal. lia.
Qed.

Lemma buf_write_ok {A} (buf : list A) (o : Z) (src : list A) :
  0 <= o -> o + zlen src <= zlen buf -> buf_write buf o src = Ret (splice buf o src).
Proof.
  intros. unfold buf_write. rewrite (proj2 (Z.leb_le 0 o)), (proj2 (Z.leb_le (o + _) _)) by lia.
  done.
Qed.

Lemma zlen_splice {A} (buf : list A) (o : Z) (src : list A) :
  0 <= o -> o + zlen src <= zlen buf -> zlen (splice buf o src) = zlen buf.
Proof. intros. unfold zlen. by rewrite length_splice. Qed.

Lemma zlen_app {A} (l l' : list A) : zlen (l ++ l') = zlen l + zlen l'.
Proof. unfold zlen. rewrite length_app. lia. Qed.

Lemma zlen_cons {A} (x : A) l : zlen (x :: l) = 1 + zlen l.
Proof. unfold zlen. simpl. lia. Qed.

Lemma zlen_nil {A} : zlen (@nil A) = 0.
Proof. reflexivity. Qed.

Lemma zlen_nonneg {A} (l : list A) : 0 <= zlen l.
Proof. unfold zlen. lia. Qed.

Lemma splice_app {A} (buf : list A) (o : Z) (s1 : list A) (s2 : list A) :
  0 <= o -> o + zlen s1 + zlen s2 <= zlen buf ->
  splice (splice buf o s1) (o + zlen s1) s2 = splice buf o (s1 ++ s2).
Proof.
  intros Ho Hb. pose proof (buf_write_app buf o s1 s2) as H.
  pose proof (zlen_nonneg s1). pose proof (zlen_nonneg s2).
  rewrite !buf_write_ok in H by (rewrite ?zlen_app; lia). simpl in H.
  rewrite buf_write_ok in H by (rewrite ?zlen_splice by lia; lia). by injection H.
Qed.

Lemma splice_nil {A} (buf : list A) (o : Z) : 0 <= o <= zlen buf -> splice buf o [] = buf.
Proof. unfold zlen, splice. intros. simpl. rewrite Nat.add_0_r. apply take_drop. Qed.

Lemma splice_0 {A} (buf : list A) (src : list A) : splice buf 0 src = src ++ drop (length src) buf.
Proof. reflexivity. Qed.

(** [buf_set] as a one-byte [splice]. *)
Lemma buf_set_ok buf o v :
  0 <= o < zlen buf -> buf_set buf o v = Ret (splice buf o [v]).
Proof. intros. rewrite buf_set_write. apply buf_write_ok; rewrite ?zlen_cons, ?zlen_nil; lia. Qed.

Lemma zlen_drop {A} n (l : list A) : zlen (drop n l) = Z.max 0 (zlen l - Z.of_nat n).
Proof. unfold zlen. rewrite length_drop. lia. Qed.

Lemma zlen_take {A} n (l : list A) : zlen (take n l) = Z.min (Z.of_nat n) (zlen l).
Proof. unfold zlen. rewrite length_take. lia. Qed.

Lemma zlen_repeat {A} (x : A) n : zlen (repeat x n) = Z.of_nat n.
Proof. unfold zlen. by rewrite repeat_length. Qed.

Lemma zlen_map {A B} (f : A -> B) l : zlen (map f l) = zlen l.
Proof. unfold zlen. by rewrite length_map. Qed.

(** Writes length arithmetic in terms of [zlen]. *)
#[export] Hint Rewrite @zlen_app @zlen_cons @zlen_nil @zlen_drop @zlen_take @zlen_repeat @zlen_map
  : zlen.
Ltac zlens := autorewrite with zlen in *.

(** Reading and writing behind a prefix. *)
Lemma buf_get_mid pre cur rest : buf_get (pre ++ cur :: rest) (zlen pre) = Ret cur.
Proof.
  unfold buf_get, in_range. zlens. pose proof (zlen_nonneg pre). pose proof (zlen_nonneg rest).
  rewrite (proj2 (Z.leb_le _ _)), (proj2 (Z.ltb_lt _ _)) by lia. simpl.
  f_equal. unfold znth, zlen. rewrite Nat2Z.id. apply nth_middle.
Qed.

Lemma buf_set_mid pre cur rest v :
  buf_set (pre ++ cur :: rest) (zlen pre) v = Ret (pre ++ v :: rest).
Proof.
  unfold buf_set, in_range. zlens. pose proof (zlen_nonneg pre). pose proof (zlen_nonneg rest).
  rewrite (proj2 (Z.leb_le _ _)), (proj2 (Z.ltb_lt _ _)) by lia. simpl.
  f_equal. unfold zset, zlen. rewrite Nat2Z.id.
  by rewrite <- (Nat.add_0_r (length pre)), insert_app_r.
Qed.

(** Writing several bytes behind a prefix. *)
Lemma buf_write_at (pre z src : list Z) :
  zlen src <= zlen z -> buf_write (pre ++ z) (zlen pre) src = Ret (pre ++ src ++ drop (length src) z).
Proof.
  intros Hs. pose proof (zlen_nonneg pre). pose proof (zlen_nonneg src).
  rewrite buf_write_ok by (rewrite ?zlen_app; lia). f_equal. unfold splice, zlen.
  by rewrite Nat2Z.id, take_app_length, <- drop_drop, drop_app_length.
Qed.

Lemma take_split {A} (d : list A) k len : 0 <= k <= len ->
  take (Z.to_nat len) d = take (Z.to_nat k) d ++ take (Z.to_nat (len - k)) (drop (Z.to_nat k) d).
Proof.
  intros Hk. rewrite <- (take_drop (Z.to_nat k) (take _ d)) at 1.
  rewrite take_take, skipn_firstn_comm. f_equal; f_equal; lia.
Qed.

Lemma bytes_zeros n : bytes (repeat 0 n).
Proof. induction n; constructor; done. Qed.

Lemma buf_get_ok l i : 0 <= i < zlen l -> buf_get l i = Ret (znth l i).
Proof.
  intros. unfold buf_get, in_range.
  by rewrite (proj2 (Z.leb_le _ _)), (proj2 (Z.ltb_lt _ _)) by lia.
Qed.

Lemma buf_set_head c l v : buf_set (c :: l) 0 v = Ret (v :: l).
Proof. exact (buf_set_mid [] c l v). Qed.
