(* ===== verification/AesTables.v ===== *)
(** * The AES tables of raop_play/aes.c

    The file exists in two configurations.  Without [FIXED_TABLES] (the one
    that is built) the tables are computed by [aes_gen_tables] at the first
    [aes_set_key]; with it they are constants.  Both are modelled: the
    generated tables in [aes_gen_tables], the constants in the module
    [Fixed]. *)

From S2P Require Import Prelude.

(** The global arrays of the file. *)
Record tables : Type := mkTables {
  FSb : list Z;
  FT0 : list Z; FT1 : list Z; FT2 : list Z; FT3 : list Z;
  RSb : list Z;
  RT0 : list Z; RT1 : list Z; RT2 : list Z; RT3 : list Z;
  RCON : list Z
}.

(** Globals without initialiser are zero at program start. *)
Definition zeros (n : nat) : list Z := repeat 0 n.

Definition tables_at_start : tables :=
  mkTables (zeros 256) (zeros 256) (zeros 256) (zeros 256) (zeros 256)
    (zeros 256) (zeros 256) (zeros 256) (zeros 256) (zeros 256) (zeros 10).

(** ** Table generation *)

Definition ROTR8 (x : Z) : Z :=
  ((x .<< 24) .& 0xFFFFFFFF) .| ((x .& 0xFFFFFFFF) .>> 8).

Definition XTIME (x : Z) : Z :=
  (x .<< 1) .^ (if x .& 0x80 =? 0 then 0x00 else 0x1B).

Definition MUL (pow log : list Z) (x y : Z) : Z :=
  if negb (x =? 0) && negb (y =? 0)
  then znth pow ((znth log x + znth log y) mod 255)
  else 0.

(** [y = ( y << 1 ) | ( y >> 7 )] on a [uint8]. *)
Definition rotl1 (y : Z) : Z := u8 ((y .<< 1) .| (y .>> 7)).

(** First loop: powers and logarithms of the generator 3.  The local arrays
    start indeterminate; entry 0 of the logarithm table is never written and
    never read. *)
Definition gen_pow_log : list Z * list Z :=
  let '(pow, log, _) :=
    for_ 0 256 (fun i '(pow, log, x) =>
      (zset pow i x, zset log x i, u8 (x .^ XTIME x)))
    (zeros 256, zeros 256, 1) in
  (pow, log).

(** Second loop: the round constants. *)
Definition gen_rcon (rcon : list Z) : list Z :=
  fst (for_ 0 10 (fun i '(rc, x) => (zset rc i (u32 (x .<< 24)), u8 (XTIME x)))
         (rcon, 1)).

(** Body of the third loop: the S-box entry of a non-zero byte. *)
Definition sbox_entry (pow log : list Z) (i : Z) : Z :=
  let x := znth pow (255 - znth log i) in
  let y := rotl1 x in
  let x := x .^ y in let y := rotl1 y in
  let x := x .^ y in let y := rotl1 y in
  let x := x .^ y in let y := rotl1 y in
  x .^ (y .^ 0x63).

Definition gen_sboxes (pow log : list Z) (fsb rsb : list Z) : list Z * list Z :=
  for_ 1 255 (fun i '(f, r) =>
      let x := sbox_entry pow log i in (zset f i x, zset r x i))
    (zset fsb 0x00 0x63, zset rsb 0x63 0x00).

(** Body of the fourth loop: entry [i] of FT0 and of RT0. *)
Definition ft0_entry (fsb : list Z) (i : Z) : Z :=
  let x := znth fsb i in
  let y := u8 (XTIME x) in
  ((x .^ y) .^ (x .<< 8) .^ (x .<< 16) .^ (y .<< 24)) .& 0xFFFFFFFF.

Definition rt0_entry (pow log rsb : list Z) (i : Z) : Z :=
  let y := znth rsb i in
  (MUL pow log 0x0B y .^ (MUL pow log 0x0D y .<< 8) .^
   (MUL pow log 0x09 y .<< 16) .^ (MUL pow log 0x0E y .<< 24)) .& 0xFFFFFFFF.

Definition gen_round_tables (pow log : list Z) (t : tables) : tables :=
  for_ 0 256 (fun i t =>
      let f := ft0_entry (FSb t) i in
      let r := rt0_entry pow log (RSb t) i in
      mkTables (FSb t)
        (zset (FT0 t) i f) (zset (FT1 t) i (ROTR8 f))
        (zset (FT2 t) i (ROTR8 (ROTR8 f))) (zset (FT3 t) i (ROTR8 (ROTR8 (ROTR8 f))))
        (RSb t)
        (zset (RT0 t) i r) (zset (RT1 t) i (ROTR8 r))
        (zset (RT2 t) i (ROTR8 (ROTR8 r))) (zset (RT3 t) i (ROTR8 (ROTR8 (ROTR8 r))))
        (RCON t)) t.

Definition aes_gen_tables (t : tables) : tables :=
  let '(pow, log) := gen_pow_log in
  let rcon := gen_rcon (RCON t) in
  let '(fsb, rsb) := gen_sboxes pow log (FSb t) (RSb t) in
  gen_round_tables pow log
    (mkTables fsb (FT0 t) (FT1 t) (FT2 t) (FT3 t)
              rsb (RT0 t) (RT1 t) (RT2 t) (RT3 t) rcon).

(** ** The constants of the [FIXED_TABLES] configuration *)

Module Fixed.

Definition FSb : list Z :=
  [0x63; 0x7C; 0x77; 0x7B; 0xF2; 0x6B; 0x6F; 0xC5;
   0x30; 0x01; 0x67; 0x2B; 0xFE; 0xD7; 0xAB; 0x76;
   0xCA; 0x82; 0xC9; 0x7D; 0xFA; 0x59; 0x47; 0xF0;
   0xAD; 0xD4; 0xA2; 0xAF; 0x9C; 0xA4; 0x72; 0xC0;
   0xB7; 0xFD; 0x93; 0x26; 0x36; 0x3F; 0xF7; 0xCC;
   0x34; 0xA5; 0xE5; 0xF1; 0x71; 0xD8; 0x31; 0x15;
   0x04; 0xC7; 0x23; 0xC3; 0x18; 0x96; 0x05; 0x9A;
   0x07; 0x12; 0x80; 0xE2; 0xEB; 0x27; 0xB2; 0x75;
   0x09; 0x83; 0x2C; 0x1A; 0x1B; 0x6E; 0x5A; 0xA0;
   0x52; 0x3B; 0xD6; 0xB3; 0x29; 0xE3; 0x2F; 0x84;
   0x53; 0xD1; 0x00; 0xED; 0x20; 0xFC; 0xB1; 0x5B;
   0x6A; 0xCB; 0xBE; 0x39; 0x4A; 0x4C; 0x58; 0xCF;
   0xD0; 0xEF; 0xAA; 0xFB; 0x43; 0x4D; 0x33; 0x85;
   0x45; 0xF9; 0x02; 0x7F; 0x50; 0x3C; 0x9F; 0xA8;
   0x51; 0xA3; 0x40; 0x8F; 0x92; 0x9D; 0x38; 0xF5;
   0xBC; 0xB6; 0xDA; 0x21; 0x10; 0xFF; 0xF3; 0xD2;
   0xCD; 0x0C; 0x13; 0xEC; 0x5F; 0x97; 0x44; 0x17;
   0xC4; 0xA7; 0x7E; 0x3D; 0x64; 0x5D; 0x19; 0x73;
   0x60; 0x81; 0x4F; 0xDC; 0x22; 0x2A; 0x90; 0x88;
   0x46; 0xEE; 0xB8; 0x14; 0xDE; 0x5E; 0x0B; 0xDB;
   0xE0; 0x32; 0x3A; 0x0A; 0x49; 0x06; 0x24; 0x5C;
   0xC2; 0xD3; 0xAC; 0x62; 0x91; 0x95; 0xE4; 0x79;
   0xE7; 0xC8; 0x37; 0x6D; 0x8D; 0xD5; 0x4E; 0xA9;
   0x6C; 0x56; 0xF4; 0xEA; 0x65; 0x7A; 0xAE; 0x08;
   0xBA; 0x78; 0x25; 0x2E; 0x1C; 0xA6; 0xB4; 0xC6;
   0xE8; 0xDD; 0x74; 0x1F; 0x4B; 0xBD; 0x8B; 0x8A;
   0x70; 0x3E; 0xB5; 0x66; 0x48; 0x03; 0xF6; 0x0E;
   0x61; 0x35; 0x57; 0xB9; 0x86; 0xC1; 0x1D; 0x9E;
   0xE1; 0xF8; 0x98; 0x11; 0x69; 0xD9; 0x8E; 0x94;
   0x9B; 0x1E; 0x87; 0xE9; 0xCE; 0x55; 0x28; 0xDF;
   0x8C; 0xA1; 0x89; 0x0D; 0xBF; 0xE6; 0x42; 0x68;
   0x41; 0x99; 0x2D; 0x0F; 0xB0; 0x54; 0xBB; 0x16].

(** The list macro [FT]: one quadruple [(a, b, c, d)] per [V(a,b,c,d)]. *)
Definition FT : list (Z * Z * Z * Z) :=
  [(0xC6,0x63,0x63,0xA5); (0xF8,0x7C,0x7C,0x84); (0xEE,0x77,0x77,0x99); (0xF6,0x7B,0x7B,0x8D);
   (0xFF,0xF2,0xF2,0x0D); (0xD6,0x6B,0x6B,0xBD); (0xDE,0x6F,0x6F,0xB1); (0x91,0xC5,0xC5,0x54);
   (0x60,0x30,0x30,0x50); (0x02,0x01,0x01,0x03); (0xCE,0x67,0x67,0xA9); (0x56,0x2B,0x2B,0x7D);
   (0xE7,0xFE,0xFE,0x19); (0xB5,0xD7,0xD7,0x62); (0x4D,0xAB,0xAB,0xE6); (0xEC,0x76,0x76,0x9A);
   (0x8F,0xCA,0xCA,0x45); (0x1F,0x82,0x82,0x9D); (0x89,0xC9,0xC9,0x40); (0xFA,0x7D,0x7D,0x87);
   (0xEF,0xFA,0xFA,0x15); (0xB2,0x59,0x59,0xEB); (0x8E,0x47,0x47,0xC9); (0xFB,0xF0,0xF0,0x0B);
   (0x41,0xAD,0xAD,0xEC); (0xB3,0xD4,0xD4,0x67); (0x5F,0xA2,0xA2,0xFD); (0x45,0xAF,0xAF,0xEA);
   (0x23,0x9C,0x9C,0xBF); (0x53,0xA4,0xA4,0xF7); (0xE4,0x72,0x72,0x96); (0x9B,0xC0,0xC0,0x5B);
   (0x75,0xB7,0xB7,0xC2); (0xE1,0xFD,0xFD,0x1C); (0x3D,0x93,0x93,0xAE); (0x4C,0x26,0x26,0x6A);
   (0x6C,0x36,0x36,0x5A); (0x7E,0x3F,0x3F,0x41); (0xF5,0xF7,0xF7,0x02); (0x83,0xCC,0xCC,0x4F);
   (0x68,0x34,0x34,0x5C); (0x51,0xA5,0xA5,0xF4); (0xD1,0xE5,0xE5,0x34); (0xF9,0xF1,0xF1,0x08);
   (0xE2,0x71,0x71,0x93); (0xAB,0xD8,0xD8,0x73); (0x62,0x31,0x31,0x53); (0x2A,0x15,0x15,0x3F);
   (0x08,0x04,0x04,0x0C); (0x95,0xC7,0xC7,0x52); (0x46,0x23,0x23,0x65); (0x9D,0xC3,0xC3,0x5E);
   (0x30,0x18,0x18,0x28); (0x37,0x96,0x96,0xA1); (0x0A,0x05,0x05,0x0F); (0x2F,0x9A,0x9A,0xB5);
   (0x0E,0x07,0x07,0x09); (0x24,0x12,0x12,0x36); (0x1B,0x80,0x80,0x9B); (0xDF,0xE2,0xE2,0x3D);
   (0xCD,0xEB,0xEB,0x26); (0x4E,0x27,0x27,0x69); (0x7F,0xB2,0xB2,0xCD); (0xEA,0x75,0x75,0x9F);
   (0x12,0x09,0x09,0x1B); (0x1D,0x83,0x83,0x9E); (0x58,0x2C,0x2C,0x74); (0x34,0x1A,0x1A,0x2E);
   (0x36,0x1B,0x1B,0x2D); (0xDC,0x6E,0x6E,0xB2); (0xB4,0x5A,0x5A,0xEE); (0x5B,0xA0,0xA0,0xFB);
   (0xA4,0x52,0x52,0xF6); (0x76,0x3B,0x3B,0x4D); (0xB7,0xD6,0xD6,0x61); (0x7D,0xB3,0xB3,0xCE);
   (0x52,0x29,0x29,0x7B); (0xDD,0xE3,0xE3,0x3E); (0x5E,0x2F,0x2F,0x71); (0x13,0x84,0x84,0x97);
   (0xA6,0x53,0x53,0xF5); (0xB9,0xD1,0xD1,0x68); (0x00,0x00,0x00,0x00); (0xC1,0xED,0xED,0x2C);
   (0x40,0x20,0x20,0x60); (0xE3,0xFC,0xFC,0x1F); (0x79,0xB1,0xB1,0xC8); (0xB6,0x5B,0x5B,0xED);
   (0xD4,0x6A,0x6A,0xBE); (0x8D,0xCB,0xCB,0x46); (0x67,0xBE,0xBE,0xD9); (0x72,0x39,0x39,0x4B);
   (0x94,0x4A,0x4A,0xDE); (0x98,0x4C,0x4C,0xD4); (0xB0,0x58,0x58,0xE8); (0x85,0xCF,0xCF,0x4A);
   (0xBB,0xD0,0xD0,0x6B); (0xC5,0xEF,0xEF,0x2A); (0x4F,0xAA,0xAA,0xE5); (0xED,0xFB,0xFB,0x16);
   (0x86,0x43,0x43,0xC5); (0x9A,0x4D,0x4D,0xD7); (0x66,0x33,0x33,0x55); (0x11,0x85,0x85,0x94);
   (0x8A,0x45,0x45,0xCF); (0xE9,0xF9,0xF9,0x10); (0x04,0x02,0x02,0x06); (0xFE,0x7F,0x7F,0x81);
   (0xA0,0x50,0x50,0xF0); (0x78,0x3C,0x3C,0x44); (0x25,0x9F,0x9F,0xBA); (0x4B,0xA8,0xA8,0xE3);
   (0xA2,0x51,0x51,0xF3); (0x5D,0xA3,0xA3,0xFE); (0x80,0x40,0x40,0xC0); (0x05,0x8F,0x8F,0x8A);
   (0x3F,0x92,0x92,0xAD); (0x21,0x9D,0x9D,0xBC); (0x70,0x38,0x38,0x48); (0xF1,0xF5,0xF5,0x04);
   (0x63,0xBC,0xBC,0xDF); (0x77,0xB6,0xB6,0xC1); (0xAF,0xDA,0xDA,0x75); (0x42,0x21,0x21,0x63);
   (0x20,0x10,0x10,0x30); (0xE5,0xFF,0xFF,0x1A); (0xFD,0xF3,0xF3,0x0E); (0xBF,0xD2,0xD2,0x6D);
   (0x81,0xCD,0xCD,0x4C); (0x18,0x0C,0x0C,0x14); (0x26,0x13,0x13,0x35); (0xC3,0xEC,0xEC,0x2F);
   (0xBE,0x5F,0x5F,0xE1); (0x35,0x97,0x97,0xA2); (0x88,0x44,0x44,0xCC); (0x2E,0x17,0x17,0x39);
   (0x93,0xC4,0xC4,0x57); (0x55,0xA7,0xA7,0xF2); (0xFC,0x7E,0x7E,0x82); (0x7A,0x3D,0x3D,0x47);
   (0xC8,0x64,0x64,0xAC); (0xBA,0x5D,0x5D,0xE7); (0x32,0x19,0x19,0x2B); (0xE6,0x73,0x73,0x95);
   (0xC0,0x60,0x60,0xA0); (0x19,0x81,0x81,0x98); (0x9E,0x4F,0x4F,0xD1); (0xA3,0xDC,0xDC,0x7F);
   (0x44,0x22,0x22,0x66); (0x54,0x2A,0x2A,0x7E); (0x3B,0x90,0x90,0xAB); (0x0B,0x88,0x88,0x83);
   (0x8C,0x46,0x46,0xCA); (0xC7,0xEE,0xEE,0x29); (0x6B,0xB8,0xB8,0xD3); (0x28,0x14,0x14,0x3C);
   (0xA7,0xDE,0xDE,0x79); (0xBC,0x5E,0x5E,0xE2); (0x16,0x0B,0x0B,0x1D); (0xAD,0xDB,0xDB,0x76);
   (0xDB,0xE0,0xE0,0x3B); (0x64,0x32,0x32,0x56); (0x74,0x3A,0x3A,0x4E); (0x14,0x0A,0x0A,0x1E);
   (0x92,0x49,0x49,0xDB); (0x0C,0x06,0x06,0x0A); (0x48,0x24,0x24,0x6C); (0xB8,0x5C,0x5C,0xE4);
   (0x9F,0xC2,0xC2,0x5D); (0xBD,0xD3,0xD3,0x6E); (0x43,0xAC,0xAC,0xEF); (0xC4,0x62,0x62,0xA6);
   (0x39,0x91,0x91,0xA8); (0x31,0x95,0x95,0xA4); (0xD3,0xE4,0xE4,0x37); (0xF2,0x79,0x79,0x8B);
   (0xD5,0xE7,0xE7,0x32); (0x8B,0xC8,0xC8,0x43); (0x6E,0x37,0x37,0x59); (0xDA,0x6D,0x6D,0xB7);
   (0x01,0x8D,0x8D,0x8C); (0xB1,0xD5,0xD5,0x64); (0x9C,0x4E,0x4E,0xD2); (0x49,0xA9,0xA9,0xE0);
   (0xD8,0x6C,0x6C,0xB4); (0xAC,0x56,0x56,0xFA); (0xF3,0xF4,0xF4,0x07); (0xCF,0xEA,0xEA,0x25);
   (0xCA,0x65,0x65,0xAF); (0xF4,0x7A,0x7A,0x8E); (0x47,0xAE,0xAE,0xE9); (0x10,0x08,0x08,0x18);
   (0x6F,0xBA,0xBA,0xD5); (0xF0,0x78,0x78,0x88); (0x4A,0x25,0x25,0x6F); (0x5C,0x2E,0x2E,0x72);
   (0x38,0x1C,0x1C,0x24); (0x57,0xA6,0xA6,0xF1); (0x73,0xB4,0xB4,0xC7); (0x97,0xC6,0xC6,0x51);
   (0xCB,0xE8,0xE8,0x23); (0xA1,0xDD,0xDD,0x7C); (0xE8,0x74,0x74,0x9C); (0x3E,0x1F,0x1F,0x21);
   (0x96,0x4B,0x4B,0xDD); (0x61,0xBD,0xBD,0xDC); (0x0D,0x8B,0x8B,0x86); (0x0F,0x8A,0x8A,0x85);
   (0xE0,0x70,0x70,0x90); (0x7C,0x3E,0x3E,0x42); (0x71,0xB5,0xB5,0xC4); (0xCC,0x66,0x66,0xAA);
   (0x90,0x48,0x48,0xD8); (0x06,0x03,0x03,0x05); (0xF7,0xF6,0xF6,0x01); (0x1C,0x0E,0x0E,0x12);
   (0xC2,0x61,0x61,0xA3); (0x6A,0x35,0x35,0x5F); (0xAE,0x57,0x57,0xF9); (0x69,0xB9,0xB9,0xD0);
   (0x17,0x86,0x86,0x91); (0x99,0xC1,0xC1,0x58); (0x3A,0x1D,0x1D,0x27); (0x27,0x9E,0x9E,0xB9);
   (0xD9,0xE1,0xE1,0x38); (0xEB,0xF8,0xF8,0x13); (0x2B,0x98,0x98,0xB3); (0x22,0x11,0x11,0x33);
   (0xD2,0x69,0x69,0xBB); (0xA9,0xD9,0xD9,0x70); (0x07,0x8E,0x8E,0x89); (0x33,0x94,0x94,0xA7);
   (0x2D,0x9B,0x9B,0xB6); (0x3C,0x1E,0x1E,0x22); (0x15,0x87,0x87,0x92); (0xC9,0xE9,0xE9,0x20);
   (0x87,0xCE,0xCE,0x49); (0xAA,0x55,0x55,0xFF); (0x50,0x28,0x28,0x78); (0xA5,0xDF,0xDF,0x7A);
   (0x03,0x8C,0x8C,0x8F); (0x59,0xA1,0xA1,0xF8); (0x09,0x89,0x89,0x80); (0x1A,0x0D,0x0D,0x17);
   (0x65,0xBF,0xBF,0xDA); (0xD7,0xE6,0xE6,0x31); (0x84,0x42,0x42,0xC6); (0xD0,0x68,0x68,0xB8);
   (0x82,0x41,0x41,0xC3); (0x29,0x99,0x99,0xB0); (0x5A,0x2D,0x2D,0x77); (0x1E,0x0F,0x0F,0x11);
   (0x7B,0xB0,0xB0,0xCB); (0xA8,0x54,0x54,0xFC); (0x6D,0xBB,0xBB,0xD6); (0x2C,0x16,0x16,0x3A)].

(** The four definitions of the macro [V]: the digits pasted in the order
    abcd, dabc, cdab and bcda. *)
Definition V0 '((a, b, c, d) : Z * Z * Z * Z) : Z := pack4 a b c d.
Definition V1 '((a, b, c, d) : Z * Z * Z * Z) : Z := pack4 d a b c.
Definition V2 '((a, b, c, d) : Z * Z * Z * Z) : Z := pack4 c d a b.
Definition V3 '((a, b, c, d) : Z * Z * Z * Z) : Z := pack4 b c d a.

Definition RSb : list Z :=
  [0x52; 0x09; 0x6A; 0xD5; 0x30; 0x36; 0xA5; 0x38;
   0xBF; 0x40; 0xA3; 0x9E; 0x81; 0xF3; 0xD7; 0xFB;
   0x7C; 0xE3; 0x39; 0x82; 0x9B; 0x2F; 0xFF; 0x87;
   0x34; 0x8E; 0x43; 0x44; 0xC4; 0xDE; 0xE9; 0xCB;
   0x54; 0x7B; 0x94; 0x32; 0xA6; 0xC2; 0x23; 0x3D;
   0xEE; 0x4C; 0x95; 0x0B; 0x42; 0xFA; 0xC3; 0x4E;
   0x08; 0x2E; 0xA1; 0x66; 0x28; 0xD9; 0x24; 0xB2;
   0x76; 0x5B; 0xA2; 0x49; 0x6D; 0x8B; 0xD1; 0x25;
   0x72; 0xF8; 0xF6; 0x64; 0x86; 0x68; 0x98; 0x16;
   0xD4; 0xA4; 0x5C; 0xCC; 0x5D; 0x65; 0xB6; 0x92;
   0x6C; 0x70; 0x48; 0x50; 0xFD; 0xED; 0xB9; 0xDA;
   0x5E; 0x15; 0x46; 0x57; 0xA7; 0x8D; 0x9D; 0x84;
   0x90; 0xD8; 0xAB; 0x00; 0x8C; 0xBC; 0xD3; 0x0A;
   0xF7; 0xE4; 0x58; 0x05; 0xB8; 0xB3; 0x45; 0x06;
   0xD0; 0x2C; 0x1E; 0x8F; 0xCA; 0x3F; 0x0F; 0x02;
   0xC1; 0xAF; 0xBD; 0x03; 0x01; 0x13; 0x8A; 0x6B;
   0x3A; 0x91; 0x11; 0x41; 0x4F; 0x67; 0xDC; 0xEA;
   0x97; 0xF2; 0xCF; 0xCE; 0xF0; 0xB4; 0xE6; 0x73;
   0x96; 0xAC; 0x74; 0x22; 0xE7; 0xAD; 0x35; 0x85;
   0xE2; 0xF9; 0x37; 0xE8; 0x1C; 0x75; 0xDF; 0x6E;
   0x47; 0xF1; 0x1A; 0x71; 0x1D; 0x29; 0xC5; 0x89;
   0x6F; 0xB7; 0x62; 0x0E; 0xAA; 0x18; 0xBE; 0x1B;
   0xFC; 0x56; 0x3E; 0x4B; 0xC6; 0xD2; 0x79; 0x20;
   0x9A; 0xDB; 0xC0; 0xFE; 0x78; 0xCD; 0x5A; 0xF4;
   0x1F; 0xDD; 0xA8; 0x33; 0x88; 0x07; 0xC7; 0x31;
   0xB1; 0x12; 0x10; 0x59; 0x27; 0x80; 0xEC; 0x5F;
   0x60; 0x51; 0x7F; 0xA9; 0x19; 0xB5; 0x4A; 0x0D;
   0x2D; 0xE5; 0x7A; 0x9F; 0x93; 0xC9; 0x9C; 0xEF;
   0xA0; 0xE0; 0x3B; 0x4D; 0xAE; 0x2A; 0xF5; 0xB0;
   0xC8; 0xEB; 0xBB; 0x3C; 0x83; 0x53; 0x99; 0x61;
   0x17; 0x2B; 0x04; 0x7E; 0xBA; 0x77; 0xD6; 0x26;
   0xE1; 0x69; 0x14; 0x63; 0x55; 0x21; 0x0C; 0x7D].

Definition RT : list (Z * Z * Z * Z) :=
  [(0x51,0xF4,0xA7,0x50); (0x7E,0x41,0x65,0x53); (0x1A,0x17,0xA4,0xC3); (0x3A,0x27,0x5E,0x96);
   (0x3B,0xAB,0x6B,0xCB); (0x1F,0x9D,0x45,0xF1); (0xAC,0xFA,0x58,0xAB); (0x4B,0xE3,0x03,0x93);
   (0x20,0x30,0xFA,0x55); (0xAD,0x76,0x6D,0xF6); (0x88,0xCC,0x76,0x91); (0xF5,0x02,0x4C,0x25);
   (0x4F,0xE5,0xD7,0xFC); (0xC5,0x2A,0xCB,0xD7); (0x26,0x35,0x44,0x80); (0xB5,0x62,0xA3,0x8F);
   (0xDE,0xB1,0x5A,0x49); (0x25,0xBA,0x1B,0x67); (0x45,0xEA,0x0E,0x98); (0x5D,0xFE,0xC0,0xE1);
   (0xC3,0x2F,0x75,0x02); (0x81,0x4C,0xF0,0x12); (0x8D,0x46,0x97,0xA3); (0x6B,0xD3,0xF9,0xC6);
   (0x03,0x8F,0x5F,0xE7); (0x15,0x92,0x9C,0x95); (0xBF,0x6D,0x7A,0xEB); (0x95,0x52,0x59,0xDA);
   (0xD4,0xBE,0x83,0x2D); (0x58,0x74,0x21,0xD3); (0x49,0xE0,0x69,0x29); (0x8E,0xC9,0xC8,0x44);
   (0x75,0xC2,0x89,0x6A); (0xF4,0x8E,0x79,0x78); (0x99,0x58,0x3E,0x6B); (0x27,0xB9,0x71,0xDD);
   (0xBE,0xE1,0x4F,0xB6); (0xF0,0x88,0xAD,0x17); (0xC9,0x20,0xAC,0x66); (0x7D,0xCE,0x3A,0xB4);
   (0x63,0xDF,0x4A,0x18); (0xE5,0x1A,0x31,0x82); (0x97,0x51,0x33,0x60); (0x62,0x53,0x7F,0x45);
   (0xB1,0x64,0x77,0xE0); (0xBB,0x6B,0xAE,0x84); (0xFE,0x81,0xA0,0x1C); (0xF9,0x08,0x2B,0x94);
   (0x70,0x48,0x68,0x58); (0x8F,0x45,0xFD,0x19); (0x94,0xDE,0x6C,0x87); (0x52,0x7B,0xF8,0xB7);
   (0xAB,0x73,0xD3,0x23); (0x72,0x4B,0x02,0xE2); (0xE3,0x1F,0x8F,0x57); (0x66,0x55,0xAB,0x2A);
   (0xB2,0xEB,0x28,0x07); (0x2F,0xB5,0xC2,0x03); (0x86,0xC5,0x7B,0x9A); (0xD3,0x37,0x08,0xA5);
   (0x30,0x28,0x87,0xF2); (0x23,0xBF,0xA5,0xB2); (0x02,0x03,0x6A,0xBA); (0xED,0x16,0x82,0x5C);
   (0x8A,0xCF,0x1C,0x2B); (0xA7,0x79,0xB4,0x92); (0xF3,0x07,0xF2,0xF0); (0x4E,0x69,0xE2,0xA1);
   (0x65,0xDA,0xF4,0xCD); (0x06,0x05,0xBE,0xD5); (0xD1,0x34,0x62,0x1F); (0xC4,0xA6,0xFE,0x8A);
   (0x34,0x2E,0x53,0x9D); (0xA2,0xF3,0x55,0xA0); (0x05,0x8A,0xE1,0x32); (0xA4,0xF6,0xEB,0x75);
   (0x0B,0x83,0xEC,0x39); (0x40,0x60,0xEF,0xAA); (0x5E,0x71,0x9F,0x06); (0xBD,0x6E,0x10,0x51);
   (0x3E,0x21,0x8A,0xF9); (0x96,0xDD,0x06,0x3D); (0xDD,0x3E,0x05,0xAE); (0x4D,0xE6,0xBD,0x46);
   (0x91,0x54,0x8D,0xB5); (0x71,0xC4,0x5D,0x05); (0x04,0x06,0xD4,0x6F); (0x60,0x50,0x15,0xFF);
   (0x19,0x98,0xFB,0x24); (0xD6,0xBD,0xE9,0x97); (0x89,0x40,0x43,0xCC); (0x67,0xD9,0x9E,0x77);
   (0xB0,0xE8,0x42,0xBD); (0x07,0x89,0x8B,0x88); (0xE7,0x19,0x5B,0x38); (0x79,0xC8,0xEE,0xDB);
   (0xA1,0x7C,0x0A,0x47); (0x7C,0x42,0x0F,0xE9); (0xF8,0x84,0x1E,0xC9); (0x00,0x00,0x00,0x00);
   (0x09,0x80,0x86,0x83); (0x32,0x2B,0xED,0x48); (0x1E,0x11,0x70,0xAC); (0x6C,0x5A,0x72,0x4E);
   (0xFD,0x0E,0xFF,0xFB); (0x0F,0x85,0x38,0x56); (0x3D,0xAE,0xD5,0x1E); (0x36,0x2D,0x39,0x27);
   (0x0A,0x0F,0xD9,0x64); (0x68,0x5C,0xA6,0x21); (0x9B,0x5B,0x54,0xD1); (0x24,0x36,0x2E,0x3A);
   (0x0C,0x0A,0x67,0xB1); (0x93,0x57,0xE7,0x0F); (0xB4,0xEE,0x96,0xD2); (0x1B,0x9B,0x91,0x9E);
   (0x80,0xC0,0xC5,0x4F); (0x61,0xDC,0x20,0xA2); (0x5A,0x77,0x4B,0x69); (0x1C,0x12,0x1A,0x16);
   (0xE2,0x93,0xBA,0x0A); (0xC0,0xA0,0x2A,0xE5); (0x3C,0x22,0xE0,0x43); (0x12,0x1B,0x17,0x1D);
   (0x0E,0x09,0x0D,0x0B); (0xF2,0x8B,0xC7,0xAD); (0x2D,0xB6,0xA8,0xB9); (0x14,0x1E,0xA9,0xC8);
   (0x57,0xF1,0x19,0x85); (0xAF,0x75,0x07,0x4C); (0xEE,0x99,0xDD,0xBB); (0xA3,0x7F,0x60,0xFD);
   (0xF7,0x01,0x26,0x9F); (0x5C,0x72,0xF5,0xBC); (0x44,0x66,0x3B,0xC5); (0x5B,0xFB,0x7E,0x34);
   (0x8B,0x43,0x29,0x76); (0xCB,0x23,0xC6,0xDC); (0xB6,0xED,0xFC,0x68); (0xB8,0xE4,0xF1,0x63);
   (0xD7,0x31,0xDC,0xCA); (0x42,0x63,0x85,0x10); (0x13,0x97,0x22,0x40); (0x84,0xC6,0x11,0x20);
   (0x85,0x4A,0x24,0x7D); (0xD2,0xBB,0x3D,0xF8); (0xAE,0xF9,0x32,0x11); (0xC7,0x29,0xA1,0x6D);
   (0x1D,0x9E,0x2F,0x4B); (0xDC,0xB2,0x30,0xF3); (0x0D,0x86,0x52,0xEC); (0x77,0xC1,0xE3,0xD0);
   (0x2B,0xB3,0x16,0x6C); (0xA9,0x70,0xB9,0x99); (0x11,0x94,0x48,0xFA); (0x47,0xE9,0x64,0x22);
   (0xA8,0xFC,0x8C,0xC4); (0xA0,0xF0,0x3F,0x1A); (0x56,0x7D,0x2C,0xD8); (0x22,0x33,0x90,0xEF);
   (0x87,0x49,0x4E,0xC7); (0xD9,0x38,0xD1,0xC1); (0x8C,0xCA,0xA2,0xFE); (0x98,0xD4,0x0B,0x36);
   (0xA6,0xF5,0x81,0xCF); (0xA5,0x7A,0xDE,0x28); (0xDA,0xB7,0x8E,0x26); (0x3F,0xAD,0xBF,0xA4);
   (0x2C,0x3A,0x9D,0xE4); (0x50,0x78,0x92,0x0D); (0x6A,0x5F,0xCC,0x9B); (0x54,0x7E,0x46,0x62);
   (0xF6,0x8D,0x13,0xC2); (0x90,0xD8,0xB8,0xE8); (0x2E,0x39,0xF7,0x5E); (0x82,0xC3,0xAF,0xF5);
   (0x9F,0x5D,0x80,0xBE); (0x69,0xD0,0x93,0x7C); (0x6F,0xD5,0x2D,0xA9); (0xCF,0x25,0x12,0xB3);
   (0xC8,0xAC,0x99,0x3B); (0x10,0x18,0x7D,0xA7); (0xE8,0x9C,0x63,0x6E); (0xDB,0x3B,0xBB,0x7B);
   (0xCD,0x26,0x78,0x09); (0x6E,0x59,0x18,0xF4); (0xEC,0x9A,0xB7,0x01); (0x83,0x4F,0x9A,0xA8);
   (0xE6,0x95,0x6E,0x65); (0xAA,0xFF,0xE6,0x7E); (0x21,0xBC,0xCF,0x08); (0xEF,0x15,0xE8,0xE6);
   (0xBA,0xE7,0x9B,0xD9); (0x4A,0x6F,0x36,0xCE); (0xEA,0x9F,0x09,0xD4); (0x29,0xB0,0x7C,0xD6);
   (0x31,0xA4,0xB2,0xAF); (0x2A,0x3F,0x23,0x31); (0xC6,0xA5,0x94,0x30); (0x35,0xA2,0x66,0xC0);
   (0x74,0x4E,0xBC,0x37); (0xFC,0x82,0xCA,0xA6); (0xE0,0x90,0xD0,0xB0); (0x33,0xA7,0xD8,0x15);
   (0xF1,0x04,0x98,0x4A); (0x41,0xEC,0xDA,0xF7); (0x7F,0xCD,0x50,0x0E); (0x17,0x91,0xF6,0x2F);
   (0x76,0x4D,0xD6,0x8D); (0x43,0xEF,0xB0,0x4D); (0xCC,0xAA,0x4D,0x54); (0xE4,0x96,0x04,0xDF);
   (0x9E,0xD1,0xB5,0xE3); (0x4C,0x6A,0x88,0x1B); (0xC1,0x2C,0x1F,0xB8); (0x46,0x65,0x51,0x7F);
   (0x9D,0x5E,0xEA,0x04); (0x01,0x8C,0x35,0x5D); (0xFA,0x87,0x74,0x73); (0xFB,0x0B,0x41,0x2E);
   (0xB3,0x67,0x1D,0x5A); (0x92,0xDB,0xD2,0x52); (0xE9,0x10,0x56,0x33); (0x6D,0xD6,0x47,0x13);
   (0x9A,0xD7,0x61,0x8C); (0x37,0xA1,0x0C,0x7A); (0x59,0xF8,0x14,0x8E); (0xEB,0x13,0x3C,0x89);
   (0xCE,0xA9,0x27,0xEE); (0xB7,0x61,0xC9,0x35); (0xE1,0x1C,0xE5,0xED); (0x7A,0x47,0xB1,0x3C);
   (0x9C,0xD2,0xDF,0x59); (0x55,0xF2,0x73,0x3F); (0x18,0x14,0xCE,0x79); (0x73,0xC7,0x37,0xBF);
   (0x53,0xF7,0xCD,0xEA); (0x5F,0xFD,0xAA,0x5B); (0xDF,0x3D,0x6F,0x14); (0x78,0x44,0xDB,0x86);
   (0xCA,0xAF,0xF3,0x81); (0xB9,0x68,0xC4,0x3E); (0x38,0x24,0x34,0x2C); (0xC2,0xA3,0x40,0x5F);
   (0x16,0x1D,0xC3,0x72); (0xBC,0xE2,0x25,0x0C); (0x28,0x3C,0x49,0x8B); (0xFF,0x0D,0x95,0x41);
   (0x39,0xA8,0x01,0x71); (0x08,0x0C,0xB3,0xDE); (0xD8,0xB4,0xE4,0x9C); (0x64,0x56,0xC1,0x90);
   (0x7B,0xCB,0x84,0x61); (0xD5,0x32,0xB6,0x70); (0x48,0x6C,0x5C,0x74); (0xD0,0xB8,0x57,0x42)].

Definition RCON : list Z :=
  [0x01000000; 0x02000000; 0x04000000; 0x08000000;
   0x10000000; 0x20000000; 0x40000000; 0x80000000;
   0x1B000000; 0x36000000].

Definition fixed_tables : tables :=
  mkTables FSb (map V0 FT) (map V1 FT) (map V2 FT) (map V3 FT)
           RSb (map V0 RT) (map V1 RT) (map V2 RT) (map V3 RT) RCON.

End Fixed.

Lemma gen_tables_fixed : aes_gen_tables tables_at_start = Fixed.fixed_tables.
Proof. vm_compute. reflexivity. Qed.

(** The tables that [aes_gen_tables] computes at run time, from the
    zero-initialised globals, are exactly the constants of the
    [FIXED_TABLES] configuration: S-boxes, the eight round tables and the
    round constants. *)
Theorem gen_tables_eq_fixed : aes_gen_tables tables_at_start = Fixed.fixed_tables.
Proof. exact gen_tables_fixed. Qed.
