(* ===== verification/Aes.v ===== *)
(** * The AES cipher of raop_play/aes.c

    The context and the three operations of the file: key scheduling,
    block encryption and block decryption, over the global tables. *)

From S2P Require Import Prelude AesTables.

(** [aes_context]: two arrays of 64 round-key words and the round count. *)
Record aes_context : Type := mkCtx { erk : list Z; drk : list Z; nr : Z }.

(** The mutable globals of the file: the tables with their generation flag
    [do_init], the decryption key schedule tables with [KT_init]. *)
Record aes_globals : Type := mkGlobals {
  tab : tables;
  do_init : bool;
  KT0 : list Z; KT1 : list Z; KT2 : list Z; KT3 : list Z;
  KT_init : bool
}.

Definition globals_at_start : aes_globals :=
  mkGlobals tables_at_start true (zeros 256) (zeros 256) (zeros 256) (zeros 256) true.

(** ** Words and bytes *)

Definition GET_UINT32 (b : list Z) (i : Z) : Z :=
  (znth b i .<< 24) .| (znth b (i + 1) .<< 16) .| (znth b (i + 2) .<< 8) .| znth b (i + 3).

Definition PUT_UINT32 (n : Z) (b : list Z) (i : Z) : list Z :=
  let b := zset b i (u8 (n .>> 24)) in
  let b := zset b (i + 1) (u8 (n .>> 16)) in
  let b := zset b (i + 2) (u8 (n .>> 8)) in
  zset b (i + 3) (u8 n).

(** ** Key scheduling *)

(** One iteration of the encryption key loop, for each key size; [p] is the
    position of the moving pointer [RK] in [ctx->erk]. *)
Definition rk_step_128 (t : tables) (i p : Z) (rk : list Z) : list Z :=
  let rk := zset rk (p + 4)
    (znth rk p .^ znth (RCON t) i .^
      (znth (FSb t) (u8 (znth rk (p + 3) .>> 16)) .<< 24) .^
      (znth (FSb t) (u8 (znth rk (p + 3) .>> 8)) .<< 16) .^
      (znth (FSb t) (u8 (znth rk (p + 3))) .<< 8) .^
      (znth (FSb t) (u8 (znth rk (p + 3) .>> 24)))) in
  let rk := zset rk (p + 5) (znth rk (p + 1) .^ znth rk (p + 4)) in
  let rk := zset rk (p + 6) (znth rk (p + 2) .^ znth rk (p + 5)) in
  zset rk (p + 7) (znth rk (p + 3) .^ znth rk (p + 6)).

Definition rk_step_192 (t : tables) (i p : Z) (rk : list Z) : list Z :=
  let rk := zset rk (p + 6)
    (znth rk p .^ znth (RCON t) i .^
      (znth (FSb t) (u8 (znth rk (p + 5) .>> 16)) .<< 24) .^
      (znth (FSb t) (u8 (znth rk (p + 5) .>> 8)) .<< 16) .^
      (znth (FSb t) (u8 (znth rk (p + 5))) .<< 8) .^
      (znth (FSb t) (u8 (znth rk (p + 5) .>> 24)))) in
  let rk := zset rk (p + 7) (znth rk (p + 1) .^ znth rk (p + 6)) in
  let rk := zset rk (p + 8) (znth rk (p + 2) .^ znth rk (p + 7)) in
  let rk := zset rk (p + 9) (znth rk (p + 3) .^ znth rk (p + 8)) in
  let rk := zset rk (p + 10) (znth rk (p + 4) .^ znth rk (p + 9)) in
  zset rk (p + 11) (znth rk (p + 5) .^ znth rk (p + 10)).

Definition rk_step_256 (t : tables) (i p : Z) (rk : list Z) : list Z :=
  let rk := zset rk (p + 8)
    (znth rk p .^ znth (RCON t) i .^
      (znth (FSb t) (u8 (znth rk (p + 7) .>> 16)) .<< 24) .^
      (znth (FSb t) (u8 (znth rk (p + 7) .>> 8)) .<< 16) .^
      (znth (FSb t) (u8 (znth rk (p + 7))) .<< 8) .^
      (znth (FSb t) (u8 (znth rk (p + 7) .>> 24)))) in
  let rk := zset rk (p + 9) (znth rk (p + 1) .^ znth rk (p + 8)) in
  let rk := zset rk (p + 10) (znth rk (p + 2) .^ znth rk (p + 9)) in
  let rk := zset rk (p + 11) (znth rk (p + 3) .^ znth rk (p + 10)) in
  let rk := zset rk (p + 12)
    (znth rk (p + 4) .^
      (znth (FSb t) (u8 (znth rk (p + 11) .>> 24)) .<< 24) .^
      (znth (FSb t) (u8 (znth rk (p + 11) .>> 16)) .<< 16) .^
      (znth (FSb t) (u8 (znth rk (p + 11) .>> 8)) .<< 8) .^
      (znth (FSb t) (u8 (znth rk (p + 11))))) in
  let rk := zset rk (p + 13) (znth rk (p + 5) .^ znth rk (p + 12)) in
  let rk := zset rk (p + 14) (znth rk (p + 6) .^ znth rk (p + 13)) in
  zset rk (p + 15) (znth rk (p + 7) .^ znth rk (p + 14)).

(** The three loops: the array and the final position of [RK]. *)
Definition expand_key (t : tables) (nbits : Z) (rk : list Z) : list Z * Z :=
  if nbits =? 128 then
    for_ 0 10 (fun i '(rk, p) => (rk_step_128 t i p rk, p + 4)) (rk, 0)
  else if nbits =? 192 then
    for_ 0 8 (fun i '(rk, p) => (rk_step_192 t i p rk, p + 6)) (rk, 0)
  else
    for_ 0 7 (fun i '(rk, p) => (rk_step_256 t i p rk, p + 8)) (rk, 0).

(** [*SK++ = *RK++] four times. *)
Definition copy4 (rk : list Z) '((sk, p, q) : list Z * Z * Z) : list Z * Z * Z :=
  for_ 0 4 (fun _ '(sk, p, q) => (zset sk q (znth rk p), p + 1, q + 1)) (sk, p, q).

(** [*SK++ = KT0[...] ^ KT1[...] ^ KT2[...] ^ KT3[...]; RK++] four times. *)
Definition KT_word (g : aes_globals) (w : Z) : Z :=
  znth (KT0 g) (u8 (w .>> 24)) .^ znth (KT1 g) (u8 (w .>> 16)) .^
  znth (KT2 g) (u8 (w .>> 8)) .^ znth (KT3 g) (u8 w).

Definition convert4 (g : aes_globals) (rk : list Z) '((sk, p, q) : list Z * Z * Z)
    : list Z * Z * Z :=
  for_ 0 4 (fun _ '(sk, p, q) => (zset sk q (KT_word g (znth rk p)), p + 1, q + 1))
       (sk, p, q).

(** The decryption round keys, from [RK] at position [p]. *)
Definition expand_drk (g : aes_globals) (rk : list Z) (p nr : Z) (sk : list Z) : list Z :=
  let s := copy4 rk (sk, p, 0) in
  let s := for_ 1 (Z.to_nat (nr - 1))
             (fun _ '(sk, p, q) => convert4 g rk (sk, p - 8, q)) s in
  let '(sk, p, q) := s in
  fst (fst (copy4 rk (sk, p - 8, q))).

(** [if( do_init ) { aes_gen_tables(); do_init = 0; }] *)
Definition init_tables (g : aes_globals) : aes_globals :=
  if do_init g
  then mkGlobals (aes_gen_tables (tab g)) false (KT0 g) (KT1 g) (KT2 g) (KT3 g) (KT_init g)
  else g.

(** [if( KT_init ) { ...; KT_init = 0; }] *)
Definition init_KT (g : aes_globals) : aes_globals :=
  if KT_init g then
    let t := tab g in
    let '(k0, k1, k2, k3) :=
      for_ 0 256 (fun i '(k0, k1, k2, k3) =>
          (zset k0 i (znth (RT0 t) (znth (FSb t) i)),
           zset k1 i (znth (RT1 t) (znth (FSb t) i)),
           zset k2 i (znth (RT2 t) (znth (FSb t) i)),
           zset k3 i (znth (RT3 t) (znth (FSb t) i))))
        (KT0 g, KT1 g, KT2 g, KT3 g) in
    mkGlobals t (do_init g) k0 k1 k2 k3 false
  else g.

(** [aes_set_key]: the new globals, the new context and the return value. *)
Definition aes_set_key (g : aes_globals) (ctx : aes_context) (key : list Z) (nbits : Z)
    : aes_globals * aes_context * Z :=
  let g := init_tables g in
  match (if nbits =? 128 then Some 10 else if nbits =? 192 then Some 12
         else if nbits =? 256 then Some 14 else None) with
  | None => (g, ctx, 1)
  | Some n =>
    let rk := for_ 0 (Z.to_nat (nbits .>> 5))
                (fun i rk => zset rk i (GET_UINT32 key (i * 4))) (erk ctx) in
    let '(rk, p) := expand_key (tab g) nbits rk in
    let g := init_KT g in
    (g, mkCtx rk (expand_drk g rk p n (drk ctx)) n, 0)
  end.

(** ** Block encryption *)

(** The working variables [X0..X3] (or [Y0..Y3]). *)
Definition block : Type := Z * Z * Z * Z.

(** The macro [AES_FROUND]; [p] is the position of [RK] after [RK += 4]. *)
Definition AES_FROUND (t : tables) (rk : list Z) (p : Z) (y : block) : block :=
  let '(Y0, Y1, Y2, Y3) := y in
  (znth rk p .^ znth (FT0 t) (u8 (Y0 .>> 24)) .^ znth (FT1 t) (u8 (Y1 .>> 16)) .^
     znth (FT2 t) (u8 (Y2 .>> 8)) .^ znth (FT3 t) (u8 Y3),
   znth rk (p + 1) .^ znth (FT0 t) (u8 (Y1 .>> 24)) .^ znth (FT1 t) (u8 (Y2 .>> 16)) .^
     znth (FT2 t) (u8 (Y3 .>> 8)) .^ znth (FT3 t) (u8 Y0),
   znth rk (p + 2) .^ znth (FT0 t) (u8 (Y2 .>> 24)) .^ znth (FT1 t) (u8 (Y3 .>> 16)) .^
     znth (FT2 t) (u8 (Y0 .>> 8)) .^ znth (FT3 t) (u8 Y1),
   znth rk (p + 3) .^ znth (FT0 t) (u8 (Y3 .>> 24)) .^ znth (FT1 t) (u8 (Y0 .>> 16)) .^
     znth (FT2 t) (u8 (Y1 .>> 8)) .^ znth (FT3 t) (u8 Y2)).

(** The last round: S-box and shifts without the column mixing. *)
Definition last_fround (t : tables) (rk : list Z) (p : Z) (y : block) : block :=
  let '(Y0, Y1, Y2, Y3) := y in
  (znth rk p .^ (znth (FSb t) (u8 (Y0 .>> 24)) .<< 24) .^
     (znth (FSb t) (u8 (Y1 .>> 16)) .<< 16) .^
     (znth (FSb t) (u8 (Y2 .>> 8)) .<< 8) .^ znth (FSb t) (u8 Y3),
   znth rk (p + 1) .^ (znth (FSb t) (u8 (Y1 .>> 24)) .<< 24) .^
     (znth (FSb t) (u8 (Y2 .>> 16)) .<< 16) .^
     (znth (FSb t) (u8 (Y3 .>> 8)) .<< 8) .^ znth (FSb t) (u8 Y0),
   znth rk (p + 2) .^ (znth (FSb t) (u8 (Y2 .>> 24)) .<< 24) .^
     (znth (FSb t) (u8 (Y3 .>> 16)) .<< 16) .^
     (znth (FSb t) (u8 (Y0 .>> 8)) .<< 8) .^ znth (FSb t) (u8 Y1),
   znth rk (p + 3) .^ (znth (FSb t) (u8 (Y3 .>> 24)) .<< 24) .^
     (znth (FSb t) (u8 (Y0 .>> 16)) .<< 16) .^
     (znth (FSb t) (u8 (Y1 .>> 8)) .<< 8) .^ znth (FSb t) (u8 Y2)).

(** Reading the input block and whitening it with the first round key. *)
Definition load_block (rk : list Z) (input : list Z) : block :=
  (GET_UINT32 input 0 .^ znth rk 0, GET_UINT32 input 4 .^ znth rk 1,
   GET_UINT32 input 8 .^ znth rk 2, GET_UINT32 input 12 .^ znth rk 3).

Definition store_block (x : block) (output : list Z) : list Z :=
  let '(X0, X1, X2, X3) := x in
  PUT_UINT32 X3 (PUT_UINT32 X2 (PUT_UINT32 X1 (PUT_UINT32 X0 output 0) 4) 8) 12.

Definition aes_encrypt (g : aes_globals) (ctx : aes_context) (input output : list Z)
    : list Z :=
  let t := tab g in
  let RK := erk ctx in
  let X := load_block RK input in
  let Y := AES_FROUND t RK 4 X in     (* round 1 *)
  let X := AES_FROUND t RK 8 Y in     (* round 2 *)
  let Y := AES_FROUND t RK 12 X in    (* round 3 *)
  let X := AES_FROUND t RK 16 Y in    (* round 4 *)
  let Y := AES_FROUND t RK 20 X in    (* round 5 *)
  let X := AES_FROUND t RK 24 Y in    (* round 6 *)
  let Y := AES_FROUND t RK 28 X in    (* round 7 *)
  let X := AES_FROUND t RK 32 Y in    (* round 8 *)
  let Y := AES_FROUND t RK 36 X in    (* round 9 *)
  let '(Y, p) :=
    if 10 <? nr ctx then
      let X := AES_FROUND t RK 40 Y in  (* round 10 *)
      (AES_FROUND t RK 44 X, 44)        (* round 11 *)
    else (Y, 36) in
  let '(Y, p) :=
    if 12 <? nr ctx then
      let X := AES_FROUND t RK (p + 4) Y in  (* round 12 *)
      (AES_FROUND t RK (p + 8) X, p + 8)     (* round 13 *)
    else (Y, p) in
  store_block (last_fround t RK (p + 4) Y) output.

(** ** Block decryption *)

Definition AES_RROUND (t : tables) (rk : list Z) (p : Z) (y : block) : block :=
  let '(Y0, Y1, Y2, Y3) := y in
  (znth rk p .^ znth (RT0 t) (u8 (Y0 .>> 24)) .^ znth (RT1 t) (u8 (Y3 .>> 16)) .^
     znth (RT2 t) (u8 (Y2 .>> 8)) .^ znth (RT3 t) (u8 Y1),
   znth rk (p + 1) .^ znth (RT0 t) (u8 (Y1 .>> 24)) .^ znth (RT1 t) (u8 (Y0 .>> 16)) .^
     znth (RT2 t) (u8 (Y3 .>> 8)) .^ znth (RT3 t) (u8 Y2),
   znth rk (p + 2) .^ znth (RT0 t) (u8 (Y2 .>> 24)) .^ znth (RT1 t) (u8 (Y1 .>> 16)) .^
     znth (RT2 t) (u8 (Y0 .>> 8)) .^ znth (RT3 t) (u8 Y3),
   znth rk (p + 3) .^ znth (RT0 t) (u8 (Y3 .>> 24)) .^ znth (RT1 t) (u8 (Y2 .>> 16)) .^
     znth (RT2 t) (u8 (Y1 .>> 8)) .^ znth (RT3 t) (u8 Y0)).

Definition last_rround (t : tables) (rk : list Z) (p : Z) (y : block) : block :=
  let '(Y0, Y1, Y2, Y3) := y in
  (znth rk p .^ (znth (RSb t) (u8 (Y0 .>> 24)) .<< 24) .^
     (znth (RSb t) (u8 (Y3 .>> 16)) .<< 16) .^
     (znth (RSb t) (u8 (Y2 .>> 8)) .<< 8) .^ znth (RSb t) (u8 Y1),
   znth rk (p + 1) .^ (znth (RSb t) (u8 (Y1 .>> 24)) .<< 24) .^
     (znth (RSb t) (u8 (Y0 .>> 16)) .<< 16) .^
     (znth (RSb t) (u8 (Y3 .>> 8)) .<< 8) .^ znth (RSb t) (u8 Y2),
   znth rk (p + 2) .^ (znth (RSb t) (u8 (Y2 .>> 24)) .<< 24) .^
     (znth (RSb t) (u8 (Y1 .>> 16)) .<< 16) .^
     (znth (RSb t) (u8 (Y0 .>> 8)) .<< 8) .^ znth (RSb t) (u8 Y3),
   znth rk (p + 3) .^ (znth (RSb t) (u8 (Y3 .>> 24)) .<< 24) .^
     (znth (RSb t) (u8 (Y2 .>> 16)) .<< 16) .^
     (znth (RSb t) (u8 (Y1 .>> 8)) .<< 8) .^ znth (RSb t) (u8 Y0)).

Definition aes_decrypt (g : aes_globals) (ctx : aes_context) (input output : list Z)
    : list Z :=
  let t := tab g in
  let RK := drk ctx in
  let X := load_block RK input in
  let Y := AES_RROUND t RK 4 X in     (* round 1 *)
  let X := AES_RROUND t RK 8 Y in     (* round 2 *)
  let Y := AES_RROUND t RK 12 X in    (* round 3 *)
  let X := AES_RROUND t RK 16 Y in    (* round 4 *)
  let Y := AES_RROUND t RK 20 X in    (* round 5 *)
  let X := AES_RROUND t RK 24 Y in    (* round 6 *)
  let Y := AES_RROUND t RK 28 X in    (* round 7 *)
  let X := AES_RROUND t RK 32 Y in    (* round 8 *)
  let Y := AES_RROUND t RK 36 X in    (* round 9 *)
  let '(Y, p) :=
    if 10 <? nr ctx then
      let X := AES_RROUND t RK 40 Y in  (* round 10 *)
      (AES_RROUND t RK 44 X, 44)        (* round 11 *)
    else (Y, 36) in
  let '(Y, p) :=
    if 12 <? nr ctx then
      let X := AES_RROUND t RK (p + 4) Y in  (* round 12 *)
      (AES_RROUND t RK (p + 8) X, p + 8)     (* round 13 *)
    else (Y, p) in
  store_block (last_rround t RK (p + 4) Y) output.
