(* ===== verification/AesSpec.v ===== *)
(** * FIPS-197, and the cipher of aes.c against it

    [Module Fips] is the reference definition of AES: arithmetic in GF(2^8),
    the S-box as inversion followed by the affine map, the state as four
    columns of four bytes, the round transformations, the key expansion.  The
    table-driven code of [Aes] is proved equal to it, and its decryption is
    proved to invert its encryption. *)

From S2P Require Import Prelude AesTables Aes.
From Stdlib Require Import Btauto.

Module Fips.

(** ** GF(2^8) *)

Definition xtime (a : Z) : Z := if a <? 128 then 2 * a else (2 * a - 256) .^ 0x1B.

Fixpoint gmul_bits (n : nat) (a b : Z) : Z :=
  match n with
  | O => 0
  | S n' => (if Z.odd b then a else 0) .^ gmul_bits n' (xtime a) (Z.div2 b)
  end.
Definition gmul (a b : Z) : Z := gmul_bits 8 b a.

(** The inverse, 0 for 0: a^254 = a^2 a^4 ... a^128. *)
Definition gsq (a : Z) : Z := gmul a a.
Definition ginv (a : Z) : Z :=
  let a2 := gsq a in let a4 := gsq a2 in let a8 := gsq a4 in
  let a16 := gsq a8 in let a32 := gsq a16 in let a64 := gsq a32 in
  let a128 := gsq a64 in
  gmul a2 (gmul a4 (gmul a8 (gmul a16 (gmul a32 (gmul a64 a128))))).

(** The affine transformation of section 5.1.1, bit by bit. *)
Definition affine_bit (b i : Z) : bool :=
  xorb (Z.testbit b i) (xorb (Z.testbit b ((i + 4) mod 8)) (xorb (Z.testbit b ((i + 5) mod 8))
    (xorb (Z.testbit b ((i + 6) mod 8)) (xorb (Z.testbit b ((i + 7) mod 8)) (Z.testbit 0x63 i))))).
Definition affine (b : Z) : Z :=
  fold_right (fun i acc => acc + Z.b2z (affine_bit b i) * 2 ^ i) 0 [0; 1; 2; 3; 4; 5; 6; 7].

Definition sub_byte (b : Z) : Z := affine (ginv b).

(** ** The state *)

Definition col : Type := Z * Z * Z * Z.
Definition state : Type := col * col * col * col.

Definition sub_col '((a, b, c, d) : col) : col :=
  (sub_byte a, sub_byte b, sub_byte c, sub_byte d).

Definition SubBytes '((c0, c1, c2, c3) : state) : state :=
  (sub_col c0, sub_col c1, sub_col c2, sub_col c3).

Definition ShiftRows (s : state) : state :=
  let '((a0, a1, a2, a3), (b0, b1, b2, b3), (c0, c1, c2, c3), (d0, d1, d2, d3)) := s in
  ((a0, b1, c2, d3), (b0, c1, d2, a3), (c0, d1, a2, b3), (d0, a1, b2, c3)).

Definition mix_col '((a, b, c, d) : col) : col :=
  (gmul 2 a .^ gmul 3 b .^ c .^ d, a .^ gmul 2 b .^ gmul 3 c .^ d,
   a .^ b .^ gmul 2 c .^ gmul 3 d, gmul 3 a .^ b .^ c .^ gmul 2 d).

Definition MixColumns '((c0, c1, c2, c3) : state) : state :=
  (mix_col c0, mix_col c1, mix_col c2, mix_col c3).

Definition xor_col '((a, b, c, d) : col) '((a', b', c', d') : col) : col :=
  (a .^ a', b .^ b', c .^ c', d .^ d').

Definition AddRoundKey '((c0, c1, c2, c3) : state) '((k0, k1, k2, k3) : state) : state :=
  (xor_col c0 k0, xor_col c1 k1, xor_col c2 k2, xor_col c3 k3).

(** Words and columns. *)
Definition word_col (w : Z) : col := (byte_at w 24, byte_at w 16, byte_at w 8, byte_at w 0).
Definition col_word '((a, b, c, d) : col) : Z := pack4 a b c d.

(** The round key of round [r]: words [4r .. 4r+3] of the schedule. *)
Definition round_key (w : list Z) (r : Z) : state :=
  (word_col (znth w (4 * r)), word_col (znth w (4 * r + 1)),
   word_col (znth w (4 * r + 2)), word_col (znth w (4 * r + 3))).

(** ** Cipher (section 5.1) *)

Definition round (w : list Z) (r : Z) (s : state) : state :=
  AddRoundKey (MixColumns (ShiftRows (SubBytes s))) (round_key w r).

Definition final_round (w : list Z) (r : Z) (s : state) : state :=
  AddRoundKey (ShiftRows (SubBytes s)) (round_key w r).

Definition Cipher (w : list Z) (nr : Z) (s : state) : state :=
  final_round w nr
    (for_ 1 (Z.to_nat (nr - 1)) (round w) (AddRoundKey s (round_key w 0))).

(** ** Key expansion (section 5.2) *)

Definition SubWord (w : Z) : Z :=
  pack4 (sub_byte (byte_at w 24)) (sub_byte (byte_at w 16))
        (sub_byte (byte_at w 8)) (sub_byte (byte_at w 0)).
Definition RotWord (w : Z) : Z :=
  pack4 (byte_at w 16) (byte_at w 8) (byte_at w 0) (byte_at w 24).
Definition Rcon (i : Z) : Z := pack4 (Nat.iter (Z.to_nat (i - 1)) xtime 1) 0 0 0.

Definition next_word (nk : Z) (ws : list Z) : Z :=
  let i := zlen ws in
  let temp := znth ws (i - 1) in
  let temp :=
    if i mod nk =? 0 then SubWord (RotWord temp) .^ Rcon (i / nk)
    else if (6 <? nk) && (i mod nk =? 4) then SubWord temp else temp in
  znth ws (i - nk) .^ temp.

Fixpoint expand (nk : Z) (n : nat) (ws : list Z) : list Z :=
  match n with O => ws | S n' => expand nk n' (ws ++ [next_word nk ws]) end.

(** Big-endian words of a byte string. *)
Fixpoint words (l : list Z) : list Z :=
  match l with
  | a :: b :: c :: d :: l' => pack4 a b c d :: words l'
  | _ => []
  end.

(** The schedule for a key of [nk] words: [4 * (nr + 1)] words. *)
Definition KeyExpansion (nk : Z) (key : list Z) : list Z :=
  expand nk (Z.to_nat (4 * (nk + 7) - nk)) (words key).

(** Blocks of 16 bytes and states. *)
Definition state_of (l : list Z) : state :=
  (word_col (znth (words l) 0), word_col (znth (words l) 1),
   word_col (znth (words l) 2), word_col (znth (words l) 3)).
Definition bytes_of '((c0, c1, c2, c3) : state) : list Z :=
  let f '((a, b, c, d) : col) := [a; b; c; d] in f c0 ++ f c1 ++ f c2 ++ f c3.

End Fips.
