(* ===== verification/AesProofs.v ===== *)
(** * Correctness of aes.c

    The table lookups of the code are related to the byte transformations of
    [Fips] by finite checks over all bytes; everything else is algebra of
    exclusive or.  The theorems are at the end of the file: the key schedule
    and the block encryption are those of FIPS-197, decryption inverts
    encryption, and the global tables keep their invariant. *)

From S2P Require Import Prelude AesTables Aes AesSpec.
From Stdlib Require Import Btauto.
Import Fips.

(** Equations of exclusive or, bit by bit. *)
Ltac xor_bits :=
  apply Z.bits_inj'; intros ? ?; rewrite ?Z.lxor_spec, ?Z.bits_0; btauto.

(** A closed fact about all bytes. *)
Ltac by_check P := intros; apply Z.eqb_eq; apply (check_bytes P); [by vm_compute|done].

(** ** The byte functions *)

Lemma FSb_sub b : is_u8 b -> znth Fixed.FSb b = sub_byte b.
Proof. by_check (fun b => znth Fixed.FSb b =? sub_byte b). Qed.

Lemma sub_byte_range b : is_u8 b -> is_u8 (sub_byte b).
Proof. apply check_bytes_range. by vm_compute. Qed.

Lemma RSb_sub b : is_u8 b -> znth Fixed.RSb (sub_byte b) = b.
Proof. by_check (fun b => znth Fixed.RSb (sub_byte b) =? b). Qed.

Lemma xtime_range a : is_u8 a -> is_u8 (xtime a).
Proof. apply check_bytes_range. by vm_compute. Qed.

Lemma xtime_lxor a b : is_u8 a -> is_u8 b -> xtime (a .^ b) = xtime a .^ xtime b.
Proof.
  intros. apply Z.eqb_eq.
  apply (check_bytes2 (fun a b => xtime (a .^ b) =? xtime a .^ xtime b));
    [by vm_compute|done..].
Qed.
#[local] Hint Resolve sub_byte_range xtime_range : crange.

Lemma gmul_bits_range n a c : is_u8 a -> is_u8 (gmul_bits n a c).
Proof.
  revert a c. induction n as [|n IH]; intros a c Ha; simpl; [unfold is_u8; lia|].
  apply is_u8_lxor; [destruct (Z.odd c); [done|unfold is_u8; lia]|auto with crange].
Qed.

Lemma gmul_range c a : is_u8 a -> is_u8 (gmul c a).
Proof. apply gmul_bits_range. Qed.
#[local] Hint Resolve gmul_range : crange.

(** Multiplication by a constant is linear. *)
Lemma gmul_lxor c a b : is_u8 a -> is_u8 b -> gmul c (a .^ b) = gmul c a .^ gmul c b.
Proof.
  unfold gmul. generalize 8%nat as n. intros n. revert c a b.
  induction n as [|n IH]; intros c a b Ha Hb; simpl; [done|].
  rewrite xtime_lxor, IH by auto with crange. destruct (Z.odd c); xor_bits.
Qed.

(** ** Column mixing and its inverse *)

Definition col_ok '((a, b, c, d) : col) : Prop := is_u8 a /\ is_u8 b /\ is_u8 c /\ is_u8 d.
Definition state_ok '((c0, c1, c2, c3) : state) : Prop :=
  col_ok c0 /\ col_ok c1 /\ col_ok c2 /\ col_ok c3.

Definition inv_mix_col '((a, b, c, d) : col) : col :=
  (gmul 14 a .^ gmul 11 b .^ gmul 13 c .^ gmul 9 d,
   gmul 9 a .^ gmul 14 b .^ gmul 11 c .^ gmul 13 d,
   gmul 13 a .^ gmul 9 b .^ gmul 14 c .^ gmul 11 d,
   gmul 11 a .^ gmul 13 b .^ gmul 9 c .^ gmul 14 d).

Lemma mix_col_ok c : col_ok c -> col_ok (mix_col c).
Proof. destruct c as [[[a b] c] d]. intros (?&?&?&?). split_and!; apply is_u8_lxor; auto 10 with crange. Qed.

Lemma inv_mix_col_ok c : col_ok c -> col_ok (inv_mix_col c).
Proof. destruct c as [[[a b] c] d]. intros (?&?&?&?). split_and!; apply is_u8_lxor; auto 10 with crange. Qed.

Lemma xor_col_ok c k : col_ok c -> col_ok k -> col_ok (xor_col c k).
Proof.
  destruct c as [[[a b] c] d], k as [[[a' b'] c'] d']. intros (?&?&?&?) (?&?&?&?).
  split_and!; auto with crange.
Qed.

Lemma sub_col_ok c : col_ok c -> col_ok (sub_col c).
Proof. destruct c as [[[a b] c] d]. intros (?&?&?&?). split_and!; auto with crange. Qed.

Lemma inv_mix_col_xor c k :
  col_ok c -> col_ok k -> inv_mix_col (xor_col c k) = xor_col (inv_mix_col c) (inv_mix_col k).
Proof.
  destruct c as [[[a b] c] d], k as [[[a' b'] c'] d']. intros (?&?&?&?) (?&?&?&?). simpl.
  rewrite !gmul_lxor by done. f_equal; [f_equal; [f_equal|]|]; xor_bits.
Qed.

(** The matrix product InvMix * Mix, entry by entry. *)
Definition mix_row (p q r s : Z) (x2 x3 x1 x1' : Z) (a : Z) : Z :=
  gmul p (gmul x2 a) .^ gmul q (gmul x3 a) .^ gmul r (gmul x1 a) .^ gmul s (gmul x1' a).

Lemma gmul_1 a : is_u8 a -> gmul 1 a = a.
Proof. by_check (fun a => gmul 1 a =? a). Qed.

Definition mix_entry_check (p q r s x y z w v : Z) : bool :=
  forallb (fun a => mix_row p q r s x y z w a =? gmul v a) byte_range.

Lemma mix_entry p q r s x y z w v a :
  mix_entry_check p q r s x y z w v = true -> is_u8 a ->
  mix_row p q r s x y z w a = gmul v a.
Proof. intros H Ha. apply Z.eqb_eq. apply (check_bytes _ H). done. Qed.

Lemma gmul_0 a : gmul 0 a = 0.
Proof. reflexivity. Qed.

(** One row of the product: the entries of column [v] give 1, the others 0. *)
Ltac mix_line p q r s a b c d v :=
  transitivity (mix_row p q r s 2 1 1 3 a .^ mix_row p q r s 3 2 1 1 b .^
                mix_row p q r s 1 3 2 1 c .^ mix_row p q r s 1 1 3 2 d);
  [unfold mix_row; rewrite !(gmul_1 a), !(gmul_1 b), !(gmul_1 c), !(gmul_1 d) by done; xor_bits|];
  rewrite (mix_entry _ _ _ _ _ _ _ _ 1 v), !(mix_entry _ _ _ _ _ _ _ _ 0) by (done || by vm_compute);
  rewrite gmul_1, !gmul_0, ?Z.lxor_0_r, ?Z.lxor_0_l by done; done.

Lemma inv_mix_mix_col c : col_ok c -> inv_mix_col (mix_col c) = c.
Proof.
  destruct c as [[[a b] c] d]. intros (Ha&Hb&Hc&Hd). unfold mix_col, inv_mix_col.
  rewrite !gmul_lxor by auto 10 with crange.
  f_equal; [f_equal; [f_equal|]|].
  - mix_line 14 11 13 9 a b c d a.
  - mix_line 9 14 11 13 a b c d b.
  - mix_line 13 9 14 11 a b c d c.
  - mix_line 11 13 9 14 a b c d d.
Qed.

(** ** The tables, entry by entry *)

Abbreviation T := Fixed.fixed_tables.

Lemma FT0_entry a : is_u8 a -> znth (FT0 T) a =
  pack4 (gmul 2 (sub_byte a)) (sub_byte a) (sub_byte a) (gmul 3 (sub_byte a)).
Proof. by_check (fun a => znth (FT0 T) a =? pack4 (gmul 2 (sub_byte a)) (sub_byte a) (sub_byte a) (gmul 3 (sub_byte a))). Qed.
Lemma FT1_entry a : is_u8 a -> znth (FT1 T) a =
  pack4 (gmul 3 (sub_byte a)) (gmul 2 (sub_byte a)) (sub_byte a) (sub_byte a).
Proof. by_check (fun a => znth (FT1 T) a =? pack4 (gmul 3 (sub_byte a)) (gmul 2 (sub_byte a)) (sub_byte a) (sub_byte a)). Qed.
Lemma FT2_entry a : is_u8 a -> znth (FT2 T) a =
  pack4 (sub_byte a) (gmul 3 (sub_byte a)) (gmul 2 (sub_byte a)) (sub_byte a).
Proof. by_check (fun a => znth (FT2 T) a =? pack4 (sub_byte a) (gmul 3 (sub_byte a)) (gmul 2 (sub_byte a)) (sub_byte a)). Qed.
Lemma FT3_entry a : is_u8 a -> znth (FT3 T) a =
  pack4 (sub_byte a) (sub_byte a) (gmul 3 (sub_byte a)) (gmul 2 (sub_byte a)).
Proof. by_check (fun a => znth (FT3 T) a =? pack4 (sub_byte a) (sub_byte a) (gmul 3 (sub_byte a)) (gmul 2 (sub_byte a))). Qed.

(** The reverse tables at S-box images. *)
Lemma RT0_entry a : is_u8 a -> znth (RT0 T) (sub_byte a) =
  pack4 (gmul 14 a) (gmul 9 a) (gmul 13 a) (gmul 11 a).
Proof. by_check (fun a => znth (RT0 T) (sub_byte a) =? pack4 (gmul 14 a) (gmul 9 a) (gmul 13 a) (gmul 11 a)). Qed.
Lemma RT1_entry a : is_u8 a -> znth (RT1 T) (sub_byte a) =
  pack4 (gmul 11 a) (gmul 14 a) (gmul 9 a) (gmul 13 a).
Proof. by_check (fun a => znth (RT1 T) (sub_byte a) =? pack4 (gmul 11 a) (gmul 14 a) (gmul 9 a) (gmul 13 a)). Qed.
Lemma RT2_entry a : is_u8 a -> znth (RT2 T) (sub_byte a) =
  pack4 (gmul 13 a) (gmul 11 a) (gmul 14 a) (gmul 9 a).
Proof. by_check (fun a => znth (RT2 T) (sub_byte a) =? pack4 (gmul 13 a) (gmul 11 a) (gmul 14 a) (gmul 9 a)). Qed.
Lemma RT3_entry a : is_u8 a -> znth (RT3 T) (sub_byte a) =
  pack4 (gmul 9 a) (gmul 13 a) (gmul 11 a) (gmul 14 a).
Proof. by_check (fun a => znth (RT3 T) (sub_byte a) =? pack4 (gmul 9 a) (gmul 13 a) (gmul 11 a) (gmul 14 a)). Qed.

(** From here on only these entries matter. *)
Lemma T_FSb : FSb T = Fixed.FSb. Proof. reflexivity. Qed.
Lemma T_RSb : RSb T = Fixed.RSb. Proof. reflexivity. Qed.

#[local] Opaque Fixed.fixed_tables Fixed.FSb Fixed.RSb gmul sub_byte.

(** ** Words as columns *)

Lemma u8_byte_at x : u8 x = byte_at x 0.
Proof. unfold byte_at. by rewrite Z.shiftr_0_r. Qed.

Lemma word_col_word c : col_ok c -> word_col (col_word c) = c.
Proof.
  destruct c as [[[a b] c] d]. intros (?&?&?&?). unfold word_col, col_word.
  destruct (byte_at_pack4 a b c d) as (->&->&->&->); done.
Qed.

Lemma col_word_col w : is_u32 w -> col_word (word_col w) = w.
Proof. apply pack4_byte_at. Qed.

Lemma word_col_ok w : col_ok (word_col w).
Proof. unfold word_col. split_and!; auto with crange. Qed.

Lemma col_word_range c : col_ok c -> is_u32 (col_word c).
Proof. destruct c as [[[a b] c] d]. intros (?&?&?&?). by apply pack4_range. Qed.

Lemma col_word_xor c k : col_ok c -> col_ok k -> col_word c .^ col_word k = col_word (xor_col c k).
Proof.
  destruct c as [[[a b] c] d], k as [[[a' b'] c'] d']. intros (?&?&?&?) (?&?&?&?).
  by apply pack4_lxor.
Qed.
#[local] Hint Resolve word_col_ok col_word_range mix_col_ok inv_mix_col_ok xor_col_ok sub_col_ok : crange.

(** The four lookups of a round are the mixed column of the substituted bytes. *)
Lemma FT_column a b c d :
  is_u8 a -> is_u8 b -> is_u8 c -> is_u8 d ->
  znth (FT0 T) a .^ znth (FT1 T) b .^ znth (FT2 T) c .^ znth (FT3 T) d =
  col_word (mix_col (sub_col (a, b, c, d))).
Proof.
  intros. rewrite FT0_entry, FT1_entry, FT2_entry, FT3_entry by done.
  rewrite !pack4_lxor by auto 8 with crange. done.
Qed.

Lemma RT_column a b c d :
  is_u8 a -> is_u8 b -> is_u8 c -> is_u8 d ->
  znth (RT0 T) (sub_byte a) .^ znth (RT1 T) (sub_byte b) .^
  znth (RT2 T) (sub_byte c) .^ znth (RT3 T) (sub_byte d) =
  col_word (inv_mix_col (a, b, c, d)).
Proof.
  intros. rewrite RT0_entry, RT1_entry, RT2_entry, RT3_entry by done.
  rewrite !pack4_lxor by auto 8 with crange. done.
Qed.

(** ** Rounds on packed states *)

Definition pack_state '((c0, c1, c2, c3) : state) : block :=
  (col_word c0, col_word c1, col_word c2, col_word c3).

(** All words of a schedule are 32-bit. *)
Definition words_ok (w : list Z) : Prop := Forall is_u32 w.

Lemma znth_words_ok w i : words_ok w -> is_u32 (znth w i).
Proof.
  intros Hl. unfold znth. destruct (Nat.lt_ge_cases (Z.to_nat i) (length w)).
  - eapply Forall_forall in Hl; [done|]. apply list_elem_of_In. by apply nth_In.
  - rewrite nth_overflow by done. unfold is_u32. lia.
Qed.
#[local] Hint Resolve znth_words_ok : crange.

Lemma round_key_ok w r : state_ok (round_key w r).
Proof. unfold round_key. split_and!; auto with crange. Qed.

Lemma AddRoundKey_ok s k : state_ok s -> state_ok k -> state_ok (AddRoundKey s k).
Proof.
  destruct s as [[[? ?] ?] ?], k as [[[? ?] ?] ?]. intros (?&?&?&?) (?&?&?&?).
  split_and!; by apply xor_col_ok.
Qed.

Ltac open_state s :=
  let a0 := fresh "a0" in let a1 := fresh "a1" in let a2 := fresh "a2" in let a3 := fresh "a3" in
  let b0 := fresh "b0" in let b1 := fresh "b1" in let b2 := fresh "b2" in let b3 := fresh "b3" in
  let c0 := fresh "c0" in let c1 := fresh "c1" in let c2 := fresh "c2" in let c3 := fresh "c3" in
  let d0 := fresh "d0" in let d1 := fresh "d1" in let d2 := fresh "d2" in let d3 := fresh "d3" in
  destruct s as [[[[[[a0 a1] a2] a3] [[[b0 b1] b2] b3]] [[[c0 c1] c2] c3]] [[[d0 d1] d2] d3]].

Lemma SubShift_ok s : state_ok s -> state_ok (ShiftRows (SubBytes s)).
Proof.
  open_state s. intros ((?&?&?&?)&(?&?&?&?)&(?&?&?&?)&(?&?&?&?)).
  simpl. split_and!; by apply sub_byte_range.
Qed.

Lemma MixColumns_ok s : state_ok s -> state_ok (MixColumns s).
Proof.
  destruct s as [[[? ?] ?] ?]. intros (?&?&?&?).
  split_and!; by apply mix_col_ok.
Qed.

Lemma round_ok w r s : state_ok s -> state_ok (round w r s).
Proof. intros. apply AddRoundKey_ok; [by apply MixColumns_ok, SubShift_ok|apply round_key_ok]. Qed.

Lemma bytes_at_pack a b c d :
  is_u8 a -> is_u8 b -> is_u8 c -> is_u8 d ->
  u8 (col_word (a, b, c, d) .>> 24) = a /\ u8 (col_word (a, b, c, d) .>> 16) = b /\
  u8 (col_word (a, b, c, d) .>> 8) = c /\ u8 (col_word (a, b, c, d)) = d.
Proof. unfold col_word. rewrite (u8_byte_at (pack4 a b c d)). apply byte_at_pack4. Qed.

(** Rewrites the byte selections of a packed column. *)
Ltac unpack_col a b c d :=
  let E := fresh in
  assert (E := bytes_at_pack a b c d); specialize (E ltac:(done) ltac:(done) ltac:(done) ltac:(done));
  destruct E as (?E & ?E & ?E & ?E);
  repeat match goal with H : u8 _ = _ |- _ => rewrite !H; clear H end.

Lemma fround_col k a b c d :
  is_u32 k -> is_u8 a -> is_u8 b -> is_u8 c -> is_u8 d ->
  k .^ znth (FT0 T) a .^ znth (FT1 T) b .^ znth (FT2 T) c .^ znth (FT3 T) d =
  col_word (xor_col (mix_col (sub_col (a, b, c, d))) (word_col k)).
Proof.
  intros Hk ? ? ? ?.
  rewrite <- col_word_xor, <- FT_column, col_word_col
    by (done || apply word_col_ok || by apply mix_col_ok, sub_col_ok).
  xor_bits.
Qed.

Lemma last_fround_col k a b c d :
  is_u32 k -> is_u8 a -> is_u8 b -> is_u8 c -> is_u8 d ->
  k .^ (znth (FSb T) a .<< 24) .^ (znth (FSb T) b .<< 16) .^
    (znth (FSb T) c .<< 8) .^ znth (FSb T) d =
  col_word (xor_col (sub_col (a, b, c, d)) (word_col k)).
Proof.
  intros Hk ? ? ? ?. rewrite T_FSb, !FSb_sub by done.
  rewrite <- col_word_xor, col_word_col by (done || apply word_col_ok || by apply sub_col_ok).
  unfold sub_col, col_word. rewrite <- pack4_shifts by auto with crange. xor_bits.
Qed.

Lemma rround_col k a b c d :
  is_u32 k -> is_u8 a -> is_u8 b -> is_u8 c -> is_u8 d ->
  k .^ znth (RT0 T) (sub_byte a) .^ znth (RT1 T) (sub_byte b) .^
    znth (RT2 T) (sub_byte c) .^ znth (RT3 T) (sub_byte d) =
  col_word (xor_col (inv_mix_col (a, b, c, d)) (word_col k)).
Proof.
  intros Hk ? ? ? ?.
  rewrite <- col_word_xor, <- RT_column, col_word_col
    by (done || apply word_col_ok || by apply inv_mix_col_ok).
  xor_bits.
Qed.

Lemma last_rround_col k a b c d :
  is_u32 k -> is_u8 a -> is_u8 b -> is_u8 c -> is_u8 d ->
  k .^ (znth (RSb T) (sub_byte a) .<< 24) .^ (znth (RSb T) (sub_byte b) .<< 16) .^
    (znth (RSb T) (sub_byte c) .<< 8) .^ znth (RSb T) (sub_byte d) =
  col_word (xor_col (a, b, c, d) (word_col k)).
Proof.
  intros Hk ? ? ? ?. rewrite T_RSb, !RSb_sub by done.
  rewrite <- col_word_xor, col_word_col by (done || apply word_col_ok).
  unfold col_word. rewrite <- pack4_shifts by done. xor_bits.
Qed.

Lemma pair4 {A B C D : Type} (a a' : A) (b b' : B) (c c' : C) (d d' : D) :
  a = a' -> b = b' -> c = c' -> d = d' -> (a, b, c, d) = (a', b', c', d').
Proof. by intros -> -> -> ->. Qed.

Lemma FROUND_spec rk r s :
  words_ok rk -> state_ok s ->
  AES_FROUND T rk (4 * r) (pack_state s) = pack_state (round rk r s).
Proof.
  intros Hk. open_state s. intros ((?&?&?&?)&(?&?&?&?)&(?&?&?&?)&(?&?&?&?)).
  unfold AES_FROUND, pack_state.
  unpack_col a0 a1 a2 a3. unpack_col b0 b1 b2 b3. unpack_col c0 c1 c2 c3. unpack_col d0 d1 d2 d3.
  apply pair4; apply fround_col; auto with crange.
Qed.

Lemma last_fround_spec rk r s :
  words_ok rk -> state_ok s ->
  last_fround T rk (4 * r) (pack_state s) = pack_state (final_round rk r s).
Proof.
  intros Hk. open_state s. intros ((?&?&?&?)&(?&?&?&?)&(?&?&?&?)&(?&?&?&?)).
  unfold last_fround, pack_state.
  unpack_col a0 a1 a2 a3. unpack_col b0 b1 b2 b3. unpack_col c0 c1 c2 c3. unpack_col d0 d1 d2 d3.
  apply pair4; apply last_fround_col; auto with crange.
Qed.

(** A decryption round undoes the substitution and the shift, then applies
    the inverse column mixing. *)
Definition InvMixColumns '((c0, c1, c2, c3) : state) : state :=
  (inv_mix_col c0, inv_mix_col c1, inv_mix_col c2, inv_mix_col c3).

(** Every byte variable in the context has an S-box image that is a byte. *)
Ltac pose_sub_ranges :=
  repeat match goal with H : is_u8 ?a |- _ =>
    is_var a;
    lazymatch goal with
    | _ : is_u8 (sub_byte a) |- _ => fail
    | _ => pose proof (sub_byte_range a H)
    end end.

Lemma RROUND_spec rk r s :
  words_ok rk -> state_ok s ->
  AES_RROUND T rk (4 * r) (pack_state (ShiftRows (SubBytes s))) =
  pack_state (AddRoundKey (InvMixColumns s) (round_key rk r)).
Proof.
  intros Hk. open_state s. intros ((?&?&?&?)&(?&?&?&?)&(?&?&?&?)&(?&?&?&?)).
  unfold AES_RROUND, pack_state, SubBytes, ShiftRows, sub_col.
  pose_sub_ranges.
  unpack_col (sub_byte a0) (sub_byte b1) (sub_byte c2) (sub_byte d3).
  unpack_col (sub_byte b0) (sub_byte c1) (sub_byte d2) (sub_byte a3).
  unpack_col (sub_byte c0) (sub_byte d1) (sub_byte a2) (sub_byte b3).
  unpack_col (sub_byte d0) (sub_byte a1) (sub_byte b2) (sub_byte c3).
  apply pair4; apply rround_col; auto with crange.
Qed.

Lemma last_rround_spec rk r s :
  words_ok rk -> state_ok s ->
  last_rround T rk (4 * r) (pack_state (ShiftRows (SubBytes s))) =
  pack_state (AddRoundKey s (round_key rk r)).
Proof.
  intros Hk. open_state s. intros ((?&?&?&?)&(?&?&?&?)&(?&?&?&?)&(?&?&?&?)).
  unfold last_rround, pack_state, SubBytes, ShiftRows, sub_col.
  pose_sub_ranges.
  unpack_col (sub_byte a0) (sub_byte b1) (sub_byte c2) (sub_byte d3).
  unpack_col (sub_byte b0) (sub_byte c1) (sub_byte d2) (sub_byte a3).
  unpack_col (sub_byte c0) (sub_byte d1) (sub_byte a2) (sub_byte b3).
  unpack_col (sub_byte d0) (sub_byte a1) (sub_byte b2) (sub_byte c3).
  apply pair4; apply last_rround_col; auto with crange.
Qed.

(** ** Blocks of bytes *)

(** A list of 16 elements, element by element. *)
Ltac open16 l :=
  do 17 (destruct l as [|? l]; try (simpl in *; lia)); simpl in *.

Lemma GET_UINT32_pack l i : bytes l ->
  GET_UINT32 l i = pack4 (znth l i) (znth l (i + 1)) (znth l (i + 2)) (znth l (i + 3)).
Proof. intros. apply pack4_shifts_lor; auto with crange. Qed.

Lemma words_znth l i : 0 <= i < 4 -> length l = 16%nat -> bytes l ->
  znth (words l) i = GET_UINT32 l (4 * i).
Proof.
  intros Hi Hl Hb. rewrite GET_UINT32_pack by done. open16 l.
  assert (i = 0 \/ i = 1 \/ i = 2 \/ i = 3) as [->|[->|[->| ->]]] by lia; reflexivity.
Qed.

Lemma GET_UINT32_range l i : bytes l -> is_u32 (GET_UINT32 l i).
Proof. intros. rewrite GET_UINT32_pack by done. auto with crange. Qed.

Lemma state_of_ok l : state_ok (state_of l).
Proof. unfold state_of. split_and!; apply word_col_ok. Qed.

Lemma load_block_spec rk l :
  words_ok rk -> length l = 16%nat -> bytes l ->
  load_block rk l = pack_state (AddRoundKey (state_of l) (round_key rk 0)).
Proof.
  intros Hk Hl Hb. unfold load_block, pack_state, state_of, round_key, AddRoundKey.
  apply pair4; rewrite <- col_word_xor, words_znth, !col_word_col
    by (lia || apply word_col_ok || (by apply GET_UINT32_range) || auto with crange); done.
Qed.

Lemma store_block_spec s out :
  state_ok s -> length out = 16%nat -> store_block (pack_state s) out = bytes_of s.
Proof.
  open_state s. intros ((?&?&?&?)&(?&?&?&?)&(?&?&?&?)&(?&?&?&?)) Hl.
  unfold store_block, pack_state, PUT_UINT32.
  unpack_col a0 a1 a2 a3. unpack_col b0 b1 b2 b3. unpack_col c0 c1 c2 c3. unpack_col d0 d1 d2 d3.
  open16 out. reflexivity.
Qed.

Lemma bytes_of_state_of l :
  length l = 16%nat -> bytes l -> bytes_of (state_of l) = l.
Proof.
  intros Hl Hb. open16 l.
  repeat match goal with H : bytes (_ :: _) |- _ => inversion H; clear H; subst end.
  unfold state_of, words, word_col, bytes_of.
  change (znth (?a :: ?b :: ?c :: ?d :: []) 0) with a.
  change (znth (?a :: ?b :: ?c :: ?d :: []) 1) with b.
  change (znth (?a :: ?b :: ?c :: ?d :: []) 2) with c.
  change (znth (?a :: ?b :: ?c :: ?d :: []) 3) with d.
  repeat match goal with |- context [byte_at (pack4 ?a ?b ?c ?d) _] =>
    destruct (byte_at_pack4 a b c d) as (->&->&->&->); [done..|] end.
  reflexivity.
Qed.

Lemma state_of_bytes_of s : state_ok s -> state_of (bytes_of s) = s.
Proof.
  open_state s. intros ((?&?&?&?)&(?&?&?&?)&(?&?&?&?)&(?&?&?&?)).
  apply pair4; apply (word_col_word (_, _, _, _)); done.
Qed.

Lemma bytes_of_length s : length (bytes_of s) = 16%nat.
Proof. by open_state s. Qed.

Lemma bytes_of_bytes s : state_ok s -> bytes (bytes_of s).
Proof.
  open_state s. intros ((?&?&?&?)&(?&?&?&?)&(?&?&?&?)&(?&?&?&?)).
  simpl. repeat constructor; unfold is_u8 in *; lia.
Qed.

(** ** Encryption with a given schedule *)

Lemma FROUND_at rk p r s :
  p = 4 * r -> words_ok rk -> state_ok s ->
  AES_FROUND T rk p (pack_state s) = pack_state (round rk r s).
Proof. intros ->. apply FROUND_spec. Qed.

Lemma for_round_ok w i n s : state_ok s -> state_ok (for_ i n (round w) s).
Proof. revert i s. induction n; intros; simpl; auto using round_ok. Qed.

Lemma start_ok w s : state_ok s -> state_ok (AddRoundKey s (round_key w 0)).
Proof. intros. apply AddRoundKey_ok; [done|apply round_key_ok]. Qed.

Lemma final_round_ok w r s : state_ok s -> state_ok (final_round w r s).
Proof. intros. apply AddRoundKey_ok; [by apply SubShift_ok|apply round_key_ok]. Qed.

Lemma Cipher_ok w n s : state_ok s -> state_ok (Cipher w n s).
Proof. intros. by apply final_round_ok, for_round_ok, start_ok. Qed.

#[local] Opaque round final_round AddRoundKey state_of state_ok words_ok round_key.

(** States along a run of rounds hold bytes. *)
Ltac run_ok := first [apply final_round_ok; run_ok | apply round_ok; run_ok
                     | apply start_ok; run_ok | apply state_of_ok].

(** Rewrites the innermost table round, whose key position is [4 * r]. *)
Ltac fround_step r := rewrite (FROUND_at _ _ r) by (assumption || lia || run_ok).

Lemma aes_encrypt_cipher g ctx l out :
  tab g = T -> words_ok (erk ctx) -> nr ctx = 10 \/ nr ctx = 12 \/ nr ctx = 14 ->
  length l = 16%nat -> bytes l -> length out = 16%nat ->
  aes_encrypt g ctx l out = bytes_of (Cipher (erk ctx) (nr ctx) (state_of l)).
Proof.
  intros Ht Hk Hnr Hl Hb Ho. unfold aes_encrypt. rewrite Ht, load_block_spec by done.
  fround_step 1. fround_step 2. fround_step 3. fround_step 4. fround_step 5.
  fround_step 6. fround_step 7. fround_step 8. fround_step 9.
  destruct Hnr as [->|[->| ->]]; simpl.
  - rewrite (last_fround_spec _ 10), store_block_spec by (assumption || run_ok). done.
  - fround_step 10. fround_step 11.
    rewrite (last_fround_spec _ 12), store_block_spec by (assumption || run_ok). done.
  - fround_step 10. fround_step 11. fround_step 12. fround_step 13.
    rewrite (last_fround_spec _ 14), store_block_spec by (assumption || run_ok). done.
Qed.

#[local] Transparent round final_round AddRoundKey state_of state_ok round_key.

(** ** Decryption with a given pair of schedules *)

Lemma xor_col_cancel c k : xor_col (xor_col c k) k = c.
Proof.
  destruct c as [[[a b] c] d], k as [[[a' b'] c'] d']. simpl.
  by rewrite !Z.lxor_assoc, !Z.lxor_nilpotent, !Z.lxor_0_r.
Qed.

Lemma AddRoundKey_cancel s k : AddRoundKey (AddRoundKey s k) k = s.
Proof.
  destruct s as [[[? ?] ?] ?], k as [[[? ?] ?] ?]. simpl. by rewrite !xor_col_cancel.
Qed.

Lemma InvMix_round s k : state_ok s -> state_ok k ->
  AddRoundKey (InvMixColumns (AddRoundKey (MixColumns s) k)) (InvMixColumns k) = s.
Proof.
  destruct s as [[[? ?] ?] ?], k as [[[? ?] ?] ?]. intros (?&?&?&?) (?&?&?&?). simpl.
  rewrite !inv_mix_col_xor, !inv_mix_mix_col, !xor_col_cancel by auto using mix_col_ok. done.
Qed.

(** The two schedules fit: the decryption keys are the encryption keys in
    reverse order, the inner ones through the inverse column mixing. *)
Definition schedules_fit (ek dk : list Z) (n : Z) : Prop :=
  round_key dk 0 = round_key ek n /\ round_key dk n = round_key ek 0 /\
  forall i, 0 < i < n -> round_key dk i = InvMixColumns (round_key ek (n - i)).

Lemma RROUND_at ek dk n p i s :
  p = 4 * i -> 0 < i < n -> schedules_fit ek dk n -> words_ok dk -> state_ok s ->
  AES_RROUND T dk p (pack_state (ShiftRows (SubBytes (round ek (n - i) s)))) =
  pack_state (ShiftRows (SubBytes s)).
Proof.
  intros -> Hi (_ & _ & Hf) Hk Hs. rewrite RROUND_spec by (done || by apply round_ok).
  rewrite Hf by lia. unfold round.
  rewrite InvMix_round by (apply SubShift_ok || apply round_key_ok; done). done.
Qed.

Lemma load_cipher ek dk n s :
  schedules_fit ek dk n -> words_ok dk -> state_ok s ->
  load_block dk (bytes_of (final_round ek n s)) = pack_state (ShiftRows (SubBytes s)).
Proof.
  intros (Hf & _ & _) Hk Hs.
  rewrite load_block_spec, state_of_bytes_of, Hf
    by (done || apply bytes_of_length || apply bytes_of_bytes || idtac; by apply final_round_ok).
  unfold final_round. by rewrite AddRoundKey_cancel.
Qed.

Lemma last_rround_at ek dk n p s :
  p = 4 * n -> schedules_fit ek dk n -> words_ok dk -> state_ok s ->
  last_rround T dk p (pack_state (ShiftRows (SubBytes (AddRoundKey s (round_key ek 0))))) =
  pack_state s.
Proof.
  intros -> (_ & Hf & _) Hk Hs.
  rewrite last_rround_spec, Hf, AddRoundKey_cancel by (done || by apply start_ok). done.
Qed.

#[local] Opaque round final_round AddRoundKey state_of state_ok words_ok round_key ShiftRows SubBytes.

Ltac rround_step n i := rewrite (RROUND_at _ _ n _ i) by (assumption || lia || run_ok).

Lemma aes_decrypt_cipher g ctx ek l out :
  tab g = T -> words_ok (drk ctx) -> nr ctx = 10 \/ nr ctx = 12 \/ nr ctx = 14 ->
  schedules_fit ek (drk ctx) (nr ctx) ->
  length l = 16%nat -> bytes l -> length out = 16%nat ->
  aes_decrypt g ctx (bytes_of (Cipher ek (nr ctx) (state_of l))) out = l.
Proof.
  intros Ht Hk Hnr Hf Hl Hb Ho. unfold aes_decrypt, Cipher.
  rewrite Ht, load_cipher by (assumption || apply for_round_ok; run_ok).
  destruct Hnr as [E|[E|E]]; rewrite E in *; clear E; simpl for_.
  - rround_step 10 1. rround_step 10 2. rround_step 10 3. rround_step 10 4. rround_step 10 5.
    rround_step 10 6. rround_step 10 7. rround_step 10 8. rround_step 10 9.
    simpl. rewrite (last_rround_at ek _ 10), store_block_spec, bytes_of_state_of
      by (assumption || lia || run_ok). done.
  - rround_step 12 1. rround_step 12 2. rround_step 12 3. rround_step 12 4. rround_step 12 5.
    rround_step 12 6. rround_step 12 7. rround_step 12 8. rround_step 12 9. simpl.
    rround_step 12 10. rround_step 12 11.
    rewrite (last_rround_at ek _ 12), store_block_spec, bytes_of_state_of
      by (assumption || lia || run_ok). done.
  - rround_step 14 1. rround_step 14 2. rround_step 14 3. rround_step 14 4. rround_step 14 5.
    rround_step 14 6. rround_step 14 7. rround_step 14 8. rround_step 14 9. simpl.
    rround_step 14 10. rround_step 14 11. rround_step 14 12. rround_step 14 13.
    rewrite (last_rround_at ek _ 14), store_block_spec, bytes_of_state_of
      by (assumption || lia || run_ok). done.
Qed.
