(* ===== verification/AesKeys.v ===== *)
(** * The key schedule of aes.c, and the theorems on the cipher

    [aes_set_key] fills [ctx->erk] with the key expansion of FIPS-197 and
    [ctx->drk] with the schedule of the equivalent inverse cipher, from any
    reachable state of the global tables.  With [AesProofs] this gives the
    theorems on the cipher. *)

From S2P Require Import Prelude AesTables Aes AesSpec AesProofs.
Import Fips.

(** ** The recurrence of the key expansion *)

(** Word [i] from the words before it. *)
Definition next_of (nk : Z) (W : Z -> Z) (i : Z) : Z :=
  let temp := W (i - 1) in
  let temp :=
    if i mod nk =? 0 then SubWord (RotWord temp) .^ Rcon (i / nk)
    else if (6 <? nk) && (i mod nk =? 4) then SubWord temp else temp in
  W (i - nk) .^ temp.

Lemma next_of_ext nk W W' i :
  0 < nk -> (forall j, i - nk <= j < i -> W j = W' j) -> next_of nk W i = next_of nk W' i.
Proof. intros Hk H. unfold next_of. rewrite !H by lia. done. Qed.

Lemma length_expand nk n ws : length (expand nk n ws) = (length ws + n)%nat.
Proof.
  revert ws. induction n as [|n IH]; intros ws; simpl; [lia|].
  rewrite IH, length_app. simpl. lia.
Qed.

Lemma expand_prefix nk n ws i :
  0 <= i < zlen ws -> znth (expand nk n ws) i = znth ws i.
Proof.
  revert ws. unfold zlen. induction n as [|n IH]; intros ws Hi; simpl; [done|].
  rewrite IH by (rewrite length_app; simpl; lia). by rewrite znth_app_l.
Qed.

Lemma expand_rec nk n ws i :
  0 < nk <= zlen ws -> zlen ws <= i < zlen ws + Z.of_nat n ->
  znth (expand nk n ws) i = next_of nk (znth (expand nk n ws)) i.
Proof.
  revert ws. unfold zlen. induction n as [|n IH]; intros ws Hk Hi; [lia|]. simpl.
  destruct (Z.eq_dec i (zlen ws)) as [->|Hne]; unfold zlen in *.
  - rewrite (next_of_ext nk _ (znth ws)); [|lia|].
    + rewrite expand_prefix by (unfold zlen; rewrite length_app; simpl; lia).
      rewrite znth_app_r, Z.sub_diag by lia. reflexivity.
    + intros j Hj. rewrite expand_prefix by (unfold zlen; rewrite length_app; simpl; lia).
      by rewrite znth_app_l by lia.
  - apply IH; rewrite length_app; simpl; lia.
Qed.

Lemma expand_add nk n m ws : expand nk (n + m) ws = expand nk m (expand nk n ws).
Proof. revert ws. induction n; intros; simpl; auto. Qed.

(** ** Filling the array word by word *)

(** The first [n] words of [rk] are those of [W]; all words are 32-bit. *)
Definition filled (rk : list Z) (W : Z -> Z) (n : Z) : Prop :=
  length rk = 64%nat /\ words_ok rk /\ forall j, 0 <= j < n -> znth rk j = W j.

Lemma filled_step rk W n v :
  0 <= n < 64 -> is_u32 (W n) -> filled rk W n -> v = W n -> filled (zset rk n v) W (n + 1).
Proof.
  intros Hn Hu (Hl & Hw & H) ->. split; [by rewrite length_zset|].
  split; [by apply Forall_insert|]. intros j Hj.
  destruct (Z.eq_dec j n) as [->|]; [by rewrite znth_zset_eq by lia|].
  rewrite znth_zset_ne by lia. apply H. lia.
Qed.

Lemma RCON_entry i : 0 <= i < 10 -> znth (RCON T) i = Rcon (i + 1).
Proof.
  intros Hi.
  assert (H : forallb (fun i => znth (RCON T) i =? Rcon (i + 1)) [0;1;2;3;4;5;6;7;8;9] = true)
    by (vm_compute; done).
  rewrite forallb_forall in H. apply Z.eqb_eq, H.
  assert (i = 0 \/ i = 1 \/ i = 2 \/ i = 3 \/ i = 4 \/ i = 5 \/ i = 6 \/ i = 7 \/ i = 8 \/ i = 9)
    by lia. simpl. lia.
Qed.

Lemma SubWord_shifts w :
  (znth (FSb T) (u8 (w .>> 24)) .<< 24) .^ (znth (FSb T) (u8 (w .>> 16)) .<< 16) .^
  (znth (FSb T) (u8 (w .>> 8)) .<< 8) .^ znth (FSb T) (u8 w) = SubWord w.
Proof.
  rewrite (u8_byte_at w). rewrite T_FSb.
  rewrite !FSb_sub by auto with crange.
  apply pack4_shifts; apply sub_byte_range; auto with crange.
Qed.

Lemma SubWord_RotWord w :
  SubWord (RotWord w) =
  (znth (FSb T) (u8 (w .>> 16)) .<< 24) .^ (znth (FSb T) (u8 (w .>> 8)) .<< 16) .^
  (znth (FSb T) (u8 w) .<< 8) .^ znth (FSb T) (u8 (w .>> 24)).
Proof.
  rewrite (u8_byte_at w), T_FSb. rewrite !FSb_sub by auto with crange.
  rewrite pack4_shifts by (apply sub_byte_range; auto with crange).
  unfold SubWord, RotWord.
  destruct (byte_at_pack4 (byte_at w 16) (byte_at w 8) (byte_at w 0) (byte_at w 24))
    as (->&->&->&->); auto with crange.
Qed.

(** The first word of a group, as the code computes it. *)
Lemma group_word k rc w :
  k .^ rc .^ (znth (FSb T) (u8 (w .>> 16)) .<< 24) .^ (znth (FSb T) (u8 (w .>> 8)) .<< 16) .^
    (znth (FSb T) (u8 w) .<< 8) .^ znth (FSb T) (u8 (w .>> 24)) =
  k .^ (SubWord (RotWord w) .^ rc).
Proof. rewrite SubWord_RotWord. xor_bits. Qed.

Lemma middle_word k w :
  k .^ (znth (FSb T) (u8 (w .>> 24)) .<< 24) .^ (znth (FSb T) (u8 (w .>> 16)) .<< 16) .^
    (znth (FSb T) (u8 (w .>> 8)) .<< 8) .^ znth (FSb T) (u8 w) =
  k .^ SubWord w.
Proof. rewrite <- SubWord_shifts. xor_bits. Qed.

(** Words at the three kinds of positions. *)
Section Recurrence.
  Context (nk : Z) (W : Z -> Z).
  Hypothesis Hnk : nk = 4 \/ nk = 6 \/ nk = 8.
  Hypothesis HW : forall i, nk <= i < 64 -> W i = next_of nk W i.

Lemma W_group i : 0 <= i < 10 -> nk * i + nk < 64 ->
    W (nk * i + nk) = W (nk * i) .^ (SubWord (RotWord (W (nk * i + (nk - 1)))) .^ znth (RCON T) i).
  Proof using Hnk HW.
    intros Hi Hb. rewrite HW by nia. unfold next_of.
    replace ((nk * i + nk) mod nk) with 0
      by (replace (nk * i + nk) with ((i + 1) * nk) by ring; rewrite Z.mod_mul; lia).
    replace ((nk * i + nk) / nk) with (i + 1)
      by (replace (nk * i + nk) with ((i + 1) * nk) by ring; rewrite Z.div_mul; lia).
    rewrite RCON_entry by lia. simpl. f_equal; [f_equal; lia|].
    by replace (nk * i + nk - 1) with (nk * i + (nk - 1)) by lia.
  Qed.

Lemma W_plain i c : 0 <= i -> 0 < c < nk -> (nk = 8 -> c <> 4) -> nk * i + nk + c < 64 ->
    W (nk * i + nk + c) = W (nk * i + c) .^ W (nk * i + nk + (c - 1)).
  Proof using Hnk HW.
    intros Hi Hc H8 Hb. rewrite HW by nia. unfold next_of.
    replace ((nk * i + nk + c) mod nk) with c
      by (replace (nk * i + nk + c) with (c + (i + 1) * nk) by ring;
          rewrite Z.mod_add, Z.mod_small; lia).
    destruct (Z.eqb_spec c 0); [lia|].
    replace ((6 <? nk) && (c =? 4)) with false
      by (destruct (Z.ltb_spec 6 nk), (Z.eqb_spec c 4); simpl; lia || done).
    f_equal; f_equal; lia.
  Qed.

Lemma W_middle i : nk = 8 -> 0 <= i -> 8 * i + 12 < 64 ->
    W (8 * i + 12) = W (8 * i + 4) .^ SubWord (W (8 * i + 11)).
  Proof using Hnk HW.
    intros E Hi Hb. rewrite HW by lia. unfold next_of. rewrite E.
    replace ((8 * i + 12) mod 8) with 4
      by (replace (8 * i + 12) with (4 + (i + 1) * 8) by ring; rewrite Z.mod_add, Z.mod_small; lia).
    simpl. f_equal; [f_equal; lia|]. f_equal. f_equal. lia.
  Qed.
End Recurrence.

(** ** One iteration of each loop *)

Lemma filled_let rk (f : list Z -> list Z) W n m :
  filled rk W n -> (forall r, filled r W n -> filled (f r) W m) -> filled (f rk) W m.
Proof. auto. Qed.

Lemma filled_put rk W n p v m :
  (forall i, is_u32 (W i)) -> filled rk W n -> p = n -> 0 <= n < 64 -> v = W n -> m = n + 1 ->
  filled (zset rk p v) W m.
Proof. intros ? ? -> ? ? ->. by apply filled_step. Qed.

(** Reads below the filled part. *)
Ltac read_filled :=
  repeat match goal with H : filled ?rk ?W ?n |- context [znth ?rk ?j] =>
    rewrite (proj2 (proj2 H) j) by lia end.

(** Handles one assignment [let rk := zset rk (p + c) v in ...]. *)
Ltac assign n tac :=
  lazymatch goal with
  | |- filled (let r := ?e in @?f r) ?W ?m =>
      refine (filled_let e f W n m _ _);
      [eapply filled_put; [eassumption|eassumption|lia|lia|read_filled; tac|lia]|];
      let r := fresh "rk" in let H := fresh "F" in intros r H; cbv beta
  | |- filled (zset _ _ _) _ _ =>
      eapply filled_put; [eassumption|eassumption|lia|lia|read_filled; tac|lia]
  end.

Ltac plain nk i c Hrec :=
  match goal with |- ?W ?a = _ =>
    replace a with (nk * i + nk + c) by lia;
    rewrite (W_plain nk _ ltac:(lia) Hrec i c) by lia; f_equal; f_equal; lia
  end.

Ltac group nk i Hrec :=
  match goal with |- ?W ?a = _ =>
    replace a with (nk * i + nk) by lia;
    rewrite (W_group nk _ ltac:(lia) Hrec i) by lia; repeat f_equal; lia
  end.

Lemma step_128 W i rk :
  (forall i, is_u32 (W i)) -> (forall i, 4 <= i < 64 -> W i = next_of 4 W i) -> 0 <= i < 10 ->
  filled rk W (4 * i + 4) -> filled (rk_step_128 T i (4 * i) rk) W (4 * i + 8).
Proof.
  intros Hu Hrec Hi F0. cbv beta delta [rk_step_128].
  assign (4 * i + 5) ltac:(rewrite group_word; symmetry; group 4 i Hrec).
  assign (4 * i + 6) ltac:(symmetry; plain 4 i 1 Hrec).
  assign (4 * i + 7) ltac:(symmetry; plain 4 i 2 Hrec).
  assign (4 * i + 8) ltac:(symmetry; plain 4 i 3 Hrec).
Qed.

Lemma step_192 W i rk :
  (forall i, is_u32 (W i)) -> (forall i, 6 <= i < 64 -> W i = next_of 6 W i) -> 0 <= i < 8 ->
  filled rk W (6 * i + 6) -> filled (rk_step_192 T i (6 * i) rk) W (6 * i + 12).
Proof.
  intros Hu Hrec Hi F0. cbv beta delta [rk_step_192].
  assign (6 * i + 7) ltac:(rewrite group_word; symmetry; group 6 i Hrec).
  assign (6 * i + 8) ltac:(symmetry; plain 6 i 1 Hrec).
  assign (6 * i + 9) ltac:(symmetry; plain 6 i 2 Hrec).
  assign (6 * i + 10) ltac:(symmetry; plain 6 i 3 Hrec).
  assign (6 * i + 11) ltac:(symmetry; plain 6 i 4 Hrec).
  assign (6 * i + 12) ltac:(symmetry; plain 6 i 5 Hrec).
Qed.

Lemma step_256 W i rk :
  (forall i, is_u32 (W i)) -> (forall i, 8 <= i < 64 -> W i = next_of 8 W i) -> 0 <= i < 7 ->
  filled rk W (8 * i + 8) -> filled (rk_step_256 T i (8 * i) rk) W (8 * i + 16).
Proof.
  intros Hu Hrec Hi F0. cbv beta delta [rk_step_256].
  assign (8 * i + 9) ltac:(rewrite group_word; symmetry; group 8 i Hrec).
  assign (8 * i + 10) ltac:(symmetry; plain 8 i 1 Hrec).
  assign (8 * i + 11) ltac:(symmetry; plain 8 i 2 Hrec).
  assign (8 * i + 12) ltac:(symmetry; plain 8 i 3 Hrec).
  assign (8 * i + 13) ltac:(rewrite middle_word; symmetry; apply (W_middle 8 W ltac:(lia) Hrec); lia).
  assign (8 * i + 14) ltac:(symmetry; plain 8 i 5 Hrec).
  assign (8 * i + 15) ltac:(symmetry; plain 8 i 6 Hrec).
  assign (8 * i + 16) ltac:(symmetry; plain 8 i 7 Hrec).
Qed.

(** The three loops. *)
Lemma loop_filled nk n (step : Z -> Z -> list Z -> list Z) W rk :
  filled rk W nk ->
  (forall j r, 0 <= j < Z.of_nat n -> filled r W (nk * j + nk) ->
     filled (step j (nk * j) r) W (nk * (j + 1) + nk)) ->
  exists rk', for_ 0 n (fun i '(rk, p) => (step i p rk, p + nk)) (rk, 0) =
                (rk', nk * Z.of_nat n) /\
              filled rk' W (nk * Z.of_nat n + nk).
Proof.
  intros F Hs.
  pose proof (for_inv (fun i s => snd s = nk * i /\ filled (fst s) W (nk * i + nk))
    (fun i '(rk, p) => (step i p rk, p + nk)) 0 n (rk, 0)) as H.
  destruct (for_ 0 n _ (rk, 0)) as [rk' p]. destruct H as [Hp Hf].
  - split; simpl; [lia|]. by replace (nk * 0 + nk) with nk by lia.
  - intros j [r q] Hj [Hq Hf]. simpl in Hq, Hf. subst q. split; simpl; [lia|].
    apply Hs; [lia|done].
  - exists rk'. simpl in Hp, Hf. rewrite Z.add_0_l in *. subst p. done.
Qed.

Lemma filled_mono rk W n m : filled rk W n -> m <= n -> filled rk W m.
Proof. intros (? & ? & H) ?. split_and!; [done..|]. intros. apply H. lia. Qed.

Lemma expand_key_filled nk W rk :
  nk = 4 \/ nk = 6 \/ nk = 8 -> (forall i, is_u32 (W i)) ->
  (forall i, nk <= i < 64 -> W i = next_of nk W i) -> filled rk W nk ->
  exists rk', expand_key T (32 * nk) rk = (rk', 4 * (nk + 6)) /\ filled rk' W (4 * (nk + 7)).
Proof.
  intros Hnk Hu Hrec F. unfold expand_key. destruct Hnk as [->|[->| ->]].
  - destruct (loop_filled 4 10 (rk_step_128 T) W rk F) as (rk' & E & F').
    + intros j r Hj Fr. replace (4 * (j + 1) + 4) with (4 * j + 8) by lia.
      apply step_128; auto; lia.
    + exists rk'. split; [exact E|]. apply (filled_mono _ _ _ _ F'). lia.
  - destruct (loop_filled 6 8 (rk_step_192 T) W rk F) as (rk' & E & F').
    + intros j r Hj Fr. replace (6 * (j + 1) + 6) with (6 * j + 12) by lia.
      apply step_192; auto; lia.
    + exists rk'. split; [exact E|]. apply (filled_mono _ _ _ _ F'). lia.
  - destruct (loop_filled 8 7 (rk_step_256 T) W rk F) as (rk' & E & F').
    + intros j r Hj Fr. replace (8 * (j + 1) + 8) with (8 * j + 16) by lia.
      apply step_256; auto; lia.
    + exists rk'. split; [exact E|]. apply (filled_mono _ _ _ _ F'). lia.
Qed.

(** ** The decryption schedule *)

(** Four words copied (or converted) from position [p] of [rk] to [q] of [sk]. *)
Lemma transfer4 (f : Z -> Z) rk sk D p q :
  (forall i, is_u32 (D i)) -> filled sk D q -> 0 <= q -> q + 4 <= 64 ->
  (forall c, 0 <= c < 4 -> f (znth rk (p + c)) = D (q + c)) ->
  exists sk', for_ 0 4 (fun _ '(sk, p, q) => (zset sk q (f (znth rk p)), p + 1, q + 1)) (sk, p, q) =
                (sk', p + 4, q + 4) /\ filled sk' D (q + 4).
Proof.
  intros Hu F Hq Hb HD. simpl.
  eexists. split; [f_equal; [f_equal|]; lia|].
  assert (H : forall c sk, 0 <= c < 4 -> filled sk D (q + c) ->
    filled (zset sk (q + c) (f (znth rk (p + c)))) D (q + (c + 1))).
  { intros c s Hc Hs. apply (filled_put _ _ (q + c)); auto; lia. }
  replace q with (q + 0) in F by lia.
  apply H in F; [|lia]. apply H in F; [|lia]. apply H in F; [|lia]. apply H in F; [|lia].
  simpl in F. rewrite !Z.add_0_r in F. rewrite <- !Z.add_assoc. exact F.
Qed.

(** ** The global tables *)

Definition KT_val (rt : list Z) : list Z := map (fun i => znth rt (znth (FSb T) i)) byte_range.

(** The states of the globals between calls: the forward and reverse tables
    are either untouched or generated, and so are the four tables of the
    decryption key schedule, which are generated after them. *)
Definition globals_ok (g : aes_globals) : Prop :=
  tab g = (if do_init g then tables_at_start else T) /\
  if KT_init g
  then KT0 g = zeros 256 /\ KT1 g = zeros 256 /\ KT2 g = zeros 256 /\ KT3 g = zeros 256
  else do_init g = false /\ KT0 g = KT_val (RT0 T) /\ KT1 g = KT_val (RT1 T) /\
       KT2 g = KT_val (RT2 T) /\ KT3 g = KT_val (RT3 T).

(** The globals after a successful call. *)
Definition globals_ready (g : aes_globals) : Prop :=
  globals_ok g /\ do_init g = false /\ KT_init g = false.

Lemma globals_at_start_ok : globals_ok globals_at_start.
Proof. repeat split. Qed.

Lemma init_tables_ok g : globals_ok g ->
  globals_ok (init_tables g) /\ do_init (init_tables g) = false /\ tab (init_tables g) = T.
Proof.
  destruct g as [t [] k0 k1 k2 k3 []]; unfold globals_ok, init_tables; simpl.
  - intros (-> & H). rewrite gen_tables_fixed. done.
  - intros (_ & [=] & _).
  - intros (-> & H). done.
  - intros (-> & H). done.
Qed.

Lemma init_KT_ok g : globals_ok g -> do_init g = false -> globals_ready (init_KT g).
Proof.
  destruct g as [t [] k0 k1 k2 k3 []]; intros (H1 & H2) H3; try done; simpl in *; subst t.
  - destruct H2 as (-> & -> & -> & ->). unfold init_KT. simpl KT_init. cbv iota.
    match goal with |- context [for_ 0 256 ?f ?s] => set (k := for_ 0 256 f s) end.
    assert (E : k = (KT_val (RT0 T), KT_val (RT1 T), KT_val (RT2 T), KT_val (RT3 T)))
      by (subst k; vm_compute; reflexivity).
    rewrite E. repeat split.
Qed.

Lemma KT_val_entry b :
  is_u8 b ->
  znth (KT_val (RT0 T)) b = znth (RT0 T) (sub_byte b) /\
  znth (KT_val (RT1 T)) b = znth (RT1 T) (sub_byte b) /\
  znth (KT_val (RT2 T)) b = znth (RT2 T) (sub_byte b) /\
  znth (KT_val (RT3 T)) b = znth (RT3 T) (sub_byte b).
Proof.
  assert (H : forall rt, znth (KT_val rt) b = znth rt (znth (FSb T) b) \/ ~ is_u8 b).
  { intros rt. destruct (decide (is_u8 b)) as [Hb|]; [left|by right].
    unfold KT_val, znth at 1, byte_range. unfold is_u8 in Hb.
    rewrite map_map, nth_indep with (d' := znth rt (znth (FSb T) (Z.of_nat 0)))
      by (rewrite length_map, length_seq; lia).
    rewrite (map_nth (fun x => znth rt (znth (FSb T) (Z.of_nat x)))), seq_nth by lia.
    do 2 f_equal. lia. }
  intros Hb. rewrite <- FSb_sub by done. rewrite <- T_FSb.
  split_and!; match goal with |- znth (KT_val ?rt) _ = _ => destruct (H rt); done end.
Qed.

Lemma KT_word_spec g w :
  globals_ready g -> is_u32 w -> KT_word g w = col_word (inv_mix_col (word_col w)).
Proof.
  intros ((_ & H) & _ & Hk) Hw. rewrite Hk in H. destruct H as (_ & H0 & H1 & H2 & H3).
  unfold KT_word. rewrite H0, H1, H2, H3, (u8_byte_at w).
  rewrite (proj1 (KT_val_entry (u8 (w .>> 24)) (u8_range _))).
  rewrite (proj1 (proj2 (KT_val_entry (u8 (w .>> 16)) (u8_range _)))).
  rewrite (proj1 (proj2 (proj2 (KT_val_entry (u8 (w .>> 8)) (u8_range _))))).
  rewrite (proj2 (proj2 (proj2 (KT_val_entry (byte_at w 0) (byte_at_range _ _))))).
  apply RT_column; auto with crange.
Qed.

(** ** The decryption keys *)

(** The intended contents of [ctx->drk], in terms of the words [W] of [erk]. *)
Definition drk_word (n : Z) (W : Z -> Z) (j : Z) : Z :=
  if j <? 4 then W (4 * n + j)
  else if j <? 4 * n then col_word (inv_mix_col (word_col (W (4 * (n - j / 4) + j mod 4))))
  else W (j - 4 * n).

Lemma drk_word_range n W j : (forall i, is_u32 (W i)) -> is_u32 (drk_word n W j).
Proof.
  intros Hu. unfold drk_word. repeat case_match; auto.
  apply col_word_range, inv_mix_col_ok, word_col_ok.
Qed.

Lemma expand_drk_filled g rk n W sk :
  globals_ready g -> (forall i, is_u32 (W i)) -> 1 < n <= 14 -> filled rk W (4 * n + 4) ->
  length sk = 64%nat -> words_ok sk ->
  filled (expand_drk g rk (4 * n) n sk) (drk_word n W) (4 * n + 4).
Proof.
  intros Hg Hu Hn Frk Hl Hw. set (D := drk_word n W).
  assert (HD : forall i, is_u32 (D i)) by (intros; by apply drk_word_range).
  assert (Hr : forall j, 0 <= j < 4 * n + 4 -> znth rk j = W j) by apply Frk.
  unfold expand_drk, copy4, convert4.
  destruct (transfer4 (fun x => x) rk sk D (4 * n) 0) as (s1 & E1 & F1); auto; try lia.
  { split_and!; [done..|lia]. }
  { intros c Hc. rewrite Hr by lia. unfold D, drk_word.
    destruct (Z.ltb_spec (0 + c) 4); [f_equal; lia|lia]. }
  rewrite E1. simpl in F1.
  pose proof (for_inv (fun i s => snd (fst s) = 4 * (n - i) + 8 /\ snd s = 4 * i /\
      filled (fst (fst s)) D (4 * i))
    (fun _ '(sk, p, q) => for_ 0 4 (fun _ '(sk, p, q) =>
       (zset sk q (KT_word g (znth rk p)), p + 1, q + 1)) (sk, p - 8, q))
    1 (Z.to_nat (n - 1)) (s1, 4 * n + 4, 0 + 4)) as H.
  destruct (for_ 1 (Z.to_nat (n - 1)) _ (s1, 4 * n + 4, 0 + 4)) as [[s2 p2] q2].
  destruct H as (Hp & Hq & F2).
  - simpl. split_and!; [lia..|]. exact F1.
  - intros j [[s p] q] Hj (Ep & Eq & Fs). simpl in Ep, Eq, Fs. subst p q.
    destruct (transfer4 (KT_word g) rk s D (4 * (n - j) + 8 - 8) (4 * j))
      as (s' & Es & Fs'); auto; try lia.
    { intros c Hc. rewrite Hr by lia. rewrite KT_word_spec by auto. unfold D, drk_word.
      destruct (Z.ltb_spec (4 * j + c) 4); [lia|].
      destruct (Z.ltb_spec (4 * j + c) (4 * n)); [|lia].
      replace ((4 * j + c) / 4) with j by (Z.div_mod_to_equations; lia).
      replace ((4 * j + c) mod 4) with c by (Z.div_mod_to_equations; lia).
      do 4 f_equal. lia. }
    rewrite Es. simpl. split_and!; [lia..|]. by replace (4 * (j + 1)) with (4 * j + 4) by lia.
  - simpl in Hp, Hq, F2. replace (1 + Z.of_nat (Z.to_nat (n - 1))) with n in * by lia.
    subst p2 q2.
    destruct (transfer4 (fun x => x) rk s2 D (4 * (n - n) + 8 - 8) (4 * n))
      as (s3 & E3 & F3); auto; try lia.
    { intros c Hc. rewrite Hr by lia. unfold D, drk_word.
      destruct (Z.ltb_spec (4 * n + c) 4); [lia|].
      destruct (Z.ltb_spec (4 * n + c) (4 * n)); [lia|]. f_equal. lia. }
    rewrite E3. exact F3.
Qed.

Lemma filled_round_key rk W n r :
  filled rk W n -> 0 <= r -> 4 * r + 4 <= n ->
  round_key rk r = (word_col (W (4 * r)), word_col (W (4 * r + 1)),
                    word_col (W (4 * r + 2)), word_col (W (4 * r + 3))).
Proof. intros (_ & _ & H) ? ?. unfold round_key. rewrite !H by lia. done. Qed.

Lemma filled_schedules_fit ek dk W n :
  1 < n <= 14 -> filled ek W (4 * n + 4) -> filled dk (drk_word n W) (4 * n + 4) ->
  schedules_fit ek dk n.
Proof.
  intros Hn Fe Fd. unfold schedules_fit.
  assert (Hd : forall r, 0 <= r <= n -> round_key dk r = _)
    by (intros; apply (filled_round_key _ _ _ _ Fd); lia).
  assert (He : forall r, 0 <= r <= n -> round_key ek r = _)
    by (intros; apply (filled_round_key _ _ _ _ Fe); lia).
  split_and!.
  - rewrite Hd, He by lia. unfold drk_word. simpl.
    by rewrite Z.add_0_r.
  - rewrite Hd, He by lia. unfold drk_word.
    rewrite !(proj2 (Z.ltb_ge _ 4)), !(proj2 (Z.ltb_ge _ (4 * n))) by lia.
    replace (4 * n - 4 * n) with (4 * 0) by lia. replace (4 * n + 1 - 4 * n) with (4 * 0 + 1) by lia.
    replace (4 * n + 2 - 4 * n) with (4 * 0 + 2) by lia.
    by replace (4 * n + 3 - 4 * n) with (4 * 0 + 3) by lia.
  - intros i Hi. rewrite Hd, He by lia. unfold drk_word.
    rewrite !(proj2 (Z.ltb_ge _ 4)), !(proj2 (Z.ltb_lt _ (4 * n))) by lia.
    replace ((4 * i) / 4) with i by (Z.div_mod_to_equations; lia).
    replace ((4 * i + 1) / 4) with i by (Z.div_mod_to_equations; lia).
    replace ((4 * i + 2) / 4) with i by (Z.div_mod_to_equations; lia).
    replace ((4 * i + 3) / 4) with i by (Z.div_mod_to_equations; lia).
    replace ((4 * i) mod 4) with 0 by (Z.div_mod_to_equations; lia).
    replace ((4 * i + 1) mod 4) with 1 by (Z.div_mod_to_equations; lia).
    replace ((4 * i + 2) mod 4) with 2 by (Z.div_mod_to_equations; lia).
    replace ((4 * i + 3) mod 4) with 3 by (Z.div_mod_to_equations; lia).
    rewrite !word_col_word by apply inv_mix_col_ok, word_col_ok.
    unfold InvMixColumns. by rewrite Z.add_0_r.
Qed.

(** ** [aes_set_key] *)

Definition ctx_ok (ctx : aes_context) : Prop :=
  length (erk ctx) = 64%nat /\ length (drk ctx) = 64%nat /\
  words_ok (erk ctx) /\ words_ok (drk ctx).

Lemma words_length key nk : length key = (4 * nk)%nat -> length (words key) = nk.
Proof.
  revert key. induction nk as [|nk IH]; intros key Hl.
  - destruct key; simpl in *; [done|lia].
  - do 4 (destruct key as [|? key]; [simpl in *; lia|]). simpl in *. rewrite IH; lia.
Qed.

Lemma words_GET key nk i :
  bytes key -> length key = (4 * nk)%nat -> 0 <= i < Z.of_nat nk ->
  znth (words key) i = GET_UINT32 key (i * 4).
Proof.
  revert key i. induction nk as [|nk IH]; intros key i Hb Hl Hi; [lia|].
  do 4 (destruct key as [|? key]; [simpl in *; lia|]). simpl words.
  repeat match goal with H : bytes (_ :: _) |- _ => apply Forall_cons_1 in H as [? H] end.
  destruct (Z.eq_dec i 0) as [->|Hne].
  - rewrite GET_UINT32_pack by (repeat constructor; unfold is_u8 in *; lia || done). done.
  - change (znth (?w :: ?ws) i) with (znth ([w] ++ ws) i).
    rewrite znth_app_r by (simpl; lia). simpl length. rewrite IH by (simpl in *; lia || done).
    unfold GET_UINT32.
    assert (H4 : forall k, 0 <= k -> znth (z :: z0 :: z1 :: z2 :: key) (4 + k) = znth key k).
    { intros k Hk. change (z :: z0 :: z1 :: z2 :: key) with ([z; z0; z1; z2] ++ key).
      rewrite znth_app_r by (simpl; lia). f_equal. simpl. lia. }
    replace (i * 4) with (4 + (i - Z.of_nat 1) * 4) by lia.
    rewrite <- !Z.add_assoc, !H4 by lia. done.
Qed.

Lemma next_of_range nk W i : (forall j, is_u32 (W j)) -> is_u32 (next_of nk W i).
Proof.
  intros H. unfold next_of. apply is_u32_lxor; [apply H|].
  assert (HS : forall w, is_u32 (SubWord w))
    by (intros; apply pack4_range; apply sub_byte_range; auto with crange).
  destruct (_ =? 0); [|destruct (_ && _); auto].
  apply is_u32_lxor; [auto|]. apply pack4_range; [|unfold is_u8; lia..].
  apply Nat.iter_invariant; [|unfold is_u8; lia]. intros. by apply xtime_range.
Qed.

Lemma expand_words_ok nk n ws : words_ok ws -> words_ok (expand nk n ws).
Proof.
  revert ws. induction n as [|n IH]; intros ws H; simpl; [done|].
  apply IH. apply Forall_app. split; [done|]. constructor; [|constructor].
  apply (next_of_range nk (znth ws)). intros. by apply znth_words_ok.
Qed.

Lemma words_words_ok key nk : bytes key -> length key = (4 * nk)%nat -> words_ok (words key).
Proof.
  revert key. induction nk as [|nk IH]; intros key Hb Hl.
  - destruct key; simpl in *; [constructor|lia].
  - do 4 (destruct key as [|? key]; [simpl in *; lia|]). simpl words.
    repeat match goal with H : bytes (_ :: _) |- _ => apply Forall_cons_1 in H as [? H] end.
    constructor; [by apply pack4_range|]. apply IH; simpl in *; lia || done.
Qed.

(** The words of the expanded key, one by one. *)
Lemma schedule_words nk key :
  nk = 4 \/ nk = 6 \/ nk = 8 -> bytes key -> zlen key = 4 * nk ->
  let W := znth (expand nk (Z.to_nat (64 - nk)) (words key)) in
  (forall i, is_u32 (W i)) /\ (forall i, nk <= i < 64 -> W i = next_of nk W i) /\
  (forall i, 0 <= i < nk -> W i = GET_UINT32 key (i * 4)) /\
  (forall i, 0 <= i < 4 * (nk + 7) -> W i = znth (KeyExpansion nk key) i).
Proof.
  intros Hnk Hb Hl W. unfold zlen in Hl.
  assert (Hlen : length key = (4 * Z.to_nat nk)%nat) by lia.
  assert (Hwl : zlen (words key) = nk).
  { unfold zlen. rewrite (words_length key (Z.to_nat nk)); lia. }
  split_and!.
  - intros i. apply znth_words_ok, expand_words_ok. by apply (words_words_ok _ (Z.to_nat nk)).
  - intros i Hi. apply expand_rec; lia.
  - intros i Hi. unfold W. rewrite expand_prefix by lia.
    apply (words_GET key (Z.to_nat nk)); lia || done.
  - intros i Hi. unfold W, KeyExpansion.
    replace (Z.to_nat (64 - nk)) with
      (Z.to_nat (4 * (nk + 7) - nk) + Z.to_nat (64 - 4 * (nk + 7)))%nat by lia.
    rewrite expand_add, expand_prefix; [done|].
    unfold zlen in *. rewrite length_expand. lia.
Qed.

(** The load loop: [GET_UINT32( RK[i], key, i * 4 )]. *)
Lemma load_key_filled nk key W rk :
  nk = 4 \/ nk = 6 \/ nk = 8 -> (forall i, is_u32 (W i)) ->
  (forall i, 0 <= i < nk -> W i = GET_UINT32 key (i * 4)) ->
  length rk = 64%nat -> words_ok rk ->
  filled (for_ 0 (Z.to_nat ((32 * nk) .>> 5))
            (fun i rk => zset rk i (GET_UINT32 key (i * 4))) rk) W nk.
Proof.
  intros Hnk Hu HW Hl Hw.
  pose proof (for_inv (fun i rk => filled rk W i)
    (fun i rk => zset rk i (GET_UINT32 key (i * 4))) 0 (Z.to_nat nk) rk) as H.
  replace ((32 * nk) .>> 5) with nk
    by (rewrite Z.shiftr_div_pow2 by lia; change (2 ^ 5) with 32; rewrite Z.mul_comm, Z.div_mul; lia).
  replace (0 + Z.of_nat (Z.to_nat nk)) with nk in H by lia. apply H.
  - split_and!; [done..|lia].
  - intros j t Hj Ft. apply filled_step; auto; [lia|]. symmetry. apply HW. lia.
Qed.

Lemma aes_set_key_spec g ctx key nk :
  globals_ok g -> ctx_ok ctx -> nk = 4 \/ nk = 6 \/ nk = 8 -> bytes key -> zlen key = 4 * nk ->
  exists g' ctx', aes_set_key g ctx key (32 * nk) = (g', ctx', 0) /\
    globals_ready g' /\ tab g' = T /\ ctx_ok ctx' /\ nr ctx' = nk + 6 /\
    filled (erk ctx') (znth (KeyExpansion nk key)) (4 * (nk + 7)) /\
    schedules_fit (erk ctx') (drk ctx') (nk + 6).
Proof.
  intros Hg (Hle & Hld & Hwe & Hwd) Hnk Hb Hl.
  destruct (init_tables_ok g Hg) as (Hg1 & Hd1 & Ht1).
  destruct (schedule_words nk key Hnk Hb Hl) as (Hu & Hrec & Hkey & Hexp).
  set (W := znth (expand nk (Z.to_nat (64 - nk)) (words key))) in *.
  pose proof (load_key_filled nk key W (erk ctx) Hnk Hu Hkey Hle Hwe) as F0.
  destruct (expand_key_filled nk W _ Hnk Hu Hrec F0) as (rk & Erk & Frk).
  pose proof (init_KT_ok _ Hg1 Hd1) as Hg2.
  assert (HT : tab (init_KT (init_tables g)) = T).
  { destruct Hg2 as ((Ht & _) & Hd & _). by rewrite Hd in Ht. }
  replace (4 * (nk + 7)) with (4 * (nk + 6) + 4) in Frk by lia.
  pose proof (expand_drk_filled _ rk (nk + 6) W (drk ctx) Hg2 Hu ltac:(lia) Frk Hld Hwd) as Fdk.
  exists (init_KT (init_tables g)),
    (mkCtx rk (expand_drk (init_KT (init_tables g)) rk (4 * (nk + 6)) (nk + 6) (drk ctx)) (nk + 6)).
  split_and!; try done.
  - unfold aes_set_key. rewrite Ht1.
    replace (if 32 * nk =? 128 then _ else _) with (Some (nk + 6))
      by (destruct Hnk as [->|[->| ->]]; reflexivity).
    rewrite Erk. done.
  - split_and!; simpl; [apply Frk|apply Fdk|apply Frk|apply Fdk].
  - simpl. destruct Frk as (? & ? & HF). split_and!; [done..|].
    intros j Hj. rewrite HF by lia. apply Hexp. lia.
  - simpl. apply (filled_schedules_fit _ _ W); [lia|done..].
Qed.

Lemma round_key_ext w w' r :
  (forall i, 4 * r <= i < 4 * r + 4 -> znth w i = znth w' i) -> round_key w r = round_key w' r.
Proof. intros H. unfold round_key. rewrite !H by lia. done. Qed.

Lemma Cipher_ext w w' n s :
  0 < n -> (forall i, 0 <= i < 4 * (n + 1) -> znth w i = znth w' i) -> Cipher w n s = Cipher w' n s.
Proof.
  intros Hn H.
  assert (Hk : forall r, 0 <= r <= n -> round_key w r = round_key w' r)
    by (intros; apply round_key_ext; intros; apply H; lia).
  unfold Cipher, final_round. rewrite !Hk by lia. do 3 f_equal.
  assert (Hr : forall m i t, 0 <= i -> i + Z.of_nat m <= n ->
    for_ i m (round w) t = for_ i m (round w') t).
  { induction m as [|m IH]; intros i t Hi Hm; simpl; [done|].
    rewrite IH by lia. f_equal. unfold round. by rewrite Hk by lia. }
  apply Hr; lia.
Qed.

(** C2: after [aes_set_key] with a key of 128, 192 or 256 bits, from any
    reachable state of the tables, [aes_encrypt] computes the cipher of
    FIPS-197 under the FIPS-197 key expansion of that key, whatever the
    contents of the output buffer before the call. *)
Theorem aes_encrypt_is_fips197 g ctx key nk input output :
  globals_ok g -> ctx_ok ctx -> nk = 4 \/ nk = 6 \/ nk = 8 ->
  bytes key -> zlen key = 4 * nk ->
  bytes input -> zlen input = 16 -> zlen output = 16 ->
  let '(g', ctx', r) := aes_set_key g ctx key (32 * nk) in
  r = 0 /\
  aes_encrypt g' ctx' input output =
    bytes_of (Cipher (KeyExpansion nk key) (nk + 6) (state_of input)).
Proof.
  intros Hg Hc Hnk Hb Hl Hbi Hli Hlo. unfold zlen in Hli, Hlo.
  destruct (aes_set_key_spec g ctx key nk Hg Hc Hnk Hb Hl)
    as (g' & ctx' & -> & _ & Ht & (_ & _ & Hwe & _) & Hnr & (_ & _ & Fe) & _).
  split; [done|]. rewrite aes_encrypt_cipher, Hnr by (lia || done).
  by rewrite (Cipher_ext _ (KeyExpansion nk key)) by (lia || (intros; apply Fe; lia)).
Qed.

Definition ctx_zero : aes_context := mkCtx (zeros 64) (zeros 64) 0.

Lemma zeros_words_ok n : words_ok (zeros n).
Proof. induction n; simpl; constructor; [unfold is_u32; lia|done]. Qed.

Lemma ctx_zero_ok : ctx_ok ctx_zero.
Proof. split_and!; [done..|apply zeros_words_ok|apply zeros_words_ok]. Qed.

Definition iota_key : list Z := [0; 1; 2; 3; 4; 5; 6; 7; 8; 9; 10; 11; 12; 13; 14; 15].

Lemma iota_key_bytes : bytes iota_key.
Proof. repeat constructor; unfold is_u8; lia. Qed.

(** The AES-128 example of FIPS-197, appendix C.1. *)
Lemma aes_encrypt_is_fips197_witness :
  let pt := [0x00; 0x11; 0x22; 0x33; 0x44; 0x55; 0x66; 0x77;
             0x88; 0x99; 0xaa; 0xbb; 0xcc; 0xdd; 0xee; 0xff] in
  let '(g', ctx', r) := aes_set_key globals_at_start ctx_zero iota_key (32 * 4) in
  r = 0 /\ aes_encrypt g' ctx' pt pt =
    [0x69; 0xc4; 0xe0; 0xd8; 0x6a; 0x7b; 0x04; 0x30; 0xd8; 0xcd; 0xb7; 0x80; 0x70; 0xb4; 0xc5; 0x5a].
Proof.
  intros pt.
  pose proof (aes_encrypt_is_fips197 globals_at_start ctx_zero iota_key 4 pt pt
    globals_at_start_ok ctx_zero_ok ltac:(lia) iota_key_bytes eq_refl
    ltac:(repeat constructor; unfold is_u8; lia) eq_refl eq_refl) as H.
  destruct (aes_set_key _ _ _ _) as [[g' ctx'] r]. destruct H as [-> ->].
  split; [done|]. vm_compute. reflexivity.
Defined.

(** C27: decryption inverts encryption: for every key size, every key and
    every block, [aes_decrypt] recovers the block that [aes_encrypt]
    encrypted under the same context. *)
Theorem aes_decrypt_encrypt g ctx key nk input output output' :
  globals_ok g -> ctx_ok ctx -> nk = 4 \/ nk = 6 \/ nk = 8 ->
  bytes key -> zlen key = 4 * nk ->
  bytes input -> zlen input = 16 -> zlen output = 16 -> zlen output' = 16 ->
  let '(g', ctx', r) := aes_set_key g ctx key (32 * nk) in
  aes_decrypt g' ctx' (aes_encrypt g' ctx' input output) output' = input.
Proof.
  intros Hg Hc Hnk Hb Hl Hbi Hli Hlo Hlo'. unfold zlen in Hli, Hlo, Hlo'.
  destruct (aes_set_key_spec g ctx key nk Hg Hc Hnk Hb Hl)
    as (g' & ctx' & -> & _ & Ht & (_ & _ & Hwe & Hwd) & Hnr & _ & Hf).
  rewrite aes_encrypt_cipher by (lia || done).
  apply aes_decrypt_cipher; rewrite ?Hnr; lia || done.
Qed.

Lemma aes_decrypt_encrypt_witness :
  let pt := iota_key in
  let '(g', ctx', r) := aes_set_key globals_at_start ctx_zero (iota_key ++ iota_key) (32 * 8) in
  aes_decrypt g' ctx' (aes_encrypt g' ctx' pt pt) pt = pt.
Proof.
  apply (aes_decrypt_encrypt globals_at_start ctx_zero (iota_key ++ iota_key) 8
    iota_key iota_key iota_key).
  all: first [exact globals_at_start_ok | exact ctx_zero_ok | exact iota_key_bytes
             | (repeat constructor; unfold is_u8; lia) | reflexivity | lia].
Defined.

(** Every call of [aes_set_key], valid or not, keeps the invariant of the
    global tables; it returns 0 exactly for the three key sizes (with the
    round count 10, 12 or 14), and otherwise returns 1 and leaves the context
    untouched. *)
Theorem aes_set_key_total g ctx key nbits :
  globals_ok g -> ctx_ok ctx -> bytes key -> zlen key * 8 = nbits ->
  let '(g', ctx', r) := aes_set_key g ctx key nbits in
  globals_ok g' /\ ctx_ok ctx' /\
  ((nbits = 128 \/ nbits = 192 \/ nbits = 256) /\ r = 0 /\ nr ctx' = nbits / 32 + 6
   \/ (nbits <> 128 /\ nbits <> 192 /\ nbits <> 256) /\ r = 1 /\ ctx' = ctx).
Proof.
  intros Hg Hc Hb Hl.
  destruct (decide (nbits = 128 \/ nbits = 192 \/ nbits = 256)) as [Hn|Hn].
  - assert (exists nk, nbits = 32 * nk /\ (nk = 4 \/ nk = 6 \/ nk = 8)) as (nk & E & Hnk)
      by (exists (nbits / 32); Z.div_mod_to_equations; lia).
    rewrite E in Hl |- *.
    destruct (aes_set_key_spec g ctx key nk Hg Hc Hnk Hb ltac:(lia))
      as (g' & ctx' & -> & (Hg' & _) & _ & Hc' & Hnr & _ & _).
    split_and!; try apply Hc'; [done|]. left. split_and!; [lia|done|].
    rewrite Hnr. Z.div_mod_to_equations; lia.
  - unfold aes_set_key.
    destruct (Z.eqb_spec nbits 128), (Z.eqb_spec nbits 192), (Z.eqb_spec nbits 256); try lia.
    destruct (init_tables_ok g Hg) as (? & _). split_and!; [done|apply Hc..|]. right.
    split_and!; done.
Qed.

Lemma aes_set_key_total_witness :
  let '(g', ctx', r) := aes_set_key globals_at_start ctx_zero [1; 2; 3] 24 in
  globals_ok g' /\ r = 1 /\ ctx' = ctx_zero.
Proof.
  pose proof (aes_set_key_total globals_at_start ctx_zero [1; 2; 3] 24 globals_at_start_ok
    ctx_zero_ok ltac:(repeat constructor; unfold is_u8; lia) eq_refl) as H.
  destruct (aes_set_key _ _ _ _) as [[g' ctx'] r].
  destruct H as (? & _ & [(? & _)|(_ & ? & ?)]); [lia|done].
Defined.
