(* ===== verification/Base64.v ===== *)
(** * raop_play/base64.c

    The encoder writes into a block it allocates, the decoder into a buffer
    of the caller; all accesses are bounds checked in the model.  The
    reference encoding [b64] is the one of RFC 4648. *)

From S2P Require Import Prelude.

Definition base64_chars : list Z :=
  lit "ABCDEFGHIJKLMNOPQRSTUVWXYZabcdefghijklmnopqrstuvwxyz0123456789+/".

Definition EQUALS : Z := 61. (* '=' *)

(** Scan of [base64_chars] for [c]. *)
Fixpoint pos_from (l : list Z) (c i : Z) : Z :=
  match l with
  | [] => -1
  | x :: l' => if x =? c then i else pos_from l' c (i + 1)
  end.
Definition pos (c : Z) : Z := pos_from base64_chars c 0.

(** ** Encoding *)

(** The three reads of an iteration: the 24-bit group and the advanced
    index. *)
Definition encode_group (q : list Z) (size i : Z) : outcome (Z * Z) :=
  do c <- buf_get q i;
  let i := i + 1 in
  let c := c * 256 in
  do c <- (if i <? size then do x <- buf_get q i; Ret (c + x) else Ret c);
  let i := i + 1 in
  let c := c * 256 in
  do c <- (if i <? size then do x <- buf_get q i; Ret (c + x) else Ret c);
  Ret (c, i + 1).

(** The four characters of an iteration; [i] is the advanced index. *)
Definition encode_chars (c size i : Z) : list Z :=
  let p0 := znth base64_chars ((c .& 0x00fc0000) .>> 18) in
  let p1 := znth base64_chars ((c .& 0x0003f000) .>> 12) in
  let p2 := znth base64_chars ((c .& 0x00000fc0) .>> 6) in
  let p3 := znth base64_chars ((c .& 0x0000003f) .>> 0) in
  let p3 := if size <? i then EQUALS else p3 in
  let p2 := if size + 1 <? i then EQUALS else p2 in
  [p0; p1; p2; p3].

(** The loop [for (i = 0; i < size;)]; every iteration advances [i] by 3. *)
Fixpoint encode_loop (fuel : nat) (q : list Z) (size : Z) (s : list Z) (p i : Z)
    : outcome (list Z * Z) :=
  if i <? size then
    match fuel with
    | O => UB NoFuel
    | S fuel' =>
      do '(c, i) <- encode_group q size i;
      do s <- buf_write s p (encode_chars c size i);
      encode_loop fuel' q size s (p + 4) i
    end
  else Ret (s, p).

(** [base64_encode(data, size, &str)]: the new value of [*str] (none when the
    allocation fails) and the return value.  [malloc] gives the block. *)
Definition base64_encode (malloc : Z -> option (list Z)) (data : list Z) (size : Z)
    : outcome (option (list Z) * Z) :=
  match malloc (Z.quot (size * 4) 3 + 4) with
  | None => Ret (None, -1)
  | Some s =>
    do '(s, p) <- encode_loop (Z.to_nat size) data size s 0 0;
    do s <- buf_set s p 0;
    do n <- strlen s;
    Ret (Some s, n)
  end.

(** ** Decoding *)

Definition DECODE_ERROR : Z := 0xffffffff.

(** The loop of [token_decode]: [None] is the early error return. *)
Fixpoint token_loop (token : list Z) (i : nat) (val marker : Z) : option (Z * Z) :=
  match i, token with
  | O, _ => Some (val, marker)
  | S i', t :: token' =>
    let val := u32 (val * 64) in
    if t =? EQUALS then token_loop token' i' val (marker + 1)
    else if 0 <? marker then None
    else token_loop token' i' (u32 (val + pos t)) marker
  | S _, [] => None
  end.

Definition token_decode (token : list Z) : outcome Z :=
  do n <- strlen token;
  if n <? 4 then Ret DECODE_ERROR
  else match token_loop token 4 0 0 with
       | None => Ret DECODE_ERROR
       | Some (val, marker) =>
         if 2 <? marker then Ret DECODE_ERROR
         else Ret (u32 ((marker .<< 24) .| val))
       end.

(** [*p == '=' || strchr(base64_chars, *p)], for a non-NUL [*p]. *)
Definition in_alphabet (c : Z) : bool := (c =? EQUALS) || existsb (Z.eqb c) base64_chars.

(** The decoding loop; [p] is the rest of the string, [q] the offset of the
    write pointer in [data]. *)
Fixpoint decode_loop (fuel : nat) (p : list Z) (data : list Z) (q : Z)
    : outcome (Z * list Z) :=
  do c <- deref p;
  if negb (c =? 0) && in_alphabet c then
    match fuel with
    | O => UB NoFuel
    | S fuel' =>
      do val <- token_decode p;
      let marker := (val .>> 24) .& 0xff in
      if val =? DECODE_ERROR then Ret (-1, data)
      else
        do data <- buf_set data q ((val .>> 16) .& 0xff);
        do '(data, q) <-
          (if marker <? 2
           then do data <- buf_set data (q + 1) ((val .>> 8) .& 0xff); Ret (data, q + 2)
           else Ret (data, q + 1));
        do '(data, q) <-
          (if marker <? 1
           then do data <- buf_set data q (val .& 0xff); Ret (data, q + 1)
           else Ret (data, q));
        decode_loop fuel' (drop 4 p) data q
    end
  else Ret (q, data).

(** [base64_decode(str, data)]: the return value and the buffer. *)
Definition base64_decode (str data : list Z) : outcome (Z * list Z) :=
  decode_loop (length str) str data 0.

(** ** The reference encoding *)

Definition sextet (n : Z) : Z := znth base64_chars n.

Fixpoint b64 (l : list Z) : list Z :=
  match l with
  | [] => []
  | [a] => [sextet (a / 4); sextet (a mod 4 * 16); EQUALS; EQUALS]
  | [a; b] =>
    [sextet (a / 4); sextet (a mod 4 * 16 + b / 16); sextet (b mod 16 * 4); EQUALS]
  | a :: b :: c :: l' =>
    [sextet (a / 4); sextet (a mod 4 * 16 + b / 16);
     sextet (b mod 16 * 4 + c / 64); sextet (c mod 64)] ++ b64 l'
  end.

(** ** Facts on the alphabet *)

Lemma check_sextets (P : Z -> bool) :
  forallb (fun n => negb (n <? 64) || P n) byte_range = true ->
  forall n, 0 <= n < 64 -> P n = true.
Proof.
  intros H n Hn. pose proof (check_bytes _ H n ltac:(unfold is_u8; lia)) as E. simpl in E.
  destruct (Z.ltb_spec n 64); [done|lia].
Qed.

Lemma sextet_facts n : 0 <= n < 64 ->
  sextet n <> 0 /\ in_alphabet (sextet n) = true /\ sextet n <> EQUALS /\ pos (sextet n) = n.
Proof.
  intros Hn.
  pose proof (check_sextets (fun n => negb (sextet n =? 0) && in_alphabet (sextet n) &&
    negb (sextet n =? EQUALS) && (pos (sextet n) =? n)) ltac:(by vm_compute) n Hn) as H.
  apply andb_prop in H as [H ?]. apply andb_prop in H as [H ?]. apply andb_prop in H as [? ?].
  split_and!; [lia|done|lia|lia].
Qed.

(** A 6-bit field of the group, as the code selects it. *)
Lemma field_shift c n : 0 <= n -> (c .& (63 .<< n)) .>> n = (c / 2 ^ n) mod 64.
Proof.
  intros Hn. rewrite Z.shiftr_land, Z.shiftr_shiftl_l, Z.sub_diag, Z.shiftl_0_r by lia.
  rewrite Z.shiftr_div_pow2 by done. change 63 with (Z.ones 6).
  by rewrite Z.land_ones by lia.
Qed.

Lemma encode_chars_fields c size i :
  encode_chars c size i =
  [sextet ((c / 262144) mod 64); sextet ((c / 4096) mod 64);
   if size + 1 <? i then EQUALS else sextet ((c / 64) mod 64);
   if size <? i then EQUALS else sextet (c mod 64)].
Proof.
  unfold encode_chars. change 0x00fc0000 with (63 .<< 18). change 0x0003f000 with (63 .<< 12).
  change 0x00000fc0 with (63 .<< 6). change 0x0000003f with (63 .<< 0).
  rewrite !field_shift by lia. change (2 ^ 18) with 262144. change (2 ^ 12) with 4096.
  change (2 ^ 6) with 64. change (2 ^ 0) with 1. rewrite Z.div_1_r. done.
Qed.

(** ** Encoding *)

(** Induction by groups of three. *)
Lemma list_ind3 {A} (P : list A -> Prop) :
  P [] -> (forall a, P [a]) -> (forall a b, P [a; b]) ->
  (forall a b c l, P l -> P (a :: b :: c :: l)) -> forall l, P l.
Proof.
  intros H0 H1 H2 H3. fix IH 1. intros [|a [|b [|c l]]]; [done|apply H1|apply H2|].
  apply H3, IH.
Qed.

Lemma length_b64 l : zlen (b64 l) = 4 * ((zlen l + 2) / 3).
Proof.
  unfold zlen. induction l as [| | |a b c l IH] using list_ind3; [done..|].
  change (b64 (a :: b :: c :: l)) with
    ([sextet (a / 4); sextet (a mod 4 * 16 + b / 16); sextet (b mod 16 * 4 + c / 64);
      sextet (c mod 64)] ++ b64 l).
  rewrite length_app. simpl length. Z.div_mod_to_equations; lia.
Qed.

Lemma b64_nonul l : bytes l -> nonul (b64 l).
Proof.
  assert (Hs : forall n, 0 <= n < 64 -> sextet n <> 0) by (intros; by apply sextet_facts).
  induction l as [|a|a b|a b c l IH] using list_ind3; intros Hb;
    repeat match goal with H : bytes (_ :: _) |- _ => apply Forall_cons_1 in H as [? H] end;
    unfold is_u8 in *; [constructor|..].
  1-2: repeat constructor; (done || (apply Hs; Z.div_mod_to_equations; lia)).
  change (b64 (a :: b :: c :: l)) with
    ([sextet (a / 4); sextet (a mod 4 * 16 + b / 16); sextet (b mod 16 * 4 + c / 64);
      sextet (c mod 64)] ++ b64 l).
  apply Forall_app. split; [|by apply IH].
  repeat constructor; apply Hs; Z.div_mod_to_equations; lia.
Qed.

Lemma buf_get_at pre x r : buf_get (pre ++ x :: r) (zlen pre) = Ret x.
Proof.
  unfold buf_get, in_range, zlen. rewrite length_app. simpl.
  destruct (Z.leb_spec 0 (Z.of_nat (length pre))); [|lia].
  destruct (Z.ltb_spec (Z.of_nat (length pre)) (Z.of_nat (length pre + S (length r)))); [|lia].
  simpl. f_equal. rewrite znth_app_r, Z.sub_diag by lia. done.
Qed.

Lemma ret_pair {A B} (a a' : A) (b b' : B) : a = a' -> b = b' -> Ret (a, b) = Ret (a', b').
Proof. by intros -> ->. Qed.

Lemma encode_group_spec pre a rest :
  is_u8 a -> bytes rest ->
  encode_group (pre ++ a :: rest) (zlen (pre ++ a :: rest)) (zlen pre) =
  Ret (a * 65536 + znth rest 0 * 256 + znth rest 1, zlen pre + 3).
Proof.
  intros Ha Hr. unfold encode_group. rewrite buf_get_at. simpl obind.
  assert (E1 : zlen pre + 1 = zlen (pre ++ [a])) by (unfold zlen; rewrite length_app; simpl; lia).
  destruct rest as [|b rest].
  - rewrite (proj2 (Z.ltb_ge (zlen pre + 1) _)) by (unfold zlen; rewrite length_app; simpl; lia).
    simpl obind.
    rewrite (proj2 (Z.ltb_ge (zlen pre + 1 + 1) _)) by (unfold zlen; rewrite length_app; simpl; lia).
    simpl obind. change (znth [] 0) with 0. change (znth [] 1) with 0. apply ret_pair; lia.
  - rewrite (proj2 (Z.ltb_lt (zlen pre + 1) _)) by (unfold zlen; rewrite length_app; simpl; lia).
    rewrite E1 at 1.
    replace (pre ++ a :: b :: rest) with ((pre ++ [a]) ++ b :: rest) at 1 by (by rewrite <- app_assoc).
    rewrite buf_get_at. simpl obind. change (znth (b :: rest) 0) with b.
    destruct rest as [|c rest].
    + rewrite (proj2 (Z.ltb_ge (zlen pre + 1 + 1) _)) by (unfold zlen; rewrite length_app; simpl; lia).
      simpl obind. change (znth [b] 1) with 0. apply ret_pair; lia.
    + rewrite (proj2 (Z.ltb_lt (zlen pre + 1 + 1) _)) by (unfold zlen; rewrite length_app; simpl; lia).
      replace (zlen pre + 1 + 1) with (zlen (pre ++ [a; b])) at 1
        by (unfold zlen; rewrite length_app; simpl; lia).
      replace (pre ++ a :: b :: c :: rest) with ((pre ++ [a; b]) ++ c :: rest) at 1
        by (by rewrite <- app_assoc).
      rewrite buf_get_at. simpl obind. change (znth (b :: c :: rest) 1) with c.
      apply ret_pair; lia.
Qed.

Lemma b64_cons3 a b c l :
  b64 (a :: b :: c :: l) =
  [sextet (a / 4); sextet (a mod 4 * 16 + b / 16); sextet (b mod 16 * 4 + c / 64);
   sextet (c mod 64)] ++ b64 l.
Proof. reflexivity. Qed.

(** The characters written for a group are those of the reference. *)
Lemma encode_chars_1 a n : is_u8 a -> encode_chars (a * 65536 + 0 * 256 + 0) (n + 1) (n + 3) = b64 [a].
Proof.
  unfold is_u8. intros. rewrite encode_chars_fields.
  rewrite !(proj2 (Z.ltb_lt _ (n + 3))) by lia. simpl b64.
  repeat (f_equal; try done); Z.div_mod_to_equations; lia.
Qed.

Lemma encode_chars_2 a b n :
  is_u8 a -> is_u8 b -> encode_chars (a * 65536 + b * 256 + 0) (n + 2) (n + 3) = b64 [a; b].
Proof.
  unfold is_u8. intros. rewrite encode_chars_fields.
  rewrite (proj2 (Z.ltb_lt (n + 2) (n + 3))), (proj2 (Z.ltb_ge (n + 2 + 1) (n + 3))) by lia.
  simpl b64. f_equal; [|f_equal; [|f_equal]]; f_equal; Z.div_mod_to_equations; lia.
Qed.

Lemma encode_chars_3 a b c n m :
  is_u8 a -> is_u8 b -> is_u8 c -> m <= n ->
  encode_chars (a * 65536 + b * 256 + c) n m =
  [sextet (a / 4); sextet (a mod 4 * 16 + b / 16); sextet (b mod 16 * 4 + c / 64);
   sextet (c mod 64)].
Proof.
  unfold is_u8. intros. rewrite encode_chars_fields.
  rewrite !(proj2 (Z.ltb_ge _ m)) by lia.
  f_equal; [|f_equal; [|f_equal; [|f_equal]]]; f_equal; Z.div_mod_to_equations; lia.
Qed.

Lemma encode_loop_stop fuel q size s p i :
  size <= i -> encode_loop fuel q size s p i = Ret (s, p).
Proof. intros. destruct fuel; simpl; by rewrite (proj2 (Z.ltb_ge _ _)) by lia. Qed.

Lemma encode_loop_spec rest : forall fuel pre s p,
  bytes rest -> (length rest <= fuel)%nat -> 0 <= p -> p + zlen (b64 rest) <= zlen s ->
  encode_loop fuel (pre ++ rest) (zlen (pre ++ rest)) s p (zlen pre) =
  Ret (splice s p (b64 rest), p + zlen (b64 rest)).
Proof.
  induction rest as [|a|a b|a b c l IH] using list_ind3; intros fuel pre s p Hb Hf Hp Hs;
    repeat match goal with H : bytes (_ :: _) |- _ => apply Forall_cons_1 in H as [? H] end.
  - simpl in Hs. rewrite encode_loop_stop by (zlens; lia).
    simpl. rewrite splice_nil by (zlens; lia). apply ret_pair; [done|zlens; lia].
  - destruct fuel as [|fuel]; [simpl in *; lia|]. simpl encode_loop.
    rewrite (proj2 (Z.ltb_lt _ _)), encode_group_spec by (done || (zlens; lia)). simpl obind.
    change (znth [] 0) with 0. change (znth [] 1) with 0.
    replace (zlen (pre ++ [a])) with (zlen pre + 1) by (by zlens).
    rewrite encode_chars_1, buf_write_ok by done. simpl obind.
    rewrite encode_loop_stop by lia. done.
  - destruct fuel as [|fuel]; [simpl in *; lia|]. simpl encode_loop.
    rewrite (proj2 (Z.ltb_lt _ _)), encode_group_spec by (done || (zlens; lia) || by constructor).
    simpl obind. change (znth [b] 0) with b. change (znth [b] 1) with 0.
    replace (zlen (pre ++ [a; b])) with (zlen pre + 2) by (zlens; lia).
    rewrite encode_chars_2, buf_write_ok by done. simpl obind.
    rewrite encode_loop_stop by lia. done.
  - destruct fuel as [|fuel]; [simpl in *; lia|]. rewrite b64_cons3 in *. simpl encode_loop.
    pose proof (zlen_nonneg l). pose proof (zlen_nonneg (b64 l)).
    rewrite (proj2 (Z.ltb_lt _ _)), encode_group_spec
      by (done || (zlens; lia) || by rewrite !Forall_cons).
    simpl obind. change (znth (b :: c :: l) 0) with b. change (znth (b :: c :: l) 1) with c.
    rewrite encode_chars_3 by (done || (zlens; lia)).
    set (four := [_; _; _; _]) in *. assert (E4 : zlen four = 4) by done.
    rewrite buf_write_ok by (zlens; lia). simpl obind.
    replace (pre ++ a :: b :: c :: l) with ((pre ++ [a; b; c]) ++ l) by (by rewrite <- app_assoc).
    replace (zlen pre + 3) with (zlen (pre ++ [a; b; c])) by (by zlens).
    rewrite zlen_app, E4 in Hs.
    rewrite IH by (simpl in *; lia || done || (rewrite ?zlen_splice; lia)).
    rewrite <- E4, splice_app by lia. apply ret_pair; [done|]. rewrite zlen_app. lia.
Qed.

(** ** Decoding *)

Lemma u32_small x : 0 <= x < 4294967296 -> u32 x = x.
Proof. apply u32_id. Qed.

Lemma token_loop_sextet n t k val :
  0 <= n < 64 -> 0 <= val < 262144 ->
  token_loop (sextet n :: t) (S k) val 0 = token_loop t k (val * 64 + n) 0.
Proof.
  intros Hn Hv. destruct (sextet_facts n Hn) as (_ & _ & He & Hp).
  unfold token_loop; fold token_loop. destruct (Z.eqb_spec (sextet n) EQUALS); [done|].
  rewrite Hp, !u32_small by (rewrite ?u32_small; lia). done.
Qed.

Lemma token_loop_pad t k val m :
  0 <= val < 262144 -> token_loop (EQUALS :: t) (S k) val m = token_loop t k (val * 64) (m + 1).
Proof. intros Hv. simpl. by rewrite u32_small by lia. Qed.

Lemma token_loop_done t val m : token_loop t 0 val m = Some (val, m).
Proof. by destruct t. Qed.

(** A group of four characters followed by a string. *)
Lemma token_decode_four x1 x2 x3 x4 s r val m :
  nonul [x1; x2; x3; x4] -> nonul s ->
  token_loop ([x1; x2; x3; x4] ++ s ++ 0 :: r) 4 0 0 = Some (val, m) -> 0 <= m <= 2 ->
  token_decode ([x1; x2; x3; x4] ++ s ++ 0 :: r) = Ret (u32 ((m .<< 24) .| val)).
Proof.
  intros H4 Hs Hl Hm. unfold token_decode.
  assert (E : strlen ([x1; x2; x3; x4] ++ s ++ 0 :: r) = Ret (4 + zlen s))
    by (rewrite app_assoc, strlen_nul by (by apply Forall_app); by zlens).
  rewrite E, Hl. cbv beta iota delta [obind].
  rewrite (proj2 (Z.ltb_ge _ 4)) by (pose proof (zlen_nonneg s); lia).
  by rewrite (proj2 (Z.ltb_ge 2 m)) by lia.
Qed.

Lemma marker_val m val :
  0 <= m <= 2 -> 0 <= val < 16777216 ->
  let v := u32 ((m .<< 24) .| val) in
  v = m * 16777216 + val /\ v <> DECODE_ERROR /\ (v .>> 24) .& 0xff = m /\
  (v .>> 16) .& 0xff = val / 65536 /\ (v .>> 8) .& 0xff = val / 256 mod 256 /\
  v .& 0xff = val mod 256.
Proof.
  intros Hm Hv v.
  assert (Ev : v = m * 16777216 + val).
  { unfold v. rewrite <- (pack4_byte_at val) at 1 by (unfold is_u32; lia).
    assert (E0 : byte_at val 24 = 0)
      by (unfold byte_at, u8; rewrite Z.shiftr_div_pow2 by lia; change (2 ^ 24) with 16777216;
          Z.div_mod_to_equations; lia).
    assert (is_u8 0 /\ is_u8 m) as [? ?] by (unfold is_u8; lia).
    rewrite E0. replace (m .<< 24) with (pack4 m 0 0 0)
      by (rewrite Z.shiftl_mul_pow2 by lia; unfold pack4; lia).
    rewrite pack4_lor, !Z.lor_0_r, !Z.lor_0_l by auto with crange.
    rewrite u32_id by auto with crange.
    rewrite <- (pack4_byte_at val) at 4 by (unfold is_u32; lia). rewrite E0. unfold pack4. lia. }
  rewrite Ev. unfold DECODE_ERROR.
  change 0xff with (Z.ones 8). rewrite !Z.land_ones, !Z.shiftr_div_pow2 by lia.
  change (2 ^ 24) with 16777216. change (2 ^ 16) with 65536. change (2 ^ 8) with 256.
  split_and!; try lia; Z.div_mod_to_equations; lia.
Qed.

(** One iteration of the decoding loop, by the number of pad characters. *)
Lemma decode_step fuel x1 x2 x3 x4 s r data q val m :
  nonul [x1; x2; x3; x4] -> nonul s -> in_alphabet x1 = true ->
  token_loop ([x1; x2; x3; x4] ++ s ++ 0 :: r) 4 0 0 = Some (val, m) ->
  0 <= m <= 2 -> 0 <= val < 16777216 -> 0 <= q -> q + (3 - m) <= zlen data ->
  decode_loop (S fuel) ([x1; x2; x3; x4] ++ s ++ 0 :: r) data q =
  decode_loop fuel (s ++ 0 :: r)
    (splice data q (take (Z.to_nat (3 - m)) [val / 65536; val / 256 mod 256; val mod 256]))
    (q + (3 - m)).
Proof.
  intros H4 Hs Ha Hl Hm Hv Hq Hd.
  destruct (marker_val m val Hm Hv) as (_ & Hne & H24 & H16 & H8 & H0).
  pose proof (token_decode_four _ _ _ _ _ _ _ _ H4 Hs Hl Hm) as Et.
  remember ([x1; x2; x3; x4] ++ s ++ 0 :: r) as p eqn:Ep.
  cbn [decode_loop]. replace (deref p) with (Ret x1) by (by subst p). cbn [obind].
  apply Forall_cons_1 in H4 as [H1 _]. rewrite (proj2 (Z.eqb_neq x1 0)), Ha by done. cbn [negb andb].
  rewrite Et. cbn [obind]. set (v := u32 _) in *.
  rewrite H24, H16, H8, H0, (proj2 (Z.eqb_neq v _)) by done.
  rewrite buf_set_ok by lia. cbn [obind].
  assert (Hd' : drop 4 p = s ++ 0 :: r) by (by subst p).
  assert (m = 0 \/ m = 1 \/ m = 2) as [->|[->| ->]] by lia; simpl.
  - rewrite buf_set_ok by (rewrite zlen_splice; zlens; lia). simpl.
    rewrite buf_set_ok by (rewrite !zlen_splice; zlens; rewrite ?zlen_splice; zlens; lia). simpl.
    rewrite Hd'.
    replace (q + 1) with (q + zlen [val / 65536]) by (by zlens).
    rewrite splice_app by (zlens; lia).
    replace (q + 2) with (q + zlen ([val / 65536] ++ [val / 256 mod 256])) at 1 by (by zlens).
    rewrite splice_app by (zlens; lia). f_equal. lia.
  - rewrite buf_set_ok by (rewrite zlen_splice; zlens; lia). simpl. rewrite Hd'.
    replace (q + 1) with (q + zlen [val / 65536]) by (by zlens).
    rewrite splice_app by (zlens; lia). done.
  - by rewrite Hd'.
Qed.

Lemma decode_loop_end fuel r data q : decode_loop fuel (0 :: r) data q = Ret (q, data).
Proof. by destruct fuel. Qed.

(** Discharges the side conditions of [decode_step] on a group of encoded
    bytes. *)
Ltac decode_group :=
  lazymatch goal with
  | |- nonul _ =>
      first [done | by apply b64_nonul
            | repeat constructor; (done || (apply sextet_facts; Z.div_mod_to_equations; lia))]
  | |- in_alphabet _ = true => apply sextet_facts; Z.div_mod_to_equations; lia
  | |- token_loop _ _ _ _ = _ =>
      simpl app; rewrite !token_loop_sextet, ?token_loop_pad, token_loop_done
        by (Z.div_mod_to_equations; lia); do 2 f_equal; Z.div_mod_to_equations; lia
  | |- _ => first [done | lia | zlens; lia]
  end.

(** The last group, of one byte and of two. *)
Lemma decode_one fuel a r data q :
  0 <= a < 256 -> 0 <= q -> q + 1 <= zlen data ->
  decode_loop (S fuel) (b64 [a] ++ 0 :: r) data q = Ret (q + 1, splice data q [a]).
Proof.
  intros Ha Hq Hd. change (b64 [a] ++ 0 :: r) with
    ([sextet (a / 4); sextet (a mod 4 * 16); EQUALS; EQUALS] ++ [] ++ 0 :: r).
  erewrite (decode_step fuel _ _ _ _ [] r data q (a * 65536) 2); [|decode_group..].
  change ([] ++ 0 :: r) with (0 :: r). rewrite decode_loop_end. simpl. apply ret_pair; [done|].
  do 2 f_equal. Z.div_mod_to_equations; lia.
Qed.

Lemma decode_two fuel a b r data q :
  0 <= a < 256 -> 0 <= b < 256 -> 0 <= q -> q + 2 <= zlen data ->
  decode_loop (S fuel) (b64 [a; b] ++ 0 :: r) data q = Ret (q + 2, splice data q [a; b]).
Proof.
  intros Ha Hb Hq Hd. change (b64 [a; b] ++ 0 :: r) with
    ([sextet (a / 4); sextet (a mod 4 * 16 + b / 16); sextet (b mod 16 * 4); EQUALS] ++
     [] ++ 0 :: r).
  erewrite (decode_step fuel _ _ _ _ [] r data q (a * 65536 + b * 256) 1); [|decode_group..].
  change ([] ++ 0 :: r) with (0 :: r). rewrite decode_loop_end. simpl. apply ret_pair; [done|].
  f_equal. f_equal; [|f_equal]; Z.div_mod_to_equations; lia.
Qed.

(** A full group, followed by the encoding of [l]. *)
Lemma decode_three fuel a b c l r data q :
  0 <= a < 256 -> 0 <= b < 256 -> 0 <= c < 256 -> bytes l -> 0 <= q -> q + 3 <= zlen data ->
  decode_loop (S fuel) (b64 (a :: b :: c :: l) ++ 0 :: r) data q =
  decode_loop fuel (b64 l ++ 0 :: r) (splice data q [a; b; c]) (q + 3).
Proof.
  intros Ha Hb Hc Hl Hq Hd. rewrite b64_cons3, <- app_assoc.
  erewrite (decode_step fuel _ _ _ _ (b64 l) r data q (a * 65536 + b * 256 + c) 0);
    [|decode_group..].
  change (Z.to_nat (3 - 0)) with 3%nat. simpl take. change (3 - 0) with 3.
  replace ((a * 65536 + b * 256 + c) / 65536) with a by (Z.div_mod_to_equations; lia).
  replace ((a * 65536 + b * 256 + c) / 256 mod 256) with b by (Z.div_mod_to_equations; lia).
  by replace ((a * 65536 + b * 256 + c) mod 256) with c by (Z.div_mod_to_equations; lia).
Qed.

Lemma b64_decode_spec l : forall fuel r data q,
  bytes l -> (length l <= fuel)%nat -> 0 <= q -> q + zlen l <= zlen data ->
  decode_loop fuel (b64 l ++ 0 :: r) data q = Ret (q + zlen l, splice data q l).
Proof.
  induction l as [|a|a b|a b c l IH] using list_ind3; intros fuel r data q Hb Hf Hq Hd;
    repeat match goal with H : bytes (_ :: _) |- _ => apply Forall_cons_1 in H as [? H] end;
    unfold is_u8 in *; simpl length in Hf; zlens.
  - simpl. rewrite decode_loop_end, splice_nil by lia. apply ret_pair; [zlens; lia|done].
  - destruct fuel as [|fuel]; [lia|]. rewrite decode_one by lia. apply ret_pair; [zlens; lia|done].
  - destruct fuel as [|fuel]; [lia|]. rewrite decode_two by lia. apply ret_pair; [zlens; lia|done].
  - pose proof (zlen_nonneg l). destruct fuel as [|fuel]; [lia|].
    rewrite decode_three, IH by (done || lia || (rewrite ?zlen_splice; zlens; lia)).
    replace (q + 3) with (q + zlen [a; b; c]) by (by zlens).
    rewrite splice_app by (zlens; lia). apply ret_pair; [zlens; lia|done].
Qed.

(** ** Theorems *)

(** What the code relies on of [malloc]: a block has the requested size. *)
Definition malloc_sized (malloc : Z -> option (list Z)) : Prop :=
  forall n s, malloc n = Some s -> zlen s = n.

Lemma base64_encode_spec malloc data s :
  malloc_sized malloc -> bytes data -> malloc (zlen data * 4 / 3 + 4) = Some s ->
  base64_encode malloc data (zlen data) =
    Ret (Some (splice s 0 (b64 data ++ [0])), zlen (b64 data)).
Proof.
  intros Hm Hb E. unfold base64_encode.
  rewrite Z.quot_div_nonneg by (pose proof (zlen_nonneg data); lia). rewrite E. apply Hm in E.
  pose proof (length_b64 data) as Hl. pose proof (zlen_nonneg data).
  assert (Hs : zlen (b64 data) + 1 <= zlen s) by (Z.div_mod_to_equations; lia).
  pose proof (encode_loop_spec data (Z.to_nat (zlen data)) [] s 0 Hb) as El.
  simpl app in El. change (zlen []) with 0 in El. rewrite El by (unfold zlen in *; lia). cbn [obind].
  pose proof (zlen_nonneg (b64 data)).
  rewrite buf_set_ok by (rewrite zlen_splice; lia). cbn [obind].
  rewrite splice_app by (change (zlen [0]) with 1; lia).
  rewrite (splice_0 s (b64 data ++ [0])) at 1. rewrite <- app_assoc. simpl app.
  rewrite strlen_nul by (by apply b64_nonul). done.
Qed.

(** [base64_encode] never writes outside the [size * 4 / 3 + 4] bytes it
    allocates, and the string it leaves there (and whose length it returns)
    is the base64 encoding of the data. *)
Theorem base64_encode_correct malloc data s :
  malloc_sized malloc -> bytes data -> malloc (zlen data * 4 / 3 + 4) = Some s ->
  exists str, base64_encode malloc data (zlen data) = Ret (Some str, zlen (b64 data)) /\
              cstr str = Ret (b64 data).
Proof.
  intros Hm Hb E. eexists. split; [by apply base64_encode_spec|].
  rewrite splice_0, <- app_assoc. simpl app. by rewrite cstr_nul by (by apply b64_nonul).
Qed.

Definition malloc_aa (n : Z) : option (list Z) := Some (repeat 0xaa (Z.to_nat n)).

Lemma malloc_aa_sized : malloc_sized (fun n => if 0 <=? n then malloc_aa n else None).
Proof.
  intros n s H. destruct (Z.leb_spec 0 n); [|done]. injection H as <-.
  unfold zlen. rewrite repeat_length. lia.
Qed.

Lemma base64_encode_correct_witness :
  exists str, base64_encode (fun n => if 0 <=? n then malloc_aa n else None) [77; 97] 2 =
    Ret (Some str, 4) /\ cstr str = Ret (lit "TWE=").
Proof.
  exact (base64_encode_correct (fun n => if 0 <=? n then malloc_aa n else None) [77; 97]
    (repeat 0xaa 6) malloc_aa_sized ltac:(repeat constructor; unfold is_u8; lia) eq_refl).
Defined.

(** C32: decoding inverts encoding: [base64_decode] on the string that
    [base64_encode] produces returns the number of data bytes and writes
    exactly the data at the start of the output buffer. *)
Theorem base64_roundtrip malloc data s out :
  malloc_sized malloc -> bytes data -> malloc (zlen data * 4 / 3 + 4) = Some s ->
  zlen data <= zlen out ->
  exists str n, base64_encode malloc data (zlen data) = Ret (Some str, n) /\
    base64_decode str out = Ret (zlen data, splice out 0 data).
Proof.
  intros Hm Hb E Ho. eexists _, _. split; [by apply base64_encode_spec|].
  unfold base64_decode. rewrite splice_0. rewrite <- app_assoc. simpl app.
  rewrite b64_decode_spec; [done|done| |lia|lia].
  rewrite length_app. pose proof (length_b64 data). unfold zlen in *.
  Z.div_mod_to_equations; lia.
Qed.

Lemma base64_roundtrip_witness :
  exists str n, base64_encode (fun n => if 0 <=? n then malloc_aa n else None) [255; 0; 7; 9] 4 =
    Ret (Some str, n) /\
    base64_decode str (repeat 0 6) = Ret (4, [255; 0; 7; 9; 0; 0]).
Proof.
  apply (base64_roundtrip (fun n => if 0 <=? n then malloc_aa n else None) [255; 0; 7; 9]
    (repeat 0xaa 9) (repeat 0 6) malloc_aa_sized).
  - repeat constructor; unfold is_u8; lia.
  - reflexivity.
  - vm_compute. discriminate.
Defined.

(** ** Arbitrary input *)

Lemma token_decode_defined s r : nonul s ->
  exists v, token_decode (s ++ 0 :: r) = Ret v /\ (zlen s < 4 -> v = DECODE_ERROR).
Proof.
  intros Hs. unfold token_decode. rewrite strlen_nul by done. cbn [obind].
  destruct (Z.ltb_spec (zlen s) 4); [by eexists|].
  destruct (token_loop _ 4 0 0) as [[val m]|]; [|by eexists].
  destruct (2 <? m); (eexists; split; [done|lia]).
Qed.

(** The stores of one iteration: at most three bytes. *)
Lemma decode_stores data q b0 b1 b2 marker :
  0 <= q -> q + 3 <= zlen data ->
  exists data' q', 
    (do data <- buf_set data q b0;
     do '(data, q) <- (if marker <? 2 then do data <- buf_set data (q + 1) b1; Ret (data, q + 2)
                       else Ret (data, q + 1));
     (if marker <? 1 then do data <- buf_set data q b2; Ret (data, q + 1) else Ret (data, q)))
    = Ret (data', q') /\ zlen data' = zlen data /\ q <= q' <= q + 3.
Proof.
  intros Hq Hd. rewrite buf_set_ok by lia. cbn [obind].
  assert (H1 : forall v, zlen (splice data q [v]) = zlen data) by (intros; apply zlen_splice; zlens; lia).
  destruct (marker <? 2).
  - rewrite buf_set_ok by (rewrite H1; lia). cbn [obind].
    assert (H2 : forall v w, zlen (splice (splice data q [v]) (q + 1) [w]) = zlen data)
      by (intros; rewrite zlen_splice; rewrite ?H1; zlens; lia).
    destruct (marker <? 1).
    + rewrite buf_set_ok by (rewrite H2; lia). cbn [obind]. eexists _, _. split; [done|].
      rewrite zlen_splice by (rewrite ?H2; zlens; lia). rewrite H2. lia.
    + eexists _, _. split; [done|]. rewrite H2. lia.
  - cbn [obind]. destruct (marker <? 1).
    + rewrite buf_set_ok by (rewrite H1; lia). cbn [obind]. eexists _, _. split; [done|].
      rewrite zlen_splice by (rewrite ?H1; zlens; lia). rewrite H1. lia.
    + eexists _, _. split; [done|]. rewrite H1. lia.
Qed.

Lemma obind_assoc {A B C} (m : outcome A) (f : A -> outcome B) (g : B -> outcome C) :
  obind (obind m f) g = obind m (fun a => obind (f a) g).
Proof. by destruct m. Qed.

Lemma decode_loop_safe fuel s : forall r data q,
  nonul s -> (length s <= fuel)%nat -> 0 <= q -> q + 3 * (zlen s / 4) <= zlen data ->
  exists n data', decode_loop fuel (s ++ 0 :: r) data q = Ret (n, data') /\
    zlen data' = zlen data /\ -1 <= n <= q + 3 * (zlen s / 4).
Proof.
  revert s. induction fuel as [|fuel IH]; intros s r data q Hs Hf Hq Hd.
  { destruct s; [|simpl in *; lia]. exists q, data. split_and!; [done|done|lia|change (zlen [] / 4) with 0; lia]. }
  destruct s as [|c s]; [exists q, data; split_and!; [done|done|lia|change (zlen [] / 4) with 0; lia]|].
  pose proof (zlen_nonneg (c :: s)) as Hn.
  destruct (token_decode_defined (c :: s) r Hs) as (v & Ev & Herr).
  cbn [decode_loop]. rewrite Ev. cbn [app deref obind].
  destruct (negb (c =? 0) && in_alphabet c); [|exists q, data;
    split_and!; [done|done|lia|Z.div_mod_to_equations; lia]].
  destruct (Z.eqb_spec v DECODE_ERROR) as [|Hne];
    [exists (-1), data; split_and!; [done|done|lia|Z.div_mod_to_equations; lia]|].
  assert (H4 : 4 <= zlen (c :: s)) by (destruct (Z.lt_ge_cases (zlen (c :: s)) 4); [exfalso; by apply Hne, Herr|lia]).
  destruct (decode_stores data q ((v .>> 16) .& 0xff) ((v .>> 8) .& 0xff) (v .& 0xff)
    ((v .>> 24) .& 0xff)) as (data' & q' & Est & Hl' & Hq').
  { done. }
  { Z.div_mod_to_equations; lia. }
  destruct (IH (drop 4 (c :: s)) r data' q') as (n & d & E & Hd' & Hn').
  - by apply Forall_drop.
  - rewrite length_drop. cbn [length] in Hf |- *. lia.
  - lia.
  - rewrite zlen_drop, Hl'. Z.div_mod_to_equations; lia.
  - exists n, d.
    replace (drop 4 (c :: s) ++ 0 :: r) with (drop 4 ((c :: s) ++ 0 :: r)) in E
      by (apply drop_app_le; unfold zlen in H4; lia).
    split_and!; [| lia | lia | rewrite zlen_drop in Hn'; Z.div_mod_to_equations; lia].
    rewrite <- E. change (c :: s ++ 0 :: r) with ((c :: s) ++ 0 :: r).
    match goal with |- ?L = ?R => transitivity (obind (Ret (data', q'))
      (fun '(data, q) => decode_loop fuel (drop 4 ((c :: s) ++ 0 :: r)) data q)); [|done] end.
    rewrite <- Est, !obind_assoc.
    destruct (buf_set data q ((v .>> 16) .& 0xff)); [cbn [obind]|done].
    rewrite !obind_assoc. by destruct (if (v .>> 24) .& 0xff <? 2 then _ else _) as [[? ?]|].
Qed.

(** C33: [base64_decode] is memory safe and terminates on every string,
    well-formed or not, as long as the output buffer has three bytes for each
    complete group of four characters; it returns -1 or the number of bytes
    written, which is at most that. *)
Theorem base64_decode_safe s r out :
  nonul s -> 3 * (zlen s / 4) <= zlen out ->
  exists n out', base64_decode (s ++ 0 :: r) out = Ret (n, out') /\
    zlen out' = zlen out /\ -1 <= n <= 3 * (zlen s / 4).
Proof.
  intros Hs Ho. unfold base64_decode.
  apply (decode_loop_safe _ s r out 0); [done| |lia|lia].
  rewrite length_app. lia.
Qed.

(** The first sixteen characters of the modulus of [rsa_encrypt]. *)
Lemma base64_decode_safe_witness :
  exists n out', base64_decode (lit "59dE8qLieItsH1Wg" ++ [0]) (repeat 0 12) = Ret (n, out') /\
    zlen out' = 12 /\ -1 <= n <= 12.
Proof.
  apply (base64_decode_safe (lit "59dE8qLieItsH1Wg") [] (repeat 0 12)).
  - repeat constructor; discriminate.
  - vm_compute. discriminate.
Defined.
