(* ===== verification/Sys.v ===== *)
(** * Sys: the machine the C code runs on

    The shared memory and the environment of the streamer.

    - Memory.  A pointer is [Null] or a location with an offset.  The heap maps
      the locations of live blocks to their contents, a byte array or an array
      of [key_data_t]; [free] removes the block and locations are never
      reused, so that a dangling access is seen.  The bytes of a new block are
      arbitrary (the environment chooses them); the pointers of a new
      [key_data_t] array are indeterminate and reading one is undefined.
    - Environment.  What the process cannot know (system calls, [malloc]
      failing, the JNI peer, the random generator) is a function of the history
      of calls and the current call; the history is kept as a trace, newest
      call first.  A theorem quantifies over every such function.
    - [M] is the monad of the code: it threads the process state and stops at
      undefined behaviour. *)

From S2P Require Import Prelude AesTables Aes.

(** ** Pointers and memory blocks *)

Inductive ptr : Type := Null | Ptr (l o : Z).

#[export] Instance ptr_eq_dec : EqDecision ptr.
Proof. solve_decision. Defined.

(** [key_data_t] of aexcl_lib.h; [None] is an indeterminate pointer. *)
Record key_data_t : Type := KeyData { kd_key : option ptr; kd_data : option ptr }.

Definition kd_zero : key_data_t := KeyData (Some Null) (Some Null).
Definition kd_indet : key_data_t := KeyData None None.

Inductive block : Type :=
| Bytes (b : list Z)
| Kds (k : list key_data_t).

(** ** Calls to the environment *)

(** Calls of the audio server: the clock, the sinks and the HAL stream that take
    sound, the pipe to the fast mixer, a socket, the file of the dump switch, the
    properties of the system and the audio module. *)
Inductive audio_call : Type :=
| CSystemTime
| CSinkWrite (data : list Z) (count : Z)
| CStreamWrite (data : list Z)
| CMaxFrames
| CSetAvgFrames (n : Z)
| CSend (fd : Z) (data : list Z)
| CSetbuf
| CFprintf (s : list Z)
| CPropertyGet (name : list Z)
| CHwGetModule (name : list Z)
| CHwDeviceOpen.

Inductive call : Type :=
| CMalloc (n : Z)
| COpen (name : list Z) (flags : Z)
| CClose (fd : Z)
| CRead (fd n : Z)
| CRecv (fd n : Z)
| CFread (inf n : Z)
| CWrite (fd : Z) (data : list Z)
| CPoll (fd timeout : Z)
| CSelect (rd wr : list Z) (sec usec : Z)
| CSocket (type : Z)
| CBind (sd family addr port : Z)
| CListen (sd backlog : Z)
| CAccept (sd : Z)
| CConnect (sd family addr port : Z)
| CGetsockname (sd : Z)
| CGetpeername (sd : Z)
| CGethostbyname (host : list Z)
| CInetAddr (host : list Z)
| CPipe
| CFork
| CDup2 (a b : Z)
| CExecvp (argv : list (list Z))
| CExit (n : Z)
| CTime
| CGettimeofday
| CUsleep (us : Z)
| CSleep (s : Z)
| CRand
| CRandSeed
| CRandBytes (n : Z)
| CRsaPublicEncrypt (n e text : list Z) (padding : Z)
| CPthread (entry : Z)
| CPuts (s : list Z)
| CSigchld (cb : Z)
| CNotifyReady (b : bool)
| CIsActivated (host : list Z)
| CAudio (c : audio_call).

(** The reply: a result, bytes or words delivered through pointers, [errno]. *)
Record reply : Type := Reply { rv : Z; rdata : list Z; rerrno : Z }.

Class Env : Type := env_reply : list call -> call -> reply.

(** What POSIX says about the results of [read], [recv] and [write]. *)
Class Posix (E : Env) : Prop := {
  read_ret : forall tr fd n, 0 <= n -> -1 <= rv (env_reply tr (CRead fd n)) <= n;
  recv_ret : forall tr fd n, 0 <= n -> -1 <= rv (env_reply tr (CRecv fd n)) <= n;
  write_ret : forall tr fd d, -1 <= rv (env_reply tr (CWrite fd d)) <= zlen d
}.

(** An environment that gives the replies of a list in turn, then zeros. *)
Definition env_script (l : list reply) : Env := fun tr _ => nth (length tr) l (Reply 0 [] 0).

(** Any environment made to respect [Posix]. *)
Definition clamp (E : Env) : Env := fun tr c =>
  let r := E tr c in
  match c with
  | CRead _ n | CRecv _ n => Reply (Z.max (-1) (Z.min n r.(rv))) r.(rdata) r.(rerrno)
  | CWrite _ d => Reply (Z.max (-1) (Z.min (zlen d) r.(rv))) r.(rdata) r.(rerrno)
  | _ => r
  end.

#[export] Instance clamp_posix E : Posix (clamp E).
Proof.
  split; intros; unfold env_reply, clamp; cbn [rv]; [lia|lia|]. pose proof (zlen_nonneg d). lia.
Qed.

(** The environment that always answers zero. *)
Definition env0 : Env := clamp (env_script []).

(** ** The process *)

(** The callbacks registered in the event table of raop_play.c: the only
    functions of type [fd_callback_t] the program has. *)
Inductive fd_callback_t : Type := fd_event_callback_p | console_read_p | terminate_cbf_p.

#[export] Instance fd_callback_eq_dec : EqDecision fd_callback_t.
Proof. solve_decision. Defined.

(** [dfev_t]: [dp] is NULL ([false]) or the client ([true]), the only data
    pointers passed to [set_fd_event]. *)
Record dfev_t : Type := Dfev { fd : Z; dp : bool; cbf : option fd_callback_t; flags : Z }.

(** Static variables: [seq_number] and [begin] of [raopcl_send_sample],
    [totalcount] of [raopcl_count_samples], and the globals of aes.c. *)
Record statics : Type := Statics { seq_number : Z; begin : Z; totalcount : Z; aes : aes_globals }.
Definition statics0 : statics := Statics 0 1 0 globals_at_start.

Record proc : Type := Proc {
  heap : gmap Z block;
  fresh : Z;
  trace : list call;
  fds : list dfev_t;
  vars : statics
}.

(** A process before its first call. *)
Definition proc0 : proc := Proc ∅ 1 [] [] statics0.

Definition set_heap (h : gmap Z block) (s : proc) : proc :=
  Proc h s.(fresh) s.(trace) s.(fds) s.(vars).
Definition set_fds (t : list dfev_t) (s : proc) : proc :=
  Proc s.(heap) s.(fresh) s.(trace) t s.(vars).
Definition set_vars (v : statics) (s : proc) : proc :=
  Proc s.(heap) s.(fresh) s.(trace) s.(fds) v.

(** ** The monad *)

Definition M (A : Type) : Type := proc -> outcome (A * proc).

Definition ret {A} (a : A) : M A := fun s => Ret (a, s).
Definition bindM {A B} (m : M A) (f : A -> M B) : M B :=
  fun s => match m s with Ret (a, s') => f a s' | UB u => UB u end.
Definition undef {A} (u : ub) : M A := fun _ => UB u.
Definition lift {A} (o : outcome A) : M A := fun s => obind o (fun a => Ret (a, s)).
Definition gets {A} (f : proc -> A) : M A := fun s => Ret (f s, s).
Definition modify (f : proc -> proc) : M unit := fun s => Ret (tt, f s).

Notation "'do!' x <- m ; k" := (bindM m (fun x => k))
  (at level 10, x name, m at level 100, k at level 200) : c_scope.
Notation "'do!' ' p <- m ; k" := (bindM m (fun p => k))
  (at level 10, p pattern, m at level 100, k at level 200) : c_scope.
Notation "m ;; k" := (bindM m (fun _ => k))
  (at level 100, k at level 200, right associativity) : c_scope.

Lemma bindM_Ret {A B} (m : M A) (f : A -> M B) s a s' :
  m s = Ret (a, s') -> bindM m f s = f a s'.
Proof. intros E. unfold bindM. by rewrite E. Qed.

Lemma bindM_UB {A B} (m : M A) (f : A -> M B) s u : m s = UB u -> bindM m f s = UB u.
Proof. intros E. unfold bindM. by rewrite E. Qed.

Lemma bindM_inv {A B} (m : M A) (f : A -> M B) s r :
  bindM m f s = Ret r -> exists a s', m s = Ret (a, s') /\ f a s' = Ret r.
Proof. unfold bindM. destruct (m s) as [[a s']|u]; [|done]. eauto. Qed.

Lemma bindM_assoc {A B C} (m : M A) (f : A -> M B) (g : B -> M C) s :
  bindM (bindM m f) g s = bindM m (fun a => bindM (f a) g) s.
Proof. unfold bindM. by destruct (m s) as [[a s']|u]. Qed.

Lemma bindM_ret {A B} (a : A) (f : A -> M B) s : bindM (ret a) f s = f a s.
Proof. done. Qed.

(** Machine arithmetic: a signed result must be representable. *)
Definition int (x : Z) : M Z := if bool_decide (is_int x) then ret x else undef Overflow.

Section Machine.
Context {E : Env}.

(** ** System calls *)

Definition sys (c : call) : M reply := fun s =>
  Ret (env_reply s.(trace) c, Proc s.(heap) s.(fresh) (c :: s.(trace)) s.(fds) s.(vars)).

Definition syscall (c : call) : M Z := do! r <- sys c; ret r.(rv).

(** [read], [recv], [fread]: the count (negative: error) and the bytes; the
    number of bytes delivered is the count when it is positive. *)
Definition sys_read (c : call) : M (Z * list Z * Z) :=
  do! r <- sys c; ret (r.(rv), resize (Z.to_nat r.(rv)) 0 (map u8 r.(rdata)), r.(rerrno)).

(** OpenSSL's [RAND_bytes(buf, n)]: the return value and the bytes that the
    random generator delivers. *)
Definition RAND_bytes (n : Z) : M (Z * list Z) :=
  do! r <- sys (CRandBytes n); ret (r.(rv), resize (Z.to_nat n) 0 (map u8 r.(rdata))).

(** ** Allocation *)

Definition alloc (b : block) : M ptr := fun s =>
  Ret (Ptr s.(fresh) 0,
       Proc (<[s.(fresh) := b]> s.(heap)) (s.(fresh) + 1) s.(trace) s.(fds) s.(vars)).

(** [malloc(n)] of a byte array: NULL, or a new block with arbitrary contents.
    A request of 2 GB or more (a negative [int]) fails. *)
Definition malloc (n : Z) : M ptr :=
  do! r <- sys (CMalloc n);
  if (r.(rv) =? 0) || (n <? 0) then ret Null
  else alloc (Bytes (resize (Z.to_nat n) 0 (map u8 r.(rdata)))).

(** [malloc(n * sizeof(key_data_t))]; [sizeof(key_data_t)] is 8. *)
Definition malloc_kd (bytes : Z) : M ptr :=
  do! r <- sys (CMalloc bytes);
  if (r.(rv) =? 0) || (bytes <? 0) then ret Null
  else alloc (Kds (repeat kd_indet (Z.to_nat (bytes / 8)))).

(** [malloc] of a structure the model keeps as a value: success or not. *)
Definition malloc_struct (n : Z) : M bool :=
  do! r <- sys (CMalloc n); ret (negb (r.(rv) =? 0)).

(** [free(p)]: of NULL does nothing; only a block's first byte can be freed. *)
Definition free (p : ptr) : M unit :=
  match p with
  | Null => ret tt
  | Ptr l o => fun s =>
      match s.(heap) !! l with
      | Some _ => if o =? 0 then Ret (tt, set_heap (delete l s.(heap)) s) else UB DanglingPtr
      | None => UB DanglingPtr
      end
  end.

(** Every allocation succeeds. *)
Definition mem_available : Prop := forall tr n, rv (env_reply tr (CMalloc n)) <> 0.

(** ** Loads and stores *)

(** The bytes from [p] to the end of its block. *)
Definition view (p : ptr) : M (list Z) :=
  match p with
  | Null => undef NullDeref
  | Ptr l o => fun s =>
      match s.(heap) !! l with
      | Some (Bytes b) =>
          if (0 <=? o) && (o <=? zlen b) then Ret (drop (Z.to_nat o) b, s) else UB OutOfBounds
      | Some (Kds _) => UB OutOfBounds
      | None => UB DanglingPtr
      end
  end.

(** The string [p] points to. *)
Definition load_str (p : ptr) : M (list Z) := do! v <- view p; lift (cstr v).

(** Stores [src] at [p + off]. *)
Definition store (p : ptr) (off : Z) (src : list Z) : M unit :=
  match p with
  | Null => undef NullDeref
  | Ptr l o => fun s =>
      match s.(heap) !! l with
      | Some (Bytes b) =>
          do b' <- buf_write b (o + off) src; Ret (tt, set_heap (<[l := Bytes b']> s.(heap)) s)
      | Some (Kds _) => UB OutOfBounds
      | None => UB DanglingPtr
      end
  end.

Definition strcpy (p : ptr) (src : list Z) : M unit := store p 0 (src ++ [0]).

Definition strcat (p : ptr) (src : list Z) : M unit :=
  do! v <- load_str p; store p (zlen v) (src ++ [0]).

(** Entry [i] of an array of [key_data_t]. *)
Definition kd_at (p : ptr) (i : Z) : M key_data_t :=
  match p with
  | Null => undef NullDeref
  | Ptr l o => fun s =>
      match s.(heap) !! l with
      | Some (Kds k) =>
          if in_range i (zlen k) && (o =? 0) then
            match k !! Z.to_nat i with Some e => Ret (e, s) | None => UB OutOfBounds end
          else UB OutOfBounds
      | Some (Bytes _) => UB OutOfBounds
      | None => UB DanglingPtr
      end
  end.

Definition kd_update (p : ptr) (i : Z) (e : key_data_t) : M unit :=
  match p with
  | Null => undef NullDeref
  | Ptr l o => fun s =>
      match s.(heap) !! l with
      | Some (Kds k) =>
          if in_range i (zlen k) && (o =? 0) then
            Ret (tt, set_heap (<[l := Kds (<[Z.to_nat i := e]> k)]> s.(heap)) s)
          else UB OutOfBounds
      | Some (Bytes _) => UB OutOfBounds
      | None => UB DanglingPtr
      end
  end.

Definition the (v : option ptr) : M ptr :=
  match v with Some p => ret p | None => undef Uninit end.

Definition key_of (p : ptr) (i : Z) : M ptr := do! e <- kd_at p i; the e.(kd_key).
Definition data_of (p : ptr) (i : Z) : M ptr := do! e <- kd_at p i; the e.(kd_data).
Definition set_key (p : ptr) (i : Z) (v : ptr) : M unit :=
  do! e <- kd_at p i; kd_update p i (KeyData (Some v) e.(kd_data)).
Definition set_data (p : ptr) (i : Z) (v : ptr) : M unit :=
  do! e <- kd_at p i; kd_update p i (KeyData e.(kd_key) (Some v)).

(** [memset(p + i, 0, n * sizeof(key_data_t))]. *)
Definition kd_memset (p : ptr) (i n : Z) : M unit :=
  match p with
  | Null => undef NullDeref
  | Ptr l o => fun s =>
      match s.(heap) !! l with
      | Some (Kds k) =>
          if (0 <=? i) && (0 <=? n) && (i + n <=? zlen k) && (o =? 0) then
            Ret (tt, set_heap (<[l := Kds (take (Z.to_nat i) k ++ repeat kd_zero (Z.to_nat n) ++
              drop (Z.to_nat (i + n)) k)]> s.(heap)) s)
          else UB OutOfBounds
      | Some (Bytes _) => UB OutOfBounds
      | None => UB DanglingPtr
      end
  end.

End Machine.

(** ** Runs of the primitives *)

Definition with_trace (tr : list call) (s : proc) : proc :=
  Proc s.(heap) s.(fresh) tr s.(fds) s.(vars).

(** No block is live at a location that is still to be given out. *)
Definition heap_ok (s : proc) : Prop := forall l, s.(fresh) <= l -> s.(heap) !! l = None.

Section Runs.
Context {E : Env}.

Lemma sys_read_run c s :
  sys_read c s = let r := env_reply (trace s) c in
    Ret ((rv r, resize (Z.to_nat (rv r)) 0 (map u8 (rdata r)), rerrno r),
         with_trace (c :: trace s) s).
Proof. done. Qed.

Lemma malloc_run n s :
  0 <= n ->
  (rv (env_reply (trace s) (CMalloc n)) = 0 /\
   malloc n s = Ret (Null, with_trace (CMalloc n :: trace s) s)) \/
  rv (env_reply (trace s) (CMalloc n)) <> 0 /\
  exists g, zlen g = n /\ malloc n s =
    Ret (Ptr (fresh s) 0,
         Proc (<[fresh s := Bytes g]> (heap s)) (fresh s + 1) (CMalloc n :: trace s) (fds s) (vars s)).
Proof.
  intros Hn. unfold malloc, bindM, sys, alloc, ret. cbn [obind].
  rewrite (proj2 (Z.ltb_ge n 0)) by lia. rewrite orb_false_r.
  destruct (Z.eqb_spec (rv (env_reply (trace s) (CMalloc n))) 0); [by left|]. right.
  split; [done|]. eexists. split; [|done].
  unfold zlen. rewrite length_resize. lia.
Qed.

Lemma load_str_run l k r s :
  heap s !! l = Some (Bytes (k ++ 0 :: r)) -> nonul k -> load_str (Ptr l 0) s = Ret (k, s).
Proof.
  intros Hl Hk. unfold load_str, view, bindM, lift. rewrite Hl.
  rewrite (proj2 (Z.leb_le 0 (zlen _))) by apply zlen_nonneg.
  change (Z.to_nat 0) with 0%nat. rewrite drop_0. cbn [Z.leb Z.compare andb].
  by rewrite cstr_nul.
Qed.

Lemma free_run l b s : heap s !! l = Some b -> free (Ptr l 0) s = Ret (tt, set_heap (delete l (heap s)) s).
Proof. intros Hl. unfold free. by rewrite Hl. Qed.

Lemma view_run l b s : heap s !! l = Some (Bytes b) -> view (Ptr l 0) s = Ret (b, s).
Proof.
  intros Hl. unfold view. rewrite Hl. rewrite (proj2 (Z.leb_le 0 (zlen _))) by apply zlen_nonneg.
  change (Z.to_nat 0) with 0%nat. by rewrite drop_0.
Qed.

Lemma store_run l b off src s :
  heap s !! l = Some (Bytes b) -> 0 <= off -> off + zlen src <= zlen b ->
  store (Ptr l 0) off src s = Ret (tt, set_heap (<[l := Bytes (splice b off src)]> (heap s)) s).
Proof.
  intros Hl Ho Hs. unfold store. rewrite Hl. by rewrite buf_write_ok by lia.
Qed.

End Runs.

(** ** Formatting and scanning numbers *)

(** Digits of a non-negative number in base [base], at least one. *)
Fixpoint digits (fuel : nat) (base n : Z) : list Z :=
  match fuel with
  | O => []
  | S f => if n <? base then [n] else digits f base (n / base) ++ [n mod base]
  end.

Definition digit_char (d : Z) : Z := if d <? 10 then 48 + d else 87 + d.

(** [%d], [%u] and [%08x]. *)
Definition fmt_u (n : Z) : list Z := map digit_char (digits 70 10 n).
Definition fmt_d (n : Z) : list Z := if n <? 0 then 45 :: fmt_u (- n) else fmt_u n.
Definition fmt_08x (n : Z) : list Z :=
  let ds := map digit_char (digits 70 16 n) in repeat 48 (8 - length ds) ++ ds.

(** [isspace] in the C locale. *)
Definition isspace (c : Z) : bool := (c =? 32) || ((9 <=? c) && (c <=? 13)).
Definition isdigit (c : Z) : bool := (48 <=? c) && (c <=? 57).

Fixpoint skip_space (s : list Z) : list Z :=
  match s with c :: s' => if isspace c then skip_space s' else s | [] => [] end.

Fixpoint scan_digits (s : list Z) (acc : Z) : Z :=
  match s with
  | c :: s' => if isdigit c then scan_digits s' (10 * acc + (c - 48)) else acc
  | [] => acc
  end.

(** [atoi(s)]: the value of the leading number; out of range of [int] it is
    undefined. *)
Definition atoi (s : list Z) : outcome Z :=
  let s := skip_space s in
  let v := match s with
           | 45 :: s' => - scan_digits s' 0
           | 43 :: s' => scan_digits s' 0
           | _ => scan_digits s 0
           end in
  if bool_decide (is_int v) then Ret v else UB Overflow.

(** ** Searching strings *)

Fixpoint is_prefix (t s : list Z) : bool :=
  match t, s with
  | [], _ => true
  | a :: t', b :: s' => (a =? b) && is_prefix t' s'
  | _ :: _, [] => false
  end.

(** [strstr(s, t)]: the offset of the first occurrence. *)
Fixpoint strstr (s t : list Z) : option Z :=
  if is_prefix t s then Some 0
  else match s with
       | [] => None
       | _ :: s' => option_map Z.succ (strstr s' t)
       end.

Definition str_eqb (s t : list Z) : bool := bool_decide (s = t).

(** [strtok(s, d)] with a one-character delimiter set, called until it returns
    NULL: the list of tokens. *)
Fixpoint tokens_from (d : Z) (s cur : list Z) : list (list Z) :=
  match s with
  | [] => if bool_decide (cur = []) then [] else [cur]
  | c :: s' =>
      if c =? d then
        (if bool_decide (cur = []) then tokens_from d s' [] else cur :: tokens_from d s' [])
      else tokens_from d s' (cur ++ [c])
  end.
Definition tokens (d : Z) (s : list Z) : list (list Z) := tokens_from d s [].
