(* ===== verification/AexclLib.v ===== *)
(** * AexclLib: the socket, line and memory helpers of aexcl_lib.h and aexcl_lib.c *)

From S2P Require Import Prelude Sys.

(** ** Byte order *)

Definition htons (x : Z) : Z := ((x .& 0xff) .<< 8) .| (x .>> 8).
Definition ntohs (x : Z) : Z := htons x.

(** [GET_BIGENDIAN_INT(x)]: four bytes as an [int]. *)
Definition GET_BIGENDIAN_INT (b0 b1 b2 b3 : Z) : Z :=
  s32 ((b0 .<< 24) .| (b1 .<< 16) .| (b2 .<< 8) .| b3).

(** ** Memory *)

(** The loop of [realloc_memory]: the size that is requested. *)
Fixpoint align_loop (i : nat) (n newsize : Z) : Z :=
  match i with
  | O => newsize
  | S i => if newsize <=? n then n else align_loop i (n .<< 1) newsize
  end.
Definition align_size (newsize : Z) : Z := align_loop 8 16 newsize.

(** [lf_to_null(sline, linelen)]: the return value and the buffer. *)
Fixpoint lf_to_null_loop (fuel : nat) (sline : list Z) (i : Z) : outcome (Z * list Z) :=
  match fuel with
  | O => Ret (-1, sline)
  | S fuel =>
      do c <- buf_get sline i;
      if c =? 10 then do sline <- buf_set sline i 0; Ret (i, sline)
      else if c =? 0 then Ret (i, sline)
      else lf_to_null_loop fuel sline (i + 1)
  end.
Definition lf_to_null (sline : list Z) (linelen : Z) : outcome (Z * list Z) :=
  lf_to_null_loop (Z.to_nat linelen) sline 0.

(** [remove_char_from_string(str, rc)]: the inner loop moves the rest of the
    string (with its NUL) one place down. *)
Fixpoint shift_loop (n : nat) (j : Z) (str : list Z) : outcome (list Z) :=
  match n with
  | O => Ret str
  | S n => do c <- buf_get str (j + 1); do str <- buf_set str j c; shift_loop n (j + 1) str
  end.

Fixpoint remove_loop (fuel : nat) (str : list Z) (rc i len num : Z) : outcome (Z * list Z) :=
  if i <? len then
    match fuel with
    | O => UB NoFuel
    | S fuel =>
        do c <- buf_get str i;
        if c =? rc then
          do str <- shift_loop (Z.to_nat (len - i)) i str;
          remove_loop fuel str rc i (len - 1) (num + 1)
        else remove_loop fuel str rc (i + 1) len num
    end
  else Ret (num, str).

Definition remove_char_from_string (str : list Z) (rc : Z) : outcome (Z * list Z) :=
  do len <- strlen str; remove_loop (Z.to_nat len) str rc 0 len 0.

Section Aexcl.
Context {E : Env}.

(** [realloc_memory(&p, newsize, func)]: [*p] is set to NULL before the call
    of [realloc], so this allocates a new block and forgets the old one.  The
    result is the return value and [*p]. *)
Definition realloc_memory (newsize : Z) : M (Z * ptr) :=
  do! np <- malloc (align_size newsize);
  if decide (np = Null) then ret (-1, Null) else ret (0, np).

(** The same for an array of [key_data_t] ([newsize] in bytes). *)
Definition realloc_memory_kd (newsize : Z) : M (Z * ptr) :=
  do! np <- malloc_kd (align_size newsize);
  if decide (np = Null) then ret (-1, Null) else ret (0, np).

(** [get_10munit_time()] *)
Definition get_10munit_time : M Z :=
  do! r <- sys CGettimeofday;
  int ((znth r.(rdata) 0 .& 0x00FFFFFF) * 100 + Z.quot (znth r.(rdata) 1) 10000).

(** ** Sockets *)

Definition AF_INET : Z := 2.
Definition SOCK_STREAM : Z := 1.
Definition SOCK_DGRAM : Z := 2.
Definition INADDR_ANY : Z := 0.
Definition INADDR_NONE : Z := 0xFFFFFFFF.

(** [gethostbyname]: NULL, or the address type and the IPv4 address. *)
Definition gethostbyname (host : list Z) : M (option (Z * Z)) :=
  do! r <- sys (CGethostbyname host);
  ret (if r.(rv) =? 0 then None else Some (znth r.(rdata) 0, u32 (znth r.(rdata) 1))).

Definition inet_addr (host : list Z) : M Z := do! v <- syscall (CInetAddr host); ret (u32 v).

(** [bind_host(sd, hostname, ulAddr, &port)]: the return value and [*port]. *)
Definition bind_host (sd : Z) (hostname : option (list Z)) (ulAddr port : Z) : M (Z * Z) :=
  do! addr <-
    match hostname with
    | Some hn =>
        do! h <- gethostbyname hn;
        match h with
        | None =>
            if is_prefix (lit "255.255.255.255") hn then ret (Some (AF_INET, INADDR_NONE))
            else
              do! a <- inet_addr hn;
              ret (if a =? INADDR_NONE then None else Some (AF_INET, a))
        | Some (ty, a) => ret (Some (ty, a))
        end
    | None => ret (Some (AF_INET, if ulAddr =? 0 then INADDR_ANY else ulAddr))
    end;
  match addr with
  | None => ret (-1, port)
  | Some (family, a) =>
      do! b <- syscall (CBind sd family a (htons port));
      if b <? 0 then ret (-1, port)
      else if port =? 0 then
        do! r <- sys (CGetsockname sd);
        ret (0, ntohs (if r.(rv) =? 0 then u16 (znth r.(rdata) 0) else htons port))
      else ret (0, port)
  end.

Definition open_socket (type : Z) (hostname : option (list Z)) (port : Z) : M (Z * Z) :=
  do! sd <- syscall (CSocket type);
  if sd <? 0 then ret (-1, port)
  else
    do! '(r, port) <- bind_host sd hostname 0 port;
    if negb (r =? 0) then do! _ <- syscall (CClose sd); ret (-1, port) else ret (sd, port).

(** [open_tcp_socket(hostname, &port)], [open_udp_socket(hostname, &port)]: the
    socket or -1, and [*port]. *)
Definition open_tcp_socket : option (list Z) -> Z -> M (Z * Z) := open_socket SOCK_STREAM.
Definition open_udp_socket : option (list Z) -> Z -> M (Z * Z) := open_socket SOCK_DGRAM.

(** [get_tcp_connect(sd, dest_addr)]: a second attempt after 100 ms. *)
Definition get_tcp_connect (sd family addr port : Z) : M Z :=
  do! r <- syscall (CConnect sd family addr port);
  if r =? 0 then ret 0
  else
    do! _ <- syscall (CUsleep 100000);
    do! r <- syscall (CConnect sd family addr port);
    ret (if r =? 0 then 0 else -1).

Definition get_tcp_connect_by_host (sd : Z) (host : list Z) (destport : Z) : M Z :=
  do! h <- gethostbyname host;
  match h with
  | Some (ty, a) => get_tcp_connect sd ty a (htons destport)
  | None =>
      do! a <- inet_addr host;
      if a =? INADDR_NONE then ret (-1)
      else get_tcp_connect sd AF_INET a (htons destport)
  end.

(** ** Lines *)

Definition EAGAIN : Z := 11.

(** The loop of [read_line]: [n] iterations are left and [line] points at
    [buf + count]. *)
Fixpoint read_line_loop (n : nat) (fd maxlen timeout : Z) (no_poll : bool) (buf : list Z) (count : Z)
    : M (Z * list Z) :=
  match n with
  | O => do! buf <- lift (buf_set buf count 0); ret (count, buf)
  | S n =>
      do! ready <- (if no_poll then ret true
                    else do! r <- syscall (CPoll fd timeout); ret (negb (r =? 0)));
      if (ready : bool) then
        do! '(rval, bs, errno) <- sys_read (CRead fd 1);
        if rval =? -1 then ret (if errno =? EAGAIN then 0 else -1, buf)
        else if rval =? 0 then ret (-1, buf)
        else match bs with
        | [] => undef Uninit
        | ch :: _ =>
            if ch =? 10 then do! buf <- lift (buf_set buf count 0); ret (count, buf)
            else if ch =? 13 then read_line_loop n fd maxlen timeout no_poll buf count
            else
              do! buf <- lift (buf_set buf count ch);
              if maxlen - 1 <=? count + 1 then
                do! buf <- lift (buf_set buf (count + 1) 0); ret (count + 1, buf)
              else read_line_loop n fd maxlen timeout no_poll buf (count + 1)
        end
      else ret (0, buf)
  end.

(** [read_line(fd, line, maxlen, timeout, no_poll)]: the return value and the
    buffer. *)
Definition read_line (fd : Z) (line : list Z) (maxlen timeout : Z) (no_poll : bool) : M (Z * list Z) :=
  do! line <- lift (buf_set line 0 0);
  read_line_loop (Z.to_nat maxlen) fd maxlen timeout no_poll line 0.

(** ** Key/data arrays *)

(** The number of entries of the array at [p]: a scan ends by then. *)
Definition kd_fuel (p : ptr) : M nat := gets (fun s =>
  match p with
  | Ptr l _ => match s.(heap) !! l with Some (Kds k) => S (length k) | _ => 1%nat end
  | Null => 1%nat
  end).

Fixpoint kd_lookup_loop (fuel : nat) (kd : ptr) (key : list Z) (i : Z) : M ptr :=
  match fuel with
  | O => undef NoFuel
  | S fuel =>
      if decide (kd = Null) then ret Null
      else
        do! k <- key_of kd i;
        if decide (k = Null) then ret Null
        else
          do! ks <- load_str k;
          if str_eqb ks key then data_of kd i
          else kd_lookup_loop fuel kd key (i + 1)
  end.

Definition kd_lookup (kd : ptr) (key : list Z) : M ptr :=
  do! fuel <- kd_fuel kd; kd_lookup_loop fuel kd key 0.

Fixpoint free_kd_loop (fuel : nat) (kd : ptr) (i : Z) : M unit :=
  match fuel with
  | O => undef NoFuel
  | S fuel =>
      if decide (kd = Null) then ret tt
      else
        do! k <- key_of kd i;
        if decide (k = Null) then ret tt
        else
          do! _ <- free k;
          do! d <- data_of kd i;
          do! _ <- (if decide (d = Null) then ret tt else free d);
          free_kd_loop fuel kd (i + 1)
  end.

Definition free_kd (kd : ptr) : M unit :=
  do! fuel <- kd_fuel kd; do! _ <- free_kd_loop fuel kd 0; free kd.

(** ** Processes *)

(** [pipe(fds)]: the read and the write end. *)
Definition pipe : M (Z * Z) := do! r <- sys CPipe; ret (znth r.(rdata) 0, znth r.(rdata) 1).

(** [child_start(argv, infd, outfd, errfd)]: the flags say which of the three
    pointers are not NULL; the result is the pid and the descriptors stored.
    The child never returns ([None]). *)
Definition child_start (argv : list (list Z)) (infd outfd errfd : bool)
    : M (option (Z * option Z * option Z * option Z)) :=
  do! '(in0, in1) <- pipe;
  do! '(out0, out1) <- pipe;
  do! '(err0, err1) <- pipe;
  do! pid <- syscall CFork;
  if pid =? 0 then
    do! _ <- syscall (if infd then CDup2 in1 1 else CClose in1);
    do! _ <- syscall (CClose in0);
    do! _ <- syscall (if errfd then CDup2 err1 2 else CClose err1);
    do! _ <- syscall (CClose in0);
    do! _ <- syscall (if outfd then CDup2 out0 0 else CClose out0);
    do! _ <- syscall (CClose out1);
    do! _ <- syscall (CExecvp argv);
    do! _ <- syscall (CExit 0);
    ret None
  else
    do! _ <- (if infd then ret 0 else syscall (CClose in0));
    do! _ <- syscall (CClose in1);
    do! _ <- (if errfd then ret 0 else syscall (CClose err0));
    do! _ <- syscall (CClose err1);
    do! _ <- (if outfd then ret 0 else syscall (CClose out1));
    do! _ <- syscall (CClose out0);
    ret (Some (pid, (if infd then Some in0 else None), (if outfd then Some out1 else None),
               (if errfd then Some err0 else None))).

End Aexcl.

(** ** Removing a character *)

(** The inner loop drops one byte and repeats the last one moved. *)
Lemma shift_loop_spec b : forall a x y c,
  shift_loop (S (length b)) (zlen a) (a ++ x :: b ++ y :: c) = Ret (a ++ b ++ y :: y :: c).
Proof.
  induction b as [|z b IH]; intros a x y c.
  - cbn [length shift_loop app].
    replace (zlen a + 1) with (zlen (a ++ [x])) by (zlens; lia).
    replace (a ++ x :: y :: c) with ((a ++ [x]) ++ y :: c) at 1 by by rewrite <- app_assoc.
    rewrite buf_get_mid. cbn [obind]. by rewrite buf_set_mid.
  - cbn [length]. cbn [shift_loop]. cbn [app].
    replace (zlen a + 1) with (zlen (a ++ [x])) by (zlens; lia).
    replace (a ++ x :: z :: b ++ y :: c) with ((a ++ [x]) ++ z :: b ++ y :: c) at 1
      by by rewrite <- app_assoc.
    rewrite buf_get_mid. cbn [obind]. rewrite buf_set_mid. cbn [obind].
    specialize (IH (a ++ [z]) z y c). cbn [length] in IH.
    replace (zlen (a ++ [x])) with (zlen (a ++ [z])) by (zlens; lia).
    rewrite <- !app_assoc in IH. exact IH.
Qed.

Lemma remove_loop_spec rc rest : forall fuel kept junk num,
  (length rest <= fuel)%nat ->
  exists junk', remove_loop fuel (kept ++ rest ++ 0 :: junk) rc (zlen kept) (zlen kept + zlen rest) num =
    Ret (num + zlen (filter (fun c => c = rc) rest),
         kept ++ filter (fun c => c <> rc) rest ++ 0 :: junk') /\
    zlen junk' = zlen junk + zlen (filter (fun c => c = rc) rest).
Proof.
  induction rest as [|c rest IH]; intros fuel kept junk num Hf.
  { exists junk. destruct fuel; cbn [remove_loop];
      rewrite (proj2 (Z.ltb_ge _ _)) by (zlens; lia); zlens; rewrite filter_nil; simpl;
      (split; [do 2 f_equal; lia|lia]). }
  destruct fuel as [|fuel]; [simpl in Hf; lia|]. cbn [length] in Hf.
  pose proof (zlen_nonneg rest). cbn [remove_loop app].
  rewrite (proj2 (Z.ltb_lt _ _)) by (zlens; lia). rewrite buf_get_mid. cbn [obind].
  destruct (Z.eqb_spec c rc) as [->|Hne].
  - replace (Z.to_nat (zlen kept + zlen (rc :: rest) - zlen kept)) with (S (length rest))
      by (unfold zlen; simpl; lia).
    rewrite shift_loop_spec. cbn [obind].
    destruct (IH fuel kept (0 :: junk) (num + 1)) as (junk' & E1 & L1); [lia|].
    exists junk'. rewrite (filter_cons_True (fun c => c = rc)) by done.
    rewrite (filter_cons_False (fun c => c <> rc)) by (intros HH; by apply HH).
    replace (zlen kept + zlen (rc :: rest) - 1) with (zlen kept + zlen rest) by (zlens; lia).
    rewrite E1. zlens. split; [do 2 f_equal; lia|lia].
  - destruct (IH fuel (kept ++ [c]) junk num) as (junk' & E1 & L1); [lia|].
    exists junk'. rewrite (filter_cons_False (fun c => c = rc)) by done.
    rewrite (filter_cons_True (fun c => c <> rc)) by done.
    replace (zlen kept + 1) with (zlen (kept ++ [c])) by (zlens; lia).
    replace (zlen kept + zlen (c :: rest)) with (zlen (kept ++ [c]) + zlen rest) by (zlens; lia).
    rewrite <- !app_assoc in E1. done.
Qed.

(** [remove_char_from_string] leaves, in place and NUL-terminated, the
    characters different from [rc] in their order, and returns the number of
    characters removed; it stays inside the string's object. *)
Theorem remove_char_filter s r rc :
  nonul s ->
  exists r', remove_char_from_string (s ++ 0 :: r) rc =
    Ret (zlen (filter (fun c => c = rc) s), filter (fun c => c <> rc) s ++ 0 :: r') /\
    zlen r' = zlen r + zlen (filter (fun c => c = rc) s).
Proof.
  intros Hs. unfold remove_char_from_string. rewrite strlen_nul by done. cbn [obind].
  destruct (remove_loop_spec rc s (Z.to_nat (zlen s)) [] r 0) as (r' & E1 & L1);
    [unfold zlen; lia|].
  exists r'. split; [|done]. exact E1.
Qed.

Lemma remove_char_filter_witness :
  exists r', remove_char_from_string (lit "ab==" ++ [0]) 61 = Ret (2, lit "ab" ++ 0 :: r') /\ zlen r' = 2.
Proof. apply (remove_char_filter (lit "ab==") [] 61). repeat constructor; discriminate. Defined.

(** ** Allocation sizes *)

Lemma align_loop_spec i : forall n newsize,
  0 < n -> newsize <= align_loop i n newsize /\
  (newsize <= n -> align_loop i n newsize = if (i =? 0)%nat then newsize else n).
Proof.
  induction i as [|i IH]; intros n newsize Hn; cbn [align_loop]; [simpl; lia|].
  destruct (Z.leb_spec newsize n); [simpl; lia|].
  rewrite Z.shiftl_mul_pow2 by lia. change (2 ^ 1) with 2.
  destruct (IH (n * 2) newsize) as [IH1 _]; [lia|]. split; [done|lia].
Qed.

(** Picks the exponent of a power-of-two size. *)
Ltac pow2 k :=
  exists k; split; [lia|split; [reflexivity|first [left; reflexivity | right; assumption]]].

(** The size [realloc_memory] asks for covers the requested size, is the
    least power of two from 16 on that does when the request is at most 2048,
    and is the request itself above. *)
Theorem align_size_spec newsize :
  newsize <= align_size newsize /\
  (newsize <= 2048 -> exists k, 4 <= k <= 11 /\ align_size newsize = 2 ^ k /\
    (k = 4 \/ 2 ^ (k - 1) < newsize)) /\
  (2048 < newsize -> align_size newsize = newsize).
Proof.
  split; [apply align_loop_spec; lia|]. unfold align_size, align_loop.
  change (16 .<< 1) with 32. change (32 .<< 1) with 64. change (64 .<< 1) with 128.
  change (128 .<< 1) with 256. change (256 .<< 1) with 512. change (512 .<< 1) with 1024.
  change (1024 .<< 1) with 2048.
  split; intros Hn.
  - destruct (Z.leb_spec newsize 16); [pow2 4|].
    destruct (Z.leb_spec newsize 32); [pow2 5|].
    destruct (Z.leb_spec newsize 64); [pow2 6|].
    destruct (Z.leb_spec newsize 128); [pow2 7|].
    destruct (Z.leb_spec newsize 256); [pow2 8|].
    destruct (Z.leb_spec newsize 512); [pow2 9|].
    destruct (Z.leb_spec newsize 1024); [pow2 10|].
    destruct (Z.leb_spec newsize 2048); [pow2 11|lia].
  - repeat match goal with |- context [newsize <=? ?n] =>
      rewrite (proj2 (Z.leb_gt newsize n)) by lia end. done.
Qed.

(** ** Lines *)

Section Feeds.
Context {E : Env} (fd timeout : Z) (no_poll : bool).

(** The descriptor delivers the bytes [bs], one for each call of [read]. *)
Fixpoint feeds (bs : list Z) (tr : list call) : Prop :=
  match bs with
  | [] => True
  | b :: bs =>
      let tr1 := if no_poll then tr else CPoll fd timeout :: tr in
      (no_poll = false -> rv (env_reply tr (CPoll fd timeout)) <> 0) /\
      rv (env_reply tr1 (CRead fd 1)) = 1 /\
      (exists r, rdata (env_reply tr1 (CRead fd 1)) = b :: r) /\
      feeds bs (CRead fd 1 :: tr1)
  end.

(** The calls made to receive [n] bytes. *)
Fixpoint fed (n : nat) (tr : list call) : list call :=
  match n with
  | O => tr
  | S n => fed n (CRead fd 1 :: if no_poll then tr else CPoll fd timeout :: tr)
  end.

End Feeds.

Section Read_line.
Context {E : Env} (fd timeout : Z) (no_poll : bool).
#[local] Abbreviation feeds := (feeds fd timeout no_poll).
#[local] Abbreviation fed := (fed fd timeout no_poll).

(** One iteration that receives the byte [b]. *)
Lemma read_line_step b bs n maxlen buf count s :
  is_u8 b -> feeds (b :: bs) (trace s) ->
  read_line_loop (S n) fd maxlen timeout no_poll buf count s =
  (if b =? 10 then do! buf <- lift (buf_set buf count 0); ret (count, buf)
   else if b =? 13 then read_line_loop n fd maxlen timeout no_poll buf count
   else
     do! buf <- lift (buf_set buf count b);
     if maxlen - 1 <=? count + 1 then
       do! buf <- lift (buf_set buf (count + 1) 0); ret (count + 1, buf)
     else read_line_loop n fd maxlen timeout no_poll buf (count + 1))
  (with_trace (fed 1 (trace s)) s).
Proof.
  intros Hb (Hp & Hr & (r & Hd) & _). cbn [read_line_loop].
  unfold bindM at 1. destruct no_poll; unfold bindM at 1, syscall, sys_read, sys, bindM, ret; cbn;
    [|rewrite (proj2 (Z.eqb_neq _ 0)) by auto; cbn];
    rewrite Hr, Hd; cbn -[u8]; rewrite (u8_id b) by done;
    change (Z.to_nat 1) with 1%nat; cbn [resize]; done.
Qed.

Lemma feeds_tail b bs s : feeds (b :: bs) (trace s) -> feeds bs (fed 1 (trace s)).
Proof. by intros (_ & _ & _ & H). Qed.

Lemma read_line_loop_line maxlen bs : forall n pre rest s,
  bytes bs -> Forall (fun c => c <> 10) bs -> (length bs < n)%nat ->
  feeds (bs ++ [10]) (trace s) ->
  zlen pre + zlen (filter (fun c => c <> 13) bs) < maxlen - 1 -> maxlen <= zlen pre + zlen rest ->
  exists rest', read_line_loop n fd maxlen timeout no_poll (pre ++ rest) (zlen pre) s =
    Ret ((zlen pre + zlen (filter (fun c => c <> 13) bs),
          pre ++ filter (fun c => c <> 13) bs ++ 0 :: rest'),
         with_trace (fed (S (length bs)) (trace s)) s) /\
    zlen (filter (fun c => c <> 13) bs ++ 0 :: rest') = zlen rest.
Proof.
  induction bs as [|b bs IH]; intros n pre rest s Hby Hnl Hn Hfeed Hmax Hroom;
    (destruct n as [|n]; [lia|]).
  - rewrite filter_nil in *. zlens. destruct rest as [|c rest]; [zlens; lia|].
    rewrite (read_line_step 10 []) by done. cbn [Z.eqb Pos.eqb].
    unfold lift, bindM. rewrite buf_set_mid. cbn [obind ret]. exists rest.
    split; [by rewrite Z.add_0_r|zlens; lia].
  - apply Forall_cons in Hby as [Hb Hby]. apply Forall_cons in Hnl as [H10 Hnl].
    cbn [app] in Hfeed. pose proof (feeds_tail _ _ _ Hfeed) as Hfeed'.
    rewrite (read_line_step b (bs ++ [10])) by done.
    rewrite (proj2 (Z.eqb_neq b 10)) by done.
    change (fed (S (length (b :: bs))) (trace s)) with (fed (S (length bs)) (fed 1 (trace s))).
    cbn [length] in Hn.
    destruct (Z.eqb_spec b 13) as [->|H13].
    + rewrite filter_cons_False in * by (intros HH; by apply HH).
      destruct (IH n pre rest (with_trace (fed 1 (trace s)) s)) as (rest' & E1 & L1); [done..|lia|done|done|done|].
      by exists rest'.
    + rewrite filter_cons_True in * by done. rewrite zlen_cons in Hmax.
      pose proof (zlen_nonneg (filter (fun c => c <> 13) bs)).
      destruct rest as [|c rest]; [zlens; lia|].
      unfold lift at 1, bindM at 1. rewrite buf_set_mid. cbn [obind].
      rewrite (proj2 (Z.leb_gt _ _)) by lia.
      destruct (IH n (pre ++ [b]) rest (with_trace (fed 1 (trace s)) s)) as (rest' & E1 & L1);
        [done..|lia|done|zlens; lia|zlens; lia|].
      exists rest'. rewrite <- !app_assoc in E1.
      replace (zlen pre + 1) with (zlen (pre ++ [b])) by (zlens; lia).
      cbn [app] in E1 |- *. rewrite E1. split; [|zlens; lia].
      do 3 f_equal. zlens. lia.
Qed.
End Read_line.

Lemma read_line_fed {E : Env} fd line maxlen timeout no_poll bs s :
  bytes bs -> Forall (fun c => c <> 10) bs ->
  feeds fd timeout no_poll (bs ++ [10]) (trace s) ->
  zlen bs < maxlen -> zlen (filter (fun c => c <> 13) bs) < maxlen - 1 -> maxlen <= zlen line ->
  exists rest, read_line fd line maxlen timeout no_poll s =
    Ret ((zlen (filter (fun c => c <> 13) bs), filter (fun c => c <> 13) bs ++ 0 :: rest),
         with_trace (fed fd timeout no_poll (S (length bs)) (trace s)) s) /\
    zlen (filter (fun c => c <> 13) bs ++ 0 :: rest) = zlen line.
Proof.
  intros Hby Hnl Hfeed Hm1 Hm2 Hline. unfold read_line.
  pose proof (zlen_nonneg bs). destruct line as [|c line]; [zlens; lia|].
  unfold lift, bindM at 1. rewrite buf_set_head. cbn [obind app].
  destruct (read_line_loop_line fd timeout no_poll maxlen bs (Z.to_nat maxlen) [] (0 :: line) s)
    as (rest & E1 & L1); [done|done|unfold zlen in Hm1; lia|done|done|zlens; lia|].
  exists rest. split; [exact E1|]. rewrite L1. by zlens.
Qed.

(** ** A peer that sends a text *)

Definition is_read (fd : Z) (c : call) : bool :=
  match c with CRead f _ => f =? fd | _ => false end.

(** The number of reads from [fd] so far. *)
Definition reads (fd : Z) (tr : list call) : nat := length (List.filter (is_read fd) tr).

(** The peer on [fd] delivers [input], one byte for each read, then is silent;
    memory is available. *)
Class Peer (E : Env) (fd : Z) (input : list Z) : Prop := {
  peer_ready : forall tr t, (reads fd tr < length input)%nat -> rv (env_reply tr (CPoll fd t)) <> 0;
  peer_silent : forall tr t, (length input <= reads fd tr)%nat -> rv (env_reply tr (CPoll fd t)) = 0;
  peer_byte : forall tr b, input !! reads fd tr = Some b ->
    rv (env_reply tr (CRead fd 1)) = 1 /\ exists r, rdata (env_reply tr (CRead fd 1)) = b :: r;
  peer_memory : forall tr n, rv (env_reply tr (CMalloc n)) <> 0
}.

(** Such an environment; everything written is accepted. *)
Definition peer_env (fd : Z) (input : list Z) : Env := fun tr c =>
  match c with
  | CMalloc _ => Reply 1 [] 0
  | CPoll f _ => Reply (if (f =? fd) && (reads fd tr <? length input)%nat then 1 else 0) [] 0
  | CRead f _ =>
      match input !! reads fd tr with
      | Some b => Reply 1 [b] 0
      | None => Reply 0 [] 0
      end
  | CWrite _ d => Reply (zlen d) [] 0
  | _ => Reply 0 [] 0
  end.

#[export] Instance peer_env_peer fd input : Peer (peer_env fd input) fd input.
Proof.
  split; intros; unfold env_reply, peer_env; rewrite ?Z.eqb_refl; cbn [rv andb].
  - by rewrite (proj2 (Nat.ltb_lt _ _)).
  - by rewrite (proj2 (Nat.ltb_ge _ _)).
  - rewrite H. split; [done|by eexists].
  - done.
Qed.

Section Peer_lines.
Context {E : Env} {fd : Z} {input : list Z} {HP : Peer E fd input}.

Lemma reads_cons_read tr : reads fd (CRead fd 1 :: tr) = S (reads fd tr).
Proof. unfold reads. simpl. by rewrite Z.eqb_refl. Qed.

Lemma peer_feeds t bs : forall tr rest, drop (reads fd tr) input = bs ++ rest ->
  feeds fd t false bs tr /\
  reads fd (fed fd t false (length bs) tr) = (reads fd tr + length bs)%nat.
Proof.
  induction bs as [|b bs IH]; intros tr rest Hd; [split; [done|simpl; lia]|].
  assert (Hb : input !! reads fd tr = Some b).
  { rewrite <- (Nat.add_0_r (reads fd tr)), <- lookup_drop, Hd. done. }
  assert (Hr : reads fd (CPoll fd t :: tr) = reads fd tr) by done.
  destruct (peer_byte (CPoll fd t :: tr) b) as (H1 & H2); [by rewrite Hr|].
  assert (Hd' : drop (reads fd (CRead fd 1 :: CPoll fd t :: tr)) input = bs ++ rest).
  { rewrite reads_cons_read, Hr, <- Nat.add_1_r, <- drop_drop, Hd. done. }
  destruct (IH _ _ Hd') as (IH1 & IH2).
  cbn [feeds fed length]. split_and!; [|done|done|done|].
  - intros _. apply peer_ready. by apply lookup_lt_Some in Hb.
  - rewrite IH2, reads_cons_read, Hr. lia.
Qed.

(** A line without NUL, CR and LF. *)
Definition clean (l : list Z) : Prop := Forall (fun c => is_u8 c /\ c <> 0 /\ c <> 10 /\ c <> 13) l.

Lemma clean_nonul l : clean l -> nonul l.
Proof. intros H. eapply Forall_impl; [exact H|]. naive_solver. Qed.

Lemma clean_filter l : clean l -> filter (fun c => c <> 13) (l ++ [13]) = l.
Proof.
  intros H. induction H as [|c l Hc Hl IH]; [done|]. cbn [app].
  rewrite filter_cons_True by naive_solver. by rewrite IH.
Qed.

Lemma read_line_peer_run line t l rest s :
  clean l -> drop (reads fd (trace s)) input = l ++ 13 :: 10 :: rest ->
  zlen l + 2 < 2048 -> zlen line = 2048 ->
  exists tl tr, read_line fd line 2048 t false s = Ret ((zlen l, l ++ 0 :: tl), with_trace tr s) /\
    zlen (l ++ 0 :: tl) = 2048 /\ drop (reads fd tr) input = rest.
Proof.
  intros Hl Hd Hlen Hbuf.
  assert (Hd' : drop (reads fd (trace s)) input = ((l ++ [13]) ++ [10]) ++ rest)
    by (rewrite Hd; by rewrite <- !app_assoc).
  destruct (peer_feeds t _ _ _ Hd') as (Hfeed & Hreads).
  destruct (read_line_fed fd line 2048 t false (l ++ [13]) s) as (tl & E1 & L1).
  - apply Forall_app. split; [|repeat constructor; unfold is_u8; lia].
    eapply Forall_impl; [exact Hl|]. naive_solver.
  - apply Forall_app. split; [|repeat constructor; lia].
    eapply Forall_impl; [exact Hl|]. naive_solver.
  - done.
  - zlens. lia.
  - rewrite clean_filter by done. lia.
  - lia.
  - rewrite clean_filter in * by done. eexists tl, _. split; [exact E1|]. split; [lia|].
    rewrite length_app in Hreads. simpl in Hreads. rewrite Nat.add_1_r in Hreads.
    rewrite Hreads, <- drop_drop, Hd'. apply drop_app_length'. rewrite !length_app. simpl. lia.
Qed.
End Peer_lines.

(** When the peer sends a line, [read_line] stores it without CR and LF
    and NUL-terminated, returns its length, and has consumed the bytes up to and
    including the LF and nothing more; the memory of the process is untouched. *)
Theorem read_line_spec {E : Env} fd input line t l rest s :
  Peer E fd input -> clean l ->
  drop (reads fd (trace s)) input = l ++ [13; 10] ++ rest ->
  zlen l + 2 < 2048 -> zlen line = 2048 ->
  exists tl tr, read_line fd line 2048 t false s = Ret ((zlen l, l ++ 0 :: tl), with_trace tr s) /\
    drop (reads fd tr) input = rest.
Proof.
  intros HP Hl Hd Hlen Hbuf.
  destruct (read_line_peer_run line t l rest s Hl Hd Hlen Hbuf) as (tl & tr & E1 & _ & R1). eauto.
Qed.

Lemma read_line_spec_witness :
  exists tl tr, @read_line (peer_env 5 (lit "hi" ++ [13; 10; 65])) 5 (repeat 0xaa 2048) 2048 100 false proc0 =
      Ret ((2, lit "hi" ++ 0 :: tl), with_trace tr proc0) /\
    drop (reads 5 tr) (lit "hi" ++ [13; 10; 65]) = [65].
Proof.
  assert (Hl : clean (lit "hi")) by (change (clean [104; 105]); repeat constructor; lia).
  exact (read_line_spec 5 (lit "hi" ++ [13; 10; 65]) (repeat 0xaa 2048) 100 (lit "hi") [65] proc0
    (peer_env_peer 5 _) Hl eq_refl eq_refl eq_refl).
Defined.

(** Outcome of [read_line] for any behaviour of the peer. *)
Definition line_result (maxlen : Z) (buf : list Z) (r : Z) (buf' : list Z) : Prop :=
  zlen buf' = zlen buf /\ -1 <= r < Z.max maxlen 1 /\ (0 < r -> znth buf' r = 0).

(** Behind the history [tr0] only this descriptor was polled and read, byte by byte and
    at most [n] times. *)
Definition line_calls (fd timeout : Z) (n : nat) (tr0 tr : list call) : Prop :=
  exists cs, tr = cs ++ tr0 /\ Forall (fun c => c = CPoll fd timeout \/ c = CRead fd 1) cs /\ (reads fd cs <= n)%nat.

Lemma line_calls_nil fd timeout n tr : line_calls fd timeout n tr tr.
Proof. exists []. split; [done|]. split; [constructor|cbn; lia]. Qed.
Lemma line_calls_poll fd timeout n tr : line_calls fd timeout n tr (CPoll fd timeout :: tr).
Proof. exists [CPoll fd timeout]. split; [done|]. split; [constructor; [by left|constructor]|cbn; lia]. Qed.
Lemma line_calls_app fd timeout m n tr0 tr1 tr2 :
  line_calls fd timeout m tr0 tr1 -> line_calls fd timeout n tr1 tr2 -> line_calls fd timeout (m + n) tr0 tr2.
Proof.
  intros (c1 & -> & F1 & N1) (c2 & -> & F2 & N2). exists (c2 ++ c1). rewrite app_assoc. split; [done|].
  split; [by apply Forall_app|]. unfold reads in *. rewrite List.filter_app, length_app. lia.
Qed.
Lemma line_calls_read fd timeout n tr0 tr :
  line_calls fd timeout 0 tr0 tr -> line_calls fd timeout (S n) tr0 (CRead fd 1 :: tr).
Proof.
  intros H. apply (line_calls_app fd timeout 0 (S n) tr0 tr); [done|]. exists [CRead fd 1]. split; [done|].
  split; [constructor; [by right|constructor]|]. unfold reads. cbn. rewrite Z.eqb_refl. cbn. lia.
Qed.

Section Read_line_safe.
Context {E : Env} {HE : Posix E} (fd timeout : Z) (no_poll : bool).

Lemma nul_stored buf count :
  0 <= count < zlen buf ->
  exists buf', buf_set buf count 0 = Ret buf' /\ zlen buf' = zlen buf /\ znth buf' count = 0.
Proof.
  intros Hc. unfold buf_set, in_range.
  rewrite (proj2 (Z.leb_le _ _)), (proj2 (Z.ltb_lt _ _)) by lia.
  eexists. split; [done|]. unfold zlen in *. rewrite length_zset.
  split; [done|]. by apply znth_zset_eq.
Qed.

Lemma read_line_loop_safe maxlen n : forall buf count s,
  0 <= count < maxlen - 1 -> maxlen <= zlen buf ->
  exists r buf' tr, read_line_loop n fd maxlen timeout no_poll buf count s =
    Ret ((r, buf'), with_trace tr s) /\ line_calls fd timeout n (trace s) tr /\ line_result maxlen buf r buf'.
Proof.
  induction n as [|n IH]; intros buf count s Hc Hb.
  { destruct (nul_stored buf count) as (buf' & E1 & L1 & N1); [lia|].
    cbn [read_line_loop]. unfold lift, bindM. rewrite E1. cbn [obind ret].
    exists count, buf', (trace s). split; [by destruct s|]. split; [apply line_calls_nil|].
    unfold line_result. split_and!; [done|lia..|done]. }
  cbn [read_line_loop].
  assert (Hready : exists b tr, (if no_poll then ret true
    else do! r <- syscall (CPoll fd timeout); ret (negb (r =? 0))) s = Ret (b, with_trace tr s) /\
    line_calls fd timeout 0 (trace s) tr).
  { destruct no_poll; [exists true, (trace s)|eexists _, _]; (split; [by destruct s || done|]);
      [apply line_calls_nil|apply line_calls_poll]. }
  destruct Hready as (b & tr & Hready & Htr). rewrite (bindM_Ret _ _ _ _ _ Hready).
  destruct b; [|exists 0, buf, tr; split; [done|split; [by apply (line_calls_app _ _ 0 (S n) _ tr), line_calls_nil|unfold line_result; lia]]].
  erewrite bindM_Ret by apply sys_read_run. cbn beta iota zeta.
  set (tr1 := CRead fd 1 :: trace (with_trace tr s)).
  assert (Htr1 : forall k, line_calls fd timeout (S k) (trace s) tr1) by (intros k; by apply line_calls_read).
  pose proof (read_ret (trace (with_trace tr s)) fd 1 ltac:(lia)) as Hr.
  set (rp := env_reply (trace (with_trace tr s)) (CRead fd 1)) in *.
  destruct (Z.eqb_spec (rv rp) (-1)).
  { eexists _, buf, tr1. split; [done|]. split; [apply Htr1|]. unfold line_result. destruct (rerrno rp =? EAGAIN); lia. }
  destruct (Z.eqb_spec (rv rp) 0).
  { exists (-1), buf, tr1. split; [done|]. split; [apply Htr1|]. unfold line_result. lia. }
  replace (rv rp) with 1 by lia. change (Z.to_nat 1) with 1%nat.
  destruct (resize 1 0 (map u8 (rdata rp))) as [|ch ?] eqn:Hre.
  { by apply (f_equal length) in Hre; rewrite length_resize in Hre. }
  destruct (nul_stored buf count) as (buf0 & E0 & L0 & N0); [lia|].
  destruct (ch =? 10).
  { unfold lift, bindM. rewrite E0. exists count, buf0, tr1. split; [done|]. split; [apply Htr1|]. unfold line_result.
    split_and!; [done|lia..|done]. }
  assert (Hrest : forall tr', line_calls fd timeout n tr1 tr' -> line_calls fd timeout (S n) (trace s) tr').
  { intros tr' H'. apply (line_calls_app _ _ 1 n _ tr1); [apply Htr1|done]. }
  destruct (ch =? 13).
  { destruct (IH buf count (with_trace tr1 s) Hc Hb) as (r & buf2 & tr2 & E2 & Hc2 & Hl).
    exists r, buf2, tr2. split; [exact E2|]. split; [by apply Hrest|done]. }
  unfold lift at 1, bindM at 1. rewrite buf_set_ok by lia. cbn [obind].
  set (buf1 := splice buf count [ch]).
  assert (L1 : zlen buf1 = zlen buf) by (apply zlen_splice; zlens; lia).
  destruct (Z.leb_spec (maxlen - 1) (count + 1)).
  - destruct (nul_stored buf1 (count + 1)) as (buf2 & E2 & L2 & N2); [lia|].
    unfold lift, bindM. rewrite E2. exists (count + 1), buf2, tr1. split; [done|]. split; [apply Htr1|].
    unfold line_result. split_and!; [lia..|done].
  - destruct (IH buf1 (count + 1) (with_trace tr1 s)) as (r & buf2 & tr2 & E2 & Hc2 & Hl); [lia|lia|].
    exists r, buf2, tr2. split; [exact E2|]. split; [by apply Hrest|]. unfold line_result in *. rewrite L1 in Hl. done.
Qed.
End Read_line_safe.

(** C30: whatever the peer sends, and whatever errors and timeouts occur,
    [read_line] with a buffer of [maxlen >= 2] bytes stays inside it, ends after
    at most [maxlen] reads of one byte (and polls of the same descriptor, and no other
    call), returns -1, 0 or a length below [maxlen], and a positive result is followed by
    the terminating NUL. *)
Theorem read_line_safe {E : Env} {HE : Posix E} fd line maxlen timeout no_poll s :
  2 <= maxlen <= zlen line ->
  exists r line' tr, read_line fd line maxlen timeout no_poll s = Ret ((r, line'), with_trace tr s) /\
    (exists cs, tr = cs ++ trace s /\ Forall (fun c => c = CPoll fd timeout \/ c = CRead fd 1) cs /\
       Z.of_nat (reads fd cs) <= maxlen) /\
    zlen line' = zlen line /\ -1 <= r < maxlen /\ (0 < r -> znth line' r = 0).
Proof.
  intros Hm. unfold read_line. destruct line as [|c line]; [zlens; lia|].
  unfold lift, bindM at 1. rewrite buf_set_head. cbn [obind].
  destruct (read_line_loop_safe fd timeout no_poll maxlen (Z.to_nat maxlen) (0 :: line) 0 s)
    as (r & buf & tr & E1 & (cs & Ecs & Fcs & Ncs) & H1 & H2 & H3); [lia|zlens; lia|].
  exists r, buf, tr. split; [exact E1|]. split; [exists cs; split_and!; [done|done|lia]|]. split_and!; [by rewrite H1, !zlen_cons|lia..|done].
Qed.

Lemma read_line_safe_witness :
  exists r line' tr, @read_line env0 5 (repeat 0 4) 4 100 false proc0 = Ret ((r, line'), with_trace tr proc0) /\
    (exists cs, tr = cs ++ [] /\ Forall (fun c => c = CPoll 5 100 \/ c = CRead 5 1) cs /\ Z.of_nat (reads 5 cs) <= 4) /\
    zlen line' = 4 /\ -1 <= r < 4 /\ (0 < r -> znth line' r = 0).
Proof.
  apply (read_line_safe (E := env0) 5 (repeat 0 4) 4 100 false proc0). vm_compute. split; discriminate.
Defined.

(** The string is not always NUL-terminated: when the peer pauses within a
    line (two bytes, then the poll times out), [read_line] returns 0 and the
    buffer holds what was received followed by its old contents; and with
    [maxlen = 1] the terminator is written behind the buffer. *)
Theorem read_line_unterminated :
  (exists s, @read_line (env_script [Reply 1 [] 0; Reply 1 [104] 0; Reply 1 [] 0; Reply 1 [105] 0; Reply 0 [] 0])
     5 (repeat 0xaa 4) 4 100 false proc0 = Ret ((0, [104; 105; 0xaa; 0xaa]), s)) /\
  @read_line (env_script [Reply 1 [] 0; Reply 1 [104] 0]) 5 [0xaa] 1 100 false proc0 = UB OutOfBounds.
Proof. split; [eexists|]; reflexivity. Qed.

(** ** Key/data arrays in memory *)

(** An entry: the locations of its two strings and the strings. *)
Record kd_entry : Type := KdEntry { loc_key : Z; str_key : list Z; loc_data : Z; str_data : list Z }.

(** The heap holds the entries [kvs] in the array cells [es], up to a cell with
    a NULL key. *)
Inductive kd_repr (h : gmap Z block) : list key_data_t -> list kd_entry -> Prop :=
| kd_repr_nil d es : kd_repr h (KeyData (Some Null) d :: es) []
| kd_repr_cons lk k rk ld d rd es kvs :
    h !! lk = Some (Bytes (k ++ 0 :: rk)) -> nonul k ->
    h !! ld = Some (Bytes (d ++ 0 :: rd)) -> nonul d ->
    kd_repr h es kvs ->
    kd_repr h (KeyData (Some (Ptr lk 0)) (Some (Ptr ld 0)) :: es) (KdEntry lk k ld d :: kvs).
#[export] Hint Constructors kd_repr : core.

Definition kd_locs (kvs : list kd_entry) : list Z :=
  flat_map (fun e => [loc_key e; loc_data e]) kvs.

Lemma kd_repr_length h es kvs : kd_repr h es kvs -> (length kvs < length es)%nat.
Proof. induction 1; simpl; lia. Qed.

(** Freeing an unrelated block keeps the entries. *)
Lemma kd_repr_delete h es kvs l :
  kd_repr h es kvs -> l ∉ kd_locs kvs -> kd_repr (delete l h) es kvs.
Proof.
  induction 1 as [|lk k rk ld d rd es kvs Hk Hnk Hd Hnd Hr IH]; intros Hl; [constructor|].
  cbn [kd_locs flat_map loc_key loc_data app] in Hl. fold (kd_locs kvs) in Hl.
  apply not_elem_of_cons in Hl as [H1 Hl]. apply not_elem_of_cons in Hl as [H2 Hl].
  econstructor; [by rewrite lookup_delete_ne|done|by rewrite lookup_delete_ne|done|by apply IH].
Qed.

Lemma kd_at_run l k i e s :
  heap s !! l = Some (Kds k) -> 0 <= i -> k !! Z.to_nat i = Some e ->
  kd_at (Ptr l 0) i s = Ret (e, s).
Proof.
  intros Hl Hi He. unfold kd_at. rewrite Hl. apply lookup_lt_Some in He as Hlt.
  unfold in_range, zlen. rewrite (proj2 (Z.leb_le _ _)), (proj2 (Z.ltb_lt _ _)) by lia.
  simpl. by rewrite He.
Qed.

Lemma kd_fuel_run l k o s :
  heap s !! l = Some (Kds k) -> kd_fuel (Ptr l o) s = Ret (S (length k), s).
Proof. intros Hl. unfold kd_fuel, gets. by rewrite Hl. Qed.

Lemma kd_lookup_loop_spec l all key s : heap s !! l = Some (Kds all) ->
  forall es kvs, kd_repr (heap s) es kvs ->
  forall i fuel, drop (Z.to_nat i) all = es -> 0 <= i -> (length kvs < fuel)%nat ->
  kd_lookup_loop fuel (Ptr l 0) key i s =
  Ret (match List.find (fun e => str_eqb (str_key e) key) kvs with
       | Some e => Ptr (loc_data e) 0 | None => Null end, s).
Proof.
  intros Hl. induction 1 as [d es|lk k rk ld d rd es kvs Hk Hnk Hd Hnd Hr IH];
    intros i fuel Hes Hi Hf; (destruct fuel as [|fuel]; [lia|]);
    pose proof (f_equal (fun x => x !! 0%nat) Hes) as Hget; rewrite lookup_drop, Nat.add_0_r in Hget;
    cbn [kd_lookup_loop]; rewrite decide_False by done;
    unfold key_of; rewrite bindM_assoc; erewrite bindM_Ret by (by eapply kd_at_run);
    cbn [kd_key the]; rewrite bindM_ret.
  - by rewrite decide_True.
  - rewrite decide_False by done. erewrite bindM_Ret by (by eapply load_str_run).
    cbn [List.find str_key]. destruct (str_eqb k key).
    + unfold data_of. by erewrite bindM_Ret by (by eapply kd_at_run).
    + apply IH; [|lia|simpl in Hf; lia].
      replace (Z.to_nat (i + 1)) with (S (Z.to_nat i)) by lia.
      by rewrite <- (drop_drop _ (Z.to_nat i) 1), Hes || (rewrite <- Nat.add_1_r, <- drop_drop, Hes).
Qed.

Lemma free_kd_loop_spec l all : forall kvs es i fuel s,
  heap s !! l = Some (Kds all) -> kd_repr (heap s) es kvs ->
  drop (Z.to_nat i) all = es -> 0 <= i -> (length kvs < fuel)%nat -> NoDup (l :: kd_locs kvs) ->
  free_kd_loop fuel (Ptr l 0) i s =
  Ret (tt, set_heap (foldl (fun h x => delete x h) (heap s) (kd_locs kvs)) s).
Proof.
  induction kvs as [|[lk k ld d] kvs IH]; intros es i fuel s Hl Hr Hes Hi Hf Hnd;
    inversion Hr as [d0 es0|lk' k' rk ld' d' rd es' kvs' Hk Hnk Hd Hndd Hr']; subst;
    (destruct fuel as [|fuel]; [simpl in Hf; lia|]);
    match goal with H : _ = drop _ _ |- _ => symmetry in H; rename H into Hes | _ => idtac end;
    pose proof (f_equal (fun x => x !! 0%nat) Hes) as Hget; rewrite lookup_drop, Nat.add_0_r in Hget;
    cbn [free_kd_loop]; rewrite decide_False by done;
    unfold key_of; rewrite bindM_assoc; erewrite bindM_Ret by (by eapply kd_at_run);
    cbn [kd_key the]; rewrite bindM_ret.
  - rewrite decide_True by done. by destruct s.
  - rewrite decide_False by done. cbn [kd_locs flat_map loc_key loc_data app] in Hnd |- *.
    fold (kd_locs kvs) in *. inversion Hnd as [|? ? Hl1 Hnd1]; subst.
    inversion Hnd1 as [|? ? Hl2 Hnd2]; subst. inversion Hnd2 as [|? ? Hl3 Hnd3]; subst.
    erewrite bindM_Ret by (by eapply free_run).
    set (s1 := set_heap (delete lk (heap s)) s).
    assert (Hl1' : heap s1 !! l = Some (Kds all)).
    { cbn. rewrite lookup_delete_ne; [done|]. intros ->. apply Hl1. constructor. }
    unfold data_of. rewrite bindM_assoc. erewrite bindM_Ret by (by eapply kd_at_run).
    cbn [kd_data the]. rewrite bindM_ret, decide_False by done.
    assert (Hld : heap s1 !! ld = Some (Bytes (d ++ 0 :: rd))).
    { cbn. rewrite lookup_delete_ne; [done|]. intros ->. apply Hl2. constructor. }
    erewrite bindM_Ret by (by eapply free_run).
    rewrite (IH es' (i + 1) fuel).
    + done.
    + cbn. rewrite lookup_delete_ne; [done|]. intros ->. apply Hl1. by constructor; constructor.
    + cbn. apply kd_repr_delete; [apply kd_repr_delete; [done|]|done].
      intros Hin. apply Hl2. by constructor.
    + replace (Z.to_nat (i + 1)) with (Z.to_nat i + 1)%nat by lia. by rewrite <- drop_drop, Hes.
    + lia.
    + simpl in Hf. lia.
    + constructor; [|done]. intros Hin. apply Hl1. by do 2 constructor.
Qed.

(** [kd_lookup] returns the data pointer of the first entry with the given
    key, or NULL if there is none, and changes nothing. *)
Theorem kd_lookup_spec l es kvs key s :
  heap s !! l = Some (Kds es) -> kd_repr (heap s) es kvs ->
  kd_lookup (Ptr l 0) key s =
  Ret (match List.find (fun e => str_eqb (str_key e) key) kvs with
       | Some e => Ptr (loc_data e) 0 | None => Null end, s).
Proof.
  intros Hl Hr. unfold kd_lookup. erewrite bindM_Ret by (by apply kd_fuel_run).
  eapply kd_lookup_loop_spec; [done|done|done|lia|].
  apply kd_repr_length in Hr. lia.
Qed.

(** [free_kd] frees the strings of all entries and the array, each block
    once, and no other block. *)
Theorem free_kd_spec l es kvs s :
  heap s !! l = Some (Kds es) -> kd_repr (heap s) es kvs -> NoDup (l :: kd_locs kvs) ->
  free_kd (Ptr l 0) s =
  Ret (tt, set_heap (delete l (foldl (fun h x => delete x h) (heap s) (kd_locs kvs))) s).
Proof.
  intros Hl Hr Hnd. unfold free_kd. erewrite bindM_Ret by (by apply kd_fuel_run).
  erewrite bindM_Ret by (eapply free_kd_loop_spec; [done|done|done|lia| |done];
    apply kd_repr_length in Hr; lia).
  rewrite (free_run l (Kds es)); [done|]. cbn.
  apply NoDup_cons in Hnd as [Hnl _]. clear -Hl Hnl. revert Hnl Hl. generalize (heap s).
  induction (kd_locs kvs) as [|x xs IH]; intros h Hnl Hl; [done|]. cbn.
  apply not_elem_of_cons in Hnl as [Hx Hnl].
  apply IH; [done|]. by rewrite lookup_delete_ne.
Qed.

(** Two entries of a response: "Session: 1" and "Transport: x". *)
Definition kd_heap : gmap Z block :=
  <[1 := Kds [KeyData (Some (Ptr 2 0)) (Some (Ptr 3 0)); KeyData (Some (Ptr 4 0)) (Some (Ptr 5 0)); kd_zero]]>
  (<[2 := Bytes (lit "Session" ++ [0])]> (<[3 := Bytes [49; 0]]>
  (<[4 := Bytes (lit "Transport" ++ [0])]> (<[5 := Bytes [120; 0]]> ∅)))).
Definition kd_proc : proc := set_heap kd_heap proc0.

Lemma kd_heap_repr : kd_repr kd_heap
  [KeyData (Some (Ptr 2 0)) (Some (Ptr 3 0)); KeyData (Some (Ptr 4 0)) (Some (Ptr 5 0)); kd_zero]
  [KdEntry 2 (lit "Session") 3 [49]; KdEntry 4 (lit "Transport") 5 [120]].
Proof.
  apply (kd_repr_cons _ 2 _ [] 3 [49] []);
    [reflexivity|repeat constructor; discriminate|reflexivity|repeat constructor; discriminate|].
  apply (kd_repr_cons _ 4 _ [] 5 [120] []);
    [reflexivity|repeat constructor; discriminate|reflexivity|repeat constructor; discriminate|].
  constructor.
Qed.

Lemma kd_lookup_spec_witness :
  kd_lookup (Ptr 1 0) (lit "Transport") kd_proc = Ret (Ptr 5 0, kd_proc).
Proof.
  exact (kd_lookup_spec 1 _ _ (lit "Transport") kd_proc eq_refl kd_heap_repr).
Defined.

Lemma free_kd_spec_witness :
  free_kd (Ptr 1 0) kd_proc =
  Ret (tt, set_heap (delete 1 (foldl (fun h x => delete x h) kd_heap [2; 3; 4; 5])) kd_proc).
Proof.
  apply (free_kd_spec 1 _ _ kd_proc eq_refl kd_heap_repr).
  apply (bool_decide_eq_true_1 _). reflexivity.
Defined.
