(* ===== verification/FdEvent.v ===== *)
(** * FdEvent: the event table of raop_play.c

    [set_fd_event] and [clear_fd_event] keep the descriptors the main loop
    waits for in a table of four cells.  The table is shown to implement a
    finite map from descriptors to registrations of at most four entries. *)

From S2P Require Import Prelude Sys.

Definition RAOP_FD_READ : Z := 1 .<< 0.
Definition RAOP_FD_WRITE : Z := 1 .<< 1.
Definition MAX_NUM_OF_FDS : Z := 4.

(** The table [main] sets up: every [fd] is -1. *)
Definition fds_init : list dfev_t := repeat (Dfev (-1) false None 0) (Z.to_nat MAX_NUM_OF_FDS).

(** Writes [e] into the first cell that satisfies [P]. *)
Fixpoint set_first (P : dfev_t -> bool) (e : dfev_t) (t : list dfev_t) : option (list dfev_t) :=
  match t with
  | [] => None
  | c :: t => if P c then Some (e :: t) else option_map (cons c) (set_first P e t)
  end.

(** [set_fd_event(fd, flags, cbf, p)] on the table: the same descriptor first,
    then a free cell. *)
Definition set_fd_table (f fl : Z) (cb : option fd_callback_t) (p : bool) (t : list dfev_t)
    : Z * list dfev_t :=
  match set_first (fun c => c.(fd) =? f) (Dfev f p cb fl) t with
  | Some t' => (0, t')
  | None =>
      match set_first (fun c => c.(fd) <? 0) (Dfev f p cb fl) t with
      | Some t' => (0, t')
      | None => (-1, t)
      end
  end.

Definition clear_fd_table (f : Z) (t : list dfev_t) : Z * list dfev_t :=
  match set_first (fun c => c.(fd) =? f) (Dfev (-1) false None 0) t with
  | Some t' => (0, t')
  | None => (-1, t)
  end.

(** On the process; before [main] has allocated [raopld] there is no table and
    the access goes through a null pointer. *)
Definition with_fds {A} (f : list dfev_t -> A * list dfev_t) : M A := fun s =>
  match s.(fds) with
  | [] => UB NullDeref
  | t => let '(a, t') := f t in Ret (a, set_fds t' s)
  end.

Definition set_fd_event (f fl : Z) (cb : option fd_callback_t) (p : bool) : M Z :=
  with_fds (set_fd_table f fl cb p).

Definition clear_fd_event (f : Z) : M Z := with_fds (clear_fd_table f).

(** ** The abstract table *)

Definition reg : Type := bool * option fd_callback_t * Z.
Definition reg_of (c : dfev_t) : reg := (c.(dp), c.(cbf), c.(flags)).

(** The registrations in use. *)
Fixpoint table_map (t : list dfev_t) : gmap Z reg :=
  match t with
  | [] => ∅
  | c :: t => if c.(fd) <? 0 then table_map t else <[c.(fd) := reg_of c]> (table_map t)
  end.

(** Well-formed: four cells, no descriptor twice. *)
Definition live_fds (t : list dfev_t) : list Z := filter (fun f => 0 <= f) (map fd t).
Definition table_ok (t : list dfev_t) : Prop :=
  zlen t = MAX_NUM_OF_FDS /\ NoDup (live_fds t).

Lemma live_cons c t :
  live_fds (c :: t) = if c.(fd) <? 0 then live_fds t else c.(fd) :: live_fds t.
Proof.
  unfold live_fds. cbn [map]. destruct (Z.ltb_spec (fd c) 0).
  - by rewrite filter_cons_False by lia.
  - by rewrite filter_cons_True by lia.
Qed.

Lemma table_dom t f : f ∈ live_fds t <-> is_Some (table_map t !! f).
Proof.
  induction t as [|c t IH].
  - split; [by intros ?%elem_of_nil|by intros [? ?]].
  - rewrite live_cons. cbn [table_map]. destruct (fd c <? 0); [done|].
    rewrite elem_of_cons, IH, lookup_insert_is_Some'. split; intros [?|?]; auto.
Qed.

Lemma table_neg t f : f < 0 -> table_map t !! f = None.
Proof.
  intros Hf. destruct (table_map t !! f) eqn:He; [|done].
  assert (f ∈ live_fds t) as Hin by (apply table_dom; by eexists).
  unfold live_fds in Hin. apply list_elem_of_filter in Hin as [? _]. lia.
Qed.

(** Replacing the cell of a descriptor. *)
Lemma set_first_same f e t t' :
  0 <= f -> e.(fd) = f -> set_first (fun c => c.(fd) =? f) e t = Some t' ->
  live_fds t' = live_fds t /\ zlen t' = zlen t /\ (NoDup (live_fds t) -> table_map t' = <[f := reg_of e]> (table_map t)).
Proof.
  intros Hf He. revert t'. induction t as [|c t IH]; intros t' H; [done|]. cbn [set_first] in H.
  destruct (Z.eqb_spec (fd c) f) as [Hc|Hc].
  - injection H as <-. rewrite !live_cons, He, Hc, !zlen_cons. cbn [table_map].
    rewrite He, Hc, (proj2 (Z.ltb_ge f 0)) by lia. split_and!; [done|done|].
    intros _. by rewrite insert_insert_eq.
  - destruct (set_first _ e t) as [t1|] eqn:E1; [|done]. injection H as <-.
    destruct (IH t1 eq_refl) as (IH1 & IH2 & IH3). rewrite !live_cons, IH1, !zlen_cons, IH2.
    split_and!; [done|done|]. cbn [table_map]. destruct (fd c <? 0) eqn:Hneg; [done|].
    intros Hnd. rewrite NoDup_cons in Hnd. rewrite IH3 by tauto.
    by rewrite insert_insert_ne by congruence.
Qed.

Lemma set_first_none P e t : set_first P e t = None <-> Forall (fun c => P c = false) t.
Proof.
  induction t as [|c t IH]; cbn [set_first]; [split; constructor|].
  rewrite Forall_cons, <- IH. destruct (P c); [split; [done|by intros [? _]]|].
  destruct (set_first P e t); simpl; split; try done; by intros [_ ?].
Qed.

Lemma absent_iff f t : 0 <= f -> Forall (fun c => (c.(fd) =? f) = false) t <-> f ∉ live_fds t.
Proof.
  intros Hf. induction t as [|c t IH]; [split; [by intros _ ?%elem_of_nil|constructor]|].
  rewrite Forall_cons, live_cons, IH.
  destruct (Z.ltb_spec (fd c) 0), (Z.eqb_spec (fd c) f);
    rewrite ?not_elem_of_cons; subst; split; intuition (try lia; try done).
Qed.

(** Using a free cell for a new descriptor. *)
Lemma set_first_free f e t t' :
  0 <= f -> e.(fd) = f -> f ∉ live_fds t -> set_first (fun c => c.(fd) <? 0) e t = Some t' ->
  table_map t' = <[f := reg_of e]> (table_map t) /\ zlen t' = zlen t /\
  live_fds t' ≡ₚ f :: live_fds t.
Proof.
  intros Hf He. revert t'. induction t as [|c t IH]; intros t' Hn H; [done|].
  cbn [set_first] in H. rewrite live_cons in Hn. destruct (fd c <? 0) eqn:Hc.
  - injection H as <-. rewrite !live_cons, He, Hc, !zlen_cons. cbn [table_map].
    by rewrite He, Hc, (proj2 (Z.ltb_ge f 0)) by lia.
  - apply not_elem_of_cons in Hn as [Hn1 Hn2].
    destruct (set_first _ e t) as [t1|] eqn:E1; [|done]. injection H as <-.
    destruct (IH t1 Hn2 eq_refl) as (IH1 & IH2 & IH3). rewrite !live_cons, !zlen_cons, Hc, IH2.
    cbn [table_map]. rewrite Hc, IH1. split_and!; [|done|rewrite IH3; apply Permutation_swap].
    by rewrite insert_insert_ne by congruence.
Qed.

(** Freeing the cell of a descriptor. *)
Lemma set_first_clear f t t' :
  0 <= f -> NoDup (live_fds t) -> set_first (fun c => c.(fd) =? f) (Dfev (-1) false None 0) t = Some t' ->
  table_map t' = delete f (table_map t) /\ zlen t' = zlen t /\ NoDup (live_fds t') /\
  live_fds t' ⊆ live_fds t.
Proof.
  intros Hf. revert t'. induction t as [|c t IH]; intros t' Hnd H; [done|].
  cbn [set_first] in H. rewrite live_cons in Hnd. destruct (Z.eqb_spec (fd c) f) as [Hc|Hc].
  - injection H as <-. rewrite !live_cons, !zlen_cons. cbn [table_map fd].
    rewrite Hc, (proj2 (Z.ltb_ge f 0)) in * by lia. cbn [Z.ltb Z.compare].
    apply NoDup_cons in Hnd as [Hn Hnd]. split_and!; [|done|done|set_solver].
    rewrite delete_insert_eq, delete_id; [done|].
    destruct (table_map t !! f) eqn:He; [|done]. exfalso. apply Hn, table_dom. by eexists.
  - destruct (set_first _ _ t) as [t1|] eqn:E1; [|done]. injection H as <-.
    rewrite !live_cons, !zlen_cons. cbn [table_map]. destruct (fd c <? 0) eqn:Hneg.
    + destruct (IH t1 Hnd eq_refl) as (IH1 & IH2 & IH3 & IH4). by rewrite IH1, IH2.
    + apply NoDup_cons in Hnd as [Hn Hnd].
      destruct (IH t1 Hnd eq_refl) as (IH1 & IH2 & IH3 & IH4). rewrite IH1, IH2.
      split_and!; [by rewrite delete_insert_ne by congruence|done| |set_solver].
      constructor; [set_solver|done].
Qed.

Lemma size_table t : NoDup (live_fds t) -> size (table_map t) = length (live_fds t).
Proof.
  induction t as [|c t IH]; intros Hnd; [done|]. rewrite live_cons in Hnd |- *.
  cbn [table_map]. destruct (fd c <? 0); [by apply IH|].
  apply NoDup_cons in Hnd as [Hn Hnd]. rewrite map_size_insert_None; [simpl; by rewrite IH|].
  destruct (table_map t !! fd c) eqn:He; [|done]. exfalso. apply Hn, table_dom. by eexists.
Qed.

Lemma full_iff t : zlen t = MAX_NUM_OF_FDS ->
  Forall (fun c => (c.(fd) <? 0) = false) t <-> zlen (live_fds t) = MAX_NUM_OF_FDS.
Proof.
  intros <-. induction t as [|c t IH]; [done|]. rewrite Forall_cons, live_cons, IH.
  assert (Hle : zlen (live_fds t) <= zlen t).
  { unfold live_fds, zlen. pose proof (length_filter (fun f => 0 <= f) (map fd t)) as HH.
    rewrite length_map in HH. lia. }
  destruct (fd c <? 0); rewrite ?zlen_cons; split; intuition (try lia; try done).
Qed.

Lemma set_fd_table_spec f fl cb p t :
  0 <= f -> table_ok t ->
  exists r t', set_fd_table f fl cb p t = (r, t') /\ table_ok t' /\
    (r = 0 /\ table_map t' = <[f := (p, cb, fl)]> (table_map t) \/
     r = -1 /\ t' = t /\ table_map t !! f = None /\ size (table_map t) = 4%nat).
Proof.
  intros Hf [Hlen Hnd]. unfold set_fd_table. destruct (set_first _ _ _) as [t1|] eqn:E1.
  { apply (set_first_same f) in E1 as (H1 & H2 & H3); [|done..].
    exists 0, t1. split; [done|]. unfold table_ok. rewrite H1, H2. split; [done|]. left.
    split; [done|]. by apply H3. }
  apply set_first_none, (absent_iff f) in E1; [|done].
  destruct (set_first _ _ _) as [t1|] eqn:E2.
  { apply (set_first_free f) in E2 as (H1 & H2 & H3); [|done..].
    exists 0, t1. split; [done|]. unfold table_ok. rewrite H2, H3. split; [|by left].
    split; [done|]. by constructor. }
  apply set_first_none, full_iff in E2; [|done].
  exists (-1), t. split; [done|]. split; [done|]. right. split_and!; [done|done| |].
  - destruct (table_map t !! f) eqn:He; [|done]. exfalso. apply E1, table_dom. by eexists.
  - rewrite size_table by done. unfold zlen, MAX_NUM_OF_FDS in E2. lia.
Qed.

(** With a table in place the operations act on it and on nothing else. *)
Lemma with_fds_run {A} (f : list dfev_t -> A * list dfev_t) s :
  table_ok (fds s) -> with_fds f s = Ret (fst (f (fds s)), set_fds (snd (f (fds s))) s).
Proof.
  intros [Hl _]. unfold with_fds. destruct (fds s) as [|c t]; [done|].
  by destruct (f (c :: t)).
Qed.

(** C12: [set_fd_event] on a well-formed table either registers the descriptor
    (replacing its earlier registration) and returns 0, or, only when the
    descriptor is new and all four cells are taken, returns -1 and changes
    nothing; the table stays well-formed. *)
Theorem set_fd_event_refines f fl cb p s :
  0 <= f -> table_ok (fds s) ->
  exists r t', set_fd_event f fl cb p s = Ret (r, set_fds t' s) /\ table_ok t' /\
    (r = 0 /\ table_map t' = <[f := (p, cb, fl)]> (table_map (fds s)) \/
     r = -1 /\ t' = fds s /\ table_map (fds s) !! f = None /\ size (table_map (fds s)) = 4%nat).
Proof.
  intros Hf Ht. destruct (set_fd_table_spec f fl cb p (fds s) Hf Ht) as (r & t' & E & H).
  exists r, t'. split; [|done]. unfold set_fd_event. by rewrite with_fds_run, E.
Qed.

Lemma set_fd_event_refines_witness :
  exists r t', set_fd_event 7 3 (Some fd_event_callback_p) true (set_fds fds_init proc0) =
      Ret (r, set_fds t' (set_fds fds_init proc0)) /\ table_ok t' /\
    (r = 0 /\ table_map t' = <[7 := (true, Some fd_event_callback_p, 3)]> (table_map fds_init) \/
     r = -1 /\ t' = fds_init /\ table_map fds_init !! 7 = None /\ size (table_map fds_init) = 4%nat).
Proof.
  apply (set_fd_event_refines 7 3 (Some fd_event_callback_p) true (set_fds fds_init proc0)).
  - lia.
  - split; [reflexivity|]. constructor.
Defined.

(** [clear_fd_event] removes the registration of the descriptor and
    returns 0, or returns -1 and changes nothing when there is none. *)
Theorem clear_fd_event_refines f s :
  0 <= f -> table_ok (fds s) ->
  exists r t', clear_fd_event f s = Ret (r, set_fds t' s) /\ table_ok t' /\
    table_map t' = delete f (table_map (fds s)) /\
    (r = 0 /\ is_Some (table_map (fds s) !! f) \/
     r = -1 /\ t' = fds s /\ table_map (fds s) !! f = None).
Proof.
  intros Hf [Hlen Hnd]. unfold clear_fd_event, with_fds.
  destruct (fds s) as [|c0 t0] eqn:Et; [done|]. rewrite <- Et in *. clear Et c0 t0.
  unfold clear_fd_table. destruct (set_first _ _ _) as [t1|] eqn:E1.
  - assert (Hin : f ∈ live_fds (fds s)).
    { destruct (decide (f ∈ live_fds (fds s))) as [|Hn]; [done|].
      apply (absent_iff _ _ Hf), (set_first_none _ (Dfev (-1) false None 0)) in Hn. congruence. }
    apply (set_first_clear f) in E1 as (H1 & H2 & H3 & _); [|done..].
    exists 0, t1. unfold table_ok. rewrite H2. split_and!; [done..|].
    left. split; [done|]. by apply table_dom.
  - apply set_first_none, (absent_iff f) in E1; [|done].
    assert (Hnone : table_map (fds s) !! f = None).
    { destruct (table_map (fds s) !! f) eqn:He; [|done]. exfalso. apply E1, table_dom. by eexists. }
    exists (-1), (fds s). split; [done|]. split; [done|]. split; [by rewrite delete_id|]. by right.
Qed.

Lemma clear_fd_event_refines_witness :
  exists r t', clear_fd_event 7 (set_fds fds_init proc0) = Ret (r, set_fds t' (set_fds fds_init proc0)) /\
    table_ok t' /\ table_map t' = delete 7 (table_map fds_init) /\
    (r = 0 /\ is_Some (table_map fds_init !! 7) \/
     r = -1 /\ t' = fds_init /\ table_map fds_init !! 7 = None).
Proof.
  apply (clear_fd_event_refines 7 (set_fds fds_init proc0)).
  - lia.
  - split; [reflexivity|]. constructor.
Defined.
