(* ===== verification/AudioStream.v ===== *)
(** * AudioStream: the ALAC frame writer of audio_stream.h and audio_stream.c

    [bits_write] appends a bit field at a bit position of a byte buffer and
    [auds_write_pcm] uses it to wrap PCM samples in an uncompressed ALAC frame.
    The first part of the file translates them; the second relates the writer
    to an abstract one on lists of bits and the frame to a bit-level decoder. *)

From S2P Require Import Prelude Sys.

(** ** audio_stream.h *)

Inductive data_type_t : Type := AUD_TYPE_NONE | AUD_TYPE_PCM.

Inductive data_source_t : Type :=
| DESCRIPTOR (fd : Z)
| STREAM (inf : Z)
| MEMORY (size : Z) (data : list Z).   (** [mem_source_t]; [data] as bytes *)

Definition DEFAULT_SAMPLE_RATE : Z := 44100.
Definition MAX_SAMPLES_IN_CHUNK : Z := 4096.
Definition MINIMUM_SAMPLE_SIZE : Z := 32.

(** [bits_write(&p, d, blen, &bpos)]: the buffer, [p] (an index) and [bpos]
    after the call. *)
Definition bits_write (buf : list Z) (p d blen bpos : Z) : outcome (list Z * Z * Z) :=
  let lb := 7 - bpos in
  let rb := lb - blen + 1 in
  if 0 <=? rb then
    let bd := d .<< rb in
    do buf <-
      (if bpos =? 0 then buf_set buf p (u8 bd)
       else do c <- buf_get buf p; buf_set buf p (u8 (c .| bd)));
    Ret (buf, p, bpos + blen)
  else
    let bd := d .>> (- rb) in
    do c <- buf_get buf p;
    do buf <- buf_set buf p (u8 (c .| bd));
    do buf <- buf_set buf (p + 1) (u8 (d .<< (8 + rb)));
    Ret (buf, p + 1, - rb).

(** A sequence of calls, given as (data, length) pairs. *)
Fixpoint bits_writes (fs : list (Z * Z)) (buf : list Z) (p bpos : Z) : outcome (list Z * Z * Z) :=
  match fs with
  | [] => Ret (buf, p, bpos)
  | (d, blen) :: fs => do '(buf, p, bpos) <- bits_write buf p d blen bpos; bits_writes fs buf p bpos
  end.

(** ** [auds_write_pcm] *)

Section Write_pcm.
Context {E : Env}.

(** Reads [n] bytes into the array [one]: [nodata], and [one] afterwards. *)
Definition read_one (c : call) (n : Z) (one : list Z) : M (bool * list Z) :=
  do! '(r, bs, _) <- sys_read c;
  do! one <- lift (buf_write one 0 bs);
  ret (negb (r =? n), one).

(** [*((__s16* )one+1)=*((__s16* )one)] *)
Definition dup_channel (one : list Z) : list Z := take 2 one ++ take 2 one.

(** The [__s16] at index [i] of the memory source, as its two bytes. *)
Definition mem16 (data : list Z) (i : Z) : outcome (list Z) :=
  do a <- buf_get data (2 * i); do b <- buf_get data (2 * i + 1); Ret [a; b].

(** One sample pair: the [switch(ds->type)] of the loop. *)
Definition next_pair (ds : data_source_t) (channels count : Z) (one : list Z)
    : M (bool * list Z) :=
  match ds with
  | DESCRIPTOR fd =>
      if channels =? 1 then
        do! '(nodata, one) <- read_one (CRead fd 2) 2 one; ret (nodata, dup_channel one)
      else read_one (CRead fd 4) 4 one
  | STREAM inf =>
      if channels =? 1 then
        do! '(nodata, one) <- read_one (CFread inf 2) 2 one; ret (nodata, dup_channel one)
      else read_one (CFread inf 4) 4 one
  | MEMORY size data =>
      if channels =? 1 then
        do! s <- lift (mem16 data count);
        ret (size <=? count * 2, s ++ s)
      else
        do! l <- lift (mem16 data (count * 2));
        do! r <- lift (mem16 data (count * 2 + 1));
        ret (size <=? count * 4, l ++ r)
  end.

(** The [while(1)] loop.  [pr] of the code is NULL throughout.  Each
    iteration that does not leave the loop increments [count]. *)
Fixpoint pcm_loop (fuel : nat) (ds : data_source_t) (channels bsize count : Z) (one : list Z)
    (buf : list Z) (p bpos : Z) : M (list Z * Z * Z * Z) :=
  match fuel with
  | O => undef NoFuel
  | S fuel =>
      do! '(nodata, one) <- next_pair ds channels count one;
      if (nodata : bool) then ret (buf, p, bpos, count)
      else
        do! '(buf, p, bpos) <- lift (bits_writes
          [(znth one 1, 8); (znth one 0, 8); (znth one 3, 8); (znth one 2, 8)] buf p bpos);
        if count + 1 =? bsize then ret (buf, p, bpos, count + 1)
        else pcm_loop fuel ds channels bsize (count + 1) one buf p bpos
  end.

(** The header fields, in the order they are written. *)
Definition header_fields (bsize : Z) : list (Z * Z) :=
  [(1, 3); (0, 4); (0, 8); (0, 4); ((if bsize =? 4096 then 0 else 1), 1); (0, 2); (1, 1)] ++
  (if bsize =? 4096 then []
   else [((bsize .>> 24) .& 0xff, 8); ((bsize .>> 16) .& 0xff, 8);
         ((bsize .>> 8) .& 0xff, 8); (bsize .& 0xff, 8)]).

(** Iterations of the loop: [bsize], or for a memory source with [bsize <= 0]
    until it is exhausted. *)
Definition pcm_fuel (ds : data_source_t) (bsize : Z) : nat :=
  match ds with
  | MEMORY size _ => S (Z.to_nat bsize + Z.to_nat size)
  | _ => S (Z.to_nat bsize)
  end.

(** [auds_write_pcm(auds, buffer, &data, &size, bsize, ds)]: the return value,
    the buffer and [size]; [*data] is [buffer] when the value is 0.
    [channels] is 2 when [auds] is NULL and [auds->channels] otherwise. *)
Definition auds_write_pcm (channels : Z) (buffer : list Z) (bsize : Z) (ds : data_source_t)
    : M (Z * list Z * option Z) :=
  do! '(buf, p, bpos) <- lift (bits_writes (header_fields bsize) buffer 0 0);
  do! '(buf, p, bpos, count) <-
    pcm_loop (pcm_fuel ds bsize) ds channels bsize 0 [0; 0; 0; 0] buf p bpos;
  if count =? 0 then ret (-1, buf, None)
  else
    do! '(buf, p, bpos) <-
      lift (bits_writes (repeat (0, 8) (Z.to_nat ((bsize - count) * 4))) buf p bpos);
    ret (0, buf, Some (if bpos =? 0 then p else p + 1)).

End Write_pcm.

(** [aud_clac_chunk_size(sample_rate)]; [int] division truncates. *)
Definition aud_clac_chunk_size (sample_rate : Z) : outcome Z :=
  if sample_rate =? 0 then UB DivByZero
  else
    let bsize := MAX_SAMPLES_IN_CHUNK in
    let ratio := Z.quot (DEFAULT_SAMPLE_RATE * 100) sample_rate in
    Ret (if 100 <? ratio then Z.quot (bsize * 100) ratio - 1 else bsize).

(** ** Bit lists: the abstract writer *)

(** The [n] low bits of [x], most significant first. *)
Fixpoint msb_bits (n : nat) (x : Z) : list bool :=
  match n with O => [] | S n => Z.testbit x (Z.of_nat n) :: msb_bits n x end.

(** The bits of a byte string. *)
Definition unpack (l : list Z) : list bool := flat_map (msb_bits 8) l.

(** The bits of a sequence of fields. *)
Definition field_bits (fs : list (Z * Z)) : list bool :=
  flat_map (fun '(d, blen) => msb_bits (Z.to_nat blen) d) fs.

(** The writer's state stands for the bits written so far: the buffer starts
    with them, the rest of the last byte is zero. *)
Definition bw_repr (buf : list Z) (p bpos : Z) (bits : list bool) : Prop :=
  (bits = [] /\ p = 0 /\ bpos = 0) \/
  exists pre cur rest,
    buf = pre ++ cur :: rest /\ zlen pre = p /\ bytes (pre ++ [cur]) /\ 1 <= bpos <= 8 /\
    unpack (pre ++ [cur]) = bits ++ repeat false (Z.to_nat (8 - bpos)).

Lemma length_msb n x : length (msb_bits n x) = n.
Proof. induction n; simpl; congruence. Qed.

Lemma msb_split m n x :
  msb_bits (m + n) x = msb_bits m (x .>> Z.of_nat n) ++ msb_bits n x.
Proof.
  induction m as [|m IH]; [done|]. cbn [Nat.add msb_bits app]. rewrite IH. f_equal.
  rewrite Z.shiftr_spec by lia. f_equal. lia.
Qed.

Lemma msb_ext n x y :
  (forall i, 0 <= i < Z.of_nat n -> Z.testbit x i = Z.testbit y i) -> msb_bits n x = msb_bits n y.
Proof.
  induction n as [|n IH]; intros H; [done|]. cbn [msb_bits].
  rewrite H by lia. rewrite IH; [done|]. intros. apply H. lia.
Qed.

Lemma msb_zero n : msb_bits n 0 = repeat false n.
Proof. induction n; [done|]. cbn [msb_bits repeat]. rewrite Z.bits_0. by f_equal. Qed.

Lemma msb_false n x i :
  msb_bits n x = repeat false n -> 0 <= i < Z.of_nat n -> Z.testbit x i = false.
Proof.
  induction n as [|n IH]; intros H Hi; [lia|]. cbn [msb_bits repeat] in H.
  injection H as H1 H2. destruct (Z.eq_dec i (Z.of_nat n)) as [->|]; [done|]. apply IH; [done|lia].
Qed.

Lemma unpack_app l l' : unpack (l ++ l') = unpack l ++ unpack l'.
Proof. apply flat_map_app. Qed.

Lemma unpack_one c : unpack [c] = msb_bits 8 c.
Proof. unfold unpack. cbn [flat_map]. by rewrite app_nil_r. Qed.

Lemma length_unpack l : length (unpack l) = (8 * length l)%nat.
Proof.
  induction l as [|c l IH]; [done|]. cbn [unpack flat_map]. fold (unpack l).
  rewrite length_app, length_msb, IH. simpl. lia.
Qed.

(** A byte with [a] in its high bits and the field [d] below them. *)
Lemma byte_fit cur a d m n k :
  (m + n + k = 8)%nat -> length a = m -> msb_bits 8 cur = a ++ repeat false (n + k) ->
  0 <= d < 2 ^ Z.of_nat n ->
  msb_bits 8 (u8 (cur .| (d .<< Z.of_nat k))) = a ++ msb_bits n d ++ repeat false k.
Proof.
  intros Hs Ha Hc Hd.
  assert (Hcur : forall i, 0 <= i < Z.of_nat (n + k) -> Z.testbit cur i = false).
  { intros i Hi. apply (msb_false (n + k)); [|done].
    replace 8%nat with (m + (n + k))%nat in Hc by lia. rewrite msb_split in Hc.
    apply app_inj_1 in Hc as [_ ?]; [done|]. by rewrite length_msb. }
  assert (Hy : forall i, 0 <= i < 8 -> Z.testbit (u8 (cur .| (d .<< Z.of_nat k))) i =
      Z.testbit cur i || Z.testbit d (i - Z.of_nat k)).
  { intros i Hi. rewrite u8_testbit by lia. rewrite (proj2 (Z.ltb_lt i 8)) by lia.
    by rewrite Z.lor_spec, Z.shiftl_spec by lia. }
  assert (Ea : a = msb_bits m (cur .>> Z.of_nat (n + k))).
  { replace 8%nat with (m + (n + k))%nat in Hc by lia. rewrite msb_split in Hc.
    apply app_inj_1 in Hc as [? _]; [done|]. by rewrite length_msb. }
  rewrite Ea. rewrite <- (msb_zero k).
  replace 8%nat with (m + (n + k))%nat at 1 by lia. rewrite (msb_split m), (msb_split n).
  f_equal; [|f_equal]; apply msb_ext; intros i Hi.
  - rewrite !Z.shiftr_spec by lia. rewrite Hy by lia.
    rewrite (testbit_above (Z.of_nat n) d) by lia. apply orb_false_r.
  - rewrite Z.shiftr_spec by lia. rewrite Hy, Hcur by lia. simpl. f_equal. lia.
  - rewrite Hy, Hcur, Z.bits_0 by lia. simpl. apply Z.testbit_neg_r. lia.
Qed.

(** The first byte of a field that crosses a byte boundary ... *)
Lemma byte_cross_hi cur a d m n r :
  (m + n = 8)%nat -> length a = m -> msb_bits 8 cur = a ++ repeat false n ->
  0 <= d < 2 ^ Z.of_nat (n + r) ->
  msb_bits 8 (u8 (cur .| (d .>> Z.of_nat r))) = a ++ msb_bits n (d .>> Z.of_nat r).
Proof.
  intros Hs Ha Hc Hd.
  pose proof (byte_fit cur a (d .>> Z.of_nat r) m n 0) as H.
  cbn [repeat] in H. rewrite app_nil_r, Z.shiftl_0_r, !Nat.add_0_r in H.
  apply H; [lia|done|done|].
  rewrite Z.shiftr_div_pow2 by lia. rewrite Nat2Z.inj_add, Z.pow_add_r in Hd by lia.
  assert (0 < 2 ^ Z.of_nat r) by (apply Z.pow_pos_nonneg; lia).
  split; [apply Z.div_pos; lia|]. apply Z.div_lt_upper_bound; lia.
Qed.

(** ... and the second. *)
Lemma byte_cross_lo d r k :
  (r + k = 8)%nat -> msb_bits 8 (u8 (d .<< Z.of_nat k)) = msb_bits r d ++ repeat false k.
Proof.
  intros Hs. rewrite <- (msb_zero k). replace 8%nat with (r + k)%nat at 1 by lia.
  rewrite msb_split. f_equal; apply msb_ext; intros i Hi.
  - rewrite Z.shiftr_spec, u8_testbit, (proj2 (Z.ltb_lt _ 8)), Z.shiftl_spec by lia.
    simpl. f_equal. lia.
  - rewrite u8_testbit, (proj2 (Z.ltb_lt _ 8)), Z.shiftl_spec, Z.bits_0 by lia.
    apply Z.testbit_neg_r. lia.
Qed.

Lemma bytes_snoc_u8 pre cur x : bytes (pre ++ [cur]) -> bytes (pre ++ [u8 x]).
Proof.
  rewrite !Forall_app. intros [? _]. split; [done|]. constructor; [auto with crange|done].
Qed.

(** The bits of the last byte. *)
Lemma repr_last pre cur bits bpos :
  1 <= bpos <= 8 -> unpack (pre ++ [cur]) = bits ++ repeat false (Z.to_nat (8 - bpos)) ->
  exists a, bits = unpack pre ++ a /\ length a = Z.to_nat bpos /\
    msb_bits 8 cur = a ++ repeat false (Z.to_nat (8 - bpos)).
Proof.
  intros Hb H. rewrite unpack_app, unpack_one in H.
  assert (Hl : (length (unpack pre) <= length bits)%nat).
  { pose proof (f_equal length H) as HL. rewrite !length_app, length_msb, repeat_length in HL. lia. }
  rewrite <- (take_drop (length (unpack pre)) bits), <- app_assoc in H.
  apply app_inj_1 in H as [H1 H2]; [|rewrite length_take; lia].
  exists (drop (length (unpack pre)) bits). split_and!.
  - rewrite H1 at 1. by rewrite take_drop.
  - pose proof (f_equal length H2) as HL. rewrite length_app, length_msb, repeat_length in HL. lia.
  - done.
Qed.

(** What [bits_write] promises: the buffer keeps its length and represents the
    old bits followed by those of the field. *)
Definition bits_written (buf : list Z) (p d blen bpos : Z) (bits : list bool) : Prop :=
  exists buf' p' bpos', bits_write buf p d blen bpos = Ret (buf', p', bpos') /\
    zlen buf' = zlen buf /\ 1 <= bpos' /\
    bw_repr buf' p' bpos' (bits ++ msb_bits (Z.to_nat blen) d).

(** The first field of a frame. *)
Lemma bits_write_first c rest d blen :
  1 <= blen <= 8 -> 0 <= d < 2 ^ blen -> bits_written (c :: rest) 0 d blen 0 [].
Proof.
  intros Hl Hd. unfold bits_written, bits_write.
  replace (7 - 0 - blen + 1) with (8 - blen) by lia.
  rewrite (proj2 (Z.leb_le 0 (8 - blen))) by lia. cbn [Z.eqb].
  rewrite buf_set_head. cbn [obind]. eexists _, _, _. split; [done|]. split; [by rewrite !zlen_cons|].
  split; [lia|]. right. exists [], (u8 (d .<< (8 - blen))), rest. split_and!; [done|done| |lia|lia|].
  - simpl. constructor; [auto with crange|done].
  - cbn [app]. rewrite unpack_one, <- (Z2Nat.id (8 - blen)) by lia.
    rewrite (byte_cross_lo d (Z.to_nat blen)) by lia. do 2 f_equal.
Qed.

(** A field that fits in the rest of the current byte. *)
Lemma bits_write_fits pre cur rest a d blen bpos :
  bytes (pre ++ [cur]) -> 1 <= bpos -> 1 <= blen -> bpos + blen <= 8 -> 0 <= d < 2 ^ blen ->
  length a = Z.to_nat bpos -> msb_bits 8 cur = a ++ repeat false (Z.to_nat (8 - bpos)) ->
  bits_written (pre ++ cur :: rest) (zlen pre) d blen bpos (unpack pre ++ a).
Proof.
  intros Hby Hbp Hl Hf Hd Ha Hc. unfold bits_written, bits_write.
  rewrite (proj2 (Z.leb_le 0 _)), (proj2 (Z.eqb_neq bpos 0)) by lia. rewrite buf_get_mid. cbn [obind].
  rewrite buf_set_mid. cbn [obind]. eexists _, _, _. split; [done|].
  split; [by rewrite !zlen_app, !zlen_cons|]. split; [lia|]. right.
  eexists pre, _, rest. split_and!; [done|done| |lia|lia|].
  { by eapply bytes_snoc_u8. }
  rewrite unpack_app, unpack_one, <- !app_assoc. f_equal.
  replace (7 - bpos - blen + 1) with (Z.of_nat (Z.to_nat (8 - bpos - blen))) by lia.
  rewrite (byte_fit cur a d (Z.to_nat bpos) (Z.to_nat blen) (Z.to_nat (8 - bpos - blen)));
    [do 2 f_equal; f_equal; lia|lia|done| |by rewrite Z2Nat.id by lia].
  rewrite Hc. do 2 f_equal. lia.
Qed.

(** A field that is split between the current byte and the next one. *)
Lemma bits_write_crosses pre cur c2 rest a d blen bpos :
  bytes (pre ++ [cur]) -> 1 <= bpos <= 8 -> blen <= 8 -> 8 < bpos + blen -> 0 <= d < 2 ^ blen ->
  length a = Z.to_nat bpos -> msb_bits 8 cur = a ++ repeat false (Z.to_nat (8 - bpos)) ->
  bits_written (pre ++ cur :: c2 :: rest) (zlen pre) d blen bpos (unpack pre ++ a).
Proof.
  intros Hby Hbp Hl Hf Hd Ha Hc. unfold bits_written, bits_write.
  rewrite (proj2 (Z.leb_gt 0 _)) by lia. rewrite buf_get_mid. cbn [obind].
  rewrite buf_set_mid. cbn [obind].
  set (r := Z.to_nat (bpos + blen - 8)).
  replace (- (7 - bpos - blen + 1)) with (Z.of_nat r) by lia.
  replace (8 + (7 - bpos - blen + 1)) with (Z.of_nat (8 - r)) by lia.
  set (b1 := u8 (cur .| (d .>> Z.of_nat r))). set (b2 := u8 (d .<< Z.of_nat (8 - r))).
  replace (zlen pre + 1) with (zlen (pre ++ [b1])) by (zlens; lia).
  replace (pre ++ b1 :: c2 :: rest) with ((pre ++ [b1]) ++ c2 :: rest) by by rewrite <- app_assoc.
  rewrite buf_set_mid. cbn [obind]. eexists _, _, _. split; [done|].
  split; [zlens; lia|]. split; [lia|]. right.
  exists (pre ++ [b1]), b2, rest. split_and!; [done|done| |lia|lia|].
  { apply Forall_app. split; [by eapply bytes_snoc_u8|].
    constructor; [subst b2; auto with crange|done]. }
  rewrite !unpack_app, !unpack_one. subst b1 b2.
  rewrite (byte_cross_hi cur a d (Z.to_nat bpos) (Z.to_nat (8 - bpos)) r);
    [|lia|done|done|replace (Z.of_nat (Z.to_nat (8 - bpos) + r)) with blen by lia; done].
  rewrite (byte_cross_lo d r (8 - r)) by lia.
  replace (Z.to_nat blen) with (Z.to_nat (8 - bpos) + r)%nat by lia.
  rewrite msb_split, <- !app_assoc. do 5 f_equal. lia.
Qed.

(** [bits_write] refines appending the field's bits. *)
Lemma bits_write_repr buf p d blen bpos bits :
  bw_repr buf p bpos bits -> 1 <= blen <= 8 -> 0 <= d < 2 ^ blen ->
  zlen bits + blen <= 8 * zlen buf -> bits_written buf p d blen bpos bits.
Proof.
  intros Hr Hl Hd Hroom.
  destruct Hr as [(-> & -> & ->)|(pre & cur & rest & -> & <- & Hby & Hbp & Hu)].
  - destruct buf as [|c rest]; [zlens; lia|]. by apply bits_write_first.
  - destruct (repr_last _ _ _ _ Hbp Hu) as (a & -> & Ha & Hc).
    destruct (Z.le_gt_cases (bpos + blen) 8).
    + apply bits_write_fits; (done || lia).
    + destruct rest as [|c2 rest]; [|apply bits_write_crosses; (done || lia)].
      rewrite zlen_app in Hroom. unfold zlen in Hroom. rewrite length_unpack, length_app in Hroom.
      simpl in Hroom. lia.
Qed.

Definition field_ok (f : Z * Z) : Prop := let '(d, blen) := f in 1 <= blen <= 8 /\ 0 <= d < 2 ^ blen.

Lemma bits_writes_repr fs : forall buf p bpos bits,
  bw_repr buf p bpos bits -> Forall field_ok fs ->
  zlen bits + zlen (field_bits fs) <= 8 * zlen buf ->
  exists buf' p' bpos', bits_writes fs buf p bpos = Ret (buf', p', bpos') /\
    zlen buf' = zlen buf /\ (1 <= bpos \/ fs <> [] -> 1 <= bpos') /\
    bw_repr buf' p' bpos' (bits ++ field_bits fs).
Proof.
  induction fs as [|[d blen] fs IH]; intros buf p bpos bits Hr Hok Hroom.
  { exists buf, p, bpos. cbn [field_bits flat_map]. rewrite app_nil_r. split_and!; [done..| |done].
    by intros [?|[]]. }
  apply Forall_cons in Hok as [Hf Hok']. cbn [field_ok] in Hf. destruct Hf as [Hl Hd].
  cbn [field_bits flat_map] in *. fold (field_bits fs) in *.
  rewrite zlen_app in Hroom. unfold zlen at 2 in Hroom. rewrite length_msb in Hroom.
  pose proof (zlen_nonneg (field_bits fs)).
  destruct (bits_write_repr buf p d blen bpos bits) as (buf1 & p1 & bpos1 & E1 & Hl1 & Hb1 & Hr1);
    [done|lia|lia|lia|].
  cbn [bits_writes]. rewrite E1. cbn [obind].
  destruct (IH buf1 p1 bpos1 (bits ++ msb_bits (Z.to_nat blen) d)) as (buf2 & p2 & bpos2 & E2 & Hl2 & Hb2 & Hr2).
  - done.
  - done.
  - rewrite zlen_app, Hl1. unfold zlen at 2. rewrite length_msb. lia.
  - exists buf2, p2, bpos2. split_and!; [done|lia|intros _; apply Hb2; lia|].
    by rewrite app_assoc.
Qed.

(** The bytes behind a finished writer. *)
Lemma bw_repr_frame buf p bpos bits :
  bw_repr buf p bpos bits -> 1 <= bpos ->
  p + 1 = (zlen bits + 7) / 8 /\ bytes (take (Z.to_nat (p + 1)) buf) /\
  exists pad, unpack (take (Z.to_nat (p + 1)) buf) = bits ++ pad.
Proof.
  intros [(-> & -> & ->)|(pre & cur & rest & -> & <- & Hby & Hbp & Hu)] Hb; [lia|].
  replace (take (Z.to_nat (zlen pre + 1)) (pre ++ cur :: rest)) with (pre ++ [cur]).
  - split_and!; [|done|by eexists]. pose proof (f_equal length Hu) as HL.
    rewrite length_unpack, !length_app, repeat_length in HL. simpl in HL.
    unfold zlen. Z.div_mod_to_equations. lia.
  - change (cur :: rest) with ([cur] ++ rest). rewrite app_assoc, take_app_length'; [done|].
    rewrite length_app. simpl. unfold zlen. lia.
Qed.

(** ** The frame: a bit-level decoder *)

Definition of_bits (bs : list bool) : Z := fold_left (fun a b => 2 * a + Z.b2z b) bs 0.

Definition read_bits (n : nat) (bs : list bool) : option (Z * list bool) :=
  if (n <=? length bs)%nat then Some (of_bits (take n bs), drop n bs) else None.

(** [n] interleaved stereo samples of 16 bits. *)
Fixpoint read_pairs (n : nat) (bs : list bool) : option (list (Z * Z)) :=
  match n with
  | O => Some []
  | S n =>
      '(l, bs) ← read_bits 16 bs;
      '(r, bs) ← read_bits 16 bs;
      ps ← read_pairs n bs; Some ((l, r) :: ps)
  end.

(** An uncompressed stereo ALAC frame: 3 bits of channel count minus one, 16
    unused bits, has-size, 2 unused bits, not-compressed, the number of samples
    (32 bits) if has-size is set and 4096 otherwise, then the samples. *)
Definition alac_decode (bs : list bool) : option (list (Z * Z)) :=
  '(chan, bs) ← read_bits 3 bs;
  '(_, bs) ← read_bits 16 bs;
  '(hassize, bs) ← read_bits 1 bs;
  '(_, bs) ← read_bits 2 bs;
  '(raw, bs) ← read_bits 1 bs;
  if (chan =? 1) && (raw =? 1) then
    if hassize =? 1 then '(n, bs) ← read_bits 32 bs; read_pairs (Z.to_nat n) bs
    else read_pairs 4096 bs
  else None.

Lemma of_bits_acc bs : forall a,
  fold_left (fun a b => 2 * a + Z.b2z b) bs a = a * 2 ^ zlen bs + of_bits bs.
Proof.
  induction bs as [|b bs IH]; intros a.
  - unfold of_bits, zlen. simpl. lia.
  - unfold of_bits. cbn [fold_left]. rewrite !IH, zlen_cons, Z.pow_add_r by (pose proof (zlen_nonneg bs); lia).
    unfold of_bits. lia.
Qed.

Lemma of_bits_cons b bs : of_bits (b :: bs) = Z.b2z b * 2 ^ zlen bs + of_bits bs.
Proof. unfold of_bits at 1. cbn [fold_left]. by rewrite of_bits_acc. Qed.

Lemma of_bits_msb n x : of_bits (msb_bits n x) = x mod 2 ^ Z.of_nat n.
Proof.
  induction n as [|n IH]; [simpl; by rewrite Z.mod_1_r|].
  cbn [msb_bits]. rewrite of_bits_cons, IH. unfold zlen. rewrite length_msb.
  rewrite Z.testbit_spec' by lia.
  rewrite Nat2Z.inj_succ, Z.pow_succ_r by lia.
  assert (0 < 2 ^ Z.of_nat n) by (apply Z.pow_pos_nonneg; lia).
  rewrite (Z.mul_comm 2), (Z.rem_mul_r x (2 ^ Z.of_nat n) 2) by lia. lia.
Qed.

Lemma read_bits_msb n x r : 0 <= x < 2 ^ Z.of_nat n -> read_bits n (msb_bits n x ++ r) = Some (x, r).
Proof.
  intros Hx. unfold read_bits. rewrite length_app, length_msb.
  rewrite (proj2 (Nat.leb_le _ _)) by lia.
  rewrite take_app_length', drop_app_length' by by rewrite length_msb.
  by rewrite of_bits_msb, Z.mod_small.
Qed.

(** The four bytes of sample pair [k] of a memory source. *)
Definition width (channels : Z) : Z := if channels =? 1 then 2 else 4.
Definition pair_bytes (channels : Z) (data : list Z) (k : Z) : list Z :=
  if channels =? 1 then
    [znth data (2 * k); znth data (2 * k + 1); znth data (2 * k); znth data (2 * k + 1)]
  else [znth data (4 * k); znth data (4 * k + 1); znth data (4 * k + 2); znth data (4 * k + 3)].

Definition pair_fields (one : list Z) : list (Z * Z) :=
  [(znth one 1, 8); (znth one 0, 8); (znth one 3, 8); (znth one 2, 8)].

(** The two little-endian 16-bit samples of a pair. *)
Definition pair_val (one : list Z) : Z * Z :=
  (znth one 0 + 256 * znth one 1, znth one 2 + 256 * znth one 3).

Definition pcm_bits (channels : Z) (data : list Z) (from : Z) (n : nat) : list bool :=
  flat_map (fun k => field_bits (pair_fields (pair_bytes channels data k))) (seqZ from (Z.of_nat n)).

Lemma next_pair_memory {E : Env} size data channels count one s :
  0 <= count -> width channels * (count + 1) <= zlen data ->
  next_pair (MEMORY size data) channels count one s =
  Ret ((size <=? count * width channels, pair_bytes channels data count), s).
Proof.
  intros Hc Hd. unfold next_pair, pair_bytes, width, mem16 in *.
  destruct (channels =? 1); unfold bindM, lift.
  - by rewrite !buf_get_ok by lia.
  - rewrite !buf_get_ok by lia. cbn [obind].
    replace (2 * (count * 2)) with (4 * count) by lia.
    replace (2 * (count * 2 + 1)) with (4 * count + 2) by lia.
    by replace (4 * count + 2 + 1) with (4 * count + 3) by lia.
Qed.

Lemma bytes_pair channels data k i : bytes data -> is_u8 (znth (pair_bytes channels data k) i).
Proof.
  intros Hd. apply znth_bytes. unfold pair_bytes.
  destruct (channels =? 1); repeat constructor; by apply znth_bytes.
Qed.

Lemma pair_fields_ok channels data k :
  bytes data -> Forall field_ok (pair_fields (pair_bytes channels data k)).
Proof.
  intros Hd. repeat constructor; try lia; by apply (bytes_pair channels data k).
Qed.

Lemma zlen_pair_fields one : zlen (field_bits (pair_fields one)) = 32.
Proof. reflexivity. Qed.

Lemma pcm_bits_succ channels data from n :
  pcm_bits channels data from (S n) =
  field_bits (pair_fields (pair_bytes channels data from)) ++ pcm_bits channels data (from + 1) n.
Proof.
  unfold pcm_bits. rewrite seqZ_cons by lia. cbn [flat_map].
  replace (Z.pred (Z.of_nat (S n))) with (Z.of_nat n) by lia.
  by replace (Z.succ from) with (from + 1) by lia.
Qed.

Lemma zlen_pcm_bits channels data from n : zlen (pcm_bits channels data from n) = 32 * Z.of_nat n.
Proof.
  revert from. induction n as [|n IH]; intros from; [done|].
  rewrite pcm_bits_succ, zlen_app, IH, zlen_pair_fields. lia.
Qed.

(** The loop on a memory source that supplies [n] pairs. *)
Section Memory_loop.
Context {E : Env} (size : Z) (data : list Z) (channels bsize n : Z).
Hypothesis Hbytes : bytes data.
Hypothesis Hn : 1 <= n <= bsize.
Hypothesis Hsize : (n - 1) * width channels < size.
Hypothesis Hlast : n < bsize -> size <= n * width channels.
Hypothesis Hdata : width channels * n <= zlen data.
Hypothesis Hover : n < bsize -> width channels * (n + 1) <= zlen data.

Lemma pcm_loop_memory : forall (r fuel : nat) one buf p bpos bits s,
  (r < fuel)%nat -> 0 <= n - Z.of_nat r -> ((0 < r)%nat \/ n < bsize /\ 1 <= bpos) ->
  bw_repr buf p bpos bits -> zlen bits + 32 * Z.of_nat r <= 8 * zlen buf ->
  exists buf' p' bpos',
    pcm_loop fuel (MEMORY size data) channels bsize (n - Z.of_nat r) one buf p bpos s =
      Ret ((buf', p', bpos', n), s) /\
    zlen buf' = zlen buf /\ 1 <= bpos' /\
    bw_repr buf' p' bpos' (bits ++ pcm_bits channels data (n - Z.of_nat r) r).
Proof.
  assert (Hw : 2 <= width channels <= 4) by (unfold width; destruct (channels =? 1); lia).
  induction r as [|r IH]; intros fuel one buf p bpos bits s Hf Hr0 Hr Hrep Hroom;
    (destruct fuel as [|fuel]; [lia|]); cbn [pcm_loop].
  - replace (n - Z.of_nat 0) with n by lia.
    erewrite bindM_Ret by (apply next_pair_memory; nia). cbn beta iota.
    rewrite (proj2 (Z.leb_le _ _)) by lia. exists buf, p, bpos.
    unfold pcm_bits. simpl. rewrite app_nil_r. split_and!; [done|done|lia|done].
  - erewrite bindM_Ret by (apply next_pair_memory; nia). cbn beta iota.
    rewrite (proj2 (Z.leb_gt _ _)) by nia. fold (pair_fields (pair_bytes channels data (n - Z.of_nat (S r)))).
    destruct (bits_writes_repr (pair_fields (pair_bytes channels data (n - Z.of_nat (S r)))) buf p bpos bits)
      as (buf1 & p1 & bpos1 & E1 & Hl1 & Hb1 & Hr1); [done|by apply pair_fields_ok|rewrite zlen_pair_fields; lia|].
    unfold lift. rewrite E1. cbn [obind bindM].
    assert (1 <= bpos1) by (by apply Hb1; right).
    rewrite pcm_bits_succ.
    destruct (Z.eqb_spec (n - Z.of_nat (S r) + 1) bsize) as [He|He].
    + assert (r = 0%nat) as -> by lia. exists buf1, p1, bpos1.
      change (pcm_bits channels data (n - Z.of_nat 1 + 1) 0) with (@nil bool). rewrite app_nil_r. split_and!; [|done|done|done].
      unfold ret. do 4 f_equal. lia.
    + replace (n - Z.of_nat (S r) + 1) with (n - Z.of_nat r) in * by lia.
      destruct (IH fuel (pair_bytes channels data (n - Z.of_nat (S r))) buf1 p1 bpos1
        (bits ++ field_bits (pair_fields (pair_bytes channels data (n - Z.of_nat (S r))))) s)
        as (buf2 & p2 & bpos2 & E2 & Hl2 & Hb2 & Hr2).
      * lia.
      * lia.
      * lia.
      * done.
      * rewrite zlen_app, zlen_pair_fields. lia.
      * exists buf2, p2, bpos2. split_and!; [done|lia|done|]. by rewrite app_assoc.
Qed.
End Memory_loop.

(** Adjacent fields are one longer field. *)
Lemma msb_cat m n x y :
  0 <= y < 2 ^ Z.of_nat n -> msb_bits m x ++ msb_bits n y = msb_bits (m + n) (x * 2 ^ Z.of_nat n + y).
Proof.
  intros Hy. rewrite msb_split. f_equal.
  - rewrite Z.shiftr_div_pow2 by lia. f_equal.
    rewrite Z.div_add_l by lia. rewrite Z.div_small by lia. lia.
  - apply msb_ext. intros i Hi. rewrite <- (Z.mod_pow2_bits_low (x * _ + y) (Z.of_nat n) i) by lia.
    rewrite Z.add_comm, Z.mod_add by lia. by rewrite Z.mod_small.
Qed.

Lemma header_bits bsize :
  0 <= bsize < 4294967296 ->
  field_bits (header_fields bsize) =
  msb_bits 3 1 ++ msb_bits 16 0 ++ msb_bits 1 (if bsize =? 4096 then 0 else 1) ++ msb_bits 2 0 ++
  msb_bits 1 1 ++ (if bsize =? 4096 then [] else msb_bits 32 bsize).
Proof.
  intros Hb. unfold header_fields, field_bits. rewrite flat_map_app.
  destruct (Z.eqb_spec bsize 4096) as [->|Hne]; [reflexivity|].
  cbn [flat_map]. rewrite !app_nil_r.
  change (Z.to_nat 8) with 8%nat.
  set (a := (bsize .>> 24) .& 0xff). set (b := (bsize .>> 16) .& 0xff).
  set (c := (bsize .>> 8) .& 0xff). set (d := bsize .& 0xff).
  assert (Hand : forall x, x .& 0xff = u8 x) by (intros; by apply (Z.land_ones x 8)).
  assert (Hu : forall x, 0 <= u8 x < 2 ^ Z.of_nat 8) by (intros; apply u8_range).
  transitivity (msb_bits 3 1 ++ msb_bits 16 0 ++ msb_bits 1 1 ++ msb_bits 2 0 ++ msb_bits 1 1 ++
    (msb_bits 8 a ++ msb_bits 8 b ++ msb_bits 8 c ++ msb_bits 8 d)); [reflexivity|].
  do 5 f_equal. subst a b c d. rewrite !Hand.
  rewrite !app_assoc, !msb_cat by apply Hu. cbn [Nat.add]. f_equal.
  change (2 ^ Z.of_nat 8) with 256.
  change (u8 bsize) with (byte_at bsize 0).
  rewrite <- (pack4_byte_at bsize) at 5 by done. unfold pack4, byte_at. lia.
Qed.

(** Sixteen-bit samples are read back as written. *)
Lemma read_pairs_one a b c d n r :
  is_u8 a -> is_u8 b -> is_u8 c -> is_u8 d ->
  read_pairs (S n) (field_bits [(b, 8); (a, 8); (d, 8); (c, 8)] ++ r) =
  ps ← read_pairs n r; Some ((a + 256 * b, c + 256 * d) :: ps).
Proof.
  intros Ha Hb Hc Hd.
  assert (Hw : forall x y, is_u8 x -> is_u8 y ->
    msb_bits 8 y ++ msb_bits 8 x = msb_bits 16 (x + 256 * y) /\ 0 <= x + 256 * y < 2 ^ Z.of_nat 16).
  { intros x y Hx Hy. unfold is_u8 in *. split; [|change (2 ^ Z.of_nat 16) with 65536; lia].
    rewrite msb_cat by done. cbn [Nat.add]. f_equal. change (2 ^ Z.of_nat 8) with 256. lia. }
  destruct (Hw a b Ha Hb) as [E1 B1]. destruct (Hw c d Hc Hd) as [E2 B2].
  unfold field_bits. cbn [flat_map]. change (Z.to_nat 8) with 8%nat. rewrite app_nil_r.
  rewrite <- !app_assoc. rewrite (app_assoc (msb_bits 8 b)), E1. rewrite (app_assoc (msb_bits 8 d)), E2.
  cbn [read_pairs]. rewrite read_bits_msb by done. cbn [mbind option_bind].
  by rewrite read_bits_msb by done.
Qed.

Definition pcm_pairs (channels : Z) (data : list Z) (from : Z) (n : nat) : list (Z * Z) :=
  map (fun k => pair_val (pair_bytes channels data k)) (seqZ from (Z.of_nat n)).

Lemma read_pairs_pcm channels data n m : bytes data -> forall from r,
  read_pairs (n + m) (pcm_bits channels data from n ++ r) =
  ps ← read_pairs m r; Some (pcm_pairs channels data from n ++ ps).
Proof.
  intros Hd. induction n as [|n IH]; intros from r.
  { simpl. by destruct (read_pairs m r). }
  cbn [Nat.add]. rewrite pcm_bits_succ, <- app_assoc. unfold pair_fields at 1.
  rewrite read_pairs_one by by apply bytes_pair. rewrite IH.
  unfold pcm_pairs at 2. rewrite seqZ_cons by lia. cbn [map].
  replace (Z.pred (Z.of_nat (S n))) with (Z.of_nat n) by lia.
  replace (Z.succ from) with (from + 1) by lia.
  by destruct (read_pairs m r).
Qed.

Lemma read_pairs_zero k : forall r,
  read_pairs k (field_bits (repeat (0, 8) (k * 4)) ++ r) = Some (repeat (0, 0) k).
Proof.
  induction k as [|k IH]; intros r; [done|].
  change (S k * 4)%nat with (4 + k * 4)%nat. rewrite repeat_app.
  unfold field_bits. rewrite flat_map_app, <- app_assoc. fold (field_bits (repeat (0, 8) (k * 4))).
  pose proof (read_pairs_one 0 0 0 0 k (field_bits (repeat (0, 8) (k * 4)) ++ r)) as H.
  unfold field_bits in H at 1. cbn [repeat].
  rewrite H by (unfold is_u8; lia). by rewrite IH.
Qed.

Lemma zlen_zero_fields k : zlen (field_bits (repeat (0, 8) k)) = 8 * Z.of_nat k.
Proof.
  induction k as [|k IH]; [done|]. unfold field_bits in *. cbn [repeat flat_map].
  rewrite zlen_app, IH. change (zlen (msb_bits (Z.to_nat 8) 0)) with 8. lia.
Qed.

(** Bytes of a frame of [bsize] sample pairs. *)
Definition frame_size (bsize : Z) : Z := 4 * bsize + (if bsize =? 4096 then 3 else 7).

(** The whole frame, decoded. *)
Lemma alac_decode_frame channels data bsize n k pad :
  bytes data -> 0 <= bsize < 4294967296 -> Z.to_nat bsize = (n + k)%nat ->
  alac_decode (field_bits (header_fields bsize) ++ pcm_bits channels data 0 n ++
    field_bits (repeat (0, 8) (k * 4)) ++ pad) =
  Some (pcm_pairs channels data 0 n ++ repeat (0, 0) k).
Proof.
  intros Hd Hb Hn. rewrite header_bits by done. unfold alac_decode. rewrite <- !app_assoc.
  assert (Hp : read_pairs (Z.to_nat bsize) (pcm_bits channels data 0 n ++
    field_bits (repeat (0, 8) (k * 4)) ++ pad) = Some (pcm_pairs channels data 0 n ++ repeat (0, 0) k)).
  { rewrite Hn, read_pairs_pcm by done. by rewrite read_pairs_zero. }
  rewrite read_bits_msb by done. cbn [mbind option_bind].
  rewrite read_bits_msb by done. cbn [mbind option_bind].
  destruct (Z.eqb_spec bsize 4096) as [Heq|Hne];
    (rewrite read_bits_msb by done; cbn [mbind option_bind];
     rewrite read_bits_msb by done; cbn [mbind option_bind];
     rewrite read_bits_msb by done; cbn [mbind option_bind Z.eqb Pos.eqb andb]).
  - rewrite app_nil_l. rewrite Heq in Hp. exact Hp.
  - rewrite read_bits_msb by done. exact Hp.
Qed.

Lemma header_ok bsize : 0 <= bsize < 4294967296 -> Forall field_ok (header_fields bsize).
Proof.
  intros Hb. assert (Hand : forall x, 0 <= x .& 0xff < 2 ^ 8).
  { intros x. replace (x .& 0xff) with (u8 x) by (symmetry; apply (Z.land_ones x 8); lia).
    apply u8_range. }
  unfold header_fields. destruct (bsize =? 4096); cbn [app];
    repeat (constructor; [split; [lia|first [apply Hand|lia]]|]); done.
Qed.

Lemma zlen_header bsize : zlen (field_bits (header_fields bsize)) = if bsize =? 4096 then 23 else 55.
Proof. unfold header_fields. by destruct (bsize =? 4096). Qed.

(** [auds_write_pcm] on a memory source of [size] bytes: [n] pairs are taken,
    the frame is filled up with zeros. *)
Lemma auds_write_pcm_memory {E : Env} channels buffer bsize size data n s :
  bytes data -> bsize < 2147483648 -> 1 <= n <= bsize ->
  (n - 1) * width channels < size -> (n < bsize -> size <= n * width channels) ->
  width channels * n <= zlen data -> (n < bsize -> width channels * (n + 1) <= zlen data) ->
  frame_size bsize <= zlen buffer ->
  exists buf, auds_write_pcm channels buffer bsize (MEMORY size data) s =
      Ret ((0, buf, Some (frame_size bsize)), s) /\
    zlen buf = zlen buffer /\ bytes (take (Z.to_nat (frame_size bsize)) buf) /\
    alac_decode (unpack (take (Z.to_nat (frame_size bsize)) buf)) =
      Some (pcm_pairs channels data 0 (Z.to_nat n) ++ repeat (0, 0) (Z.to_nat (bsize - n))).
Proof.
  intros Hd Hbs Hn Hs1 Hs2 Hz1 Hz2 Hroom. unfold auds_write_pcm.
  assert (Hroom' : zlen (field_bits (header_fields bsize)) + 32 * bsize <= 8 * zlen buffer)
    by (rewrite zlen_header; unfold frame_size in Hroom; destruct (bsize =? 4096); lia).
  destruct (bits_writes_repr (header_fields bsize) buffer 0 0 []) as (b1 & p1 & q1 & E1 & L1 & Q1 & R1);
    [by left|apply header_ok; lia|rewrite zlen_nil; lia|].
  erewrite bindM_Ret by (unfold lift; rewrite E1; reflexivity). cbn beta iota.
  assert (Hq1 : 1 <= q1) by (apply Q1; by right). rewrite app_nil_l in R1.
  destruct (pcm_loop_memory size data channels bsize n Hd Hn Hs1 Hs2 Hz1 Hz2 (Z.to_nat n)
    (pcm_fuel (MEMORY size data) bsize) [0; 0; 0; 0] b1 p1 q1 (field_bits (header_fields bsize)) s)
    as (b2 & p2 & q2 & E2 & L2 & Q2 & R2); [unfold pcm_fuel; lia|lia|lia|done|lia|].
  replace (n - Z.of_nat (Z.to_nat n)) with 0 in * by lia.
  erewrite bindM_Ret by exact E2. cbn beta iota. rewrite (proj2 (Z.eqb_neq n 0)) by lia.
  set (k := Z.to_nat (bsize - n)).
  replace (Z.to_nat ((bsize - n) * 4)) with (k * 4)%nat by lia.
  destruct (bits_writes_repr (repeat (0, 8) (k * 4)) b2 p2 q2
    (field_bits (header_fields bsize) ++ pcm_bits channels data 0 (Z.to_nat n)))
    as (b3 & p3 & q3 & E3 & L3 & Q3 & R3).
  { done. }
  { apply Forall_forall. intros f Hf. apply list_elem_of_In, repeat_spec in Hf as ->. split; lia. }
  { rewrite zlen_app, zlen_pcm_bits, zlen_zero_fields. lia. }
  erewrite bindM_Ret by (unfold lift; rewrite E3; reflexivity). cbn beta iota.
  assert (Hq3 : 1 <= q3) by (apply Q3; by left).
  rewrite (proj2 (Z.eqb_neq q3 0)) by lia.
  destruct (bw_repr_frame _ _ _ _ R3 Hq3) as (Hp3 & Hby & pad & Hu).
  assert (Hsz : p3 + 1 = frame_size bsize).
  { rewrite Hp3, !zlen_app, zlen_header, zlen_pcm_bits, zlen_zero_fields. unfold frame_size.
    destruct (bsize =? 4096); Z.div_mod_to_equations; lia. }
  rewrite Hsz in *. exists b3. split_and!; [done|lia|done|].
  rewrite Hu, <- !app_assoc. apply alac_decode_frame; [done|lia|lia].
Qed.

(** C9: for a memory source that holds a full frame of [bsize] sample pairs,
    [auds_write_pcm] succeeds without touching memory outside its buffer, the
    frame has [4*bsize] bytes plus its header, and an ALAC decoder reads back
    exactly the samples (little-endian input, a mono channel duplicated). *)
Theorem auds_write_pcm_roundtrip {E : Env} channels buffer bsize size data s :
  bytes data -> 1 <= bsize < 2147483648 ->
  width channels * bsize <= size -> size <= zlen data -> frame_size bsize <= zlen buffer ->
  exists buf, auds_write_pcm channels buffer bsize (MEMORY size data) s =
      Ret ((0, buf, Some (frame_size bsize)), s) /\
    zlen buf = zlen buffer /\ bytes (take (Z.to_nat (frame_size bsize)) buf) /\
    alac_decode (unpack (take (Z.to_nat (frame_size bsize)) buf)) =
      Some (map (fun k => pair_val (pair_bytes channels data k)) (seqZ 0 bsize)).
Proof.
  intros Hd Hb Hs Hz Hroom.
  assert (Hw : 2 <= width channels <= 4) by (unfold width; destruct (channels =? 1); lia).
  destruct (auds_write_pcm_memory channels buffer bsize size data bsize s)
    as (buf & E1 & L & B & D); [done|lia|lia|nia|lia|lia|lia|done|].
  exists buf. split_and!; [done..|]. rewrite D. replace (Z.to_nat (bsize - bsize)) with 0%nat by lia.
  unfold pcm_pairs. cbn [repeat]. by rewrite app_nil_r, Z2Nat.id by lia.
Qed.

Lemma auds_write_pcm_roundtrip_witness :
  exists buf, @auds_write_pcm env0 2 (repeat 0xaa 40) 3 (MEMORY 12 [1; 2; 3; 4; 5; 6; 7; 8; 9; 10; 11; 12]) proc0 =
      Ret ((0, buf, Some 19), proc0) /\
    zlen buf = 40 /\ bytes (take 19 buf) /\
    alac_decode (unpack (take 19 buf)) = Some [(513, 1027); (1541, 2055); (2569, 3083)].
Proof.
  apply (auds_write_pcm_roundtrip (E := env0) 2 (repeat 0xaa 40) 3 12
    [1; 2; 3; 4; 5; 6; 7; 8; 9; 10; 11; 12] proc0).
  - repeat constructor; unfold is_u8; lia.
  - lia.
  - vm_compute. discriminate.
  - vm_compute. discriminate.
  - vm_compute. discriminate.
Defined.

(** A source that ends early ([size] bytes, fewer than [bsize] pairs) is
    framed in full and the missing samples are silence; the memory behind the
    source must still hold one more pair, since the code reads it before it
    looks at the end-of-data flag. *)
Theorem auds_write_pcm_pads {E : Env} buffer bsize size data s :
  bytes data -> bsize < 2147483648 -> 0 < size -> size mod 4 = 0 -> size / 4 < bsize ->
  size + 4 <= zlen data -> frame_size bsize <= zlen buffer ->
  exists buf, auds_write_pcm 2 buffer bsize (MEMORY size data) s =
      Ret ((0, buf, Some (frame_size bsize)), s) /\
    alac_decode (unpack (take (Z.to_nat (frame_size bsize)) buf)) =
      Some (map (fun k => pair_val (pair_bytes 2 data k)) (seqZ 0 (size / 4)) ++
            repeat (0, 0) (Z.to_nat (bsize - size / 4))).
Proof.
  intros Hd Hb Hs Hm Hlt Hz Hroom.
  destruct (auds_write_pcm_memory 2 buffer bsize size data (size / 4) s)
    as (buf & E1 & L & B & D);
    [done|lia|Z.div_mod_to_equations; lia|change (width 2) with 4; Z.div_mod_to_equations; lia..|done|].
  exists buf. split; [done|]. rewrite D. unfold pcm_pairs.
  by rewrite Z2Nat.id by (Z.div_mod_to_equations; lia).
Qed.

Lemma auds_write_pcm_pads_witness :
  exists buf, @auds_write_pcm env0 2 (repeat 0xaa 40) 3 (MEMORY 4 [1; 2; 3; 4; 0; 0; 0; 0]) proc0 =
      Ret ((0, buf, Some 19), proc0) /\
    alac_decode (unpack (take 19 buf)) = Some [(513, 1027); (0, 0); (0, 0)].
Proof.
  apply (auds_write_pcm_pads (E := env0) (repeat 0xaa 40) 3 4 [1; 2; 3; 4; 0; 0; 0; 0] proc0);
    first [lia | reflexivity | vm_compute; discriminate | repeat constructor; unfold is_u8; lia].
Defined.

(** ** The chunk size *)

(** [aud_clac_chunk_size] is defined for every positive sample rate, and
    from 441 Hz on it is between 39 and 4096 sample pairs, so that a chunk of
    raw samples and its frame fit the buffers allocated from it.  (At lower
    rates it falls to -1.) *)
Theorem aud_clac_chunk_size_bounds sample_rate :
  441 <= sample_rate ->
  exists bsize, aud_clac_chunk_size sample_rate = Ret bsize /\
    39 <= bsize <= MAX_SAMPLES_IN_CHUNK /\
    frame_size bsize <= MAX_SAMPLES_IN_CHUNK * 4 + 16 /\
    (DEFAULT_SAMPLE_RATE <= sample_rate -> bsize = MAX_SAMPLES_IN_CHUNK).
Proof.
  intros Hr. unfold aud_clac_chunk_size, MAX_SAMPLES_IN_CHUNK, DEFAULT_SAMPLE_RATE, frame_size.
  rewrite (proj2 (Z.eqb_neq _ _)) by lia. eexists. split; [done|].
  rewrite Z.quot_div_nonneg by lia.
  assert (Hq : 44100 * 100 / sample_rate <= 10000) by (apply Z.div_le_upper_bound; lia).
  destruct (Z.ltb_spec 100 (44100 * 100 / sample_rate)) as [Hlt|Hge].
  - rewrite Z.quot_div_nonneg by lia.
    assert (40 <= 4096 * 100 / (44100 * 100 / sample_rate)) by (apply Z.div_le_lower_bound; lia).
    assert (4096 * 100 / (44100 * 100 / sample_rate) <= 4096) by (apply Z.div_le_upper_bound; lia).
    destruct (Z.eqb_spec (4096 * 100 / (44100 * 100 / sample_rate) - 1) 4096); [lia|].
    split_and!; [lia..|]. intros. exfalso.
    assert (44100 * 100 / sample_rate <= 100) by (apply Z.div_le_upper_bound; lia). lia.
  - simpl. lia.
Qed.

Lemma aud_clac_chunk_size_bounds_witness :
  exists bsize, aud_clac_chunk_size 44100 = Ret bsize /\
    39 <= bsize <= MAX_SAMPLES_IN_CHUNK /\
    frame_size bsize <= MAX_SAMPLES_IN_CHUNK * 4 + 16 /\
    (DEFAULT_SAMPLE_RATE <= 44100 -> bsize = MAX_SAMPLES_IN_CHUNK).
Proof. apply (aud_clac_chunk_size_bounds 44100). lia. Defined.

(** The chunk size does not bound the resampled size by 4096, which its
    comment promises: a chunk of 43239 Hz audio holds 4054 pairs, and these are
    4134 pairs at 44100 Hz. *)
Theorem aud_clac_chunk_size_resampled :
  aud_clac_chunk_size 43239 = Ret 4054 /\
  4096 < 4054 * DEFAULT_SAMPLE_RATE / 43239.
Proof. split; [reflexivity|]. reflexivity. Qed.
