(* ===== verification/PcmStream.v ===== *)
(** * PcmStream: PCM sources (pcm_stream.c) and the stream interface of audio_stream.c

    A stream reads raw samples from a file or from a client that connects to
    port 4999 and delivers them as ALAC frames.  The structures [auds_t] and
    [pcm_t] have one owner and are passed as values; the frame buffer and the
    read buffer are blocks of the heap. *)

From S2P Require Import Prelude Sys AexclLib FdEvent AudioStream.

(** ** Structures *)

Record pcm_t : Type := Pcm { dfd : Z; sfd : Z; buffer : ptr }.

(** [auds_t]; the sizes are those of the 32-bit target.  [auds] is the inner
    stream some stream types have. *)
Inductive auds_t : Type := Auds {
  stream : option pcm_t;
  sample_rate : Z;
  sigchld_cb : option Z;
  chunk_size : Z;
  data_type : data_type_t;
  channels : Z;
  auds : option auds_t
}.

Definition set_stream (v : option pcm_t) (a : auds_t) : auds_t :=
  Auds v a.(sample_rate) a.(sigchld_cb) a.(chunk_size) a.(data_type) a.(channels) a.(auds).
Definition set_rate (r c : Z) (a : auds_t) : auds_t :=
  Auds a.(stream) r a.(sigchld_cb) c a.(data_type) a.(channels) a.(auds).

(** ** pcm_stream.c *)

(** [startsWith(a, b)]: [strncmp(a, b, strlen(b)) == 0]. *)
Definition startsWith (a b : list Z) : bool := is_prefix b a.

Definition O_RDONLY_NONBLOCK : Z := 2048.
Definition PCM_BUFFER_SIZE : Z := MAX_SAMPLES_IN_CHUNK * 4 + 16.
Definition POLLIN : Z := 1.

Section Pcm.
Context {E : Env}.

(** [pcm_close(auds)]: the return value and the structure. *)
Definition pcm_close (a : auds_t) : M (Z * auds_t) :=
  match a.(stream) with
  | None => ret (-1, a)
  | Some pcm =>
      do! _ <- (if 0 <=? pcm.(dfd) then syscall (CClose pcm.(dfd)) else ret 0);
      do! _ <- (if 0 <=? pcm.(sfd) then syscall (CClose pcm.(sfd)) else ret 0);
      do! _ <- free pcm.(buffer);
      ret (0, set_stream None a)
  end.

(** The tail both branches of [pcm_open] share: rates and the frame buffer. *)
Definition pcm_prepare (a : auds_t) (pcm : pcm_t) : M (Z * auds_t) :=
  do! c <- lift (aud_clac_chunk_size DEFAULT_SAMPLE_RATE);
  let a := set_rate DEFAULT_SAMPLE_RATE c a in
  do! b <- malloc PCM_BUFFER_SIZE;
  let a := set_stream (Some (Pcm pcm.(dfd) pcm.(sfd) b)) a in
  if decide (b = Null) then do! '(_, a) <- pcm_close a; ret (-1, a)
  else ret (0, a).

Definition pcm_open (a : auds_t) (fname : list Z) : M (Z * auds_t) :=
  if negb (startsWith fname (lit "socket://")) then
    do! ok <- malloc_struct 12;
    if negb ok then ret (-1, a)
    else
      do! d <- syscall (COpen fname O_RDONLY_NONBLOCK);
      let pcm := Pcm d (-1) Null in
      if d <? 0 then do! '(_, a) <- pcm_close (set_stream (Some pcm) a); ret (-1, a)
      else pcm_prepare a pcm
  else
    do! ok <- malloc_struct 12;
    if negb ok then ret (-1, a)
    else
      do! sockfd <- syscall (CSocket SOCK_STREAM);
      do! _ <- syscall (CBind sockfd AF_INET INADDR_ANY (htons 4999));
      do! _ <- syscall (CListen sockfd 10);
      if sockfd <? 0 then
        do! '(_, a) <- pcm_close (set_stream (Some (Pcm (-1) sockfd Null)) a); ret (-1, a)
      else
        do! _ <- syscall (CNotifyReady true);
        do! d <- syscall (CAccept sockfd);
        pcm_prepare a (Pcm d sockfd Null).

(** [pcm_get_next_sample(auds, &data, &size)]: the return value, and [*data]
    and [*size] when they are set.  The read buffer is not freed on a read error. *)
Definition pcm_get_next_sample (a : auds_t) : M (Z * option (ptr * Z)) :=
  match a.(stream) with
  | None => undef NullDeref
  | Some pcm =>
      let n := if 0 <=? pcm.(sfd) then a.(chunk_size) else a.(chunk_size) * 4 in
      do! rbuf <- malloc n;
      if decide (rbuf = Null) then ret (-1, None)
      else
        do! _ <- store rbuf 0 (repeat 0 (Z.to_nat n));
        do! '(size, bs, _) <-
          sys_read (if 0 <=? pcm.(sfd) then CRecv pcm.(dfd) n else CRead pcm.(dfd) n);
        do! _ <- store rbuf 0 bs;
        if size <? 0 then ret (-1, None)
        else
          let size := if size <? MINIMUM_SAMPLE_SIZE * 4 then MINIMUM_SAMPLE_SIZE * 4 else size in
          do! data <- view rbuf;
          do! buf <- view pcm.(buffer);
          do! '(rval, buf, fsize) <-
            auds_write_pcm a.(channels) buf (Z.quot size 4) (MEMORY size data);
          do! _ <- store pcm.(buffer) 0 buf;
          do! _ <- free rbuf;
          ret (rval, option_map (fun z => (pcm.(buffer), z)) fsize)
  end.

(** [pcm_poll_next_sample(auds)]; a failing [poll] leaves [revents] uninitialised. *)
Definition pcm_poll_next_sample (a : auds_t) : M Z :=
  match a.(stream) with
  | None => undef NullDeref
  | Some pcm =>
      do! r <- sys (CPoll pcm.(dfd) 0);
      if r.(rv) <? 0 then undef Uninit
      else
        let revents := znth r.(rdata) 0 in
        do! _ <- (if revents =? 0 then set_fd_event pcm.(dfd) RAOP_FD_READ None false
                  else clear_fd_event pcm.(dfd));
        ret (revents .& POLLIN)
  end.

(** ** audio_stream.c *)

Definition get_data_type (fname : list Z) : data_type_t := AUD_TYPE_PCM.

Definition auds_close (a : auds_t) : M Z :=
  do! _ <- match a.(stream), a.(data_type) with
           | Some _, AUD_TYPE_PCM => do! '(_, a) <- pcm_close a; ret tt
           | _, _ => ret tt
           end;
  ret 0.

Definition auds_open (fname : list Z) (adt : data_type_t) : M (option auds_t) :=
  do! ok <- malloc_struct 80;
  if negb ok then ret None
  else
    let ty := match adt with AUD_TYPE_NONE => get_data_type fname | _ => adt end in
    let a := Auds None 0 None 0 ty 2 None in
    do! '(rval, a) <-
      match ty with
      | AUD_TYPE_PCM => pcm_open a fname
      | AUD_TYPE_NONE => ret (-1, a)
      end;
    if negb (rval =? 0) then do! _ <- auds_close a; ret None
    else ret (Some a).

Definition auds_get_top_sample : Z := -1.

Definition auds_get_next_sample (a : auds_t) : M (Z * option (ptr * Z)) :=
  let lauds := match a.(auds) with Some i => i | None => a end in
  match lauds.(data_type) with
  | AUD_TYPE_PCM => pcm_get_next_sample lauds
  | AUD_TYPE_NONE => ret (-1, None)
  end.

Definition auds_poll_next_sample (a : auds_t) : M Z :=
  match a.(data_type) with
  | AUD_TYPE_PCM => pcm_poll_next_sample a
  | AUD_TYPE_NONE => ret 1
  end.

(** [auds_sigchld(auds, siginfo)]: the callback of the inner stream first. *)
Definition auds_sigchld (a : option auds_t) : M Z :=
  match a with
  | None => ret 0
  | Some a =>
      match (match a.(auds) with Some i => i.(sigchld_cb) | None => None end), a.(sigchld_cb) with
      | Some cb, _ | None, Some cb => do! _ <- syscall (CSigchld cb); ret 0
      | None, None => ret 0
      end
  end.

End Pcm.

(** ** The next frame *)

(** A stream as [auds_open] leaves it. *)
Record stream_ok (a : auds_t) (s : proc) (pcm : pcm_t) (lb : Z) (b : list Z) : Prop := {
  so_stream : a.(stream) = Some pcm;
  so_chunk : a.(chunk_size) = MAX_SAMPLES_IN_CHUNK;
  so_channels : a.(channels) = 2;
  so_buffer : pcm.(buffer) = Ptr lb 0;
  so_block : heap s !! lb = Some (Bytes b);
  so_size : zlen b = PCM_BUFFER_SIZE
}.

(** The call that fetches raw data, its capacity, and the bytes it delivers. *)
Definition fetch_cap (pcm : pcm_t) : Z :=
  if 0 <=? pcm.(sfd) then MAX_SAMPLES_IN_CHUNK else MAX_SAMPLES_IN_CHUNK * 4.
Definition fetch_call (pcm : pcm_t) : call :=
  if 0 <=? pcm.(sfd) then CRecv pcm.(dfd) (fetch_cap pcm) else CRead pcm.(dfd) (fetch_cap pcm).
Definition fetch_reply {E : Env} (pcm : pcm_t) (s : proc) : reply :=
  env_reply (CMalloc (fetch_cap pcm) :: trace s) (fetch_call pcm).
Definition fetched {E : Env} (pcm : pcm_t) (s : proc) : list Z :=
  let r := fetch_reply pcm s in resize (Z.to_nat r.(rv)) 0 (map u8 r.(rdata)).

(** The raw data of the frame: what was received, then zeros. *)
Definition raw_data {E : Env} (pcm : pcm_t) (s : proc) : list Z :=
  splice (repeat 0 (Z.to_nat (fetch_cap pcm))) 0 (fetched pcm s).
Definition pair_count {E : Env} (pcm : pcm_t) (s : proc) : Z :=
  Z.max (rv (fetch_reply pcm s)) (MINIMUM_SAMPLE_SIZE * 4) / 4.

Lemma bytes_repeat0 n : bytes (repeat 0 n).
Proof. induction n; constructor; [unfold is_u8; lia|done]. Qed.

Lemma bytes_u8_map l : bytes (map u8 l).
Proof. induction l; constructor; [auto with crange|done]. Qed.

Lemma bytes_resize n l : bytes l -> bytes (resize n 0 l).
Proof.
  intros Hl. revert n. induction Hl as [|c l Hc Hl IH]; intros n.
  - rewrite resize_nil. induction n; constructor; [unfold is_u8; lia|done].
  - destruct n; [constructor|]. simpl. by constructor.
Qed.

Lemma bytes_splice buf o src : bytes buf -> bytes src -> bytes (splice buf o src).
Proof.
  intros. unfold splice. rewrite !Forall_app. split_and!; [by apply Forall_take|done|by apply Forall_drop].
Qed.

Section Pcm_frames.
Context {E : Env} {HE : Posix E}.

Lemma fetch_bounds pcm s : -1 <= rv (fetch_reply pcm s) <= fetch_cap pcm.
Proof.
  unfold fetch_reply, fetch_call. unfold fetch_cap, MAX_SAMPLES_IN_CHUNK.
  destruct (0 <=? sfd pcm); [apply recv_ret|apply read_ret]; lia.
Qed.

Lemma cap_bounds pcm : 4096 <= fetch_cap pcm <= 16384.
Proof. unfold fetch_cap, MAX_SAMPLES_IN_CHUNK. destruct (0 <=? sfd pcm); lia. Qed.

Lemma zlen_fetched pcm s : zlen (fetched pcm s) = Z.max 0 (rv (fetch_reply pcm s)).
Proof. unfold fetched, zlen. rewrite length_resize. lia. Qed.

Lemma zlen_raw pcm s : zlen (raw_data pcm s) = fetch_cap pcm.
Proof.
  pose proof (fetch_bounds pcm s). pose proof (cap_bounds pcm). unfold raw_data.
  rewrite zlen_splice; rewrite ?zlen_fetched, ?zlen_repeat; lia.
Qed.

Lemma bytes_raw pcm s : bytes (raw_data pcm s).
Proof.
  apply bytes_splice; [apply bytes_repeat0|]. apply bytes_resize, bytes_u8_map.
Qed.

Lemma pair_count_bounds pcm s :
  32 <= pair_count pcm s /\ 4 * pair_count pcm s <= fetch_cap pcm.
Proof.
  pose proof (fetch_bounds pcm s). pose proof (cap_bounds pcm).
  unfold pair_count, MINIMUM_SAMPLE_SIZE. Z.div_mod_to_equations. lia.
Qed.

(** The code before the frame is written: the read buffer is filled. *)
Lemma fetch_run s pcm (k : Z * list Z * Z -> ptr -> M (Z * option (ptr * Z))) g :
  let l := fresh s in
  let s1 := Proc (<[l := Bytes g]> (heap s)) (l + 1) (CMalloc (fetch_cap pcm) :: trace s) (fds s) (vars s) in
  zlen g = fetch_cap pcm ->
  (do! _ <- store (Ptr l 0) 0 (repeat 0 (Z.to_nat (fetch_cap pcm)));
   do! '(size, bs, e) <- sys_read (fetch_call pcm);
   do! _ <- store (Ptr l 0) 0 bs;
   k (size, bs, e) (Ptr l 0)) s1 =
  k (rv (fetch_reply pcm s), fetched pcm s, rerrno (fetch_reply pcm s)) (Ptr l 0)
    (Proc (<[l := Bytes (raw_data pcm s)]> (heap s)) (l + 1)
       (fetch_call pcm :: CMalloc (fetch_cap pcm) :: trace s) (fds s) (vars s)).
Proof.
  intros l s1 Hg. pose proof (cap_bounds pcm). pose proof (fetch_bounds pcm s).
  erewrite bindM_Ret by (eapply store_run; [apply lookup_insert_eq|lia|rewrite zlen_repeat; lia]).
  erewrite bindM_Ret by apply sys_read_run. cbn beta iota zeta.
  set (z := splice g 0 _).
  assert (Hz : z = repeat 0 (Z.to_nat (fetch_cap pcm))).
  { subst z. rewrite splice_0, drop_ge by (rewrite repeat_length; unfold zlen in Hg; lia).
    by rewrite app_nil_r. }
  erewrite bindM_Ret by (eapply store_run; [apply lookup_insert_eq|lia|
    rewrite Hz, zlen_repeat; change (zlen (fetched pcm s) <= Z.of_nat (Z.to_nat (fetch_cap pcm)));
    rewrite zlen_fetched; lia]).
  cbn [heap set_heap with_trace fresh trace fds vars]. unfold set_heap. cbn.
  rewrite !insert_insert_eq, Hz. done.
Qed.

(** The frame is written and the read buffer freed. *)
Lemma frame_run s (a : auds_t) pcm lb b tr :
  stream_ok a s pcm lb b -> heap_ok s ->
  let n := pair_count pcm s in
  let size := rv (fetch_reply pcm s) in
  let sz := if size <? MINIMUM_SAMPLE_SIZE * 4 then MINIMUM_SAMPLE_SIZE * 4 else size in
  let s2 := Proc (<[fresh s := Bytes (raw_data pcm s)]> (heap s)) (fresh s + 1) tr (fds s) (vars s) in
  0 <= size ->
  exists b',
    (do! data <- view (Ptr (fresh s) 0);
     do! buf <- view (buffer pcm);
     do! '(rval, buf, fsize) <- auds_write_pcm (channels a) buf (Z.quot sz 4) (MEMORY sz data);
     do! _ <- store (buffer pcm) 0 buf;
     do! _ <- free (Ptr (fresh s) 0);
     ret (rval, option_map (fun z => (buffer pcm, z)) fsize)) s2 =
    Ret ((0, Some (Ptr lb 0, frame_size n)),
         Proc (<[lb := Bytes b']> (heap s)) (fresh s + 1) tr (fds s) (vars s)) /\
    zlen b' = zlen b /\ bytes (take (Z.to_nat (frame_size n)) b') /\
    alac_decode (unpack (take (Z.to_nat (frame_size n)) b')) =
      Some (map (fun k => pair_val (pair_bytes 2 (raw_data pcm s) k)) (seqZ 0 n)).
Proof.
  intros [Hst Hch Hcn Hbu Hbl Hsz] Hok n size sz s2 Hpos.
  pose proof (fetch_bounds pcm s) as Hfb. fold size in Hfb. pose proof (cap_bounds pcm) as Hcap.
  pose proof (pair_count_bounds pcm s) as [Hn1 Hn2]. fold n in Hn1, Hn2.
  assert (Hszn : Z.quot sz 4 = n /\ 4 * n <= sz <= fetch_cap pcm).
  { unfold n, pair_count, sz, MINIMUM_SAMPLE_SIZE in *. fold size in Hn2 |- *.
    destruct (Z.ltb_spec size (32 * 4));
      (rewrite Z.quot_div_nonneg by lia; split; [f_equal; lia|Z.div_mod_to_equations; lia]). }
  destruct Hszn as [Hq Hs4].
  assert (Hne : lb <> fresh s) by (intros ->; rewrite Hok in Hbl by lia; done).
  assert (Hroom : frame_size n <= zlen b).
  { rewrite Hsz. unfold frame_size, PCM_BUFFER_SIZE, MAX_SAMPLES_IN_CHUNK. destruct (n =? 4096); lia. }
  destruct (auds_write_pcm_memory 2 b n sz (raw_data pcm s) n s2) as (b' & Hw & Hl' & Hby & Hdec);
    [apply bytes_raw|lia|lia|change (width 2) with 4; lia|lia|change (width 2) with 4; rewrite zlen_raw; lia|lia|done|].
  exists b'. split_and!; [|done|done|].
  - erewrite bindM_Ret by (apply view_run, lookup_insert_eq).
    rewrite Hbu. erewrite bindM_Ret by (apply view_run; cbn; by rewrite lookup_insert_ne).
    rewrite Hcn, Hq. erewrite bindM_Ret by exact Hw. cbn beta iota.
    erewrite bindM_Ret by (eapply store_run; [cbn; by rewrite lookup_insert_ne|lia|lia]).
    erewrite bindM_Ret by (eapply free_run; cbn; rewrite lookup_insert_ne by done; apply lookup_insert_eq).
    unfold ret, set_heap. cbn. do 3 f_equal.
    rewrite delete_insert_ne, delete_insert_eq, delete_id by (done || (apply Hok; lia)).
    rewrite splice_0, drop_ge by (unfold zlen in Hl'; lia). by rewrite app_nil_r.
  - rewrite Hdec. replace (Z.to_nat (n - n)) with 0%nat by lia. unfold pcm_pairs. cbn [repeat].
    by rewrite app_nil_r, Z2Nat.id by lia.
Qed.

(** After the read buffer is allocated, everything depends on the result of
    the read. *)
Lemma pcm_next_full s (a : auds_t) pcm lb b :
  stream_ok a s pcm lb b -> heap_ok s ->
  rv (env_reply (trace s) (CMalloc (fetch_cap pcm))) <> 0 ->
  let tr := fetch_call pcm :: CMalloc (fetch_cap pcm) :: trace s in
  if rv (fetch_reply pcm s) <? 0 then
    pcm_get_next_sample a s =
    Ret ((-1, None), Proc (<[fresh s := Bytes (raw_data pcm s)]> (heap s)) (fresh s + 1) tr (fds s) (vars s))
  else
    let n := pair_count pcm s in
    exists b', pcm_get_next_sample a s =
        Ret ((0, Some (Ptr lb 0, frame_size n)),
             Proc (<[lb := Bytes b']> (heap s)) (fresh s + 1) tr (fds s) (vars s)) /\
      zlen b' = PCM_BUFFER_SIZE /\ bytes (take (Z.to_nat (frame_size n)) b') /\
      alac_decode (unpack (take (Z.to_nat (frame_size n)) b')) =
        Some (map (fun k => pair_val (pair_bytes 2 (raw_data pcm s) k)) (seqZ 0 n)).
Proof.
  intros Hs Hok Hmem tr. pose proof Hs as [Hst Hch Hcn Hbu Hbl Hsz].
  pose proof (cap_bounds pcm) as Hcap.
  assert (Hrun : exists g, zlen g = fetch_cap pcm /\ malloc (fetch_cap pcm) s = Ret (Ptr (fresh s) 0,
    Proc (<[fresh s := Bytes g]> (heap s)) (fresh s + 1) (CMalloc (fetch_cap pcm) :: trace s) (fds s) (vars s)))
    by (destruct (malloc_run (fetch_cap pcm) s) as [[? ?]|(_ & ?)]; [lia|done|done]).
  destruct Hrun as (g & Hg & Hm).
  unfold pcm_get_next_sample. rewrite Hst, Hch.
  change (if 0 <=? sfd pcm then MAX_SAMPLES_IN_CHUNK else MAX_SAMPLES_IN_CHUNK * 4) with (fetch_cap pcm).
  change (if 0 <=? sfd pcm then CRecv (dfd pcm) (fetch_cap pcm) else CRead (dfd pcm) (fetch_cap pcm))
    with (fetch_call pcm).
  rewrite (bindM_Ret _ _ _ _ _ Hm). rewrite decide_False by done.
  pose proof (fetch_run s pcm (fun '(size, bs, e) rbuf =>
    if size <? 0 then ret (-1, None)
    else
      let size := if size <? MINIMUM_SAMPLE_SIZE * 4 then MINIMUM_SAMPLE_SIZE * 4 else size in
      do! data <- view rbuf;
      do! buf <- view pcm.(buffer);
      do! '(rval, buf, fsize) <- auds_write_pcm a.(channels) buf (Z.quot size 4) (MEMORY size data);
      do! _ <- store pcm.(buffer) 0 buf;
      do! _ <- free rbuf;
      ret (rval, option_map (fun z => (pcm.(buffer), z)) fsize)) g Hg) as Hrun.
  cbn zeta in Hrun. cbn beta iota in Hrun.
  match type of Hrun with ?L = _ => match goal with |- context [?G = Ret (-1, None, _)] =>
    change G with L end end.
  rewrite Hrun. cbn beta iota.
  destruct (Z.ltb_spec (rv (fetch_reply pcm s)) 0) as [Hneg|Hpos]; [done|].
  destruct (frame_run s a pcm lb b tr Hs Hok) as (b' & Hf & Hl' & Hby & Hdec); [done|].
  exists b'. rewrite Hl'. split_and!; [exact Hf|done|exact Hby|exact Hdec].
Qed.

Lemma pcm_next_run s (a : auds_t) pcm lb b :
  stream_ok a s pcm lb b -> heap_ok s ->
  rv (env_reply (trace s) (CMalloc (fetch_cap pcm))) <> 0 ->
  let tr := fetch_call pcm :: CMalloc (fetch_cap pcm) :: trace s in
  if rv (fetch_reply pcm s) <? 0 then
    pcm_get_next_sample a s =
    Ret ((-1, None), Proc (<[fresh s := Bytes (raw_data pcm s)]> (heap s)) (fresh s + 1) tr (fds s) (vars s))
  else
    let n := pair_count pcm s in
    exists b', pcm_get_next_sample a s =
        Ret ((0, Some (Ptr lb 0, frame_size n)),
             Proc (<[lb := Bytes b']> (heap s)) (fresh s + 1) tr (fds s) (vars s)) /\
      zlen b' = PCM_BUFFER_SIZE /\
      alac_decode (unpack (take (Z.to_nat (frame_size n)) b')) =
        Some (map (fun k => pair_val (pair_bytes 2 (raw_data pcm s) k)) (seqZ 0 n)).
Proof.
  intros Hs Hok Hmem. pose proof (pcm_next_full s a pcm lb b Hs Hok Hmem) as Hrun. cbn zeta in Hrun |- *.
  destruct (_ <? 0); [done|]. destruct Hrun as (b' & H1 & H2 & _ & H3). by exists b'.
Qed.

End Pcm_frames.

(** C28: [pcm_get_next_sample] on an open stream never touches memory outside
    its blocks.  It fails with -1 when the read buffer cannot be allocated (no
    change) or the read fails (the read buffer stays allocated); otherwise it
    returns 0 and the stream's buffer, which then holds an ALAC frame of the
    bytes received, in pairs and filled up with silence to at least 32 pairs;
    the read buffer is freed and nothing else has changed. *)
Theorem pcm_get_next_sample_spec {E : Env} {HE : Posix E} (a : auds_t) s pcm lb b :
  stream_ok a s pcm lb b -> heap_ok s ->
  let r := rv (fetch_reply pcm s) in
  let n := Z.max r (MINIMUM_SAMPLE_SIZE * 4) / 4 in
  let tr := CMalloc (fetch_cap pcm) :: trace s in
  let no_memory := rv (env_reply (trace s) (CMalloc (fetch_cap pcm))) = 0 in
  no_memory /\ pcm_get_next_sample a s = Ret ((-1, None), with_trace tr s) \/
  ~ no_memory /\ r = -1 /\ pcm_get_next_sample a s =
    Ret ((-1, None), Proc (<[fresh s := Bytes (raw_data pcm s)]> (heap s)) (fresh s + 1)
                       (fetch_call pcm :: tr) (fds s) (vars s)) \/
  ~ no_memory /\ 0 <= r <= fetch_cap pcm /\
  exists b', pcm_get_next_sample a s =
      Ret ((0, Some (Ptr lb 0, frame_size n)),
           Proc (<[lb := Bytes b']> (heap s)) (fresh s + 1) (fetch_call pcm :: tr) (fds s) (vars s)) /\
    zlen b' = PCM_BUFFER_SIZE /\
    alac_decode (unpack (take (Z.to_nat (frame_size n)) b')) =
      Some (map (fun k => pair_val (pair_bytes 2 (raw_data pcm s) k)) (seqZ 0 n)).
Proof.
  intros Hs Hok r n tr no_memory. pose proof (fetch_bounds pcm s) as Hfb. fold r in Hfb.
  destruct (Z.eq_dec (rv (env_reply (trace s) (CMalloc (fetch_cap pcm)))) 0) as [Hmem|Hmem].
  - left. split; [done|]. pose proof (cap_bounds pcm) as Hcap. pose proof Hs as [Hst Hch _ _ _ _].
    unfold pcm_get_next_sample. rewrite Hst, Hch.
    change (if 0 <=? sfd pcm then MAX_SAMPLES_IN_CHUNK else MAX_SAMPLES_IN_CHUNK * 4) with (fetch_cap pcm).
    destruct (malloc_run (fetch_cap pcm) s) as [[_ Hm]|(? & _)]; [lia| |done].
    rewrite (bindM_Ret _ _ _ _ _ Hm). by rewrite decide_True.
  - right. pose proof (pcm_next_run s a pcm lb b Hs Hok Hmem) as Hrun. cbn zeta in Hrun.
    fold r in Hrun. destruct (Z.ltb_spec r 0); [left|right];
      (split; [done|]; split; [lia|]; exact Hrun).
Qed.

(** A stream on descriptor 5 whose [recv] delivers one sample pair. *)
Definition wit_env : Env := clamp (env_script [Reply 1 [] 0; Reply 4 [1; 2; 3; 4] 0]).
Definition wit_pcm : pcm_t := Pcm 5 6 (Ptr 1 0).
Definition wit_auds : auds_t := Auds (Some wit_pcm) 44100 None 4096 AUD_TYPE_PCM 2 None.
Definition wit_buffer : list Z := repeat 0 (Z.to_nat PCM_BUFFER_SIZE).
Definition wit_proc : proc := Proc {[1 := Bytes wit_buffer]} 2 [] [] statics0.

Lemma wit_stream_ok : stream_ok wit_auds wit_proc wit_pcm 1 wit_buffer.
Proof. split; reflexivity. Qed.

Lemma wit_heap_ok : heap_ok wit_proc.
Proof. intros l Hl. cbn in Hl |- *. apply lookup_singleton_ne. lia. Qed.

Lemma pcm_get_next_sample_spec_witness :
  exists b', @pcm_get_next_sample wit_env wit_auds wit_proc =
      Ret ((0, Some (Ptr 1 0, 135)),
           Proc (<[1 := Bytes b']> (heap wit_proc)) 3 [CRecv 5 4096; CMalloc 4096] [] statics0) /\
    zlen b' = PCM_BUFFER_SIZE /\
    alac_decode (unpack (take 135 b')) = Some ((513, 1027) :: repeat (0, 0) 31).
Proof.
  destruct (pcm_get_next_sample_spec (E := wit_env) wit_auds wit_proc wit_pcm 1 wit_buffer
    wit_stream_ok wit_heap_ok) as [[H _]|[(_ & H & _)|(_ & _ & b' & H1 & H2 & H3)]].
  - exfalso. discriminate H.
  - exfalso. discriminate H.
  - exists b'. split; [exact H1|]. split; [exact H2|]. rewrite <- (eq_refl : Z.to_nat (frame_size
      (Z.max (rv (@fetch_reply wit_env wit_pcm wit_proc)) (MINIMUM_SAMPLE_SIZE * 4) / 4)) = 135%nat).
    rewrite H3. reflexivity.
Defined.

(** The end of the data is not detected: when the peer has closed the
    connection or the file is at its end ([recv] or [read] returns 0),
    [pcm_get_next_sample] still succeeds, with a frame of 32 silent pairs, although
    a comment in [auds_write_pcm] wants playing to stop when there is no data. *)
Theorem pcm_end_of_data_is_silence {E : Env} {HE : Posix E} (a : auds_t) s pcm lb b :
  stream_ok a s pcm lb b -> heap_ok s ->
  rv (env_reply (trace s) (CMalloc (fetch_cap pcm))) <> 0 -> rv (fetch_reply pcm s) = 0 ->
  exists b' s', pcm_get_next_sample a s = Ret ((0, Some (Ptr lb 0, 135)), s') /\
    heap s' = <[lb := Bytes b']> (heap s) /\
    alac_decode (unpack (take 135 b')) = Some (repeat (0, 0) 32).
Proof.
  intros Hs Hok Hm Hr. pose proof (pcm_next_run s a pcm lb b Hs Hok Hm) as Hrun. cbn zeta in Hrun.
  unfold pair_count in Hrun. rewrite Hr in Hrun. cbn [Z.ltb Z.compare] in Hrun.
  change (Z.max 0 (MINIMUM_SAMPLE_SIZE * 4) / 4) with 32 in Hrun.
  change (frame_size 32) with 135 in Hrun. change (Z.to_nat 135) with 135%nat in Hrun.
  destruct Hrun as (b' & E1 & _ & Hdec). exists b'. eexists. split; [exact E1|]. split; [done|].
  rewrite Hdec. f_equal. transitivity (map (fun _ => (0, 0)) (seqZ 0 32)); [|done].
  apply map_ext_in. intros k _.
  assert (Hz : forall i, znth (raw_data pcm s) i = 0).
  { intros i. unfold raw_data, fetched. rewrite Hr.
    replace (resize _ 0 (map u8 _)) with (@nil Z)
      by (symmetry; apply nil_length_inv; by rewrite length_resize).
    rewrite splice_nil by (rewrite zlen_repeat; lia). unfold znth. apply nth_repeat. }
  unfold pair_bytes. cbn [Z.eqb Pos.eqb]. by rewrite !Hz.
Qed.

Lemma pcm_end_of_data_is_silence_witness :
  exists b' s', @pcm_get_next_sample (clamp (env_script [Reply 1 [] 0])) wit_auds wit_proc =
      Ret ((0, Some (Ptr 1 0, 135)), s') /\
    heap s' = <[1 := Bytes b']> (heap wit_proc) /\
    alac_decode (unpack (take 135 b')) = Some (repeat (0, 0) 32).
Proof.
  apply (pcm_end_of_data_is_silence (E := clamp (env_script [Reply 1 [] 0])) wit_auds wit_proc wit_pcm 1
    wit_buffer wit_stream_ok wit_heap_ok); [discriminate|reflexivity].
Defined.

(** ** Opening and closing *)

Section Open_close.
Context {E : Env}.

(** The calls that close the descriptors of a stream, newest first. *)
Definition close_calls (pcm : pcm_t) : list call :=
  (if 0 <=? pcm.(sfd) then [CClose pcm.(sfd)] else []) ++
  (if 0 <=? pcm.(dfd) then [CClose pcm.(dfd)] else []).

Lemma pcm_close_run (a : auds_t) s pcm h :
  a.(stream) = Some pcm ->
  free pcm.(buffer) (with_trace (close_calls pcm ++ trace s) s) =
    Ret (tt, set_heap h (with_trace (close_calls pcm ++ trace s) s)) ->
  pcm_close a s = Ret ((0, set_stream None a), set_heap h (with_trace (close_calls pcm ++ trace s) s)).
Proof.
  intros Hst Hfree. unfold pcm_close. rewrite Hst.
  assert (Hr : forall f s0, (if 0 <=? f then syscall (CClose f) else ret 0) s0 =
    Ret (if 0 <=? f then rv (env_reply (trace s0) (CClose f)) else 0,
         with_trace ((if 0 <=? f then [CClose f] else []) ++ trace s0) s0))
    by (intros f []; by destruct (0 <=? f)).
  rewrite (bindM_Ret _ _ _ _ _ (Hr _ _)), (bindM_Ret _ _ _ _ _ (Hr _ _)).
  cbn [with_trace trace]. rewrite app_assoc.
  erewrite bindM_Ret by exact Hfree. done.
Qed.

(** What a successful or failed [pcm_open] leaves behind. *)
Definition open_post (s : proc) (res : Z * auds_t) (s' : proc) : Prop :=
  heap_ok s' /\ let '(r, a) := res in
  (r = 0 /\ exists pcm b, stream_ok a s' pcm (fresh s) b /\ heap s' = <[fresh s := Bytes b]> (heap s) /\
     a.(data_type) = AUD_TYPE_PCM) \/
  (r = -1 /\ a.(stream) = None /\ heap s' = heap s).

Lemma pcm_prepare_post (a : auds_t) pcm s :
  heap_ok s -> a.(channels) = 2 -> a.(data_type) = AUD_TYPE_PCM ->
  exists res s', pcm_prepare a pcm s = Ret (res, s') /\ open_post s res s'.
Proof.
  intros Hok Hch Hty. unfold pcm_prepare.
  erewrite bindM_Ret by reflexivity. cbn beta zeta.
  destruct (malloc_run PCM_BUFFER_SIZE s) as [[_ Hm]|(_ & g & Hg & Hm)]; [done| |];
    rewrite (bindM_Ret _ _ _ _ _ Hm).
  - rewrite decide_True by done.
    erewrite bindM_Ret by (apply (pcm_close_run _ _ (Pcm (dfd pcm) (sfd pcm) Null) (heap s)); reflexivity).
    eexists _, _. split; [done|]. split; [done|]. by right.
  - rewrite decide_False by done. eexists _, _. split; [done|]. split.
    + intros l Hl. cbn in Hl |- *. rewrite lookup_insert_ne by lia. apply Hok. lia.
    + left. split; [done|]. eexists _, g. split; [|done].
      split; [reflexivity|reflexivity|done|reflexivity|apply lookup_insert_eq|done].
Qed.

Lemma pcm_open_post (a : auds_t) fname s :
  heap_ok s -> a.(stream) = None -> a.(channels) = 2 -> a.(data_type) = AUD_TYPE_PCM ->
  exists res s', pcm_open a fname s = Ret (res, s') /\ open_post s res s'.
Proof.
  intros Hok Hst Hch Hty. unfold pcm_open.
  assert (Hsys : forall c s0, syscall c s0 =
    Ret (rv (env_reply (trace s0) c), with_trace (c :: trace s0) s0)) by done.
  assert (Hmal : forall n s0, malloc_struct n s0 =
    Ret (negb (rv (env_reply (trace s0) (CMalloc n)) =? 0), with_trace (CMalloc n :: trace s0) s0)) by done.
  destruct (negb (startsWith fname (lit "socket://")));
    rewrite (bindM_Ret _ _ _ _ _ (Hmal 12 s)); (destruct (negb (negb _));
      [eexists _, _; split; [done|]; split; [done|by right]|]).
  - rewrite (bindM_Ret _ _ _ _ _ (Hsys _ _)). cbn zeta. set (d := rv _). set (s1 := with_trace _ _).
    destruct (d <? 0).
    + erewrite bindM_Ret by (apply (pcm_close_run _ _ (Pcm d (-1) Null) (heap s)); reflexivity).
      eexists _, _. split; [done|]. split; [done|by right].
    + destruct (pcm_prepare_post a (Pcm d (-1) Null) s1) as (res & s' & E1 & H1); [done..|].
      by exists res, s'.
  - rewrite (bindM_Ret _ _ _ _ _ (Hsys _ _)). set (sk := rv _).
    rewrite (bindM_Ret _ _ _ _ _ (Hsys _ _)), (bindM_Ret _ _ _ _ _ (Hsys _ _)).
    destruct (sk <? 0).
    + erewrite bindM_Ret by (apply (pcm_close_run _ _ (Pcm (-1) sk Null) (heap s)); reflexivity).
      eexists _, _. split; [done|]. split; [done|by right].
    + rewrite (bindM_Ret _ _ _ _ _ (Hsys _ _)), (bindM_Ret _ _ _ _ _ (Hsys _ _)).
      set (d := rv _). set (s1 := with_trace _ _).
      destruct (pcm_prepare_post a (Pcm d sk Null) s1) as (res & s' & E1 & H1); [done..|].
      by exists res, s'.
Qed.

Lemma auds_close_run (a : auds_t) s pcm lb b :
  stream_ok a s pcm lb b -> a.(data_type) = AUD_TYPE_PCM ->
  auds_close a s = Ret (0, set_heap (delete lb (heap s)) (with_trace (close_calls pcm ++ trace s) s)).
Proof.
  intros [Hst Hch Hcn Hbu Hbl Hsz] Hty. unfold auds_close. rewrite Hst, Hty, bindM_assoc.
  erewrite bindM_Ret by (apply pcm_close_run; [done|]; rewrite Hbu; by eapply free_run). done.
Qed.

End Open_close.


