(* ===== verification/RtspClient.v ===== *)
(** * RtspClient: the RTSP client of rtsp_client.c

    A request is formatted into a stack buffer of 1024 bytes through line
    buffers of 128 bytes; writing past either is undefined.  The response
    headers become a [key_data_t] array of the heap.  [rtspcl_data_t] has one
    owner and is passed as a value; [session] and [transport] point into the
    data of response headers. *)

From S2P Require Import Prelude Sys AexclLib.

(** ** The client *)

Record rtspcl_data_t : Type := Rtspcl {
  rfd : Z;
  url : list Z;               (** [char url[128]] as the string it holds *)
  cseq : Z;
  rkd : ptr;                  (** [kd] *)
  exthds : ptr;
  session : ptr;
  transport : ptr;
  server_port : Z;
  control_port : Z;
  timing_port : Z;
  host_addr : Z;
  local_addr : Z;
  rudp : Z;                   (** [udp] *)
  useragent : list Z
}.

Definition set_rfd v r := Rtspcl v (url r) (cseq r) (rkd r) (exthds r) (session r) (transport r)
  (server_port r) (control_port r) (timing_port r) (host_addr r) (local_addr r) (rudp r) (useragent r).
Definition set_url v r := Rtspcl (rfd r) v (cseq r) (rkd r) (exthds r) (session r) (transport r)
  (server_port r) (control_port r) (timing_port r) (host_addr r) (local_addr r) (rudp r) (useragent r).
Definition set_cseq v r := Rtspcl (rfd r) (url r) v (rkd r) (exthds r) (session r) (transport r)
  (server_port r) (control_port r) (timing_port r) (host_addr r) (local_addr r) (rudp r) (useragent r).
Definition set_rkd v r := Rtspcl (rfd r) (url r) (cseq r) v (exthds r) (session r) (transport r)
  (server_port r) (control_port r) (timing_port r) (host_addr r) (local_addr r) (rudp r) (useragent r).
Definition set_exthds v r := Rtspcl (rfd r) (url r) (cseq r) (rkd r) v (session r) (transport r)
  (server_port r) (control_port r) (timing_port r) (host_addr r) (local_addr r) (rudp r) (useragent r).
Definition set_session v r := Rtspcl (rfd r) (url r) (cseq r) (rkd r) (exthds r) v (transport r)
  (server_port r) (control_port r) (timing_port r) (host_addr r) (local_addr r) (rudp r) (useragent r).
Definition set_transport v r := Rtspcl (rfd r) (url r) (cseq r) (rkd r) (exthds r) (session r) v
  (server_port r) (control_port r) (timing_port r) (host_addr r) (local_addr r) (rudp r) (useragent r).
Definition set_ports s c t r := Rtspcl (rfd r) (url r) (cseq r) (rkd r) (exthds r) (session r) (transport r)
  s c t (host_addr r) (local_addr r) (rudp r) (useragent r).
Definition set_addrs h l r := Rtspcl (rfd r) (url r) (cseq r) (rkd r) (exthds r) (session r) (transport r)
  (server_port r) (control_port r) (timing_port r) h l (rudp r) (useragent r).
Definition set_agent v r := Rtspcl (rfd r) (url r) (cseq r) (rkd r) (exthds r) (session r) (transport r)
  (server_port r) (control_port r) (timing_port r) (host_addr r) (local_addr r) (rudp r) v.

(** Bound on the number of lines of a response: the loops that read them end
    only when the peer stops sending. *)
Class LineBound : Type := line_bound : nat.

(** [inet_ntoa]: dotted decimal, the first byte of the address first. *)
Definition inet_ntoa (addr : Z) : list Z :=
  fmt_u (addr .& 0xff) ++ lit "." ++ fmt_u ((addr .>> 8) .& 0xff) ++ lit "." ++
  fmt_u ((addr .>> 16) .& 0xff) ++ lit "." ++ fmt_u ((addr .>> 24) .& 0xff).

Definition CRLF : list Z := [13; 10].

(** A formatted string stored in an array of [cap] characters. *)
Definition sprintf (cap : Z) (s : list Z) : M (list Z) :=
  if zlen s + 1 <=? cap then ret s else undef OutOfBounds.

Section Rtsp.
Context {E : Env} {L : LineBound}.

(** ** Strings *)

(** The character at [p + i]. *)
Definition char_at (p : ptr) (i : Z) : M Z :=
  match p with
  | Null => undef NullDeref
  | Ptr l o => fun s =>
      match s.(heap) !! l with
      | Some (Bytes b) => obind (buf_get b (o + i)) (fun c => Ret (c, s))
      | Some (Kds _) => UB OutOfBounds
      | None => UB DanglingPtr
      end
  end.

Definition ptr_add (p : ptr) (i : Z) : ptr :=
  match p with Ptr l o => Ptr l (o + i) | Null => Null end.

Fixpoint count_space (s : list Z) : Z :=
  match s with c :: s' => if isspace c then 1 + count_space s' else 0 | [] => 0 end.

(** [ltrim(s)]: the loop stops at the NUL at the latest. *)
Definition ltrim (p : ptr) : M ptr := do! s <- load_str p; ret (ptr_add p (count_space s)).

(** [while(isspace( * --back))]: [back] moves down from [s + i]. *)
Fixpoint rtrim_loop (fuel : nat) (p : ptr) (i : Z) : M Z :=
  match fuel with
  | O => undef NoFuel
  | S fuel =>
      do! c <- char_at p (i - 1);
      if isspace c then rtrim_loop fuel p (i - 1) else ret (i - 1)
  end.

(** The characters that can lie before [s + strlen(s)] in its block. *)
Definition rtrim_fuel (p : ptr) (n : Z) : nat :=
  match p with Ptr _ o => S (Z.to_nat (o + n)) | Null => 1%nat end.

Definition rtrim (p : ptr) : M ptr :=
  do! s <- load_str p;
  do! back <- rtrim_loop (rtrim_fuel p (zlen s)) p (zlen s);
  do! _ <- store p (back + 1) [0];
  ret p.

Definition trim (p : ptr) : M ptr := do! p <- ltrim p; rtrim p.

(** ** Extra headers *)

(** The scan of [rtspcl_add_exthds]: the first cell that is free or ends the array. *)
Fixpoint exthds_slot (fuel : nat) (a : ptr) (i : Z) : M Z :=
  match fuel with
  | O => undef NoFuel
  | S fuel =>
      do! k <- key_of a i;
      if decide (k = Null) then ret i
      else
        do! c <- char_at k 0;
        if c =? 0xff then ret i else exthds_slot fuel a (i + 1)
  end.

Definition rtspcl_add_exthds (p : rtspcl_data_t) (key data : list Z) : M (Z * rtspcl_data_t) :=
  do! '(r, i, p) <-
    (if decide (p.(exthds) = Null) then
       do! '(r, a) <- realloc_memory_kd (17 * 8 * 2); ret (r, 0, set_exthds a p)
     else
       do! fuel <- kd_fuel p.(exthds);
       do! i <- exthds_slot fuel p.(exthds) 0;
       do! grow <-
         (if negb (i =? 0) && (i mod 16 =? 0) then
            do! k <- key_of p.(exthds) i; do! c <- char_at k 0; ret (negb (c =? 0xff))
          else ret false);
       if (grow : bool) then
         do! '(r, a) <- realloc_memory_kd ((16 * (i mod 16 + 1) + 1) * 8);
         if negb (r =? 0) then ret (r, i, set_exthds a p)
         else do! _ <- kd_memset a (16 * (i / 16)) 17; ret (0, i, set_exthds a p)
       else ret (0, i, p));
  if negb (r =? 0) then ret (-1, p)
  else
    do! '(r, k) <- realloc_memory (zlen key);
    do! _ <- set_key p.(exthds) i k;
    if negb (r =? 0) then ret (-1, p)
    else
      do! _ <- strcpy k key;
      do! '(r, d) <- realloc_memory (zlen data);
      do! _ <- set_data p.(exthds) i d;
      if negb (r =? 0) then ret (-1, p)
      else
        do! _ <- strcpy d data;
        do! _ <- set_key p.(exthds) (i + 1) Null;
        ret (0, p).

Fixpoint mark_loop (fuel : nat) (a : ptr) (key : list Z) (i : Z) : M Z :=
  match fuel with
  | O => undef NoFuel
  | S fuel =>
      do! k <- key_of a i;
      if decide (k = Null) then ret (-1)
      else
        do! ks <- load_str k;
        if str_eqb key ks then do! _ <- store k 0 [0xff]; ret 0
        else mark_loop fuel a key (i + 1)
  end.

Definition rtspcl_mark_del_exthds (p : rtspcl_data_t) (key : list Z) : M Z :=
  if decide (p.(exthds) = Null) then ret (-1)
  else do! fuel <- kd_fuel p.(exthds); mark_loop fuel p.(exthds) key 0.

(** [rtspcl_remove_all_exthds(p)]: [i] stays 0. *)
Fixpoint remove_all_loop (fuel : nat) (a : ptr) : M unit :=
  match fuel with
  | O => undef NoFuel
  | S fuel =>
      if decide (a = Null) then ret tt
      else
        do! k <- key_of a 0;
        if decide (k = Null) then ret tt
        else
          do! _ <- free k;
          do! d <- data_of a 0;
          do! _ <- free d;
          remove_all_loop fuel a
  end.

Definition rtspcl_remove_all_exthds (p : option rtspcl_data_t) : M (Z * option rtspcl_data_t) :=
  match p with
  | None => ret (-1, None)
  | Some p =>
      do! _ <- remove_all_loop 2 p.(exthds);
      do! _ <- free p.(exthds);
      ret (0, Some (set_exthds Null p))
  end.

(** ** Opening and closing *)

Definition rtspcl_open (udp : Z) : M (option rtspcl_data_t) :=
  do! ok <- malloc_struct 176;
  if negb ok then undef NullDeref
  else ret (Some (Rtspcl 0 [] 0 Null Null Null Null 0 0 0 0 0 udp (lit "RTSPClient"))).

Definition rtspcl_disconnect (p : rtspcl_data_t) : M (Z * rtspcl_data_t) :=
  do! _ <- (if 0 <? p.(rfd) then syscall (CClose p.(rfd)) else ret 0);
  ret (0, set_rfd 0 p).

(** [rtspcl_close(p)]: [p] is NULL when [rtspcl_remove_all_exthds] is called. *)
Definition rtspcl_close (p : option rtspcl_data_t) : M Z :=
  match p with
  | None => ret (-1)
  | Some p =>
      do! _ <- rtspcl_disconnect p;
      do! _ <- rtspcl_remove_all_exthds None;
      ret 0
  end.

Definition rtspcl_get_server_port (p : option rtspcl_data_t) : Z :=
  match p with None => u16 (-1) | Some p => p.(server_port) end.
Definition rtspcl_get_timing_port (p : option rtspcl_data_t) : Z :=
  match p with None => u16 (-1) | Some p => p.(timing_port) end.
Definition rtspcl_get_control_port (p : option rtspcl_data_t) : Z :=
  match p with None => u16 (-1) | Some p => p.(control_port) end.

Definition rtspcl_set_useragent (p : rtspcl_data_t) (name : list Z) : Z * rtspcl_data_t :=
  (0, set_agent name p).

Definition rtspcl_local_ip (p : rtspcl_data_t) : list Z := inet_ntoa p.(local_addr).

(** [getsockname] and [getpeername]: [name.sin_addr] afterwards, which was [old]. *)
Definition get_addr (c : call) (old : option Z) : M Z :=
  do! r <- sys c;
  if r.(rv) =? 0 then ret (u32 (znth r.(rdata) 1))
  else match old with Some a => ret a | None => undef Uninit end.

Definition rtspcl_connect (p : rtspcl_data_t) (host : list Z) (destport : Z) (sid : list Z)
    : M (Z * rtspcl_data_t) :=
  let p := if p.(rudp) =? 0 then p else set_session Null p in
  do! '(fd, _) <- open_tcp_socket None 0;
  let p := set_rfd fd p in
  if fd =? -1 then ret (-1, p)
  else
    do! c <- get_tcp_connect_by_host fd host destport;
    if negb (c =? 0) then ret (-1, p)
    else
      do! local <- get_addr (CGetsockname fd) None;
      do! u <- sprintf 128 (lit "rtsp://" ++ inet_ntoa local ++ lit "/" ++ sid);
      do! peer <- get_addr (CGetpeername fd) (Some local);
      ret (0, set_addrs peer local (set_url u p)).

(** ** Requests *)

(** [sprintf(reql, ...); strncat(req, reql, sizeof(req))] *)
Definition add_line (req s : list Z) : M (list Z) :=
  do! s <- sprintf 128 s; sprintf 1024 (req ++ take 1024 s).

Fixpoint add_headers (req : list Z) (hds : list (list Z * list Z)) : M (list Z) :=
  match hds with
  | [] => ret req
  | (k, d) :: hds => do! req <- add_line req (k ++ lit ": " ++ d ++ CRLF); add_headers req hds
  end.

(** The loop over [rtspcld->exthds]: marked cells are skipped. *)
Fixpoint add_exthds_lines (fuel : nat) (req : list Z) (a : ptr) (i : Z) : M (list Z) :=
  match fuel with
  | O => undef NoFuel
  | S fuel =>
      if decide (a = Null) then ret req
      else
        do! k <- key_of a i;
        if decide (k = Null) then ret req
        else
          do! c <- char_at k 0;
          if c =? 0xff then add_exthds_lines fuel req a (i + 1)
          else
            do! ks <- load_str k;
            do! d <- data_of a i;
            do! ds <- load_str d;
            do! req <- add_line req (ks ++ lit ": " ++ ds ++ CRLF);
            add_exthds_lines fuel req a (i + 1)
  end.

Definition add_session (req : list Z) (p : rtspcl_data_t) : M (list Z) :=
  if decide (p.(session) = Null) then ret req
  else do! s <- load_str p.(session); add_line req (lit "Session: " ++ s ++ CRLF).

(** The first half of [exec_request]: the bytes that are written, and the
    client with its sequence number advanced.  [content] is a string when
    [length] is 0 and a buffer otherwise; [uri] is the last argument [url]. *)
Definition build_request (p : rtspcl_data_t) (cmd : list Z) (content_type content : option (list Z))
    (length : Z) (hds : list (list Z * list Z)) (uri : option (list Z)) : M (list Z * rtspcl_data_t) :=
  do! '(req, p) <-
    (if p.(rudp) =? 0 then
       do! n <- int (p.(cseq) + 1);
       do! req <- sprintf 1024 (cmd ++ lit " " ++ p.(url) ++ lit " RTSP/1.0" ++ CRLF ++
                                lit "CSeq: " ++ fmt_d n ++ CRLF);
       ret (req, set_cseq n p)
     else
       do! req <- sprintf 1024 (cmd ++ lit " " ++ default p.(url) uri ++ lit " RTSP/1.0" ++ CRLF);
       ret (req, p));
  do! req <- add_session req p;
  do! req <- add_headers req hds;
  do! req <-
    match content_type, content with
    | Some ty, Some c =>
        add_line req (lit "Content-Type: " ++ ty ++ CRLF ++ lit "Content-Length: " ++
                      fmt_d (if length =? 0 then zlen c else length) ++ CRLF)
    | _, _ => ret req
    end;
  do! '(req, p) <-
    (if p.(rudp) =? 0 then ret (req, p)
     else
       do! n <- int (p.(cseq) + 1);
       do! req <- add_line req (lit "CSeq: " ++ fmt_d n ++ CRLF); ret (req, set_cseq n p));
  do! req <- add_line req (lit "User-Agent: " ++ p.(useragent) ++ CRLF);
  do! fuel <- kd_fuel p.(exthds);
  do! req <- add_exthds_lines fuel req p.(exthds) 0;
  do! req <- (if p.(rudp) =? 0 then ret req else add_session req p);
  do! req <- sprintf 1024 (req ++ CRLF);
  match content_type, content with
  | Some _, Some c =>
      if length =? 0 then do! req <- sprintf 1024 (req ++ take 1024 c); ret (req, p)
      else if (zlen req + length <=? 1024) && (0 <=? length) && (length <=? zlen c)
      then ret (req ++ take (Z.to_nat length) c, p)
      else undef OutOfBounds
  | _, _ => if length =? 0 then ret (req, p) else undef Uninit
  end.

(** ** Responses *)

Definition LINE_SIZE : Z := 2048.

Fixpoint skip_blanks (s : list Z) : list Z :=
  match s with c :: s' => if c =? 32 then skip_blanks s' else s | [] => [] end.

(** A continuation line: [( *kd)[i].data] is a new block the text is appended to. *)
Definition continuation (kd : ptr) (i dsize : Z) (text : list Z) : M (option Z) :=
  let t := skip_blanks text in
  let dsize := dsize + zlen t in
  do! '(r, d) <- realloc_memory dsize;
  do! _ <- set_data kd i d;
  if negb (r =? 0) then ret None
  else do! _ <- strcat d t; ret (Some dsize).

(** The loop over the header lines: the return value (0: go on) and [*kd], [i]. *)
Fixpoint header_loop (fuel : nat) (fd : Z) (line : list Z) (timeout : Z) (kd : ptr) (i dsize : Z)
    : M (Z * ptr * Z * list Z) :=
  match fuel with
  | O => undef NoFuel
  | S fuel =>
      do! '(r, line) <- read_line fd line LINE_SIZE timeout false;
      if r <=? 0 then ret (0, kd, i, line)
      else
        do! '(r, kd) <-
          (if i mod 16 =? 0 then
             do! '(r, a) <- realloc_memory_kd ((16 * (i / 16 + 1) + 1) * 8);
             if negb (r =? 0) then ret (-1, a)
             else do! _ <- kd_memset a (16 * (i / 16)) 17; ret (0, a)
           else ret (0, kd));
        if negb (r =? 0) then ret (-1, kd, i, line)
        else
          do! text <- lift (cstr line);
          if negb (i =? 0) && (match text with c :: _ => c =? 32 | [] => false end) then
            do! dsize <- continuation kd i dsize text;
            match dsize with
            | None => ret (-1, kd, i, line)
            | Some dsize => header_loop fuel fd line 1000 kd i dsize
            end
          else
            match strstr text [58] with
            | None => do! _ <- free_kd kd; ret (-1, Null, i, line)
            | Some dp =>
                let key := take (Z.to_nat dp) text in
                let data := drop (Z.to_nat (dp + 1)) text in
                do! line <- lift (buf_set line dp 0);
                do! '(r, k) <- realloc_memory (zlen key + 1);
                do! _ <- set_key kd i k;
                if negb (r =? 0) then ret (-1, kd, i, line)
                else
                  do! _ <- strcpy k key;
                  do! '(r, d) <- realloc_memory (zlen data + 1);
                  do! _ <- set_data kd i d;
                  if negb (r =? 0) then ret (-1, kd, i, line)
                  else
                    do! _ <- strcpy d data;
                    header_loop fuel fd line 1000 kd (i + 1) (zlen data + 1)
            end
  end.

(** The body of a response (UDP only) is read and dropped. *)
Fixpoint body_loop (fuel : nat) (fd : Z) (line : list Z) (timeout : Z) : M unit :=
  match fuel with
  | O => undef NoFuel
  | S fuel =>
      do! '(r, line) <- read_line fd line LINE_SIZE timeout false;
      if r <=? 0 then ret tt else body_loop fuel fd line timeout
  end.

(** The second half of [exec_request]: the return value and [*kd]. *)
Definition read_response (p : rtspcl_data_t) (get_response : Z) (kd : ptr) : M (Z * ptr) :=
  let failed := if get_response =? 1 then -1 else 0 in
  do! '(r, line) <- read_line p.(rfd) (repeat 0 (Z.to_nat LINE_SIZE)) LINE_SIZE 5000 false;
  if r <=? 0 then ret (failed, kd)
  else
    do! text <- lift (cstr line);
    if match tokens 32 text with _ :: t :: _ => negb (str_eqb t (lit "200")) | _ => true end
    then ret (failed, kd)
    else
      do! '(r, kd, i, line) <- header_loop line_bound p.(rfd) line 5000 kd 0 0;
      if negb (r =? 0) then ret (-1, kd)
      else
        do! _ <- (if p.(rudp) =? 0 then ret tt
                  else body_loop line_bound p.(rfd) line (if i =? 0 then 5000 else 1000));
        do! _ <- set_key kd i Null;
        ret (0, kd).

(** [exec_request(...)]: the return value, [*kd] and the client.  Without a length the
    request is written up to its NUL, with one [totallength] bytes of it are. *)
Definition exec_request (p : rtspcl_data_t) (cmd : list Z) (content_type content : option (list Z))
    (length get_response : Z) (hds : list (list Z * list Z)) (kd : ptr) (uri : option (list Z))
    : M (Z * ptr * rtspcl_data_t) :=
  do! '(req, p) <- build_request p cmd content_type content length hds uri;
  do! out <- (if length =? 0 then lift (cstr (req ++ [0])) else ret req);
  do! _ <- syscall (CWrite p.(rfd) out);
  if get_response =? 0 then ret (0, kd, p)
  else do! '(r, kd) <- read_response p get_response kd; ret (r, kd, p).

(** With [&rtspcld->kd] as the destination. *)
Definition exec_own (p : rtspcl_data_t) (cmd : list Z) (content_type content : option (list Z))
    (length get_response : Z) (hds : list (list Z * list Z)) (uri : option (list Z))
    : M (Z * rtspcl_data_t) :=
  do! '(r, kd, p) <- exec_request p cmd content_type content length get_response hds p.(rkd) uri;
  ret (r, set_rkd kd p).

(** ** The methods *)

Definition rtspcl_annouce_sdp (p : rtspcl_data_t) (sdp : list Z) : M (Z * rtspcl_data_t) :=
  exec_own p (lit "ANNOUNCE") (Some (lit "application/sdp")) (Some sdp) 0 1 [] None.

(** A [key=value] token of the Transport header. *)
Definition transport_token (p : rtspcl_data_t) (token : list Z) : outcome rtspcl_data_t :=
  match strstr token [61] with
  | None => Ret p
  | Some pc =>
      let key := take (Z.to_nat pc) token in
      let value := drop (Z.to_nat (pc + 1)) token in
      do p <- (if str_eqb key (lit "server_port") then
                 do n <- atoi value; Ret (set_ports (u16 n) (control_port p) (timing_port p) p)
               else Ret p);
      if p.(rudp) =? 0 then Ret p
      else
        do p <- (if str_eqb key (lit "control_port") then
                   do n <- atoi value; Ret (set_ports (server_port p) (u16 n) (timing_port p) p)
                 else Ret p);
        if str_eqb key (lit "timing_port") then
          do n <- atoi value; Ret (set_ports (server_port p) (control_port p) (u16 n) p)
        else Ret p
  end.

Fixpoint transport_tokens (p : rtspcl_data_t) (ts : list (list Z)) : outcome rtspcl_data_t :=
  match ts with
  | [] => Ret p
  | t :: ts => do p <- transport_token p t; transport_tokens p ts
  end.

Definition setup_header (p : rtspcl_data_t) : list Z :=
  if p.(rudp) =? 0 then lit "RTP/AVP/TCP;unicast;interleaved=0-1;mode=record"
  else lit "RTP/AVP/UDP;unicast;interleaved=0-1;mode=record;control_port=6001;timing_port=6002".

(** [rtspcl_setup(p, &kd)]: the return value, [*kd] and the client; [*kd] is
    not set when the request fails. *)
Definition rtspcl_setup (p : rtspcl_data_t) (kd0 : ptr) : M (Z * ptr * rtspcl_data_t) :=
  do! '(r, kd, p) <-
    exec_request p (lit "SETUP") None None 0 1 [(lit "Transport", setup_header p)] Null None;
  if negb (r =? 0) then ret (-1, kd0, p)
  else
    let fail (p : rtspcl_data_t) := do! _ <- free_kd kd; ret (-1, Null, p) in
    do! temp <- kd_lookup kd (lit "Session");
    if decide (temp = Null) then fail p
    else
      do! sess <- trim temp;
      let p := set_session sess p in
      do! tr <- kd_lookup kd (lit "Transport");
      let p := set_transport tr p in
      if decide (tr = Null) then fail p
      else
        do! ts <- load_str tr;
        do! '(r, buf) <- realloc_memory (zlen ts + 1);
        if negb (r =? 0) then fail p
        else
          do! _ <- strcpy buf ts;
          do! p <- lift (transport_tokens (set_ports 0 (control_port p) (timing_port p) p) (tokens 59 ts));
          do! _ <- free buf;
          if p.(server_port) =? 0 then fail p else ret (0, kd, p).

Definition rtspcl_record (p : rtspcl_data_t) : M (Z * rtspcl_data_t) :=
  if decide (p.(session) = Null) then ret (-1, p)
  else
    exec_own p (lit "RECORD") None None 0 1
      [(lit "Range", lit "npt=0-"); (lit "RTP-Info", lit "seq=0;rtptime=0")] None.

Definition rtspcl_set_parameter (p : rtspcl_data_t) (para : list Z) : M (Z * rtspcl_data_t) :=
  exec_own p (lit "SET_PARAMETER") (Some (lit "text/parameters")) (Some para) 0 1 [] None.

Definition rtspcl_set_daap (p : rtspcl_data_t) (para : list Z) (timestamp count : Z)
    : M (Z * rtspcl_data_t) :=
  do! rtptime <- sprintf 20 (lit "rtptime=" ++ fmt_d (s32 timestamp));
  exec_own p (lit "SET_PARAMETER") (Some (lit "application/x-dmap-tagged")) (Some para) count 2
    [(lit "RTP-Info", rtptime)] None.

Definition rtspcl_options (p : rtspcl_data_t) : M (Z * rtspcl_data_t) :=
  exec_own p (lit "OPTIONS") None None 0 1 [] (Some (lit "*")).

Definition auth_data : list Z :=
  [0x01; 0xad; 0xb2; 0xa4; 0xc7; 0xd5; 0x5c; 0x97; 0x6c; 0x34; 0xf9;
   0x2e; 0x0e; 0x05; 0x48; 0x90; 0x3b; 0x3a; 0x2f; 0xc6; 0x72; 0x2b;
   0x88; 0x58; 0x08; 0x76; 0xd2; 0x9c; 0x61; 0x94; 0x18; 0x52; 0x50].

Definition rtspcl_auth_setup (p : rtspcl_data_t) : M (Z * rtspcl_data_t) :=
  exec_own p (lit "POST") (Some (lit "application/octet-stream")) (Some auth_data) 33 1 []
    (Some (lit "/auth-setup")).

Definition rtspcl_flush (p : rtspcl_data_t) : M (Z * rtspcl_data_t) :=
  exec_own p (lit "FLUSH") None None 0 1 [(lit "RTP-Info", lit "seq=0;rtptime=0")] None.

Definition rtspcl_teardown (p : rtspcl_data_t) : M (Z * rtspcl_data_t) :=
  exec_own p (lit "TEARDOWN") None None 0 0 [] None.

End Rtsp.
