(* ===== verification/RtspProofs.v ===== *)
(** * RtspProofs: theorems on the RTSP client

    What a request looks like on the wire, how a response becomes a header
    array, how extra headers are added, and the memory errors of the header and
    session handling. *)

From S2P Require Import Prelude Sys AexclLib RtspClient.

(** ** Trimming *)

Lemma char_at_run l o i a c b s :
  heap s !! l = Some (Bytes (a ++ c :: b)) -> o + i = zlen a -> char_at (Ptr l o) i s = Ret (c, s).
Proof. intros Hl Ho. unfold char_at. rewrite Hl, Ho, buf_get_mid. done. Qed.

Lemma view_at_run l o a b s :
  heap s !! l = Some (Bytes (a ++ b)) -> o = zlen a -> view (Ptr l o) s = Ret (b, s).
Proof.
  intros Hl ->. unfold view. rewrite Hl, zlen_app. pose proof (zlen_nonneg a). pose proof (zlen_nonneg b).
  rewrite !(proj2 (Z.leb_le _ _)) by lia. unfold zlen. simpl. by rewrite Nat2Z.id, drop_app_length.
Qed.

Lemma load_at_run l o a k r s :
  heap s !! l = Some (Bytes (a ++ k ++ 0 :: r)) -> o = zlen a -> nonul k -> load_str (Ptr l o) s = Ret (k, s).
Proof.
  intros Hl Ho Hk. unfold load_str. erewrite bindM_Ret by (by eapply view_at_run).
  unfold lift. by rewrite cstr_nul.
Qed.

Definition spaces (w : list Z) : Prop := Forall (fun c => isspace c = true) w.

Lemma spaces_nonul w : spaces w -> nonul w.
Proof. intros H. eapply Forall_impl; [exact H|]. intros c Hc ->. done. Qed.

Lemma count_space_app ws w :
  spaces ws -> (forall c, head w = Some c -> isspace c = false) -> count_space (ws ++ w) = zlen ws.
Proof.
  intros Hws Hw. induction Hws as [|c ws Hc Hws IH]; simpl.
  - destruct w as [|c w]; [done|]. simpl. by rewrite (Hw c).
  - rewrite Hc, IH. rewrite zlen_cons. lia.
Qed.

Lemma rtrim_loop_run l o pre w c ws s : forall tail fuel,
  spaces ws -> isspace c = false -> o = zlen pre -> (length ws < fuel)%nat ->
  heap s !! l = Some (Bytes (pre ++ (w ++ [c]) ++ ws ++ tail)) ->
  rtrim_loop fuel (Ptr l o) (zlen (w ++ [c]) + zlen ws) s = Ret (zlen w, s).
Proof.
  induction ws as [|x ws IH] using rev_ind; intros tail fuel Hws Hc Ho Hf Hl;
    (destruct fuel as [|fuel]; [lia|]); cbn [rtrim_loop].
  - erewrite bindM_Ret.
    2:{ apply (char_at_run l o _ (pre ++ w) c tail); [|zlens; lia].
        rewrite Hl. by rewrite <- !app_assoc. }
    rewrite Hc. unfold ret. do 2 f_equal. zlens. lia.
  - apply Forall_app in Hws as [Hws Hx]. apply Forall_cons in Hx as [Hx _].
    erewrite bindM_Ret.
    2:{ apply (char_at_run l o _ (pre ++ (w ++ [c]) ++ ws) x tail); [|zlens; lia].
        rewrite Hl. by rewrite <- !app_assoc. }
    rewrite Hx. replace (zlen (w ++ [c]) + zlen (ws ++ [x]) - 1) with (zlen (w ++ [c]) + zlen ws) by (zlens; lia).
    rewrite length_app in Hf. simpl in Hf.
    apply (IH (x :: tail)); [done..|lia|]. rewrite Hl. by rewrite <- !app_assoc.
Qed.

(** [trim] on a string of a block, wherever it starts: the result points
    behind the leading white space, and the trailing white space is cut off by a
    NUL; the rest of the block is unchanged. *)
Theorem trim_spec l pre ws1 w c ws2 rest s :
  spaces ws1 -> spaces ws2 -> nonul (w ++ [c]) -> isspace c = false ->
  (forall x, head (w ++ [c]) = Some x -> isspace x = false) ->
  heap s !! l = Some (Bytes (pre ++ ws1 ++ (w ++ [c]) ++ ws2 ++ 0 :: rest)) ->
  exists rest', trim (Ptr l (zlen pre)) s =
    Ret (Ptr l (zlen pre + zlen ws1),
         set_heap (<[l := Bytes (pre ++ ws1 ++ (w ++ [c]) ++ 0 :: rest')]> (heap s)) s) /\
    zlen rest' = zlen ws2 + zlen rest.
Proof.
  intros H1 H2 Hw Hc Hhd Hl. unfold trim, ltrim. rewrite bindM_assoc.
  assert (Hn : nonul (ws1 ++ (w ++ [c]) ++ ws2))
    by (apply Forall_app; split; [by apply spaces_nonul|];
        apply Forall_app; split; [done|by apply spaces_nonul]).
  erewrite bindM_Ret by (apply (load_at_run l _ pre (ws1 ++ (w ++ [c]) ++ ws2) rest); [|done..];
    rewrite Hl; by rewrite <- !app_assoc).
  rewrite bindM_ret, count_space_app; [|done|by destruct w].
  cbn [ptr_add]. unfold rtrim.
  assert (Hn2 : nonul ((w ++ [c]) ++ ws2)) by (unfold nonul in Hn; by apply Forall_app in Hn as [_ ?]).
  erewrite bindM_Ret by (apply (load_at_run l _ (pre ++ ws1) ((w ++ [c]) ++ ws2) rest);
    [rewrite Hl; by rewrite <- !app_assoc|by zlens|done]).
  rewrite zlen_app. erewrite bindM_Ret by (apply (rtrim_loop_run l _ (pre ++ ws1) w c ws2 s (0 :: rest));
    [done|done|by zlens| |rewrite Hl; by rewrite <- !app_assoc];
    unfold rtrim_fuel; pose proof (zlen_nonneg pre); pose proof (zlen_nonneg ws1);
    pose proof (zlen_nonneg (w ++ [c])); unfold zlen; lia).
  unfold bindM, store. rewrite Hl.
  assert (Htail : exists x t, ws2 ++ 0 :: rest = x :: t) by (destruct ws2; by eexists _, _).
  destruct Htail as (x & t & Ht). rewrite Ht.
  replace (pre ++ ws1 ++ (w ++ [c]) ++ x :: t) with ((pre ++ ws1 ++ (w ++ [c])) ++ x :: t)
    by by rewrite <- !app_assoc.
  rewrite <- buf_set_write.
  replace (zlen pre + zlen ws1 + (zlen w + 1)) with (zlen (pre ++ ws1 ++ (w ++ [c]))) by (zlens; lia).
  rewrite buf_set_mid. cbn [obind]. exists t. unfold ret. split; [by rewrite <- !app_assoc|].
  apply (f_equal zlen) in Ht. rewrite zlen_app, !zlen_cons in Ht. lia.
Qed.

Definition blank_proc : proc := set_heap {[1 := Bytes [32; 49; 32; 0]]} proc0.

Lemma trim_spec_witness :
  exists rest', trim (Ptr 1 0) blank_proc =
    Ret (Ptr 1 1, set_heap (<[1 := Bytes (32 :: 49 :: 0 :: rest')]> (heap blank_proc)) blank_proc) /\
    zlen rest' = 1.
Proof.
  destruct (trim_spec 1 [] [32] [] 49 [32] [] blank_proc) as (rest' & H1 & H2);
    try reflexivity; try (repeat constructor; discriminate).
  - intros x [= <-]. reflexivity.
  - exists rest'. split; [exact H1|exact H2].
Defined.

(** A header value that is empty or only white space makes [trim] run
    below the start of its block. *)
Theorem trim_blank_underflows l ws rest s :
  spaces ws -> heap s !! l = Some (Bytes (ws ++ 0 :: rest)) -> trim (Ptr l 0) s = UB OutOfBounds.
Proof.
  intros Hws Hl. unfold trim, ltrim. rewrite bindM_assoc.
  erewrite bindM_Ret by (apply (load_at_run l _ [] ws rest); [done..|by apply spaces_nonul]).
  rewrite bindM_ret. replace (count_space ws) with (zlen ws)
    by (symmetry; rewrite <- (app_nil_r ws) at 1; by apply count_space_app).
  cbn [ptr_add]. unfold rtrim.
  erewrite bindM_Ret by (apply (load_at_run l _ ws [] rest); [done..|constructor]).
  apply bindM_UB. unfold rtrim_fuel.
  assert (Hloop : forall ws1 fuel ws2, spaces ws1 -> ws1 ++ ws2 = ws -> (length ws1 < fuel)%nat ->
    rtrim_loop fuel (Ptr l (zlen ws)) (- zlen ws2) s = UB OutOfBounds).
  { induction ws1 as [|x ws1 IH] using rev_ind; intros fuel ws2 H1 <- Hf;
      (destruct fuel as [|fuel]; [lia|]); cbn [rtrim_loop].
    - apply bindM_UB. unfold char_at. rewrite Hl. unfold buf_get, in_range. simpl.
      rewrite (proj2 (Z.leb_gt _ _)) by lia. done.
    - apply Forall_app in H1 as [H1 Hx]. apply Forall_cons in Hx as [Hx _].
      erewrite bindM_Ret.
      2:{ apply (char_at_run l _ _ ws1 x (ws2 ++ 0 :: rest)); [|zlens; lia].
          rewrite Hl. by rewrite <- !app_assoc. }
      rewrite Hx. rewrite length_app in Hf. simpl in Hf.
      specialize (IH fuel (x :: ws2) H1). replace (- zlen ws2 - 1) with (- zlen (x :: ws2)) by (zlens; lia).
      apply IH; [by rewrite <- app_assoc|lia]. }
  apply (Hloop ws _ []); [done|apply app_nil_r|]. unfold zlen. simpl. lia.
Qed.

Lemma trim_blank_underflows_witness :
  trim (Ptr 1 0) (set_heap {[1 := Bytes [32; 0]]} proc0) = UB OutOfBounds.
Proof.
  apply (trim_blank_underflows 1 [32] [] (set_heap {[1 := Bytes [32; 0]]} proc0));
    [repeat constructor|reflexivity].
Defined.

(** ** Header cells *)

(** The cells [cs] hold exactly the entries [kvs]. *)
Inductive kd_cells (h : gmap Z block) : list key_data_t -> list kd_entry -> Prop :=
| kd_cells_nil : kd_cells h [] []
| kd_cells_cons lk k rk ld d rd cs kvs :
    h !! lk = Some (Bytes (k ++ 0 :: rk)) -> nonul k ->
    h !! ld = Some (Bytes (d ++ 0 :: rd)) -> nonul d ->
    kd_cells h cs kvs ->
    kd_cells h (KeyData (Some (Ptr lk 0)) (Some (Ptr ld 0)) :: cs) (KdEntry lk k ld d :: kvs).

Lemma kd_cells_length h cs kvs : kd_cells h cs kvs -> length cs = length kvs.
Proof. induction 1; simpl; congruence. Qed.

Lemma kd_cells_repr h cs kvs d es :
  kd_cells h cs kvs -> kd_repr h (cs ++ KeyData (Some Null) d :: es) kvs.
Proof. induction 1; simpl; econstructor; eauto. Qed.

Lemma kd_cells_insert h cs kvs l b :
  kd_cells h cs kvs -> l ∉ kd_locs kvs -> kd_cells (<[l := b]> h) cs kvs.
Proof.
  induction 1 as [|lk k rk ld d rd cs kvs Hk Hnk Hd Hnd Hr IH]; intros Hl; [constructor|].
  cbn [kd_locs flat_map loc_key loc_data app] in Hl. fold (kd_locs kvs) in Hl.
  apply not_elem_of_cons in Hl as [H1 Hl]. apply not_elem_of_cons in Hl as [H2 Hl].
  econstructor; [by rewrite lookup_insert_ne|done|by rewrite lookup_insert_ne|done|by apply IH].
Qed.

Lemma kd_cells_snoc h cs kvs lk k rk ld d rd :
  kd_cells h cs kvs -> h !! lk = Some (Bytes (k ++ 0 :: rk)) -> nonul k ->
  h !! ld = Some (Bytes (d ++ 0 :: rd)) -> nonul d ->
  kd_cells h (cs ++ [KeyData (Some (Ptr lk 0)) (Some (Ptr ld 0))]) (kvs ++ [KdEntry lk k ld d]).
Proof.
  intros Hc Hk Hnk Hd Hnd. induction Hc; simpl.
  - econstructor; [done..|constructor].
  - by econstructor.
Qed.

(** The state after filling a cell with two new strings. *)
Definition filled (s : proc) (l : Z) (cells : list key_data_t) (b1 b2 : list Z) (tr : list call) : proc :=
  let f := fresh s in
  Proc (<[f + 1 := Bytes b2]> (<[f := Bytes b1]> (<[l := Kds cells]> (heap s)))) (f + 2) tr (fds s) (vars s).

Section Cells.
Context {E : Env}.

Lemma align_nonneg n : 0 <= align_size n.
Proof.
  unfold align_size, align_loop.
  destruct (Z.leb_spec n 16); [lia|]. repeat case_match; simpl; lia.
Qed.

Lemma realloc_memory_run n s :
  (forall tr m, rv (env_reply tr (CMalloc m)) <> 0) ->
  exists g, zlen g = align_size n /\ realloc_memory n s =
    Ret ((0, Ptr (fresh s) 0),
         Proc (<[fresh s := Bytes g]> (heap s)) (fresh s + 1) (CMalloc (align_size n) :: trace s) (fds s) (vars s)).
Proof.
  intros Hm. unfold realloc_memory.
  destruct (malloc_run (align_size n) s) as [[H _]|(_ & g & Hg & E1)];
    [apply align_nonneg|by apply Hm in H|].
  exists g. split; [done|]. by erewrite bindM_Ret by exact E1.
Qed.

Lemma realloc_memory_kd_run n s :
  (forall tr m, rv (env_reply tr (CMalloc m)) <> 0) ->
  realloc_memory_kd n s =
    Ret ((0, Ptr (fresh s) 0),
         Proc (<[fresh s := Kds (repeat kd_indet (Z.to_nat (align_size n / 8)))]> (heap s)) (fresh s + 1)
           (CMalloc (align_size n) :: trace s) (fds s) (vars s)).
Proof.
  intros Hm. unfold realloc_memory_kd, malloc_kd, bindM, sys, alloc. cbn [obind].
  rewrite (proj2 (Z.eqb_neq _ 0)) by apply Hm. pose proof (align_nonneg n).
  rewrite (proj2 (Z.ltb_ge _ 0)) by lia. done.
Qed.

Lemma strcpy_run l b src s :
  heap s !! l = Some (Bytes b) -> zlen src + 1 <= zlen b ->
  exists r, strcpy (Ptr l 0) src s = Ret (tt, set_heap (<[l := Bytes (src ++ 0 :: r)]> (heap s)) s).
Proof.
  intros Hl Hs. unfold strcpy. rewrite (store_run l b) by (first [done|lia|zlens; lia]).
  rewrite splice_0, <- app_assoc. by eexists.
Qed.

Lemma kd_set_run l cs e es s (f : key_data_t -> key_data_t) :
  heap s !! l = Some (Kds (cs ++ e :: es)) ->
  (do! e <- kd_at (Ptr l 0) (zlen cs); kd_update (Ptr l 0) (zlen cs) (f e)) s =
  Ret (tt, set_heap (<[l := Kds (cs ++ f e :: es)]> (heap s)) s).
Proof.
  intros Hl. assert (Hi : (cs ++ e :: es) !! Z.to_nat (zlen cs) = Some e).
  { unfold zlen. rewrite Nat2Z.id. by apply list_lookup_middle. }
  pose proof (zlen_nonneg cs). pose proof (zlen_nonneg es).
  erewrite bindM_Ret by (by eapply kd_at_run). unfold kd_update. rewrite Hl.
  unfold in_range. rewrite (proj2 (Z.leb_le 0 _)), (proj2 (Z.ltb_lt _ _)) by (zlens; lia). simpl.
  unfold zlen. rewrite Nat2Z.id. do 4 f_equal. f_equal.
  by rewrite <- (Nat.add_0_r (length cs)), insert_app_r.
Qed.

(** Filling cell [i] with a key and its data, as [exec_request] and
    [rtspcl_add_exthds] do. *)
Lemma fill_cell {A} l cs e es key data nk nd (F1 F2 K : M A) s :
  (forall tr m, rv (env_reply tr (CMalloc m)) <> 0) -> heap_ok s ->
  heap s !! l = Some (Kds (cs ++ e :: es)) ->
  zlen key + 1 <= align_size nk -> zlen data + 1 <= align_size nd ->
  exists r1 r2,
  (do! '(r, k) <- realloc_memory nk;
   do! _ <- set_key (Ptr l 0) (zlen cs) k;
   if negb (r =? 0) then F1
   else
     do! _ <- strcpy k key;
     do! '(r, d) <- realloc_memory nd;
     do! _ <- set_data (Ptr l 0) (zlen cs) d;
     if negb (r =? 0) then F2
     else do! _ <- strcpy d data; K) s =
  K (filled s l (cs ++ KeyData (Some (Ptr (fresh s) 0)) (Some (Ptr (fresh s + 1) 0)) :: es)
       (key ++ 0 :: r1) (data ++ 0 :: r2)
       (CMalloc (align_size nd) :: CMalloc (align_size nk) :: trace s)).
Proof.
  intros Hm Hok Hl Hk Hd.
  assert (Hlf : l < fresh s).
  { destruct (Z.lt_ge_cases l (fresh s)); [done|]. by rewrite Hok in Hl. }
  destruct (realloc_memory_run nk s Hm) as (g1 & Hg1 & E1).
  erewrite bindM_Ret by exact E1. cbn beta iota.
  unfold set_key. erewrite bindM_Ret by (apply (kd_set_run l cs e es _
    (fun e => KeyData (Some (Ptr (fresh s) 0)) (kd_data e))); cbn; by rewrite lookup_insert_ne by lia).
  cbn [Z.eqb negb].
  match goal with |- exists r1 r2, bindM _ _ ?st = _ =>
    destruct (strcpy_run (fresh s) g1 key st) as (r1 & E2); [|lia|] end.
  { cbn. rewrite lookup_insert_ne by lia. apply lookup_insert_eq. }
  erewrite bindM_Ret by exact E2. cbn [heap set_heap].
  match goal with |- exists r1 r2, bindM _ _ ?st = _ =>
    destruct (realloc_memory_run nd st Hm) as (g2 & Hg2 & E3) end.
  erewrite bindM_Ret by exact E3. cbn beta iota. cbn [fresh set_heap].
  unfold set_data. erewrite bindM_Ret by (apply (kd_set_run l cs (KeyData (Some (Ptr (fresh s) 0)) (kd_data e)) es _
    (fun e => KeyData (kd_key e) (Some (Ptr (fresh s + 1) 0)))); cbn;
    rewrite !lookup_insert_ne by lia; apply lookup_insert_eq).
  cbn [Z.eqb negb].
  match goal with |- exists r1 r2, bindM _ _ ?st = _ =>
    destruct (strcpy_run (fresh s + 1) g2 data st) as (r2 & E4); [|lia|] end.
  { cbn. rewrite lookup_insert_ne by lia. apply lookup_insert_eq. }
  erewrite bindM_Ret by exact E4. exists r1, r2. f_equal. unfold filled, set_heap. cbn. f_equal; [|lia].
  apply map_eq. intros j.
  destruct (decide (j = fresh s + 1)) as [->|]; [by rewrite !lookup_insert_eq|].
  rewrite !(lookup_insert_ne _ (fresh s + 1)) by done.
  destruct (decide (j = l)) as [->|].
  - rewrite lookup_insert_eq. rewrite (lookup_insert_ne _ (fresh s)) by lia. by rewrite lookup_insert_eq.
  - rewrite !(lookup_insert_ne _ l) by done. rewrite !(lookup_insert_ne _ (fresh s + 1)) by done.
    destruct (decide (j = fresh s)) as [->|]; [by rewrite !lookup_insert_eq|].
    by rewrite !lookup_insert_ne by done.
Qed.

End Cells.

(** ** Response headers *)

Definition header : Type := list Z * list Z.

(** A header line on the wire. *)
Definition header_text '((k, d) : header) : list Z := k ++ 58 :: d.
Definition wire (hs : list header) : list Z := flat_map (fun h => header_text h ++ CRLF) hs.

(** No NUL, CR or LF, the key without a colon and not starting with a blank,
    and short enough for the line buffer. *)
Definition header_ok (h : header) : Prop :=
  clean (header_text h) /\ (58 ∉ h.1) /\ head (header_text h) <> Some 32 /\ zlen (header_text h) + 2 < 2048.

Lemma strstr_char c k d : c ∉ k -> strstr (k ++ c :: d) [c] = Some (zlen k).
Proof.
  induction k as [|x k IH]; intros Hk.
  - cbn. by rewrite Z.eqb_refl.
  - apply not_elem_of_cons in Hk as [Hx Hk]. cbn.
    rewrite (proj2 (Z.eqb_neq c x)) by done. cbn. fold (strstr (k ++ c :: d) [c]).
    rewrite IH by done. cbn. f_equal. rewrite zlen_cons. lia.
Qed.

Lemma align_ge n : n <= align_size n.
Proof. apply align_loop_spec. lia. Qed.

(** The array at [l] holds the entries [kvs] in its first cells [cs]; all of
    it was allocated from [f0] on. *)
Definition headers_at (f0 l : Z) (s : proc) (cs : list key_data_t) (kvs : list kd_entry) : Prop :=
  heap_ok s /\ f0 <= l < fresh s /\
  heap s !! l = Some (Kds (cs ++ repeat kd_zero (17 - length cs) ++ repeat kd_indet 15)) /\
  kd_cells (heap s) cs kvs /\ NoDup (l :: kd_locs kvs) /\
  Forall (fun x => f0 <= x < fresh s) (kd_locs kvs).

Lemma kd_locs_app a b : kd_locs (a ++ b) = kd_locs a ++ kd_locs b.
Proof. apply flat_map_app. Qed.

Lemma headers_step f0 l s cs kvs key data r1 r2 tr :
  headers_at f0 l s cs kvs -> (length cs <= 15)%nat -> nonul key -> nonul data ->
  let cell := KeyData (Some (Ptr (fresh s) 0)) (Some (Ptr (fresh s + 1) 0)) in
  headers_at f0 l
    (filled s l (cs ++ cell :: repeat kd_zero (16 - length cs) ++ repeat kd_indet 15)
       (key ++ 0 :: r1) (data ++ 0 :: r2) tr)
    (cs ++ [cell]) (kvs ++ [KdEntry (fresh s) key (fresh s + 1) data]).
Proof.
  intros (Hok & Hl & Hb & Hc & Hnd & Hloc) Hlen Hk Hd cell.
  assert (Hnew : forall x, fresh s <= x -> x ∉ kd_locs kvs).
  { intros x Hx Hin. rewrite Forall_forall in Hloc. apply Hloc in Hin. lia. }
  assert (Hnl : l ∉ kd_locs kvs) by by apply NoDup_cons in Hnd as [? _].
  unfold headers_at, filled. cbn [heap fresh]. split_and!.
  - intros x Hx. cbn in Hx |- *. rewrite !lookup_insert_ne by lia. apply Hok. lia.
  - lia.
  - lia.
  - rewrite !(lookup_insert_ne _ (fresh s + 1)), (lookup_insert_ne _ (fresh s)), lookup_insert_eq by lia.
    rewrite <- app_assoc, length_app. cbn [app length].
    by replace (17 - (length cs + 1))%nat with (16 - length cs)%nat by lia.
  - apply (kd_cells_snoc _ _ _ _ _ r1 _ _ r2).
    + apply kd_cells_insert; [|apply Hnew; lia]. apply kd_cells_insert; [|apply Hnew; lia].
      by apply kd_cells_insert.
    + rewrite lookup_insert_ne by lia. apply lookup_insert_eq.
    + done.
    + apply lookup_insert_eq.
    + done.
  - rewrite kd_locs_app. cbn [kd_locs flat_map app loc_key loc_data].
    apply NoDup_cons in Hnd as [_ Hnd]. apply NoDup_cons. split.
    + rewrite elem_of_app, !elem_of_cons, elem_of_nil. intros [?|[->|[->|[]]]]; [done|lia|lia].
    + apply NoDup_app. split_and!; [done| |].
      * intros x Hx. rewrite !elem_of_cons, elem_of_nil. rewrite Forall_forall in Hloc. apply Hloc in Hx.
        intros [->|[->|[]]]; lia.
      * constructor; [rewrite elem_of_cons, elem_of_nil; intros [?|[]]; lia|].
        constructor; [apply not_elem_of_nil|constructor].
  - rewrite kd_locs_app. cbn [kd_locs flat_map app loc_key loc_data]. apply Forall_app. split.
    + eapply Forall_impl; [exact Hloc|]. cbn. lia.
    + repeat constructor; lia.
Qed.

Section Response.
Context {E : Env} {L : LineBound} {pfd : Z} {input : list Z} {HP : Peer E pfd input}.

Lemma take_key k d : take (Z.to_nat (zlen k)) (k ++ 58 :: d) = k.
Proof. unfold zlen. rewrite Nat2Z.id. apply take_app_length. Qed.

Lemma drop_data k d : drop (Z.to_nat (zlen k + 1)) (k ++ 58 :: d) = d.
Proof.
  unfold zlen. replace (Z.to_nat (Z.of_nat (length k) + 1)) with (length k + 1)%nat by lia.
  rewrite <- drop_drop, drop_app_length. done.
Qed.

Lemma header_text_pos h : 0 < zlen (header_text h).
Proof. destruct h as [k d]. cbn. zlens. pose proof (zlen_nonneg k). pose proof (zlen_nonneg d). lia. Qed.

(** The part of an iteration after the array is ready: the header is stored. *)
Lemma store_header k d line l cs e es fuel s :
  header_ok (k, d) -> heap_ok s -> heap s !! l = Some (Kds (cs ++ e :: es)) ->
  zlen line = 2048 ->
  exists line' r1 r2, zlen line' = 2048 /\
  match strstr (header_text (k, d)) [58] with
  | None => do! _ <- free_kd (Ptr l 0); ret (-1, Null, zlen cs, line)
  | Some dp =>
      let key := take (Z.to_nat dp) (header_text (k, d)) in
      let data := drop (Z.to_nat (dp + 1)) (header_text (k, d)) in
      do! line <- lift (buf_set line dp 0);
      do! '(r, kp) <- realloc_memory (zlen key + 1);
      do! _ <- set_key (Ptr l 0) (zlen cs) kp;
      if negb (r =? 0) then ret (-1, Ptr l 0, zlen cs, line)
      else
        do! _ <- strcpy kp key;
        do! '(r, dd) <- realloc_memory (zlen data + 1);
        do! _ <- set_data (Ptr l 0) (zlen cs) dd;
        if negb (r =? 0) then ret (-1, Ptr l 0, zlen cs, line)
        else
          do! _ <- strcpy dd data;
          header_loop fuel pfd line 1000 (Ptr l 0) (zlen cs + 1) (zlen data + 1)
  end s =
  header_loop fuel pfd line' 1000 (Ptr l 0) (zlen cs + 1) (zlen d + 1)
    (filled s l (cs ++ KeyData (Some (Ptr (fresh s) 0)) (Some (Ptr (fresh s + 1) 0)) :: es)
       (k ++ 0 :: r1) (d ++ 0 :: r2)
       (CMalloc (align_size (zlen d + 1)) :: CMalloc (align_size (zlen k + 1)) :: trace s)).
Proof.
  intros (Hcl & Hcol & Hhd & Hlen) Hok Hl Hline. cbn [header_text fst] in *.
  rewrite strstr_char by done. cbn zeta. rewrite take_key, drop_data.
  pose proof (zlen_nonneg k) as Hk0. pose proof (zlen_nonneg d) as Hd0. rewrite zlen_app, zlen_cons in Hlen.
  unfold lift at 1, bindM at 1. rewrite buf_set_ok by lia. cbn [obind].
  set (line' := splice line (zlen k) [0]).
  destruct (fill_cell l cs e es k d (zlen k + 1) (zlen d + 1) (ret (-1, Ptr l 0, zlen cs, line'))
    (ret (-1, Ptr l 0, zlen cs, line'))
    (header_loop fuel pfd line' 1000 (Ptr l 0) (zlen cs + 1) (zlen d + 1)) s) as (r1 & r2 & E1);
    [apply peer_memory|exact Hok|exact Hl|apply align_ge|apply align_ge|].
  exists line', r1, r2. split; [|exact E1].
  subst line'. rewrite zlen_splice; zlens; lia.
Qed.

Lemma header_loop_next h line t l cs e es dsize fuel rest s :
  header_ok h -> heap_ok s -> heap s !! l = Some (Kds (cs ++ e :: es)) ->
  zlen line = 2048 -> 1 <= zlen cs < 16 ->
  drop (reads pfd (trace s)) input = header_text h ++ 13 :: 10 :: rest ->
  exists line' r1 r2 tr, zlen line' = 2048 /\ drop (reads pfd tr) input = rest /\
  header_loop (S fuel) pfd line t (Ptr l 0) (zlen cs) dsize s =
  header_loop fuel pfd line' 1000 (Ptr l 0) (zlen cs + 1) (zlen h.2 + 1)
    (filled s l (cs ++ KeyData (Some (Ptr (fresh s) 0)) (Some (Ptr (fresh s + 1) 0)) :: es)
       (h.1 ++ 0 :: r1) (h.2 ++ 0 :: r2) tr).
Proof.
  intros Hh Hok Hl Hline Hcs Hd. destruct h as [k d]. pose proof Hh as (Hcl & Hcol & Hhd & Hlen).
  destruct (read_line_peer_run line t (header_text (k, d)) rest s Hcl Hd Hlen Hline)
    as (tl & tr & E1 & L1 & R1).
  pose proof (header_text_pos (k, d)) as Hpos.
  destruct (store_header k d (header_text (k, d) ++ 0 :: tl) l cs e es fuel (with_trace tr s))
    as (line' & r1 & r2 & L2 & E2); [done..|].
  eexists line', r1, r2, _. split; [done|]. split; [|cbn [header_loop]].
  2:{ erewrite bindM_Ret by exact E1. cbn beta iota.
      rewrite (proj2 (Z.leb_gt _ _)) by lia.
      rewrite (proj2 (Z.eqb_neq (zlen cs mod 16) 0)) by (rewrite Z.mod_small; lia).
      rewrite bindM_ret. cbn [Z.eqb negb].
      unfold lift at 1, bindM at 1. rewrite cstr_nul by by apply clean_nonul. cbn [obind].
      rewrite (proj2 (Z.eqb_neq (zlen cs) 0)) by lia. cbn [negb andb].
      destruct (header_text (k, d)) as [|c x] eqn:Et; [zlens; lia|].
      cbn [head] in Hhd. rewrite (proj2 (Z.eqb_neq c 32)) by congruence.
      exact E2. }
  exact R1.
Qed.

(** An empty line ends the headers. *)
Lemma header_loop_end line t kd i dsize fuel rest s :
  zlen line = 2048 -> drop (reads pfd (trace s)) input = 13 :: 10 :: rest ->
  exists line' tr, header_loop (S fuel) pfd line t kd i dsize s = Ret ((0, kd, i, line'), with_trace tr s) /\
    zlen line' = 2048 /\ drop (reads pfd tr) input = rest.
Proof.
  intros Hline Hd.
  destruct (read_line_peer_run line t [] rest s) as (tl & tr & E1 & L1 & R1);
    [constructor|done|done|done|].
  eexists _, tr. cbn [header_loop]. erewrite bindM_Ret by exact E1. split; [done|]. by split.
Qed.

(** The state when all headers are stored. *)
Definition headers_done (f0 l : Z) (s0 s : proc) (n : nat) (hs : list header) : Prop :=
  exists es kvs, heap_ok s /\ heap s !! l = Some (Kds es) /\ kd_repr (heap s) es kvs /\
    length kvs = n /\ (n < length es)%nat /\ NoDup (l :: kd_locs kvs) /\
    map (fun e => (str_key e, str_data e)) kvs = hs /\
    (forall x, x < f0 -> heap s !! x = heap s0 !! x).

Lemma header_loop_rest f0 l rest : forall hs fuel line t dsize cs kvs s,
  headers_at f0 l s cs kvs -> Forall header_ok hs ->
  (1 <= length cs)%nat -> (length cs + length hs <= 16)%nat -> (length hs < fuel)%nat ->
  zlen line = 2048 -> drop (reads pfd (trace s)) input = wire hs ++ 13 :: 10 :: rest ->
  exists line' s', header_loop fuel pfd line t (Ptr l 0) (zlen cs) dsize s =
      Ret ((0, Ptr l 0, zlen cs + zlen hs, line'), s') /\
    zlen line' = 2048 /\ drop (reads pfd (trace s')) input = rest /\
    headers_done f0 l s s' (length cs + length hs) (map (fun e => (str_key e, str_data e)) kvs ++ hs).
Proof.
  induction hs as [|h hs IH]; intros fuel line t dsize cs kvs s Hat Hok Hc1 Hc2 Hf Hline Hd;
    (destruct fuel as [|fuel]; [simpl in Hf; lia|]).
  - destruct (header_loop_end line t (Ptr l 0) (zlen cs) dsize fuel rest s Hline Hd)
      as (line' & tr & E1 & L1 & R1).
    exists line', (with_trace tr s). split; [rewrite E1; zlens; by rewrite Z.add_0_r|].
    split; [done|]. split; [done|]. destruct Hat as (H1 & H2 & H3 & H4 & H5 & H6).
    pose proof (kd_cells_length _ _ _ H4). simpl in Hc2 |- *.
    eexists _, kvs. split_and!; [done|exact H3| |lia| |done|by rewrite app_nil_r|done].
    + replace (17 - length cs)%nat with (S (16 - length cs)) by lia. by apply kd_cells_repr.
    + rewrite !length_app, !repeat_length. lia.
  - apply Forall_cons in Hok as [Hh Hok]. pose proof Hat as (Hho & Hl & Hb & _).
    cbn [length] in Hc2, Hf.
    replace (17 - length cs)%nat with (S (16 - length cs)) in Hb by lia. cbn [repeat app] in Hb.
    destruct (header_loop_next h line t l cs kd_zero _ dsize fuel (wire hs ++ 13 :: 10 :: rest) s Hh Hho Hb Hline)
      as (line' & r1 & r2 & tr & L1 & R1 & E1).
    { unfold zlen. lia. }
    { rewrite Hd. cbn [wire flat_map]. by rewrite <- !app_assoc. }
    destruct h as [k d]. cbn [fst snd] in *. pose proof Hh as (Hcl & _). apply clean_nonul in Hcl.
    unfold nonul in Hcl. cbn [header_text] in Hcl. rewrite Forall_app, Forall_cons in Hcl.
    set (s1 := filled _ _ _ _ _ _) in E1.
    pose proof (headers_step f0 l s cs kvs k d r1 r2 tr Hat ltac:(lia) ltac:(apply Hcl) ltac:(apply Hcl)) as Hat'.
    cbn zeta in Hat'. fold s1 in Hat'.
    destruct (IH fuel line' 1000 (zlen d + 1) _ _ s1 Hat' Hok) as (line2 & s2 & E2 & L2 & R2 & D2).
    { rewrite length_app. simpl. lia. }
    { rewrite length_app. simpl. lia. }
    { lia. }
    { done. }
    { exact R1. }
    exists line2, s2. rewrite E1. replace (zlen cs + 1) with (zlen (cs ++ [KeyData (Some (Ptr (fresh s) 0)) (Some (Ptr (fresh s + 1) 0))]))
      by (zlens; lia). rewrite E2. split; [do 4 f_equal; zlens; lia|].
    split; [done|]. split; [done|].
    destruct D2 as (es' & kvs' & D1 & D2 & D3 & D4 & D5 & D6 & D7 & D8).
    exists es', kvs'. rewrite !length_app in D4, D5. cbn [length] in *.
    split_and!; [done|done|done|lia|lia|done| |].
    + rewrite D7, map_app. cbn [map str_key str_data]. by rewrite <- app_assoc.
    + intros x Hx. rewrite D8 by done. subst s1. unfold filled. cbn [heap].
      by rewrite !lookup_insert_ne by lia.
Qed.

(** The array for the first sixteen headers. *)
Lemma header_array_run s :
  (do! '(r, a) <- realloc_memory_kd ((16 * (0 / 16 + 1) + 1) * 8);
   if negb (r =? 0) then ret (-1, a)
   else do! _ <- kd_memset a (16 * (0 / 16)) 17; ret (0, a)) s =
  Ret ((0, Ptr (fresh s) 0),
       Proc (<[fresh s := Kds (repeat kd_zero 17 ++ repeat kd_indet 15)]> (heap s)) (fresh s + 1)
         (CMalloc 256 :: trace s) (fds s) (vars s)).
Proof.
  erewrite bindM_Ret by (apply realloc_memory_kd_run; apply peer_memory). cbn beta iota. cbn [Z.eqb negb].
  unfold bindM, kd_memset. cbn [heap set_heap]. rewrite lookup_insert_eq. cbn.
  by rewrite insert_insert_eq.
Qed.

Lemma header_loop_all hs fuel line t kd rest s :
  heap_ok s -> Forall header_ok hs -> (1 <= length hs <= 16)%nat -> (length hs < fuel)%nat ->
  zlen line = 2048 -> drop (reads pfd (trace s)) input = wire hs ++ 13 :: 10 :: rest ->
  exists line' s', header_loop fuel pfd line t kd 0 0 s = Ret ((0, Ptr (fresh s) 0, zlen hs, line'), s') /\
    zlen line' = 2048 /\ drop (reads pfd (trace s')) input = rest /\
    headers_done (fresh s) (fresh s) s s' (length hs) hs.
Proof.
  intros Hok Hhs Hlen Hf Hline Hd. destruct hs as [|h hs]; [simpl in Hlen; lia|].
  destruct fuel as [|fuel]; [lia|]. apply Forall_cons in Hhs as [Hh Hhs]. cbn [length] in Hlen, Hf.
  pose proof Hh as (Hcl & Hcol & Hhd & Hl2).
  destruct (read_line_peer_run line t (header_text h) (wire hs ++ 13 :: 10 :: rest) s Hcl)
    as (tl & tr & E1 & L1 & R1); [rewrite Hd; cbn [wire flat_map]; by rewrite <- !app_assoc|done|done|].
  cbn [header_loop]. erewrite bindM_Ret by exact E1. cbn beta iota.
  pose proof (header_text_pos h) as Hpos. rewrite (proj2 (Z.leb_gt _ _)) by lia.
  change (0 mod 16 =? 0) with true. cbn iota.
  erewrite bindM_Ret by apply header_array_run. cbn beta iota. cbn [Z.eqb negb andb].
  unfold lift at 1, bindM at 1. rewrite cstr_nul by by apply clean_nonul. cbn [obind].
  set (s1 := Proc _ _ _ _ _).
  assert (Hat : headers_at (fresh s) (fresh s) s1 [] []).
  { subst s1. unfold headers_at. cbn. split_and!; [|lia|lia|apply lookup_insert_eq|constructor| |constructor].
    - intros x Hx. cbn in Hx |- *. rewrite lookup_insert_ne by lia. apply Hok. lia.
    - constructor; [apply not_elem_of_nil|constructor]. }
  destruct h as [k d].
  destruct (store_header k d (header_text (k, d) ++ 0 :: tl) (fresh s) [] kd_zero
    (repeat kd_zero 16 ++ repeat kd_indet 15) fuel s1) as (line1 & r1 & r2 & L2 & E2);
    [done|apply Hat|apply lookup_insert_eq|done|].
  change (fresh (with_trace tr s)) with (fresh s).
  change (zlen (@nil key_data_t)) with 0 in E2.
  match type of E2 with ?L = _ => match goal with |- exists line' s', ?G = _ /\ _ => change G with L end end.
  rewrite E2. cbn [fst snd header_text] in *.
  pose proof Hh as (Hcl' & _). apply clean_nonul in Hcl'.
  unfold nonul in Hcl'. cbn [header_text] in Hcl'. rewrite Forall_app, Forall_cons in Hcl'.
  set (tr2 := CMalloc _ :: CMalloc _ :: trace s1).
  pose proof (headers_step (fresh s) (fresh s) s1 [] [] k d r1 r2 tr2 Hat ltac:(simpl; lia)
    ltac:(apply Hcl') ltac:(apply Hcl')) as Hat'.
  cbn zeta in Hat'. cbn [length app Nat.sub] in Hat' |- *.
  set (s2 := filled _ _ _ _ _ _) in Hat' |- *.
  destruct (header_loop_rest (fresh s) (fresh s) rest hs fuel line1 1000 (zlen d + 1) _ _ s2 Hat' Hhs)
    as (line3 & s3 & E3 & L3 & R3 & D3); [simpl; lia|simpl; lia|lia|done|exact R1|].
  exists line3, s3. split; [|split; [done|split; [done|]]].
  - transitivity (Ret (0, Ptr (fresh s) 0, 1 + zlen hs, line3, s3)); [exact E3|].
    by rewrite zlen_cons.
  - destruct D3 as (es' & kvs' & D1 & D2 & D3 & D4 & D5 & D6 & D7 & D8).
    exists es', kvs'. split_and!; [done|done|done|done|done|done|done|].
    intros x Hx. rewrite D8 by done. subst s2 s1. unfold filled. cbn [heap fresh with_trace].
    by rewrite !lookup_insert_ne by lia.
Qed.

(** The status line is accepted when its second word is 200. *)
Definition status_ok (l : list Z) : Prop :=
  clean l /\ zlen l + 2 < 2048 /\ l <> [] /\ exists w x, tokens 32 l = w :: lit "200" :: x.

(** A body that the code can skip: lines that are not empty. *)
Definition body_ok (l : list Z) : Prop := clean l /\ l <> [] /\ zlen l + 2 < 2048.
Definition body_text (ls : list (list Z)) : list Z := flat_map (fun l => l ++ CRLF) ls.

Lemma body_loop_run ls : forall fuel line t rest s,
  Forall body_ok ls -> (length ls < fuel)%nat -> zlen line = 2048 ->
  drop (reads pfd (trace s)) input = body_text ls ++ 13 :: 10 :: rest ->
  exists tr, body_loop fuel pfd line t s = Ret (tt, with_trace tr s) /\ drop (reads pfd tr) input = rest.
Proof.
  induction ls as [|l ls IH]; intros fuel line t rest s Hls Hf Hline Hd; (destruct fuel as [|fuel]; [cbn in Hf; lia|]).
  - destruct (read_line_peer_run line t [] rest s) as (tl & tr & E1 & L1 & R1); [constructor|done|done|done|].
    cbn [body_loop]. erewrite bindM_Ret by exact E1. by exists tr.
  - apply Forall_cons in Hls as [(Hcl & Hne & Hl) Hls]. cbn [length] in Hf.
    destruct (read_line_peer_run line t l (body_text ls ++ 13 :: 10 :: rest) s) as (tl & tr & E1 & L1 & R1);
      [done|rewrite Hd; unfold body_text; cbn [flat_map]; by rewrite <- !app_assoc|done|done|].
    cbn [body_loop]. erewrite bindM_Ret by exact E1. cbn beta iota.
    assert (0 < zlen l) by (destruct l; [done|zlens; pose proof (zlen_nonneg l); lia]).
    rewrite (proj2 (Z.leb_gt _ _)) by lia.
    destruct (IH fuel (l ++ 0 :: tl) t rest (with_trace tr s)) as (tr' & E2 & R2); [done|lia|done|done|].
    by exists tr'.
Qed.

Lemma read_response_run p n status hs body rest kd s :
  rfd p = pfd -> heap_ok s -> status_ok status -> Forall header_ok hs ->
  (1 <= length hs <= 16)%nat -> (length hs < line_bound)%nat ->
  Forall body_ok body -> (length body < line_bound)%nat ->
  drop (reads pfd (trace s)) input =
    status ++ CRLF ++ wire hs ++ CRLF ++ (if rudp p =? 0 then rest else body_text body ++ CRLF ++ rest) ->
  exists s', read_response p n kd s = Ret ((0, Ptr (fresh s) 0), s') /\
    drop (reads pfd (trace s')) input = rest /\
    headers_done (fresh s) (fresh s) s s' (length hs) hs.
Proof.
  intros Hfd Hok (Hcl & Hsl & Hne & w & x & Htok) Hhs Hlen Hf Hbody Hfb Hd. unfold read_response. rewrite Hfd.
  set (rest' := if rudp p =? 0 then rest else body_text body ++ CRLF ++ rest) in Hd.
  destruct (read_line_peer_run (repeat 0 (Z.to_nat LINE_SIZE)) 5000 status
    (wire hs ++ 13 :: 10 :: rest') s Hcl Hd Hsl) as (tl & tr & E1 & L1 & R1); [done|].
  erewrite bindM_Ret by exact E1. cbn beta iota.
  assert (0 < zlen status) by (destruct status; [done|zlens; pose proof (zlen_nonneg status); lia]).
  rewrite (proj2 (Z.leb_gt _ _)) by lia.
  unfold lift at 1, bindM at 1. rewrite cstr_nul by by apply clean_nonul. cbn [obind].
  rewrite Htok. unfold str_eqb at 1. rewrite bool_decide_true by done. cbn [negb].
  destruct (header_loop_all hs line_bound (status ++ 0 :: tl) 5000 kd rest' (with_trace tr s))
    as (line' & s' & E2 & L2 & R2 & D2); [done|done|done|done|done|done|].
  erewrite bindM_Ret by exact E2. cbn beta iota. cbn [Z.eqb negb].
  assert (Hskip : exists tr', (if rudp p =? 0 then ret tt
      else body_loop line_bound pfd line' (if zlen hs =? 0 then 5000 else 1000)) s' = Ret (tt, with_trace tr' s') /\
    drop (reads pfd tr') input = rest).
  { unfold rest' in R2. destruct (rudp p =? 0).
    - exists (trace s'). split; [by destruct s'|done].
    - by apply (body_loop_run body). }
  destruct Hskip as (tr' & E3 & R3). erewrite bindM_Ret by exact E3.
  change (headers_done (fresh (with_trace tr s)) (fresh (with_trace tr s)) (with_trace tr s) (with_trace tr' s') (length hs) hs) in D2.
  change (drop (reads pfd (trace (with_trace tr' s'))) input = rest) in R3.
  clear E3 R2 E2. set (s1 := with_trace tr' s') in *. clearbody s1. clear s'. rename s1 into s'. rename R3 into R2.
  destruct D2 as (es & kvs & D1 & D2 & D3 & D4 & D5 & D6 & D7 & D8).
  assert (Hsplit : exists cs dd es', es = cs ++ KeyData (Some Null) dd :: es' /\ kd_cells (heap s') cs kvs).
  { clear -D3. induction D3 as [dd es|lk k rk ld d rd es kvs Hk Hnk Hd Hnd Hr IH].
    - exists [], dd, es. by split; [|constructor].
    - destruct IH as (cs & dd & es' & -> & IH). eexists (_ :: cs), dd, es'. split; [done|]. by econstructor. }
  destruct Hsplit as (cs & dd & es' & -> & Hcells). pose proof (kd_cells_length _ _ _ Hcells) as Hcl2.
  replace (zlen hs) with (zlen cs) by (unfold zlen; lia).
  unfold set_key at 1. change (fresh (with_trace tr s)) with (fresh s) in *.
  erewrite bindM_Ret by (apply (kd_set_run (fresh s) cs (KeyData (Some Null) dd) es' s'
    (fun e => KeyData (Some Null) (kd_data e))); exact D2).
  eexists. split; [done|]. split; [exact R2|].
  assert (Hsame : set_heap (<[fresh s := Kds (cs ++ KeyData (Some Null) dd :: es')]> (heap s')) s' = s')
    by (unfold set_heap; rewrite insert_id by done; by destruct s').
  cbn [kd_data]. rewrite Hsame. exists (cs ++ KeyData (Some Null) dd :: es'), kvs. by split_and!.
Qed.

End Response.

(** C11: for a peer that answers with a status line whose second word is 200, one to
    sixteen headers (none of them a continuation line) and an empty line, the response is
    read completely and not further: the result is 0 and a new array that holds exactly
    these headers in their order, NULL-terminated, all blocks distinct; no older block of
    the heap has changed.  Over UDP the lines of a body are read too, up to an empty
    line. *)
Theorem response_headers {E : Env} {L : LineBound} pfd input p status hs body rest kd s :
  Peer E pfd input -> rfd p = pfd -> heap_ok s -> status_ok status -> Forall header_ok hs ->
  (1 <= length hs <= 16)%nat -> (length hs < line_bound)%nat ->
  Forall body_ok body -> (length body < line_bound)%nat ->
  drop (reads pfd (trace s)) input =
    status ++ CRLF ++ wire hs ++ CRLF ++ (if rudp p =? 0 then rest else body_text body ++ CRLF ++ rest) ->
  exists s' es kvs, read_response p 1 kd s = Ret ((0, Ptr (fresh s) 0), s') /\
    drop (reads pfd (trace s')) input = rest /\ heap_ok s' /\
    heap s' !! fresh s = Some (Kds es) /\ kd_repr (heap s') es kvs /\ NoDup (fresh s :: kd_locs kvs) /\
    map (fun e => (str_key e, str_data e)) kvs = hs /\
    (forall x, x < fresh s -> heap s' !! x = heap s !! x).
Proof.
  intros HP H1 H2 H3 H4 H5 H6 H7 H8 H9.
  destruct (read_response_run p 1 status hs body rest kd s H1 H2 H3 H4 H5 H6 H7 H8 H9)
    as (s' & E1 & R1 & es & kvs & D1 & D2 & D3 & _ & _ & D6 & D7 & D8).
  exists s', es, kvs. by split_and!.
Qed.

(** A client on descriptor 7, and a response to it. *)
Definition wit_client_on (u : Z) : rtspcl_data_t :=
  Rtspcl 7 (lit "rtsp://1.2.3.4/99") 0 Null Null Null Null 0 0 0 0 0 u (lit "iTunes").
Definition wit_client : rtspcl_data_t := wit_client_on 0.
Definition wit_headers : list header :=
  [(lit "Session", lit " 1 "); (lit "Transport", lit " RTP/AVP/TCP;unicast;server_port=6000")].
Definition wit_input : list Z :=
  lit "RTSP/1.0 200 OK" ++ CRLF ++ wire wit_headers ++ CRLF ++ lit "volume: 0.0" ++ CRLF ++ CRLF.

(** Decides [clean] by computation. *)
Definition cleanb (l : list Z) : bool :=
  forallb (fun c => (0 <? c) && (c <? 256) && negb (c =? 10) && negb (c =? 13)) l.
Lemma cleanb_clean l : cleanb l = true -> clean l.
Proof.
  unfold cleanb, clean. rewrite forallb_forall, Forall_forall. intros H c Hc.
  apply list_elem_of_In in Hc. specialize (H c Hc). unfold is_u8.
  rewrite !andb_true_iff, !negb_true_iff in H. lia.
Qed.

Definition header_okb (h : header) : bool :=
  cleanb (header_text h) && bool_decide (58 ∉ h.1) && bool_decide (head (header_text h) <> Some 32) &&
  (zlen (header_text h) + 2 <? 2048).
Lemma header_okb_ok h : header_okb h = true -> header_ok h.
Proof.
  unfold header_okb, header_ok. rewrite !andb_true_iff. intros [[[H1 H2] H3] H4].
  split_and!; [by apply cleanb_clean|by apply bool_decide_eq_true_1 in H2|
    by apply bool_decide_eq_true_1 in H3|lia].
Qed.

Lemma response_headers_witness :
  exists s' es kvs, @read_response (peer_env 7 wit_input) 50%nat (wit_client_on 1) 1 Null proc0 = Ret ((0, Ptr 1 0), s') /\
    drop (reads 7 (trace s')) wit_input = [] /\ heap_ok s' /\
    heap s' !! 1 = Some (Kds es) /\ kd_repr (heap s') es kvs /\ NoDup (1 :: kd_locs kvs) /\
    map (fun e => (str_key e, str_data e)) kvs = wit_headers /\
    (forall x, x < 1 -> heap s' !! x = heap proc0 !! x).
Proof.
  apply (response_headers (L := 50%nat) 7 wit_input (wit_client_on 1) (lit "RTSP/1.0 200 OK") wit_headers [lit "volume: 0.0"] [] Null proc0).
  - apply _.
  - reflexivity.
  - intros l Hl. reflexivity.
  - split_and!; [apply cleanb_clean; reflexivity|reflexivity|discriminate|eexists _, _; reflexivity].
  - constructor; [|constructor; [|constructor]]; apply header_okb_ok; reflexivity.
  - cbn. lia.
  - cbn. unfold line_bound. lia.
  - constructor; [|constructor]. split; [apply cleanb_clean; reflexivity|split; [discriminate|reflexivity]].
  - cbn. unfold line_bound. lia.
  - reflexivity.
Defined.

(** Any other status line (fewer than two words, or a second word that is
    not 200) makes the request fail with -1, with the old headers kept and the
    heap unchanged. *)
Theorem response_rejected {E : Env} {L : LineBound} pfd input p status rest kd s :
  Peer E pfd input -> rfd p = pfd -> clean status -> zlen status + 2 < 2048 ->
  match tokens 32 status with _ :: t :: _ => t <> lit "200" | _ => True end ->
  drop (reads pfd (trace s)) input = status ++ CRLF ++ rest ->
  exists s', read_response p 1 kd s = Ret ((-1, kd), s') /\ heap s' = heap s.
Proof.
  intros HP Hfd Hcl Hsl Htok Hd. unfold read_response. rewrite Hfd.
  destruct (read_line_peer_run (repeat 0 (Z.to_nat LINE_SIZE)) 5000 status rest s Hcl Hd Hsl)
    as (tl & tr & E1 & L1 & R1); [done|].
  erewrite bindM_Ret by exact E1. cbn beta iota. exists (with_trace tr s).
  destruct (Z.leb_spec (zlen status) 0); [done|].
  unfold lift at 1, bindM at 1. rewrite cstr_nul by by apply clean_nonul. cbn [obind].
  destruct (tokens 32 status) as [|w [|t x]]; [done|done|].
  unfold str_eqb. by rewrite bool_decide_false by done.
Qed.

Lemma response_rejected_witness :
  exists s', @read_response (peer_env 7 (lit "RTSP/1.0 453 Not Enough Bandwidth" ++ CRLF)) 50%nat
      wit_client 1 Null proc0 = Ret ((-1, Null), s') /\ heap s' = heap proc0.
Proof.
  apply (response_rejected (L := 50%nat) 7 (lit "RTSP/1.0 453 Not Enough Bandwidth" ++ CRLF) wit_client
    (lit "RTSP/1.0 453 Not Enough Bandwidth") [] Null proc0).
  - apply _.
  - reflexivity.
  - apply cleanb_clean. reflexivity.
  - reflexivity.
  - vm_compute. discriminate.
  - reflexivity.
Defined.

(** ** The text of a request *)

(** The session string, if any. *)
Definition session_is (s : proc) (p : rtspcl_data_t) (o : option (list Z)) : Prop :=
  match o with
  | None => p.(session) = Null
  | Some t => p.(session) <> Null /\ load_str p.(session) s = Ret (t, s)
  end.

(** The extra headers: the entries of the array, if any. *)
Definition exthds_are (s : proc) (p : rtspcl_data_t) (kvs : list kd_entry) : Prop :=
  match p.(exthds) with
  | Null => kvs = []
  | Ptr l o => o = 0 /\ exists es, heap s !! l = Some (Kds es) /\ kd_repr (heap s) es kvs
  end.

Definition hline (k d : list Z) : list Z := k ++ lit ": " ++ d ++ CRLF.
Definition session_lines (o : option (list Z)) : list (list Z) :=
  match o with Some t => [hline (lit "Session") t] | None => [] end.
Definition marked (e : kd_entry) : bool := match str_key e with 0xff :: _ => true | _ => false end.
Definition exthds_lines (kvs : list kd_entry) : list (list Z) :=
  map (fun e => hline (str_key e) (str_data e)) (List.filter (fun e => negb (marked e)) kvs).
Definition content_lines (content : option (list Z * list Z)) : list (list Z) :=
  match content with
  | Some (ty, c) => [hline (lit "Content-Type") ty ++ hline (lit "Content-Length") (fmt_d (zlen c))]
  | None => []
  end.

(** The lines after the request line. *)
Definition request_lines (p : rtspcl_data_t) (content : option (list Z * list Z)) (hds : list header)
    (sess : option (list Z)) (kvs : list kd_entry) : list (list Z) :=
  session_lines sess ++ map (fun h => hline h.1 h.2) hds ++ content_lines content ++
  (if p.(rudp) =? 0 then [] else [hline (lit "CSeq") (fmt_d (p.(cseq) + 1))]) ++
  [hline (lit "User-Agent") p.(useragent)] ++ exthds_lines kvs ++
  (if p.(rudp) =? 0 then [] else session_lines sess).

Definition request_line (p : rtspcl_data_t) (cmd : list Z) (uri : option (list Z)) : list Z :=
  if p.(rudp) =? 0 then
    cmd ++ lit " " ++ p.(url) ++ lit " RTSP/1.0" ++ CRLF ++ hline (lit "CSeq") (fmt_d (p.(cseq) + 1))
  else cmd ++ lit " " ++ default p.(url) uri ++ lit " RTSP/1.0" ++ CRLF.

Definition request_text (p : rtspcl_data_t) (cmd : list Z) (content : option (list Z * list Z))
    (hds : list header) (uri : option (list Z)) (sess : option (list Z)) (kvs : list kd_entry) : list Z :=
  request_line p cmd uri ++ concat (request_lines p content hds sess kvs) ++ CRLF ++
  match content with Some (_, c) => c | None => [] end.

Section Request.
Context {E : Env}.

Definition short (ls : list (list Z)) : Prop := Forall (fun l => zlen l < 128) ls.

Lemma sprintf_run cap t s : zlen t < cap -> sprintf cap t s = Ret (t, s).
Proof. intros H. unfold sprintf. by rewrite (proj2 (Z.leb_le _ _)) by lia. Qed.

Lemma add_line_run req l s :
  zlen l < 128 -> zlen req + zlen l < 1024 -> add_line req l s = Ret (req ++ l, s).
Proof.
  intros H1 H2. unfold add_line. erewrite bindM_Ret by (by apply sprintf_run).
  rewrite take_ge by (unfold zlen in *; lia). apply sprintf_run. zlens. lia.
Qed.

Lemma add_headers_run hds : forall req s,
  short (map (fun h => hline h.1 h.2) hds) ->
  zlen req + zlen (concat (map (fun h => hline h.1 h.2) hds)) < 1024 ->
  add_headers req hds s = Ret (req ++ concat (map (fun h => hline h.1 h.2) hds), s).
Proof.
  induction hds as [|[k d] hds IH]; intros req s Hs Hl; cbn [add_headers map concat fst snd] in *.
  - by rewrite app_nil_r.
  - apply Forall_cons in Hs as [H1 Hs]. rewrite zlen_app in Hl.
    pose proof (zlen_nonneg (concat (map (fun h => hline h.1 h.2) hds))).
    fold (hline k d). erewrite bindM_Ret by (apply add_line_run; [exact H1|lia]).
    rewrite IH; [by rewrite <- app_assoc|done|rewrite zlen_app; lia].
Qed.

Lemma add_session_run req p o s :
  session_is s p o -> short (session_lines o) -> zlen req + zlen (concat (session_lines o)) < 1024 ->
  add_session req p s = Ret (req ++ concat (session_lines o), s).
Proof.
  intros Hs Hsh Hl. unfold add_session. destruct o as [t|]; cbn [session_is session_lines concat] in *.
  - destruct Hs as [H1 H2]. rewrite decide_False by done. erewrite bindM_Ret by exact H2.
    apply Forall_cons in Hsh as [H3 _]. rewrite app_nil_r in Hl |- *.
    apply add_line_run; [exact H3|exact Hl].
  - rewrite decide_True by done. by rewrite app_nil_r.
Qed.

Lemma first_char_run l k r s :
  heap s !! l = Some (Bytes (k ++ 0 :: r)) -> exists c, char_at (Ptr l 0) 0 s = Ret (c, s) /\
    (c =? 0xff) = (match k with 0xff :: _ => true | _ => false end).
Proof.
  intros Hl. destruct k as [|c k].
  - exists 0. split; [|done]. by apply (char_at_run l 0 0 [] 0 r).
  - exists c. split; [by apply (char_at_run l 0 0 [] c (k ++ 0 :: r))|].
    destruct (Z.eqb_spec c 0xff) as [->|Hne]; [done|].
    destruct c as [|c|c]; try done. do 8 (destruct c as [c|c|]; try done).
Qed.

Lemma add_exthds_run l all s : heap s !! l = Some (Kds all) ->
  forall es kvs, kd_repr (heap s) es kvs ->
  forall i fuel req, drop (Z.to_nat i) all = es -> 0 <= i -> (length kvs < fuel)%nat ->
  short (exthds_lines kvs) -> zlen req + zlen (concat (exthds_lines kvs)) < 1024 ->
  add_exthds_lines fuel req (Ptr l 0) i s = Ret (req ++ concat (exthds_lines kvs), s).
Proof.
  intros Hl. induction 1 as [d es|lk k rk ld d rd es kvs Hk Hnk Hd Hnd Hr IH];
    intros i fuel req Hes Hi Hf Hsh Hlen; (destruct fuel as [|fuel]; [lia|]);
    pose proof (f_equal (fun x => x !! 0%nat) Hes) as Hget; rewrite lookup_drop, Nat.add_0_r in Hget;
    cbn [add_exthds_lines]; rewrite decide_False by done;
    unfold key_of; rewrite bindM_assoc; erewrite bindM_Ret by (by eapply kd_at_run);
    cbn [kd_key the]; rewrite bindM_ret.
  - rewrite decide_True by done. by rewrite app_nil_r.
  - rewrite decide_False by done.
    destruct (first_char_run lk k rk s Hk) as (c & E1 & Hc). erewrite bindM_Ret by exact E1.
    assert (Hnext : drop (Z.to_nat (i + 1)) all = es).
    { replace (Z.to_nat (i + 1)) with (Z.to_nat i + 1)%nat by lia. by rewrite <- drop_drop, Hes. }
    rewrite Hc. unfold exthds_lines in *. cbn [List.filter] in *.
    unfold marked at 1 in Hlen. unfold marked at 1 in Hsh. unfold marked at 1. cbn [str_key] in *.
    destruct (match k with 255 :: _ => true | _ => false end); cbn [negb map concat str_key str_data] in *.
    + apply IH; [done|lia|simpl in Hf; lia|done|done].
    + apply Forall_cons in Hsh as [H1 Hsh]. rewrite zlen_app in Hlen.
      match type of Hlen with _ + (_ + zlen ?x) < _ => pose proof (zlen_nonneg x) end.
      erewrite bindM_Ret by (by eapply load_str_run).
      unfold data_of. rewrite bindM_assoc. erewrite bindM_Ret by (by eapply kd_at_run).
      cbn [kd_data the]. rewrite bindM_ret. erewrite bindM_Ret by (by eapply load_str_run).
      fold (hline k d). erewrite bindM_Ret by (apply add_line_run; [exact H1|lia]).
      rewrite IH; [by rewrite <- app_assoc|done|lia|simpl in Hf; lia|done|].
      rewrite zlen_app. lia.
Qed.

End Request.

Lemma short_app a b : short (a ++ b) <-> short a /\ short b.
Proof. apply Forall_app. Qed.

Lemma zlen_concat_app (a b : list (list Z)) : zlen (concat (a ++ b)) = zlen (concat a) + zlen (concat b).
Proof. by rewrite concat_app, zlen_app. Qed.

(** Session, headers and content lines: the part before CSeq in UDP mode. *)
Lemma build_prefix_run {A} (K : list Z -> M A) req p content hds length sess s :
  session_is s p sess ->
  short (session_lines sess ++ map (fun h => hline h.1 h.2) hds ++ content_lines content) ->
  zlen req + zlen (concat (session_lines sess ++ map (fun h => hline h.1 h.2) hds ++ content_lines content)) < 1024 ->
  match content with Some (_, c) => length = 0 \/ length = zlen c | None => True end ->
  (do! req <- add_session req p;
   do! req <- add_headers req hds;
   do! req <-
     match option_map fst content, option_map snd content with
     | Some ty, Some c =>
         add_line req (lit "Content-Type: " ++ ty ++ CRLF ++ lit "Content-Length: " ++
                       fmt_d (if length =? 0 then zlen c else length) ++ CRLF)
     | _, _ => ret req
     end; K req) s =
  K (req ++ concat (session_lines sess ++ map (fun h => hline h.1 h.2) hds ++ content_lines content)) s.
Proof.
  intros Hs Hsh Hl Hc. rewrite !short_app in Hsh. destruct Hsh as (S1 & S2 & S3).
  rewrite !zlen_concat_app in Hl.
  pose proof (zlen_nonneg (concat (session_lines sess))).
  pose proof (zlen_nonneg (concat (map (fun h => hline h.1 h.2) hds))).
  pose proof (zlen_nonneg (concat (content_lines content))).
  erewrite bindM_Ret by (apply add_session_run; [exact Hs|exact S1|lia]).
  erewrite bindM_Ret by (apply add_headers_run; [exact S2|rewrite zlen_app; lia]).
  rewrite !concat_app, !app_assoc. set (r2 := (req ++ _) ++ _).
  destruct content as [[ty c]|]; cbn [option_map fst snd content_lines concat] in *.
  - apply Forall_cons in S3 as [S3 _]. rewrite app_nil_r in *.
    replace (fmt_d (if length =? 0 then zlen c else length)) with (fmt_d (zlen c))
      by (destruct Hc as [->| ->]; [done|]; destruct (Z.eqb_spec (zlen c) 0); congruence).
    change (lit "Content-Type: " ++ ty ++ CRLF ++ lit "Content-Length: " ++ fmt_d (zlen c) ++ CRLF)
      with (lit "Content-Type" ++ lit ": " ++ ty ++ CRLF ++ hline (lit "Content-Length") (fmt_d (zlen c))).
    replace (lit "Content-Type" ++ lit ": " ++ ty ++ CRLF ++ hline (lit "Content-Length") (fmt_d (zlen c)))
      with (hline (lit "Content-Type") ty ++ hline (lit "Content-Length") (fmt_d (zlen c)))
      by (unfold hline; by rewrite <- !app_assoc).
    erewrite bindM_Ret by (apply add_line_run; [exact S3|subst r2; rewrite !zlen_app in *; lia]). done.
  - rewrite bindM_ret. by rewrite app_nil_r.
Qed.

Lemma exthds_lines_run {A} (K : list Z -> M A) req p kvs s :
  exthds_are s p kvs -> short (exthds_lines kvs) -> zlen req + zlen (concat (exthds_lines kvs)) < 1024 ->
  (do! fuel <- kd_fuel p.(exthds); do! req <- add_exthds_lines fuel req p.(exthds) 0; K req) s =
  K (req ++ concat (exthds_lines kvs)) s.
Proof.
  intros He Hsh Hl. unfold exthds_are in He. destruct (exthds p) as [|l o].
  - subst kvs. cbn [exthds_lines List.filter map concat]. by rewrite app_nil_r.
  - destruct He as (-> & es & Hes & Hr). erewrite bindM_Ret by (by apply kd_fuel_run).
    erewrite bindM_Ret; [done|]. eapply add_exthds_run; [done|done|done|lia| |done|done].
    apply kd_repr_length in Hr. lia.
Qed.

(** The blank line and the body. *)
Lemma finish_run req (p : rtspcl_data_t) content length s :
  zlen req + 2 + zlen (match content with Some (_, c) => c | None => [] end : list Z) < 1024 ->
  match content with Some (_, c) => length = 0 \/ length = zlen c | None => length = 0 end ->
  (do! req <- sprintf 1024 (req ++ CRLF);
   match option_map (@fst (list Z) (list Z)) content, option_map snd content with
   | Some _, Some c =>
       if length =? 0 then do! req <- sprintf 1024 (req ++ take 1024 c); ret (req, p)
       else if (zlen req + length <=? 1024) && (0 <=? length) && (length <=? zlen c)
       then ret (req ++ take (Z.to_nat length) c, p)
       else undef OutOfBounds
   | _, _ => if length =? 0 then ret (req, p) else undef Uninit
   end) s =
  Ret ((req ++ CRLF ++ match content with Some (_, c) => c | None => [] end, p), s).
Proof.
  intros Hl Hc. pose proof (zlen_nonneg req).
  pose proof (zlen_nonneg (match content with Some (_, c) => c | None => [] end : list Z)).
  erewrite bindM_Ret by (apply sprintf_run; rewrite zlen_app; change (zlen CRLF) with 2; lia).
  destruct content as [[ty c]|]; cbn [option_map fst snd].
  - pose proof (zlen_nonneg c). destruct (Z.eqb_spec length 0) as [->|Hne].
    + rewrite take_ge by (unfold zlen in *; lia).
      erewrite bindM_Ret by (apply sprintf_run; rewrite !zlen_app; change (zlen CRLF) with 2; lia).
      unfold ret. by rewrite <- app_assoc.
    + destruct Hc as [->| ->]; [done|].
      rewrite !(proj2 (Z.leb_le _ _)) by (rewrite ?zlen_app; change (zlen CRLF) with 2; lia). cbn [andb].
      rewrite take_ge by (unfold zlen; lia). unfold ret. by rewrite <- app_assoc.
  - subst length. rewrite app_nil_r. done.
Qed.

(** Everything after the request line, which is [req]; [p] is the client with
    its sequence number already advanced in TCP mode. *)
Lemma build_rest_run req p p0 content length hds sess kvs s :
  session_is s p sess -> exthds_are s p kvs -> (rudp p0 <> 0 -> is_int (cseq p + 1)) ->
  rudp p = rudp p0 -> useragent p = useragent p0 -> (rudp p0 <> 0 -> cseq p = cseq p0) ->
  short (request_lines p0 content hds sess kvs) ->
  zlen req + zlen (concat (request_lines p0 content hds sess kvs)) + 2 +
    zlen (match content with Some (_, c) => c | None => [] end : list Z) < 1024 ->
  match content with Some (_, c) => length = 0 \/ length = zlen c | None => length = 0 end ->
  (do! req <- add_session req p;
   do! req <- add_headers req hds;
   do! req <-
     match option_map fst content, option_map snd content with
     | Some ty, Some c =>
         add_line req (lit "Content-Type: " ++ ty ++ CRLF ++ lit "Content-Length: " ++
                       fmt_d (if length =? 0 then zlen c else length) ++ CRLF)
     | _, _ => ret req
     end;
   do! '(req, p) <-
     (if p.(rudp) =? 0 then ret (req, p)
      else
        do! n <- int (p.(cseq) + 1);
        do! req <- add_line req (lit "CSeq: " ++ fmt_d n ++ CRLF); ret (req, set_cseq n p));
   do! req <- add_line req (lit "User-Agent: " ++ p.(useragent) ++ CRLF);
   do! fuel <- kd_fuel p.(exthds);
   do! req <- add_exthds_lines fuel req p.(exthds) 0;
   do! req <- (if p.(rudp) =? 0 then ret req else add_session req p);
   do! req <- sprintf 1024 (req ++ CRLF);
   match option_map fst content, option_map snd content with
   | Some _, Some c =>
       if length =? 0 then do! req <- sprintf 1024 (req ++ take 1024 c); ret (req, p)
       else if (zlen req + length <=? 1024) && (0 <=? length) && (length <=? zlen c)
       then ret (req ++ take (Z.to_nat length) c, p)
       else undef OutOfBounds
   | _, _ => if length =? 0 then ret (req, p) else undef Uninit
   end) s =
  Ret ((req ++ concat (request_lines p0 content hds sess kvs) ++ CRLF ++
        match content with Some (_, c) => c | None => [] end,
        if rudp p0 =? 0 then p else set_cseq (cseq p + 1) p), s).
Proof.
  intros Hs He Hint Hudp Hua Hcseq Hsh Hl Hlen. unfold request_lines in *.
  rewrite !short_app in Hsh. destruct Hsh as (S1 & S2 & S3 & S4 & S5 & S6 & S7).
  rewrite !zlen_concat_app in Hl. cbn [concat] in Hl. rewrite app_nil_r in Hl.
  pose proof (zlen_nonneg (match content with Some (_, c) => c | None => [] end : list Z)).
  pose proof (zlen_nonneg (concat (session_lines sess))).
  pose proof (zlen_nonneg (concat (exthds_lines kvs))).
  pose proof (zlen_nonneg (hline (lit "User-Agent") (useragent p0))).
  apply Forall_cons in S5 as [S5 _].
  assert (Hc0 : match content with Some (_, c) => length = 0 \/ length = zlen c | None => True end)
    by (by destruct content as [[? ?]|]).
  rewrite (build_prefix_run _ req p content hds length sess s Hs) by
    (rewrite ?short_app, ?zlen_concat_app; first [done|destruct (rudp p0 =? 0); cbn [concat] in Hl;
     [rewrite zlen_nil in Hl|rewrite app_nil_r in Hl;
      pose proof (zlen_nonneg (hline (lit "CSeq") (fmt_d (cseq p0 + 1))))]; lia]).
  set (pre := session_lines sess ++ _ ++ content_lines content).
  assert (Hpre : zlen (concat pre) = zlen (concat (session_lines sess)) +
    (zlen (concat (map (fun h => hline h.1 h.2) hds)) + zlen (concat (content_lines content))))
    by (subst pre; by rewrite !zlen_concat_app).
  pose proof (zlen_app req (concat pre)) as Hpre'.
  rewrite Hudp. destruct (Z.eqb_spec (rudp p0) 0) as [Hz|Hz]; cbn [concat] in Hl; rewrite ?app_nil_r in Hl.
  - rewrite zlen_nil in Hl. rewrite bindM_ret. cbn beta iota.
    rewrite Hua. change (lit "User-Agent: " ++ useragent p0 ++ CRLF) with (hline (lit "User-Agent") (useragent p0)).
    erewrite bindM_Ret by (apply add_line_run; [exact S5|lia]).
    rewrite (exthds_lines_run _ _ p kvs s He S6) by (rewrite zlen_app; lia).
    rewrite Hudp, Hz. cbn [Z.eqb]. rewrite bindM_ret.
    rewrite finish_run by (try done; rewrite !zlen_app; lia).
    do 2 f_equal. f_equal. subst pre. rewrite !concat_app. cbn [concat]. by rewrite ?app_nil_r, <- !app_assoc.
  - rewrite bindM_assoc. erewrite bindM_Ret by (unfold int; rewrite bool_decide_true by (by apply Hint); reflexivity).
    rewrite bindM_assoc. rewrite (Hcseq Hz) in *.
    change (lit "CSeq: " ++ fmt_d (cseq p0 + 1) ++ CRLF) with (hline (lit "CSeq") (fmt_d (cseq p0 + 1))).
    apply Forall_cons in S4 as [S4 _].
    pose proof (zlen_nonneg (hline (lit "CSeq") (fmt_d (cseq p0 + 1)))).
    erewrite bindM_Ret by (apply add_line_run; [exact S4|lia]). rewrite bindM_ret. cbn beta iota.
    set (p1 := set_cseq _ p).
    change (useragent p1) with (useragent p). rewrite Hua.
    change (lit "User-Agent: " ++ useragent p0 ++ CRLF) with (hline (lit "User-Agent") (useragent p0)).
    erewrite bindM_Ret by (apply add_line_run; [exact S5|rewrite zlen_app; lia]).
    rewrite (exthds_lines_run _ _ p1 kvs s He S6) by (rewrite !zlen_app; lia).
    change (rudp p1) with (rudp p). rewrite Hudp, (proj2 (Z.eqb_neq _ 0) Hz).
    erewrite bindM_Ret by (apply (add_session_run _ p1 sess); [exact Hs|exact S1|rewrite !zlen_app; lia]).
    rewrite finish_run by (try done; rewrite !zlen_app; lia).
    do 2 f_equal. f_equal. subst pre. rewrite !concat_app. cbn [concat]. by rewrite ?app_nil_r, <- !app_assoc.
Qed.

Lemma build_request_run p cmd content length hds uri sess kvs s :
  session_is s p sess -> exthds_are s p kvs -> is_int (cseq p + 1) ->
  short (request_lines p content hds sess kvs) ->
  zlen (request_text p cmd content hds uri sess kvs) < 1024 ->
  match content with Some (_, c) => length = 0 \/ length = zlen c | None => length = 0 end ->
  build_request p cmd (option_map fst content) (option_map snd content) length hds uri s =
  Ret ((request_text p cmd content hds uri sess kvs, set_cseq (cseq p + 1) p), s).
Proof.
  intros Hs He Hint Hsh Hl Hlen. unfold build_request, request_text in *.
  rewrite !zlen_app in Hl. change (zlen CRLF) with 2 in Hl.
  pose proof (zlen_nonneg (concat (request_lines p content hds sess kvs))).
  pose proof (zlen_nonneg (match content with Some (_, c) => c | None => [] end : list Z)).
  assert (Hint' : int (cseq p + 1) s = Ret (cseq p + 1, s)) by (unfold int; by rewrite bool_decide_true).
  assert (Hshort : zlen (request_line p cmd uri) < 1024) by lia.
  destruct (rudp p =? 0) eqn:Hudp.
  - assert (Hr : request_line p cmd uri = cmd ++ lit " " ++ url p ++ lit " RTSP/1.0" ++ CRLF ++
      lit "CSeq: " ++ fmt_d (cseq p + 1) ++ CRLF) by (unfold request_line; by rewrite Hudp).
    rewrite bindM_assoc. erewrite bindM_Ret by exact Hint'. rewrite bindM_assoc, <- Hr.
    erewrite bindM_Ret by (by apply sprintf_run). rewrite bindM_ret. cbn beta iota.
    set (p1 := set_cseq _ p).
    rewrite (build_rest_run (request_line p cmd uri) p1 p content length hds sess kvs s Hs He);
      [by rewrite Hudp|lia|done|done|lia|done|lia|done].
  - assert (Hr : request_line p cmd uri = cmd ++ lit " " ++ default (url p) uri ++ lit " RTSP/1.0" ++ CRLF)
      by (unfold request_line; by rewrite Hudp).
    rewrite bindM_assoc, <- Hr. erewrite bindM_Ret by (by apply sprintf_run). rewrite bindM_ret. cbn beta iota.
    rewrite (build_rest_run (request_line p cmd uri) p p content length hds sess kvs s Hs He);
      [by rewrite Hudp|done|done|done|done|done|lia|done].
Qed.

(** C10: as long as every line fits the line buffer of 128 bytes and the whole
    the request buffer of 1024, [exec_request] makes one call of [write] on the client's
    descriptor, with exactly: the request line, CSeq, the session, the given headers,
    Content-Type and Content-Length (the length of the body), User-Agent, the unmarked
    extra headers, a blank line and the body, in the order of the transport in use.  A
    body without a given length is a string, so that the text has no NUL then.  CSeq is
    advanced by one, and the function goes on with the response if one is wanted; nothing
    else has changed. *)
Theorem request_is_text {E : Env} {L : LineBound} p cmd content length get_response hds kd uri sess kvs s :
  session_is s p sess -> exthds_are s p kvs -> is_int (cseq p + 1) ->
  short (request_lines p content hds sess kvs) ->
  zlen (request_text p cmd content hds uri sess kvs) < 1024 ->
  match content with Some (_, c) => length = 0 \/ length = zlen c | None => length = 0 end ->
  (length = 0 -> nonul (request_text p cmd content hds uri sess kvs)) ->
  let p' := set_cseq (cseq p + 1) p in
  exec_request p cmd (option_map fst content) (option_map snd content) length get_response hds kd uri s =
  (if get_response =? 0 then ret (0, kd, p')
   else do! '(r, kd) <- read_response p' get_response kd; ret (r, kd, p'))
    (with_trace (CWrite p.(rfd) (request_text p cmd content hds uri sess kvs) :: trace s) s).
Proof.
  intros Hs He Hint Hsh Hl Hlen Hnul p'. unfold exec_request.
  erewrite bindM_Ret by (by apply build_request_run). cbn beta iota.
  assert (Hout : (if length =? 0 then lift (cstr (request_text p cmd content hds uri sess kvs ++ [0]))
                  else ret (request_text p cmd content hds uri sess kvs)) s =
                 Ret (request_text p cmd content hds uri sess kvs, s)).
  { destruct (Z.eqb_spec length 0); [|done]. unfold lift. by rewrite cstr_nul by auto. }
  erewrite bindM_Ret by exact Hout. done.
Qed.

Definition wit_announce : list Z :=
  lit "ANNOUNCE rtsp://1.2.3.4/99 RTSP/1.0" ++ CRLF ++ lit "CSeq: 1" ++ CRLF ++
  lit "Content-Type: application/sdp" ++ CRLF ++ lit "Content-Length: 3" ++ CRLF ++
  lit "User-Agent: iTunes" ++ CRLF ++ CRLF ++ lit "v=0".

Lemma request_is_text_witness :
  exec_request (E := env0) (L := 5%nat) wit_client (lit "ANNOUNCE") (Some (lit "application/sdp")) (Some (lit "v=0"))
    0 0 [] Null None proc0 = Ret ((0, Null, set_cseq 1 wit_client), with_trace [CWrite 7 wit_announce] proc0).
Proof.
  apply (request_is_text (E := env0) (L := 5%nat) wit_client (lit "ANNOUNCE") (Some (lit "application/sdp", lit "v=0"))
    0 0 [] Null None None [] proc0).
  - reflexivity.
  - reflexivity.
  - vm_compute. split; discriminate.
  - repeat (constructor; [reflexivity|]). constructor.
  - reflexivity.
  - by left.
  - intros _. apply (bool_decide_eq_true_1 (nonul wit_announce)). vm_compute. reflexivity.
Defined.

(** ** Extra headers *)

Lemma kd_repr_split h es kvs :
  kd_repr h es kvs ->
  exists cs d es', es = cs ++ KeyData (Some Null) d :: es' /\ kd_cells h cs kvs.
Proof.
  induction 1 as [d es|lk k rk ld d rd es kvs Hk Hnk Hd Hnd Hr IH].
  - exists [], d, es. by split; [|constructor].
  - destruct IH as (cs & d' & es' & -> & IH). eexists (_ :: cs), d', es'. split; [done|]. by econstructor.
Qed.

Lemma exthds_slot_run l all s : heap s !! l = Some (Kds all) ->
  forall es kvs, kd_repr (heap s) es kvs ->
  forall i fuel, drop (Z.to_nat i) all = es -> 0 <= i -> (length kvs < fuel)%nat ->
  Forall (fun e => marked e = false) kvs ->
  exthds_slot fuel (Ptr l 0) i s = Ret (i + zlen kvs, s).
Proof.
  intros Hl. induction 1 as [d es|lk k rk ld d rd es kvs Hk Hnk Hd Hnd Hr IH];
    intros i fuel Hes Hi Hf Hmk; (destruct fuel as [|fuel]; [lia|]);
    pose proof (f_equal (fun x => x !! 0%nat) Hes) as Hget; rewrite lookup_drop, Nat.add_0_r in Hget;
    cbn [exthds_slot]; unfold key_of; rewrite bindM_assoc; erewrite bindM_Ret by (by eapply kd_at_run);
    cbn [kd_key the]; rewrite bindM_ret.
  - rewrite decide_True by done. unfold ret. zlens. by rewrite Z.add_0_r.
  - rewrite decide_False by done. apply Forall_cons in Hmk as [Hm Hmk].
    destruct (first_char_run lk k rk s Hk) as (c & E1 & Hc). erewrite bindM_Ret by exact E1.
    unfold marked in Hm. cbn [str_key] in Hm. rewrite Hc, Hm.
    rewrite IH; [do 2 f_equal; zlens; lia| |lia|simpl in Hf; lia|done].
    replace (Z.to_nat (i + 1)) with (Z.to_nat i + 1)%nat by lia. by rewrite <- drop_drop, Hes.
Qed.

Lemma filled_heap_ok s l cells b1 b2 tr :
  heap_ok s -> l < fresh s -> heap_ok (filled s l cells b1 b2 tr).
Proof.
  intros Hok Hl x Hx. unfold filled in *. cbn [heap fresh] in *.
  rewrite !lookup_insert_ne by lia. apply Hok. lia.
Qed.

(** Storing a header in a free cell of the array: shared by the two ways to get there. *)
Lemma add_header_run {E : Env} p l cs e e2 es kvs key data s :
  (forall tr m, rv (env_reply tr (CMalloc m)) <> 0) -> heap_ok s ->
  heap s !! l = Some (Kds (cs ++ e :: e2 :: es)) -> kd_cells (heap s) cs kvs ->
  Forall (fun x => x <> l /\ x < fresh s) (kd_locs kvs) ->
  exthds p = Ptr l 0 -> nonul key -> nonul data ->
  zlen key < align_size (zlen key) -> zlen data < align_size (zlen data) ->
  exists s', (do! '(r, k) <- realloc_memory (zlen key);
      do! _ <- set_key p.(exthds) (zlen cs) k;
      if negb (r =? 0) then ret (-1, p)
      else
        do! _ <- strcpy k key;
        do! '(r, d) <- realloc_memory (zlen data);
        do! _ <- set_data p.(exthds) (zlen cs) d;
        if negb (r =? 0) then ret (-1, p)
        else
          do! _ <- strcpy d data;
          do! _ <- set_key p.(exthds) (zlen cs + 1) Null;
          ret (0, p)) s = Ret ((0, p), s') /\
    heap_ok s' /\ exthds_are s' p (kvs ++ [KdEntry (fresh s) key (fresh s + 1) data]) /\
    (forall x, x < fresh s -> x <> l -> heap s' !! x = heap s !! x).
Proof.
  intros Hm Hok Hl Hc Hloc Hp Hk Hd Hka Hda. rewrite Hp.
  assert (Hlf : l < fresh s) by (destruct (Z.lt_ge_cases l (fresh s)); [done|by rewrite Hok in Hl]).
  destruct (fill_cell l cs e (e2 :: es) key data (zlen key) (zlen data) (ret (-1, p)) (ret (-1, p))
    (do! _ <- set_key (Ptr l 0) (zlen cs + 1) Null; ret (0, p)) s Hm Hok Hl) as (r1 & r2 & E1); [lia|lia|].
  rewrite E1. clear E1. set (cell := KeyData (Some (Ptr (fresh s) 0)) (Some (Ptr (fresh s + 1) 0))).
  set (s1 := filled _ _ _ _ _ _).
  assert (Hs1 : heap s1 !! l = Some (Kds ((cs ++ [cell]) ++ e2 :: es))).
  { subst s1. unfold filled. cbn [heap]. rewrite !lookup_insert_ne by lia.
    rewrite lookup_insert_eq. by rewrite <- app_assoc. }
  assert (Hok1 : heap_ok s1) by by apply filled_heap_ok.
  replace (zlen cs + 1) with (zlen (cs ++ [cell])) by (zlens; lia). unfold set_key.
  erewrite bindM_Ret by (apply (kd_set_run l (cs ++ [cell]) e2 es s1
    (fun e => KeyData (Some Null) (kd_data e))); exact Hs1).
  eexists. split; [done|]. split_and!.
  - intros x Hx. cbn [heap set_heap fresh] in *. rewrite lookup_insert_ne; [by apply Hok1|].
    subst s1. unfold filled in Hx. cbn [fresh] in Hx. lia.
  - unfold exthds_are. rewrite Hp. split; [done|]. eexists. cbn [heap set_heap].
    split; [apply lookup_insert_eq|]. apply kd_cells_repr.
    assert (Hnew : forall x, fresh s <= x -> x ∉ kd_locs kvs)
      by (intros x Hx Hin; rewrite Forall_forall in Hloc; apply Hloc in Hin; lia).
    assert (Hnl : l ∉ kd_locs kvs)
      by (intros Hin; rewrite Forall_forall in Hloc; apply Hloc in Hin; tauto).
    apply (kd_cells_snoc _ _ _ _ _ r1 _ _ r2); [|rewrite lookup_insert_ne by lia|done|rewrite lookup_insert_ne by lia|done].
    + apply kd_cells_insert; [|done]. subst s1. unfold filled. cbn [heap].
      apply kd_cells_insert; [|apply Hnew; lia]. apply kd_cells_insert; [|apply Hnew; lia].
      by apply kd_cells_insert.
    + subst s1. unfold filled. cbn [heap]. rewrite lookup_insert_ne by lia. apply lookup_insert_eq.
    + subst s1. unfold filled. cbn [heap]. apply lookup_insert_eq.
  - intros x Hx Hxl. cbn [heap set_heap]. rewrite lookup_insert_ne by done.
    subst s1. unfold filled. cbn [heap]. by rewrite !lookup_insert_ne by lia.
Qed.

(** [rtspcl_add_exthds], with memory available and lengths that are not
    exactly a block size, adds the header behind the existing ones (fewer than
    16, none marked), and changes no other block. *)
Theorem add_exthds_appends {E : Env} p kvs key data s :
  (forall tr m, rv (env_reply tr (CMalloc m)) <> 0) -> heap_ok s -> exthds_are s p kvs ->
  (length kvs <= 15)%nat -> Forall (fun e => marked e = false) kvs ->
  match exthds p with
  | Null => True
  | Ptr l _ => kvs <> [] /\ l < fresh s /\
      (forall es, heap s !! l = Some (Kds es) -> (length kvs + 1 < length es)%nat) /\
      Forall (fun x => x <> l /\ x < fresh s) (kd_locs kvs)
  end ->
  nonul key -> nonul data ->
  zlen key < align_size (zlen key) -> zlen data < align_size (zlen data) ->
  exists p' s' lk ld, rtspcl_add_exthds p key data s = Ret ((0, p'), s') /\ heap_ok s' /\
    exthds_are s' p' (kvs ++ [KdEntry lk key ld data]) /\
    (forall x, x < fresh s -> Ptr x 0 <> exthds p -> heap s' !! x = heap s !! x).
Proof.
  intros Hm Hok He Hn Hmk Hp Hk Hd Hka Hda. unfold rtspcl_add_exthds, exthds_are in *.
  destruct (exthds p) as [|l o] eqn:Hex.
  - subst kvs. rewrite decide_True by done. rewrite bindM_assoc.
    erewrite bindM_Ret by (apply realloc_memory_kd_run; exact Hm). cbn beta iota. rewrite bindM_ret. cbn beta iota.
    cbn [Z.eqb negb]. change (Z.to_nat (align_size (17 * 8 * 2) / 8)) with 64%nat.
    set (s1 := Proc _ _ _ _ _). set (p1 := set_exthds _ p).
    destruct (add_header_run p1 (fresh s) [] kd_indet kd_indet (repeat kd_indet 62) [] key data s1 Hm)
      as (s' & E1 & Hok' & Hex' & Hsame);
      [|apply lookup_insert_eq|constructor|constructor|done|done|done|done|done|].
    { intros x Hx. subst s1. cbn in Hx |- *. rewrite lookup_insert_ne by lia. apply Hok. lia. }
    eexists p1, s', _, _. split; [exact E1|]. split; [done|]. split; [exact Hex'|].
    intros x Hx _. rewrite Hsame; [|subst s1; cbn; lia|lia].
    subst s1. cbn. by rewrite lookup_insert_ne by lia.
  - destruct He as (-> & es & Hes & Hr). destruct Hp as (Hne & Hlf & Hroom & Hloc).
    rewrite decide_False by done. rewrite bindM_assoc. erewrite bindM_Ret by (by apply kd_fuel_run).
    rewrite bindM_assoc. erewrite bindM_Ret by (eapply exthds_slot_run; [exact Hes|exact Hr|done|lia| |exact Hmk];
      apply kd_repr_length in Hr; lia).
    rewrite Z.add_0_l. assert (Hz : 0 < zlen kvs < 16) by (destruct kvs; [done|unfold zlen; simpl in *; lia]).
    rewrite (proj2 (Z.eqb_neq (zlen kvs mod 16) 0)) by (rewrite Z.mod_small; lia).
    rewrite andb_false_r, bindM_assoc, bindM_ret. cbn beta iota. rewrite bindM_ret. cbn beta iota. cbn [Z.eqb negb].
    destruct (kd_repr_split _ _ _ Hr) as (cs & d & es' & -> & Hcells).
    pose proof (kd_cells_length _ _ _ Hcells) as Hcl. specialize (Hroom _ Hes).
    rewrite length_app in Hroom. destruct es' as [|e2 es']; [simpl in Hroom; lia|].
    replace (zlen kvs) with (zlen cs) by (unfold zlen; lia).
    destruct (add_header_run p l cs (KeyData (Some Null) d) e2 es' kvs key data s Hm Hok Hes Hcells Hloc)
      as (s' & E1 & Hok' & Hex' & Hsame); [done..|].
    rewrite Hex in *. unfold exthds_are in Hex'. rewrite Hex in Hex'.
    eexists p, s', _, _. rewrite Hex. split; [exact E1|]. split; [done|]. split; [exact Hex'|].
    intros x Hx Hxl. apply Hsame; [done|]. congruence.
Qed.

Lemma add_exthds_appends_witness :
  exists p' s' lk ld, @rtspcl_add_exthds (peer_env 7 []) wit_client (lit "Apple-Challenge") (lit "abc") proc0 =
      Ret ((0, p'), s') /\ heap_ok s' /\
    exthds_are s' p' [KdEntry lk (lit "Apple-Challenge") ld (lit "abc")] /\
    (forall x, x < 1 -> Ptr x 0 <> Null -> heap s' !! x = heap proc0 !! x).
Proof.
  apply (add_exthds_appends (E := peer_env 7 []) wit_client [] (lit "Apple-Challenge") (lit "abc") proc0).
  - intros tr m. discriminate.
  - intros l Hl. reflexivity.
  - reflexivity.
  - cbn. lia.
  - constructor.
  - exact I.
  - repeat constructor; discriminate.
  - repeat constructor; discriminate.
  - reflexivity.
  - reflexivity.
Defined.

(** The block for the data of an extra header has no room for the
    terminating NUL when the length of the data is itself a block size: adding
    any header with sixteen characters of data, such as the Client-Instance
    header of [raopcl_connect], writes one byte behind the block. *)
Theorem add_exthds_overflows {E : Env} p key data s :
  (forall tr m, rv (env_reply tr (CMalloc m)) <> 0) -> heap_ok s -> exthds p = Null ->
  zlen key < align_size (zlen key) -> zlen data = 16 ->
  rtspcl_add_exthds p key data s = UB OutOfBounds.
Proof.
  intros Hm Hok Hex Hka Hd. unfold rtspcl_add_exthds. rewrite Hex, decide_True by done.
  rewrite bindM_assoc. erewrite bindM_Ret by (apply realloc_memory_kd_run; exact Hm). cbn beta iota.
  rewrite bindM_ret. cbn beta iota. cbn [Z.eqb negb exthds set_exthds].
  change (Z.to_nat (align_size (17 * 8 * 2) / 8)) with 64%nat. set (s1 := Proc _ _ _ _ _).
  destruct (realloc_memory_run (zlen key) s1 Hm) as (g1 & Hg1 & E1). erewrite bindM_Ret by exact E1. cbn beta iota.
  unfold set_key at 1.
  erewrite bindM_Ret by (apply (kd_set_run (fresh s) [] kd_indet (repeat kd_indet 63) _
    (fun e => KeyData (Some (Ptr (fresh s1) 0)) (kd_data e))); cbn [heap];
    rewrite lookup_insert_ne by (subst s1; cbn; lia); apply lookup_insert_eq).
  cbn [Z.eqb negb].
  match goal with |- bindM _ _ ?st = _ => destruct (strcpy_run (fresh s1) g1 key st) as (r1 & E2) end.
  { cbn [heap set_heap]. rewrite lookup_insert_ne by (subst s1; cbn; lia). apply lookup_insert_eq. }
  { lia. }
  erewrite bindM_Ret by exact E2.
  match goal with |- bindM _ _ ?st = _ => destruct (realloc_memory_run (zlen data) st Hm) as (g2 & Hg2 & E3) end.
  erewrite bindM_Ret by exact E3. cbn beta iota. cbn [heap set_heap fresh]. unfold set_data at 1.
  erewrite bindM_Ret.
  2:{ apply (kd_set_run (fresh s) [] (KeyData (Some (Ptr (fresh s1) 0)) None) (repeat kd_indet 63) _
        (fun e => KeyData (kd_key e) (Some (Ptr (fresh s1 + 1) 0)))). cbn [heap set_heap].
      rewrite !lookup_insert_ne by (subst s1; cbn; lia). apply lookup_insert_eq. }
  cbn [Z.eqb negb]. apply bindM_UB. unfold strcpy, store. cbn [heap set_heap].
  rewrite lookup_insert_ne by (subst s1; cbn; lia). rewrite lookup_insert_eq.
  unfold buf_write. rewrite zlen_app, Hg2, Hd.
  change (zlen [0]) with 1. change (align_size 16) with 16. reflexivity.
Qed.

Lemma add_exthds_overflows_witness :
  @rtspcl_add_exthds (peer_env 7 []) wit_client (lit "Client-Instance") (lit "0123456789abcdef") proc0 =
  UB OutOfBounds.
Proof.
  apply (add_exthds_overflows (E := peer_env 7 []) wit_client (lit "Client-Instance")
    (lit "0123456789abcdef") proc0); try reflexivity.
  - intros tr m. discriminate.
  - intros l Hl. reflexivity.
Defined.

(** [rtspcl_remove_all_exthds] frees the first header again and again: it
    is undefined (a double free) as soon as there is one header. *)
Theorem remove_all_double_free p l es e kvs s :
  exthds p = Ptr l 0 -> heap s !! l = Some (Kds es) -> kd_repr (heap s) es (e :: kvs) ->
  NoDup (l :: kd_locs (e :: kvs)) ->
  rtspcl_remove_all_exthds (Some p) s = UB DanglingPtr.
Proof.
  intros Hp Hl Hr Hnd. unfold rtspcl_remove_all_exthds. rewrite Hp. apply bindM_UB.
  inversion Hr as [|lk k rk ld d rd es' kvs' Hk Hnk Hd Hndd Hr']; subst.
  cbn [kd_locs flat_map loc_key loc_data app] in Hnd. fold (kd_locs kvs) in Hnd.
  apply NoDup_cons in Hnd as [Hn1 Hnd]. apply NoDup_cons in Hnd as [Hn2 _].
  rewrite !not_elem_of_cons in Hn1. rewrite not_elem_of_cons in Hn2.
  set (cell := KeyData _ _) in *.
  cbn [remove_all_loop]. rewrite decide_False by done.
  unfold key_of, data_of.
  assert (Hat : forall s0, heap s0 !! l = Some (Kds (cell :: es')) -> kd_at (Ptr l 0) 0 s0 = Ret (cell, s0))
    by (intros; by eapply kd_at_run).
  rewrite bindM_assoc. erewrite bindM_Ret by (by apply Hat). subst cell. cbn [kd_key the].
  rewrite bindM_ret, decide_False by done.
  erewrite bindM_Ret by (by eapply free_run).
  rewrite bindM_assoc. erewrite bindM_Ret by (apply Hat; cbn [heap set_heap]; rewrite lookup_delete_ne by (apply not_eq_sym; tauto); done).
  cbn [kd_data the]. rewrite bindM_ret.
  erewrite bindM_Ret by (eapply free_run; cbn [heap set_heap]; rewrite lookup_delete_ne by (apply Hn2); done).
  rewrite decide_False by done. rewrite bindM_assoc.
  erewrite bindM_Ret by (apply Hat; cbn [heap set_heap]; rewrite !lookup_delete_ne by (apply not_eq_sym; tauto); done).
  cbn [kd_key the]. rewrite bindM_ret, decide_False by done.
  apply bindM_UB. unfold free. cbn [heap set_heap].
  rewrite lookup_delete_ne by (apply not_eq_sym, Hn2). by rewrite lookup_delete_eq.
Qed.

Lemma remove_all_double_free_witness :
  rtspcl_remove_all_exthds (Some (set_exthds (Ptr 1 0) wit_client)) kd_proc = UB DanglingPtr.
Proof.
  apply (remove_all_double_free (set_exthds (Ptr 1 0) wit_client) 1 _ _ _ kd_proc eq_refl eq_refl kd_heap_repr).
  apply (bool_decide_eq_true_1 _). reflexivity.
Defined.

(** The session string does not outlive the headers of the SETUP response:
    once these are freed, as [raopcl_connect] does before it returns, the next
    request (here SET_PARAMETER, which sets the volume) reads freed memory. *)
Theorem session_dangles :
  let E := peer_env 7 wit_input in let L : LineBound := 50%nat in
  (exists kd p s, rtspcl_setup wit_client Null proc0 = Ret ((0, kd, p), s) /\
     server_port p = 6000 /\ load_str (session p) s = Ret (lit "1", s)) /\
  (do! '(_, kd, p) <- rtspcl_setup wit_client Null;
   do! _ <- free_kd kd;
   rtspcl_set_parameter p (lit "volume: 0.000000")) proc0 = UB DanglingPtr.
Proof.
  split; [|vm_compute; reflexivity].
  eexists _, _, _. split; [vm_compute; reflexivity|]. split; vm_compute; reflexivity.
Qed.
