(* ===== verification/RaopClient.v ===== *)
(** * RaopClient: the RAOP client of raop_client.c

    Streams ALAC frames to an AirTunes device: RTSP control through
    [RtspClient], packets of encrypted frames written by the event callback,
    timing and control packets, volume, track information, pause.

    [raopcl_data_t] has one owner and is passed as a value; its packet buffer
    [data] is a block of the heap.  The bodies of the two thread functions are
    modelled by their loop bodies. *)

From S2P Require Import Prelude AesTables Aes Base64 Sys AexclLib FdEvent AudioStream RtspClient.

(** ** Data *)

Inductive pause_state_t : Type := NO_PAUSE | OP_PAUSE | NODATA_PAUSE.
#[export] Instance pause_eq_dec : EqDecision pause_state_t.
Proof. solve_decision. Defined.

(** [struct timeval] *)
Record timeval : Type := Timeval { tv_sec : Z; tv_usec : Z }.

Definition JACK_STATUS_CONNECTED : Z := 1.
Definition JACK_TYPE_DIGITAL : Z := 1.
Definition VOLUME_DEF : Z := -30.
Definition VOLUME_MIN : Z := -144.
Definition VOLUME_MAX : Z := 0.
Definition BUFFER : Z := 512.

Record raopcl_data_t : Type := Raopcl {
  rtspcl : option rtspcl_data_t;
  iv : list Z;  (** initialization vector for aes-cbc *)
  nv : list Z;  (** next vector for aes-cbc *)
  key : list Z;  (** key for aes-cbc *)
  addr : ptr;  (** target host address *)
  rtsp_port : Z;
  ajstatus : Z;
  ajtype : Z;
  volume : Z;
  sfd : Z;  (** stream socket fd *)
  cfd : Z;  (** control socket fd *)
  tfd : Z;  (** time socket fd *)
  wblk_wsize : Z;
  wblk_remsize : Z;
  pause : pause_state_t;
  wait_songdone : Z;
  ctx : aes_context;
  data : ptr;
  min_sdata : list Z;  (** [MINIMUM_SAMPLE_SIZE*4+16] bytes *)
  min_sdata_size : Z;
  paused_time : Z;
  size_in_aex : Z;
  last_read_tv : timeval;
  ssrc : Z;
  timestamp : Z;
  encrypt_on : Z;  (** [encrypt] *)
  udp : Z
}.

Definition set_rtspcl (rtspcl' : option rtspcl_data_t) (d : raopcl_data_t) : raopcl_data_t :=
  Raopcl rtspcl' (d.(iv)) (d.(nv)) (d.(key)) (d.(addr)) (d.(rtsp_port)) (d.(ajstatus))
    (d.(ajtype)) (d.(volume)) (d.(sfd)) (d.(cfd)) (d.(tfd)) (d.(wblk_wsize)) (d.(wblk_remsize))
    (d.(pause)) (d.(wait_songdone)) (d.(ctx)) (d.(data)) (d.(min_sdata)) (d.(min_sdata_size))
    (d.(paused_time)) (d.(size_in_aex)) (d.(last_read_tv)) (d.(ssrc)) (d.(timestamp))
    (d.(encrypt_on)) (d.(udp)).
Definition set_nv (nv' : list Z) (d : raopcl_data_t) : raopcl_data_t :=
  Raopcl (d.(rtspcl)) (d.(iv)) nv' (d.(key)) (d.(addr)) (d.(rtsp_port)) (d.(ajstatus))
    (d.(ajtype)) (d.(volume)) (d.(sfd)) (d.(cfd)) (d.(tfd)) (d.(wblk_wsize)) (d.(wblk_remsize))
    (d.(pause)) (d.(wait_songdone)) (d.(ctx)) (d.(data)) (d.(min_sdata)) (d.(min_sdata_size))
    (d.(paused_time)) (d.(size_in_aex)) (d.(last_read_tv)) (d.(ssrc)) (d.(timestamp))
    (d.(encrypt_on)) (d.(udp)).
Definition set_addr (addr' : ptr) (rtsp_port' : Z) (d : raopcl_data_t) : raopcl_data_t :=
  Raopcl (d.(rtspcl)) (d.(iv)) (d.(nv)) (d.(key)) addr' rtsp_port' (d.(ajstatus)) (d.(ajtype))
    (d.(volume)) (d.(sfd)) (d.(cfd)) (d.(tfd)) (d.(wblk_wsize)) (d.(wblk_remsize)) (d.(pause))
    (d.(wait_songdone)) (d.(ctx)) (d.(data)) (d.(min_sdata)) (d.(min_sdata_size))
    (d.(paused_time)) (d.(size_in_aex)) (d.(last_read_tv)) (d.(ssrc)) (d.(timestamp))
    (d.(encrypt_on)) (d.(udp)).
Definition set_jack (ajstatus' : Z) (ajtype' : Z) (d : raopcl_data_t) : raopcl_data_t :=
  Raopcl (d.(rtspcl)) (d.(iv)) (d.(nv)) (d.(key)) (d.(addr)) (d.(rtsp_port)) ajstatus' ajtype'
    (d.(volume)) (d.(sfd)) (d.(cfd)) (d.(tfd)) (d.(wblk_wsize)) (d.(wblk_remsize)) (d.(pause))
    (d.(wait_songdone)) (d.(ctx)) (d.(data)) (d.(min_sdata)) (d.(min_sdata_size))
    (d.(paused_time)) (d.(size_in_aex)) (d.(last_read_tv)) (d.(ssrc)) (d.(timestamp))
    (d.(encrypt_on)) (d.(udp)).
Definition set_volume (volume' : Z) (d : raopcl_data_t) : raopcl_data_t :=
  Raopcl (d.(rtspcl)) (d.(iv)) (d.(nv)) (d.(key)) (d.(addr)) (d.(rtsp_port)) (d.(ajstatus))
    (d.(ajtype)) volume' (d.(sfd)) (d.(cfd)) (d.(tfd)) (d.(wblk_wsize)) (d.(wblk_remsize))
    (d.(pause)) (d.(wait_songdone)) (d.(ctx)) (d.(data)) (d.(min_sdata)) (d.(min_sdata_size))
    (d.(paused_time)) (d.(size_in_aex)) (d.(last_read_tv)) (d.(ssrc)) (d.(timestamp))
    (d.(encrypt_on)) (d.(udp)).
Definition set_sfd (sfd' : Z) (d : raopcl_data_t) : raopcl_data_t :=
  Raopcl (d.(rtspcl)) (d.(iv)) (d.(nv)) (d.(key)) (d.(addr)) (d.(rtsp_port)) (d.(ajstatus))
    (d.(ajtype)) (d.(volume)) sfd' (d.(cfd)) (d.(tfd)) (d.(wblk_wsize)) (d.(wblk_remsize))
    (d.(pause)) (d.(wait_songdone)) (d.(ctx)) (d.(data)) (d.(min_sdata)) (d.(min_sdata_size))
    (d.(paused_time)) (d.(size_in_aex)) (d.(last_read_tv)) (d.(ssrc)) (d.(timestamp))
    (d.(encrypt_on)) (d.(udp)).
Definition set_cfd (cfd' : Z) (d : raopcl_data_t) : raopcl_data_t :=
  Raopcl (d.(rtspcl)) (d.(iv)) (d.(nv)) (d.(key)) (d.(addr)) (d.(rtsp_port)) (d.(ajstatus))
    (d.(ajtype)) (d.(volume)) (d.(sfd)) cfd' (d.(tfd)) (d.(wblk_wsize)) (d.(wblk_remsize))
    (d.(pause)) (d.(wait_songdone)) (d.(ctx)) (d.(data)) (d.(min_sdata)) (d.(min_sdata_size))
    (d.(paused_time)) (d.(size_in_aex)) (d.(last_read_tv)) (d.(ssrc)) (d.(timestamp))
    (d.(encrypt_on)) (d.(udp)).
Definition set_tfd (tfd' : Z) (d : raopcl_data_t) : raopcl_data_t :=
  Raopcl (d.(rtspcl)) (d.(iv)) (d.(nv)) (d.(key)) (d.(addr)) (d.(rtsp_port)) (d.(ajstatus))
    (d.(ajtype)) (d.(volume)) (d.(sfd)) (d.(cfd)) tfd' (d.(wblk_wsize)) (d.(wblk_remsize))
    (d.(pause)) (d.(wait_songdone)) (d.(ctx)) (d.(data)) (d.(min_sdata)) (d.(min_sdata_size))
    (d.(paused_time)) (d.(size_in_aex)) (d.(last_read_tv)) (d.(ssrc)) (d.(timestamp))
    (d.(encrypt_on)) (d.(udp)).
Definition set_wblk (wblk_wsize' : Z) (wblk_remsize' : Z) (d : raopcl_data_t) : raopcl_data_t :=
  Raopcl (d.(rtspcl)) (d.(iv)) (d.(nv)) (d.(key)) (d.(addr)) (d.(rtsp_port)) (d.(ajstatus))
    (d.(ajtype)) (d.(volume)) (d.(sfd)) (d.(cfd)) (d.(tfd)) wblk_wsize' wblk_remsize' (d.(pause))
    (d.(wait_songdone)) (d.(ctx)) (d.(data)) (d.(min_sdata)) (d.(min_sdata_size))
    (d.(paused_time)) (d.(size_in_aex)) (d.(last_read_tv)) (d.(ssrc)) (d.(timestamp))
    (d.(encrypt_on)) (d.(udp)).
Definition set_pause_state (pause' : pause_state_t) (d : raopcl_data_t) : raopcl_data_t :=
  Raopcl (d.(rtspcl)) (d.(iv)) (d.(nv)) (d.(key)) (d.(addr)) (d.(rtsp_port)) (d.(ajstatus))
    (d.(ajtype)) (d.(volume)) (d.(sfd)) (d.(cfd)) (d.(tfd)) (d.(wblk_wsize)) (d.(wblk_remsize))
    pause' (d.(wait_songdone)) (d.(ctx)) (d.(data)) (d.(min_sdata)) (d.(min_sdata_size))
    (d.(paused_time)) (d.(size_in_aex)) (d.(last_read_tv)) (d.(ssrc)) (d.(timestamp))
    (d.(encrypt_on)) (d.(udp)).
Definition set_songdone (wait_songdone' : Z) (d : raopcl_data_t) : raopcl_data_t :=
  Raopcl (d.(rtspcl)) (d.(iv)) (d.(nv)) (d.(key)) (d.(addr)) (d.(rtsp_port)) (d.(ajstatus))
    (d.(ajtype)) (d.(volume)) (d.(sfd)) (d.(cfd)) (d.(tfd)) (d.(wblk_wsize)) (d.(wblk_remsize))
    (d.(pause)) wait_songdone' (d.(ctx)) (d.(data)) (d.(min_sdata)) (d.(min_sdata_size))
    (d.(paused_time)) (d.(size_in_aex)) (d.(last_read_tv)) (d.(ssrc)) (d.(timestamp))
    (d.(encrypt_on)) (d.(udp)).
Definition set_data_ptr (data' : ptr) (d : raopcl_data_t) : raopcl_data_t :=
  Raopcl (d.(rtspcl)) (d.(iv)) (d.(nv)) (d.(key)) (d.(addr)) (d.(rtsp_port)) (d.(ajstatus))
    (d.(ajtype)) (d.(volume)) (d.(sfd)) (d.(cfd)) (d.(tfd)) (d.(wblk_wsize)) (d.(wblk_remsize))
    (d.(pause)) (d.(wait_songdone)) (d.(ctx)) data' (d.(min_sdata)) (d.(min_sdata_size))
    (d.(paused_time)) (d.(size_in_aex)) (d.(last_read_tv)) (d.(ssrc)) (d.(timestamp))
    (d.(encrypt_on)) (d.(udp)).
Definition set_paused_time (paused_time' : Z) (d : raopcl_data_t) : raopcl_data_t :=
  Raopcl (d.(rtspcl)) (d.(iv)) (d.(nv)) (d.(key)) (d.(addr)) (d.(rtsp_port)) (d.(ajstatus))
    (d.(ajtype)) (d.(volume)) (d.(sfd)) (d.(cfd)) (d.(tfd)) (d.(wblk_wsize)) (d.(wblk_remsize))
    (d.(pause)) (d.(wait_songdone)) (d.(ctx)) (d.(data)) (d.(min_sdata)) (d.(min_sdata_size))
    paused_time' (d.(size_in_aex)) (d.(last_read_tv)) (d.(ssrc)) (d.(timestamp)) (d.(encrypt_on))
    (d.(udp)).
Definition set_aex (size_in_aex' : Z) (last_read_tv' : timeval) (d : raopcl_data_t) : raopcl_data_t :=
  Raopcl (d.(rtspcl)) (d.(iv)) (d.(nv)) (d.(key)) (d.(addr)) (d.(rtsp_port)) (d.(ajstatus))
    (d.(ajtype)) (d.(volume)) (d.(sfd)) (d.(cfd)) (d.(tfd)) (d.(wblk_wsize)) (d.(wblk_remsize))
    (d.(pause)) (d.(wait_songdone)) (d.(ctx)) (d.(data)) (d.(min_sdata)) (d.(min_sdata_size))
    (d.(paused_time)) size_in_aex' last_read_tv' (d.(ssrc)) (d.(timestamp)) (d.(encrypt_on))
    (d.(udp)).
Definition set_timestamp (timestamp' : Z) (d : raopcl_data_t) : raopcl_data_t :=
  Raopcl (d.(rtspcl)) (d.(iv)) (d.(nv)) (d.(key)) (d.(addr)) (d.(rtsp_port)) (d.(ajstatus))
    (d.(ajtype)) (d.(volume)) (d.(sfd)) (d.(cfd)) (d.(tfd)) (d.(wblk_wsize)) (d.(wblk_remsize))
    (d.(pause)) (d.(wait_songdone)) (d.(ctx)) (d.(data)) (d.(min_sdata)) (d.(min_sdata_size))
    (d.(paused_time)) (d.(size_in_aex)) (d.(last_read_tv)) (d.(ssrc)) timestamp' (d.(encrypt_on))
    (d.(udp)).
Definition set_mode (ssrc' : Z) (timestamp' : Z) (encrypt_on' : Z) (d : raopcl_data_t) : raopcl_data_t :=
  Raopcl (d.(rtspcl)) (d.(iv)) (d.(nv)) (d.(key)) (d.(addr)) (d.(rtsp_port)) (d.(ajstatus))
    (d.(ajtype)) (d.(volume)) (d.(sfd)) (d.(cfd)) (d.(tfd)) (d.(wblk_wsize)) (d.(wblk_remsize))
    (d.(pause)) (d.(wait_songdone)) (d.(ctx)) (d.(data)) (d.(min_sdata)) (d.(min_sdata_size))
    (d.(paused_time)) (d.(size_in_aex)) (d.(last_read_tv)) ssrc' timestamp' encrypt_on' (d.(udp)).
Definition set_udp (udp' : Z) (d : raopcl_data_t) : raopcl_data_t :=
  Raopcl (d.(rtspcl)) (d.(iv)) (d.(nv)) (d.(key)) (d.(addr)) (d.(rtsp_port)) (d.(ajstatus))
    (d.(ajtype)) (d.(volume)) (d.(sfd)) (d.(cfd)) (d.(tfd)) (d.(wblk_wsize)) (d.(wblk_remsize))
    (d.(pause)) (d.(wait_songdone)) (d.(ctx)) (d.(data)) (d.(min_sdata)) (d.(min_sdata_size))
    (d.(paused_time)) (d.(size_in_aex)) (d.(last_read_tv)) (d.(ssrc)) (d.(timestamp))
    (d.(encrypt_on)) udp'.

(** ** Packets *)

(** [(unsigned char)((x & 0xFF000000) >> 24)], ..., [(unsigned char)(x & 0x000000FF)] *)
Definition be32 (x : Z) : list Z :=
  [u8 ((x .& 0xFF000000) .>> 24); u8 ((x .& 0x00FF0000) .>> 16);
   u8 ((x .& 0x0000FF00) .>> 8); u8 (x .& 0x000000FF)].
Definition be64 (x : Z) : list Z :=
  [u8 ((x .& 0xFF00000000000000) .>> 56); u8 ((x .& 0x00FF000000000000) .>> 48);
   u8 ((x .& 0x0000FF0000000000) .>> 40); u8 ((x .& 0x000000FF00000000) .>> 32);
   u8 ((x .& 0x00000000FF000000) .>> 24); u8 ((x .& 0x0000000000FF0000) .>> 16);
   u8 ((x .& 0x000000000000FF00) .>> 8); u8 (x .& 0x00000000000000FF)].

(** The RTP header of an audio packet (UDP). *)
Definition rtp_header (begin seq_number timestamp ssrc : Z) : list Z :=
  [128; (if begin =? 0 then 96 else 96 + 128);
   u8 ((seq_number .& 0xFF00) .>> 8); u8 (seq_number .& 0x00FF)] ++ be32 timestamp ++ be32 ssrc.

(** The header of an audio packet (TCP), with the length filled in. *)
Definition tcp_header (count : Z) : list Z :=
  let len := u16 (count + 16 - 4) in
  [0x24; 0x00; u8 (len .>> 8); len .& 0xff; 0xF0; 0xFF; 0x00; 0x00;
   0x00; 0x00; 0x00; 0x00; 0x00; 0x00; 0x00; 0x00].

(** The packet of [raopcl_sync]. *)
Definition sync_packet (timestamp ntp : Z) : list Z :=
  [128; 212; 0x00; 0x07] ++ be32 timestamp ++ be64 ntp ++ be32 (u32 (timestamp + 352)).

(** The packet of [raopcl_time_connect]; [buf] is the request. *)
Definition time_packet (buf : list Z) (ntp : Z) : list Z :=
  [128; 211; 0x00; 0x07; 0; 0; 0; 0] ++ map (fun j => znth buf (j + 16)) (seqZ 8 8) ++ be64 ntp ++ be64 ntp.

(** ** Time stamps *)

(** Rounding of [n >= 0] to 53 significant bits, ties to even: a result of
    [double] arithmetic, in units of [2^-40]. *)
Definition round53 (n : Z) : Z :=
  let k := Z.max 0 (Z.log2 n - 52) in
  let q := n / 2 ^ k in
  let r := n mod 2 ^ k in
  let up := (2 ^ k <? 2 * r) || ((2 ^ k =? 2 * r) && Z.odd q && (0 <? k)) in
  (if up then q + 1 else q) * 2 ^ k.

(** The [double] nearest to 4294.967296, in units of [2^-40]. *)
Definition USEC_FACTOR : Z := 4722366482869645.

(** [calculate_timestamp(tv)]: the sum of an [uint64_t] and a [double] is a [double]. *)
Definition calculate_timestamp (tv : timeval) : Z :=
  let hi := u64 ((u64 (u64 tv.(tv_sec) + 2208988800)) .<< 32) in
  let lo := round53 (u32 tv.(tv_usec) * USEC_FACTOR) in
  u64 (round53 ((round53 (hi .<< 40)) + lo) .>> 40).

(** ** Encryption *)

Definition xor_block (a b : list Z) : list Z := zip_with Z.lxor a b.

(** The loop of [encrypt]: the value of [i], [raopcld->nv] and the data. *)
Fixpoint cbc_loop (fuel : nat) (g : aes_globals) (c : aes_context) (nv buf : list Z) (size i : Z)
    : outcome (Z * list Z * list Z) :=
  if i + 16 <=? size then
    match fuel with
    | O => UB NoFuel
    | S fuel =>
        if i + 16 <=? zlen buf then
          let blk := xor_block (take 16 (drop (Z.to_nat i) buf)) nv in
          let blk := aes_encrypt g c blk blk in
          do buf <- buf_write buf i blk;
          cbc_loop fuel g c blk buf size (i + 16)
        else UB OutOfBounds
    end
  else Ret (i, nv, buf).

(** [encrypt(raopcld, data, size)]: [buf] is the memory from [data] on. *)
Definition encrypt (g : aes_globals) (d : raopcl_data_t) (buf : list Z) (size : Z)
    : outcome (Z * raopcl_data_t * list Z) :=
  do '(i, nv, buf) <- cbc_loop (Z.to_nat size) g d.(ctx) d.(iv) buf size 0;
  Ret (i, set_nv nv d, buf).

(** ** Volume and buffer time: the arithmetic *)

Definition volume_of (vol : Z) : Z := VOLUME_MIN + Z.quot ((VOLUME_MAX - VOLUME_MIN) * vol) 100.

Section Raop.
Context {E : Env} {L : LineBound}.

Definition gettimeofday : M timeval :=
  do! r <- sys CGettimeofday; ret (Timeval (znth r.(rdata) 0) (znth r.(rdata) 1)).
Definition time : M Z := syscall CTime.

(** ** The event callback *)

(** The read half: the fill level the device reports is at offset 0x2c of what
    is read; the rest of [buf] is uninitialised. *)
Definition fd_event_read (d : raopcl_data_t) : M (Z * raopcl_data_t) :=
  do! '(i, buf, _) <- sys_read (CRead d.(sfd) 256);
  if 0 <? i then
    if i <? 0x30 then undef Uninit
    else
      let rsize := GET_BIGENDIAN_INT (znth buf 0x2c) (znth buf 0x2d) (znth buf 0x2e) (znth buf 0x2f) in
      do! tv <- gettimeofday;
      ret (0, set_aex rsize tv d)
  else ret (-1, d).

(** The write half.  The test [!flags&RAOP_FD_WRITE] before it is [(!flags)&2],
    which is always 0. *)
Definition fd_event_write (d : raopcl_data_t) : M (Z * raopcl_data_t) :=
  if d.(wblk_remsize) =? 0 then ret (-1, d)
  else
    do! b <- view (ptr_add d.(data) d.(wblk_wsize));
    if (d.(wblk_remsize) <? 0) || (zlen b <? d.(wblk_remsize)) then undef OutOfBounds
    else
      do! i <- syscall (CWrite d.(sfd) (take (Z.to_nat d.(wblk_remsize)) b));
      if i <=? 0 then ret (-1, d)
      else
        let d := set_wblk (d.(wblk_wsize) + i) (d.(wblk_remsize) - i) d in
        do! _ <- (if d.(wblk_remsize) =? 0
                  then set_fd_event d.(sfd) RAOP_FD_READ (Some fd_event_callback_p) true
                  else ret 0);
        ret (0, d).

Definition fd_event_callback (p : option raopcl_data_t) (flags : Z) : M (Z * option raopcl_data_t) :=
  match p with
  | None => ret (-1, None)
  | Some d =>
      do! '(r, d) <- (if negb (flags .& RAOP_FD_READ =? 0) then fd_event_read d else fd_event_write d);
      ret (r, Some d)
  end.

(** ** Control and timing channels *)

(** One iteration of [raopcl_sync]. *)
Definition raopcl_sync (d : raopcl_data_t) : M unit :=
  do! tv <- gettimeofday;
  do! _ <- syscall (CWrite d.(tfd) (sync_packet d.(timestamp) (calculate_timestamp tv)));
  do! _ <- syscall (CSleep 1);
  ret tt.

(** One iteration of [raopcl_time_connect]; [buf] is the array of the thread, which
    keeps its contents from one iteration to the next. *)
Definition raopcl_time_connect (d : raopcl_data_t) (buf : list Z) : M (list Z) :=
  do! '(i, bs, _) <- sys_read (CRead d.(tfd) 256);
  if 0 <? i then
    do! buf <- lift (buf_write buf 0 bs);
    do! tv <- gettimeofday;
    do! _ <- syscall (CWrite d.(tfd) (time_packet buf (calculate_timestamp tv)));
    ret buf
  else ret buf.

Definition SYNC_THREAD : Z := 0.
Definition TIME_THREAD : Z := 1.

Definition addr_str (d : raopcl_data_t) : M (list Z) := load_str d.(addr).

(** On failure the code closes [tfd], not [cfd]. *)
Definition raopcl_connectcontrol (d : raopcl_data_t) (myport : Z) : M (Z * raopcl_data_t) :=
  do! '(c, _) <- open_udp_socket None myport;
  let d := set_cfd c d in
  if c =? -1 then ret (-1, d)
  else
    do! host <- addr_str d;
    do! r <- get_tcp_connect_by_host c host (rtspcl_get_control_port d.(rtspcl));
    if negb (r =? 0) then do! _ <- syscall (CClose d.(tfd)); ret (-1, set_tfd (-1) d)
    else do! r <- syscall (CPthread SYNC_THREAD); ret (r, d).

Definition raopcl_connecttime (d : raopcl_data_t) (myport : Z) : M (Z * raopcl_data_t) :=
  do! '(t, _) <- open_udp_socket None myport;
  let d := set_tfd t d in
  if t =? -1 then ret (-1, d)
  else
    do! host <- addr_str d;
    do! r <- get_tcp_connect_by_host t host (rtspcl_get_timing_port d.(rtspcl));
    if negb (r =? 0) then do! _ <- syscall (CClose t); ret (-1, set_tfd (-1) d)
    else
      do! i <- syscall (CWrite t [255]);
      if i <=? 0 then ret (-1, d)
      else do! r <- syscall (CPthread TIME_THREAD); ret (r, d).

Definition raopcl_stream_connect (d : raopcl_data_t) : M (Z * raopcl_data_t) :=
  do! d <-
    (if d.(udp) =? 0 then do! '(f, _) <- open_tcp_socket None 0; ret (set_sfd f d)
     else
       do! '(_, d) <- raopcl_connectcontrol d 6001;
       do! '(_, d) <- raopcl_connecttime d 6002;
       do! '(f, _) <- open_udp_socket None 0; ret (set_sfd f d));
  if d.(sfd) =? -1 then ret (-1, d)
  else
    do! host <- addr_str d;
    do! r <- get_tcp_connect_by_host d.(sfd) host (rtspcl_get_server_port d.(rtspcl));
    if negb (r =? 0) then do! _ <- syscall (CClose d.(sfd)); ret (-1, set_sfd (-1) d)
    else ret (0, d).

(** ** Sending *)

(** [msleep(ms)] *)
Definition msleep (ms : Z) : M unit :=
  let microsecs := ms * 1000 in
  do! _ <- syscall (CSelect [] [] (Z.quot microsecs 1000000) (Z.rem microsecs 1000000)); ret tt.

Definition set_totalcount (n : Z) (v : statics) : statics :=
  Statics v.(seq_number) v.(begin) n v.(aes).
Definition set_seq (q b : Z) (v : statics) : statics := Statics q b v.(totalcount) v.(aes).
Definition set_aes (g : aes_globals) (v : statics) : statics :=
  Statics v.(seq_number) v.(begin) v.(totalcount) g.
Definition put_vars (f : statics -> statics) : M unit := modify (fun s => set_vars (f s.(vars)) s).

Definition raopcl_count_samples (count : Z) : M Z :=
  do! v <- gets vars;
  do! total <- int (v.(totalcount) + count);
  do! _ <- put_vars (set_totalcount total);
  if BUFFER * MAX_SAMPLES_IN_CHUNK <=? total then
    do! _ <- msleep 7;
    do! _ <- put_vars (set_totalcount (total - DEFAULT_SAMPLE_RATE / 25));
    ret 0
  else ret 0.

(** The packet buffer is a new block for each packet; [*p] is cleared before
    the allocation, so the old block is not freed. *)
Definition new_packet (d : raopcl_data_t) (size : Z) (header sample : list Z) (count : Z)
    : M (Z * raopcl_data_t) :=
  do! '(r, p) <- realloc_memory size;
  let d := set_data_ptr p d in
  if negb (r =? 0) then ret (-1, d)
  else
    do! _ <- store p 0 header;
    if (count <? 0) || (zlen sample <? count) then undef OutOfBounds
    else do! _ <- store p (zlen header) (take (Z.to_nat count) sample); ret (0, d).

(** [encrypt(raopcld, raopcld->data+header_size, count)] *)
Definition encrypt_packet (d : raopcl_data_t) (header_size count : Z) : M raopcl_data_t :=
  do! g <- gets (fun s => s.(vars).(aes));
  do! b <- view (ptr_add d.(data) header_size);
  do! '(_, d, b) <- lift (encrypt g d b count);
  do! _ <- store d.(data) header_size b;
  ret d.

(** [raopcl_send_sample(p, sample, count)]: [sample] is the memory from the
    pointer to the end of its object. *)
Definition raopcl_send_sample (p : option raopcl_data_t) (sample : list Z) (count : Z)
    : M (Z * option raopcl_data_t) :=
  match p with
  | None => ret (-1, None)
  | Some d =>
      if negb (d.(udp) =? 0) then
        do! v <- gets vars;
        let header := rtp_header v.(begin) v.(seq_number) d.(timestamp) d.(ssrc) in
        let d := set_timestamp (u32 (d.(timestamp) + count)) d in
        do! '(r, d) <- new_packet d (count + 12) header sample count;
        if negb (r =? 0) then ret (-1, Some d)
        else
          do! d <- (if d.(encrypt_on) =? 0 then ret d else encrypt_packet d 12 count);
          let d := set_wblk 0 (count + 12) d in
          do! r <- set_fd_event d.(sfd) (RAOP_FD_READ .| RAOP_FD_WRITE) (Some fd_event_callback_p) true;
          if negb (r =? 0) then ret (-1, Some d)
          else
            do! _ <- put_vars (set_seq (u32 (v.(seq_number) + 1)) 0);
            do! r <- raopcl_count_samples count;
            ret (r, Some d)
      else
        do! '(r, d) <- new_packet d (count + 16 + 16) (tcp_header count) sample count;
        if negb (r =? 0) then ret (-1, Some d)
        else
          do! d <- encrypt_packet d 16 count;
          let d := set_wblk 0 (count + 16) d in
          do! r <- set_fd_event d.(sfd) (RAOP_FD_READ .| RAOP_FD_WRITE) (Some fd_event_callback_p) true;
          if negb (r =? 0) then ret (-1, Some d) else ret (0, Some d)
  end.

Definition raopcl_small_silent (d : raopcl_data_t) : M (Z * raopcl_data_t) :=
  do! '(_, p) <- raopcl_send_sample (Some d) d.(min_sdata) d.(min_sdata_size);
  ret (0, default d p).

(** ** Pausing *)

(** A request on [raopcld->rtspcl]; with NULL the RTSP client returns -1. *)
Definition with_rtsp (d : raopcl_data_t) (f : rtspcl_data_t -> M (Z * rtspcl_data_t))
    : M (Z * raopcl_data_t) :=
  match d.(rtspcl) with
  | None => ret (-1, d)
  | Some r => do! '(x, r) <- f r; ret (x, set_rtspcl (Some r) d)
  end.

Definition raopcl_pause_check (d : raopcl_data_t) : M (Z * raopcl_data_t) :=
  match d.(pause) with
  | NO_PAUSE => ret (0, d)
  | OP_PAUSE =>
      do! t <- time;
      if t - d.(paused_time) <? 3 then ret (0, d)
      else
        do! '(_, d) <- with_rtsp d rtspcl_flush;
        do! t <- time; ret (1, set_paused_time t d)
  | NODATA_PAUSE =>
      do! t <- time;
      if t - d.(paused_time) <? 3 then ret (0, d)
      else
        do! '(_, d) <- raopcl_small_silent d;
        do! t <- time; ret (1, set_paused_time t d)
  end.

Definition raopcl_wait_songdone (d : raopcl_data_t) (set : Z) : Z * raopcl_data_t :=
  let d := if set =? 0 then d else set_songdone (if set =? 1 then 1 else 0) d in
  (d.(wait_songdone), d).

Definition raopcl_sample_remsize (p : option raopcl_data_t) : Z :=
  match p with None => -1 | Some d => d.(wblk_remsize) end.

Definition raopcl_set_pause (p : option raopcl_data_t) (st : pause_state_t)
    : M (Z * option raopcl_data_t) :=
  match p with
  | None => ret (-1, None)
  | Some d =>
      let d := set_pause_state st d in
      let wait (d : raopcl_data_t) :=
        do! _ <- set_fd_event d.(sfd) RAOP_FD_READ (Some fd_event_callback_p) true;
        do! t <- time; ret (0, Some (set_paused_time t d)) in
      match st with
      | OP_PAUSE => do! '(_, d) <- with_rtsp d rtspcl_flush; wait d
      | NODATA_PAUSE => wait d
      | NO_PAUSE =>
          do! _ <- set_fd_event d.(sfd) (RAOP_FD_READ .| RAOP_FD_WRITE) (Some fd_event_callback_p) true;
          ret (0, Some d)
      end
  end.

Definition raopcl_flush_stream (p : option raopcl_data_t) : M (Z * option raopcl_data_t) :=
  match p with
  | None => ret (-1, None)
  | Some d => do! '(r, d) <- with_rtsp d rtspcl_flush; ret (r, Some d)
  end.

(** [raopcl_aexbuf_time(p, &dtv)] *)
Definition aexbuf_rest (size_in_aex : Z) (last now : timeval) : timeval :=
  let sec := size_in_aex / 44100 - (now.(tv_sec) - last.(tv_sec)) in
  let usec := Z.rem size_in_aex 44100 * 10000 / 441 - (now.(tv_usec) - last.(tv_usec)) in
  let '(sec, usec) :=
    if 1000000 <=? usec then (sec + 1, usec - 1000000)
    else if usec <? 0 then (sec - 1, usec + 1000000) else (sec, usec) in
  if sec <? 0 then Timeval 0 0 else Timeval sec usec.

Definition raopcl_aexbuf_time (p : option raopcl_data_t) (dtv : timeval) : M (Z * timeval) :=
  match p with
  | None => ret (-1, dtv)
  | Some d =>
      if d.(size_in_aex) <=? 0 then ret (1, Timeval 0 0)
      else do! now <- gettimeofday; ret (0, aexbuf_rest d.(size_in_aex) d.(last_read_tv) now)
  end.

(** [raopcl_get_pause(p)]: [None] is the value -1. *)
Definition raopcl_get_pause (p : option raopcl_data_t) : option pause_state_t :=
  option_map pause p.

(** ** Parameters *)

Definition raopcl_update_volume (p : option raopcl_data_t) (vol : Z) : M (Z * option raopcl_data_t) :=
  match p with
  | None => ret (-1, None)
  | Some d =>
      match d.(rtspcl) with
      | None => ret (-1, Some d)
      | Some _ =>
          do! _ <- int ((VOLUME_MAX - VOLUME_MIN) * vol);
          let d := set_volume (volume_of vol) d in
          do! a <- sprintf 128 (lit "volume: " ++ fmt_d d.(volume) ++ lit ".000000" ++ CRLF);
          do! '(r, d) <- with_rtsp d (fun r => rtspcl_set_parameter r a);
          ret (r, Some d)
      end
  end.

(** The buffer [a] of [raopcl_set_content] and [totalSize]; [sizeof] of a
    pointer is 4 on the target, as are the lengths of the four tags. *)
Definition content_buffer (itemname songartist songalbum : list Z) : outcome (list Z * Z) :=
  let ni := zlen itemname in let na := zlen songartist in let nl := zlen songalbum in
  let totalSize := 4 + 4 + ni + 1 + 4 + 4 + na + 1 + 4 + 4 + nl + 1 in
  let a := repeat 0 512 in
  do a <- buf_write a 0 (lit "mlit");
  do a <- buf_write a 4 (be32 totalSize);
  do a <- buf_write a 8 (lit "minm");
  do a <- buf_write a 12 (be32 (ni + 1));
  do a <- buf_write a 16 itemname;
  do a <- buf_write a (4 + 4 + 4 + 4 + ni + 1) (lit "asar");
  do a <- buf_write a (4 + 4 + 4 + 4 + ni + 1 + 4) (be32 (na + 1));
  do a <- buf_write a (4 + 4 + 4 + 4 + ni + 1 + 4 + 4) songartist;
  do a <- buf_write a (4 + 4 + 4 + 4 + ni + 1 + 4 + 4 + na + 1) (lit "asal");
  do a <- buf_write a (4 + 4 + 4 + 4 + ni + 1 + 4 + 4 + na + 1 + 4) (be32 (nl + 1));
  do a <- buf_write a (4 + 4 + 4 + 4 + ni + 1 + 4 + 4 + na + 1 + 4 + 4) songalbum;
  Ret (a, totalSize + 8).

Definition raopcl_set_content (p : option raopcl_data_t) (itemname songartist songalbum : list Z)
    : M (Z * option raopcl_data_t) :=
  match p with
  | None => ret (-1, None)
  | Some d =>
      match d.(rtspcl) with
      | None => ret (-1, Some d)
      | Some _ =>
          do! '(a, totalSize) <- lift (content_buffer itemname songartist songalbum);
          do! '(r, d) <- with_rtsp d (fun r => rtspcl_set_daap r a d.(timestamp) totalSize);
          ret (r, Some d)
      end
  end.

(** ** Opening and closing *)

Definition rsa_n : list Z :=
  lit "59dE8qLieItsH1WgjrcFRKj6eUWqi+bGLOX1HL3U3GhC/j0Qg90u3sG/1CUtwC" ++
  lit "5vOYvfDmFI6oSFXi5ELabWJmT2dKHzBJKa3k9ok+8t9ucRqMd6DZHJ2YCCLlDR" ++
  lit "KSKv6kDqnw4UwPdpOMXziC/AMj3Z/lUVX1G7WSHCAWKf1zNS1eLvqr+boEjXuB" ++
  lit "OitnZ/bDzPHrTOZz0Dew0uowxf/+sG+NCK3eQJVxqcaJ/vEHKIVd2M+5qL71yJ" ++
  lit "Q+87X6oV3eaYvt3zWZYD6z5vYTcrtij2VZ9Zmni/UAaHqn9JdsBWLUEpVviYnh" ++
  lit "imNVvYFZeCXg/IdTQ+x4IRdiXNv5hEew==".
Definition rsa_e : list Z := lit "AQAB".

(** openssl/rsa.h *)
Definition RSA_PKCS1_OAEP_PADDING : Z := 4.

(** [rsa_encrypt(text, len, res)]: the return value and [res], an array of
    [cap] bytes; the encryption itself is OpenSSL's [RSA_public_encrypt] with
    OAEP padding, called with the decoded modulus and exponent. *)
Definition rsa_encrypt (text : list Z) (len cap : Z) : M (Z * list Z) :=
  do! '(nsize, modules) <- lift (base64_decode (rsa_n ++ [0]) (repeat 0 256));
  do! '(esize, exponent) <- lift (base64_decode (rsa_e ++ [0]) (repeat 0 8));
  do! '(size, bs, _) <- sys_read (CRsaPublicEncrypt
    (take (Z.to_nat nsize) modules) (take (Z.to_nat esize) exponent) (take (Z.to_nat len) text)
    RSA_PKCS1_OAEP_PADDING);
  do! res <- lift (buf_write (repeat 0 (Z.to_nat cap)) 0 bs);
  ret (size, res).

Definition RAOPCL_SIZE : Z := 800.

(** The structure after [memset] and the two [RAND_bytes]. *)
Definition raopcl_zero (iv key : list Z) : raopcl_data_t :=
  Raopcl None iv iv key Null 0 0 0 VOLUME_DEF 0 0 0 0 0 NO_PAUSE 0
    (mkCtx (zeros 64) (zeros 64) 0) Null (repeat 0 (Z.to_nat (MINIMUM_SAMPLE_SIZE * 4 + 16))) 0
    0 0 (Timeval 0 0) 0 0 0 0.

Definition set_ctx (c : aes_context) (d : raopcl_data_t) : raopcl_data_t :=
  Raopcl (d.(rtspcl)) (d.(iv)) (d.(nv)) (d.(key)) (d.(addr)) (d.(rtsp_port)) (d.(ajstatus))
    (d.(ajtype)) (d.(volume)) (d.(sfd)) (d.(cfd)) (d.(tfd)) (d.(wblk_wsize)) (d.(wblk_remsize))
    (d.(pause)) (d.(wait_songdone)) c (d.(data)) (d.(min_sdata)) (d.(min_sdata_size))
    (d.(paused_time)) (d.(size_in_aex)) (d.(last_read_tv)) (d.(ssrc)) (d.(timestamp))
    (d.(encrypt_on)) (d.(udp)).
Definition set_min_sdata (m : list Z) (n : Z) (d : raopcl_data_t) : raopcl_data_t :=
  Raopcl (d.(rtspcl)) (d.(iv)) (d.(nv)) (d.(key)) (d.(addr)) (d.(rtsp_port)) (d.(ajstatus))
    (d.(ajtype)) (d.(volume)) (d.(sfd)) (d.(cfd)) (d.(tfd)) (d.(wblk_wsize)) (d.(wblk_remsize))
    (d.(pause)) (d.(wait_songdone)) (d.(ctx)) (d.(data)) m n
    (d.(paused_time)) (d.(size_in_aex)) (d.(last_read_tv)) (d.(ssrc)) (d.(timestamp))
    (d.(encrypt_on)) (d.(udp)).

(** A field that was cleared, after [RAND_bytes]: with the result -1 (no generator) nothing
    is written. *)
Definition drawn (r : Z) (b : list Z) : list Z := if r =? -1 then repeat 0 16 else b.

(** [raopcl_open()]: the result of [malloc] is not checked. *)
Definition raopcl_open : M (option raopcl_data_t) :=
  do! ok <- malloc_struct RAOPCL_SIZE;
  do! _ <- syscall CRandSeed;
  if negb ok then undef NullDeref
  else
    do! '(r1, iv0) <- RAND_bytes 16;
    if r1 =? 0 then ret None
    else
      do! '(r2, key0) <- RAND_bytes 16;
      if r2 =? 0 then ret None
      else
        let d := raopcl_zero (drawn r1 iv0) (drawn r2 key0) in
        do! g <- gets (fun s => s.(vars).(aes));
        let '(g, c, _) := aes_set_key g d.(ctx) d.(key) 128 in
        do! _ <- put_vars (set_aes g);
        let d := set_ctx c d in
        do! '(_, m, n) <- auds_write_pcm 2 d.(min_sdata) MINIMUM_SAMPLE_SIZE
                            (MEMORY (MINIMUM_SAMPLE_SIZE * 4) (repeat 0 (Z.to_nat (MINIMUM_SAMPLE_SIZE * 4))));
        ret (Some (set_min_sdata m (default d.(min_sdata_size) n) d)).

(** [free(raopcld)]: the structure is gone. *)
Definition free_client (d : raopcl_data_t) : option raopcl_data_t := None.

(** [raopcl_close(p)]: the return value and what is left of the structure. *)
Definition raopcl_close (p : option raopcl_data_t) : M (Z * option raopcl_data_t) :=
  match p with
  | None => ret (-1, None)
  | Some d =>
      do! _ <- match d.(rtspcl) with None => ret 0 | r => rtspcl_close r end;
      do! _ <- free d.(data);
      do! _ <- free d.(addr);
      ret (0, free_client d)
  end.

(** ** Connecting *)

(** [base64_encode(data, size, &str)] with [str] NULL before: [str]. *)
Definition base64_alloc (data : list Z) (size : Z) : M ptr :=
  do! p <- malloc (Z.quot (size * 4) 3 + 4);
  if decide (p = Null) then ret Null
  else
    do! s <- view p;
    do! '(s, _) <- lift (base64_encode (fun _ => Some s) data size);
    do! _ <- store p 0 (default [] s);
    ret p.

(** [remove_char_from_string(p, '=')] *)
Definition strip_equals (p : ptr) : M unit :=
  do! s <- view p;
  do! '(_, s) <- lift (remove_char_from_string s EQUALS);
  store p 0 s.

(** The little-endian words of [buf]. *)
Definition le16 (b : list Z) (i : Z) : Z := znth b i .| (znth b (i + 1) .<< 8).
Definition le32 (b : list Z) (i : Z) : Z := le16 b i .| (le16 b (i + 2) .<< 16).

(** The session id and, for UDP, the stream source, time stamp and mode. *)
Definition session_id (d : raopcl_data_t) (buf : list Z) (encrypt : Z) : M (list Z * raopcl_data_t) :=
  if d.(udp) =? 0 then do! sid <- sprintf 16 (fmt_d (s32 (le32 buf 0))); ret (sid, d)
  else
    do! sid <- sprintf 16 (fmt_d 3420 ++ fmt_u (le16 buf 0));
    do! a <- syscall CRand;
    do! b <- syscall CRand;
    do! n <- int (s32 (a .<< 16) + b);
    ret (sid, set_mode (u32 n mod 4294967295) 0 encrypt d).

Definition sdp_text (sid local host key iv : list Z) : list Z :=
  lit "v=0" ++ CRLF ++
  lit "o=iTunes " ++ sid ++ lit " 0 IN IP4 " ++ local ++ CRLF ++
  lit "s=iTunes" ++ CRLF ++
  lit "c=IN IP4 " ++ host ++ CRLF ++
  lit "t=0 0" ++ CRLF ++
  lit "m=audio 0 RTP/AVP 96" ++ CRLF ++
  lit "a=rtpmap:96 AppleLossless" ++ CRLF ++
  lit "a=fmtp:96 " ++ fmt_d MAX_SAMPLES_IN_CHUNK ++ lit " 0 16 40 10 14 2 255 0 0 44100" ++ CRLF ++
  lit "a=rsaaeskey:" ++ key ++ CRLF ++
  lit "a=aesiv:" ++ iv ++ CRLF.

(** A token of the jack status. *)
Definition jack_token (d : raopcl_data_t) (token : list Z) : raopcl_data_t :=
  match strstr token [61] with
  | Some pc =>
      if str_eqb (take (Z.to_nat pc) token) (lit "type") &&
         str_eqb (drop (Z.to_nat (pc + 1)) token) (lit "digital")
      then set_jack d.(ajstatus) JACK_TYPE_DIGITAL d else d
  | None =>
      if str_eqb token (lit "connected") then set_jack JACK_STATUS_CONNECTED d.(ajtype) d else d
  end.

(** The jack status of the response to SETUP.  The NUL bytes [strtok] leaves in
    the value are not modelled: the block is only freed afterwards. *)
Definition jack_status (d : raopcl_data_t) (kd : ptr) : M raopcl_data_t :=
  do! aj <- kd_lookup kd (lit "Audio-Jack-Status");
  do! aj <- (if decide (aj = Null) then kd_lookup kd (lit "Apple-Jack-Status") else ret aj);
  if decide (aj = Null) then ret (set_jack JACK_STATUS_CONNECTED JACK_TYPE_DIGITAL d)
  else do! s <- load_str aj; ret (fold_left jack_token (tokens 59 s) d).

(** The label [erexit]. *)
Definition connect_exit (rval : Z) (d : raopcl_data_t) (sac key iv setup_kd : ptr)
    : M (Z * raopcl_data_t) :=
  do! _ <- free sac;
  do! _ <- free key;
  do! _ <- free iv;
  do! _ <- free_kd setup_kd;
  ret (rval, d).

(** From the keeping of the address to the end of [raopcl_connect]. *)
Definition connect_stream (d : raopcl_data_t) (host : list Z) (destport : Z) : M (Z * raopcl_data_t) :=
  do! '(r, a) <- realloc_memory (zlen host + 1);
  if negb (r =? 0) then ret (-1, set_addr a d.(rtsp_port) d)
  else
    do! _ <- strcpy a host;
    let d := set_addr a destport d in
    do! '(r, d) <- raopcl_stream_connect d;
    if negb (r =? 0) then ret (-1, d)
    else
      do! '(r, d) <- with_rtsp d rtspcl_record;
      ret (if r =? 0 then 0 else -1, d).

(** From [rsa_encrypt] to [rtspcl_setup]: the return value, [key], [iv],
    [setup_kd] and the client. *)
Definition connect_announce (d : raopcl_data_t) (r : rtspcl_data_t) (sid host : list Z) (sac : ptr)
    : M (Z * ptr * ptr * ptr * raopcl_data_t) :=
  do! '(i, rsakey) <- rsa_encrypt d.(key) 16 512;
  do! key <- base64_alloc rsakey i;
  do! _ <- strip_equals key;
  do! iv <- base64_alloc d.(iv) 16;
  do! _ <- strip_equals iv;
  do! keys <- load_str key;
  do! ivs <- load_str iv;
  do! sdp <- sprintf 1024 (sdp_text sid (rtspcl_local_ip r) host keys ivs);
  do! _ <- strip_equals sac;
  do! sacs <- load_str sac;
  do! '(x, r) <- rtspcl_add_exthds r (lit "Apple-Challenge") sacs;
  if negb (x =? 0) then ret (-1, key, iv, Null, set_rtspcl (Some r) d)
  else
    do! '(x, r) <- rtspcl_annouce_sdp r sdp;
    if negb (x =? 0) then ret (-1, key, iv, Null, set_rtspcl (Some r) d)
    else
      do! x <- rtspcl_mark_del_exthds r (lit "Apple-Challenge");
      if negb (x =? 0) then ret (-1, key, iv, Null, set_rtspcl (Some r) d)
      else
        do! '(x, kd, r) <- rtspcl_setup r Null;
        ret (x, key, iv, kd, set_rtspcl (Some r) d).

Definition raopcl_connect (p : option raopcl_data_t) (host : list Z) (destport encrypt udp' : Z)
    : M (Z * option raopcl_data_t) :=
  match p with
  | None => ret (-1, None)
  | Some d =>
      let d := set_udp udp' d in
      do! '(_, buf) <- RAND_bytes (4 + 8 + 16);
      do! '(sid, d) <- session_id d buf encrypt;
      do! sci <- sprintf 24 (fmt_08x (le32 buf 4) ++ fmt_08x (le32 buf 8));
      do! sac <- base64_alloc (drop 12 buf) 16;
      let fail (d : raopcl_data_t) (key iv kd : ptr) :=
        do! '(r, d) <- connect_exit (-1) d sac key iv kd; ret (r, Some d) in
      do! rc <- rtspcl_open d.(udp);
      match rc with
      | None => fail (set_rtspcl None d) Null Null Null
      | Some r =>
          let '(_, r) := rtspcl_set_useragent r (lit "iTunes/7.6.2 (Windows; N;)") in
          do! '(x, r) <- rtspcl_add_exthds r (lit "Client-Instance") sci;
          if negb (x =? 0) then fail (set_rtspcl (Some r) d) Null Null Null
          else
            do! '(x, r) <- rtspcl_connect r host destport sid;
            if negb (x =? 0) then fail (set_rtspcl (Some r) d) Null Null Null
            else
              do! '(x, r) <- (if d.(udp) =? 0 then ret (0, r) else rtspcl_options r);
              if negb (x =? 0) then fail (set_rtspcl (Some r) d) Null Null Null
              else
                do! '(x, key, iv, kd, d) <- connect_announce d r sid host sac;
                if negb (x =? 0) then fail d key iv kd
                else
                  do! d <- jack_status d kd;
                  do! '(x, d) <- connect_stream d host destport;
                  do! '(x, d) <- connect_exit x d sac key iv kd;
                  ret (x, Some d)
      end
  end.

End Raop.
