(* ===== verification/RaopCrypto.v ===== *)
(** * RaopCrypto: the encryption of the audio packets and of the session key

    [encrypt] of raop_client.c is AES-128 in CBC mode on the whole blocks of a
    packet, from the session's initialisation vector; the bytes after the last
    whole block stay in the clear.  [rsa_encrypt] decodes the device's public
    key from its base64 text. *)

From S2P Require Import Prelude AesTables Aes AesSpec AesProofs AesKeys Base64 Sys RtspClient RaopClient.
Import Fips.

(** ** CBC on lists of blocks *)

Fixpoint cbc_encrypt (f : list Z -> list Z) (v : list Z) (bs : list (list Z)) : list (list Z) :=
  match bs with
  | [] => []
  | b :: bs => let c := f (xor_block b v) in c :: cbc_encrypt f c bs
  end.

Fixpoint cbc_decrypt (f : list Z -> list Z) (v : list Z) (cs : list (list Z)) : list (list Z) :=
  match cs with
  | [] => []
  | c :: cs => xor_block (f c) v :: cbc_decrypt f c cs
  end.

(** The first [n] blocks of a buffer. *)
Fixpoint blocks_of (n : nat) (l : list Z) : list (list Z) :=
  match n with O => [] | S n => take 16 l :: blocks_of n (drop 16 l) end.

Definition block_ok (b : list Z) : Prop := length b = 16%nat /\ bytes b.

Lemma xor_block_ok b v : block_ok b -> block_ok v -> block_ok (xor_block b v).
Proof.
  intros (Lb & Hb) (Lv & Hv). unfold xor_block. split; [rewrite length_zip_with; lia|].
  clear Lb Lv. revert v Hv. induction Hb as [|x b Hx Hb IH]; intros v Hv; [constructor|].
  destruct Hv; cbn; [constructor|]. constructor; [by apply is_u8_lxor|by apply IH].
Qed.

Lemma xor_block_cancel b v : length b = length v -> xor_block (xor_block b v) v = b.
Proof.
  unfold xor_block. revert v. induction b as [|x b IH]; intros [|y v] H; simpl in *; try done.
  rewrite IH by congruence. f_equal. by rewrite Z.lxor_assoc, Z.lxor_nilpotent, Z.lxor_0_r.
Qed.

(** Decryption with an inverse of the block cipher inverts CBC. *)
Lemma cbc_decrypt_encrypt (f g : list Z -> list Z) bs :
  (forall b, block_ok b -> block_ok (f b) /\ g (f b) = b) ->
  forall v, block_ok v -> Forall block_ok bs ->
  cbc_decrypt g v (cbc_encrypt f v bs) = bs /\ Forall block_ok (cbc_encrypt f v bs).
Proof.
  intros Hf. induction bs as [|b bs IH]; intros v Hv Hbs; cbn; [by split|].
  inversion_clear Hbs as [|? ? Hb Hbs']. destruct (Hf _ (xor_block_ok b v Hb Hv)) as (Hc & ->).
  destruct (IH _ Hc Hbs') as (-> & Hall). split; [|by constructor].
  f_equal. apply xor_block_cancel. destruct Hb, Hv. congruence.
Qed.

Lemma cbc_encrypt_ext (f g : list Z -> list Z) bs :
  (forall b, block_ok b -> f b = g b) -> (forall b, block_ok b -> block_ok (f b)) ->
  forall v, block_ok v -> Forall block_ok bs -> cbc_encrypt f v bs = cbc_encrypt g v bs.
Proof.
  intros Hfg Hf. induction bs as [|b bs IH]; intros v Hv Hbs; cbn; [done|].
  inversion_clear Hbs as [|? ? Hb Hbs'].
  pose proof (xor_block_ok b v Hb Hv) as Hx. rewrite <- Hfg by done. f_equal. by apply IH; [apply Hf|].
Qed.

Lemma blocks_of_ok n l : (16 * n <= length l)%nat -> bytes l -> Forall block_ok (blocks_of n l).
Proof.
  revert l. induction n as [|n IH]; intros l Hn Hl; cbn; constructor.
  - split; [rewrite length_take; lia|by apply Forall_take].
  - apply IH; [rewrite length_drop; lia|by apply Forall_drop].
Qed.

Lemma concat_blocks_of n l : (16 * n <= length l)%nat -> concat (blocks_of n l) = take (16 * n) l.
Proof.
  revert l. induction n as [|n IH]; intros l Hn; [done|]. cbn [blocks_of concat].
  rewrite IH by (rewrite length_drop; lia).
  replace (16 * S n)%nat with (16 + 16 * n)%nat by lia. by rewrite take_take_drop.
Qed.

Lemma blocks_of_concat bs r : Forall block_ok bs -> blocks_of (length bs) (concat bs ++ r) = bs.
Proof.
  induction 1 as [|b bs (Hb & _) Hbs IH]; [done|]. cbn [length blocks_of concat].
  rewrite <- app_assoc, take_app_length', drop_app_length', IH by lia. done.
Qed.

Lemma length_cbc f bs : forall v, length (cbc_encrypt f v bs) = length bs.
Proof. induction bs; intros; cbn; auto. Qed.

Lemma length_concat_blocks bs : Forall block_ok bs -> length (concat bs) = (16 * length bs)%nat.
Proof. induction 1 as [|b bs (Hb & _) _ IH]; cbn; [done|]. rewrite length_app. lia. Qed.

(** ** The loop of [encrypt] *)

Lemma cbc_loop_step g c v pre b post size fuel i :
  length b = 16%nat -> i = zlen pre -> i + 16 <= size ->
  let e := aes_encrypt g c (xor_block b v) (xor_block b v) in
  length e = 16%nat ->
  cbc_loop (S fuel) g c v (pre ++ b ++ post) size i =
  cbc_loop fuel g c e (pre ++ e ++ post) size (i + 16).
Proof.
  intros Hb -> Hs e He. cbn [cbc_loop]. rewrite (proj2 (Z.leb_le _ size)) by lia.
  rewrite (proj2 (Z.leb_le _ (zlen (pre ++ b ++ post))))
    by (unfold zlen; rewrite !length_app; lia).
  assert (Hp : Z.to_nat (zlen pre) = length pre) by (unfold zlen; lia).
  rewrite Hp, drop_app_length, (take_app_length' b) by lia. fold e.
  rewrite buf_write_ok by (unfold zlen; rewrite ?length_app; lia). cbn [obind].
  unfold splice. rewrite Hp, take_app_length. do 2 f_equal.
  rewrite He, app_assoc, drop_app_length' by (rewrite length_app; lia). done.
Qed.

Lemma last_shift {A} (l : list A) : forall x d, List.last (x :: l) d = List.last l x.
Proof. induction l as [|y l IH]; intros x d; [done|]. cbn [List.last] in *. by rewrite !IH. Qed.

Lemma cbc_loop_spec g c bs : forall v pre post size fuel,
  (forall b, block_ok b -> block_ok (aes_encrypt g c b b)) -> block_ok v -> Forall block_ok bs ->
  zlen pre + 16 * Z.of_nat (length bs) <= size < zlen pre + 16 * Z.of_nat (length bs) + 16 ->
  (length bs <= fuel)%nat ->
  let cs := cbc_encrypt (fun b => aes_encrypt g c b b) v bs in
  cbc_loop fuel g c v (pre ++ concat bs ++ post) size (zlen pre) =
  Ret (zlen pre + 16 * Z.of_nat (length bs), List.last cs v, pre ++ concat cs ++ post).
Proof.
  induction bs as [|b bs IH]; intros v pre post size fuel Hf Hv Hbs Hs Hfu.
  - simpl in *. destruct fuel; cbn [cbc_loop]; rewrite (proj2 (Z.leb_gt _ _)) by lia;
      do 3 f_equal; lia.
  - inversion_clear Hbs as [|? ? Hb Hbs']. destruct fuel as [|fuel]; [simpl in Hfu; lia|].
    cbn [concat length cbc_encrypt] in *. rewrite <- app_assoc.
    destruct (Hf _ (xor_block_ok b v Hb Hv)) as (He & Hb').
    rewrite cbc_loop_step by (done || apply Hb || lia).
    set (e := aes_encrypt _ _ _ _) in *.
    assert (Hz : zlen pre + 16 = zlen (pre ++ e)) by (unfold zlen; rewrite length_app; lia).
    rewrite Hz, app_assoc, IH; [|done|by split|done|lia|lia].
    rewrite <- !app_assoc, <- Hz.
    replace (zlen pre + 16 * Z.of_nat (S (length bs)))
      with (zlen pre + 16 + 16 * Z.of_nat (length bs)) by lia.
    set (r := cbc_encrypt _ e bs).
    by rewrite last_shift.
Qed.

(** ** A context that was set up for a key *)

(** What [aes_set_key] establishes for a key of 128 bits. *)
Definition keyed (g : aes_globals) (c : aes_context) (k : list Z) : Prop :=
  tab g = T /\ words_ok (erk c) /\ words_ok (drk c) /\ nr c = 10 /\
  filled (erk c) (znth (KeyExpansion 4 k)) 44 /\ schedules_fit (erk c) (drk c) 10.

(** The FIPS-197 cipher of a key on a block of bytes. *)
Definition fips_block (k b : list Z) : list Z :=
  bytes_of (Cipher (KeyExpansion 4 k) 10 (state_of b)).

Lemma keyed_set_key g c k :
  globals_ok g -> ctx_ok c -> bytes k -> zlen k = 16 ->
  exists g' c', aes_set_key g c k 128 = (g', c', 0) /\ globals_ok g' /\ keyed g' c' k.
Proof.
  intros Hg Hc Hb Hl.
  destruct (aes_set_key_spec g c k 4 Hg Hc ltac:(lia) Hb ltac:(lia))
    as (g' & c' & E & (Hg' & _) & Ht & (_ & _ & He & Hd) & Hn & Hf & Hs).
  exists g', c'. split; [exact E|]. split; [done|]. unfold keyed. split_and!; done.
Qed.

Lemma keyed_encrypt g c k b :
  keyed g c k -> block_ok b ->
  aes_encrypt g c b b = fips_block k b /\ block_ok (aes_encrypt g c b b) /\
  aes_decrypt g c (aes_encrypt g c b b) (aes_encrypt g c b b) = b.
Proof.
  intros (Ht & He & Hd & Hn & (_ & _ & Hf) & Hs) (Lb & Hb).
  pose proof (aes_encrypt_cipher g c b b Ht He ltac:(lia) Lb Hb Lb) as E.
  assert (Hok : block_ok (aes_encrypt g c b b)).
  { rewrite E. split; [apply bytes_of_length|]. apply bytes_of_bytes, Cipher_ok, state_of_ok. }
  split_and!; [|done|].
  - rewrite E, Hn. unfold fips_block. by rewrite (Cipher_ext _ (KeyExpansion 4 k)).
  - rewrite E at 1. apply aes_decrypt_cipher; try done; [lia|by rewrite Hn|apply Hok].
Qed.

Lemma length_blocks_of n : forall l, length (blocks_of n l) = n.
Proof. induction n; intros; cbn; auto. Qed.

(** The cipher blocks of the first [n] blocks of a buffer. *)
Definition cipher_blocks (k v : list Z) (n : nat) (buf : list Z) : list (list Z) :=
  cbc_encrypt (fips_block k) v (blocks_of n buf).

Section Keyed.
Context (g : aes_globals) (d : raopcl_data_t).
Context (Hk : keyed g d.(ctx) d.(key)) (Hiv : block_ok d.(iv)).

Lemma cipher_blocks_aes n buf :
  (16 * n <= length buf)%nat -> bytes buf ->
  cbc_encrypt (fun b => aes_encrypt g d.(ctx) b b) d.(iv) (blocks_of n buf) =
    cipher_blocks d.(key) d.(iv) n buf /\
  cbc_decrypt (fun c => aes_decrypt g d.(ctx) c c) d.(iv) (cipher_blocks d.(key) d.(iv) n buf) =
    blocks_of n buf /\
  Forall block_ok (cipher_blocks d.(key) d.(iv) n buf).
Proof.
  intros Hl Hb. pose proof (blocks_of_ok n buf Hl Hb) as Hbs.
  assert (Hf : forall b, block_ok b -> block_ok (aes_encrypt g d.(ctx) b b) /\
    aes_decrypt g d.(ctx) (aes_encrypt g d.(ctx) b b) (aes_encrypt g d.(ctx) b b) = b)
    by (intros b Hbk; apply (keyed_encrypt g (ctx d) (key d) b Hk Hbk)).
  assert (Ecs : cbc_encrypt (fun b => aes_encrypt g d.(ctx) b b) d.(iv) (blocks_of n buf) =
    cipher_blocks d.(key) d.(iv) n buf).
  { apply cbc_encrypt_ext; try done; intros b Hbk; apply (keyed_encrypt g (ctx d) (key d) b Hk Hbk). }
  destruct (cbc_decrypt_encrypt (fun b => aes_encrypt g d.(ctx) b b) (fun c => aes_decrypt g d.(ctx) c c)
    (blocks_of n buf) Hf _ Hiv Hbs) as (Hd & Ha).
  rewrite Ecs in Hd, Ha. done.
Qed.

Lemma length_cipher n buf :
  (16 * n <= length buf)%nat -> bytes buf ->
  length (concat (cipher_blocks d.(key) d.(iv) n buf)) = (16 * n)%nat /\
  bytes (concat (cipher_blocks d.(key) d.(iv) n buf)).
Proof.
  intros Hl Hb. destruct (cipher_blocks_aes n buf Hl Hb) as (_ & _ & Ha). split.
  - rewrite length_concat_blocks by done. unfold cipher_blocks. by rewrite length_cbc, length_blocks_of.
  - apply Forall_concat. eapply Forall_impl; [exact Ha|]. by intros x (_ & ?).
Qed.

Lemma encrypt_run buf size :
  bytes buf -> 0 <= size <= zlen buf ->
  let n := Z.to_nat (size / 16) in
  let cs := cipher_blocks d.(key) d.(iv) n buf in
  encrypt g d buf size =
    Ret (16 * Z.of_nat n, set_nv (List.last cs d.(iv)) d, concat cs ++ drop (16 * n) buf).
Proof.
  intros Hb Hs n cs.
  assert (Hn : 16 * Z.of_nat n <= size < 16 * Z.of_nat n + 16)
    by (unfold n; Z.div_mod_to_equations; lia).
  assert (Hl : (16 * n <= length buf)%nat) by (unfold zlen in Hs; lia).
  destruct (cipher_blocks_aes n buf Hl Hb) as (Ecs & _ & _).
  pose proof (cbc_loop_spec g (ctx d) (blocks_of n buf) (iv d) [] (drop (16 * n) buf) size
    (Z.to_nat size) ltac:(intros b Hbk; apply (keyed_encrypt g (ctx d) (key d) b Hk Hbk)) Hiv
    (blocks_of_ok n buf Hl Hb)
    ltac:(rewrite length_blocks_of; unfold zlen; simpl; lia) ltac:(rewrite length_blocks_of; lia)) as H.
  cbv zeta in H. rewrite Ecs, concat_blocks_of, length_blocks_of in H by done.
  change (zlen []) with 0 in H. cbn [app] in H. rewrite take_drop in H.
  unfold encrypt. by rewrite H.
Qed.

End Keyed.

(** C8: [encrypt] replaces the whole 16-byte blocks of the first [size] bytes
    by their AES-128-CBC encryption (the cipher of FIPS-197 under the session
    key, from the session's initialisation vector), keeps every other byte, and
    returns the number of bytes encrypted; [nv] is the last cipher block.  A
    receiver that has the key recovers the data with [aes_decrypt]. *)
Theorem encrypt_is_cbc g d buf size :
  keyed g d.(ctx) d.(key) -> block_ok d.(iv) -> bytes buf -> 0 <= size <= zlen buf ->
  let n := Z.to_nat (size / 16) in
  let cs := cbc_encrypt (fips_block d.(key)) d.(iv) (blocks_of n buf) in
  let out := concat cs ++ drop (16 * n) buf in
  encrypt g d buf size = Ret (16 * Z.of_nat n, set_nv (List.last cs d.(iv)) d, out) /\
  zlen out = zlen buf /\ bytes out /\
  concat (cbc_decrypt (fun c => aes_decrypt g d.(ctx) c c) d.(iv) (blocks_of n out)) =
    take (16 * n) buf.
Proof.
  intros Hk Hiv Hb Hs n cs out.
  assert (Hl : (16 * n <= length buf)%nat)
    by (unfold n, zlen in *; pose proof (Z.mul_div_le size 16); lia).
  destruct (cipher_blocks_aes g d Hk Hiv n buf Hl Hb) as (_ & Hdec & Hall).
  destruct (length_cipher g d Hk Hiv n buf Hl Hb) as (Hcl & Hcb).
  split_and!.
  - by apply encrypt_run.
  - unfold out, zlen. rewrite length_app, length_drop. unfold cs, cipher_blocks in *. lia.
  - apply Forall_app. split; [done|by apply Forall_drop].
  - unfold out. replace n with (length cs) at 1 by (unfold cs; by rewrite length_cbc, length_blocks_of).
    rewrite blocks_of_concat by done. unfold cipher_blocks in Hdec. fold cs in Hdec. rewrite Hdec.
    by apply concat_blocks_of.
Qed.

Lemma encrypt_is_cbc_witness :
  exists g c, aes_set_key globals_at_start ctx_zero iota_key 128 = (g, c, 0) /\
  exists nv out,
    encrypt g (set_ctx c (raopcl_zero iota_key iota_key)) (iota_key ++ [7; 8; 9]) 19 =
      Ret (16, nv, out) /\
    out = fips_block iota_key (repeat 0 16) ++ [7; 8; 9].
Proof.
  destruct (keyed_set_key globals_at_start ctx_zero iota_key globals_at_start_ok ctx_zero_ok
    iota_key_bytes eq_refl) as (g & c & E & _ & Hk).
  exists g, c. split; [exact E|].
  destruct (encrypt_is_cbc g (set_ctx c (raopcl_zero iota_key iota_key)) (iota_key ++ [7; 8; 9]) 19 Hk
    (conj eq_refl iota_key_bytes)
    ltac:(repeat constructor; unfold is_u8; lia)
    ltac:(vm_compute; split; discriminate)) as (-> & _).
  eexists _, _. split; [reflexivity|vm_compute; reflexivity].
Defined.

(** ** The session key *)

(** The modulus of the device's public key. *)
Definition rsa_modulus : list Z :=
  match base64_decode (rsa_n ++ [0]) (repeat 0 256) with Ret (_, b) => b | UB _ => [] end.

Lemma rsa_n_decodes : base64_decode (rsa_n ++ [0]) (repeat 0 256) = Ret (256, rsa_modulus).
Proof. vm_compute. reflexivity. Qed.

Lemma rsa_e_decodes : base64_decode (rsa_e ++ [0]) (repeat 0 8) = Ret (3, [1; 0; 1; 0; 0; 0; 0; 0]).
Proof. vm_compute. reflexivity. Qed.

Lemma rsa_encrypt_run {E : Env} text len cap s :
  let c := CRsaPublicEncrypt rsa_modulus [1; 0; 1] (take (Z.to_nat len) text) RSA_PKCS1_OAEP_PADDING in
  let r := env_reply (trace s) c in
  0 <= cap -> rv r <= cap ->
  rsa_encrypt text len cap s =
    Ret ((rv r, splice (repeat 0 (Z.to_nat cap)) 0 (resize (Z.to_nat (rv r)) 0 (map u8 (rdata r)))),
         with_trace (c :: trace s) s).
Proof.
  intros c r Hcap Hr. unfold rsa_encrypt, lift, bindM. rewrite rsa_n_decodes, rsa_e_decodes. cbn [obind].
  rewrite sys_read_run. cbv zeta.
  replace (take (Z.to_nat 256) rsa_modulus) with rsa_modulus by (vm_compute; reflexivity).
  change (take (Z.to_nat 3) [1; 0; 1; 0; 0; 0; 0; 0]) with [1; 0; 1]. fold c. fold r.
  rewrite buf_write_ok by (unfold zlen; rewrite ?repeat_length, ?length_resize; lia). done.
Qed.
