(* ===== verification/RaopTime.v ===== *)
(** * RaopTime: the arithmetic of raop_client.c

    NTP time stamps, the play time left in the device's buffer, volume. *)

From S2P Require Import Prelude Sys AexclLib AudioStream RtspClient RaopClient.

(** ** Rounding *)

Lemma round53_scale n :
  0 <= n -> let k := Z.max 0 (Z.log2 n - 52) in
  exists m, round53 n = m * 2 ^ k /\ -(2 ^ k) <= 2 * (round53 n - n) <= 2 ^ k.
Proof.
  intros Hn k. unfold round53. fold k. assert (0 < 2 ^ k) by (apply Z.pow_pos_nonneg; lia).
  set (w := 2 ^ k) in *. clearbody w.
  pose proof (Z.div_mod n w ltac:(lia)). pose proof (Z.mod_pos_bound n w ltac:(lia)).
  set (q := n / w) in *. set (r := n mod w) in *. clearbody q r.
  destruct (Z.ltb_spec w (2 * r)) as [|Hle].
  - exists (q + 1). split; [done|]. cbn. nia.
  - cbn [orb]. destruct ((w =? 2 * r) && Z.odd q && (0 <? k)) eqn:Hup.
    + apply andb_prop in Hup as [Hup _]. apply andb_prop in Hup as [Hup _].
      apply Z.eqb_eq in Hup. exists (q + 1). split; [done|]. nia.
    + exists q. split; [done|]. nia.
Qed.

Lemma round53_exact n : 0 <= n -> (2 ^ Z.max 0 (Z.log2 n - 52) | n) -> round53 n = n.
Proof.
  intros Hn Hd. unfold round53. set (k := Z.max 0 _) in *.
  assert (0 < 2 ^ k) by (apply Z.pow_pos_nonneg; lia).
  apply Z.mod_divide in Hd; [|lia]. rewrite Hd.
  rewrite (proj2 (Z.ltb_ge _ (2 * 0))) by lia. rewrite (proj2 (Z.eqb_neq _ (2 * 0))) by lia.
  cbn [orb andb]. pose proof (Z.div_mod n (2 ^ k) ltac:(lia)). lia.
Qed.

Lemma round53_hi h : 0 <= h < 2 ^ 32 -> round53 (h * 2 ^ 72) = h * 2 ^ 72.
Proof.
  intros Hh. apply round53_exact; [lia|].
  destruct (Z.eq_dec h 0) as [->|]; [apply Z.divide_0_r|].
  assert (Z.log2 (h * 2 ^ 72) < 104).
  { apply Z.log2_lt_pow2; [lia|]. change (2 ^ 104) with (2 ^ 32 * 2 ^ 72). nia. }
  apply Z.divide_mul_r. exists (2 ^ (72 - Z.max 0 (Z.log2 (h * 2 ^ 72) - 52))).
  rewrite <- Z.pow_add_r by lia. f_equal. lia.
Qed.

Lemma round53_lo u : 0 <= u < 1000000 ->
  let x := u * USEC_FACTOR in -(2 ^ 20) <= 2 * (round53 x - x) <= 2 ^ 20.
Proof.
  intros Hu x. assert (Hx : 0 <= x < 2 ^ 73) by (unfold x, USEC_FACTOR; lia).
  destruct (round53_scale x ltac:(lia)) as (m & _ & H).
  set (k := Z.max 0 (Z.log2 x - 52)) in *.
  assert (k <= 20).
  { unfold k. pose proof (Z.log2_nonneg x). destruct (Z.eq_dec x 0) as [->|]; [cbn; lia|].
    assert (Z.log2 x < 73) by (apply Z.log2_lt_pow2; lia). lia. }
  assert (2 ^ k <= 2 ^ 20) by (apply Z.pow_le_mono_r; lia). lia.
Qed.

Lemma round53_sum n : 2 ^ 103 <= n < 2 ^ 104 ->
  exists m, round53 n = m * 2 ^ 51 /\ -(2 ^ 51) <= 2 * (round53 n - n) <= 2 ^ 51.
Proof.
  intros Hn. destruct (round53_scale n ltac:(lia)) as (m & Hm & H).
  replace (Z.max 0 (Z.log2 n - 52)) with 51 in *; [by exists m|].
  assert (Z.log2 n = 103) as ->; [|done]. apply Z.log2_unique; lia.
Qed.

(** ** NTP time stamps *)

(** The seconds from 1900 to 1970, and the first second the format cannot hold. *)
Definition NTP_EPOCH : Z := 2208988800.
Definition NTP_LIMIT : Z := 2 ^ 32 - NTP_EPOCH.

Lemma calculate_timestamp_form sec usec :
  0 <= sec < NTP_LIMIT -> 0 <= usec < 1000000 ->
  exists m, calculate_timestamp (Timeval sec usec) = m * 2048 /\
    -(2 ^ 51 + 2 ^ 20) <= 2 * (m * 2 ^ 51 - ((sec + NTP_EPOCH) * 2 ^ 72 + usec * USEC_FACTOR))
      <= 2 ^ 51 + 2 ^ 20.
Proof.
  unfold NTP_LIMIT, NTP_EPOCH. intros Hs Hu. unfold calculate_timestamp. cbn [tv_sec tv_usec].
  set (h := sec + 2208988800). assert (Hh : 2 ^ 31 < h < 2 ^ 32) by (unfold h; lia).
  replace (u64 (u64 sec + 2208988800)) with h
    by (unfold u64, h; rewrite (Z.mod_small sec) by lia; symmetry; apply Z.mod_small; lia).
  replace (u64 (h .<< 32)) with (h * 2 ^ 32)
    by (unfold u64; rewrite Z.shiftl_mul_pow2 by lia; symmetry; apply Z.mod_small; lia).
  rewrite (Z.shiftl_mul_pow2 _ 40) by lia. rewrite <- Z.mul_assoc.
  change (2 ^ 32 * 2 ^ 40) with (2 ^ 72). rewrite round53_hi by lia.
  replace (u32 usec) with usec by (symmetry; apply u32_id; unfold is_u32; lia).
  pose proof (round53_lo usec Hu) as Hlo. cbv zeta in Hlo.
  assert (Hx : 0 <= usec * USEC_FACTOR <= 999999 * USEC_FACTOR) by (unfold USEC_FACTOR; lia).
  assert (Hlo0 : 0 <= round53 (usec * USEC_FACTOR)).
  { destruct (Z.eq_dec usec 0) as [->|]; [done|]. unfold USEC_FACTOR in *. lia. }
  set (lo := round53 (usec * USEC_FACTOR)) in *.
  assert (Hsum : 2 ^ 103 <= h * 2 ^ 72 + lo < 2 ^ 104 - 2 ^ 51) by (unfold USEC_FACTOR in *; lia).
  destruct (round53_sum (h * 2 ^ 72 + lo) ltac:(lia)) as (m & Em & Hm).
  exists m. rewrite Em in *. split; [|lia].
  rewrite Z.shiftr_div_pow2 by lia. change (2 ^ 51) with (2048 * 2 ^ 40).
  rewrite Z.mul_assoc, Z.div_mul by lia. unfold u64. apply Z.mod_small. lia.
Qed.

(** C34: for every time of day before the year 2036 the seconds of the NTP time
    stamp are exact; the sum is formed in a [double], so the fraction is a
    multiple of 2048 units (0.5 microseconds) within 1025 units of the time. *)
Theorem calculate_timestamp_accuracy sec usec :
  0 <= sec < NTP_LIMIT -> 0 <= usec < 1000000 ->
  let t := calculate_timestamp (Timeval sec usec) in
  t / 2 ^ 32 = sec + NTP_EPOCH /\ t mod 2048 = 0 /\
  Z.abs (t mod 2 ^ 32 * 1000000 - usec * 2 ^ 32) <= 1025 * 1000000.
Proof.
  intros Hs Hu t. destruct (calculate_timestamp_form sec usec Hs Hu) as (m & Et & Hm).
  fold t in Et. rewrite Et. clearbody t. clear Et t.
  unfold NTP_LIMIT, NTP_EPOCH, USEC_FACTOR in *. set (h := sec + 2208988800) in *.
  assert (Hq : 0 <= m * 2048 - h * 2 ^ 32 < 2 ^ 32) by lia.
  assert (Hdiv : m * 2048 / 2 ^ 32 = h) by (symmetry; apply (Z.div_unique_pos _ _ _ (m * 2048 - h * 2 ^ 32)); lia).
  assert (Hmod : m * 2048 mod 2 ^ 32 = m * 2048 - h * 2 ^ 32)
    by (symmetry; apply (Z.mod_unique_pos _ _ h); lia).
  split_and!; [done|by rewrite Z.mod_mul|]. rewrite Hmod. lia.
Qed.

Lemma calculate_timestamp_accuracy_witness :
  calculate_timestamp (Timeval 1700000000 500000) / 2 ^ 32 = 3908988800 /\
  calculate_timestamp (Timeval 1700000000 500000) mod 2 ^ 32 = 2 ^ 31.
Proof.
  split; [|by vm_compute].
  refine (proj1 (calculate_timestamp_accuracy 1700000000 500000 _ _));
    unfold NTP_LIMIT, NTP_EPOCH; lia.
Defined.

(** ** The play time left in the device *)

Definition usecs (t : timeval) : Z := t.(tv_sec) * 1000000 + t.(tv_usec).
Definition normal (t : timeval) : Prop := 0 <= t.(tv_usec) < 1000000.

(** The time [raopcl_aexbuf_time] reports is a normalised time that is the
    play time of the samples in the device (44100 per second, rounded down to a
    microsecond) less the time since they were counted, or 0 when it is over. *)
Theorem aexbuf_rest_exact size last now :
  0 < size -> normal last -> normal now ->
  let r := aexbuf_rest size last now in
  normal r /\ 0 <= r.(tv_sec) /\
  usecs r = Z.max 0 (size * 1000000 / 44100 - (usecs now - usecs last)).
Proof.
  intros Hs Hl Hn. unfold aexbuf_rest, normal, usecs in *.
  rewrite Z.rem_mod_nonneg by lia.
  assert (Hq : size * 1000000 / 44100 = size / 44100 * 1000000 + size mod 44100 * 10000 / 441).
  { symmetry. pose proof (Z.div_mod size 44100). pose proof (Z.mod_pos_bound size 44100).
    Z.div_mod_to_equations; lia. }
  rewrite Hq. clear Hq.
  assert (0 <= size mod 44100 * 10000 / 441 < 1000000)
    by (pose proof (Z.mod_pos_bound size 44100); Z.div_mod_to_equations; lia).
  set (a := size / 44100). set (b := size mod 44100 * 10000 / 441) in *. clearbody a b.
  set (us := b - (tv_usec now - tv_usec last)).
  assert (us = b - (tv_usec now - tv_usec last)) by done. clearbody us.
  destruct (Z.leb_spec 1000000 us); [|destruct (Z.ltb_spec us 0)];
    (case Z.ltb_spec; intros; cbn [tv_sec tv_usec]; lia).
Qed.

Lemma aexbuf_rest_exact_witness :
  usecs (aexbuf_rest 330750 (Timeval 10 900000) (Timeval 12 100000)) = 6300000.
Proof.
  refine (proj2 (proj2 (aexbuf_rest_exact 330750 (Timeval 10 900000) (Timeval 12 100000) _ _ _)));
    unfold normal; cbn; lia.
Defined.

(** ** Volume *)

(** The scale 0..100 is mapped onto the device's range, the ends to the
    ends, and a louder setting never gives a lower value. *)
Theorem volume_of_range vol vol' :
  0 <= vol <= vol' -> vol' <= 100 ->
  VOLUME_MIN <= volume_of vol <= volume_of vol' /\ volume_of vol' <= VOLUME_MAX /\
  (volume_of vol = VOLUME_MIN <-> vol = 0) /\ volume_of 100 = VOLUME_MAX.
Proof.
  intros H H'. unfold volume_of, VOLUME_MIN, VOLUME_MAX. rewrite !Z.quot_div_nonneg by lia.
  split_and!; Z.div_mod_to_equations; lia.
Qed.

Lemma volume_of_range_witness : VOLUME_MIN <= volume_of 30 <= volume_of 80.
Proof. refine (proj1 (volume_of_range 30 80 _ _)); lia. Defined.
