(* ===== verification/RaopContent.v ===== *)
(** * RaopContent: the track information of [raopcl_set_content]

    The buffer the code fills by offsets is the DMAP encoding of the three
    strings: a container [mlit] with the items [minm], [asar], [asal], each a
    four-character tag, a big-endian length and the value. *)

From S2P Require Import Prelude Sys RtspClient RaopClient.

(** ** The encoding and a decoder *)

Definition dmap_item (tag value : list Z) : list Z := tag ++ be32 (zlen value) ++ value.

Definition dmap_track (itemname songartist songalbum : list Z) : list Z :=
  dmap_item (lit "mlit")
    (dmap_item (lit "minm") (itemname ++ [0]) ++ dmap_item (lit "asar") (songartist ++ [0]) ++
     dmap_item (lit "asal") (songalbum ++ [0])).

(** The items of a byte string, as a receiver reads them. *)
Fixpoint dmap_items (fuel : nat) (l : list Z) : option (list (list Z * list Z)) :=
  match fuel, l with
  | _, [] => Some []
  | S fuel, a :: b :: c :: d :: w :: x :: y :: z :: l =>
      let n := pack4 w x y z in
      if n <=? zlen l then
        option_map (cons ([a; b; c; d], take (Z.to_nat n) l)) (dmap_items fuel (drop (Z.to_nat n) l))
      else None
  | _, _ => None
  end.

(** The strings of a track. *)
Definition dmap_decode (l : list Z) : option (list (list Z * list Z)) :=
  match dmap_items 1 l with
  | Some [(tag, v)] => if bool_decide (tag = lit "mlit") then dmap_items 3 v else None
  | _ => None
  end.

Lemma mask_byte x s : 0 <= s -> u8 ((x .& (255 .<< s)) .>> s) = byte_at x s.
Proof.
  intros Hs. unfold byte_at, u8.
  rewrite Z.shiftr_land, Z.shiftr_shiftl_l, Z.sub_diag, Z.shiftl_0_r by lia.
  change 255 with (Z.ones 8). rewrite Z.land_ones by lia. change (2 ^ 8) with 256.
  by rewrite Z.mod_mod.
Qed.

Lemma be32_bytes x : be32 x = [byte_at x 24; byte_at x 16; byte_at x 8; byte_at x 0].
Proof.
  rewrite <- !mask_byte by lia. unfold be32. by rewrite (Z.shiftr_0_r (x .& _)).
Qed.

Lemma dmap_items_item fuel tag v l :
  length tag = 4%nat -> is_u32 (zlen v) ->
  dmap_items (S fuel) (dmap_item tag v ++ l) = option_map (cons (tag, v)) (dmap_items fuel l).
Proof.
  intros Ht Hv. destruct tag as [|a [|b [|c [|d [|]]]]]; try done.
  unfold dmap_item. rewrite be32_bytes. cbn [app dmap_items].
  rewrite pack4_byte_at by done.
  rewrite (proj2 (Z.leb_le _ _)) by (rewrite zlen_app; pose proof (zlen_nonneg l); lia).
  unfold zlen. rewrite Nat2Z.id, take_app_length, drop_app_length. done.
Qed.

(** ** Filling a zeroed buffer from the left *)

Lemma zlen_be32 x : zlen (be32 x) = 4.
Proof. done. Qed.

Lemma fill_write pre src n o :
  o = zlen pre -> zlen src <= n ->
  buf_write (pre ++ repeat 0 (Z.to_nat n)) o src =
  Ret ((pre ++ src) ++ repeat 0 (Z.to_nat (n - zlen src))).
Proof.
  intros -> Hn. pose proof (zlen_nonneg src).
  rewrite buf_write_ok by (pose proof (zlen_nonneg pre); unfold zlen in *;
    rewrite ?length_app, ?repeat_length; lia).
  unfold splice, zlen in *. rewrite Nat2Z.id, take_app_length, <- app_assoc. do 3 f_equal.
  replace (Z.to_nat n) with (length src + Z.to_nat (n - Z.of_nat (length src)))%nat by lia.
  rewrite repeat_app, app_assoc. rewrite drop_app_length'; [done|].
  rewrite length_app, repeat_length. lia.
Qed.

(** The same after a NUL that is left as it is. *)
Lemma fill_skip pre src n o :
  o = zlen pre + 1 -> zlen src <= n - 1 ->
  buf_write (pre ++ repeat 0 (Z.to_nat n)) o src =
  Ret (((pre ++ [0]) ++ src) ++ repeat 0 (Z.to_nat (n - 1 - zlen src))).
Proof.
  intros -> Hn. pose proof (zlen_nonneg src).
  replace (Z.to_nat n) with (S (Z.to_nat (n - 1))) by lia. cbn [repeat].
  change (0 :: repeat 0 (Z.to_nat (n - 1))) with ([0] ++ repeat 0 (Z.to_nat (n - 1))).
  rewrite app_assoc. apply fill_write; [by rewrite zlen_app|lia].
Qed.

Ltac fits := rewrite ?zlen_app, ?zlen_be32; change (zlen (@nil Z)) with 0; change (zlen (lit _)) with 4;
  change (zlen [0]) with 1; lia.

Lemma zlen_track i a l : zlen (dmap_track i a l) = 35 + zlen i + zlen a + zlen l.
Proof. unfold dmap_track, dmap_item. fits. Qed.

Lemma content_buffer_fill i a l :
  let t := dmap_track i a l in zlen t <= 512 ->
  content_buffer i a l = Ret (t ++ repeat 0 (Z.to_nat (512 - zlen t)), zlen t).
Proof.
  intros t Ht. pose proof (zlen_track i a l) as Hz. fold t in Hz.
  pose proof (zlen_nonneg i). pose proof (zlen_nonneg a). pose proof (zlen_nonneg l).
  unfold content_buffer. change (repeat 0 512) with ([] ++ repeat 0 (Z.to_nat 512)).
  do 5 (rewrite fill_write by fits; cbn [obind]).
  rewrite fill_skip by fits. cbn [obind].
  do 2 (rewrite fill_write by fits; cbn [obind]).
  rewrite fill_skip by fits. cbn [obind].
  do 2 (rewrite fill_write by fits; cbn [obind]).
  rewrite !zlen_be32, Hz. change (zlen (lit _)) with 4. f_equal. f_equal; [|lia].
  set (k := Z.to_nat _). replace k with (S (Z.to_nat (512 - zlen t))) by (unfold k; lia).
  cbn [repeat]. change (0 :: ?l) with ([0] ++ l). rewrite app_assoc. f_equal; [|do 2 f_equal; lia].
  unfold t, dmap_track, dmap_item. rewrite !zlen_app, !zlen_be32. change (zlen (lit _)) with 4.
  change (zlen [0]) with 1.
  replace (4 + (4 + (zlen i + 1)) + (4 + (4 + (zlen a + 1)) + (4 + (4 + (zlen l + 1)))))
    with (4 + 4 + zlen i + 1 + 4 + 4 + zlen a + 1 + 4 + 4 + zlen l + 1) by lia.
  rewrite app_nil_l, <- !app_assoc. done.
Qed.

Lemma dmap_items_last tag v :
  length tag = 4%nat -> is_u32 (zlen v) -> dmap_items 1 (dmap_item tag v) = Some [(tag, v)].
Proof.
  intros Ht Hv. rewrite <- (app_nil_r (dmap_item tag v)). by rewrite dmap_items_item.
Qed.

Lemma dmap_decode_track i a l :
  zlen (dmap_track i a l) <= 512 ->
  dmap_decode (dmap_track i a l) =
    Some [(lit "minm", i ++ [0]); (lit "asar", a ++ [0]); (lit "asal", l ++ [0])].
Proof.
  intros Ht. rewrite zlen_track in Ht.
  pose proof (zlen_nonneg i). pose proof (zlen_nonneg a). pose proof (zlen_nonneg l).
  unfold dmap_decode, dmap_track.
  rewrite dmap_items_last by (done || unfold is_u32, dmap_item; fits).
  rewrite bool_decide_true by done.
  rewrite !dmap_items_item, dmap_items_last by (done || unfold is_u32; fits). done.
Qed.

(** C35: when the encoded track fits the array, [raopcl_set_content] builds
    exactly the DMAP encoding of the three strings, followed by zeros, and
    passes its length; a receiver that decodes it gets the strings back. *)
Theorem content_buffer_dmap itemname songartist songalbum :
  let t := dmap_track itemname songartist songalbum in
  zlen t <= 512 ->
  content_buffer itemname songartist songalbum =
    Ret (t ++ repeat 0 (Z.to_nat (512 - zlen t)), zlen t) /\
  dmap_decode t = Some [(lit "minm", itemname ++ [0]); (lit "asar", songartist ++ [0]);
                        (lit "asal", songalbum ++ [0])].
Proof. intros t Ht. split; [by apply content_buffer_fill|by apply dmap_decode_track]. Qed.

Lemma content_buffer_dmap_witness :
  dmap_decode (dmap_track (lit "ROAP PLAY") (lit "Via Waveplay") []) =
    Some [(lit "minm", lit "ROAP PLAY" ++ [0]); (lit "asar", lit "Via Waveplay" ++ [0]);
          (lit "asal", [0])].
Proof.
  refine (proj2 (content_buffer_dmap (lit "ROAP PLAY") (lit "Via Waveplay") [] _)).
  vm_compute. discriminate.
Defined.

(** ** Tracks that do not fit *)

Lemma buf_write_cases {A} (buf : list A) o src :
  (exists b, buf_write buf o src = Ret b /\ zlen b = zlen buf /\ o + zlen src <= zlen buf) \/
  buf_write buf o src = UB OutOfBounds.
Proof.
  destruct (buf_write buf o src) as [b|u] eqn:Hw.
  - left. exists b. unfold buf_write in Hw.
    destruct ((0 <=? o) && (o + zlen src <=? zlen buf)) eqn:Hc; [|done].
    apply andb_prop in Hc as [H1 H2]. apply Z.leb_le in H1, H2. injection Hw as <-.
    split_and!; [done| |done]. apply zlen_splice; lia.
  - right. unfold buf_write in Hw. destruct (_ && _); congruence.
Qed.

Lemma write_then_overflow {A} buf o src (f : list Z -> outcome A) :
  (forall b, zlen b = zlen buf -> o + zlen src <= zlen buf -> f b = UB OutOfBounds) ->
  obind (buf_write buf o src) f = UB OutOfBounds.
Proof.
  intros Hf. destruct (buf_write_cases buf o src) as [(b & -> & H1 & H2)| ->]; [by apply Hf|done].
Qed.

(** No length is checked: a track whose encoding has more than 513 bytes
    is written past the end of the array. *)
Theorem content_buffer_overflow itemname songartist songalbum :
  513 < zlen (dmap_track itemname songartist songalbum) ->
  content_buffer itemname songartist songalbum = UB OutOfBounds.
Proof.
  rewrite zlen_track. intros Ht. unfold content_buffer.
  assert (H0 : zlen (repeat 0 512) = 512) by done.
  do 11 (apply write_then_overflow; intros ? ? ?). lia.
Qed.

Lemma content_buffer_overflow_witness :
  content_buffer (repeat 65 600) [] [] = UB OutOfBounds.
Proof. apply content_buffer_overflow. vm_compute. reflexivity. Defined.
