(* ===== verification/RaopStream.v ===== *)
(** * RaopStream: the packets of the audio stream

    [raopcl_send_sample] builds a packet and registers the stream socket for
    writing; the event callback then writes it, part by part.  The theorems
    show what the packet is, that exactly its bytes reach the socket in order,
    and that the state of the transfer stays within the packet's block. *)

From S2P Require Import Prelude AesTables Aes AesSpec AesKeys Sys AexclLib FdEvent AudioStream RtspClient RaopClient RaopCrypto RaopContent.

(** ** A transfer in progress *)

(** The first [k] bytes of the packet [pkt] in the client's block were written. *)
Record packet_at (d : raopcl_data_t) (s : proc) (pkt : list Z) (k : Z) : Prop := {
  pk_block : exists l r, d.(data) = Ptr l 0 /\ heap s !! l = Some (Bytes (pkt ++ r));
  pk_wsize : d.(wblk_wsize) = k;
  pk_remsize : d.(wblk_remsize) = zlen pkt - k;
  pk_range : 0 <= k <= zlen pkt
}.

(** The bytes the socket took, by the calls of a history. *)
Fixpoint accepted {E : Env} (f : Z) (tr : list call) : list Z :=
  match tr with
  | [] => []
  | c :: tr =>
      accepted f tr ++
      match c with
      | CWrite f' b => if f' =? f then take (Z.to_nat (rv (env_reply tr c))) b else []
      | _ => []
      end
  end.

(** The registration the socket has after a packet. *)
Definition reading (f : Z) (t t' : list dfev_t) : Prop :=
  t' = snd (set_fd_table f RAOP_FD_READ (Some fd_event_callback_p) true t).

Section Transfer.
Context {E : Env} {P : Posix E}.

Lemma view_packet d s pkt k :
  packet_at d s pkt k ->
  exists r, view (ptr_add d.(data) d.(wblk_wsize)) s = Ret (drop (Z.to_nat k) pkt ++ r, s).
Proof.
  intros [(l & r & Hd & Hl) Hw _ Hk]. exists r. rewrite Hd, Hw. cbn [ptr_add view]. rewrite Hl.
  rewrite Z.add_0_l.
  rewrite (proj2 (Z.leb_le 0 k)), (proj2 (Z.leb_le k _))
    by (rewrite ?zlen_app; pose proof (zlen_nonneg r); lia). cbn [andb].
  rewrite drop_app_le by (unfold zlen in Hk; lia). done.
Qed.

(** One write event in the middle of a packet. *)
Lemma fd_event_write_run d s pkt k :
  packet_at d s pkt k -> k < zlen pkt -> table_ok (fds s) ->
  let c := CWrite d.(sfd) (drop (Z.to_nat k) pkt) in
  let i := rv (env_reply (trace s) c) in
  i <= zlen pkt - k /\
  if i <=? 0 then fd_event_write d s = Ret ((-1, d), with_trace (c :: trace s) s)
  else exists t',
    fd_event_write d s =
      Ret ((0, set_wblk (k + i) (zlen pkt - k - i) d), set_fds t' (with_trace (c :: trace s) s)) /\
    (if k + i =? zlen pkt then reading d.(sfd) (fds s) t' else t' = fds s).
Proof.
  intros Hpk Hk Ht c i. pose proof (write_ret (trace s) (sfd d) (drop (Z.to_nat k) pkt)) as Hi.
  fold c in Hi. fold i in Hi. destruct Hpk as [Hb Hw Hrem Hr] eqn:Epk. clear Epk.
  assert (Hlen : zlen (drop (Z.to_nat k) pkt) = zlen pkt - k)
    by (unfold zlen in *; rewrite length_drop; lia).
  split; [lia|].
  destruct (view_packet d s pkt k (Build_packet_at d s pkt k Hb Hw Hrem Hr)) as (r & Hv).
  unfold fd_event_write. rewrite Hrem, (proj2 (Z.eqb_neq _ 0)) by lia.
  rewrite (bindM_Ret _ _ _ _ _ Hv).
  rewrite (proj2 (Z.ltb_ge (zlen pkt - k) 0)), (proj2 (Z.ltb_ge _ (zlen pkt - k)))
    by (rewrite ?zlen_app; pose proof (zlen_nonneg r); lia). cbn [orb].
  rewrite take_app_length' by (unfold zlen in *; lia). fold c.
  unfold syscall, sys, bindM, ret. fold i. destruct (Z.leb_spec i 0); [done|].
  rewrite Hw. cbn [set_wblk wblk_remsize]. change (sfd (set_wblk _ _ d)) with (sfd d).
  destruct (Z.eqb_spec (zlen pkt - k - i) 0).
  - rewrite (proj2 (Z.eqb_eq (k + i) _)) by lia. unfold set_fd_event.
    rewrite with_fds_run by done. eexists. split; [reflexivity|]. done.
  - rewrite (proj2 (Z.eqb_neq (k + i) _)) by lia. exists (fds s). split; [|done].
    by destruct s.
Qed.

Lemma packet_advance d s pkt k i t' tr :
  packet_at d s pkt k -> 0 <= i <= zlen pkt - k ->
  packet_at (set_wblk (k + i) (zlen pkt - k - i) d) (set_fds t' (with_trace tr s)) pkt (k + i).
Proof.
  intros [(l & r & Hd & Hl) _ _ Hr] Hi. split; [by exists l, r|done|cbn; lia|lia].
Qed.

Lemma reading_ok f t t' : 0 <= f -> table_ok t -> reading f t t' -> table_ok t'.
Proof.
  intros Hf Ht ->. destruct (set_fd_table_spec f RAOP_FD_READ (Some fd_event_callback_p) true t Hf Ht)
    as (r & t' & -> & Hok & _). done.
Qed.

(** C13: in any environment that respects POSIX, a write event on a client with
    a packet in progress is free of undefined behaviour and keeps the invariant
    of the transfer: the callback offers the socket exactly the bytes not yet
    taken, the transfer advances by what the socket took (0 or an error: the
    callback fails and nothing changes), and when the packet is complete the
    socket is registered for reading only. *)
Theorem write_event_invariant d s pkt k :
  packet_at d s pkt k -> k < zlen pkt -> 0 <= d.(sfd) -> table_ok (fds s) ->
  exists r d' s' k', fd_event_callback (Some d) RAOP_FD_WRITE s = Ret ((r, Some d'), s') /\
    packet_at d' s' pkt k' /\ k <= k' /\ table_ok (fds s') /\ heap s' = heap s /\
    accepted d.(sfd) (trace s') = accepted d.(sfd) (trace s) ++ take (Z.to_nat (k' - k)) (drop (Z.to_nat k) pkt) /\
    (r = 0 /\ k < k' \/ r = -1 /\ k' = k /\ d' = d) /\
    (k' = zlen pkt -> reading d.(sfd) (fds s) (fds s')).
Proof.
  intros Hpk Hk Hf Ht. destruct (fd_event_write_run d s pkt k Hpk Hk Ht) as (Hi & H).
  set (c := CWrite _ _) in *. set (i := rv _) in *.
  unfold fd_event_callback. change (negb (RAOP_FD_WRITE .& RAOP_FD_READ =? 0)) with false. cbn iota.
  assert (Hacc : forall t', accepted d.(sfd) (trace (set_fds t' (with_trace (c :: trace s) s))) =
    accepted d.(sfd) (trace s) ++ take (Z.to_nat i) (drop (Z.to_nat k) pkt)).
  { intros t'. unfold c, i. cbn. by rewrite Z.eqb_refl. }
  destruct (Z.leb_spec i 0).
  - rewrite (bindM_Ret _ _ _ _ _ H). exists (-1), d, (with_trace (c :: trace s) s), k.
    split; [done|]. split; [by destruct Hpk; split|]. split; [lia|]. split; [done|]. split; [done|].
    split; [|split; [by right|lia]].
    specialize (Hacc (fds s)). replace (Z.to_nat i) with (Z.to_nat (k - k)) in Hacc by lia. exact Hacc.
  - destruct H as (t' & Ew & Ht'). rewrite (bindM_Ret _ _ _ _ _ Ew).
    eexists 0, _, _, (k + i). split; [done|]. split; [apply packet_advance; [done|lia]|].
    split; [lia|]. split.
    { cbn [fds set_fds]. destruct (k + i =? zlen pkt); [by eapply reading_ok|by subst t']. }
    split; [done|]. split; [rewrite Hacc; do 3 f_equal; lia|]. split; [left; lia|].
    intros Hend. by rewrite (proj2 (Z.eqb_eq _ _) Hend) in Ht'.
Qed.

(** ** A whole packet *)

(** Write events until the packet is complete, as the loop of the player
    delivers them; at most [n]. *)
Fixpoint write_events (n : nat) (d : raopcl_data_t) : M (Z * option raopcl_data_t) :=
  match n with
  | O => ret (0, Some d)
  | S n =>
      if d.(wblk_remsize) =? 0 then ret (0, Some d)
      else
        do! '(r, p) <- fd_event_callback (Some d) RAOP_FD_WRITE;
        match p with
        | Some d' => if r =? 0 then write_events n d' else ret (r, p)
        | None => ret (r, p)
        end
  end.

(** The socket takes at least a byte of what it is offered. *)
Definition takes (f : Z) : Prop :=
  forall tr b, b <> [] -> 0 < rv (env_reply tr (CWrite f b)).

Lemma write_events_run n : forall d s pkt k,
  packet_at d s pkt k -> 0 <= d.(sfd) -> table_ok (fds s) -> takes d.(sfd) ->
  zlen pkt - k <= Z.of_nat n ->
  exists d' s', write_events n d s = Ret ((0, Some d'), s') /\ packet_at d' s' pkt (zlen pkt) /\
    accepted d.(sfd) (trace s') = accepted d.(sfd) (trace s) ++ drop (Z.to_nat k) pkt /\
    table_ok (fds s') /\ vars s' = vars s.
Proof.
  induction n as [|n IH]; intros d s pkt k Hpk Hf Ht Hp Hn.
  - exists d, s. assert (k = zlen pkt) as -> by (destruct Hpk; lia).
    split_and!; try done. rewrite drop_ge by (unfold zlen; lia). by rewrite app_nil_r.
  - cbn [write_events]. destruct (Z.eqb_spec (wblk_remsize d) 0) as [H0|H0].
    { exists d, s. assert (k = zlen pkt) as -> by (destruct Hpk; lia).
      split_and!; try done. rewrite drop_ge by (unfold zlen; lia). by rewrite app_nil_r. }
    assert (Hk : 0 <= k < zlen pkt) by (destruct Hpk; lia).
    destruct (fd_event_write_run d s pkt k Hpk ltac:(lia) Ht) as (Hi & H).
    specialize (Hp (trace s) (drop (Z.to_nat k) pkt)) as Hpos.
    set (c := CWrite _ _) in *. set (i := rv _) in *.
    assert (0 < i).
    { apply Hpos. intros E0. apply (f_equal length) in E0. rewrite length_drop in E0.
      unfold zlen in Hk. simpl in E0. lia. }
    rewrite (proj2 (Z.leb_gt i 0)) in H by lia. destruct H as (t' & Ew & Ht').
    unfold fd_event_callback. change (negb (RAOP_FD_WRITE .& RAOP_FD_READ =? 0)) with false. cbn iota.
    rewrite !bindM_assoc. rewrite (bindM_Ret _ _ _ _ _ Ew). rewrite bindM_ret.
    change (0 =? 0) with true. cbn iota.
    assert (Htok : table_ok t') by (destruct (k + i =? zlen pkt); [by eapply reading_ok|by subst t']).
    edestruct (IH (set_wblk (k + i) (zlen pkt - k - i) d) (set_fds t' (with_trace (c :: trace s) s)) pkt (k + i))
      as (d' & s' & E1 & E2 & E3 & E4 & E5); [apply packet_advance; [done|lia]|done|done|done|lia|].
    exists d', s'. split_and!; [done|done| |done|done].
    change (sfd (set_wblk _ _ d)) with (sfd d) in E3. rewrite E3. unfold c at 1. cbn [trace set_fds with_trace accepted].
    rewrite Z.eqb_refl. fold c. fold i. rewrite <- app_assoc. f_equal.
    replace (Z.to_nat (k + i)) with (Z.to_nat k + Z.to_nat i)%nat by lia.
    rewrite <- drop_drop. apply take_drop.
Qed.

End Transfer.

(** ** Building a packet *)

Section Send.
Context {E : Env}.

Lemma malloc_ok n s :
  0 <= n -> rv (env_reply (trace s) (CMalloc n)) <> 0 ->
  exists g, zlen g = n /\ bytes g /\ malloc n s =
    Ret (Ptr (fresh s) 0,
         Proc (<[fresh s := Bytes g]> (heap s)) (fresh s + 1) (CMalloc n :: trace s) (fds s) (vars s)).
Proof.
  intros Hn Hr. exists (resize (Z.to_nat n) 0 (map u8 (rdata (env_reply (trace s) (CMalloc n))))).
  split_and!.
  - unfold zlen. rewrite length_resize. lia.
  - apply Forall_resize; [unfold is_u8; lia|]. apply Forall_map, Forall_true. intros. apply u8_range.
  - unfold malloc, bindM, sys, alloc, ret. cbn [obind].
    rewrite (proj2 (Z.ltb_ge n 0)) by lia. by rewrite (proj2 (Z.eqb_neq _ 0)).
Qed.

Lemma align_size_le n : n <= align_size n.
Proof.
  unfold align_size. cbn [align_loop]. change (16 .<< 1) with 32. change (32 .<< 1) with 64.
  change (64 .<< 1) with 128. change (128 .<< 1) with 256. change (256 .<< 1) with 512.
  change (512 .<< 1) with 1024. change (1024 .<< 1) with 2048.
  repeat (case Z.leb_spec; intros; [lia|]). lia.
Qed.

(** The heap holds a packet in a block of its own after [new_packet]. *)
Lemma new_packet_run d s size header sample count :
  zlen header + count <= size -> 0 <= count <= zlen sample -> bytes header -> bytes sample ->
  rv (env_reply (trace s) (CMalloc (align_size size))) <> 0 ->
  exists r, bytes r /\ new_packet d size header sample count s =
    Ret ((0, set_data_ptr (Ptr (fresh s) 0) d),
      Proc (<[fresh s := Bytes (header ++ take (Z.to_nat count) sample ++ r)]> (heap s)) (fresh s + 1)
        (CMalloc (align_size size) :: trace s) (fds s) (vars s)).
Proof.
  intros Hs Hc Hh Hb Hm. pose proof (align_size_le size) as Ha. pose proof (zlen_nonneg header).
  destruct (malloc_ok (align_size size) s ltac:(lia) Hm) as (g & Hg & Hgb & Em).
  exists (drop (Z.to_nat (zlen header + count)) g). split; [by apply Forall_drop|].
  unfold new_packet, realloc_memory. rewrite !bindM_assoc, (bindM_Ret _ _ _ _ _ Em).
  rewrite decide_False by done. rewrite bindM_ret. cbn [negb Z.eqb].
  set (s1 := Proc _ _ _ _ _).
  assert (Htake : zlen (take (Z.to_nat count) sample) = count)
    by (unfold zlen in *; rewrite length_take; lia).
  assert (Hl1 : heap s1 !! fresh s = Some (Bytes g)) by apply lookup_insert_eq.
  rewrite (bindM_Ret _ _ _ _ _ (store_run (fresh s) g 0 header s1 Hl1 ltac:(lia) ltac:(lia))).
  rewrite (proj2 (Z.ltb_ge count 0)), (proj2 (Z.ltb_ge (zlen sample) count)) by lia. cbn [orb].
  set (s2 := set_heap _ s1).
  assert (Hl2 : heap s2 !! fresh s = Some (Bytes (splice g 0 header))) by apply lookup_insert_eq.
  rewrite (bindM_Ret _ _ _ _ _ (store_run (fresh s) _ (zlen header) (take (Z.to_nat count) sample) s2 Hl2
    ltac:(lia) ltac:(rewrite zlen_splice by lia; lia))).
  unfold ret, s2, s1, set_heap. cbn [heap fresh trace fds vars]. rewrite !insert_insert_eq.
  pose proof (splice_app g 0 header (take (Z.to_nat count) sample) ltac:(lia) ltac:(lia)) as Hsp.
  rewrite Z.add_0_l in Hsp. rewrite Hsp. unfold splice.
  change (take (Z.to_nat 0) g) with (@nil Z). rewrite app_nil_l, <- app_assoc.
  replace (Z.to_nat 0 + length (header ++ take (Z.to_nat count) sample))%nat
    with (Z.to_nat (zlen header + count)) by (unfold zlen in *; rewrite length_app; lia).
  done.
Qed.

(** ** What is sent *)

(** The payload of a packet: the samples, encrypted on their whole blocks. *)
Definition payload (d : raopcl_data_t) (sample : list Z) (count : Z) (on : bool) : list Z :=
  let b := take (Z.to_nat count) sample in
  let n := Z.to_nat (count / 16) in
  if on then concat (cipher_blocks d.(key) d.(iv) n b) ++ drop (16 * n) b else b.

(** [x] in network byte order, as [n] bytes. *)
Fixpoint net (n : nat) (x : Z) : list Z :=
  match n with O => [] | S n' => net n' (x / 256) ++ [x mod 256] end.

(** The header of RFC 3550: version 2, the marker bit and the payload type 96,
    the sequence number, the time stamp and the source. *)
Definition rfc3550_header (marker : bool) (seq ts source : Z) : list Z :=
  [0x80; (if marker then 0x80 else 0) + 96] ++ net 2 seq ++ net 4 ts ++ net 4 source.

(** The header of interleaved data: a dollar sign, channel 0, the length of the
    twelve bytes that follow and of the data. *)
Definition interleaved_header (count : Z) : list Z :=
  [0x24; 0x00] ++ net 2 (12 + count) ++ [0xF0; 0xFF] ++ repeat 0 10.

Definition packet (d : raopcl_data_t) (v : statics) (sample : list Z) (count : Z) : list Z :=
  if d.(udp) =? 0 then interleaved_header count ++ payload d sample count true
  else rfc3550_header (negb (v.(begin) =? 0)) v.(seq_number) d.(timestamp) d.(ssrc) ++
       payload d sample count (negb (d.(encrypt_on) =? 0)).

Lemma byte_at_div x k : 0 <= k -> byte_at x k = x / 2 ^ k mod 256.
Proof. intros. unfold byte_at, u8. by rewrite Z.shiftr_div_pow2. Qed.

Lemma be32_net x : be32 x = net 4 x.
Proof.
  rewrite be32_bytes, !byte_at_div by lia. cbn [net app]. rewrite !Z.div_div by lia.
  by rewrite Z.div_1_r.
Qed.

Lemma rtp_header_net b q t r :
  rtp_header b q t r = rfc3550_header (negb (b =? 0)) q t r.
Proof.
  unfold rtp_header, rfc3550_header. rewrite !be32_net. cbn [net app].
  change 0xFF00 with (255 .<< 8). rewrite mask_byte, byte_at_div by lia.
  change 0x00FF with (Z.ones 8). rewrite Z.land_ones by lia. change (2 ^ 8) with 256.
  f_equal. f_equal; [by destruct (b =? 0)|]. do 2 f_equal. unfold u8. by rewrite Z.mod_mod.
Qed.

Lemma tcp_header_net n : tcp_header n = interleaved_header n.
Proof.
  unfold tcp_header, interleaved_header. cbn [net app repeat].
  change 0xff with (Z.ones 8). rewrite Z.land_ones, Z.shiftr_div_pow2 by lia. change (2 ^ 8) with 256.
  do 2 f_equal. unfold u8, u16. replace (n + 16 - 4) with (12 + n) by lia.
  f_equal; [|f_equal]; Z.div_mod_to_equations; lia.
Qed.

Lemma blocks_of_app n l r : (16 * n <= length l)%nat -> blocks_of n (l ++ r) = blocks_of n l.
Proof.
  revert l. induction n as [|n IH]; intros l Hl; [done|]. cbn [blocks_of].
  rewrite take_app_le, drop_app_le, IH by (rewrite ?length_drop; lia). done.
Qed.

Lemma encrypt_packet_run d s l header b r count :
  d.(data) = Ptr l 0 -> heap s !! l = Some (Bytes (header ++ b ++ r)) ->
  keyed s.(vars).(aes) d.(ctx) d.(key) -> block_ok d.(iv) -> bytes b -> bytes r -> 0 <= count ->
  zlen b = count ->
  exists nv, encrypt_packet d (zlen header) count s =
    Ret (set_nv nv d, set_heap (<[l := Bytes (header ++ payload d b count true ++ r)]> (heap s)) s).
Proof.
  intros Hd Hl Hk Hiv Hb Hr Hc Hlen. set (n := Z.to_nat (count / 16)).
  pose proof (zlen_nonneg header). pose proof (zlen_nonneg r).
  assert (Hn : (16 * n <= length b)%nat)
    by (unfold n, zlen in *; pose proof (Z.mul_div_le count 16); lia).
  eexists. unfold encrypt_packet. unfold gets at 1. unfold bindM at 1.
  assert (Hv : view (ptr_add (data d) (zlen header)) s = Ret (b ++ r, s)).
  { rewrite Hd. cbn [ptr_add view]. rewrite Hl, Z.add_0_l.
    rewrite (proj2 (Z.leb_le 0 (zlen header))), (proj2 (Z.leb_le (zlen header) _))
      by (rewrite ?zlen_app; lia). cbn [andb].
    unfold zlen. by rewrite Nat2Z.id, drop_app_length. }
  rewrite (bindM_Ret _ _ _ _ _ Hv).
  unfold lift. unfold bindM at 1.
  assert (Hbr : bytes (b ++ r)) by by apply Forall_app.
  assert (Hcr : 0 <= count <= zlen (b ++ r)) by (rewrite zlen_app; lia).
  rewrite (encrypt_run _ d Hk Hiv (b ++ r) count Hbr Hcr). clear Hbr Hcr.
  cbn [obind]. change (data (set_nv _ d)) with (data d). rewrite Hd.
  assert (Ecb : cipher_blocks (key d) (iv d) n (b ++ r) = cipher_blocks (key d) (iv d) n b)
    by (unfold cipher_blocks; by rewrite blocks_of_app).
  fold n. rewrite Ecb, drop_app_le, app_assoc by lia.
  assert (Hpay : concat (cipher_blocks (key d) (iv d) n b) ++ drop (16 * n) b = payload d b count true).
  { unfold payload. fold n. by rewrite (take_ge b) by (unfold zlen in Hlen; lia). }
  rewrite Hpay.
  assert (Hpl : zlen (payload d b count true) = count).
  { rewrite <- Hpay. unfold zlen. rewrite length_app, length_drop.
    rewrite (proj1 (length_cipher _ d Hk Hiv n b Hn Hb)). unfold zlen in Hlen. lia. }
  rewrite (bindM_Ret _ _ _ _ _ (store_run l _ (zlen header) (payload d b count true ++ r) s Hl
    ltac:(lia) ltac:(rewrite !zlen_app; lia))).
  unfold ret, splice. do 5 f_equal.
  assert (Hh : Z.to_nat (zlen header) = length header) by (unfold zlen; lia).
  rewrite Hh, take_app_length, drop_ge; [by rewrite app_nil_r|].
  rewrite !length_app. unfold zlen in *. lia.
Qed.

Lemma payload_take d sample count on :
  payload d (take (Z.to_nat count) sample) count on = payload d sample count on.
Proof. unfold payload. by rewrite take_take, Nat.min_id. Qed.

Lemma payload_ok g d sample count on :
  keyed g d.(ctx) d.(key) -> block_ok d.(iv) -> bytes sample -> 0 <= count <= zlen sample ->
  zlen (payload d sample count on) = count.
Proof.
  intros Hk Hiv Hb Hc. set (n := Z.to_nat (count / 16)).
  assert (Hl : zlen (take (Z.to_nat count) sample) = count)
    by (unfold zlen in *; rewrite length_take; lia).
  destruct on; [|done]. unfold payload. fold n. unfold zlen in *. rewrite length_app, length_drop.
  rewrite (proj1 (length_cipher g d Hk Hiv n (take (Z.to_nat count) sample)
    ltac:(unfold n; pose proof (Z.mul_div_le count 16); lia) ltac:(by apply Forall_take))).
  unfold n. pose proof (Z.mul_div_le count 16). lia.
Qed.

(** The table has a cell for the socket. *)
Definition room (f : Z) (t : list dfev_t) : Prop :=
  (size (table_map t) < 4)%nat \/ is_Some (table_map t !! f).

Definition RDWR : Z := RAOP_FD_READ .| RAOP_FD_WRITE.

Lemma register_run f s :
  0 <= f -> table_ok (fds s) -> room f (fds s) ->
  exists t', set_fd_event f RDWR (Some fd_event_callback_p) true s = Ret (0, set_fds t' s) /\
    table_ok t' /\ table_map t' = <[f := (true, Some fd_event_callback_p, RDWR)]> (table_map (fds s)).
Proof.
  intros Hf Ht Hroom.
  destruct (set_fd_table_spec f RDWR (Some fd_event_callback_p) true (fds s) Hf Ht)
    as (r & t' & Es & Hok & [(-> & Hm)|(-> & _ & Hn & Hs)]).
  - exists t'. split; [|done]. unfold set_fd_event. by rewrite with_fds_run, Es.
  - exfalso. destruct Hroom as [|[? ?]]; [lia|congruence].
Qed.

(** A call that allocates, waits or writes. *)
Definition quiet (c : call) : bool := match c with CMalloc _ | CSelect _ _ _ _ | CWrite _ _ => true | _ => false end.

Lemma count_samples_run count s :
  is_int (totalcount (vars s) + count) ->
  exists cs n, raopcl_count_samples count s =
      Ret (0, Proc (heap s) (fresh s) (cs ++ trace s) (fds s) (set_totalcount n (vars s))) /\
    (forall f, accepted f (cs ++ trace s) = accepted f (trace s)) /\ Forall quiet cs /\
    (0 <= totalcount (vars s) + count -> 0 <= n <= totalcount (vars s) + count).
Proof.
  intros Hi. unfold raopcl_count_samples, gets, int, put_vars, modify, bindM, ret.
  rewrite bool_decide_true by done. destruct (Z.leb_spec (BUFFER * MAX_SAMPLES_IN_CHUNK) (totalcount (vars s) + count)).
  - eexists [_], _. split; [reflexivity|]. split; [intros f; cbn; apply app_nil_r|]. split; [by repeat constructor|].
    unfold BUFFER, MAX_SAMPLES_IN_CHUNK in *. change (DEFAULT_SAMPLE_RATE / 25) with 1764. lia.
  - eexists [], _. split; [reflexivity|]. split; [done|]. split; [constructor|lia].
Qed.

(** The state after a call of [raopcl_send_sample]. *)
Record queued (d : raopcl_data_t) (s : proc) (sample : list Z) (count : Z)
    (d' : raopcl_data_t) (s' : proc) : Prop := {
  q_packet : packet_at d' s' (packet d (vars s) sample count) 0;
  q_sfd : d'.(sfd) = d.(sfd);
  q_table : table_ok (fds s') /\ table_map (fds s') =
    <[d.(sfd) := (true, Some fd_event_callback_p, RDWR)]> (table_map (fds s));
  q_stamp : d'.(timestamp) = if d.(udp) =? 0 then d.(timestamp) else u32 (d.(timestamp) + count);
  q_seq : seq_number (vars s') =
    (if d.(udp) =? 0 then seq_number (vars s) else u32 (seq_number (vars s) + 1));
  q_begin : begin (vars s') = if d.(udp) =? 0 then begin (vars s) else 0;
  q_sent : accepted d.(sfd) (trace s') = accepted d.(sfd) (trace s);
  q_heap : (forall l, l <> fresh s -> heap s' !! l = heap s !! l) /\ fresh s' = fresh s + 1;
  q_calls : exists cs, trace s' = cs ++ trace s /\ Forall quiet cs;
  q_keys : d'.(ctx) = d.(ctx) /\ d'.(key) = d.(key) /\ d'.(iv) = d.(iv) /\ aes (vars s') = aes (vars s);
  q_state : d'.(pause) = d.(pause) /\ d'.(wait_songdone) = d.(wait_songdone) /\ d'.(udp) = d.(udp) /\
    d'.(encrypt_on) = d.(encrypt_on) /\ d'.(ssrc) = d.(ssrc);
  q_total : 0 <= totalcount (vars s) -> 0 <= totalcount (vars s') <= totalcount (vars s) + count
}.

Definition packet_room (d : raopcl_data_t) (count : Z) : Z :=
  align_size (if d.(udp) =? 0 then count + 16 + 16 else count + 12).

(** What a call needs: the samples, a keyed client, memory, a place in the
    table and an [int] counter that does not overflow. *)
Record sendable (d : raopcl_data_t) (s : proc) (sample : list Z) (count : Z) : Prop := {
  sd_count : 0 <= count <= zlen sample;
  sd_bytes : bytes sample;
  sd_keyed : keyed s.(vars).(aes) d.(ctx) d.(key);
  sd_iv : block_ok d.(iv);
  sd_sfd : 0 <= d.(sfd);
  sd_table : table_ok (fds s);
  sd_room : room d.(sfd) (fds s);
  sd_memory : rv (env_reply (trace s) (CMalloc (packet_room d count))) <> 0;
  sd_total : is_int (totalcount (vars s) + count)
}.

Lemma bytes_be32 x : bytes (be32 x).
Proof. repeat constructor; apply u8_range || (apply Z.mod_pos_bound; lia). Qed.

Lemma rtp_header_ok b q t r : zlen (rtp_header b q t r) = 12 /\ bytes (rtp_header b q t r).
Proof.
  split; [done|]. unfold rtp_header. apply Forall_app. split; [|apply Forall_app; split; apply bytes_be32].
  repeat constructor; try apply u8_range; try (destruct (b =? 0); unfold is_u8; lia); unfold is_u8; lia.
Qed.

Lemma tcp_header_ok n : zlen (tcp_header n) = 16 /\ bytes (tcp_header n).
Proof.
  split; [done|]. unfold tcp_header. constructor; [unfold is_u8; lia|]. constructor; [unfold is_u8; lia|].
  constructor; [apply u8_range|]. constructor.
  - change 0xff with (Z.ones 8). rewrite Z.land_ones by lia. apply Z.mod_pos_bound. lia.
  - repeat constructor; unfold is_u8; lia.
Qed.

(** The packet in memory, encrypted or not. *)
Lemma seal_run d s l header sample count r (on : bool) :
  d.(data) = Ptr l 0 -> heap s !! l = Some (Bytes (header ++ take (Z.to_nat count) sample ++ r)) ->
  keyed s.(vars).(aes) d.(ctx) d.(key) -> block_ok d.(iv) -> bytes sample -> bytes r ->
  0 <= count <= zlen sample ->
  exists nv, (if on then encrypt_packet d (zlen header) count else ret d) s =
    Ret (if on then set_nv nv d else d,
         set_heap (<[l := Bytes (header ++ payload d sample count on ++ r)]> (heap s)) s).
Proof.
  intros Hd Hl Hk Hiv Hb Hr Hc. destruct on.
  - destruct (encrypt_packet_run d s l header (take (Z.to_nat count) sample) r count Hd Hl Hk Hiv
      ltac:(by apply Forall_take) Hr ltac:(lia) ltac:(unfold zlen in *; rewrite length_take; lia))
      as (nv & ->). exists nv. by rewrite payload_take.
  - exists []. unfold payload. rewrite insert_id by done. by destruct s.
Qed.

Lemma send_tcp_run d s sample count :
  sendable d s sample count -> d.(udp) = 0 ->
  exists d' s', raopcl_send_sample (Some d) sample count s = Ret ((0, Some d'), s') /\
    queued d s sample count d' s'.
Proof.
  intros [Hc Hb Hk Hiv Hf Ht Hroom Hm Hi] Hu. unfold packet_room in Hm. rewrite Hu in Hm.
  destruct (tcp_header_ok count) as (Hhl & Hhb).
  destruct (new_packet_run d s (count + 16 + 16) (tcp_header count) sample count
    ltac:(lia) ltac:(lia) Hhb Hb Hm) as (r & Hr & En).
  unfold raopcl_send_sample. rewrite Hu. change (negb (0 =? 0)) with false. cbn iota.
  rewrite (bindM_Ret _ _ _ _ _ En). change (negb (0 =? 0)) with false. cbn iota.
  set (d1 := set_data_ptr _ d). set (s1 := Proc _ _ _ _ _).
  destruct (seal_run d1 s1 (fresh s) (tcp_header count) sample count r true eq_refl
    ltac:(apply lookup_insert_eq) Hk Hiv Hb Hr Hc) as (nv & Es). rewrite Hhl in Es.
  rewrite (bindM_Ret _ _ _ _ _ Es). clear En Es.
  set (s2 := set_heap _ s1). change (sfd (set_wblk _ _ (set_nv nv d1))) with (sfd d).
  destruct (register_run (sfd d) s2 Hf Ht Hroom) as (t' & Er & Htok & Htm).
  unfold RDWR in Er. rewrite (bindM_Ret _ _ _ _ _ Er). change (negb (0 =? 0)) with false. cbn iota.
  eexists _, _. split; [done|].
  assert (Hp : packet d (vars s) sample count = tcp_header count ++ payload d sample count true)
    by (unfold packet; by rewrite Hu, tcp_header_net).
  split; rewrite ?Hp, ?Hu; try done.
  - split; rewrite ?zlen_app, ?Hhl, ?(payload_ok _ _ _ _ _ Hk Hiv Hb Hc); [|done|cbn; lia|lia].
    exists (fresh s), r. split; [done|]. cbn [heap set_fds set_heap s2 s1].
    rewrite lookup_insert_eq, <- app_assoc. done.
  - cbn. by rewrite app_nil_r.
  - split; [|done]. intros l Hl. cbn. by rewrite !lookup_insert_ne.
  - exists [CMalloc (align_size (count + 16 + 16))]. split; [done|]. by repeat constructor.
  - cbn. lia.
Qed.

Lemma send_udp_run d s sample count :
  sendable d s sample count -> d.(udp) <> 0 ->
  exists d' s', raopcl_send_sample (Some d) sample count s = Ret ((0, Some d'), s') /\
    queued d s sample count d' s'.
Proof.
  intros [Hc Hb Hk Hiv Hf Ht Hroom Hm Hi] Hu. unfold packet_room in Hm.
  apply Z.eqb_neq in Hu. rewrite Hu in Hm.
  set (header := rtp_header (begin (vars s)) (seq_number (vars s)) (timestamp d) (ssrc d)).
  destruct (rtp_header_ok (begin (vars s)) (seq_number (vars s)) (timestamp d) (ssrc d)) as (Hhl & Hhb).
  fold header in Hhl, Hhb.
  set (d0 := set_timestamp (u32 (timestamp d + count)) d).
  destruct (new_packet_run d0 s (count + 12) header sample count
    ltac:(lia) ltac:(lia) Hhb Hb Hm) as (r & Hr & En).
  unfold raopcl_send_sample. rewrite Hu. cbn [negb]. unfold gets at 1. unfold bindM at 1. fold header.
  fold d0. rewrite (bindM_Ret _ _ _ _ _ En). change (negb (0 =? 0)) with false. cbn iota.
  set (d1 := set_data_ptr _ d0). set (s1 := Proc _ _ _ _ _).
  set (on := negb (encrypt_on d =? 0)).
  destruct (seal_run d1 s1 (fresh s) header sample count r on eq_refl
    ltac:(apply lookup_insert_eq) Hk Hiv Hb Hr Hc) as (nv & Es). rewrite Hhl in Es.
  change (encrypt_on d1) with (encrypt_on d).
  replace (if encrypt_on d =? 0 then ret d1 else encrypt_packet d1 12 count)
    with (if on then encrypt_packet d1 12 count else ret d1)
    by (unfold on; by destruct (encrypt_on d =? 0)).
  rewrite (bindM_Ret _ _ _ _ _ Es). clear En Es.
  set (s2 := set_heap _ s1). set (d2 := set_wblk _ _ _).
  replace (sfd d2) with (sfd d) by (unfold d2; by destruct on).
  destruct (register_run (sfd d) s2 Hf Ht Hroom) as (t' & Er & Htok & Htm).
  unfold RDWR in Er. rewrite (bindM_Ret _ _ _ _ _ Er). change (negb (0 =? 0)) with false. cbn iota.
  unfold put_vars at 1, modify at 1. unfold bindM at 1.
  set (s3 := set_vars _ _).
  destruct (count_samples_run count s3 Hi) as (cs & n & Ec & Hacc & Hq & Hn).
  rewrite (bindM_Ret _ _ _ _ _ Ec). eexists _, _. split; [done|].
  assert (Hp : packet d (vars s) sample count = header ++ payload d sample count on)
    by (unfold packet, header; by rewrite Hu, rtp_header_net).
  split; rewrite ?Hp, ?Hu; try done.
  - split; rewrite ?zlen_app, ?Hhl, ?(payload_ok _ _ _ _ _ Hk Hiv Hb Hc);
      [|by unfold d2; destruct on|unfold d2; destruct on; cbn; lia|lia].
    exists (fresh s), r. split; [by unfold d2; destruct on|]. cbn [heap set_fds set_heap set_vars s3 s2 s1].
    rewrite lookup_insert_eq, <- app_assoc. done.
  - by unfold d2; destruct on.
  - by unfold d2; destruct on.
  - cbn [trace]. rewrite Hacc. cbn. by rewrite app_nil_r.
  - split; [|done]. intros l Hl. cbn. by rewrite !lookup_insert_ne.
  - exists (cs ++ [CMalloc (align_size (count + 12))]). split; [by rewrite <- app_assoc|].
    apply Forall_app. split; [done|]. by repeat constructor.
  - by unfold d2; destruct on.
  - by unfold d2; destruct on.
  - cbn in Hn |- *. lia.
Qed.

End Send.

Lemma send_sample_run {E : Env} d s sample count :
  sendable d s sample count ->
  exists d' s', raopcl_send_sample (Some d) sample count s = Ret ((0, Some d'), s') /\
    queued d s sample count d' s'.
Proof.
  intros H. destruct (Z.eq_dec d.(udp) 0); [by apply send_tcp_run|by apply send_udp_run].
Qed.

(** C14: [raopcl_send_sample] succeeds and queues exactly one packet: for UDP an
    RTP header with the marker bit on the first packet, the sequence number, the
    time stamp and the stream source, then the samples (encrypted if asked); for
    TCP the interleaving header with the length and the encrypted samples.  The
    packet lies in a block of its own, nothing of it is written yet, the socket
    is registered for reading and writing, and for UDP the time stamp advances
    by the number of bytes and the sequence number by one, both modulo 2^32. *)
Theorem send_sample_queues {E : Env} d s sample count :
  sendable d s sample count ->
  exists d' s', raopcl_send_sample (Some d) sample count s = Ret ((0, Some d'), s') /\
    packet_at d' s' (packet d (vars s) sample count) 0 /\
    table_map (fds s') = <[d.(sfd) := (true, Some fd_event_callback_p, RDWR)]> (table_map (fds s)) /\
    d'.(timestamp) = (if d.(udp) =? 0 then d.(timestamp) else u32 (d.(timestamp) + count)) /\
    seq_number (vars s') =
      (if d.(udp) =? 0 then seq_number (vars s) else u32 (seq_number (vars s) + 1)) /\
    begin (vars s') = (if d.(udp) =? 0 then begin (vars s) else 0).
Proof.
  intros H. destruct (send_sample_run d s sample count H) as (d' & s' & Es & Q).
  destruct Q as [Hp _ [_ Ht] Hts Hq Hb].
  exists d', s'. done.
Qed.

(** C1: end to end: after a successful [raopcl_send_sample], write events on a
    socket that takes at least a byte each time complete the packet within as
    many events as it has bytes, and what the socket took is exactly the packet,
    in order, after what it had taken before. *)
Theorem sample_delivered {E : Env} {P : Posix E} d s sample count :
  sendable d s sample count -> takes d.(sfd) ->
  let pkt := packet d (vars s) sample count in
  exists d' s' d'' s'', raopcl_send_sample (Some d) sample count s = Ret ((0, Some d'), s') /\
    write_events (length pkt) d' s' = Ret ((0, Some d''), s'') /\
    d''.(wblk_remsize) = 0 /\
    accepted d.(sfd) (trace s'') = accepted d.(sfd) (trace s) ++ pkt.
Proof.
  intros H Htk pkt. destruct (send_sample_run d s sample count H) as (d' & s' & Es & Q).
  destruct Q as [Hp Hsfd [Htok _] _ _ _ Hacc].
  destruct (write_events_run (length pkt) d' s' pkt 0 Hp ltac:(rewrite Hsfd; apply H) Htok
    ltac:(by rewrite Hsfd) ltac:(unfold zlen; lia)) as (d'' & s'' & Ew & Hpk & Ha & _).
  exists d', s', d'', s''. split_and!; [done|done| |].
  - destruct Hpk. lia.
  - rewrite Hsfd in Ha. by rewrite Ha, Hacc.
Qed.

(** ** An instance *)

(** Memory is available and every write takes one byte. *)
Definition byte_env : Env := clamp (fun _ _ => Reply 1 [] 0).

#[local] Instance byte_env_posix : Posix byte_env := clamp_posix _.

Lemma byte_env_takes f : @takes byte_env f.
Proof.
  intros tr [|x b] Hb; [done|]. unfold env_reply, byte_env, clamp. cbn [rv].
  rewrite zlen_cons. pose proof (zlen_nonneg b). lia.
Qed.

Definition wit_client (c : aes_context) : raopcl_data_t :=
  set_sfd 5 (set_udp 1 (set_ctx c (raopcl_zero iota_key iota_key))).
Definition wit_state (g : aes_globals) : proc := Proc ∅ 1 [] fds_init (Statics 0 1 0 g).

Lemma wit_sendable g c : keyed g c iota_key -> @sendable byte_env (wit_client c) (wit_state g) iota_key 16.
Proof.
  intros Hk. split; try done.
  - apply iota_key_bytes.
  - split; [done|apply iota_key_bytes].
  - split; [done|constructor].
  - left. change (table_map (fds (wit_state g))) with (∅ : gmap Z reg). rewrite map_size_empty. lia.
Qed.

Lemma wit_keyed : exists g c, keyed g c iota_key.
Proof.
  destruct (keyed_set_key globals_at_start ctx_zero iota_key globals_at_start_ok ctx_zero_ok
    iota_key_bytes eq_refl) as (g & c & _ & _ & Hk). by exists g, c.
Qed.

Lemma send_sample_queues_witness :
  exists d s d' s', @raopcl_send_sample byte_env (Some d) iota_key 16 s = Ret ((0, Some d'), s') /\
    packet_at d' s' ([128; 224; 0; 0; 0; 0; 0; 0; 0; 0; 0; 0] ++ iota_key) 0 /\ d'.(timestamp) = 16.
Proof.
  destruct wit_keyed as (g & c & Hk).
  destruct (@send_sample_queues byte_env _ _ _ _ (wit_sendable g c Hk)) as (d' & s' & H1 & H2 & _ & H3 & _).
  exists (wit_client c), (wit_state g), d', s'. split; [exact H1|]. split; [exact H2|exact H3].
Defined.

Lemma sample_delivered_witness :
  exists d s d' s' d'' s'', @raopcl_send_sample byte_env (Some d) iota_key 16 s = Ret ((0, Some d'), s') /\
    @write_events byte_env 28 d' s' = Ret ((0, Some d''), s'') /\
    @accepted byte_env 5 (trace s'') = [128; 224; 0; 0; 0; 0; 0; 0; 0; 0; 0; 0] ++ iota_key.
Proof.
  destruct wit_keyed as (g & c & Hk).
  destruct (@sample_delivered byte_env _ _ _ _ _ (wit_sendable g c Hk) (byte_env_takes 5))
    as (d' & s' & d'' & s'' & H1 & H2 & _ & H4).
  exists (wit_client c), (wit_state g), d', s', d'', s''.
  split; [exact H1|]. split; [exact H2|exact H4].
Defined.

Lemma write_event_invariant_witness :
  exists r d' s' k',
    @fd_event_callback byte_env (Some (set_sfd 5 (set_wblk 1 2 (set_data_ptr (Ptr 1 0) (raopcl_zero [] [])))))
      RAOP_FD_WRITE (Proc {[1 := Bytes [7; 8; 9]]} 2 [] fds_init statics0) = Ret ((r, Some d'), s') /\
    packet_at d' s' [7; 8; 9] k' /\ 1 <= k'.
Proof.
  destruct (@write_event_invariant byte_env _
    (set_sfd 5 (set_wblk 1 2 (set_data_ptr (Ptr 1 0) (raopcl_zero [] []))))
    (Proc {[1 := Bytes [7; 8; 9]]} 2 [] fds_init statics0) [7; 8; 9] 1)
    as (r & d' & s' & k' & H1 & H2 & H3 & _).
  - split; [exists 1, []; split; reflexivity|reflexivity..|vm_compute; split; discriminate].
  - vm_compute. reflexivity.
  - vm_compute. discriminate.
  - split; [reflexivity|constructor].
  - exists r, d', s', k'. split; [exact H1|]. split; [exact H2|exact H3].
Defined.
