(* ===== verification/RaopOpen.v ===== *)
(** * RaopOpen: the client [raopcl_open] returns *)

From S2P Require Import Prelude AesTables Aes AesSpec AesKeys Sys AexclLib FdEvent AudioStream RtspClient RaopClient RaopCrypto.

(** The frame sent while there are no data: 32 silent sample pairs. *)
Definition silent_frame : list Z :=
  match auds_write_pcm (E := env0) 2 (repeat 0 144) 32 (MEMORY 128 (repeat 0 128)) proc0 with
  | Ret (_, b, _, _) => b
  | UB _ => []
  end.

Lemma silent_frame_run {E : Env} s :
  auds_write_pcm 2 (repeat 0 144) 32 (MEMORY 128 (repeat 0 128)) s = Ret ((0, silent_frame, Some 135), s).
Proof. vm_compute. reflexivity. Qed.

(** The client a successful call returns, up to the key material. *)
Definition opened (iv0 key0 : list Z) (c : aes_context) : raopcl_data_t :=
  set_min_sdata silent_frame 135 (set_ctx c (raopcl_zero iv0 key0)).

Lemma random_block r : block_ok (resize (Z.to_nat 16) 0 (map u8 r)).
Proof.
  split; [apply length_resize|].
  apply Forall_resize; [unfold is_u8; lia|]. apply Forall_map, Forall_true. intros. apply u8_range.
Qed.

Lemma drawn_block r b : block_ok b -> block_ok (drawn r b).
Proof. intros Hb. unfold drawn. destruct (r =? -1); [|done]. split; [done|]. repeat constructor; lia. Qed.

(** What the rest of the program relies on. *)
Record client_ready (d : raopcl_data_t) (s : proc) : Prop := {
  cr_keyed : keyed s.(vars).(aes) d.(ctx) d.(key);
  cr_iv : block_ok d.(iv);
  cr_key : block_ok d.(key);
  cr_silent : zlen d.(min_sdata) = 144 /\ d.(min_sdata_size) = 135 /\
    alac_decode (unpack (take 135 d.(min_sdata))) = Some (repeat (0, 0) 32);
  cr_idle : d.(wblk_remsize) = 0 /\ d.(data) = Null /\ d.(pause) = NO_PAUSE /\
    d.(volume) = VOLUME_DEF /\ d.(rtspcl) = None
}.

Lemma open_success {E : Env} s iv0 key0 :
  globals_ok s.(vars).(aes) -> block_ok iv0 -> block_ok key0 ->
  let '(g, c, _) := aes_set_key s.(vars).(aes) (ctx (raopcl_zero iv0 key0)) key0 128 in
  client_ready (opened iv0 key0 c) (set_vars (set_aes g s.(vars)) s) /\ globals_ok g.
Proof.
  intros Hg Hiv [Hkl Hkb].
  destruct (keyed_set_key (aes (vars s)) (ctx (raopcl_zero iv0 key0)) key0 Hg ctx_zero_ok Hkb
    ltac:(unfold zlen; by rewrite Hkl)) as (g & c & -> & Hg' & Hk).
  split; [|done]. split; done.
Qed.

(** The runs of [raopcl_open]. *)
Lemma raopcl_open_run {E : Env} s :
  globals_ok s.(vars).(aes) ->
  rv (env_reply (trace s) (CMalloc RAOPCL_SIZE)) <> 0 ->
  let tr := CRandSeed :: CMalloc RAOPCL_SIZE :: trace s in
  let r1 := rv (env_reply tr (CRandBytes 16)) in
  let r2 := rv (env_reply (CRandBytes 16 :: tr) (CRandBytes 16)) in
  exists p s', raopcl_open s = Ret (p, s') /\ heap s' = heap s /\ globals_ok s'.(vars).(aes) /\
    match p with None => r1 = 0 \/ r2 = 0 | Some d => r1 <> 0 /\ r2 <> 0 /\ client_ready d s' /\
      exists iv0 key0 c, d = opened iv0 key0 c end.
Proof.
  intros Hg Hm tr r1 r2.
  unfold raopcl_open, malloc_struct, RAND_bytes, syscall, sys, gets, put_vars, modify, bindM, ret.
  cbn [trace heap fresh fds vars]. rewrite (proj2 (Z.eqb_neq _ 0) Hm). cbn [negb trace heap fresh fds vars].
  fold tr. fold r1.
  destruct (Z.eqb_spec r1 0) as [H1|H1]; [eexists None, _; split; [reflexivity|]; split_and!; try done; by left|].
  cbn [trace heap fresh fds vars]. fold r2.
  destruct (Z.eqb_spec r2 0) as [H2|H2]; [eexists None, _; split; [reflexivity|]; split_and!; try done; by right|].
  cbn [trace heap fresh fds vars].
  set (iv0 := drawn _ _). set (key0 := drawn _ _). set (s1 := Proc _ _ _ _ _).
  pose proof (open_success s1 iv0 key0 Hg (drawn_block _ _ (random_block _)) (drawn_block _ _ (random_block _))) as H.
  change (key (raopcl_zero iv0 key0)) with key0. change (aes (vars s)) with (aes (vars s1)).
  destruct (aes_set_key _ _ _ _) as [[g c] r]. destruct H as (Hr & Hg').
  change (min_sdata (set_ctx c (raopcl_zero iv0 key0))) with (repeat 0 144).
  change (MEMORY (MINIMUM_SAMPLE_SIZE * 4) _) with (MEMORY 128 (repeat 0 128)).
  change MINIMUM_SAMPLE_SIZE with 32. rewrite silent_frame_run.
  eexists (Some _), _. split; [reflexivity|]. split_and!; try done. by exists iv0, key0, c.
Qed.

(** C15: [raopcl_open] returns NULL exactly when one of the two random strings
    cannot be drawn; otherwise the client is ready: its AES context belongs to
    its random key, the initialisation vector is drawn too, the frame for pauses
    decodes to 32 silent sample pairs within its array, and nothing is queued. *)
Theorem raopcl_open_ready {E : Env} s :
  globals_ok s.(vars).(aes) ->
  rv (env_reply (trace s) (CMalloc RAOPCL_SIZE)) <> 0 ->
  let tr := CRandSeed :: CMalloc RAOPCL_SIZE :: trace s in
  let r1 := rv (env_reply tr (CRandBytes 16)) in
  let r2 := rv (env_reply (CRandBytes 16 :: tr) (CRandBytes 16)) in
  exists p s', raopcl_open s = Ret (p, s') /\ heap s' = heap s /\ globals_ok s'.(vars).(aes) /\
    match p with None => r1 = 0 \/ r2 = 0 | Some d => r1 <> 0 /\ r2 <> 0 /\ client_ready d s' end.
Proof.
  intros Hg Hm tr r1 r2. destruct (raopcl_open_run s Hg Hm) as (p & s' & H1 & H2 & H3 & H4).
  exists p, s'. split_and!; try done. destruct p as [d|]; [|done]. by destruct H4 as (? & ? & ? & _).
Qed.

Lemma raopcl_open_ready_witness :
  exists d s', raopcl_open (E := fun _ _ => Reply 1 [] 0) proc0 = Ret (Some d, s') /\ client_ready d s'.
Proof.
  destruct (raopcl_open_ready (E := fun _ _ => Reply 1 [] 0) proc0 globals_at_start_ok
    ltac:(discriminate)) as ([d|] & s' & H1 & _ & _ & H2).
  - destruct H2 as (_ & _ & H2). exists d, s'. split; [exact H1|exact H2].
  - destruct H2; discriminate.
Defined.
