(* ===== verification/RaopConnect.v ===== *)
(** * RaopConnect: the Client-Instance header of [raopcl_connect]

    The header's value has sixteen characters, one of the sizes for which
    [rtspcl_add_exthds] has no room for the terminating NUL. *)

From S2P Require Import Prelude AesTables Aes Base64 Sys AexclLib FdEvent AudioStream RtspClient RtspProofs RaopClient.

(** ** The value has sixteen characters *)

Lemma length_digits base fuel n k :
  2 <= base -> 0 <= n < base ^ k -> 1 <= k <= Z.of_nat fuel -> 1 <= zlen (digits fuel base n) <= k.
Proof.
  intros Hb. revert n k. induction fuel as [|fuel IH]; intros n k Hn Hk; [lia|].
  cbn [digits]. destruct (Z.ltb_spec n base); [unfold zlen; simpl; lia|].
  assert (k <> 1) by (intros ->; rewrite Z.pow_1_r in Hn; lia).
  replace k with (Z.succ (k - 1)) in Hn by lia. rewrite Z.pow_succ_r in Hn by lia.
  rewrite zlen_app. change (zlen [n mod base]) with 1.
  specialize (IH (n / base) (k - 1)). assert (0 <= n / base < base ^ (k - 1)).
  { split; [apply Z.div_pos; lia|]. apply Z.div_lt_upper_bound; lia. }
  lia.
Qed.

Lemma zlen_fmt_08x n : is_u32 n -> zlen (fmt_08x n) = 8.
Proof.
  intros Hn. destruct (length_digits 16 70 n 8) as [H1 H2]; [lia|exact Hn|lia|].
  unfold fmt_08x. rewrite zlen_app. unfold zlen in *. rewrite repeat_length, length_map. lia.
Qed.

Lemma zlen_fmt_u n k : 0 <= n < 10 ^ k -> 1 <= k <= 70 -> zlen (fmt_u n) <= k.
Proof. intros Hn Hk. unfold fmt_u, zlen. rewrite length_map. apply (length_digits 10 70 n k); lia. Qed.

Lemma zlen_fmt_d n : is_int n -> zlen (fmt_d n) <= 11.
Proof.
  intros Hn. unfold is_int, INT_MIN, INT_MAX in Hn. unfold fmt_d.
  destruct (Z.ltb_spec n 0); rewrite ?zlen_cons; [pose proof (zlen_fmt_u (- n) 10)|pose proof (zlen_fmt_u n 10)];
    change (10 ^ 10) with 10000000000 in *; lia.
Qed.

Lemma s32_int x : is_int (s32 x).
Proof. unfold s32, is_int, INT_MIN, INT_MAX. pose proof (Z.mod_pos_bound (x + 2147483648) 4294967296). lia. Qed.

Lemma le16_range b i : bytes b -> 0 <= le16 b i < 65536.
Proof.
  intros Hb. unfold le16. rewrite !Z.shiftl_mul_pow2 by lia. change (2 ^ 8) with 256.
  pose proof (znth_bytes b i Hb). pose proof (znth_bytes b (i + 1) Hb).
  apply (lor_bound 16); unfold is_u8 in *; lia.
Qed.

Lemma le32_range b i : bytes b -> is_u32 (le32 b i).
Proof.
  intros Hb. unfold le32, le16.
  assert (Hz : forall j, is_u8 (znth b j)) by (intros; by apply znth_bytes).
  rewrite !Z.shiftl_mul_pow2 by lia. change (2 ^ 8) with 256. change (2 ^ 16) with 65536.
  assert (H16 : forall j k, 0 <= znth b j .| znth b k * 256 < 65536).
  { intros j k. apply (lor_bound 16); pose proof (Hz j); pose proof (Hz k); unfold is_u8 in *; lia. }
  apply (lor_bound 32); pose proof (H16 i (i + 1)); pose proof (H16 (i + 2) (i + 2 + 1)); lia.
Qed.

(** ** The steps before it *)

Section Connect.
Context {E : Env} {L : LineBound}.

Lemma session_id_run d buf e s :
  bytes buf ->
  (forall tr, udp d <> 0 -> let a := rv (env_reply tr CRand) in is_int (s32 (a .<< 16) + rv (env_reply (CRand :: tr) CRand))) ->
  exists sid d' tr, session_id d buf e s = Ret ((sid, d'), with_trace tr s).
Proof.
  intros Hb Hr. unfold session_id, sprintf. destruct (Z.eqb_spec (udp d) 0) as [Hu|Hu].
  - rewrite (proj2 (Z.leb_le _ 16)) by (pose proof (zlen_fmt_d (s32 (le32 buf 0)) (s32_int _)); lia).
    eexists _, _, (trace s). unfold bindM, ret. by destruct s.
  - rewrite (proj2 (Z.leb_le _ 16)).
    2:{ rewrite zlen_app. pose proof (zlen_fmt_u (le16 buf 0) 5). change (zlen (fmt_d 3420)) with 4.
        pose proof (le16_range buf 0 Hb). lia. }
    unfold bindM at 1, ret at 1, syscall, sys, bindM, ret, int. cbn [trace heap fresh fds vars].
    rewrite bool_decide_true by (by apply Hr). by eexists _, _, _.
Qed.

Lemma alloc_heap_ok s b tr :
  heap_ok s -> heap_ok (Proc (<[fresh s := b]> (heap s)) (fresh s + 1) tr (fds s) (vars s)).
Proof.
  intros H l Hl. cbn in *. rewrite lookup_insert_ne by lia. apply H. lia.
Qed.

Lemma store_heap_ok p o src s a s' : store p o src s = Ret (a, s') -> heap_ok s -> heap_ok s'.
Proof.
  unfold store. destruct p as [|l off]; [done|]. destruct (heap s !! l) as [[b|k]|] eqn:El; try done.
  destruct (buf_write _ _ _) as [b'|]; [|done]. cbn [obind]. intros [= <- <-] H x Hx. cbn in *.
  rewrite lookup_insert_ne; [by apply H|]. intros ->. rewrite H in El by done. done.
Qed.

Lemma base64_alloc_run data s :
  rv (env_reply (trace s) (CMalloc (zlen data * 4 / 3 + 4))) <> 0 -> bytes data -> heap_ok s ->
  exists p s', base64_alloc data (zlen data) s = Ret (p, s') /\ heap_ok s'.
Proof.
  intros Hm Hb Hs. pose proof (zlen_nonneg data) as Hz. unfold base64_alloc.
  rewrite Z.quot_div_nonneg by lia.
  assert (Hn : 0 <= zlen data * 4 / 3 + 4) by (Z.div_mod_to_equations; lia).
  destruct (malloc_run (zlen data * 4 / 3 + 4) s Hn) as [[H0 _]|(_ & g & Hg & E1)]; [done|].
  rewrite (bindM_Ret _ _ _ _ _ E1), decide_False by done.
  erewrite bindM_Ret by (apply view_run, lookup_insert_eq).
  assert (Hmal : malloc_sized (fun n => if n =? zlen g then Some g else None)).
  { intros n x. destruct (Z.eqb_spec n (zlen g)); [|done]. by intros [= <-]. }
  assert (Henc : base64_encode (fun _ => Some g) data (zlen data) = Ret (Some (splice g 0 (b64 data ++ [0])), zlen (b64 data))).
  { rewrite <- (base64_encode_spec (fun n => if n =? zlen g then Some g else None) data g) by
      (done || by rewrite Hg, Z.eqb_refl).
    unfold base64_encode. rewrite Z.quot_div_nonneg by lia. by rewrite Hg, Z.eqb_refl. }
  unfold lift at 1, bindM at 1. rewrite Henc. cbn [obind].
  assert (Hfit : zlen (splice g 0 (b64 data ++ [0])) = zlen g).
  { pose proof (length_b64 data). rewrite zlen_splice; [done|lia|]. rewrite zlen_app. change (zlen [0]) with 1.
    rewrite Hg. unfold zlen in *. Z.div_mod_to_equations. lia. }
  erewrite bindM_Ret by (eapply store_run; [apply lookup_insert_eq|lia|simpl; lia]).
  eexists _, _. split; [reflexivity|]. intros l Hl. cbn in Hl |- *. rewrite !lookup_insert_ne by lia. apply Hs. lia.
Qed.

End Connect.

(** C38: [raopcl_connect] writes behind the block of the Client-Instance header.  With
    memory available (and, over UDP, random numbers whose sum is an [int]) the function
    gets as far as adding that header, whose value [sci] is sixteen characters of
    hexadecimal digits; the block for it has sixteen bytes, and copying the string with
    its NUL is the access outside of a block that ends the run. *)
Theorem connect_overflows {E : Env} {L : LineBound} d host destport e u s :
  (forall tr m, rv (env_reply tr (CMalloc m)) <> 0) -> heap_ok s ->
  (forall tr, u <> 0 -> is_int (s32 (rv (env_reply tr CRand) .<< 16) + rv (env_reply (CRand :: tr) CRand))) ->
  exists r sci k s', zlen sci = 16 /\ align_size (zlen sci) = 16 /\
    raopcl_connect (Some d) host destport e u s = bindM (rtspcl_add_exthds r (lit "Client-Instance") sci) k s' /\
    rtspcl_add_exthds r (lit "Client-Instance") sci s' = UB OutOfBounds /\
    raopcl_connect (Some d) host destport e u s = UB OutOfBounds.
Proof.
  intros Hm Hs Hr.
  cut (exists r sci k s', zlen sci = 16 /\
    raopcl_connect (Some d) host destport e u s = bindM (rtspcl_add_exthds r (lit "Client-Instance") sci) k s' /\
    rtspcl_add_exthds r (lit "Client-Instance") sci s' = UB OutOfBounds).
  { intros (r & sci & k & s' & Hl & Hc & Hub). exists r, sci, k, s'. rewrite Hl, Hc. by rewrite (bindM_UB _ _ _ _ Hub). }
  unfold raopcl_connect, RAND_bytes. rewrite bindM_assoc.
  unfold sys at 1, bindM at 1. rewrite bindM_ret.
  set (buf := resize _ _ _). set (s1 := Proc _ _ _ _ _).
  assert (Hb : bytes buf).
  { apply Forall_resize; [unfold is_u8; lia|]. apply Forall_map, Forall_true. intros. apply u8_range. }
  destruct (session_id_run (set_udp u d) buf e s1 Hb Hr) as (sid & d' & tr & Hsid).
  rewrite (bindM_Ret _ _ _ _ _ Hsid). set (s2 := with_trace tr s1).
  set (sci := fmt_08x _ ++ fmt_08x _).
  assert (Hsci : zlen sci = 16) by (unfold sci; rewrite zlen_app, !zlen_fmt_08x by (by apply le32_range); done).
  unfold sprintf. rewrite Hsci. change (16 + 1 <=? 24) with true. cbn iota. rewrite bindM_ret.
  assert (H16 : zlen (drop 12 buf) = 16) by (unfold zlen, buf; rewrite length_drop, length_resize; done).
  destruct (base64_alloc_run (drop 12 buf) s2 (Hm _ _) (Forall_drop _ _ _ Hb) Hs) as (sac & s3 & Hsac & Hok).
  rewrite H16 in Hsac. rewrite (bindM_Ret _ _ _ _ _ Hsac).
  unfold rtspcl_open, malloc_struct. rewrite !bindM_assoc. unfold sys at 1, bindM at 1.
  rewrite bindM_ret, (proj2 (Z.eqb_neq _ 0) (Hm _ _)). cbn [negb]. rewrite bindM_ret.
  unfold rtspcl_set_useragent.
  match goal with |- context [bindM (rtspcl_add_exthds ?r _ _) ?k ?st] =>
    assert (Hub : rtspcl_add_exthds r (lit "Client-Instance") sci st = UB OutOfBounds) by (by apply add_exthds_overflows);
    exists r, sci, k, st end.
  split; [done|]. by split; [reflexivity|].
Qed.

Lemma connect_overflows_witness :
  raopcl_connect (E := fun _ _ => Reply 1 [] 0) (L := 10%nat)
    (Some (raopcl_zero [] [])) (lit "10.0.0.2") 5000 1 1 proc0 = UB OutOfBounds.
Proof.
  destruct (connect_overflows (E := fun _ _ => Reply 1 [] 0) (L := 10%nat)
    (raopcl_zero [] []) (lit "10.0.0.2") 5000 1 1 proc0) as (r & sci & k & s' & _ & _ & _ & _ & H).
  - intros tr m. discriminate.
  - intros l Hl. reflexivity.
  - intros tr _. split; discriminate.
  - exact H.
Defined.
