(* ===== verification/RaopPlay.v ===== *)
(** * RaopPlay: the player of raop_play.c

    The program itself: command line, event loop, console commands, signals.
    The static [raopld] holds the client, the audio stream and the event table;
    the table is the component [fds] of the process (the empty list while
    [raopld] is NULL), the other two fields are the record [raopld_t]. *)

From S2P Require Import Prelude Sys AexclLib FdEvent AudioStream PcmStream RtspClient RaopClient.

(** ** Data *)

Record raopld_t : Type := Raopld { pl_raopcl : option raopcl_data_t; pl_auds : option auds_t }.

Definition set_raopcl (c : option raopcl_data_t) (l : raopld_t) : raopld_t := Raopld c l.(pl_auds).
Definition set_auds (a : option auds_t) (l : raopld_t) : raopld_t := Raopld l.(pl_raopcl) a.

Definition SERVER_PORT : Z := 5000.
Definition MAIN_EVENT_TIMEOUT : Z := 3.
Definition FD_SETSIZE : Z := 1024.
Definition SIGCHLD : Z := 17.
Definition RAOP_SONGDONE : list Z := lit "done".
Definition RAOP_ERROR : list Z := lit "error".

(** ** The command line *)

Record options : Type := Options {
  host : option (list Z);
  fname : option (list Z);
  port : Z;
  vol : Z;
  encrypt_opt : Z;
  udp_opt : Z;
  iact : Z
}.
Definition options0 : options := Options None None SERVER_PORT 100 1 0 0.

(** [argv[i]]; the array has [zlen argv] elements whatever [argc] says. *)
Definition arg (argv : list (list Z)) (i : Z) : outcome (list Z) :=
  if in_range i (zlen argv) then Ret (nth (Z.to_nat i) argv []) else UB OutOfBounds.

(** The loop [for(i=1;i<argc;i++)]; [None] is the return of [print_usage]. *)
Fixpoint parse_args (fuel : nat) (argc : Z) (argv : list (list Z)) (i : Z) (o : options)
    : outcome (option options) :=
  if i <? argc then
    match fuel with
    | O => UB NoFuel
    | S fuel =>
        let '(Options h f p v e u a) := o in
        do s <- arg argv i;
        if str_eqb s (lit "-i") then parse_args fuel argc argv (i + 1) (Options h f p v e u 1)
        else if str_eqb s (lit "--port") then
          do t <- arg argv (i + 1);
          do n <- atoi t;
          parse_args fuel argc argv (i + 2) (Options h f n v e u a)
        else if str_eqb s (lit "--vol") then
          do t <- arg argv (i + 1);
          do n <- atoi t;
          parse_args fuel argc argv (i + 2) (Options h f p n e u a)
        else if str_eqb s (lit "-e") then parse_args fuel argc argv (i + 1) (Options h f p v 0 u a)
        else if str_eqb s (lit "--proto") then
          do t <- arg argv (i + 1);
          parse_args fuel argc argv (i + 2)
            (Options h f p v e (if str_eqb t (lit "udp") then 1 else 0) a)
        else if str_eqb s (lit "--help") || str_eqb s (lit "-h") then Ret None
        else match h, f with
             | None, _ => parse_args fuel argc argv (i + 1) (Options (Some s) f p v e u a)
             | _, None => parse_args fuel argc argv (i + 1) (Options h (Some s) p v e u a)
             | _, _ => parse_args fuel argc argv (i + 1) o
             end
    end
  else Ret (Some o).

Definition usage_text (argv0 : list Z) : list Z :=
  argv0 ++ lit " [--port port_number] [--vol volume(0-100)] " ++
  lit "[-i interactive mode] [-e no-encrypt-mode] [--proto [udp|tcp]]  server_ip audio_filename" ++ [10].

Section Play.
Context {E : Env} {L : LineBound}.

(** The bytes the array [line] of [console_read] holds when it is entered. *)
Context (console_line : list Z).

Definition printf (s : list Z) : M unit := do! _ <- syscall (CPuts s); ret tt.

Definition print_usage (argv : list (list Z)) : M Z :=
  do! a <- lift (arg argv 0); do! _ <- printf (usage_text a); ret (-1).

(** ** Calls to the Java side *)

Definition notifyReady (ready : Z) : M unit :=
  do! _ <- syscall (CNotifyReady (negb (ready =? 0))); ret tt.

Definition isActivated (address : list Z) : M Z :=
  do! r <- syscall (CIsActivated address); ret (if r =? 1 then 1 else 0).

(** ** Console commands *)

(** [raopcl_wait_songdone(raopld->raopcl, set)]; the pointer is not checked. *)
Definition wait_songdone (l : raopld_t) (set : Z) : M (Z * raopld_t) :=
  match l.(pl_raopcl) with
  | None => undef NullDeref
  | Some d => let '(r, d) := raopcl_wait_songdone d set in ret (r, set_raopcl (Some d) l)
  end.

Definition do_set_pause (l : raopld_t) (st : pause_state_t) : M raopld_t :=
  do! '(_, c) <- raopcl_set_pause l.(pl_raopcl) st; ret (set_raopcl c l).

(** A value of [raopcl_get_pause] other than [NO_PAUSE] (0). *)
Definition paused (l : raopld_t) : bool :=
  match raopcl_get_pause l.(pl_raopcl) with Some NO_PAUSE => false | _ => true end.

(** The text after the first blank. *)
Fixpoint after_blank (s : list Z) : option (list Z) :=
  match s with [] => None | c :: s' => if c =? 32 then Some s' else after_blank s' end.

Definition command_play (l : raopld_t) (s : list Z) : M (Z * raopld_t) :=
  if paused l then do! l <- do_set_pause l NO_PAUSE; ret (0, l)
  else match after_blank s with
       | None => ret (0, l)
       | Some ps =>
           do! a <- auds_open ps AUD_TYPE_NONE;
           let l := set_auds a l in
           match a with
           | None => do! _ <- printf (RAOP_ERROR ++ [10]); ret (-1, l)
           | Some _ =>
               do! '(_, c) <- raopcl_flush_stream l.(pl_raopcl);
               ret (0, set_raopcl c l)
           end
       end.

Definition close_auds (l : raopld_t) : M raopld_t :=
  match l.(pl_auds) with
  | None => ret l
  | Some a => do! _ <- auds_close a; ret (set_auds None l)
  end.

(** [console_command(cstr)]: [line] is the array, which is read behind the
    string by [atoi(ps+7)]. *)
Definition console_command (l : raopld_t) (line : list Z) : M (Z * raopld_t) :=
  do! s <- lift (cstr line);
  if is_prefix (lit "play") s then command_play l s
  else if str_eqb s (lit "pause") then
    do! '(w, l) <- wait_songdone l 0;
    if negb (w =? 0) then ret (-2, l)
    else
      do! l <- match l.(pl_auds) with Some _ => do_set_pause l OP_PAUSE | None => ret l end;
      ret (-1, l)
  else if str_eqb s (lit "stop") then
    do! l <- (if paused l then do_set_pause l NO_PAUSE else ret l);
    do! l <- close_auds l;
    ret (-1, l)
  else if str_eqb s (lit "quit") then ret (-2, l)
  else match strstr s (lit "volume") with
       | Some ps =>
           if ps + 7 <=? zlen line then
             do! t <- lift (cstr (drop (Z.to_nat (ps + 7)) line));
             do! i <- lift (atoi t);
             do! '(r, c) <- raopcl_update_volume l.(pl_raopcl) i;
             ret (r, set_raopcl c l)
           else undef OutOfBounds
       | None => ret (-1, l)
       end.

Definition console_read (l : raopld_t) : M (Z * raopld_t) :=
  do! '(r, line) <- read_line 0 console_line 256 100 false;
  do! _ <- (if r =? -1 then clear_fd_event 0 else ret 0);
  do! '(r, l) <- console_command l line;
  ret (if r =? -2 then -1 else 0, l).

Definition terminate_cbf : M Z := ret (-1).

(** [sig_action(signo, siginfo, extra)] *)
Definition sig_action (l : raopld_t) (signo : Z) : M unit :=
  do! t <- gets fds;
  if bool_decide (t = []) then undef NullDeref
  else if signo =? SIGCHLD then do! _ <- auds_sigchld l.(pl_auds); ret tt
  else do! _ <- set_fd_event 1 RAOP_FD_WRITE (Some terminate_cbf_p) false; ret tt.

(** ** Events *)

(** A call of a registered callback with its data pointer. *)
Definition call_cbf (l : raopld_t) (c : dfev_t) (fl : Z) : M (Z * raopld_t) :=
  match c.(cbf) with
  | None => ret (0, l)
  | Some fd_event_callback_p =>
      if c.(dp) then
        do! '(r, p) <- fd_event_callback l.(pl_raopcl) fl; ret (r, set_raopcl p l)
      else do! '(r, _) <- fd_event_callback None fl; ret (r, l)
  | Some console_read_p => console_read l
  | Some terminate_cbf_p => do! r <- terminate_cbf; ret (r, l)
  end.

Definition wants (fl : Z) (c : dfev_t) : bool := (0 <=? c.(fd)) && negb (c.(flags) .& fl =? 0).
Definition fd_set (fl : Z) (t : list dfev_t) : list Z := map fd (List.filter (wants fl) t).

(** The sets after [select]: bit 0 of an entry of the reply tells the set, the
    rest is the descriptor.  On an error the sets are as before. *)
Definition ready (r : reply) (bit : Z) (set : list Z) : list Z :=
  if r.(rv) <? 0 then set
  else if r.(rv) =? 0 then []
  else List.filter (fun f => existsb (Z.eqb (2 * f + bit)) r.(rdata)) set.

Definition mem (f : Z) (set : list Z) : bool := existsb (Z.eqb f) set.

(** One half of the body of the dispatch loop: the entry is read again, since
    the first callback may have changed it. *)
Definition dispatch_one (l : raopld_t) (i : nat) (fl : Z) (set : list Z) : M (Z * raopld_t) :=
  do! t <- gets fds;
  match t !! i with
  | None => undef NullDeref
  | Some c => if negb (c.(flags) .& fl =? 0) && mem c.(fd) set then call_cbf l c fl else ret (0, l)
  end.

Fixpoint dispatch (n : nat) (i : nat) (l : raopld_t) (rd wr : list Z) : M (Z * raopld_t) :=
  match n with
  | O => ret (0, l)
  | S n =>
      do! t <- gets fds;
      match t !! i with
      | None => undef NullDeref
      | Some c =>
          if c.(fd) <? 0 then dispatch n (S i) l rd wr
          else
            do! '(r, l) <- dispatch_one l i RAOP_FD_READ rd;
            if negb (r =? 0) then ret (-1, l)
            else
              do! '(r, l) <- dispatch_one l i RAOP_FD_WRITE wr;
              if negb (r =? 0) then ret (-1, l) else dispatch n (S i) l rd wr
      end
  end.

(** [raopcl_aexbuf_time] of the client, when the end of the song is awaited. *)
Definition songdone_time (l : raopld_t) (tout : timeval) : M (bool * timeval) :=
  do! '(w, _) <- wait_songdone l 0;
  if w =? 0 then ret (false, tout)
  else do! '(_, tv) <- raopcl_aexbuf_time l.(pl_raopcl) tout; ret (true, tv).

(** The end of the handler: the report of a finished song and the pause check. *)
Definition after_events (l : raopld_t) (tout : timeval) : M (Z * raopld_t) :=
  do! '(w, tv) <- songdone_time l tout;
  do! l <-
    (if (w : bool) && (tv.(tv_sec) =? 0) && (tv.(tv_usec) =? 0) then
       do! _ <- printf (RAOP_SONGDONE ++ [10]);
       do! '(_, l) <- wait_songdone l (-1); ret l
     else ret l);
  match l.(pl_raopcl) with
  | None => undef NullDeref
  | Some d => do! '(_, d) <- raopcl_pause_check d; ret (0, set_raopcl (Some d) l)
  end.

Definition main_event_handler (l : raopld_t) : M (Z * raopld_t) :=
  do! t <- gets fds;
  let rdfds := fd_set RAOP_FD_READ t in
  let wrfds := fd_set RAOP_FD_WRITE t in
  if existsb (fun f => FD_SETSIZE <=? f) (rdfds ++ wrfds) then undef OutOfBounds
  else
    do! '(_, tout) <- songdone_time l (Timeval MAIN_EVENT_TIMEOUT 0);
    do! r <- sys (CSelect rdfds wrfds tout.(tv_sec) tout.(tv_usec));
    do! '(r, l) <- dispatch (Z.to_nat MAX_NUM_OF_FDS) 0 l (ready r 0 rdfds) (ready r 1 wrfds);
    if negb (r =? 0) then ret (-1, l) else after_events l tout.

(** ** The main loop *)

(** The [do ... while] after a packet was queued. *)
Fixpoint drain (fuel : nat) (l : raopld_t) : M (Z * raopld_t) :=
  match fuel with
  | O => undef NoFuel
  | S fuel =>
      do! '(rval, l) <- main_event_handler l;
      if negb (rval =? 0) then ret (rval, l)
      else match l.(pl_auds) with
           | None => ret (rval, l)
           | Some _ => if raopcl_sample_remsize l.(pl_raopcl) =? 0 then ret (rval, l) else drain fuel l
           end
  end.

(** The locals [buf] and [size] of [main]; [None] while they are uninitialised. *)
Definition locals : Type := option (ptr * Z).

(** The case [NO_PAUSE].  When no frame could be read the stream is closed and
    the old values of [buf] and [size] are sent. *)
Definition play_sample (fuel : nat) (l : raopld_t) (a : auds_t) (b : locals)
    : M (Z * raopld_t * locals) :=
  do! more <- auds_poll_next_sample a;
  if more =? 0 then do! l <- do_set_pause l NODATA_PAUSE; ret (0, l, b)
  else
    do! '(r, v) <- auds_get_next_sample a;
    let b := match v with Some _ => v | None => b end in
    do! l <- (if r =? 0 then ret l
              else
                do! l <- close_auds l;
                do! '(_, l) <- wait_songdone l 1; ret l);
    match b with
    | None => undef Uninit
    | Some (buf, size) =>
        do! sample <- view buf;
        do! '(r, c) <- raopcl_send_sample l.(pl_raopcl) sample size;
        let l := set_raopcl c l in
        if negb (r =? 0) then ret (0, l, b)
        else do! '(rval, l) <- drain fuel l; ret (rval, l, b)
    end.

(** One iteration of the main loop: the new [rval]. *)
Definition main_step (fuel : nat) (l : raopld_t) (b : locals) : M (Z * raopld_t * locals) :=
  let events (l : raopld_t) := do! '(r, l) <- main_event_handler l; ret (r, l, b) in
  match l.(pl_auds) with
  | None => events l
  | Some a =>
      match raopcl_get_pause l.(pl_raopcl) with
      | Some OP_PAUSE => events l
      | Some NODATA_PAUSE =>
          do! more <- auds_poll_next_sample a;
          if more =? 0 then events l
          else do! l <- do_set_pause l NO_PAUSE; play_sample fuel l a b
      | Some NO_PAUSE => play_sample fuel l a b
      | None => ret (-1, l, b)
      end
  end.

(** [while(!rval && isActivated(host)==1)] *)
Fixpoint main_loop (fuel : nat) (h : list Z) (rval : Z) (l : raopld_t) (b : locals) : M raopld_t :=
  match fuel with
  | O => undef NoFuel
  | S fuel' =>
      if negb (rval =? 0) then ret l
      else
        do! act <- isActivated h;
        if negb (act =? 1) then ret l
        else do! '(rval, l, b) <- main_step fuel l b; main_loop fuel' h rval l b
  end.

(** The label [erexit]. *)
Definition main_exit (rval : Z) (l : raopld_t) (h : list Z) : M Z :=
  do! _ <- close_auds l;
  do! _ <- modify (set_fds []);
  do! _ <- isActivated h;
  ret rval.

Definition RAOPLD_SIZE : Z := 72.

(** From the connection to the opening of the stream: 0 on success. *)
Definition main_connect (o : options) (h : list Z) (l : raopld_t) : M (Z * raopld_t) :=
  do! '(r, c) <- raopcl_connect l.(pl_raopcl) h (u16 o.(port)) o.(encrypt_opt) o.(udp_opt);
  let l := set_raopcl c l in
  if negb (r =? 0) then ret (-1, l)
  else
    do! '(r, c) <- raopcl_update_volume l.(pl_raopcl) o.(vol);
    let l := set_raopcl c l in
    if negb (r =? 0) then ret (-1, l)
    else
      do! '(r, l) <-
        (if o.(udp_opt) =? 0 then ret (0, l)
         else
           do! '(r, c) <- raopcl_set_content l.(pl_raopcl) (lit "ROAP PLAY") (lit "Via Waveplay") [];
           ret (r, set_raopcl c l));
      if negb (r =? 0) then ret (-1, l)
      else match o.(fname) with
           | None => ret (0, l)
           | Some f =>
               do! a <- auds_open f AUD_TYPE_NONE;
               ret (match a with None => -1 | Some _ => 0 end, set_auds a l)
           end.

Definition main (fuel : nat) (argc : Z) (argv : list (list Z)) : M Z :=
  do! po <- lift (parse_args (Z.to_nat argc) argc argv 1 options0);
  match po with
  | None => print_usage argv
  | Some o =>
      match o.(host) with
      | None => print_usage argv
      | Some h =>
          if (o.(iact) =? 0) && (match o.(fname) with None => true | _ => false end)
          then print_usage argv
          else
            do! ok <- malloc_struct RAOPLD_SIZE;
            if negb ok then undef NullDeref
            else
              do! _ <- modify (set_fds fds_init);
              do! c <- raopcl_open;
              let l := Raopld c None in
              match c with
              | None => main_exit (-1) l h
              | Some _ =>
                  do! '(r, l) <- main_connect o h l;
                  if negb (r =? 0) then main_exit (-1) l h
                  else
                    do! _ <- set_fd_event 0 RAOP_FD_READ (Some console_read_p) false;
                    do! l <- main_loop fuel h 0 l None;
                    do! '(rval, _) <- raopcl_close l.(pl_raopcl);
                    main_exit rval l h
              end
      end
  end.

(** [Java_com_nixus_raop_RaopHelper_raopPlay(env, thiz, elements)]: seven
    strings are copied into [message] and [main] is told that there are eight. *)
Definition raopPlay (fuel : nat) (elements : list (list Z)) : M Z :=
  if zlen elements <? 7 then undef OutOfBounds
  else do! _ <- main fuel 8 (take 7 elements); ret (-1).

End Play.
