(* ===== verification/RaopArgs.v ===== *)
(** * RaopArgs: the command line of raop_play.c

    A command line printed from options is parsed back to them; the call of
    [main] from Java claims one argument more than it passes. *)

From S2P Require Import Prelude Sys AexclLib FdEvent AudioStream PcmStream RtspClient RaopClient RaopPlay.

(** ** Numbers *)

Lemma scan_digit_chars ds : Forall (fun d => 0 <= d < 10) ds -> forall acc,
  scan_digits (map digit_char ds) acc = fold_left (fun a d => 10 * a + d) ds acc.
Proof.
  induction 1 as [|d ds Hd Hds IH]; intros acc; [done|]. cbn [map scan_digits fold_left].
  unfold digit_char, isdigit. rewrite (proj2 (Z.ltb_lt d 10)) by lia.
  rewrite (proj2 (Z.leb_le 48 _)), (proj2 (Z.leb_le _ 57)) by lia. cbn [andb].
  fold digit_char. rewrite IH. f_equal. lia.
Qed.

Lemma digits_value fuel : forall n, 0 <= n < 10 ^ Z.of_nat fuel ->
  Forall (fun d => 0 <= d < 10) (digits fuel 10 n) /\
  fold_left (fun a d => 10 * a + d) (digits fuel 10 n) 0 = n /\ (0 < fuel -> digits fuel 10 n <> [])%nat.
Proof.
  induction fuel as [|fuel IH]; intros n Hn; [simpl in *; split_and!; [constructor|simpl; lia|lia]|].
  cbn [digits]. destruct (Z.ltb_spec n 10) as [H10|H10].
  - split_and!; [repeat constructor; lia|simpl; lia|done].
  - rewrite Nat2Z.inj_succ, Z.pow_succ_r in Hn by lia.
    destruct (IH (n / 10)) as (IH1 & IH2 & _); [Z.div_mod_to_equations; lia|].
    split_and!.
    + apply Forall_app. split; [done|]. repeat constructor; apply Z.mod_pos_bound; lia.
    + rewrite fold_left_app, IH2. simpl. Z.div_mod_to_equations; lia.
    + by destruct (digits fuel 10 (n / 10)).
Qed.

Lemma digit_char_range d : 0 <= d < 10 -> 48 <= digit_char d <= 57.
Proof. intros. unfold digit_char. rewrite (proj2 (Z.ltb_lt d 10)); lia. Qed.

Lemma fmt_u_head n : 0 <= n < 10 ^ 70 -> exists c l, fmt_u n = c :: l /\ 48 <= c <= 57.
Proof.
  intros Hn. destruct (digits_value 70 n Hn) as (H1 & _ & H3). unfold fmt_u.
  destruct (digits 70 10 n) as [|d ds]; [by destruct H3; [lia|]|].
  inversion_clear H1. exists (digit_char d), (map digit_char ds). split; [done|].
  by apply digit_char_range.
Qed.

Lemma scan_fmt_u n : 0 <= n < 10 ^ 70 -> scan_digits (fmt_u n) 0 = n.
Proof.
  intros Hn. destruct (digits_value 70 n Hn) as (H1 & H2 & _). unfold fmt_u.
  by rewrite scan_digit_chars.
Qed.

(** [atoi] reads what [%d] prints. *)
Lemma atoi_fmt_d n : is_int n -> atoi (fmt_d n) = Ret n.
Proof.
  intros Hi. assert (Hb : INT_MIN <= n <= INT_MAX) by done. unfold INT_MIN, INT_MAX in Hb.
  unfold fmt_d, atoi. destruct (Z.ltb_spec n 0).
  - replace (skip_space (45 :: fmt_u (- n))) with (45 :: fmt_u (- n)) by reflexivity.
    cbv beta iota zeta. rewrite scan_fmt_u, Z.opp_involutive by lia. by rewrite bool_decide_true.
  - destruct (fmt_u_head n ltac:(lia)) as (c & l & E & Hc).
    assert (Hsk : skip_space (fmt_u n) = fmt_u n).
    { rewrite E. cbn [skip_space]. unfold isspace.
      rewrite (proj2 (Z.eqb_neq c 32)), (proj2 (Z.leb_gt c 13)) by lia. by rewrite andb_false_r. }
    rewrite Hsk. cbv zeta.
    assert (Hv : match fmt_u n with 45 :: s' => - scan_digits s' 0 | 43 :: s' => scan_digits s' 0
                 | _ => scan_digits (fmt_u n) 0 end = scan_digits (fmt_u n) 0).
    { rewrite E. assert (c <> 45) by lia. assert (c <> 43) by lia.
      destruct c as [|c|c]; try done. do 6 (destruct c as [c|c|]; try done; try lia). }
    rewrite Hv, scan_fmt_u by lia. by rewrite bool_decide_true.
Qed.

(** ** Steps of the parser *)

Lemma arg_mid pre s r : arg (pre ++ s :: r) (zlen pre) = Ret s.
Proof.
  unfold arg, in_range. rewrite zlen_app, zlen_cons. pose proof (zlen_nonneg pre). pose proof (zlen_nonneg r).
  rewrite (proj2 (Z.leb_le 0 _)), (proj2 (Z.ltb_lt (zlen pre) _)) by lia. cbn [andb].
  unfold zlen. rewrite Nat2Z.id. f_equal. by rewrite app_nth2, Nat.sub_diag by lia.
Qed.

Lemma arg_next pre x s r : arg (pre ++ x :: s :: r) (zlen pre + 1) = Ret s.
Proof.
  replace (zlen pre + 1) with (zlen (pre ++ [x])) by (rewrite zlen_app; done).
  change (pre ++ x :: s :: r) with (pre ++ [x] ++ s :: r). rewrite app_assoc. apply arg_mid.
Qed.

(** The words [main] compares an argument with. *)
Definition option_words : list (list Z) :=
  [lit "-i"; lit "--port"; lit "--vol"; lit "-e"; lit "--proto"; lit "--help"; lit "-h"].
Definition plain (s : list Z) : Prop := s ∉ option_words.

Lemma plain_eqb s w : plain s -> w ∈ option_words -> str_eqb s w = false.
Proof. intros Hs Hw. unfold str_eqb. apply bool_decide_false. by intros ->. Qed.

Ltac eqbs := repeat match goal with
  | |- context [str_eqb (lit ?a) (lit ?b)] =>
      let v := eval vm_compute in (str_eqb (lit a) (lit b)) in
      replace (str_eqb (lit a) (lit b)) with v by (vm_compute; reflexivity)
  end; cbn [orb].

Lemma shifted fuel argc pre ws r k o :
  k = zlen ws -> parse_args fuel argc (pre ++ ws ++ r) (zlen pre + k) o =
  parse_args fuel argc ((pre ++ ws) ++ r) (zlen (pre ++ ws)) o.
Proof. intros ->. by rewrite zlen_app, app_assoc. Qed.

(** The parser with the arguments [pre] behind it. *)
Definition parse_at (fuel : nat) (argc : Z) (pre r : list (list Z)) (o : options) : outcome (option options) :=
  parse_args fuel argc (pre ++ r) (zlen pre) o.

Section Steps.
Context (fuel : nat) (argc : Z) (pre r : list (list Z)) (o : options).
Context (Hlt : zlen pre < argc).

Ltac step := unfold parse_at; rewrite <- shifted with (k := _) by reflexivity; cbn [app parse_args];
  rewrite (proj2 (Z.ltb_lt _ argc) Hlt); destruct o as [h f p v e u a];
  rewrite arg_mid; cbn [obind]; eqbs.

Lemma parse_i : parse_at (S fuel) argc pre ([lit "-i"] ++ r) o =
  parse_at fuel argc (pre ++ [lit "-i"]) r
    (Options o.(host) o.(fname) o.(port) o.(vol) o.(encrypt_opt) o.(udp_opt) 1).
Proof. step. done. Qed.

Lemma parse_e : parse_at (S fuel) argc pre ([lit "-e"] ++ r) o =
  parse_at fuel argc (pre ++ [lit "-e"]) r
    (Options o.(host) o.(fname) o.(port) o.(vol) 0 o.(udp_opt) o.(iact)).
Proof. step. done. Qed.

Lemma parse_port n : is_int n -> parse_at (S fuel) argc pre ([lit "--port"; fmt_d n] ++ r) o =
  parse_at fuel argc (pre ++ [lit "--port"; fmt_d n]) r
    (Options o.(host) o.(fname) n o.(vol) o.(encrypt_opt) o.(udp_opt) o.(iact)).
Proof. intros Hn. step. rewrite arg_next. cbn [obind]. by rewrite atoi_fmt_d. Qed.

Lemma parse_vol n : is_int n -> parse_at (S fuel) argc pre ([lit "--vol"; fmt_d n] ++ r) o =
  parse_at fuel argc (pre ++ [lit "--vol"; fmt_d n]) r
    (Options o.(host) o.(fname) o.(port) n o.(encrypt_opt) o.(udp_opt) o.(iact)).
Proof. intros Hn. step. rewrite arg_next. cbn [obind]. by rewrite atoi_fmt_d. Qed.

Lemma parse_proto w : parse_at (S fuel) argc pre ([lit "--proto"; w] ++ r) o =
  parse_at fuel argc (pre ++ [lit "--proto"; w]) r
    (Options o.(host) o.(fname) o.(port) o.(vol) o.(encrypt_opt)
       (if str_eqb w (lit "udp") then 1 else 0) o.(iact)).
Proof. step. by rewrite arg_next. Qed.

Lemma parse_plain s : plain s -> parse_at (S fuel) argc pre ([s] ++ r) o =
  parse_at fuel argc (pre ++ [s]) r
    (match o.(host), o.(fname) with
     | None, _ => Options (Some s) o.(fname) o.(port) o.(vol) o.(encrypt_opt) o.(udp_opt) o.(iact)
     | Some h, None => Options (Some h) (Some s) o.(port) o.(vol) o.(encrypt_opt) o.(udp_opt) o.(iact)
     | _, _ => o
     end).
Proof.
  intros Hs. step. rewrite !(plain_eqb s) by (done || unfold option_words; set_solver).
  cbn [orb]. by destruct h, f.
Qed.

End Steps.

Lemma parse_end fuel argc pre r o : argc <= zlen pre -> parse_at fuel argc pre r o = Ret (Some o).
Proof.
  intros H. unfold parse_at. destruct fuel; cbn [parse_args]; by rewrite (proj2 (Z.ltb_ge _ argc)).
Qed.

(** ** Printing and parsing *)

(** A command line that asks for the options [o]. *)
Definition args_of (o : options) (h f : list Z) : list (list Z) :=
  (if o.(iact) =? 0 then [] else [lit "-i"]) ++
  [lit "--port"; fmt_d o.(port)] ++ [lit "--vol"; fmt_d o.(vol)] ++
  (if o.(encrypt_opt) =? 0 then [lit "-e"] else []) ++
  [lit "--proto"; if o.(udp_opt) =? 0 then lit "tcp" else lit "udp"] ++ [h] ++ [f] ++ [].

Definition is_flag (x : Z) : Prop := x = 0 \/ x = 1.

Ltac within := unfold zlen; cbn [length app]; lia.

(** The step for the word at hand. *)
Ltac parse_next :=
  match goal with
  | |- parse_at _ _ _ ([lit "-i"] ++ _) _ = _ => rewrite parse_i by within
  | |- parse_at _ _ _ ([lit "-e"] ++ _) _ = _ => rewrite parse_e by within
  | |- parse_at _ _ _ ([lit "--port"; _] ++ _) _ = _ => rewrite parse_port; [|within|assumption]
  | |- parse_at _ _ _ ([lit "--vol"; _] ++ _) _ = _ => rewrite parse_vol; [|within|assumption]
  | |- parse_at _ _ _ ([lit "--proto"; _] ++ _) _ = _ => rewrite parse_proto by within
  | |- parse_at _ _ _ ([_] ++ _) _ = _ => rewrite parse_plain; [|within|assumption]
  end; cbn [host fname port vol encrypt_opt udp_opt iact].

(** C36: the parser of [main] inverts the printing of a command line: every
    combination of the options, any [int] for port and volume, and any host and
    file name that are not themselves option words. *)
Theorem parse_args_print o argv0 h f :
  is_flag o.(iact) -> is_flag o.(encrypt_opt) -> is_flag o.(udp_opt) ->
  is_int o.(port) -> is_int o.(vol) -> plain h -> plain f ->
  o.(host) = Some h -> o.(fname) = Some f ->
  let argv := argv0 :: args_of o h f in
  parse_args (Z.to_nat (zlen argv)) (zlen argv) argv 1 options0 = Ret (Some o).
Proof.
  destruct o as [h' f' p v e u a]. cbn [iact encrypt_opt udp_opt port vol host fname].
  intros Ha He Hu Hp Hv Hh Hf -> ->. unfold args_of. cbn [iact encrypt_opt udp_opt port vol].
  destruct Ha as [-> | ->], He as [-> | ->], Hu as [-> | ->]; cbn [Z.eqb]; rewrite ?app_nil_l;
    match goal with |- parse_args (Z.to_nat ?n) _ (argv0 :: ?r) _ _ = ?rhs =>
      set (argc := n);
      assert (Hargc : 9 <= argc /\ argc = 1 + zlen r) by (unfold argc; within); clearbody argc;
      change (argv0 :: r) with ([argv0] ++ r); 
      change (parse_at (Z.to_nat argc) argc [argv0] r options0 = rhs);
      replace (Z.to_nat argc) with (7 + Z.to_nat (argc - 7))%nat by lia; cbn [Nat.add];
      unfold zlen in Hargc; cbn [length app] in Hargc
    end;
    repeat parse_next; rewrite parse_end by within; reflexivity.
Qed.

Lemma parse_args_print_witness :
  parse_args 11 11 [lit "raop_play"; lit "-i"; lit "--port"; lit "5000"; lit "--vol"; lit "-3"; lit "-e";
                    lit "--proto"; lit "udp"; lit "10.0.0.2"; lit "a.raw"] 1 options0 =
  Ret (Some (Options (Some (lit "10.0.0.2")) (Some (lit "a.raw")) 5000 (-3) 0 1 1)).
Proof.
  apply (parse_args_print (Options (Some (lit "10.0.0.2")) (Some (lit "a.raw")) 5000 (-3) 0 1 1)
    (lit "raop_play") (lit "10.0.0.2") (lit "a.raw")).
  1-3: first [by left | by right].
  1-2: unfold is_int, INT_MIN, INT_MAX; cbn; lia.
  1-2: unfold plain; refine (bool_decide_unpack _ _); vm_compute; exact I.
  1-2: reflexivity.
Defined.

(** ** The call from Java *)

(** No argument asks for help. *)
Definition no_help (argv : list (list Z)) : Prop := (lit "--help" ∉ argv) /\ (lit "-h" ∉ argv).

Lemma parse_args_overrun argv fuel : no_help argv -> forall i o,
  0 <= i <= zlen argv -> (Z.to_nat (zlen argv + 1 - i) <= fuel)%nat ->
  exists u, parse_args fuel (zlen argv + 1) argv i o = UB u.
Proof.
  intros [Hh1 Hh2]. induction fuel as [|fuel IH]; intros i o Hi Hf; [lia|].
  cbn [parse_args]. rewrite (proj2 (Z.ltb_lt i _)) by lia. destruct o as [h f p v e u a].
  assert (Harg : forall j, 0 <= j <= zlen argv ->
    (exists s, arg argv j = Ret s /\ s ∈ argv /\ j < zlen argv) \/ arg argv j = UB OutOfBounds).
  { intros j Hj. unfold arg, in_range. rewrite (proj2 (Z.leb_le 0 j)) by lia.
    destruct (Z.ltb_spec j (zlen argv)); [left|by right]. eexists. split; [done|]. split; [|done].
    apply list_elem_of_In, nth_In. unfold zlen in *. lia. }
  destruct (Harg i ltac:(lia)) as [(s & -> & Hs & Hlt)| ->]; [|by exists OutOfBounds]. cbn [obind].
  assert (Hnext : forall k, (exists t, arg argv (i + 1) = Ret t /\ i + 1 < zlen argv) \/
    obind (arg argv (i + 1)) k = (UB OutOfBounds : outcome (option options))).
  { intros k. destruct (Harg (i + 1) ltac:(lia)) as [(t & -> & _ & ?)| ->]; [left; eauto|by right]. }
  destruct (str_eqb s (lit "-i")); [apply IH; lia|].
  destruct (str_eqb s (lit "--port")).
  { destruct (Hnext (fun t => do n <- atoi t; parse_args fuel (zlen argv + 1) argv (i + 2) (Options h f n v e u a)))
      as [(t & -> & ?)| ->]; [|eauto]. cbn [obind]. destruct (atoi t); cbn [obind]; [apply IH; lia|eauto]. }
  destruct (str_eqb s (lit "--vol")).
  { destruct (Hnext (fun t => do n <- atoi t; parse_args fuel (zlen argv + 1) argv (i + 2) (Options h f p n e u a)))
      as [(t & -> & ?)| ->]; [|eauto]. cbn [obind]. destruct (atoi t); cbn [obind]; [apply IH; lia|eauto]. }
  destruct (str_eqb s (lit "-e")); [apply IH; lia|].
  destruct (str_eqb s (lit "--proto")).
  { destruct (Hnext (fun t => parse_args fuel (zlen argv + 1) argv (i + 2)
      (Options h f p v e (if str_eqb t (lit "udp") then 1 else 0) a))) as [(t & -> & ?)| ->]; [|eauto].
    cbn [obind]. apply IH; lia. }
  assert (str_eqb s (lit "--help") || str_eqb s (lit "-h") = false) as ->.
  { unfold str_eqb. rewrite !bool_decide_false; [done|congruence..]. }
  destruct h, f; apply IH; lia.
Qed.

(** The entry point for Java copies seven strings and calls [main] with
    [argc] 8: unless an argument asks for help, parsing the command line always
    ends in undefined behaviour. *)
Theorem raopPlay_overruns {E : Env} {L : LineBound} line fuel elements s :
  7 <= zlen elements -> no_help (take 7 elements) ->
  exists u, raopPlay line fuel elements s = UB u.
Proof.
  intros Hl Hh. unfold raopPlay. rewrite (proj2 (Z.ltb_ge _ 7)) by lia.
  assert (H7 : zlen (take 7 elements) = 7) by (unfold zlen in *; rewrite length_take; lia).
  destruct (parse_args_overrun (take 7 elements) (Z.to_nat 8) Hh 1 options0 ltac:(lia) ltac:(lia)) as (u & Hu).
  rewrite H7 in Hu. change (7 + 1) with 8 in Hu. exists u.
  apply bindM_UB. unfold main, lift. apply bindM_UB. by rewrite Hu.
Qed.

Lemma raopPlay_overruns_witness :
  exists u, raopPlay (E := env0) (L := 10%nat) [] 5 (repeat (lit "x") 7) proc0 = UB u.
Proof.
  apply (raopPlay_overruns (E := env0) (L := 10%nat) [] 5 (repeat (lit "x") 7) proc0).
  - vm_compute. discriminate.
  - split; refine (bool_decide_unpack _ _); vm_compute; exact I.
Defined.
