(* ===== verification/Frame.v ===== *)
(** * Frame: what a run leaves alone

    A small program logic for the monad [M]: [Post Q m] says that every run of
    [m] that returns keeps the event table well-formed and the AES tables as they
    are, and returns a value that satisfies [Q].  The lemmas of this file are the
    rules for the primitives and the helper functions; they are in the hint
    database [frame], so that the clients' lemmas are found by search. *)

From S2P Require Import Prelude AesTables Aes Sys AexclLib FdEvent AudioStream PcmStream RtspClient.

Definition kept (s s' : proc) : Prop :=
  (table_ok (fds s) -> table_ok (fds s')) /\ s'.(vars).(aes) = s.(vars).(aes).

#[export] Instance kept_refl : Reflexive kept.
Proof. by intros s. Qed.
#[export] Instance kept_trans : Transitive kept.
Proof. intros s1 s2 s3 [H1 E1] [H2 E2]. split; [auto|congruence]. Qed.

Definition Post {A} (Q : A -> Prop) (m : M A) : Prop :=
  forall s a s', m s = Ret (a, s') -> kept s s' /\ Q a.
Abbreviation Framed := (Post (fun _ => True)).

Create HintDb frame.

(** ** Structural rules *)

Lemma post_ret {A} (Q : A -> Prop) a : Q a -> Post Q (ret a).
Proof. intros H s x s' [= <- <-]. done. Qed.

Lemma post_undef {A} (Q : A -> Prop) u : Post Q (undef u).
Proof. intros s x s' H. done. Qed.

Lemma post_bind {A B} (P : A -> Prop) (Q : B -> Prop) (m : M A) (f : A -> M B) :
  Post P m -> (forall a, P a -> Post Q (f a)) -> Post Q (bindM m f).
Proof.
  intros Hm Hf s b s' H. apply bindM_inv in H as (a & s1 & H1 & H2).
  destruct (Hm _ _ _ H1) as (K1 & Pa). destruct (Hf a Pa _ _ _ H2) as (K2 & Qb).
  split; [by etransitivity|done].
Qed.

Lemma post_weaken {A} (P Q : A -> Prop) (m : M A) : Post P m -> (forall a, P a -> Q a) -> Post Q m.
Proof. intros H HPQ s a s' E. destruct (H _ _ _ E). auto. Qed.

Lemma framed_of {A} (Q : A -> Prop) (m : M A) : Post Q m -> Framed m.
Proof. intros H. by eapply post_weaken. Qed.

Lemma framed_lift {A} (o : outcome A) : Framed (lift o).
Proof. intros s a s' H. unfold lift in H. destruct o; [|done]. by injection H as <- <-. Qed.

Lemma framed_gets {A} (f : proc -> A) : Framed (gets f).
Proof. intros s a s' [= <- <-]. done. Qed.

Lemma framed_int x : Framed (int x).
Proof. unfold int. destruct (bool_decide _); [by apply post_ret|apply post_undef]. Qed.

(** Walks through a body. *)
Ltac frame_step :=
  match goal with
  | |- Post _ (bindM _ _) => eapply (post_bind (fun _ => True)); [|intros ? _]
  | |- Post _ (ret _) => apply post_ret; exact I
  | |- Post _ (undef _) => apply post_undef
  | |- Post _ (lift _) => apply framed_lift
  | |- Post _ (gets _) => apply framed_gets
  | |- Post _ (int _) => apply framed_int
  | |- Post _ (match ?x with _ => _ end) => destruct x
  | |- Post _ (let _ := _ in _) => cbv zeta
  | _ => solve [auto with frame]
  end.
Ltac frame := repeat frame_step.

Section Rules.
Context {E : Env}.

Lemma framed_sys c : Framed (sys c).
Proof. intros s a s' [= <- <-]. done. Qed.
Hint Resolve framed_sys : frame.

Lemma framed_syscall c : Framed (syscall c).
Proof. unfold syscall. frame. Qed.
Lemma framed_sys_read c : Framed (sys_read c).
Proof. unfold sys_read. frame. Qed.

Lemma framed_alloc b : Framed (alloc b).
Proof. intros s a s' [= <- <-]. done. Qed.
Hint Resolve framed_syscall framed_sys_read framed_alloc : frame.

Lemma framed_malloc n : Framed (malloc n).
Proof. unfold malloc. frame. Qed.
Lemma framed_malloc_kd n : Framed (malloc_kd n).
Proof. unfold malloc_kd. frame. Qed.
Lemma framed_malloc_struct n : Framed (malloc_struct n).
Proof. unfold malloc_struct. frame. Qed.

Ltac heap_op := intros s a s' H; cbn in H; repeat (match type of H with
  | context [match ?x with _ => _ end] => destruct x; try done end); injection H as <- <-; done.

Lemma framed_free p : Framed (free p).
Proof. destruct p; unfold free; [frame|]. heap_op. Qed.
Lemma framed_view p : Framed (view p).
Proof. destruct p; unfold view; [frame|]. heap_op. Qed.
Lemma framed_store p o b : Framed (store p o b).
Proof. destruct p; unfold store, obind; [frame|]. heap_op. Qed.
Lemma framed_kd_at p i : Framed (kd_at p i).
Proof. destruct p; unfold kd_at; [frame|]. heap_op. Qed.
Lemma framed_kd_update p i e : Framed (kd_update p i e).
Proof. destruct p; unfold kd_update; [frame|]. heap_op. Qed.
Lemma framed_kd_memset p i n : Framed (kd_memset p i n).
Proof. destruct p; unfold kd_memset; [frame|]. heap_op. Qed.
Lemma framed_char_at p i : Framed (char_at p i).
Proof. destruct p; unfold char_at, obind; [frame|]. heap_op. Qed.
Lemma framed_the v : Framed (the v).
Proof. unfold the. frame. Qed.
Hint Resolve framed_malloc framed_malloc_kd framed_malloc_struct framed_free framed_view framed_store
  framed_kd_at framed_kd_update framed_kd_memset framed_char_at framed_the : frame.

Lemma framed_load_str p : Framed (load_str p).
Proof. unfold load_str. frame. Qed.
Hint Resolve framed_load_str : frame.
Lemma framed_strcpy p s : Framed (strcpy p s).
Proof. unfold strcpy. frame. Qed.
Lemma framed_strcat p s : Framed (strcat p s).
Proof. unfold strcat. frame. Qed.
Lemma framed_key_of p i : Framed (key_of p i).
Proof. unfold key_of. frame. Qed.
Lemma framed_data_of p i : Framed (data_of p i).
Proof. unfold data_of. frame. Qed.
Lemma framed_set_key p i v : Framed (set_key p i v).
Proof. unfold set_key. frame. Qed.
Lemma framed_set_data p i v : Framed (set_data p i v).
Proof. unfold set_data. frame. Qed.
Lemma framed_realloc n : Framed (realloc_memory n).
Proof. unfold realloc_memory. frame. Qed.
Lemma framed_realloc_kd n : Framed (realloc_memory_kd n).
Proof. unfold realloc_memory_kd. frame. Qed.
Lemma framed_sprintf n s : Framed (sprintf n s).
Proof. unfold sprintf. frame. Qed.
Lemma framed_kd_fuel p : Framed (kd_fuel p).
Proof. apply framed_gets. Qed.
Hint Resolve framed_strcpy framed_strcat framed_key_of framed_data_of framed_set_key framed_set_data
  framed_realloc framed_realloc_kd framed_sprintf framed_kd_fuel : frame.

(** ** The event table *)

Lemma table_ok_live t t' : zlen t' = zlen t -> live_fds t' = live_fds t -> table_ok t -> table_ok t'.
Proof. unfold table_ok. by intros -> ->. Qed.

Lemma set_first_neg (P : dfev_t -> bool) e t t' :
  (forall c, P c = true -> c.(fd) < 0) -> e.(fd) < 0 -> set_first P e t = Some t' ->
  zlen t' = zlen t /\ live_fds t' = live_fds t.
Proof.
  intros HP He. revert t'. induction t as [|c t IH]; intros t' H; [done|]. cbn [set_first] in H.
  destruct (P c) eqn:Hc.
  - injection H as <-. rewrite !live_cons, !zlen_cons.
    by rewrite (proj2 (Z.ltb_lt _ 0) He), (proj2 (Z.ltb_lt _ 0) (HP c Hc)).
  - destruct (set_first P e t) as [t1|]; [|done]. injection H as <-.
    destruct (IH t1 eq_refl) as (H1 & H2). by rewrite !live_cons, !zlen_cons, H1, H2.
Qed.

Lemma set_fd_table_ok f fl cb p t : table_ok t -> table_ok (snd (set_fd_table f fl cb p t)).
Proof.
  intros Ht. destruct (Z.le_gt_cases 0 f) as [Hf|Hf].
  - destruct (set_fd_table_spec f fl cb p t Hf Ht) as (r & t' & -> & H & _). done.
  - unfold set_fd_table. destruct (set_first (fun c => fd c =? f) _ t) as [t1|] eqn:E1.
    + apply set_first_neg in E1 as (H1 & H2); [by apply (table_ok_live t)| |done].
      intros c Hc. apply Z.eqb_eq in Hc. lia.
    + destruct (set_first (fun c => fd c <? 0) _ t) as [t2|] eqn:E2; [|done].
      apply set_first_neg in E2 as (H1 & H2); [by apply (table_ok_live t)| |done].
      intros c Hc. by apply Z.ltb_lt in Hc.
Qed.

Lemma clear_fd_table_ok f t : table_ok t -> table_ok (snd (clear_fd_table f t)).
Proof.
  intros Ht. unfold clear_fd_table. destruct (set_first _ _ _) as [t1|] eqn:E1; [|done]. cbn [snd].
  destruct (Z.le_gt_cases 0 f) as [Hf|Hf].
  - destruct Ht as [Hl Hn]. apply set_first_clear in E1 as (_ & H2 & H3 & _); [|done..].
    split; [congruence|done].
  - apply set_first_neg in E1 as (H1 & H2); [by apply (table_ok_live t)| |done].
    intros c Hc. apply Z.eqb_eq in Hc. lia.
Qed.

Lemma framed_with_fds {A} (f : list dfev_t -> A * list dfev_t) :
  (forall t, table_ok t -> table_ok (snd (f t))) -> Framed (with_fds f).
Proof.
  intros Hf s a s' H. unfold with_fds in H. destruct (fds s) as [|c t] eqn:Ef; [done|].
  specialize (Hf (c :: t)). destruct (f (c :: t)) as [r t']. injection H as <- <-. split; [|done].
  split; [|done]. rewrite Ef. exact Hf.
Qed.

Lemma framed_set_fd_event f fl cb p : Framed (set_fd_event f fl cb p).
Proof. apply framed_with_fds. intros. by apply set_fd_table_ok. Qed.
Lemma framed_clear_fd_event f : Framed (clear_fd_event f).
Proof. apply framed_with_fds. intros. by apply clear_fd_table_ok. Qed.
Hint Resolve framed_set_fd_event framed_clear_fd_event : frame.

(** ** Helpers and the RTSP client *)

Lemma framed_read_line_loop n fd m t np : forall b c, Framed (read_line_loop n fd m t np b c).
Proof. induction n; intros; cbn [read_line_loop]; frame. Qed.
Hint Resolve framed_read_line_loop : frame.
Lemma framed_read_line fd l m t np : Framed (read_line fd l m t np).
Proof. unfold read_line. frame. Qed.
Lemma framed_kd_lookup_loop n kd k : forall i, Framed (kd_lookup_loop n kd k i).
Proof. induction n; intros; cbn [kd_lookup_loop]; frame. Qed.
Lemma framed_free_kd_loop n kd : forall i, Framed (free_kd_loop n kd i).
Proof. induction n; intros; cbn [free_kd_loop]; frame. Qed.
Hint Resolve framed_read_line framed_kd_lookup_loop framed_free_kd_loop : frame.
Lemma framed_kd_lookup kd k : Framed (kd_lookup kd k).
Proof. unfold kd_lookup. frame. Qed.
Lemma framed_free_kd kd : Framed (free_kd kd).
Proof. unfold free_kd. frame. Qed.
Lemma framed_add_line r s : Framed (add_line r s).
Proof. unfold add_line. frame. Qed.
Hint Resolve framed_kd_lookup framed_free_kd framed_add_line : frame.
Lemma framed_add_headers hds : forall r, Framed (add_headers r hds).
Proof. induction hds as [|[k d] hds IH]; intros; cbn [add_headers]; frame. Qed.
Lemma framed_add_exthds_lines n a : forall r i, Framed (add_exthds_lines n r a i).
Proof. induction n; intros; cbn [add_exthds_lines]; frame. Qed.
Lemma framed_add_session r p : Framed (add_session r p).
Proof. unfold add_session. frame. Qed.
Hint Resolve framed_add_headers framed_add_exthds_lines framed_add_session : frame.
Lemma framed_build_request p c ty ct n hds u : Framed (build_request p c ty ct n hds u).
Proof. unfold build_request. frame. Qed.
Lemma framed_continuation kd i n t : Framed (continuation kd i n t).
Proof. unfold continuation. frame. Qed.
Hint Resolve framed_build_request framed_continuation : frame.
Lemma framed_header_loop n fd : forall l t kd i ds, Framed (header_loop n fd l t kd i ds).
Proof. induction n; intros; cbn [header_loop]; frame. Qed.
Lemma framed_body_loop n fd t : forall l, Framed (body_loop n fd l t).
Proof. induction n; intros; cbn [body_loop]; frame. Qed.
Hint Resolve framed_header_loop framed_body_loop : frame.

Context {L : LineBound}.

Lemma framed_read_response p g kd : Framed (read_response p g kd).
Proof. unfold read_response. frame. Qed.
Hint Resolve framed_read_response : frame.
Lemma framed_exec_request p c ty ct n g hds kd u : Framed (exec_request p c ty ct n g hds kd u).
Proof. unfold exec_request. frame. Qed.
Hint Resolve framed_exec_request : frame.
Lemma framed_exec_own p c ty ct n g hds u : Framed (exec_own p c ty ct n g hds u).
Proof. unfold exec_own. frame. Qed.
Hint Resolve framed_exec_own : frame.
Lemma framed_flush p : Framed (rtspcl_flush p).
Proof. unfold rtspcl_flush. frame. Qed.
Lemma framed_set_parameter p a : Framed (rtspcl_set_parameter p a).
Proof. unfold rtspcl_set_parameter. frame. Qed.

(** ** Audio streams *)

Lemma framed_read_one c n o : Framed (read_one c n o).
Proof. unfold read_one. frame. Qed.
Hint Resolve framed_read_one : frame.
Lemma framed_next_pair ds c n o : Framed (next_pair ds c n o).
Proof. unfold next_pair. frame. Qed.
Hint Resolve framed_next_pair : frame.
Lemma framed_pcm_loop n ds c bs : forall k o b p q, Framed (pcm_loop n ds c bs k o b p q).
Proof. induction n; intros; cbn [pcm_loop]; frame. Qed.
Hint Resolve framed_pcm_loop : frame.
Lemma framed_auds_write_pcm c b n ds : Framed (auds_write_pcm c b n ds).
Proof. unfold auds_write_pcm. frame. Qed.
Hint Resolve framed_auds_write_pcm : frame.
Lemma framed_pcm_close a : Framed (pcm_close a).
Proof. unfold pcm_close. frame. Qed.
Hint Resolve framed_pcm_close : frame.
Lemma framed_pcm_prepare a p : Framed (pcm_prepare a p).
Proof. unfold pcm_prepare. frame. Qed.
Hint Resolve framed_pcm_prepare : frame.
Lemma framed_pcm_open a f : Framed (pcm_open a f).
Proof. unfold pcm_open. frame. Qed.
Hint Resolve framed_pcm_open : frame.
Lemma framed_auds_close a : Framed (auds_close a).
Proof. unfold auds_close. frame. Qed.
Hint Resolve framed_auds_close : frame.
Lemma framed_auds_open f t : Framed (auds_open f t).
Proof. unfold auds_open. frame. Qed.
Lemma framed_pcm_get_next_sample a : Framed (pcm_get_next_sample a).
Proof. unfold pcm_get_next_sample. frame. Qed.
Hint Resolve framed_pcm_get_next_sample : frame.
Lemma framed_auds_get_next_sample a : Framed (auds_get_next_sample a).
Proof. unfold auds_get_next_sample. frame. Qed.
Lemma framed_auds_poll_next_sample a : Framed (auds_poll_next_sample a).
Proof. unfold auds_poll_next_sample, pcm_poll_next_sample. frame. Qed.

End Rules.

#[export] Hint Resolve framed_sys framed_syscall framed_sys_read framed_alloc framed_malloc framed_malloc_kd
  framed_malloc_struct framed_free framed_view framed_store framed_load_str framed_strcpy framed_realloc
  framed_sprintf framed_set_fd_event framed_clear_fd_event framed_read_line framed_flush framed_set_parameter
  framed_auds_write_pcm framed_auds_close framed_auds_open framed_auds_get_next_sample
  framed_auds_poll_next_sample : frame.
