(* ===== verification/PlayInvariant.v ===== *)
(** * PlayInvariant: an invariant of the running player

    Whatever the environment does, every iteration of the main loop that
    returns keeps the client's keys and tables consistent, the progress of the
    transfer non-negative and the event table well-formed. *)

From S2P Require Import Prelude AesTables Aes AesKeys Sys AexclLib FdEvent AudioStream PcmStream RtspClient RaopClient RaopCrypto RaopPlay Frame.

Create HintDb keeps.

(** ** The client *)

(** [g] are the AES tables of the process. *)
Record client_inv (g : aes_globals) (d : raopcl_data_t) : Prop := {
  ci_keyed : keyed g d.(ctx) d.(key);
  ci_iv : block_ok d.(iv);
  ci_wsize : 0 <= d.(wblk_wsize);
  ci_remsize : 0 <= d.(wblk_remsize);
  ci_silent : zlen d.(min_sdata) = 144 /\ d.(min_sdata_size) = 135;
  ci_timestamp : is_u32 d.(timestamp);
  ci_ssrc : is_u32 d.(ssrc)
}.

(** A client whose fields of the invariant are those of another. *)
Ltac same_client := match goal with H : client_inv _ _ |- _ => destruct H; split; cbn; (done || lia || apply u32_range) end.

Definition opt_inv (g : aes_globals) (p : option raopcl_data_t) : Prop :=
  match p with None => True | Some d => client_inv g d end.

Lemma opt_inv_none g : opt_inv g None.
Proof. exact I. Qed.
#[export] Hint Resolve opt_inv_none : keeps.

(** Runs the next statement of a body: it keeps the client, or only the process. *)
Ltac keep_step g :=
  match goal with
  | |- Post _ (bindM ?m _) => first
      [ eapply (post_bind (fun r => client_inv g (snd r))); [solve [eauto with keeps]|intros [? ?] ?; cbn [snd] in *]
      | eapply (post_bind (fun r => opt_inv g (snd r))); [solve [eauto with keeps]|intros [? ?] ?; cbn [snd] in *]
      | eapply (post_bind (fun d => client_inv g d)); [solve [eauto with keeps]|intros ? ?]
      | eapply (post_bind (fun _ => True)); [solve [frame]|intros ? _] ]
  | |- Post _ (ret _) => apply post_ret; cbn [snd opt_inv]; solve [done | same_client]
  | |- Post _ (undef _) => apply post_undef
  | |- Post _ (match ?x with _ => _ end) => destruct x eqn:?
  | |- Post _ (let _ := _ in _) => cbv zeta
  | _ => solve [eauto with keeps]
  end.
Ltac keeps g := repeat keep_step g.

Section Client.
Context {E : Env} {L : LineBound} {P : Posix E} (g : aes_globals).

(** The client is the second component of a result. *)
Abbreviation Keeps := (Post (fun r : Z * raopcl_data_t => client_inv g (snd r))).
Abbreviation KeepsO := (Post (fun r : Z * option raopcl_data_t => opt_inv g (snd r))).


Lemma keeps_with_rtsp d f : client_inv g d -> (forall r, Framed (f r)) -> Keeps (with_rtsp d f).
Proof.
  intros Hd Hf. unfold with_rtsp. destruct (rtspcl d); [|by apply post_ret].
  eapply (post_bind (fun _ => True)); [apply Hf|]. intros [x r'] _. apply post_ret. cbn. same_client.
Qed.

Lemma framed_gettimeofday : Framed gettimeofday.
Proof. unfold gettimeofday. frame. Qed.
Lemma framed_time : Framed time.
Proof. apply framed_syscall. Qed.
Hint Resolve framed_gettimeofday framed_time : frame.

Lemma keeps_fd_event_read d : client_inv g d -> Keeps (fd_event_read d).
Proof. intros Hd. unfold fd_event_read. keeps g. Qed.

Lemma keeps_fd_event_write d : client_inv g d -> Keeps (fd_event_write d).
Proof.
  intros Hd s [r d'] s' H. unfold fd_event_write in H.
  destruct (Z.eqb_spec (wblk_remsize d) 0); [by injection H as <- <- <-|].
  apply bindM_inv in H as (b & s1 & H1 & H). destruct (framed_view _ _ _ _ H1) as (K1 & _).
  destruct (_ || _) eqn:Hc; [done|]. apply orb_false_elim in Hc as [Hc1 Hc2].
  apply Z.ltb_ge in Hc1, Hc2.
  apply bindM_inv in H as (i & s2 & H2 & H). destruct (framed_syscall _ _ _ _ H2) as (K2 & _).
  assert (Hi : i <= wblk_remsize d).
  { unfold syscall, sys, bindM, ret in H2. injection H2 as <- _.
    pose proof (write_ret (trace s1) (sfd d) (take (Z.to_nat (wblk_remsize d)) b)) as Hw.
    unfold zlen in *. rewrite length_take in Hw. lia. }
  destruct (Z.leb_spec i 0); [injection H as <- <- <-; split; [by etransitivity|done]|].
  apply bindM_inv in H as (x & s3 & H3 & H). injection H as <- <- <-.
  assert (K3 : kept s2 s3).
  { destruct (_ =? 0) in H3; [by destruct (framed_set_fd_event _ _ _ _ _ _ _ H3)|].
    injection H3 as _ <-. reflexivity. }
  split; [by do 2 (etransitivity; [eassumption|])|]. cbn [snd]. same_client.
Qed.
Hint Resolve keeps_fd_event_read keeps_fd_event_write : keeps.

Lemma keeps_fd_event_callback p fl : opt_inv g p -> KeepsO (fd_event_callback p fl).
Proof.
  intros Hp. unfold fd_event_callback. destruct p as [d|]; [|keeps g]. cbn in Hp.
  eapply (post_bind (fun r => client_inv g (snd r))); [destruct (negb _); keeps g|].
  intros [r d'] Hd'. by apply post_ret.
Qed.

(** ** Sending *)

Lemma framed_count_samples n : Framed (raopcl_count_samples n).
Proof.
  intros s a s' H. unfold raopcl_count_samples, gets, int, put_vars, modify, bindM, ret in H.
  destruct (bool_decide _); [|done]. destruct (_ <=? _); injection H as <- <-; done.
Qed.

Lemma framed_put_seq q b : Framed (put_vars (set_seq q b)).
Proof. intros s a s' [= <- <-]. done. Qed.
Hint Resolve framed_count_samples framed_put_seq : frame.

(** [new_packet] returns a client only for a count that is not negative. *)
Lemma keeps_new_packet d n h b c :
  client_inv g d -> Post (fun r => client_inv g (snd r) /\ (fst r = 0 -> 0 <= c)) (new_packet d n h b c).
Proof.
  intros Hd. unfold new_packet.
  eapply (post_bind (fun _ => True)); [auto with frame|]. intros [r p] _.
  destruct (Z.eqb_spec r 0); cbn [negb]; [|apply post_ret; split; [cbn; same_client|cbn; lia]].
  eapply (post_bind (fun _ => True)); [auto with frame|]. intros ? _.
  destruct (_ || _) eqn:Hc; [apply post_undef|]. apply orb_false_elim in Hc as [Hc _].
  apply Z.ltb_ge in Hc.
  eapply (post_bind (fun _ => True)); [auto with frame|]. intros ? _. apply post_ret.
  split; [cbn; same_client|done].
Qed.

(** Whatever the tables are, [encrypt] only changes [nv]. *)
Lemma keeps_encrypt_packet d h c : client_inv g d -> Post (client_inv g) (encrypt_packet d h c).
Proof.
  intros Hd. unfold encrypt_packet. eapply (post_bind (fun _ => True)); [apply framed_gets|].
  intros g' _. eapply (post_bind (fun _ => True)); [auto with frame|]. intros b _.
  eapply (post_bind (fun r : Z * raopcl_data_t * list Z => client_inv g r.1.2)).
  - intros s [[i d'] b'] s' H. unfold lift in H.
    destruct (encrypt g' d b c) as [[[i1 d1] b1]|] eqn:He; [|done]. cbn [obind] in H.
    injection H as <- <- <- <-. split; [reflexivity|]. cbn. unfold encrypt in He.
    destruct (cbc_loop _ _ _ _ _ _ _) as [[[i2 nv2] x2]|]; [|done]. injection He as <- <- <-. same_client.
  - intros [[i d'] b'] Hd'. cbn in Hd'. eapply (post_bind (fun _ => True)); [auto with frame|].
    intros ? _. by apply post_ret.
Qed.

Lemma keeps_send_sample p sample count : opt_inv g p -> KeepsO (raopcl_send_sample p sample count).
Proof.
  intros Hp. unfold raopcl_send_sample. destruct p as [d|]; [|keeps g]. cbn in Hp.
  destruct (negb (udp d =? 0)).
  - eapply (post_bind (fun _ => True)); [apply framed_gets|]. intros v _. cbv zeta.
    eapply post_bind; [apply keeps_new_packet; same_client|].
    intros [r d1] [Hd1 Hc]. cbn [fst snd] in *. destruct (Z.eqb_spec r 0); cbn [negb]; [|by apply post_ret].
    eapply (post_bind (client_inv g));
      [destruct (_ =? 0); [by apply post_ret|by apply keeps_encrypt_packet]|].
    intros d2 Hd2. specialize (Hc ltac:(done)).
    eapply (post_bind (fun _ => True)); [auto with frame|]. intros x _.
    destruct (negb _); [apply post_ret; cbn; same_client|].
    eapply (post_bind (fun _ => True)); [auto with frame|]. intros ? _.
    eapply (post_bind (fun _ => True)); [auto with frame|]. intros ? _.
    apply post_ret. cbn. same_client.
  - eapply post_bind; [apply keeps_new_packet; exact Hp|].
    intros [r d1] [Hd1 Hc]. cbn [fst snd] in *. destruct (Z.eqb_spec r 0); cbn [negb]; [|by apply post_ret].
    eapply (post_bind (client_inv g)); [by apply keeps_encrypt_packet|].
    intros d2 Hd2. specialize (Hc ltac:(done)). cbv zeta.
    eapply (post_bind (fun _ => True)); [auto with frame|]. intros x _.
    destruct (negb _); apply post_ret; cbn; same_client.
Qed.
Hint Resolve keeps_send_sample keeps_fd_event_callback keeps_with_rtsp : keeps.

Lemma keeps_small_silent d : client_inv g d -> Keeps (raopcl_small_silent d).
Proof.
  intros Hd. unfold raopcl_small_silent.
  eapply (post_bind (fun r => opt_inv g (snd r))); [by apply keeps_send_sample|].
  intros [r [d'|]] Hd'; apply post_ret; [exact Hd'|exact Hd].
Qed.
Hint Resolve keeps_small_silent framed_flush framed_set_parameter : keeps.

Lemma keeps_pause_check d : client_inv g d -> Keeps (raopcl_pause_check d).
Proof. intros Hd. unfold raopcl_pause_check. keeps g. Qed.

Lemma keeps_set_pause p st : opt_inv g p -> KeepsO (raopcl_set_pause p st).
Proof.
  intros Hp. unfold raopcl_set_pause. destruct p as [d|]; [|keeps g]. cbn in Hp.
  assert (Hd : client_inv g (set_pause_state st d)) by same_client. destruct st; keeps g.
Qed.

Lemma keeps_flush_stream p : opt_inv g p -> KeepsO (raopcl_flush_stream p).
Proof. intros Hp. unfold raopcl_flush_stream. destruct p as [d|]; cbn in Hp; keeps g. Qed.

Lemma keeps_update_volume p v : opt_inv g p -> KeepsO (raopcl_update_volume p v).
Proof.
  intros Hp. unfold raopcl_update_volume. destruct p as [d|]; [|keeps g]. cbn in Hp.
  assert (Hd : client_inv g (set_volume (volume_of v) d)) by same_client. keeps g.
Qed.

Lemma framed_aexbuf_time p tv : Framed (raopcl_aexbuf_time p tv).
Proof. unfold raopcl_aexbuf_time. frame. Qed.

End Client.

#[export] Hint Resolve keeps_send_sample keeps_fd_event_callback keeps_pause_check keeps_set_pause
  keeps_flush_stream keeps_update_volume : keeps.
#[export] Hint Resolve framed_aexbuf_time : frame.

(** ** The player *)

Section Player.
Context {E : Env} {L : LineBound} {P : Posix E} (g : aes_globals) (console_line : list Z).

Definition player_inv (l : raopld_t) : Prop := opt_inv g l.(pl_raopcl).

Abbreviation KeepsL := (Post (fun r : Z * raopld_t => player_inv (snd r))).

Lemma framed_printf s : Framed (printf s).
Proof. unfold printf. frame. Qed.
Lemma framed_isActivated a : Framed (isActivated a).
Proof. unfold isActivated. frame. Qed.
Hint Resolve framed_printf framed_isActivated : frame.

(** A conditional statement whose branches keep the player. *)
Ltac branches := match goal with
  |- Post _ (match ?x with _ => _ end) => destruct x; first [by apply post_ret | by eauto with keeps]
  end.

(** Runs the next statement: it keeps a client, the player, or only the process. *)
Ltac play_step :=
  match goal with
  | |- Post _ (bindM _ _) => first
      [ eapply (post_bind (fun r => opt_inv g (snd r))); [solve [eauto with keeps]|intros [? ?] ?; cbn [snd] in *]
      | eapply (post_bind (fun r => client_inv g (snd r))); [solve [eauto with keeps]|intros [? ?] ?; cbn [snd] in *]
      | eapply (post_bind (fun r : Z * raopld_t => player_inv (snd r))); [solve [eauto with keeps]|intros [? ?] ?; cbn [snd] in *]
      | eapply (post_bind player_inv); [solve [eauto with keeps | branches]|intros ? ?]
      | eapply (post_bind (fun _ => True)); [solve [frame]|intros ? _] ]
  | |- Post _ (ret _) => apply post_ret; cbn [fst snd opt_inv player_inv set_raopcl set_auds pl_raopcl]; solve [done]
  | |- Post _ (undef _) => apply post_undef
  | |- Post _ (match ?x with _ => _ end) => destruct x eqn:?
  | |- Post _ (let _ := _ in _) => cbv zeta
  | _ => solve [eauto with keeps]
  end.
Ltac play := repeat play_step.

Lemma keeps_wait_songdone l set : player_inv l -> KeepsL (wait_songdone l set).
Proof.
  intros Hl. unfold wait_songdone. unfold player_inv in Hl. destruct (pl_raopcl l) as [d|]; [|apply post_undef].
  unfold raopcl_wait_songdone. apply post_ret. cbn. destruct (set =? 0); cbn in Hl; [done|same_client].
Qed.

Lemma keeps_do_set_pause l st : player_inv l -> Post player_inv (do_set_pause l st).
Proof. intros Hl. unfold do_set_pause. play. Qed.

Lemma keeps_close_auds l : player_inv l -> Post player_inv (close_auds l).
Proof. intros Hl. unfold close_auds. play. Qed.
Hint Resolve keeps_wait_songdone keeps_do_set_pause keeps_close_auds : keeps.

Lemma keeps_command_play l s : player_inv l -> KeepsL (command_play l s).
Proof. intros Hl. unfold command_play. play. Qed.
Hint Resolve keeps_command_play : keeps.

Lemma keeps_console_command l line : player_inv l -> KeepsL (console_command l line).
Proof.
  intros Hl. unfold console_command. play.
Qed.
Hint Resolve keeps_console_command : keeps.

Lemma keeps_console_read l : player_inv l -> KeepsL (console_read console_line l).
Proof. intros Hl. unfold console_read. play. Qed.
Hint Resolve keeps_console_read : keeps.

(** ** Events *)

Lemma keeps_call_cbf l c fl : player_inv l -> KeepsL (call_cbf console_line l c fl).
Proof. intros Hl. unfold call_cbf, terminate_cbf. play. Qed.
Hint Resolve keeps_call_cbf : keeps.

Lemma keeps_dispatch_one l i fl set : player_inv l -> KeepsL (dispatch_one console_line l i fl set).
Proof. intros Hl. unfold dispatch_one. play. Qed.
Hint Resolve keeps_dispatch_one : keeps.

Lemma keeps_dispatch n : forall i l rd wr, player_inv l -> KeepsL (dispatch console_line n i l rd wr).
Proof. induction n; intros i l rd wr Hl; cbn [dispatch]; play. Qed.

Lemma framed_songdone_time l tv : player_inv l -> Framed (songdone_time l tv).
Proof.
  intros Hl. unfold songdone_time.
  eapply (post_bind (fun _ => True)); [by eapply framed_of, keeps_wait_songdone|]. intros [w l'] _. frame.
Qed.

Lemma keeps_after_events l tv : player_inv l -> KeepsL (after_events l tv).
Proof.
  intros Hl. unfold after_events.
  eapply (post_bind (fun _ => True)); [by apply framed_songdone_time|]. intros [w tv'] _.
  eapply (post_bind player_inv); [destruct (_ && _); play|]. intros l' Hl'.
  unfold player_inv in Hl'. destruct (pl_raopcl l') as [d|]; [|apply post_undef]. cbn in Hl'. play.
Qed.
Hint Resolve keeps_dispatch keeps_after_events : keeps.

Lemma keeps_main_event_handler l : player_inv l -> KeepsL (main_event_handler console_line l).
Proof.
  intros Hl. unfold main_event_handler. eapply (post_bind (fun _ => True)); [apply framed_gets|].
  intros t _. cbv zeta. destruct (existsb _ _); [apply post_undef|].
  eapply (post_bind (fun _ => True)); [by apply framed_songdone_time|]. intros [w tv] _. play.
Qed.
Hint Resolve keeps_main_event_handler : keeps.

Lemma keeps_drain n : forall l, player_inv l -> KeepsL (drain console_line n l).
Proof. induction n; intros l Hl; cbn [drain]; play. Qed.
Hint Resolve keeps_drain : keeps.

(** ** The main loop *)

Abbreviation KeepsB := (Post (fun r : Z * raopld_t * locals => player_inv (snd (fst r)))).

Lemma keeps_play_sample n l a b : player_inv l -> KeepsB (play_sample console_line n l a b).
Proof.
  intros Hl. unfold play_sample. eapply (post_bind (fun _ => True)); [auto with frame|]. intros more _.
  destruct (more =? 0); [play|].
  eapply (post_bind (fun _ => True)); [auto with frame|]. intros [r v] _. cbv zeta.
  eapply (post_bind player_inv); [destruct (r =? 0); play|]. intros l1 Hl1.
  destruct (match v with Some _ => v | None => b end) as [[buf size]|]; play.
Qed.
Hint Resolve keeps_play_sample : keeps.

Lemma keeps_main_step n l b : player_inv l -> KeepsB (main_step console_line n l b).
Proof. intros Hl. unfold main_step. play. Qed.

Lemma keeps_main_loop n h : forall rval l b,
  player_inv l -> Post player_inv (main_loop console_line n h rval l b).
Proof.
  induction n as [|n IH]; intros rval l b Hl; cbn [main_loop]; [apply post_undef|].
  destruct (negb _); [by apply post_ret|].
  eapply (post_bind (fun _ => True)); [auto with frame|]. intros act _.
  destruct (negb _); [by apply post_ret|].
  eapply post_bind; [by apply keeps_main_step|]. intros [[r l'] b'] Hl'. by apply IH.
Qed.

End Player.

(** The invariant of the player: its event table is well-formed (four
    cells, no descriptor twice), the AES context of the client belongs to its
    session key under the tables of the process, the initialisation vector is a
    block, the counts of the transfer are not negative, the silent frame fits
    its array, and time stamp and source are 32-bit words.  It holds after every iteration of the main loop that holds it
    before, for any console input, any stream and any behaviour of the
    environment, and so at the end of the loop. *)
Theorem main_loop_invariant {E : Env} {L : LineBound} {P : Posix E} line n h rval l b s :
  table_ok (fds s) -> player_inv s.(vars).(aes) l ->
  (forall r l' b' s', main_step line n l b s = Ret ((r, l', b'), s') ->
     table_ok (fds s') /\ player_inv s'.(vars).(aes) l') /\
  (forall l' s', main_loop line n h rval l b s = Ret (l', s') ->
     table_ok (fds s') /\ player_inv s'.(vars).(aes) l').
Proof.
  intros Ht Hl. split.
  - intros r l' b' s' H. destruct (keeps_main_step _ line n l b Hl _ _ _ H) as ([K1 K2] & Q).
    rewrite K2. auto.
  - intros l' s' H. destruct (keeps_main_loop _ line n h rval l b Hl _ _ _ H) as ([K1 K2] & Q).
    rewrite K2. auto.
Qed.

(** A player that is told to stop: a paused client, no stream. *)
Lemma main_loop_invariant_witness :
  exists g c s', keyed g c iota_key /\
    let d := set_min_sdata (repeat 0 144) 135
               (set_ctx c (raopcl_zero iota_key iota_key)) in
    main_loop (E := env0) (L := 5%nat) [] 3 (lit "h") 0 (Raopld (Some d) None) None
      (Proc ∅ 1 [] fds_init (Statics 0 1 0 g)) = Ret (Raopld (Some d) None, s') /\
    table_ok (fds s') /\ player_inv s'.(vars).(aes) (Raopld (Some d) None).
Proof.
  destruct (keyed_set_key globals_at_start ctx_zero iota_key globals_at_start_ok
    ctx_zero_ok iota_key_bytes eq_refl) as (g & c & _ & _ & Hk).
  exists g, c, (Proc ∅ 1 [CIsActivated (lit "h")] fds_init (Statics 0 1 0 g)). split; [exact Hk|].
  intros d. split; [reflexivity|].
  refine (proj2 (main_loop_invariant (E := env0) (L := 5%nat) (P := clamp_posix _) [] 3 (lit "h") 0
    (Raopld (Some d) None) None (Proc ∅ 1 [] fds_init (Statics 0 1 0 g)) _ _) _ _ _).
  - split; [reflexivity|constructor].
  - split; [exact Hk|split; [reflexivity|exact iota_key_bytes]|cbn; lia|cbn; lia|split; reflexivity|done|done].
  - reflexivity.
Defined.
