(* ===== verification/SrcFloat.v ===== *)
(** * SrcFloat: the floating-point arithmetic of libsamplerate

    [double] and [float] are the binary64 and binary32 numbers of IEEE 754, in
    the executable specification of the Standard Library ([SpecFloat]):
    operations of C on doubles are the correctly rounded ones with precision
    53, on floats with precision 24, and a conversion between the two rounds
    once.  [lrint] rounds to the nearest integer, ties to even, and is
    undefined when the result does not fit a 32-bit [long].

    The lemmas show when an operation is exact: [norm s p e] is the
    representation of [(-1)^s * p * 2^e], and products, sums of integers,
    quotients by powers of two and conversions of numbers with few enough
    significant bits are computed without rounding. *)

From S2P Require Import Prelude.
From Stdlib Require Export SpecFloat.

(** ** Operations *)

Abbreviation double := spec_float (only parsing).
Abbreviation float := spec_float (only parsing).

Definition dadd : double -> double -> double := SFadd 53 1024.
Definition dsub : double -> double -> double := SFsub 53 1024.
Definition dmul : double -> double -> double := SFmul 53 1024.
Definition ddiv : double -> double -> double := SFdiv 53 1024.
Definition fsub : float -> float -> float := SFsub 24 128.
Definition fabs : double -> double := SFabs.
Definition dlt (x y : double) : bool := SFltb x y.
Definition dle (x y : double) : bool := SFleb x y.

Declare Scope src_scope.
Delimit Scope src_scope with D.
Infix ".+" := dadd (at level 50, left associativity) : src_scope.
Infix ".-" := dsub (at level 50, left associativity) : src_scope.
Infix ".*" := dmul (at level 40, left associativity) : src_scope.
Infix "./" := ddiv (at level 40, left associativity) : src_scope.
Infix ".<" := dlt (at level 70, no associativity) : src_scope.
Infix ".<=" := dle (at level 70, no associativity) : src_scope.
Open Scope src_scope.

(** Rounding a number to the format with precision [prec]. *)
Definition round_to (prec emax : Z) (x : spec_float) : spec_float :=
  match x with
  | S754_finite s m e => binary_normalize prec emax (cond_Zopp s (Zpos m)) e s
  | _ => x
  end.

Definition to_float (x : double) : float := round_to 24 128 x.
Definition to_double (x : float) : double := round_to 53 1024 x.

(** The conversion of an integer to [double]. *)
Definition dbl (n : Z) : double := binary_normalize 53 1024 n 0 false.

(** The nearest integer of [m * 2^e], ties to even. *)
Definition nearest (m e : Z) : Z :=
  if 0 <=? e then m * 2 ^ e
  else
    let d := 2 ^ (- e) in
    let q := m / d in
    let r := m mod d in
    if (2 * r <? d) || ((2 * r =? d) && Z.even q) then q else q + 1.

Definition lrint (x : double) : outcome Z :=
  match x with
  | S754_zero _ => Ret 0
  | S754_finite s m e =>
      let n := nearest (cond_Zopp s (Zpos m)) e in
      if bool_decide (is_int n) then Ret n else UB Overflow
  | S754_infinity _ | S754_nan => UB Overflow
  end.

(** [fmod_one] of common.h. *)
Definition fmod_one (x : double) : outcome double :=
  do n <- lrint x;
  let res := x .- dbl n in
  Ret (if res .< dbl 0 then res .+ dbl 1 else res).

(** ** Digits and exact shifts *)

Lemma digits2_log2 p : Zpos (digits2_pos p) = Z.log2 (Zpos p) + 1.
Proof.
  induction p as [p IH|p IH|]; cbn [digits2_pos]; [| |done].
  - rewrite Pos2Z.inj_succ, IH, Pos2Z.inj_xI, Z.log2_succ_double by done. lia.
  - rewrite Pos2Z.inj_succ, IH, Pos2Z.inj_xO, Z.log2_double by done. lia.
Qed.

Lemma Zdigits2_log2 z : 0 < z -> Zdigits2 z = Z.log2 z + 1.
Proof. destruct z; [done| |done]. intros _. apply digits2_log2. Qed.

Lemma log2_shift z t : 0 < z -> 0 <= t -> Z.log2 (z * 2 ^ t) = Z.log2 z + t.
Proof. intros. rewrite Z.log2_mul_pow2 by lia. lia. Qed.

Lemma shr_1_even z : 0 < z ->
  shr_1 (Build_shr_record (2 * z) false false) = Build_shr_record z false false.
Proof. by destruct z. Qed.

Lemma iter_pos_iter {A} (f : A -> A) n : forall x, iter_pos f n x = Pos.iter f x n.
Proof.
  induction n as [n IH|n IH|]; intros x; simpl; rewrite ?IH; [|done..].
  by rewrite !Pos.iter_swap.
Qed.

Lemma iter_pos_succ {A} (f : A -> A) n x : iter_pos f (Pos.succ n) x = iter_pos f n (f x).
Proof. by rewrite !iter_pos_iter, Pos.iter_succ, Pos.iter_swap. Qed.

Lemma iter_shr_exact z n : 0 < z ->
  iter_pos shr_1 n (Build_shr_record (z * 2 ^ Zpos n) false false) = Build_shr_record z false false.
Proof.
  intros Hz. induction n as [|n IH] using Pos.peano_ind; cbn [iter_pos].
  - change (2 ^ 1) with 2. rewrite Z.mul_comm. by apply shr_1_even.
  - rewrite iter_pos_succ, Pos2Z.inj_succ, Z.pow_succ_r by lia.
    replace (z * (2 * 2 ^ Z.pos n)) with (2 * (z * 2 ^ Z.pos n)) by lia.
    rewrite shr_1_even by nia. done.
Qed.

Lemma shr_exact z e n : 0 < z -> 0 <= n ->
  shr (Build_shr_record (z * 2 ^ n) false false) e n = (Build_shr_record z false false, e + n).
Proof.
  intros Hz Hn. destruct n as [|n|n]; [| |lia]; cbn [shr].
  - by rewrite Z.pow_0_r, Z.mul_1_r, Z.add_0_r.
  - by rewrite iter_shr_exact.
Qed.

Lemma iter_xO p n : Zpos (Pos.iter xO p n) = Zpos p * 2 ^ Zpos n.
Proof.
  induction n as [|n IH] using Pos.peano_ind; [cbn; lia|].
  rewrite Pos.iter_succ, Pos2Z.inj_xO, IH, Pos2Z.inj_succ, Z.pow_succ_r by lia. lia.
Qed.

Lemma new_location_0 n : new_location n 0 = loc_Exact.
Proof. unfold new_location. by destruct (Z.even n). Qed.

(** ** Normal forms *)

Section Format.
Context (prec emax : Z) (Hprec : 1 < prec < emax).

(** The places by which [z] is shifted to fill the mantissa. *)
Definition room (z : Z) : Z := prec - 1 - Z.log2 z.

Definition norm (s : bool) (z e : Z) : spec_float :=
  S754_finite s (Z.to_pos (z * 2 ^ room z)) (e - room z).

(** [z * 2^e] is a normal number of the format. *)
Definition fits (z e : Z) : Prop :=
  0 < z /\ Z.log2 z < prec /\ emin prec emax <= e - room z <= emax - prec.

Lemma norm_shift s z t e : 0 < z -> 0 <= t <= room z -> norm s (z * 2 ^ t) e = norm s z (e + t).
Proof.
  intros Hz Ht. unfold norm, room in *. rewrite log2_shift by lia. f_equal; [|lia].
  f_equal. rewrite <- Z.mul_assoc, <- Z.pow_add_r by lia. do 2 f_equal. lia.
Qed.

Lemma aux_exact s z t e :
  fits z (e + t) -> room z <= t -> binary_round_aux prec emax s (z * 2 ^ t) e loc_Exact = norm s z (e + t).
Proof.
  intros (Hz & Hl & He) Ht. unfold binary_round_aux, shr_fexp, shr_record_of_loc.
  assert (Hr : 0 <= room z) by (unfold room; lia).
  rewrite Zdigits2_log2 by (apply Z.mul_pos_pos; [lia|apply Z.pow_pos_nonneg; lia]).
  rewrite log2_shift by lia. unfold fexp at 1.
  replace (Z.max _ _ - e) with (t - room z) by (unfold room in *; lia).
  replace (z * 2 ^ t) with (z * 2 ^ room z * 2 ^ (t - room z))
    by (rewrite <- Z.mul_assoc, <- Z.pow_add_r by lia; do 2 f_equal; lia).
  set (m := z * 2 ^ room z).
  assert (Hm : 0 < m) by (apply Z.mul_pos_pos; [lia|apply Z.pow_pos_nonneg; lia]).
  rewrite shr_exact by lia. cbn [shr_m loc_of_shr_record round_nearest_even].
  rewrite Zdigits2_log2 by lia.
  replace (Z.log2 m) with (Z.log2 z + room z) by (unfold m; rewrite log2_shift; lia). unfold fexp.
  replace (Z.max _ _ - _) with 0 by (unfold room in *; lia). cbn [shr].
  cbn [shr_m]. destruct m as [|m'|] eqn:Em; [lia| |lia].
  replace (e + (t - room z) <=? emax - prec) with true by lia.
  unfold norm. fold m. rewrite Em. f_equal. lia.
Qed.

Lemma round_exact s p z t e :
  Zpos p = z * 2 ^ t -> 0 <= t -> fits z (e + t) -> binary_round prec emax s p e = norm s z (e + t).
Proof.
  intros Hp Ht Hf. pose proof Hf as (Hz & Hl & He). unfold binary_round, shl_align.
  rewrite digits2_log2, Hp, log2_shift by lia. unfold fexp.
  replace (Z.max _ _ - e) with (t - room z) by (unfold room in *; lia).
  destruct (t - room z) as [|d|d] eqn:Ed; rewrite ?Hp; [apply aux_exact; [done|lia]..|].
  rewrite iter_xO, Hp, <- Z.mul_assoc, <- Z.pow_add_r by lia.
  rewrite aux_exact.
  - unfold norm. f_equal. unfold room in *. lia.
  - replace (Z.max _ _ + _) with (e + t) by (unfold room in *; lia). done.
  - lia.
Qed.

Lemma normalize_exact s n z t e sz :
  n = cond_Zopp s (z * 2 ^ t) -> 0 <= t -> fits z (e + t) ->
  binary_normalize prec emax n e sz = norm s z (e + t).
Proof.
  intros -> Ht Hf. pose proof Hf as (Hz & _). assert (0 < 2 ^ t) by (apply Z.pow_pos_nonneg; lia).
  assert (0 < z * 2 ^ t) by nia.
  destruct (z * 2 ^ t) as [|p|p] eqn:Ep; [lia| |lia].
  destruct s; cbn; by apply (round_exact _ _ _ t).
Qed.

(** [norm s z e] as a mantissa and an exponent. *)
Lemma norm_eq s z e : 0 < z -> 0 <= room z -> exists p,
  norm s z e = S754_finite s p (e - room z) /\ Zpos p = z * 2 ^ room z.
Proof.
  intros. eexists. split; [done|]. apply Z2Pos.id.
  apply Z.mul_pos_pos; [lia|apply Z.pow_pos_nonneg; lia].
Qed.

Lemma mul_exact s1 z1 e1 s2 z2 e2 :
  fits z1 e1 -> fits z2 e2 -> fits (z1 * z2) (e1 + e2) ->
  SFmul prec emax (norm s1 z1 e1) (norm s2 z2 e2) = norm (xorb s1 s2) (z1 * z2) (e1 + e2).
Proof.
  intros (Hz1 & Hl1 & He1) (Hz2 & Hl2 & He2) Hf.
  destruct (norm_eq s1 z1 e1) as (p1 & -> & Hp1); [lia|unfold room; lia|].
  destruct (norm_eq s2 z2 e2) as (p2 & -> & Hp2); [lia|unfold room; lia|].
  cbn [SFmul]. rewrite Pos2Z.inj_mul, Hp1, Hp2.
  replace (z1 * 2 ^ room z1 * (z2 * 2 ^ room z2)) with (z1 * z2 * 2 ^ (room z1 + room z2))
    by (rewrite Z.pow_add_r by (unfold room; lia); lia).
  replace (e1 + e2) with (e1 - room z1 + (e2 - room z2) + (room z1 + room z2)) in * by lia.
  apply aux_exact; [done|]. unfold room.
  pose proof (Z.log2_mul_below z1 z2). lia.
Qed.

(** Division by a power of two. *)
Lemma div_exact s1 z1 e1 k :
  fits z1 e1 -> fits 1 k -> fits z1 (e1 - k) -> emin prec emax < e1 - k - room z1 ->
  SFdiv prec emax (norm s1 z1 e1) (norm false 1 k) = norm s1 z1 (e1 - k).
Proof.
  intros (Hz1 & Hl1 & He1) (_ & _ & Hk) Hf Hm.
  destruct (norm_eq s1 z1 e1) as (p1 & -> & Hp1); [lia|unfold room; lia|].
  destruct (norm_eq false 1 k) as (p2 & -> & Hp2); [lia|unfold room; cbn; lia|].
  cbn [SFdiv]. unfold SFdiv_core_binary. rewrite Hp1, Hp2.
  assert (Hr : 0 <= room z1) by (unfold room; lia).
  assert (Hr1 : room 1 = prec - 1) by (unfold room; cbn; lia).
  pose proof (Z.pow_pos_nonneg 2 (room z1)). pose proof (Z.pow_pos_nonneg 2 (prec - 1)).
  rewrite !Zdigits2_log2, !log2_shift by (rewrite ?Hr1; nia).
  rewrite Hr1 in *. unfold fexp.
  replace (Z.min _ _) with (e1 - room z1 - (k - (prec - 1)) - prec)
    by (unfold room in *; cbn in *; lia).
  replace (_ - (e1 - room z1 - (k - (prec - 1)) - prec)) with prec by lia.
  assert (Hs : match prec with Z0 => z1 * 2 ^ room z1 | Zpos _ => Z.shiftl (z1 * 2 ^ room z1) prec | Zneg _ => 0 end
    = z1 * 2 ^ (room z1 + 1) * (1 * 2 ^ (prec - 1))).
  { destruct prec as [|q|q] eqn:Eq; [lia| |lia]. rewrite Z.shiftl_mul_pow2 by lia.
    rewrite Z.mul_1_l, <- !Z.mul_assoc, <- !Z.pow_add_r by lia. do 2 f_equal. lia. }
  rewrite Hs.
  assert (Hd : Z.div_eucl (z1 * 2 ^ (room z1 + 1) * (1 * 2 ^ (prec - 1))) (1 * 2 ^ (prec - 1))
    = (z1 * 2 ^ (room z1 + 1), 0)).
  { rewrite (surjective_pairing (Z.div_eucl _ _)). f_equal.
    - apply Z.div_mul. lia.
    - apply Z.mod_mul. lia. }
  rewrite Hd, new_location_0.
  rewrite xorb_false_r.
  replace (e1 - k) with (e1 - room z1 - (k - (prec - 1)) - prec + (room z1 + 1)) in * by lia.
  apply aux_exact; [done|lia].
Qed.

End Format.

(** ** Doubles and floats *)

Abbreviation dnorm := (norm 53).
Abbreviation fnorm := (norm 24).

Ltac fits := unfold fits, room, emin in *; lia.

(** Numbers with at most 24 bits convert between the formats exactly. *)
Lemma to_float_norm s z e :
  0 < z -> Z.log2 z < 24 -> -100 <= e <= 100 -> to_float (dnorm s z e) = fnorm s z e.
Proof.
  intros Hz Hl He. pose proof (Z.log2_nonneg z).
  destruct (norm_eq 53 s z e) as (p & -> & Hp); [fits..|].
  unfold to_float, round_to. replace e with (e - room 53 z + room 53 z) at 2 by lia.
  apply normalize_exact; [lia|by rewrite Hp|fits|fits].
Qed.

Lemma to_double_norm s z e :
  0 < z -> Z.log2 z < 24 -> -100 <= e <= 100 -> to_double (fnorm s z e) = dnorm s z e.
Proof.
  intros Hz Hl He. pose proof (Z.log2_nonneg z).
  destruct (norm_eq 24 s z e) as (p & -> & Hp); [fits..|].
  unfold to_double, round_to. replace e with (e - room 24 z + room 24 z) at 2 by lia.
  apply normalize_exact; [lia|by rewrite Hp|fits|fits].
Qed.

(** Integers below 2^53 in absolute value are exact. *)
Lemma dbl_norm n : n <> 0 -> Z.abs n < 2 ^ 53 -> dbl n = dnorm (n <? 0) (Z.abs n) 0.
Proof.
  intros Hn Hb. assert (0 <= Z.log2 (Z.abs n) < 53) by (split; [apply Z.log2_nonneg|apply Z.log2_lt_pow2; lia]).
  unfold dbl. apply (normalize_exact 53 1024 ltac:(lia) _ _ _ 0); [|lia|fits].
  rewrite Z.pow_0_r, Z.mul_1_r. destruct (Z.ltb_spec n 0); cbn; lia.
Qed.

(** Positive mantissas of the same width compare like the numbers they stand for. *)
Lemma dnorm_compare z1 z2 :
  0 < z1 < 2 ^ 53 -> 0 < z2 < 2 ^ 53 ->
  SFcompare (dnorm false z1 0) (dnorm false z2 0) = Some (z1 ?= z2).
Proof.
  intros H1 H2.
  assert (0 <= Z.log2 z1 < 53) by (split; [apply Z.log2_nonneg|apply Z.log2_lt_pow2; lia]).
  assert (0 <= Z.log2 z2 < 53) by (split; [apply Z.log2_nonneg|apply Z.log2_lt_pow2; lia]).
  destruct (norm_eq 53 false z1 0) as (p1 & -> & Hp1); [fits..|].
  destruct (norm_eq 53 false z2 0) as (p2 & -> & Hp2); [fits..|].
  cbn [SFcompare]. f_equal. change (Pos.compare_cont Eq p1 p2) with (p1 ?= p2)%positive.
  destruct (Z.compare_spec (0 - room 53 z1) (0 - room 53 z2)) as [Hr|Hr|Hr]; unfold room in Hr.
  - change (p1 ?= p2)%positive with (Zpos p1 ?= Zpos p2). rewrite Hp1, Hp2.
    replace (room 53 z1) with (room 53 z2) by fits.
    pose proof (Z.pow_pos_nonneg 2 (room 53 z2) ltac:(lia) ltac:(fits)).
    destruct (Z.compare_spec z1 z2); [subst; apply Z.compare_refl|apply Z.compare_lt_iff; nia|apply Z.compare_gt_iff; nia].
  - symmetry. apply Z.compare_lt_iff. apply Z.log2_lt_cancel. lia.
  - symmetry. apply Z.compare_gt_iff. apply Z.log2_lt_cancel. lia.
Qed.

Lemma dbl_0 : dbl 0 = S754_zero false.
Proof. done. Qed.

(** The comparison of exact integers: at least one is not negative. *)
Lemma dbl_compare a b :
  Z.abs a < 2 ^ 53 -> 0 <= b < 2 ^ 53 -> SFcompare (dbl a) (dbl b) = Some (a ?= b).
Proof.
  intros Ha Hb. destruct (Z.eq_dec a 0) as [->|Hna], (Z.eq_dec b 0) as [->|Hnb].
  - done.
  - rewrite dbl_0, dbl_norm by lia. unfold norm. cbn [SFcompare]. replace (b <? 0) with false by lia.
    rewrite (proj2 (Z.compare_lt_iff 0 b)) by lia. done.
  - rewrite dbl_0, dbl_norm by lia. unfold norm. cbn [SFcompare]. destruct (Z.ltb_spec a 0).
    + by rewrite (proj2 (Z.compare_lt_iff a 0)) by lia.
    + by rewrite (proj2 (Z.compare_gt_iff a 0)) by lia.
  - rewrite !dbl_norm by lia. replace (b <? 0) with false by lia. destruct (Z.ltb_spec a 0).
    + unfold norm. cbn [SFcompare]. rewrite (proj2 (Z.compare_lt_iff a b)) by lia. done.
    + rewrite dnorm_compare by lia. do 2 f_equal; lia.
Qed.

Lemma dbl_lt a b : Z.abs a < 2 ^ 53 -> 0 <= b < 2 ^ 53 -> (dbl a .< dbl b) = (a <? b).
Proof. intros. unfold dlt, SFltb. rewrite dbl_compare by done. unfold Z.ltb. by destruct (a ?= b). Qed.

Lemma dbl_le a b : Z.abs a < 2 ^ 53 -> 0 <= b < 2 ^ 53 -> (dbl a .<= dbl b) = (a <=? b).
Proof. intros. unfold dle, SFleb. rewrite dbl_compare by done. unfold Z.leb. by destruct (a ?= b). Qed.

(** [lrint] of an integer. *)
Lemma nearest_exact z t e : 0 <= e + t -> 0 <= t -> nearest (z * 2 ^ t) e = z * 2 ^ (e + t).
Proof.
  intros H Ht. unfold nearest. destruct (Z.leb_spec 0 e).
  - rewrite <- Z.mul_assoc, <- Z.pow_add_r by lia. do 2 f_equal. lia.
  - assert (E : z * 2 ^ t = z * 2 ^ (e + t) * 2 ^ (- e)).
    { rewrite <- Z.mul_assoc, <- Z.pow_add_r by lia. do 2 f_equal. lia. }
    pose proof (Z.pow_pos_nonneg 2 (- e) ltac:(lia) ltac:(lia)).
    rewrite E, Z.div_mul, Z.mod_mul by lia. by replace (2 * 0 <? 2 ^ (- e)) with true by lia.
Qed.

Lemma lrint_dbl n : is_int n -> lrint (dbl n) = Ret n.
Proof.
  intros Hn. destruct (Z.eq_dec n 0) as [->|Hn0]; [done|].
  unfold is_int, INT_MIN, INT_MAX in Hn.
  assert (0 <= Z.log2 (Z.abs n) < 53) by (split; [apply Z.log2_nonneg|apply Z.log2_lt_pow2; lia]).
  rewrite dbl_norm by lia.
  destruct (norm_eq 53 (n <? 0) (Z.abs n) 0) as (p & -> & Hp); [fits..|].
  unfold lrint. rewrite Hp.
  assert (En : cond_Zopp (n <? 0) (Z.abs n * 2 ^ room 53 (Z.abs n)) = n * 2 ^ room 53 (Z.abs n)).
  { destruct (Z.ltb_spec n 0); cbn [cond_Zopp]; rewrite ?Z.abs_neq, ?Z.abs_eq by lia; lia. }
  rewrite En, nearest_exact by fits.
  replace (_ - _ + _) with 0 by lia. rewrite Z.pow_0_r, Z.mul_1_r.
  by rewrite bool_decide_eq_true_2 by done.
Qed.

Lemma dadd_zero n s : n <> 0 -> Z.abs n < 2 ^ 53 -> dbl n .+ S754_zero s = dbl n.
Proof. intros. by rewrite dbl_norm. Qed.

Lemma dmul_zero n : 0 <= n < 2 ^ 53 -> dbl n .* dbl 0 = dbl 0.
Proof. intros. destruct (Z.eq_dec n 0) as [->|]; [done|]. rewrite dbl_norm by lia. cbn. by replace (n <? 0) with false by lia. Qed.
