(* ===== verification/SrcCommon.v ===== *)
(** * SrcCommon: data and memory of libsamplerate

    common.h and samplerate.h: the error numbers, the modes, [SRC_DATA] and
    [SRC_PRIVATE], and the data of the three kinds of converters.

    Memory.  The arrays of samples belong to the caller and are known by their
    addresses, which [src_process] compares: an address is a number that counts
    floats, NULL is 0, and [cells] maps the addresses of the live cells to their
    values.  An access to another address is undefined.  The structures that the
    library allocates are values; [live] counts their blocks, and
    [calloc_ok k n] says whether the [k]-th allocation, of [n] bytes, succeeds.

    A function pointer of [SRC_PRIVATE] is one of the few functions the
    library stores there; the callback of the user is a parameter. *)

From S2P Require Import Prelude SrcFloat.

(** ** Constants *)

Definition SRC_MAX_RATIO : Z := 256.
Definition SRC_MIN_RATIO_DIFF : double := dbl 1 ./ dbl (10 ^ 20).

Definition SRC_FALSE : Z := 0.
Definition SRC_TRUE : Z := 1.
Definition SRC_MODE_PROCESS : Z := 555.
Definition SRC_MODE_CALLBACK : Z := 556.

Definition SRC_ERR_NO_ERROR : Z := 0.
Definition SRC_ERR_MALLOC_FAILED : Z := 1.
Definition SRC_ERR_BAD_STATE : Z := 2.
Definition SRC_ERR_BAD_DATA : Z := 3.
Definition SRC_ERR_BAD_DATA_PTR : Z := 4.
Definition SRC_ERR_NO_PRIVATE : Z := 5.
Definition SRC_ERR_BAD_SRC_RATIO : Z := 6.
Definition SRC_ERR_BAD_PROC_PTR : Z := 7.
Definition SRC_ERR_SHIFT_BITS : Z := 8.
Definition SRC_ERR_FILTER_LEN : Z := 9.
Definition SRC_ERR_BAD_CONVERTER : Z := 10.
Definition SRC_ERR_BAD_CHANNEL_COUNT : Z := 11.
Definition SRC_ERR_SINC_BAD_BUFFER_LEN : Z := 12.
Definition SRC_ERR_SIZE_INCOMPATIBILITY : Z := 13.
Definition SRC_ERR_BAD_PRIV_PTR : Z := 14.
Definition SRC_ERR_BAD_SINC_STATE : Z := 15.
Definition SRC_ERR_DATA_OVERLAP : Z := 16.
Definition SRC_ERR_BAD_CALLBACK : Z := 17.
Definition SRC_ERR_BAD_MODE : Z := 18.
Definition SRC_ERR_NULL_CALLBACK : Z := 19.
Definition SRC_ERR_NO_VARIABLE_RATIO : Z := 20.
Definition SRC_ERR_MAX_ERROR : Z := 21.

Definition SRC_SINC_BEST_QUALITY : Z := 0.
Definition SRC_SINC_MEDIUM_QUALITY : Z := 1.
Definition SRC_SINC_FASTEST : Z := 2.
Definition SRC_ZERO_ORDER_HOLD : Z := 3.
Definition SRC_LINEAR : Z := 4.

(** [MAKE_MAGIC] of the six characters of a text. *)
Definition MAKE_MAGIC (s : list Z) : Z :=
  znth s 0 + (znth s 1 .<< 4) + (znth s 2 .<< 8) + (znth s 3 .<< 12) +
  (znth s 4 .<< 16) + (znth s 5 .<< 20).

(** ** Data *)

Record SRC_DATA : Type := SrcData {
  data_in : Z; data_out : Z;
  input_frames : Z; output_frames : Z;
  input_frames_used : Z; output_frames_gen : Z;
  end_of_input : Z;
  src_ratio : double
}.

Definition set_counts (used gen : Z) (d : SRC_DATA) : SRC_DATA :=
  SrcData d.(data_in) d.(data_out) d.(input_frames) d.(output_frames) used gen
    d.(end_of_input) d.(src_ratio).
Definition set_frames (inf outf : Z) (d : SRC_DATA) : SRC_DATA :=
  SrcData d.(data_in) d.(data_out) inf outf d.(input_frames_used) d.(output_frames_gen)
    d.(end_of_input) d.(src_ratio).
Definition set_ptrs (inp out : Z) (d : SRC_DATA) : SRC_DATA :=
  SrcData inp out d.(input_frames) d.(output_frames) d.(input_frames_used)
    d.(output_frames_gen) d.(end_of_input) d.(src_ratio).
Definition set_eoi (e : Z) (d : SRC_DATA) : SRC_DATA :=
  SrcData d.(data_in) d.(data_out) d.(input_frames) d.(output_frames) d.(input_frames_used)
    d.(output_frames_gen) e d.(src_ratio).

(** [ZOH_DATA] and [LINEAR_DATA], which have the same members; the length of
    [last_value] is what the allocation leaves for it. *)
Record hold_data : Type := Hold {
  magic_marker : Z; channels : Z; hold_reset : Z;
  in_count : Z; in_used : Z; out_count : Z; out_gen : Z;
  last_value : list float
}.
Definition ZOH_DATA : Type := hold_data.
Definition LINEAR_DATA : Type := hold_data.

(** The table of a filter: [increment] and [coeffs] of a coefficient header. *)
Record coeff_table : Type := Coeffs { increment : Z; coeffs : list float }.

Record SINC_FILTER : Type := Sinc {
  sinc_magic_marker : Z; s_channels : Z;
  s_in_count : Z; s_in_used : Z; s_out_count : Z; s_out_gen : Z;
  coeff_half_len : Z; index_inc : Z;
  s_src_ratio : double; s_input_index : double;
  s_coeffs : list float;
  b_current : Z; b_end : Z; b_real_end : Z; b_len : Z;
  buffer : list float
}.

(** What [private_data] points to. *)
Inductive private_t : Type :=
| Zoh (z : ZOH_DATA)
| Linear (l : LINEAR_DATA)
| SincF (f : SINC_FILTER).

Inductive process_t : Type := sinc_vari_process_p | zoh_vari_process_p | linear_vari_process_p.
Inductive reset_t : Type := sinc_reset_p | zoh_reset_p | linear_reset_p.

Record SRC_PRIVATE : Type := SrcPrivate {
  last_ratio : double; last_position : double;
  error : Z; psrc_channels : Z; mode : Z;
  private_data : option private_t;
  vari_process : option process_t;
  const_process : option process_t;
  reset : option reset_t;
  callback_func : option Z; user_callback_data : Z;
  saved_frames : Z; saved_data : Z
}.

(** A structure just allocated with [calloc]. *)
Definition psrc_zero : SRC_PRIVATE :=
  SrcPrivate (dbl 0) (dbl 0) 0 0 0 None None None None None 0 0 0.

Definition set_position (ratio pos : double) (p : SRC_PRIVATE) : SRC_PRIVATE :=
  SrcPrivate ratio pos p.(error) p.(psrc_channels) p.(mode) p.(private_data) p.(vari_process)
    p.(const_process) p.(reset) p.(callback_func) p.(user_callback_data) p.(saved_frames) p.(saved_data).
Definition set_error (e : Z) (p : SRC_PRIVATE) : SRC_PRIVATE :=
  SrcPrivate p.(last_ratio) p.(last_position) e p.(psrc_channels) p.(mode) p.(private_data)
    p.(vari_process) p.(const_process) p.(reset) p.(callback_func) p.(user_callback_data)
    p.(saved_frames) p.(saved_data).
Definition set_mode (m : Z) (p : SRC_PRIVATE) : SRC_PRIVATE :=
  SrcPrivate p.(last_ratio) p.(last_position) p.(error) p.(psrc_channels) m p.(private_data)
    p.(vari_process) p.(const_process) p.(reset) p.(callback_func) p.(user_callback_data)
    p.(saved_frames) p.(saved_data).
Definition set_channels (c : Z) (p : SRC_PRIVATE) : SRC_PRIVATE :=
  SrcPrivate p.(last_ratio) p.(last_position) p.(error) c p.(mode) p.(private_data)
    p.(vari_process) p.(const_process) p.(reset) p.(callback_func) p.(user_callback_data)
    p.(saved_frames) p.(saved_data).
Definition set_private (d : option private_t) (p : SRC_PRIVATE) : SRC_PRIVATE :=
  SrcPrivate p.(last_ratio) p.(last_position) p.(error) p.(psrc_channels) p.(mode) d
    p.(vari_process) p.(const_process) p.(reset) p.(callback_func) p.(user_callback_data)
    p.(saved_frames) p.(saved_data).
Definition set_process (v : process_t) (r : reset_t) (p : SRC_PRIVATE) : SRC_PRIVATE :=
  SrcPrivate p.(last_ratio) p.(last_position) p.(error) p.(psrc_channels) p.(mode) p.(private_data)
    (Some v) (Some v) (Some r) p.(callback_func) p.(user_callback_data) p.(saved_frames) p.(saved_data).
Definition set_callback (f : option Z) (u : Z) (p : SRC_PRIVATE) : SRC_PRIVATE :=
  SrcPrivate p.(last_ratio) p.(last_position) p.(error) p.(psrc_channels) p.(mode) p.(private_data)
    p.(vari_process) p.(const_process) p.(reset) f u p.(saved_frames) p.(saved_data).
Definition set_saved (n a : Z) (p : SRC_PRIVATE) : SRC_PRIVATE :=
  SrcPrivate p.(last_ratio) p.(last_position) p.(error) p.(psrc_channels) p.(mode) p.(private_data)
    p.(vari_process) p.(const_process) p.(reset) p.(callback_func) p.(user_callback_data) n a.

(** ** Memory and the monad of the library *)

Class Calloc : Type := calloc_ok : nat -> Z -> bool.

Record smem : Type := Smem { cells : gmap Z float; calls : nat; live : Z }.

Definition SM (A : Type) : Type := smem -> outcome (A * smem).
Definition retS {A} (a : A) : SM A := fun m => Ret (a, m).
Definition bindS {A B} (x : SM A) (f : A -> SM B) : SM B :=
  fun m => match x m with Ret (a, m') => f a m' | UB u => UB u end.
Definition undefS {A} (u : ub) : SM A := fun _ => UB u.
Definition liftS {A} (o : outcome A) : SM A := fun m => obind o (fun a => Ret (a, m)).

Notation "'let!' x := m 'in' k" := (bindS m (fun x => k))
  (at level 10, x name, m at level 100, k at level 200) : src_scope.
Notation "'let!' ' p := m 'in' k" := (bindS m (fun p => k))
  (at level 10, p pattern, m at level 100, k at level 200) : src_scope.

(** [long] arithmetic: the result must be representable. *)
Definition long (x : Z) : SM Z := if bool_decide (is_int x) then retS x else undefS Overflow.

Definition loadf (a : Z) : SM float := fun m =>
  match m.(cells) !! a with Some v => Ret (v, m) | None => UB OutOfBounds end.
Definition storef (a : Z) (v : float) : SM unit := fun m =>
  match m.(cells) !! a with
  | Some _ => Ret (tt, Smem (<[a := v]> m.(cells)) m.(calls) m.(live))
  | None => UB OutOfBounds
  end.

Definition calloc {C : Calloc} (n : Z) : SM bool := fun m =>
  let ok := calloc_ok m.(calls) n in
  Ret (ok, Smem m.(cells) (1 + m.(calls)) (m.(live) + if ok then 1 else 0)).
Definition freeS : SM unit := fun m => Ret (tt, Smem m.(cells) m.(calls) (m.(live) - 1)).

(** An array inside a structure. *)
Definition geta (l : list float) (i : Z) : SM float :=
  if in_range i (zlen l) then retS (nth (Z.to_nat i) l S754_nan) else undefS OutOfBounds.
Definition seta (l : list float) (i : Z) (v : float) : SM (list float) :=
  if in_range i (zlen l) then retS (<[Z.to_nat i := v]> l) else undefS OutOfBounds.

(** [memset(l + i, c, n * sizeof(float))] where the bytes [c] read as [v]. *)
Definition fill (l : list float) (i n : Z) (v : float) : SM (list float) :=
  if n <? 0 then undefS OutOfBounds else liftS (buf_write l i (repeat v (Z.to_nat n))).

(** ** Runs *)

Lemma bindS_Ret {A B} (x : SM A) (f : A -> SM B) m a m' : x m = Ret (a, m') -> bindS x f m = f a m'.
Proof. intros E. unfold bindS. by rewrite E. Qed.

Lemma bindS_assoc {A B D} (x : SM A) (f : A -> SM B) (g : B -> SM D) m :
  bindS (bindS x f) g m = bindS x (fun a => bindS (f a) g) m.
Proof. unfold bindS. by destruct (x m) as [[a m']|u]. Qed.

Lemma bindS_ret {A B} (a : A) (f : A -> SM B) m : bindS (retS a) f m = f a m.
Proof. done. Qed.

Lemma bindS_inv {A B} (x : SM A) (f : A -> SM B) m r :
  bindS x f m = Ret r -> exists a m', x m = Ret (a, m') /\ f a m' = Ret r.
Proof. unfold bindS. destruct (x m) as [[a m']|u]; [|done]. eauto. Qed.

Lemma long_inv x m r : long x m = Ret r -> r = (x, m) /\ is_int x.
Proof. unfold long. case_bool_decide; [|done]. by intros [= <-]. Qed.

Lemma long_ok x m : is_int x -> long x m = Ret (x, m).
Proof. intros. unfold long. by rewrite bool_decide_eq_true_2. Qed.
