(* ===== verification/SrcHold.v ===== *)
(** * SrcHold: the zero-order-hold and the linear converter

    src_zoh.c and src_linear.c.  The two process functions have the same
    structure and differ in the test that leaves the first loop and in the value
    of a sample, which are the arguments of [hold_process] here:
    [zoh_vari_process] and [linear_vari_process] give them as the code has
    them.  Both loops write [channels] samples in each round, so that
    [out_count] rounds are enough fuel. *)

From S2P Require Import Prelude SrcFloat SrcCommon.

Definition ZOH_MAGIC_MARKER : Z := MAKE_MAGIC (lit "srczoh").
Definition LINEAR_MAGIC_MARKER : Z := MAKE_MAGIC (lit "linear").

(** The local variables of a process function with the counters it changes. *)
Record run : Type := Run { gen : Z; used : Z; ratio : double; index : double }.

Section Process.
Context (psrc : SRC_PRIVATE) (data : SRC_DATA) (h : hold_data).

(** [src_ratio] of a round: it moves from the last ratio to the wanted one. *)
Definition next_ratio (r : run) : double :=
  if (0 <? h.(out_count)) &&
     (SRC_MIN_RATIO_DIFF .< fabs (psrc.(last_ratio) .- data.(src_ratio)))
  then psrc.(last_ratio) .+
         dbl r.(gen) .* (data.(src_ratio) .- psrc.(last_ratio)) ./ dbl h.(out_count)
  else r.(ratio).

(** [in_used + channels * input_index]. *)
Definition reach (r : run) : double := dbl r.(used) .+ dbl h.(channels) .* r.(index).

(** [for (ch = 0 ; ch < channels ; ch++)]: one sample for each channel. *)
Fixpoint emit (n : nat) (ch g : Z) (sample : Z -> SM float) : SM Z :=
  match n with
  | O => retS g
  | S n' =>
      let! v := sample ch in
      let! _ := storef (data.(data_out) + g) v in
      let! g' := long (g + 1) in
      emit n' (ch + 1) g' sample
  end.

(** Samples before the first sample of the input array. *)
Fixpoint first_loop (stop : double -> double -> bool) (sample : run -> Z -> SM float)
    (n : nat) (r : run) : SM run :=
  match n with
  | O => undefS NoFuel
  | S n' =>
      if (r.(index) .< dbl 1) && (r.(gen) <? h.(out_count)) then
        if stop (reach r) (dbl h.(in_count)) then retS r
        else
          let q := next_ratio r in
          let! g := emit (Z.to_nat h.(channels)) 0 r.(gen) (sample r) in
          first_loop stop sample n' (Run g r.(used) q (r.(index) .+ dbl 1 ./ q))
      else retS r
  end.

(** [rem = fmod_one (input_index) ; in_used += channels * lrint (input_index - rem) ;
    input_index = rem]. *)
Definition split_index (r : run) : SM run :=
  let! rem := liftS (fmod_one r.(index)) in
  let! k := liftS (lrint (r.(index) .- rem)) in
  let! step := long (h.(channels) * k) in
  let! u := long (r.(used) + step) in
  retS (Run r.(gen) u r.(ratio) rem).

(** The main processing loop. *)
Fixpoint process_loop (sample : run -> Z -> SM float) (n : nat) (r : run) : SM run :=
  match n with
  | O => undefS NoFuel
  | S n' =>
      if (r.(gen) <? h.(out_count)) && (reach r .<= dbl h.(in_count)) then
        let q := next_ratio r in
        let! g := emit (Z.to_nat h.(channels)) 0 r.(gen) (sample r) in
        let! r' := split_index (Run g r.(used) q (r.(index) .+ dbl 1 ./ q)) in
        process_loop sample n' r'
      else retS r
  end.

(** What was used beyond the input is carried over into the next position. *)
Definition carry (r : run) : run :=
  if h.(in_count) <? r.(used) then
    Run r.(gen) h.(in_count) r.(ratio)
      (r.(index) .+ dbl (Z.quot (r.(used) - h.(in_count)) h.(channels)))
  else r.

(** [last_value [ch] = data_in [base + ch]] for each channel. *)
Fixpoint copy_last (n : nat) (ch base : Z) (l : list float) : SM (list float) :=
  match n with
  | O => retS l
  | S n' =>
      let! v := loadf (data.(data_in) + base + ch) in
      let! l' := seta l ch v in
      copy_last n' (ch + 1) base l'
  end.

End Process.

(** The structure the two process functions share, after the check of
    [private_data]: the results are the structure, the state and the counts. *)
Definition hold_process (stop : double -> double -> bool)
    (first_sample main_sample : SRC_DATA -> hold_data -> run -> Z -> SM float)
    (psrc : SRC_PRIVATE) (h : hold_data) (data : SRC_DATA)
    : SM (hold_data * SRC_PRIVATE * SRC_DATA) :=
  let nch := Z.to_nat h.(channels) in
  let! lv := (if h.(hold_reset) =? 0 then retS h.(last_value)
              else copy_last data nch 0 0 h.(last_value)) in
  let! ic := long (data.(input_frames) * h.(channels)) in
  let! oc := long (data.(output_frames) * h.(channels)) in
  let h := Hold h.(magic_marker) h.(channels) 0 ic 0 oc 0 lv in
  let fuel := Datatypes.S (Z.to_nat oc) in
  let! r := first_loop psrc data h stop (first_sample data h) fuel
              (Run 0 0 psrc.(last_ratio) psrc.(last_position)) in
  let! r := split_index h r in
  let! r := process_loop psrc data h (main_sample data h) fuel r in
  let r := carry h r in
  let! lv := (if 0 <? r.(used) then copy_last data nch 0 (r.(used) - h.(channels)) h.(last_value)
              else retS h.(last_value)) in
  if h.(channels) =? 0 then undefS DivByZero else
  retS (Hold h.(magic_marker) h.(channels) 0 ic r.(used) oc r.(gen) lv,
        set_position r.(ratio) r.(index) psrc,
        set_counts (Z.quot r.(used) h.(channels)) (Z.quot r.(gen) h.(channels)) data).

(** ** src_zoh.c *)

(** [last_value [ch]]. *)
Definition zoh_first_sample (data : SRC_DATA) (zoh : ZOH_DATA) (r : run) (ch : Z) : SM float :=
  geta zoh.(last_value) ch.

(** [data_in [in_used - channels + ch]]. *)
Definition zoh_main_sample (data : SRC_DATA) (zoh : ZOH_DATA) (r : run) (ch : Z) : SM float :=
  loadf (data.(data_in) + (r.(used) - zoh.(channels) + ch)).

Definition zoh_vari_process (psrc : SRC_PRIVATE) (data : SRC_DATA)
    : SM (Z * SRC_PRIVATE * SRC_DATA) :=
  match psrc.(private_data) with
  | Some (Zoh zoh) =>
      let! '(zoh, psrc, data) :=
        hold_process (fun x y => y .<= x) zoh_first_sample zoh_main_sample psrc zoh data in
      retS (SRC_ERR_NO_ERROR, set_private (Some (Zoh zoh)) psrc, data)
  | Some _ => undefS OutOfBounds
  | None => retS (SRC_ERR_NO_PRIVATE, psrc, data)
  end.

Definition zoh_get_name (src_enum : Z) : option (list Z) :=
  if src_enum =? SRC_ZERO_ORDER_HOLD then Some (lit "ZOH Interpolator") else None.

Definition zoh_get_description (src_enum : Z) : option (list Z) :=
  if src_enum =? SRC_ZERO_ORDER_HOLD
  then Some (lit "Zero order hold interpolator, very fast, poor quality.") else None.

(** Both structures have 28 bytes before [last_value] and 32 in all. *)
Definition hold_size (nch : Z) : Z := u32 (32 + u32 (nch * 4)).

(** The structure a [calloc] of [hold_size nch] bytes gives, when it has room
    for the members before [last_value]. *)
Definition hold_zero (nch : Z) : SM hold_data :=
  if hold_size nch <? 28 then undefS OutOfBounds
  else retS (Hold 0 0 0 0 0 0 0 (repeat (dbl 0) (Z.to_nat ((hold_size nch - 28) / 4)))).

(** The members [zoh_reset] and [linear_reset] write: [memset] clears
    [sizeof (float) * channels] bytes. *)
Definition hold_clear (nch : Z) (h : hold_data) : SM hold_data :=
  let! lv := fill h.(last_value) 0 (u32 (4 * nch) / 4) (dbl 0) in
  retS (Hold h.(magic_marker) nch 1 h.(in_count) h.(in_used) h.(out_count) h.(out_gen) lv).

Definition zoh_reset (psrc : SRC_PRIVATE) : SM SRC_PRIVATE :=
  match psrc.(private_data) with
  | None => retS psrc
  | Some (Zoh zoh) =>
      let! zoh := hold_clear psrc.(psrc_channels) zoh in
      retS (set_private (Some (Zoh zoh)) psrc)
  | Some _ => undefS OutOfBounds
  end.

(** The magic marker, the first member of each structure. *)
Definition marker (d : private_t) : Z :=
  match d with
  | Zoh z => z.(magic_marker)
  | Linear l => l.(magic_marker)
  | SincF f => f.(sinc_magic_marker)
  end.

(** [private_data] of another converter is freed. *)
Definition drop_foreign (magic : Z) (psrc : SRC_PRIVATE) : SM SRC_PRIVATE :=
  match psrc.(private_data) with
  | Some d => if marker d =? magic then retS psrc
              else let! _ := freeS in retS (set_private None psrc)
  | None => retS psrc
  end.

Section Converters.
Context {C : Calloc}.

Definition zoh_set_converter (psrc : SRC_PRIVATE) (src_enum : Z) : SM (Z * SRC_PRIVATE) :=
  if negb (src_enum =? SRC_ZERO_ORDER_HOLD) then retS (SRC_ERR_BAD_CONVERTER, psrc)
  else
    let! psrc := drop_foreign ZOH_MAGIC_MARKER psrc in
    let! '(ok, psrc) :=
      match psrc.(private_data) with
      | Some _ => retS (true, psrc)
      | None =>
          let! ok := calloc (hold_size psrc.(psrc_channels)) in
          if ok then let! z := hold_zero psrc.(psrc_channels) in
            retS (true, set_private (Some (Zoh z)) psrc)
          else retS (false, psrc)
      end in
    if negb ok then retS (SRC_ERR_MALLOC_FAILED, psrc)
    else
      match psrc.(private_data) with
      | Some (Zoh z) =>
          let z := Hold ZOH_MAGIC_MARKER psrc.(psrc_channels) z.(hold_reset) z.(in_count) z.(in_used)
                     z.(out_count) z.(out_gen) z.(last_value) in
          let psrc := set_process zoh_vari_process_p zoh_reset_p (set_private (Some (Zoh z)) psrc) in
          let! psrc := zoh_reset psrc in
          retS (SRC_ERR_NO_ERROR, psrc)
      | _ => undefS OutOfBounds
      end.

(** ** src_linear.c *)

(** [(float) (last_value [ch] + input_index * (data_in [ch] - last_value [ch]))]:
    the difference is one of floats, the rest is computed in [double]. *)
Definition linear_mix (a b : float) (t : double) : float :=
  to_float (to_double a .+ t .* to_double (fsub b a)).

Definition linear_first_sample (data : SRC_DATA) (linear : LINEAR_DATA) (r : run) (ch : Z) : SM float :=
  let! a := geta linear.(last_value) ch in
  let! b := loadf (data.(data_in) + ch) in
  retS (linear_mix a b r.(index)).

Definition linear_main_sample (data : SRC_DATA) (linear : LINEAR_DATA) (r : run) (ch : Z) : SM float :=
  let! a := loadf (data.(data_in) + (r.(used) - linear.(channels) + ch)) in
  let! b := loadf (data.(data_in) + (r.(used) + ch)) in
  retS (linear_mix a b r.(index)).

Definition linear_vari_process (psrc : SRC_PRIVATE) (data : SRC_DATA)
    : SM (Z * SRC_PRIVATE * SRC_DATA) :=
  match psrc.(private_data) with
  | Some (Linear linear) =>
      let! '(linear, psrc, data) :=
        hold_process (fun x y => y .< x) linear_first_sample linear_main_sample psrc linear data in
      retS (SRC_ERR_NO_ERROR, set_private (Some (Linear linear)) psrc, data)
  | Some _ => undefS OutOfBounds
  | None => retS (SRC_ERR_NO_PRIVATE, psrc, data)
  end.

Definition linear_get_name (src_enum : Z) : option (list Z) :=
  if src_enum =? SRC_LINEAR then Some (lit "Linear Interpolator") else None.

Definition linear_get_description (src_enum : Z) : option (list Z) :=
  if src_enum =? SRC_LINEAR then Some (lit "Linear interpolator, very fast, poor quality.") else None.

Definition linear_reset (psrc : SRC_PRIVATE) : SM SRC_PRIVATE :=
  match psrc.(private_data) with
  | None => retS psrc
  | Some (Linear linear) =>
      let! linear := hold_clear psrc.(psrc_channels) linear in
      retS (set_private (Some (Linear linear)) psrc)
  | Some _ => undefS OutOfBounds
  end.

Definition linear_set_converter (psrc : SRC_PRIVATE) (src_enum : Z) : SM (Z * SRC_PRIVATE) :=
  if negb (src_enum =? SRC_LINEAR) then retS (SRC_ERR_BAD_CONVERTER, psrc)
  else
    let! psrc := drop_foreign LINEAR_MAGIC_MARKER psrc in
    let! '(ok, psrc) :=
      match psrc.(private_data) with
      | Some _ => retS (true, psrc)
      | None =>
          let! ok := calloc (hold_size psrc.(psrc_channels)) in
          if ok then let! l := hold_zero psrc.(psrc_channels) in
            retS (true, set_private (Some (Linear l)) psrc)
          else retS (false, psrc)
      end in
    if negb ok then retS (SRC_ERR_MALLOC_FAILED, psrc)
    else
      match psrc.(private_data) with
      | Some (Linear l) =>
          let l := Hold LINEAR_MAGIC_MARKER psrc.(psrc_channels) l.(hold_reset) l.(in_count) l.(in_used)
                     l.(out_count) l.(out_gen) l.(last_value) in
          let psrc := set_process linear_vari_process_p linear_reset_p (set_private (Some (Linear l)) psrc) in
          let! psrc := linear_reset psrc in
          retS (SRC_ERR_NO_ERROR, psrc)
      | _ => undefS OutOfBounds
      end.

End Converters.
