(* ===== verification/SrcSinc.v ===== *)
(** * SrcSinc: the band-limited sinc converter

    src_sinc.c.  The three coefficient tables of the headers fastest_coeffs.h,
    mid_qual_coeffs.h and high_qual_coeffs.h are data of a generator and are the
    parameters [fastest_coeffs], [slow_mid_qual_coeffs] and
    [slow_high_qual_coeffs].  The fixed-point numbers have the type
    [increment_t], 32 bits wide, with twelve bits behind the point. *)

From S2P Require Import Prelude SrcFloat SrcCommon SrcHold.

Definition SINC_MAGIC_MARKER : Z := MAKE_MAGIC (lit " sinc ").

Definition SHIFT_BITS : Z := 12.
Definition FP_ONE : double := dbl (1 .<< SHIFT_BITS).
Definition INV_FP_ONE : double := dbl 1 ./ FP_ONE.

Definition double_to_fp (x : double) : SM Z := liftS (lrint (x .* FP_ONE)).
Definition int_to_fp (x : Z) : SM Z := long (x .<< SHIFT_BITS).
Definition fp_to_int (x : Z) : Z := x .>> SHIFT_BITS.
Definition fp_fraction_part (x : Z) : Z := x .& ((1 .<< SHIFT_BITS) - 1).
Definition fp_to_double (x : Z) : double := dbl (fp_fraction_part x) .* INV_FP_ONE.

Definition sinc_get_name (src_enum : Z) : option (list Z) :=
  if src_enum =? SRC_SINC_BEST_QUALITY then Some (lit "Best Sinc Interpolator")
  else if src_enum =? SRC_SINC_MEDIUM_QUALITY then Some (lit "Medium Sinc Interpolator")
  else if src_enum =? SRC_SINC_FASTEST then Some (lit "Fastest Sinc Interpolator")
  else None.

Definition sinc_get_description (src_enum : Z) : option (list Z) :=
  if src_enum =? SRC_SINC_FASTEST then
    Some (lit "Band limited sinc interpolation, fastest, 97dB SNR, 80% BW.")
  else if src_enum =? SRC_SINC_MEDIUM_QUALITY then
    Some (lit "Band limited sinc interpolation, medium quality, 121dB SNR, 90% BW.")
  else if src_enum =? SRC_SINC_BEST_QUALITY then
    Some (lit "Band limited sinc interpolation, best quality, 145dB SNR, 96% BW.")
  else None.

(** ** Updates of the filter *)

Definition set_io (ic iu oc og : Z) (f : SINC_FILTER) : SINC_FILTER :=
  Sinc f.(sinc_magic_marker) f.(s_channels) ic iu oc og f.(coeff_half_len) f.(index_inc)
    f.(s_src_ratio) f.(s_input_index) f.(s_coeffs)
    f.(b_current) f.(b_end) f.(b_real_end) f.(b_len) f.(buffer).
Definition set_window (cur en : Z) (f : SINC_FILTER) : SINC_FILTER :=
  Sinc f.(sinc_magic_marker) f.(s_channels) f.(s_in_count) f.(s_in_used) f.(s_out_count)
    f.(s_out_gen) f.(coeff_half_len) f.(index_inc) f.(s_src_ratio) f.(s_input_index)
    f.(s_coeffs) cur en f.(b_real_end) f.(b_len) f.(buffer).
Definition set_real_end (re : Z) (f : SINC_FILTER) : SINC_FILTER :=
  Sinc f.(sinc_magic_marker) f.(s_channels) f.(s_in_count) f.(s_in_used) f.(s_out_count)
    f.(s_out_gen) f.(coeff_half_len) f.(index_inc) f.(s_src_ratio) f.(s_input_index)
    f.(s_coeffs) f.(b_current) f.(b_end) re f.(b_len) f.(buffer).
Definition set_buffer (b : list float) (f : SINC_FILTER) : SINC_FILTER :=
  Sinc f.(sinc_magic_marker) f.(s_channels) f.(s_in_count) f.(s_in_used) f.(s_out_count)
    f.(s_out_gen) f.(coeff_half_len) f.(index_inc) f.(s_src_ratio) f.(s_input_index)
    f.(s_coeffs) f.(b_current) f.(b_end) f.(b_real_end) f.(b_len) b.
Definition set_gen (g : Z) (f : SINC_FILTER) : SINC_FILTER :=
  set_io f.(s_in_count) f.(s_in_used) f.(s_out_count) g f.
Definition set_used (u : Z) (f : SINC_FILTER) : SINC_FILTER :=
  set_io f.(s_in_count) u f.(s_out_count) f.(s_out_gen) f.

(** ** Reset *)

(** Four bytes 0xAA as a float. *)
Definition aa_float : float := S754_finite true 11184810 (-65).

Definition sinc_reset (psrc : SRC_PRIVATE) : SM SRC_PRIVATE :=
  match psrc.(private_data) with
  | None => retS psrc
  | Some (SincF f) =>
      let! b := fill f.(buffer) 0 f.(b_len) (dbl 0) in
      let! b := fill b f.(b_len) f.(s_channels) aa_float in
      retS (set_private (Some (SincF
        (Sinc f.(sinc_magic_marker) f.(s_channels) f.(s_in_count) f.(s_in_used) f.(s_out_count)
           f.(s_out_gen) f.(coeff_half_len) f.(index_inc) (dbl 0) (dbl 0) f.(s_coeffs)
           0 0 (-1) f.(b_len) b))) psrc)
  | Some _ => undefS OutOfBounds
  end.

(** ** Moving data inside the buffer *)

(** [memmove (buffer, buffer + from, n * sizeof (float))]. *)
Definition memmove_down (b : list float) (from n : Z) : SM (list float) :=
  if (0 <=? n) && (0 <=? from) && (from + n <=? zlen b) then
    liftS (buf_write b 0 (take (Z.to_nat n) (drop (Z.to_nat from) b)))
  else undefS OutOfBounds.

(** [n] floats from the address [a]. *)
Fixpoint load_floats (n : nat) (a : Z) : SM (list float) :=
  match n with
  | O => retS []
  | S n' => let! v := loadf a in let! l := load_floats n' (a + 1) in retS (v :: l)
  end.

(** [memcpy (buffer + at, src, n * sizeof (float))]; a negative [n] is a
    number of bytes beyond any object. *)
Definition memcpy_in (b : list float) (at_ src n : Z) : SM (list float) :=
  if n <? 0 then undefS OutOfBounds
  else let! l := load_floats (Z.to_nat n) src in liftS (buf_write b at_ l).

(** The data from [half] before [b_current] on goes to the start of the buffer. *)
Definition move_down (half : Z) (f : SINC_FILTER) : SM SINC_FILTER :=
  let len := f.(b_end) - f.(b_current) in
  let! b := memmove_down f.(buffer) (f.(b_current) - half) (half + len) in
  retS (set_window half (half + len) (set_buffer b f)).

(** The first part of [prepare_data]: where to load, and how much at most. *)
Definition prepare_room (half : Z) (f : SINC_FILTER) : SM (Z * SINC_FILTER) :=
  if f.(b_current) =? 0 then
    retS (f.(b_len) - 2 * half, set_window half half f)
  else if f.(b_end) + half + f.(s_channels) <? f.(b_len) then
    retS (Z.max (f.(b_len) - f.(b_current) - half) 0, f)
  else
    let! f := move_down half f in
    retS (Z.max (f.(b_len) - f.(b_current) - half) 0, f).

(** The last part: silence behind the last data. *)
Definition prepare_end (half : Z) (f : SINC_FILTER) : SM SINC_FILTER :=
  let! f := (if f.(b_len) - f.(b_end) <? half + 5 then move_down half f else retS f) in
  let f := set_real_end f.(b_end) f in
  let len := half + 5 in
  let! b := fill f.(buffer) f.(b_end) len (dbl 0) in
  retS (set_window f.(b_current) (f.(b_end) + len) (set_buffer b f)).

Definition prepare_data (f : SINC_FILTER) (data : SRC_DATA) (half : Z) : SM SINC_FILTER :=
  if 0 <=? f.(b_real_end) then retS f
  else
    let! '(len, f) := prepare_room half f in
    let len := Z.min (f.(s_in_count) - f.(s_in_used)) len in
    if f.(s_channels) =? 0 then undefS DivByZero else
    let len := len - Z.rem len f.(s_channels) in
    let! b := memcpy_in f.(buffer) f.(b_end) (data.(data_in) + f.(s_in_used)) len in
    let f := set_used (f.(s_in_used) + len) (set_window f.(b_current) (f.(b_end) + len) (set_buffer b f)) in
    if (f.(s_in_used) =? f.(s_in_count)) && (f.(b_end) - f.(b_current) <? 2 * half) &&
       negb (data.(end_of_input) =? 0)
    then prepare_end half f
    else retS f.

(** ** The filter *)

(** One of the two [do ... while] loops of [calc_output]: [step] is added to
    [data_index] and [more] is the condition of the loop. *)
Fixpoint half_filter (n : nat) (f : SINC_FILTER) (inc step : Z) (more : Z -> bool)
    (filter_index data_index : Z) (acc : double) : SM double :=
  match n with
  | O => undefS NoFuel
  | S n' =>
      let fraction := fp_to_double filter_index in
      let indx := fp_to_int filter_index in
      let! c0 := geta f.(s_coeffs) indx in
      let! c1 := geta f.(s_coeffs) (indx + 1) in
      let icoeff := to_double c0 .+ fraction .* to_double (fsub c1 c0) in
      let! v := geta f.(buffer) data_index in
      let acc := acc .+ icoeff .* to_double v in
      let! filter_index := long (filter_index - inc) in
      let data_index := data_index + step in
      if more filter_index then half_filter n' f inc step more filter_index data_index acc
      else retS acc
  end.

(** Rounds enough for either loop: the index falls by [inc] in each; an
    [inc] that is not positive leads out of the table. *)
Definition half_fuel (f : SINC_FILTER) (filter_index inc : Z) : nat :=
  if 0 <? inc then Z.to_nat (filter_index / inc) + 2
  else Z.to_nat (zlen f.(s_coeffs) * 4096) + 2.

Definition calc_output (f : SINC_FILTER) (inc start_filter_index ch : Z) : SM double :=
  let! max_filter_index := int_to_fp f.(coeff_half_len) in
  if inc =? 0 then undefS DivByZero else
  (* the left half *)
  let! d := long (max_filter_index - start_filter_index) in
  let coeff_count := Z.quot d inc in
  let! filter_index := long (start_filter_index + coeff_count * inc) in
  let! data_index := long (f.(b_current) - f.(s_channels) * coeff_count + ch) in
  let! left := half_filter (half_fuel f filter_index inc) f inc f.(s_channels) (fun i => 0 <=? i)
                 filter_index data_index (dbl 0) in
  (* the right half *)
  let! filter_index := long (inc - start_filter_index) in
  let! d := long (max_filter_index - filter_index) in
  let coeff_count := Z.quot d inc in
  let! filter_index := long (filter_index + coeff_count * inc) in
  let! data_index := long (f.(b_current) + f.(s_channels) * (1 + coeff_count) + ch) in
  let! right := half_filter (half_fuel f filter_index inc) f inc (- f.(s_channels)) (fun i => 0 <? i)
                  filter_index data_index (dbl 0) in
  retS (left .+ right).

(** ** Processing *)

(** [b_current = (b_current + channels * lrint (input_index - rem)) % b_len]. *)
Definition advance (f : SINC_FILTER) (input_index : double) : SM (SINC_FILTER * double) :=
  let! rem := liftS (fmod_one input_index) in
  let! k := liftS (lrint (input_index .- rem)) in
  let! step := long (f.(s_channels) * k) in
  let! c := long (f.(b_current) + step) in
  if f.(b_len) =? 0 then undefS DivByZero
  else retS (set_window (Z.rem c f.(b_len)) f.(b_end) f, rem).

(** [(b_end - b_current + b_len) % b_len]. *)
Definition samples_in_hand (f : SINC_FILTER) : Z :=
  Z.rem (f.(b_end) - f.(b_current) + f.(b_len)) f.(b_len).

(** [for (ch = 0 ; ch < channels ; ch++)] of the main loop. *)
Fixpoint sinc_emit (n : nat) (ch : Z) (data : SRC_DATA) (scale : double) (inc start : Z)
    (f : SINC_FILTER) : SM SINC_FILTER :=
  match n with
  | O => retS f
  | S n' =>
      let! v := calc_output f inc start ch in
      let! _ := storef (data.(data_out) + f.(s_out_gen)) (to_float (scale .* v)) in
      let! g := long (f.(s_out_gen) + 1) in
      sinc_emit n' (ch + 1) data scale inc start (set_gen g f)
  end.

(** The ratio of a round. *)
Definition sinc_ratio (psrc : SRC_PRIVATE) (data : SRC_DATA) (f : SINC_FILTER) (q : double) : double :=
  if (0 <? f.(s_out_count)) &&
     (dbl 1 ./ dbl (10 ^ 10) .< fabs (psrc.(last_ratio) .- data.(src_ratio)))
  then psrc.(last_ratio) .+
         dbl f.(s_out_gen) .* (data.(src_ratio) .- psrc.(last_ratio)) ./ dbl f.(s_out_count)
  else q.

Fixpoint sinc_loop (n : nat) (psrc : SRC_PRIVATE) (data : SRC_DATA) (half : Z) (terminate : double)
    (f : SINC_FILTER) (q input_index : double) : SM (SINC_FILTER * double * double) :=
  match n with
  | O => undefS NoFuel
  | S n' =>
      if negb (f.(s_out_gen) <? f.(s_out_count)) then retS (f, q, input_index)
      else
        let! f := (if samples_in_hand f <=? half then prepare_data f data half else retS f) in
        if samples_in_hand f <=? half then retS (f, q, input_index)
        else if (0 <=? f.(b_real_end)) &&
                (dbl f.(b_real_end) .<= dbl f.(b_current) .+ input_index .+ terminate)
        then retS (f, q, input_index)
        else
          let q := sinc_ratio psrc data f q in
          let float_increment :=
            if q .< dbl 1 then dbl f.(index_inc) .* q else dbl f.(index_inc) .* dbl 1 in
          let! inc := double_to_fp float_increment in
          let! start := double_to_fp (input_index .* float_increment) in
          let! f := sinc_emit (Z.to_nat f.(s_channels)) 0 data (float_increment ./ dbl f.(index_inc))
                      inc start f in
          let! '(f, rem) := advance f (input_index .+ dbl 1 ./ q) in
          sinc_loop n' psrc data half terminate f q rem
  end.

Definition dmin (x y : double) : double := if x .< y then x else y.

(** [half_filter_chan_len]. *)
Definition half_filter_chan_len (psrc : SRC_PRIVATE) (data : SRC_DATA) (f : SINC_FILTER) : SM Z :=
  let count := (dbl f.(coeff_half_len) .+ dbl 2) ./ dbl f.(index_inc) in
  let low := dmin psrc.(last_ratio) data.(src_ratio) in
  let count := if low .< dbl 1 then count ./ low else count in
  let! n := liftS (lrint count) in
  long (f.(s_channels) * (n + 1)).

Definition sinc_vari_process (psrc : SRC_PRIVATE) (data : SRC_DATA)
    : SM (Z * SRC_PRIVATE * SRC_DATA) :=
  match psrc.(private_data) with
  | None => retS (SRC_ERR_NO_PRIVATE, psrc, data)
  | Some (SincF f) =>
      let! ic := long (data.(input_frames) * f.(s_channels)) in
      let! oc := long (data.(output_frames) * f.(s_channels)) in
      let f := set_io ic 0 oc 0 f in
      let! half := half_filter_chan_len psrc data f in
      let! '(f, input_index) := advance f psrc.(last_position) in
      let terminate := dbl 1 ./ psrc.(last_ratio) .+ dbl 1 ./ dbl (10 ^ 20) in
      let! '(f, q, input_index) :=
        sinc_loop (Datatypes.S (Z.to_nat oc)) psrc data half terminate f psrc.(last_ratio) input_index in
      if f.(s_channels) =? 0 then undefS DivByZero else
      retS (SRC_ERR_NO_ERROR,
            set_private (Some (SincF f)) (set_position q input_index psrc),
            set_counts (Z.quot f.(s_in_used) f.(s_channels)) (Z.quot f.(s_out_gen) f.(s_channels)) data)
  | Some _ => undefS OutOfBounds
  end.

(** ** Set-up *)

(** [for (bits = 0 ; (1 << bits) < count ; bits++) count |= (1 << bits)]. *)
Fixpoint count_bits (n : nat) (bits count : Z) : SM Z :=
  match n with
  | O => undefS NoFuel
  | S n' =>
      let! b := long (1 .<< bits) in
      if b <? count then count_bits n' (bits + 1) (count .| b) else retS bits
  end.

(** The size of the structure: 68 bytes before [buffer], 72 in all. *)
Definition sinc_size (n : Z) : Z := u32 (72 + u32 (4 * n)).

Section Converter.
Context {C : Calloc} (fastest_coeffs slow_mid_qual_coeffs slow_high_qual_coeffs : coeff_table).

Definition sinc_coeffs (src_enum : Z) : option coeff_table :=
  if src_enum =? SRC_SINC_FASTEST then Some fastest_coeffs
  else if src_enum =? SRC_SINC_MEDIUM_QUALITY then Some slow_mid_qual_coeffs
  else if src_enum =? SRC_SINC_BEST_QUALITY then Some slow_high_qual_coeffs
  else None.

(** [b_len] for a table. *)
Definition sinc_b_len (half_len inc nch : Z) : SM Z :=
  let! k := liftS (lrint (dbl 1 ./ dbl 2 .+
              dbl (2 * half_len) ./ (dbl inc .* dbl 1) .* dbl SRC_MAX_RATIO)) in
  let! n := long (1000 + 2 * k) in
  long (Z.min n 4096 * nch).

Definition sinc_set_converter (psrc : SRC_PRIVATE) (src_enum : Z) : SM (Z * SRC_PRIVATE) :=
  if 32 - 1 <=? SHIFT_BITS then retS (SRC_ERR_SHIFT_BITS, psrc)
  else
    let! psrc := drop_foreign SINC_MAGIC_MARKER psrc in
    let psrc := set_process sinc_vari_process_p sinc_reset_p psrc in
    match sinc_coeffs src_enum with
    | None => retS (SRC_ERR_BAD_CONVERTER, psrc)
    | Some t =>
        let nch := psrc.(psrc_channels) in
        let half_len := zlen t.(coeffs) - 1 in
        let! blen := sinc_b_len half_len t.(increment) nch in
        let size := sinc_size (blen + nch) in
        let! ok := calloc size in
        if negb ok then retS (SRC_ERR_MALLOC_FAILED, psrc)
        else if size <? 72 then undefS OutOfBounds
        else
          let f := Sinc SINC_MAGIC_MARKER nch 0 0 0 0 half_len t.(increment) (dbl 0) (dbl 0)
                     t.(coeffs) 0 0 0 blen (repeat (dbl 0) (Z.to_nat ((size - 68) / 4))) in
          let! psrc := sinc_reset (set_private (Some (SincF f)) psrc) in
          let! bits := count_bits 32 0 half_len in
          if 32 <=? bits + SHIFT_BITS - 1 then retS (SRC_ERR_FILTER_LEN, psrc)
          else retS (SRC_ERR_NO_ERROR, psrc)
    end.

End Converter.
