(* ===== verification/SampleRate.v ===== *)
(** * SampleRate: the interface of libsamplerate

    samplerate.c.  A converter is an [option SRC_PRIVATE], [None] for a NULL
    pointer; a function that changes it returns it with its result.  The
    function behind a function pointer is found by [call_process] and
    [call_reset].  The callback of the user is the parameter [callback]: given
    the function and the user's data it returns a number of frames and the
    address it stored through its second argument. *)

From S2P Require Import Prelude SrcFloat SrcCommon SrcHold SrcSinc.

(** [ratio < (1.0 / SRC_MAX_RATIO) || ratio > (1.0 * SRC_MAX_RATIO)]. *)
Definition is_bad_src_ratio (r : double) : bool :=
  (r .< dbl 1 ./ dbl SRC_MAX_RATIO) || (dbl 1 .* dbl SRC_MAX_RATIO .< r).

(** ** Function pointers *)

Definition call_process (p : process_t) : SRC_PRIVATE -> SRC_DATA -> SM (Z * SRC_PRIVATE * SRC_DATA) :=
  match p with
  | sinc_vari_process_p => sinc_vari_process
  | zoh_vari_process_p => zoh_vari_process
  | linear_vari_process_p => linear_vari_process
  end.

Definition call_reset (r : reset_t) : SRC_PRIVATE -> SM SRC_PRIVATE :=
  match r with
  | sinc_reset_p => sinc_reset
  | zoh_reset_p => zoh_reset
  | linear_reset_p => linear_reset
  end.

(** ** Reset, delete, set_ratio *)

Definition src_reset (state : option SRC_PRIVATE) : SM (Z * option SRC_PRIVATE) :=
  match state with
  | None => retS (SRC_ERR_BAD_STATE, None)
  | Some psrc =>
      let! psrc := match psrc.(reset) with Some r => call_reset r psrc | None => retS psrc end in
      retS (SRC_ERR_NO_ERROR,
            Some (set_error SRC_ERR_NO_ERROR (set_saved 0 0 (set_position (dbl 0) (dbl 0) psrc))))
  end.

(** Always returns NULL; what is left is the memory. *)
Definition src_delete (state : option SRC_PRIVATE) : SM (option SRC_PRIVATE) :=
  match state with
  | None => retS None
  | Some psrc =>
      let! _ := match psrc.(private_data) with Some _ => freeS | None => retS tt end in
      let! _ := freeS in
      retS None
  end.

Definition no_process (psrc : SRC_PRIVATE) : bool :=
  match psrc.(vari_process), psrc.(const_process) with Some _, Some _ => false | _, _ => true end.

Definition src_set_ratio (state : option SRC_PRIVATE) (new_ratio : double) : Z * option SRC_PRIVATE :=
  match state with
  | None => (SRC_ERR_BAD_STATE, None)
  | Some psrc =>
      if no_process psrc then (SRC_ERR_BAD_PROC_PTR, state)
      else if is_bad_src_ratio new_ratio then (SRC_ERR_BAD_SRC_RATIO, state)
      else (SRC_ERR_NO_ERROR, Some (set_position new_ratio psrc.(last_position) psrc))
  end.

(** ** Processing *)

(** The arrays overlap, by the comparison of addresses the code makes. *)
Definition data_overlap (psrc : SRC_PRIVATE) (data : SRC_DATA) : SM bool :=
  if data.(data_in) <? data.(data_out) then
    let! n := long (data.(input_frames) * psrc.(psrc_channels)) in
    retS (data.(data_out) <? data.(data_in) + n)
  else
    let! n := long (data.(output_frames) * psrc.(psrc_channels)) in
    retS (data.(data_in) <? data.(data_out) + n).

Definition src_process (state : option SRC_PRIVATE) (data : option SRC_DATA)
    : SM (Z * option SRC_PRIVATE * option SRC_DATA) :=
  match state with
  | None => retS (SRC_ERR_BAD_STATE, state, data)
  | Some psrc =>
  match psrc.(vari_process), psrc.(const_process) with
  | Some vari, Some const =>
      if negb (psrc.(mode) =? SRC_MODE_PROCESS) then retS (SRC_ERR_BAD_MODE, state, data) else
      match data with
      | None => retS (SRC_ERR_BAD_DATA, state, data)
      | Some d =>
      if is_bad_src_ratio d.(src_ratio) then retS (SRC_ERR_BAD_SRC_RATIO, state, data) else
      if (d.(data_in) =? 0) || (d.(data_out) =? 0) then retS (SRC_ERR_BAD_DATA_PTR, state, data) else
      let d := if d.(data_in) =? 0 then set_frames 0 d.(output_frames) d else d in
      let d := if d.(input_frames) <? 0 then set_frames 0 d.(output_frames) d else d in
      let d := if d.(output_frames) <? 0 then set_frames d.(input_frames) 0 d else d in
      let! overlap := data_overlap psrc d in
      if overlap then retS (SRC_ERR_DATA_OVERLAP, state, Some d) else
      let d := set_counts 0 0 d in
      let psrc := if psrc.(last_ratio) .< dbl 1 ./ dbl SRC_MAX_RATIO
                  then set_position d.(src_ratio) psrc.(last_position) psrc else psrc in
      let process := if fabs (psrc.(last_ratio) .- d.(src_ratio)) .< dbl 1 ./ dbl (10 ^ 15)
                     then const else vari in
      let! '(error, psrc, d) := call_process process psrc d in
      retS (error, Some psrc, Some d)
      end
  | _, _ => retS (SRC_ERR_BAD_PROC_PTR, state, data)
  end
  end.

Section Callback.
Context (callback : Z -> Z -> SM (Z * Z)).

(** The input of a round: [callback_func (user_callback_data, &ptr)] when
    there is none left. *)
Definition refill (psrc : SRC_PRIVATE) (func : Z) (d : SRC_DATA) : SM SRC_DATA :=
  if d.(input_frames) =? 0 then
    let! '(n, ptr) := callback func psrc.(user_callback_data) in
    let d := set_frames n d.(output_frames) (set_ptrs ptr d.(data_out) d) in
    retS (if n =? 0 then set_eoi 1 d else d)
  else retS d.

(** The [while] loop: the number of frames, the error, the state and the data. *)
Fixpoint callback_loop (n : nat) (psrc : SRC_PRIVATE) (func : Z) (d : SRC_DATA) (frames total : Z)
    : SM (Z * Z * SRC_PRIVATE * SRC_DATA) :=
  match n with
  | O => undefS NoFuel
  | S n' =>
      if negb (total <? frames) then retS (total, 0, psrc, d)
      else
        let! d := refill psrc func d in
        let! '(error, st, od) := src_process (Some (set_mode SRC_MODE_PROCESS psrc)) (Some d) in
        match st, od with
        | Some psrc, Some d =>
            let psrc := set_mode SRC_MODE_CALLBACK psrc in
            if negb (error =? 0) then retS (total, error, psrc, d)
            else
              let! iu := long (d.(input_frames_used) * psrc.(psrc_channels)) in
              let! og := long (d.(output_frames_gen) * psrc.(psrc_channels)) in
              let d := set_ptrs (d.(data_in) + iu) (d.(data_out) + og) d in
              let d := set_frames (d.(input_frames) - d.(input_frames_used))
                         (d.(output_frames) - d.(output_frames_gen)) d in
              let! total := long (total + d.(output_frames_gen)) in
              if (d.(end_of_input) =? SRC_TRUE) && (d.(output_frames_gen) =? 0)
              then retS (total, 0, psrc, d)
              else callback_loop n' psrc func d frames total
        | _, _ => undefS NullDeref
        end
  end.

Definition src_callback_read (n : nat) (state : option SRC_PRIVATE) (ratio : double) (frames data : Z)
    : SM (Z * option SRC_PRIVATE) :=
  match state with
  | None => retS (0, None)
  | Some psrc =>
      if frames <=? 0 then retS (0, state)
      else if negb (psrc.(mode) =? SRC_MODE_CALLBACK) then
        retS (0, Some (set_error SRC_ERR_BAD_MODE psrc))
      else
        match psrc.(callback_func) with
        | None => retS (0, Some (set_error SRC_ERR_NULL_CALLBACK psrc))
        | Some func =>
            if is_bad_src_ratio ratio then retS (0, Some (set_error SRC_ERR_BAD_SRC_RATIO psrc))
            else
              let d := SrcData psrc.(saved_data) data psrc.(saved_frames) frames 0 0 0 ratio in
              let! '(total, error, psrc, d) := callback_loop n psrc func d frames 0 in
              let psrc := set_saved d.(input_frames) d.(data_in) psrc in
              if negb (error =? 0) then retS (0, Some (set_error error psrc))
              else retS (total, Some psrc)
        end
  end.

End Callback.

(** ** Names and errors *)

Definition first_some (a b c : option (list Z)) : option (list Z) :=
  match a with Some _ => a | None => match b with Some _ => b | None => c end end.

Definition src_get_name (converter_type : Z) : option (list Z) :=
  first_some (sinc_get_name converter_type) (zoh_get_name converter_type)
    (linear_get_name converter_type).

Definition src_get_description (converter_type : Z) : option (list Z) :=
  first_some (sinc_get_description converter_type) (zoh_get_description converter_type)
    (linear_get_description converter_type).

Definition src_get_version : list Z :=
  lit "libsamplerate" ++ lit "-" ++ lit "0.1.3" ++ lit " (c) 2002-2008 Erik de Castro Lopo".

Definition src_is_valid_ratio (r : double) : Z :=
  if is_bad_src_ratio r then SRC_FALSE else SRC_TRUE.

Definition src_error (state : option SRC_PRIVATE) : Z :=
  match state with Some psrc => psrc.(error) | None => SRC_ERR_NO_ERROR end.

Definition src_strerror (error : Z) : option (list Z) :=
  if error =? SRC_ERR_NO_ERROR then Some (lit "No error.")
  else if error =? SRC_ERR_MALLOC_FAILED then Some (lit "Malloc failed.")
  else if error =? SRC_ERR_BAD_STATE then Some (lit "SRC_STATE pointer is NULL.")
  else if error =? SRC_ERR_BAD_DATA then Some (lit "SRC_DATA pointer is NULL.")
  else if error =? SRC_ERR_BAD_DATA_PTR then Some (lit "SRC_DATA->data_out is NULL.")
  else if error =? SRC_ERR_NO_PRIVATE then Some (lit "Internal error. No private data.")
  else if error =? SRC_ERR_BAD_SRC_RATIO then Some (lit "SRC ratio outside [1/12, 12] range.")
  else if error =? SRC_ERR_BAD_SINC_STATE then
    Some (lit "src_process() called without reset after end_of_input.")
  else if error =? SRC_ERR_BAD_PROC_PTR then Some (lit "Internal error. No process pointer.")
  else if error =? SRC_ERR_SHIFT_BITS then Some (lit "Internal error. SHIFT_BITS too large.")
  else if error =? SRC_ERR_FILTER_LEN then Some (lit "Internal error. Filter length too large.")
  else if error =? SRC_ERR_BAD_CONVERTER then Some (lit "Bad converter number.")
  else if error =? SRC_ERR_BAD_CHANNEL_COUNT then Some (lit "Channel count must be >= 1.")
  else if error =? SRC_ERR_SINC_BAD_BUFFER_LEN then
    Some (lit "Internal error. Bad buffer length. Please report this.")
  else if error =? SRC_ERR_SIZE_INCOMPATIBILITY then
    Some (lit "Internal error. Input data / internal buffer size difference. Please report this.")
  else if error =? SRC_ERR_BAD_PRIV_PTR then
    Some (lit "Internal error. Private pointer is NULL. Please report this.")
  else if error =? SRC_ERR_DATA_OVERLAP then Some (lit "Input and output data arrays overlap.")
  else if error =? SRC_ERR_BAD_CALLBACK then Some (lit "Supplied callback function pointer is NULL.")
  else if error =? SRC_ERR_BAD_MODE then
    Some (lit "Calling mode differs from initialisation mode (ie process v callback).")
  else if error =? SRC_ERR_NULL_CALLBACK then
    Some (lit "Callback function pointer is NULL in src_callback_read ().")
  else if error =? SRC_ERR_NO_VARIABLE_RATIO then
    Some (lit "This converter only allows constant conversion ratios.")
  else if error =? SRC_ERR_MAX_ERROR then
    Some (lit "Placeholder. No error defined for this error number.")
  else None.

(** ** Construction *)

Section New.
Context {C : Calloc} (fastest_coeffs slow_mid_qual_coeffs slow_high_qual_coeffs : coeff_table).

Definition psrc_set_converter (psrc : SRC_PRIVATE) (converter_type : Z) : SM (Z * SRC_PRIVATE) :=
  let! '(e, psrc) := sinc_set_converter fastest_coeffs slow_mid_qual_coeffs slow_high_qual_coeffs
                       psrc converter_type in
  if e =? SRC_ERR_NO_ERROR then retS (SRC_ERR_NO_ERROR, psrc) else
  let! '(e, psrc) := zoh_set_converter psrc converter_type in
  if e =? SRC_ERR_NO_ERROR then retS (SRC_ERR_NO_ERROR, psrc) else
  let! '(e, psrc) := linear_set_converter psrc converter_type in
  if e =? SRC_ERR_NO_ERROR then retS (SRC_ERR_NO_ERROR, psrc) else
  retS (SRC_ERR_BAD_CONVERTER, psrc).

(** [sizeof (SRC_PRIVATE)]: two doubles, three ints and eight pointers or longs. *)
Definition SIZEOF_SRC_PRIVATE : Z := 64.

(** The state and what is stored through [error], unless that is NULL. *)
Definition src_new (converter_type nch : Z) : SM (option SRC_PRIVATE * Z) :=
  if nch <? 1 then retS (None, SRC_ERR_BAD_CHANNEL_COUNT)
  else
    let! ok := calloc SIZEOF_SRC_PRIVATE in
    if negb ok then retS (None, SRC_ERR_MALLOC_FAILED)
    else
      let psrc := set_mode SRC_MODE_PROCESS (set_channels nch psrc_zero) in
      let! '(e, psrc) := psrc_set_converter psrc converter_type in
      let! '(state, err) :=
        (if negb (e =? SRC_ERR_NO_ERROR)
         then let! _ := freeS in retS (None, SRC_ERR_BAD_CONVERTER)
         else retS (Some psrc, SRC_ERR_NO_ERROR)) in
      let! '(_, state) := src_reset state in
      retS (state, err).

Definition src_callback_new (func : option Z) (converter_type nch cb_data : Z)
    : SM (option SRC_PRIVATE * Z) :=
  match func with
  | None => retS (None, SRC_ERR_BAD_CALLBACK)
  | Some _ =>
      let! '(state, err) := src_new converter_type nch in
      let! '(_, state) := src_reset state in
      match state with
      | None => undefS NullDeref
      | Some psrc => retS (Some (set_callback func cb_data (set_mode SRC_MODE_CALLBACK psrc)), err)
      end
  end.

Definition src_simple (data : SRC_DATA) (converter nch : Z) : SM (Z * SRC_DATA) :=
  let! '(state, err) := src_new converter nch in
  match state with
  | None => retS (err, data)
  | Some _ =>
      let data := set_eoi 1 data in
      let! '(err, state, od) := src_process state (Some data) in
      let! _ := src_delete state in
      match od with Some data => retS (err, data) | None => undefS NullDeref end
  end.

End New.

(** ** Conversions of arrays *)

(** [while (len) { len -- ; out [len] = f (in [len]) ; }] on arrays of [A] and
    [B]; an index below 0 is outside the arrays. *)
Fixpoint convert_loop {A B} (f : A -> outcome B) (inp : list A) (out : list B) (len : nat)
    : outcome (list B) :=
  match len with
  | O => Ret out
  | S len' =>
      match inp !! len', out !! len' with
      | Some x, Some _ => do y <- f x; convert_loop f inp (<[len' := y]> out) len'
      | _, _ => UB OutOfBounds
      end
  end.

Definition convert_array {A B} (f : A -> outcome B) (inp : list A) (out : list B) (len : Z)
    : outcome (list B) :=
  if len <? 0 then UB OutOfBounds else convert_loop f inp out (Z.to_nat len).

(** [config.h]: the processor clips negative but not positive numbers. *)
Definition CPU_CLIPS_POSITIVE : Z := 0.
Definition CPU_CLIPS_NEGATIVE : Z := 1.

Definition short_to_float (x : Z) : float := to_float (dbl x ./ (dbl 1 .* dbl 32768)).
Definition int_to_float (x : Z) : float := to_float (dbl x ./ (dbl 8 .* dbl 268435456)).

(** The scaled value, and the two tests of the conversions from [float]. *)
Definition scaled (x : float) : double := to_double x .* (dbl 8 .* dbl 268435456).
Definition clips_high (v : double) : bool :=
  (CPU_CLIPS_POSITIVE =? 0) && (dbl 1 .* dbl 2147483647 .<= v).
Definition clips_low (v : double) : bool :=
  (CPU_CLIPS_NEGATIVE =? 0) && (v .<= dbl (-8) .* dbl 268435456).

Definition float_to_short (x : float) : outcome Z :=
  let v := scaled x in
  if clips_high v then Ret 32767
  else if clips_low v then Ret (-32768)
  else do n <- lrint v; Ret (s16 (n .>> 16)).

Definition float_to_int (x : float) : outcome Z :=
  let v := scaled x in
  if clips_high v then Ret 2147483647
  else if clips_low v then Ret (-1 - 2147483647)
  else lrint v.

Definition src_short_to_float_array (inp : list Z) (out : list float) (len : Z) : outcome (list float) :=
  convert_array (fun x => Ret (short_to_float x)) inp out len.
Definition src_float_to_short_array (inp : list float) (out : list Z) (len : Z) : outcome (list Z) :=
  convert_array float_to_short inp out len.
Definition src_int_to_float_array (inp : list Z) (out : list float) (len : Z) : outcome (list float) :=
  convert_array (fun x => Ret (int_to_float x)) inp out len.
Definition src_float_to_int_array (inp : list float) (out : list Z) (len : Z) : outcome (list Z) :=
  convert_array float_to_int inp out len.
