(* ===== verification/SrcLogic.v ===== *)
(** * SrcLogic: a program logic for the code of libsamplerate

    [Safe out n Q x]: from any memory, the code [x] does not run out of the fuel
    of its loops, and when it completes its result satisfies [Q] and memory is
    the same outside the array of [n] cells at the address [out]; no cell
    appears or disappears.  The rules of the
    elementary operations are hints of the database [safe]. *)

From S2P Require Import Prelude SrcFloat SrcCommon SrcHold SrcSinc.

(** ** Memories that agree outside an array *)

Record agrees (out n : Z) (m m' : smem) : Prop := Agrees {
  agrees_dom : forall a, is_Some (m.(cells) !! a) <-> is_Some (m'.(cells) !! a);
  agrees_out : forall a, ~ (out <= a < out + n) -> m.(cells) !! a = m'.(cells) !! a
}.

#[export] Instance agrees_refl out n : Reflexive (agrees out n).
Proof. by split. Qed.

#[export] Instance agrees_trans out n : Transitive (agrees out n).
Proof.
  intros x y z [D1 O1] [D2 O2]. split; intros a.
  - by rewrite D1.
  - intros Ha. by rewrite O1, O2.
Qed.

Definition Safe {A} (out n : Z) (Q : A -> Prop) (x : SM A) : Prop :=
  forall m, match x m with
            | Ret (a, m') => Q a /\ agrees out n m m'
            | UB u => u <> NoFuel
            end.

Create HintDb safe.

Section Rules.
Context {out n : Z}.

Lemma safe_ret {A} (Q : A -> Prop) a : Q a -> Safe out n Q (retS a).
Proof. intros Ha m. by split. Qed.

Lemma safe_undef {A} (Q : A -> Prop) u : u <> NoFuel -> Safe out n Q (undefS u).
Proof. by intros Hu m. Qed.

Lemma safe_bind {A B} (P : A -> Prop) (Q : B -> Prop) x f :
  Safe out n P x -> (forall a, P a -> Safe out n Q (f a)) -> Safe out n Q (bindS x f).
Proof.
  intros Hx Hf m. unfold bindS. specialize (Hx m). destruct (x m) as [[a m']|u]; [|done].
  destruct Hx as [Ha Hm]. specialize (Hf a Ha m'). destruct (f a m') as [[b m'']|u]; [|done].
  destruct Hf as [Hb Hm']. split; [done|]. by etrans.
Qed.

Lemma safe_mono {A} (P Q : A -> Prop) x : Safe out n P x -> (forall a, P a -> Q a) -> Safe out n Q x.
Proof.
  intros Hx HPQ m. specialize (Hx m). destruct (x m) as [[a m']|u]; [|done].
  destruct Hx. auto.
Qed.

(** Code that does not touch memory. *)
Lemma safe_lift {A} (o : outcome A) (Q : A -> Prop) :
  (forall a, o = Ret a -> Q a) -> o <> UB NoFuel -> Safe out n Q (liftS o).
Proof.
  intros Ha Ho m. unfold liftS. destruct o as [a|u]; cbn; [split; [by apply Ha|done]|congruence].
Qed.

Lemma safe_long x (Q : Z -> Prop) : (is_int x -> Q x) -> Safe out n Q (long x).
Proof.
  intros H. unfold long. case_bool_decide; [apply safe_ret|apply safe_undef]; auto.
Qed.

Lemma safe_load a (Q : float -> Prop) : (forall v, Q v) -> Safe out n Q (loadf a).
Proof. intros H m. unfold loadf. by destruct (_ !! a). Qed.

Lemma safe_store a v (Q : unit -> Prop) : out <= a < out + n -> Q tt -> Safe out n Q (storef a v).
Proof.
  intros Ha HQ m. unfold storef. destruct (cells m !! a) eqn:Ea; [|done]. split; [done|].
  split; intros b; cbn [cells].
  - rewrite lookup_insert_is_Some. destruct (decide (a = b)) as [<-|]; [|naive_solver].
    rewrite Ea. naive_solver.
  - intros Hb. rewrite lookup_insert_ne by (intros ->; tauto). done.
Qed.

Lemma safe_geta l i (Q : float -> Prop) :
  (forall v, 0 <= i < zlen l -> Q v) -> Safe out n Q (geta l i).
Proof.
  intros H. unfold geta, in_range.
  destruct (Z.leb_spec 0 i), (Z.ltb_spec i (zlen l)); cbn;
    [apply safe_ret; auto|apply safe_undef; done..].
Qed.

Lemma safe_seta l i v (Q : list float -> Prop) :
  (forall l', zlen l' = zlen l -> Q l') -> Safe out n Q (seta l i v).
Proof.
  intros H. unfold seta. destruct (in_range _ _); [apply safe_ret|apply safe_undef; done].
  apply H. unfold zlen. by rewrite length_insert.
Qed.

Lemma buf_write_inv {A} (b : list A) o s b' :
  buf_write b o s = Ret b' -> 0 <= o /\ o + zlen s <= zlen b /\ b' = splice b o s.
Proof.
  unfold buf_write. destruct (Z.leb_spec 0 o), (Z.leb_spec (o + zlen s) (zlen b)); [|done..].
  by intros [= <-].
Qed.

Lemma safe_write (b : list float) o s (Q : list float -> Prop) :
  (forall b', zlen b' = zlen b -> Q b') -> Safe out n Q (liftS (buf_write b o s)).
Proof.
  intros H. apply safe_lift.
  - intros b' (H1 & H2 & ->)%buf_write_inv. apply H. by apply zlen_splice.
  - unfold buf_write. by case_match.
Qed.

Lemma safe_fill b i k v (Q : list float -> Prop) :
  (forall b', zlen b' = zlen b -> Q b') -> Safe out n Q (fill b i k v).
Proof. intros H. unfold fill. case_match; [by apply safe_undef|by apply safe_write]. Qed.

Lemma lrint_fuel x : lrint x <> UB NoFuel.
Proof. destruct x; cbn; [done..|]. by case_bool_decide. Qed.

Lemma fmod_one_fuel x : fmod_one x <> UB NoFuel.
Proof.
  unfold fmod_one. pose proof (lrint_fuel x) as H. destruct (lrint x); cbn; [done|congruence].
Qed.

Lemma safe_lrint x (Q : Z -> Prop) : (forall k, is_int k -> Q k) -> Safe out n Q (liftS (lrint x)).
Proof.
  intros H. apply safe_lift; [|apply lrint_fuel]. intros a Ha. apply H.
  destruct x; cbn in Ha; [injection Ha as <-; done|done..|].
  case_bool_decide; [|done]. by injection Ha as <-.
Qed.

Lemma safe_fmod_one x (Q : double -> Prop) : (forall k, Q k) -> Safe out n Q (liftS (fmod_one x)).
Proof. intros H. apply safe_lift; [auto|apply fmod_one_fuel]. Qed.

End Rules.

#[export] Hint Resolve safe_load safe_geta safe_seta safe_fill safe_lrint safe_fmod_one safe_long
  safe_write : safe.

(** Two reads and a value. *)
Lemma reads2 {out n} (x y : SM float) (f : float -> float -> float) :
  Safe out n (fun _ => True) x -> Safe out n (fun _ => True) y ->
  Safe out n (fun _ => True) (let! a := x in let! b := y in retS (f a b)).
Proof.
  intros Hx Hy. eapply safe_bind; [apply Hx|]. intros a _.
  eapply safe_bind; [apply Hy|]. intros b _. by apply safe_ret.
Qed.

(** Whole frames of [c] samples: below [n] there is room for one more. *)
Lemma frame_fits c n g : 0 < c -> (c | n) -> 0 <= g < n -> (c | g) -> g + c <= n.
Proof.
  intros Hc Hn Hg Hdg. assert (Hpos : (c | n - g)) by (by apply Z.divide_sub_r).
  apply Z.divide_pos_le in Hpos; lia.
Qed.

(** ** The two simple converters *)

Section Hold.
Context (psrc : SRC_PRIVATE) (data : SRC_DATA) (h : hold_data).
Context (Hch : 0 < h.(channels)).

Let out := data.(data_out).
Let n := h.(out_count).

(** A sample function only reads. *)
Definition reads (sample : run -> Z -> SM float) : Prop :=
  forall r ch, Safe out n (fun _ => True) (sample r ch).

Lemma emit_safe k : forall ch g sample,
  (forall c, Safe out n (fun _ => True) (sample c)) ->
  0 <= g -> g + Z.of_nat k <= n ->
  Safe out n (fun g' => g' = g + Z.of_nat k) (emit data k ch g sample).
Proof.
  induction k as [|k IH]; intros ch g sample Hs Hg Hk; cbn [emit].
  - apply safe_ret. lia.
  - eapply safe_bind; [apply Hs|]. intros v _.
    eapply (safe_bind (fun _ => True)); [apply safe_store; [unfold out in *; lia|done]|]. intros _ _.
    eapply (safe_bind (fun g' => g' = g + 1)); [by apply safe_long|]. intros g' ->.
    eapply safe_mono; [apply IH; [done|lia..]|]. cbn. lia.
Qed.

(** What holds of the counters in both loops: whole frames. *)
Definition run_ok (r : run) : Prop := 0 <= r.(gen) <= n /\ (h.(channels) | r.(gen)).

Context (Hn : 0 <= n) (Hd : (h.(channels) | n)).

Lemma emit_frame r sample (Q : Z -> Prop) :
  reads sample -> run_ok r -> r.(gen) < n ->
  (r.(gen) + h.(channels) <= n -> (h.(channels) | r.(gen) + h.(channels)) -> Q (r.(gen) + h.(channels))) ->
  Safe out n Q (emit data (Z.to_nat h.(channels)) 0 r.(gen) (sample r)).
Proof.
  intros Hs [Hg Hdg] Hlt HQ. pose proof (frame_fits _ n r.(gen) Hch Hd ltac:(lia) Hdg).
  eapply safe_mono; [apply emit_safe; [intros; apply Hs|lia..]|]. cbn. intros g' ->.
  rewrite Z2Nat.id by lia. apply HQ; [done|].
  apply Z.divide_add_r; [done|apply Z.divide_refl].
Qed.

Lemma first_loop_safe stop sample k : forall r,
  reads sample -> run_ok r -> n - r.(gen) < Z.of_nat k ->
  Safe out n run_ok (first_loop psrc data h stop sample k r).
Proof.
  induction k as [|k IH]; intros r Hs Hr Hk; cbn [first_loop].
  { destruct Hr. lia. }
  destruct (_ && _) eqn:Hc; [|by apply safe_ret].
  destruct (stop _ _); [by apply safe_ret|].
  apply andb_prop in Hc as [_ Hlt%Z.ltb_lt]. fold n in Hlt.
  eapply safe_bind.
  - apply (emit_frame _ _ (fun g => g = r.(gen) + h.(channels) /\ g <= n /\ (h.(channels) | g))); auto.
  - intros g (-> & Hg & Hdg). apply IH; [done| |cbn; lia].
    destruct Hr. split; cbn; [lia|done].
Qed.

Lemma split_index_safe r : run_ok r ->
  Safe out n (fun r' => run_ok r' /\ r'.(gen) = r.(gen)) (split_index h r).
Proof.
  intros Hr. unfold split_index.
  eapply (safe_bind (fun _ => True)); [by auto with safe|]. intros rem _.
  eapply (safe_bind (fun _ => True)); [by auto with safe|]. intros q _.
  eapply (safe_bind (fun _ => True)); [by auto with safe|]. intros st _.
  eapply (safe_bind (fun _ => True)); [by auto with safe|]. intros u _.
  by apply safe_ret.
Qed.

Lemma process_loop_safe sample k : forall r,
  reads sample -> run_ok r -> n - r.(gen) < Z.of_nat k ->
  Safe out n run_ok (process_loop psrc data h sample k r).
Proof.
  induction k as [|k IH]; intros r Hs Hr Hk; cbn [process_loop].
  { destruct Hr. lia. }
  destruct (_ && _) eqn:Hc; [|by apply safe_ret].
  apply andb_prop in Hc as [Hlt%Z.ltb_lt _]. fold n in Hlt.
  eapply safe_bind.
  - apply (emit_frame _ _ (fun g => g = r.(gen) + h.(channels) /\ g <= n /\ (h.(channels) | g))); auto.
  - intros g (-> & Hg & Hdg). eapply safe_bind.
    + apply split_index_safe. destruct Hr. split; cbn; [lia|done].
    + intros r' [Hr' Hg']. apply IH; [done..|]. rewrite Hg'. cbn. lia.
Qed.

Lemma copy_last_safe k : forall ch base l,
  Safe out n (fun l' => zlen l' = zlen l) (copy_last data k ch base l).
Proof.
  induction k as [|k IH]; intros ch base l; cbn [copy_last]; [by apply safe_ret|].
  eapply (safe_bind (fun _ => True)); [by auto with safe|]. intros v _.
  eapply (safe_bind (fun l' => zlen l' = zlen l)); [by auto with safe|]. intros l' Hl.
  eapply safe_mono; [apply IH|]. cbn. congruence.
Qed.

End Hold.

(** ** The contract of a process function *)

Definition nch_of (d : private_t) : Z :=
  match d with
  | Zoh z => z.(channels)
  | Linear l => l.(channels)
  | SincF f => f.(s_channels)
  end.

(** The converter's data belongs to a client with as many channels. *)
Definition src_ok (psrc : SRC_PRIVATE) : Prop :=
  0 < psrc.(psrc_channels) /\
  forall d, psrc.(private_data) = Some d -> nch_of d = psrc.(psrc_channels).

(** What a process function changes of the client. *)
Definition moved (psrc psrc' : SRC_PRIVATE) : Prop :=
  exists d r p, psrc' = set_private d (set_position r p psrc).

(** The counts it reports. *)
Definition counted (d d' : SRC_DATA) : Prop :=
  exists used gen, d' = set_counts used gen d /\
    used <= d.(input_frames) /\ 0 <= gen <= d.(output_frames).

Definition process_post (psrc : SRC_PRIVATE) (d : SRC_DATA) (r : Z * SRC_PRIVATE * SRC_DATA) : Prop :=
  let '(e, psrc', d') := r in
  (e = SRC_ERR_NO_ERROR \/ e = SRC_ERR_NO_PRIVATE) /\ moved psrc psrc' /\ src_ok psrc' /\ counted d d'.

(** A data block that [src_process] passes on. *)
Definition data_ok (d : SRC_DATA) : Prop :=
  0 <= d.(input_frames) /\ 0 <= d.(output_frames) /\
  d.(input_frames_used) = 0 /\ d.(output_frames_gen) = 0.

Lemma counted_refl d : data_ok d -> counted d d.
Proof.
  intros (H1 & H2 & H3 & H4). exists 0, 0. split_and!; [|lia..].
  destruct d; cbn in *. by subst.
Qed.

Lemma quot_frames used frames c : 0 < c -> used <= frames * c -> Z.quot used c <= frames.
Proof.
  intros Hc Hu. destruct (Z.le_gt_cases 0 used).
  - rewrite Z.quot_div_nonneg by lia. apply Z.div_le_upper_bound; lia.
  - pose proof (Z.quot_opp_l (- used) c ltac:(lia)) as E. rewrite Z.opp_involutive in E.
    rewrite E, Z.quot_div_nonneg by lia.
    assert (H0 : 0 <= - used / c) by (apply Z.div_pos; lia).
    destruct (Z.le_gt_cases 0 frames); [lia|].
    assert (- frames <= - used / c) by (apply Z.div_le_lower_bound; nia). lia.
Qed.

Lemma quot_frames_nonneg g c : 0 < c -> 0 <= g -> 0 <= Z.quot g c.
Proof. intros. rewrite Z.quot_div_nonneg by lia. apply Z.div_pos; lia. Qed.

Lemma carry_ok h r : run_ok h r -> 0 < h.(channels) ->
  run_ok h (carry h r) /\ (carry h r).(used) <= h.(in_count).
Proof. intros Hr Hc. unfold carry. destruct (Z.ltb_spec h.(in_count) r.(used)); (split; [exact Hr|cbn; lia]). Qed.

Lemma hold_process_safe stop fs ms psrc h data :
  0 < h.(channels) -> data_ok data ->
  (forall h', reads data h' (fs data h')) -> (forall h', reads data h' (ms data h')) ->
  Safe data.(data_out) (data.(output_frames) * h.(channels))
    (fun '(h', psrc', d') => h'.(channels) = h.(channels) /\ counted data d' /\
       exists r p, psrc' = set_position r p psrc)
    (hold_process stop fs ms psrc h data).
Proof.
  intros Hc (Hi & Ho & _ & _) Hfs Hms. unfold hold_process.
  set (h0 := Hold 0 h.(channels) 0 0 0 (data.(output_frames) * h.(channels)) 0 []).
  eapply (safe_bind (fun _ => True)).
  { destruct (_ =? 0); [by apply safe_ret|].
    eapply safe_mono; [apply (copy_last_safe data h0)|done]. }
  intros lv _. eapply (safe_bind (fun x => x = data.(input_frames) * h.(channels))); [by auto with safe|].
  intros ic ->. eapply (safe_bind (fun x => x = data.(output_frames) * h.(channels))); [by auto with safe|].
  intros oc ->. set (h1 := Hold _ _ _ _ _ _ _ _). cbv zeta.
  assert (Hd : (h1.(channels) | h1.(out_count))) by (cbn; apply Z.divide_factor_r).
  assert (Hn : 0 <= h1.(out_count)) by (cbn; nia).
  change (data.(output_frames) * h.(channels)) with h1.(out_count).
  eapply safe_bind.
  { apply (first_loop_safe psrc data h1 Hc Hd); [apply Hfs| |cbn [gen]; lia].
    split; cbn; [nia|apply Z.divide_0_r]. }
  intros r1 Hr1. eapply safe_bind; [by apply (split_index_safe data h1)|].
  intros r2 [Hr2 _]. eapply safe_bind.
  { apply (process_loop_safe psrc data h1 Hc Hd); [apply Hms|done|]. destruct Hr2. lia. }
  intros r3 Hr3. destruct (carry_ok h1 r3 Hr3 Hc) as [[Hg _] Hu]. set (r4 := carry h1 r3) in *.
  eapply (safe_bind (fun _ => True)).
  { destruct (0 <? _); [|by apply safe_ret].
    eapply safe_mono; [apply (copy_last_safe data h1)|done]. }
  intros lv' _. destruct (_ =? 0); [by apply safe_undef|]. apply safe_ret.
  split_and!; [done| |eauto]. exists (Z.quot r4.(used) h.(channels)), (Z.quot r4.(gen) h.(channels)).
  cbn in Hu, Hg. split_and!; [done|apply quot_frames; lia|apply quot_frames_nonneg; lia|apply quot_frames; lia].
Qed.

Lemma no_private_post psrc d :
  psrc.(private_data) = None -> src_ok psrc -> data_ok d ->
  process_post psrc d (SRC_ERR_NO_PRIVATE, psrc, d).
Proof.
  intros Ep Hok Hd. split_and!; [by right| |done|by apply counted_refl].
  exists None, psrc.(last_ratio), psrc.(last_position). destruct psrc; cbn in *. by subst.
Qed.

Lemma private_post psrc d r p pd d' :
  src_ok psrc -> nch_of pd = psrc.(psrc_channels) -> counted d d' ->
  process_post psrc d (SRC_ERR_NO_ERROR, set_private (Some pd) (set_position r p psrc), d').
Proof.
  intros [Hc _] Hn Hd. split_and!; [by left|by eexists _, _, _| |done].
  split; cbn; [done|]. by intros ? [= <-].
Qed.

Abbreviation ProcessSafe psrc d := (Safe d.(data_out) (d.(output_frames) * psrc.(psrc_channels))
  (process_post psrc d)).

Lemma zoh_process_safe psrc d : src_ok psrc -> data_ok d -> ProcessSafe psrc d (zoh_vari_process psrc d).
Proof.
  intros Hok Hd. pose proof Hok as [Hc Hp]. unfold zoh_vari_process.
  destruct psrc.(private_data) as [[z|l|f]|] eqn:Ep; [|by apply safe_undef..|].
  - specialize (Hp _ eq_refl). cbn in Hp. rewrite <- Hp in *.
    eapply safe_bind; [apply hold_process_safe; [done|done|..]|].
    + intros h' r ch. unfold zoh_first_sample. by auto with safe.
    + intros h' r ch. unfold zoh_main_sample. by auto with safe.
    + intros [[z' psrc'] d'] (Hz & Hcd & r & q & ->). apply safe_ret, private_post; [done| |done].
      cbn. congruence.
  - by apply safe_ret, no_private_post.
Qed.

Lemma linear_process_safe psrc d : src_ok psrc -> data_ok d -> ProcessSafe psrc d (linear_vari_process psrc d).
Proof.
  intros Hok Hd. pose proof Hok as [Hc Hp]. unfold linear_vari_process.
  destruct psrc.(private_data) as [[z|l|f]|] eqn:Ep; [by apply safe_undef| |by apply safe_undef|].
  - specialize (Hp _ eq_refl). cbn in Hp. rewrite <- Hp in *.
    eapply safe_bind; [apply hold_process_safe; [done|done|..]|].
    + intros h' r ch. apply reads2; by auto with safe.
    + intros h' r ch. apply reads2; by auto with safe.
    + intros [[z' psrc'] d'] (Hz & Hcd & r & q & ->). apply safe_ret, private_post; [done| |done].
      cbn. congruence.
  - by apply safe_ret, no_private_post.
Qed.

(** ** The sinc converter *)

(** The members that the buffer code leaves alone. *)
Definition io (f : SINC_FILTER) : Z * Z * Z * Z * list float :=
  (f.(s_channels), f.(s_in_count), f.(s_out_count), f.(s_out_gen), f.(s_coeffs)).

Definition io_kept (f f' : SINC_FILTER) : Prop :=
  io f' = io f /\ (f.(s_in_used) <= f.(s_in_count) -> f'.(s_in_used) <= f'.(s_in_count)).

#[export] Instance io_kept_refl : Reflexive io_kept.
Proof. by split. Qed.

#[export] Instance io_kept_trans : Transitive io_kept.
Proof. intros x y z [H1 H2] [H3 H4]. split; [congruence|auto]. Qed.

Section Sinc.
Context {out n : Z}.

Lemma load_floats_safe k : forall a, Safe out n (fun l => zlen l = Z.of_nat k) (load_floats k a).
Proof.
  induction k as [|k IH]; intros a; cbn [load_floats]; [by apply safe_ret|].
  eapply (safe_bind (fun _ => True)); [by auto with safe|]. intros v _.
  eapply safe_bind; [apply IH|]. intros l Hl. apply safe_ret. rewrite zlen_cons, Hl. lia.
Qed.

Lemma memcpy_in_safe b a src k (Q : list float -> Prop) :
  (forall b', zlen b' = zlen b -> 0 <= k -> Q b') -> Safe out n Q (memcpy_in b a src k).
Proof.
  intros H. unfold memcpy_in. destruct (Z.ltb_spec k 0); [by apply safe_undef|].
  eapply safe_bind; [apply load_floats_safe|]. intros l Hl. apply safe_write. auto.
Qed.

Lemma move_down_safe half f : Safe out n (io_kept f) (move_down half f).
Proof.
  unfold move_down. eapply (safe_bind (fun _ => True)).
  - unfold memmove_down. case_match; [by apply safe_write|by apply safe_undef].
  - intros b _. by apply safe_ret.
Qed.

Lemma prepare_room_safe half f : Safe out n (fun '(_, f') => io_kept f f') (prepare_room half f).
Proof.
  unfold prepare_room. case_match; [by apply safe_ret|]. case_match; [by apply safe_ret|].
  eapply safe_bind; [apply move_down_safe|]. intros f' Hf. by apply safe_ret.
Qed.

Lemma prepare_end_safe half f : Safe out n (io_kept f) (prepare_end half f).
Proof.
  unfold prepare_end. eapply safe_bind.
  - instantiate (1 := io_kept f). case_match; [apply move_down_safe|by apply safe_ret].
  - intros f' Hf. eapply (safe_bind (fun _ => True)); [by auto with safe|]. intros b _. by apply safe_ret.
Qed.

Lemma prepare_data_safe f data half : 0 < f.(s_channels) ->
  Safe out n (io_kept f) (prepare_data f data half).
Proof.
  intros Hc. unfold prepare_data. case_match; [by apply safe_ret|].
  eapply safe_bind; [apply prepare_room_safe|]. intros [len f1] [Hio Hu]. cbv zeta.
  destruct (f1.(s_channels) =? 0); [by apply safe_undef|].
  set (k := Z.min _ _ - Z.rem _ _). eapply (safe_bind (fun _ => 0 <= k)).
  { by apply memcpy_in_safe. }
  intros b Hk. set (f2 := set_used _ _).
  assert (H2 : io_kept f f2).
  { split; [done|]. intros Hf. specialize (Hu Hf). cbn.
    assert (Hle : k <= f1.(s_in_count) - f1.(s_in_used)); [|lia]. subst k.
    set (x := Z.min _ _) in *. injection Hio as E1 _ _ _ _. rewrite E1 in *.
    destruct (Z.le_gt_cases 0 x) as [Hx|Hx].
    - pose proof (Z.rem_nonneg x f.(s_channels) ltac:(lia) Hx). unfold x in *. lia.
    - pose proof (Z.rem_opp_l x f.(s_channels) ltac:(lia)) as Ho.
      pose proof (Z.rem_le (- x) f.(s_channels) ltac:(lia) ltac:(lia)). lia. }
  case_match; [|by apply safe_ret].
  eapply safe_mono; [apply prepare_end_safe|]. cbn. intros f' Hf. by etrans.
Qed.

(** The loops of the filter. *)
Lemma fp_to_int_range i len : 0 <= fp_to_int i < len -> 0 <= i < len * 4096.
Proof.
  unfold fp_to_int, SHIFT_BITS. rewrite Z.shiftr_div_pow2 by lia. change (2 ^ 12) with 4096.
  intros. Z.div_mod_to_equations. lia.
Qed.

Definition fuel_ok (f : SINC_FILTER) (k : nat) (inc i : Z) : Prop :=
  if 0 <? inc then (Z.to_nat (i / inc) + 2 <= k)%nat
  else (1 <= k)%nat /\ (0 <= i -> zlen f.(s_coeffs) * 4096 - i < Z.of_nat k).

Lemma fuel_ok_step f k inc i more :
  inc <> 0 -> (forall j, more j = true -> 0 <= j) -> 0 <= i < zlen f.(s_coeffs) * 4096 ->
  fuel_ok f (Datatypes.S k) inc i -> more (i - inc) = true -> fuel_ok f k inc (i - inc).
Proof.
  unfold fuel_ok. intros Hinc Hm Hi Hk Hmore%Hm. destruct (Z.ltb_spec 0 inc) as [Hp|Hp].
  - replace (i - inc) with (i + (-1) * inc) in * by lia. rewrite Z.div_add by lia.
    assert (0 < i / inc) by (apply Z.div_str_pos; lia). lia.
  - lia.
Qed.

Lemma half_filter_safe f inc step more : inc <> 0 -> (forall j, more j = true -> 0 <= j) ->
  forall k i di acc, fuel_ok f k inc i ->
  Safe out n (fun _ => True) (half_filter k f inc step more i di acc).
Proof.
  intros Hinc Hm. induction k as [|k IH]; intros i di acc Hk; cbn [half_filter].
  { exfalso. unfold fuel_ok in Hk. destruct (0 <? inc); lia. }
  eapply (safe_bind (fun _ => 0 <= fp_to_int i < zlen f.(s_coeffs))); [by auto with safe|].
  intros c0 Hi%fp_to_int_range.
  eapply (safe_bind (fun _ => True)); [by auto with safe|]. intros c1 _.
  eapply (safe_bind (fun _ => True)); [by auto with safe|]. intros v _. cbv zeta.
  eapply (safe_bind (fun j => j = i - inc)); [by auto with safe|]. intros j ->.
  destruct (more (i - inc)) eqn:Hmore; [|by apply safe_ret].
  apply IH. by eapply fuel_ok_step.
Qed.

Lemma half_fuel_ok f i inc : inc <> 0 -> fuel_ok f (half_fuel f i inc) inc i.
Proof.
  intros Hinc. unfold fuel_ok, half_fuel. destruct (Z.ltb_spec 0 inc); [lia|].
  pose proof (zlen_nonneg f.(s_coeffs)). lia.
Qed.

Lemma calc_output_safe f inc start ch : Safe out n (fun _ => True) (calc_output f inc start ch).
Proof.
  unfold calc_output, int_to_fp.
  eapply (safe_bind (fun _ => True)); [by auto with safe|]. intros mx _.
  destruct (Z.eqb_spec inc 0) as [|Hinc]; [by apply safe_undef|].
  do 3 (eapply (safe_bind (fun _ => True)); [by auto with safe|]; intros ? _).
  eapply safe_bind; [apply half_filter_safe; [done|lia|by apply half_fuel_ok]|]. intros l _.
  do 4 (eapply (safe_bind (fun _ => True)); [by auto with safe|]; intros ? _).
  eapply safe_bind; [apply half_filter_safe; [done|lia|by apply half_fuel_ok]|]. intros r _.
  by apply safe_ret.
Qed.

End Sinc.

(** ** The loop of the sinc converter *)

Section SincLoop.
Context (psrc : SRC_PRIVATE) (data : SRC_DATA) (c n ic : Z).
Context (Hc : 0 < c) (Hd : (c | n)).

(** The counters of the loop: whole frames, and input within the array. *)
Record sinc_run (f : SINC_FILTER) : Prop := SincRun {
  run_channels : f.(s_channels) = c;
  run_count : f.(s_out_count) = n;
  run_gen : 0 <= f.(s_out_gen) <= n;
  run_whole : (c | f.(s_out_gen));
  run_in : f.(s_in_count) = ic;
  run_used : f.(s_in_used) <= ic
}.

Abbreviation Out := (Safe data.(data_out) n).

Lemma sinc_run_io f f' : io_kept f f' -> sinc_run f -> sinc_run f' /\ f'.(s_out_gen) = f.(s_out_gen).
Proof.
  intros [Hio Hu] [H1 H2 H3 H4 H5 H6]. injection Hio as E1 E2 E3 E4 E5.
  split; [|done]. split; rewrite ?E1, ?E2, ?E3, ?E4; auto. lia.
Qed.

Lemma sinc_emit_safe k : forall ch scale inc start f,
  0 <= f.(s_out_gen) -> f.(s_out_gen) + Z.of_nat k <= n ->
  Out (fun f' => f' = set_gen (f.(s_out_gen) + Z.of_nat k) f)
    (sinc_emit k ch data scale inc start f).
Proof.
  induction k as [|k IH]; intros ch scale inc start f Hg Hk; cbn [sinc_emit].
  - apply safe_ret. rewrite Z.add_0_r. by destruct f.
  - eapply safe_bind; [apply calc_output_safe|]. intros v _.
    eapply (safe_bind (fun _ => True)); [apply safe_store; [lia|done]|]. intros _ _.
    eapply (safe_bind (fun g => g = f.(s_out_gen) + 1)); [by auto with safe|]. intros g ->.
    eapply safe_mono; [apply IH; cbn; lia|]. cbn. intros f' ->. unfold set_gen, set_io. cbn.
    f_equal. lia.
Qed.

Lemma advance_safe f i : Out (fun '(f', _) => io_kept f f') (advance f i).
Proof.
  unfold advance. eapply (safe_bind (fun _ => True)); [by auto with safe|]. intros rem _.
  do 3 (eapply (safe_bind (fun _ => True)); [by auto with safe|]; intros ? _).
  case_match; [by apply safe_undef|]. by apply safe_ret.
Qed.

Lemma sinc_loop_safe half terminate k : forall f q i,
  sinc_run f -> n - f.(s_out_gen) < Z.of_nat k ->
  Out (fun '(f', _, _) => sinc_run f') (sinc_loop k psrc data half terminate f q i).
Proof.
  induction k as [|k IH]; intros f q i Hf Hk; cbn [sinc_loop].
  { destruct Hf. lia. }
  destruct (Z.ltb_spec f.(s_out_gen) f.(s_out_count)) as [Hlt|]; cbn [negb]; [|by apply safe_ret].
  eapply (safe_bind (io_kept f)).
  { case_match; [|by apply safe_ret]. apply prepare_data_safe. by rewrite (run_channels _ Hf). }
  intros f1 H1. destruct (sinc_run_io _ _ H1 Hf) as [Hf1 Hg1]. rewrite (run_count _ Hf) in Hlt.
  case_match; [by apply safe_ret|]. case_match; [by apply safe_ret|]. cbv zeta.
  unfold double_to_fp. do 2 (eapply (safe_bind (fun _ => True)); [by auto with safe|]; intros ? _).
  destruct Hf1 as [C1 C2 C3 C4 C5 C6]. rewrite C1.
  pose proof (frame_fits c n f1.(s_out_gen) Hc Hd ltac:(lia) C4) as Hfit.
  eapply safe_bind; [apply sinc_emit_safe; lia|]. intros f2 ->. rewrite Z2Nat.id by lia.
  eapply safe_bind; [apply advance_safe|]. intros [f3 rem] H3.
  destruct (sinc_run_io _ _ H3) as [Hf3 Hg3].
  { split; cbn; [done..|lia| |done|done]. apply Z.divide_add_r; [done|apply Z.divide_refl]. }
  apply IH; [done|]. rewrite Hg3. cbn. lia.
Qed.

End SincLoop.

Lemma sinc_process_safe psrc d : src_ok psrc -> data_ok d -> ProcessSafe psrc d (sinc_vari_process psrc d).
Proof.
  intros Hok Hd. pose proof Hok as [Hc Hp]. pose proof Hd as (Hi & Ho & _). unfold sinc_vari_process.
  destruct psrc.(private_data) as [[z|l|f]|] eqn:Ep; [by apply safe_undef..| |].
  2: by apply safe_ret, no_private_post.
  specialize (Hp _ eq_refl). cbn in Hp. rewrite <- Hp in *.
  set (c := f.(s_channels)) in *. set (n := d.(output_frames) * c) in *.
  eapply (safe_bind (fun x => x = d.(input_frames) * c)); [by auto with safe|]. intros ic ->.
  eapply (safe_bind (fun x => x = n)); [by auto with safe|]. intros oc ->. cbv zeta.
  eapply (safe_bind (fun _ => True)).
  { unfold half_filter_chan_len. eapply (safe_bind (fun _ => True)); [by auto with safe|].
    intros k _. by auto with safe. }
  intros half _. eapply safe_bind; [apply advance_safe|]. intros [f1 i1] H1.
  assert (Hn : (c | n)) by apply Z.divide_factor_r.
  assert (R0 : sinc_run c n (d.(input_frames) * c) (set_io (d.(input_frames) * c) 0 n 0 f)).
  { split; cbn; [done|done|nia|apply Z.divide_0_r|done|nia]. }
  destruct (sinc_run_io _ _ _ _ _ H1 R0) as [R1 G1].
  eapply safe_bind; [apply (sinc_loop_safe _ _ c n (d.(input_frames) * c) Hc Hn); [done|rewrite G1; cbn; lia]|].
  intros [[f2 q] i2] [C1 C2 C3 C4 C5 C6]. rewrite C1.
  destruct (_ =? 0); [by apply safe_undef|]. apply safe_ret, private_post; [done|cbn; congruence|].
  eexists _, _. split_and!; [done|by apply quot_frames|apply quot_frames_nonneg; lia|].
  apply quot_frames; [done|]. subst n. lia.
Qed.
