(* ===== verification/SrcProofs.v ===== *)
(** * SrcProofs: what libsamplerate promises its caller

    [Converter] is the contract between samplerate.c and a process function;
    the three converters are its instances, and the theorems about
    [src_process] and [src_callback_read] use nothing else of them. *)

From S2P Require Import Prelude SrcFloat SrcCommon SrcHold SrcSinc SampleRate SrcLogic.

(** ** The interface of a converter *)

Class Converter (p : SRC_PRIVATE -> SRC_DATA -> SM (Z * SRC_PRIVATE * SRC_DATA)) : Prop :=
  process_safe : forall psrc d, src_ok psrc -> data_ok d -> ProcessSafe psrc d (p psrc d).

#[export] Instance zoh_converter : Converter zoh_vari_process.
Proof. exact zoh_process_safe. Qed.
#[export] Instance linear_converter : Converter linear_vari_process.
Proof. exact linear_process_safe. Qed.
#[export] Instance sinc_converter : Converter sinc_vari_process.
Proof. exact sinc_process_safe. Qed.
#[export] Instance called_converter p : Converter (call_process p).
Proof. destruct p; apply _. Qed.

(** ** src_process *)

(** [src_process] reports: an error and no counts of its own, or the counts. *)
Definition src_process_post (psrc : SRC_PRIVATE) (d : SRC_DATA)
    (r : Z * option SRC_PRIVATE * option SRC_DATA) : Prop :=
  exists e psrc' d', r = (e, Some psrc', Some d') /\ moved psrc psrc' /\ src_ok psrc' /\
    d'.(data_in) = d.(data_in) /\ d'.(data_out) = d.(data_out) /\
    d'.(end_of_input) = d.(end_of_input) /\ d'.(src_ratio) = d.(src_ratio) /\
    (e = SRC_ERR_NO_ERROR ->
       d'.(output_frames) = Z.max 0 d.(output_frames) /\ d'.(input_frames) = Z.max 0 d.(input_frames) /\
       d'.(input_frames_used) <= d'.(input_frames) /\
       0 <= d'.(output_frames_gen) <= d'.(output_frames)).

Lemma moved_refl psrc : moved psrc psrc.
Proof. exists psrc.(private_data), psrc.(last_ratio), psrc.(last_position). by destruct psrc. Qed.

Lemma moved_ratio psrc q psrc' :
  moved (set_position q psrc.(last_position) psrc) psrc' -> moved psrc psrc'.
Proof. intros (d & r & p & ->). by exists d, r, p. Qed.

Lemma src_process_safe psrc d : src_ok psrc ->
  Safe d.(data_out) (Z.max 0 d.(output_frames) * psrc.(psrc_channels)) (src_process_post psrc d)
    (src_process (Some psrc) (Some d)).
Proof.
  intros Hok. assert (Herr : forall e d', e <> SRC_ERR_NO_ERROR ->
    (exists a b, d' = set_frames a b d) -> src_process_post psrc d (e, Some psrc, Some d')).
  { intros e d' He (a & b & ->). exists e, psrc, (set_frames a b d).
    split_and!; [done|apply moved_refl|done|done..|]. by intros ->. }
  assert (Hsame : forall e, e <> SRC_ERR_NO_ERROR -> src_process_post psrc d (e, Some psrc, Some d)).
  { intros e He. apply Herr; [done|]. exists d.(input_frames), d.(output_frames). by destruct d. }
  unfold src_process. destruct psrc.(vari_process) as [vari|]; [|by apply safe_ret, Hsame].
  destruct psrc.(const_process) as [const|]; [|by apply safe_ret, Hsame].
  destruct (negb _); [by apply safe_ret, Hsame|].
  destruct (is_bad_src_ratio _); [by apply safe_ret, Hsame|].
  destruct ((_ =? 0) || _) eqn:Hnull; [by apply safe_ret, Hsame|].
  apply orb_false_elim in Hnull as [-> _]. cbv zeta.
  set (d1 := if d.(input_frames) <? 0 then _ else _). set (d2 := if d1.(output_frames) <? 0 then _ else _).
  assert (H2 : d2 = set_frames (Z.max 0 d.(input_frames)) (Z.max 0 d.(output_frames)) d).
  { unfold d2, d1, set_frames. destruct d as [a b i o u g ei q]. cbn.
    destruct (Z.ltb_spec i 0); cbn; destruct (Z.ltb_spec o 0); cbn; f_equal; lia. }
  rewrite H2. clear d1 d2 H2. set (d2 := set_frames _ _ d).
  eapply (safe_bind (fun _ => True)).
  { unfold data_overlap. case_match;
      (eapply (safe_bind (fun _ => True)); [by auto with safe|intros ? _; by apply safe_ret]). }
  intros [|] _; [apply safe_ret, Herr; [done|by eexists _, _]|].
  set (psrc1 := if _ .< _ then _ else psrc).
  assert (H1 : exists q, psrc1 = set_position q psrc.(last_position) psrc).
  { subst psrc1. case_match; [by eexists|]. exists psrc.(last_ratio). by destruct psrc. }
  destruct H1 as (q & ->). set (psrc1 := set_position _ _ _).
  eapply safe_bind.
  - change d.(data_out) with (set_counts 0 0 d2).(data_out).
    change (Z.max 0 d.(output_frames) * psrc.(psrc_channels))
      with ((set_counts 0 0 d2).(output_frames) * psrc1.(psrc_channels)).
    apply process_safe; [exact Hok|]. unfold data_ok. cbn. lia.
  - intros [[e psrc'] d'] (He & Hm%moved_ratio & Hok' & (u & g & -> & Hu & Hg)). apply safe_ret.
    exists e, psrc', (set_counts u g d2). cbn in *. by split_and!.
Qed.

(** [src_process] with any of the three converters, any ratio, any samples
    and any state of a client whose data was made for its number of channels:
    the loops end; when it returns, memory outside the output array of
    [output_frames] frames is as before and no cell was made or lost; the mode,
    the channels and the callback of the client stay as they are; and when no
    error is reported it used at most [input_frames] frames and generated
    between 0 and [output_frames] frames (a negative count is taken as 0). *)
Theorem src_process_contract psrc d m :
  src_ok psrc ->
  src_process (Some psrc) (Some d) m <> UB NoFuel /\
  forall r m', src_process (Some psrc) (Some d) m = Ret (r, m') ->
    src_process_post psrc d r /\
    agrees d.(data_out) (Z.max 0 d.(output_frames) * psrc.(psrc_channels)) m m'.
Proof.
  intros Hok. pose proof (src_process_safe psrc d Hok m) as H.
  destruct (src_process _ _ m) as [[r m']|u].
  - split; [done|]. by intros ? ? [= <- <-].
  - split; [congruence|done].
Qed.

(** A client for one channel with the zero-order-hold converter, and three
    samples at address 10 with room for four at address 20. *)
Definition demo_hold : ZOH_DATA := Hold ZOH_MAGIC_MARKER 1 1 0 0 0 0 [dbl 0; dbl 0].
Definition demo_psrc : SRC_PRIVATE :=
  SrcPrivate (dbl 0) (dbl 0) 0 1 SRC_MODE_PROCESS (Some (Zoh demo_hold))
    (Some zoh_vari_process_p) (Some zoh_vari_process_p) (Some zoh_reset_p) None 0 0 0.
Definition demo_data : SRC_DATA := SrcData 10 20 3 4 0 0 1 (dbl 1).
Definition demo_cells : list (Z * float) :=
  [(10, dbl 5); (11, dbl 6); (12, dbl 7); (20, dbl 0); (21, dbl 0); (22, dbl 0); (23, dbl 0)].
Definition demo_mem : smem := Smem (list_to_map demo_cells) 0 2.

Lemma demo_ok : src_ok demo_psrc.
Proof. split; [done|]. by intros d [= <-]. Qed.

Lemma src_process_contract_witness :
  src_ok demo_psrc /\ src_process (Some demo_psrc) (Some demo_data) demo_mem <> UB NoFuel /\
  forall r m', src_process (Some demo_psrc) (Some demo_data) demo_mem = Ret (r, m') ->
    src_process_post demo_psrc demo_data r /\
    agrees demo_data.(data_out) (Z.max 0 demo_data.(output_frames) * demo_psrc.(psrc_channels)) demo_mem m'.
Proof. split; [exact demo_ok|]. exact (src_process_contract demo_psrc demo_data demo_mem demo_ok). Defined.

(** The output: the first sample twice, then the second and the third. *)
Lemma demo_runs : exists r m', src_process (Some demo_psrc) (Some demo_data) demo_mem = Ret (r, m') /\
  r.1.1 = 0 /\ map (fun a => m'.(cells) !! a) [20; 21; 22; 23] =
    [Some (dbl 5); Some (dbl 5); Some (dbl 6); Some (dbl 7)].
Proof. eexists _, _. split_and!; vm_compute; reflexivity. Qed.

(** ** src_callback_read *)

Section Callback.
Context (callback : Z -> Z -> SM (Z * Z)) (out n : Z).

(** The callback of the user leaves the output array's surroundings alone. *)
Definition callback_ok : Prop :=
  forall f u, Safe out n (fun _ => True) (callback f u).

Context (Hcb : callback_ok).

Lemma safe_within {A} out' n' (Q : A -> Prop) x :
  Safe out' n' Q x -> out <= out' -> out' + n' <= out + n -> Safe out n Q x.
Proof.
  intros Hx H1 H2 m. specialize (Hx m). destruct (x m) as [[a m']|u]; [|done].
  destruct Hx as [Ha [D O]]. split; [done|]. split; [done|]. intros b Hb. apply O. lia.
Qed.

Lemma refill_safe psrc func d :
  Safe out n (fun d' => d'.(data_out) = d.(data_out) /\ d'.(output_frames) = d.(output_frames))
    (refill callback psrc func d).
Proof.
  unfold refill. destruct (_ =? 0); [|by apply safe_ret].
  eapply safe_bind; [apply Hcb|]. intros [k ptr] _. apply safe_ret. by destruct (k =? 0).
Qed.

(** The loop, without the bound of its rounds: what it returns. *)
Lemma callback_loop_spec k : forall psrc func d frames total m r m',
  src_ok psrc -> psrc.(mode) = SRC_MODE_CALLBACK ->
  0 <= total <= frames -> d.(output_frames) = frames - total ->
  out <= d.(data_out) -> d.(data_out) + d.(output_frames) * psrc.(psrc_channels) <= out + n ->
  callback_loop callback k psrc func d frames total m = Ret (r, m') ->
  let '(total', _, psrc', _) := r in
  0 <= total' <= frames /\ psrc'.(mode) = SRC_MODE_CALLBACK /\ src_ok psrc' /\ agrees out n m m'.
Proof.
  induction k as [|k IH]; intros psrc func d frames total m r m' Hok Hmode Ht Hof Hlo Hhi; cbn [callback_loop];
    [done|].
  destruct (Z.ltb_spec total frames) as [Hlt|]; cbn [negb].
  2:{ intros [= <- <-]. split_and!; [lia|lia|done..]. }
  intros (d1 & m1 & H1 & H)%bindS_inv. pose proof (refill_safe psrc func d m) as S1. rewrite H1 in S1.
  destruct S1 as [[Ed Eo] A1].
  apply bindS_inv in H as ([[e st] od] & m2 & H2 & H).
  pose proof (src_process_safe (set_mode SRC_MODE_PROCESS psrc) d1 Hok) as S2.
  apply safe_within in S2; [|lia|cbn; rewrite Ed, Eo, Hof, Z.max_r by lia; lia].
  specialize (S2 m1). rewrite H2 in S2.
  destruct S2 as [(e' & psrc' & d' & [= -> -> ->] & Hm & Hok' & Ei & Eout & _ & _ & Hcnt) A2].
  assert (Hch : psrc'.(psrc_channels) = psrc.(psrc_channels)) by (by destruct Hm as (? & ? & ? & ->)).
  assert (A12 : agrees out n m m2) by (by etrans). cbv zeta in H.
  destruct (Z.eqb_spec e' 0) as [->|]; cbn [negb] in H.
  2:{ injection H as <- <-. split_and!; [lia|lia|done..]. }
  destruct (Hcnt eq_refl) as (Ho & _ & _ & Hg).
  apply bindS_inv in H as (iu & m3 & [[= -> ->] _]%long_inv & H).
  apply bindS_inv in H as (og & m3 & [[= -> ->] _]%long_inv & H).
  apply bindS_inv in H as (tot & m3 & [[= -> ->] _]%long_inv & H).
  cbn [output_frames_gen output_frames input_frames_used set_frames set_ptrs set_mode psrc_channels] in H.
  destruct (_ && _).
  - injection H as <- <-. split_and!; [lia|lia|done|done|done].
  - pose proof Hok' as [Hc' _]. rewrite Eo, Hof, Z.max_r in Ho by lia.
    assert (0 <= d'.(output_frames_gen) * psrc'.(psrc_channels)) by (apply Z.mul_nonneg_nonneg; lia).
    apply IH in H; [|done|done|lia|cbn; lia|cbn; lia|].
    2:{ cbn. rewrite Hch, Eout, Ed, Ho in *. rewrite Hof in Hhi. lia. }
    destruct r as [[[t' e''] p'] d'']. destruct H as (? & ? & ? & ?). split_and!; [lia|lia|done|done|].
    by etrans.
Qed.
End Callback.

(** [src_callback_read] with any converter and any callback that keeps to
    the output array: when it returns, the number of frames is between 0 and the
    number wanted (never the -1 that the header announces for errors), the
    client is in the mode it was in although each round switches it to
    [SRC_MODE_PROCESS], its data still belongs to its channels, and memory
    outside the output array is as before. *)
Theorem src_callback_read_contract callback n psrc ratio frames data m r st m' :
  src_ok psrc -> 0 <= frames -> callback_ok callback data (frames * psrc.(psrc_channels)) ->
  src_callback_read callback n (Some psrc) ratio frames data m = Ret ((r, st), m') ->
  0 <= r <= frames /\
  (exists psrc', st = Some psrc' /\ psrc'.(mode) = psrc.(mode) /\ src_ok psrc') /\
  agrees data (frames * psrc.(psrc_channels)) m m'.
Proof.
  intros Hok Hfr Hcb. unfold src_callback_read.
  destruct (Z.leb_spec frames 0) as [|Hpos]; [intros [= <- <- <-]; split_and!; [lia|lia|by exists psrc|done]|].
  destruct (Z.eqb_spec psrc.(mode) SRC_MODE_CALLBACK) as [Hmode|]; cbn [negb].
  2:{ intros [= <- <- <-]. split_and!; [lia|lia|by eexists|done]. }
  destruct psrc.(callback_func) as [func|].
  2:{ intros [= <- <- <-]. split_and!; [lia|lia|by eexists|done]. }
  destruct (is_bad_src_ratio ratio).
  { intros [= <- <- <-]. split_and!; [lia|lia|by eexists|done]. }
  intros ([[[total e] psrc'] d] & m1 & H1 & H)%bindS_inv.
  apply (callback_loop_spec callback data (frames * psrc.(psrc_channels)) Hcb) in H1;
    [|done|done|lia|cbn; lia|cbn; lia|cbn; lia].
  destruct H1 as (Ht & Hm & Hok' & A). destruct (negb (e =? 0)).
  - injection H as <- <- <-. split_and!; [lia|lia| |done]. eexists. split_and!; [done|cbn; congruence|done].
  - injection H as <- <- <-. split_and!; [lia|lia| |done]. eexists. split_and!; [done|cbn; congruence|done].
Qed.

(** A callback that has one sample at address 10 each time. *)
Definition demo_callback (f u : Z) : SM (Z * Z) := retS (1, 10).
Definition demo_reader : SRC_PRIVATE := set_callback (Some 1) 0 (set_mode SRC_MODE_CALLBACK demo_psrc).

Lemma src_callback_read_contract_witness :
  exists r st m',
    src_callback_read demo_callback 5 (Some demo_reader) (dbl 1) 3 20 demo_mem = Ret ((r, st), m') /\
    0 <= r <= 3 /\ (exists psrc', st = Some psrc' /\ psrc'.(mode) = demo_reader.(mode) /\ src_ok psrc') /\
    agrees 20 (3 * demo_reader.(psrc_channels)) demo_mem m'.
Proof.
  destruct (src_callback_read demo_callback 5 (Some demo_reader) (dbl 1) 3 20 demo_mem)
    as [[[r st] m']|u] eqn:E.
  - exists r, st, m'. split; [done|].
    apply (src_callback_read_contract demo_callback 5 demo_reader (dbl 1) 3 20 demo_mem r st m'); [|lia| |done].
    + split; [done|]. by intros d [= <-].
    + intros f u. by apply safe_ret.
  - exfalso. vm_compute in E. discriminate E.
Defined.
