(* ===== verification/SrcNew.v ===== *)
(** * SrcNew: making and deleting clients of libsamplerate

    The run of [src_new] for the two simple converters with all its outcomes,
    the balance of the blocks it allocates, and the construction of a client
    with a callback. *)

From S2P Require Import Prelude SrcFloat SrcCommon SrcHold SrcSinc SampleRate SrcLogic.

(** ** A new client *)

(** What [src_new] makes for the converter 3 or 4. *)
Definition new_hold (magic c : Z) : hold_data :=
  Hold magic c 1 0 0 0 0 (repeat (dbl 0) (Datatypes.S (Z.to_nat c))).

Definition new_client (t c : Z) : SRC_PRIVATE :=
  if t =? SRC_ZERO_ORDER_HOLD then
    SrcPrivate (dbl 0) (dbl 0) 0 c SRC_MODE_PROCESS (Some (Zoh (new_hold ZOH_MAGIC_MARKER c)))
      (Some zoh_vari_process_p) (Some zoh_vari_process_p) (Some zoh_reset_p) None 0 0 0
  else
    SrcPrivate (dbl 0) (dbl 0) 0 c SRC_MODE_PROCESS (Some (Linear (new_hold LINEAR_MAGIC_MARKER c)))
      (Some linear_vari_process_p) (Some linear_vari_process_p) (Some linear_reset_p) None 0 0 0.

Lemma hold_size_eq c : 0 <= c < 2 ^ 28 -> hold_size c = 32 + 4 * c.
Proof. intros. unfold hold_size, u32. rewrite (Z.mod_small (c * 4)), Z.mod_small by lia. lia. Qed.

Lemma hold_zero_run c m : 0 <= c < 2 ^ 28 ->
  hold_zero c m = Ret (Hold 0 0 0 0 0 0 0 (repeat (dbl 0) (Datatypes.S (Z.to_nat c))), m).
Proof.
  intros Hc. unfold hold_zero. rewrite hold_size_eq by done. replace (32 + 4 * c <? 28) with false by lia.
  unfold retS. do 4 f_equal. replace (32 + 4 * c - 28) with ((c + 1) * 4) by lia.
  rewrite Z.div_mul by lia. lia.
Qed.

Lemma hold_clear_run c h m : 0 <= c < 2 ^ 28 ->
  h.(last_value) = repeat (dbl 0) (Datatypes.S (Z.to_nat c)) ->
  hold_clear c h m =
    Ret (Hold h.(magic_marker) c 1 h.(in_count) h.(in_used) h.(out_count) h.(out_gen) h.(last_value), m).
Proof.
  intros Hc Hl. unfold hold_clear, fill, u32. rewrite Z.mod_small by lia.
  rewrite (Z.mul_comm 4), Z.div_mul by lia. replace (c <? 0) with false by lia.
  unfold liftS, bindS. rewrite buf_write_ok; rewrite ?Hl, ?zlen_repeat; [|lia..].
  cbn [obind]. unfold retS. do 3 f_equal. rewrite splice_0, repeat_length.
  replace (Datatypes.S (Z.to_nat c)) with (Z.to_nat c + 1)%nat by lia.
  rewrite !repeat_app, drop_app_length' by (by rewrite repeat_length). done.
Qed.

Section New.
Context {C : Calloc} (fc mc hc : coeff_table).

Definition after_calloc (k : nat) (d : Z) (m : smem) : smem :=
  Smem m.(cells) (k + m.(calls)) (m.(live) + d).

(** A client without data. *)
Definition bare (psrc : SRC_PRIVATE) (c : Z) : Prop :=
  psrc.(private_data) = None /\ psrc.(psrc_channels) = c.

Lemma sinc_rejects psrc c t m : bare psrc c -> sinc_coeffs fc mc hc t = None ->
  sinc_set_converter fc mc hc psrc t m =
    Ret ((SRC_ERR_BAD_CONVERTER, set_process sinc_vari_process_p sinc_reset_p psrc), m).
Proof.
  intros [Hb _] Ht. unfold sinc_set_converter, drop_foreign, bindS, retS. cbn [Z.leb Z.compare].
  change (32 - 1 <=? SHIFT_BITS) with false. cbn iota. by rewrite Hb, Ht.
Qed.

Lemma zoh_set_run psrc c m : bare psrc c -> 0 <= c < 2 ^ 28 ->
  zoh_set_converter psrc SRC_ZERO_ORDER_HOLD m =
    if calloc_ok m.(calls) (hold_size c)
    then Ret ((SRC_ERR_NO_ERROR, set_private (Some (Zoh (new_hold ZOH_MAGIC_MARKER c)))
                (set_process zoh_vari_process_p zoh_reset_p psrc)), after_calloc 1 1 m)
    else Ret ((SRC_ERR_MALLOC_FAILED, psrc), after_calloc 1 0 m).
Proof.
  intros [Hp Hch] Hc. unfold zoh_set_converter, drop_foreign. rewrite Z.eqb_refl, Hp. cbn [negb].
  unfold bindS at 1, retS at 1. rewrite Hp, Hch. unfold bindS at 1 2, calloc at 1.
  destruct (calloc_ok m.(calls) (hold_size c)); [|done].
  rewrite (bindS_Ret _ _ _ _ _ (hold_zero_run c _ Hc)). unfold retS at 1. cbn [negb].
  unfold zoh_reset. cbn [private_data set_private set_process psrc_channels]. rewrite Hch.
  rewrite bindS_assoc. by erewrite bindS_Ret by (by apply hold_clear_run).
Qed.

Lemma linear_set_run psrc c m : bare psrc c -> 0 <= c < 2 ^ 28 ->
  linear_set_converter psrc SRC_LINEAR m =
    if calloc_ok m.(calls) (hold_size c)
    then Ret ((SRC_ERR_NO_ERROR, set_private (Some (Linear (new_hold LINEAR_MAGIC_MARKER c)))
                (set_process linear_vari_process_p linear_reset_p psrc)), after_calloc 1 1 m)
    else Ret ((SRC_ERR_MALLOC_FAILED, psrc), after_calloc 1 0 m).
Proof.
  intros [Hp Hch] Hc. unfold linear_set_converter, drop_foreign. rewrite Z.eqb_refl, Hp. cbn [negb].
  unfold bindS at 1, retS at 1. rewrite Hp, Hch. unfold bindS at 1 2, calloc at 1.
  destruct (calloc_ok m.(calls) (hold_size c)); [|done].
  rewrite (bindS_Ret _ _ _ _ _ (hold_zero_run c _ Hc)). unfold retS at 1. cbn [negb].
  unfold linear_reset. cbn [private_data set_private set_process psrc_channels]. rewrite Hch.
  rewrite bindS_assoc. by erewrite bindS_Ret by (by apply hold_clear_run).
Qed.

Lemma src_reset_new t c m : t = SRC_ZERO_ORDER_HOLD \/ t = SRC_LINEAR -> 0 <= c < 2 ^ 28 ->
  src_reset (Some (new_client t c)) m = Ret ((SRC_ERR_NO_ERROR, Some (new_client t c)), m).
Proof.
  intros [-> | ->] Hc; unfold src_reset, new_client; cbn [Z.eqb SRC_ZERO_ORDER_HOLD SRC_LINEAR];
    cbn [Pos.eqb reset call_reset]; unfold zoh_reset, linear_reset; cbn [private_data psrc_channels];
    rewrite bindS_assoc; by erewrite bindS_Ret by (by apply hold_clear_run).
Qed.

(** [src_new] for the two simple converters, with all its outcomes. *)
Lemma src_new_run t c m :
  t = SRC_ZERO_ORDER_HOLD \/ t = SRC_LINEAR -> 1 <= c < 2 ^ 28 ->
  src_new fc mc hc t c m =
    if negb (calloc_ok m.(calls) SIZEOF_SRC_PRIVATE) then
      Ret ((None, SRC_ERR_MALLOC_FAILED), after_calloc 1 0 m)
    else if negb (calloc_ok (1 + m.(calls)) (hold_size c)) then
      Ret ((None, SRC_ERR_BAD_CONVERTER), after_calloc 2 0 m)
    else Ret ((Some (new_client t c), SRC_ERR_NO_ERROR), after_calloc 2 2 m).
Proof.
  intros Ht Hc. unfold src_new. replace (c <? 1) with false by lia.
  unfold bindS at 1, calloc at 1.
  destruct (calloc_ok m.(calls) SIZEOF_SRC_PRIVATE); cbn [negb]; [|done].
  unfold psrc_set_converter. set (p0 := set_mode _ _).
  assert (Hb : bare p0 c) by done. set (p1 := set_process sinc_vari_process_p sinc_reset_p p0).
  assert (Hb1 : bare p1 c) by done. set (m1 := Smem _ _ _).
  rewrite bindS_assoc. erewrite bindS_Ret by (apply (sinc_rejects _ c); [done|by destruct Ht as [-> | ->]]).
  cbn [Z.eqb SRC_ERR_BAD_CONVERTER SRC_ERR_NO_ERROR]. rewrite bindS_assoc.
  destruct Ht as [-> | ->].
  - unfold bindS at 1. rewrite (zoh_set_run _ c) by (done || lia).
    change (calls m1) with (1 + calls m)%nat.
    destruct (calloc_ok (1 + calls m) (hold_size c)); cbn [negb Z.eqb SRC_ERR_NO_ERROR SRC_ERR_MALLOC_FAILED].
    + rewrite !bindS_ret. cbn [negb Z.eqb SRC_ERR_NO_ERROR]. rewrite bindS_ret.
      erewrite bindS_Ret by (apply (src_reset_new SRC_ZERO_ORDER_HOLD c); [by left|lia]).
      unfold retS, after_calloc. do 2 f_equal. cbn. f_equal. lia.
    + unfold after_calloc, bindS, retS, freeS; cbn. do 2 f_equal. f_equal. lia.
  - rewrite (bindS_Ret _ _ _ (SRC_ERR_BAD_CONVERTER, p1) m1) by done.
    cbn [Z.eqb SRC_ERR_BAD_CONVERTER SRC_ERR_NO_ERROR]. rewrite bindS_assoc.
    unfold bindS at 1. rewrite (linear_set_run _ c) by (done || lia).
    change (calls m1) with (1 + calls m)%nat.
    destruct (calloc_ok (1 + calls m) (hold_size c)); cbn [negb Z.eqb SRC_ERR_NO_ERROR SRC_ERR_MALLOC_FAILED].
    + rewrite !bindS_ret. cbn [negb Z.eqb SRC_ERR_NO_ERROR]. rewrite bindS_ret.
      erewrite bindS_Ret by (apply (src_reset_new SRC_LINEAR c); [by right|lia]).
      unfold retS, after_calloc. do 2 f_equal. cbn. f_equal. lia.
    + unfold after_calloc, bindS, retS, freeS; cbn. do 2 f_equal. f_equal. lia.
Qed.


(** ** Blocks *)

(** [src_new] for the zero-order-hold or the linear converter: if both
    allocations succeed it gives a client in [SRC_MODE_PROCESS] whose data
    belongs to its channels, with two blocks that [src_delete] gives back;
    otherwise it returns NULL with an error and no block is left.  The arrays of
    the caller are not touched. *)
Theorem src_new_delete t c m :
  t = SRC_ZERO_ORDER_HOLD \/ t = SRC_LINEAR -> 1 <= c < 2 ^ 28 ->
  (calloc_ok m.(calls) SIZEOF_SRC_PRIVATE = true /\ calloc_ok (1 + m.(calls)) (hold_size c) = true /\
   exists psrc m1 m2,
     src_new fc mc hc t c m = Ret ((Some psrc, SRC_ERR_NO_ERROR), m1) /\
     src_ok psrc /\ psrc.(psrc_channels) = c /\ psrc.(mode) = SRC_MODE_PROCESS /\
     m1.(cells) = m.(cells) /\ m1.(live) = m.(live) + 2 /\
     src_delete (Some psrc) m1 = Ret (None, m2) /\ m2.(live) = m.(live) /\ m2.(cells) = m.(cells)) \/
  (exists e m1, src_new fc mc hc t c m = Ret ((None, e), m1) /\ e <> SRC_ERR_NO_ERROR /\
     m1.(live) = m.(live) /\ m1.(cells) = m.(cells)).
Proof.
  intros Ht Hc. rewrite src_new_run by done.
  destruct (calloc_ok m.(calls) _); cbn [negb].
  2:{ right. eexists _, _. split_and!; [done|done|cbn; lia|done]. }
  destruct (calloc_ok (1 + m.(calls)) _); cbn [negb].
  2:{ right. eexists _, _. split_and!; [done|done|cbn; lia|done]. }
  left. split_and!; [done..|].
  destruct Ht as [-> | ->]; eexists _, _, _; cbn; split_and!; try done; try (cbn; lia);
    (split; cbn; [lia|by intros ? [= <-]]).
Qed.

(** [src_callback_new] does not look at the result of [src_new]: whenever
    that fails it writes through the null pointer. *)
Theorem src_callback_new_null func t c cb m e m1 :
  src_new fc mc hc t c m = Ret ((None, e), m1) ->
  src_callback_new fc mc hc (Some func) t c cb m = UB NullDeref.
Proof. intros H. unfold src_callback_new. by rewrite (bindS_Ret _ _ _ _ _ H). Qed.

End New.

(** ** The first call of [src_process] *)

Lemma no_data_overlap psrc d m :
  let n := d.(input_frames) * psrc.(psrc_channels) in
  let k := d.(output_frames) * psrc.(psrc_channels) in
  0 <= n <= INT_MAX -> 0 < k <= INT_MAX -> d.(data_in) <> d.(data_out) ->
  d.(data_in) + n <= d.(data_out) \/ d.(data_out) + k <= d.(data_in) ->
  data_overlap psrc d m = Ret (false, m).
Proof.
  intros n k Hn Hk Hne Hsep. unfold data_overlap. fold n k.
  assert (forall x, 0 <= x <= INT_MAX -> is_int x) as Hint by (unfold is_int, INT_MIN; lia).
  destruct (Z.ltb_spec d.(data_in) d.(data_out)).
  - rewrite (bindS_Ret _ _ _ _ _ (long_ok n m (Hint n Hn))). unfold retS. do 2 f_equal. lia.
  - rewrite (bindS_Ret _ _ _ _ _ (long_ok k m (Hint k ltac:(lia)))). unfold retS. do 2 f_equal. lia.
Qed.

(** A client that has not processed anything takes the ratio of the data, and
    the call goes to its process function. *)
Lemma src_process_first psrc p d m :
  psrc.(vari_process) = Some p -> psrc.(const_process) = Some p ->
  psrc.(mode) = SRC_MODE_PROCESS -> psrc.(last_ratio) = dbl 0 ->
  is_bad_src_ratio d.(src_ratio) = false -> d.(data_in) <> 0 -> d.(data_out) <> 0 ->
  0 <= d.(input_frames) -> 0 <= d.(output_frames) -> data_overlap psrc d m = Ret (false, m) ->
  src_process (Some psrc) (Some d) m =
    (let! '(er, q, d) := call_process p (set_position d.(src_ratio) psrc.(last_position) psrc)
                           (set_counts 0 0 d) in
     retS (er, Some q, Some d)) m.
Proof.
  intros Hv Hk Hm Hl Hr Hi Ho Hfi Hfo Hov. unfold src_process. rewrite Hv, Hk, Hm, Hl, Hr.
  change (negb (SRC_MODE_PROCESS =? SRC_MODE_PROCESS)) with false. cbn iota.
  rewrite !(proj2 (Z.eqb_neq _ 0)) by done. cbn [orb].
  replace (d.(input_frames) <? 0) with false by lia. replace (d.(output_frames) <? 0) with false by lia.
  rewrite (bindS_Ret _ _ _ _ _ Hov). cbv zeta.
  change (dbl 0 .< dbl 1 ./ dbl SRC_MAX_RATIO) with true. cbn iota.
  by match goal with |- context [if ?b then p else p] => destruct b end.
Qed.

(** A memory allocator that always succeeds, and tables without coefficients. *)
Definition calloc_always : Calloc := fun _ _ => true.
Definition no_coeffs : coeff_table := Coeffs 1 [].

Lemma src_new_delete_witness :
  exists psrc m1 m2,
    src_new (C := calloc_always) no_coeffs no_coeffs no_coeffs SRC_LINEAR 2 (Smem ∅ 0 0) =
      Ret ((Some psrc, SRC_ERR_NO_ERROR), m1) /\
    m1.(live) = 2 /\ src_delete (Some psrc) m1 = Ret (None, m2) /\ m2.(live) = 0.
Proof.
  destruct (src_new_delete (C := calloc_always) no_coeffs no_coeffs no_coeffs SRC_LINEAR 2 (Smem ∅ 0 0))
    as [(_ & _ & psrc & m1 & m2 & H1 & _ & _ & _ & _ & H2 & H3 & H4 & _)|(e & m1 & H & _)].
  - by right.
  - lia.
  - exists psrc, m1, m2. split_and!; [exact H1|exact H2|exact H3|exact H4].
  - exfalso. vm_compute in H. discriminate H.
Defined.

Lemma src_callback_new_null_witness :
  src_callback_new (C := calloc_always) no_coeffs no_coeffs no_coeffs (Some 1) SRC_LINEAR 0 0 (Smem ∅ 0 0)
    = UB NullDeref.
Proof.
  apply (src_callback_new_null (C := calloc_always) no_coeffs no_coeffs no_coeffs 1 SRC_LINEAR 0 0
    (Smem ∅ 0 0) SRC_ERR_BAD_CHANNEL_COUNT (Smem ∅ 0 0)).
  reflexivity.
Defined.
