(* ===== verification/SrcArrays.v ===== *)
(** * SrcArrays: the conversions between samples and floats

    Every 16-bit sample survives the way to [float] and back: the quotient by
    2^15, its conversion to [float] and the product with 2^31 are exact. *)

From S2P Require Import Prelude SrcFloat SrcCommon SampleRate.

Definition is_s16 (x : Z) : Prop := -32768 <= x <= 32767.

(** ** The loop *)

Lemma convert_loop_spec {A B} (f : A -> outcome B) (g : A -> B) inp : forall len out,
  (len <= length inp)%nat -> length out = length inp ->
  (forall x, x ∈ inp -> f x = Ret (g x)) ->
  convert_loop f inp out len = Ret (map g (take len inp) ++ drop len out).
Proof.
  induction len as [|len IH]; intros out Hl Ho Hf; cbn [convert_loop]; [done|].
  destruct (lookup_lt_is_Some_2 inp len ltac:(lia)) as [x Hx].
  destruct (lookup_lt_is_Some_2 out len ltac:(lia)) as [y Hy].
  rewrite Hx, Hy, Hf by (by eapply list_elem_of_lookup_2). cbn [obind].
  rewrite IH by (rewrite ?length_insert; auto with lia). f_equal.
  rewrite (take_S_r _ _ _ Hx), map_app, <- app_assoc. f_equal. cbn.
  rewrite (drop_S _ (g x) len) by (apply list_lookup_insert_eq; lia).
  by rewrite drop_insert_lt by lia.
Qed.

Lemma convert_array_spec {A B} (f : A -> outcome B) (g : A -> B) inp out :
  length out = length inp -> (forall x, x ∈ inp -> f x = Ret (g x)) ->
  convert_array f inp out (zlen inp) = Ret (map g inp).
Proof.
  intros Ho Hf. unfold convert_array. pose proof (zlen_nonneg inp).
  replace (zlen inp <? 0) with false by lia. unfold zlen. rewrite Nat2Z.id.
  rewrite (convert_loop_spec _ g) by done.
  by rewrite firstn_all, <- Ho, drop_all, app_nil_r.
Qed.

(** ** One sample *)

Lemma const_2_15 : dbl 1 .* dbl 32768 = dnorm false 1 15.
Proof. reflexivity. Qed.

Lemma const_2_31 : dbl 8 .* dbl 268435456 = dnorm false 1 31.
Proof. reflexivity. Qed.

Lemma log2_s16 k : is_s16 k -> k <> 0 -> 0 <= Z.log2 (Z.abs k) <= 15.
Proof.
  unfold is_s16. intros. split; [apply Z.log2_nonneg|].
  change 15 with (Z.log2 32768). apply Z.log2_le_mono. lia.
Qed.

Lemma short_to_float_norm k : is_s16 k -> k <> 0 ->
  short_to_float k = fnorm (k <? 0) (Z.abs k) (-15).
Proof.
  intros Hk H0. pose proof (log2_s16 k Hk H0). unfold is_s16 in Hk.
  unfold short_to_float. rewrite const_2_15, dbl_norm by lia. unfold ddiv.
  rewrite (div_exact 53 1024) by (unfold fits, room, emin; cbn; lia).
  apply to_float_norm; lia.
Qed.

Lemma scaled_short k : is_s16 k -> scaled (short_to_float k) = dbl (k * 65536).
Proof.
  intros Hk. destruct (Z.eq_dec k 0) as [->|H0]; [reflexivity|].
  pose proof (log2_s16 k Hk H0). unfold scaled.
  rewrite short_to_float_norm, to_double_norm, const_2_31 by (done || lia). unfold dmul.
  rewrite (mul_exact 53 1024)
    by (try lia; unfold fits, room, emin; rewrite ?Z.mul_1_r; cbn; lia).
  unfold is_s16 in Hk. rewrite (dbl_norm (k * 65536)) by lia.
  rewrite xorb_false_r, Z.mul_1_r. replace (k * 65536 <? 0) with (k <? 0) by lia.
  replace (Z.abs (k * 65536)) with (Z.abs k * 2 ^ 16) by lia.
  by rewrite norm_shift by (unfold room; lia).
Qed.

Lemma short_roundtrip k : is_s16 k -> float_to_short (short_to_float k) = Ret k.
Proof.
  intros Hk. unfold float_to_short. rewrite scaled_short by done. unfold is_s16 in Hk.
  unfold clips_high, clips_low, CPU_CLIPS_POSITIVE, CPU_CLIPS_NEGATIVE. cbn [Z.eqb andb].
  change (dbl 1 .* dbl 2147483647) with (dbl 2147483647).
  assert (Hc : (dbl 2147483647 .<= dbl (k * 65536)) = false).
  { destruct (Z.le_gt_cases 0 k).
    - rewrite dbl_le by lia. lia.
    - rewrite (dbl_norm (k * 65536)) by lia. replace (k * 65536 <? 0) with true by lia. reflexivity. }
  rewrite Hc, lrint_dbl by (unfold is_int, INT_MIN, INT_MAX; lia). cbn [obind].
  f_equal. unfold s16. rewrite Z.shiftr_div_pow2 by lia. change (2 ^ 16) with 65536.
  rewrite Z.div_mul by lia. rewrite Z.mod_small by lia. lia.
Qed.

(** ** Arrays *)

(** C25: an array of 16-bit samples that [src_short_to_float_array] converts to
    floats and [src_float_to_short_array] converts back is the same array: none
    of the divisions, multiplications, roundings and shifts on the way loses
    anything, for each of the 65536 values. *)
Theorem short_float_roundtrip (inp : list Z) (fs : list float) (ss : list Z) :
  Forall is_s16 inp -> length fs = length inp -> length ss = length inp ->
  exists floats,
    src_short_to_float_array inp fs (zlen inp) = Ret floats /\
    src_float_to_short_array floats ss (zlen inp) = Ret inp.
Proof.
  intros Hs Hf Ht. rewrite Forall_forall in Hs. exists (map short_to_float inp). split.
  - by apply convert_array_spec.
  - unfold src_float_to_short_array.
    rewrite <- (zlen_map short_to_float inp) at 1.
    rewrite (convert_array_spec _ (fun x => default 0 (match float_to_short x with Ret k => Some k | UB _ => None end))).
    + f_equal. rewrite map_map. rewrite <- (map_id inp) at 2. apply map_ext_in.
      intros k Hk%list_elem_of_In. by rewrite short_roundtrip by auto.
    + by rewrite length_map.
    + intros x (k & -> & Hk)%list_elem_of_fmap. by rewrite short_roundtrip by auto.
Qed.

Lemma short_float_roundtrip_witness :
  Forall is_s16 [-32768; -1; 0; 12345; 32767] /\
  exists floats,
    src_short_to_float_array [-32768; -1; 0; 12345; 32767] (repeat (dbl 0) 5) 5 = Ret floats /\
    src_float_to_short_array floats (repeat 0 5) 5 = Ret [-32768; -1; 0; 12345; 32767].
Proof.
  assert (H : Forall is_s16 [-32768; -1; 0; 12345; 32767]).
  { repeat constructor; vm_compute; discriminate. }
  split; [exact H|].
  exact (short_float_roundtrip [-32768; -1; 0; 12345; 32767] (repeat (dbl 0) 5) (repeat 0 5) H eq_refl eq_refl).
Defined.
