(* ===== verification/SrcUnity.v ===== *)
(** * SrcUnity: the simple converters at ratio 1

    At ratio 1 the position of the input is always a whole number, so that all
    the floating-point operations on it are exact, and the run of the two
    simple converters can be followed for any number of frames: round [j] of
    the main loop has used [j] frames and generated [j] frames.  The
    zero-order-hold converter delays its input by one frame; the linear one
    reads a frame behind the end of its input. *)

From S2P Require Import Prelude SrcFloat SrcCommon SrcHold SrcSinc SampleRate SrcLogic SrcNew.

Section Unity.
Context (inp out c nin nout : Z) (I E : Z -> float) (m0 : smem).
Context (Hc : 0 < c) (Hn : 0 < nin) (Ho : 0 < nout).
Context (Hin : (nin + 1) * c <= INT_MAX) (Hout : nout * c <= INT_MAX).
Context (Hsep : inp + nin * c <= out \/ out + nout * c <= inp).

(** The input is in place, the output array exists and holds its first [g]
    samples, and the rest is as in [m0]. *)
Record filled (g : Z) (m : smem) : Prop := Filled {
  filled_in : forall i, 0 <= i < nin * c -> m.(cells) !! (inp + i) = Some (I i);
  filled_room : forall i, 0 <= i < nout * c -> is_Some (m.(cells) !! (out + i));
  filled_out : forall i, 0 <= i < g -> m.(cells) !! (out + i) = Some (E i);
  filled_other : forall a, ~ out <= a < out + nout * c -> m.(cells) !! a = m0.(cells) !! a;
  filled_calls : m.(calls) = m0.(calls);
  filled_live : m.(live) = m0.(live)
}.

Lemma filled_store g m : filled g m -> 0 <= g < nout * c ->
  exists m', storef (out + g) (E g) m = Ret (tt, m') /\ filled (g + 1) m'.
Proof.
  intros [H1 H2 H3 H4 H5 H6] Hg. destruct (H2 g Hg) as [v Hv]. unfold storef. rewrite Hv.
  eexists. split; [done|]. split; cbn [cells]; intros.
  - rewrite lookup_insert_ne by lia. auto.
  - rewrite lookup_insert_is_Some'. auto.
  - destruct (decide (i = g)) as [->|]; [by rewrite lookup_insert_eq|].
    rewrite lookup_insert_ne by lia. apply H3. lia.
  - rewrite lookup_insert_ne by lia. auto.
  - done.
  - done.
Qed.

Context (psrc : SRC_PRIVATE) (data : SRC_DATA) (h : hold_data).
Context (Eout : data.(data_out) = out) (Einp : data.(data_in) = inp).
Context (Ech : h.(channels) = c) (Eic : h.(in_count) = nin * c) (Eoc : h.(out_count) = nout * c).
Context (Er1 : psrc.(last_ratio) = dbl 1) (Er2 : data.(src_ratio) = dbl 1).

(** A round: [k] samples that the sample function gives as [E] has them. *)
Lemma emit_run sample k : forall ch g m,
  filled g m -> 0 <= g -> g + Z.of_nat k <= nout * c ->
  (forall i m', 0 <= i < Z.of_nat k -> filled (g + i) m' -> sample (ch + i) m' = Ret (E (g + i), m')) ->
  exists m', emit data k ch g sample m = Ret (g + Z.of_nat k, m') /\ filled (g + Z.of_nat k) m'.
Proof.
  induction k as [|k IH]; intros ch g m Hf Hg Hk Hs; cbn [emit].
  - exists m. rewrite Z.add_0_r. done.
  - pose proof (Hs 0 m ltac:(lia)) as H0. rewrite !Z.add_0_r in H0.
    rewrite (bindS_Ret _ _ _ _ _ (H0 Hf)), Eout.
    destruct (filled_store g m Hf ltac:(lia)) as (m1 & H1 & Hf1). rewrite (bindS_Ret _ _ _ _ _ H1).
    rewrite (bindS_Ret _ _ _ _ _ (long_ok (g + 1) m1 ltac:(unfold is_int, INT_MIN, INT_MAX in *; lia))).
    destruct (IH (ch + 1) (g + 1) m1) as (m2 & H2 & Hf2); [done|lia|lia| |].
    { intros i m' Hi Hm'. replace (ch + 1 + i) with (ch + (i + 1)) by lia.
      replace (g + 1 + i) with (g + (i + 1)) in * by lia. apply Hs; [lia|done]. }
    exists m2. rewrite H2. replace (g + Z.of_nat (Datatypes.S k)) with (g + 1 + Z.of_nat k) by lia. done.
Qed.

(** The ratio stays 1. *)
Lemma next_ratio_1 r : r.(ratio) = dbl 1 -> next_ratio psrc data h r = dbl 1.
Proof.
  intros Hr. unfold next_ratio. rewrite Er1, Er2, Hr.
  replace (SRC_MIN_RATIO_DIFF .< fabs (dbl 1 .- dbl 1)) with false by reflexivity.
  by rewrite andb_false_r.
Qed.

Lemma index_step : dbl 0 .+ dbl 1 ./ dbl 1 = dbl 1.
Proof. reflexivity. Qed.

(** The position of round [j]. *)
Definition at_round (j : Z) : run := Run (j * c) (j * c) (dbl 1) (dbl 0).

Lemma is_int_frames j : 0 <= j <= nin + 1 -> is_int (j * c).
Proof. intros. unfold is_int, INT_MIN, INT_MAX in *. nia. Qed.

Lemma split_index_1 g u m : is_int (u + c) -> 0 <= u ->
  split_index h (Run g u (dbl 1) (dbl 1)) m = Ret (Run g (u + c) (dbl 1) (dbl 0), m).
Proof.
  intros Hi Hu. unfold split_index. cbn [index gen used ratio].
  rewrite (bindS_Ret _ _ _ (dbl 0) m) by reflexivity.
  rewrite (bindS_Ret _ _ _ 1 m) by reflexivity. rewrite Ech, Z.mul_1_r.
  rewrite (bindS_Ret _ _ _ _ _ (long_ok c m ltac:(unfold is_int, INT_MIN in *; lia))).
  by rewrite (bindS_Ret _ _ _ _ _ (long_ok (u + c) m Hi)).
Qed.

Lemma reach_round g u q : 0 <= u < 2 ^ 53 -> c < 2 ^ 53 -> reach h (Run g u q (dbl 0)) = dbl u.
Proof.
  intros Hu Hcb. unfold reach. cbn [used index]. rewrite Ech, dmul_zero by lia.
  destruct (Z.eq_dec u 0) as [->|]; [reflexivity|]. apply dadd_zero; lia.
Qed.

(** The first loop makes one round. *)
Lemma first_loop_run stop sample k m :
  stop (dbl 0) (dbl (nin * c)) = false -> filled 0 m ->
  (forall i m', 0 <= i < c -> filled i m' ->
     sample (Run 0 0 (dbl 1) (dbl 0)) i m' = Ret (E i, m')) ->
  exists m', first_loop psrc data h stop sample (2 + k) (Run 0 0 (dbl 1) (dbl 0)) m =
    Ret (Run c 0 (dbl 1) (dbl 1), m') /\ filled c m'.
Proof.
  intros Hst Hf Hs. change (2 + k)%nat with (Datatypes.S (Datatypes.S k)). cbn [first_loop].
  change (index (Run 0 0 (dbl 1) (dbl 0))) with (dbl 0). change (dbl 0 .< dbl 1) with true.
  cbn [gen andb]. rewrite Eoc, (proj2 (Z.ltb_lt 0 (nout * c))) by nia.
  rewrite reach_round by (unfold INT_MAX in *; nia). rewrite Eic, Hst. rewrite next_ratio_1 by done. rewrite Ech.
  destruct (emit_run (sample (Run 0 0 (dbl 1) (dbl 0))) (Z.to_nat c) 0 0 m) as (m1 & H1 & Hf1); [done|lia|nia| |].
  { intros i m' Hi Hm'. rewrite Z.add_0_l in *. apply Hs; [lia|done]. }
  rewrite Z.add_0_l, Z2Nat.id in * by lia. rewrite (bindS_Ret _ _ _ _ _ H1). rewrite index_step.
  exists m1. split; [|done]. reflexivity.
Qed.

(** From round [j] to round [J] of the main loop. *)
Lemma process_loop_run sample f J : forall d j m,
  1 <= j -> j + Z.of_nat d = J -> J <= nout -> J <= nin + 1 -> filled (j * c) m ->
  (forall j i m', 1 <= j < J -> 0 <= i < c -> filled (j * c + i) m' ->
     sample (at_round j) i m' = Ret (E (j * c + i), m')) ->
  exists m', process_loop psrc data h sample (d + f) (at_round j) m =
    process_loop psrc data h sample f (at_round J) m' /\ filled (J * c) m'.
Proof.
  induction d as [|d IH]; intros j m Hj HJ HJo HJi Hf Hs.
  - exists m. replace J with j by lia. done.
  - pose proof (is_int_frames j ltac:(lia)) as Hij. unfold is_int, INT_MIN, INT_MAX in Hij, Hin, Hout.
    change (Datatypes.S d + f)%nat with (Datatypes.S (d + f)). cbn [process_loop].
    cbn [gen at_round]. rewrite Eoc, (proj2 (Z.ltb_lt (j * c) (nout * c))) by nia.
    unfold at_round at 1. rewrite reach_round by nia. rewrite Eic, dbl_le by nia.
    rewrite (proj2 (Z.leb_le (j * c) (nin * c))) by nia. cbn [andb].
    rewrite next_ratio_1 by done. rewrite Ech.
    destruct (emit_run (sample (at_round j)) (Z.to_nat c) 0 (j * c) m) as (m1 & H1 & Hf1); [done|nia|nia| |].
    { intros i m' Hi Hm'. rewrite Z.add_0_l. apply Hs; [lia..|done]. }
    rewrite Z2Nat.id in * by lia. rewrite (bindS_Ret _ _ _ _ _ H1).
    cbn [used index at_round]. rewrite index_step.
    rewrite (bindS_Ret _ _ _ _ _ (split_index_1 _ (j * c) m1 ltac:(unfold is_int, INT_MIN, INT_MAX; nia) ltac:(nia))).
    destruct (IH (j + 1) m1) as (m2 & H2 & Hf2); [lia..| |done|].
    { by replace ((j + 1) * c) with (j * c + c) by lia. }
    exists m2. split; [|done]. rewrite <- H2. f_equal.
    unfold at_round. by replace ((j + 1) * c) with (j * c + c) by lia.
Qed.

(** [last_value] gets the frame at [base]. *)
Lemma copy_last_run k : forall ch base l g m,
  filled g m -> 0 <= base + ch -> base + ch + Z.of_nat k <= nin * c -> 0 <= ch ->
  ch + Z.of_nat k <= zlen l ->
  exists l', copy_last data k ch base l m = Ret (l', m) /\ zlen l' = zlen l /\
    (forall i, 0 <= i < ch -> l' !! Z.to_nat i = l !! Z.to_nat i) /\
    (forall i, ch <= i < ch + Z.of_nat k -> l' !! Z.to_nat i = Some (I (base + i))).
Proof.
  induction k as [|k IH]; intros ch base l g m Hf Hb Hk Hch Hl; cbn [copy_last].
  - exists l. split_and!; [done..|]. intros. lia.
  - rewrite (bindS_Ret _ _ _ (I (base + ch)) m).
    2:{ unfold loadf. rewrite Einp, <- Z.add_assoc. by rewrite (filled_in _ _ Hf) by lia. }
    unfold seta, in_range. replace (0 <=? ch) with true by lia. replace (ch <? zlen l) with true by lia.
    cbn [andb]. rewrite bindS_ret. unfold zlen in Hl.
    destruct (IH (ch + 1) base (<[Z.to_nat ch := I (base + ch)]> l) g m) as (l' & H1 & H2 & H3 & H4);
      [done|lia|lia|lia|unfold zlen; rewrite length_insert; lia|].
    exists l'. split_and!; [done|by rewrite H2; unfold zlen; rewrite length_insert| |].
    + intros i Hi. rewrite H3 by lia. by rewrite list_lookup_insert_ne by lia.
    + intros i Hi. destruct (decide (i = ch)) as [->|].
      * rewrite H3 by lia. rewrite list_lookup_insert_eq by lia. done.
      * apply H4. lia.
Qed.

End Unity.

(** ** Whole runs *)

Section Simple.
Context {C : Calloc} (fc mc hc : coeff_table).
Context (calloc_succeeds : forall k n, calloc_ok k n = true).
Context (inp out c nin nout : Z) (I : Z -> float) (m : smem).
Context (Hc : 1 <= c < 2 ^ 28) (Hn : 1 <= nin) (Ho : 1 <= nout).
Context (Hin : (nin + 1) * c <= INT_MAX) (Hout : nout * c <= INT_MAX).
Context (Hsep : inp + nin * c <= out \/ out + nout * c <= inp) (Hni : inp <> 0) (Hno : out <> 0).
Context (Hinp : forall i, 0 <= i < nin * c -> m.(cells) !! (inp + i) = Some (I i)).
Context (Hroom : forall i, 0 <= i < nout * c -> is_Some (m.(cells) !! (out + i))).

(** The memory after [src_new], the data block and the client that [src_process]
    passes to the process function. *)
Let m1 := after_calloc 2 2 m.
Definition unity_data (u g e : Z) : SRC_DATA := SrcData inp out nin nout u g e (dbl 1).
Let client t := set_position (dbl 1) (dbl 0) (new_client t c).

Lemma filled_start E : filled inp out c nin nout I E m1 0 m1.
Proof. split; [done|done|lia|done..]. Qed.

(** [src_process] hands the call on. *)
Lemma src_process_unity t u g e :
  t = SRC_ZERO_ORDER_HOLD \/ t = SRC_LINEAR ->
  src_process (Some (new_client t c)) (Some (unity_data u g e)) m1 =
    (let! '(er, p, d) := call_process (if t =? SRC_ZERO_ORDER_HOLD then zoh_vari_process_p
                                        else linear_vari_process_p)
                           (client t) (unity_data 0 0 e) in
     retS (er, Some p, Some d)) m1.
Proof.
  intros Ht. rewrite (src_process_first _ (if t =? SRC_ZERO_ORDER_HOLD then zoh_vari_process_p
    else linear_vari_process_p)); cbn [data_in data_out input_frames output_frames unity_data];
    try (by destruct Ht as [-> | ->]); try done; try lia.
  assert (Hch : psrc_channels (new_client t c) = c) by (by destruct Ht as [-> | ->]).
  apply no_data_overlap; rewrite ?Hch; cbn [data_in data_out input_frames output_frames unity_data]; nia.
Qed.

Lemma src_simple_unity t u g e r m2 :
  t = SRC_ZERO_ORDER_HOLD \/ t = SRC_LINEAR ->
  call_process (if t =? SRC_ZERO_ORDER_HOLD then zoh_vari_process_p else linear_vari_process_p)
    (client t) (unity_data 0 0 1) m1 = Ret (r, m2) ->
  r.1.2.(private_data) <> None ->
  src_simple fc mc hc (unity_data u g e) t c m = Ret ((r.1.1, r.2), Smem m2.(cells) m2.(calls) (m2.(live) - 1 - 1)).
Proof.
  intros Ht Hr Hp. unfold src_simple. unfold bindS at 1. rewrite src_new_run by done.
  rewrite !calloc_succeeds. cbn [negb]. fold m1. change (set_eoi 1 (unity_data u g e)) with (unity_data u g 1).
  unfold bindS at 1. rewrite src_process_unity by done. rewrite (bindS_Ret _ _ _ _ _ Hr).
  destruct r as [[er p] d]. cbn in Hp |- *. unfold bindS. cbn. by destruct (private_data p).
Qed.

(** The structure after the set-up of a process function: the first frame is
    in [last_value]. *)
Lemma hold_setup magic e : exists lv, zlen lv = c + 1 /\
  (forall i, 0 <= i < c -> lv !! Z.to_nat i = Some (I i)) /\
  forall stop fs ms p,
    let data := unity_data 0 0 e in
    let h := Hold magic c 0 (nin * c) 0 (nout * c) 0 lv in
    let fuel := Datatypes.S (Z.to_nat (nout * c)) in
    hold_process stop fs ms p (new_hold magic c) data m1 =
    (let! r := first_loop p data h stop (fs data h) fuel (Run 0 0 p.(last_ratio) p.(last_position)) in
     let! r := split_index h r in
     let! r := process_loop p data h (ms data h) fuel r in
     let r := carry h r in
     let! lv' := (if 0 <? r.(used) then copy_last data (Z.to_nat c) 0 (r.(used) - c) lv else retS lv) in
     if c =? 0 then undefS DivByZero else
     retS (Hold magic c 0 (nin * c) r.(used) (nout * c) r.(gen) lv',
           set_position r.(ratio) r.(index) p,
           set_counts (Z.quot r.(used) c) (Z.quot r.(gen) c) data)) m1.
Proof.
  destruct (copy_last_run inp out c nin nout I (fun _ => dbl 0) m1 (unity_data 0 0 e)
    eq_refl (Z.to_nat c) 0 0 (new_hold magic c).(last_value) 0 m1) as (lv & H1 & H2 & _ & H3).
  { apply filled_start. }
  { lia. } { nia. } { lia. }
  { cbn [last_value new_hold]. rewrite zlen_repeat. lia. }
  exists lv. cbn [last_value new_hold] in H2. rewrite zlen_repeat in H2. split_and!; [lia| |].
  { intros i Hi. rewrite H3 by lia. f_equal. }
  intros stop fs ms p. cbv zeta. unfold hold_process.
  cbn [channels hold_reset magic_marker new_hold Z.eqb].
  rewrite (bindS_Ret _ _ _ _ _ H1). cbn [input_frames output_frames unity_data].
  assert (forall x, 0 <= x <= INT_MAX -> is_int x) as Hint by (unfold is_int, INT_MIN; lia).
  rewrite (bindS_Ret _ _ _ _ _ (long_ok (nin * c) m1 (Hint (nin * c) ltac:(nia)))).
  by rewrite (bindS_Ret _ _ _ _ _ (long_ok (nout * c) m1 (Hint (nout * c) ltac:(nia)))).
Qed.

(** The fuel covers [d] rounds and one more. *)
Lemma fuel_split d : 0 <= d <= nout -> exists f,
  Datatypes.S (Z.to_nat (nout * c)) = (Z.to_nat d + Datatypes.S f)%nat.
Proof.
  intros. assert (nout <= nout * c) by nia. exists (Z.to_nat (nout * c) - Z.to_nat d)%nat. lia.
Qed.

Lemma fuel_split_2 : exists f, Datatypes.S (Z.to_nat (nout * c)) = (2 + f)%nat.
Proof. assert (1 <= nout * c) by nia. exists (Z.to_nat (nout * c) - 1)%nat. lia. Qed.

Lemma geta_lookup l i v mm : 0 <= i < zlen l -> l !! Z.to_nat i = Some v -> geta l i mm = Ret (v, mm).
Proof.
  intros Hi Hv. unfold geta, in_range. replace (0 <=? i) with true by lia.
  replace (i <? zlen l) with true by lia. cbn. unfold retS. do 2 f_equal.
  by rewrite (nth_lookup_Some _ _ _ _ Hv).
Qed.

Lemma loadf_filled E g mm i : filled inp out c nin nout I E m1 g mm -> 0 <= i < nin * c ->
  loadf (inp + i) mm = Ret (I i, mm).
Proof. intros Hf Hi. unfold loadf. by rewrite (filled_in _ _ _ _ _ _ _ _ _ _ Hf i Hi). Qed.

(** What follows the main loop. *)
Definition hold_finish (magic : Z) (lv : list float) (p : SRC_PRIVATE) (data : SRC_DATA) (r : run)
    : SM (hold_data * SRC_PRIVATE * SRC_DATA) :=
  let r := carry (Hold magic c 0 (nin * c) 0 (nout * c) 0 lv) r in
  let! lv' := (if 0 <? r.(used) then copy_last data (Z.to_nat c) 0 (r.(used) - c) lv else retS lv) in
  if c =? 0 then undefS DivByZero else
  retS (Hold magic c 0 (nin * c) r.(used) (nout * c) r.(gen) lv',
        set_position r.(ratio) r.(index) p,
        set_counts (Z.quot r.(used) c) (Z.quot r.(gen) c) data).

(** A process function reaches round [J] of its main loop, when its samples
    are defined up to there. *)
Lemma unity_reach E stop fs ms p magic e J :
  let data := unity_data 0 0 e in
  let hd lv := Hold magic c 0 (nin * c) 0 (nout * c) 0 lv in
  p.(last_ratio) = dbl 1 -> p.(last_position) = dbl 0 ->
  1 <= J <= nout -> J <= nin + 1 -> stop (dbl 0) (dbl (nin * c)) = false ->
  (forall lv i m', zlen lv = c + 1 -> (forall k, 0 <= k < c -> lv !! Z.to_nat k = Some (I k)) ->
     0 <= i < c -> filled inp out c nin nout I E m1 i m' ->
     fs data (hd lv) (Run 0 0 (dbl 1) (dbl 0)) i m' = Ret (E i, m')) ->
  (forall lv j i m', 1 <= j < J -> 0 <= i < c -> filled inp out c nin nout I E m1 (j * c + i) m' ->
     ms data (hd lv) (at_round c j) i m' = Ret (E (j * c + i), m')) ->
  exists lv f m2, zlen lv = c + 1 /\ filled inp out c nin nout I E m1 (J * c) m2 /\
    hold_process stop fs ms p (new_hold magic c) data m1 =
    (let! r := process_loop p data (hd lv) (ms data (hd lv)) (Datatypes.S f) (at_round c J) in
     hold_finish magic lv p data r) m2.
Proof.
  intros data hd Hr Hpos HJ HJi Hst Hfs Hms.
  destruct (hold_setup magic e) as (lv & Hlv & Hval & Hrun). rewrite Hrun. clear Hrun.
  rewrite Hr, Hpos. destruct fuel_split_2 as [f2 Ef2]. destruct (fuel_split (J - 1) ltac:(lia)) as [f Ef].
  destruct (first_loop_run inp out c nin nout I E m1 ltac:(lia) ltac:(lia) ltac:(lia) Hin Hout Hsep
    p data (hd lv) eq_refl eq_refl eq_refl eq_refl Hr eq_refl stop (fs data (hd lv)) f2 m1 Hst)
    as (ma & Ha & Fa); [apply filled_start|by auto|].
  rewrite <- Ef2 in Ha. rewrite (bindS_Ret _ _ _ _ _ Ha).
  assert (Hint : is_int (0 + c)) by (unfold is_int, INT_MIN, INT_MAX in *; nia).
  rewrite (bindS_Ret _ _ _ _ _ (split_index_1 c nin ltac:(lia) ltac:(lia) Hin (hd lv) eq_refl c 0 ma Hint ltac:(lia))).
  replace (Run c (0 + c) (dbl 1) (dbl 0)) with (at_round c 1) by (unfold at_round; f_equal; lia).
  destruct (process_loop_run inp out c nin nout I E m1 ltac:(lia) ltac:(lia) ltac:(lia) Hin Hout Hsep
    p data (hd lv) eq_refl eq_refl eq_refl eq_refl Hr eq_refl (ms data (hd lv)) (Datatypes.S f) J
    (Z.to_nat (J - 1)) 1 ma) as (mb & Hb & Fb); [lia..|by rewrite Z.mul_1_l|by auto|].
  exists lv, f, mb. split_and!; [done|done|]. rewrite <- Ef in Hb. subst data hd. cbv beta zeta in *.
  unfold bindS at 1. rewrite Hb. done.
Qed.

(** What the zero-order-hold converter makes of the input. *)
Definition delayed (i : Z) : float := I (if i <? c then i else i - c).

Lemma zoh_reach J : 1 <= J <= nout -> J <= nin + 1 ->
  exists lv f m2, zlen lv = c + 1 /\ filled inp out c nin nout I delayed m1 (J * c) m2 /\
    hold_process (fun x y => y .<= x) zoh_first_sample zoh_main_sample (client SRC_ZERO_ORDER_HOLD)
      (new_hold ZOH_MAGIC_MARKER c) (unity_data 0 0 1) m1 =
    (let! r := process_loop (client SRC_ZERO_ORDER_HOLD) (unity_data 0 0 1)
       (Hold ZOH_MAGIC_MARKER c 0 (nin * c) 0 (nout * c) 0 lv)
       (zoh_main_sample (unity_data 0 0 1) (Hold ZOH_MAGIC_MARKER c 0 (nin * c) 0 (nout * c) 0 lv))
       (Datatypes.S f) (at_round c J) in
     hold_finish ZOH_MAGIC_MARKER lv (client SRC_ZERO_ORDER_HOLD) (unity_data 0 0 1) r) m2.
Proof.
  intros HJ HJi. apply unity_reach; [done|done|done|done| | |].
  - rewrite dbl_le by (unfold INT_MAX in *; nia). nia.
  - intros lv i m' Hl Hv Hi _. unfold zoh_first_sample, delayed. replace (i <? c) with true by lia.
    apply geta_lookup; [cbn [last_value]; lia|by apply Hv].
  - intros lv j i m' Hj Hi Hf. unfold zoh_main_sample, delayed. cbn [data_in used channels unity_data at_round].
    replace (j * c + i <? c) with false by nia. replace (j * c - c + i) with (j * c + i - c) by lia.
    eapply loadf_filled; [done|]. nia.
Qed.

Lemma finish_round magic lv p J E mm : 1 <= J <= nin + 1 -> zlen lv = c + 1 ->
  filled inp out c nin nout I E m1 (J * c) mm ->
  exists h q i, hold_finish magic lv p (unity_data 0 0 1) (at_round c J) mm =
    Ret ((h, set_position q i p, unity_data (Z.min nin J) J 1), mm).
Proof.
  intros HJ Hl Hf. unfold hold_finish, carry. cbn [in_count used at_round gen ratio index channels].
  set (r := if nin * c <? J * c then _ else _).
  assert (Hu : r.(used) = Z.min nin J * c /\ r.(gen) = J * c).
  { subst r. destruct (Z.ltb_spec (nin * c) (J * c)); cbn; nia. }
  destruct Hu as [Hu Hg]. rewrite Hu, Hg. replace (0 <? Z.min nin J * c) with true by nia.
  destruct (copy_last_run inp out c nin nout I E m1 (unity_data 0 0 1) eq_refl (Z.to_nat c) 0
    (Z.min nin J * c - c) lv (J * c) mm Hf) as (lv' & H1 & _); [nia|nia|lia|lia|].
  rewrite (bindS_Ret _ _ _ _ _ H1). replace (c =? 0) with false by lia.
  rewrite !Z.quot_mul by lia. eexists _, _, _. reflexivity.
Qed.

Lemma zoh_unity_run : nout <= nin + 1 -> exists r m2,
  zoh_vari_process (client SRC_ZERO_ORDER_HOLD) (unity_data 0 0 1) m1 = Ret (r, m2) /\
  r.1.1 = SRC_ERR_NO_ERROR /\ r.1.2.(private_data) <> None /\
  r.2 = unity_data (Z.min nin nout) nout 1 /\
  filled inp out c nin nout I delayed m1 (nout * c) m2.
Proof.
  intros Hle. unfold zoh_vari_process. change (private_data (client SRC_ZERO_ORDER_HOLD))
    with (Some (Zoh (new_hold ZOH_MAGIC_MARKER c))).
  destruct (zoh_reach nout ltac:(lia) Hle) as (lv & f & m2 & Hl & Hf & Hrun).
  unfold bindS at 1. rewrite Hrun. cbn [process_loop]. cbn [gen at_round out_count].
  rewrite Z.ltb_irrefl. cbn [andb]. rewrite bindS_ret.
  destruct (finish_round ZOH_MAGIC_MARKER lv (client SRC_ZERO_ORDER_HOLD) nout delayed m2 ltac:(lia) Hl Hf)
    as (h & q & i & Hfin). rewrite Hfin.
  eexists _, _. split; [reflexivity|]. by split_and!.
Qed.

End Simple.

(** C20: [src_simple] with the zero-order-hold converter at ratio 1 delays its
    input by one frame: for any number of channels, with [nin] input frames and
    room for at most one frame more, it fills the output array with the first
    frame followed by the input, reports the frames generated and used, leaves
    the rest of memory alone and gives back all the blocks it allocated. *)
Theorem zoh_unity_delay {C : Calloc} fc mc hc inp out c nin nout (I : Z -> float) u g e m :
  (forall k n, calloc_ok k n = true) ->
  1 <= c < 2 ^ 28 -> 1 <= nin -> 1 <= nout <= nin + 1 -> (nin + 1) * c <= INT_MAX ->
  inp + nin * c <= out \/ out + nout * c <= inp -> inp <> 0 -> out <> 0 ->
  (forall i, 0 <= i < nin * c -> m.(cells) !! (inp + i) = Some (I i)) ->
  (forall i, 0 <= i < nout * c -> is_Some (m.(cells) !! (out + i))) ->
  exists d m',
    src_simple fc mc hc (SrcData inp out nin nout u g e (dbl 1)) SRC_ZERO_ORDER_HOLD c m
      = Ret ((SRC_ERR_NO_ERROR, d), m') /\
    d.(input_frames_used) = Z.min nin nout /\ d.(output_frames_gen) = nout /\
    (forall i, 0 <= i < nout * c ->
       m'.(cells) !! (out + i) = Some (I (if i <? c then i else i - c))) /\
    (forall a, ~ out <= a < out + nout * c -> m'.(cells) !! a = m.(cells) !! a) /\
    m'.(live) = m.(live).
Proof.
  intros Hcal Hc Hn Ho Hin Hsep Hni Hno Hi Hr.
  assert (Hout : nout * c <= INT_MAX) by nia.
  destruct (zoh_unity_run inp out c nin nout I m)
    as ([[er p] d] & m2 & Hrun & Her & Hpd & Hd & [F1 F2 F3 F4 F5 F6]); [done || lia..|].
  cbn [fst snd] in *. eexists _, _.
  change (SrcData inp out nin nout u g e (dbl 1)) with (unity_data inp out nin nout u g e).
  rewrite (src_simple_unity fc mc hc Hcal inp out c nin nout) with (r := (er, p, d)) (m2 := m2);
    [|done || lia || by left..].
  cbn [fst snd]. rewrite Her, Hd. split_and!; [done|done|done|done|done|]. cbn. rewrite F6. cbn. lia.
Qed.

(** One channel, three frames from address 10 to four at address 20. *)
Lemma zoh_unity_delay_witness : exists d m',
  src_simple (C := calloc_always) no_coeffs no_coeffs no_coeffs (SrcData 10 20 3 4 0 0 0 (dbl 1))
    SRC_ZERO_ORDER_HOLD 1
    (Smem (list_to_map [(10, dbl 5); (11, dbl 6); (12, dbl 7); (20, dbl 0); (21, dbl 0); (22, dbl 0);
                        (23, dbl 0)]) 0 0) = Ret ((SRC_ERR_NO_ERROR, d), m') /\
  d.(output_frames_gen) = 4 /\ m'.(cells) !! 20 = Some (dbl 5) /\ m'.(cells) !! 23 = Some (dbl 7).
Proof.
  destruct (zoh_unity_delay (C := calloc_always) no_coeffs no_coeffs no_coeffs 10 20 1 3 4
    (fun i => dbl (i + 5)) 0 0 0
    (Smem (list_to_map [(10, dbl 5); (11, dbl 6); (12, dbl 7); (20, dbl 0); (21, dbl 0); (22, dbl 0);
                        (23, dbl 0)]) 0 0)) as (d & m' & H1 & _ & H2 & H3 & _).
  - done.
  - lia.
  - lia.
  - lia.
  - unfold INT_MAX. lia.
  - left. lia.
  - done.
  - done.
  - intros i Hi. assert (i = 0 \/ i = 1 \/ i = 2) as [-> | [-> | ->]] by lia; reflexivity.
  - intros i Hi. assert (i = 0 \/ i = 1 \/ i = 2 \/ i = 3) as [-> | [-> | [-> | ->]]] by lia; by eexists.
  - exists d, m'. split; [exact H1|]. split; [exact H2|]. split.
    + exact (H3 0 ltac:(lia)).
    + exact (H3 3 ltac:(lia)).
Defined.

(** ** The linear converter *)

Section Overread.
Context {C : Calloc} (fc mc hc : coeff_table).
Context (calloc_succeeds : forall k n, calloc_ok k n = true).

(** [src_simple] with the linear converter at ratio 1 reads behind its
    input: when there is room for more frames than the input has and no cell
    behind the input array, the access is undefined, for any number of channels
    and frames.  Its main loop runs while [in_used <= in_count], but a sample is
    interpolated with the one at [in_used]. *)
Theorem linear_unity_overreads inp out c nin nout (I : Z -> float) u g e m :
  1 <= c < 2 ^ 28 -> 1 <= nin < nout -> nout * c <= INT_MAX ->
  inp + nin * c <= out \/ out + nout * c <= inp -> inp <> 0 -> out <> 0 ->
  (forall i, 0 <= i < nin * c -> m.(cells) !! (inp + i) = Some (I i)) ->
  (forall i, 0 <= i < nout * c -> is_Some (m.(cells) !! (out + i))) ->
  m.(cells) !! (inp + nin * c) = None ->
  src_simple fc mc hc (SrcData inp out nin nout u g e (dbl 1)) SRC_LINEAR c m = UB OutOfBounds.
Proof.
  intros Hc Hn Hout Hsep Hni Hno Hi Hr Hend.
  assert (Hin : (nin + 1) * c <= INT_MAX) by nia.
  change (SrcData inp out nin nout u g e (dbl 1)) with (unity_data inp out nin nout u g e).
  unfold src_simple. unfold bindS at 1. rewrite src_new_run by (done || by right).
  rewrite !calloc_succeeds. cbn [negb].
  change (set_eoi 1 (unity_data inp out nin nout u g e)) with (unity_data inp out nin nout u g 1).
  unfold bindS at 1. rewrite src_process_unity by (done || lia || by right).
  change (SRC_LINEAR =? SRC_ZERO_ORDER_HOLD) with false. cbn [call_process].
  unfold linear_vari_process. change (private_data (set_position _ _ (new_client SRC_LINEAR c)))
    with (Some (Linear (new_hold LINEAR_MAGIC_MARKER c))).
  set (E := fun i => if i <? c then linear_mix (I i) (I i) (dbl 0) else linear_mix (I (i - c)) (I i) (dbl 0)).
  destruct (unity_reach inp out c nin nout I m Hc) with (E := E) (stop := fun x y => y .< x)
    (fs := linear_first_sample) (ms := linear_main_sample) (magic := LINEAR_MAGIC_MARKER) (e := 1) (J := nin)
    (p := set_position (dbl 1) (dbl 0) (new_client SRC_LINEAR c)) as (lv & f & m2 & Hl & Hf & Hrun);
    [done || lia..| | | |].
  - rewrite dbl_lt by (unfold INT_MAX in *; nia). nia.
  - intros lv i m' Hl Hv Hci Hf. unfold linear_first_sample, E. replace (i <? c) with true by lia.
    rewrite (bindS_Ret _ _ _ (I i) m') by (apply geta_lookup; [cbn [last_value]; lia|by apply Hv]).
    cbn [data_in unity_data]. rewrite (bindS_Ret _ _ _ (I i) m') by (eapply loadf_filled; [done|nia]). done.
  - intros lv j i m' Hj Hci Hf. unfold linear_main_sample, E. replace (j * c + i <? c) with false by nia.
    cbn [data_in unity_data used at_round channels].
    replace (j * c - c + i) with (j * c + i - c) by lia.
    rewrite (bindS_Ret _ _ _ (I (j * c + i - c)) m') by (eapply loadf_filled; [done|nia]).
    rewrite (bindS_Ret _ _ _ (I (j * c + i)) m') by (eapply loadf_filled; [done|nia]). done.
  - cbv zeta in Hrun. rewrite !bindS_assoc. unfold bindS at 1. rewrite Hrun. clear Hrun.
    cbn [process_loop]. cbn [gen at_round out_count].
    rewrite (proj2 (Z.ltb_lt (nin * c) (nout * c))) by nia.
    unfold at_round at 1. rewrite (reach_round c) by (done || lia || (unfold INT_MAX in *; nia)). cbn [in_count].
    rewrite dbl_le, Z.leb_refl by (unfold INT_MAX in *; nia). cbn [andb channels].
    destruct (Z.to_nat c) as [|k] eqn:Ek; [lia|]. cbn [emit]. unfold linear_main_sample at 1.
    cbn [data_in unity_data used at_round channels].
    rewrite !bindS_assoc.
    rewrite (bindS_Ret _ _ _ (I (nin * c - c + 0)) m2) by (eapply loadf_filled; [done|nia]).
    rewrite !bindS_assoc. unfold bindS at 1, loadf at 1. rewrite Z.add_0_r.
    rewrite (filled_other _ _ _ _ _ _ _ _ _ _ Hf); [cbn [cells after_calloc]; by rewrite Hend|].
    intros Hrange. destruct (Hr (inp + nin * c - out) ltac:(lia)) as [v Hv].
    replace (out + (inp + nin * c - out)) with (inp + nin * c) in Hv by lia. congruence.
Qed.

End Overread.

Lemma linear_unity_overreads_witness :
  src_simple (C := calloc_always) no_coeffs no_coeffs no_coeffs (SrcData 10 20 1 2 0 0 0 (dbl 1))
    SRC_LINEAR 1 (Smem (list_to_map [(10, dbl 5); (20, dbl 0); (21, dbl 0)]) 0 0) = UB OutOfBounds.
Proof.
  apply (linear_unity_overreads (C := calloc_always) no_coeffs no_coeffs no_coeffs (fun _ _ => eq_refl)
    10 20 1 1 2 (fun i => dbl 5)).
  - lia.
  - lia.
  - unfold INT_MAX. lia.
  - left. lia.
  - done.
  - done.
  - intros i Hi. assert (i = 0) as -> by lia. reflexivity.
  - intros i Hi. assert (i = 0 \/ i = 1) as [-> | ->] by lia; by eexists.
  - reflexivity.
Defined.

(** Without input the zero-order-hold converter reads in front of its input:
    the main loop runs once and takes the frame before [in_used], which is 0. *)
Lemma zoh_empty_underreads :
  src_simple (C := calloc_always) no_coeffs no_coeffs no_coeffs (SrcData 10 20 0 1 0 0 0 (dbl 1))
    SRC_ZERO_ORDER_HOLD 1 (Smem (list_to_map [(10, dbl 5); (20, dbl 0)]) 0 0) = UB OutOfBounds.
Proof. vm_compute. reflexivity. Qed.
