(* ===== verification/SrcBuffer.v ===== *)
(** * SrcBuffer: the sample buffer of the sinc converter

    The buffer is a window on the stream of samples: [window] is the history of
    [half] samples before [b_current] and the samples from there to [b_end].
    [prepare_data] appends input to it, whatever it moves; with a ratio near the
    smallest one that is accepted it copies a negative number of bytes. *)

From S2P Require Import Prelude SrcFloat SrcCommon SrcHold SrcSinc SampleRate SrcLogic SrcNew.

(** ** Segments of arrays *)

Definition seg {A} (b : list A) (i n : Z) : list A := take (Z.to_nat n) (drop (Z.to_nat i) b).

Lemma zlen_seg {A} (b : list A) i n : 0 <= i -> 0 <= n -> i + n <= zlen b -> zlen (seg b i n) = n.
Proof. unfold seg, zlen. intros. rewrite length_take, length_drop. lia. Qed.

(** Writing behind a segment extends it. *)
Lemma seg_extend {A} (b s : list A) i n :
  0 <= i -> 0 <= n -> i + n + zlen s <= zlen b ->
  seg (splice b (i + n) s) i (n + zlen s) = seg b i n ++ s.
Proof.
  unfold seg, splice, zlen. intros.
  rewrite drop_app_le by (rewrite length_take; lia).
  rewrite app_assoc, take_app_le, take_ge.
  - f_equal. rewrite take_drop_commute. f_equal. f_equal. lia.
  - rewrite length_app, length_drop, length_take. lia.
  - rewrite length_app, length_drop, length_take. lia.
Qed.

(** Moving a segment to the start. *)
Lemma seg_move {A} (b : list A) i n : 0 <= i -> 0 <= n -> i + n <= zlen b ->
  seg (splice b 0 (seg b i n)) 0 n = seg b i n.
Proof.
  intros. pose proof (zlen_seg b i n) as Hl. specialize (Hl ltac:(lia) ltac:(lia) ltac:(lia)).
  rewrite <- Hl at 2. replace (zlen (seg b i n)) with (0 + zlen (seg b i n)) by lia.
  change 0 with (0 + 0) at 1. rewrite seg_extend by lia. done.
Qed.

(** ** The window *)

(** The window when the next data is prepared: a buffer that was just reset
    starts with [half] samples of silence. *)
Definition window (half : Z) (f : SINC_FILTER) : list float :=
  if f.(b_current) =? 0 then seg f.(buffer) 0 half
  else seg f.(buffer) (f.(b_current) - half) (half + (f.(b_end) - f.(b_current))).

Record buffer_ok (half : Z) (f : SINC_FILTER) : Prop := BufferOk {
  bo_channels : 0 < f.(s_channels) <= half;
  bo_room : 4 * half + 5 <= f.(b_len);
  bo_length : zlen f.(buffer) = f.(b_len) + f.(s_channels) + 1;
  bo_window : f.(b_current) = 0 \/
    (half <= f.(b_current) <= f.(b_end) /\ f.(b_end) <= f.(b_len))
}.

(** The samples of the input from the address [a]. *)
Lemma load_floats_run I n : forall a m,
  (forall i, 0 <= i < Z.of_nat n -> m.(cells) !! (a + i) = Some (I i)) ->
  load_floats n a m = Ret (map (fun k => I (Z.of_nat k)) (List.seq 0 n), m).
Proof.
  revert I. induction n as [|n IH]; intros I a m H; cbn [load_floats]; [done|].
  rewrite (bindS_Ret _ _ _ (I 0) m).
  2:{ unfold loadf. pose proof (H 0 ltac:(lia)) as H0. rewrite Z.add_0_r in H0. by rewrite H0. }
  assert (H1 : forall i, 0 <= i < Z.of_nat n -> m.(cells) !! (a + 1 + i) = Some (I (i + 1))).
  { intros i Hi. replace (a + 1 + i) with (a + (i + 1)) by lia. apply H. lia. }
  rewrite (bindS_Ret _ _ _ _ _ (IH (fun i => I (i + 1)) (a + 1) m H1)).
  unfold retS. do 2 f_equal. cbn [List.seq map]. f_equal. rewrite <- seq_shift, map_map.
  apply map_ext. intros k. f_equal. lia.
Qed.

Lemma move_down_run half f m : buffer_ok half f -> f.(b_current) <> 0 ->
  exists f', move_down half f m = Ret (f', m) /\ buffer_ok half f' /\ io_kept f f' /\
    window half f' = window half f /\ f'.(b_current) = half /\
    f'.(b_end) = half + (f.(b_end) - f.(b_current)) /\
    f'.(b_len) = f.(b_len) /\ f'.(b_real_end) = f.(b_real_end) /\ f'.(s_in_used) = f.(s_in_used).
Proof.
  intros [H1 H2 H3 [H4|H4]] Hc; [done|]. unfold move_down, memmove_down.
  set (n := half + _). set (i := f.(b_current) - half).
  replace (0 <=? n) with true by lia. replace (0 <=? i) with true by lia.
  replace (i + n <=? zlen f.(buffer)) with true by lia. cbn [andb].
  pose proof (zlen_seg f.(buffer) i n ltac:(lia) ltac:(lia) ltac:(lia)) as Hs.
  change (take (Z.to_nat n) (drop (Z.to_nat i) f.(buffer))) with (seg f.(buffer) i n).
  rewrite buf_write_ok by lia. eexists. split; [reflexivity|]. cbn [set_window set_buffer b_current b_end b_len b_real_end s_in_used].
  split_and!; try done.
  - split; cbn; [done|done|rewrite zlen_splice by lia; done|right; lia].
  - unfold window. cbn [b_current b_end buffer set_window set_buffer].
    rewrite !(proj2 (Z.eqb_neq _ 0)) by lia. rewrite Z.sub_diag. fold n.
    replace (half + (n - half)) with n by lia. apply seg_move; lia.
Qed.

(** A filter that has the same stream as [f]: the window, the counters and the
    end are the same, and [b_current] has its history before it. *)
Record same_stream (half : Z) (f f' : SINC_FILTER) : Prop := SameStream {
  ss_ok : buffer_ok half f';
  ss_io : io_kept f f';
  ss_window : window half f' = window half f;
  ss_current : half <= f'.(b_current);
  ss_len : f'.(b_len) = f.(b_len);
  ss_end : f'.(b_real_end) = f.(b_real_end);
  ss_used : f'.(s_in_used) = f.(s_in_used)
}.

Lemma move_down_stream half f m : buffer_ok half f -> f.(b_current) <> 0 ->
  exists f', move_down half f m = Ret (f', m) /\ same_stream half f f' /\
    f'.(b_current) = half /\ f'.(b_end) = half + (f.(b_end) - f.(b_current)).
Proof.
  intros Hf Hc. destruct (move_down_run half f m Hf Hc) as (f' & H1 & H2 & H3 & H4 & H5 & H6 & H7 & H8 & H9).
  exists f'. split_and!; [done| |done|done]. split; try done. lia.
Qed.

Lemma prepare_room_run half f m : buffer_ok half f ->
  (f.(b_current) <> 0 -> f.(b_end) - f.(b_current) <= half) ->
  exists room f', prepare_room half f m = Ret ((room, f'), m) /\ same_stream half f f' /\
    f.(s_channels) <= room /\ f'.(b_end) + room <= f.(b_len).
Proof.
  intros Hf Hs. pose proof Hf as [H1 H2 H3 H4]. unfold prepare_room.
  destruct (Z.eqb_spec f.(b_current) 0) as [E|E].
  - eexists _, _. split; [reflexivity|]. cbn [set_window b_end]. split_and!; [|lia..].
    split; try done.
    + split; cbn; [done..|right; lia].
    + unfold window. cbn. rewrite (proj2 (Z.eqb_neq half 0)) by lia. rewrite E. cbn.
      by rewrite !Z.sub_diag, Z.add_0_r.
  - destruct H4 as [|H4]; [done|]. specialize (Hs E).
    destruct (Z.ltb_spec (f.(b_end) + half + f.(s_channels)) f.(b_len)).
    + eexists _, _. split; [reflexivity|]. split_and!; [|lia..]. split; done || lia.
    + destruct (move_down_stream half f m Hf E) as (f' & Hm & Hst & Hb & He).
      rewrite (bindS_Ret _ _ _ _ _ Hm). eexists _, _. split; [reflexivity|].
      rewrite Hb, He, (ss_len _ _ _ Hst). split_and!; [done|lia..].
Qed.

(** The samples taken from the input. *)
Definition chunk (I : Z -> float) (from n : Z) : list float :=
  map (fun k => I (from + Z.of_nat k)) (List.seq 0 (Z.to_nat n)).

Lemma zlen_chunk I from n : 0 <= n -> zlen (chunk I from n) = n.
Proof. intros. unfold chunk. rewrite zlen_map. unfold zlen. rewrite length_seq. lia. Qed.

(** Whole frames of at most [x] samples. *)
Lemma whole_frames x c : 0 < c -> 0 <= x ->
  0 <= x - Z.rem x c <= x /\ (c | x - Z.rem x c) /\ (c <= x -> 0 < x - Z.rem x c).
Proof.
  intros Hc Hx. rewrite Z.rem_mod_nonneg by lia. pose proof (Z.mod_pos_bound x c Hc).
  pose proof (Z.mod_le x c Hx Hc). split_and!; [lia|lia| |lia].
  exists (x / c). pose proof (Z.div_mod x c). lia.
Qed.

(** The state behind a load of [n] samples. *)
Definition loaded (f : SINC_FILTER) (b : list float) (n : Z) : SINC_FILTER :=
  set_used (f.(s_in_used) + n) (set_window f.(b_current) (f.(b_end) + n) (set_buffer b f)).

Lemma load_run I half f f1 data n m :
  same_stream half f f1 -> 0 <= n -> f1.(b_end) + n <= f.(b_len) -> 0 <= f.(s_in_used) ->
  f.(s_in_used) + n <= f.(s_in_count) ->
  (forall i, 0 <= i < f.(s_in_count) -> m.(cells) !! (data.(data_in) + i) = Some (I i)) ->
  exists b, memcpy_in f1.(buffer) f1.(b_end) (data.(data_in) + f1.(s_in_used)) n m = Ret (b, m) /\
    buffer_ok half (loaded f1 b n) /\
    window half (loaded f1 b n) = window half f ++ chunk I f.(s_in_used) n.
Proof.
  intros [[O1 O2 O3 O4] Hio Hw Hc Hl _ Hu] Hn Hfit Hu0 Hcnt Hmem. unfold memcpy_in.
  replace (n <? 0) with false by lia. rewrite Hu.
  rewrite (bindS_Ret _ _ _ (chunk I f.(s_in_used) n) m).
  2:{ apply (load_floats_run (fun i => I (f.(s_in_used) + i))). intros i Hi.
      rewrite <- Z.add_assoc. apply Hmem. lia. }
  pose proof (zlen_chunk I f.(s_in_used) n Hn) as Hch.
  destruct O4 as [O4|O4]; [lia|]. unfold liftS. rewrite buf_write_ok by lia. eexists. split; [reflexivity|].
  split.
  - split; cbn; [done..|rewrite zlen_splice by lia; done|right; lia].
  - rewrite <- Hw. unfold window, loaded. cbn [b_current b_end buffer set_used set_io set_window set_buffer].
    rewrite !(proj2 (Z.eqb_neq f1.(b_current) 0)) by lia.
    set (i := f1.(b_current) - half). set (k := half + (f1.(b_end) - f1.(b_current))).
    replace (half + (f1.(b_end) + n - f1.(b_current))) with (k + zlen (chunk I f.(s_in_used) n)) by lia.
    replace f1.(b_end) with (i + k) by lia. apply seg_extend; lia.
Qed.

(** Silence behind the last sample. *)
Lemma prepare_end_run half f m :
  buffer_ok half f -> half <= f.(b_current) -> f.(b_end) - f.(b_current) < 2 * half ->
  exists f', prepare_end half f m = Ret (f', m) /\ buffer_ok half f' /\ half <= f'.(b_current) /\
    window half f' = window half f ++ repeat (dbl 0) (Z.to_nat (half + 5)) /\
    f'.(b_real_end) = f'.(b_end) - (half + 5) /\ f'.(s_in_used) = f.(s_in_used).
Proof.
  intros Hf Hc Hs. pose proof Hf as [H1 H2 H3 H4]. unfold prepare_end.
  assert (Hg : exists f1, (if f.(b_len) - f.(b_end) <? half + 5 then move_down half f else retS f) m = Ret (f1, m) /\
    same_stream half f f1 /\ f1.(b_end) + (half + 5) <= f1.(b_len)).
  { destruct (Z.ltb_spec (f.(b_len) - f.(b_end)) (half + 5)).
    - destruct (move_down_stream half f m Hf ltac:(lia)) as (f1 & Hm & Hst & Hb & He).
      exists f1. rewrite He, (ss_len _ _ _ Hst). split_and!; [done|done|lia].
    - exists f. split_and!; [done| |lia]. by split. }
  destruct Hg as (f1 & Hm & [[O1 O2 O3 O4] Hio Hw Hc1 Hl Hr Hu] & Hfit). rewrite (bindS_Ret _ _ _ _ _ Hm).
  cbv zeta. cbn [buffer b_end set_real_end]. unfold fill. replace (half + 5 <? 0) with false by lia.
  set (z := repeat (dbl 0) (Z.to_nat (half + 5))).
  assert (Hz : zlen z = half + 5) by (unfold z; rewrite zlen_repeat; lia).
  destruct O4 as [O4|O4]; [lia|]. unfold liftS, bindS. rewrite buf_write_ok by lia. cbn [obind].
  eexists. split; [reflexivity|]. cbn [b_current b_end b_real_end s_in_used set_window set_buffer set_real_end].
  split_and!; [|done| |lia|done].
  - split; cbn; [done..|rewrite zlen_splice by lia; done|right; lia].
  - rewrite <- Hw. unfold window. cbn [b_current b_end buffer set_window set_buffer set_real_end].
    rewrite !(proj2 (Z.eqb_neq f1.(b_current) 0)) by lia.
    set (i := f1.(b_current) - half). set (k := half + (f1.(b_end) - f1.(b_current))).
    replace (half + (f1.(b_end) + (half + 5) - f1.(b_current))) with (k + zlen z) by lia.
    replace f1.(b_end) with (i + k) by lia. apply seg_extend; lia.
Qed.

(** C26: [prepare_data] appends to the stream of samples: it neither leaves the
    buffer nor the input, keeps the history and the samples in hand in whatever
    place it moves them to, appends [n] samples of the input in order, a
    positive number of whole frames when a frame is left, and counts them; at
    the end of the input it appends silence for the last half of the filter and
    marks where the data ends. *)
Theorem prepare_data_appends I half f data m :
  buffer_ok half f -> f.(b_real_end) = -1 ->
  (f.(b_current) <> 0 -> f.(b_end) - f.(b_current) <= half) ->
  0 <= f.(s_in_used) <= f.(s_in_count) ->
  (forall i, 0 <= i < f.(s_in_count) -> m.(cells) !! (data.(data_in) + i) = Some (I i)) ->
  exists f' n, prepare_data f data half m = Ret (f', m) /\ buffer_ok half f' /\ half <= f'.(b_current) /\
    0 <= n /\ (f.(s_channels) | n) /\ (f.(s_in_used) + f.(s_channels) <= f.(s_in_count) -> 0 < n) /\
    f'.(s_in_used) = f.(s_in_used) + n /\ f'.(s_in_used) <= f.(s_in_count) /\
    ((f'.(b_real_end) = -1 /\ window half f' = window half f ++ chunk I f.(s_in_used) n) \/
     (f'.(s_in_used) = f.(s_in_count) /\ data.(end_of_input) <> 0 /\
      f'.(b_real_end) = f'.(b_end) - (half + 5) /\
      window half f' = window half f ++ chunk I f.(s_in_used) n ++ repeat (dbl 0) (Z.to_nat (half + 5)))).
Proof.
  intros Hf Hre Hs Hu Hmem. unfold prepare_data. rewrite Hre. cbn [Z.leb Z.compare].
  destruct (prepare_room_run half f m Hf Hs) as (room & f1 & Hr & Hst & Hroom & Hfit).
  rewrite (bindS_Ret _ _ _ _ _ Hr). cbv zeta. pose proof (bo_channels _ _ Hf) as Hc.
  destruct (ss_io _ _ _ Hst) as [Hio _]. injection Hio as E1 E2 E3 E4 E5.
  rewrite E1, E2, (ss_used _ _ _ Hst). replace (f.(s_channels) =? 0) with false by lia.
  set (x := Z.min _ room).
  destruct (whole_frames x f.(s_channels) ltac:(lia) ltac:(lia)) as (Hn & Hdiv & Hpos).
  set (n := x - Z.rem x f.(s_channels)) in *.
  destruct (load_run I half f f1 data n m Hst ltac:(lia) ltac:(lia) ltac:(lia) ltac:(lia) Hmem) as (b & Hb & Hok & Hw).
  rewrite (ss_used _ _ _ Hst) in Hb. rewrite (bindS_Ret _ _ _ _ _ Hb).
  assert (E6 : (loaded f1 b n).(s_in_used) = f.(s_in_used) + n) by (cbn; by rewrite (ss_used _ _ _ Hst)).
  replace (set_used (f.(s_in_used) + n) _) with (loaded f1 b n)
    by (unfold loaded; by rewrite (ss_used _ _ _ Hst)).
  destruct (((loaded f1 b n).(s_in_used) =? _) && _ && _) eqn:Hcond.
  - apply andb_prop in Hcond as [[H1%Z.eqb_eq H2%Z.ltb_lt]%andb_prop H3].
    destruct (prepare_end_run half (loaded f1 b n) m Hok (ss_current _ _ _ Hst) H2)
      as (f' & He & Hok' & Hc' & Hw' & Hr' & Hu').
    exists f', n. rewrite Hu', E6. split_and!; [done|done|done|lia|done|lia|done|lia|]. right.
    rewrite Hw', Hw, <- app_assoc. split_and!; [|lia|done|done].
    rewrite E6 in H1. cbn in H1. lia.
  - exists (loaded f1 b n), n. split_and!; [done|done|apply (ss_current _ _ _ Hst)|lia|done|lia|done|lia|]. left.
    split; [|done]. cbn. by rewrite (ss_end _ _ _ Hst).
Qed.

(** A buffer for 9 samples of one channel, and three samples of input. *)
Definition demo_filter : SINC_FILTER :=
  Sinc SINC_MAGIC_MARKER 1 3 0 4 0 3 1 (dbl 0) (dbl 0) [dbl 1; dbl 1; dbl 0] 0 0 (-1) 9
    (repeat (dbl 0) 11).

Lemma prepare_data_appends_witness : exists f' n,
  prepare_data demo_filter (SrcData 10 20 3 4 0 0 0 (dbl 1)) 1
    (Smem (list_to_map [(10, dbl 5); (11, dbl 6); (12, dbl 7)]) 0 0) =
    Ret (f', Smem (list_to_map [(10, dbl 5); (11, dbl 6); (12, dbl 7)]) 0 0) /\
  0 < n /\ f'.(s_in_used) = n.
Proof.
  destruct (prepare_data_appends (fun i => dbl (5 + i)) 1 demo_filter (SrcData 10 20 3 4 0 0 0 (dbl 1))
    (Smem (list_to_map [(10, dbl 5); (11, dbl 6); (12, dbl 7)]) 0 0))
    as (f' & n & H1 & _ & _ & _ & _ & H2 & H3 & _).
  - split; [cbn; lia|cbn; lia|reflexivity|by left].
  - reflexivity.
  - intros H. exfalso. apply H. reflexivity.
  - cbn. lia.
  - intros i Hi. assert (i = 0 \/ i = 1 \/ i = 2) as [-> | [-> | ->]]; [cbn in Hi; lia|reflexivity..].
  - exists f', n. split; [exact H1|]. split; [apply H2; cbn; lia|exact H3].
Defined.

(** ** The smallest ratio *)

(** A filter longer than half the buffer: the room is negative. *)
Lemma prepare_data_negative f data half m :
  f.(b_real_end) < 0 -> f.(b_current) = 0 -> 0 < f.(s_channels) ->
  f.(b_len) + f.(s_channels) <= 2 * half ->
  prepare_data f data half m = UB OutOfBounds.
Proof.
  intros Hr Hb Hc Hl. unfold prepare_data. replace (0 <=? f.(b_real_end)) with false by lia.
  unfold prepare_room. rewrite Hb, Z.eqb_refl, bindS_ret. cbv zeta.
  cbn [set_window s_channels s_in_count s_in_used b_len].
  replace (f.(s_channels) =? 0) with false by lia.
  set (x := Z.min _ _). assert (Hx : x <= - f.(s_channels)) by lia.
  assert (Hn : x - Z.rem x f.(s_channels) < 0).
  { pose proof (Z.rem_opp_l x f.(s_channels) ltac:(lia)) as Ho.
    rewrite Z.rem_mod_nonneg in Ho by lia. pose proof (Z.mod_pos_bound (- x) f.(s_channels) Hc). lia. }
  unfold memcpy_in. by rewrite (proj2 (Z.ltb_lt _ 0) Hn).
Qed.

Section Smallest.
Context {C : Calloc} (fastest mc hc : coeff_table).
Context (calloc_succeeds : forall k n, calloc_ok k n = true).
(** What fastest_coeffs.h declares. *)
Context (Hinc : fastest.(increment) = 128) (Hlen : zlen fastest.(coeffs) = 2464).

(** The smallest ratio that [is_bad_src_ratio] accepts. *)
Definition smallest : double := dbl 1 ./ dbl 256.

Definition fastest_filter (c : Z) (b : list float) : SINC_FILTER :=
  Sinc SINC_MAGIC_MARKER c 0 0 0 0 2463 128 (dbl 0) (dbl 0) fastest.(coeffs) 0 0 (-1) (4096 * c) b.

Definition fastest_client (c : Z) (b : list float) : SRC_PRIVATE :=
  SrcPrivate (dbl 0) (dbl 0) 0 c SRC_MODE_PROCESS (Some (SincF (fastest_filter c b)))
    (Some sinc_vari_process_p) (Some sinc_vari_process_p) (Some sinc_reset_p) None 0 0 0.

Lemma fill_run l i n v m : 0 <= i -> 0 <= n -> i + n <= zlen l ->
  exists l', fill l i n v m = Ret (l', m) /\ zlen l' = zlen l.
Proof.
  intros. unfold fill. replace (n <? 0) with false by lia.
  unfold liftS. rewrite buf_write_ok by (rewrite ?zlen_repeat; lia). eexists. split; [done|].
  apply zlen_splice; rewrite ?zlen_repeat; lia.
Qed.

(** [sinc_reset] of a filter with room behind its buffer. *)
Lemma sinc_reset_run psrc f m : psrc.(private_data) = Some (SincF f) ->
  0 <= f.(b_len) -> 0 <= f.(s_channels) -> f.(b_len) + f.(s_channels) <= zlen f.(buffer) ->
  exists b, zlen b = zlen f.(buffer) /\ sinc_reset psrc m =
    Ret (set_private (Some (SincF
        (Sinc f.(sinc_magic_marker) f.(s_channels) f.(s_in_count) f.(s_in_used) f.(s_out_count)
           f.(s_out_gen) f.(coeff_half_len) f.(index_inc) (dbl 0) (dbl 0) f.(s_coeffs)
           0 0 (-1) f.(b_len) b))) psrc, m).
Proof.
  intros Hp Hb Hc Hl. unfold sinc_reset. rewrite Hp.
  destruct (fill_run f.(buffer) 0 f.(b_len) (dbl 0) m) as (b1 & H1 & L1); [lia..|].
  destruct (fill_run b1 f.(b_len) f.(s_channels) aa_float m) as (b2 & H2 & L2); [lia..|].
  exists b2. rewrite (bindS_Ret _ _ _ _ _ H1), (bindS_Ret _ _ _ _ _ H2). split; [congruence|done].
Qed.

Lemma src_new_fastest c m : 1 <= c <= 1000 ->
  exists b, src_new fastest mc hc SRC_SINC_FASTEST c m =
    Ret ((Some (fastest_client c b), SRC_ERR_NO_ERROR), after_calloc 2 2 m).
Proof.
  intros Hc. unfold src_new. replace (c <? 1) with false by lia.
  unfold bindS at 1, calloc at 1. rewrite calloc_succeeds. cbn [negb].
  unfold psrc_set_converter. rewrite bindS_assoc. set (m1 := Smem _ _ _). set (p0 := set_mode _ _).
  assert (Hset : exists b, zlen b = 4096 * c + c + 1 /\
    sinc_set_converter fastest mc hc p0 SRC_SINC_FASTEST m1 =
    Ret ((SRC_ERR_NO_ERROR, fastest_client c b), after_calloc 2 2 m)).
  { unfold sinc_set_converter. change (32 - 1 <=? SHIFT_BITS) with false. cbn iota.
    rewrite (bindS_Ret _ _ _ p0 m1) by done. cbv zeta.
    change (sinc_coeffs fastest mc hc SRC_SINC_FASTEST) with (Some fastest). cbn iota.
    change (psrc_channels (set_process sinc_vari_process_p sinc_reset_p p0)) with c.
    rewrite Hinc, Hlen. change (2464 - 1) with 2463.
    rewrite (bindS_Ret _ _ _ (4096 * c) m1).
    2:{ unfold sinc_b_len. rewrite (bindS_Ret _ _ _ 9852 m1) by (vm_compute; reflexivity).
        rewrite (bindS_Ret _ _ _ 20704 m1) by (vm_compute; reflexivity).
        apply long_ok. unfold is_int, INT_MIN, INT_MAX. lia. }
    assert (Hsz : sinc_size (4096 * c + c) = 72 + 4 * (4096 * c + c)).
    { unfold sinc_size, u32. rewrite (Z.mod_small (4 * _)), Z.mod_small by lia. done. }
    unfold bindS at 1, calloc at 1. rewrite calloc_succeeds, Hsz. cbn [negb].
    replace (72 + 4 * (4096 * c + c) <? 72) with false by lia.
    replace ((72 + 4 * (4096 * c + c) - 68) / 4) with (4096 * c + c + 1)
      by (replace (72 + 4 * (4096 * c + c) - 68) with ((4096 * c + c + 1) * 4) by lia; by rewrite Z.div_mul).
    match goal with |- context [set_private (Some (SincF ?f)) ?p] => set (f0 := f); set (p1 := p) end.
    set (m2 := Smem _ _ _).
    assert (Lf : zlen f0.(buffer) = 4096 * c + c + 1) by (cbn [f0 buffer]; rewrite zlen_repeat; lia).
    destruct (sinc_reset_run (set_private (Some (SincF f0)) p1) f0 m2 eq_refl) as (b & Lb & Hr);
      [cbn; lia|cbn; lia|rewrite Lf; cbn; lia|].
    exists b. split; [lia|]. rewrite (bindS_Ret _ _ _ _ _ Hr).
    rewrite (bindS_Ret _ _ _ 12 m2) by reflexivity. cbn [Z.leb]. change (32 <=? 12 + SHIFT_BITS - 1) with false.
    cbn iota. unfold retS. do 2 f_equal. unfold m2, m1, after_calloc. cbn. f_equal. lia. }
  destruct Hset as (b & Lb & Hset). rewrite (bindS_Ret _ _ _ _ _ Hset).
  change (SRC_ERR_NO_ERROR =? SRC_ERR_NO_ERROR) with true. cbn iota. rewrite bindS_ret.
  change (SRC_ERR_NO_ERROR =? SRC_ERR_NO_ERROR) with true. cbn [negb]. rewrite bindS_ret.
  unfold src_reset. cbn [reset fastest_client call_reset].
  destruct (sinc_reset_run (fastest_client c b) (fastest_filter c b) (after_calloc 2 2 m) eq_refl)
    as (b' & _ & Hr); [cbn; lia|cbn; lia|cbn; lia|].
  exists b'. rewrite bindS_assoc, (bindS_Ret _ _ _ _ _ Hr). reflexivity.
Qed.

(** The first call of the process function. *)
Lemma sinc_process_smallest c b d m : 1 <= c <= 1000 ->
  d.(src_ratio) = smallest -> 1 <= d.(output_frames) ->
  0 <= d.(input_frames) * c <= INT_MAX -> d.(output_frames) * c <= INT_MAX ->
  sinc_vari_process (set_position smallest (dbl 0) (fastest_client c b)) d m = UB OutOfBounds.
Proof.
  intros Hc Hq Ho Hi Hoc. unfold sinc_vari_process. cbn [private_data set_position fastest_client].
  cbn [s_channels fastest_filter]. unfold INT_MAX in *.
  rewrite (bindS_Ret _ _ _ _ _ (long_ok (d.(input_frames) * c) m ltac:(unfold is_int, INT_MIN, INT_MAX; lia))).
  rewrite (bindS_Ret _ _ _ _ _ (long_ok (d.(output_frames) * c) m ltac:(unfold is_int, INT_MIN, INT_MAX; nia))).
  set (oc := d.(output_frames) * c). cbv zeta.
  assert (Hh : exists k, 4931 <= k <= 4932 /\ half_filter_chan_len
    (set_position smallest (dbl 0) (fastest_client c b)) d (set_io (d.(input_frames) * c) 0 oc 0 (fastest_filter c b)) m
    = Ret (c * k, m)).
  { unfold half_filter_chan_len. cbn [coeff_half_len index_inc set_io fastest_filter last_ratio set_position s_channels].
    rewrite Hq. cbv zeta. exists 4931. split; [lia|].
    rewrite (bindS_Ret _ _ _ 4930 m) by (vm_compute; reflexivity).
    apply long_ok. unfold is_int, INT_MIN, INT_MAX. lia. }
  destruct Hh as (k & Hk & Hh). rewrite (bindS_Ret _ _ _ _ _ Hh). clear Hh.
  cbn [last_position set_position last_ratio fastest_client].
  rewrite (bindS_Ret _ _ _ (set_io (d.(input_frames) * c) 0 oc 0 (fastest_filter c b), dbl 0) m).
  2:{ unfold advance. rewrite (bindS_Ret _ _ _ (dbl 0) m) by reflexivity.
      rewrite (bindS_Ret _ _ _ 0 m) by reflexivity. cbn [s_channels set_io fastest_filter b_current b_len b_end].
      rewrite Z.mul_0_r. rewrite (bindS_Ret _ _ _ 0 m) by reflexivity.
      rewrite (bindS_Ret _ _ _ 0 m) by reflexivity. replace (4096 * c =? 0) with false by lia.
      rewrite Z.rem_0_l by lia. reflexivity. }
  cbn [sinc_loop s_out_gen s_out_count set_io]. replace (0 <? oc) with true by nia. cbn [negb].
  unfold samples_in_hand at 1. cbn [b_end b_current b_len set_io fastest_filter].
  rewrite Z.sub_0_r, Z.add_0_l, Z.rem_same by lia. replace (0 <=? c * k) with true by nia.
  unfold bindS at 1 2. rewrite prepare_data_negative; [done|cbn; lia|done|cbn; lia|cbn; nia].
Qed.

(** The sinc converter cannot be used with the smallest ratio that
    [src_is_valid_ratio] accepts: for a client of [SRC_SINC_FASTEST] (with the
    2464 coefficients and the increment 128 that its header declares), any
    number of channels up to 1000 and any arrays that do not overlap,
    [src_simple] at ratio 1/256 copies a negative number of bytes into its
    buffer, because [b_len] is cut to 4096 frames while the two halves of the
    filter need 9862. *)
Theorem sinc_smallest_ratio_undefined inp out c nin nout u g e m :
  1 <= c <= 1000 -> 0 <= nin -> 1 <= nout -> nin * c <= INT_MAX -> nout * c <= INT_MAX ->
  inp + nin * c <= out \/ out + nout * c <= inp -> inp <> 0 -> out <> 0 -> inp <> out ->
  src_is_valid_ratio smallest = SRC_TRUE /\
  src_simple fastest mc hc (SrcData inp out nin nout u g e smallest) SRC_SINC_FASTEST c m = UB OutOfBounds.
Proof.
  intros Hc Hn Ho Hin Hout Hsep Hni Hno Hne. split; [vm_compute; reflexivity|].
  unfold src_simple. destruct (src_new_fastest c m Hc) as (b & Hnew).
  rewrite (bindS_Ret _ _ _ _ _ Hnew). clear Hnew. set (m1 := after_calloc 2 2 m).
  unfold bindS at 1. rewrite (src_process_first _ sinc_vari_process_p); try done.
  - cbn [call_process last_position fastest_client src_ratio set_eoi]. unfold bindS at 1.
    rewrite sinc_process_smallest; [done|done|done|cbn; lia|cbn; lia|cbn; lia].
  - cbn. lia.
  - apply no_data_overlap; cbn; [lia|nia|done|done].
Qed.

End Smallest.

Lemma sinc_smallest_ratio_undefined_witness :
  src_simple (C := calloc_always) (Coeffs 128 (repeat (dbl 0) 2464)) no_coeffs no_coeffs
    (SrcData 10 20 1 1 0 0 0 smallest) SRC_SINC_FASTEST 1 (Smem ∅ 0 0) = UB OutOfBounds.
Proof.
  apply (sinc_smallest_ratio_undefined (C := calloc_always) (Coeffs 128 (repeat (dbl 0) 2464))
    no_coeffs no_coeffs (fun _ _ => eq_refl) eq_refl eq_refl 10 20 1 1 1 0 0 0 (Smem ∅ 0 0));
    unfold INT_MAX; (lia || done).
Defined.
