(* ===== verification/ClientTypes.v ===== *)
(** * ClientTypes: every operation of the RAOP client keeps its structure well-formed

    [client_inv] of [PlayInvariant] is the type invariant of [raopcl_data_t]: keys and
    vectors of the right sizes that belong together, counts that are not negative, 32-bit
    words.  [raopcl_open] establishes it, and here the operations that the main loop
    does not run are added, so that it holds after any sequence of the operations of
    raop_client.h on a client. *)

From S2P Require Import Prelude AesTables Aes AesKeys Base64 Sys AexclLib FdEvent AudioStream RtspClient RaopClient RaopCrypto RaopOpen Frame PlayInvariant.

(** ** Helpers that change no client *)

Section Helpers.
Context {E : Env} {L : LineBound}.

Hint Resolve framed_key_of framed_data_of framed_set_key framed_set_data framed_strcat framed_kd_at
  framed_kd_update framed_kd_memset framed_realloc_kd framed_kd_fuel framed_kd_lookup framed_free_kd
  framed_exec_request framed_exec_own framed_char_at framed_the framed_malloc_kd : frame.

Lemma framed_exthds_slot n a : forall i, Framed (exthds_slot n a i).
Proof. induction n; intros i; cbn [exthds_slot]; frame. Qed.
Lemma framed_mark_loop n a k : forall i, Framed (mark_loop n a k i).
Proof. induction n; intros i; cbn [mark_loop]; frame. Qed.
Hint Resolve framed_exthds_slot framed_mark_loop : frame.

Lemma framed_add_exthds p k v : Framed (rtspcl_add_exthds p k v).
Proof. unfold rtspcl_add_exthds. frame. Qed.
Lemma framed_mark_del p k : Framed (rtspcl_mark_del_exthds p k).
Proof. unfold rtspcl_mark_del_exthds. frame. Qed.
Lemma framed_rtspcl_open u : Framed (rtspcl_open u).
Proof. unfold rtspcl_open. frame. Qed.

Lemma framed_bind_host sd h a p : Framed (bind_host sd h a p).
Proof. unfold bind_host, gethostbyname, inet_addr. frame. Qed.
Hint Resolve framed_bind_host : frame.
Lemma framed_open_socket ty h p : Framed (open_socket ty h p).
Proof. unfold open_socket. frame. Qed.
Lemma framed_get_tcp_connect sd f a p : Framed (get_tcp_connect sd f a p).
Proof. unfold get_tcp_connect. frame. Qed.
Hint Resolve framed_open_socket framed_get_tcp_connect : frame.
Lemma framed_by_host sd h p : Framed (get_tcp_connect_by_host sd h p).
Proof. unfold get_tcp_connect_by_host, gethostbyname, inet_addr. frame. Qed.
Hint Resolve framed_by_host framed_add_exthds framed_mark_del framed_rtspcl_open : frame.

Lemma framed_rtspcl_connect p h d sid : Framed (rtspcl_connect p h d sid).
Proof. unfold rtspcl_connect, open_tcp_socket, get_addr. frame. Qed.
Lemma framed_annouce p sdp : Framed (rtspcl_annouce_sdp p sdp).
Proof. unfold rtspcl_annouce_sdp. frame. Qed.
Lemma framed_rtrim_loop n p : forall i, Framed (rtrim_loop n p i).
Proof. induction n; intros i; cbn [rtrim_loop]; frame. Qed.
Hint Resolve framed_rtrim_loop : frame.
Lemma framed_trim p : Framed (trim p).
Proof. unfold trim, ltrim, rtrim. frame. Qed.
Hint Resolve framed_trim : frame.
Lemma framed_setup p kd : Framed (rtspcl_setup p kd).
Proof. unfold rtspcl_setup. frame. Qed.
Lemma framed_record p : Framed (rtspcl_record p).
Proof. unfold rtspcl_record. frame. Qed.
Lemma framed_options p : Framed (rtspcl_options p).
Proof. unfold rtspcl_options. frame. Qed.
Lemma framed_set_daap p a t n : Framed (rtspcl_set_daap p a t n).
Proof. unfold rtspcl_set_daap. frame. Qed.

Lemma framed_base64_alloc b n : Framed (base64_alloc b n).
Proof. unfold base64_alloc. frame. Qed.
Lemma framed_strip p : Framed (strip_equals p).
Proof. unfold strip_equals. frame. Qed.
Lemma framed_rsa_encrypt b n c : Framed (rsa_encrypt b n c).
Proof. unfold rsa_encrypt. frame. Qed.
Lemma framed_RAND_bytes n : Framed (RAND_bytes n).
Proof. unfold RAND_bytes. frame. Qed.

End Helpers.

#[export] Hint Resolve framed_add_exthds framed_mark_del framed_rtspcl_open framed_open_socket framed_by_host
  framed_rtspcl_connect framed_annouce framed_setup framed_record framed_options framed_set_daap
  framed_base64_alloc framed_strip framed_rsa_encrypt framed_RAND_bytes framed_kd_lookup framed_free_kd
  framed_gettimeofday framed_time : frame.
#[export] Hint Resolve framed_record framed_set_daap keeps_with_rtsp : keeps.

(** ** The operations that connect *)

Section Connect.
Context {E : Env} {L : LineBound} {P : Posix E} (g : aes_globals).

Abbreviation Keeps := (Post (fun r : Z * raopcl_data_t => client_inv g (snd r))).
Abbreviation KeepsO := (Post (fun r : Z * option raopcl_data_t => opt_inv g (snd r))).

Lemma keeps_connectcontrol d p : client_inv g d -> Keeps (raopcl_connectcontrol d p).
Proof. intros Hd. unfold raopcl_connectcontrol, addr_str, open_udp_socket. keeps g. Qed.

Lemma keeps_connecttime d p : client_inv g d -> Keeps (raopcl_connecttime d p).
Proof. intros Hd. unfold raopcl_connecttime, addr_str, open_udp_socket. keeps g. Qed.
Hint Resolve keeps_connectcontrol keeps_connecttime : keeps.

Lemma keeps_stream_connect d : client_inv g d -> Keeps (raopcl_stream_connect d).
Proof.
  intros Hd. unfold raopcl_stream_connect, addr_str, open_udp_socket, open_tcp_socket.
  eapply (post_bind (client_inv g)); [destruct (_ =? 0); keeps g|]. intros d1 Hd1. keeps g.
Qed.
Hint Resolve keeps_stream_connect : keeps.

Lemma keeps_connect_stream d h p : client_inv g d -> Keeps (connect_stream d h p).
Proof.
  intros Hd. unfold connect_stream. eapply (post_bind (fun _ => True)); [frame|]. intros [r a] _.
  destruct (negb _); [apply post_ret; cbn; same_client|].
  eapply (post_bind (fun _ => True)); [frame|]. intros ? _. cbv zeta.
  eapply (post_bind (fun x => client_inv g (snd x))); [apply keeps_stream_connect; same_client|].
  intros [r1 d1] Hd1. keeps g.
Qed.

Lemma keeps_connect_exit r d a b c k : client_inv g d -> Keeps (connect_exit r d a b c k).
Proof. intros Hd. unfold connect_exit. keeps g. Qed.
Hint Resolve keeps_connect_stream keeps_connect_exit : keeps.

Lemma keeps_jack_tokens ts : forall d, client_inv g d -> client_inv g (fold_left jack_token ts d).
Proof.
  induction ts as [|t ts IH]; intros d Hd; [done|]. cbn. apply IH. unfold jack_token.
  destruct (strstr t [61]); [destruct (_ && _)|destruct (str_eqb _ _)]; [same_client|done|same_client|done].
Qed.

Lemma keeps_jack_status d k : client_inv g d -> Post (client_inv g) (jack_status d k).
Proof.
  intros Hd. unfold jack_status. eapply (post_bind (fun _ => True)); [frame|]. intros a _.
  eapply (post_bind (fun _ => True)); [frame|]. intros b _.
  destruct (decide _); [apply post_ret; same_client|]. eapply (post_bind (fun _ => True)); [frame|].
  intros s _. by apply post_ret, keeps_jack_tokens.
Qed.

(** The client is the second component of the identifier, the fifth of the
    announcement. *)
Lemma keeps_session_id d b e :
  client_inv g d -> Post (fun r => client_inv g (snd r)) (session_id d b e).
Proof.
  intros Hd. unfold session_id. destruct (_ =? 0).
  - eapply (post_bind (fun _ => True)); [frame|]. intros ? _. by apply post_ret.
  - do 4 (eapply (post_bind (fun _ => True)); [frame|]; intros ? _). apply post_ret. cbn.
    destruct Hd; split; cbn; try done. unfold is_u32.
    match goal with |- 0 <= ?x mod 4294967295 < _ => pose proof (Z.mod_pos_bound x 4294967295) end. lia.
Qed.

Lemma keeps_announce d r sid h sac :
  client_inv g d -> Post (fun x => client_inv g (snd x)) (connect_announce d r sid h sac).
Proof.
  intros Hd. unfold connect_announce.
  assert (Hr : forall r', client_inv g (set_rtspcl (Some r') d)) by (intros r'; same_client).
  repeat match goal with
  | |- Post _ (bindM _ _) => eapply (post_bind (fun _ => True)); [solve [frame]|]; intros ? _
  | |- Post _ (let '_ := ?x in _) => destruct x
  | |- Post _ (if _ then _ else _) => destruct (negb _)
  | |- Post _ (ret _) => apply post_ret; apply Hr
  end.
Qed.
Hint Resolve keeps_jack_status keeps_session_id keeps_announce : keeps.

(** The exit with a changed RTSP client. *)
Lemma keeps_fail x d v a b c k :
  client_inv g d -> KeepsO (do! '(r, d) <- connect_exit x (set_rtspcl v d) a b c k; ret (r, Some d)).
Proof.
  intros Hd. eapply post_bind; [apply keeps_connect_exit; same_client|]. intros [r d'] Hd'. by apply post_ret.
Qed.
Hint Resolve keeps_fail : keeps.

Lemma keeps_connect p h dp e u : opt_inv g p -> KeepsO (raopcl_connect p h dp e u).
Proof.
  intros Hp. unfold raopcl_connect. destruct p as [d|]; [|keeps g]. cbn in Hp.
  assert (Hd : client_inv g (set_udp u d)) by same_client. cbv zeta.
  eapply (post_bind (fun _ => True)); [frame|]. intros [? buf] _.
  eapply post_bind; [by apply keeps_session_id|]. intros [sid d1] Hd1. cbn [snd] in Hd1.
  do 3 (eapply (post_bind (fun _ => True)); [solve [frame]|]; intros ? _).
  match goal with |- Post _ (match ?rc with _ => _ end) => destruct rc as [r|] end; [|by apply keeps_fail].
  destruct (rtspcl_set_useragent r _) as [? r1].
  do 3 (eapply (post_bind (fun _ => True)); [solve [frame]|]; intros [? ?] _;
        destruct (negb _); [by apply keeps_fail|]).
  eapply post_bind; [by apply keeps_announce|]. intros [[[[x key] iv] kd] d2] Hd2. cbn [snd] in Hd2.
  destruct (negb _).
  - eapply post_bind; [by apply keeps_connect_exit|]. intros [? ?] ?. by apply post_ret.
  - eapply post_bind; [by apply keeps_jack_status|]. intros d3 Hd3.
    eapply post_bind; [by apply keeps_connect_stream|]. intros [y d4] Hd4. cbn [snd] in Hd4.
    eapply post_bind; [by apply keeps_connect_exit|]. intros [? ?] ?. by apply post_ret.
Qed.

Lemma keeps_set_content p a b c : opt_inv g p -> KeepsO (raopcl_set_content p a b c).
Proof. intros Hp. unfold raopcl_set_content. destruct p as [d|]; cbn in Hp; keeps g. Qed.

End Connect.

(** ** Sequences of operations *)

(** The operations of raop_client.h on a client. *)
Inductive client_op : Type :=
| OpConnect (host : list Z) (destport encrypt udp : Z)
| OpSend (sample : list Z) (count : Z)
| OpEvent (flags : Z)
| OpPauseCheck
| OpSetPause (st : pause_state_t)
| OpVolume (vol : Z)
| OpContent (itemname songartist songalbum : list Z)
| OpFlush
| OpSongdone (set : Z).

Section Ops.
Context {E : Env} {L : LineBound}.

Definition on_client (f : raopcl_data_t -> M (Z * raopcl_data_t)) (p : option raopcl_data_t)
    : M (Z * option raopcl_data_t) :=
  match p with
  | None => undef NullDeref
  | Some d => do! '(r, d) <- f d; ret (r, Some d)
  end.

Definition run_op (o : client_op) (p : option raopcl_data_t) : M (Z * option raopcl_data_t) :=
  match o with
  | OpConnect h dp e u => raopcl_connect p h dp e u
  | OpSend sample count => raopcl_send_sample p sample count
  | OpEvent fl => fd_event_callback p fl
  | OpPauseCheck => on_client raopcl_pause_check p
  | OpSetPause st => raopcl_set_pause p st
  | OpVolume vol => raopcl_update_volume p vol
  | OpContent a b c => raopcl_set_content p a b c
  | OpFlush => raopcl_flush_stream p
  | OpSongdone set => on_client (fun d => ret (raopcl_wait_songdone d set)) p
  end.

Fixpoint run_ops (os : list client_op) (p : option raopcl_data_t) : M (option raopcl_data_t) :=
  match os with
  | [] => ret p
  | o :: os => do! '(_, p) <- run_op o p; run_ops os p
  end.

Lemma keeps_on_client g f p :
  (forall d, client_inv g d -> Post (fun r : Z * raopcl_data_t => client_inv g (snd r)) (f d)) ->
  opt_inv g p -> Post (fun r => opt_inv g (snd r)) (on_client f p).
Proof.
  intros Hf Hp. destruct p as [d|]; [|apply post_undef]. eapply post_bind; [by apply Hf|].
  intros [r d'] Hd'. by apply post_ret.
Qed.

Lemma keeps_run_op {P : Posix E} g o p : opt_inv g p -> Post (fun r => opt_inv g (snd r)) (run_op o p).
Proof.
  intros Hp. destruct o; cbn [run_op]; eauto using keeps_connect, keeps_set_content with keeps.
  - apply keeps_on_client; [|done]. intros d Hd. by apply keeps_pause_check.
  - apply keeps_on_client; [|done]. intros d Hd. apply post_ret. unfold raopcl_wait_songdone. cbn.
    destruct (set =? 0); [done|same_client].
Qed.

Lemma keeps_run_ops {P : Posix E} g os : forall p, opt_inv g p -> Post (opt_inv g) (run_ops os p).
Proof.
  induction os as [|o os IH]; intros p Hp; cbn [run_ops]; [by apply post_ret|].
  eapply post_bind; [by apply keeps_run_op|]. intros [r p'] Hp'. by apply IH.
Qed.

Lemma opened_inv d s : client_ready d s -> is_u32 (timestamp d) -> is_u32 (ssrc d) ->
  0 <= wblk_wsize d -> client_inv s.(vars).(aes) d.
Proof. intros [Hk Hiv _ (H1 & H2 & _) (Hr & _)] Ht Hs Hw. split; try done. lia. Qed.

End Ops.

(** C21: [raopcl_data_t] is well-formed whenever the program can see it.  The client that
    [raopcl_open] returns satisfies its type invariant (the AES context belongs to the
    key, the vector is a block of 16 bytes, the counts of the transfer are not negative,
    the silent frame fits its array, time stamp and source are 32-bit words).  A client
    that satisfies it, connected or not, satisfies it after any sequence of connecting,
    sending, socket events, pauses, volume changes, track information and flushes that
    returns, on every behaviour of the environment that POSIX allows; the event table
    stays well-formed too. *)
Theorem client_well_typed {E : Env} {L : LineBound} {P : Posix E} :
  (forall s p s1, globals_ok s.(vars).(aes) -> rv (env_reply (trace s) (CMalloc RAOPCL_SIZE)) <> 0 ->
     raopcl_open s = Ret (p, s1) -> opt_inv s1.(vars).(aes) p) /\
  (forall os p s p' s', opt_inv s.(vars).(aes) p -> run_ops os p s = Ret (p', s') ->
     opt_inv s'.(vars).(aes) p' /\ (table_ok (fds s) -> table_ok (fds s'))).
Proof.
  split.
  - intros s p s1 Hg Hm Ho. destruct (raopcl_open_run s Hg Hm) as (p' & s' & H1 & _ & _ & H2).
    rewrite H1 in Ho. injection Ho as -> ->. destruct p as [d|]; [|exact I].
    destruct H2 as (_ & _ & Hr & iv0 & key0 & c & Hd). apply opened_inv; [done|subst d; cbn; unfold is_u32; lia..].
  - intros os p s p' s' Hi H. destruct (keeps_run_ops _ os p Hi _ _ _ H) as ([K1 K2] & Q). by rewrite K2.
Qed.

(** A client is opened and its stream is on descriptor 5.  It sends a frame of three
    bytes, the socket takes all of the packet, a pause is asked for and ends the song. *)
Definition wit_ops : list client_op := [OpSend [1; 2; 3] 3; OpEvent 2; OpSetPause NODATA_PAUSE; OpPauseCheck; OpSongdone 1].
Definition wit_open_env : Env := clamp (fun _ c =>
  match c with
  | CMalloc _ | CRandBytes _ => Reply 1 [] 0
  | CWrite _ d => Reply (zlen d) [] 0
  | _ => Reply 0 [] 0
  end).
Definition wit_start : proc := Proc ∅ 1 [] fds_init statics0.
Definition wit_opened : raopcl_data_t * proc :=
  match @raopcl_open wit_open_env wit_start with Ret (Some d, s) => (d, s) | _ => (raopcl_zero [] [], proc0) end.
Definition wit_connected : raopcl_data_t := set_sfd 5 (fst wit_opened).
Definition wit_after : raopcl_data_t * proc :=
  match @run_ops wit_open_env 5%nat wit_ops (Some wit_connected) (snd wit_opened) with
  | Ret (Some d, s) => (d, s)
  | _ => (raopcl_zero [] [], proc0)
  end.

Lemma wit_opened_run : @raopcl_open wit_open_env wit_start = Ret (Some (fst wit_opened), snd wit_opened).
Proof. vm_compute. reflexivity. Qed.

Lemma wit_ops_run :
  @run_ops wit_open_env 5%nat wit_ops (Some wit_connected) (snd wit_opened) = Ret (Some (fst wit_after), snd wit_after).
Proof. vm_compute. reflexivity. Qed.

Lemma set_sfd_inv g f d : client_inv g d -> client_inv g (set_sfd f d).
Proof. intros H. same_client. Qed.

Lemma client_well_typed_witness :
  client_inv (snd wit_opened).(vars).(aes) (fst wit_opened) /\
  @run_ops wit_open_env 5%nat wit_ops (Some wit_connected) (snd wit_opened) = Ret (Some (fst wit_after), snd wit_after) /\
  client_inv (snd wit_after).(vars).(aes) (fst wit_after) /\
  pause (fst wit_after) = NODATA_PAUSE /\ wblk_remsize (fst wit_after) = 0 /\ table_ok (fds (snd wit_after)).
Proof.
  destruct (client_well_typed (E := wit_open_env) (L := 5%nat) (P := clamp_posix _)) as [Hopen Hrun].
  pose proof (Hopen wit_start _ _ globals_at_start_ok ltac:(discriminate) wit_opened_run) as Hi.
  destruct (Hrun wit_ops (Some wit_connected) (snd wit_opened) (Some (fst wit_after)) (snd wit_after) (set_sfd_inv _ 5 _ Hi) wit_ops_run) as [H1 H2].
  split; [exact Hi|]. split; [exact wit_ops_run|]. split; [exact H1|].
  split; [vm_compute; reflexivity|]. split; [vm_compute; reflexivity|].
  apply H2. split; vm_compute; [reflexivity|constructor].
Defined.
