(* ===== verification/Threads.v ===== *)
(** * Threads: the clock threads of the RAOP client and the main thread

    raop_client.c starts two threads that share [raopcld] with the main thread and take
    no lock: [raopcl_sync] announces the time stamp of the stream once a second, and
    [raopcl_time_connect] answers the clock requests of the device.  Here each access
    of a thread to [raopcld] is a step of its own, and the steps of the threads
    interleave with the operations of the main thread in any order ([step]).  The
    structure itself is [Some d], or [None] once [raopcl_close] has freed it.

    A main operation is any of the operations of raop_client.h that [ClientTypes] lists,
    but for [raopcl_connect], which starts the threads.  It is one step: the threads only
    read the fields [timestamp] and [tfd], and each operation stores at most one new
    value into [timestamp]. *)

From S2P Require Import Prelude AesTables Aes AesKeys Sys FdEvent AexclLib AudioStream RtspClient RaopClient RaopCrypto RaopContent RaopStream.
From S2P Require Import Frame PlayInvariant ClientTypes.
From Stdlib Require Import Sorted.

Create HintDb threads.

(** ** The threads, access by access *)

(** [raopcld->...] *)
Definition deref_client (p : option raopcl_data_t) : M raopcl_data_t :=
  match p with Some d => ret d | None => undef DanglingPtr end.

(** Where [raopcl_sync] is in its loop: it has read the first bytes [b] of the time
    stamp; it has them all; it has the clock; it has the next time stamp; it has
    written the packet. *)
Inductive sync_pc : Type :=
| SyncByte (b : list Z)
| SyncClock (b : list Z)
| SyncNext (b : list Z) (ntp : Z)
| SyncWrite (b : list Z) (ntp next : Z)
| SyncSleep.

Definition sync_data (b : list Z) (ntp next : Z) : list Z :=
  [128; 212; 0x00; 0x07] ++ b ++ be64 ntp ++ be32 next.

(** Where [raopcl_time_connect] is: before [read]; behind it, with data; with the
    clock. *)
Inductive time_pc : Type :=
| TimeRead (buf : list Z)
| TimeClock (buf : list Z)
| TimeWrite (buf : list Z) (ntp : Z).

(** The operations of the main thread while the clock threads run. *)
Definition streaming_op (o : client_op) : bool :=
  match o with OpConnect _ _ _ _ => false | _ => true end.

Section Steps.
Context {E : Env} {L : LineBound}.

Definition sync_step (p : option raopcl_data_t) (pc : sync_pc) : M sync_pc :=
  match pc with
  | SyncByte b =>
      do! d <- deref_client p;
      let b := b ++ [znth (be32 d.(timestamp)) (zlen b)] in
      ret (if zlen b <? 4 then SyncByte b else SyncClock b)
  | SyncClock b => do! tv <- gettimeofday; ret (SyncNext b (calculate_timestamp tv))
  | SyncNext b ntp => do! d <- deref_client p; ret (SyncWrite b ntp (u32 (d.(timestamp) + 352)))
  | SyncWrite b ntp next =>
      do! d <- deref_client p;
      do! _ <- syscall (CWrite d.(tfd) (sync_data b ntp next));
      ret SyncSleep
  | SyncSleep => do! _ <- syscall (CSleep 1); ret (SyncByte [])
  end.

Definition time_step (p : option raopcl_data_t) (pc : time_pc) : M time_pc :=
  match pc with
  | TimeRead buf =>
      do! d <- deref_client p;
      do! '(i, bs, _) <- sys_read (CRead d.(tfd) 256);
      if 0 <? i then do! buf <- lift (buf_write buf 0 bs); ret (TimeClock buf)
      else ret (TimeRead buf)
  | TimeClock buf => do! tv <- gettimeofday; ret (TimeWrite buf (calculate_timestamp tv))
  | TimeWrite buf ntp =>
      do! d <- deref_client p;
      do! _ <- syscall (CWrite d.(tfd) (time_packet buf ntp));
      ret (TimeRead buf)
  end.

Fixpoint iter_step {A} (f : A -> M A) (n : nat) (a : A) : M A :=
  match n with O => ret a | S n => do! a <- f a; iter_step f n a end.

(** ** Interleavings *)

(** [hist] are the time stamps that the client has had, newest first, and [packets] the
    packets that [raopcl_sync] has written: they record the run and steer nothing. *)
Record config : Type := Config {
  client : option raopcl_data_t;
  process : proc;
  sync_at : sync_pc;
  time_at : time_pc;
  hist : list Z;
  packets : list (list Z)
}.

Definition packet_of (pc : sync_pc) : list (list Z) :=
  match pc with SyncWrite b ntp next => [sync_data b ntp next] | _ => [] end.

Inductive step : config -> config -> Prop :=
| step_main o r d d' s s' pc tc h ps :
    streaming_op o = true -> run_op o (Some d) s = Ret ((r, Some d'), s') ->
    step (Config (Some d) s pc tc h ps) (Config (Some d') s' pc tc (d'.(timestamp) :: h) ps)
| step_close r d p s s' pc tc h ps :
    raopcl_close (Some d) s = Ret ((r, p), s') ->
    step (Config (Some d) s pc tc h ps) (Config p s' pc tc h ps)
| step_sync p s s' pc pc' tc h ps :
    sync_step p pc s = Ret (pc', s') ->
    step (Config p s pc tc h ps) (Config p s' pc' tc h (packet_of pc ++ ps))
| step_time p s s' pc tc tc' h ps :
    time_step p tc s = Ret (tc', s') ->
    step (Config p s pc tc h ps) (Config p s' pc tc' h ps).

Inductive steps : config -> config -> Prop :=
| steps_refl c : steps c c
| steps_trans c1 c2 c3 : steps c1 c2 -> step c2 c3 -> steps c1 c3.

(** The threads have just been started. *)
Definition started (d : raopcl_data_t) (s : proc) (buf : list Z) : config :=
  Config (Some d) s (SyncByte []) (TimeRead buf) [d.(timestamp)] [].

End Steps.

#[export] Hint Constructors step steps : threads.

Lemma steps_left {E : Env} {L : LineBound} c1 c2 c3 : step c1 c2 -> steps c2 c3 -> steps c1 c3.
Proof. intros H1 H2. induction H2; eauto with threads. Qed.

(** ** A thread on its own *)

(** Without interference the steps of the two threads are the bodies of their loops:
    eight steps of [raopcl_sync] send the packet of the time stamp the client has, and
    one or three steps of [raopcl_time_connect] answer a request. *)
Theorem threads_refine_bodies {E : Env} d buf s :
  iter_step (sync_step (Some d)) 8 (SyncByte []) s =
    (do! _ <- raopcl_sync d; ret (SyncByte [])) s /\
  iter_step (time_step (Some d)) (if 0 <? rv (env_reply (trace s) (CRead d.(tfd) 256)) then 3 else 1) (TimeRead buf) s =
    (do! buf <- raopcl_time_connect d buf; ret (TimeRead buf)) s.
Proof.
  split; [reflexivity|].
  unfold time_step, raopcl_time_connect, sys_read, bindM, deref_client, sys, ret. cbn [rv].
  destruct (0 <? rv (env_reply (trace s) (CRead (tfd d) 256))) eqn:Hi.
  - cbn [iter_step]. unfold bindM, ret. rewrite Hi. unfold lift.
    destruct (buf_write buf 0 _); reflexivity.
  - cbn [iter_step]. unfold bindM, ret. by rewrite Hi.
Qed.

(** ** What the threads read *)

(** [t] are elements of [l], in the order of [l], possibly repeated. *)
Inductive occurs_in : list Z -> list Z -> Prop :=
| occurs_nil l : occurs_in l []
| occurs_here x l t : occurs_in (x :: l) t -> occurs_in (x :: l) (x :: t)
| occurs_skip x l t : occurs_in l t -> occurs_in (x :: l) t.

#[export] Hint Constructors occurs_in : threads.

Lemma occurs_app l t y : occurs_in l t -> occurs_in (l ++ [y]) t.
Proof. induction 1; cbn; auto with threads. Qed.

(** Reading the last element. *)
Lemma occurs_last l t y : occurs_in (l ++ [y]) t -> occurs_in (l ++ [y]) (t ++ [y]).
Proof.
  remember (l ++ [y]) as m eqn:Hm. intros H. revert l Hm.
  induction H as [m|x m t H IH|x m t H IH]; intros l Hm.
  - subst. induction l as [|z l IHl]; cbn; auto with threads.
  - cbn. constructor. by apply (IH l).
  - destruct l as [|z l]; cbn in Hm; injection Hm as -> ->; [|constructor; by apply (IH l)].
    inversion H; subst. cbn. auto with threads.
Qed.

Lemma occurs_sorted l t : StronglySorted Z.le l -> occurs_in l t -> StronglySorted Z.le t /\ Forall (fun x => In x l) t.
Proof.
  intros Hs H. revert Hs. induction H as [l|x l t H IH|x l t H IH]; intros Hs.
  - split; constructor.
  - destruct (IH Hs) as [H1 H2]. split; [|constructor; [by left|done]]. constructor; [done|].
    eapply Forall_impl; [exact H2|]. intros z [->|Hz]; [lia|].
    apply StronglySorted_inv in Hs as [_ Hs]. by eapply Forall_forall in Hs; [|apply list_elem_of_In].
  - apply StronglySorted_inv in Hs as [Hs _]. destruct (IH Hs) as [H1 H2]. split; [done|].
    eapply Forall_impl; [exact H2|]. intros z Hz. by right.
Qed.

(** The bytes [b] were read one after the other from the time stamps [t]. *)
Definition bytes_from (t b : list Z) : Prop :=
  length t = length b /\ forall k, (k < length b)%nat -> nth k b 0 = znth (be32 (nth k t 0)) (Z.of_nat k).

Lemma bytes_from_nil : bytes_from [] [].
Proof. split; [done|]. cbn. lia. Qed.

Lemma bytes_from_snoc t b x :
  bytes_from t b -> bytes_from (t ++ [x]) (b ++ [znth (be32 x) (zlen b)]).
Proof.
  intros [Hl Hb]. split; [rewrite !length_app; cbn; lia|]. intros k Hk. rewrite length_app in Hk. cbn in Hk.
  destruct (decide (k < length b)%nat).
  - rewrite !app_nth1 by lia. by apply Hb.
  - replace k with (length b) by lia. rewrite nth_middle, <- Hl, nth_middle, Hl. done.
Qed.

(** The invariant of [raopcl_sync]: its bytes and its next time stamp come from time
    stamps that the client has had, in the order in which it had them. *)
Definition sync_inv (h : list Z) (pc : sync_pc) : Prop :=
  match pc with
  | SyncByte b => (length b < 4)%nat /\ exists t, occurs_in (rev h) t /\ bytes_from t b
  | SyncClock b | SyncNext b _ => length b = 4%nat /\ exists t, occurs_in (rev h) t /\ bytes_from t b
  | SyncWrite b _ next => length b = 4%nat /\ exists t x, occurs_in (rev h) (t ++ [x]) /\ bytes_from t b /\
      next = u32 (x + 352)
  | SyncSleep => True
  end.

Definition packet_inv (h : list Z) (pkt : list Z) : Prop :=
  exists b ntp t x, pkt = sync_data b ntp (u32 (x + 352)) /\ length b = 4%nat /\ bytes_from t b /\
    occurs_in (rev h) (t ++ [x]).

Definition config_inv (c : config) : Prop :=
  match client c with
  | Some d => client_inv (process c).(vars).(aes) d /\ exists l, rev (hist c) = l ++ [d.(timestamp)]
  | None => True
  end /\
  Forall is_u32 (hist c) /\ sync_inv (hist c) (sync_at c) /\ Forall (packet_inv (hist c)) (packets c).

Lemma sync_inv_cons h pc y : sync_inv h pc -> sync_inv (y :: h) pc.
Proof.
  destruct pc; cbn [sync_inv rev]; try done; intros [Hl H]; (split; [done|]);
    [destruct H as (t & H1 & H2); exists t..|destruct H as (t & x & H1 & H2); exists t, x];
    (split; [by apply occurs_app|done]).
Qed.

Lemma packet_inv_cons h y pkt : packet_inv h pkt -> packet_inv (y :: h) pkt.
Proof.
  intros (b & ntp & t & x & H1 & H2 & H3 & H4). exists b, ntp, t, x. split_and!; try done.
  by apply occurs_app.
Qed.

Section Invariant.
Context {E : Env} {L : LineBound} {P : Posix E}.

Lemma sync_step_inv p s s' pc pc' h :
  match p with Some d => exists l, rev h = l ++ [d.(timestamp)] | None => True end ->
  sync_inv h pc -> sync_step p pc s = Ret (pc', s') ->
  sync_inv h pc' /\ Forall (packet_inv h) (packet_of pc).
Proof.
  intros Hp Hpc Hs. destruct pc as [b|b|b ntp|b ntp next|]; cbn [sync_step packet_of] in *.
  - destruct p as [d|]; [|done]. destruct Hp as [l Hl]. destruct Hpc as (Hb & t & Ht & Hbt).
    injection Hs as <- <-. split; [|constructor].
    assert (Hread : exists t', occurs_in (rev h) t' /\
      bytes_from t' (b ++ [znth (be32 (timestamp d)) (zlen b)])).
    { exists (t ++ [timestamp d]). split; [rewrite Hl in Ht |- *; by apply occurs_last|by apply bytes_from_snoc]. }
    rewrite zlen_app. unfold zlen at 2. cbn [length].
    destruct (Z.ltb_spec (zlen b + Z.of_nat 1) 4) as [H4|H4]; cbn [sync_inv];
      (split; [rewrite length_app; cbn [length]; unfold zlen in H4; lia|done]).
  - injection Hs as <- <-. split; [done|constructor].
  - destruct p as [d|]; [|done]. destruct Hp as [l Hl]. destruct Hpc as (Hb & t & Ht & Hbt).
    injection Hs as <- <-. split; [|constructor]. split; [done|]. exists t, (timestamp d).
    split_and!; [rewrite Hl in Ht |- *; by apply occurs_last|done..].
  - destruct p as [d|]; [|done]. destruct Hpc as (Hb & t & x & Ht & Hbt & ->). injection Hs as <- <-.
    split; [done|]. constructor; [|constructor]. by exists b, ntp, t, x.
  - injection Hs as <- <-. split; [|constructor]. split; [cbn; lia|]. exists []. split; [apply occurs_nil|apply bytes_from_nil].
Qed.

(** The threads change neither the event table nor the static variables. *)
Lemma framed_sync_step p pc : Framed (sync_step p pc).
Proof. destruct pc; cbn [sync_step]; unfold deref_client; frame. Qed.
Lemma framed_time_step p tc : Framed (time_step p tc).
Proof. destruct tc; cbn [time_step]; unfold deref_client; frame. Qed.

Lemma close_frees d s r p s' : raopcl_close (Some d) s = Ret ((r, p), s') -> p = None.
Proof.
  unfold raopcl_close. intros H. do 3 (apply bindM_inv in H as (? & ? & _ & H)). by injection H as _ <- _.
Qed.

Lemma step_inv c c' : step c c' -> config_inv c -> config_inv c'.
Proof.
  intros H (Hc & Hu & Hpc & Hps). destruct H as [o r d d' s s' pc tc h ps Ho H|r d p s s' pc tc h ps H|
    p s s' pc pc' tc h ps H|p s s' pc tc tc' h ps H]; cbn [client process sync_at hist packets] in *.
  - destruct Hc as [Hi _]. destruct (keeps_run_op _ o (Some d) Hi _ _ _ H) as ([_ K] & Hi'). cbn [snd opt_inv] in Hi'.
    unfold config_inv; cbn; split_and!.
    + by rewrite K.
    + by eexists.
    + constructor; [apply Hi'|done].
    + by apply sync_inv_cons.
    + eapply Forall_impl; [exact Hps|]. intros pkt. apply packet_inv_cons.
  - apply close_frees in H as ->. done.
  - destruct (framed_sync_step _ _ _ _ _ H) as ([_ K] & _).
    destruct (sync_step_inv p s s' pc pc' h) as [H1 H2]; [destruct p; [apply Hc|done]|done..|].
    split_and!; cbn; [destruct p; [by rewrite K|done]|done|done|by apply Forall_app].
  - destruct (framed_time_step _ _ _ _ _ H) as ([_ K] & _). split_and!; cbn; [destruct p; [by rewrite K|done]|done..].
Qed.

Lemma steps_inv c c' : steps c c' -> config_inv c -> config_inv c'.
Proof. induction 1; eauto using step_inv. Qed.

Lemma started_inv d s buf : client_inv s.(vars).(aes) d -> config_inv (started d s buf).
Proof.
  intros Hi. split; [split; [done|by exists []]|]. split; [constructor; [apply Hi|done]|]. split; [|constructor].
  split; [cbn; lia|]. exists []. split; [apply occurs_nil|apply bytes_from_nil].
Qed.

End Invariant.

(** ** The number that torn reads give *)

Definition be32_value (b : list Z) : Z :=
  16777216 * nth 0 b 0 + 65536 * nth 1 b 0 + 256 * nth 2 b 0 + nth 3 b 0.

(** Bytes that are read one after the other from a growing number [a0 <= a1 <= a2 <= a3]
    give a number that is not above the last one and less than [2^24] below the first. *)
Lemma torn_bounds a0 a1 a2 a3 :
  is_u32 a0 -> a0 <= a1 -> a1 <= a2 -> a2 <= a3 -> is_u32 a3 ->
  let v := be32_value [znth (be32 a0) 0; znth (be32 a1) 1; znth (be32 a2) 2; znth (be32 a3) 3] in
  a0 - 16777216 < v <= a3.
Proof.
  intros H0 H1 H2 H3 H4 v. unfold is_u32 in *. subst v. rewrite !be32_bytes. unfold znth, be32_value.
  change (Z.to_nat 0) with 0%nat. change (Z.to_nat 1) with 1%nat. change (Z.to_nat 2) with 2%nat.
  change (Z.to_nat 3) with 3%nat. cbn [nth].
  rewrite !byte_at_div by lia. change (2 ^ 24) with 16777216. change (2 ^ 16) with 65536. change (2 ^ 8) with 256.
  change (2 ^ 0) with 1. rewrite Z.div_1_r, (Z.mod_small (a0 / _)) by (Z.div_mod_to_equations; lia).
  assert (a0 / 16777216 <= a1 / 16777216) by (apply Z.div_le_mono; lia).
  assert (a1 / 65536 <= a2 / 65536) by (apply Z.div_le_mono; lia).
  assert (a2 / 256 <= a3 / 256) by (apply Z.div_le_mono; lia).
  assert (a1 / 65536 = 256 * (a1 / 16777216) + (a1 / 65536) mod 256).
  { replace (a1 / 16777216) with (a1 / 65536 / 256) by (by rewrite Z.div_div). apply Z.div_mod. lia. }
  assert (a2 / 256 = 256 * (a2 / 65536) + (a2 / 256) mod 256).
  { replace (a2 / 65536) with (a2 / 256 / 256) by (by rewrite Z.div_div). apply Z.div_mod. lia. }
  assert (a3 = 256 * (a3 / 256) + a3 mod 256) by (Z.div_mod_to_equations; lia).
  assert (forall z, 0 <= z mod 256) as Hm by (intros z; apply Z.mod_pos_bound; lia).
  pose proof (Hm (a1 / 65536)). pose proof (Hm (a2 / 256)). pose proof (Hm a3).
  assert (a0 < 16777216 * (a0 / 16777216) + 16777216) by (Z.div_mod_to_equations; lia). lia.
Qed.

Lemma whole_value a : is_u32 a -> be32_value [znth (be32 a) 0; znth (be32 a) 1; znth (be32 a) 2; znth (be32 a) 3] = a.
Proof.
  intros Ha. unfold is_u32 in Ha. rewrite !be32_bytes. unfold znth, be32_value.
  change (Z.to_nat 0) with 0%nat. change (Z.to_nat 1) with 1%nat. change (Z.to_nat 2) with 2%nat.
  change (Z.to_nat 3) with 3%nat. cbn [nth].
  rewrite !byte_at_div by lia. change (2 ^ 24) with 16777216. change (2 ^ 16) with 65536. change (2 ^ 8) with 256.
  change (2 ^ 0) with 1. rewrite Z.div_1_r, (Z.mod_small (a / 16777216)) by (Z.div_mod_to_equations; lia).
  assert (a / 16777216 = a / 65536 / 256) as -> by (by rewrite Z.div_div).
  assert (a / 65536 = a / 256 / 256) as -> by (by rewrite Z.div_div).
  pose proof (Z.div_mod (a / 256 / 256) 256). pose proof (Z.div_mod (a / 256) 256). pose proof (Z.div_mod a 256). lia.
Qed.

(** The same for the bytes of a packet, which come from four readings. *)
Lemma bytes_from_bounds t b x :
  length b = 4%nat -> bytes_from t b -> StronglySorted Z.le (t ++ [x]) -> Forall is_u32 (t ++ [x]) ->
  exists t0 t1 t2 t3, t = [t0; t1; t2; t3] /\
    b = [znth (be32 t0) 0; znth (be32 t1) 1; znth (be32 t2) 2; znth (be32 t3) 3] /\
    t0 - 16777216 < be32_value b <= t3 /\ t3 <= x /\ (t0 = t3 -> be32_value b = t0).
Proof.
  intros Hb [Hl Ht] Hs Hu. destruct b as [|b0 [|b1 [|b2 [|b3 [|]]]]]; try done.
  destruct t as [|a0 [|a1 [|a2 [|a3 [|]]]]]; try done.
  pose proof (Ht 0%nat) as E0. pose proof (Ht 1%nat) as E1. pose proof (Ht 2%nat) as E2. pose proof (Ht 3%nat) as E3.
  cbn [nth length] in *. rewrite E0, E1, E2, E3 by lia.
  cbn [app] in Hs, Hu.
  apply StronglySorted_inv in Hs as [Hs F0]. apply StronglySorted_inv in Hs as [Hs F1].
  apply StronglySorted_inv in Hs as [Hs F2]. apply StronglySorted_inv in Hs as [Hs F3].
  rewrite !Forall_cons in *. exists a0, a1, a2, a3. split; [done|]. split; [done|].
  pose proof (torn_bounds a0 a1 a2 a3) as Hb4. cbn zeta in Hb4.
  change (Z.of_nat 0) with 0. change (Z.of_nat 1) with 1. change (Z.of_nat 2) with 2. change (Z.of_nat 3) with 3.
  split; [apply Hb4; tauto|]. split; [tauto|]. intros <-.
  assert (a1 = a0) as -> by lia. assert (a2 = a0) as -> by lia. apply whole_value. tauto.
Qed.

(** ** Theorems *)


(** A connected client with time stamp 0xFFFF, and the run in which 97 samples are sent
    when two of its bytes have been read. *)
Section Torn.
Context (g : aes_globals) (c : aes_context).

Definition wit_shared : raopcl_data_t :=
  Raopcl None iota_key [] iota_key Null 0 0 0 0 4 5 6 0 0 NO_PAUSE 0 c Null (repeat 0 144) 135 0 0 (Timeval 0 0) 7 65535 0 1.

Definition wit_buf : list Z := repeat 0 256.
Definition wit_run (tr : list call) : proc := Proc ∅ 1 tr [] (Statics 0 1 0 g).
Definition wit_sent : raopcl_data_t := set_timestamp 65632 wit_shared.

Lemma wit_send : run_op (E := env0) (L := 5%nat) (OpSend (repeat 0 97) 97) (Some wit_shared) (wit_run []) =
  Ret ((-1, Some wit_sent), wit_run [CMalloc 128]).
Proof. reflexivity. Qed.

Definition wit_ntp : Z := calculate_timestamp (Timeval 0 0).
Definition wit_torn : config :=
  Config (Some wit_sent) (wit_run [CWrite 6 (sync_data [0; 0; 0; 96] wit_ntp 65984); CGettimeofday; CMalloc 128])
    SyncSleep (TimeRead wit_buf) [65632; 65535] [sync_data [0; 0; 0; 96] wit_ntp 65984].

(** One step of [raopcl_sync] to a given place and process. *)
Ltac sync_to pc s := eapply steps_left; [apply (step_sync _ _ s _ pc); reflexivity|].

Lemma wit_torn_run : steps (E := env0) (L := 5%nat) (started wit_shared (wit_run []) wit_buf) wit_torn.
Proof.
  sync_to (SyncByte [0]) (wit_run []). sync_to (SyncByte [0; 0]) (wit_run []).
  eapply steps_left; [eapply (step_main (OpSend (repeat 0 97) 97)); [reflexivity|exact wit_send]|].
  sync_to (SyncByte [0; 0; 0]) (wit_run [CMalloc 128]).
  sync_to (SyncClock [0; 0; 0; 96]) (wit_run [CMalloc 128]).
  sync_to (SyncNext [0; 0; 0; 96] wit_ntp) (wit_run [CGettimeofday; CMalloc 128]).
  sync_to (SyncWrite [0; 0; 0; 96] wit_ntp 65984) (wit_run [CGettimeofday; CMalloc 128]).
  sync_to SyncSleep (process wit_torn). apply steps_refl.
Qed.

Lemma wit_torn_sorted : StronglySorted Z.le (rev (hist wit_torn)).
Proof. repeat constructor; lia. Qed.

Lemma wit_shared_inv : keyed g c iota_key -> client_inv g wit_shared.
Proof.
  intros Hk. split; [exact Hk|split; [reflexivity|exact iota_key_bytes]|cbn; lia|cbn; lia|split; reflexivity| |];
    (split; [discriminate|reflexivity]).
Qed.

End Torn.


(** The announced time stamp can be one that the client never had: there is an
    interleaving in which the client goes from 65535 to 65632 and the packet says 96. *)
Theorem torn_timestamp g c :
  exists cf ntp, steps (E := env0) (L := 5%nat) (started (wit_shared c) (wit_run g []) wit_buf) cf /\
    rev (hist cf) = [65535; 65632] /\
    packets cf = [[128; 212; 0x00; 0x07] ++ be32 96 ++ be64 ntp ++ be32 (65632 + 352)] /\ ~ In 96 (hist cf).
Proof.
  exists (wit_torn g c), wit_ntp. split; [apply wit_torn_run|]. split; [reflexivity|]. split; [reflexivity|].
  cbn. lia.
Qed.


