(* ===== verification/AudioFlinger.v ===== *)
(** * AudioFlinger: the sound that the audio server hands to the player

    The system part of Waveplay is a patch of the Android audio server
    (src/audioflinger/4.1.2/AudioFlinger.cpp; the patch alone is AudioFlinger.diff).
    [PlaybackThread::threadLoop_write] hands each mixed buffer either to the sound
    device or, when the file /data/raop_switch holds a number other than 0, to the
    player over a connection to port 4999 of the same machine.  The global
    variables of the patch are the record [dump_t]; the switch file is shared with
    the application, so its text is part of that record and the application's
    writes are steps of [bridge_run] of their own.  The classes of the platform
    (the sinks, the HAL stream, the module loader) are calls to the environment. *)

From S2P Require Import Prelude Sys AexclLib.

Create HintDb bridge.

(** ** State *)

Record sockaddr_in : Type := SockaddrIn {
  sin_family : Z; sin_port : Z; sin_addr : Z; sin_zero : list Z
}.

(** [dumpSwitchFile]: [None] is NULL, else the text of the file. *)
Record dump_t : Type := Dump {
  dumpSwitchFile : option (list Z);
  dumpSocket : Z;
  dumpSocketReady : Z;
  dumpSocketWatchDog : Z;
  dumpSocketAddr : sockaddr_in;
  dumpSwitch : Z
}.

Definition set_file (c : list Z) (d : dump_t) : dump_t :=
  Dump (Some c) d.(dumpSocket) d.(dumpSocketReady) d.(dumpSocketWatchDog) d.(dumpSocketAddr) d.(dumpSwitch).
Definition set_socket (f : Z) (d : dump_t) : dump_t :=
  Dump d.(dumpSwitchFile) f d.(dumpSocketReady) d.(dumpSocketWatchDog) d.(dumpSocketAddr) d.(dumpSwitch).
Definition set_ready (r : Z) (d : dump_t) : dump_t :=
  Dump d.(dumpSwitchFile) d.(dumpSocket) r d.(dumpSocketWatchDog) d.(dumpSocketAddr) d.(dumpSwitch).
Definition set_watchdog (w : Z) (d : dump_t) : dump_t :=
  Dump d.(dumpSwitchFile) d.(dumpSocket) d.(dumpSocketReady) w d.(dumpSocketAddr) d.(dumpSwitch).
Definition set_dump_addr (a : sockaddr_in) (d : dump_t) : dump_t :=
  Dump d.(dumpSwitchFile) d.(dumpSocket) d.(dumpSocketReady) d.(dumpSocketWatchDog) a d.(dumpSwitch).
Definition set_switch (v : Z) (d : dump_t) : dump_t :=
  Dump d.(dumpSwitchFile) d.(dumpSocket) d.(dumpSocketReady) d.(dumpSocketWatchDog) d.(dumpSocketAddr) v.

(** The fields of [PlaybackThread] that [threadLoop_write] uses.  The two smart
    pointers are null or not; [mMixBuffer] is the memory of the array. *)
Record PlaybackThread : Type := Thread {
  mNormalSink : bool;
  mPipeSink : bool;
  mMixBuffer : list Z;
  mixBufferSize : Z;
  mNormalFrameCount : Z;
  mScreenState : Z;
  mLastWriteTime : Z;
  mBytesWritten : Z;
  mNumWrites : Z;
  mInWrite : bool
}.

(** ** Start *)

(** The global variables before [onFirstRef]: [file] is what [fopen] gives. *)
Definition dump_init (file : option (list Z)) : dump_t :=
  Dump file (-1) (-1) 0 (SockaddrIn 0 0 0 (repeat 0 8)) 0.

(** The parts of a text between the characters [c]. *)
Fixpoint split_at (c : Z) (s cur : list Z) : list (list Z) :=
  match s with
  | [] => [cur]
  | x :: s => if x =? c then cur :: split_at c s [] else split_at c s (cur ++ [x])
  end.

(** [inet_pton(AF_INET, s, &a)]: four decimal numbers up to 255, as the 32-bit word
    that a little-endian machine has for them; [None] when it returns 0. *)
Definition inet_pton (s : list Z) : option Z :=
  let part t :=
    if bool_decide (t <> []) && forallb isdigit t && (length t <=? 3)%nat then scan_digits t 0 else 256 in
  match map part (split_at 46 s []) with
  | [a; b; c; d] =>
      if (a <? 256) && (b <? 256) && (c <? 256) && (d <? 256)
      then Some (a .| (b .<< 8) .| (c .<< 16) .| (d .<< 24)) else None
  | _ => None
  end.

(** The part of [AudioFlinger::onFirstRef] that sets [dumpSocketAddr]: the bytes
    that are not set hold the character 0. *)
Definition onFirstRef (d : dump_t) : dump_t :=
  let zeros := 0x30303030 in
  set_dump_addr (SockaddrIn AF_INET (htons 4999)
              (match inet_pton (lit "127.0.0.1") with Some a => a | None => zeros end)
              (repeat 0x30 8)) d.

Section Loader.
Context {E : Env}.

(** Constants of headers that are not part of the repository. *)
Variables (BAD_VALUE AUDIO_DEVICE_API_VERSION_CURRENT : Z).

(** [load_audio_interface(if_name, &dev)]: the result, and whether [*dev] is set.
    The reply to the opening of the device has the version of the device. *)
Definition load_audio_interface (d : dump_t) (if_name : list Z) : M (Z * bool) :=
  do! _ <- match d.(dumpSwitchFile) with
           | Some _ => syscall (CAudio CSetbuf)
           | None => ret 0
           end;
  do! rc <- syscall (CAudio (CHwGetModule if_name));
  if negb (rc =? 0) then ret (rc, false)
  else
    do! r <- sys (CAudio CHwDeviceOpen);
    if negb (r.(rv) =? 0) then ret (r.(rv), false)
    else if negb (znth r.(rdata) 0 =? AUDIO_DEVICE_API_VERSION_CURRENT) then ret (BAD_VALUE, false)
    else ret (0, true).

End Loader.

(** ** The switch file *)

(** [fscanf(f, "%d", &v)] after [rewind(f)]: the number at the start of the text;
    [None] when there is none, and [v] is left alone. *)
Definition scan_d (s : list Z) : outcome (option Z) :=
  let t := skip_space s in
  let u := match t with c :: r => if (c =? 45) || (c =? 43) then r else t | [] => [] end in
  match u with
  | c :: _ => if isdigit c then do v <- atoi s; Ret (Some v) else Ret None
  | [] => Ret None
  end.

Section Write.
Context {E : Env}.

(** "disable socket dump".  [fprintf(f, "%d", 0)] behind [rewind(f)] overwrites the
    first character of the file, unless it fails. *)
Definition disable_dump (d : dump_t) : M dump_t :=
  match d.(dumpSwitchFile) with
  | None => undef NullDeref
  | Some c =>
      do! r <- syscall (CAudio (CFprintf (fmt_d 0)));
      let c := if r <? 0 then c else fmt_d 0 ++ drop 1 c in
      ret (set_watchdog 0 (set_switch 0 (set_file c d)))
  end.

(** "read switch state" *)
Definition read_switch (d : dump_t) : M dump_t :=
  match d.(dumpSwitchFile) with
  | None => undef NullDeref
  | Some c => do! v <- lift (scan_d c); ret (match v with Some v => set_switch v d | None => d end)
  end.

Definition update_switch (d : dump_t) : M dump_t :=
  if 10 <=? d.(dumpSocketWatchDog) then disable_dump d else read_switch d.

(** "try connection to raop bridge": a socket that could not be created is
    connected all the same. *)
Definition connect_bridge (d : dump_t) : M dump_t :=
  if d.(dumpSocket) <? 0 then
    do! f <- syscall (CSocket SOCK_STREAM);
    let d := set_socket f d in
    let d := if f <? 0 then set_watchdog (d.(dumpSocketWatchDog) + 1) d else d in
    let a := d.(dumpSocketAddr) in
    do! r <- syscall (CConnect f a.(sin_family) a.(sin_addr) a.(sin_port));
    let d := set_ready r d in
    ret (if r <? 0 then set_watchdog 10 d else d)
  else ret d.

(** The number of bytes sent is used as [framesWritten]. *)
Definition send_bridge (d : dump_t) (buf : list Z) (count : Z) : M (Z * dump_t) :=
  if 0 <=? d.(dumpSocketReady) then
    if zlen buf <? count * 4 then undef OutOfBounds
    else
      do! sent <- syscall (CAudio (CSend d.(dumpSocket) (take (Z.to_nat (count * 4)) buf)));
      if sent <? 1 then ret (0, set_watchdog 10 d)
      else ret (sent, set_watchdog 0 d)
  else ret (0, d).

(** The patched part of [threadLoop_write]: [framesWritten] and the variables. *)
Definition route (d : dump_t) (buf : list Z) (count : Z) : M (Z * dump_t) :=
  do! d <- update_switch d;
  if d.(dumpSwitch) =? 0 then
    let d := set_socket (-1) (set_ready (-1) d) in
    do! n <- syscall (CAudio (CSinkWrite buf count));
    ret (n, d)
  else
    do! d <- connect_bridge d;
    send_bridge d buf count.

Definition mBitShift : Z := 2.

(** "update the setpoint when gScreenState changes" *)
Definition update_setpoint (gScreenState : Z) (t : PlaybackThread) : M unit :=
  if negb (gScreenState =? t.(mScreenState)) && t.(mPipeSink) then
    do! n <- (if negb (gScreenState .& 1 =? 0)
              then do! m <- syscall (CAudio CMaxFrames); ret (u32 (u32 m * 7) / 8)
              else ret (u32 (t.(mNormalFrameCount) * 2)));
    do! _ <- syscall (CAudio (CSetAvgFrames n)); ret tt
  else ret tt.

(** The conversions to the types that the header declares for [mBytesWritten] and
    [mNumWrites]; the header is not part of the repository. *)
Variables (bytes_type writes_type : Z -> Z).

(** [PlaybackThread::threadLoop_write()]; [gScreenState] is a global variable that
    [setParameters] writes. *)
Definition threadLoop_write (gScreenState : Z) (d : dump_t) (t : PlaybackThread)
    : M (dump_t * PlaybackThread) :=
  do! now <- syscall (CAudio CSystemTime);
  do! '(bytesWritten, d) <-
    (if t.(mNormalSink) then
       do! _ <- update_setpoint gScreenState t;
       do! '(framesWritten, d) <- route d t.(mMixBuffer) (t.(mixBufferSize) .>> mBitShift);
       ret (if 0 <? framesWritten then s32 (framesWritten .<< mBitShift) else framesWritten, d)
     else
       do! n <- syscall (CAudio (CStreamWrite (take (Z.to_nat t.(mixBufferSize)) t.(mMixBuffer))));
       ret (s32 n, d));
  ret (d, Thread t.(mNormalSink) t.(mPipeSink) t.(mMixBuffer) t.(mixBufferSize) t.(mNormalFrameCount)
            (if t.(mNormalSink) then gScreenState else t.(mScreenState)) now
            (if 0 <? bytesWritten then bytes_type (t.(mBytesWritten) + t.(mixBufferSize))
             else t.(mBytesWritten))
            (writes_type (t.(mNumWrites) + 1)) false).

End Write.

(** ** What POSIX says of sockets *)

Class PosixSocket (E : Env) : Prop := {
  socket_ret : forall tr ty, -1 <= rv (env_reply tr (CSocket ty));
  connect_ret : forall tr f fam a p,
    rv (env_reply tr (CConnect f fam a p)) = 0 \/ rv (env_reply tr (CConnect f fam a p)) = -1;
  connect_bad : forall tr f fam a p, f < 0 -> rv (env_reply tr (CConnect f fam a p)) = -1;
  send_ret : forall tr f d, -1 <= rv (env_reply tr (CAudio (CSend f d))) <= zlen d
}.

(** Any environment made to respect it. *)
Definition clamp_socket (E : Env) : Env := fun tr c =>
  let r := E tr c in
  match c with
  | CSocket _ => Reply (Z.max (-1) r.(rv)) r.(rdata) r.(rerrno)
  | CConnect f _ _ _ => Reply (if (f <? 0) || (r.(rv) <? 0) then -1 else 0) r.(rdata) r.(rerrno)
  | CAudio (CSend _ d) => Reply (Z.max (-1) (Z.min (zlen d) r.(rv))) r.(rdata) r.(rerrno)
  | _ => r
  end.

#[export] Instance clamp_socket_posix E : PosixSocket (clamp_socket E).
Proof.
  split; intros; unfold env_reply, clamp_socket; cbn [rv].
  - lia.
  - destruct (_ || _); auto.
  - by rewrite (proj2 (Z.ltb_lt f 0)).
  - pose proof (zlen_nonneg d). lia.
Qed.

(** ** Specification: the bridge *)

(** The connection to the player. *)
Inductive bridge : Type := Off | Connected (f : Z) | Failed.

(** With it the value the switch had when it was last looked at, and the text that
    the file holds now. *)
Record bridge_state : Type := Bridge { conn : bridge; last : Z; text : list Z }.

(** The value of the switch for the next write: that of the text, or the last one when
    the text has no number. *)
Definition seen (last : Z) (text : list Z) : Z :=
  match scan_d text with Ret (Some v) => v | _ => last end.

(** Where a mixed buffer went: to the sound device, [n] bytes of it to the player, or
    nowhere. *)
Inductive output : Type := Played | Sent (f n : Z) | Lost.

Inductive bridge_step : bridge_state -> output -> bridge_state -> Prop :=
| step_recover l c c' : c' = [48] \/ c' = c -> bridge_step (Bridge Failed l c) Played (Bridge Off 0 c')
| step_off b l c : b <> Failed -> seen l c = 0 -> bridge_step (Bridge b l c) Played (Bridge Off 0 c)
| step_connect l c f n : seen l c <> 0 -> 0 <= f -> 0 < n ->
    bridge_step (Bridge Off l c) (Sent f n) (Bridge (Connected f) (seen l c) c)
| step_send l c f n : seen l c <> 0 -> 0 < n ->
    bridge_step (Bridge (Connected f) l c) (Sent f n) (Bridge (Connected f) (seen l c) c)
| step_lost b l c : b <> Failed -> seen l c <> 0 ->
    bridge_step (Bridge b l c) Lost (Bridge Failed (seen l c) c).

#[export] Hint Constructors bridge_step : bridge.

(** The application writes the file. *)
Definition app_text (c : option (list Z)) (st : bridge_state) : bridge_state :=
  match c with Some c => Bridge st.(conn) st.(last) c | None => st end.

(** Rounds: the application may write the file, then a buffer is written. *)
Inductive bridge_run : bridge_state -> list (option (list Z)) -> list output -> bridge_state -> Prop :=
| run_nil st : bridge_run st [] [] st
| run_cons st c st1 out st2 cs outs :
    bridge_step (app_text c st) out st1 -> bridge_run st1 cs outs st2 ->
    bridge_run st (c :: cs) (out :: outs) st2.

(** The state that the variables stand for. *)
Definition bridge_of (d : dump_t) : bridge :=
  if 10 <=? d.(dumpSocketWatchDog) then Failed
  else if d.(dumpSocket) <? 0 then Off else Connected d.(dumpSocket).

Definition text_of (d : dump_t) : list Z := default [] d.(dumpSwitchFile).

Definition abs (d : dump_t) : bridge_state := Bridge (bridge_of d) d.(dumpSwitch) (text_of d).

(** The application writes one digit; while it does, the file can be empty. *)
Definition switch_text (c : list Z) : Prop := zlen c <= 1.

(** The invariant: the file is open, and the connection is either not there, or
    made, or has failed. *)
Definition dump_ok (d : dump_t) : Prop :=
  (exists c, d.(dumpSwitchFile) = Some c /\ switch_text c) /\
  (d.(dumpSocketWatchDog) = 10 \/
   d.(dumpSocketWatchDog) = 0 /\
   (d.(dumpSocket) = -1 /\ d.(dumpSocketReady) = -1 \/ 0 <= d.(dumpSocket) /\ d.(dumpSocketReady) = 0)).

(** The mix buffer has the size the thread has cached. *)
Definition thread_ok (t : PlaybackThread) : Prop :=
  0 <= t.(mixBufferSize) < 2 ^ 29 /\ t.(mixBufferSize) <= zlen t.(mMixBuffer).

(** Calls that hand sound to someone. *)
Definition is_output (c : call) : bool :=
  match c with CAudio (CSinkWrite _ _) | CAudio (CStreamWrite _) | CAudio (CSend _ _) => true | _ => false end.

(** The calls [cs] that a write made, newest first, are those of its output; [n] is
    [framesWritten]. *)
Definition out_calls (out : output) (buf : list Z) (count n : Z) (cs : list call) : Prop :=
  let sent f := CAudio (CSend f (take (Z.to_nat (count * 4)) buf)) in
  match out with
  | Played => List.filter is_output cs = [CAudio (CSinkWrite buf count)]
  | Sent f m => List.filter is_output cs = [sent f] /\ n = m /\ m <= count * 4
  | Lost => n = 0 /\ (List.filter is_output cs = [] \/ exists f, List.filter is_output cs = [sent f])
  end.

(** ** One write *)

Lemma scan_d_char x : scan_d [x] = Ret (if isdigit x then Some (x - 48) else None).
Proof.
  destruct (isdigit x) eqn:Hd.
  - assert (Hx : 48 <= x <= 57) by (revert Hd; unfold isdigit; lia).
    assert (Hc : x = 48 \/ x = 49 \/ x = 50 \/ x = 51 \/ x = 52 \/ x = 53 \/ x = 54 \/ x = 55 \/ x = 56 \/ x = 57)
      by lia.
    by repeat (destruct Hc as [->|Hc]; [reflexivity|]); subst x.
  - unfold scan_d. cbn [skip_space]. destruct (isspace x); [done|].
    destruct ((x =? 45) || (x =? 43)); [done|]. by rewrite Hd.
Qed.

Lemma switch_text_inv c : switch_text c -> c = [] \/ exists x, c = [x].
Proof.
  unfold switch_text. destruct c as [|x [|y c]]; [by left|by right; exists x|].
  intros H. rewrite !zlen_cons in H. pose proof (zlen_nonneg c). lia.
Qed.

Lemma scan_d_text c : switch_text c -> exists v, scan_d c = Ret v.
Proof.
  intros Hc. destruct (switch_text_inv c Hc) as [->|[x ->]]; [by exists None|].
  rewrite scan_d_char. eauto.
Qed.

Lemma zero_text c : switch_text c -> fmt_d 0 ++ drop 1 c = [48].
Proof. intros Hc. by destruct (switch_text_inv c Hc) as [->|[x ->]]. Qed.

(** The switch file can be written. *)
Definition file_writable {E : Env} : Prop :=
  forall tr, 0 <= rv (env_reply tr (CAudio (CFprintf (fmt_d 0)))).

Section Step.
Context {E : Env} {HE : PosixSocket E}.

Lemma syscall_run c s : syscall c s = Ret (rv (env_reply (trace s) c), with_trace (c :: trace s) s).
Proof. done. Qed.

(** Before the buffer is handed on: the switch has the value of the specification,
    and a failure is cleared. *)
Lemma update_switch_run d s :
  dump_ok d ->
  exists d' cs, update_switch d s = Ret (d', with_trace (cs ++ trace s) s) /\
    List.filter is_output cs = [] /\
    (exists c, dumpSwitchFile d' = Some c /\ switch_text c) /\
    d'.(dumpSocketAddr) = d.(dumpSocketAddr) /\
    d'.(dumpSocket) = d.(dumpSocket) /\ d'.(dumpSocketReady) = d.(dumpSocketReady) /\
    d'.(dumpSocketWatchDog) = 0 /\
    (file_writable -> bridge_of d = Failed -> text_of d' = [48]) /\
    match bridge_of d with
    | Failed => d'.(dumpSwitch) = 0 /\ (text_of d' = [48] \/ text_of d' = text_of d)
    | _ => d'.(dumpSwitch) = seen d.(dumpSwitch) (text_of d) /\ text_of d' = text_of d
    end.
Proof.
  intros [(c & Hf & Hc) Hw]. unfold update_switch, bridge_of.
  destruct (scan_d_text c Hc) as [v Hv].
  destruct (Z.leb_spec 10 (dumpSocketWatchDog d)) as [H10|H10].
  - unfold disable_dump. rewrite Hf, (bindM_Ret _ _ _ _ _ (syscall_run _ _)). cbn zeta.
    rewrite zero_text by done. set (r := rv _).
    eexists _, [_]. split; [done|]. split; [done|]. cbn. split_and!; try done.
    + destruct (r <? 0); [by exists c|by exists [48]].
    + intros Hwr _. unfold text_of. cbn. by rewrite (proj2 (Z.ltb_ge r 0)) by apply Hwr.
    + unfold text_of. cbn. rewrite Hf. destruct (r <? 0); [by right|by left].
  - assert (Hw0 : dumpSocketWatchDog d = 0) by lia. unfold read_switch. rewrite Hf.
    erewrite bindM_Ret by (unfold lift; rewrite Hv; reflexivity).
    assert (Ht : text_of d = c) by (unfold text_of; by rewrite Hf).
    eexists _, []. split; [by destruct s|]. split; [done|].
    assert (Hs : seen (dumpSwitch d) (text_of d) = match v with Some v => v | None => dumpSwitch d end).
    { rewrite Ht. unfold seen. rewrite Hv. by destruct v. }
    destruct v as [v|]; split_and!; try done; try (by exists c);
      (destruct (dumpSocket d <? 0); rewrite ?Hs; done).
Qed.

(** A connection attempt ends connected, or in a failure. *)
Lemma connect_bridge_run d s :
  (exists c, dumpSwitchFile d = Some c /\ switch_text c) -> d.(dumpSocketWatchDog) = 0 ->
  d.(dumpSocket) = -1 /\ d.(dumpSocketReady) = -1 \/ 0 <= d.(dumpSocket) /\ d.(dumpSocketReady) = 0 ->
  exists d' cs, connect_bridge d s = Ret (d', with_trace (cs ++ trace s) s) /\
    List.filter is_output cs = [] /\ dump_ok d' /\
    d'.(dumpSocketAddr) = d.(dumpSocketAddr) /\ d'.(dumpSwitch) = d.(dumpSwitch) /\
    text_of d' = text_of d /\
    (d.(dumpSocketReady) = 0 -> d' = d) /\
    (bridge_of d' = Failed /\ d'.(dumpSocketReady) = -1 \/
     bridge_of d' = Connected d'.(dumpSocket) /\ 0 <= d'.(dumpSocket) /\ d'.(dumpSocketReady) = 0).
Proof.
  intros Hf Hw Hs. unfold connect_bridge. destruct (Z.ltb_spec (dumpSocket d) 0) as [Hn|Hn].
  - destruct Hs as [[_ Hr]|[? _]]; [|lia].
    rewrite (bindM_Ret _ _ _ _ _ (syscall_run _ _)). pose proof (socket_ret (trace s) SOCK_STREAM) as Hk.
    set (k := rv (env_reply (trace s) (CSocket SOCK_STREAM))) in *. cbn zeta.
    replace (dumpSocketAddr _) with (dumpSocketAddr d) by (by destruct (k <? 0)).
    set (cc := CConnect k _ _ _). rewrite (bindM_Ret _ _ _ _ _ (syscall_run _ _)). cbn [with_trace trace].
    set (tr := CSocket SOCK_STREAM :: trace s).
    assert (Hc : rv (env_reply tr cc) = 0 \/ rv (env_reply tr cc) = -1) by apply connect_ret.
    assert (Hb : k < 0 -> rv (env_reply tr cc) = -1) by apply connect_bad.
    set (r := rv (env_reply tr cc)) in *. eexists _, [_; _]. split; [done|]. split; [done|].
    destruct (Z.ltb_spec r 0) as [Hr0|Hr0].
    + assert (r = -1) by lia.
      destruct (k <? 0); (split_and!; [by split; [|left]|done|done|done|intros ?; exfalso; lia|by left]).
    + assert (r = 0 /\ 0 <= k) as [-> Hk0] by lia. rewrite (proj2 (Z.ltb_ge k 0)) by lia.
      split_and!; [|done|done|done|intros ?; exfalso; lia|right].
      * split; [done|]. right. split; [done|by right].
      * unfold bridge_of. cbn. by rewrite Hw, (proj2 (Z.ltb_ge k 0)).
  - destruct Hs as [[? _]|[_ Hr]]; [lia|]. exists d, []. split; [by destruct s|]. split; [done|].
    split; [split; [done|]; right; split; [done|]; by right|]. split_and!; try done.
    right. unfold bridge_of. rewrite Hw, (proj2 (Z.ltb_ge (dumpSocket d) 0)) by lia. done.
Qed.

(** Handing the buffer to the player, once there is a connection. *)
Lemma send_bridge_run d buf count s :
  dump_ok d -> 0 <= count -> count * 4 <= zlen buf ->
  bridge_of d = Failed /\ d.(dumpSocketReady) = -1 \/
  bridge_of d = Connected d.(dumpSocket) /\ 0 <= d.(dumpSocket) /\ d.(dumpSocketReady) = 0 ->
  exists out n d' cs, send_bridge d buf count s = Ret ((n, d'), with_trace (cs ++ trace s) s) /\
    dump_ok d' /\ d'.(dumpSocketAddr) = d.(dumpSocketAddr) /\ d'.(dumpSwitch) = d.(dumpSwitch) /\
    text_of d' = text_of d /\
    out_calls out buf count n cs /\
    match out with
    | Played => False
    | Sent f m => bridge_of d' = bridge_of d /\ bridge_of d = Connected f /\ 0 <= f /\ 0 < m
    | Lost => bridge_of d' = Failed
    end.
Proof.
  intros [Hf Hw] H0 Hbuf Hd. unfold send_bridge.
  destruct Hd as [[Hb Hr]|(Hb & Hs & Hr)]; rewrite Hr; cbn [Z.leb Z.compare].
  { exists Lost, 0, d, []. split; [by destruct s|]. split_and!; try done. split; [done|by left]. }
  rewrite (proj2 (Z.ltb_ge _ _)) by lia. rewrite (bindM_Ret _ _ _ _ _ (syscall_run _ _)).
  set (data := take _ buf).
  assert (Hlen : zlen data = count * 4).
  { subst data. unfold zlen in *. rewrite length_take. lia. }
  pose proof (send_ret (trace s) (dumpSocket d) data) as Hret. set (n := rv _) in *.
  assert (Hn10 : dumpSocketWatchDog d = 0).
  { destruct Hw as [Hw|[Hw _]]; [|done]. unfold bridge_of in Hb. by rewrite Hw in Hb. }
  destruct (Z.ltb_spec n 1).
  - exists Lost, 0, (set_watchdog 10 d), [CAudio (CSend (dumpSocket d) data)].
    split; [done|]. split_and!; try done; [by split; [|left]|]. split; [done|]. right. by exists (dumpSocket d).
  - exists (Sent (dumpSocket d) n), n, (set_watchdog 0 d), [CAudio (CSend (dumpSocket d) data)].
    split; [done|]. split_and!; try done; try lia.
    + split; [done|]. right. split; [done|]. by right.
    + split; [done|lia].
    + unfold bridge_of. by rewrite Hn10.
Qed.

(** [route] implements one step of the bridge. *)
Lemma route_refines d buf count s :
  dump_ok d -> 0 <= count -> count * 4 <= zlen buf ->
  exists out n d' cs, route d buf count s = Ret ((n, d'), with_trace (cs ++ trace s) s) /\
    dump_ok d' /\ d'.(dumpSocketAddr) = d.(dumpSocketAddr) /\
    bridge_step (abs d) out (abs d') /\ out_calls out buf count n cs /\
    (file_writable -> bridge_of d = Failed -> text_of d' = [48]).
Proof.
  intros Hok H0 Hbuf. unfold route.
  destruct (update_switch_run d s Hok) as (d1 & cs1 & E1 & Ho1 & Hf1 & Ha1 & Hs1 & Hr1 & Hw1 & Hwr & Hm).
  rewrite (bindM_Ret _ _ _ _ _ E1). destruct (Z.eqb_spec (dumpSwitch d1) 0) as [Hz|Hz].
  - cbn zeta. rewrite (bindM_Ret _ _ _ _ _ (syscall_run _ _)). cbn [trace with_trace].
    set (n := rv _). exists Played, n, (set_socket (-1) (set_ready (-1) d1)), (CAudio (CSinkWrite buf count) :: cs1).
    split; [done|]. split; [split; [done|]; right; split; [done|by left]|]. split; [done|].
    split; [|split; [cbn; by rewrite Ho1|done]].
    assert (Ha : abs (set_socket (-1) (set_ready (-1) d1)) = Bridge Off 0 (text_of d1)).
    { unfold abs, bridge_of. cbn. by rewrite Hw1, Hz. }
    rewrite Ha. unfold abs. destruct (bridge_of d) eqn:Hb; destruct Hm as [Hm1 Hm2];
      [rewrite Hm2; constructor; congruence..|by constructor].
  - assert (Hb : bridge_of d <> Failed) by (intros Hb; rewrite Hb in Hm; by destruct Hm).
    assert (Hsw : dumpSwitch d1 = seen (dumpSwitch d) (text_of d) /\ text_of d1 = text_of d)
      by (by destruct (bridge_of d)).
    destruct Hsw as [Hsw1 Htx1]. destruct Hok as [Hf [Hw|[Hw Hs]]].
    { unfold bridge_of in Hb. by rewrite Hw in Hb. }
    destruct (connect_bridge_run d1 (with_trace (cs1 ++ trace s) s))
      as (d2 & cs2 & E2 & Ho2 & Hok2 & Ha2 & Hsw2 & Htx2 & Hid & Hb2); [done|done|by rewrite Hs1, Hr1|].
    rewrite (bindM_Ret _ _ _ _ _ E2). cbn [trace with_trace].
    destruct (send_bridge_run d2 buf count (with_trace (cs2 ++ cs1 ++ trace s) s) Hok2 H0 Hbuf Hb2)
      as (out & n & d3 & cs3 & E3 & Hok3 & Ha3 & Hsw3 & Htx3 & Hcalls & Hout).
    exists out, n, d3, (cs3 ++ cs2 ++ cs1). split; [rewrite <- !app_assoc; exact E3|].
    split; [done|]. split; [congruence|]. split; [|split; [|done]].
    + unfold abs. rewrite Hsw3, Hsw2, Htx3, Htx2, Htx1. rewrite Hsw1 in Hz |- *.
      destruct out as [|f m|]; [done| |rewrite Hout; by constructor].
      destruct Hout as (-> & Hf3 & Hf0 & Hm0). rewrite Hf3. unfold bridge_of in *.
      rewrite Hw in *. cbn [Z.leb Z.compare] in *. destruct (Z.ltb_spec (dumpSocket d) 0); [by constructor|].
      destruct Hs as [[? _]|[_ Hr0]]; [lia|]. rewrite Hid in Hf3 by congruence.
      rewrite Hw1, Hs1 in Hf3. cbn in Hf3. rewrite (proj2 (Z.ltb_ge _ _)) in Hf3 by lia.
      injection Hf3 as <-. by constructor.
    + unfold out_calls in *. by rewrite !List.filter_app, Ho1, Ho2, !app_nil_r.
Qed.

Lemma update_setpoint_run g t s :
  exists cs, update_setpoint g t s = Ret (tt, with_trace (cs ++ trace s) s) /\ List.filter is_output cs = [].
Proof.
  unfold update_setpoint. destruct (negb _ && _); [|by exists []; destruct s].
  destruct (negb _); [exists [CAudio (CSetAvgFrames (u32 (u32 (rv (env_reply (trace s) (CAudio CMaxFrames))) * 7) / 8));
    CAudio CMaxFrames]|exists [CAudio (CSetAvgFrames (u32 (mNormalFrameCount t * 2)))]]; by split.
Qed.

(** The same for the whole function. *)
Lemma write_refines bt wt g d t s :
  dump_ok d -> thread_ok t -> t.(mNormalSink) = true ->
  exists out n d' t' cs,
    threadLoop_write bt wt g d t s = Ret ((d', t'), with_trace (cs ++ trace s) s) /\
    dump_ok d' /\ d'.(dumpSocketAddr) = d.(dumpSocketAddr) /\ bridge_step (abs d) out (abs d') /\
    out_calls out t.(mMixBuffer) (t.(mixBufferSize) / 4) n cs /\
    (file_writable -> bridge_of d = Failed -> text_of d' = [48]) /\
    t'.(mNormalSink) = true /\ t'.(mixBufferSize) = t.(mixBufferSize) /\
    t'.(mNumWrites) = wt (t.(mNumWrites) + 1) /\ t'.(mInWrite) = false /\
    match out with
    | Played => True
    | Sent _ _ => t'.(mBytesWritten) = bt (t.(mBytesWritten) + t.(mixBufferSize))
    | Lost => t'.(mBytesWritten) = t.(mBytesWritten)
    end.
Proof.
  intros Hd [Ht1 Ht2] Hn. unfold threadLoop_write. rewrite Hn.
  rewrite (bindM_Ret _ _ _ _ _ (syscall_run _ _)), bindM_assoc.
  destruct (update_setpoint_run g t (with_trace (CAudio CSystemTime :: trace s) s)) as (cs1 & E1 & Ho1).
  rewrite (bindM_Ret _ _ _ _ _ E1), bindM_assoc.
  assert (Hq : mixBufferSize t .>> mBitShift = mixBufferSize t / 4) by (by rewrite Z.shiftr_div_pow2).
  rewrite Hq.
  destruct (route_refines d (mMixBuffer t) (mixBufferSize t / 4)
    (with_trace (cs1 ++ CAudio CSystemTime :: trace s) s)) as (out & n & d' & cs & E2 & Hd' & Ha & Hst & Hc & Hwr);
    [done|Z.div_mod_to_equations; lia..|].
  erewrite bindM_Ret by exact E2. cbn beta iota. rewrite bindM_ret. cbn beta iota.
  eexists out, n, d', _, (cs ++ cs1 ++ [CAudio CSystemTime]). split.
  { cbn [with_trace trace]. rewrite <- !app_assoc. cbn [app]. reflexivity. }
  split_and!; try done; cbn.
  - unfold out_calls in *. by rewrite !List.filter_app, Ho1, !app_nil_r.
  - destruct out as [|f m|]; [done| |by destruct Hc as [-> _]].
    destruct Hc as (_ & -> & Hm). inversion Hst; subst;
      (rewrite (proj2 (Z.ltb_lt 0 m)) by done; rewrite Z.shiftl_mul_pow2 by done; unfold s32, mBitShift;
       rewrite Z.mod_small by (Z.div_mod_to_equations; lia); by rewrite (proj2 (Z.ltb_lt 0 _)) by lia).
Qed.

End Step.

(** ** Many writes *)

(** [RaopHelper.setRaopSwitch] of the application replaces the text of the file.  When the
    file cannot be opened the exception is only printed and nothing changes; that is a
    turn of [write_all] without a text. *)
Definition setRaopSwitch (c : list Z) (d : dump_t) : dump_t :=
  match d.(dumpSwitchFile) with Some _ => set_file c d | None => d end.

(** The mixer fills the buffer. *)
Definition mixed (buf : list Z) (t : PlaybackThread) : PlaybackThread :=
  Thread t.(mNormalSink) t.(mPipeSink) buf t.(mixBufferSize) t.(mNormalFrameCount) t.(mScreenState)
    t.(mLastWriteTime) t.(mBytesWritten) t.(mNumWrites) t.(mInWrite).

(** What happens up to a write: a text that the application writes, the new sound, and
    the state of the screen. *)
Record turn : Type := Round { r_text : option (list Z); r_buf : list Z; r_screen : Z }.

Fixpoint write_all {E : Env} (bt wt : Z -> Z) (rs : list turn) (d : dump_t) (t : PlaybackThread)
    : M (dump_t * PlaybackThread) :=
  match rs with
  | [] => ret (d, t)
  | r :: rs =>
      let d := match r.(r_text) with Some c => setRaopSwitch c d | None => d end in
      do! '(d, t) <- threadLoop_write bt wt r.(r_screen) d (mixed r.(r_buf) t);
      write_all bt wt rs d t
  end.

Definition round_ok (t : PlaybackThread) (r : turn) : Prop :=
  t.(mixBufferSize) <= zlen r.(r_buf) /\
  match r.(r_text) with Some c => switch_text c | None => True end.

(** The calls of many writes are those of their outputs, in order; the newest call is
    first. *)
Inductive outs_calls (count : Z) : list output -> list turn -> list call -> Prop :=
| outs_nil : outs_calls count [] [] []
| outs_cons out outs r rs n cs cs' :
    out_calls out r.(r_buf) count n cs -> outs_calls count outs rs cs' ->
    outs_calls count (out :: outs) (r :: rs) (cs' ++ cs).

#[export] Hint Constructors outs_calls bridge_run : bridge.

Section Many.
Context {E : Env} {HE : PosixSocket E}.

Lemma setRaopSwitch_abs c d :
  dump_ok d -> match c with Some c => switch_text c | None => True end ->
  let d' := match c with Some c => setRaopSwitch c d | None => d end in
  dump_ok d' /\ abs d' = app_text c (abs d).
Proof.
  intros [(c0 & Hf & Hc0) Hw] Hc. destruct c as [c|]; cbn zeta; [|split; [split; [by exists c0|]|]; done].
  unfold setRaopSwitch. rewrite Hf. split; [|done]. split; [by exists c|done].
Qed.

Lemma write_all_refines bt wt : forall rs d t s,
  dump_ok d -> 0 <= t.(mixBufferSize) < 2 ^ 29 -> t.(mNormalSink) = true -> Forall (round_ok t) rs ->
  exists outs d' t' cs,
    write_all bt wt rs d t s = Ret ((d', t'), with_trace (cs ++ trace s) s) /\
    dump_ok d' /\ bridge_run (abs d) (map r_text rs) outs (abs d') /\
    outs_calls (t.(mixBufferSize) / 4) outs rs cs.
Proof.
  induction rs as [|r rs IH]; intros d t s Hd Ht Hn Hrs.
  { exists [], d, t, []. split; [by destruct s|]. split_and!; [done|constructor..]. }
  inversion Hrs as [|? ? [Hr1 Hr2] Hrs']; subst. cbn [write_all]. cbn zeta.
  destruct (setRaopSwitch_abs (r_text r) d Hd Hr2) as [Hd1 Ha1]. set (d1 := match r_text r with Some c => setRaopSwitch c d | None => d end) in *.
  destruct (write_refines bt wt (r_screen r) d1 (mixed (r_buf r) t) s)
    as (out & n & d2 & t2 & cs & E2 & Hd2 & _ & Hst & Hc & _ & Hn2 & Hm2 & _); [done|split; done|done|].
  rewrite (bindM_Ret _ _ _ _ _ E2). cbn beta iota.
  cbn [mixed mixBufferSize mMixBuffer] in Hm2, Hc.
  destruct (IH d2 t2 (with_trace (cs ++ trace s) s)) as (outs & d3 & t3 & cs3 & E3 & Hd3 & Hrun & Hcs);
    [done|by rewrite Hm2|done| |].
  { eapply Forall_impl; [exact Hrs'|]. intros r' [? ?]. split; [by rewrite Hm2|done]. }
  exists (out :: outs), d3, t3, (cs3 ++ cs). split; [rewrite <- app_assoc; exact E3|].
  rewrite Hm2 in Hcs. rewrite Ha1 in Hst. split_and!; [done| |by econstructor].
  cbn [map]. by econstructor.
Qed.

End Many.

(** ** Facts on the specification *)

(** What follows a lost buffer is played. *)
Definition losses_isolated (outs : list output) : Prop :=
  forall i, outs !! i = Some Lost -> outs !! S i = Some Played \/ outs !! S i = None.

Lemma run_isolated st cs outs st' :
  bridge_run st cs outs st' ->
  losses_isolated outs /\ (conn st = Failed -> outs !! 0%nat = Some Played \/ outs !! 0%nat = None).
Proof.
  induction 1 as [st|st c st1 out st2 cs outs Hst Hrun [IH1 IH2]]; [split; [done|by right]|].
  split.
  - intros [|i] Hi; [|exact (IH1 i Hi)]. cbn in Hi |- *. injection Hi as ->.
    apply IH2. by inversion Hst.
  - intros Hf. left. cbn. destruct st as [b l x]. cbn in Hf. subst b.
    destruct c; inversion Hst; subst; done.
Qed.

(** With 0 in the file and no text from the application everything is played. *)
Lemma run_zero st n outs st' :
  bridge_run st (repeat None n) outs st' -> conn st = Off -> text st = [48] ->
  outs = repeat Played n /\ conn st' = Off.
Proof.
  revert st outs. induction n as [|n IH]; intros [b l x] outs Hrun Hf Ht; inversion Hrun; subst; [done|].
  cbn in *. subst b x.
  match goal with H : bridge_step _ _ _ |- _ => inversion H; subst end; try done.
  match goal with H : bridge_run _ (repeat None n) _ _ |- _ => destruct (IH _ _ H) as [-> ?] end; done.
Qed.

(** ** Theorems *)

(** C19: [threadLoop_write] implements one step of the bridge.  It returns on every
    behaviour of the environment that POSIX allows, keeps the invariant of the global
    variables, and the calls that hand on sound are exactly those of the step: the
    whole buffer to the sound device, or the whole frames of it to the socket of the
    player, never both; when neither is possible the buffer is lost and the bridge has
    failed.  Bytes are counted as written exactly when the player took some. *)
Theorem threadLoop_write_refines {E : Env} {HE : PosixSocket E} bt wt g d t s :
  dump_ok d -> thread_ok t -> t.(mNormalSink) = true ->
  exists out n d' t' cs,
    threadLoop_write bt wt g d t s = Ret ((d', t'), with_trace (cs ++ trace s) s) /\
    dump_ok d' /\ bridge_step (abs d) out (abs d') /\
    out_calls out t.(mMixBuffer) (t.(mixBufferSize) / 4) n cs /\
    match out with
    | Played => True
    | Sent _ _ => t'.(mBytesWritten) = bt (t.(mBytesWritten) + t.(mixBufferSize))
    | Lost => t'.(mBytesWritten) = t.(mBytesWritten)
    end.
Proof.
  intros Hd Ht Hn. destruct (write_refines bt wt g d t s Hd Ht Hn)
    as (out & n & d' & t' & cs & H1 & H2 & _ & H3 & H4 & _ & _ & _ & _ & _ & H5).
  by exists out, n, d', t', cs.
Qed.

(** A server that has just started with the switch on, a buffer of two frames, and an
    environment that gives socket 7 and takes what is sent. *)
Definition wit_dump (c : list Z) : dump_t := onFirstRef (dump_init (Some c)).
Definition wit_thread : PlaybackThread := Thread true false [1; 2; 3; 4; 5; 6; 7; 8] 8 2 0 0 0 0 false.
Definition wit_bridge_env : Env := clamp_socket (fun tr c =>
  match c with CSocket _ => Reply 7 [] 0 | CAudio (CSend _ d) => Reply (zlen d) [] 0 | _ => Reply 0 [] 0 end).

#[export] Instance wit_bridge_posix : PosixSocket wit_bridge_env := clamp_socket_posix _.

Lemma wit_dump_ok c : switch_text c -> dump_ok (wit_dump c).
Proof. intros Hc. split; [by exists c|]. right. split; [done|by left]. Qed.

Lemma wit_thread_ok : thread_ok wit_thread.
Proof. split; [done|]. change (8 <= 8). lia. Qed.

Lemma threadLoop_write_refines_witness :
  exists out n d' t' cs,
    @threadLoop_write wit_bridge_env s32 s32 0 (wit_dump [49]) wit_thread proc0 =
      Ret ((d', t'), with_trace (cs ++ []) proc0) /\
    dump_ok d' /\ bridge_step (Bridge Off 0 [49]) out (abs d') /\
    out_calls out [1; 2; 3; 4; 5; 6; 7; 8] 2 n cs /\
    match out with
    | Played => True
    | Sent _ _ => t'.(mBytesWritten) = s32 (0 + 8)
    | Lost => t'.(mBytesWritten) = 0
    end.
Proof.
  apply (threadLoop_write_refines (E := wit_bridge_env) s32 s32 0 (wit_dump [49]) wit_thread proc0);
    [by apply wit_dump_ok|apply wit_thread_ok|reflexivity].
Defined.

(** The concrete run: the buffer goes to socket 7, connected to port 4999. *)
Example wit_write_sends :
  match @threadLoop_write wit_bridge_env s32 s32 0 (wit_dump [49]) wit_thread proc0 with
  | Ret ((d', _), s') => dumpSocket d' = 7 /\ trace s' =
      [CAudio (CSend 7 [1; 2; 3; 4; 5; 6; 7; 8]); CConnect 7 AF_INET 16777343 (htons 4999); CSocket SOCK_STREAM;
       CAudio CSystemTime]
  | UB _ => False
  end.
Proof. split; reflexivity. Qed.

(** C23: over any number of writes, with the application rewriting the switch file in
    between, the outputs are a run of the bridge and the calls are exactly those of the
    outputs; a lost buffer is followed by one that the sound device gets, so that no
    two buffers in a row are lost. *)
Theorem losses_are_isolated {E : Env} {HE : PosixSocket E} bt wt rs d t s :
  dump_ok d -> 0 <= t.(mixBufferSize) < 2 ^ 29 -> t.(mNormalSink) = true -> Forall (round_ok t) rs ->
  exists outs d' t' cs,
    write_all bt wt rs d t s = Ret ((d', t'), with_trace (cs ++ trace s) s) /\
    dump_ok d' /\ bridge_run (abs d) (map r_text rs) outs (abs d') /\
    outs_calls (t.(mixBufferSize) / 4) outs rs cs /\ losses_isolated outs.
Proof.
  intros Hd Ht Hn Hrs. destruct (write_all_refines bt wt rs d t s Hd Ht Hn Hrs)
    as (outs & d' & t' & cs & H1 & H2 & H3 & H4).
  exists outs, d', t', cs. split_and!; try done. by apply (run_isolated _ _ _ _ H3).
Qed.

Definition wit_rounds : list turn :=
  [Round None [1; 2; 3; 4; 5; 6; 7; 8] 0; Round (Some [49]) [8; 7; 6; 5; 4; 3; 2; 1] 1].

Lemma losses_are_isolated_witness :
  exists outs d' t' cs,
    @write_all (clamp_socket env0) s32 s32 wit_rounds (wit_dump [49]) wit_thread proc0 =
      Ret ((d', t'), with_trace (cs ++ []) proc0) /\
    dump_ok d' /\ bridge_run (Bridge Off 0 [49]) [None; Some [49]] outs (abs d') /\
    outs_calls 2 outs wit_rounds cs /\ losses_isolated outs.
Proof.
  apply (losses_are_isolated (E := clamp_socket env0) s32 s32 wit_rounds (wit_dump [49]) wit_thread proc0);
    [by apply wit_dump_ok|done|reflexivity|].
  repeat constructor; unfold switch_text, zlen; cbn; lia.
Defined.

(** While the file holds 0 and the application is silent, everything is played. *)
Lemma write_all_off {E : Env} {HE : PosixSocket E} bt wt rs d t s :
  dump_ok d -> bridge_of d = Off -> text_of d = [48] ->
  0 <= t.(mixBufferSize) < 2 ^ 29 -> t.(mNormalSink) = true ->
  Forall (round_ok t) rs -> Forall (fun r => r_text r = None) rs ->
  exists d' t' cs,
    write_all bt wt rs d t s = Ret ((d', t'), with_trace (cs ++ trace s) s) /\
    outs_calls (t.(mixBufferSize) / 4) (repeat Played (length rs)) rs cs /\ bridge_of d' = Off.
Proof.
  intros Hd Hoff Htx Ht Hn Hrs Hno.
  destruct (write_all_refines bt wt rs d t s Hd Ht Hn Hrs) as (outs & d' & t' & cs & E1 & _ & Hrun & Hcs).
  assert (Hm : map r_text rs = repeat None (length rs)).
  { clear - Hno. induction Hno as [|r rs Hr _ IH]; [done|]. cbn. by rewrite Hr, IH. }
  rewrite Hm in Hrun. destruct (run_zero _ _ _ _ Hrun Hoff Htx) as [-> ?]. by exists d', t', cs.
Qed.

(** C24: after a failure the bridge turns itself off.  When the connection has failed and
    the switch file can be written, the sound device gets every buffer from the next
    one on, until the application writes the file again. *)
Theorem failure_falls_back {E : Env} {HE : PosixSocket E} bt wt r rs d t s :
  dump_ok d -> bridge_of d = Failed -> file_writable ->
  0 <= t.(mixBufferSize) < 2 ^ 29 -> t.(mNormalSink) = true ->
  Forall (round_ok t) (r :: rs) -> Forall (fun r => r_text r = None) (r :: rs) ->
  exists d' t' cs,
    write_all bt wt (r :: rs) d t s = Ret ((d', t'), with_trace (cs ++ trace s) s) /\
    outs_calls (t.(mixBufferSize) / 4) (repeat Played (S (length rs))) (r :: rs) cs /\
    bridge_of d' = Off.
Proof.
  intros Hd Hf Hwr Ht Hn Hrs Hno.
  inversion Hrs as [|? ? [Hr1 _] Hrs']; subst. inversion Hno as [|? ? Hr2 Hno']; subst.
  cbn [write_all]. cbn zeta. rewrite Hr2.
  destruct (write_refines bt wt (r_screen r) d (mixed (r_buf r) t) s)
    as (out & n & d2 & t2 & cs & E2 & Hd2 & _ & Hst & Hc & Htx & Hn2 & Hm2 & _); [done|split; done|done|].
  rewrite (bindM_Ret _ _ _ _ _ E2). cbn beta iota. cbn [mixed mixBufferSize mMixBuffer] in Hm2, Hc.
  specialize (Htx Hwr Hf). unfold abs in Hst. rewrite Hf, Htx in Hst.
  assert (Hout : out = Played /\ bridge_of d2 = Off) by (by inversion Hst). destruct Hout as [-> Hoff].
  destruct (write_all_off bt wt rs d2 t2 (with_trace (cs ++ trace s) s)) as (d3 & t3 & cs3 & E3 & Hcs & H3);
    [done..|by rewrite Hm2|done| |done|].
  { eapply Forall_impl; [exact Hrs'|]. intros r' [? ?]. split; [by rewrite Hm2|done]. }
  exists d3, t3, (cs3 ++ cs). split; [rewrite <- app_assoc; exact E3|]. split; [|done].
  rewrite Hm2 in Hcs. cbn [repeat]. by econstructor.
Qed.

(** The state after a failed connection. *)
Definition wit_failed : dump_t := set_watchdog 10 (set_switch 1 (set_socket 7 (wit_dump [49]))).
Definition wit_quiet : list turn := [Round None [1; 2; 3; 4; 5; 6; 7; 8] 0; Round None [8; 7; 6; 5; 4; 3; 2; 1] 1].

Lemma failure_falls_back_witness :
  exists d' t' cs,
    @write_all wit_bridge_env s32 s32 wit_quiet wit_failed wit_thread proc0 =
      Ret ((d', t'), with_trace (cs ++ []) proc0) /\
    outs_calls 2 [Played; Played] wit_quiet cs /\ bridge_of d' = Off.
Proof.
  apply (failure_falls_back (E := wit_bridge_env) s32 s32 (Round None [1; 2; 3; 4; 5; 6; 7; 8] 0)
    [Round None [8; 7; 6; 5; 4; 3; 2; 1] 1] wit_failed wit_thread proc0).
  - split; [by exists [49]|by left].
  - reflexivity.
  - intros tr. cbn. lia.
  - done.
  - reflexivity.
  - repeat constructor; unfold zlen; cbn; lia.
  - repeat constructor.
Defined.

(** C39: the text decides only when it is a number.  While the player is connected and the
    switch was on, the digit 0 in the file gives the next buffer back to the sound
    device; the letter O, which the application writes when streaming ends or when it
    stops, has no effect: the sound device gets nothing, and the buffer goes to the
    player or is lost. *)
Theorem letter_O_is_ignored {E : Env} {HE : PosixSocket E} bt wt g d t s f :
  dump_ok d -> thread_ok t -> t.(mNormalSink) = true ->
  bridge_of d = Connected f -> d.(dumpSwitch) <> 0 ->
  (exists d' t' cs,
     threadLoop_write bt wt g (setRaopSwitch (lit "0") d) t s = Ret ((d', t'), with_trace (cs ++ trace s) s) /\
     List.filter is_output cs = [CAudio (CSinkWrite t.(mMixBuffer) (t.(mixBufferSize) / 4))] /\
     bridge_of d' = Off) /\
  (exists d' t' cs,
     threadLoop_write bt wt g (setRaopSwitch (lit "O") d) t s = Ret ((d', t'), with_trace (cs ++ trace s) s) /\
     ~ In (CAudio (CSinkWrite t.(mMixBuffer) (t.(mixBufferSize) / 4))) cs /\
     d'.(dumpSwitch) = d.(dumpSwitch) /\ (bridge_of d' = Connected f \/ bridge_of d' = Failed)).
Proof.
  intros Hd Ht Hn Hb Hsw.
  assert (Hstep : forall c, switch_text c -> exists out n d' t' cs,
    threadLoop_write bt wt g (setRaopSwitch c d) t s = Ret ((d', t'), with_trace (cs ++ trace s) s) /\
    bridge_step (Bridge (Connected f) (dumpSwitch d) c) out (abs d') /\
    out_calls out t.(mMixBuffer) (t.(mixBufferSize) / 4) n cs).
  { intros c Hc. destruct (setRaopSwitch_abs (Some c) d Hd Hc) as [Hd1 Ha1].
    destruct (write_refines bt wt g (setRaopSwitch c d) t s Hd1 Ht Hn)
      as (out & n & d' & t' & cs & H1 & _ & _ & H3 & H4 & _).
    exists out, n, d', t', cs. cbn zeta iota in Ha1. rewrite Ha1 in H3. unfold abs in H3 at 1. cbn in H3.
    by rewrite Hb in H3. }
  split.
  - destruct (Hstep (lit "0")) as (out & n & d' & t' & cs & H1 & H2 & H3); [done|].
    exists d', t', cs. split; [done|]. by inversion H2; subst.
  - destruct (Hstep (lit "O")) as (out & n & d' & t' & cs & H1 & H2 & H3); [done|].
    exists d', t', cs. split; [done|]. change (seen (dumpSwitch d) (lit "O")) with (dumpSwitch d) in H2.
    assert (Hnot : out <> Played).
    { intros ->. inversion H2; subst. done. }
    split; [|inversion H2; subst; try done; auto].
    intros Hin. assert (Hf : In (CAudio (CSinkWrite (mMixBuffer t) (mixBufferSize t / 4))) (List.filter is_output cs))
      by (by apply List.filter_In).
    destruct out as [|f' m|]; [done|destruct H3 as [H3 _]|destruct H3 as [_ [H3|[f' H3]]]]; rewrite H3 in Hf;
      cbn in Hf; intuition discriminate.
Qed.

(** The state while the player is connected. *)
Definition wit_connected : dump_t := set_ready 0 (set_switch 1 (set_socket 7 (wit_dump [49]))).

Lemma letter_O_is_ignored_witness :
  (exists d' t' cs,
     @threadLoop_write wit_bridge_env s32 s32 0 (setRaopSwitch (lit "0") wit_connected) wit_thread proc0 =
       Ret ((d', t'), with_trace (cs ++ []) proc0) /\
     List.filter is_output cs = [CAudio (CSinkWrite [1; 2; 3; 4; 5; 6; 7; 8] 2)] /\
     bridge_of d' = Off) /\
  (exists d' t' cs,
     @threadLoop_write wit_bridge_env s32 s32 0 (setRaopSwitch (lit "O") wit_connected) wit_thread proc0 =
       Ret ((d', t'), with_trace (cs ++ []) proc0) /\
     ~ In (CAudio (CSinkWrite [1; 2; 3; 4; 5; 6; 7; 8] 2)) cs /\
     d'.(dumpSwitch) = 1 /\ (bridge_of d' = Connected 7 \/ bridge_of d' = Failed)).
Proof.
  apply (letter_O_is_ignored (E := wit_bridge_env) s32 s32 0 wit_connected wit_thread proc0 7).
  - split; [by exists [49]|]. right. split; [done|by right].
  - apply wit_thread_ok.
  - reflexivity.
  - reflexivity.
  - discriminate.
Defined.

(** The switch file may be missing: [load_audio_interface] says so and goes on, and
    then every write of a mixer thread dereferences the null pointer. *)
Theorem missing_switch_file_crashes {E : Env} bt wt g d t s :
  d.(dumpSwitchFile) = None -> t.(mNormalSink) = true ->
  threadLoop_write bt wt g d t s = UB NullDeref.
Proof.
  intros Hf Hn. unfold threadLoop_write. rewrite Hn, (bindM_Ret _ _ _ _ _ (syscall_run _ _)), bindM_assoc.
  destruct (update_setpoint_run g t (with_trace (CAudio CSystemTime :: trace s) s)) as (cs1 & E1 & _).
  rewrite (bindM_Ret _ _ _ _ _ E1). apply bindM_UB, bindM_UB. unfold route. apply bindM_UB.
  unfold update_switch, disable_dump, read_switch. rewrite Hf. by destruct (10 <=? _).
Qed.

(** [load_audio_interface] gives a device exactly when it returns 0, whatever became of
    the switch file. *)
Theorem load_audio_interface_spec {E : Env} bad current d if_name s :
  bad <> 0 ->
  exists rc dev s', load_audio_interface bad current d if_name s = Ret ((rc, dev), s') /\
    (dev = true <-> rc = 0) /\ heap s' = heap s.
Proof.
  intros Hbad. unfold load_audio_interface.
  assert (Hset : exists r tr, match dumpSwitchFile d with Some _ => syscall (CAudio CSetbuf) | None => ret 0 end s =
    Ret (r, with_trace tr s)).
  { destruct (dumpSwitchFile d); [by eexists _, _|]. exists 0, (trace s). by destruct s. }
  destruct Hset as (r & tr & E1). rewrite (bindM_Ret _ _ _ _ _ E1), (bindM_Ret _ _ _ _ _ (syscall_run _ _)).
  destruct (Z.eqb_spec (rv (env_reply (trace (with_trace tr s)) (CAudio (CHwGetModule if_name)))) 0) as [H0|H0];
    cbn [negb]; [|eexists _, false, _; split; [reflexivity|]; split; [split; done|done]].
  erewrite bindM_Ret by reflexivity. cbn [with_trace trace].
  set (rep := env_reply _ (CAudio CHwDeviceOpen)).
  destruct (Z.eqb_spec (rv rep) 0) as [H1|H1]; cbn [negb];
    [|eexists _, false, _; split; [reflexivity|]; split; [split; done|done]].
  destruct (znth (rdata rep) 0 =? current); cbn [negb]; eexists _, _, _; split; try reflexivity; by split.
Qed.
