(* ===== verification/Bridge.v ===== *)
(** * Bridge: from the audio server to the player

    The composition of [AudioFlinger] and [PcmStream]: the server sends the mixed
    buffers over a connection, the player receives them in chunks of its own choosing
    and turns each chunk into a frame.  What the frames decode to is compared with what
    the server mixed.  The connection is the hypothesis [Delivers]: the bytes sent
    arrive in order, in some chunks. *)

From S2P Require Import Prelude Sys AexclLib AudioStream PcmStream AudioFlinger.

(** ** Samples of a byte stream *)

(** The stereo samples of a stream of 16-bit little-endian PCM data; an incomplete one
    at the end is left out. *)
Fixpoint pairs_of (l : list Z) : list (Z * Z) :=
  match l with
  | a :: b :: c :: d :: l => (a + 256 * b, c + 256 * d) :: pairs_of l
  | _ => []
  end.


Lemma pairs_of_app n : forall l l', length l = (4 * n)%nat -> pairs_of (l ++ l') = pairs_of l ++ pairs_of l'.
Proof.
  induction n as [|n IH]; intros l l' Hl.
  - apply nil_length_inv in Hl as ->. done.
  - destruct l as [|a [|b [|c [|d l]]]]; cbn [length] in Hl; try lia. cbn [app pairs_of].
    rewrite IH by lia. done.
Qed.

Lemma znth_cons4 a b c d l i : 0 <= i -> znth (a :: b :: c :: d :: l) (i + 4) = znth l i.
Proof. intros Hi. unfold znth. by replace (Z.to_nat (i + 4)) with (4 + Z.to_nat i)%nat by lia. Qed.

Lemma pair_cons4 a b c d l k :
  0 <= k -> pair_bytes 2 (a :: b :: c :: d :: l) (1 + k) = pair_bytes 2 l k.
Proof.
  intros Hk. unfold pair_bytes. cbn [Z.eqb Pos.eqb].
  replace (4 * (1 + k)) with (4 * k + 4) by lia.
  replace (4 * k + 4 + 1) with (4 * k + 1 + 4) by lia. replace (4 * k + 4 + 2) with (4 * k + 2 + 4) by lia.
  replace (4 * k + 4 + 3) with (4 * k + 3 + 4) by lia. by rewrite !znth_cons4 by lia.
Qed.

(** The samples that a frame holds, as [alac_decode] lists them. *)
Lemma map_pairs n : forall l, (4 * n <= length l)%nat ->
  map (fun k => pair_val (pair_bytes 2 l k)) (seqZ 0 (Z.of_nat n)) = pairs_of (take (4 * n) l).
Proof.
  induction n as [|n IH]; intros l Hl; [done|].
  destruct l as [|a [|b [|c [|d l]]]]; cbn [length] in Hl; try lia.
  rewrite seqZ_cons by lia. replace (Z.pred (Z.of_nat (S n))) with (Z.of_nat n) by lia.
  replace (4 * S n)%nat with (S (S (S (S (4 * n))))) by lia.
  cbn [map take pairs_of]. f_equal. rewrite <- IH by lia.
  change (Z.succ 0) with (1 + 0). rewrite <- fmap_add_seqZ. change (fmap (Z.add 1) (seqZ 0 (Z.of_nat n)))
    with (map (Z.add 1) (seqZ 0 (Z.of_nat n))). rewrite map_map. apply map_ext_in.
  intros k Hk%list_elem_of_In%elem_of_seqZ. rewrite pair_cons4 by lia. done.
Qed.

(** An incomplete sample at the end does not count. *)
Lemma pairs_of_whole l : pairs_of (take (4 * (length l / 4)) l) = pairs_of l.
Proof.
  set (n := (length l / 4)%nat). assert (Hn : (4 * n <= length l < 4 * n + 4)%nat).
  { unfold n. pose proof (Nat.div_mod_eq (length l) 4). pose proof (Nat.mod_upper_bound (length l) 4). lia. }
  rewrite <- (take_drop (4 * n) l) at 2.
  rewrite (pairs_of_app n) by (rewrite length_take; lia).
  assert (Hd : pairs_of (drop (4 * n) l) = []).
  { assert (Hd : (length (drop (4 * n) l) < 4)%nat) by (rewrite length_drop; lia).
    destruct (drop (4 * n) l) as [|a [|b [|c [|d l']]]]; cbn [length] in Hd; try done. lia. }
  by rewrite Hd, app_nil_r.
Qed.

(** ** The receiving side *)

Lemma map_u8_bytes l : bytes l -> map u8 l = l.
Proof. induction 1 as [|x l Hx _ IH]; [done|]. cbn. by rewrite u8_id, IH. Qed.

Definition is_recv (c : call) : bool := match c with CRecv _ _ => true | _ => false end.
Definition recvs (tr : list call) : nat := length (List.filter is_recv tr).

(** The connection: the [i]-th [recv] with enough room delivers the [i]-th chunk. *)
Class Delivers (E : Env) (chunks : list (list Z)) : Prop :=
  delivers : forall tr f n, zlen (nth (recvs tr) chunks []) <= n ->
    env_reply tr (CRecv f n) = Reply (zlen (nth (recvs tr) chunks [])) (nth (recvs tr) chunks []) 0.

(** A chunk that one [recv] can deliver. *)
Definition chunk_ok (c : list Z) : Prop := bytes c /\ zlen c <= MAX_SAMPLES_IN_CHUNK.

(** A chunk of less than 32 samples is filled up with silence. *)
Definition padded (c : list Z) : list Z := c ++ repeat 0 (128 - length c).

(** The next [k] frames of a stream, as the main loop of the player fetches them. *)
Fixpoint frames {E : Env} (k : nat) (a : auds_t) : M (list (list Z)) :=
  match k with
  | O => ret []
  | S k =>
      do! '(_, f) <- pcm_get_next_sample a;
      match f with
      | Some (p, n) => do! b <- view p; do! fs <- frames k a; ret (take (Z.to_nat n) b :: fs)
      | None => ret []
      end
  end.

Definition decode (f : list Z) : option (list (Z * Z)) := alac_decode (unpack f).

Lemma drop_repeat n m (x : Z) : drop n (repeat x m) = repeat x (m - n).
Proof. revert m. induction n as [|n IH]; intros [|m]; cbn; [done..|by rewrite IH]. Qed.

(** The samples of the buffer that the frame is made of are those of the padded chunk. *)
Lemma padded_pairs c :
  zlen c <= 4096 ->
  map (fun k => pair_val (pair_bytes 2 (c ++ repeat 0 (4096 - length c)) k)) (seqZ 0 (Z.max (zlen c) 128 / 4)) =
  pairs_of (padded c).
Proof.
  intros Hc. unfold zlen in *. set (r := c ++ _).
  assert (Hr : length r = 4096%nat) by (unfold r; rewrite length_app, repeat_length; lia).
  replace (Z.max (Z.of_nat (length c)) 128 / 4) with (Z.of_nat (length (padded c) / 4)).
  2:{ unfold padded. rewrite Nat2Z.inj_div, length_app, repeat_length. f_equal. lia. }
  pose proof (Nat.div_mod_eq (length (padded c)) 4) as Hd.
  assert (Hp : (length (padded c) <= 4096)%nat) by (unfold padded; rewrite length_app, repeat_length; lia).
  rewrite map_pairs by lia. rewrite <- (pairs_of_whole (padded c)). f_equal.
  replace r with (padded c ++ repeat 0 (4096 - length (padded c))).
  { by rewrite take_app_le by lia. }
  unfold padded, r. rewrite <- app_assoc, <- repeat_app. do 2 f_equal. rewrite length_app, repeat_length. lia.
Qed.

(** For a chunk of whole samples: its samples, then silence up to 32 samples. *)
Lemma pairs_of_zeros n : pairs_of (repeat 0 (4 * n)) = repeat (0, 0) n.
Proof.
  induction n as [|n IH]; [done|]. replace (4 * S n)%nat with (S (S (S (S (4 * n))))) by lia. cbn [repeat pairs_of].
  by rewrite IH.
Qed.

Lemma length_pairs n : forall l, length l = (4 * n)%nat -> length (pairs_of l) = n.
Proof.
  induction n as [|n IH]; intros l Hl; [by apply nil_length_inv in Hl as ->|].
  destruct l as [|a [|b [|c [|d l]]]]; cbn [length] in Hl; try lia. cbn [pairs_of length]. by rewrite IH by lia.
Qed.

Lemma whole_length (c : list Z) : zlen c mod 4 = 0 -> length c = (4 * (length c / 4))%nat.
Proof. unfold zlen. intros H. pose proof (Nat.div_mod_eq (length c) 4). rewrite <- (Nat2Z.inj_mod _ 4) in H. lia. Qed.

Lemma padded_whole c :
  zlen c mod 4 = 0 -> pairs_of (padded c) = pairs_of c ++ repeat (0, 0) (32 - length (pairs_of c)).
Proof.
  intros Hl%whole_length. set (n := (length c / 4)%nat) in Hl. unfold padded.
  rewrite (pairs_of_app n), (length_pairs n) by done. f_equal. rewrite <- pairs_of_zeros. f_equal. f_equal. lia.
Qed.

Section Receiving.
Context {E : Env} {HE : Posix E} (chunks : list (list Z)) {HD : Delivers E chunks} (Hmem : mem_available).

(** Each frame has the complete samples of its padded chunk. *)
Lemma next_frame a s pcm lb b c :
  stream_ok a s pcm lb b -> heap_ok s -> 0 <= pcm.(sfd) ->
  nth (recvs (trace s)) chunks [] = c -> chunk_ok c ->
  exists n b', let s' := Proc (<[lb := Bytes b']> (heap s)) (fresh s + 1)
      (CRecv (dfd pcm) 4096 :: CMalloc 4096 :: trace s) (fds s) (vars s) in
    pcm_get_next_sample a s = Ret ((0, Some (Ptr lb 0, n)), s') /\
    stream_ok a s' pcm lb b' /\ heap_ok s' /\ 0 < n <= 4103 /\
    bytes (take (Z.to_nat n) b') /\ decode (take (Z.to_nat n) b') = Some (pairs_of (padded c)).
Proof.
  intros Hs Hok Hsfd Hc [Hby Hlen]. unfold MINIMUM_SAMPLE_SIZE, MAX_SAMPLES_IN_CHUNK in Hlen.
  pose proof (pcm_next_full s a pcm lb b Hs Hok (Hmem _ _)) as Hrun. cbn zeta in Hrun.
  pose proof (pair_count_bounds pcm s) as Hpc.
  assert (Hcap : fetch_cap pcm = 4096) by (unfold fetch_cap; by rewrite (proj2 (Z.leb_le 0 _))).
  assert (Hr : fetch_reply pcm s = Reply (zlen c) c 0).
  { unfold fetch_reply, fetch_call. rewrite Hcap, (proj2 (Z.leb_le 0 _)) by done.
    rewrite delivers; change (recvs (CMalloc 4096 :: trace s)) with (recvs (trace s)); rewrite Hc; [done|lia]. }
  assert (Hraw : raw_data pcm s = c ++ repeat 0 (4096 - length c)).
  { unfold raw_data, fetched. rewrite Hr, Hcap. cbn [rv rdata]. rewrite splice_0.
    replace (map u8 c) with c by (symmetry; apply map_u8_bytes; done).
    replace (Z.to_nat (zlen c)) with (length c) by (unfold zlen; lia). rewrite resize_all. by rewrite drop_repeat. }
  pose proof (zlen_nonneg c) as Hc0.
  rewrite Hr in Hrun. cbn [rv] in Hrun. rewrite (proj2 (Z.ltb_ge _ _)) in Hrun by lia.
  destruct Hrun as (b' & E1 & Hb' & Hfby & Hdec). eexists _, b'. cbn zeta.
  unfold fetch_call in E1. rewrite Hcap, (proj2 (Z.leb_le 0 (sfd pcm))) in E1 by done. split; [exact E1|].
  destruct Hs as [Hst Hch Hcn Hbu Hbl Hsz].
  assert (Hne : lb <> fresh s) by (intros ->; rewrite Hok in Hbl by lia; done).
  split; [by split; try done; cbn; rewrite lookup_insert_eq|]. split.
  { intros l Hl. cbn in Hl |- *. rewrite lookup_insert_ne by (intros ->; rewrite Hok in Hbl by lia; done).
    apply Hok. lia. }
  split.
  { rewrite Hcap in Hpc. unfold frame_size. destruct (Z.eqb_spec (pair_count pcm s) 4096); lia. }
  split; [done|].
  unfold decode. rewrite Hdec. f_equal. unfold pair_count. rewrite Hr. cbn [rv].
  change (MINIMUM_SAMPLE_SIZE * 4) with 128. rewrite Hraw. by apply padded_pairs.
Qed.

(** All chunks from the next one on. *)
Lemma frames_run : forall cs a s pcm lb b,
  stream_ok a s pcm lb b -> heap_ok s -> 0 <= pcm.(sfd) ->
  drop (recvs (trace s)) chunks = cs -> Forall chunk_ok cs ->
  exists fs s', frames (length cs) a s = Ret (fs, s') /\ mapM decode fs = Some (map (fun c => pairs_of (padded c)) cs).
Proof.
  induction cs as [|c cs IH]; intros a s pcm lb b Hs Hok Hsfd Hd Hcs; [by exists [], s|].
  inversion Hcs as [|? ? Hc Hcs']; subst.
  assert (Hn : chunks !! recvs (trace s) = Some c).
  { rewrite <- (Nat.add_0_r (recvs _)), <- lookup_drop, Hd. done. }
  destruct (next_frame a s pcm lb b c) as (n & b' & E1 & Hs' & Hok' & _ & _ & Hdec);
    [done..|by apply nth_lookup_Some|done|].
  set (s' := Proc _ _ _ _ _) in *.
  destruct (IH a s' pcm lb b') as (fs & s2 & E2 & Hm); [done..| |done|].
  { change (recvs (trace s')) with (S (recvs (trace s))). replace (S (recvs (trace s))) with (recvs (trace s) + 1)%nat by lia.
    by rewrite <- drop_drop, Hd. }
  exists (take (Z.to_nat n) b' :: fs), s2. split.
  - cbn [length frames]. rewrite (bindM_Ret _ _ _ _ _ E1).
    erewrite bindM_Ret by (apply view_run; apply Hs'). by rewrite (bindM_Ret _ _ _ _ _ E2).
  - cbn [map mapM]. by rewrite Hdec, Hm.
Qed.

End Receiving.

(** ** Both sides *)

(** The bytes that the kernel took from [send], oldest first. *)
Fixpoint sent_in {E : Env} (tr : list call) : list Z :=
  match tr with
  | [] => []
  | c :: tr =>
      sent_in tr ++
      match c with
      | CAudio (CSend f d) => take (Z.to_nat (rv (env_reply tr (CAudio (CSend f d))))) d
      | _ => []
      end
  end.

Lemma sent_in_quiet {E : Env} cs tr : List.filter is_output cs = [] -> sent_in (cs ++ tr) = sent_in tr.
Proof.
  induction cs as [|c cs IH]; [done|]. cbn [List.filter app sent_in]. destruct (is_output c) eqn:Hc; [done|].
  intros Hf. rewrite IH by done. destruct c as [| | | | | | | | | | | | | | | | | | | | | | | | | | | | | | | | | | | |[]];
    try discriminate; apply app_nil_r.
Qed.

Lemma sent_in_one {E : Env} x cs tr :
  List.filter is_output cs = [x] ->
  exists tr', sent_in (cs ++ tr) = sent_in tr ++
    match x with
    | CAudio (CSend f d) => take (Z.to_nat (rv (env_reply tr' (CAudio (CSend f d))))) d
    | _ => []
    end.
Proof.
  induction cs as [|c cs IH]; [done|]. cbn [List.filter app sent_in]. destruct (is_output c) eqn:Hc.
  - intros [= -> Hf]. exists (cs ++ tr). by rewrite sent_in_quiet.
  - intros Hf. destruct (IH Hf) as (tr' & ->). exists tr'.
    destruct c as [| | | | | | | | | | | | | | | | | | | | | | | | | | | | | | | | | | | |[]];
      try discriminate; apply app_nil_r.
Qed.

(** Of each buffer the player's socket takes a prefix. *)
Lemma sent_in_out {E : Env} out buf count n cs tr :
  out_calls out buf count n cs -> exists m, sent_in (cs ++ tr) = sent_in tr ++ take m buf.
Proof.
  intros Ho. destruct out as [|f m|].
  - destruct (sent_in_one _ _ tr Ho) as (tr' & ->). by exists 0%nat.
  - destruct Ho as [Ho _]. destruct (sent_in_one _ _ tr Ho) as (tr' & ->). rewrite take_take. eauto.
  - destruct Ho as [_ [Ho|[f Ho]]].
    + rewrite sent_in_quiet by done. exists 0%nat. by rewrite take_0, app_nil_r.
    + destruct (sent_in_one _ _ tr Ho) as (tr' & ->). rewrite take_take. eauto.
Qed.

Lemma sent_in_outs {E : Env} count outs rs cs tr :
  outs_calls count outs rs cs ->
  exists ms, length ms = length rs /\
    sent_in (cs ++ tr) = sent_in tr ++ concat (zip_with take ms (map r_buf rs)).
Proof.
  intros H. revert tr. induction H as [|out outs r rs n cs cs' Ho _ IH]; intros tr.
  { exists []. split; [done|]. by rewrite app_nil_r. }
  destruct (sent_in_out _ _ _ _ _ tr Ho) as [m Hm]. destruct (IH (cs ++ tr)) as (ms & Hl & Hs).
  exists (m :: ms). split; [by f_equal/=|]. rewrite <- app_assoc, Hs, Hm. cbn. by rewrite app_assoc.
Qed.

Lemma concat_pairs cs : Forall (fun c => zlen c mod 4 = 0) cs -> concat (map pairs_of cs) = pairs_of (concat cs).
Proof.
  induction 1 as [|c cs Hc%whole_length _ IH]; [done|]. cbn. by rewrite (pairs_of_app (length c / 4)), IH.
Qed.

Lemma map_padded_whole cs :
  Forall (fun c => zlen c mod 4 = 0) cs ->
  map (fun c => pairs_of (padded c)) cs = map (fun c => pairs_of c ++ repeat (0, 0) (32 - length (pairs_of c))) cs.
Proof. induction 1 as [|c cs Hc _ IH]; [done|]. cbn [map]. by rewrite IH, padded_whole. Qed.

Lemma map_padded_long cs :
  Forall (fun c => zlen c mod 4 = 0) cs -> Forall (fun c => 128 <= zlen c) cs ->
  map (fun c => pairs_of c ++ repeat (0, 0) (32 - length (pairs_of c))) cs = map pairs_of cs.
Proof.
  induction 1 as [|c cs Hc _ IH]; [done|]. intros [Hl Hls]%Forall_cons. cbn [map]. rewrite IH by done.
  apply whole_length in Hc. rewrite (length_pairs _ _ Hc). unfold zlen in Hl.
  replace (32 - length c / 4)%nat with 0%nat by lia. by rewrite app_nil_r.
Qed.

(** C16: from the mixer of the audio server to the frames of the player.  The server
    writes any number of buffers, with the application working the switch; the bytes its
    socket takes are a prefix of each buffer, in order.  If the player receives exactly
    these bytes, in chunks of at most 4096 bytes that are whole samples, then the frames
    that it reads are one per chunk: each decodes to the samples of its chunk followed by
    the silence that fills a chunk of less than 32 samples up, and without that silence
    the frames have exactly the samples sent, in order.  When every chunk has 32 samples
    or more the decoded frames are the samples sent and nothing else. *)
Theorem bridge_plays_mix {E1 : Env} {HE1 : PosixSocket E1} bt wt rs d t s
    {E2 : Env} {HE2 : Posix E2} chunks {HD : Delivers E2 chunks} a p pcm lb b :
  dump_ok d -> 0 <= t.(mixBufferSize) < 2 ^ 29 -> t.(mNormalSink) = true -> Forall (round_ok t) rs ->
  stream_ok a p pcm lb b -> heap_ok p -> 0 <= pcm.(sfd) -> recvs (trace p) = 0%nat ->
  @mem_available E2 -> Forall chunk_ok chunks -> Forall (fun c => zlen c mod 4 = 0) chunks ->
  exists d' t' s' ms,
    @write_all E1 bt wt rs d t s = Ret ((d', t'), s') /\ length ms = length rs /\
    @sent_in E1 (trace s') = @sent_in E1 (trace s) ++ concat (zip_with take ms (map r_buf rs)) /\
    (concat chunks = @sent_in E1 (trace s') ->
     exists fs p', @frames E2 (length chunks) a p = Ret (fs, p') /\
       mapM decode fs = Some (map (fun c => pairs_of c ++ repeat (0, 0) (32 - length (pairs_of c))) chunks) /\
       concat (map pairs_of chunks) = pairs_of (@sent_in E1 (trace s')) /\
       (Forall (fun c => 128 <= zlen c) chunks ->
        exists ds, mapM decode fs = Some ds /\ concat ds = pairs_of (@sent_in E1 (trace s')))).
Proof.
  intros Hd Ht Hn Hrs Hs Hok Hsfd Hrc Hmem Hcs Hw.
  destruct (write_all_refines bt wt rs d t s Hd Ht Hn Hrs) as (outs & d' & t' & cs & E & _ & _ & Ho).
  destruct (sent_in_outs (E := E1) _ _ _ _ (trace s) Ho) as (ms & Hl & Hms).
  exists d', t', (with_trace (cs ++ trace s) s), ms. split_and!; [done..|]. intros Heq.
  destruct (frames_run chunks Hmem chunks a p pcm lb b) as (fs & p' & Ef & Hdec); [done..|by rewrite Hrc|done|].
  rewrite (map_padded_whole chunks Hw) in Hdec. exists fs, p'. rewrite <- Heq, concat_pairs by done.
  split_and!; [done..|]. intros Hbig. eexists. split; [exact Hdec|].
  by rewrite (map_padded_long chunks Hw Hbig), concat_pairs.
Qed.

(** One buffer of 48 frames goes through a connection that cuts it after 32 samples: the
    second frame has 16 samples and is filled up with silence. *)
Definition wit_sound : list Z := seqZ 0 192.
Definition wit_chunks : list (list Z) := [seqZ 0 128; seqZ 128 64].
Definition wit_server : PlaybackThread := Thread true false wit_sound 192 48 0 0 0 0 false.
Definition wit_receive : Env := clamp (fun tr c =>
  match c with
  | CMalloc _ => Reply 1 [] 0
  | CRecv _ _ => let c := nth (recvs tr) wit_chunks [] in Reply (zlen c) c 0
  | _ => Reply 0 [] 0
  end).

#[export] Instance wit_delivers : Delivers wit_receive wit_chunks.
Proof.
  intros tr f n Hn. unfold env_reply, wit_receive, clamp. cbn [rv rdata rerrno].
  pose proof (zlen_nonneg (nth (recvs tr) wit_chunks [])). f_equal. lia.
Qed.

#[export] Instance wit_receive_posix : Posix wit_receive := clamp_posix _.

Lemma wit_chunk_ok : Forall chunk_ok wit_chunks.
Proof.
  repeat constructor; try (apply (bool_decide_eq_true_1 (bytes _)); vm_compute; reflexivity);
    apply Z.leb_le; vm_compute; reflexivity.
Qed.

Lemma bridge_plays_mix_witness :
  exists d' t' s', @write_all wit_bridge_env s32 s32 [Round None wit_sound 0] (wit_dump [49]) wit_server proc0 =
      Ret ((d', t'), s') /\
    exists fs p', @frames wit_receive 2 wit_auds wit_proc = Ret (fs, p') /\
      mapM decode fs = Some [pairs_of (seqZ 0 128); pairs_of (seqZ 128 64) ++ repeat (0, 0) 16] /\
      pairs_of (seqZ 0 128) ++ pairs_of (seqZ 128 64) = pairs_of wit_sound.
Proof.
  destruct (bridge_plays_mix (E1 := wit_bridge_env) s32 s32 [Round None wit_sound 0] (wit_dump [49]) wit_server proc0
    (E2 := wit_receive) wit_chunks wit_auds wit_proc wit_pcm 1 wit_buffer) as (d' & t' & s' & ms & E1 & _ & _ & Hplay).
  - by apply wit_dump_ok.
  - done.
  - reflexivity.
  - constructor; [|constructor]. split; [|exact I]. apply Z.leb_le. vm_compute. reflexivity.
  - apply wit_stream_ok.
  - apply wit_heap_ok.
  - cbn. lia.
  - reflexivity.
  - intros tr n. discriminate.
  - apply wit_chunk_ok.
  - repeat constructor.
  - exists d', t', s'. split; [exact E1|].
    assert (Hs : @sent_in wit_bridge_env (trace s') = wit_sound).
    { revert E1. vm_compute. intros [= _ _ <-]. reflexivity. }
    rewrite Hs in Hplay. destruct Hplay as (fs & p' & Hf & Hd & _ & _); [vm_compute; reflexivity|].
    exists fs, p'. split; [exact Hf|]. split; [exact Hd|vm_compute; reflexivity].
Defined.

(** A chunk that ends within a sample: the player drops the bytes of the incomplete
    sample, and its second frame starts within one.  Two chunks of 130 bytes have 65
    samples, the frames only 64, and the samples of the second frame are not those that
    were sent. *)
Definition wit_cut : list (list Z) := [seqZ 0 130; seqZ 100 130].
Definition wit_receive_cut : Env := clamp (fun tr c =>
  match c with
  | CMalloc _ => Reply 1 [] 0
  | CRecv _ _ => let c := nth (recvs tr) wit_cut [] in Reply (zlen c) c 0
  | _ => Reply 0 [] 0
  end).

Theorem cut_sample_shifts :
  match @frames wit_receive_cut 2 wit_auds wit_proc with
  | Ret (fs, _) =>
      option_map (fun ds => length (concat ds)) (mapM decode fs) = Some 64%nat /\
      length (pairs_of (concat wit_cut)) = 65%nat /\
      option_map (fun ds => nth 32 (concat ds) (0, 0)) (mapM decode fs) = Some (100 + 256 * 101, 102 + 256 * 103) /\
      nth 32 (pairs_of (concat wit_cut)) (0, 0) = (128 + 256 * 129, 100 + 256 * 101)
  | UB _ => False
  end.
Proof. vm_compute. split_and!; reflexivity. Qed.
