(* ===== verification/Streaming.v ===== *)
(** * Streaming: the event loop delivers the audio it receives

    The main loop of raop_play.c end to end, while audio is available and the speaker's
    socket can be written: each iteration polls the stream, receives a chunk, makes a
    frame of it, queues its packet and runs the event handler until the socket has taken
    the packet.  Total correctness: the loop ends when the speaker is deactivated and the
    socket has taken exactly the packets of the frames, in order. *)

From S2P Require Import Prelude AesTables Aes AesSpec AesKeys Sys AexclLib FdEvent AudioStream PcmStream AudioFlinger Bridge RtspClient RaopClient RaopCrypto RaopContent RaopStream RaopPlay.

(** ** One descriptor is ready *)

(** The cell of a registered descriptor; no other cell is for it. *)
Lemma table_cell t f r :
  NoDup (live_fds t) -> table_map t !! f = Some r ->
  exists t1 c t2, t = t1 ++ c :: t2 /\ c.(fd) = f /\ reg_of c = r /\
    Forall (fun c => c.(fd) <> f) t1 /\ Forall (fun c => c.(fd) <> f) t2.
Proof.
  assert (Hlive : forall u, 0 <= f -> f ∉ live_fds u -> Forall (fun c => c.(fd) <> f) u).
  { intros u Hf Hu. apply (absent_iff _ _ Hf) in Hu. eapply Forall_impl; [exact Hu|]. intros c. cbn. by intros ?%Z.eqb_neq. }
  induction t as [|c t IH]; intros Hnd Hm; [done|].
  assert (Hf : 0 <= f) by (destruct (Z.lt_ge_cases f 0) as [Hn|]; [by rewrite table_neg in Hm|done]).
  rewrite live_cons in Hnd. cbn [table_map] in Hm. destruct (Z.ltb_spec (fd c) 0).
  - destruct (IH Hnd Hm) as (t1 & c' & t2 & -> & H1 & H2 & H3 & H4). exists (c :: t1), c', t2.
    split_and!; try done. constructor; [lia|done].
  - apply NoDup_cons in Hnd as [Hn Hnd]. destruct (decide (fd c = f)) as [<-|Hne].
    + rewrite lookup_insert_eq in Hm. injection Hm as <-. exists [], c, t. split_and!; try done. by apply Hlive.
    + rewrite lookup_insert_ne in Hm by done. destruct (IH Hnd Hm) as (t1 & c' & t2 & -> & H1 & H2 & H3 & H4).
      exists (c :: t1), c', t2. split_and!; try done. by constructor.
Qed.

Lemma set_first_split (P : dfev_t -> bool) e t1 c t2 :
  Forall (fun c => P c = false) t1 -> P c = true -> set_first P e (t1 ++ c :: t2) = Some (t1 ++ e :: t2).
Proof. induction 1 as [|x t1 Hx _ IH]; intros Hc; cbn; [by rewrite Hc|]. by rewrite Hx, IH. Qed.

(** A second registration replaces the cell. *)
Lemma set_fd_table_split f fl cb p t1 c t2 :
  c.(fd) = f -> Forall (fun c => c.(fd) <> f) t1 ->
  set_fd_table f fl cb p (t1 ++ c :: t2) = (0, t1 ++ Dfev f p cb fl :: t2).
Proof.
  intros Hc Ht1. unfold set_fd_table. rewrite set_first_split; [done| |by apply Z.eqb_eq].
  eapply Forall_impl; [exact Ht1|]. intros x. cbn. by intros ?%Z.eqb_neq.
Qed.

(** The sets of [select] have only descriptors of the table. *)
Lemma fd_set_live fl t f : f ∈ fd_set fl t -> is_Some (table_map t !! f).
Proof.
  rewrite <- table_dom. unfold fd_set, live_fds. intros Hf.
  apply list_elem_of_In, in_map_iff in Hf as (c & <- & Hc). apply filter_In in Hc as [Hc Hw].
  apply list_elem_of_filter. unfold wants in Hw. apply andb_prop in Hw as [H0 _]. split; [lia|].
  apply list_elem_of_In, in_map_iff. eauto.
Qed.

Definition small_fds (t : list dfev_t) : Prop := forall f, is_Some (table_map t !! f) -> f < FD_SETSIZE.

Lemma sets_small t : small_fds t ->
  existsb (fun f => FD_SETSIZE <=? f) (fd_set RAOP_FD_READ t ++ fd_set RAOP_FD_WRITE t) = false.
Proof.
  intros Ht. destruct (existsb _ _) eqn:He; [|done]. apply existsb_exists in He as (f & Hf & Hle).
  apply list_elem_of_In, elem_of_app in Hf. assert (f < FD_SETSIZE) by (destruct Hf; by eapply Ht, fd_set_live). lia.
Qed.

(** Only the socket [f] is writable, nothing can be read. *)
Definition only_writable (f : Z) : reply := Reply 1 [2 * f + 1] 0.

Lemma ready_rd f set : ready (only_writable f) 0 set = [].
Proof.
  unfold ready. cbn [only_writable rv rdata Z.ltb Z.eqb Z.compare Pos.eqb]. induction set as [|x set IH]; [done|].
  cbn [List.filter existsb]. rewrite (proj2 (Z.eqb_neq (2 * x + 0) (2 * f + 1))) by lia. exact IH.
Qed.

Lemma ready_wr f g set : f ∈ set -> mem g (ready (only_writable f) 1 set) = (g =? f).
Proof.
  intros Hf. unfold ready, mem. cbn [only_writable rv rdata Z.ltb Z.eqb Z.compare Pos.eqb].
  apply eq_true_iff_eq. rewrite existsb_exists, Z.eqb_eq. split.
  - intros (x & Hx & Hg). apply filter_In in Hx as [_ Hx]. cbn in Hx. rewrite orb_false_r in Hx. lia.
  - intros ->. exists f. split; [|lia]. apply filter_In. split; [by apply list_elem_of_In|]. cbn. by rewrite Z.eqb_refl.
Qed.

Section Loop.
Context {E : Env} {L : LineBound} {P : Posix E} (console_line : list Z).

(** Cells whose descriptors are not ready are passed over. *)
Lemma dispatch_skip rd wr n m l s : forall i,
  (i + n <= length (fds s))%nat ->
  (forall j c, (i <= j < i + n)%nat -> fds s !! j = Some c -> mem c.(fd) rd = false /\ mem c.(fd) wr = false) ->
  dispatch console_line (n + m) i l rd wr s = dispatch console_line m (i + n) l rd wr s.
Proof.
  induction n as [|n IH]; intros i Hlen Hc; [by rewrite Nat.add_0_r|].
  destruct (lookup_lt_is_Some_2 (fds s) i ltac:(lia)) as [c Ei].
  assert (Hone : forall fl set, mem c.(fd) set = false -> dispatch_one console_line l i fl set s = Ret ((0, l), s)).
  { intros fl set Hm. unfold dispatch_one, gets, bindM. rewrite Ei, Hm. by rewrite andb_false_r. }
  replace (i + S n)%nat with (S i + n)%nat by lia. destruct (Hc i c ltac:(lia) Ei) as [Hrd Hwr].
  assert (IHi := IH (S i) ltac:(lia) ltac:(intros j c' Hj; apply Hc; lia)).
  cbn [Nat.add dispatch]. unfold gets at 1. unfold bindM at 1. rewrite Ei. destruct (fd c <? 0); [exact IHi|].
  rewrite (bindM_Ret _ _ _ _ _ (Hone RAOP_FD_READ rd Hrd)). change (negb (0 =? 0)) with false. cbn iota.
  rewrite (bindM_Ret _ _ _ _ _ (Hone RAOP_FD_WRITE wr Hwr)). exact IHi.
Qed.

(** The client's callback is called once, for the writable socket. *)
Lemma dispatch_write l d f wr s t1 c t2 d' t' tr :
  fds s = t1 ++ c :: t2 -> zlen (fds s) = MAX_NUM_OF_FDS ->
  c = Dfev f true (Some fd_event_callback_p) RDWR -> 0 <= f ->
  Forall (fun c => c.(fd) <> f) t1 -> Forall (fun c => c.(fd) <> f) t2 ->
  (forall g, mem g wr = (g =? f)) -> l.(pl_raopcl) = Some d ->
  fd_event_write d s = Ret ((0, d'), set_fds t' (with_trace tr s)) ->
  (exists c', t' = t1 ++ c' :: t2) ->
  dispatch console_line 4 0 l [] wr s = Ret ((0, set_raopcl (Some d') l), set_fds t' (with_trace tr s)).
Proof.
  intros Hfds Hlen Hc Hf Ht1 Ht2 Hwr Hl Hw [c' Ht'].
  assert (Hn : (length t1 + S (length t2) = 4)%nat).
  { unfold zlen, MAX_NUM_OF_FDS in Hlen. rewrite Hfds, length_app in Hlen. cbn [length] in Hlen. lia. }
  assert (Hcell : fds s !! length t1 = Some c) by (rewrite Hfds; by apply list_lookup_middle).
  replace 4%nat with (length t1 + S (length t2))%nat by exact Hn. rewrite dispatch_skip.
  2:{ rewrite Hfds, length_app. cbn [length]. lia. }
  2:{ intros j x Hj Hx. rewrite Hfds, lookup_app_l in Hx by lia. split; [done|]. rewrite Hwr. apply Z.eqb_neq.
      rewrite Forall_lookup in Ht1. by eapply Ht1. }
  cbn [Nat.add dispatch]. unfold gets at 1. unfold bindM at 1. rewrite Hcell.
  assert (Hfd : fd c = f) by by subst c. rewrite Hfd, (proj2 (Z.ltb_ge f 0)) by lia.
  assert (H1 : dispatch_one console_line l (length t1) RAOP_FD_READ [] s = Ret ((0, l), s)).
  { unfold dispatch_one, gets, bindM. rewrite Hcell. cbn [mem existsb]. by rewrite andb_false_r. }
  rewrite (bindM_Ret _ _ _ _ _ H1). change (negb (0 =? 0)) with false. cbn iota.
  assert (H2 : dispatch_one console_line l (length t1) RAOP_FD_WRITE wr s =
    Ret ((0, set_raopcl (Some d') l), set_fds t' (with_trace tr s))).
  { unfold dispatch_one, gets. unfold bindM at 1. rewrite Hcell, Hc. cbn [flags fd]. rewrite Hwr, Z.eqb_refl.
    change (negb (RDWR .& RAOP_FD_WRITE =? 0) && true) with true. cbn iota.
    unfold call_cbf. cbn [cbf dp]. rewrite Hl. unfold fd_event_callback.
    change (negb (RAOP_FD_WRITE .& RAOP_FD_READ =? 0)) with false. cbn iota.
    rewrite !bindM_assoc. by rewrite (bindM_Ret _ _ _ _ _ Hw). }
  rewrite (bindM_Ret _ _ _ _ _ H2). change (negb (0 =? 0)) with false. cbn iota.
  replace (length t2) with (length t2 + 0)%nat by lia. rewrite dispatch_skip; [done| |].
  - cbn [fds set_fds]. rewrite Ht', length_app. cbn [length]. lia.
  - intros j x Hj Hx. cbn [fds set_fds] in Hx. rewrite Ht', lookup_app_r in Hx by lia.
    replace (j - length t1)%nat with (S (j - S (length t1))) in Hx by lia. cbn in Hx.
    split; [done|]. rewrite Hwr. apply Z.eqb_neq. rewrite Forall_lookup in Ht2. by eapply Ht2.
Qed.

(** ** One event *)

(** Whenever [select] is asked about it, only the socket [f] is writable; it takes at
    least a byte of what it is offered. *)
Context (f : Z).
Hypothesis Hselect : forall tr rd wr a b, f ∈ wr -> env_reply tr (CSelect rd wr a b) = only_writable f.
Hypothesis Htakes : takes f.

(** The client is in the middle of the packet [pkt]. *)
Record sending (l : raopld_t) (d : raopcl_data_t) (s : proc) (pkt : list Z) (k : Z) : Prop := {
  sn_client : l.(pl_raopcl) = Some d;
  sn_sfd : d.(sfd) = f /\ 0 <= f;
  sn_pause : d.(pause) = NO_PAUSE;
  sn_songdone : RaopClient.wait_songdone d = 0;
  sn_packet : packet_at d s pkt k;
  sn_table : table_ok (fds s) /\ small_fds (fds s);
  sn_reg : table_map (fds s) !! f = Some ((true, Some fd_event_callback_p, RDWR) : reg)
}.

Definition READING : reg := (true, Some fd_event_callback_p, RAOP_FD_READ).

(** One call of the event handler passes a part of the packet to the socket. *)
Lemma event_write l d s pkt k :
  sending l d s pkt k -> k < zlen pkt ->
  exists i t' cs, 0 < i <= zlen pkt - k /\
    main_event_handler console_line l s =
      Ret ((0, set_raopcl (Some (set_wblk (k + i) (zlen pkt - k - i) d)) l), set_fds t' (with_trace (cs ++ trace s) s)) /\
    Forall quiet cs /\
    accepted f (cs ++ trace s) = accepted f (trace s) ++ take (Z.to_nat i) (drop (Z.to_nat k) pkt) /\
    table_ok t' /\
    table_map t' = (if k + i =? zlen pkt then <[f := READING]> (table_map (fds s)) else table_map (fds s)).
Proof.
  intros [Hl [Hsfd Hf] Hp Hw Hpk [Ht Hsm] Hreg] Hk.
  destruct (table_cell _ _ _ (proj2 Ht) Hreg) as (t1 & c & t2 & Hfds & Hc & Hrc & H1 & H2).
  assert (Hcell : c = Dfev f true (Some fd_event_callback_p) RDWR) by (destruct c; cbn in *; unfold reg_of in Hrc; cbn in Hrc; congruence).
  set (rd := fd_set RAOP_FD_READ (fds s)). set (wr := fd_set RAOP_FD_WRITE (fds s)).
  set (cl := CSelect rd wr MAIN_EVENT_TIMEOUT 0). set (s1 := with_trace (cl :: trace s) s).
  assert (Hin : f ∈ wr).
  { apply list_elem_of_In. unfold wr, fd_set. apply in_map_iff. exists c. split; [done|]. apply filter_In. split.
    - rewrite Hfds. apply in_app_iff. right. by left.
    - rewrite Hcell. unfold wants. cbn [fd flags]. by rewrite (proj2 (Z.leb_le 0 f)). }
  assert (Hpk1 : packet_at d s1 pkt k) by (destruct Hpk; by split).
  destruct (fd_event_write_run d s1 pkt k Hpk1 Hk Ht) as [Hi Hrun].
  set (cw := CWrite (sfd d) (drop (Z.to_nat k) pkt)) in *. set (i := rv (env_reply (trace s1) cw)) in *.
  assert (Hpos : 0 < i).
  { unfold i, cw. rewrite Hsfd. apply Htakes. intros E0. apply (f_equal length) in E0. rewrite length_drop in E0.
    destruct Hpk as [_ _ _ Hr]. unfold zlen in *. cbn in E0. lia. }
  rewrite (proj2 (Z.leb_gt i 0)) in Hrun by lia. destruct Hrun as (t' & Ew & Ht').
  exists i, t', [cw; cl]. split; [lia|]. split_and!.
  - unfold main_event_handler. unfold gets at 1. unfold bindM at 1. fold rd wr. unfold rd, wr at 1. rewrite sets_small by done.
    assert (Hsd : forall l' tv s', l'.(pl_raopcl) = Some d \/ l'.(pl_raopcl) = Some (set_wblk (k + i) (zlen pkt - k - i) d) ->
      songdone_time l' tv s' = Ret ((false, tv), s')).
    { intros l' tv s' [H|H]; unfold songdone_time, wait_songdone; rewrite H; unfold bindM, ret; cbn; by rewrite Hw. }
    rewrite (bindM_Ret _ _ _ _ _ (Hsd l _ s (or_introl Hl))). cbn [tv_sec tv_usec]. unfold sys at 1. unfold bindM at 1.
    fold rd wr cl. rewrite (Hselect (trace s) rd wr MAIN_EVENT_TIMEOUT 0 Hin : env_reply (trace s) cl = _).
    rewrite ready_rd. change (Z.to_nat MAX_NUM_OF_FDS) with 4%nat.
    erewrite bindM_Ret.
    2:{ eapply (dispatch_write l d f _ s1 t1 c t2); try done; [apply Ht|intros g; by apply ready_wr|].
        destruct (k + i =? zlen pkt).
        - exists (Dfev f true (Some fd_event_callback_p) RAOP_FD_READ). rewrite Ht'. cbn [fds s1 with_trace].
          rewrite Hsfd, Hfds. by rewrite set_fd_table_split.
        - exists c. by rewrite Ht'. }
    cbn beta iota. change (negb (0 =? 0)) with false. cbn iota. unfold after_events.
    rewrite (bindM_Ret _ _ _ _ _ (Hsd (set_raopcl _ l) _ _ (or_intror eq_refl))). cbn [andb]. rewrite bindM_ret.
    cbn [pl_raopcl set_raopcl]. unfold raopcl_pause_check. cbn [pause set_wblk]. rewrite Hp. done.
  - by repeat constructor.
  - cbn [app accepted]. unfold cl. rewrite app_nil_r. unfold cw at 1. rewrite Hsfd, Z.eqb_refl. done.
  - destruct (k + i =? zlen pkt); [by eapply (reading_ok (sfd d)); [lia|exact Ht|]|by rewrite Ht'].
  - destruct (k + i =? zlen pkt); [|by rewrite Ht']. rewrite Ht'. cbn [fds s1 with_trace]. rewrite Hsfd.
    destruct (set_fd_table_spec f RAOP_FD_READ (Some fd_event_callback_p) true (fds s) Hf Ht)
      as (r & t3 & Es & _ & [(-> & Hm)|(-> & _ & Hn & _)]);
      [by rewrite Es|discriminate (eq_trans (eq_sym Hn) Hreg)].
Qed.

(** ** A whole packet *)

(** The event handler is called until the socket has taken the packet. *)
Lemma drain_run a pkt fuel : forall l d s k,
  sending l d s pkt k -> l.(pl_auds) = Some a -> k < zlen pkt -> zlen pkt - k <= Z.of_nat fuel ->
  exists t' cs, drain console_line fuel l s =
      Ret ((0, set_raopcl (Some (set_wblk (zlen pkt) 0 d)) l), set_fds t' (with_trace (cs ++ trace s) s)) /\
    Forall quiet cs /\ accepted f (cs ++ trace s) = accepted f (trace s) ++ drop (Z.to_nat k) pkt /\
    table_ok t' /\ table_map t' = <[f := READING]> (table_map (fds s)).
Proof.
  induction fuel as [|fuel IH]; intros l d s k Hs Ha Hk Hfuel; [lia|].
  assert (Hk0 : 0 <= k) by apply (sn_packet _ _ _ _ _ Hs).
  destruct (event_write l d s pkt k Hs Hk) as (i & t' & cs & Hi & Ev & Hq & Hacc & Ht & Hm).
  cbn [drain]. rewrite (bindM_Ret _ _ _ _ _ Ev). change (negb (0 =? 0)) with false. cbn iota.
  cbn [pl_auds set_raopcl pl_raopcl]. rewrite Ha. cbn [raopcl_sample_remsize wblk_remsize set_wblk].
  destruct (Z.eqb_spec (zlen pkt - k - i) 0) as [Hend|Hmore].
  - exists t', cs. rewrite (proj2 (Z.eqb_eq (k + i) (zlen pkt))) in Hm by lia.
    replace (k + i) with (zlen pkt) by lia. rewrite Hend. split_and!; try done.
    rewrite Hacc, take_ge; [done|]. rewrite length_drop. unfold zlen in *. lia.
  - rewrite (proj2 (Z.eqb_neq (k + i) (zlen pkt))) in Hm by lia.
    set (d1 := set_wblk (k + i) (zlen pkt - k - i) d). set (s1 := set_fds t' (with_trace (cs ++ trace s) s)).
    destruct Hs as [Hl Hsfd Hp Hw Hpk [Htok Hsm] Hreg].
    assert (Hs1 : sending (set_raopcl (Some d1) l) d1 s1 pkt (k + i)).
    { split; try done; [by apply packet_advance; [|lia]|split; [done|]|]; unfold small_fds; cbn [fds s1 set_fds]; by rewrite Hm. }
    destruct (IH _ _ _ _ Hs1 Ha ltac:(lia) ltac:(lia)) as (t2 & cs2 & E2 & Hq2 & Hacc2 & Ht2 & Hm2).
    exists t2, (cs2 ++ cs). cbn [trace s1 set_fds with_trace fds] in *. rewrite <- app_assoc. split; [exact E2|].
    split; [by apply Forall_app|]. split; [|by rewrite Hm2, Hm].
    rewrite Hacc2, Hacc, <- app_assoc. f_equal.
    replace (Z.to_nat (k + i)) with (Z.to_nat k + Z.to_nat i)%nat by lia. rewrite <- drop_drop. apply take_drop.
Qed.

(** ** A frame *)

(** Only the samples up to [count] matter. *)
Lemma send_take d sample count s :
  0 <= count <= zlen sample ->
  raopcl_send_sample (Some d) sample count s = raopcl_send_sample (Some d) (take (Z.to_nat count) sample) count s.
Proof.
  intros Hc. assert (Hn : forall d size header,
    new_packet d size header sample count = new_packet d size header (take (Z.to_nat count) sample) count).
  { intros. unfold new_packet. rewrite take_take, Nat.min_id.
    replace (zlen (take (Z.to_nat count) sample)) with count by (unfold zlen in *; rewrite length_take; lia).
    by rewrite (proj2 (Z.ltb_ge (zlen sample) count)), (proj2 (Z.ltb_ge count count)) by lia. }
  unfold raopcl_send_sample. destruct (negb (udp d =? 0)); [|by rewrite Hn].
  unfold gets. unfold bindM at 1. cbn zeta. rewrite Hn. done.
Qed.

(** What the next packet depends on, after one with [n] bytes of samples. *)
Definition next_client (d : raopcl_data_t) (n : Z) : raopcl_data_t :=
  if d.(udp) =? 0 then d else set_timestamp (u32 (d.(timestamp) + n)) d.
Definition next_statics (d : raopcl_data_t) (v : statics) : statics :=
  if d.(udp) =? 0 then v else set_seq (u32 (v.(seq_number) + 1)) 0 v.

(** The packets of a sequence of frames. *)
Fixpoint packets (d : raopcl_data_t) (v : statics) (fs : list (list Z)) : list Z :=
  match fs with
  | [] => []
  | fr :: fs => packet d v fr (zlen fr) ++ packets (next_client d (zlen fr)) (next_statics d v) fs
  end.

(** Clients and statics that give the same packets. *)
Record same_stream (d : raopcl_data_t) (v : statics) (d' : raopcl_data_t) (v' : statics) : Prop := {
  ss_mode : udp d = udp d' /\ encrypt_on d = encrypt_on d' /\ ssrc d = ssrc d';
  ss_keys : key d = key d' /\ iv d = iv d';
  ss_stamp : timestamp d = timestamp d';
  ss_seq : seq_number v = seq_number v' /\ begin v = begin v'
}.

Lemma packets_same fs : forall d v d' v', same_stream d v d' v' -> packets d v fs = packets d' v' fs.
Proof.
  induction fs as [|fr fs IH]; intros d v d' v' H; [done|]. pose proof H as [(H1 & H2 & H3) (H4 & H5) H6 (H7 & H8)].
  cbn [packets]. f_equal.
  - unfold packet, payload. by rewrite H1, H2, H3, H4, H5, H6, H7, H8.
  - apply IH. unfold next_client, next_statics. rewrite <- H1, <- H6, <- H7. destruct (udp d =? 0); [done|]. by split.
Qed.

(** The player in the state [NO_PAUSE] with an open stream and no packet in progress. *)
Record playing (l : raopld_t) (s : proc) (a : auds_t) (pcm : pcm_t) (lb : Z) (b : list Z) (d : raopcl_data_t)
    : Prop := {
  py_auds : l.(pl_auds) = Some a /\ a.(auds) = None /\ a.(data_type) = AUD_TYPE_PCM;
  py_stream : stream_ok a s pcm lb b;
  py_fds : 0 <= PcmStream.sfd pcm /\ 0 <= pcm.(dfd) /\ pcm.(dfd) <> f;
  py_client : l.(pl_raopcl) = Some d /\ d.(sfd) = f /\ 0 <= f < FD_SETSIZE;
  py_pause : d.(pause) = NO_PAUSE /\ RaopClient.wait_songdone d = 0;
  py_keys : keyed s.(vars).(aes) d.(ctx) d.(key) /\ block_ok d.(iv);
  py_table : table_ok (fds s) /\ small_fds (fds s) /\ room f (fds s);
  py_heap : heap_ok s
}.

Context (chunks : list (list Z)) {HD : Delivers E chunks} (Hmem : mem_available).

(** [poll] reports that data can be read. *)
Hypothesis Hpoll : forall tr g, env_reply tr (CPoll g 0) = Reply 1 [POLLIN] 0.

(** Polling removes the descriptor of the data from the table. *)
Lemma poll_run l s a pcm lb b d :
  playing l s a pcm lb b d ->
  exists t', auds_poll_next_sample a s = Ret (1, set_fds t' (with_trace (CPoll pcm.(dfd) 0 :: trace s) s)) /\
    playing l (set_fds t' (with_trace (CPoll pcm.(dfd) 0 :: trace s) s)) a pcm lb b d.
Proof.
  intros [(Ha & Hi & Hty) Hst (Hs0 & Hd0 & Hdf) Hcl Hp Hk (Ht & Hsm & Hr) Hh].
  set (s1 := with_trace (CPoll pcm.(dfd) 0 :: trace s) s).
  destruct (clear_fd_event_refines pcm.(dfd) s1 Hd0 Ht) as (r & t' & Ec & Htok & Hm & _).
  exists t'. split.
  - unfold auds_poll_next_sample. rewrite Hty. unfold pcm_poll_next_sample. rewrite (so_stream _ _ _ _ _ Hst).
    unfold sys. unfold bindM at 1. rewrite Hpoll. cbn [rv rdata]. change (1 <? 0) with false. cbn iota zeta.
    change (znth [POLLIN] 0 =? 0) with false. cbn iota. by rewrite (bindM_Ret _ _ _ _ _ Ec).
  - split; try done; [by destruct Hst|]. cbn [fds set_fds]. split; [done|]. split.
    + intros g Hg. rewrite Hm in Hg. apply Hsm. destruct Hg as [x Hx]. apply lookup_delete_Some in Hx as [_ Hx]. by exists x.
    + unfold room. rewrite Hm. destruct Hr as [Hr|Hr].
      * left. eapply Nat.le_lt_trans; [|exact Hr]. apply map_subseteq_size, delete_subseteq.
      * right. by rewrite lookup_delete_ne.
Qed.

Definition is_act (c : call) : bool := match c with CIsActivated _ => true | _ => false end.
Definition acts (tr : list call) : nat := length (List.filter is_act tr).

Lemma quiet_counts cs tr : Forall quiet cs -> recvs (cs ++ tr) = recvs tr /\ acts (cs ++ tr) = acts tr.
Proof.
  unfold recvs, acts. induction 1 as [|c cs Hc _ [IH1 IH2]]; [done|]. destruct c; try done; cbn; by rewrite IH1, IH2.
Qed.

(** The frame that was fetched becomes a packet, and the event handler delivers it. *)
Lemma deliver_run l s a pcm lb b d n fuel :
  playing l s a pcm lb b d -> let fr := take (Z.to_nat n) b in
  bytes fr -> 0 < n <= 4103 -> 0 <= totalcount (vars s) -> is_int (totalcount (vars s) + n) ->
  4120 <= Z.of_nat fuel ->
  exists l' s' d' cs, (do! '(r, c) <- raopcl_send_sample l.(pl_raopcl) b n;
      let l := set_raopcl c l in
      if negb (r =? 0) then ret (0, l, Some (Ptr lb 0, n))
      else do! '(rval, l) <- drain console_line fuel l; ret (rval, l, Some (Ptr lb 0, n))) s =
      Ret ((0, l', Some (Ptr lb 0, n)), s') /\
    playing l' s' a pcm lb b d' /\ trace s' = cs ++ trace s /\ Forall quiet cs /\
    accepted f (trace s') = accepted f (trace s) ++ packet d (vars s) fr (zlen fr) /\
    same_stream d' (vars s') (next_client d (zlen fr)) (next_statics d (vars s)) /\
    0 <= totalcount (vars s') <= totalcount (vars s) + n.
Proof.
  intros [(Ha & Hi & Hty) Hst Hfds (Hl & Hsfd & Hf) (Hp & Hw) (Hk & Hiv) (Ht & Hsm & Hr) Hh] fr Hby Hn Htot Hint Hfuel.
  assert (Hb : n <= zlen b) by (rewrite (so_size _ _ _ _ _ Hst); unfold PCM_BUFFER_SIZE, MAX_SAMPLES_IN_CHUNK; lia).
  assert (Hfr : zlen fr = n) by (unfold fr, zlen in *; rewrite length_take; lia). rewrite Hfr.
  assert (Hsend : sendable d s fr n) by (split; rewrite ?Hfr, ?Hsfd; try done; first [lia|apply Hmem]).
  destruct (send_sample_run d s fr n Hsend) as (d1 & s1 & Es & Q).
  unfold fr in Es. rewrite <- (send_take d b n s) in Es by lia. fold fr in Es. rewrite Hl, (bindM_Ret _ _ _ _ _ Es). cbn zeta.
  change (negb (0 =? 0)) with false. cbn iota.
  destruct Q as [Qp Qsfd [Qt Qm] Qts Qq Qb Qs [Qh Qf] (cs1 & Qc & Qcq) (Qk1 & Qk2 & Qk3 & Qk4) (Qs1 & Qs2 & Qs3 & Qs4 & Qs5) Qtot].
  set (pkt := packet d (vars s) fr n) in *. rewrite Hsfd in *.
  assert (Hz : n + 12 <= zlen pkt <= n + 16).
  { unfold pkt, packet. destruct (_ =? 0); rewrite zlen_app, (payload_ok _ _ _ _ _ Hk Hiv Hby) by lia.
    - change (zlen (interleaved_header n)) with 16. lia.
    - change (zlen (rfc3550_header _ _ _ _)) with 12. lia. }
  assert (Hsmall : small_fds (fds s1)).
  { intros g Hg. rewrite Qm in Hg. apply lookup_insert_is_Some' in Hg as [<-|Hg]; [lia|by apply Hsm]. }
  assert (Hsn : sending (set_raopcl (Some d1) l) d1 s1 pkt 0).
  { split; rewrite ?Qsfd, ?Qs1, ?Qs2, ?Qm; try done; [lia|apply lookup_insert_eq]. }
  destruct (drain_run a pkt fuel _ _ _ _ Hsn Ha ltac:(lia) ltac:(lia)) as (t' & cs2 & Ed & Hq2 & Hacc & Ht' & Hm').
  rewrite (bindM_Ret _ _ _ _ _ Ed).
  eexists _, _, (set_wblk (zlen pkt) 0 d1), (cs2 ++ cs1). split; [reflexivity|].
  assert (Hlb : lb <> fresh s) by (intros ->; pose proof (so_block _ _ _ _ _ Hst) as Hbl; rewrite Hh in Hbl by lia; done).
  split; [|split; [|split; [by apply Forall_app|split; [|split]]]].
  - split; cbn [pl_auds pl_raopcl set_raopcl pause ctx key iv set_wblk vars fds set_fds with_trace RaopClient.wait_songdone sfd].
    + done.
    + destruct Hst; split; try done. cbn. by rewrite Qh.
    + done.
    + by rewrite Qsfd.
    + by rewrite Qs1, Qs2.
    + by rewrite Qk1, Qk2, Qk3, Qk4.
    + split; [done|]. split.
      * intros g Hg. rewrite Hm' in Hg. apply lookup_insert_is_Some' in Hg as [<-|Hg]; [lia|by apply Hsmall].
      * right. rewrite Hm', lookup_insert_eq. by eexists.
    + intros x Hx. cbn in Hx |- *. rewrite Qf in Hx. rewrite Qh by lia. apply Hh. lia.
  - cbn [trace set_fds with_trace]. by rewrite Qc, app_assoc.
  - cbn [trace set_fds with_trace]. by rewrite Hacc, Qs, drop_0.
  - unfold next_client, next_statics. split; cbn [udp encrypt_on ssrc key iv timestamp set_wblk vars set_fds with_trace];
      rewrite ?Qs3, ?Qs4, ?Qs5, ?Qk2, ?Qk3, ?Qts, ?Qq, ?Qb; by destruct (udp d =? 0).
  - cbn [vars set_fds with_trace]. by apply Qtot.
Qed.

(** ** The loop *)

(** One iteration: the next chunk is fetched, and its frame is delivered. *)
Lemma step_run l s a pcm lb b d fuel c bl :
  playing l s a pcm lb b d -> nth (recvs (trace s)) chunks [] = c -> chunk_ok c ->
  0 <= totalcount (vars s) -> totalcount (vars s) + 4103 <= INT_MAX -> 4120 <= Z.of_nat fuel ->
  exists fr l' s' b' d' bl', main_step console_line fuel l bl s = Ret ((0, l', bl'), s') /\
    playing l' s' a pcm lb b' d' /\ decode fr = Some (pairs_of (padded c)) /\
    recvs (trace s') = S (recvs (trace s)) /\ acts (trace s') = acts (trace s) /\
    accepted f (trace s') = accepted f (trace s) ++ packet d (vars s) fr (zlen fr) /\
    same_stream d' (vars s') (next_client d (zlen fr)) (next_statics d (vars s)) /\
    0 <= totalcount (vars s') <= totalcount (vars s) + 4103.
Proof.
  intros Hpl Hc Hcok Ht0 Ht1 Hfuel.
  destruct (poll_run l s a pcm lb b d Hpl) as (t1 & Epoll & Hpl1). set (s1 := set_fds _ _) in *.
  destruct (next_frame chunks Hmem a s1 pcm lb b c) as (n & b2 & Enext & Hst2 & Hok2 & Hn & Hby & Hdec);
    [apply Hpl1|apply Hpl1|apply Hpl1|exact Hc|done|]. set (s2 := Proc _ _ _ _ _) in *.
  assert (Hpl2 : playing l s2 a pcm lb b2 d) by (destruct Hpl1; by split).
  assert (Hint : is_int (totalcount (vars s2) + n)).
  { change (vars s2) with (vars s). unfold is_int, INT_MIN, INT_MAX in *. lia. }
  destruct (deliver_run l s2 a pcm lb b2 d n fuel Hpl2 Hby Hn Ht0 Hint Hfuel)
    as (l' & s' & d' & cs & Es & Hpl' & Htr & Hq & Hacc & Hss & Htot).
  exists (take (Z.to_nat n) b2), l', s', b2, d', (Some (Ptr lb 0, n)).
  destruct Hpl as [(Ha & Hi & Hty) _ _ (Hl & _) (Hp & _) _ _ _].
  destruct (quiet_counts cs (trace s2) Hq) as [Hr1 Hr2].
  change (vars s) with (vars s2) in Htot |- *.
  split; [|split_and!; try done; rewrite ?Htr, ?Hr1, ?Hr2; try done; try lia].
  - unfold main_step. rewrite Ha, Hl. unfold raopcl_get_pause. cbn [option_map]. rewrite Hp. unfold play_sample.
    rewrite (bindM_Ret _ _ _ _ _ Epoll). change (1 =? 0) with false. cbn iota.
    assert (Eg : auds_get_next_sample a s1 = Ret ((0, Some (Ptr lb 0, n)), s2)).
    { unfold auds_get_next_sample. by rewrite Hi, Hty. }
    rewrite (bindM_Ret _ _ _ _ _ Eg). cbn beta iota zeta. change (0 =? 0) with true. cbn iota.
    rewrite bindM_ret. erewrite bindM_Ret by (apply view_run; apply Hst2). exact Es.
  - rewrite <- Htr, Hacc. f_equal. cbn [trace s2 s1 accepted set_fds with_trace]. by rewrite !app_nil_r.
Qed.

(** The speaker stays activated for as many iterations as there are chunks. *)
Hypothesis Hact : forall tr h, rv (env_reply tr (CIsActivated h)) = if (acts tr <? length chunks)%nat then 1 else 0.

Lemma isActivated_run h s :
  isActivated h s = Ret (if (acts (trace s) <? length chunks)%nat then 1 else 0, with_trace (CIsActivated h :: trace s) s).
Proof.
  unfold isActivated, syscall, sys, bindM, ret. rewrite Hact. by destruct (_ <? _)%nat.
Qed.

Lemma loop_run h : forall cs fuel l s a pcm lb b d bl,
  playing l s a pcm lb b d -> acts (trace s) = recvs (trace s) -> drop (recvs (trace s)) chunks = cs ->
  Forall chunk_ok cs -> 0 <= totalcount (vars s) -> totalcount (vars s) + 4103 * zlen cs <= INT_MAX ->
  zlen cs + 4120 <= Z.of_nat fuel ->
  exists fs l' s', main_loop console_line fuel h 0 l bl s = Ret (l', s') /\
    mapM decode fs = Some (map (fun c => pairs_of (padded c)) cs) /\
    accepted f (trace s') = accepted f (trace s) ++ packets d (vars s) fs /\
    acts (trace s') = S (length chunks `max` acts (trace s)).
Proof.
  induction cs as [|c cs IH]; intros fuel l s a pcm lb b d bl Hpl Hacts Hcs Hok Ht0 Ht1 Hfuel;
    destruct fuel as [|fuel]; try (unfold zlen in Hfuel; cbn in Hfuel; lia); cbn [main_loop]; change (negb (0 =? 0)) with false; cbn iota;
    rewrite (bindM_Ret _ _ _ _ _ (isActivated_run h s)).
  - assert (Hge : (length chunks <= acts (trace s))%nat).
    { apply (f_equal length) in Hcs. rewrite length_drop in Hcs. cbn in Hcs. lia. }
    rewrite (proj2 (Nat.ltb_ge _ _)) by done. change (negb (0 =? 1)) with true. cbn iota.
    eexists [], _, _. split; [reflexivity|]. split; [done|]. split; [cbn; by rewrite !app_nil_r|].
    change (S (acts (trace s)) = S (length chunks `max` acts (trace s))). lia.
  - assert (Hlt : (recvs (trace s) < length chunks)%nat).
    { apply (f_equal length) in Hcs. rewrite length_drop in Hcs. cbn in Hcs. lia. }
    rewrite (proj2 (Nat.ltb_lt _ _)) by lia. change (negb (1 =? 1)) with false. cbn iota.
    set (s0 := with_trace (CIsActivated h :: trace s) s).
    assert (Hnth : nth (recvs (trace s0)) chunks [] = c).
    { apply nth_lookup_Some. change (recvs (trace s0)) with (recvs (trace s)).
      by rewrite <- (Nat.add_0_r (recvs _)), <- lookup_drop, Hcs. }
    apply Forall_cons in Hok as [Hc Hok]. rewrite zlen_cons in *. pose proof (zlen_nonneg cs).
    assert (Hpl0 : playing l s0 a pcm lb b d) by (destruct Hpl as [? Hst ? ? ? ? ? ?]; split; try done; by destruct Hst).
    destruct (step_run l s0 a pcm lb b d (S fuel) c bl Hpl0 Hnth Hc Ht0 ltac:(cbn [vars s0 with_trace]; lia) ltac:(lia))
      as (fr & l1 & s1 & b1 & d1 & bl1 & Es & Hpl1 & Hdec & Hr & Ha & Hacc & Hss & Htot).
    rewrite (bindM_Ret _ _ _ _ _ Es). cbn beta iota.
    destruct (IH fuel l1 s1 a pcm lb b1 d1 bl1) as (fs & l2 & s2 & E2 & Hm & Hacc2 & Ha2).
    + done.
    + rewrite Ha, Hr. change (S (acts (trace s)) = S (recvs (trace s))). by rewrite Hacts.
    + rewrite Hr. change (recvs (trace s0)) with (recvs (trace s)).
      replace (S (recvs (trace s))) with (recvs (trace s) + 1)%nat by lia. by rewrite <- drop_drop, Hcs.
    + done.
    + lia.
    + cbn [vars s0 with_trace] in Htot. lia.
    + lia.
    + exists (fr :: fs), l2, s2. split; [done|]. split; [cbn [map mapM]; by rewrite Hdec, Hm|]. split.
      * rewrite Hacc2, Hacc. cbn [packets accepted trace s0 with_trace]. rewrite app_nil_r, <- app_assoc. do 2 f_equal.
        by apply packets_same.
      * rewrite Ha2, Ha. change (acts (trace s0)) with (S (acts (trace s))). lia.
Qed.
End Loop.

(** ** The theorem *)

(** An environment for the stream socket [f] and the received [chunks]: there is memory;
    data can be read whenever it is polled for; [select] finds the socket writable and
    nothing else ready; the socket takes at least a byte of what it is offered; the
    application keeps the speaker activated for as many iterations as there are chunks. *)
Class Streams (E : Env) (f : Z) (chunks : list (list Z)) : Prop := {
  str_memory : @mem_available E;
  str_poll : forall tr g, env_reply tr (CPoll g 0) = Reply 1 [POLLIN] 0;
  str_select : forall tr rd wr a b, f ∈ wr -> env_reply tr (CSelect rd wr a b) = only_writable f;
  str_takes : takes f;
  str_active : forall tr h, rv (env_reply tr (CIsActivated h)) = if (acts tr <? length chunks)%nat then 1 else 0
}.

(** C17: the main loop plays what it receives.  From the state in which the stream is
    open, no pause is on and no packet is in progress, [main_loop] returns after one
    iteration per chunk, when the speaker is no longer activated (with fuel for the bytes
    of a packet and the iterations, and a sample counter that stays an [int]).  The
    socket has then taken, after what it had taken before, exactly the packets of the
    frames [fs], whole and in order, with the time stamps and sequence numbers that
    follow each other; and the frames decode to the samples received, each chunk filled
    up with silence to 32 samples.  However little the socket takes per write, the event
    handler resumes where it stopped. *)
Theorem loop_plays_stream {E : Env} {L : LineBound} {P : Posix E} console_line h f chunks
    {HD : Delivers E chunks} {HS : Streams E f chunks} fuel l s a pcm lb b d bl :
  playing f l s a pcm lb b d -> recvs (trace s) = 0%nat -> acts (trace s) = 0%nat -> Forall chunk_ok chunks ->
  0 <= totalcount (vars s) -> totalcount (vars s) + 4103 * zlen chunks <= INT_MAX ->
  zlen chunks + 4120 <= Z.of_nat fuel ->
  exists fs l' s', main_loop console_line fuel h 0 l bl s = Ret (l', s') /\
    mapM decode fs = Some (map (fun c => pairs_of (padded c)) chunks) /\
    accepted f (trace s') = accepted f (trace s) ++ packets d (vars s) fs /\
    acts (trace s') = S (length chunks).
Proof.
  intros Hpl Hr Ha Hok Ht0 Ht1 Hfuel.
  destruct (loop_run console_line f str_select str_takes chunks str_memory str_poll str_active h chunks fuel l s a pcm lb b d bl)
    as (fs & l' & s' & E1 & E2 & E3 & E4); try done; [by rewrite Ha, Hr|by rewrite Hr|].
  exists fs, l', s'. split_and!; try done. rewrite E4, Ha. lia.
Qed.

(** A client on socket 7 that takes a byte per write plays two chunks, the second of
    which is filled up. *)
Definition wit_loop_env : Env := clamp (fun tr c =>
  match c with
  | CMalloc _ | CWrite _ _ => Reply 1 [] 0
  | CPoll _ _ => Reply 1 [POLLIN] 0
  | CRecv _ _ => let c := nth (recvs tr) wit_chunks [] in Reply (zlen c) c 0
  | CSelect _ _ _ _ => only_writable 7
  | CIsActivated _ => Reply (if (acts tr <? 2)%nat then 1 else 0) [] 0
  | _ => Reply 0 [] 0
  end).

#[export] Instance wit_loop_posix : Posix wit_loop_env := clamp_posix _.

#[export] Instance wit_loop_delivers : Delivers wit_loop_env wit_chunks.
Proof.
  intros tr g n Hn. unfold env_reply, wit_loop_env, clamp. cbn [rv rdata rerrno].
  pose proof (zlen_nonneg (nth (recvs tr) wit_chunks [])). f_equal. lia.
Qed.

#[export] Instance wit_loop_streams : Streams wit_loop_env 7 wit_chunks.
Proof.
  split; try done.
  intros tr [|x l] Hl; [done|]. unfold env_reply, wit_loop_env, clamp. cbn [rv]. rewrite zlen_cons.
  pose proof (zlen_nonneg l). lia.
Qed.

Definition wit_player (c : aes_context) : raopcl_data_t := set_sfd 7 (RaopStream.wit_client c).
Definition wit_play (g : aes_globals) : proc := Proc {[1 := Bytes wit_buffer]} 2 [] fds_init (Statics 0 1 0 g).

Lemma wit_playing g c :
  keyed g c iota_key ->
  playing 7 (Raopld (Some (wit_player c)) (Some wit_auds)) (wit_play g) wit_auds wit_pcm 1 wit_buffer (wit_player c).
Proof.
  intros Hk. split.
  - done.
  - split; reflexivity.
  - cbn. lia.
  - split; [done|]. split; [done|]. unfold FD_SETSIZE. lia.
  - done.
  - split; [done|]. split; [done|apply iota_key_bytes].
  - split; [by split; [|constructor]|]. split.
    + intros g' Hg. change (is_Some ((∅ : gmap Z reg) !! g')) in Hg. rewrite lookup_empty in Hg. by destruct Hg.
    + left. change (table_map (fds (wit_play g))) with (∅ : gmap Z reg). rewrite map_size_empty. lia.
  - intros x Hx. cbn in Hx |- *. apply lookup_singleton_ne. lia.
Qed.

Lemma loop_plays_stream_witness :
  exists c g fs l' s',
    main_loop (E := wit_loop_env) (L := 5%nat) [] (Z.to_nat 4200) (lit "10.0.0.2") 0
      (Raopld (Some (wit_player c)) (Some wit_auds)) None (wit_play g) = Ret (l', s') /\
    mapM decode fs = Some [pairs_of (seqZ 0 128); pairs_of (seqZ 128 64) ++ repeat (0, 0) 16] /\
    accepted (E := wit_loop_env) 7 (trace s') = packets (wit_player c) (vars (wit_play g)) fs.
Proof.
  destruct wit_keyed as (g & c & Hk). exists c, g.
  destruct (loop_plays_stream (E := wit_loop_env) (L := 5%nat) [] (lit "10.0.0.2") 7 wit_chunks (Z.to_nat 4200)
    (Raopld (Some (wit_player c)) (Some wit_auds)) (wit_play g) wit_auds wit_pcm 1 wit_buffer (wit_player c) None)
    as (fs & l' & s' & E1 & E2 & E3 & _).
  - apply wit_playing, Hk.
  - reflexivity.
  - reflexivity.
  - apply wit_chunk_ok.
  - cbn. lia.
  - apply Z.leb_le. vm_compute. reflexivity.
  - rewrite Z2Nat.id by lia. apply Z.leb_le. vm_compute. reflexivity.
  - exists fs, l', s'. split; [exact E1|]. split; [exact E2|exact E3].
Defined.
