(* ===== verification/Console.v ===== *)
(** * Console: commands typed at the player

    The input side of the event loop of raop_play.c: when [select] reports the standard
    input, the event handler reads a line and obeys it.  [quit] ends the main loop,
    [stop] closes the stream, [play] ends a pause. *)

From S2P Require Import Prelude AesTables Aes Sys AexclLib FdEvent AudioStream PcmStream RtspClient RaopClient RaopStream RaopPlay Streaming.

(** ** Only the standard input is ready *)

Definition only_stdin : reply := Reply 1 [0] 0.

Lemma stdin_wr set : ready only_stdin 1 set = [].
Proof.
  unfold ready. cbn [only_stdin rv rdata Z.ltb Z.eqb Z.compare Pos.eqb]. induction set as [|x set IH]; [done|].
  cbn [List.filter existsb]. rewrite (proj2 (Z.eqb_neq (2 * x + 1) 0)) by lia. exact IH.
Qed.

Lemma stdin_rd g set : 0 ∈ set -> mem g (ready only_stdin 0 set) = (g =? 0).
Proof.
  intros Hf. unfold ready, mem. cbn [only_stdin rv rdata Z.ltb Z.eqb Z.compare Pos.eqb].
  apply eq_true_iff_eq. rewrite existsb_exists, Z.eqb_eq. split.
  - intros (x & Hx & Hg). apply filter_In in Hx as [_ Hx]. cbn [existsb] in Hx. rewrite orb_false_r in Hx. lia.
  - intros ->. exists 0. split; [|lia]. apply filter_In. split; [by apply list_elem_of_In|done].
Qed.

(** Registering another descriptor leaves a cell in place. *)
Lemma set_first_other (P : dfev_t -> bool) e t t' i c :
  set_first P e t = Some t' -> t !! i = Some c -> P c = false -> t' !! i = Some c.
Proof.
  revert t' i. induction t as [|x t IH]; intros t' i Hs Hi Hc; [done|]. cbn [set_first] in Hs.
  destruct (P x) eqn:Hx.
  - injection Hs as <-. destruct i as [|i]; [|done]. cbn in Hi. injection Hi as ->. congruence.
  - destruct (set_first P e t) as [t1|] eqn:E1; [|done]. injection Hs as <-. destruct i as [|i]; [done|].
    cbn in Hi |- *. by eapply IH.
Qed.

Lemma set_fd_table_other f fl cb p t i c :
  0 <= c.(fd) -> c.(fd) <> f -> t !! i = Some c -> snd (set_fd_table f fl cb p t) !! i = Some c.
Proof.
  intros H0 Hf Hi. unfold set_fd_table. destruct (set_first _ _ _) as [t1|] eqn:E1.
  { eapply set_first_other; [exact E1|done|by apply Z.eqb_neq]. }
  destruct (set_first (fun c => c.(fd) <? 0) _ _) as [t2|] eqn:E2; [|done].
  eapply set_first_other; [exact E2|done|by apply Z.ltb_ge].
Qed.

(** Behind the cell of a descriptor there is no other one. *)
Lemma table_unique t i j c c' :
  NoDup (live_fds t) -> t !! i = Some c -> t !! j = Some c' -> (i < j)%nat -> 0 <= c.(fd) -> c'.(fd) <> c.(fd).
Proof.
  revert i j. induction t as [|x t IH]; intros i j Hnd Hi Hj Hij Hc Heq; [done|].
  destruct j as [|j]; [lia|]. cbn in Hj. rewrite live_cons in Hnd. destruct i as [|i].
  - cbn in Hi. injection Hi as ->. rewrite (proj2 (Z.ltb_ge _ _)) in Hnd by done. apply NoDup_cons in Hnd as [Hn _].
    apply Hn. unfold live_fds. apply list_elem_of_filter. split; [done|]. rewrite <- Heq.
    apply list_elem_of_In, in_map, list_elem_of_In. by eapply list_elem_of_lookup_2.
  - cbn in Hi. eapply (IH i j); try done; [|lia]. destruct (fd x <? 0); [done|]. by apply NoDup_cons in Hnd as [_ ?].
Qed.

(** ** Reading the line *)

Lemma clean_no_cr l : clean l -> filter (fun c => c <> 13) l = l.
Proof.
  induction 1 as [|c l Hc _ IH]; [done|]. rewrite filter_cons_True by naive_solver. by rewrite IH.
Qed.

Section Console.
Context {E : Env} {L : LineBound} (console_line : list Z) (input : list Z) {HP : Peer E 0 input}.
Hypothesis Hline : zlen console_line = 256.

(** [console_read] runs the command of the line that was typed. *)
Lemma console_read_run l s cmd rest :
  clean cmd -> zlen cmd + 1 < 256 -> drop (reads 0 (trace s)) input = cmd ++ 10 :: rest ->
  exists tl tr, drop (reads 0 tr) input = rest /\
    console_read console_line l s =
      (do! '(r, l) <- console_command l (cmd ++ 0 :: tl); ret (if r =? -2 then -1 else 0, l)) (with_trace tr s).
Proof.
  intros Hc Hlen Hd.
  assert (Hd' : drop (reads 0 (trace s)) input = (cmd ++ [10]) ++ rest) by (rewrite Hd; by rewrite <- app_assoc).
  destruct (peer_feeds 100 _ _ _ Hd') as (Hfeed & Hreads).
  destruct (read_line_fed 0 console_line 256 100 false cmd s) as (tl & E1 & _).
  - eapply Forall_impl; [exact Hc|]. naive_solver.
  - eapply Forall_impl; [exact Hc|]. naive_solver.
  - done.
  - lia.
  - rewrite clean_no_cr by done. lia.
  - lia.
  - rewrite clean_no_cr in E1 by done. eexists tl, _. split; [|unfold console_read; rewrite (bindM_Ret _ _ _ _ _ E1)].
    + rewrite length_app in Hreads. cbn [length] in Hreads. rewrite Nat.add_1_r in Hreads. rewrite Hreads, <- drop_drop, Hd'.
      apply drop_app_length'. rewrite length_app. cbn. lia.
    + rewrite (proj2 (Z.eqb_neq (zlen cmd) (-1))) by (pose proof (zlen_nonneg cmd); lia). done.
Qed.

(** ** The event *)

Definition console_cell : dfev_t := Dfev 0 false (Some console_read_p) RAOP_FD_READ.

(** The player when a command may come: cell [i] of the table is for the console. *)
Record at_console (l : raopld_t) (d : raopcl_data_t) (s : proc) (i : nat) : Prop := {
  ac_client : l.(pl_raopcl) = Some d;
  ac_songdone : RaopClient.wait_songdone d = 0;
  ac_table : table_ok (fds s) /\ small_fds (fds s);
  ac_cell : fds s !! i = Some console_cell
}.

Lemma dispatch_console l s i rd r l' s' :
  table_ok (fds s) -> fds s !! i = Some console_cell -> (forall g, mem g rd = (g =? 0)) ->
  console_read console_line l s = Ret ((r, l'), s') ->
  table_ok (fds s') -> fds s' !! i = Some console_cell ->
  dispatch console_line 4 0 l rd [] s = Ret ((if r =? 0 then 0 else -1, l'), s').
Proof.
  intros Ht Hi Hrd Hread Ht' Hi'.
  assert (Hlen : forall t, table_ok t -> length t = 4%nat) by (intros t [Hl _]; unfold zlen, MAX_NUM_OF_FDS in Hl; lia).
  assert (Hlt : (i < 4)%nat) by (apply lookup_lt_Some in Hi; by rewrite Hlen in Hi).
  replace 4%nat with (i + S (3 - i))%nat by lia. rewrite dispatch_skip.
  2:{ rewrite Hlen by done. lia. }
  2:{ intros j c Hj Hc. split; [|done]. rewrite Hrd. apply Z.eqb_neq. intros H0.
      apply (table_unique (fds s) j i c console_cell (proj2 Ht) Hc Hi); [lia|lia|by rewrite H0]. }
  cbn [Nat.add dispatch]. unfold gets at 1. unfold bindM at 1. rewrite Hi. change (fd console_cell <? 0) with false. cbn iota.
  assert (H1 : dispatch_one console_line l i RAOP_FD_READ rd s = Ret ((r, l'), s')).
  { unfold dispatch_one, gets. unfold bindM at 1. rewrite Hi, Hrd. exact Hread. }
  rewrite (bindM_Ret _ _ _ _ _ H1). destruct (Z.eqb_spec r 0) as [->|Hr]; [|done]. cbn [negb].
  assert (H2 : dispatch_one console_line l' i RAOP_FD_WRITE [] s' = Ret ((0, l'), s')).
  { unfold dispatch_one, gets. unfold bindM at 1. rewrite Hi'. done. }
  rewrite (bindM_Ret _ _ _ _ _ H2). change (negb (0 =? 0)) with false. cbn iota.
  replace (3 - i)%nat with ((3 - i) + 0)%nat by lia. rewrite dispatch_skip; [done| |].
  - rewrite Hlen by done. lia.
  - intros j c Hj Hc. split; [|done]. rewrite Hrd. apply Z.eqb_neq. intros H0.
    apply (table_unique (fds s') i j console_cell c (proj2 Ht') Hi' Hc); [lia|done|by rewrite H0].
Qed.

Hypothesis Hselect : forall tr rd wr a b, 0 ∈ rd -> env_reply tr (CSelect rd wr a b) = only_stdin.

(** The handler reads the line and, unless it was told to end, finds nothing else to do. *)
Lemma handler_console l d s i r l' s' :
  at_console l d s i ->
  let s1 := with_trace (CSelect (fd_set RAOP_FD_READ (fds s)) (fd_set RAOP_FD_WRITE (fds s)) MAIN_EVENT_TIMEOUT 0 :: trace s) s in
  console_read console_line l s1 = Ret ((r, l'), s') -> table_ok (fds s') -> fds s' !! i = Some console_cell ->
  (r = 0 -> exists d', l'.(pl_raopcl) = Some d' /\ RaopClient.wait_songdone d' = 0 /\ d'.(pause) = NO_PAUSE) ->
  main_event_handler console_line l s = Ret ((if r =? 0 then 0 else -1, l'), s').
Proof.
  intros [Hl Hw [Ht Hsm] Hi] s1 Hread Ht' Hi' Hd'. unfold main_event_handler. unfold gets at 1. unfold bindM at 1.
  rewrite sets_small by done.
  assert (Hsd : forall x d tv st, x.(pl_raopcl) = Some d -> RaopClient.wait_songdone d = 0 ->
    songdone_time x tv st = Ret ((false, tv), st)).
  { intros x d0 tv st H1 H2. unfold songdone_time, wait_songdone. rewrite H1. unfold bindM, ret. cbn. by rewrite H2. }
  rewrite (bindM_Ret _ _ _ _ _ (Hsd l d _ s Hl Hw)). cbn [tv_sec tv_usec]. unfold sys at 1. unfold bindM at 1.
  assert (H0 : 0 ∈ fd_set RAOP_FD_READ (fds s)).
  { apply list_elem_of_In. unfold fd_set. apply in_map_iff. exists console_cell. split; [done|]. apply filter_In. split; [|done].
    apply list_elem_of_In. by eapply list_elem_of_lookup_2. }
  rewrite Hselect by done. rewrite stdin_wr. change (Z.to_nat MAX_NUM_OF_FDS) with 4%nat. fold s1.
  rewrite (bindM_Ret _ _ _ _ _ (dispatch_console l s1 i _ r l' s' Ht Hi (fun g => stdin_rd g _ H0) Hread Ht' Hi')).
  destruct (Z.eqb_spec r 0) as [Hr|Hr]; [|done]. change (negb (0 =? 0)) with false. cbn iota.
  destruct (Hd' Hr) as (d' & H1 & H2 & H3). unfold after_events.
  rewrite (bindM_Ret _ _ _ _ _ (Hsd l' d' _ _ H1 H2)). cbn [andb]. rewrite bindM_ret, H1.
  unfold raopcl_pause_check. rewrite H3. destruct l'. cbn in H1 |- *. by subst.
Qed.

(** ** The commands *)

Lemma clean_lit (w : list Z) : bool_decide (Forall (fun c => 0 < c < 256 /\ c <> 10 /\ c <> 13) w) = true -> clean w.
Proof. intros H%bool_decide_eq_true_1. eapply Forall_impl; [exact H|]. unfold is_u8. intros; lia. Qed.

(** The line is the command, whatever is behind its NUL. *)
Lemma command_line cmd tl : clean cmd -> cstr (cmd ++ 0 :: tl) = Ret cmd.
Proof. intros H. by apply cstr_nul, clean_nonul. Qed.

Lemma quit_run l d s i rest :
  at_console l d s i -> drop (reads 0 (trace s)) input = lit "quit" ++ 10 :: rest ->
  exists tr, main_event_handler console_line l s = Ret ((-1, l), with_trace tr s) /\ drop (reads 0 tr) input = rest.
Proof.
  intros Hac Hin. assert (Hc : clean (lit "quit")) by by apply clean_lit.
  edestruct (console_read_run l (with_trace (CSelect (fd_set RAOP_FD_READ (fds s)) (fd_set RAOP_FD_WRITE (fds s))
    MAIN_EVENT_TIMEOUT 0 :: trace s) s) (lit "quit") rest Hc) as (tl & tr & Hrest & Er); [done|done|].
  exists tr. split; [|done].
  apply (handler_console l d s i (-1) l (with_trace tr s) Hac); [|apply Hac|apply Hac|lia].
  rewrite Er. unfold console_command. rewrite !bindM_assoc. unfold lift, bindM at 1. rewrite command_line by done. done.
Qed.

(** A pause is over. *)
Definition resumed (d : raopcl_data_t) : raopcl_data_t := set_pause_state NO_PAUSE d.

Lemma resume_run l d s i :
  at_console l d s i -> 0 < d.(sfd) ->
  exists t', do_set_pause l NO_PAUSE s = Ret (set_raopcl (Some (resumed d)) l, set_fds t' s) /\
    table_ok t' /\ t' !! i = Some console_cell /\
    (room d.(sfd) (fds s) -> table_map t' = <[d.(sfd) := (true, Some fd_event_callback_p, RDWR)]> (table_map (fds s))).
Proof.
  intros [Hl Hw [Ht Hsm] Hi] Hf.
  destruct (set_fd_table_spec d.(sfd) RDWR (Some fd_event_callback_p) true (fds s) ltac:(lia) Ht) as (r & t' & Es & Hok & Hor).
  exists t'. split; [|split; [done|split]].
  - unfold do_set_pause, raopcl_set_pause. rewrite Hl. unfold set_fd_event. change (sfd (set_pause_state NO_PAUSE d)) with (sfd d).
    fold RDWR. rewrite bindM_assoc. erewrite bindM_Ret by (by apply with_fds_run). by rewrite Es.
  - change t' with (snd (r, t')). rewrite <- Es. apply set_fd_table_other; [done|cbn; lia|done].
  - intros [Hr|Hr]; destruct Hor as [(_ & Hm)|(_ & _ & Hn & Hz)]; try done; [lia|]. rewrite Hn in Hr. by destruct Hr.
Qed.

Lemma play_run l d s i rest :
  at_console l d s i -> 0 < d.(sfd) -> d.(pause) <> NO_PAUSE ->
  drop (reads 0 (trace s)) input = lit "play" ++ 10 :: rest ->
  exists t' tr, main_event_handler console_line l s =
      Ret ((0, set_raopcl (Some (resumed d)) l), set_fds t' (with_trace tr s)) /\
    drop (reads 0 tr) input = rest /\
    (room d.(sfd) (fds s) -> table_map t' = <[d.(sfd) := (true, Some fd_event_callback_p, RDWR)]> (table_map (fds s))).
Proof.
  intros Hac Hf Hp Hin. assert (Hc : clean (lit "play")) by by apply clean_lit.
  edestruct (console_read_run l (with_trace (CSelect (fd_set RAOP_FD_READ (fds s)) (fd_set RAOP_FD_WRITE (fds s))
    MAIN_EVENT_TIMEOUT 0 :: trace s) s) (lit "play") rest Hc) as (tl & tr & Hrest & Er); [done|done|].
  assert (Hac' : at_console l d (with_trace tr s) i) by (destruct Hac; by split).
  destruct (resume_run l d (with_trace tr s) i Hac' Hf) as (t' & Ep & Ht' & Hi' & Hm).
  exists t', tr. split; [|done].
  apply (handler_console l d s i 0 _ (set_fds t' (with_trace tr s)) Hac); [|done|done|].
  - rewrite Er. unfold console_command. rewrite !bindM_assoc. unfold lift. unfold bindM at 1. rewrite command_line by done.
    cbn [obind]. change (is_prefix (lit "play") (lit "play")) with true. cbn iota. unfold command_play, paused.
    rewrite (ac_client _ _ _ _ Hac). unfold raopcl_get_pause. cbn [option_map].
    destruct (pause d); [done| |]; rewrite bindM_assoc; erewrite bindM_Ret by exact Ep; done.
  - intros _. exists (resumed d). split; [done|]. split; [apply Hac|done].
Qed.

(** [stop]: the pause ends, if there is one, and the stream is closed. *)
Lemma stop_command l d s i a pcm lb b tl :
  at_console l d s i -> 0 < d.(sfd) -> l.(pl_auds) = Some a -> a.(data_type) = AUD_TYPE_PCM -> stream_ok a s pcm lb b ->
  exists t', console_command l (lit "stop" ++ 0 :: tl) s =
      Ret ((-1, Raopld (Some (resumed d)) None),
        set_heap (delete lb (heap s)) (with_trace (close_calls pcm ++ trace s) (set_fds t' s))) /\
    table_ok t' /\ t' !! i = Some console_cell.
Proof.
  intros Hac Hf Ha Hty Hst.
  assert (Hpause : exists t', (if paused l then do_set_pause l NO_PAUSE else ret l) s =
    Ret (set_raopcl (Some (resumed d)) l, set_fds t' s) /\ table_ok t' /\ t' !! i = Some console_cell).
  { destruct (paused l) eqn:Ep.
    - destruct (resume_run l d s i Hac Hf) as (t' & H1 & H2 & H3 & _). by exists t'.
    - exists (fds s). split; [|split; apply Hac]. unfold paused, raopcl_get_pause in Ep. rewrite (ac_client _ _ _ _ Hac) in Ep.
      cbn in Ep. destruct (pause d) eqn:Hp; try done.
      assert (Hr : resumed d = d) by (unfold resumed; destruct d; cbn in Hp |- *; by subst).
      unfold ret. rewrite Hr. destruct l as [x y], s. cbn. rewrite <- (ac_client _ _ _ _ Hac). done. }
  destruct Hpause as (t' & Hp & Ht' & Hi'). exists t'. split; [|done].
  unfold console_command. unfold lift. unfold bindM at 1. rewrite command_line by by apply clean_lit.
  cbn [obind]. change (is_prefix (lit "play") (lit "stop")) with false. change (str_eqb (lit "stop") (lit "pause")) with false.
  change (str_eqb (lit "stop") (lit "stop")) with true. cbn iota.
  rewrite (bindM_Ret _ _ _ _ _ Hp). unfold close_auds. cbn [pl_auds set_raopcl]. rewrite Ha, bindM_assoc.
  erewrite bindM_Ret by (apply (auds_close_run a _ pcm lb b); [destruct Hst; by split|done]). done.
Qed.

Lemma stop_run l d s i a pcm lb b rest :
  at_console l d s i -> 0 < d.(sfd) -> l.(pl_auds) = Some a -> a.(data_type) = AUD_TYPE_PCM -> stream_ok a s pcm lb b ->
  drop (reads 0 (trace s)) input = lit "stop" ++ 10 :: rest ->
  exists s', main_event_handler console_line l s = Ret ((0, Raopld (Some (resumed d)) None), s') /\
    heap s' = delete lb (heap s) /\ exists tr, trace s' = close_calls pcm ++ tr /\ drop (reads 0 tr) input = rest.
Proof.
  intros Hac Hf Ha Hty Hst Hin. assert (Hc : clean (lit "stop")) by by apply clean_lit.
  edestruct (console_read_run l (with_trace (CSelect (fd_set RAOP_FD_READ (fds s)) (fd_set RAOP_FD_WRITE (fds s))
    MAIN_EVENT_TIMEOUT 0 :: trace s) s) (lit "stop") rest Hc) as (tl & tr & Hrest & Er); [done|done|].
  assert (Hac' : at_console l d (with_trace tr s) i) by (destruct Hac; by split).
  destruct (stop_command l d (with_trace tr s) i a pcm lb b tl Hac' Hf Ha Hty) as (t' & Es & Ht' & Hi'); [destruct Hst; by split|].
  set (s' := set_heap (delete lb (heap s)) (with_trace (close_calls pcm ++ tr) (set_fds t' (with_trace tr s)))).
  exists s'. split; [|split; [done|by exists tr]].
  apply (handler_console l d s i 0 _ s' Hac); [|done|done|].
  - rewrite Er. rewrite (bindM_Ret _ _ _ _ _ Es). done.
  - intros _. exists (resumed d). split; [done|]. split; [apply Hac|done].
Qed.

(** The loop ends after [quit]. *)
Lemma quit_ends_loop l d s i rest h fuel bl :
  at_console l d s i -> drop (reads 0 (trace s)) input = lit "quit" ++ 10 :: rest ->
  l.(pl_auds) = None \/ d.(pause) = OP_PAUSE -> (forall tr, rv (env_reply tr (CIsActivated h)) = 1) ->
  exists s', main_loop console_line (S (S fuel)) h 0 l bl s = Ret (l, s').
Proof.
  intros Hac Hin Hidle Hact. set (s0 := with_trace (CIsActivated h :: trace s) s).
  assert (Ha : isActivated h s = Ret (1, s0)) by (unfold isActivated, syscall, sys, bindM, ret; by rewrite Hact).
  assert (Hac0 : at_console l d s0 i) by (destruct Hac; by split).
  destruct (quit_run l d s0 i rest Hac0 Hin) as (tr & Eq & _).
  eexists. cbn [main_loop]. change (negb (0 =? 0)) with false. cbn iota. rewrite (bindM_Ret _ _ _ _ _ Ha).
  change (negb (1 =? 1)) with false. cbn iota. erewrite bindM_Ret.
  2:{ unfold main_step. rewrite (ac_client _ _ _ _ Hac). unfold raopcl_get_pause. cbn [option_map].
      destruct Hidle as [->| ->]; [|destruct (pl_auds l)]; by rewrite (bindM_Ret _ _ _ _ _ Eq). }
  done.
Qed.
End Console.

(** ** The theorem *)

(** The standard input delivers the lines of [input], and [select] reports it and
    nothing else whenever it is asked about it. *)
Class Typed (E : Env) (input : list Z) : Prop := {
  ty_peer :: Peer E 0 input;
  ty_select : forall tr rd wr a b, 0 ∈ rd -> env_reply tr (CSelect rd wr a b) = only_stdin
}.


(** The commands [stop] and [quit] typed at a player that is paused; the stream is that
    of [wit_auds], the client's socket is 7. *)
Definition wit_typed (text : list Z) : Env := fun tr c =>
  match c with
  | CSelect _ _ _ _ => only_stdin
  | CIsActivated _ => Reply 1 [] 0
  | _ => peer_env 0 text tr c
  end.

#[export] Instance wit_typed_ok text : Typed (wit_typed text) text.
Proof. split; [|done]. destruct (peer_env_peer 0 text) as [H1 H2 H3 H4]. by split. Qed.

Definition wit_paused : raopcl_data_t := set_pause_state OP_PAUSE (set_sfd 7 (raopcl_zero [] [])).
Definition wit_console : proc :=
  Proc {[1 := Bytes wit_buffer]} 2 [] (snd (set_fd_table 0 RAOP_FD_READ (Some console_read_p) false fds_init)) statics0.

Lemma wit_at_console o : at_console (Raopld (Some wit_paused) o) wit_paused wit_console 0.
Proof.
  split; try done. split; [split; [done|]|].
  - apply (bool_decide_eq_true_1 (NoDup _)). vm_compute. reflexivity.
  - intros f Hf. apply table_dom in Hf. vm_compute in Hf. apply list_elem_of_singleton in Hf as ->. done.
Qed.

