(* ===== verification/Sha1.v ===== *)
(** * Sha1: the hash function of OpenSSL

    The RSA padding of the key exchange hashes with SHA-1
    (src/jni/openssl/crypto/sha/sha_locl.h and src/jni/openssl/crypto/md32_common.h).  The
    header has the compression function in two forms, chosen when it is compiled:
    unrolled, with the roles of six registers rotated from line to line, and
    small, with loops ([build]).  The unrolled form is kept as the list of its
    lines, [unrolled]; [exec] says what one line does.  [long] has 32 bits and the
    machine is little-endian, as android-config.mk says, so words are read byte by
    byte with [HOST_c2l]. *)

From S2P Require Import Prelude.

(** ** State *)

(** [SHA_CTX]; [data] is used as an array of 64 bytes only. *)
Record SHA_CTX : Type := ShaCtx {
  h0 : Z; h1 : Z; h2 : Z; h3 : Z; h4 : Z;
  Nl : Z; Nh : Z;
  sha_data : list Z;
  sha_num : Z
}.

Definition SHA_CBLOCK : Z := 64.
Definition SHA_DIGEST_LENGTH : Z := 20.

Definition SHA1_Init (c : SHA_CTX) : SHA_CTX :=
  ShaCtx 0x67452301 0xefcdab89 0x98badcfe 0x10325476 0xc3d2e1f0 0 0 c.(sha_data) 0.

Definition set_counts (l h : Z) (c : SHA_CTX) : SHA_CTX :=
  ShaCtx c.(h0) c.(h1) c.(h2) c.(h3) c.(h4) l h c.(sha_data) c.(sha_num).
Definition set_buffer (d : list Z) (n : Z) (c : SHA_CTX) : SHA_CTX :=
  ShaCtx c.(h0) c.(h1) c.(h2) c.(h3) c.(h4) c.(Nl) c.(Nh) d n.
Definition set_h (a b c d e : Z) (x : SHA_CTX) : SHA_CTX :=
  ShaCtx a b c d e x.(Nl) x.(Nh) x.(sha_data) x.(sha_num).

(** ** Macros *)

Definition ROTATE (a n : Z) : Z := u32 (a .<< n) .| ((a .& 0xffffffff) .>> (32 - n)).

Definition K_00_19 : Z := 0x5a827999.
Definition K_20_39 : Z := 0x6ed9eba1.
Definition K_40_59 : Z := 0x8f1bbcdc.
Definition K_60_79 : Z := 0xca62c1d6.

Definition F_00_19 (b c d : Z) : Z := ((c .^ d) .& b) .^ d.
Definition F_20_39 (b c d : Z) : Z := b .^ c .^ d.
Definition F_40_59 (b c d : Z) : Z := (b .& c) .| ((b .| c) .& d).
Definition F_60_79 (b c d : Z) : Z := F_20_39 b c d.

(** [Xupdate(a,ix,ia,ib,ic,id)]: the value that [a] and [ix] get. *)
Definition Xupdate (ia ib ic id : Z) : Z := ROTATE (ia .^ ib .^ ic .^ id) 1.

(** [HOST_c2l] at the front of [p], and [HOST_l2c]. *)
Definition host_c2l (p : list Z) : Z :=
  (znth p 0 .<< 24) .| (znth p 1 .<< 16) .| (znth p 2 .<< 8) .| znth p 3.
Definition HOST_l2c (l : Z) : list Z :=
  [(l .>> 24) .& 0xff; (l .>> 16) .& 0xff; (l .>> 8) .& 0xff; l .& 0xff].

(** ** The unrolled form *)

Module Block.

Inductive reg : Type := A | B | C | D | E | T.

#[export] Instance reg_eq_dec : EqDecision reg.
Proof. solve_decision. Defined.

(** A line: the loading of a word, or one of the macros with the registers and
    the indices of [X] it is applied to. *)
Inductive line : Type :=
| HOST_c2l (x : Z)
| BODY_00_15 (a b c d e f : reg) (xi : Z)
| BODY_16_19 (a b c d e f : reg) (xi xa xb xc xd : Z)
| BODY_20_31 (a b c d e f : reg) (xi xa xb xc xd : Z)
| BODY_32_39 (a b c d e f : reg) (xa xb xc xd : Z)
| BODY_40_59 (a b c d e f : reg) (xa xb xc xd : Z)
| BODY_60_79 (a b c d e f : reg) (xa xb xc xd : Z).

Record regs : Type := Regs { rA : Z; rB : Z; rC : Z; rD : Z; rE : Z; rT : Z }.

Definition get (r : regs) (x : reg) : Z :=
  match x with A => r.(rA) | B => r.(rB) | C => r.(rC) | D => r.(rD) | E => r.(rE) | T => r.(rT) end.
Definition put (r : regs) (x : reg) (v : Z) : regs :=
  match x with
  | A => Regs v r.(rB) r.(rC) r.(rD) r.(rE) r.(rT)
  | B => Regs r.(rA) v r.(rC) r.(rD) r.(rE) r.(rT)
  | C => Regs r.(rA) r.(rB) v r.(rD) r.(rE) r.(rT)
  | D => Regs r.(rA) r.(rB) r.(rC) v r.(rE) r.(rT)
  | E => Regs r.(rA) r.(rB) r.(rC) r.(rD) v r.(rT)
  | T => Regs r.(rA) r.(rB) r.(rC) r.(rD) r.(rE) v
  end.

(** The state of the function: the rest of the block, [X] and the registers. *)
Record bstate : Type := Bstate { rest : list Z; xs : list Z; rs : regs }.

(** [(f)+=(e)+K+ROTATE((a),5)+F((b),(c),(d)); (b)=ROTATE((b),30);] where [f] starts
    with the value [x]. *)
Definition body (k : Z) (F : Z -> Z -> Z -> Z) (r : regs) (a b c d e f : reg) (x : Z) : regs :=
  let r := put r f (u32 (x + get r e + k + ROTATE (get r a) 5 + F (get r b) (get r c) (get r d))) in
  put r b (ROTATE (get r b) 30).

Definition body_x (k : Z) (F : Z -> Z -> Z -> Z) (s : bstate) (a b c d e f : reg)
    (xi xa xb xc xd : Z) : bstate :=
  let x := Xupdate (znth s.(xs) xa) (znth s.(xs) xb) (znth s.(xs) xc) (znth s.(xs) xd) in
  Bstate s.(rest) (zset s.(xs) xi x) (body k F (put s.(rs) f x) a b c d e f x).

Definition exec (s : bstate) (l : line) : bstate :=
  match l with
  | HOST_c2l x => Bstate (drop 4 s.(rest)) (zset s.(xs) x (host_c2l s.(rest))) s.(rs)
  | BODY_00_15 a b c d e f xi =>
      Bstate s.(rest) s.(xs) (body K_00_19 F_00_19 s.(rs) a b c d e f (znth s.(xs) xi))
  | BODY_16_19 a b c d e f xi xa xb xc xd => body_x K_00_19 F_00_19 s a b c d e f xi xa xb xc xd
  | BODY_20_31 a b c d e f xi xa xb xc xd => body_x K_20_39 F_20_39 s a b c d e f xi xa xb xc xd
  | BODY_32_39 a b c d e f xa xb xc xd => body_x K_20_39 F_20_39 s a b c d e f xa xa xb xc xd
  | BODY_40_59 a b c d e f xa xb xc xd => body_x K_40_59 F_40_59 s a b c d e f xa xa xb xc xd
  | BODY_60_79 a b c d e f xa xb xc xd => body_x K_60_79 F_60_79 s a b c d e f xa xa xb xc xd
  end.

(** The lines of the loop body. *)
Definition unrolled : list line :=
  [HOST_c2l 0; HOST_c2l 1; BODY_00_15 A B C D E T 0;
   HOST_c2l 2; BODY_00_15 T A B C D E 1; HOST_c2l 3;
   BODY_00_15 E T A B C D 2; HOST_c2l 4; BODY_00_15 D E T A B C 3;
   HOST_c2l 5; BODY_00_15 C D E T A B 4; HOST_c2l 6;
   BODY_00_15 B C D E T A 5; HOST_c2l 7; BODY_00_15 A B C D E T 6;
   HOST_c2l 8; BODY_00_15 T A B C D E 7; HOST_c2l 9;
   BODY_00_15 E T A B C D 8; HOST_c2l 10; BODY_00_15 D E T A B C 9;
   HOST_c2l 11; BODY_00_15 C D E T A B 10; HOST_c2l 12;
   BODY_00_15 B C D E T A 11; HOST_c2l 13; BODY_00_15 A B C D E T 12;
   HOST_c2l 14; BODY_00_15 T A B C D E 13; HOST_c2l 15;
   BODY_00_15 E T A B C D 14; BODY_00_15 D E T A B C 15; BODY_16_19 C D E T A B 0 0 2 8 13;
   BODY_16_19 B C D E T A 1 1 3 9 14; BODY_16_19 A B C D E T 2 2 4 10 15; BODY_16_19 T A B C D E 3 3 5 11 0;
   BODY_20_31 E T A B C D 4 4 6 12 1; BODY_20_31 D E T A B C 5 5 7 13 2; BODY_20_31 C D E T A B 6 6 8 14 3;
   BODY_20_31 B C D E T A 7 7 9 15 4; BODY_20_31 A B C D E T 8 8 10 0 5; BODY_20_31 T A B C D E 9 9 11 1 6;
   BODY_20_31 E T A B C D 10 10 12 2 7; BODY_20_31 D E T A B C 11 11 13 3 8; BODY_20_31 C D E T A B 12 12 14 4 9;
   BODY_20_31 B C D E T A 13 13 15 5 10; BODY_20_31 A B C D E T 14 14 0 6 11; BODY_20_31 T A B C D E 15 15 1 7 12;
   BODY_32_39 E T A B C D 0 2 8 13; BODY_32_39 D E T A B C 1 3 9 14; BODY_32_39 C D E T A B 2 4 10 15;
   BODY_32_39 B C D E T A 3 5 11 0; BODY_32_39 A B C D E T 4 6 12 1; BODY_32_39 T A B C D E 5 7 13 2;
   BODY_32_39 E T A B C D 6 8 14 3; BODY_32_39 D E T A B C 7 9 15 4; BODY_40_59 C D E T A B 8 10 0 5;
   BODY_40_59 B C D E T A 9 11 1 6; BODY_40_59 A B C D E T 10 12 2 7; BODY_40_59 T A B C D E 11 13 3 8;
   BODY_40_59 E T A B C D 12 14 4 9; BODY_40_59 D E T A B C 13 15 5 10; BODY_40_59 C D E T A B 14 0 6 11;
   BODY_40_59 B C D E T A 15 1 7 12; BODY_40_59 A B C D E T 0 2 8 13; BODY_40_59 T A B C D E 1 3 9 14;
   BODY_40_59 E T A B C D 2 4 10 15; BODY_40_59 D E T A B C 3 5 11 0; BODY_40_59 C D E T A B 4 6 12 1;
   BODY_40_59 B C D E T A 5 7 13 2; BODY_40_59 A B C D E T 6 8 14 3; BODY_40_59 T A B C D E 7 9 15 4;
   BODY_40_59 E T A B C D 8 10 0 5; BODY_40_59 D E T A B C 9 11 1 6; BODY_40_59 C D E T A B 10 12 2 7;
   BODY_40_59 B C D E T A 11 13 3 8; BODY_60_79 A B C D E T 12 14 4 9; BODY_60_79 T A B C D E 13 15 5 10;
   BODY_60_79 E T A B C D 14 0 6 11; BODY_60_79 D E T A B C 15 1 7 12; BODY_60_79 C D E T A B 0 2 8 13;
   BODY_60_79 B C D E T A 1 3 9 14; BODY_60_79 A B C D E T 2 4 10 15; BODY_60_79 T A B C D E 3 5 11 0;
   BODY_60_79 E T A B C D 4 6 12 1; BODY_60_79 D E T A B C 5 7 13 2; BODY_60_79 C D E T A B 6 8 14 3;
   BODY_60_79 B C D E T A 7 9 15 4; BODY_60_79 A B C D E T 8 10 0 5; BODY_60_79 T A B C D E 9 11 1 6;
   BODY_60_79 E T A B C D 10 12 2 7; BODY_60_79 D E T A B C 11 13 3 8; BODY_60_79 C D E T A B 12 14 4 9;
   BODY_60_79 B C D E T A 13 15 5 10; BODY_60_79 A B C D E T 14 0 6 11; BODY_60_79 T A B C D E 15 1 7 12].

(** One turn of the loop on the 64 bytes [p]. *)
Definition block_unrolled (c : SHA_CTX) (p : list Z) : SHA_CTX :=
  let r := (fold_left exec unrolled (Bstate p (repeat 0 16) (Regs c.(h0) c.(h1) c.(h2) c.(h3) c.(h4) 0))).(rs) in
  set_h ((c.(h0) + r.(rE)) .& 0xffffffff) ((c.(h1) + r.(rT)) .& 0xffffffff)
    ((c.(h2) + r.(rA)) .& 0xffffffff) ((c.(h3) + r.(rB)) .& 0xffffffff)
    ((c.(h4) + r.(rC)) .& 0xffffffff) c.

(** ** The small form *)

(** [E=D, D=C, C=ROTATE(B,30), B=A; A=ROTATE(A,5)+T+x;] *)
Definition shift5 (r : regs) (t x : Z) : regs :=
  Regs (u32 (ROTATE r.(rA) 5 + t + x)) r.(rA) (ROTATE r.(rB) 30) r.(rC) r.(rD) t.

Definition small_00_15 (i : Z) (s : bstate) : bstate :=
  let l := host_c2l s.(rest) in
  let r := s.(rs) in
  Bstate (drop 4 s.(rest)) (zset s.(xs) i l)
    (shift5 r (u32 (r.(rE) + K_00_19 + F_00_19 r.(rB) r.(rC) r.(rD))) l).

(** [Xupdate(T,xa,xa,xb,xc,xd); T+=E+K+F(B,C,D); ...] *)
Definition small_x (k : Z) (F : Z -> Z -> Z -> Z) (xa xb xc xd : Z) (s : bstate) : bstate :=
  let x := Xupdate (znth s.(xs) xa) (znth s.(xs) xb) (znth s.(xs) xc) (znth s.(xs) xd) in
  let r := s.(rs) in
  Bstate s.(rest) (zset s.(xs) xa x)
    (shift5 r (u32 (x + r.(rE) + k + F r.(rB) r.(rC) r.(rD))) 0).

(** [T=E+K+F(B,C,D); ... A=ROTATE(A,5)+T+xa;] *)
Definition small_60_79 (xa xb xc xd : Z) (s : bstate) : bstate :=
  let x := Xupdate (znth s.(xs) xa) (znth s.(xs) xb) (znth s.(xs) xc) (znth s.(xs) xd) in
  let r := s.(rs) in
  Bstate s.(rest) (zset s.(xs) xa x)
    (shift5 r (u32 (r.(rE) + K_60_79 + F_60_79 r.(rB) r.(rC) r.(rD))) x).

Definition small_loops (s : bstate) : bstate :=
  let s := for_ 0 16 small_00_15 s in
  let s := for_ 0 4 (fun i => small_x K_00_19 F_00_19 i (i + 2) (i + 8) ((i + 13) .& 15)) s in
  let s := for_ 4 20 (fun i => small_x K_20_39 F_20_39 (i .& 15) ((i + 2) .& 15) ((i + 8) .& 15) ((i + 13) .& 15)) s in
  let s := for_ 0 20 (fun i => small_x K_40_59 F_40_59 ((i + 8) .& 15) ((i + 10) .& 15) (i .& 15) ((i + 5) .& 15)) s in
  for_ 4 20 (fun i => small_60_79 ((i + 8) .& 15) ((i + 10) .& 15) (i .& 15) ((i + 5) .& 15)) s.

Definition block_small (c : SHA_CTX) (p : list Z) : SHA_CTX :=
  let r := (small_loops (Bstate p (repeat 0 16) (Regs c.(h0) c.(h1) c.(h2) c.(h3) c.(h4) 0))).(rs) in
  set_h ((c.(h0) + r.(rA)) .& 0xffffffff) ((c.(h1) + r.(rB)) .& 0xffffffff)
    ((c.(h2) + r.(rC)) .& 0xffffffff) ((c.(h3) + r.(rD)) .& 0xffffffff)
    ((c.(h4) + r.(rE)) .& 0xffffffff) c.

End Block.

(** ** The functions of md32_common.h *)

(** [OPENSSL_SMALL_FOOTPRINT] is defined or not. *)
Inductive build : Type := Unrolled | SmallFootprint.

Definition block (b : build) (c : SHA_CTX) (p : list Z) : SHA_CTX :=
  match b with Unrolled => Block.block_unrolled c p | SmallFootprint => Block.block_small c p end.

Section Hash.
Variable b : build.

(** [sha1_block_data_order(c, p, num)]: with [num] 0 the loop would run away from
    the array. *)
Fixpoint block_loop (num : nat) (c : SHA_CTX) (p : list Z) : outcome SHA_CTX :=
  if zlen p <? SHA_CBLOCK then UB OutOfBounds
  else
    let c := block b c (take 64 p) in
    match num with O => Ret c | S n => block_loop n c (drop 64 p) end.

Definition sha1_block_data_order (c : SHA_CTX) (p : list Z) (num : Z) : outcome SHA_CTX :=
  if num =? 0 then UB OutOfBounds else block_loop (Z.to_nat (num - 1)) c p.

Definition SHA1_Transform (c : SHA_CTX) (data : list Z) : outcome SHA_CTX :=
  sha1_block_data_order c data 1.

(** The bit counts. *)
Definition count_message_bits (c : SHA_CTX) (len : Z) : SHA_CTX :=
  let l := (c.(Nl) + u32 (len .<< 3)) .& 0xffffffff in
  let h := if l <? c.(Nl) then u32 (c.(Nh) + 1) else c.(Nh) in
  set_counts l (u32 (h + (len .>> 29))) c.

(** From [n = len/HASH_CBLOCK] on. *)
Definition update_blocks (c : SHA_CTX) (data : list Z) (len : Z) : outcome SHA_CTX :=
  let n := len / SHA_CBLOCK in
  do '(c, data, len) <-
    (if 0 <? n then
       do c <- sha1_block_data_order c data n;
       Ret (c, drop (Z.to_nat (n * SHA_CBLOCK)) data, len - n * SHA_CBLOCK)
     else Ret (c, data, len));
  if negb (len =? 0) then
    if zlen data <? len then UB OutOfBounds
    else do d <- buf_write c.(sha_data) 0 (take (Z.to_nat len) data); Ret (set_buffer d len c)
  else Ret c.

(** [SHA1_Update(c, data, len)]; it returns 1. *)
Definition SHA1_Update (c : SHA_CTX) (data : list Z) (len : Z) : outcome SHA_CTX :=
  if len =? 0 then Ret c
  else
    let c := count_message_bits c len in
    let n := c.(sha_num) in
    if negb (n =? 0) then
      if SHA_CBLOCK <=? u32 (n + len) then
        if zlen data <? SHA_CBLOCK - n then UB OutOfBounds
        else
          do d <- buf_write c.(sha_data) n (take (Z.to_nat (SHA_CBLOCK - n)) data);
          do c <- sha1_block_data_order (set_buffer d n c) d 1;
          let n := SHA_CBLOCK - n in
          update_blocks (set_buffer (repeat 0 64) 0 c) (drop (Z.to_nat n) data) (u32 (len - n))
      else
        if zlen data <? len then UB OutOfBounds
        else
          do d <- buf_write c.(sha_data) n (take (Z.to_nat len) data);
          Ret (set_buffer d (u32 (c.(sha_num) + len)) c)
    else update_blocks c data len.

Definition HASH_MAKE_STRING (c : SHA_CTX) : list Z :=
  HOST_l2c c.(h0) ++ HOST_l2c c.(h1) ++ HOST_l2c c.(h2) ++ HOST_l2c c.(h3) ++ HOST_l2c c.(h4).

(** [SHA1_Final(md, c)]: the 20 bytes of [md], and the context. *)
Definition SHA1_Final (c : SHA_CTX) : outcome (list Z * SHA_CTX) :=
  let n := c.(sha_num) in
  do p <- buf_set c.(sha_data) n 0x80;
  let n := n + 1 in
  do '(c, p, n) <-
    (if SHA_CBLOCK - 8 <? n then
       do p <- buf_write p n (repeat 0 (Z.to_nat (SHA_CBLOCK - n)));
       do c <- sha1_block_data_order c p 1;
       Ret (c, p, 0)
     else Ret (c, p, n));
  do p <- buf_write p n (repeat 0 (Z.to_nat (SHA_CBLOCK - 8 - n)));
  do p <- buf_write p (SHA_CBLOCK - 8) (HOST_l2c c.(Nh) ++ HOST_l2c c.(Nl));
  do c <- sha1_block_data_order c p 1;
  Ret (HASH_MAKE_STRING c, set_buffer (repeat 0 64) 0 c).

(** [SHA1(d, n, md)]; the context is not initialised before. *)
Definition SHA1 (c : SHA_CTX) (d : list Z) (n : Z) : outcome (list Z) :=
  do c <- SHA1_Update (SHA1_Init c) d n;
  do '(md, _) <- SHA1_Final c;
  Ret md.

End Hash.
