(* ===== verification/Sha1Block.v ===== *)
(** * Sha1Block: the compression function of SHA-1

    The compression function as FIPS 180 defines it ([compress]), and the proof
    that both forms of OpenSSL's code compute it.  The lines of the unrolled form
    are checked against the pattern of the standard by [schedule], an executable
    check of which register plays which part and which word is read where. *)

From Stdlib Require Import Btauto.
From S2P Require Import Prelude Sha1.
Import Block.

(** ** FIPS 180 *)

Definition rotl (n x : Z) : Z := u32 (x .<< n) .| (u32 x .>> (32 - n)).

Definition Ch (x y z : Z) : Z := (x .& y) .^ (Z.lnot x .& z).
Definition Parity (x y z : Z) : Z := x .^ y .^ z.
Definition Maj (x y z : Z) : Z := (x .& y) .^ (x .& z) .^ (y .& z).

Definition fips_f (t : Z) : Z -> Z -> Z -> Z :=
  if t <? 20 then Ch else if t <? 40 then Parity else if t <? 60 then Maj else Parity.
Definition fips_K (t : Z) : Z :=
  if t <? 20 then 0x5a827999 else if t <? 40 then 0x6ed9eba1 else if t <? 60 then 0x8f1bbcdc else 0xca62c1d6.

(** Word [t] of a block, most significant byte first. *)
Definition word (m : list Z) (t : Z) : Z :=
  pack4 (znth m (4 * t)) (znth m (4 * t + 1)) (znth m (4 * t + 2)) (znth m (4 * t + 3)).

(** The next word of the message schedule. *)
Definition next_word (m : list Z) (t : Z) (w : list Z) : Z :=
  if t <? 16 then word m t
  else rotl 1 (znth w (t - 3) .^ znth w (t - 8) .^ znth w (t - 14) .^ znth w (t - 16)).

Definition words (m : list Z) (n : nat) : list Z := for_ 0 n (fun t w => w ++ [next_word m t w]) [].
Definition W (m : list Z) (t : Z) : Z := znth (words m 80) t.

Definition hash : Type := Z * Z * Z * Z * Z.

Definition round (w : Z -> Z) (t : Z) (h : hash) : hash :=
  let '(a, b, c, d, e) := h in
  (u32 (rotl 5 a + fips_f t b c d + e + fips_K t + w t), a, rotl 30 b, c, d).

Definition compress (m : list Z) (h : hash) : hash :=
  let '(a, b, c, d, e) := for_ 0 80 (round (W m)) h in
  let '(a0, b0, c0, d0, e0) := h in
  (u32 (a0 + a), u32 (b0 + b), u32 (c0 + c), u32 (d0 + d), u32 (e0 + e)).

(** ** The schedule *)

Lemma words_succ m n : words m (S n) = words m n ++ [next_word m (Z.of_nat n) (words m n)].
Proof. unfold words. rewrite for_succ. by rewrite Z.add_0_l. Qed.

Lemma length_words m n : length (words m n) = n.
Proof. induction n as [|n IH]; [done|]. rewrite words_succ, length_app, IH. simpl. lia. Qed.

Lemma words_prefix m n k t : 0 <= t < Z.of_nat n -> znth (words m (n + k)) t = znth (words m n) t.
Proof.
  intros Ht. induction k as [|k IH]; [by rewrite Nat.add_0_r|].
  replace (n + S k)%nat with (S (n + k)) by lia. rewrite words_succ, znth_app_l by (rewrite length_words; lia).
  done.
Qed.

(** The words satisfy the equations of the standard. *)
Lemma W_eq m t : 0 <= t < 80 ->
  W m t = if t <? 16 then word m t else rotl 1 (W m (t - 3) .^ W m (t - 8) .^ W m (t - 14) .^ W m (t - 16)).
Proof.
  intros Ht. set (n := Z.to_nat t).
  assert (Hw : forall j, 0 <= j < t -> znth (words m n) j = W m j).
  { intros j Hj. unfold W. replace 80%nat with (n + (80 - n))%nat by lia. rewrite words_prefix; [done|lia]. }
  assert (E : W m t = znth (words m (S n)) t).
  { unfold W. replace 80%nat with (S n + (80 - S n))%nat by lia. rewrite words_prefix; [done|lia]. }
  rewrite E, words_succ, znth_app_r; rewrite length_words; [|lia].
  replace (t - Z.of_nat n) with 0 by lia. change (znth [?x] 0) with x. unfold next_word.
  replace (Z.of_nat n) with t by lia. destruct (Z.ltb_spec t 16); [done|]. by rewrite !Hw by lia.
Qed.

(** ** The operators of the code *)

Lemma land_u32 x : x .& 0xffffffff = u32 x.
Proof. change 0xffffffff with (Z.ones 32). by rewrite Z.land_ones. Qed.

Lemma ROTATE_rotl a n : ROTATE a n = rotl n a.
Proof. unfold ROTATE, rotl. by rewrite land_u32. Qed.

Ltac bit_identity :=
  apply Z.bits_inj'; intros i Hi;
  rewrite ?Z.lxor_spec, ?Z.land_spec, ?Z.lor_spec, ?Z.lnot_spec, ?Z.lxor_spec, ?Z.land_spec, ?Z.lor_spec by lia;
  btauto.

Lemma F_00_19_Ch b c d : F_00_19 b c d = Ch b c d.
Proof. unfold F_00_19, Ch. bit_identity. Qed.

Lemma F_40_59_Maj b c d : F_40_59 b c d = Maj b c d.
Proof. unfold F_40_59, Maj. bit_identity. Qed.

Lemma lxor_rev a b c d : a .^ b .^ c .^ d = d .^ c .^ b .^ a.
Proof. bit_identity. Qed.

Lemma u32_add_l x y : u32 (u32 x + y) = u32 (x + y).
Proof. apply Zplus_mod_idemp_l. Qed.

Lemma host_c2l_word m t :
  bytes m -> 0 <= t -> host_c2l (drop (Z.to_nat (4 * t)) m) = word m t.
Proof.
  intros Hb Ht. unfold host_c2l, word.
  assert (Hd : forall i, 0 <= i -> znth (drop (Z.to_nat (4 * t)) m) i = znth m (4 * t + i)).
  { intros i Hi. rewrite !znth_lookup, lookup_drop by lia. do 2 f_equal. lia. }
  rewrite !Hd, pack4_shifts_lor, Z.add_0_r by (lia || apply znth_bytes; done). done.
Qed.

(** ** The circular buffer [X] *)

(** [k] words are loaded and [t] rounds are done: the cells hold the last 16 words. *)
Definition holds (m xs : list Z) (k t : Z) : Prop :=
  length xs = 16%nat /\ forall j, t - 16 <= j -> 0 <= j < Z.max k t -> znth xs (j mod 16) = W m j.

Lemma holds_update m xs t :
  16 <= t < 80 -> holds m xs 16 t ->
  Xupdate (znth xs (t mod 16)) (znth xs ((t + 2) mod 16)) (znth xs ((t + 8) mod 16)) (znth xs ((t + 13) mod 16)) =
    W m t /\ holds m (zset xs (t mod 16) (W m t)) 16 (t + 1).
Proof.
  intros Ht [Hl Hx]. split.
  - assert (Hw : forall d, 1 <= d <= 16 -> znth xs ((t - d) mod 16) = W m (t - d)) by (intros; apply Hx; lia).
    assert (Hm : forall i d, i + d = 16 -> (t + i) mod 16 = (t - d) mod 16).
    { intros i d Hid. replace (t + i) with (t - d + 1 * 16) by lia. apply Z.mod_add. lia. }
    rewrite (Hm 2 14), (Hm 8 8), (Hm 13 3), !Hw by lia.
    replace (t mod 16) with ((t - 16) mod 16) by (rewrite <- (Hm 0 16) by lia; f_equal; lia). rewrite Hw by lia.
    unfold Xupdate. rewrite ROTATE_rotl, (W_eq m t) by lia. rewrite (proj2 (Z.ltb_ge t 16)) by lia.
    by rewrite lxor_rev.
  - split; [by rewrite length_zset|]. intros j Hj1 Hj2.
    destruct (Z.eq_dec j t) as [->|Hne].
    + apply znth_zset_eq. rewrite Hl. pose proof (Z.mod_pos_bound t 16). lia.
    + rewrite znth_zset_ne; [apply Hx; lia|apply Z.mod_pos_bound; lia..|]. intros Heq.
      Z.div_mod_to_equations. lia.
Qed.

Lemma holds_load m xs k t :
  0 <= k < 16 -> t <= 16 -> holds m xs k t -> bytes m ->
  holds m (zset xs k (host_c2l (drop (Z.to_nat (4 * k)) m))) (k + 1) t.
Proof.
  intros Hk Ht [Hl Hx] Hb. split; [by rewrite length_zset|]. intros j Hj1 Hj2.
  rewrite host_c2l_word by (done || lia). rewrite Z.mod_small by (destruct (Z.le_gt_cases 16 j); lia).
  destruct (Z.eq_dec j k) as [->|Hne].
  - rewrite znth_zset_eq by (rewrite Hl; lia). rewrite W_eq by lia. by rewrite (proj2 (Z.ltb_lt k 16)) by lia.
  - rewrite znth_zset_ne by lia. rewrite <- (Hx j) by lia. f_equal. rewrite Z.mod_small; lia.
Qed.

(** ** Rounds *)

Definition rounds (m : list Z) (t : Z) (h : hash) : hash := for_ 0 (Z.to_nat t) (round (W m)) h.

Lemma rounds_succ m t h : 0 <= t -> rounds m (t + 1) h = round (W m) t (rounds m t h).
Proof.
  intros Ht. unfold rounds. replace (Z.to_nat (t + 1)) with (S (Z.to_nat t)) by lia.
  rewrite for_succ. f_equal. lia.
Qed.

Lemma compress_rounds m h :
  compress m h =
    let '(a, b, c, d, e) := rounds m 80 h in
    let '(a0, b0, c0, d0, e0) := h in
    (u32 (a0 + a), u32 (b0 + b), u32 (c0 + c), u32 (d0 + d), u32 (e0 + e)).
Proof. unfold compress, rounds. by replace (Z.to_nat 80) with 80%nat by reflexivity. Qed.

(** One round with the operators of the code. *)
Definition code_round (k : Z) (F : Z -> Z -> Z -> Z) (x : Z) (h : hash) : hash :=
  let '(a, b, c, d, e) := h in (u32 (x + e + k + ROTATE a 5 + F b c d), a, ROTATE b 30, c, d).

(** The constant and the function that belong to round [t]. *)
Definition constants (t : Z) : Z * (Z -> Z -> Z -> Z) :=
  if t <? 20 then (K_00_19, F_00_19) else if t <? 40 then (K_20_39, F_20_39)
  else if t <? 60 then (K_40_59, F_40_59) else (K_60_79, F_60_79).

Ltac constants_at t :=
  unfold constants; destruct (Z.ltb_spec t 20), (Z.ltb_spec t 40), (Z.ltb_spec t 60); (done || lia).

Lemma code_round_fips w t h :
  code_round (constants t).1 (constants t).2 (w t) h = round w t h.
Proof.
  destruct h as [[[[a b] c] d] e]. unfold code_round, round. rewrite !ROTATE_rotl.
  replace ((constants t).2 b c d) with (fips_f t b c d).
  - replace ((constants t).1) with (fips_K t); [do 5 f_equal; lia|].
    unfold fips_K, constants. by repeat destruct (_ <? _).
  - unfold fips_f, constants. repeat destruct (_ <? _); cbn [snd]; by rewrite ?F_00_19_Ch, ?F_40_59_Maj.
Qed.

(** ** The unrolled form *)

(** The register that has part [k] (0 is [a], 5 is the new value) in round [t]. *)
Definition role (t k : Z) : reg := nth (Z.to_nat ((k - t) mod 6)) [A; B; C; D; E; T] A.

Definition view (t : Z) (r : regs) : hash :=
  (get r (role t 0), get r (role t 1), get r (role t 2), get r (role t 3), get r (role t 4)).

Lemma role_mod t k : role t k = role (t mod 6) k.
Proof. unfold role. by rewrite Zminus_mod_idemp_r. Qed.

Lemma view_mod t r : view t r = view (t mod 6) r.
Proof. unfold view. by rewrite !(role_mod t). Qed.

Lemma mod6_cases t (P : Z -> Prop) : P 0 -> P 1 -> P 2 -> P 3 -> P 4 -> P 5 -> P (t mod 6).
Proof.
  intros. pose proof (Z.mod_pos_bound t 6).
  assert (t mod 6 = 0 \/ t mod 6 = 1 \/ t mod 6 = 2 \/ t mod 6 = 3 \/ t mod 6 = 4 \/ t mod 6 = 5)
    as [-> | [-> | [-> | [-> | [-> | ->]]]]] by lia; done.
Qed.

(** The macro does one round, and moves the parts to the next registers; what the
    register of the new value held before does not matter. *)
Lemma body_round k F r t x y :
  view (t + 1) (body k F (put r (role t 5) y) (role t 0) (role t 1) (role t 2) (role t 3) (role t 4) (role t 5) x) =
  code_round k F x (view t r).
Proof.
  rewrite (view_mod (t + 1)), (view_mod t), !(role_mod t).
  replace ((t + 1) mod 6) with ((t mod 6 + 1) mod 6) by (apply Zplus_mod_idemp_l).
  apply (mod6_cases t (fun u => view ((u + 1) mod 6) (body k F (put r (role u 5) y) (role u 0) (role u 1)
    (role u 2) (role u 3) (role u 4) (role u 5) x) = code_round k F x (view u r))); reflexivity.
Qed.

Lemma put_same t r : put r (role t 5) (get r (role t 5)) = r.
Proof.
  rewrite (role_mod t). apply (mod6_cases t (fun u => put r (role u 5) (get r (role u 5)) = r)); by destruct r.
Qed.

(** The state after [k] loads and [t] rounds. *)
Definition reached (m : list Z) (h : hash) (k t : Z) (s : bstate) : Prop :=
  view t s.(rs) = rounds m t h /\ holds m s.(xs) k t /\ s.(rest) = drop (Z.to_nat (4 * k)) m.

Definition regs_at (t : Z) (l : list reg) : bool :=
  bool_decide (l = [role t 0; role t 1; role t 2; role t 3; role t 4; role t 5]).

Definition cells_at (t : Z) (l : list Z) : bool :=
  bool_decide (l = [t mod 16; (t + 2) mod 16; (t + 8) mod 16; (t + 13) mod 16]).

(** Does line [l] do the right thing after [k] loads and [t] rounds, and what are
    they afterwards? *)
Definition schedule (l : line) (k t : Z) : bool * Z * Z :=
  let late lo hi := (k =? 16) && (lo <=? t) && (t <? hi) in
  match l with
  | HOST_c2l x => ((x =? k) && (0 <=? k) && (k <? 16) && (t <=? 16), k + 1, t)
  | BODY_00_15 a b c d e f xi =>
      (regs_at t [a; b; c; d; e; f] && (xi =? t) && (0 <=? t) && (t <? k) && (k <=? 16), k, t + 1)
  | BODY_16_19 a b c d e f xi xa xb xc xd =>
      (regs_at t [a; b; c; d; e; f] && (xi =? xa) && cells_at t [xa; xb; xc; xd] && late 16 20, k, t + 1)
  | BODY_20_31 a b c d e f xi xa xb xc xd =>
      (regs_at t [a; b; c; d; e; f] && (xi =? xa) && cells_at t [xa; xb; xc; xd] && late 20 40, k, t + 1)
  | BODY_32_39 a b c d e f xa xb xc xd =>
      (regs_at t [a; b; c; d; e; f] && (xa =? xa) && cells_at t [xa; xb; xc; xd] && late 20 40, k, t + 1)
  | BODY_40_59 a b c d e f xa xb xc xd =>
      (regs_at t [a; b; c; d; e; f] && (xa =? xa) && cells_at t [xa; xb; xc; xd] && late 40 60, k, t + 1)
  | BODY_60_79 a b c d e f xa xb xc xd =>
      (regs_at t [a; b; c; d; e; f] && (xa =? xa) && cells_at t [xa; xb; xc; xd] && late 60 80, k, t + 1)
  end.

Fixpoint schedule_all (ls : list line) (k t : Z) : bool * Z * Z :=
  match ls with
  | [] => (true, k, t)
  | l :: ls =>
      let '(ok, k, t) := schedule l k t in
      let '(oks, k, t) := schedule_all ls k t in
      (ok && oks, k, t)
  end.

Lemma body_x_reached m h t k F s a b c d e f xi xa xb xc xd :
  constants t = (k, F) -> regs_at t [a; b; c; d; e; f] && (xi =? xa) && cells_at t [xa; xb; xc; xd] = true ->
  16 <= t < 80 -> reached m h 16 t s ->
  reached m h 16 (t + 1) (body_x k F s a b c d e f xi xa xb xc xd).
Proof.
  intros Hc0 Hok Ht (Hv & Hx & Hr). apply andb_prop in Hok as [Hok Hc%bool_decide_eq_true].
  apply andb_prop in Hok as [Hg%bool_decide_eq_true ->%Z.eqb_eq].
  injection Hg as -> -> -> -> -> ->. injection Hc as -> -> -> ->.
  destruct (holds_update m s.(xs) t Ht Hx) as [Hw Hx'].
  unfold body_x. rewrite Hw. split; [|split]; [|done|done]. cbn [rs].
  rewrite body_round, Hv, rounds_succ, <- code_round_fips, Hc0 by lia. done.
Qed.

Lemma exec_reached m h l k t s :
  bytes m -> (schedule l k t).1.1 = true -> reached m h k t s ->
  reached m h (schedule l k t).1.2 (schedule l k t).2 (exec s l).
Proof.
  intros Hb Hok Hs.
  assert (Hlate : forall c lo hi, c && ((k =? 16) && (lo <=? t) && (t <? hi)) = true ->
    c = true /\ k = 16 /\ lo <= t < hi).
  { intros c lo hi Hand. apply andb_prop in Hand as [-> Hand].
    apply andb_prop in Hand as [Hand ?]. apply andb_prop in Hand as [? ?]. lia. }
  destruct l; cbn [schedule fst snd] in *.
  3-7: apply Hlate in Hok as (Hok & -> & Ht); eapply body_x_reached; [|exact Hok|lia|done];
    constants_at t.
  - repeat (apply andb_prop in Hok as [Hok ?]). destruct Hs as (Hv & Hx & Hr).
    replace x with k by lia. split; [|split]; [done|..]; cbn [exec xs rest].
    + rewrite Hr. apply holds_load; (done || lia).
    + rewrite Hr, drop_drop. f_equal. lia.
  - repeat (apply andb_prop in Hok as [Hok ?]). apply bool_decide_eq_true in Hok.
    injection Hok as -> -> -> -> -> ->. destruct Hs as (Hv & Hx & Hr).
    split; [|split]; cbn [exec xs rest rs]; [|split; [apply Hx|]|done].
    + rewrite <- (put_same t s.(rs)) at 1. rewrite body_round, Hv, rounds_succ by lia.
      replace (znth (xs s) xi) with (W m t).
      2: { replace xi with (t mod 16) by (rewrite Z.mod_small; lia). symmetry. apply Hx; lia. }
      rewrite <- code_round_fips. unfold constants. by rewrite (proj2 (Z.ltb_lt t 20)) by lia.
    + intros j Hj1 Hj2. apply Hx; lia.
Qed.

(** By computation: the lines are 16 loads and 80 rounds in the right order. *)
Lemma unrolled_schedule : schedule_all unrolled 0 0 = (true, 16, 80).
Proof. vm_compute. reflexivity. Qed.

Lemma schedule_reached m h ls : bytes m -> forall k t s,
  (schedule_all ls k t).1.1 = true -> reached m h k t s ->
  reached m h (schedule_all ls k t).1.2 (schedule_all ls k t).2 (fold_left exec ls s).
Proof.
  intros Hb. induction ls as [|l ls IH]; intros k t s Hok Hs; [done|]. cbn [schedule_all fold_left] in *.
  pose proof (exec_reached m h l k t s Hb) as He.
  destruct (schedule l k t) as [[ok k1] t1] eqn:E1. destruct (schedule_all ls k1 t1) as [[oks k2] t2] eqn:E2.
  cbn [fst snd] in *. apply andb_prop in Hok as [-> ->].
  specialize (IH k1 t1 (exec s l)). rewrite E2 in IH. apply IH; [done|]. by apply He.
Qed.

Definition hash_of (c : SHA_CTX) : hash := (c.(h0), c.(h1), c.(h2), c.(h3), c.(h4)).

(** What a block does to the rest of the context: nothing. *)
Definition same_rest (c c' : SHA_CTX) : Prop :=
  c'.(Nl) = c.(Nl) /\ c'.(Nh) = c.(Nh) /\ c'.(sha_data) = c.(sha_data) /\ c'.(sha_num) = c.(sha_num).

Lemma start_reached m c :
  reached m (hash_of c) 0 0 (Bstate m (repeat 0 16) (Regs c.(h0) c.(h1) c.(h2) c.(h3) c.(h4) 0)).
Proof. split; [done|]. split; [|done]. split; [done|]. lia. Qed.

Lemma unrolled_reached m h s :
  bytes m -> reached m h 0 0 s -> reached m h 16 80 (fold_left exec unrolled s).
Proof.
  intros Hb Hs. pose proof (schedule_reached m h unrolled Hb 0 0 s) as H.
  rewrite unrolled_schedule in H. by apply H.
Qed.

(** The sums at the end of a block. *)
Lemma add_hash c m a b d e f :
  rounds m 80 (hash_of c) = (a, b, d, e, f) ->
  hash_of (set_h ((c.(h0) + a) .& 0xffffffff) ((c.(h1) + b) .& 0xffffffff) ((c.(h2) + d) .& 0xffffffff)
    ((c.(h3) + e) .& 0xffffffff) ((c.(h4) + f) .& 0xffffffff) c) = compress m (hash_of c).
Proof. intros Hr. rewrite compress_rounds, Hr. unfold hash_of, set_h. cbn [h0 h1 h2 h3 h4]. by rewrite !land_u32. Qed.

Lemma block_unrolled_fips c m :
  bytes m -> hash_of (block_unrolled c m) = compress m (hash_of c) /\ same_rest c (block_unrolled c m).
Proof.
  intros Hb. destruct (unrolled_reached _ _ _ Hb (start_reached m c)) as [Hv _].
  unfold block_unrolled. revert Hv. generalize (fold_left exec unrolled).
  intros f Hv. split; [|clear Hv; repeat split]. apply add_hash. rewrite <- Hv. reflexivity.
Qed.

(** ** The small form *)

Definition view5 (r : regs) : hash := (r.(rA), r.(rB), r.(rC), r.(rD), r.(rE)).

(** The state after [t] rounds. *)
Definition reached5 (m : list Z) (h : hash) (t : Z) (s : bstate) : Prop :=
  view5 s.(rs) = rounds m t h /\ holds m s.(xs) (Z.min 16 t) t /\ s.(rest) = drop (Z.to_nat (4 * Z.min 16 t)) m.

Lemma shift5_round k F r v x y :
  u32 (v + y) = u32 (x + r.(rE) + k + F r.(rB) r.(rC) r.(rD)) ->
  view5 (shift5 r (u32 v) y) = code_round k F x (view5 r).
Proof.
  intros Hv. unfold view5, shift5, code_round. cbn [rA rB rC rD rE]. do 4 f_equal.
  replace (ROTATE (rA r) 5 + u32 v + y) with (u32 v + (y + ROTATE (rA r) 5)) by lia.
  rewrite u32_add_l, Z.add_assoc, <- u32_add_l, Hv, u32_add_l. f_equal. lia.
Qed.

Lemma small_00_15_reached m h t s :
  bytes m -> 0 <= t < 16 -> reached5 m h t s -> reached5 m h (t + 1) (small_00_15 t s).
Proof.
  intros Hb Ht (Hv & Hx & Hr). rewrite Z.min_r in * by lia. unfold reached5. rewrite Z.min_r by lia.
  assert (Hw : host_c2l s.(rest) = W m t).
  { rewrite Hr, host_c2l_word, W_eq by (done || lia). by rewrite (proj2 (Z.ltb_lt t 16)) by lia. }
  unfold small_00_15. cbn [rs xs rest]. split; [|split].
  - rewrite (shift5_round K_00_19 F_00_19 _ _ (W m t)) by (rewrite Hw; f_equal; lia).
    rewrite Hv, rounds_succ, <- code_round_fips by lia. unfold constants.
    by rewrite (proj2 (Z.ltb_lt t 20)) by lia.
  - rewrite Hr. destruct (holds_load m s.(xs) t t) as [Hl Hx']; [lia|lia|done|done|].
    split; [done|]. intros j Hj1 Hj2. apply Hx'; lia.
  - rewrite Hr, drop_drop. f_equal. lia.
Qed.

(** A round that updates [X]; [f] is one of the two macros for it. *)
Lemma small_update_reached m h t k F s v y :
  16 <= t < 80 -> reached5 m h t s -> constants t = (k, F) ->
  u32 (v + y) = u32 (W m t + s.(rs).(rE) + k + F s.(rs).(rB) s.(rs).(rC) s.(rs).(rD)) ->
  reached5 m h (t + 1) (Bstate s.(rest) (zset s.(xs) (t mod 16) (W m t)) (shift5 s.(rs) (u32 v) y)).
Proof.
  intros Ht (Hv & Hx & Hr) Hc Hu. unfold reached5. rewrite Z.min_l in * by lia. cbn [rs xs rest]. split; [|split].
  - rewrite (shift5_round k F _ _ (W m t)), Hv, rounds_succ, <- code_round_fips, Hc by (done || lia). done.
  - by apply holds_update.
  - done.
Qed.

Lemma land_15 x : x .& 15 = x mod 16.
Proof. change 15 with (Z.ones 4). by rewrite Z.land_ones. Qed.

Lemma list4 (a b c d a' b' c' d' : Z) :
  a = a' -> b = b' -> c = c' -> d = d' -> [a; b; c; d] = [a'; b'; c'; d'].
Proof. congruence. Qed.

Lemma small_x_reached m h t k F xa xb xc xd s :
  16 <= t < 80 -> constants t = (k, F) ->
  [xa; xb; xc; xd] = [t mod 16; (t + 2) mod 16; (t + 8) mod 16; (t + 13) mod 16] ->
  reached5 m h t s -> reached5 m h (t + 1) (small_x k F xa xb xc xd s).
Proof.
  intros Ht Hc [= -> -> -> ->] Hs. pose proof Hs as (_ & Hx & _). rewrite Z.min_l in Hx by lia.
  unfold small_x. rewrite (proj1 (holds_update m s.(xs) t Ht Hx)).
  apply (small_update_reached m h t k F); [done..|]. by rewrite Z.add_0_r.
Qed.

Lemma small_60_79_reached m h t xa xb xc xd s :
  60 <= t < 80 ->
  [xa; xb; xc; xd] = [t mod 16; (t + 2) mod 16; (t + 8) mod 16; (t + 13) mod 16] ->
  reached5 m h t s -> reached5 m h (t + 1) (small_60_79 xa xb xc xd s).
Proof.
  intros Ht [= -> -> -> ->] Hs. pose proof Hs as (_ & Hx & _). rewrite Z.min_l in Hx by lia.
  unfold small_60_79. rewrite (proj1 (holds_update m s.(xs) t ltac:(lia) Hx)).
  apply (small_update_reached m h t K_60_79 F_60_79); [lia|done|constants_at t|]. f_equal. lia.
Qed.

(** A loop of [n] rounds, the first of them round [t]. *)
Lemma small_loop m h f i n t s :
  (forall j s, i <= j < i + Z.of_nat n -> reached5 m h (j - i + t) s -> reached5 m h (j - i + t + 1) (f j s)) ->
  reached5 m h t s -> reached5 m h (t + Z.of_nat n) (for_ i n f s).
Proof.
  intros Hf Hs. pose proof (for_inv (fun j => reached5 m h (j - i + t)) f i n s) as H. cbn beta in H.
  replace (i + Z.of_nat n - i + t) with (t + Z.of_nat n) in H by lia. apply H.
  - by replace (i - i + t) with t by lia.
  - intros j u Hj Hu. replace (j + 1 - i + t) with (j - i + t + 1) by lia. by apply Hf.
Qed.

Lemma small_loops_reached m h s : bytes m -> reached5 m h 0 s -> reached5 m h 80 (small_loops s).
Proof.
  intros Hb H0. unfold small_loops.
  apply (small_loop m h _ 4 20 60).
  { intros i u Hi Hu. replace (i - 4 + 60) with (i + 56) in * by lia.
    apply small_60_79_reached; [lia| |done]. apply list4; rewrite ?land_15; Z.div_mod_to_equations; lia. }
  apply (small_loop m h _ 0 20 40).
  { intros i u Hi Hu. replace (i - 0 + 40) with (i + 40) in * by lia.
    apply small_x_reached; [lia|constants_at (i + 40)| |done].
    apply list4; rewrite ?land_15; Z.div_mod_to_equations; lia. }
  apply (small_loop m h _ 4 20 20).
  { intros i u Hi Hu. replace (i - 4 + 20) with (i + 16) in * by lia.
    apply small_x_reached; [lia|constants_at (i + 16)| |done].
    apply list4; rewrite ?land_15; Z.div_mod_to_equations; lia. }
  apply (small_loop m h _ 0 4 16).
  { intros i u Hi Hu. replace (i - 0 + 16) with (i + 16) in * by lia.
    apply small_x_reached; [lia|constants_at (i + 16)| |done].
    apply list4; rewrite ?land_15; Z.div_mod_to_equations; lia. }
  apply (small_loop m h _ 0 16 0); [|done].
  intros i u Hi Hu. rewrite Z.sub_0_r, Z.add_0_r in *. by apply small_00_15_reached.
Qed.

Lemma block_small_fips c m :
  bytes m -> hash_of (block_small c m) = compress m (hash_of c) /\ same_rest c (block_small c m).
Proof.
  intros Hb. destruct (small_loops_reached m (hash_of c)
    (Bstate m (repeat 0 16) (Regs c.(h0) c.(h1) c.(h2) c.(h3) c.(h4) 0)) Hb) as [Hv _].
  { split; [done|]. split; [|done]. split; [done|]. lia. }
  unfold block_small. revert Hv. generalize small_loops.
  intros f Hv. split; [|clear Hv; repeat split]. apply add_hash. rewrite <- Hv. reflexivity.
Qed.
