(* ===== verification/Sha1Stream.v ===== *)
(** * Sha1Stream: SHA-1 of a message given in pieces

    The hash function as FIPS 180 defines it ([fips_sha1]: padding, blocks, digest),
    and the proof that the context of OpenSSL represents the message so far: any
    sequence of [SHA1_Update] and a [SHA1_Final] give the hash of the concatenation. *)

From S2P Require Import Prelude Sha1 Sha1Block.

(** ** FIPS 180 *)

Definition fips_H0 : hash := (0x67452301, 0xefcdab89, 0x98badcfe, 0x10325476, 0xc3d2e1f0).

(** The big-endian bytes of a 32-bit word and of a 64-bit one. *)
Definition word_bytes (x : Z) : list Z := [byte_at x 24; byte_at x 16; byte_at x 8; byte_at x 0].
Definition length_bytes (x : Z) : list Z := word_bytes (x / 2 ^ 32) ++ word_bytes x.

(** The message, a one bit, zeros, and the length in bits. *)
Definition pad (m : list Z) : list Z :=
  m ++ [0x80] ++ repeat 0 (Z.to_nat ((55 - zlen m) mod 64)) ++ length_bytes (8 * zlen m).

(** The first [n] blocks of [l], with a compression function [f]. *)
Fixpoint blocks_hash (f : list Z -> hash -> hash) (n : nat) (h : hash) (l : list Z) : hash :=
  match n with
  | O => h
  | S n => blocks_hash f n (f (take 64 l) h) (drop 64 l)
  end.

Definition digest (h : hash) : list Z :=
  let '(a, b, c, d, e) := h in word_bytes a ++ word_bytes b ++ word_bytes c ++ word_bytes d ++ word_bytes e.

Definition fips_sha1 (m : list Z) : list Z :=
  digest (blocks_hash compress (length (pad m) / 64) fips_H0 (pad m)).

(** ** Blocks *)

Section Stream.

(** The functions below use the compression function as a black box: [f] is what
    the code does to the five words. *)
Context (b : build) (f : list Z -> hash -> hash).
Hypothesis block_is : forall c m, bytes m -> hash_of (block b c m) = f m (hash_of c) /\ same_rest c (block b c m).


Lemma blocks_hash_app n k h l l' :
  length l = (64 * n)%nat -> blocks_hash f (n + k) h (l ++ l') = blocks_hash f k (blocks_hash f n h l) l'.
Proof.
  revert h l. induction n as [|n IH]; intros h l Hl.
  - destruct l; [done|discriminate].
  - cbn [Nat.add blocks_hash]. rewrite take_app_le, drop_app_le by lia. apply IH. rewrite length_drop. lia.
Qed.

Lemma blocks_hash_snoc n h l x : length l = (64 * n)%nat -> length x = 64%nat ->
  blocks_hash f (S n) h (l ++ x) = f x (blocks_hash f n h l).
Proof.
  intros Hl Hx. rewrite <- Nat.add_1_r, blocks_hash_app by done. cbn [blocks_hash].
  by rewrite take_ge by lia.
Qed.

Lemma blocks_hash_take n h l : (64 * n <= length l)%nat -> blocks_hash f n h (take (64 * n) l) = blocks_hash f n h l.
Proof.
  intros Hn. rewrite <- (take_drop (64 * n) l) at 2. rewrite <- (Nat.add_0_r n) at 3.
  rewrite blocks_hash_app; [done|]. rewrite length_take. lia.
Qed.

Lemma same_rest_trans c c1 c2 : same_rest c c1 -> same_rest c1 c2 -> same_rest c c2.
Proof. unfold same_rest. intuition congruence. Qed.

Lemma block_loop_run n : forall c p,
  bytes p -> (64 * S n <= length p)%nat ->
  exists c', block_loop b n c p = Ret c' /\ hash_of c' = blocks_hash f (S n) (hash_of c) p /\ same_rest c c'.
Proof.
  induction n as [|n IH]; intros c p Hb Hp; cbn [block_loop];
    rewrite (proj2 (Z.ltb_ge (zlen p) _)) by (unfold zlen, SHA_CBLOCK; lia);
    destruct (block_is c (take 64 p)) as [Hh Hr]; try (by apply Forall_take).
  - eexists. split_and!; [done| |done]. by rewrite Hh.
  - destruct (IH (block b c (take 64 p)) (drop 64 p)) as (c' & E & Hh' & Hr').
    + by apply Forall_drop.
    + rewrite length_drop. lia.
    + exists c'. split_and!; [done| |by eapply same_rest_trans]. by rewrite Hh', Hh.
Qed.

Lemma block_order_run c p n :
  bytes p -> 0 < n -> 64 * n <= zlen p ->
  exists c', sha1_block_data_order b c p n = Ret c' /\
    hash_of c' = blocks_hash f (Z.to_nat n) (hash_of c) p /\ same_rest c c'.
Proof.
  intros Hb Hn Hp. unfold sha1_block_data_order. rewrite (proj2 (Z.eqb_neq n 0)) by lia.
  replace (Z.to_nat n) with (S (Z.to_nat (n - 1))) by lia. apply block_loop_run; [done|].
  unfold zlen in Hp. lia.
Qed.

(** One block of exactly 64 bytes. *)
Lemma block_one_run c p :
  bytes p -> zlen p = 64 ->
  exists c', sha1_block_data_order b c p 1 = Ret c' /\ hash_of c' = f p (hash_of c) /\ same_rest c c'.
Proof.
  intros Hb Hp. destruct (block_order_run c p 1) as (c' & E & Hh & Hr); [done|lia|lia|].
  exists c'. split_and!; [done| |done]. rewrite Hh. change (Z.to_nat 1) with 1%nat. cbn [blocks_hash].
  by rewrite take_ge by (unfold zlen in Hp; lia).
Qed.

(** ** The invariant of the context *)

(** The context has hashed the [n] blocks [l] and keeps the bytes [t] behind them. *)
Record absorbs (c : SHA_CTX) (n : nat) (l t : list Z) : Prop := Absorbs {
  ab_blocks : length l = (64 * n)%nat;
  ab_rest : zlen t < 64;
  ab_bytes : bytes l /\ bytes t;
  ab_hash : hash_of c = blocks_hash f n fips_H0 l;
  ab_num : c.(sha_num) = zlen t;
  ab_data : exists z, c.(sha_data) = t ++ z /\ bytes z /\ zlen (t ++ z) = 64
}.

Definition absorbed (c : SHA_CTX) (m : list Z) : Prop := exists n l t, absorbs c n l t /\ m = l ++ t.

(** It counts [n] bytes. *)
Definition counted (c : SHA_CTX) (n : Z) : Prop :=
  0 <= c.(Nl) < 2 ^ 32 /\ 0 <= c.(Nh) < 2 ^ 32 /\ 2 ^ 32 * c.(Nh) + c.(Nl) = 8 * n.

Definition represents (c : SHA_CTX) (m : list Z) : Prop := absorbed c m /\ counted c (zlen m).

Lemma SHA1_Init_represents c :
  bytes c.(sha_data) -> zlen c.(sha_data) = 64 -> represents (SHA1_Init c) [].
Proof.
  intros Hb Hl. split; [|by repeat split]. exists 0%nat, [], []. split; [|done].
  split; [done..|]. by exists c.(sha_data).
Qed.

(** ** [SHA1_Update] *)

Lemma count_bits_counted c n len :
  counted c n -> 0 <= len < 2 ^ 32 -> 0 <= n -> 8 * (n + len) < 2 ^ 64 ->
  counted (count_message_bits c len) (n + len).
Proof.
  intros (Hl & Hh & Hs) Hlen Hn Hmax. unfold counted, count_message_bits, set_counts. cbn [Nl Nh].
  rewrite land_u32. unfold u32. rewrite Z.shiftl_mul_pow2, Z.shiftr_div_pow2 by lia.
  change (2 ^ 29) with 536870912. change (2 ^ 3) with 8.
  change (2 ^ 32) with 4294967296 in *. change (2 ^ 64) with 18446744073709551616 in *.
  set (l := (Nl c + (len * 8) mod 4294967296) mod 4294967296).
  assert (Hc : (if l <? Nl c then (Nh c + 1) mod 4294967296 else Nh c) =
    (Nh c + (Nl c + (len * 8) mod 4294967296) / 4294967296)).
  { unfold l. destruct (Z.ltb_spec ((Nl c + (len * 8) mod 4294967296) mod 4294967296) (Nl c));
      Z.div_mod_to_equations; lia. }
  rewrite Hc. split_and!; try (subst l; Z.div_mod_to_equations; lia).
Qed.

(** The part of the context that [absorbs] looks at. *)
Lemma absorbs_ext c c' n l t :
  absorbs c n l t -> hash_of c' = hash_of c -> c'.(sha_num) = c.(sha_num) -> c'.(sha_data) = c.(sha_data) ->
  absorbs c' n l t.
Proof. intros [? ? ? ? ? ?] Hh Hn Hd. split; rewrite ?Hh, ?Hn, ?Hd; done. Qed.

(** More whole blocks. *)
Lemma absorbs_blocks c c1 n l x k :
  absorbs c n l [] -> bytes x -> length x = (64 * k)%nat ->
  hash_of c1 = blocks_hash f k (hash_of c) x -> same_rest c c1 -> absorbs c1 (n + k) (l ++ x) [].
Proof.
  intros [H1 H2 [H3 _] H4 H5 H6] Hb Hx Hh (_ & _ & R3 & R4).
  split; [rewrite length_app; lia|done|split; [by apply Forall_app|done]| |congruence|by rewrite R3].
  by rewrite blocks_hash_app, Hh, H4.
Qed.

(** Bytes that are kept: [n + k] of them are in the buffer afterwards. *)
Lemma absorbs_keep c n l t y :
  absorbs c n l t -> bytes y -> zlen t + zlen y < 64 ->
  exists d, buf_write c.(sha_data) (zlen t) y = Ret d /\ absorbs (set_buffer d (zlen t + zlen y) c) n l (t ++ y).
Proof.
  intros [H1 H2 [H3 H3'] H4 H5 (z & Hz & Hbz & Hl)] Hb Hy. rewrite zlen_app in Hl.
  pose proof (zlen_nonneg t). pose proof (zlen_nonneg y).
  rewrite Hz, buf_write_at by lia. eexists. split; [done|].
  split; cbn [sha_data sha_num set_buffer]; [done|by rewrite zlen_app|split; [done|by apply Forall_app]|done|
    by rewrite zlen_app|].
  exists (drop (length y) z). split_and!.
  - by rewrite <- app_assoc.
  - by apply Forall_drop.
  - rewrite !zlen_app, zlen_drop. unfold zlen in *. lia.
Qed.

(** [n = len / 64] blocks of [d]. *)
Lemma blocks_run c d len n :
  bytes d -> 0 <= n -> 64 * n <= zlen d ->
  exists c1, (if 0 <? n then
      do c <- sha1_block_data_order b c d n; Ret (c, drop (Z.to_nat (n * 64)) d, len - n * 64)
    else Ret (c, d, len)) = Ret (c1, drop (Z.to_nat (n * 64)) d, len - n * 64) /\
    hash_of c1 = blocks_hash f (Z.to_nat n) (hash_of c) (take (64 * Z.to_nat n) d) /\ same_rest c c1.
Proof.
  intros Hb Hn Hd. rewrite blocks_hash_take by (unfold zlen in Hd; lia). destruct (Z.ltb_spec 0 n) as [Hpos|Hz0].
  - destruct (block_order_run c d n) as (c1 & E & H1 & H2); [done|done|lia|]. exists c1. by rewrite E.
  - replace n with 0 by lia. exists c. by rewrite Z.sub_0_r.
Qed.

(** Whole blocks of [d] go to the hash, the rest is kept. *)
Lemma update_blocks_run c n l d len :
  absorbs c n l [] -> bytes d -> 0 <= len <= zlen d ->
  exists c', update_blocks b c d len = Ret c' /\ absorbed c' (l ++ take (Z.to_nat len) d) /\
    c'.(Nl) = c.(Nl) /\ c'.(Nh) = c.(Nh).
Proof.
  intros Hc Hbd Hlen. unfold update_blocks, SHA_CBLOCK.
  set (k := len / 64). assert (0 <= k /\ 64 * k <= len < 64 * k + 64) as [Hk0 Hk1]
    by (unfold k; Z.div_mod_to_equations; lia).
  destruct (blocks_run c d len k) as (c1 & E & Hh & Hr); [done|done|lia|].
  set (x := take (64 * Z.to_nat k) d) in *. set (y := take (Z.to_nat (len - k * 64)) (drop (Z.to_nat (k * 64)) d)).
  assert (Hxy : take (Z.to_nat len) d = x ++ y).
  { unfold x, y. replace (64 * Z.to_nat k)%nat with (Z.to_nat (k * 64)) by lia. apply take_split. lia. }
  destruct (absorbs_blocks c c1 n l x (Z.to_nat k) Hc) as [H1 H2 H3 H4 H5 H6];
    [by apply Forall_take|unfold x; rewrite length_take; unfold zlen in Hlen; lia|done|done|].
  assert (Hc1 : absorbs c1 (n + Z.to_nat k) (l ++ x) []) by done.
  destruct Hr as (R1 & R2 & _ & _).
  rewrite E. cbn [obind]. rewrite Hxy, app_assoc. destruct (Z.eqb_spec (len - k * 64) 0) as [E0|E0]; cbn [negb].
  - exists c1. split_and!; [done| |done|done]. exists (n + Z.to_nat k)%nat, (l ++ x), []. split; [done|].
    assert (y = []) as -> by (unfold y; by rewrite E0). done.
  - rewrite (proj2 (Z.ltb_ge (zlen (drop _ d)) _)) by (rewrite zlen_drop; lia). fold y.
    assert (Hly : zlen y = len - k * 64) by (unfold y; rewrite zlen_take, zlen_drop; lia).
    destruct (absorbs_keep c1 _ _ [] y Hc1) as (d' & Ew & Hk');
      [by apply Forall_take, Forall_drop|rewrite zlen_nil; lia|].
    rewrite zlen_nil, Z.add_0_l, Hly in *. rewrite Ew. cbn [obind]. eexists. split; [done|]. split; [|done].
    by exists (n + Z.to_nat k)%nat, (l ++ x), y.
Qed.

(** Bytes that fill the buffer: the block goes to the hash. *)
Lemma absorbs_fill c n l t y :
  absorbs c n l t -> bytes y -> zlen t + zlen y = 64 ->
  exists d c1, buf_write c.(sha_data) (zlen t) y = Ret d /\
    sha1_block_data_order b (set_buffer d (zlen t) c) d 1 = Ret c1 /\
    absorbs (set_buffer (repeat 0 64) 0 c1) (S n) (l ++ t ++ y) [] /\ c1.(Nl) = c.(Nl) /\ c1.(Nh) = c.(Nh).
Proof.
  intros [H1 H2 [H3 H3'] H4 H5 (z & Hz & Hbz & Hl)] Hb Hy. rewrite zlen_app in Hl.
  rewrite Hz, buf_write_at, (drop_ge z), app_nil_r by (unfold zlen in *; lia).
  assert (Hbty : bytes (t ++ y)) by (by apply Forall_app).
  destruct (block_one_run (set_buffer (t ++ y) (zlen t) c) (t ++ y)) as (c1 & E & Hh & R1 & R2 & _);
    [done|by rewrite zlen_app|].
  exists (t ++ y), c1. split_and!; [done|done| |done|done].
  split; cbn [sha_data sha_num set_buffer]; [|done|split; [apply Forall_app; split; assumption|constructor]| |done|].
  - rewrite !length_app. unfold zlen in Hy. lia.
  - rewrite blocks_hash_snoc by (done || (rewrite length_app; unfold zlen in Hy; lia)).
    etransitivity; [exact Hh|]. by rewrite <- H4.
  - exists (repeat 0 64). split_and!; [done|apply bytes_zeros|done].
Qed.

(** The buffer is filled first, then the rest goes the same way. *)
Lemma update_fill_run c n l t d len :
  absorbs c n l t -> bytes d -> 0 <= len <= zlen d -> len < 2 ^ 32 -> 64 <= zlen t + len ->
  let k := 64 - zlen t in
  exists d' c1 c', buf_write c.(sha_data) (zlen t) (take (Z.to_nat k) d) = Ret d' /\
    sha1_block_data_order b (set_buffer d' (zlen t) c) d' 1 = Ret c1 /\
    update_blocks b (set_buffer (repeat 0 64) 0 c1) (drop (Z.to_nat k) d) (u32 (len - k)) = Ret c' /\
    absorbed c' ((l ++ t) ++ take (Z.to_nat len) d) /\ c'.(Nl) = c.(Nl) /\ c'.(Nh) = c.(Nh).
Proof.
  intros Hc Hb Hlen H32 Hge k. pose proof (ab_rest _ _ _ _ Hc). pose proof (zlen_nonneg t).
  set (y := take (Z.to_nat k) d). assert (Hy : zlen y = k) by (unfold y; rewrite zlen_take; lia).
  destruct (absorbs_fill c n l t y Hc) as (d' & c1 & E1 & E2 & Hc1 & R1 & R2); [by apply Forall_take|lia|].
  destruct (update_blocks_run _ (S n) (l ++ t ++ y) (drop (Z.to_nat k) d) (len - k) Hc1) as (c' & E & Ha & R3 & R4).
  - by apply Forall_drop.
  - rewrite zlen_drop. lia.
  - exists d', c1, c'. rewrite u32_id by (unfold is_u32; change (2 ^ 32) with 4294967296 in *; lia).
    split_and!; [done..| |by rewrite R3|by rewrite R4].
    by rewrite (take_split d k len), <- !app_assoc in * by lia.
Qed.

Lemma SHA1_Update_run c m d len :
  represents c m -> bytes d -> 0 <= len <= zlen d -> len < 2 ^ 32 - 64 -> 8 * (zlen m + len) < 2 ^ 64 ->
  exists c', SHA1_Update b c d len = Ret c' /\ represents c' (m ++ take (Z.to_nat len) d).
Proof.
  intros [(n & l & t & Hc & Hm) Hcnt] Hb Hlen H32 H64. unfold SHA1_Update.
  destruct (Z.eqb_spec len 0) as [->|Hne].
  { exists c. split; [done|]. change (Z.to_nat 0) with 0%nat. rewrite take_0, app_nil_r.
    split; [by exists n, l, t|done]. }
  pose proof (zlen_nonneg m). pose proof (zlen_nonneg t). change (2 ^ 32 - 64) with 4294967232 in H32.
  assert (Hcnt' : counted (count_message_bits c len) (zlen m + len)).
  { apply count_bits_counted; [done|change (2 ^ 32) with 4294967296; lia|lia|exact H64]. }
  assert (Hc' : absorbs (count_message_bits c len) n l t) by (by eapply absorbs_ext).
  revert Hc' Hcnt'. generalize (count_message_bits c len). clear c Hc Hcnt. intros c Hc Hcnt.
  pose proof (ab_rest _ _ _ _ Hc) as Hrest. cbn zeta. rewrite (ab_num _ _ _ _ Hc).
  set (x := take (Z.to_nat len) d). assert (Hx : zlen x = len) by (unfold x; rewrite zlen_take; lia).
  assert (Hend : forall c', absorbed c' (m ++ x) -> c'.(Nl) = c.(Nl) -> c'.(Nh) = c.(Nh) -> represents c' (m ++ x)).
  { intros c' Ha E1 E2. split; [done|]. unfold counted. by rewrite E1, E2, zlen_app, Hx. }
  assert (Hu : u32 (zlen t + len) = zlen t + len) by (apply u32_id; unfold is_u32; lia). unfold SHA_CBLOCK.
  destruct (Z.eqb_spec (zlen t) 0) as [Ht|Ht]; cbn [negb]; [|rewrite Hu; destruct (Z.leb_spec 64 (zlen t + len)) as [Hge|Hlt]].
  - assert (t = []) as -> by (apply nil_length_inv; unfold zlen in Ht; lia). rewrite app_nil_r in Hm. subst m.
    destruct (update_blocks_run c n l d len Hc Hb Hlen) as (c' & E & Ha & R1 & R2).
    exists c'. split; [done|]. by apply Hend.
  - rewrite (proj2 (Z.ltb_ge (zlen d) _)) by lia.
    destruct (update_fill_run c n l t d len Hc Hb Hlen) as (d' & c1 & c' & E1 & E2 & E3 & Ha & R1 & R2);
      [change (2 ^ 32) with 4294967296; lia|done|].
    rewrite E1. cbn [obind]. rewrite E2. cbn [obind]. exists c'. split; [done|]. apply Hend; [by subst m|done..].
  - rewrite (proj2 (Z.ltb_ge (zlen d) _)) by lia. fold x.
    destruct (absorbs_keep c n l t x Hc) as (d' & E & Hc'); [by apply Forall_take|lia|].
    rewrite E, Hx in *. cbn [obind]. eexists. split; [done|].
    apply Hend; [|done|done]. exists n, l, (t ++ x). split; [done|]. subst m. by rewrite app_assoc.
Qed.

(** ** [SHA1_Final] *)

Lemma HOST_l2c_be32 x : HOST_l2c x = word_bytes x.
Proof.
  unfold HOST_l2c, word_bytes, byte_at, u8. change 0xff with (Z.ones 8). rewrite !Z.land_ones by lia.
  by rewrite Z.shiftr_0_r.
Qed.

Lemma byte_at_low h l s :
  s = 24 \/ s = 16 \/ s = 8 \/ s = 0 -> byte_at (2 ^ 32 * h + l) s = byte_at l s.
Proof.
  unfold byte_at, u8. change (2 ^ 32) with 4294967296.
  intros [-> | [-> | [-> | ->]]]; rewrite !Z.shiftr_div_pow2 by lia;
    [change (2 ^ 24) with 16777216|change (2 ^ 16) with 65536|change (2 ^ 8) with 256|change (2 ^ 0) with 1];
    Z.div_mod_to_equations; lia.
Qed.

Lemma counts_be64 c n : counted c n -> HOST_l2c c.(Nh) ++ HOST_l2c c.(Nl) = length_bytes (8 * n).
Proof.
  intros (Hl & Hh & <-). rewrite !HOST_l2c_be32. unfold length_bytes.
  replace ((2 ^ 32 * Nh c + Nl c) / 2 ^ 32) with (Nh c) by (rewrite Z.mul_comm, Z.div_add_l, Z.div_small; lia).
  f_equal. unfold word_bytes. by rewrite !byte_at_low by (by auto).
Qed.

Lemma bytes_length_bytes x : bytes (length_bytes x).
Proof. unfold length_bytes, word_bytes. repeat constructor; apply byte_at_range. Qed.

(** The blocks that [SHA1_Final] makes of the kept bytes. *)
Definition last_blocks (t : list Z) (n : Z) : list Z :=
  t ++ [0x80] ++ repeat 0 (Z.to_nat ((55 - zlen t) mod 64)) ++ length_bytes n.

Lemma pad_split (n : nat) l t : length l = (64 * n)%nat ->
  pad (l ++ t) = l ++ last_blocks t (8 * zlen (l ++ t)).
Proof.
  intros Hl. unfold pad, last_blocks. rewrite <- app_assoc. do 3 f_equal. f_equal. f_equal. f_equal.
  rewrite zlen_app. replace (55 - (zlen l + zlen t)) with (55 - zlen t + (- Z.of_nat n) * 64) by (unfold zlen; lia).
  rewrite Z.mod_add by lia. done.
Qed.

(** Room for the length: one block. *)
Lemma last_one t n : zlen t < 56 ->
  last_blocks t n = t ++ [0x80] ++ repeat 0 (Z.to_nat (55 - zlen t)) ++ length_bytes n /\ zlen (last_blocks t n) = 64.
Proof.
  intros Ht. pose proof (zlen_nonneg t). unfold last_blocks. rewrite Z.mod_small by lia. split; [done|].
  rewrite !zlen_app, zlen_repeat. change (zlen (length_bytes n)) with 8. change (zlen [0x80]) with 1. lia.
Qed.

(** Otherwise two. *)
Lemma last_two t n : 56 <= zlen t < 64 ->
  last_blocks t n = (t ++ [0x80] ++ repeat 0 (Z.to_nat (63 - zlen t))) ++ (repeat 0 56 ++ length_bytes n) /\
  zlen (t ++ [0x80] ++ repeat 0 (Z.to_nat (63 - zlen t))) = 64.
Proof.
  intros Ht. unfold last_blocks. split.
  - replace (Z.to_nat ((55 - zlen t) mod 64)) with (Z.to_nat (63 - zlen t) + 56)%nat
      by (Z.div_mod_to_equations; lia).
    by rewrite repeat_app, <- !app_assoc.
  - rewrite !zlen_app, zlen_repeat. change (zlen [0x80]) with 1. lia.
Qed.

(** The end of [SHA1_Final]: the last block, in the array [p] with [n] bytes set. *)
Lemma final_block_run c p q z k n :
  hash_of c = blocks_hash f n fips_H0 q -> length q = (64 * n)%nat -> bytes p -> zlen p = k -> k <= 56 ->
  zlen (p ++ z) = 64 -> forall m, counted c m ->
  exists c', (do p <- buf_write (p ++ z) k (repeat 0 (Z.to_nat (56 - k)));
     do p <- buf_write p 56 (HOST_l2c c.(Nh) ++ HOST_l2c c.(Nl));
     do c <- sha1_block_data_order b c p 1;
     Ret (HASH_MAKE_STRING c, set_buffer (repeat 0 64) 0 c)) =
  Ret (digest (blocks_hash f (S n) fips_H0 (q ++ p ++ repeat 0 (Z.to_nat (56 - k)) ++ length_bytes (8 * m))), c').
Proof.
  intros Hh Hq Hb Hp Hk Hl m Hm. rewrite zlen_app in Hl. subst k.
  set (y := repeat 0 (Z.to_nat (56 - zlen p))). assert (Hy : zlen y = 56 - zlen p) by (unfold y; rewrite zlen_repeat; lia).
  rewrite buf_write_at by lia. cbn [obind]. rewrite app_assoc, (counts_be64 c m Hm).
  replace 56 with (zlen (p ++ y)) by (rewrite zlen_app; lia).
  rewrite buf_write_at by (rewrite zlen_drop; change (zlen (length_bytes (8 * m))) with 8; unfold zlen in *; lia). cbn [obind].
  rewrite (drop_ge (drop (length y) z)), app_nil_r.
  2: { rewrite length_drop. change (length (length_bytes (8 * m))) with 8%nat. unfold zlen in *. lia. }
  destruct (block_one_run c ((p ++ y) ++ length_bytes (8 * m))) as (c1 & E & H1 & _).
  - apply Forall_app. split; [apply Forall_app; split; [done|apply bytes_zeros]|apply bytes_length_bytes].
  - rewrite !zlen_app. change (zlen (length_bytes (8 * m))) with 8. lia.
  - rewrite E. cbn [obind]. eexists. f_equal. f_equal. rewrite <- app_assoc in H1.
    rewrite blocks_hash_snoc, <- Hh, <- H1; [|done|].
    + unfold HASH_MAKE_STRING, digest, hash_of. by rewrite !HOST_l2c_be32.
    + rewrite !length_app. change (length (length_bytes (8 * m))) with 8%nat. unfold zlen in *. lia.
Qed.

(** The first of two blocks: the array is full of the kept bytes and zeros. *)
Lemma first_block_run c n l t t1 z :
  absorbs c n l t -> t1 = t ++ [0x80] -> 56 <= zlen t -> zlen (t1 ++ z) = 64 ->
  let p := t1 ++ repeat 0 (Z.to_nat (63 - zlen t)) in
  exists c1, buf_write (t1 ++ z) (zlen t1) (repeat 0 (Z.to_nat (64 - zlen t1))) = Ret p /\
    sha1_block_data_order b c p 1 = Ret c1 /\ hash_of c1 = blocks_hash f (S n) fips_H0 (l ++ p) /\
    zlen p = 64 /\ same_rest c c1.
Proof.
  intros [H1 H2 [H3 H3'] H4 _ _] Et Ht Hz p. pose proof (zlen_nonneg t). rewrite zlen_app in Hz.
  assert (Ht1 : zlen t1 = zlen t + 1) by (by rewrite Et, zlen_app).
  assert (Hp : zlen p = 64) by (unfold p; rewrite zlen_app, zlen_repeat; lia).
  destruct (block_one_run c p) as (c1 & E & Hh & Hr); [|done|].
  { apply Forall_app. split; [rewrite Et; apply Forall_app; split; [done|by repeat constructor]|apply bytes_zeros]. }
  exists c1. split_and!; [|done| |done|done].
  - rewrite buf_write_at by (rewrite zlen_repeat; lia). replace (64 - zlen t1) with (63 - zlen t) by lia.
    rewrite drop_ge, app_nil_r; [done|]. rewrite repeat_length. unfold zlen in *. lia.
  - rewrite blocks_hash_snoc, <- H4; [done|done|]. unfold zlen in Hp. lia.
Qed.

Lemma SHA1_Final_run c m :
  represents c m ->
  exists n c', length (pad m) = (64 * n)%nat /\ SHA1_Final b c = Ret (digest (blocks_hash f n fips_H0 (pad m)), c').
Proof.
  intros [(n & l & t & Hc & ->) Hcnt]. pose proof Hc as [H1 H2 [H3 H3'] H4 H5 (z & Hz & _ & Hl)].
  rewrite zlen_app in Hl. unfold SHA1_Final, SHA_CBLOCK. rewrite H5, Hz.
  rewrite buf_set_write, buf_write_at by (change (zlen [0x80]) with 1; lia). cbn [obind].
  change (length [0x80]) with 1%nat. rewrite (pad_split n) by done. remember (t ++ [0x80]) as t1 eqn:Et.
  assert (Ht1 : zlen t1 = zlen t + 1) by (by rewrite Et, zlen_app).
  replace (t ++ [0x80] ++ drop 1 z) with (t1 ++ drop 1 z) by (rewrite Et; by rewrite <- app_assoc).
  assert (Hz1 : zlen (t1 ++ drop 1 z) = 64) by (rewrite zlen_app, zlen_drop; lia).
  rewrite <- Ht1. change (64 - 8) with 56. destruct (Z.ltb_spec 56 (zlen t1)) as [Hge|Hlt].
  - destruct (first_block_run c n l t t1 (drop 1 z)) as (c1 & E1 & E2 & Hh & Hp & R1 & R2 & _); [done..|lia|done|].
    rewrite E1. cbn [obind]. rewrite E2. cbn [obind]. destruct (last_two t (8 * zlen (l ++ t))) as [-> _]; [lia|].
    rewrite (app_assoc t), <- Et. set (p := t1 ++ repeat 0 (Z.to_nat (63 - zlen t))) in *.
    destruct (final_block_run c1 [] (l ++ p) p 0 (S n)) with (m := zlen (l ++ t)) as (c' & Ef);
      [done|rewrite length_app; unfold zlen in Hp; lia|done..|unfold counted; by rewrite R1, R2|].
    exists (S (S n)), c'. rewrite app_assoc. split; [|exact Ef].
    rewrite !length_app, repeat_length. change (length (length_bytes _)) with 8%nat. unfold zlen in Hp. lia.
  - cbn [obind]. destruct (last_one t (8 * zlen (l ++ t))) as [-> _]; [lia|].
    destruct (final_block_run c t1 l (drop 1 z) (zlen t1) n) with (m := zlen (l ++ t)) as (c' & Ef);
      [done|done| |done|done|done|done|].
    { rewrite Et. apply Forall_app. split; [done|by repeat constructor]. }
    exists (S n), c'. replace (55 - zlen t) with (56 - zlen t1) by lia. rewrite (app_assoc t), <- Et. split; [|exact Ef].
    rewrite !length_app, repeat_length. change (length (length_bytes _)) with 8%nat. unfold zlen in Ht1, Hlt |- *. lia.
Qed.

End Stream.

Lemma block_fips b c m : bytes m -> hash_of (block b c m) = compress m (hash_of c) /\ same_rest c (block b c m).
Proof. destruct b; [apply block_unrolled_fips|apply block_small_fips]. Qed.


(** ** The hash *)

Lemma update_represents b c m d len :
  represents compress c m -> bytes d -> 0 <= len <= zlen d -> len < 2 ^ 32 - 64 -> 8 * (zlen m + len) < 2 ^ 64 ->
  exists c', SHA1_Update b c d len = Ret c' /\ represents compress c' (m ++ take (Z.to_nat len) d).
Proof. apply SHA1_Update_run, block_fips. Qed.

Lemma final_represents b c m :
  represents compress c m -> exists c', SHA1_Final b c = Ret (fips_sha1 m, c').
Proof.
  intros Hc. destruct (SHA1_Final_run b compress (block_fips b) c m Hc) as (n & c' & Hn & E).
  exists c'. unfold fips_sha1. rewrite Hn, (Nat.mul_comm 64 n), Nat.div_mul by done. exact E.
Qed.

(** The calls [SHA1_Update(c, p, length of p)] for the pieces of a message. *)
Fixpoint SHA1_Updates (b : build) (c : SHA_CTX) (ps : list (list Z)) : outcome SHA_CTX :=
  match ps with
  | [] => Ret c
  | p :: ps => do c <- SHA1_Update b c p (zlen p); SHA1_Updates b c ps
  end.

Definition piece_ok (p : list Z) : Prop := bytes p /\ zlen p < 2 ^ 32 - 64.

Lemma updates_represent b ps : forall c m,
  represents compress c m -> Forall piece_ok ps -> 8 * zlen (m ++ concat ps) < 2 ^ 64 ->
  exists c', SHA1_Updates b c ps = Ret c' /\ represents compress c' (m ++ concat ps).
Proof.
  induction ps as [|p ps IH]; intros c m Hc Hps Hl.
  { exists c. cbn [concat SHA1_Updates]. by rewrite app_nil_r. }
  apply Forall_cons in Hps as [[Hb Hp] Hps]. cbn [concat SHA1_Updates] in *. rewrite app_assoc in *.
  pose proof (zlen_nonneg (concat ps)). pose proof (zlen_nonneg p). rewrite zlen_app in Hl.
  destruct (update_represents b c m p (zlen p) Hc Hb) as (c1 & E & Hc1); [lia|done|rewrite <- zlen_app; lia|].
  rewrite E. cbn [obind]. unfold zlen in Hc1 at 1. rewrite Nat2Z.id, take_ge in Hc1 by done.
  destruct (IH c1 (m ++ p) Hc1 Hps) as (c' & E' & Hc'); [by rewrite zlen_app|by exists c'].
Qed.

(** C5: the hash of OpenSSL is SHA-1.  In both forms of the compression function, any
    sequence of [SHA1_Update] calls between [SHA1_Init] and [SHA1_Final], however the
    message is cut, gives the hash that FIPS 180 defines for the whole message; nothing is
    read or written outside of the arrays. *)
Theorem sha1_stream_is_fips180 b c ps :
  bytes c.(sha_data) -> zlen c.(sha_data) = 64 -> Forall piece_ok ps -> 8 * zlen (concat ps) < 2 ^ 64 ->
  exists c', (do c <- SHA1_Updates b (SHA1_Init c) ps; SHA1_Final b c) = Ret (fips_sha1 (concat ps), c').
Proof.
  intros Hb Hl Hps H64.
  destruct (updates_represent b ps (SHA1_Init c) []) as (c1 & E & Hc1); [by apply SHA1_Init_represents|done|done|].
  destruct (final_represents b c1 _ Hc1) as (c' & E'). exists c'. by rewrite E.
Qed.

(** The test vector of the standard, in two pieces. *)
Definition wit_ctx : SHA_CTX := ShaCtx 0 0 0 0 0 0 0 (repeat 85 64) 0.
Definition abc_digest : list Z :=
  [0xa9; 0x99; 0x3e; 0x36; 0x47; 0x06; 0x81; 0x6a; 0xba; 0x3e;
   0x25; 0x71; 0x78; 0x50; 0xc2; 0x6c; 0x9c; 0xd0; 0xd8; 0x9d].

Lemma sha1_stream_is_fips180_witness :
  fips_sha1 (lit "abc") = abc_digest /\
  exists c', (do c <- SHA1_Updates Unrolled (SHA1_Init wit_ctx) [lit "a"; lit "bc"]; SHA1_Final Unrolled c) =
    Ret (abc_digest, c').
Proof.
  assert (E : fips_sha1 (lit "abc") = abc_digest) by (vm_compute; reflexivity). split; [exact E|].
  rewrite <- E. apply (sha1_stream_is_fips180 Unrolled wit_ctx [lit "a"; lit "bc"]).
  - apply (bool_decide_eq_true_1 (bytes (repeat 85 64))). vm_compute. reflexivity.
  - reflexivity.
  - repeat (constructor; [split; [apply (bool_decide_eq_true_1 (bytes _)); vm_compute; reflexivity|reflexivity]|]).
    constructor.
  - reflexivity.
Defined.
