(* ===== verification/Runs.v ===== *)
(** * Runs: functions that only make calls

    A function that leaves the memory and the variables of the process alone, and at
    most makes calls to the environment, is described by what it returns ([runs]).  The
    rules below compose such descriptions; the proofs about OpenSSL use them. *)

From S2P Require Import Prelude Sys.

(** [m] returns a value of [P] and changes nothing but the trace. *)
Definition runs {A} (m : M A) (P : A -> Prop) : Prop :=
  forall s, exists v tr, m s = Ret (v, with_trace tr s) /\ P v.

Lemma with_trace_same s : with_trace (trace s) s = s.
Proof. by destruct s. Qed.

Lemma runs_ret {A} (v : A) (P : A -> Prop) : P v -> runs (ret v) P.
Proof. intros Hv s. exists v, (trace s). by rewrite with_trace_same. Qed.

Lemma runs_bind {A B} (m : M A) (f : A -> M B) P Q :
  runs m P -> (forall v, P v -> runs (f v) Q) -> runs (bindM m f) Q.
Proof.
  intros Hm Hf s. destruct (Hm s) as (v & tr & E1 & Hv). destruct (Hf v Hv (with_trace tr s)) as (w & tr' & E2 & Hw).
  exists w, tr'. rewrite (bindM_Ret _ _ _ _ _ E1). by split.
Qed.

Lemma runs_bind_lift {A B} (o : outcome A) v (f : A -> M B) Q :
  o = Ret v -> runs (f v) Q -> runs (bindM (lift o) f) Q.
Proof. intros -> Hf. apply Hf. Qed.

Lemma runs_conseq {A} (m : M A) (P Q : A -> Prop) : runs m P -> (forall v, P v -> Q v) -> runs m Q.
Proof. intros Hm HPQ s. destruct (Hm s) as (v & tr & E & Hv). eauto 6. Qed.

(** In a sequence, a part that only makes calls. *)
Lemma runs_in {A C} (m : M A) (f : A -> M C) P s :
  runs m P -> exists v tr, bindM m f s = f v (with_trace tr s) /\ P v.
Proof.
  intros Hm. destruct (Hm s) as (v & tr & E & Hv). exists v, tr. split; [|done].
  by rewrite (bindM_Ret _ _ _ _ _ E).
Qed.

Lemma bindM_lift {A B} (o : outcome A) v (f : A -> M B) s : o = Ret v -> bindM (lift o) f s = f v s.
Proof. by intros ->. Qed.


(** An environment with memory, whose random generator returns [r]. *)
Definition env_lib (r : Z) : Env := fun _ c =>
  match c with
  | CMalloc _ => Reply 1 [] 0
  | CRandBytes n => Reply r (seqZ 3 n) 0
  | _ => Reply 0 [] 0
  end.

Lemma env_lib_mem r : @mem_available (env_lib r).
Proof. intros tr n. done. Qed.

Lemma heap_ok_0 : heap_ok proc0.
Proof. intros l _. apply lookup_empty. Qed.
