(* ===== verification/RsaOaep.v ===== *)
(** * RsaOaep: the padding of the key exchange

    src/jni/openssl/crypto/rsa/rsa_oaep.c: the encoding EME-OAEP that
    [RSA_public_encrypt] puts around the AES key, the check a receiver does, and the
    mask generation they share.  The digest goes through the EVP layer
    (src/jni/openssl/crypto/evp/digest.c, m_sha1.c): no engine is registered, so the
    context gets the functions of [sha1_md].  A memory block that a function allocates
    and frees itself is kept as a list between the two calls. *)

From S2P Require Import Prelude Sys Sha1.

(** ** The EVP layer *)

(** [EVP_MD_CTX]: [None] when [digest] is NULL, else [md_data]. *)
Definition EVP_MD_CTX : Type := option SHA_CTX.

(** The size of a pointer and of [SHA_CTX]. *)
Definition ctx_size : Z := 100.

Section Evp.
Context {E : Env} (b : build).

(** The context before its fields are set: [data] has what the memory had. *)
Definition new_ctx (mem : list Z) : SHA_CTX :=
  ShaCtx 0 0 0 0 0 0 0 (resize 64 0 (drop 28 (map u8 mem))) 0.

(** [EVP_DigestInit_ex(ctx, EVP_sha1(), NULL)]: the result of the allocation is not
    checked. *)
Definition EVP_DigestInit_ex (ctx : EVP_MD_CTX) : M EVP_MD_CTX :=
  match ctx with
  | Some c => ret (Some (SHA1_Init c))
  | None =>
      do! r <- sys (CMalloc ctx_size);
      if r.(rv) =? 0 then undef NullDeref else ret (Some (SHA1_Init (new_ctx r.(rdata))))
  end.

Definition EVP_DigestUpdate (ctx : EVP_MD_CTX) (data : list Z) (count : Z) : M EVP_MD_CTX :=
  match ctx with
  | Some c => do! c <- lift (SHA1_Update b c data count); ret (Some c)
  | None => undef NullDeref
  end.

(** The digest, and the context: [md_data] is filled with zeros. *)
Definition EVP_DigestFinal_ex (ctx : EVP_MD_CTX) : M (list Z * EVP_MD_CTX) :=
  match ctx with
  | Some c =>
      do! '(md, _) <- lift (SHA1_Final b c);
      ret (md, Some (ShaCtx 0 0 0 0 0 0 0 (repeat 0 64) 0))
  | None => undef NullDeref
  end.

(** [EVP_Digest(data, count, md, NULL, EVP_sha1(), NULL)]: the bytes of [md]. *)
Definition EVP_Digest (data : list Z) (count : Z) : M (list Z) :=
  do! ctx <- EVP_DigestInit_ex None;
  do! ctx <- EVP_DigestUpdate ctx data count;
  do! '(md, _) <- EVP_DigestFinal_ex ctx;
  ret md.

(** ** Mask generation *)

(** [cnt] *)
Definition mgf_count (i : Z) : list Z :=
  [(i .>> 24) .& 255; (i .>> 16) .& 255; (i .>> 8) .& 255; i .& 255].

(** The loop of [PKCS1_MGF1]: [mask] afterwards. *)
Fixpoint mgf_loop (fuel : nat) (ctx : EVP_MD_CTX) (mask : list Z) (len i outlen : Z)
    (seed : list Z) (seedlen : Z) : M (list Z) :=
  if outlen <? len then
    match fuel with
    | O => undef NoFuel
    | S fuel =>
        do! ctx <- EVP_DigestInit_ex ctx;
        do! ctx <- EVP_DigestUpdate ctx seed seedlen;
        do! ctx <- EVP_DigestUpdate ctx (mgf_count i) 4;
        do! '(md, ctx) <- EVP_DigestFinal_ex ctx;
        if outlen + SHA_DIGEST_LENGTH <=? len then
          do! mask <- lift (buf_write mask outlen md);
          mgf_loop fuel ctx mask len (i + 1) (outlen + SHA_DIGEST_LENGTH) seed seedlen
        else
          do! mask <- lift (buf_write mask outlen (take (Z.to_nat (len - outlen)) md));
          mgf_loop fuel ctx mask len (i + 1) len seed seedlen
    end
  else ret mask.

(** [MGF1(mask, len, seed, seedlen)] *)
Definition MGF1 (mask : list Z) (len : Z) (seed : list Z) (seedlen : Z) : M (list Z) :=
  mgf_loop (Z.to_nat len) None mask len 0 0 seed seedlen.

(** [for (i = 0; i < n; i++) buf[off + i] ^= mask[i];] *)
Fixpoint xor_loop (n : nat) (i off : Z) (mask buf : list Z) : outcome (list Z) :=
  match n with
  | O => Ret buf
  | S n =>
      do x <- buf_get buf (off + i);
      do m <- buf_get mask i;
      do buf <- buf_set buf (off + i) (x .^ m);
      xor_loop n (i + 1) off mask buf
  end.

(** ** Encoding *)

(** [RSA_padding_add_PKCS1_OAEP(to, tlen, from, flen, param, plen)]: the return value
    and [to].  When the random bytes cannot be had, [dbmask] is not freed. *)
Definition RSA_padding_add_PKCS1_OAEP (to : list Z) (tlen : Z) (from : list Z) (flen : Z)
    (param : list Z) (plen : Z) : M (Z * list Z) :=
  let emlen := tlen - 1 in
  if emlen - 2 * SHA_DIGEST_LENGTH - 1 <? flen then ret (0, to)
  else if emlen <? 2 * SHA_DIGEST_LENGTH + 1 then ret (0, to)
  else
    do! p <- malloc (emlen - SHA_DIGEST_LENGTH);
    if decide (p = Null) then ret (0, to)
    else
      let seed := 1 in
      let db := SHA_DIGEST_LENGTH + 1 in
      do! dbmask <- view p;
      do! to <- lift (buf_set to 0 0);
      do! h <- EVP_Digest param plen;
      do! to <- lift (buf_write to db h);
      do! to <- lift (buf_write to (db + SHA_DIGEST_LENGTH)
                        (repeat 0 (Z.to_nat (emlen - flen - 2 * SHA_DIGEST_LENGTH - 1))));
      do! to <- lift (buf_set to (db + emlen - flen - SHA_DIGEST_LENGTH - 1) 1);
      if zlen from <? flen then undef OutOfBounds
      else
        do! to <- lift (buf_write to (db + emlen - flen - SHA_DIGEST_LENGTH) (take (Z.to_nat flen) from));
        do! '(r, rnd) <- RAND_bytes SHA_DIGEST_LENGTH;
        do! to <- lift (buf_write to seed rnd);
        if r <=? 0 then ret (0, to)
        else
          do! dbmask <- MGF1 dbmask (emlen - SHA_DIGEST_LENGTH) (drop (Z.to_nat seed) to) SHA_DIGEST_LENGTH;
          do! to <- lift (xor_loop (Z.to_nat (emlen - SHA_DIGEST_LENGTH)) 0 db dbmask to);
          do! seedmask <- MGF1 (repeat 0 20) SHA_DIGEST_LENGTH (drop (Z.to_nat db) to) (emlen - SHA_DIGEST_LENGTH);
          do! to <- lift (xor_loop 20 0 seed seedmask to);
          do! _ <- free p;
          ret (1, to).

(** ** Checking *)

(** [for (i = SHA_DIGEST_LENGTH; i < dblen; i++) if (db[i] != 0x00) break;] on the bytes
    from [i] on. *)
Fixpoint skip_zeros (db : list Z) (i dblen : Z) : Z :=
  match db with
  | x :: db => if i <? dblen then if negb (x =? 0) then i else skip_zeros db (i + 1) dblen else i
  | [] => i
  end.

(** The part behind the digest of [param]: the return value and [to]. *)
Definition oaep_message (bad : bool) (db phash to : list Z) (tlen dblen : Z) : outcome (Z * list Z) :=
  if negb (bool_decide (take 20 db = phash)) || bad then Ret (-1, to)
  else
    let i := skip_zeros (drop 20 db) SHA_DIGEST_LENGTH dblen in
    if i =? dblen then Ret (-1, to)
    else
      do x <- buf_get db i;
      if negb (x =? 1) then Ret (-1, to)
      else
        let i := i + 1 in
        let mlen := dblen - i in
        if tlen <? mlen then Ret (-1, to)
        else
          do to <- buf_write to 0 (take (Z.to_nat mlen) (drop (Z.to_nat i) db));
          Ret (mlen, to).

(** [RSA_padding_check_PKCS1_OAEP(to, tlen, from, flen, num, param, plen)]: [db] and
    [padded_from] are the two parts of one block. *)
Definition RSA_padding_check_PKCS1_OAEP (to : list Z) (tlen : Z) (from : list Z) (flen num : Z)
    (param : list Z) (plen : Z) : M (Z * list Z) :=
  let num := num - 1 in
  if num <? 2 * SHA_DIGEST_LENGTH + 1 then ret (-1, to)
  else
    let bad := num - flen <? 0 in
    let lzero := if bad then 0 else num - flen in
    let flen := if bad then num else flen in
    let dblen := num - SHA_DIGEST_LENGTH in
    do! p <- malloc (dblen + num);
    if decide (p = Null) then ret (-1, to)
    else
      do! blk <- view p;
      let db := take (Z.to_nat dblen) blk in
      do! padded_from <- lift (buf_write (drop (Z.to_nat dblen) blk) 0 (repeat 0 (Z.to_nat lzero)));
      if (flen <? 0) || (zlen from <? flen) then undef OutOfBounds
      else
        do! padded_from <- lift (buf_write padded_from lzero (take (Z.to_nat flen) from));
        let maskeddb := drop 20 padded_from in
        do! seed <- MGF1 (repeat 0 20) SHA_DIGEST_LENGTH maskeddb dblen;
        do! seed <- lift (xor_loop 20 0 0 padded_from seed);
        do! db <- MGF1 db dblen seed SHA_DIGEST_LENGTH;
        do! db <- lift (xor_loop (Z.to_nat dblen) 0 0 maskeddb db);
        do! phash <- EVP_Digest param plen;
        do! r <- lift (oaep_message bad db phash to tlen dblen);
        do! _ <- free p;
        ret r.

End Evp.
