(* ===== verification/RsaOaepProofs.v ===== *)
(** * RsaOaepProofs: EME-OAEP

    The encoding as RFC 2437 defines it ([oaep_encode], with the mask generation
    function [mgf1] over FIPS 180's SHA-1), and the proofs that
    [RSA_padding_add_PKCS1_OAEP] computes it and that [RSA_padding_check_PKCS1_OAEP]
    accepts exactly its images. *)

From S2P Require Import Prelude Sys Runs Sha1 Sha1Block Sha1Stream RsaOaep.

(** ** RFC 2437 *)

Definition xor (a m : list Z) : list Z := zip_with Z.lxor a m.

(** The first [n] hashes of the seed and a counter. *)
Definition mgf_stream (seed : list Z) (n : nat) : list Z :=
  concat (map (fun i => fips_sha1 (seed ++ word_bytes (Z.of_nat i))) (List.seq 0 n)).

Definition mgf1 (seed : list Z) (len : Z) : list Z :=
  take (Z.to_nat len) (mgf_stream seed (S (Z.to_nat (len / 20)))).

(** The data block of [k - 21] bytes for a message, and the encoded message of [k]
    bytes. *)
Definition oaep_db (k : Z) (msg label : list Z) : list Z :=
  fips_sha1 label ++ repeat 0 (Z.to_nat (k - 42 - zlen msg)) ++ [1] ++ msg.

Definition mask_db (seed db : list Z) : list Z :=
  let mdb := xor db (mgf1 seed (zlen db)) in
  xor seed (mgf1 mdb 20) ++ mdb.

Definition oaep_encode (k : Z) (seed msg label : list Z) : list Z := 0 :: mask_db seed (oaep_db k msg label).

(** The seed and the data block of a masked pair. *)
Definition unmask (em : list Z) : list Z * list Z :=
  let mdb := drop 20 em in
  let seed := xor (take 20 em) (mgf1 mdb 20) in
  (seed, xor mdb (mgf1 seed (zlen mdb))).

(** ** Lists *)

Lemma zlen_xor a m : zlen a <= zlen m -> zlen (xor a m) = zlen a.
Proof. unfold xor, zlen. rewrite length_zip_with. lia. Qed.

Lemma xor_xor a : forall m, zlen a <= zlen m -> xor (xor a m) m = a.
Proof.
  unfold xor, zlen. induction a as [|x a IH]; intros [|y m] Hl; cbn [zip_with length] in *; try (done || lia).
  rewrite IH by lia. by rewrite Z.lxor_assoc, Z.lxor_nilpotent, Z.lxor_0_r.
Qed.

Lemma xor_comm a : forall m, xor a m = xor m a.
Proof.
  unfold xor. induction a as [|x a IH]; intros [|y m]; cbn [zip_with]; try reflexivity.
  by rewrite IH, Z.lxor_comm.
Qed.

Lemma bytes_xor a : forall m, bytes a -> bytes m -> bytes (xor a m).
Proof.
  unfold xor. induction a as [|x a IH]; intros [|y m] Ha Hm; cbn [zip_with]; try constructor.
  - inversion Ha; inversion Hm; subst. auto with crange.
  - inversion Ha; inversion Hm; subst. by apply IH.
Qed.

Lemma zlen_digest h : zlen (digest h) = 20.
Proof. by destruct h as [[[[a b] c] d] e]. Qed.

Lemma zlen_fips_sha1 m : zlen (fips_sha1 m) = 20.
Proof. apply zlen_digest. Qed.

Lemma bytes_word_bytes x : bytes (word_bytes x).
Proof. unfold word_bytes. repeat constructor; apply byte_at_range. Qed.

Lemma bytes_fips_sha1 m : bytes (fips_sha1 m).
Proof.
  unfold fips_sha1. generalize (blocks_hash compress (length (pad m) / 64) fips_H0 (pad m)).
  intros [[[[a b] c] d] e]. unfold digest. repeat (apply Forall_app; split); apply bytes_word_bytes.
Qed.

(** ** The mask generation function *)

Lemma mgf_stream_succ seed n :
  mgf_stream seed (S n) = mgf_stream seed n ++ fips_sha1 (seed ++ word_bytes (Z.of_nat n)).
Proof. unfold mgf_stream. rewrite seq_S, map_app, concat_app. cbn [map concat]. by rewrite app_nil_r. Qed.

Lemma zlen_mgf_stream seed n : zlen (mgf_stream seed n) = 20 * Z.of_nat n.
Proof.
  induction n as [|n IH]; [done|]. rewrite mgf_stream_succ, zlen_app, IH, zlen_fips_sha1. lia.
Qed.

Lemma bytes_mgf_stream seed n : bytes (mgf_stream seed n).
Proof.
  induction n as [|n IH]; [constructor|]. rewrite mgf_stream_succ. apply Forall_app. split; [done|apply bytes_fips_sha1].
Qed.

(** Any long enough stream has the same prefix. *)
Lemma mgf_stream_prefix seed n k : exists x, mgf_stream seed (n + k) = mgf_stream seed n ++ x.
Proof.
  induction k as [|k [x IH]]; [exists []; by rewrite Nat.add_0_r, app_nil_r|].
  replace (n + S k)%nat with (S (n + k)) by lia. rewrite mgf_stream_succ, IH, <- app_assoc. eauto.
Qed.

Lemma mgf1_stream seed n len :
  0 <= len <= 20 * Z.of_nat n -> mgf1 seed len = take (Z.to_nat len) (mgf_stream seed n).
Proof.
  intros Hl. unfold mgf1. set (m := S (Z.to_nat (len / 20))).
  assert (Hm : len <= 20 * Z.of_nat m) by (unfold m; Z.div_mod_to_equations; lia).
  assert (Hp : forall a k, len <= 20 * Z.of_nat a ->
    take (Z.to_nat len) (mgf_stream seed (a + k)) = take (Z.to_nat len) (mgf_stream seed a)).
  { intros a k Ha. destruct (mgf_stream_prefix seed a k) as [x ->]. apply take_app_le.
    pose proof (zlen_mgf_stream seed a). unfold zlen in *. lia. }
  destruct (Nat.le_ge_cases m n).
  - replace n with (m + (n - m))%nat by lia. by rewrite Hp.
  - replace m with (n + (m - n))%nat by lia. by rewrite Hp by lia.
Qed.

Lemma zlen_mgf1 seed len : 0 <= len -> zlen (mgf1 seed len) = len.
Proof.
  intros Hl. unfold mgf1. rewrite zlen_take, zlen_mgf_stream. Z.div_mod_to_equations. lia.
Qed.

Lemma bytes_mgf1 seed len : bytes (mgf1 seed len).
Proof. apply Forall_take, bytes_mgf_stream. Qed.

(** ** Masking is a bijection *)

Lemma zlen_mask_db seed db : zlen seed = 20 -> zlen (mask_db seed db) = 20 + zlen db.
Proof.
  intros Hs. pose proof (zlen_nonneg db). unfold mask_db.
  rewrite zlen_app, !zlen_xor by (rewrite zlen_mgf1; lia). lia.
Qed.

Lemma unmask_mask seed db : zlen seed = 20 -> unmask (mask_db seed db) = (seed, db).
Proof.
  intros Hs. pose proof (zlen_nonneg db). unfold unmask, mask_db.
  set (mdb := xor db (mgf1 seed (zlen db))). set (ms := xor seed (mgf1 mdb 20)).
  assert (Hm : zlen mdb = zlen db) by (apply zlen_xor; rewrite zlen_mgf1; lia).
  assert (Hms : length ms = 20%nat).
  { assert (zlen ms = 20) by (unfold ms; rewrite zlen_xor; [done|rewrite zlen_mgf1; lia]). unfold zlen in *. lia. }
  rewrite <- Hms, take_app_length, drop_app_length. unfold ms. rewrite xor_xor by (rewrite zlen_mgf1; lia).
  rewrite Hm. unfold mdb. by rewrite xor_xor by (rewrite zlen_mgf1; lia).
Qed.

Lemma mask_unmask em seed db : 20 <= zlen em -> unmask em = (seed, db) ->
  mask_db seed db = em /\ zlen seed = 20 /\ zlen db = zlen em - 20.
Proof.
  intros He [= <- <-]. set (mdb := drop 20 em). set (seed := xor (take 20 em) (mgf1 mdb 20)).
  assert (Hm : zlen mdb = zlen em - 20) by (unfold mdb; rewrite zlen_drop; lia).
  assert (Ht : zlen (take 20 em) = 20) by (rewrite zlen_take; lia).
  assert (Hs : zlen seed = 20) by (unfold seed; rewrite zlen_xor; [done|rewrite zlen_mgf1; lia]).
  assert (Hx : zlen (xor mdb (mgf1 seed (zlen mdb))) = zlen mdb) by (apply zlen_xor; rewrite zlen_mgf1; lia).
  split_and!; [|done|by rewrite Hx]. unfold mask_db. rewrite Hx, xor_xor by (rewrite zlen_mgf1; lia).
  unfold seed. rewrite xor_xor by (rewrite zlen_mgf1; lia). apply take_drop.
Qed.

Section Runs.
Context {E : Env} (b : build) (Hmem : mem_available).

(** ** The digest *)

(** A context that can be initialised. *)
Definition ctx_ok (ctx : EVP_MD_CTX) : Prop :=
  match ctx with Some c => bytes c.(sha_data) /\ zlen c.(sha_data) = 64 | None => True end.

(** The context has hashed [m] so far. *)
Definition hashed (m : list Z) (ctx : EVP_MD_CTX) : Prop :=
  exists c, ctx = Some c /\ represents compress c m.

Lemma bytes_map_u8 l : bytes (map u8 l).
Proof. induction l; constructor; auto with crange. Qed.

Lemma resized_bytes n (l : list Z) : bytes l -> bytes (resize n 0 l).
Proof. intros Hl. apply Forall_resize; [unfold is_u8; lia|done]. Qed.

Lemma init_runs ctx : ctx_ok ctx -> runs (EVP_DigestInit_ex ctx) (hashed []).
Proof.
  intros Hc. destruct ctx as [c|].
  - apply runs_ret. exists (SHA1_Init c). split; [done|]. destruct Hc. by apply SHA1_Init_represents.
  - intros s. unfold EVP_DigestInit_ex, bindM, sys. cbn [rv].
    rewrite (proj2 (Z.eqb_neq _ _) (Hmem _ _)). eexists _, _. split; [reflexivity|]. eexists. split; [reflexivity|].
    apply SHA1_Init_represents; cbn [new_ctx sha_data].
    + apply resized_bytes, Forall_drop, bytes_map_u8.
    + unfold zlen. by rewrite length_resize.
Qed.

Lemma update_runs m ctx d len :
  hashed m ctx -> bytes d -> 0 <= len <= zlen d -> len < 2 ^ 31 -> zlen m < 2 ^ 31 ->
  runs (EVP_DigestUpdate b ctx d len) (hashed (m ++ take (Z.to_nat len) d)).
Proof.
  intros (c & -> & Hc) Hd Hl H31 Hm. change (2 ^ 31) with 2147483648 in *.
  destruct (update_represents b c m d len) as (c' & Ec & Hc'); [done..|lia|lia|].
  unfold EVP_DigestUpdate. eapply runs_bind_lift; [exact Ec|]. apply runs_ret. by exists c'.
Qed.

Lemma final_runs m ctx :
  hashed m ctx -> runs (EVP_DigestFinal_ex b ctx) (fun '(md, ctx) => md = fips_sha1 m /\ ctx_ok ctx).
Proof.
  intros (c & -> & Hc). destruct (final_represents b c m Hc) as (c' & Ec).
  unfold EVP_DigestFinal_ex. eapply runs_bind_lift; [exact Ec|]. apply runs_ret. split; [reflexivity|]. split; [apply bytes_zeros|reflexivity].
Qed.

Lemma digest_runs d len :
  bytes d -> 0 <= len <= zlen d -> len < 2 ^ 31 ->
  runs (EVP_Digest b d len) (eq (fips_sha1 (take (Z.to_nat len) d))).
Proof.
  intros Hd Hl H31. unfold EVP_Digest. eapply runs_bind; [by apply init_runs|]. intros c1 Hc1.
  eapply runs_bind; [by apply (update_runs [])|]. intros c2 Hc2.
  eapply runs_bind; [by apply final_runs|]. intros [md c3] [-> _]. by apply runs_ret.
Qed.

(** ** The mask *)

Lemma mgf_count_be32 i : mgf_count i = word_bytes i.
Proof.
  unfold mgf_count, word_bytes, byte_at, u8. change 255 with (Z.ones 8). rewrite !Z.land_ones by lia.
  by rewrite Z.shiftr_0_r.
Qed.

(** [i] hashes are written; the rest of the mask follows. *)
Lemma mgf_loop_runs seed seedlen len : forall fuel ctx i z,
  bytes seed -> 0 <= seedlen <= zlen seed -> seedlen < 2 ^ 30 ->
  let sd := take (Z.to_nat seedlen) seed in
  ctx_ok ctx -> 20 * Z.of_nat i <= len -> len <= zlen (mgf_stream sd i ++ z) ->
  len - 20 * Z.of_nat i <= Z.of_nat fuel ->
  runs (mgf_loop b fuel ctx (mgf_stream sd i ++ z) len (Z.of_nat i) (20 * Z.of_nat i) seed seedlen)
    (eq (mgf1 sd len ++ drop (Z.to_nat (len - 20 * Z.of_nat i)) z)).
Proof.
  change (2 ^ 30) with 1073741824.
  induction fuel as [|fuel IH]; intros ctx i z Hb Hs H30 sd Hctx Hi Hlen Hfuel; cbn [mgf_loop];
    destruct (Z.ltb_spec (20 * Z.of_nat i) len) as [Hlt|Hge]; try lia.
  1,3: apply runs_ret; rewrite (mgf1_stream sd i len) by lia; replace (Z.to_nat (len - 20 * Z.of_nat i)) with 0%nat by lia;
    rewrite take_ge; [reflexivity|]; pose proof (zlen_mgf_stream sd i); unfold zlen in *; lia.
  assert (Hsd : zlen sd = seedlen) by (unfold sd; rewrite zlen_take; lia).
  eapply runs_bind; [by apply init_runs|]. intros c1 Hc1.
  eapply runs_bind; [apply (update_runs [] c1 seed seedlen); (done || lia)|]. intros c2 Hc2. fold sd in Hc2.
  cbn [app] in Hc2. rewrite mgf_count_be32.
  eapply runs_bind; [apply (update_runs sd c2 _ 4 Hc2); [apply bytes_word_bytes|done|done|rewrite Hsd; lia]|].
  intros c3 Hc3. change (take (Z.to_nat 4) (word_bytes (Z.of_nat i))) with (word_bytes (Z.of_nat i)) in Hc3.
  eapply runs_bind; [by apply final_runs|]. intros [md c4] [-> Hc4].
  set (md := fips_sha1 _) in *. assert (Hmd : zlen md = 20) by (apply zlen_fips_sha1).
  assert (Hst : mgf_stream sd (S i) = mgf_stream sd i ++ md) by apply mgf_stream_succ.
  assert (Hz : zlen (mgf_stream sd i) = 20 * Z.of_nat i) by apply zlen_mgf_stream.
  rewrite zlen_app, Hz in Hlen. unfold SHA_DIGEST_LENGTH. rewrite <- Hz.
  destruct (Z.leb_spec (zlen (mgf_stream sd i) + 20) len) as [Hle|Hgt].
  - rewrite buf_write_at by lia. eapply runs_bind_lift; [reflexivity|].
    replace (zlen (mgf_stream sd i) + 20) with (20 * Z.of_nat (S i)) by lia.
    replace (Z.of_nat i + 1) with (Z.of_nat (S i)) by lia. rewrite app_assoc, <- Hst.
    eapply runs_conseq; [apply IH; (done || lia || idtac)|].
    + fold sd. rewrite Hst, !zlen_app, zlen_drop. unfold zlen in *. lia.
    + intros v <-. rewrite drop_drop. do 2 f_equal. unfold zlen in *. lia.
  - rewrite buf_write_at by (rewrite zlen_take; lia).
    eapply runs_bind_lift; [reflexivity|].
    destruct fuel as [|fuel]; cbn [mgf_loop]; rewrite Z.ltb_irrefl; apply runs_ret.
    all: rewrite (mgf1_stream sd (S i) len), Hst, take_app, take_ge by (unfold zlen in *; lia);
      rewrite <- app_assoc; f_equal; f_equal; [f_equal; unfold zlen in *; lia|];
      f_equal; rewrite length_take; unfold zlen in *; lia.
Qed.

Lemma MGF1_runs mask len seed seedlen :
  bytes seed -> 0 <= seedlen <= zlen seed -> seedlen < 2 ^ 30 -> 0 <= len <= zlen mask ->
  runs (MGF1 b mask len seed seedlen) (eq (mgf1 (take (Z.to_nat seedlen) seed) len ++ drop (Z.to_nat len) mask)).
Proof.
  intros Hb Hs H30 Hl. unfold MGF1.
  pose proof (mgf_loop_runs seed seedlen len (Z.to_nat len) None 0 mask Hb Hs H30 I) as H. cbn zeta in H.
  change (20 * Z.of_nat 0) with 0 in H. rewrite Z.sub_0_r in H. apply H; cbn; lia.
Qed.

(** ** Masking in place *)

Lemma xor_loop_run x : forall m i off pre mpre post mpost,
  zlen x = zlen m -> zlen pre = off + i -> zlen mpre = i ->
  xor_loop (length x) i off (mpre ++ m ++ mpost) (pre ++ x ++ post) = Ret (pre ++ xor x m ++ post).
Proof.
  induction x as [|c x IH]; intros [|k m] i off pre mpre post mpost Hl Hp Hm; try (unfold zlen in Hl; discriminate).
  { reflexivity. }
  cbn [length xor_loop]. rewrite <- Hp, <- Hm. cbn [app]. rewrite !buf_get_mid. cbn [obind].
  rewrite buf_set_mid. cbn [obind]. unfold xor. cbn [zip_with].
  replace (mpre ++ k :: m ++ mpost) with ((mpre ++ [k]) ++ m ++ mpost) by (by rewrite <- app_assoc).
  replace (pre ++ c .^ k :: x ++ post) with ((pre ++ [c .^ k]) ++ x ++ post) by (by rewrite <- app_assoc).
  rewrite IH, <- app_assoc; [reflexivity|unfold zlen in *; simpl in Hl; lia|..]; rewrite zlen_app; change (zlen [_]) with 1; lia.
Qed.

(** From the start of the mask. *)
Lemma xor_at pre x post mask n :
  n = length x -> zlen mask = zlen x ->
  xor_loop n 0 (zlen pre) mask (pre ++ x ++ post) = Ret (pre ++ xor x mask ++ post).
Proof.
  intros -> Hm. pose proof (xor_loop_run x mask 0 (zlen pre) pre [] post [] ltac:(lia) ltac:(lia) eq_refl) as H.
  cbn [app] in H. by rewrite app_nil_r in H.
Qed.

(** All of a buffer, with the start of another one. *)
Lemma xor_prefix x m rest n :
  n = length x -> zlen x = zlen m -> xor_loop n 0 0 (m ++ rest) x = Ret (xor x m).
Proof.
  intros -> Hm. pose proof (xor_loop_run x m 0 0 [] [] [] rest Hm eq_refl eq_refl) as H.
  cbn [app] in H. by rewrite !app_nil_r in H.
Qed.

(** ** Encoding *)

(** The block before it is masked. *)
Lemma oaep_layout (to h msg : list Z) (z : nat) :
  zlen to = 42 + Z.of_nat z + zlen msg -> zlen h = 20 ->
  exists sd, zlen sd = 20 /\
  (do to <- buf_set to 0 0;
   do to <- buf_write to 21 h;
   do to <- buf_write to 41 (repeat 0 z);
   do to <- buf_set to (41 + Z.of_nat z) 1;
   buf_write to (42 + Z.of_nat z) msg) = Ret ([0] ++ sd ++ h ++ repeat 0 z ++ [1] ++ msg).
Proof.
  intros Ht Hh. pose proof (zlen_nonneg msg). destruct to as [|x to]; [zlens; lia|]. rewrite zlen_cons in Ht.
  rewrite buf_set_head. cbn [obind]. exists (take 20 to). split; [rewrite zlen_take; lia|].
  set (sd := take 20 to). assert (Hsd : zlen sd = 20) by (unfold sd; rewrite zlen_take; lia).
  replace (0 :: to) with ((0 :: sd) ++ drop 20 to) by (cbn [app]; f_equal; apply take_drop).
  set (d := drop 20 to). assert (Hd : zlen d = 21 + Z.of_nat z + zlen msg) by (unfold d; rewrite zlen_drop; lia).
  assert (Hr : zlen (repeat 0 z) = Z.of_nat z) by apply zlen_repeat.
  replace 21 with (zlen (0 :: sd)) by (rewrite zlen_cons; lia). rewrite buf_write_at by lia. cbn [obind].
  rewrite app_assoc. set (p1 := (0 :: sd) ++ h). assert (Hp1 : zlen p1 = 41) by (unfold p1; rewrite zlen_app, zlen_cons; lia).
  rewrite <- Hp1, buf_write_at by (rewrite zlen_drop; unfold zlen in *; lia). cbn [obind].
  rewrite app_assoc, <- Hr, <- zlen_app. set (p2 := p1 ++ repeat 0 z).
  rewrite buf_set_write, buf_write_at by (rewrite !zlen_drop; change (zlen [1]) with 1; unfold zlen in *; lia). cbn [obind].
  replace (42 + zlen (repeat 0 z)) with (zlen (p2 ++ [1])) by (unfold p2; rewrite !zlen_app; change (zlen [1]) with 1; lia).
  rewrite (app_assoc p2 [1]), buf_write_at by (rewrite !zlen_drop; change (length [1]) with 1%nat; unfold zlen in *; lia).
  rewrite (drop_ge (drop _ _)), app_nil_r by (rewrite !length_drop; change (length [1]) with 1%nat; unfold zlen in *; lia).
  unfold p2, p1. by rewrite <- !app_assoc.
Qed.

(** From the mask of the data block to the end: the block [mem] at [l] is freed. *)
Lemma add_mask_run to rnd db mem l s :
  to = [0] ++ rnd ++ db -> bytes rnd -> bytes db -> zlen rnd = 20 -> zlen mem = zlen db -> zlen db < 2 ^ 30 ->
  is_Some (heap s !! l) ->
  exists tr,
  (do! dbmask <- MGF1 b mem (zlen db) (drop 1 to) 20;
   do! to <- lift (xor_loop (length db) 0 21 dbmask to);
   do! seedmask <- MGF1 b (repeat 0 20) 20 (drop 21 to) (zlen db);
   do! to <- lift (xor_loop 20 0 1 seedmask to);
   do! _ <- free (Ptr l 0);
   ret (1, to)) s = Ret ((1, 0 :: mask_db rnd db), set_heap (delete l (heap s)) (with_trace tr s)).
Proof.
  intros Eto Hr Hd Hlr Hm H30 Hl. pose proof (zlen_nonneg db) as Hd0.
  assert (Hdrop1 : drop 1 to = rnd ++ db) by (by rewrite Eto).
  edestruct (@runs_in (list Z) (Z * list Z)) as (mask & tr1 & E1 & Hmask);
    [apply (MGF1_runs mem (zlen db) (drop 1 to) 20)|].
  { rewrite Hdrop1. apply Forall_app. by split. }
  { rewrite Hdrop1, zlen_app. lia. }
  { lia. }
  { lia. }
  rewrite E1. clear E1. rewrite (drop_ge mem), app_nil_r in Hmask by (unfold zlen in *; lia).
  assert (Hsd : take (Z.to_nat 20) (drop 1 to) = rnd).
  { rewrite Hdrop1. apply take_app_length'. unfold zlen in Hlr. lia. }
  rewrite Hsd in Hmask. subst mask. rewrite Eto.
  rewrite (bindM_lift _ ([0] ++ rnd ++ xor db (mgf1 rnd (zlen db)))).
  2: { replace 21 with (zlen ([0] ++ rnd)) by (rewrite zlen_app; change (zlen [0]) with 1; lia).
    rewrite <- (app_nil_r db) at 3. rewrite (app_assoc [0] rnd), xor_at by (done || (rewrite zlen_mgf1; lia)).
    by rewrite app_nil_r, <- app_assoc. }
  set (mdb := xor db (mgf1 rnd (zlen db))).
  assert (Hmdb : zlen mdb = zlen db) by (apply zlen_xor; rewrite zlen_mgf1; lia).
  assert (Hdrop : drop 21 ([0] ++ rnd ++ mdb) = mdb).
  { rewrite app_assoc. apply drop_app_length'. rewrite length_app. unfold zlen in Hlr. simpl. lia. }
  edestruct (@runs_in (list Z) (Z * list Z)) as (mask & tr2 & E2 & Hmask2);
    [apply (MGF1_runs (repeat 0 20) 20 (drop 21 ([0] ++ rnd ++ mdb)) (zlen db))|rewrite E2; clear E2].
  { rewrite Hdrop. apply bytes_xor; [done|apply bytes_mgf1]. }
  { rewrite Hdrop. lia. }
  { done. }
  { done. }
  rewrite Hdrop, drop_ge, app_nil_r, take_ge in Hmask2 by (rewrite ?repeat_length; unfold zlen in *; lia). subst mask.
  rewrite (bindM_lift _ ([0] ++ xor rnd (mgf1 mdb 20) ++ mdb)).
  2: { change 1 with (zlen [0]) at 1. apply xor_at; [unfold zlen in Hlr; lia|rewrite zlen_mgf1; lia]. }
  destruct Hl as [x Hl]. erewrite bindM_Ret by (eapply free_run; exact Hl). by exists tr2.
Qed.

Lemma zlen_oaep_db k msg label : zlen msg + 42 <= k -> zlen (oaep_db k msg label) = k - 21.
Proof.
  intros Hk. pose proof (zlen_nonneg msg). unfold oaep_db. rewrite !zlen_app, zlen_fips_sha1, zlen_repeat.
  change (zlen [1]) with 1. lia.
Qed.

Lemma bytes_oaep_db k msg label : bytes msg -> bytes (oaep_db k msg label).
Proof.
  intros Hm. repeat (apply Forall_app; split); [apply bytes_fips_sha1|apply bytes_zeros|by repeat constructor|done].
Qed.

(** The inputs that the encoding accepts. *)
Record add_ok (to : list Z) (tlen : Z) (from : list Z) (flen : Z) (param : list Z) (plen : Z) : Prop := AddOk {
  add_to : zlen to = tlen;
  add_tlen : tlen < 2 ^ 30;
  add_from : bytes from /\ 0 <= flen <= zlen from;
  add_fits : flen + 42 <= tlen;
  add_param : bytes param /\ 0 <= plen <= zlen param /\ plen < 2 ^ 31
}.

(** The bytes of the random generator. *)
Definition rand_bytes (tr : list call) : list Z :=
  resize 20 0 (map u8 (rdata (env_reply tr (CRandBytes 20)))).

Lemma RAND_bytes_run s :
  RAND_bytes 20 s =
  Ret ((rv (env_reply (trace s) (CRandBytes 20)), rand_bytes (trace s)), with_trace (CRandBytes 20 :: trace s) s).
Proof. reflexivity. Qed.

Lemma zlen_oaep_encode k seed msg label :
  zlen seed = 20 -> zlen msg + 42 <= k -> zlen (oaep_encode k seed msg label) = k.
Proof. intros Hs Hm. unfold oaep_encode. rewrite zlen_cons, zlen_mask_db, zlen_oaep_db by done. lia. Qed.

Lemma bytes_oaep_encode k seed msg label : bytes seed -> bytes msg -> bytes (oaep_encode k seed msg label).
Proof.
  intros Hs Hm. apply Forall_cons. split; [done|]. unfold mask_db.
  pose proof (bytes_xor _ _ (bytes_oaep_db k msg label Hm) (bytes_mgf1 seed (zlen (oaep_db k msg label)))).
  apply Forall_app. split; [apply bytes_xor; [done|apply bytes_mgf1]|done].
Qed.

(** The writing of the data block, up to the random bytes. *)
Lemma add_layout_run {B} (K : list Z -> M B) to tlen from flen param plen s :
  add_ok to tlen from flen param plen ->
  exists sd tr, zlen sd = 20 /\
  (do! to <- lift (buf_set to 0 0);
   do! h <- EVP_Digest b param plen;
   do! to <- lift (buf_write to 21 h);
   do! to <- lift (buf_write to 41 (repeat 0 (Z.to_nat (tlen - 1 - flen - 40 - 1))));
   do! to <- lift (buf_set to (21 + (tlen - 1) - flen - 20 - 1) 1);
   do! to <- lift (buf_write to (21 + (tlen - 1) - flen - 20) (take (Z.to_nat flen) from));
   K to) s =
  K ([0] ++ sd ++ oaep_db tlen (take (Z.to_nat flen) from) (take (Z.to_nat plen) param)) (with_trace tr s).
Proof.
  intros [Hto Ht [Hf Hflen] Hfit (Hp & Hplen & Hp31)].
  set (msg := take (Z.to_nat flen) from). set (label := take (Z.to_nat plen) param).
  assert (Hmsg : zlen msg = flen) by (unfold msg; rewrite zlen_take; lia).
  destruct (oaep_layout to (fips_sha1 label) msg (Z.to_nat (tlen - 42 - flen))) as (sd & Hsd & El); [lia|apply zlen_fips_sha1|].
  apply obind_Ret in El as (t1 & E1 & El). apply obind_Ret in El as (t2 & E2 & El).
  apply obind_Ret in El as (t3 & E3 & El). apply obind_Ret in El as (t4 & E4 & E5).
  rewrite (bindM_lift _ _ _ _ E1).
  edestruct (@runs_in (list Z) B) as (h & tr & Eh & Hh);
    [apply (digest_runs param plen Hp); lia|rewrite Eh; clear Eh; subst h]. fold label.
  rewrite (bindM_lift _ _ _ _ E2).
  replace (tlen - 1 - flen - 40 - 1) with (tlen - 42 - flen) by lia. rewrite (bindM_lift _ _ _ _ E3).
  replace (21 + (tlen - 1) - flen - 20 - 1) with (41 + Z.of_nat (Z.to_nat (tlen - 42 - flen))) by lia.
  rewrite (bindM_lift _ _ _ _ E4).
  replace (21 + (tlen - 1) - flen - 20) with (42 + Z.of_nat (Z.to_nat (tlen - 42 - flen))) by lia.
  rewrite (bindM_lift _ _ _ _ E5). exists sd, tr. split; [done|]. unfold oaep_db. by rewrite Hmsg.
Qed.

(** The two ends of the encoding: done, and the block freed; or no random bytes, and
    the block is left. *)
Lemma oaep_add_run to tlen from flen param plen s :
  add_ok to tlen from flen param plen -> heap_ok s ->
  exists tr1,
  (0 < rv (env_reply tr1 (CRandBytes 20)) -> exists tr,
     RSA_padding_add_PKCS1_OAEP b to tlen from flen param plen s =
     Ret ((1, oaep_encode tlen (rand_bytes tr1) (take (Z.to_nat flen) from) (take (Z.to_nat plen) param)),
          Proc (heap s) (fresh s + 1) tr (fds s) (vars s))) /\
  (rv (env_reply tr1 (CRandBytes 20)) <= 0 -> exists to' tr mem,
     RSA_padding_add_PKCS1_OAEP b to tlen from flen param plen s =
     Ret ((0, to'), Proc (<[fresh s := Bytes mem]> (heap s)) (fresh s + 1) tr (fds s) (vars s)) /\
     zlen mem = tlen - 21).
Proof.
  intros Hadd Hok. pose proof Hadd as [Hto Ht [Hf Hflen] Hfit _]. unfold RSA_padding_add_PKCS1_OAEP, SHA_DIGEST_LENGTH.
  rewrite (proj2 (Z.ltb_ge _ flen)), (proj2 (Z.ltb_ge (tlen - 1) _)), (proj2 (Z.ltb_ge (zlen from) _)) by lia.
  destruct (malloc_run (tlen - 1 - 20) s) as [[Hnull _]|[_ (mem & Hmem' & Em)]]; [lia|by destruct (Hmem _ _ Hnull)|].
  rewrite (bindM_Ret _ _ _ _ _ Em). destruct (decide _) as [|_]; [done|].
  set (s1 := Proc _ _ _ _ _). rewrite (bindM_Ret _ _ s1 mem s1) by (apply view_run; cbn; apply lookup_insert_eq).
  edestruct (@add_layout_run (Z * list Z)) as (sd & tr1 & Hsd & El); [exact Hadd|].
  rewrite El. clear El.
  set (msg := take (Z.to_nat flen) from). set (label := take (Z.to_nat plen) param).
  assert (Hmsg : zlen msg = flen) by (unfold msg; rewrite zlen_take; lia).
  set (db := oaep_db tlen msg label). assert (Hdb : zlen db = tlen - 21) by (apply zlen_oaep_db; lia).
  exists tr1. set (seed := rand_bytes tr1). assert (Hseed : zlen seed = 20) by (unfold seed, rand_bytes, zlen; by rewrite length_resize).
  rewrite (bindM_Ret _ _ _ _ _ (RAND_bytes_run (with_trace tr1 s1))). cbn [trace with_trace]. fold seed.
  rewrite (bindM_lift _ ([0] ++ seed ++ db)).
  2: { change 1 with (zlen [0]) at 1. rewrite buf_write_at by (rewrite zlen_app; pose proof (zlen_nonneg db); lia).
    do 3 f_equal. apply drop_app_length'. unfold zlen in *. lia. }
  split; intros Hr.
  - rewrite (proj2 (Z.leb_gt _ 0)) by done. replace (tlen - 1 - 20) with (zlen db) by lia.
    replace (Z.to_nat (zlen db)) with (length db) by (unfold zlen; lia).
    destruct (add_mask_run ([0] ++ seed ++ db) seed db mem (fresh s) (with_trace (CRandBytes 20 :: tr1) (with_trace tr1 s1)))
      as (tr & Ea); [reflexivity| |by apply bytes_oaep_db, Forall_take|done|lia|lia|cbn; rewrite lookup_insert_eq; eauto|].
    { apply resized_bytes, bytes_map_u8. }
    exists tr. etransitivity; [exact Ea|]. unfold oaep_encode, set_heap, with_trace, s1. cbn. f_equal. f_equal. f_equal.
    apply delete_insert_id, Hok. lia.
  - rewrite (proj2 (Z.leb_le _ 0)) by done. eexists _, _, mem. split; [reflexivity|lia].
Qed.

(** ** Checking *)

(** The message in a data block: behind the hash, zeros and a one. *)
Fixpoint strip (l : list Z) : option (list Z) :=
  match l with
  | [] => None
  | x :: l => if x =? 0 then strip l else if x =? 1 then Some l else None
  end.

Definition parse_db (db phash : list Z) : option (list Z) :=
  if decide (take 20 db = phash) then strip (drop 20 db) else None.

Lemma strip_zeros z msg : strip (repeat 0 z ++ [1] ++ msg) = Some msg.
Proof. by induction z. Qed.

Lemma strip_inv l msg : strip l = Some msg -> exists z, l = repeat 0 z ++ [1] ++ msg.
Proof.
  induction l as [|x l IH]; [done|]. cbn [strip]. destruct (Z.eqb_spec x 0) as [->|].
  - intros H. destruct (IH H) as (z & ->). by exists (S z).
  - destruct (Z.eqb_spec x 1) as [->|]; [|done]. intros [= ->]. by exists 0%nat.
Qed.

(** The loop stops at the first byte that is not zero. *)
Lemma skip_zeros_run l : forall i,
  let j := skip_zeros l i (i + zlen l) in
  i <= j <= i + zlen l /\
  strip l = if j =? i + zlen l then None
            else if znth l (j - i) =? 1 then Some (drop (Z.to_nat (j + 1 - i)) l) else None.
Proof.
  induction l as [|x l IH]; intros i; cbn [skip_zeros strip].
  - rewrite zlen_nil, Z.add_0_r, Z.eqb_refl. split; [lia|reflexivity].
  - rewrite zlen_cons. pose proof (zlen_nonneg l). rewrite (proj2 (Z.ltb_lt i _)) by lia.
    destruct (Z.eqb_spec x 0) as [->|Hx]; cbn [negb].
    + specialize (IH (i + 1)). replace (i + 1 + zlen l) with (i + (1 + zlen l)) in IH by lia. cbn zeta in IH.
      set (j := skip_zeros l (i + 1) (i + (1 + zlen l))) in *. destruct IH as [Hj ->]. split; [lia|].
      destruct (j =? i + (1 + zlen l)); [reflexivity|].
      assert (Hn : znth (0 :: l) (j - i) = znth l (j - (i + 1))).
      { unfold znth. replace (Z.to_nat (j - i)) with (S (Z.to_nat (j - (i + 1)))) by lia. reflexivity. }
      rewrite Hn. destruct (_ =? 1); [|reflexivity].
      by replace (Z.to_nat (j + 1 - i)) with (S (Z.to_nat (j + 1 - (i + 1)))) by lia.
    + split; [lia|]. rewrite (proj2 (Z.eqb_neq i _)), Z.sub_diag by lia.
      change (znth (x :: l) 0) with x. destruct (x =? 1); [|reflexivity].
      by replace (Z.to_nat (i + 1 - i)) with 1%nat by lia.
Qed.

Lemma oaep_message_run db phash to tlen :
  20 <= zlen db ->
  oaep_message false db phash to tlen (zlen db) =
  match parse_db db phash with
  | Some m => if tlen <? zlen m then Ret (-1, to) else do to <- buf_write to 0 m; Ret (zlen m, to)
  | None => Ret (-1, to)
  end.
Proof.
  intros Hdb. unfold oaep_message, parse_db. rewrite orb_false_r.
  destruct (decide (take 20 db = phash)) as [Hh|Hh].
  2: { by rewrite bool_decide_eq_false_2. }
  rewrite bool_decide_eq_true_2 by done. cbn [negb]. unfold SHA_DIGEST_LENGTH.
  destruct (skip_zeros_run (drop 20 db) 20) as [Hj Es]. replace (20 + zlen (drop 20 db)) with (zlen db) in * by (rewrite zlen_drop; lia).
  cbn zeta in *. set (j := skip_zeros (drop 20 db) 20 (zlen db)) in *. rewrite Es.
  destruct (Z.eqb_spec j (zlen db)) as [|Hne]; [reflexivity|].
  assert (Hn : znth (drop 20 db) (j - 20) = znth db j).
  { rewrite !znth_lookup, lookup_drop by lia. do 2 f_equal. lia. }
  rewrite buf_get_ok, Hn by lia. cbn [obind]. destruct (Z.eqb_spec (znth db j) 1) as [E1|E1]; cbn [negb]; [|reflexivity].
  rewrite drop_drop. replace (20 + Z.to_nat (j + 1 - 20))%nat with (Z.to_nat (j + 1)) by lia.
  set (m := drop (Z.to_nat (j + 1)) db). assert (Hm : zlen m = zlen db - (j + 1)) by (unfold m; rewrite zlen_drop; lia).
  rewrite <- Hm, take_ge by (unfold zlen; lia). reflexivity.
Qed.

Lemma oaep_message_bad db phash to tlen dblen : oaep_message true db phash to tlen dblen = Ret (-1, to).
Proof. unfold oaep_message. by rewrite orb_true_r. Qed.

Lemma oaep_message_returns bad db phash to tlen :
  20 <= zlen db -> 0 <= tlen <= zlen to ->
  exists r to', oaep_message bad db phash to tlen (zlen db) = Ret (r, to').
Proof.
  intros Hdb Ht. destruct bad; [rewrite oaep_message_bad; eauto|]. rewrite oaep_message_run by done. destruct (parse_db db phash) as [m|]; [|eauto].
  destruct (Z.ltb_spec tlen (zlen m)); [eauto|]. rewrite buf_write_ok by lia. cbn [obind]. eauto.
Qed.

(** The inputs of the check. *)
Record check_ok (to : list Z) (tlen : Z) (from : list Z) (flen num : Z) (param : list Z) (plen : Z) : Prop := CheckOk {
  check_to : 0 <= tlen <= zlen to;
  check_num : 42 <= num < 2 ^ 30;
  check_from : bytes (take (Z.to_nat flen) from) /\ 0 <= flen <= zlen from;
  check_param : bytes param /\ 0 <= plen <= zlen param /\ plen < 2 ^ 31
}.

(** The number that [from] stands for, as [num - 1] bytes. *)
Definition padded (from : list Z) (flen num : Z) : list Z :=
  repeat 0 (Z.to_nat (num - 1 - flen)) ++ take (Z.to_nat flen) from.

Lemma zlen_padded from flen num :
  0 <= flen <= zlen from -> flen < num -> zlen (padded from flen num) = num - 1.
Proof. intros. unfold padded. rewrite zlen_app, zlen_repeat, zlen_take. lia. Qed.

(** The unmasking in the private block. *)
Lemma check_unmask_run {B} (K : list Z -> M B) db em s :
  zlen db = zlen em - 20 -> 20 <= zlen em < 2 ^ 30 -> bytes em ->
  exists tr,
  (do! seed <- MGF1 b (repeat 0 20) 20 (drop 20 em) (zlen em - 20);
   do! seed <- lift (xor_loop 20 0 0 em seed);
   do! db <- MGF1 b db (zlen em - 20) seed 20;
   do! db <- lift (xor_loop (Z.to_nat (zlen em - 20)) 0 0 (drop 20 em) db);
   K db) s = K (unmask em).2 (with_trace tr s).
Proof.
  intros Hdb Hem Hb. set (mdb := drop 20 em). assert (Hm : zlen mdb = zlen em - 20) by (unfold mdb; rewrite zlen_drop; lia).
  assert (Hbm : bytes mdb) by (by apply Forall_drop).
  edestruct (@runs_in (list Z) B) as (m1 & tr1 & E1 & Hm1);
    [apply (MGF1_runs (repeat 0 20) 20 mdb (zlen em - 20) Hbm); change (zlen (repeat 0 20)) with 20; lia|].
  rewrite E1. clear E1. rewrite (drop_ge (repeat 0 20)), app_nil_r, take_ge in Hm1 by (rewrite ?repeat_length; unfold zlen in *; lia).
  subst m1. set (seed := xor (take 20 em) (mgf1 mdb 20)).
  assert (Hs : zlen seed = 20) by (unfold seed; rewrite zlen_xor; [rewrite zlen_take; lia|rewrite zlen_mgf1, zlen_take; lia]).
  rewrite (bindM_lift _ seed).
  2: { unfold seed. rewrite xor_comm, <- (take_drop 20 em) at 1. pose proof (zlen_mgf1 mdb 20 ltac:(lia)).
    apply xor_prefix; [unfold zlen in *; lia|rewrite zlen_take; lia]. }
  edestruct (@runs_in (list Z) B) as (m2 & tr2 & E2 & Hm2);
    [apply (MGF1_runs db (zlen em - 20) seed 20); [apply bytes_xor; [by apply Forall_take|apply bytes_mgf1]|lia..]|].
  rewrite E2. clear E2. rewrite (drop_ge db), app_nil_r, take_ge in Hm2 by (unfold zlen in *; lia). subst m2.
  rewrite (bindM_lift _ (xor mdb (mgf1 seed (zlen mdb)))).
  2: { pose proof (zlen_mgf1 seed (zlen em - 20) ltac:(lia)). rewrite xor_comm, Hm, <- (app_nil_r mdb) at 1.
    apply xor_prefix; [unfold zlen in *; lia|lia]. }
  by exists tr2.
Qed.

(** Of a ciphertext that is too long, only [num - 1] bytes are looked at. *)
Lemma oaep_check_run to tlen from flen0 num param plen s :
  check_ok to tlen from flen0 num param plen -> heap_ok s ->
  let bad := num - 1 - flen0 <? 0 in
  let flen := Z.min flen0 (num - 1) in
  let db := (unmask (padded from flen num)).2 in
  let phash := fips_sha1 (take (Z.to_nat plen) param) in
  exists r to' tr,
    oaep_message bad db phash to tlen (num - 21) = Ret (r, to') /\
    RSA_padding_check_PKCS1_OAEP b to tlen from flen0 num param plen s =
    Ret ((r, to'), Proc (heap s) (fresh s + 1) tr (fds s) (vars s)).
Proof.
  intros [Hto Hnum [Hf Hflen0] (Hp & Hplen & Hp31)] Hok bad flen db phash.
  assert (Hflen : 0 <= flen <= zlen from) by lia. assert (Hfn : flen < num) by lia. set (em := padded from flen num) in *.
  assert (Hem : zlen em = num - 1) by (by apply zlen_padded).
  assert (Hbe : bytes em).
  { apply Forall_app. split; [apply bytes_zeros|]. replace (take (Z.to_nat flen) from) with (take (Z.to_nat flen) (take (Z.to_nat flen0) from)).
    - by apply Forall_take.
    - rewrite take_take, Nat.min_l by lia. done. }
  destruct (unmask em) as [seed db'] eqn:Eu. destruct (mask_unmask em seed db') as (_ & _ & Hdb); [lia|done|].
  destruct (oaep_message_returns bad db phash to tlen) as (r & to' & Em); [cbn [db snd]; lia|lia|].
  replace (zlen db) with (num - 21) in Em by (cbn [db snd]; lia). exists r, to'. unfold RSA_padding_check_PKCS1_OAEP, SHA_DIGEST_LENGTH.
  rewrite (proj2 (Z.ltb_ge (num - 1) _)) by lia. cbn zeta. fold bad.
  assert (Ef : (if bad then num - 1 else flen0) = flen) by (unfold bad, flen; destruct (Z.ltb_spec (num - 1 - flen0) 0); lia).
  assert (Ez : (if bad then 0 else num - 1 - flen0) = num - 1 - flen) by (unfold bad, flen; destruct (Z.ltb_spec (num - 1 - flen0) 0); lia).
  rewrite Ef, Ez.
  destruct (malloc_run (num - 1 - 20 + (num - 1)) s) as [[Hnull _]|[_ (mem & Hmem' & Ea)]]; [lia|by destruct (Hmem _ _ Hnull)|].
  rewrite (bindM_Ret _ _ _ _ _ Ea). destruct (decide _) as [|_]; [done|].
  set (s1 := Proc _ _ _ _ _). rewrite (bindM_Ret _ _ s1 mem s1) by (apply view_run; cbn; apply lookup_insert_eq).
  set (z := drop _ mem). assert (Hz : zlen z = num - 1) by (unfold z; rewrite zlen_drop; lia).
  rewrite (bindM_lift _ (repeat 0 (Z.to_nat (num - 1 - flen)) ++ drop (Z.to_nat (num - 1 - flen)) z)).
  2: { rewrite buf_write_ok by (rewrite ?zlen_repeat; lia). by rewrite splice_0, repeat_length. }
  rewrite (proj2 (Z.ltb_ge flen 0)), (proj2 (Z.ltb_ge (zlen from) flen)) by lia. cbn [orb].
  rewrite (bindM_lift _ em).
  2: { epose proof (buf_write_at (repeat 0 (Z.to_nat (num - 1 - flen))) (drop _ z) (take (Z.to_nat flen) from)) as Hw.
    rewrite zlen_repeat, Z2Nat.id in Hw by lia. rewrite Hw by (rewrite zlen_take, zlen_drop; lia).
    rewrite (drop_ge (drop _ z)), app_nil_r; [reflexivity|]. rewrite length_drop, length_take. unfold zlen in *. lia. }
  replace (num - 1 - 20) with (zlen em - 20) in * by lia.
  edestruct (fun K => @check_unmask_run (Z * list Z) K (take (Z.to_nat (zlen em - 20)) mem) em) as (tr1 & E1);
    [rewrite zlen_take; lia|lia|done|rewrite E1; clear E1].
  rewrite Eu. cbn [snd].
  edestruct (@runs_in (list Z) (Z * list Z)) as (h & tr2 & Eh & Hh);
    [apply (digest_runs param plen Hp); lia|rewrite Eh; clear Eh; subst h].
  replace (zlen em - 20) with (num - 21) by lia. rewrite (bindM_lift _ _ _ _ Em).
  erewrite bindM_Ret by (eapply free_run; cbn; apply lookup_insert_eq). eexists. split; [done|].
  unfold ret, set_heap, with_trace, s1. cbn. do 3 f_equal. apply delete_insert_id, Hok. lia.
Qed.

End Runs.

(** ** The theorems *)

(** What [parse_db] finds is the encoding. *)
Lemma parse_encode em num seed db msg label :
  zlen em = num - 1 -> 42 <= num -> unmask em = (seed, db) ->
  parse_db db (fips_sha1 label) = Some msg <->
  (zlen msg + 42 <= num /\ 0 :: em = oaep_encode num seed msg label).
Proof.
  intros Hem Hnum Eu. destruct (mask_unmask em seed db) as (Emk & Hs & Hdb); [lia|done|].
  pose proof (zlen_fips_sha1 label) as Hh. pose proof (zlen_nonneg msg). unfold parse_db, oaep_encode. split.
  - destruct (decide _) as [Ht|]; [|discriminate]. intros (z & Hz)%strip_inv.
    assert (Edb : db = fips_sha1 label ++ repeat 0 z ++ [1] ++ msg) by (rewrite <- Ht, <- Hz; symmetry; apply take_drop).
    assert (Hl : zlen db = 20 + Z.of_nat z + 1 + zlen msg).
    { rewrite Edb, !zlen_app, zlen_repeat, Hh. change (zlen [1]) with 1. lia. }
    split; [lia|]. f_equal. rewrite <- Emk. f_equal. rewrite Edb at 1. unfold oaep_db. do 3 f_equal. lia.
  - intros [Hm [= He]]. rewrite He, unmask_mask in Eu by done. injection Eu as Edb.
    rewrite <- Edb. unfold oaep_db. rewrite decide_True by (apply take_app_length'; unfold zlen in Hh; lia).
    rewrite drop_app_length' by (unfold zlen in Hh; lia). apply strip_zeros.
Qed.

(** An encoding stands for one message. *)
Lemma oaep_encode_inj num seed seed' msg msg' label :
  zlen seed = 20 -> zlen seed' = 20 -> zlen msg + 42 <= num -> zlen msg' + 42 <= num ->
  oaep_encode num seed msg label = oaep_encode num seed' msg' label -> msg' = msg.
Proof.
  intros Hs Hs' Hm Hm' He. set (em := mask_db seed (oaep_db num msg label)). pose proof (zlen_nonneg msg).
  assert (Hem : zlen em = num - 1) by (unfold em; rewrite zlen_mask_db, zlen_oaep_db by done; lia).
  pose proof (unmask_mask seed (oaep_db num msg label) Hs) as Eu. fold em in Eu. injection He as He'. fold em in He'.
  assert (seed = seed') as <- by (rewrite He', unmask_mask in Eu by done; congruence).
  assert (H1 : parse_db (oaep_db num msg label) (fips_sha1 label) = Some msg) by (by apply (parse_encode em num seed); [done|lia|done|]).
  assert (H2 : parse_db (oaep_db num msg label) (fips_sha1 label) = Some msg').
  { apply (parse_encode em num seed); [done|lia|done|]. split; [done|]. by rewrite He'. }
  congruence.
Qed.

(** The random generator works. *)
Definition rand_available {E : Env} : Prop := forall tr n, 0 < rv (env_reply tr (CRandBytes n)).

(** The padding that [RSA_public_encrypt] puts around a message is EME-OAEP of
    RFC 2437, with a seed of 20 bytes from the random generator: for every message that
    fits, with memory and random bytes available, the function returns 1, has written
    exactly the encoding, and has freed its block. *)
Lemma oaep_add_encodes {E : Env} b to tlen from flen param plen s :
  mem_available -> rand_available -> add_ok to tlen from flen param plen -> heap_ok s ->
  exists seed tr, bytes seed /\ zlen seed = 20 /\
    RSA_padding_add_PKCS1_OAEP b to tlen from flen param plen s =
    Ret ((1, oaep_encode tlen seed (take (Z.to_nat flen) from) (take (Z.to_nat plen) param)),
         Proc (heap s) (fresh s + 1) tr (fds s) (vars s)).
Proof.
  intros Hmem Hrand Ha Hok. destruct (oaep_add_run b Hmem to tlen from flen param plen s Ha Hok) as (tr1 & Hyes & _).
  destruct (Hyes (Hrand _ _)) as (tr & E1). exists (rand_bytes tr1), tr. split_and!; [|..|exact E1].
  - apply resized_bytes, bytes_map_u8.
  - unfold rand_bytes, zlen. by rewrite length_resize.
Qed.

Lemma oaep_check_spec {E : Env} b to tlen from flen num param plen s :
  mem_available -> check_ok to tlen from flen num param plen -> heap_ok s ->
  let label := take (Z.to_nat plen) param in
  let encodes msg := exists seed, flen < num /\ zlen seed = 20 /\ zlen msg + 42 <= num /\
    0 :: padded from flen num = oaep_encode num seed msg label in
  exists r to' tr,
    RSA_padding_check_PKCS1_OAEP b to tlen from flen num param plen s =
    Ret ((r, to'), Proc (heap s) (fresh s + 1) tr (fds s) (vars s)) /\
    ((exists msg, encodes msg /\ zlen msg <= tlen /\ r = zlen msg /\ to' = splice to 0 msg) \/
     (forall msg, encodes msg -> tlen < zlen msg) /\ r = -1 /\ to' = to).
Proof.
  intros Hmem Hc Hok label encodes.
  destruct (oaep_check_run b Hmem to tlen from flen num param plen s Hc Hok) as (r & to' & tr & Em & Er).
  exists r, to', tr. split; [exact Er|]. destruct Hc as [Hto Hnum [Hf Hflen] _].
  destruct (Z.ltb_spec (num - 1 - flen) 0) as [Hbad|Hfn].
  { rewrite oaep_message_bad in Em. injection Em as <- <-. right. split; [|done]. intros msg (? & ? & _). lia. }
  rewrite Z.min_l in Em by lia.
  set (em := padded from flen num) in *. assert (Hem : zlen em = num - 1) by (apply zlen_padded; lia).
  destruct (unmask em) as [seed db] eqn:Eu. destruct (mask_unmask em seed db) as (_ & Hs & Hdb); [lia|done|].
  cbn [snd] in Em. replace (num - 21) with (zlen db) in Em by lia. rewrite oaep_message_run in Em by lia. fold label in Em.
  assert (Hseed : forall msg, encodes msg -> parse_db db (fips_sha1 label) = Some msg).
  { intros msg (sd & _ & Hsd & Hm & He). assert (sd = seed) as ->.
    { injection He as He'. rewrite He', unmask_mask in Eu by done. congruence. }
    by apply (parse_encode em num seed db msg label Hem); [lia|done|]. }
  destruct (parse_db db (fips_sha1 label)) as [msg|] eqn:Ep.
  - apply (parse_encode em num seed db msg label Hem) in Ep as [Hm He]; [|lia|done].
    destruct (Z.ltb_spec tlen (zlen msg)).
    + right. injection Em as <- <-. split; [|done]. intros m' Hm'. injection (Hseed _ Hm') as <-. done.
    + left. rewrite buf_write_ok in Em by lia. cbn [obind] in Em. injection Em as <- <-.
      exists msg. split_and!; [exists seed; split_and!; lia || done|done..].
  - right. injection Em as <- <-. split; [|done]. intros m' Hm'. discriminate (Hseed _ Hm').
Qed.

(** C7: [RSA_padding_check_PKCS1_OAEP] accepts exactly the encodings.  Whatever bytes it
    is given (their leading zeros may have been dropped, or they may be too many), it
    ends and gives its block back; it returns the length of a message and stores the message when they are the
    encoding of it with some seed, and -1, leaving the output array alone, when they are
    not an encoding of any message that fits there. *)
Theorem oaep_check_exact {E : Env} b to tlen from flen num param plen s :
  mem_available -> check_ok to tlen from flen num param plen -> heap_ok s ->
  let label := take (Z.to_nat plen) param in
  let encodes msg := exists seed, flen < num /\ zlen seed = 20 /\ zlen msg + 42 <= num /\
    0 :: padded from flen num = oaep_encode num seed msg label in
  exists r to' tr,
    RSA_padding_check_PKCS1_OAEP b to tlen from flen num param plen s =
    Ret ((r, to'), Proc (heap s) (fresh s + 1) tr (fds s) (vars s)) /\
    ((exists msg, encodes msg /\ zlen msg <= tlen /\ r = zlen msg /\ to' = splice to 0 msg) \/
     (forall msg, encodes msg -> tlen < zlen msg) /\ r = -1 /\ to' = to).
Proof. apply oaep_check_spec. Qed.

(** C37: when the random generator fails, the encoding returns 0 and its block is never
    freed: the heap has grown by [tlen - 21] bytes. *)
Theorem oaep_add_leaks {E : Env} b to tlen from flen param plen s :
  mem_available -> (forall tr, rv (env_reply tr (CRandBytes 20)) <= 0) ->
  add_ok to tlen from flen param plen -> heap_ok s ->
  exists to' tr mem,
    RSA_padding_add_PKCS1_OAEP b to tlen from flen param plen s =
    Ret ((0, to'), Proc (<[fresh s := Bytes mem]> (heap s)) (fresh s + 1) tr (fds s) (vars s)) /\
    zlen mem = tlen - 21.
Proof.
  intros Hmem Hrand Ha Hok. destruct (oaep_add_run b Hmem to tlen from flen param plen s Ha Hok) as (tr1 & _ & Hno).
  apply Hno, Hrand.
Qed.

(** A key of 16 bytes in a block of 64, with the empty label. *)
Definition wit_key : list Z := seqZ 1 16.
Definition wit_buf : list Z := repeat 170 64.

Lemma wit_add_ok : add_ok wit_buf 64 wit_key 16 [] 0.
Proof.
  split; [reflexivity|lia| |lia|split; [constructor|split; [split; reflexivity || discriminate|lia]]].
  split; [apply (bool_decide_eq_true_1 (bytes wit_key)); vm_compute; reflexivity|split; discriminate].
Qed.

Lemma oaep_add_leaks_witness :
  exists to' tr mem,
    @RSA_padding_add_PKCS1_OAEP (env_lib 0) Unrolled wit_buf 64 wit_key 16 [] 0 proc0 =
    Ret ((0, to'), Proc (<[1 := Bytes mem]> ∅) 2 tr [] statics0) /\ zlen mem = 43.
Proof.
  apply (@oaep_add_leaks (env_lib 0) Unrolled wit_buf 64 wit_key 16 [] 0 proc0);
    [apply env_lib_mem|intros tr; discriminate|apply wit_add_ok|apply heap_ok_0].
Defined.

(** The encoding of the key with the seed 3, 4, ..., without its leading zero byte. *)
Definition wit_em : list Z := drop 1 (oaep_encode 64 (seqZ 3 20) wit_key []).

Lemma oaep_check_exact_witness :
  exists r to' tr,
    @RSA_padding_check_PKCS1_OAEP (env_lib 1) SmallFootprint (repeat 170 32) 32 wit_em 63 64 [] 0 proc0 =
    Ret ((r, to'), Proc ∅ 2 tr [] statics0) /\
    (exists msg, r = zlen msg /\ to' = splice (repeat 170 32) 0 msg /\
     exists seed, 0 :: wit_em = oaep_encode 64 seed msg []).
Proof.
  destruct (@oaep_check_exact (env_lib 1) SmallFootprint (repeat 170 32) 32 wit_em 63 64 [] 0 proc0)
    as (r & to' & tr & E & Hr).
  - apply env_lib_mem.
  - split; [split; discriminate|split; reflexivity || discriminate| |split; [constructor|split; [split; discriminate|reflexivity]]].
    split; [apply (bool_decide_eq_true_1 (bytes (take (Z.to_nat 63) wit_em))); vm_compute; reflexivity|split; vm_compute; discriminate].
  - apply heap_ok_0.
  - exists r, to', tr. split; [exact E|]. clear E. destruct Hr as [(msg & (seed & _ & _ & _ & He) & _ & Hr & Ht)|(Hno & _)].
    + exists msg. split; [exact Hr|]. split; [exact Ht|]. exists seed. change (take (Z.to_nat 0) []) with (@nil Z) in He. rewrite <- He. vm_compute. reflexivity.
    + assert (Hk : 32 < zlen wit_key); [apply Hno|vm_compute in Hk; discriminate Hk].
      exists (seqZ 3 20). split; [reflexivity|]. split; [reflexivity|]. split; [vm_compute; discriminate|vm_compute; reflexivity].
Defined.
