(* ===== verification/Modular.v ===== *)
(** * Modular: congruence modulo a number

    The equivalence that the arithmetic of OpenSSL's exponentiation computes up to, as a
    setoid: sums, products and powers respect it. *)

From S2P Require Import Prelude.

Definition cong (m a b : Z) : Prop := Z.divide m (a - b).

Notation "a ≡[ m ] b" := (cong m a b) (at level 70, m at level 99, format "a  ≡[ m ]  b") : c_scope.

#[export] Instance cong_equiv m : Equivalence (cong m).
Proof.
  split; unfold cong.
  - intros a. rewrite Z.sub_diag. apply Z.divide_0_r.
  - intros a b [k Hk]. exists (- k). lia.
  - intros a b c [k Hk] [k' Hk']. exists (k + k'). lia.
Qed.

#[export] Instance cong_add m : Proper (cong m ==> cong m ==> cong m) Z.add.
Proof. intros a a' [k Hk] b b' [k' Hk']. exists (k + k'). lia. Qed.

#[export] Instance cong_mul m : Proper (cong m ==> cong m ==> cong m) Z.mul.
Proof. intros a a' [k Hk] b b' [k' Hk']. exists (k * b + a' * k'). nia. Qed.

Lemma cong_iff m a b : m <> 0 -> a ≡[m] b <-> a mod m = b mod m.
Proof.
  intros Hm. unfold cong. split.
  - intros [k Hk]. replace a with (b + k * m) by lia. by apply Z.mod_add.
  - intros He. exists (a / m - b / m). pose proof (Z.div_mod a m Hm). pose proof (Z.div_mod b m Hm). nia.
Qed.

Lemma cong_mod m a : m <> 0 -> a mod m ≡[m] a.
Proof. intros Hm. apply cong_iff; [done|]. by apply Z.mod_mod. Qed.

Lemma cong_small m a b : a ≡[m] b -> 0 <= a < m -> a = b mod m.
Proof. intros Hc Ha. apply cong_iff in Hc; [|lia]. by rewrite <- Hc, Z.mod_small. Qed.

Lemma cong_pow m a a' n : 0 <= n -> a ≡[m] a' -> a ^ n ≡[m] a' ^ n.
Proof.
  intros Hn Ha. revert n Hn. apply natlike_ind; [reflexivity|]. intros n Hn IH. rewrite !Z.pow_succ_r by done.
  by rewrite IH, Ha.
Qed.

(** A factor that has an inverse can be cancelled. *)
Lemma cong_cancel m r s a b : r * s ≡[m] 1 -> r * a ≡[m] r * b -> a ≡[m] b.
Proof.
  intros Hrs Hab. rewrite <- (Z.mul_1_l a), <- (Z.mul_1_l b), <- Hrs.
  replace (r * s * a) with (s * (r * a)) by lia. replace (r * s * b) with (s * (r * b)) by lia. by rewrite Hab.
Qed.
