(* ===== verification/Bn.v ===== *)
(** * Bn: the big numbers of OpenSSL

    src/jni/openssl/crypto/bn: the representation (bn_lib.c) and the loops over words
    (bn_asm.c), in the configuration of the repository: words of 32 bits and a 64-bit
    [BN_ULLONG].  A [BIGNUM] is the list of its [top] words, least significant first; the
    words behind them, up to [dmax], are never read before they are written, so only
    their number is kept.  A function that can run out of memory returns [None] where the
    code goes to its error exit; the loops that the source unrolls by four are written
    with one step. *)

From S2P Require Import Prelude Sys.

(** [if (!m) goto err;] *)
Notation "'do?' x <- m ; k" := (bindM m (fun o => match o with Some x => k | None => ret None end))
  (at level 10, x name, m at level 100, k at level 200) : c_scope.

(** ** Representation *)

Record BIGNUM : Type := Bignum { words : list Z; dmax : Z; neg : Z }.

Definition top (a : BIGNUM) : Z := zlen a.(words).

Definition BN_BITS2 : Z := 32.
Definition BN_BYTES : Z := 4.
Definition BN_MASK2 : Z := 0xffffffff.

(** [bn_correct_top]: leading zero words are not part of the number. *)
Fixpoint correct_top (l : list Z) : list Z :=
  match l with
  | [] => []
  | x :: l => match correct_top l with
              | [] => if x =? 0 then [] else [x]
              | l' => x :: l'
              end
  end.

Definition bn_correct_top (a : BIGNUM) : BIGNUM := Bignum (correct_top a.(words)) a.(dmax) a.(neg).

Definition BN_is_zero (a : BIGNUM) : bool := top a =? 0.
Definition BN_is_odd (a : BIGNUM) : bool := (0 <? top a) && negb (znth a.(words) 0 .& 1 =? 0).

(** [bits] of [BN_num_bits_word] *)
Definition bits : list Z :=
  [0; 1] ++ repeat 2 2 ++ repeat 3 4 ++ repeat 4 8 ++ repeat 5 16 ++ repeat 6 32 ++ repeat 7 64 ++ repeat 8 128.

Definition BN_num_bits_word (l : Z) : Z :=
  if negb (l .& 0xffff0000 =? 0) then
    if negb (l .& 0xff000000 =? 0) then znth bits (l .>> 24) + 24 else znth bits (l .>> 16) + 16
  else if negb (l .& 0xff00 =? 0) then znth bits (l .>> 8) + 8
  else znth bits l.

Definition BN_num_bits (a : BIGNUM) : Z :=
  let i := top a - 1 in
  if BN_is_zero a then 0 else i * BN_BITS2 + BN_num_bits_word (znth a.(words) i).

Definition BN_num_bytes (a : BIGNUM) : Z := (BN_num_bits a + 7) / 8.

Definition BN_is_bit_set (a : BIGNUM) (n : Z) : Z :=
  if n <? 0 then 0
  else
    let i := n / BN_BITS2 in
    let j := n mod BN_BITS2 in
    if top a <=? i then 0 else (znth a.(words) i .>> j) .& 1.

(** The loop of [BN_ucmp], from the most significant words on. *)
Fixpoint ucmp_loop (ap bp : list Z) : Z :=
  match ap, bp with
  | t1 :: ap, t2 :: bp => if negb (t1 =? t2) then if t2 <? t1 then 1 else -1 else ucmp_loop ap bp
  | _, _ => 0
  end.

Definition BN_ucmp (a b : BIGNUM) : Z :=
  let i := top a - top b in
  if negb (i =? 0) then i else ucmp_loop (rev a.(words)) (rev b.(words)).

Section Memory.
Context {E : Env}.

(** [bn_wexpand(a, n)]: room for [n] words. *)
Definition bn_wexpand (a : BIGNUM) (n : Z) : M (option BIGNUM) :=
  if n <=? a.(dmax) then ret (Some a)
  else if INT_MAX / (4 * BN_BITS2) <? n then ret None
  else
    do! r <- syscall (CMalloc (BN_BYTES * n));
    ret (if r =? 0 then None else Some (Bignum a.(words) n a.(neg))).

(** [BN_new()] *)
Definition BN_new : M (option BIGNUM) :=
  do! ok <- malloc_struct 20; ret (if ok then Some (Bignum [] 0 0) else None).

(** [BN_copy(a, b)] *)
Definition BN_copy (a b : BIGNUM) : M (option BIGNUM) :=
  do? a <- bn_wexpand a (top b); ret (Some (Bignum b.(words) a.(dmax) b.(neg))).

(** [BN_set_word(a, w)] *)
Definition BN_set_word (a : BIGNUM) (w : Z) : M (option BIGNUM) :=
  do? a <- bn_wexpand a 1; ret (Some (Bignum (if w =? 0 then [] else [w]) a.(dmax) 0)).

(** ** Bytes *)

(** The loop of [BN_bin2bn]: the words stored so far are [d], the lowest first. *)
Fixpoint bin_loop (s : list Z) (m l : Z) (d : list Z) : list Z :=
  match s with
  | [] => d
  | x :: s =>
      let l := u32 (l .<< 8) .| x in
      if m =? 0 then bin_loop s (BN_BYTES - 1) 0 (l :: d) else bin_loop s (m - 1) l d
  end.

(** [BN_bin2bn(s, len, ret)] with [ret] not NULL. *)
Definition BN_bin2bn (s : list Z) (len : Z) (a : BIGNUM) : M (option BIGNUM) :=
  if len =? 0 then ret (Some (Bignum [] a.(dmax) a.(neg)))
  else
    let i := (len - 1) / BN_BYTES + 1 in
    let m := (len - 1) mod BN_BYTES in
    do? a <- bn_wexpand a i;
    if zlen s <? len then undef OutOfBounds
    else ret (Some (bn_correct_top (Bignum (bin_loop (take (Z.to_nat len) s) m 0 []) a.(dmax) 0))).

(** With [ret] NULL. *)
Definition BN_bin2bn_new (s : list Z) (len : Z) : M (option BIGNUM) :=
  do? a <- BN_new; BN_bin2bn s len a.

End Memory.

(** The loop of [BN_bn2bin], for the bytes [i - 1], ..., 0. *)
Fixpoint bn2bin_loop (i : nat) (d : list Z) : list Z :=
  match i with
  | O => []
  | S i =>
      let l := znth d (Z.of_nat i / BN_BYTES) in
      ((l .>> (8 * (Z.of_nat i mod BN_BYTES))) .& 0xff) :: bn2bin_loop i d
  end.

(** [BN_bn2bin(a, to)]: the bytes that are written to [to]; it returns their number. *)
Definition BN_bn2bin (a : BIGNUM) : list Z := bn2bin_loop (Z.to_nat (BN_num_bytes a)) a.(words).

(** ** Words *)

Definition Lw (t : Z) : Z := u32 t .& BN_MASK2.
Definition Hw (t : Z) : Z := u32 (t .>> BN_BITS2) .& BN_MASK2.

(** [bn_mul_add_words(rp, ap, num, w)] from the carry [c1] on: [rp] and the carry. *)
Fixpoint bn_mul_add_words (rp ap : list Z) (num : nat) (w c1 : Z) {struct num} : outcome (list Z * Z) :=
  match num with
  | O => Ret (rp, c1)
  | S num =>
      match rp, ap with
      | r :: rp, a :: ap =>
          let t := u64 (w * a + r + c1) in
          do '(rp, c1) <- bn_mul_add_words rp ap num w (Hw t);
          Ret (Lw t :: rp, c1)
      | _, _ => UB OutOfBounds
      end
  end.

(** [bn_mul_words(rp, ap, num, w)]; what [rp] held does not matter. *)
Fixpoint bn_mul_words (rp ap : list Z) (num : nat) (w c1 : Z) {struct num} : outcome (list Z * Z) :=
  match num with
  | O => Ret (rp, c1)
  | S num =>
      match rp, ap with
      | _ :: rp, a :: ap =>
          let t := u64 (w * a + c1) in
          do '(rp, c1) <- bn_mul_words rp ap num w (Hw t);
          Ret (Lw t :: rp, c1)
      | _, _ => UB OutOfBounds
      end
  end.

(** [bn_sub_words(r, a, b, n)] from the borrow [c] on: the words of [r] and the borrow.
    An equal pair of words leaves the borrow as it is. *)
Fixpoint bn_sub_words (a b : list Z) (n : nat) (c : Z) {struct n} : outcome (list Z * Z) :=
  match n with
  | O => Ret ([], c)
  | S n =>
      match a, b with
      | t1 :: a, t2 :: b =>
          let r := u32 (t1 - t2 - c) .& BN_MASK2 in
          let c := if negb (t1 =? t2) then (if t1 <? t2 then 1 else 0) else c in
          do '(rs, c) <- bn_sub_words a b n c;
          Ret (r :: rs, c)
      | _, _ => UB OutOfBounds
      end
  end.

(** The loop of [bn_mul_normal]: [r] starts at the word that [b] is at. *)
Fixpoint mul_normal_loop (r a b : list Z) (na : nat) : outcome (list Z) :=
  match b with
  | [] => Ret r
  | w :: b =>
      do '(r, c) <- bn_mul_add_words r a na w 0;
      do r <- buf_set r (Z.of_nat na) c;
      match r with
      | x :: r => do r <- mul_normal_loop r a b na; Ret (x :: r)
      | [] => UB OutOfBounds
      end
  end.

(** [bn_mul_normal(r, a, na, b, nb)] *)
Definition bn_mul_normal (r a b : list Z) : outcome (list Z) :=
  let '(a, b) := if zlen a <? zlen b then (b, a) else (a, b) in
  match b with
  | [] => do '(r, _) <- bn_mul_words r a (length a) 0 0; Ret r
  | w :: b =>
      do '(r, c) <- bn_mul_words r a (length a) w 0;
      do r <- buf_set r (zlen a) c;
      match r with
      | x :: r => do r <- mul_normal_loop r a b (length a); Ret (x :: r)
      | [] => UB OutOfBounds
      end
  end.
