(* ===== verification/BnProofs.v ===== *)
(** * BnProofs: what the big numbers stand for

    The value of a list of words ([bval]) and of big-endian bytes ([be_val]); the
    functions of [Bn] compute on these values.  [bn_ok] is the invariant of a [BIGNUM]:
    32-bit words, no leading zero word, not negative. *)

From S2P Require Import Prelude Sys Runs Bn.

Definition B : Z := 2 ^ 32.

Lemma B_val : B = 4294967296.
Proof. reflexivity. Qed.

Lemma B_pow2 n : 0 <= n -> B ^ n = 2 ^ (32 * n).
Proof. intros Hn. rewrite Z.pow_mul_r by lia. reflexivity. Qed.

#[global] Opaque B.

(** ** Words *)

Fixpoint bval (l : list Z) : Z :=
  match l with [] => 0 | x :: l => x + B * bval l end.

Definition all_u32 (l : list Z) : Prop := Forall is_u32 l.

Lemma bval_app l l' : bval (l ++ l') = bval l + B ^ zlen l * bval l'.
Proof.
  induction l as [|x l IH]; [rewrite (@zlen_nil Z); cbn [app bval]; lia|]. cbn [app bval].
  rewrite IH, zlen_cons, Z.pow_add_r by (pose proof (zlen_nonneg l); lia). lia.
Qed.

Lemma B_pos : 0 < B.
Proof. by rewrite B_val. Qed.

Lemma B_pow_pos n : 0 <= n -> 0 < B ^ n.
Proof. intros. apply Z.pow_pos_nonneg; [apply B_pos|done]. Qed.

Lemma bval_range l : all_u32 l -> 0 <= bval l < B ^ zlen l.
Proof.
  induction 1 as [|x l Hx _ IH]; [rewrite (@zlen_nil Z); cbn [bval]; lia|]. unfold is_u32 in Hx.
  rewrite <- B_val in Hx. pose proof (zlen_nonneg l). cbn [bval]. rewrite zlen_cons, Z.pow_add_r, Z.pow_1_r by lia. nia.
Qed.

Lemma bval_repeat n : bval (repeat 0 n) = 0.
Proof. induction n as [|n IH]; [done|]. cbn [repeat bval]. lia. Qed.

Lemma bval_inj l l' : all_u32 l -> all_u32 l' -> length l = length l' -> bval l = bval l' -> l = l'.
Proof.
  intros H. revert l'. induction H as [|x l Hx Hl IH]; intros [|y l'] Hl' Hn Hv; try done.
  inversion Hl' as [|? ? Hy Hl'']; subst. unfold is_u32 in *. rewrite <- B_val in *. cbn [bval length] in *.
  assert (Hq : bval l = bval l') by nia. f_equal; [nia|]. by apply IH; [|lia|].
Qed.

(** ** The loops over words *)

Lemma Lw_eq t : Lw t = t mod B.
Proof.
  unfold Lw, BN_MASK2. change 0xffffffff with (Z.ones 32). rewrite Z.land_ones by lia. unfold u32.
  change (2 ^ 32) with 4294967296. rewrite Z.mod_mod by lia. by rewrite B_val.
Qed.

Lemma Hw_eq t : 0 <= t < B * B -> Hw t = t / B.
Proof.
  intros Ht. unfold Hw, BN_MASK2, BN_BITS2. change 0xffffffff with (Z.ones 32). rewrite Z.land_ones by lia.
  rewrite Z.shiftr_div_pow2 by lia. unfold u32. rewrite B_val in *. change (2 ^ 32) with 4294967296.
  rewrite Z.mod_mod, Z.mod_small; [done| |lia]. Z.div_mod_to_equations. lia.
Qed.

(** One step of a multiplication: the double word does not overflow. *)
Lemma mul_step w a r c :
  is_u32 w -> is_u32 a -> is_u32 r -> is_u32 c ->
  let t := u64 (w * a + r + c) in
  is_u32 (Lw t) /\ is_u32 (Hw t) /\ Lw t + B * Hw t = w * a + r + c.
Proof.
  unfold is_u32. rewrite <- B_val. intros Hw' Ha Hr Hc. cbn zeta. pose proof B_pos.
  assert (Hb : 0 <= w * a + r + c < B * B) by nia.
  assert (Hu : u64 (w * a + r + c) = w * a + r + c) by (apply Z.mod_small; rewrite B_val in Hb; lia).
  rewrite Hu, Lw_eq, Hw_eq by done. pose proof (Z.div_mod (w * a + r + c) B ltac:(lia)).
  pose proof (Z.mod_pos_bound (w * a + r + c) B ltac:(lia)).
  split_and!; [lia|lia|apply Z.div_pos; lia|apply Z.div_lt_upper_bound; lia|lia].
Qed.

Lemma mul_add_words_run ap : forall rp rest w c,
  all_u32 ap -> all_u32 rp -> length rp = length ap -> is_u32 w -> is_u32 c ->
  exists r' c', bn_mul_add_words (rp ++ rest) ap (length ap) w c = Ret (r' ++ rest, c') /\
    all_u32 r' /\ length r' = length rp /\ is_u32 c' /\
    bval r' + B ^ zlen rp * c' = bval rp + w * bval ap + c.
Proof.
  induction ap as [|a ap IH]; intros [|r rp] rest w c Ha Hr Hl Hiw Hc; try discriminate.
  { exists [], c. split_and!; [done|constructor|done|done|]. rewrite (@zlen_nil Z). cbn [bval]. lia. }
  inversion Ha; inversion Hr; subst. cbn [length bn_mul_add_words app].
  destruct (mul_step w a r c) as (H1' & H2' & H3'); [done..|]. set (t := u64 _) in *.
  destruct (IH rp rest w (Hw t)) as (r' & c' & E1 & Hr' & Hl' & Hc' & Hv); [done|done|by injection Hl|done|done|].
  rewrite E1. cbn [obind]. exists (Lw t :: r'), c'. split_and!; [done|by constructor|cbn [length]; lia|done|].
  cbn [bval]. rewrite zlen_cons, Z.pow_add_r, Z.pow_1_r by (pose proof (zlen_nonneg rp); lia). nia.
Qed.

Lemma mul_words_run ap : forall rp rest w c,
  all_u32 ap -> length rp = length ap -> is_u32 w -> is_u32 c ->
  exists r' c', bn_mul_words (rp ++ rest) ap (length ap) w c = Ret (r' ++ rest, c') /\
    all_u32 r' /\ length r' = length rp /\ is_u32 c' /\ bval r' + B ^ zlen rp * c' = w * bval ap + c.
Proof.
  induction ap as [|a ap IH]; intros [|r rp] rest w c Ha Hl Hiw Hc; try discriminate.
  { exists [], c. split_and!; [done|constructor|done|done|]. rewrite (@zlen_nil Z). cbn [bval]. lia. }
  inversion Ha; subst. cbn [length bn_mul_words app].
  destruct (mul_step w a 0 c) as (H1' & H2' & H3'); [done|done|done|done|]. rewrite Z.add_0_r in *. set (t := u64 _) in *.
  destruct (IH rp rest w (Hw t)) as (r' & c' & E1 & Hr' & Hl' & Hc' & Hv); [done|by injection Hl|done|done|].
  rewrite E1. cbn [obind]. exists (Lw t :: r'), c'. split_and!; [done|by constructor|cbn [length]; lia|done|].
  cbn [bval]. rewrite zlen_cons, Z.pow_add_r, Z.pow_1_r by (pose proof (zlen_nonneg rp); lia). nia.
Qed.

(** The difference modulo [B ^ n], and whether it is negative. *)
Lemma sub_words_run b : forall a rest c,
  all_u32 a -> all_u32 b -> length a = length b -> (c = 0 \/ c = 1) ->
  exists r c', bn_sub_words (a ++ rest) b (length b) c = Ret (r, c') /\
    all_u32 r /\ length r = length b /\ (c' = 0 \/ c' = 1) /\
    bval r = bval a - bval b - c + B ^ zlen b * c'.
Proof.
  induction b as [|t2 b IH]; intros [|t1 a] rest c Ha Hb Hl Hc; try discriminate.
  { exists [], c. split_and!; [done|constructor|done|done|]. rewrite (@zlen_nil Z). cbn [bval]. lia. }
  inversion Ha as [|? ? Ht1 Ha']; inversion Hb as [|? ? Ht2 Hb']; subst. cbn [length bn_sub_words app].
  set (c1 := if negb (t1 =? t2) then _ else _).
  assert (Hc1 : (c1 = 0 \/ c1 = 1) /\ u32 (t1 - t2 - c) = t1 - t2 - c + B * c1).
  { unfold c1, u32. unfold is_u32 in *. rewrite <- B_val in *. pose proof B_pos.
    destruct (Z.eqb_spec t1 t2) as [->|Hne]; cbn [negb].
    - split; [done|]. destruct Hc as [-> | ->].
      + rewrite Z.mod_small; lia.
      + replace (t2 - t2 - 1) with (B - 1 + (-1) * B) by lia. rewrite Z.mod_add, Z.mod_small; lia.
    - destruct (Z.ltb_spec t1 t2) as [Hlt|Hge].
      + split; [by right|]. replace (t1 - t2 - c) with (t1 - t2 - c + B + (-1) * B) at 1 by lia.
        rewrite Z.mod_add, Z.mod_small; lia.
      + split; [by left|]. rewrite Z.mod_small; lia. }
  destruct Hc1 as [Hc1 Hu]. destruct (IH a rest c1) as (r & c' & E1 & Hr & Hlr & Hc' & Hv); [done|done|by injection Hl|done|].
  rewrite E1. cbn [obind].
  assert (Hland : u32 (t1 - t2 - c) .& BN_MASK2 = u32 (t1 - t2 - c)).
  { unfold BN_MASK2. change 0xffffffff with (Z.ones 32). rewrite Z.land_ones by lia. apply Z.mod_small, u32_range. }
  rewrite Hland. eexists _, c'. split_and!; [done|constructor; [apply u32_range|done]|cbn [length]; lia|done|].
  cbn [bval]. rewrite zlen_cons, Z.pow_add_r, Z.pow_1_r, Hu by (pose proof (zlen_nonneg b); lia). nia.
Qed.

(** The product, when the result array has the room of both factors. *)
Lemma mul_normal_loop_run b : forall r a,
  all_u32 a -> all_u32 b -> all_u32 r -> length r = length a -> forall rest, length rest = length b ->
  exists r', mul_normal_loop (r ++ rest) a b (length a) = Ret r' /\ all_u32 r' /\
    length r' = (length a + length b)%nat /\ bval r' = bval r + bval a * bval b.
Proof.
  induction b as [|w b IH]; intros r a Ha Hb Hr Hl rest Hrest; cbn [mul_normal_loop].
  { destruct rest; [|discriminate]. exists r. rewrite app_nil_r. split_and!; [done|done|cbn [length]; lia|]. cbn [bval]. lia. }
  destruct rest as [|z rest]; [discriminate|]. inversion Hb as [|? ? Hw' Hb']; subst.
  destruct (mul_add_words_run a r (z :: rest) w 0) as (r1 & c & E1 & Hr1 & Hl1 & Hc & Hv); [done..|].
  rewrite E1. cbn [obind]. replace (Z.of_nat (length a)) with (zlen r1) by (unfold zlen; lia).
  rewrite buf_set_mid. cbn [obind]. pose proof (zlen_nonneg r1) as Hz.
  destruct r1 as [|x r1].
  { destruct r; [|discriminate]. destruct a; [|discriminate]. cbn [app]. rewrite (@zlen_nil Z) in Hv. cbn [bval] in *.
    destruct (IH [] []) with (rest := rest) as (r' & E2 & Hr' & Hl' & Hv'); [done..|by injection Hrest|].
    cbn [app] in E2. rewrite E2. cbn [obind]. exists (c :: r').
    split_and!; [done|by constructor|cbn [length] in *; lia|]. cbn [bval] in *. lia. }
  inversion Hr1 as [|? ? Hx Hr1']; subst. cbn [app].
  replace (r1 ++ c :: rest) with ((r1 ++ [c]) ++ rest) by (by rewrite <- app_assoc).
  destruct (IH (r1 ++ [c]) a) with (rest := rest) as (r' & E2 & Hr' & Hl' & Hv');
    [done|done|apply Forall_app; split; [done|by apply Forall_singleton]|rewrite length_app; cbn [length] in *; lia|by injection Hrest|].
  rewrite E2. cbn [obind]. exists (x :: r'). split_and!; [done|by constructor|cbn [length] in *; lia|].
  cbn [bval]. rewrite Hv', bval_app. cbn [bval] in Hv |- *.
  replace (zlen r) with (1 + zlen r1) in Hv by (unfold zlen in *; cbn [length] in *; lia).
  rewrite Z.pow_add_r, Z.pow_1_r in Hv by (pose proof (zlen_nonneg r1); lia). nia.
Qed.

Lemma mul_normal_run r a b :
  all_u32 a -> all_u32 b -> length r = (length a + length b)%nat -> b <> [] -> a <> [] ->
  exists r', bn_mul_normal r a b = Ret r' /\ all_u32 r' /\ length r' = length r /\ bval r' = bval a * bval b.
Proof.
  intros Ha Hb Hl Hbn Han. unfold bn_mul_normal.
  assert (Hsym : exists a' b', (if zlen a <? zlen b then (b, a) else (a, b)) = (a', b') /\ all_u32 a' /\ all_u32 b' /\
    length r = (length a' + length b')%nat /\ b' <> [] /\ a' <> [] /\ bval a' * bval b' = bval a * bval b).
  { destruct (zlen a <? zlen b); [exists b, a|exists a, b]; split_and!; try done; lia. }
  destruct Hsym as (a' & b' & -> & Ha' & Hb' & Hl' & Hbn' & Han' & <-). clear Ha Hb Hbn Han. destruct b' as [|w b']; [done|].
  inversion Hb' as [|? ? Hw' Hb'']; subst. cbn [length] in Hl'.
  destruct (mul_words_run a' (take (length a') r) (drop (length a') r) w 0) as (r1 & c & E1 & Hr1 & Hl1 & Hc & Hv);
    [done|rewrite length_take; lia|done|done|]. rewrite take_drop in E1. rewrite E1. cbn [obind].
  rewrite length_take, Nat.min_l in Hl1 by lia. destruct (drop (length a') r) as [|z rest] eqn:Ed.
  { apply (f_equal length) in Ed. rewrite length_drop in Ed. cbn [length] in Ed. lia. }
  assert (Hrest : length rest = length b').
  { apply (f_equal length) in Ed. rewrite length_drop in Ed. cbn [length] in Ed. lia. }
  replace (zlen a') with (zlen r1) by (unfold zlen; lia). rewrite buf_set_mid. cbn [obind].
  destruct r1 as [|x r1]; [destruct a'; done|]. inversion Hr1 as [|? ? Hx Hr1']; subst. cbn [app].
  replace (r1 ++ c :: rest) with ((r1 ++ [c]) ++ rest) by (by rewrite <- app_assoc).
  destruct (mul_normal_loop_run b' (r1 ++ [c]) a') with (rest := rest) as (r' & E2 & Hr' & Hlr & Hv');
    [done|done|apply Forall_app; split; [done|by apply Forall_singleton]|rewrite length_app; cbn [length] in *; lia|done|].
  rewrite E2. cbn [obind]. exists (x :: r'). split_and!; [done|by constructor|cbn [length] in *; lia|].
  cbn [bval]. rewrite Hv', bval_app. cbn [bval] in Hv |- *.
  replace (zlen (take (length a') r)) with (1 + zlen r1) in Hv by (unfold zlen; rewrite length_take; cbn [length] in *; lia).
  rewrite Z.pow_add_r, Z.pow_1_r in Hv by (pose proof (zlen_nonneg r1); lia). nia.
Qed.

(** ** Normal form *)

Definition normal (l : list Z) : Prop := correct_top l = l.

Record bn_ok (a : BIGNUM) : Prop := BnOk {
  ok_words : all_u32 a.(words);
  ok_normal : normal a.(words);
  ok_dmax : top a <= a.(dmax);
  ok_neg : a.(neg) = 0
}.

Definition bn_val (a : BIGNUM) : Z := bval a.(words).

Lemma correct_top_zeros l : exists n, l = correct_top l ++ repeat 0 n.
Proof.
  induction l as [|x l [n IH]]; [by exists 0%nat|]. cbn [correct_top].
  destruct (correct_top l) as [|y l'] eqn:Ec.
  - destruct (Z.eqb_spec x 0) as [->|]; [exists (S n)|exists n]; rewrite IH at 1; done.
  - exists n. rewrite IH at 1. done.
Qed.

Lemma correct_top_idem l : normal (correct_top l).
Proof.
  unfold normal. induction l as [|x l IH]; [done|]. cbn [correct_top].
  destruct (correct_top l) as [|y l'] eqn:Ec.
  - destruct (Z.eqb_spec x 0) as [|Hx]; [done|]. cbn. by rewrite (proj2 (Z.eqb_neq x 0)).
  - change (correct_top (x :: y :: l')) with
      (match correct_top (y :: l') with [] => if x =? 0 then [] else [x] | l'' => x :: l'' end). by rewrite IH.
Qed.

Lemma bval_correct_top l : bval (correct_top l) = bval l.
Proof. destruct (correct_top_zeros l) as [n E]. rewrite E at 2. rewrite bval_app, bval_repeat. lia. Qed.

Lemma all_u32_correct_top l : all_u32 l -> all_u32 (correct_top l).
Proof. destruct (correct_top_zeros l) as [n E]. rewrite E at 1. by intros [? _]%Forall_app. Qed.

Lemma zlen_correct_top l : zlen (correct_top l) <= zlen l.
Proof. destruct (correct_top_zeros l) as [n E]. rewrite E at 2. rewrite zlen_app, zlen_repeat. lia. Qed.

(** The most significant word of a number in normal form is not zero. *)
Lemma normal_last l x : normal (l ++ [x]) -> x <> 0.
Proof.
  unfold normal. induction l as [|y l IH]; cbn [app correct_top].
  - destruct (Z.eqb_spec x 0) as [|Hx]; done.
  - destruct (correct_top (l ++ [x])) as [|z l'] eqn:Ec.
    + destruct (y =? 0); [done|]. intros [= H]. by destruct l.
    + intros [= H]. apply IH. congruence.
Qed.

Lemma normal_lower l : all_u32 l -> normal l -> l <> [] -> B ^ (zlen l - 1) <= bval l.
Proof.
  intros Hu Hn Hne. destruct (exists_last Hne) as (l0 & x & ->). apply normal_last in Hn.
  apply Forall_app in Hu as [Hu0 Hx]. inversion Hx as [|? ? Hx0 _]; subst. unfold is_u32 in Hx0.
  rewrite bval_app, zlen_app. change (zlen [x]) with 1. cbn [bval]. pose proof (bval_range l0 Hu0).
  pose proof (B_pow_pos (zlen l0) (zlen_nonneg l0)). replace (zlen l0 + 1 - 1) with (zlen l0) by lia. nia.
Qed.

Lemma normal_zero l : all_u32 l -> normal l -> bval l = 0 -> l = [].
Proof.
  intros Hu Hn Hz. destruct l as [|x l]; [done|]. exfalso.
  pose proof (normal_lower (x :: l) Hu Hn ltac:(done)). pose proof (B_pow_pos (zlen (x :: l) - 1)).
  rewrite zlen_cons in *. pose proof (zlen_nonneg l). lia.
Qed.

(** Numbers in normal form are equal when their values are. *)
Lemma normal_inj l l' : all_u32 l -> all_u32 l' -> normal l -> normal l' -> bval l = bval l' -> l = l'.
Proof.
  intros Hu Hu' Hn Hn' Hv. pose proof (bval_range l Hu). pose proof (bval_range l' Hu').
  destruct (decide (l = [])) as [->|Hne]; [symmetry; by apply normal_zero|].
  destruct (decide (l' = [])) as [->|Hne']; [by apply normal_zero|].
  pose proof (normal_lower l Hu Hn Hne). pose proof (normal_lower l' Hu' Hn' Hne').
  pose proof (zlen_nonneg l). pose proof (zlen_nonneg l').
  assert (zlen l - 1 < zlen l') by (apply (Z.pow_lt_mono_r_iff B); [rewrite B_val; lia|lia|lia]).
  assert (zlen l' - 1 < zlen l) by (apply (Z.pow_lt_mono_r_iff B); [rewrite B_val; lia|lia|lia]).
  apply bval_inj; [done..|unfold zlen in *; lia|done].
Qed.

(** ** Bits *)

(** The number of bits of a number. *)
Definition nbits (x : Z) : Z := if x =? 0 then 0 else Z.log2 x + 1.

Lemma nbits_bound x : 0 <= x -> x < 2 ^ nbits x /\ 0 <= nbits x.
Proof.
  intros Hx. unfold nbits. destruct (Z.eqb_spec x 0) as [->|]; [done|].
  pose proof (Z.log2_spec x ltac:(lia)). pose proof (Z.log2_nonneg x). rewrite <- Z.add_1_r in *. lia.
Qed.

Lemma mask_high l n k : 0 <= n -> 0 <= k -> 0 <= l < 2 ^ (n + k) -> l .& (Z.ones k .<< n) = l / 2 ^ n * 2 ^ n.
Proof.
  intros Hn Hk Hl. rewrite <- Z.shiftr_div_pow2, <- Z.shiftl_mul_pow2 by lia. apply Z.bits_inj'. intros i Hi.
  rewrite Z.land_spec, !Z.shiftl_spec by lia. destruct (Z.lt_ge_cases i n).
  { rewrite !(Z.testbit_neg_r _ (i - n)) by lia. apply andb_false_r. }
  rewrite Z.shiftr_spec, Z.sub_add by lia. rewrite Z.testbit_ones by lia.
  destruct (Z.lt_ge_cases (i - n) k).
  - rewrite (proj2 (Z.leb_le 0 _)), (proj2 (Z.ltb_lt _ k)) by lia. apply andb_true_r.
  - rewrite (testbit_above (n + k)) by lia. done.
Qed.

Lemma mask_zero l n k c : 0 <= n -> 0 <= k -> 0 <= l < 2 ^ (n + k) -> c = Z.ones k .<< n ->
  (l .& c =? 0) = (l <? 2 ^ n).
Proof.
  intros Hn Hk Hl ->. rewrite mask_high by lia. pose proof (Z.pow_pos_nonneg 2 n ltac:(lia) Hn).
  destruct (Z.ltb_spec l (2 ^ n)).
  - rewrite Z.div_small by lia. done.
  - apply Z.eqb_neq. assert (0 < l / 2 ^ n) by (apply Z.div_str_pos; lia). nia.
Qed.

Lemma bits_table b : is_u8 b -> znth bits b = nbits b.
Proof.
  intros Hb. pose proof (check_bytes (fun b => znth bits b =? nbits b) ltac:(vm_compute; reflexivity) b Hb). cbn in *. lia.
Qed.

Lemma nbits_shift l n : 0 <= n -> 2 ^ n <= l -> nbits (l .>> n) + n = nbits l.
Proof.
  intros Hn Hl. pose proof (Z.pow_pos_nonneg 2 n ltac:(lia) Hn). unfold nbits.
  assert (Hp : 0 < l .>> n) by (rewrite Z.shiftr_div_pow2 by lia; apply Z.div_str_pos; lia).
  rewrite !(proj2 (Z.eqb_neq _ 0)) by lia. rewrite Z.log2_shiftr by lia.
  assert (n <= Z.log2 l) by (apply Z.log2_le_pow2; lia). lia.
Qed.

Lemma num_bits_word_spec l : is_u32 l -> BN_num_bits_word l = nbits l.
Proof.
  intros Hl. unfold is_u32 in Hl. unfold BN_num_bits_word.
  assert (Hs : forall n, 0 <= n -> l < 2 ^ (n + 8) -> 2 ^ n <= l -> znth bits (l .>> n) + n = nbits l).
  { intros n Hn H1 H2. rewrite bits_table; [by apply nbits_shift|]. rewrite Z.shiftr_div_pow2 by lia.
    pose proof (Z.pow_pos_nonneg 2 n ltac:(lia) Hn). rewrite Z.pow_add_r in H1 by lia. unfold is_u8.
    split; [apply Z.div_pos; lia|]. apply Z.div_lt_upper_bound; [lia|]. change (2 ^ 8) with 256 in H1. lia. }
  rewrite (mask_zero l 16 16 0xffff0000), (mask_zero l 24 8 0xff000000) by (lia || done).
  destruct (Z.ltb_spec l (2 ^ 16)) as [H16|H16]; cbn [negb].
  - rewrite (mask_zero l 8 8 0xff00) by (lia || done). destruct (Z.ltb_spec l (2 ^ 8)); cbn [negb].
    + apply bits_table. unfold is_u8. lia.
    + apply Hs; lia.
  - destruct (Z.ltb_spec l (2 ^ 24)); cbn [negb]; apply Hs; lia.
Qed.

(** Word [j] of the value. *)
Lemma bval_nth d : forall j, all_u32 d -> 0 <= j -> bval d / B ^ j mod B = znth d j.
Proof.
  induction d as [|x d IH]; intros j Hd Hj.
  { cbn [bval]. rewrite Z.div_0_l, Z.mod_0_l by (pose proof B_pos; pose proof (B_pow_pos j); lia).
    unfold znth. by destruct (Z.to_nat j). }
  inversion Hd as [|? ? Hx Hd']; subst. unfold is_u32 in Hx. rewrite <- B_val in Hx. cbn [bval]. pose proof B_pos.
  destruct (Z.eq_dec j 0) as [->|Hj0].
  - rewrite Z.pow_0_r, Z.div_1_r, Z.mul_comm, Z.mod_add, Z.mod_small by lia. done.
  - replace j with (1 + (j - 1)) at 1 by lia. rewrite Z.pow_add_r, Z.pow_1_r, <- Z.div_div by (try apply B_pow_pos; lia).
    rewrite (Z.mul_comm B (bval d)), Z.div_add, (Z.div_small x B), Z.add_0_l by lia. rewrite IH by (done || lia).
    unfold znth. by replace (Z.to_nat j) with (S (Z.to_nat (j - 1))) by lia.
Qed.

Lemma num_bits_spec a : bn_ok a -> BN_num_bits a = nbits (bn_val a).
Proof.
  intros [Hu Hn _ _]. unfold BN_num_bits, BN_is_zero, top, bn_val, BN_BITS2.
  destruct (words a) as [|x l] eqn:Ew; [done|]. destruct (exists_last (l := x :: l)) as (l0 & y & E); [done|].
  rewrite E in *. clear E Ew x l. pose proof (normal_last _ _ Hn) as Hy. apply Forall_app in Hu as [Hu0 Hy0].
  inversion Hy0 as [|? ? Hyu _]; subst. rewrite zlen_app. change (zlen [y]) with 1. pose proof (zlen_nonneg l0).
  rewrite (proj2 (Z.eqb_neq _ 0)) by lia. rewrite znth_app_r by (unfold zlen; lia).
  replace (zlen l0 + 1 - 1) with (zlen l0) by lia. replace (zlen l0 - Z.of_nat (length l0)) with 0 by (unfold zlen; lia).
  change (znth [y] 0) with y. rewrite num_bits_word_spec, bval_app by done. cbn [bval]. rewrite Z.mul_0_r, Z.add_0_r.
  pose proof (bval_range l0 Hu0) as Hr. rewrite (B_pow2 (zlen l0)) in * by lia.
  unfold is_u32 in Hyu. set (v := bval l0 + 2 ^ (32 * zlen l0) * y). rewrite <- (nbits_shift v (32 * zlen l0)) by (unfold v; nia).
  rewrite Z.shiftr_div_pow2 by lia. unfold v. rewrite (Z.mul_comm _ y), Z.div_add, (Z.div_small (bval l0)) by lia. rewrite Z.add_0_l. lia.
Qed.

Lemma is_bit_set_spec a n : bn_ok a -> 0 <= n -> BN_is_bit_set a n = Z.b2z (Z.testbit (bn_val a) n).
Proof.
  intros [Hu _ _ _] Hn. unfold BN_is_bit_set, BN_BITS2, top, bn_val. rewrite (proj2 (Z.ltb_ge n 0)) by done.
  assert (Hb : Z.b2z (Z.testbit (bval (words a)) n) = (znth (words a) (n / 32) .>> (n mod 32)) .& 1).
  { rewrite <- bval_nth by (done || apply Z.div_pos; lia). rewrite B_pow2, B_val by (apply Z.div_pos; lia). change 4294967296 with (2 ^ 32).
    change 1 with (Z.ones 1) at 1. rewrite Z.land_ones, <- Z.bit0_mod by lia.
    f_equal. rewrite Z.shiftr_spec, Z.add_0_l by lia. pose proof (Z.mod_pos_bound n 32 ltac:(lia)).
    rewrite Z.mod_pow2_bits_low by lia. rewrite <- Z.shiftr_div_pow2 by (pose proof (Z.div_pos n 32); lia).
    rewrite Z.shiftr_spec by lia. f_equal. pose proof (Z.div_mod n 32). lia. }
  rewrite Hb. destruct (Z.leb_spec (zlen (words a)) (n / 32)); [|done].
  unfold znth. rewrite nth_overflow by (unfold zlen in *; lia). by rewrite Z.shiftr_0_l.
Qed.

Lemma is_odd_spec a : bn_ok a -> BN_is_odd a = Z.odd (bn_val a).
Proof.
  intros Ha. pose proof (is_bit_set_spec a 0 Ha ltac:(lia)) as Hb. unfold BN_is_bit_set, BN_is_odd, BN_BITS2 in *.
  cbn [Z.ltb Z.compare] in Hb. change (0 / 32) with 0 in Hb. change (0 mod 32) with 0 in Hb.
  rewrite Z.shiftr_0_r, Z.bit0_odd in Hb. destruct (Z.leb_spec (top a) 0).
  - rewrite (proj2 (Z.ltb_ge 0 _)) by done. destruct (Z.odd (bn_val a)); [discriminate|done].
  - rewrite (proj2 (Z.ltb_lt 0 _)) by done. rewrite Hb. by destruct (Z.odd (bn_val a)).
Qed.

(** ** Bytes *)

Definition be_val (s : list Z) : Z := fold_left (fun v x => 256 * v + x) s 0.

Lemma be_val_from s : forall v, fold_left (fun v x => 256 * v + x) s v = v * 256 ^ zlen s + be_val s.
Proof.
  unfold be_val. induction s as [|x s IH]; intros v; [rewrite (@zlen_nil Z); cbn [fold_left]; lia|]. cbn [fold_left].
  rewrite IH, (IH (256 * 0 + x)), zlen_cons, Z.pow_add_r by (pose proof (zlen_nonneg s); lia). lia.
Qed.

Lemma be_val_cons x s : be_val (x :: s) = x * 256 ^ zlen s + be_val s.
Proof. unfold be_val at 1. cbn [fold_left]. rewrite be_val_from. lia. Qed.

Lemma be_val_app s t : be_val (s ++ t) = be_val s * 256 ^ zlen t + be_val t.
Proof. unfold be_val at 1. rewrite fold_left_app. apply be_val_from. Qed.

Lemma be_val_zeros n : be_val (repeat 0 n) = 0.
Proof. induction n as [|n IH]; [done|]. cbn [repeat]. rewrite be_val_cons. lia. Qed.

Lemma be_val_range s : bytes s -> 0 <= be_val s < 256 ^ zlen s.
Proof.
  induction 1 as [|x s Hx _ IH]; [done|]. unfold is_u8 in Hx. rewrite be_val_cons, zlen_cons.
  pose proof (zlen_nonneg s). rewrite Z.pow_add_r, Z.pow_1_r by lia. nia.
Qed.

Lemma be_val_inj s : forall t, bytes s -> bytes t -> length s = length t -> be_val s = be_val t -> s = t.
Proof.
  induction s as [|x s IH]; intros [|y t] Hs Ht Hl; try done. inversion Hs; inversion Ht; subst.
  rewrite !be_val_cons. injection Hl as Hl. pose proof (be_val_range s ltac:(done)) as H1'. pose proof (be_val_range t ltac:(done)) as H2'.
  unfold zlen in *. rewrite <- Hl in *. intros Hv. assert (x = y) as -> by nia. f_equal. apply IH; [done..|lia].
Qed.

Lemma lor_low y x n : 0 <= n -> 0 <= x < 2 ^ n -> (2 ^ n * y) .| x = 2 ^ n * y + x.
Proof.
  intros Hn Hx. assert (Hl : (2 ^ n * y) .& x = 0).
  { rewrite Z.mul_comm, <- Z.shiftl_mul_pow2 by lia. apply Z.bits_inj'. intros i Hi. rewrite Z.land_spec, Z.bits_0.
    destruct (Z.lt_ge_cases i n); [rewrite Z.shiftl_spec_low by lia; done|]. rewrite (testbit_above n x) by lia. apply andb_false_r. }
  rewrite Z.add_nocarry_lxor, Z.lxor_lor by done. done.
Qed.

(** The word that is being filled holds the bytes read since the last store. *)
Lemma bin_loop_val s : forall m l d k,
  bytes s -> all_u32 d -> 0 <= m <= 3 -> 0 <= l < 256 ^ (3 - m) -> 0 <= k -> zlen s + 3 - m = 4 * k ->
  let r := bin_loop s m l d in
  all_u32 r /\ zlen r = k + zlen d /\ bval r = l * 256 ^ zlen s + be_val s + B ^ k * bval d.
Proof.
  induction s as [|x s IH]; intros m l d k Hs Hd Hm Hl Hk Hn; cbn [bin_loop].
  { rewrite (@zlen_nil Z) in *. assert (k = 0) as -> by lia. assert (m = 3) as -> by lia. change (256 ^ (3 - 3)) with 1 in Hl.
    split_and!; [done|lia|]. change (be_val []) with 0. lia. }
  inversion Hs as [|? ? Hx Hs']; subst. unfold is_u8 in Hx. rewrite zlen_cons in *. pose proof (zlen_nonneg s) as Hz.
  assert (Hpm : 256 ^ (3 - m) * 256 = 256 ^ (4 - m)) by (replace (4 - m) with (3 - m + 1) by lia; rewrite Z.pow_add_r; lia).
  assert (Hp4 : 256 ^ (4 - m) <= B) by (rewrite B_val; change 4294967296 with (256 ^ 4); apply Z.pow_le_mono_r; lia).
  assert (E1 : u32 (l .<< 8) .| x = 256 * l + x).
  { rewrite Z.shiftl_mul_pow2 by lia. rewrite B_val in Hp4. unfold u32.
    rewrite Z.mod_small by (change (2 ^ 32) with 4294967296; change (2 ^ 8) with 256; lia).
    rewrite Z.mul_comm. apply (lor_low l x 8); lia. }
  cbn zeta in *. rewrite E1, be_val_cons, Z.pow_add_r, Z.pow_1_r by lia. destruct (Z.eqb_spec m 0) as [->|Hm0].
  - unfold BN_BYTES. change (4 - 1) with 3. change (4 - 0) with 4 in *. change (3 - 0) with 3 in *.
    destruct (IH 3 0 ((256 * l + x) :: d) (k - 1)) as (Ha & Hb & Hc);
      [done|constructor; [unfold is_u32; rewrite B_val in *; lia|done]|lia|done|lia|lia|].
    split_and!; [done|rewrite Hb, zlen_cons; lia|]. rewrite Hc. cbn [bval].
    replace k with (k - 1 + 1) at 2 by lia. rewrite Z.pow_add_r, Z.pow_1_r by lia.
    replace (256 ^ zlen s) with (B ^ (k - 1)) by (rewrite B_val; change 4294967296 with (256 ^ 4); rewrite <- Z.pow_mul_r by lia; f_equal; lia).
    lia.
  - destruct (IH (m - 1) (256 * l + x) d k) as (Ha & Hb & Hc);
      [done|done|lia|replace (3 - (m - 1)) with (4 - m) by lia; lia|lia|lia|].
    split_and!; [done|done|]. rewrite Hc. lia.
Qed.

(** Room for [n] words is found when there is memory. *)
Lemma wexpand_runs {E : Env} a n :
  mem_available -> n <= INT_MAX / 128 ->
  runs (bn_wexpand a n) (fun r => exists a', r = Some a' /\ words a' = words a /\ neg a' = neg a /\
                                             dmax a <= dmax a' /\ n <= dmax a').
Proof.
  intros Hmem Hn. unfold bn_wexpand. destruct (Z.leb_spec n (dmax a)).
  { apply runs_ret. exists a. split_and!; try done; lia. }
  change (4 * BN_BITS2) with 128. rewrite (proj2 (Z.ltb_ge _ n)) by done. apply (runs_bind _ _ (fun r => r <> 0)).
  - intros s. eexists _, _. split; [reflexivity|apply Hmem].
  - intros r Hr. apply runs_ret. rewrite (proj2 (Z.eqb_neq r 0)) by done. eexists. split; [done|]. cbn. split_and!; try done; lia.
Qed.

(** [do?] after a call that succeeds. *)
Lemma runs_do {E : Env} {A C} (m : M (option A)) (f : A -> M (option C)) (P : A -> Prop) Q :
  runs m (fun r => exists a, r = Some a /\ P a) -> (forall a, P a -> runs (f a) Q) ->
  runs (do? x <- m; f x) Q.
Proof. intros Hm Hf. eapply runs_bind; [exact Hm|]. intros ? (a & -> & Ha). by apply Hf. Qed.

(** [BN_bin2bn] makes the number that the bytes spell. *)
Lemma bin2bn_runs {E : Env} s len a :
  mem_available -> bytes s -> 0 <= len <= zlen s -> len < 2 ^ 25 -> neg a = 0 -> 0 <= dmax a ->
  runs (BN_bin2bn s len a) (fun r => exists a', r = Some a' /\ bn_ok a' /\ bn_val a' = be_val (take (Z.to_nat len) s)).
Proof.
  intros Hmem Hs Hlen Hl Hneg Hd. unfold BN_bin2bn, BN_BYTES. destruct (Z.eqb_spec len 0) as [->|Hl0].
  { apply runs_ret. eexists. split; [done|]. split; [constructor; [constructor|done|done|done]|done]. }
  assert (Hq : 0 <= (len - 1) / 4 < 2 ^ 23) by (split; [apply Z.div_pos|apply Z.div_lt_upper_bound]; lia).
  apply (runs_do _ _ _ _ (wexpand_runs a ((len - 1) / 4 + 1) Hmem ltac:(change (INT_MAX / 128) with 16777215; lia))).
  intros a' (_ & _ & _ & Hd'). rewrite (proj2 (Z.ltb_ge (zlen s) len)) by lia. apply runs_ret.
  destruct (bin_loop_val (take (Z.to_nat len) s) ((len - 1) mod 4) 0 [] ((len - 1) / 4 + 1)) as (Hu & Hz & Hv).
  { by apply Forall_take. } { constructor. } { pose proof (Z.mod_pos_bound (len - 1) 4); lia. }
  { split; [done|]. apply Z.pow_pos_nonneg; [done|]. pose proof (Z.mod_pos_bound (len - 1) 4); lia. } { lia. }
  { unfold zlen in *. rewrite length_take. pose proof (Z.div_mod (len - 1) 4). lia. }
  rewrite (@zlen_nil Z) in Hz. cbn [bval] in Hv. eexists. split; [done|]. unfold bn_correct_top. split; [constructor|].
  - by apply all_u32_correct_top.
  - apply correct_top_idem.
  - unfold top. cbn [words dmax]. etransitivity; [apply zlen_correct_top|lia].
  - done.
  - unfold bn_val. cbn [words]. rewrite bval_correct_top. lia.
Qed.

Lemma bin2bn_new_runs {E : Env} s len :
  mem_available -> bytes s -> 0 <= len <= zlen s -> len < 2 ^ 25 ->
  runs (BN_bin2bn_new s len) (fun r => exists a', r = Some a' /\ bn_ok a' /\ bn_val a' = be_val (take (Z.to_nat len) s)).
Proof.
  intros Hmem Hs Hlen Hl. unfold BN_bin2bn_new, BN_new.
  apply (runs_do _ _ (fun a => a = Bignum [] 0 0)); [|intros a ->; by apply bin2bn_runs].
  intros st. unfold malloc_struct. eexists _, _. split; [reflexivity|]. pose proof (Hmem (trace st) 20) as Hm.
  rewrite (proj2 (Z.eqb_neq _ 0)) by done. by eexists.
Qed.

(** The bytes of a number, most significant first. *)
Lemma bn2bin_loop_val d n :
  all_u32 d ->
  let r := bn2bin_loop n d in bytes r /\ length r = n /\ be_val r = bval d mod 256 ^ Z.of_nat n.
Proof.
  intros Hd. induction n as [|n (Hb & Hl & Hv)]; [by rewrite Z.mod_1_r|]. cbn [bn2bin_loop]. cbn zeta in *.
  change 0xff with (Z.ones 8). rewrite Z.land_ones by lia. change (2 ^ 8) with 256. unfold BN_BYTES.
  assert (Hbyte : (znth d (Z.of_nat n / 4) .>> (8 * (Z.of_nat n mod 4))) mod 256 = bval d / 256 ^ Z.of_nat n mod 256).
  { pose proof (Z.mod_pos_bound (Z.of_nat n) 4 ltac:(lia)) as Hm. pose proof (Z.div_mod (Z.of_nat n) 4 ltac:(lia)) as Hdm.
    pose proof (Z.div_pos (Z.of_nat n) 4 ltac:(lia) ltac:(lia)) as Hq.
    rewrite <- bval_nth by done. rewrite B_pow2, B_val by done. change 4294967296 with (2 ^ 32). change 256 with (2 ^ 8).
    rewrite <- Z.pow_mul_r by lia. rewrite <- !Z.shiftr_div_pow2 by lia. rewrite <- !Z.land_ones by lia. apply Z.bits_inj'. intros i Hi.
    rewrite !Z.land_spec. destruct (Z.lt_ge_cases i 8); [|by rewrite (Z.ones_spec_high 8 i), !andb_false_r by lia].
    rewrite !Z.shiftr_spec, Z.land_spec, Z.shiftr_spec, (Z.ones_spec_low 32) by lia. rewrite andb_true_r. do 2 f_equal. lia. }
  rewrite Hbyte. split_and!.
  - constructor; [apply Z.mod_pos_bound; lia|done].
  - cbn [length]. lia.
  - rewrite be_val_cons, Hv. unfold zlen. rewrite Hl, Nat2Z.inj_succ, Z.pow_succ_r by lia.
    pose proof (Z.pow_pos_nonneg 256 (Z.of_nat n)). rewrite (Z.mul_comm 256), Z.rem_mul_r by lia. lia.
Qed.

Lemma num_bytes_bound x : 0 <= x -> x < 256 ^ ((nbits x + 7) / 8).
Proof.
  intros Hx. pose proof (nbits_bound x Hx) as [H1' H2']. eapply Z.lt_le_trans; [exact H1'|].
  change 256 with (2 ^ 8). rewrite <- Z.pow_mul_r by (try apply Z.div_pos; lia). apply Z.pow_le_mono_r; [lia|].
  Z.div_mod_to_equations. lia.
Qed.

Lemma bn2bin_val a :
  bn_ok a -> bytes (BN_bn2bin a) /\ zlen (BN_bn2bin a) = BN_num_bytes a /\ be_val (BN_bn2bin a) = bn_val a.
Proof.
  intros Ha. pose proof (bval_range _ (ok_words _ Ha)) as Hr. unfold BN_bn2bin, BN_num_bytes. rewrite num_bits_spec by done.
  unfold bn_val. pose proof (nbits_bound _ (proj1 Hr)) as [_ Hb]. pose proof (Z.div_pos (nbits (bval (words a)) + 7) 8) as Hq.
  destruct (bn2bin_loop_val (words a) (Z.to_nat ((nbits (bval (words a)) + 7) / 8)) (ok_words _ Ha)) as (H1' & H2' & H3').
  split_and!; [done|unfold zlen; rewrite H2'; lia|]. rewrite H3', Z2Nat.id by lia. apply Z.mod_small.
  split; [lia|]. apply num_bytes_bound. lia.
Qed.

(** ** Comparison *)

Lemma ucmp_loop_spec l : forall l', all_u32 l -> all_u32 l' -> length l = length l' ->
  Z.sgn (ucmp_loop (rev l) (rev l')) = Z.sgn (bval l - bval l').
Proof.
  induction l as [|x l IH] using rev_ind; intros l' Hl Hl' Hn; [by destruct l'|].
  destruct (decide (l' = [])) as [->|Hne]; [rewrite length_app in Hn; cbn in Hn; lia|].
  destruct (exists_last Hne) as (l0 & y & ->). rewrite !length_app in Hn. cbn [length] in Hn.
  apply Forall_app in Hl as [Hl Hx]. apply Forall_app in Hl' as [Hl0 Hy]. rewrite !rev_app_distr. cbn [rev app ucmp_loop].
  rewrite !bval_app. cbn [bval]. assert (Hz : zlen l = zlen l0) by (unfold zlen; lia). rewrite <- Hz.
  pose proof (bval_range l Hl). pose proof (bval_range l0 Hl0). rewrite <- Hz in *. pose proof (B_pow_pos (zlen l) (zlen_nonneg l)).
  destruct (Z.eqb_spec x y) as [->|Hxy]; cbn [negb]; [rewrite IH by (done || lia); f_equal; lia|].
  destruct (Z.ltb_spec y x); [rewrite !Z.sgn_pos by nia|rewrite !Z.sgn_neg by nia]; done.
Qed.

Lemma ucmp_spec a b : bn_ok a -> bn_ok b -> Z.sgn (BN_ucmp a b) = Z.sgn (bn_val a - bn_val b).
Proof.
  intros [Ha Hna _ _] [Hb Hnb _ _]. unfold BN_ucmp, top, bn_val. set (l := words a) in *. set (l' := words b) in *.
  destruct (Z.eqb_spec (zlen l - zlen l') 0) as [He|Hne]; cbn [negb].
  { apply ucmp_loop_spec; [done..|unfold zlen in *; lia]. }
  pose proof (zlen_nonneg l). pose proof (zlen_nonneg l'). pose proof (bval_range l Ha). pose proof (bval_range l' Hb).
  assert (Hlt : forall k k', all_u32 k' -> normal k' -> zlen k < zlen k' -> bval k < B ^ zlen k -> 0 <= zlen k -> bval k < bval k').
  { intros k k' Hk' Hnk' Hlt Hk H0k. eapply Z.lt_le_trans; [exact Hk|].
    etransitivity; [|apply normal_lower; [done|done|intros ->; rewrite (@zlen_nil Z) in Hlt; lia]]. apply Z.pow_le_mono_r; [apply B_pos|lia]. }
  destruct (Z.lt_ge_cases (zlen l) (zlen l')).
  - specialize (Hlt l l' Hb Hnb ltac:(lia) ltac:(lia) ltac:(lia)). rewrite !Z.sgn_neg by lia. done.
  - specialize (Hlt l' l Ha Hna ltac:(lia) ltac:(lia) ltac:(lia)). rewrite !Z.sgn_pos by lia. done.
Qed.

(** ** Round trip *)

(** Bytes without the leading zeros. *)
Fixpoint drop_zeros (s : list Z) : list Z :=
  match s with [] => [] | x :: s' => if x =? 0 then drop_zeros s' else s end.

Lemma drop_zeros_spec s : bytes s -> bytes (drop_zeros s) /\ be_val (drop_zeros s) = be_val s /\ (nbits (be_val s) + 7) / 8 = zlen (drop_zeros s).
Proof.
  induction 1 as [|x s Hx Hs (IH1 & IH2 & IH3)]; [done|]. cbn [drop_zeros]. destruct (Z.eqb_spec x 0) as [->|Hx0].
  { rewrite be_val_cons. cbn [Z.mul]. rewrite Z.add_0_l. by split_and!. }
  split_and!; [by constructor|done|]. pose proof (be_val_range (x :: s) ltac:(by constructor)) as [_ Hr].
  pose proof (be_val_range s Hs) as [Hr0 _]. unfold is_u8 in Hx. pose proof (zlen_nonneg s) as Hz. rewrite zlen_cons in *.
  assert (Hlo : 256 ^ zlen s <= be_val (x :: s)) by (rewrite be_val_cons; nia). set (v := be_val (x :: s)) in *.
  assert (Hpos : 0 < v) by (pose proof (Z.pow_pos_nonneg 256 (zlen s) ltac:(lia) Hz); lia).
  unfold nbits. rewrite (proj2 (Z.eqb_neq v 0)) by lia. change 256 with (2 ^ 8) in *. rewrite <- Z.pow_mul_r in Hlo, Hr by lia.
  apply Z.log2_lt_pow2 in Hr; [|done]. apply Z.log2_le_pow2 in Hlo; [|done]. symmetry. apply Z.div_unique with (r := Z.log2 v - 8 * zlen s); lia.
Qed.

Lemma drop_zeros_app s : exists k, s = repeat 0 k ++ drop_zeros s.
Proof.
  induction s as [|x s [k IH]]; [by exists 0%nat|]. cbn [drop_zeros]. destruct (Z.eqb_spec x 0) as [->|]; [|by exists 0%nat].
  exists (S k). cbn [repeat app]. by f_equal.
Qed.

Lemma bn2bin_drop_zeros a s : bn_ok a -> bytes s -> bn_val a = be_val s -> BN_bn2bin a = drop_zeros s.
Proof.
  intros Ha Hs Hv. destruct (bn2bin_val a Ha) as (H1' & H2' & H3'). destruct (drop_zeros_spec s Hs) as (H4' & H5' & H6').
  apply be_val_inj; [done|done| |congruence]. unfold BN_num_bytes in H2'. rewrite num_bits_spec, Hv in H2' by done.
  unfold zlen in *. lia.
Qed.

(** C31: the conversions between numbers and bytes are inverse to each other.  The bytes
    of a number (with memory, up to 32 MB of them) make the same words again; and the
    number that any bytes make has those bytes, less the leading zeros. *)
Theorem bn_bytes_roundtrip {E : Env} a s st :
  mem_available -> bn_ok a -> BN_num_bytes a < 2 ^ 25 -> bytes s -> zlen s < 2 ^ 25 ->
  (exists a' tr, BN_bin2bn_new (BN_bn2bin a) (BN_num_bytes a) st = Ret (Some a', with_trace tr st) /\ words a' = words a) /\
  (exists b tr, BN_bin2bn_new s (zlen s) st = Ret (Some b, with_trace tr st) /\ BN_bn2bin b = drop_zeros s).
Proof.
  intros Hmem Ha Hn Hs Hl. split.
  - destruct (bn2bin_val a Ha) as (Hb & Hz & Hv). rewrite <- Hz in *. pose proof (zlen_nonneg (BN_bn2bin a)).
    destruct (bin2bn_new_runs (BN_bn2bin a) (zlen (BN_bn2bin a)) Hmem Hb ltac:(lia) ltac:(lia) st) as (r & tr & E1 & a' & -> & Ha' & Hv').
    exists a', tr. split; [done|]. unfold zlen in Hv'; rewrite Nat2Z.id, firstn_all in Hv'. apply normal_inj; [apply Ha'|apply Ha|apply Ha'|apply Ha|].
    unfold bn_val in *. congruence.
  - pose proof (zlen_nonneg s).
    destruct (bin2bn_new_runs s (zlen s) Hmem Hs ltac:(lia) ltac:(lia) st) as (r & tr & E1 & b & -> & Hb & Hv).
    exists b, tr. split; [done|]. unfold zlen in Hv; rewrite Nat2Z.id, firstn_all in Hv. by apply bn2bin_drop_zeros.
Qed.

Lemma bn_bytes_roundtrip_witness :
  (exists a' tr, @BN_bin2bn_new (env_lib 1) [7; 0; 0; 0; 5] 5 proc0 = Ret (Some a', with_trace tr proc0) /\
                 words a' = [5; 7]) /\
  (exists b tr, @BN_bin2bn_new (env_lib 1) [0; 0; 1; 2; 3; 4; 5] 7 proc0 = Ret (Some b, with_trace tr proc0) /\
                BN_bn2bin b = [1; 2; 3; 4; 5]).
Proof.
  apply (@bn_bytes_roundtrip (env_lib 1) (Bignum [5; 7] 2 0) [0; 0; 1; 2; 3; 4; 5] proc0).
  - apply env_lib_mem.
  - split; [|reflexivity|discriminate|reflexivity].
    apply (bool_decide_eq_true_1 (Forall is_u32 [5; 7])). vm_compute. reflexivity.
  - reflexivity.
  - apply (bool_decide_eq_true_1 (bytes [0; 0; 1; 2; 3; 4; 5])). vm_compute. reflexivity.
  - reflexivity.
Defined.
