(* ===== verification/BnMont.v ===== *)
(** * BnMont: exponentiation modulo an odd number

    src/jni/openssl/crypto/bn: Montgomery reduction and multiplication (bn_mont.c, the
    build without [OPENSSL_BN_ASM_MONT]) and the exponentiation with a sliding window
    (bn_exp.c).  Three things come from other files of bn/ and are interfaces here:
    multiplication and squaring ([Multiplier]; [BnMul] has the implementation of the
    small build), the temporaries of bn_ctx.c ([Temporaries]), and the division that
    prepares a modulus ([Division]).  A function that stores its result through a
    [BIGNUM *] gets the number that was there and returns the new one. *)

From S2P Require Import Prelude Sys Bn.

(** [BN_mul(r, a, b, ctx)] and [BN_sqr(r, a, ctx)] *)
Class Multiplier {E : Env} : Type := {
  BN_mul : BIGNUM -> BIGNUM -> BIGNUM -> M (option BIGNUM);
  BN_sqr : BIGNUM -> BIGNUM -> M (option BIGNUM)
}.

(** [BN_CTX_get(ctx)] between [BN_CTX_start] and [BN_CTX_end] *)
Class Temporaries {E : Env} : Type := BN_CTX_get : M (option BIGNUM).

(** [BN_mod_inverse(r, a, n, ctx)], [BN_div(r, NULL, a, d, ctx)] (the quotient),
    [BN_mod(r, a, d, ctx)] and [BN_nnmod(r, a, m, ctx)] *)
Class Division {E : Env} : Type := {
  BN_mod_inverse : BIGNUM -> BIGNUM -> BIGNUM -> M (option BIGNUM);
  BN_div : BIGNUM -> BIGNUM -> BIGNUM -> M (option BIGNUM);
  BN_mod : BIGNUM -> BIGNUM -> BIGNUM -> M (option BIGNUM);
  BN_nnmod : BIGNUM -> BIGNUM -> BIGNUM -> M (option BIGNUM)
}.

(** [Ni] is not used by the word-based algorithm. *)
Record BN_MONT_CTX : Type := MontCtx { ri : Z; RR : BIGNUM; N : BIGNUM; n0 : Z }.

(** ** Reduction *)

(** [++nrp[0]; ++nrp[1]; ...] up to the first word that does not become zero. *)
Fixpoint carry_up (nrp : list Z) : outcome (list Z) :=
  match nrp with
  | [] => UB OutOfBounds
  | x :: nrp =>
      let x := u32 (x + 1) in
      if negb (x .& BN_MASK2 =? 0) then Ret (x :: nrp) else do nrp <- carry_up nrp; Ret (x :: nrp)
  end.

(** The loop of [BN_from_montgomery], [n] times, from the word [rp] points to on. *)
Fixpoint mont_loop (n : nat) (rp np : list Z) (n0 : Z) : outcome (list Z) :=
  match n with
  | O => Ret rp
  | S n =>
      do r0 <- buf_get rp 0;
      do '(rp, v) <- bn_mul_add_words rp np (length np) (u32 (r0 * n0) .& BN_MASK2) 0;
      do x <- buf_get rp (zlen np);
      let x := u32 (x + v) in
      do rp <- buf_set rp (zlen np) x;
      do rp <- (if v <=? x .& BN_MASK2 then Ret rp
                else do hi <- carry_up (drop (S (length np)) rp); Ret (take (S (length np)) rp ++ hi));
      match rp with
      | y :: rp => do rp <- mont_loop n rp np n0; Ret (y :: rp)
      | [] => UB OutOfBounds
      end
  end.

(** [min(ri, al)] without a branch *)
Definition min_mask (ri al : Z) : Z :=
  let x := 0 - (((al - ri) .>> 31) .& 1) in
  (ri .& Z.lnot x) .| (al .& x).

(** [m1]: all ones when the words before the subtraction are to be kept. *)
Definition keep_mask (ri al v : Z) : Z :=
  let m1 := u32 (0 - (((al - ri) .>> 31) .& 1)) in
  let m2 := u32 (0 - (((ri - al) .>> 31) .& 1)) in
  let m1 := m1 .| m2 in
  let m1 := m1 .| u32 (0 - v) in
  m1 .& u32 (Z.lnot m2).

(** ** Bits and words *)

Section Words.
Context {E : Env}.

(** The statement [BN_zero(a);]: a failure of [BN_set_word] is not looked at. *)
Definition BN_zero (a : BIGNUM) : M BIGNUM :=
  do! o <- BN_set_word a 0; ret (match o with Some a => a | None => a end).

(** [BN_set_bit(a, n)] *)
Definition BN_set_bit (a : BIGNUM) (n : Z) : M (option BIGNUM) :=
  if n <? 0 then ret None
  else
    let i := n / BN_BITS2 in
    let j := n mod BN_BITS2 in
    do? a <- (if top a <=? i
              then do? a <- bn_wexpand a (i + 1); ret (Some (Bignum (resize (Z.to_nat (i + 1)) 0 a.(words)) a.(dmax) a.(neg)))
              else ret (Some a));
    do! d <- lift (buf_set a.(words) i (znth a.(words) i .| u32 (1 .<< j)));
    ret (Some (Bignum d a.(dmax) a.(neg))).

(** The loops of [BN_lshift]: [low] are the bits that come from the word below. *)
Fixpoint lshift_loop (f : list Z) (lb low : Z) : list Z :=
  match f with
  | [] => [low]
  | l :: f => ((u32 (l .<< lb) .& BN_MASK2) .| low) ::
              lshift_loop f lb (if lb =? 0 then 0 else (l .>> (BN_BITS2 - lb)) .& BN_MASK2)
  end.

(** [BN_lshift(r, a, n)] *)
Definition BN_lshift (r a : BIGNUM) (n : Z) : M (option BIGNUM) :=
  let nw := n / BN_BITS2 in
  do? r <- bn_wexpand r (top a + nw + 1);
  let lb := n mod BN_BITS2 in
  ret (Some (bn_correct_top (Bignum (repeat 0 (Z.to_nat nw) ++ lshift_loop a.(words) lb 0) r.(dmax) a.(neg)))).

(** The loop of [BN_sub_word]; the last word goes when it has become zero. *)
Fixpoint sub_word_loop (d : list Z) (w : Z) : outcome (list Z) :=
  match d with
  | [] => UB OutOfBounds
  | x :: d =>
      if w <=? x then Ret (if (x - w =? 0) && (zlen d =? 0) then [] else x - w :: d)
      else do d <- sub_word_loop d 1; Ret ((u32 (x - w) .& BN_MASK2) :: d)
  end.

(** [BN_sub_word(a, w)] of a number that is not negative *)
Definition BN_sub_word (a : BIGNUM) (w : Z) : M (option BIGNUM) :=
  let w := w .& BN_MASK2 in
  if w =? 0 then ret (Some a)
  else if BN_is_zero a then
    do? a <- BN_set_word a w; ret (Some (Bignum a.(words) a.(dmax) 1))
  else if (top a =? 1) && (znth a.(words) 0 <? w) then ret (Some (Bignum [w - znth a.(words) 0] a.(dmax) 1))
  else do! d <- lift (sub_word_loop a.(words) w); ret (Some (Bignum d a.(dmax) a.(neg))).

(** [BN_MONT_CTX_new()] *)
Definition BN_MONT_CTX_new : M (option BN_MONT_CTX) :=
  do! ok <- malloc_struct 72; ret (if ok then Some (MontCtx 0 (Bignum [] 0 0) (Bignum [] 0 0) 0) else None).

End Words.

Section Mont.
Context {E : Env} {Mul : Multiplier} {Tmp : Temporaries}.

(** [BN_from_montgomery(ret, a, mont, ctx)].  With a modulus of no words the code
    returns at once: [ret] is left as it is, and so is the frame of [ctx]. *)
Definition BN_from_montgomery (rt a : BIGNUM) (mont : BN_MONT_CTX) : M (option BIGNUM) :=
  do? r <- BN_CTX_get;
  do? r <- BN_copy r a;
  let n := mont.(N) in
  let ri := mont.(ri) / BN_BITS2 in
  let al := ri in
  let nl := top n in
  if (al =? 0) || (nl =? 0) then ret (Some rt)
  else
    let max := nl + al + 1 in
    do? r <- bn_wexpand r max;
    let rneg := Z.lxor a.(neg) n.(neg) in
    do! d <- lift (mont_loop (Z.to_nat nl) (resize (Z.to_nat max) 0 r.(words)) n.(words) mont.(n0));
    let rtop := zlen (correct_top d) in
    if rtop <=? ri then ret (Some (Bignum [] rt.(dmax) rt.(neg)))
    else
      let al := rtop - ri in
      do? rt <- bn_wexpand rt ri;
      let x := min_mask ri al in
      let ap := drop (Z.to_nat ri) d in
      do! '(rp, v) <- lift (bn_sub_words ap n.(words) (Z.to_nat ri) 0);
      let nrp := if keep_mask ri al v =? 0 then rp else take (Z.to_nat ri) ap in
      ret (Some (bn_correct_top (Bignum (take (Z.to_nat x) nrp) rt.(dmax) rneg))).

(** [BN_mod_mul_montgomery(r, a, b, mont, ctx)]; [b] is [None] when the call passes
    the same pointer as [a] and [b]. *)
Definition BN_mod_mul_montgomery (r a : BIGNUM) (b : option BIGNUM) (mont : BN_MONT_CTX) : M (option BIGNUM) :=
  do? tmp <- BN_CTX_get;
  do? tmp <- (match b with None => BN_sqr tmp a | Some b => BN_mul tmp a b end);
  BN_from_montgomery r tmp mont.

(** The macro [BN_to_montgomery(r, a, mont, ctx)] *)
Definition BN_to_montgomery (r a : BIGNUM) (mont : BN_MONT_CTX) : M (option BIGNUM) :=
  BN_mod_mul_montgomery r a (Some mont.(RR)) mont.

(** ** Exponentiation *)

Definition BN_window_bits_for_exponent_size (b : Z) : Z :=
  if 671 <? b then 6 else if 239 <? b then 5 else if 79 <? b then 4 else if 23 <? b then 3 else 1.

(** [BN_value_one()] *)
Definition BN_value_one : BIGNUM := Bignum [1] 1 0.

(** [val[1]], ..., [val[j - 1]], for the [n] entries that are left; [prev] is [val[i - 1]]. *)
Fixpoint exp_table (n : nat) (prev d : BIGNUM) (mont : BN_MONT_CTX) : M (option (list BIGNUM)) :=
  match n with
  | O => ret (Some [])
  | S n =>
      do? v <- BN_CTX_get;
      do? v <- BN_mod_mul_montgomery v prev (Some d) mont;
      do? vs <- exp_table n v d mont;
      ret (Some (v :: vs))
  end.

(** [for (i = 1; i < window; i++)]: the value of the window and its last bit; [n] steps
    are left. *)
Fixpoint scan_window (n : nat) (i wstart : Z) (p : BIGNUM) (wvalue wend : Z) : Z * Z :=
  match n with
  | O => (wvalue, wend)
  | S n =>
      if wstart - i <? 0 then (wvalue, wend)
      else if negb (BN_is_bit_set p (wstart - i) =? 0)
           then scan_window n (i + 1) wstart p ((wvalue .<< (i - wend)) .| 1) i
           else scan_window n (i + 1) wstart p wvalue wend
  end.

(** [for (i = 0; i < j; i++) BN_mod_mul_montgomery(r, r, r, mont, ctx)] *)
Fixpoint square_times (j : nat) (r : BIGNUM) (mont : BN_MONT_CTX) : M (option BIGNUM) :=
  match j with
  | O => ret (Some r)
  | S j => do? r <- BN_mod_mul_montgomery r r None mont; square_times j r mont
  end.

(** The loop over the bits of [p]. *)
Fixpoint exp_loop (fuel : nat) (start : bool) (wstart window : Z) (p r : BIGNUM) (val : list BIGNUM)
    (mont : BN_MONT_CTX) : M (option BIGNUM) :=
  match fuel with
  | O => undef NoFuel
  | S fuel =>
      if BN_is_bit_set p wstart =? 0 then
        do? r <- (if negb start then BN_mod_mul_montgomery r r None mont else ret (Some r));
        if wstart =? 0 then ret (Some r) else exp_loop fuel start (wstart - 1) window p r val mont
      else
        let '(wvalue, wend) := scan_window (Z.to_nat (window - 1)) 1 wstart p 1 0 in
        let j := wend + 1 in
        do? r <- (if negb start then square_times (Z.to_nat j) r mont else ret (Some r));
        match val !! Z.to_nat (wvalue .>> 1) with
        | None => undef OutOfBounds
        | Some v =>
            do? r <- BN_mod_mul_montgomery r r (Some v) mont;
            let wstart := wstart - (wend + 1) in
            if wstart <? 0 then ret (Some r) else exp_loop fuel false wstart window p r val mont
        end
  end.

(** ** The modulus *)

Context {Div : Division}.

(** The part of [BN_MONT_CTX_set] that computes [mont->n0] from [R] and the lowest word
    [tmod] of the modulus. *)
Definition mont_n0_word (Ri R tmod : BIGNUM) : M (option Z) :=
  do? Ri <- BN_mod_inverse Ri R tmod;
  do? Ri <- BN_lshift Ri Ri BN_BITS2;
  do? Ri <- (if negb (BN_is_zero Ri) then BN_sub_word Ri 1 else BN_set_word Ri BN_MASK2);
  do? Ri <- BN_div Ri Ri tmod;
  ret (Some (if 0 <? top Ri then znth Ri.(words) 0 else 0)).

(** [BN_MONT_CTX_set(mont, mod, ctx)] *)
Definition BN_MONT_CTX_set (mont : BN_MONT_CTX) (mod_ : BIGNUM) : M (option BN_MONT_CTX) :=
  do? Ri <- BN_CTX_get;
  do? n <- BN_copy mont.(N) mod_;
  let n := Bignum n.(words) n.(dmax) 0 in
  let ri := (BN_num_bits mod_ + (BN_BITS2 - 1)) / BN_BITS2 * BN_BITS2 in
  do! R <- BN_zero mont.(RR);
  do? R <- BN_set_bit R BN_BITS2;
  do! buf0 <- lift (buf_get mod_.(words) 0);
  do? n0 <- mont_n0_word Ri R (Bignum (if negb (buf0 =? 0) then [buf0] else []) 2 0);
  do! RR <- BN_zero R;
  do? RR <- BN_set_bit RR (ri * 2);
  do? RR <- BN_mod RR RR n;
  ret (Some (MontCtx ri RR n n0)).

(** [BN_mod_exp_mont(rr, a, p, m, ctx, in_mont)], for an exponent without
    [BN_FLG_CONSTTIME]. *)
Definition BN_mod_exp_mont (rr a p m : BIGNUM) (in_mont : option BN_MONT_CTX) : M (option BIGNUM) :=
  if negb (BN_is_odd m) then ret None
  else
    let bits := BN_num_bits p in
    if bits =? 0 then BN_set_word rr 1
    else
      do? d <- BN_CTX_get;
      do? r <- BN_CTX_get;
      do? val0 <- BN_CTX_get;
      do? mont <- (match in_mont with
                   | Some mont => ret (Some mont)
                   | None => do? mont <- BN_MONT_CTX_new; BN_MONT_CTX_set mont m
                   end);
      do? aa <- (if negb (a.(neg) =? 0) || (0 <=? BN_ucmp a m) then BN_nnmod val0 a m else ret (Some a));
      if BN_is_zero aa then do! z <- BN_zero rr; ret (Some z)
      else
        do? val0 <- BN_to_montgomery val0 aa mont;
        let window := BN_window_bits_for_exponent_size bits in
        do? val <- (if 1 <? window then
                      do? d <- BN_mod_mul_montgomery d val0 None mont;
                      do? vs <- exp_table (Z.to_nat ((1 .<< (window - 1)) - 1)) val0 d mont;
                      ret (Some (val0 :: vs))
                    else ret (Some [val0]));
        do? r <- BN_to_montgomery r BN_value_one mont;
        do? r <- exp_loop (Z.to_nat bits) true (bits - 1) window p r val mont;
        BN_from_montgomery rr r mont.

End Mont.
