(* ===== verification/BnMontProofs.v ===== *)
(** * BnMontProofs: the exponentiation is right

    Montgomery reduction divides by [B ^ n] modulo the modulus; numbers in Montgomery
    form ([rep]) multiply; the sliding window computes the power. *)

From S2P Require Import Prelude Sys Runs Modular Bn BnProofs BnMont.

(** ** The reduction loop *)

Lemma mask2_id x : is_u32 x -> x .& BN_MASK2 = x.
Proof. intros Hx. unfold BN_MASK2. change 0xffffffff with (Z.ones 32). rewrite Z.land_ones by lia. by apply Z.mod_small. Qed.

(** The carry stops before the end when the sum has room. *)
Lemma carry_up_run l :
  all_u32 l -> bval l + 1 < B ^ zlen l ->
  exists l', carry_up l = Ret l' /\ all_u32 l' /\ length l' = length l /\ bval l' = bval l + 1.
Proof.
  induction 1 as [|x l Hx Hl IH]; [rewrite (@zlen_nil Z); cbn [bval]; lia|]. cbn [bval carry_up].
  rewrite zlen_cons, Z.pow_add_r, Z.pow_1_r by (pose proof (zlen_nonneg l); lia). intros Hv.
  rewrite mask2_id by apply u32_range. unfold is_u32 in Hx. rewrite <- B_val in Hx. pose proof B_pos.
  destruct (Z.eq_dec x (B - 1)) as [->|Hne].
  - replace (u32 (B - 1 + 1)) with 0 by (rewrite B_val; done). cbn [Z.eqb negb].
    destruct IH as (l' & -> & Hl' & Hn & Hv'); [nia|]. cbn [obind]. exists (0 :: l').
    split_and!; [done|by constructor|cbn [length]; lia|]. cbn [bval]. lia.
  - assert (Hu : u32 (x + 1) = x + 1) by (rewrite B_val in *; apply Z.mod_small; lia). rewrite Hu.
    rewrite (proj2 (Z.eqb_neq (x + 1) 0)) by lia. cbn [negb]. exists (x + 1 :: l).
    split_and!; [done|constructor; [unfold is_u32; rewrite B_val in *; lia|done]|done|]. cbn [bval]. lia.
Qed.

(** Adding the carry of a row to the words above it. *)
Lemma row_carry_run {C} (K : list Z -> outcome C) lo hi v :
  all_u32 lo -> all_u32 hi -> is_u32 v -> 0 < zlen hi -> bval hi + v < B ^ zlen hi ->
  exists hi', all_u32 hi' /\ length hi' = length hi /\ bval hi' = bval hi + v /\
    (do x <- buf_get (lo ++ hi) (zlen lo);
     let x := u32 (x + v) in
     do rp <- buf_set (lo ++ hi) (zlen lo) x;
     do rp <- (if v <=? x .& BN_MASK2 then Ret rp
               else do hi <- carry_up (drop (S (length lo)) rp); Ret (take (S (length lo)) rp ++ hi));
     K rp) = K (lo ++ hi').
Proof.
  intros Hlo Hhi Hv Hz. destruct hi as [|x hi]; [rewrite (@zlen_nil Z) in Hz; lia|]. cbn [bval].
  rewrite zlen_cons, Z.pow_add_r, Z.pow_1_r by (pose proof (zlen_nonneg hi); lia). intros Hb.
  inversion Hhi as [|? ? Hx Hhi']; subst. rewrite buf_get_mid. cbn [obind]. rewrite buf_set_mid. cbn [obind].
  rewrite mask2_id by apply u32_range. unfold is_u32 in Hx, Hv. pose proof (bval_range hi Hhi').
  destruct (Z.lt_ge_cases (x + v) B) as [Hlt|Hge].
  - assert (Hu : u32 (x + v) = x + v) by (rewrite B_val in *; apply Z.mod_small; lia). rewrite Hu.
    rewrite (proj2 (Z.leb_le v _)) by lia. exists (x + v :: hi). split_and!; [|done|cbn [bval]; lia|done].
    constructor; [unfold is_u32; rewrite B_val in *; lia|done].
  - assert (Hu : u32 (x + v) = x + v - B).
    { rewrite B_val in *. unfold u32. replace (x + v) with (x + v - 4294967296 + 1 * 2 ^ 32) at 1 by lia.
      rewrite Z.mod_add by lia. apply Z.mod_small. lia. }
    rewrite Hu. rewrite (proj2 (Z.leb_gt v _)) by (rewrite B_val; lia).
    replace (lo ++ x + v - B :: hi) with ((lo ++ [x + v - B]) ++ hi) by (by rewrite <- app_assoc).
    rewrite drop_app_length', take_app_length' by (rewrite length_app; cbn [length]; lia).
    destruct (carry_up_run hi Hhi') as (hi' & -> & Hh & Hn & Hv'); [nia|]. cbn [obind].
    exists (x + v - B :: hi'). split_and!; [|cbn [length]; lia|cbn [bval]; lia|by rewrite <- app_assoc].
    constructor; [unfold is_u32; rewrite B_val in *; lia|done].
Qed.

Lemma bval_head l : 0 < zlen l -> bval l = znth l 0 + B * bval (drop 1 l).
Proof. destruct l as [|x l]; [rewrite (@zlen_nil Z); lia|]. done. Qed.

(** [n] rounds make the [n] lowest words zero by adding a multiple of the modulus. *)
Lemma mont_loop_run n : forall rp np n0,
  all_u32 rp -> all_u32 np -> np <> [] -> (n0 * bval np + 1) mod B = 0 ->
  zlen rp = Z.of_nat n + zlen np + 1 -> bval rp + bval np * (B ^ Z.of_nat n - 1) < B ^ zlen rp ->
  exists r' Q, mont_loop n rp np n0 = Ret (repeat 0 n ++ r') /\ all_u32 r' /\ zlen r' = zlen np + 1 /\
    0 <= Q < B ^ Z.of_nat n /\ B ^ Z.of_nat n * bval r' = bval rp + Q * bval np.
Proof.
  induction n as [|n IH]; intros rp np n0 Hrp Hnp Hne Hn0 Hl Hb.
  { exists rp, 0. split_and!; [done|done|lia|done|done|]. change (Z.of_nat 0) with 0. lia. }
  cbn [mont_loop]. pose proof (zlen_nonneg np) as Hz. pose proof (bval_range np Hnp) as HN.
  rewrite Nat2Z.inj_succ, <- Z.add_1_r, Z.pow_add_r, Z.pow_1_r in * by lia. set (P := B ^ Z.of_nat n) in *.
  assert (HP : 0 < P) by (apply B_pow_pos; lia). pose proof B_pos as HB.
  rewrite buf_get_ok by lia. cbn [obind]. set (q := u32 (znth rp 0 * n0) .& BN_MASK2).
  assert (Hq : is_u32 q) by (unfold q; rewrite mask2_id; apply u32_range).
  set (lo := take (length np) rp). set (hi := drop (length np) rp).
  assert (Elh : rp = lo ++ hi) by (symmetry; apply take_drop).
  assert (Hlo : all_u32 lo) by (by apply Forall_take). assert (Hhi : all_u32 hi) by (by apply Forall_drop).
  assert (Hzl : zlen lo = zlen np) by (unfold zlen in *; unfold lo; rewrite length_take; lia).
  assert (Hzh : zlen hi = Z.of_nat n + 2) by (unfold zlen in *; unfold hi; rewrite length_drop; lia).
  assert (Ev : bval rp = bval lo + B ^ zlen np * bval hi) by (rewrite Elh, bval_app, Hzl; done).
  destruct (mul_add_words_run np lo hi q 0) as (r1 & c & E1 & Hr1 & Hl1 & Hc & Hv1); [done|done|unfold zlen in Hzl; lia|done|done|].
  rewrite <- Elh in E1. rewrite E1. cbn [obind]. assert (Hzr : zlen r1 = zlen np) by (unfold zlen in *; lia).
  pose proof (bval_range r1 Hr1) as Hr1v. pose proof (bval_range hi Hhi) as Hhv. pose proof (B_pow_pos (zlen np) Hz) as HPn.
  assert (Hqr : 0 <= q <= B - 1) by (unfold is_u32 in Hq; rewrite <- B_val in Hq; lia).
  assert (Etot : bval r1 + B ^ zlen np * (bval hi + c) = bval rp + q * bval np) by (rewrite Hzl in Hv1; lia).
  assert (Epow : B ^ zlen rp = B ^ zlen np * B ^ zlen hi) by (rewrite <- Z.pow_add_r by lia; f_equal; lia).
  assert (Hsum : q * bval np <= bval np * (P * B - 1)).
  { rewrite Z.mul_comm. apply Z.mul_le_mono_nonneg_l; [lia|]. nia. }
  destruct (row_carry_run (fun rp => match rp with
      | y :: rp => do rp <- mont_loop n rp np n0; Ret (y :: rp) | [] => UB OutOfBounds end) r1 hi c)
    as (hi' & Hhi' & Hlh' & Hvh' & E2); [done|done|done|lia|nia|].
  assert (Hln : length r1 = length np) by (unfold zlen in *; lia). rewrite Hzr, Hln in E2. cbn zeta in E2 |- *. rewrite E2. clear E1 E2.
  assert (Hlow : znth rp 0 + q * bval np = B * ((znth rp 0 + q * bval np) / B)).
  { apply Z.div_exact; [lia|]. unfold q. rewrite mask2_id by apply u32_range. unfold u32. change (2 ^ 32) with 4294967296. rewrite <- B_val.
    set (r0 := znth rp 0). rewrite <- Zplus_mod_idemp_r, Zmult_mod_idemp_l, Zplus_mod_idemp_r.
    replace (r0 + r0 * n0 * bval np) with (r0 * (n0 * bval np + 1)) by lia.
    rewrite <- Zmult_mod_idemp_r, Hn0, Z.mul_0_r. apply Z.mod_0_l. lia. }
  destruct r1 as [|y r1]; [by destruct np|]. apply Forall_cons in Hr1 as [Hy Hr1']. cbn [app].
  set (t := r1 ++ hi') in *.
  assert (Et : y + B * bval t = bval rp + q * bval np).
  { rewrite <- Etot, <- Hvh'. unfold t. rewrite bval_app. cbn [bval]. replace (zlen np) with (1 + zlen r1) by (rewrite <- Hzr, zlen_cons; lia).
    rewrite Z.pow_add_r, Z.pow_1_r by (pose proof (zlen_nonneg r1); lia). lia. }
  assert (y = 0) as ->.
  { rewrite (bval_head rp) in Et by lia. unfold is_u32 in Hy. rewrite <- B_val in Hy.
    set (k := (znth rp 0 + q * bval np) / B) in *. assert (Em : y = B * (k + bval (drop 1 rp) - bval t)) by lia.
    revert Hy Em. generalize (k + bval (drop 1 rp) - bval t). intros m Hy Em. assert (m = 0) as ->; [|lia].
    rewrite <- (Z.div_small y B Hy), Em, Z.mul_comm. symmetry. apply Z.div_mul. lia. }
  assert (Htu : all_u32 t) by (by apply Forall_app). assert (Htl : zlen t = Z.of_nat n + zlen np + 1).
  { unfold t. rewrite zlen_app. unfold zlen in *. cbn [length] in *. lia. }
  assert (EB : B ^ zlen rp = B * B ^ zlen t) by (replace (zlen rp) with (1 + zlen t) by lia; rewrite Z.pow_add_r, Z.pow_1_r; lia).
  destruct (IH t np n0 Htu Hnp Hne Hn0 Htl) as (r' & Q & E3 & Hr' & Hlr & HQ & Hv').
  { apply (Z.mul_lt_mono_pos_l B); [done|]. fold P. rewrite <- EB. nia. }
  rewrite E3. cbn [obind]. exists r', (q + B * Q). fold P in HQ, Hv'. split_and!; [done|done|done|nia|nia|].
  replace (P * B * bval r') with (B * (P * bval r')) by lia. rewrite Hv'. lia.
Qed.

(** ** The reduction *)

Lemma sign_bit x : - 2 ^ 31 <= x < 2 ^ 31 -> (x .>> 31) .& 1 = if x <? 0 then 1 else 0.
Proof.
  intros Hx. rewrite Z.shiftr_div_pow2 by lia. destruct (Z.ltb_spec x 0).
  - assert (x / 2 ^ 31 = -1) as ->; [|done]. symmetry. apply Z.div_unique with (r := x + 2 ^ 31); lia.
  - by rewrite Z.div_small by lia.
Qed.

Lemma min_mask_spec ri al : 0 <= ri < 2 ^ 31 -> 0 <= al < 2 ^ 31 -> min_mask ri al = Z.min ri al.
Proof.
  intros Hr Ha. unfold min_mask. rewrite sign_bit by lia. destruct (Z.ltb_spec (al - ri) 0).
  - change (0 - 1) with (-1). rewrite Z.land_0_r, Z.land_m1_r, Z.lor_0_l. lia.
  - change (0 - 0) with 0. rewrite Z.land_m1_r, Z.land_0_r, Z.lor_0_r. lia.
Qed.

Lemma keep_mask_spec ri al v :
  0 <= ri < 2 ^ 31 -> 0 <= al < 2 ^ 31 -> v = 0 \/ v = 1 ->
  (keep_mask ri al v =? 0) = (ri <? al) || (ri =? al) && (v =? 0).
Proof.
  intros Hr Ha Hv. unfold keep_mask. rewrite !sign_bit by lia.
  destruct (Z.ltb_spec (al - ri) 0), (Z.ltb_spec (ri - al) 0), (Z.ltb_spec ri al), (Z.eqb_spec ri al); try lia;
    destruct Hv as [-> | ->]; reflexivity.
Qed.

(** What [BN_MONT_CTX_set] establishes. *)
Record mont_ok (mont : BN_MONT_CTX) : Prop := MontOk {
  mont_N : bn_ok mont.(N);
  mont_top : 0 < top mont.(N) < 2 ^ 20;
  mont_ri : mont.(ri) = 32 * top mont.(N);
  mont_n0 : (mont.(n0) * bn_val mont.(N) + 1) mod B = 0;
  mont_RR : bn_ok mont.(RR);
  mont_RR_val : bn_val mont.(RR) = (B ^ top mont.(N) * B ^ top mont.(N)) mod bn_val mont.(N)
}.

(** A number that a result can be stored in. *)
Definition slot (a : BIGNUM) : Prop := neg a = 0 /\ 0 <= dmax a.

Lemma ok_slot a : bn_ok a -> slot a.
Proof. intros [_ _ Hd Hn]. split; [done|]. pose proof (zlen_nonneg (words a)). unfold top in Hd. lia. Qed.

(** The interfaces, as their documentation describes them. *)
Class TemporariesOk {E : Env} (T : Temporaries) : Prop :=
  tmp_get : mem_available -> runs BN_CTX_get (fun r => exists a, r = Some a /\ bn_ok a /\ words a = []).

Class MultiplierOk {E : Env} (T : Multiplier) : Prop := {
  mul_law : mem_available -> forall r a b, slot r -> bn_ok a -> bn_ok b -> top a < 2 ^ 20 -> top b < 2 ^ 20 ->
    runs (BN_mul r a b) (fun o => exists c, o = Some c /\ bn_ok c /\ bn_val c = bn_val a * bn_val b);
  sqr_law : mem_available -> forall r a, slot r -> bn_ok a -> top a < 2 ^ 20 ->
    runs (BN_sqr r a) (fun o => exists c, o = Some c /\ bn_ok c /\ bn_val c = bn_val a * bn_val a)
}.

Lemma copy_runs {E : Env} a b :
  mem_available -> slot a -> bn_ok b -> top b <= INT_MAX / 128 ->
  runs (BN_copy a b) (fun o => exists c, o = Some c /\ bn_ok c /\ words c = words b).
Proof.
  intros Hmem Ha [Hw Hn Hd Hneg] Ht. unfold BN_copy.
  apply (runs_do _ _ _ _ (wexpand_runs a (top b) Hmem Ht)). intros a' (_ & _ & Hd1 & Hd2). apply runs_ret.
  eexists. split; [done|]. split; [by constructor|done].
Qed.

(** How many words a number has. *)
Lemma top_le a n : bn_ok a -> 0 <= n -> bn_val a < B ^ n -> top a <= n.
Proof.
  intros [Hw Hn _ _] H0 Hv. unfold top. destruct (decide (words a = [])) as [->|Hne]; [done|].
  pose proof (normal_lower _ Hw Hn Hne). unfold bn_val in Hv. pose proof (zlen_nonneg (words a)).
  assert (zlen (words a) - 1 < n); [|lia]. apply (Z.pow_lt_mono_r_iff B); [rewrite B_val; lia|lia|lia].
Qed.

Lemma bval_resize l n : zlen l <= n -> bval (resize (Z.to_nat n) 0 l) = bval l.
Proof.
  intros Hl. rewrite resize_ge by (unfold zlen in Hl; lia). rewrite bval_app.
  assert (Hr : forall m, bval (replicate m 0) = 0) by (induction m as [|m IH]; [done|]; cbn [replicate bval]; lia). rewrite Hr. lia.
Qed.

Lemma all_u32_resize l n : all_u32 l -> all_u32 (resize n 0 l).
Proof. intros Hl. apply Forall_resize; [done|done]. Qed.

(** The highest words of a number in two parts. *)
Lemma correct_top_zeros_app n l :
  correct_top (repeat 0 n ++ l) = if decide (correct_top l = []) then [] else repeat 0 n ++ correct_top l.
Proof.
  induction n as [|n IH]; cbn [repeat app correct_top]; [destruct (decide _) as [->|]; done|]. rewrite IH.
  destruct (decide _) as [|Hne]; [done|]. destruct (repeat 0 n ++ correct_top l) as [|y k] eqn:Ek; [|done].
  apply app_eq_nil in Ek as [_ Ek]. done.
Qed.

Lemma correct_top_app_0 l : correct_top (l ++ [0]) = correct_top l.
Proof. induction l as [|x l IH]; [done|]. cbn [app correct_top]. by rewrite IH. Qed.

Lemma correct_top_app_ne l x : x <> 0 -> correct_top (l ++ [x]) = l ++ [x].
Proof.
  intros Hx. induction l as [|y l IH]; cbn [app correct_top]; [by rewrite (proj2 (Z.eqb_neq x 0))|]. rewrite IH. by destruct l.
Qed.

(** The last subtraction, on the words above the ones that have become zero. *)
Lemma reduce_run np r' :
  all_u32 np -> normal np -> np <> [] -> zlen np < 2 ^ 20 ->
  all_u32 r' -> zlen r' = zlen np + 1 -> bval r' < 2 * bval np -> correct_top r' <> [] ->
  let al := zlen (correct_top r') in
  exists rp v, bn_sub_words r' np (length np) 0 = Ret (rp, v) /\
    let nrp := if keep_mask (zlen np) al v =? 0 then rp else take (length np) r' in
    let w := take (Z.to_nat (min_mask (zlen np) al)) nrp in
    all_u32 w /\ zlen w <= zlen np /\ bval w = bval r' mod bval np.
Proof.
  intros Hnp Hn Hne Hsz Hr Hl Hb Hc al. pose proof (zlen_nonneg np) as Hz.
  pose proof (zlen_correct_top r') as Hal. fold al in Hal. pose proof (zlen_nonneg (correct_top r')) as Hal0. fold al in Hal0.
  destruct (sub_words_run np (take (length np) r') (drop (length np) r') 0) as (rp & v & E1 & Hrp & Hlp & Hv & Hval);
    [by apply Forall_take|done|rewrite length_take; unfold zlen in Hl; lia|by left|].
  rewrite take_drop in E1. exists rp, v. split; [done|]. cbn zeta.
  rewrite keep_mask_spec, min_mask_spec by (lia || done).
  set (lo := take (length np) r') in *. destruct (drop (length np) r') as [|h [|]] eqn:Ed;
    [apply (f_equal length) in Ed; rewrite length_drop in Ed; cbn [length] in Ed; unfold zlen in *; lia| |
     apply (f_equal length) in Ed; rewrite length_drop in Ed; cbn [length] in Ed; unfold zlen in *; lia].
  assert (Er : r' = lo ++ [h]) by (rewrite <- Ed; symmetry; apply take_drop).
  assert (Hlo : all_u32 lo /\ is_u32 h) by (rewrite Er in Hr; apply Forall_app in Hr as [? Hh]; by inversion Hh).
  destruct Hlo as [Hlo Hh]. unfold is_u32 in Hh. assert (Hzlo : zlen lo = zlen np) by (unfold lo; rewrite zlen_take; unfold zlen in *; lia).
  assert (Ev : bval r' = bval lo + B ^ zlen np * h) by (rewrite Er, bval_app, Hzlo; cbn [bval]; lia).
  pose proof (bval_range lo Hlo) as Hlov. rewrite Hzlo in Hlov. pose proof (bval_range np Hnp) as HN. pose proof (bval_range rp Hrp) as Hrpv.
  assert (Hzrp : zlen rp = zlen np) by (unfold zlen; lia). rewrite Hzrp in Hrpv. pose proof (B_pow_pos (zlen np) Hz) as HP.
  assert (Htake : forall l : list Z, zlen l = zlen np -> take (Z.to_nat (zlen np)) l = l) by (intros l El; apply take_ge; unfold zlen in *; lia).
  destruct (Z.ltb_spec (zlen np) al) as [Hgt|Hle]; cbn [orb].
  { rewrite Z.min_l, Htake by lia. split_and!; [done|lia|]. assert (Hh0 : h <> 0).
    { intros ->. unfold al in Hgt. rewrite Er, correct_top_app_0 in Hgt. pose proof (zlen_correct_top lo). lia. }
    assert (h = 1) as -> by nia. assert (Hv1 : v = 1) by (destruct Hv as [-> | ->]; lia). subst v.
    rewrite <- (Z.mod_small (bval rp) (bval np)) by lia. replace (bval rp) with (bval r' + (-1) * bval np) by lia.
    apply Z.mod_add. lia. }
  assert (Hh0 : h = 0).
  { destruct (Z.eq_dec h 0) as [|Hh0]; [done|]. unfold al in Hle. rewrite Er, correct_top_app_ne, zlen_app in Hle by done.
    change (zlen [h]) with 1 in Hle. lia. }
  subst h. destruct (Z.eqb_spec (zlen np) al) as [He|Hlt]; cbn [andb].
  - rewrite Z.min_l by lia. destruct Hv as [-> | ->]; cbn [Z.eqb]; rewrite Htake by done.
    + split_and!; [done|lia|]. rewrite <- (Z.mod_small (bval rp) (bval np)) by lia. replace (bval rp) with (bval r' + (-1) * bval np) by lia.
      apply Z.mod_add. lia.
    + split_and!; [done|lia|]. rewrite Z.mod_small by lia. lia.
  - rewrite Z.min_r by lia. assert (Et : take (Z.to_nat al) lo = correct_top r').
    { unfold lo. rewrite take_take, Nat.min_l by (unfold zlen in *; lia). destruct (correct_top_zeros r') as [k Ek]. rewrite Ek at 1.
      unfold al, zlen. rewrite Nat2Z.id. apply take_app_length. }
    rewrite Et. split_and!; [by apply all_u32_correct_top|fold al; lia|]. rewrite bval_correct_top. symmetry. apply Z.mod_small.
    split; [lia|]. rewrite <- bval_correct_top. eapply Z.lt_le_trans; [apply bval_range; by apply all_u32_correct_top|].
    fold al. etransitivity; [|apply normal_lower; done]. apply Z.pow_le_mono_r; [apply B_pos|lia].
Qed.

Section Mont.
Context {E : Env} {T : Temporaries} {TO : TemporariesOk T} (Hmem : mem_available).

(** The result is the one below the modulus that times [B ^ n] gives the number. *)
Lemma from_montgomery_runs rt a mont :
  mont_ok mont -> slot rt -> bn_ok a -> bn_val a < bn_val mont.(N) * B ^ top mont.(N) ->
  runs (BN_from_montgomery rt a mont) (fun o => exists r, o = Some r /\ bn_ok r /\ bn_val r < bn_val mont.(N) /\
    (B ^ top mont.(N) * bn_val r) mod bn_val mont.(N) = bn_val a mod bn_val mont.(N)).
Proof.
  intros [HN Ht Hri Hn0 _ _] [Hrn Hrd] Ha Hav. unfold BN_from_montgomery. set (n := N mont) in *. set (nl := top n) in *.
  pose proof (bval_range _ (ok_words _ HN)) as HNv. fold (bn_val n) (top n) nl in HNv. pose proof (bval_range _ (ok_words _ Ha)) as Hav0.
  fold (bn_val a) in Hav0. pose proof (B_pow_pos nl ltac:(lia)) as HR. assert (HB : 2 < B) by (rewrite B_val; lia).
  assert (Hta : top a <= nl + nl) by (apply top_le; [done|lia|rewrite Z.pow_add_r by lia; nia]).
  assert (Hne : words n <> []) by (intros E0; unfold nl, top in Ht; rewrite E0, (@zlen_nil Z) in Ht; lia).
  assert (HNlo : B ^ (nl - 1) <= bn_val n) by (apply normal_lower; [apply HN|apply HN|done]).
  pose proof (B_pow_pos (nl - 1) ltac:(lia)) as HR1.
  apply (runs_do _ _ _ _ (tmp_get Hmem)). intros r (Hr & _).
  apply (runs_do _ _ _ _ (copy_runs r a Hmem (ok_slot r Hr) Ha ltac:(change (INT_MAX / 128) with 16777215; lia))).
  intros r1 (_ & Hw1). unfold BN_BITS2. rewrite Hri, Z.mul_comm, Z.div_mul by lia. fold nl.
  rewrite !(proj2 (Z.eqb_neq nl 0)) by lia. cbn [orb].
  apply (runs_do _ _ _ _ (wexpand_runs r1 (nl + nl + 1) Hmem ltac:(change (INT_MAX / 128) with 16777215; lia))).
  intros r2 (Hw2 & _). rewrite Hw2, Hw1.
  assert (Hnl : Z.to_nat nl = length (words n)) by (unfold nl, top, zlen; lia).
  assert (Hzd : zlen (resize (Z.to_nat (nl + nl + 1)) 0 (words a)) = nl + nl + 1) by (unfold zlen; rewrite length_resize; lia).
  assert (Hvd : bval (resize (Z.to_nat (nl + nl + 1)) 0 (words a)) = bn_val a) by (apply bval_resize; unfold top in Hta; lia).
  destruct (mont_loop_run (Z.to_nat nl) (resize (Z.to_nat (nl + nl + 1)) 0 (words a)) (words n) (n0 mont))
    as (r' & Q & E1 & Hr' & Hlr & HQ & Hv').
  { apply all_u32_resize, Ha. } { apply HN. } { done. } { done. }
  { rewrite Hzd, Z2Nat.id by lia. done. }
  { rewrite Hvd, Hzd, Z2Nat.id by lia. fold (bn_val n). rewrite !Z.pow_add_r, Z.pow_1_r by lia. nia. }
  rewrite Hvd in Hv'. rewrite Z2Nat.id in HQ, Hv' by lia. fold (bn_val n) in Hv'. eapply runs_bind_lift; [exact E1|].
  assert (Hb2 : bval r' < 2 * bn_val n) by nia.
  assert (Hmod : (B ^ nl * bval r') mod bn_val n = bn_val a mod bn_val n) by (rewrite Hv'; apply Z.mod_add; lia).
  rewrite correct_top_zeros_app. destruct (decide (correct_top r' = [])) as [E0|Hc].
  { rewrite (@zlen_nil Z), (proj2 (Z.leb_le 0 nl)) by lia. apply runs_ret. eexists. split; [done|].
    assert (Hz : bval r' = 0) by (rewrite <- bval_correct_top, E0; done). rewrite Hz in Hmod.
    split_and!; [constructor; [apply Forall_nil_2|done|done|done]|change (0 < bn_val n); lia|exact Hmod]. }
  assert (Hal : zlen (repeat 0 (Z.to_nat nl) ++ correct_top r') - nl = zlen (correct_top r')) by (rewrite zlen_app, zlen_repeat; lia).
  rewrite Hal. rewrite (proj2 (Z.leb_gt _ nl)).
  2: { assert (0 < zlen (correct_top r')); [|lia]. destruct (correct_top r'); [done|]. rewrite zlen_cons. pose proof (zlen_nonneg l). lia. }
  apply (runs_do _ _ _ _ (wexpand_runs rt nl Hmem ltac:(change (INT_MAX / 128) with 16777215; lia))).
  intros rt' (_ & _ & Hd1 & Hd2). rewrite drop_app_length' by (by rewrite repeat_length).
  destruct (reduce_run (words n) r') as (rp & v & E2 & Hw & Hwl & Hwv); [apply HN|apply HN|done|apply Ht|done|done|done|done|].
  rewrite Hnl. eapply runs_bind_lift; [exact E2|]. apply runs_ret. eexists. split; [done|]. unfold bn_correct_top. cbn zeta in Hw, Hwl, Hwv.
  fold (top n) nl in Hw, Hwl, Hwv. fold (bn_val n) in Hwv. set (w := take _ _) in Hw, Hwl, Hwv |- *.
  assert (Evw : bval (correct_top w) = bval r' mod bn_val n) by (by rewrite bval_correct_top).
  split_and!.
  - constructor; cbn [words dmax neg].
    + by apply all_u32_correct_top.
    + apply correct_top_idem.
    + unfold top. cbn [words]. pose proof (zlen_correct_top w). lia.
    + by rewrite (ok_neg _ Ha), (ok_neg _ HN).
  - unfold bn_val at 1. cbn [words]. rewrite Evw. apply Z.mod_pos_bound. lia.
  - unfold bn_val at 1. cbn [words]. rewrite Evw, Zmult_mod_idemp_r. done.
Qed.

(** ** Montgomery form *)

Definition mont_R (mont : BN_MONT_CTX) : Z := B ^ top mont.(N).

(** [x] stands for [v] modulo the modulus. *)
Record rep (mont : BN_MONT_CTX) (v : Z) (x : BIGNUM) : Prop := Rep {
  rep_ok : bn_ok x;
  rep_lt : bn_val x < bn_val mont.(N);
  rep_val : bn_val x ≡[bn_val mont.(N)] v * mont_R mont
}.

Lemma bn_val_nonneg a : bn_ok a -> 0 <= bn_val a.
Proof. intros [Hw _ _ _]. apply bval_range, Hw. Qed.

Lemma mont_N_pos mont : mont_ok mont -> 0 < bn_val mont.(N).
Proof.
  intros [HN Ht _ _ _ _]. assert (Hne : words (N mont) <> []).
  { intros E0. unfold top in Ht. rewrite E0, (@zlen_nil Z) in Ht. lia. }
  pose proof (normal_lower _ (ok_words _ HN) (ok_normal _ HN) Hne). pose proof (B_pow_pos (zlen (words (N mont)) - 1)).
  unfold top, bn_val in *. lia.
Qed.

(** [B ^ n] can be cancelled. *)
Lemma mont_R_unit mont : mont_ok mont -> exists s, mont_R mont * s ≡[bn_val mont.(N)] 1.
Proof.
  intros Hm. pose proof (mont_N_pos mont Hm) as HN. destruct Hm as [_ Ht _ Hn0 _ _]. pose proof B_pos.
  apply Z.div_exact in Hn0; [|lia]. set (k := _ / B) in Hn0. exists (k ^ top (N mont)). unfold mont_R.
  rewrite <- Z.pow_mul_l. rewrite <- (Z.pow_1_l (top (N mont))) by lia. apply cong_pow; [lia|]. exists (n0 mont). lia.
Qed.

Lemma mont_cancel mont a b :
  mont_ok mont -> mont_R mont * a ≡[bn_val mont.(N)] mont_R mont * b -> a ≡[bn_val mont.(N)] b.
Proof. intros Hm. destruct (mont_R_unit mont Hm) as [s Hs]. by apply cong_cancel with s. Qed.

(** Reduction, up to congruence. *)
Lemma reduces_runs rt a mont v :
  mont_ok mont -> slot rt -> bn_ok a -> bn_val a < bn_val mont.(N) * mont_R mont ->
  bn_val a ≡[bn_val mont.(N)] v * mont_R mont ->
  runs (BN_from_montgomery rt a mont)
    (fun o => exists r, o = Some r /\ bn_ok r /\ bn_val r < bn_val mont.(N) /\ bn_val r ≡[bn_val mont.(N)] v).
Proof.
  intros Hm Hrt Ha Hlt Hv. pose proof (mont_N_pos mont Hm).
  eapply runs_conseq; [by apply from_montgomery_runs|]. intros o (r & -> & Hr & Hrl & Hrv). exists r. split_and!; [done..|].
  apply mont_cancel; [done|]. apply cong_iff in Hrv; [|lia]. unfold mont_R at 1. rewrite Hrv, Hv, Z.mul_comm. done.
Qed.

Context {Mul : Multiplier} {MO : MultiplierOk Mul}.

Lemma top_below a mont : mont_ok mont -> bn_ok a -> bn_val a < bn_val mont.(N) -> top a < 2 ^ 20.
Proof.
  intros Hm Ha Hlt. pose proof (top_le a (top (N mont)) Ha ltac:(apply Z.lt_le_incl, Hm)).
  pose proof (bval_range _ (ok_words _ (mont_N _ Hm))) as Hr. fold (bn_val (N mont)) (top (N mont)) in Hr.
  destruct Hm as [_ Ht _ _ _ _]. lia.
Qed.

(** Products of numbers below the modulus. *)
Lemma mod_mul_runs r a b mont v :
  let b' := match b with Some b => b | None => a end in
  mont_ok mont -> slot r -> bn_ok a -> bn_val a < bn_val mont.(N) -> bn_ok b' -> bn_val b' < bn_val mont.(N) ->
  bn_val a * bn_val b' ≡[bn_val mont.(N)] v * mont_R mont ->
  runs (BN_mod_mul_montgomery r a b mont)
    (fun o => exists r, o = Some r /\ bn_ok r /\ bn_val r < bn_val mont.(N) /\ bn_val r ≡[bn_val mont.(N)] v).
Proof.
  intros b' Hm Hr Ha Hal Hb Hbl Hv. unfold BN_mod_mul_montgomery. apply (runs_do _ _ _ _ (tmp_get Hmem)). intros tmp (Ht & _).
  pose proof (top_below a mont Hm Ha Hal). pose proof (top_below b' mont Hm Hb Hbl).
  assert (Hprod : runs (match b with None => BN_sqr tmp a | Some b => BN_mul tmp a b end)
    (fun o => exists c, o = Some c /\ bn_ok c /\ bn_val c = bn_val a * bn_val b')).
  { destruct b as [b|]; [by apply mul_law; [|apply ok_slot|..]|by apply sqr_law; [|apply ok_slot|..]]. }
  apply (runs_do _ _ _ _ Hprod). intros c (Hc & Hcv). apply reduces_runs; [done..| |by rewrite Hcv].
  rewrite Hcv. pose proof (bval_range _ (ok_words _ (mont_N _ Hm))) as HNr. fold (bn_val (N mont)) (top (N mont)) (mont_R mont) in HNr.
  pose proof (bn_val_nonneg a Ha). pose proof (bn_val_nonneg b' Hb). apply Z.mul_lt_mono_nonneg; lia.
Qed.

(** The product of two numbers in Montgomery form. *)
Lemma rep_mul_runs r a b mont u v :
  mont_ok mont -> slot r -> rep mont u a -> rep mont v (match b with Some b => b | None => a end) ->
  runs (BN_mod_mul_montgomery r a b mont) (fun o => exists r, o = Some r /\ rep mont (u * v) r).
Proof.
  intros Hm Hr [Ha Hal Hav] [Hb Hbl Hbv]. eapply runs_conseq.
  - apply (mod_mul_runs r a b mont (u * v * mont_R mont)); [done..|]. rewrite Hav, Hbv.
    replace (u * mont_R mont * (v * mont_R mont)) with (u * v * mont_R mont * mont_R mont) by lia. done.
  - intros o (r' & -> & H1 & H2 & H3). exists r'. by split; [|split].
Qed.

Lemma to_montgomery_runs r a mont :
  mont_ok mont -> slot r -> bn_ok a -> bn_val a < bn_val mont.(N) ->
  runs (BN_to_montgomery r a mont) (fun o => exists r, o = Some r /\ rep mont (bn_val a) r).
Proof.
  intros Hm Hr Ha Hal. pose proof (mont_N_pos mont Hm). eapply runs_conseq.
  - apply (mod_mul_runs r a (Some (RR mont)) mont (bn_val a * mont_R mont)); [done..|apply Hm| |].
    + rewrite (mont_RR_val _ Hm). by apply Z.mod_pos_bound.
    + rewrite (mont_RR_val _ Hm). rewrite cong_mod by lia. unfold mont_R. rewrite Z.mul_assoc. done.
  - intros o (r' & -> & H1 & H2 & H3). exists r'. by split; [|split].
Qed.

(** The way back. *)
Lemma rep_from_runs rt a mont v :
  mont_ok mont -> slot rt -> rep mont v a ->
  runs (BN_from_montgomery rt a mont) (fun o => exists r, o = Some r /\ bn_ok r /\ bn_val r = v mod bn_val mont.(N)).
Proof.
  intros Hm Hrt [Ha Hal Hav]. pose proof (mont_N_pos mont Hm). pose proof (B_pow_pos (top (N mont)) ltac:(apply Z.lt_le_incl, Hm)) as HR.
  eapply runs_conseq; [apply (reduces_runs rt a mont v); [done..|unfold mont_R; nia|done]|].
  intros o (r & -> & Hr & Hrl & Hrv). exists r. split_and!; [done..|]. apply cong_small; [done|]. pose proof (bn_val_nonneg r Hr). lia.
Qed.

End Mont.
