(* ===== verification/BnExpProofs.v ===== *)
(** * BnExpProofs: the sliding window

    [BN_mod_exp_mont] computes the power: the table of odd powers, the windows that are
    cut out of the exponent, and the loop that puts them together. *)

From S2P Require Import Prelude Sys Runs Modular Bn BnProofs BnMont BnMontProofs.

(** ** Windows *)

Section Window.
Context (p : BIGNUM) (s : Z) (Hp : bn_ok p) (Hs : 0 <= s).

(** The [k + 1] bits of the exponent from bit [s] down. *)
Definition bits_from (k : Z) : Z := (bn_val p / 2 ^ (s - k)) mod 2 ^ (k + 1).

Lemma bit_at n : 0 <= n -> BN_is_bit_set p n = (bn_val p / 2 ^ n) mod 2.
Proof. intros Hn. rewrite is_bit_set_spec by done. by apply Z.testbit_spec'. Qed.

Lemma bits_from_0 : bits_from 0 = BN_is_bit_set p s.
Proof. unfold bits_from. rewrite bit_at, Z.sub_0_r by done. done. Qed.

Lemma bits_from_next i : 1 <= i <= s -> bits_from i = 2 * bits_from (i - 1) + BN_is_bit_set p (s - i).
Proof.
  intros Hi. unfold bits_from. rewrite bit_at by lia. set (q := bn_val p / 2 ^ (s - i)).
  assert (Hq : bn_val p / 2 ^ (s - (i - 1)) = q / 2).
  { unfold q. replace (s - (i - 1)) with (s - i + 1) by lia. rewrite Z.pow_add_r, Z.div_div by (try apply Z.pow_pos_nonneg; lia). done. }
  rewrite Hq. replace (i - 1 + 1) with i by lia. rewrite Z.pow_add_r, (Z.mul_comm (2 ^ i)) by lia.
  change (2 ^ 1) with 2. rewrite Z.rem_mul_r by (pose proof (Z.pow_pos_nonneg 2 i); lia). lia.
Qed.

(** The window ends in a set bit, has at most [i + n] bits and holds them. *)
Lemma scan_window_spec n : forall i wvalue wend,
  0 <= wend < i -> wvalue = bits_from wend -> Z.odd wvalue = true -> wend <= s ->
  (i - 1 <= s -> bits_from (i - 1) = wvalue * 2 ^ (i - 1 - wend)) ->
  let '(wv, we) := scan_window n i s p wvalue wend in
  wv = bits_from we /\ Z.odd wv = true /\ 0 <= we <= s /\ we < i + Z.of_nat n.
Proof.
  induction n as [|n IH]; intros i wvalue wend Hw Hv Ho Hws Hin; cbn [scan_window].
  { split_and!; [done|done|lia|lia|lia]. }
  destruct (Z.ltb_spec (s - i) 0); [split_and!; done || lia|].
  specialize (Hin ltac:(lia)). pose proof (bits_from_next i ltac:(lia)) as Hnext.
  assert (Hsh : 2 * bits_from (i - 1) = wvalue * 2 ^ (i - wend)).
  { rewrite Hin. replace (i - wend) with (i - 1 - wend + 1) by lia. rewrite (Z.pow_add_r 2 _ 1) by lia. lia. }
  destruct (Z.eqb_spec (BN_is_bit_set p (s - i)) 0) as [Hb|Hb]; cbn [negb].
  - specialize (IH (i + 1) wvalue wend). destruct (scan_window _ _ _ _ _ _) as [wv we].
    destruct IH as (H1 & H2 & H3 & H4); [lia|done|done|done| |split_and!; done || lia].
    intros _. replace (i + 1 - 1) with i by lia. rewrite Hnext, Hb, Z.add_0_r. done.
  - assert (Hb1 : BN_is_bit_set p (s - i) = 1).
    { rewrite bit_at in Hb |- * by lia. pose proof (Z.mod_pos_bound (bn_val p / 2 ^ (s - i)) 2). lia. }
    assert (Ev : (wvalue .<< (i - wend)) .| 1 = bits_from i).
    { rewrite Z.shiftl_mul_pow2, <- Hsh, Hnext, Hb1 by lia. apply (lor_low (bits_from (i - 1)) 1 1); lia. }
    rewrite Ev. specialize (IH (i + 1) (bits_from i) i). destruct (scan_window _ _ _ _ _ _) as [wv we].
    destruct IH as (H1 & H2 & H3 & H4); [lia|done| |lia| |split_and!; done || lia].
    + rewrite Hnext, Hb1, Z.add_comm, Z.odd_add_mul_2. done.
    + intros _. replace (i + 1 - 1) with i by lia. rewrite Z.sub_diag, Z.pow_0_r. lia.
Qed.

(** The exponent down to the end of the window. *)
Lemma bits_join we : 0 <= we <= s ->
  bn_val p / 2 ^ (s - we) = bn_val p / 2 ^ (s + 1) * 2 ^ (we + 1) + bits_from we.
Proof.
  intros Hw. unfold bits_from. set (q := bn_val p / 2 ^ (s - we)). assert (Hq : bn_val p / 2 ^ (s + 1) = q / 2 ^ (we + 1)).
  { unfold q. replace (s + 1) with (s - we + (we + 1)) by lia. rewrite Z.pow_add_r, Z.div_div by (try apply Z.pow_pos_nonneg; lia). done. }
  rewrite Hq, Z.mul_comm. apply Z.div_mod. pose proof (Z.pow_pos_nonneg 2 (we + 1)). lia.
Qed.

End Window.

(** ** The loop *)

Section Exp.
Context {E : Env} {T : Temporaries} {TO : TemporariesOk T} {Mul : Multiplier} {MO : MultiplierOk Mul}.
Context (Hmem : mem_available) (mont : BN_MONT_CTX) (Hm : mont_ok mont) (x : Z).

Lemma rep_slot v a : rep mont v a -> slot a.
Proof. intros [Ha _ _]. by apply ok_slot. Qed.

Lemma exp_table_runs d n : rep mont (x ^ 2) d -> forall prev k, 0 <= k -> rep mont (x ^ (2 * k + 1)) prev ->
  runs (exp_table n prev d mont) (fun o => exists vs, o = Some vs /\ length vs = n /\
    forall i v, vs !! i = Some v -> rep mont (x ^ (2 * (k + 1 + Z.of_nat i) + 1)) v).
Proof.
  intros Hd. induction n as [|n IH]; intros prev k Hk Hprev; cbn [exp_table]; [by apply runs_ret; exists []|].
  apply (runs_do _ _ _ _ (tmp_get Hmem)). intros v (Hv & _).
  apply (runs_do _ _ _ _ (rep_mul_runs Hmem v prev (Some d) mont _ _ Hm (ok_slot v Hv) Hprev Hd)). intros v1 Hv1.
  rewrite <- Z.pow_add_r in Hv1 by lia. replace (2 * k + 1 + 2) with (2 * (k + 1) + 1) in Hv1 by lia.
  apply (runs_do _ _ _ _ (IH v1 (k + 1) ltac:(lia) Hv1)). intros vs (Hl & Hvs). apply runs_ret.
  exists (v1 :: vs). split_and!; [done|cbn [length]; lia|]. intros [|i] v' Hi; cbn in Hi.
  - injection Hi as <-. by replace (k + 1 + Z.of_nat 0) with (k + 1) by lia.
  - replace (k + 1 + Z.of_nat (S i)) with (k + 1 + 1 + Z.of_nat i) by lia. by apply Hvs.
Qed.

Lemma square_times_runs j : forall r e, 0 <= e -> rep mont (x ^ e) r ->
  runs (square_times j r mont) (fun o => exists r, o = Some r /\ rep mont (x ^ (e * 2 ^ Z.of_nat j)) r).
Proof.
  induction j as [|j IH]; intros r e He Hr; cbn [square_times].
  { apply runs_ret. exists r. split; [done|]. change (2 ^ Z.of_nat 0) with 1. by rewrite Z.mul_1_r. }
  apply (runs_do _ _ _ _ (rep_mul_runs Hmem r r None mont _ _ Hm (rep_slot _ _ Hr) Hr Hr)). intros r1 Hr1.
  rewrite <- Z.pow_add_r in Hr1 by lia. eapply runs_conseq; [apply (IH r1 (e + e)); [lia|done]|].
  intros o (r2 & -> & Hr2). exists r2. split; [done|].
  rewrite Nat2Z.inj_succ, Z.pow_succ_r by lia. by replace (e * (2 * 2 ^ Z.of_nat j)) with ((e + e) * 2 ^ Z.of_nat j) by lia.
Qed.

(** At bit [wstart] the result holds the bits above it; while [start] there are none. *)
Lemma exp_loop_runs p window val fuel :
  bn_ok p -> 1 <= window -> length val = Z.to_nat (2 ^ (window - 1)) ->
  (forall i v, val !! i = Some v -> rep mont (x ^ (2 * Z.of_nat i + 1)) v) ->
  forall start wstart r, 0 <= wstart < Z.of_nat fuel -> rep mont (x ^ (bn_val p / 2 ^ (wstart + 1))) r ->
  (start = true -> bn_val p / 2 ^ (wstart + 1) = 0) ->
  runs (exp_loop fuel start wstart window p r val mont) (fun o => exists r, o = Some r /\ rep mont (x ^ bn_val p) r).
Proof.
  intros Hp Hw Hlen Hval. pose proof (bn_val_nonneg p Hp) as Hp0.
  induction fuel as [|fuel IH]; intros start s r Hs Hr Hstart; [lia|]. cbn [exp_loop].
  set (e := bn_val p / 2 ^ (s + 1)) in *. assert (He : 0 <= e) by (apply Z.div_pos; [done|apply Z.pow_pos_nonneg; lia]).
  destruct (Z.eqb_spec (BN_is_bit_set p s) 0) as [Hb|Hb].
  - assert (Hnext : bn_val p / 2 ^ s = e + e).
    { pose proof (bits_join p s 0 ltac:(lia)) as Hj. rewrite bits_from_0, Hb in Hj by (done || lia).
      rewrite Z.sub_0_r in Hj. fold e in Hj. change (2 ^ (0 + 1)) with 2 in Hj. lia. }
    apply (runs_do _ _ (rep mont (x ^ (bn_val p / 2 ^ s)))).
    + rewrite Hnext. destruct start; cbn [negb].
      * apply runs_ret. exists r. split; [done|]. rewrite (Hstart eq_refl) in *. done.
      * eapply runs_conseq; [apply (rep_mul_runs Hmem r r None mont _ _ Hm (rep_slot _ _ Hr) Hr Hr)|].
        intros o (r1 & -> & Hr1). exists r1. split; [done|]. by rewrite Z.pow_add_r.
    + intros r1 Hr1. destruct (Z.eqb_spec s 0) as [->|Hs0].
      * apply runs_ret. exists r1. split; [done|]. by rewrite Z.pow_0_r, Z.div_1_r in Hr1.
      * apply IH; [lia|by replace (s - 1 + 1) with s by lia|]. intros Ht. replace (s - 1 + 1) with s by lia.
        rewrite Hnext, (Hstart Ht). done.
  - pose proof (scan_window_spec p s Hp (Z.to_nat (window - 1)) 1 1 0) as Hscan.
    assert (Hb1 : bits_from p s 0 = 1).
    { rewrite bits_from_0 by (done || lia). rewrite bit_at in Hb |- * by (done || lia).
      pose proof (Z.mod_pos_bound (bn_val p / 2 ^ s) 2). lia. }
    destruct (scan_window _ _ _ _ _ _) as [wv we]. destruct Hscan as (Hwv & Hodd & Hwe & Hwn); [lia|done|done|lia|done|].
    rewrite Z2Nat.id in Hwn by lia. pose proof (bits_join p s we Hwe) as Hj. fold e in Hj.
    assert (Hwvr : 0 <= wv < 2 ^ (we + 1)) by (rewrite Hwv; apply Z.mod_pos_bound, Z.pow_pos_nonneg; lia).
    apply (runs_do _ _ (rep mont (x ^ (e * 2 ^ (we + 1))))).
    { destruct start; cbn [negb].
      - apply runs_ret. exists r. split; [done|]. by rewrite (Hstart eq_refl) in *.
      - pose proof (square_times_runs (Z.to_nat (we + 1)) r e He Hr) as Hsq. by rewrite Z2Nat.id in Hsq by lia. }
    intros r1 Hr1. rewrite Z.shiftr_div_pow2 by lia. change (2 ^ 1) with 2.
    assert (Hhalf : wv = 2 * (wv / 2) + 1).
    { rewrite (Z.div_mod wv 2) at 1 by lia. rewrite Zmod_odd, Hodd. done. }
    destruct (val !! Z.to_nat (wv / 2)) as [v|] eqn:Ev.
    2: { exfalso. apply lookup_ge_None in Ev. rewrite Hlen in Ev. assert (2 ^ (we + 1) <= 2 ^ window) by (apply Z.pow_le_mono_r; lia).
      replace window with (window - 1 + 1) in H by lia. rewrite (Z.pow_add_r 2 (window - 1)) in H by lia.
      pose proof (Z.div_pos wv 2 ltac:(lia) ltac:(lia)). pose proof (Z.pow_pos_nonneg 2 (window - 1)). lia. }
    apply Hval in Ev. rewrite Z2Nat.id, <- Hhalf in Ev by (apply Z.div_pos; lia).
    apply (runs_do _ _ _ _ (rep_mul_runs Hmem r1 r1 (Some v) mont _ _ Hm (rep_slot _ _ Hr1) Hr1 Ev)). intros r2 Hr2.
    rewrite <- Z.pow_add_r in Hr2 by (try (pose proof (Z.pow_pos_nonneg 2 (we + 1)); nia); lia). rewrite Hwv, <- Hj in Hr2.
    destruct (Z.ltb_spec (s - (we + 1)) 0).
    + apply runs_ret. exists r2. split; [done|]. replace (s - we) with 0 in Hr2 by lia. by rewrite Z.pow_0_r, Z.div_1_r in Hr2.
    + apply IH; [lia|by replace (s - (we + 1) + 1) with (s - we) by lia|done].
Qed.

End Exp.

(** ** Small operations on numbers *)

Lemma zero_runs {E : Env} a : mem_available -> slot a -> runs (BN_zero a) (fun r => bn_ok r /\ words r = []).
Proof.
  intros Hmem [Hn Hd]. unfold BN_zero, BN_set_word. apply (runs_bind _ _ (fun o => exists r, o = Some r /\ bn_ok r /\ words r = [])).
  - apply (runs_do _ _ _ _ (wexpand_runs a 1 Hmem ltac:(done))). intros a' (_ & _ & Hd' & _). apply runs_ret.
    eexists. split; [done|]. split; [constructor; [apply Forall_nil_2|done|change (0 <= dmax a'); lia|done]|done].
  - intros o (r & -> & Hr). by apply runs_ret.
Qed.

Lemma set_word_runs {E : Env} a w :
  mem_available -> slot a -> is_u32 w -> runs (BN_set_word a w) (fun o => exists r, o = Some r /\ bn_ok r /\ bn_val r = w).
Proof.
  intros Hmem [Hn Hd] Hw. unfold BN_set_word. apply (runs_do _ _ _ _ (wexpand_runs a 1 Hmem ltac:(done))).
  intros a' (_ & _ & Hd' & Hd1). apply runs_ret. eexists. split; [done|]. unfold bn_val. cbn [words].
  destruct (Z.eqb_spec w 0) as [->|Hw0]; (split; [constructor|]); cbn [words bval]; try lia; try done.
  - apply Forall_nil_2.
  - unfold top. cbn [words dmax]. rewrite (@zlen_nil Z). lia.
  - by apply Forall_singleton.
  - unfold normal. cbn. by rewrite (proj2 (Z.eqb_neq w 0)).
Qed.

Lemma normal_snoc l x : x <> 0 -> normal (l ++ [x]).
Proof. apply correct_top_app_ne. Qed.

Lemma all_u32_zeros n : Forall is_u32 (repeat 0 n).
Proof. induction n as [|n IH]; [apply Forall_nil_2|]. by constructor. Qed.

(** A power of two. *)
Lemma set_bit_runs {E : Env} a n :
  mem_available -> bn_ok a -> words a = [] -> 0 <= n < 2 ^ 28 ->
  runs (BN_set_bit a n) (fun o => exists r, o = Some r /\ bn_ok r /\ bn_val r = 2 ^ n).
Proof.
  intros Hmem Ha Hw Hn. unfold BN_set_bit, BN_BITS2. rewrite (proj2 (Z.ltb_ge n 0)) by lia.
  assert (Hi : 0 <= n / 32 < 2 ^ 23) by (split; [apply Z.div_pos|apply Z.div_lt_upper_bound]; lia).
  pose proof (Z.mod_pos_bound n 32 ltac:(lia)) as Hj. set (i := n / 32) in *. set (j := n mod 32) in *.
  unfold top at 1. rewrite Hw, (@zlen_nil Z), (proj2 (Z.leb_le 0 i)) by lia.
  apply (runs_do _ _ (fun c => words c = repeat 0 (Z.to_nat i) ++ [0] /\ neg c = 0 /\ i + 1 <= dmax c)).
  - apply (runs_do _ _ _ _ (wexpand_runs a (i + 1) Hmem ltac:(change (INT_MAX / 128) with 16777215; lia))).
    intros a' (Hw' & Hn' & _ & Hd'). apply runs_ret. eexists. split; [done|]. cbn [words neg dmax]. split_and!; [|by rewrite Hn', (ok_neg _ Ha)|done].
    rewrite Hw', Hw. rewrite resize_nil. replace (Z.to_nat (i + 1)) with (Z.to_nat i + 1)%nat by lia. rewrite replicate_add.
    f_equal. generalize (Z.to_nat i) as k. induction k as [|k IH]; [done|]. cbn [replicate repeat]. by f_equal.
  - intros c (Hwc & Hnc & Hdc). assert (Hz : zlen (repeat 0 (Z.to_nat i)) = i) by (rewrite zlen_repeat; lia).
    assert (Hlt : 0 < 2 ^ j < 2 ^ 32) by (split; [apply Z.pow_pos_nonneg|apply Z.pow_lt_mono_r]; lia).
    assert (Hbit : znth (words c) i .| u32 (1 .<< j) = 2 ^ j).
    { rewrite Hwc. unfold znth. rewrite app_nth2 by (rewrite repeat_length; lia).
      rewrite repeat_length, Nat.sub_diag. cbn [nth]. rewrite Z.lor_0_l, Z.shiftl_1_l. apply Z.mod_small. lia. }
    rewrite Hbit, Hwc. eapply runs_bind_lift; [rewrite <- Hz at 2; apply buf_set_mid|]. apply runs_ret. eexists. split; [done|]. split.
    + constructor; cbn [words dmax neg].
      * apply Forall_app. split; [apply all_u32_zeros|apply Forall_singleton; unfold is_u32; lia].
      * apply normal_snoc. lia.
      * unfold top. cbn [words]. rewrite zlen_app, Hz. change (zlen [2 ^ j]) with 1. lia.
      * done.
    + unfold bn_val. cbn [words]. rewrite bval_app, bval_repeat, Hz. cbn [bval]. rewrite B_pow2 by lia.
      rewrite Z.mul_0_r, Z.add_0_r, Z.add_0_l, <- Z.pow_add_r by lia. f_equal. symmetry. apply Z.div_mod. lia.
Qed.

(** A shift by one word. *)
Lemma lshift_word_runs {E : Env} r a :
  mem_available -> slot r -> bn_ok a -> top a < 2 ^ 23 ->
  runs (BN_lshift r a 32) (fun o => exists r, o = Some r /\ bn_ok r /\ bn_val r = B * bn_val a).
Proof.
  intros Hmem Hr Ha Ht. unfold BN_lshift, BN_BITS2. change (32 / 32) with 1. change (32 mod 32) with 0.
  apply (runs_do _ _ _ _ (wexpand_runs r (top a + 1 + 1) Hmem ltac:(change (INT_MAX / 128) with 16777215; lia))).
  intros r' (_ & _ & _ & Hd). apply runs_ret. eexists. split; [done|].
  assert (El : forall f, all_u32 f -> lshift_loop f 0 0 = f ++ [0]).
  { induction 1 as [|y f Hy Hf IH]; [done|]. cbn [lshift_loop app]. change (0 =? 0) with true. cbv iota. rewrite IH. f_equal.
    rewrite Z.shiftl_0_r, mask2_id, Z.lor_0_r by apply u32_range. apply Z.mod_small. exact Hy. }
  rewrite (El _ (ok_words _ Ha)). set (w := repeat 0 (Z.to_nat 1) ++ words a ++ [0]).
  assert (Hw : Forall is_u32 w) by (unfold w; rewrite !Forall_app; split_and!; [apply all_u32_zeros|apply Ha|by apply Forall_singleton]).
  assert (Hzw : zlen w <= top a + 1 + 1) by (unfold w; rewrite !zlen_app; change (zlen (repeat 0 (Z.to_nat 1))) with 1; change (zlen [0]) with 1; unfold top; lia).
  assert (Hv : bval w = B * bn_val a) by (unfold w; rewrite !bval_app, bval_repeat; change (zlen (repeat 0 (Z.to_nat 1))) with 1; rewrite Z.pow_1_r; cbn [bval]; unfold bn_val; lia).
  unfold bn_correct_top. split.
  - constructor; cbn [words dmax neg]; [by apply all_u32_correct_top|apply correct_top_idem| |apply Ha].
    unfold top at 1. cbn [words]. pose proof (zlen_correct_top w). lia.
  - unfold bn_val at 1. cbn [words]. by rewrite bval_correct_top.
Qed.

Lemma normal_cons x l : normal (x :: l) <-> normal l /\ (l = [] -> x <> 0).
Proof.
  unfold normal. cbn [correct_top]. split.
  - destruct (correct_top l) as [|y k] eqn:Ec.
    + destruct (Z.eqb_spec x 0); [done|]. by intros [= <-].
    + intros [= Hl]. split; [congruence|]. intros ->. done.
  - intros [-> Hx]. destruct l; [|done]. by rewrite (proj2 (Z.eqb_neq x 0)) by auto.
Qed.

(** One less, of a number that is not zero. *)
Lemma sub_word_loop_run d : all_u32 d -> normal d -> d <> [] ->
  exists d', sub_word_loop d 1 = Ret d' /\ all_u32 d' /\ normal d' /\ zlen d' <= zlen d /\ bval d' = bval d - 1.
Proof.
  induction 1 as [|x d Hx Hd IH]; [done|]. intros [Hn Hx0]%normal_cons _. cbn [sub_word_loop]. unfold is_u32 in Hx.
  pose proof (zlen_nonneg d) as Hz. destruct (Z.leb_spec 1 x).
  - eexists. split; [done|]. destruct (Z.eqb_spec (x - 1) 0) as [E1|E1]; cbn [andb].
    + destruct d as [|y d].
      * rewrite (@zlen_nil Z). change (0 =? 0) with true. cbv iota. split_and!; [apply Forall_nil_2|done|done|cbn [bval]; lia].
      * rewrite (proj2 (Z.eqb_neq (zlen (y :: d)) 0)) by (rewrite zlen_cons in *; pose proof (zlen_nonneg d); lia).
        split_and!; [constructor; [unfold is_u32; lia|done]|by apply normal_cons|rewrite !zlen_cons; lia|cbn [bval]; lia].
    + split_and!; [constructor; [unfold is_u32; lia|done]|by apply normal_cons|rewrite !zlen_cons; lia|cbn [bval]; lia].
  - assert (x = 0) as -> by lia. destruct IH as (d' & -> & Hd' & Hn' & Hz' & Hv'); [done|intros ->; by apply Hx0|].
    cbn [obind]. rewrite mask2_id by apply u32_range. replace (u32 (0 - 1)) with (B - 1) by (rewrite B_val; done).
    eexists. split; [done|]. split_and!; [constructor; [rewrite B_val; done|done]|apply normal_cons; split; [done|rewrite B_val; done]| |].
    + rewrite !zlen_cons. lia.
    + cbn [bval]. lia.
Qed.

Lemma sub_one_runs {E : Env} a :
  bn_ok a -> bn_val a <> 0 -> runs (BN_sub_word a 1) (fun o => exists r, o = Some r /\ bn_ok r /\ bn_val r = bn_val a - 1).
Proof.
  intros [Hw Hn Hd Hneg] Hv. unfold BN_sub_word. change (1 .& BN_MASK2) with 1. change (1 =? 0) with false. cbv iota zeta.
  assert (Hne : words a <> []) by (intros E0; unfold bn_val in Hv; rewrite E0 in Hv; done). unfold BN_is_zero, top in *.
  rewrite (proj2 (Z.eqb_neq (zlen (words a)) 0)) by (destruct (words a); [done|]; rewrite zlen_cons; pose proof (zlen_nonneg l); lia).
  assert (Hw0 : (zlen (words a) =? 1) && (znth (words a) 0 <? 1) = false).
  { destruct (words a) as [|y [|z l]] eqn:Ew; [done| |].
    - change (zlen [y]) with 1. change (znth [y] 0) with y. cbn [Z.eqb andb]. apply Z.ltb_ge. apply normal_cons in Hn as [_ Hy].
      specialize (Hy eq_refl). inversion Hw as [|? ? Hyu _]; subst. unfold is_u32 in Hyu. change (1 =? 1) with true. lia.
    - rewrite (proj2 (Z.eqb_neq _ 1)); [done|]. rewrite !zlen_cons. pose proof (zlen_nonneg l). lia. }
  rewrite Hw0. destruct (sub_word_loop_run _ Hw Hn Hne) as (d' & E1 & Hd' & Hn' & Hz' & Hv').
  eapply runs_bind_lift; [exact E1|]. apply runs_ret. eexists. split; [done|].
  split; [constructor; cbn [words dmax neg]; [done|done|unfold top; cbn [words]; lia|done]|done].
Qed.

(** ** The modulus *)

(** bn_div.c and bn_gcd.c, as doc/crypto/BN_add.pod and BN_mod_inverse.pod describe them. *)
Class DivisionOk {E : Env} (D : Division) : Prop := {
  inverse_law : mem_available -> forall r a n, slot r -> bn_ok a -> bn_ok n -> 0 < bn_val n -> top a < 2 ^ 22 -> top n < 2 ^ 22 ->
    (exists s, bn_val a * s ≡[bn_val n] 1) ->
    runs (BN_mod_inverse r a n) (fun o => exists c, o = Some c /\ bn_ok c /\ bn_val c < bn_val n /\ bn_val a * bn_val c ≡[bn_val n] 1);
  div_law : mem_available -> forall r a d, slot r -> bn_ok a -> bn_ok d -> 0 < bn_val d -> top a < 2 ^ 22 -> top d < 2 ^ 22 ->
    runs (BN_div r a d) (fun o => exists c, o = Some c /\ bn_ok c /\ bn_val c = bn_val a / bn_val d);
  mod_law : mem_available -> forall r a d, slot r -> bn_ok a -> bn_ok d -> 0 < bn_val d -> top a < 2 ^ 22 -> top d < 2 ^ 22 ->
    runs (BN_mod r a d) (fun o => exists c, o = Some c /\ bn_ok c /\ bn_val c = bn_val a mod bn_val d);
  nnmod_law : mem_available -> forall r a d, slot r -> bn_ok a -> bn_ok d -> 0 < bn_val d -> top a < 2 ^ 22 -> top d < 2 ^ 22 ->
    runs (BN_nnmod r a d) (fun o => exists c, o = Some c /\ bn_ok c /\ bn_val c = bn_val a mod bn_val d)
}.

(** [ri] is the number of bits of the words of the modulus. *)
Lemma round_bits a : bn_ok a -> 0 < top a -> (BN_num_bits a + 31) / 32 = top a.
Proof.
  intros [Hw Hn _ _] Ht. unfold BN_num_bits, BN_is_zero, BN_BITS2. rewrite (proj2 (Z.eqb_neq (top a) 0)) by lia.
  unfold top in *. destruct (decide (words a = [])) as [E0|Hne]; [rewrite E0, (@zlen_nil Z) in Ht; lia|].
  destruct (exists_last Hne) as (l & y & Ew). rewrite Ew in *. apply Forall_app in Hw as [_ Hy]. inversion Hy as [|? ? Hyu _]; subst.
  apply normal_last in Hn. rewrite zlen_app. change (zlen [y]) with 1. replace (zlen l + 1 - 1) with (zlen l) by lia.
  unfold znth, zlen. rewrite Nat2Z.id, nth_middle, num_bits_word_spec by done. unfold is_u32 in Hyu.
  unfold nbits. rewrite (proj2 (Z.eqb_neq y 0)) by done. pose proof (Z.log2_nonneg y).
  assert (Z.log2 y < 32) by (apply Z.log2_lt_pow2; lia). symmetry. apply Z.div_unique with (r := Z.log2 y); lia.
Qed.

Lemma B_unit n : Z.odd n = true -> exists s, B * s ≡[n] 1.
Proof.
  intros Ho. apply Z.odd_spec in Ho as [k ->]. exists ((k + 1) ^ 32). rewrite B_val. change 4294967296 with (2 ^ 32).
  rewrite <- Z.pow_mul_l, <- (Z.pow_1_l 32) by lia. apply cong_pow; [lia|]. exists 1. lia.
Qed.

Lemma bn_val_head a : bn_ok a -> bn_val a mod B = if 0 <? top a then znth (words a) 0 else 0.
Proof.
  intros [Hw _ _ _]. rewrite <- (Z.div_1_r (bn_val a)). change 1 with (B ^ 0). unfold bn_val. rewrite bval_nth by done.
  unfold top. destruct (words a) as [|x l]; [done|]. rewrite (proj2 (Z.ltb_lt 0 _)); [done|].
  rewrite zlen_cons. pose proof (zlen_nonneg l). lia.
Qed.

(** The word [n0]: the modulus times it is -1 in the lowest word. *)
Lemma n0_correct v n r q :
  0 <= r < n -> n = v mod B -> 0 < n -> B * r ≡[n] 1 ->
  q = (if r =? 0 then B - 1 else B * r - 1) / n -> 0 <= q < B /\ (q * v + 1) mod B = 0.
Proof.
  intros Hr Hn Hpos [k Hk] Hq. pose proof B_pos as HB. pose proof (Z.mod_pos_bound v B HB) as Hvb.
  assert (Hqn : 0 <= q < B /\ B * (if r =? 0 then 1 else r) = q * n + 1).
  { destruct (Z.eqb_spec r 0) as [->|Hr0].
    - assert (Hdiv : Z.divide n 1) by (exists (- k); lia). apply Z.divide_pos_le in Hdiv; [|lia].
      assert (n = 1) as E1 by lia. rewrite E1, Z.div_1_r in Hq. subst q. rewrite E1. lia.
    - replace (B * r - 1) with (k * n) in Hq by lia. rewrite Z.div_mul in Hq by lia. subst q. nia. }
  destruct Hqn as [Hqr Hqn]. split; [done|]. rewrite (Z.div_mod v B) by lia. rewrite <- Hn.
  replace (q * (B * (v / B) + n) + 1) with ((if r =? 0 then 1 else r) * B + (q * (v / B)) * B) by lia.
  rewrite Z.mod_add, Z.mod_mul by lia. done.
Qed.

Section Exponentiation.
Context {E : Env} {T : Temporaries} {TO : TemporariesOk T} {Mul : Multiplier} {MO : MultiplierOk Mul}
        {D : Division} {DO : DivisionOk D}.
Context (Hmem : mem_available).

(** The number [R * Ri - 1], or all ones in place of [-1]. *)
Lemma minus_one_runs a r :
  bn_ok a -> bn_val a = B * r -> 0 <= r ->
  runs (if negb (BN_is_zero a) then BN_sub_word a 1 else BN_set_word a BN_MASK2)
    (fun o => exists c, o = Some c /\ bn_ok c /\ bn_val c = if r =? 0 then B - 1 else B * r - 1).
Proof.
  intros Ha Hv Hr. pose proof B_pos. assert (Hzero : BN_is_zero a = (r =? 0)).
  { unfold BN_is_zero, top. destruct (Z.eqb_spec r 0) as [->|E0].
    - rewrite (normal_zero (words a)) by (apply Ha || (fold (bn_val a); lia)). done.
    - apply Z.eqb_neq. intros Hz. assert (bn_val a = 0); [|nia]. unfold bn_val. destruct (words a); [done|].
      rewrite zlen_cons in Hz. pose proof (zlen_nonneg l). lia. }
  rewrite Hzero. destruct (Z.eqb_spec r 0) as [E0|E0]; cbn [negb].
  - eapply runs_conseq; [apply (set_word_runs a BN_MASK2 Hmem (ok_slot _ Ha)); done|]. intros o (c & -> & Hc & Hc').
    exists c. split_and!; [done|done|]. by rewrite Hc', B_val.
  - eapply runs_conseq; [apply sub_one_runs; [done|nia]|]. intros o (c & -> & Hc & Hc'). exists c. split_and!; [done|done|lia].
Qed.

Lemma mont_n0_runs Ri R b0 v :
  bn_ok Ri -> bn_ok R -> bn_val R = B -> is_u32 b0 -> Z.odd b0 = true -> b0 = v mod B ->
  runs (mont_n0_word Ri R (Bignum [b0] 2 0)) (fun o => exists n0, o = Some n0 /\ (n0 * v + 1) mod B = 0).
Proof.
  intros HRi HR HvR Hb0 Hodd Hv. pose proof B_pos. set (tmod := Bignum [b0] 2 0). assert (Hb0' : b0 <> 0) by (by intros ->). unfold is_u32 in Hb0.
  assert (Htmod : bn_ok tmod) by (constructor; cbn [words dmax neg tmod]; [by apply Forall_singleton|by apply (normal_snoc [] b0)|done|done]).
  assert (Hvt : bn_val tmod = b0) by (unfold bn_val, tmod; cbn [words bval]; lia).
  assert (HtR : top R <= 2) by (apply top_le; [done|lia|]; rewrite HvR, Z.pow_2_r, B_val; lia).
  assert (HinvR : exists s, bn_val R * s ≡[bn_val tmod] 1) by (rewrite HvR, Hvt; by apply B_unit). unfold mont_n0_word.
  apply (runs_do _ _ _ _ (inverse_law Hmem Ri R tmod (ok_slot _ HRi) HR Htmod ltac:(lia) ltac:(lia) ltac:(done) HinvR)).
  intros Ri1 (HRi1 & Hlt1 & Hinv1). rewrite Hvt, HvR in *. pose proof (bn_val_nonneg Ri1 HRi1) as Hr0.
  assert (HtRi : top Ri1 <= 1) by (apply top_le; [done|lia|]; rewrite Z.pow_1_r, B_val; lia).
  apply (runs_do _ _ _ _ (lshift_word_runs Ri1 Ri1 Hmem (ok_slot _ HRi1) HRi1 ltac:(lia))). intros Ri2 (HRi2 & HvRi2).
  apply (runs_do _ _ _ _ (minus_one_runs Ri2 (bn_val Ri1) HRi2 HvRi2 Hr0)). intros Ri3 (HRi3 & HvRi3).
  assert (HtRi3 : top Ri3 <= 2).
  { apply top_le; [done|lia|]. rewrite HvRi3, Z.pow_2_r. destruct (_ =? 0); rewrite B_val in *; nia. }
  apply (runs_do _ _ _ _ (div_law Hmem Ri3 Ri3 tmod (ok_slot _ HRi3) HRi3 Htmod ltac:(lia) ltac:(lia) ltac:(done))). intros q (Hq & Hvq).
  rewrite Hvt, HvRi3 in Hvq. apply runs_ret. eexists. split; [done|]. rewrite <- bn_val_head by done.
  destruct (n0_correct v b0 (bn_val Ri1) (bn_val q)) as [Hqr Hn0]; [lia|done|lia|done|done|]. by rewrite (Z.mod_small (bn_val q)).
Qed.

(** An odd modulus, and its lowest word. *)
Lemma odd_modulus m : bn_ok m -> Z.odd (bn_val m) = true ->
  0 < bn_val m /\ 0 < top m /\ znth (words m) 0 = bn_val m mod B /\ is_u32 (znth (words m) 0) /\ Z.odd (znth (words m) 0) = true.
Proof.
  intros Hm Hodd. pose proof (bn_val_nonneg m Hm) as Hm0. pose proof B_pos as HB.
  assert (Hpos : 0 < bn_val m) by (destruct (Z.eq_dec (bn_val m) 0) as [E0|]; [rewrite E0 in Hodd; done|lia]).
  assert (Ht : 0 < top m).
  { unfold top. destruct (words m) as [|y l] eqn:Ew; [unfold bn_val in Hpos; rewrite Ew in Hpos; done|].
    rewrite zlen_cons. pose proof (zlen_nonneg l). lia. }
  pose proof (bn_val_head m Hm) as Hhead. rewrite (proj2 (Z.ltb_lt 0 (top m))) in Hhead by done.
  split_and!; [done|done|done| |]; rewrite <- Hhead.
  - unfold is_u32. rewrite <- B_val. by apply Z.mod_pos_bound.
  - rewrite B_val. rewrite (Z.div_mod (bn_val m) 4294967296) in Hodd by lia. rewrite Z.odd_add, Z.odd_mul in Hodd.
    change (Z.odd 4294967296) with false in Hodd. rewrite andb_false_l, xorb_false_l in Hodd. exact Hodd.
Qed.

Lemma mont_set_runs mont m :
  slot (N mont) -> slot (RR mont) -> bn_ok m -> Z.odd (bn_val m) = true -> top m < 2 ^ 20 ->
  runs (BN_MONT_CTX_set mont m) (fun o => exists c, o = Some c /\ mont_ok c /\ bn_val c.(N) = bn_val m).
Proof.
  intros HsN HsR Hm Hodd Htm. destruct (odd_modulus m Hm Hodd) as (Hpos & Ht & Hhead & Hb0 & Hodd0). set (b0 := znth (words m) 0) in *.
  unfold BN_MONT_CTX_set. apply (runs_do _ _ _ _ (tmp_get Hmem)). intros Ri (HRi & _).
  apply (runs_do _ _ _ _ (copy_runs (N mont) m Hmem HsN Hm ltac:(change (INT_MAX / 128) with 16777215; lia))).
  intros n (Hn & Hwn). assert (En : Bignum (words n) (dmax n) 0 = n) by (rewrite <- (ok_neg _ Hn); by destruct n). rewrite En. clear En.
  assert (Env : bn_val n = bn_val m) by (unfold bn_val; by rewrite Hwn). assert (Ent : top n = top m) by (unfold top; by rewrite Hwn).
  change (BN_BITS2 - 1) with 31. change BN_BITS2 with 32. rewrite round_bits by done.
  apply (runs_bind _ _ _ _ (zero_runs (RR mont) Hmem HsR)). intros R0 (HR0 & HwR0).
  apply (runs_do _ _ _ _ (set_bit_runs R0 32 Hmem HR0 HwR0 ltac:(lia))). intros R (HR & HvR).
  change (2 ^ 32) with 4294967296 in HvR. rewrite <- B_val in HvR.
  eapply runs_bind_lift; [apply buf_get_ok; unfold top in Ht; lia|]. fold b0.
  rewrite (proj2 (Z.eqb_neq b0 0)) by (intros E0; by rewrite E0 in Hodd0). cbn [negb].
  apply (runs_do _ _ _ _ (mont_n0_runs Ri R b0 (bn_val m) HRi HR HvR Hb0 Hodd0 Hhead)). intros n0 Hn0.
  apply (runs_bind _ _ _ _ (zero_runs R Hmem (ok_slot _ HR))). intros R1 (HR1 & HwR1).
  apply (runs_do _ _ _ _ (set_bit_runs R1 (top m * 32 * 2) Hmem HR1 HwR1 ltac:(lia))). intros RR1 (HRR1 & HvRR1).
  assert (HRRv : bn_val RR1 = B ^ top m * B ^ top m).
  { rewrite HvRR1, !B_pow2, <- Z.pow_add_r by lia. f_equal. lia. }
  assert (HtRR : top RR1 <= top m + top m + 1).
  { apply top_le; [done|lia|]. rewrite HRRv, !Z.pow_add_r, Z.pow_1_r by lia. pose proof (B_pow_pos (top m)). rewrite B_val in *. nia. }
  apply (runs_do _ _ _ _ (mod_law Hmem RR1 RR1 n (ok_slot _ HRR1) HRR1 Hn ltac:(lia) ltac:(lia) ltac:(lia))).
  intros RR2 (HRR2 & HvRR2). apply runs_ret. eexists. split; [done|]. split; [|done].
  constructor; cbn [ri RR N BnMont.n0]; [done|rewrite Ent; lia|rewrite Ent; lia|by rewrite Env|done|].
  by rewrite HvRR2, HRRv, Env, Ent.
Qed.

Lemma window_range b : 1 <= BN_window_bits_for_exponent_size b <= 6.
Proof. unfold BN_window_bits_for_exponent_size. repeat destruct (_ <? _); lia. Qed.

(** The table of odd powers. *)
Lemma val_table_runs mont x d val0 window :
  mont_ok mont -> 1 <= window -> slot d -> rep mont x val0 ->
  runs (if 1 <? window then
          do? d <- BN_mod_mul_montgomery d val0 None mont;
          do? vs <- exp_table (Z.to_nat ((1 .<< (window - 1)) - 1)) val0 d mont;
          ret (Some (val0 :: vs))
        else ret (Some [val0]))
    (fun o => exists val, o = Some val /\ length val = Z.to_nat (2 ^ (window - 1)) /\
      forall i v, val !! i = Some v -> rep mont (x ^ (2 * Z.of_nat i + 1)) v).
Proof.
  intros Hm Hw Hd Hx. assert (Hx1 : rep mont (x ^ (2 * 0 + 1)) val0) by (change (2 * 0 + 1) with 1; by rewrite Z.pow_1_r).
  destruct (Z.ltb_spec 1 window) as [Hw1|Hw1].
  - apply (runs_do _ _ _ _ (rep_mul_runs Hmem d val0 None mont _ _ Hm Hd Hx Hx)). intros d1 Hd1. rewrite <- Z.pow_2_r in Hd1.
    rewrite Z.shiftl_1_l. pose proof (Z.pow_pos_nonneg 2 (window - 1)).
    apply (runs_do _ _ _ _ (exp_table_runs Hmem mont Hm x d1 _ Hd1 val0 0 ltac:(lia) Hx1)). intros vs (Hl & Hvs).
    apply runs_ret. exists (val0 :: vs). split_and!; [done|cbn [length]; lia|]. intros [|i] v Hi; cbn in Hi.
    + injection Hi as <-. exact Hx1.
    + replace (2 * Z.of_nat (S i) + 1) with (2 * (0 + 1 + Z.of_nat i) + 1) by lia. by apply Hvs.
  - assert (window = 1) as -> by lia. apply runs_ret. exists [val0]. split_and!; [done|done|].
    intros [|i] v Hi; cbn in Hi; [by injection Hi as <-|done].
Qed.

(** From a base below the modulus to the power. *)
Lemma mod_exp_tail_runs rr d r val0 aa p mont :
  mont_ok mont -> slot rr -> slot d -> slot r -> slot val0 -> bn_ok aa -> bn_val aa < bn_val mont.(N) -> 1 < bn_val mont.(N) ->
  bn_ok p -> 0 < bn_val p ->
  runs (do? val0 <- BN_to_montgomery val0 aa mont;
        let window := BN_window_bits_for_exponent_size (BN_num_bits p) in
        do? val <- (if 1 <? window then
                      do? d <- BN_mod_mul_montgomery d val0 None mont;
                      do? vs <- exp_table (Z.to_nat ((1 .<< (window - 1)) - 1)) val0 d mont;
                      ret (Some (val0 :: vs))
                    else ret (Some [val0]));
        do? r <- BN_to_montgomery r BN_value_one mont;
        do? r <- exp_loop (Z.to_nat (BN_num_bits p)) true (BN_num_bits p - 1) window p r val mont;
        BN_from_montgomery rr r mont)
    (fun o => exists c, o = Some c /\ bn_ok c /\ bn_val c = bn_val aa ^ bn_val p mod bn_val mont.(N)).
Proof.
  intros Hm Hrr Hd Hr Hv0 Haa Hlt HN1 Hp Hp0. pose proof (window_range (BN_num_bits p)) as Hwin.
  apply (runs_do _ _ _ _ (to_montgomery_runs Hmem val0 aa mont Hm Hv0 Haa Hlt)). intros v0 Hrep. cbv zeta.
  apply (runs_do _ _ _ _ (val_table_runs mont _ d v0 _ Hm (proj1 Hwin) Hd Hrep)). intros val (Hlen & Hval).
  assert (Hone : bn_ok BN_value_one) by (constructor; [by apply Forall_singleton|done|done|done]).
  apply (runs_do _ _ _ _ (to_montgomery_runs Hmem r BN_value_one mont Hm Hr Hone HN1)). intros r1 Hr1. change (bn_val BN_value_one) with 1 in Hr1.
  rewrite num_bits_spec in * by done. pose proof (nbits_bound (bn_val p) ltac:(lia)) as [Hnb Hnb0].
  assert (Hnb1 : 0 < nbits (bn_val p)) by (unfold nbits; rewrite (proj2 (Z.eqb_neq _ 0)) by lia; pose proof (Z.log2_nonneg (bn_val p)); lia).
  assert (Hz : bn_val p / 2 ^ (nbits (bn_val p) - 1 + 1) = 0) by (rewrite Z.sub_add; apply Z.div_small; lia).
  apply (runs_do _ _ (rep mont (bn_val aa ^ bn_val p))).
  - apply (exp_loop_runs Hmem mont Hm (bn_val aa)); [done|lia|done|done|lia| |done]. rewrite Hz. exact Hr1.
  - intros r2 Hr2. by apply rep_from_runs.
Qed.

(** A Montgomery context that has been prepared for this modulus. *)
Definition mont_for (in_mont : option BN_MONT_CTX) (m : BIGNUM) : Prop :=
  match in_mont with Some mont => mont_ok mont /\ bn_val mont.(N) = bn_val m | None => True end.

Lemma mod_exp_runs rr a p m in_mont :
  slot rr -> bn_ok a -> bn_ok p -> bn_ok m -> Z.odd (bn_val m) = true -> 1 < bn_val m -> top m < 2 ^ 20 -> top a < 2 ^ 20 ->
  mont_for in_mont m ->
  runs (BN_mod_exp_mont rr a p m in_mont) (fun o => exists c, o = Some c /\ bn_ok c /\ bn_val c = bn_val a ^ bn_val p mod bn_val m).
Proof.
  intros Hrr Ha Hp Hm Hodd Hm1 Htm Hta Hin. unfold BN_mod_exp_mont. rewrite is_odd_spec, Hodd by done. cbn [negb].
  pose proof (bn_val_nonneg p Hp) as Hp0. pose proof (bn_val_nonneg a Ha) as Ha0. rewrite num_bits_spec at 1 by done.
  assert (Hnb : (nbits (bn_val p) =? 0) = (bn_val p =? 0)).
  { unfold nbits. destruct (Z.eqb_spec (bn_val p) 0); [done|]. apply Z.eqb_neq. pose proof (Z.log2_nonneg (bn_val p)). lia. }
  rewrite Hnb. destruct (Z.eqb_spec (bn_val p) 0) as [E0|Hpn].
  { eapply runs_conseq; [by apply set_word_runs|]. intros o (c & -> & Hc & Hv). exists c. split_and!; [done|done|].
    rewrite Hv, E0, Z.pow_0_r, Z.mod_small; lia. }
  apply (runs_do _ _ _ _ (tmp_get Hmem)). intros d (Hd & _). apply (runs_do _ _ _ _ (tmp_get Hmem)). intros r (Hr & _).
  apply (runs_do _ _ _ _ (tmp_get Hmem)). intros val0 (Hv0 & _).
  apply (runs_do _ _ (fun mont => mont_ok mont /\ bn_val mont.(N) = bn_val m)).
  { destruct in_mont as [mont|]; [by apply runs_ret; exists mont|].
    apply (runs_do _ _ (fun c => c = MontCtx 0 (Bignum [] 0 0) (Bignum [] 0 0) 0)); [|intros c ->; by apply mont_set_runs].
    intros st. eexists _, _. split; [reflexivity|]. rewrite (proj2 (Z.eqb_neq _ 0)) by apply Hmem. by eexists. }
  intros mont (Hmont & HN).
  apply (runs_do _ _ (fun aa => bn_ok aa /\ bn_val aa = bn_val a mod bn_val m)).
  { rewrite (ok_neg _ Ha). cbn [Z.eqb negb orb]. pose proof (ucmp_spec a m Ha Hm) as Hcmp. destruct (Z.leb_spec 0 (BN_ucmp a m)) as [Hge|Hlt].
    - apply nnmod_law; [done|by apply ok_slot|done|done|lia|lia|lia].
    - apply runs_ret. exists a. split_and!; [done|done|]. rewrite Z.mod_small; [done|]. lia. }
  intros aa (Haa & Hvaa). pose proof (Z.mod_pos_bound (bn_val a) (bn_val m) ltac:(lia)) as Hmb.
  assert (Hpow : bn_val aa ^ bn_val p mod bn_val m = bn_val a ^ bn_val p mod bn_val m).
  { rewrite Hvaa. apply cong_iff; [lia|]. apply cong_pow; [done|]. apply cong_mod. lia. }
  destruct (BN_is_zero aa) eqn:Ez.
  { apply (runs_bind _ _ _ _ (zero_runs rr Hmem Hrr)). intros z (Hz & Hwz). apply runs_ret. exists z. split_and!; [done|done|].
    rewrite <- Hpow. unfold BN_is_zero, top in Ez. assert (Hw : words aa = []).
    { destruct (words aa); [done|]. rewrite zlen_cons in Ez. pose proof (zlen_nonneg l). lia. }
    unfold bn_val at 1 2. rewrite Hwz, Hw. cbn [bval]. rewrite Z.pow_0_l, Z.mod_0_l by lia. done. }
  rewrite <- Hpow, <- HN. apply mod_exp_tail_runs; try done; try (by apply ok_slot); rewrite ?HN; lia.
Qed.

End Exponentiation.
