(* ===== verification/BnMul.v ===== *)
(** * BnMul: multiplication and squaring in the small build

    src/jni/openssl/crypto/bn/bn_mul.c and bn_sqr.c compiled with
    [OPENSSL_SMALL_FOOTPRINT], where the schoolbook loops are used for all sizes (without
    it, larger numbers go through Karatsuba's method and the comba tables).  The last
    part shows that these functions are a [Multiplier] as the exponentiation needs it. *)

From S2P Require Import Prelude Sys Runs Bn BnProofs BnMont BnMontProofs BnExpProofs.

(** ** Words *)

(** [bn_add_words(r, a, b, n)] from the carry [ll] on: the words of [r] and the carry. *)
Fixpoint bn_add_words (a b : list Z) (n : nat) (ll : Z) {struct n} : outcome (list Z * Z) :=
  match n with
  | O => Ret ([], ll)
  | S n =>
      match a, b with
      | x :: a, y :: b =>
          let ll := u64 (ll + (x + y)) in
          do '(rs, c) <- bn_add_words a b n (ll .>> BN_BITS2);
          Ret (u32 (ll .& BN_MASK2) :: rs, c)
      | _, _ => UB OutOfBounds
      end
  end.

(** [bn_sqr_words(r, a, n)]: the squares of the words, two words each. *)
Definition bn_sqr_words (a : list Z) : list Z :=
  concat (map (fun x => let t := u64 (x * x) in [Lw t; Hw t]) a).

(** The rows of [bn_sqr_normal]: the products of different words, from [rp] on. *)
Fixpoint sqr_rows (first : bool) (rp ap : list Z) : outcome (list Z) :=
  match ap with
  | [] => Ret rp
  | w :: ap =>
      if zlen ap =? 0 then Ret rp
      else
        do '(rp, c) <- (if first then bn_mul_words rp ap (length ap) w 0 else bn_mul_add_words rp ap (length ap) w 0);
        do rp <- buf_set rp (zlen ap) c;
        match rp with
        | x :: y :: rp => do rp <- sqr_rows false rp ap; Ret (x :: y :: rp)
        | _ => UB OutOfBounds
        end
  end.

(** [bn_sqr_normal(r, a, n, tmp)] *)
Definition bn_sqr_normal (r a : list Z) : outcome (list Z) :=
  let max := zlen a * 2 in
  do r <- buf_set r (max - 1) 0;
  do r <- buf_set r 0 0;
  match r with
  | [] => UB OutOfBounds
  | x :: rp =>
      do rp <- sqr_rows true rp a;
      let r := x :: rp in
      do '(r, _) <- bn_add_words r r (Z.to_nat max) 0;
      do '(r, _) <- bn_add_words r (bn_sqr_words a) (Z.to_nat max) 0;
      Ret r
  end.

(** ** Numbers *)

Section Small.
Context {E : Env} {T : Temporaries}.

(** [BN_mul(r, a, b, ctx)], [r] being neither [a] nor [b] *)
Definition BN_mul_small (r a b : BIGNUM) : M (option BIGNUM) :=
  let al := top a in
  let bl := top b in
  if (al =? 0) || (bl =? 0) then do! r <- BN_zero r; ret (Some r)
  else
    let rneg := Z.lxor a.(neg) b.(neg) in
    do? r <- bn_wexpand r (al + bl);
    do! d <- lift (bn_mul_normal (resize (Z.to_nat (al + bl)) 0 r.(words)) a.(words) b.(words));
    ret (Some (bn_correct_top (Bignum d r.(dmax) rneg))).

(** [BN_sqr(r, a, ctx)], [r] not being [a]: the number of words of the square is known
    from the highest word. *)
Definition BN_sqr_small (r a : BIGNUM) : M (option BIGNUM) :=
  let al := top a in
  if al <=? 0 then ret (Some (Bignum [] r.(dmax) r.(neg)))
  else
    do? tmp <- BN_CTX_get;
    let max := 2 * al in
    do? r <- bn_wexpand r max;
    do? tmp <- bn_wexpand tmp max;
    do! d <- lift (bn_sqr_normal (resize (Z.to_nat max) 0 r.(words)) a.(words));
    let x := znth a.(words) (al - 1) in
    let rtop := if x =? x .& 0xffff then max - 1 else max in
    ret (Some (Bignum (take (Z.to_nat rtop) d) r.(dmax) 0)).

End Small.

#[export] Instance small_multiplier {E : Env} {T : Temporaries} : Multiplier := {|
  BN_mul := BN_mul_small;
  BN_sqr := BN_sqr_small
|}.

(** ** Proofs *)

Lemma add_words_run a : forall b ll,
  all_u32 a -> all_u32 b -> length a = length b -> 0 <= ll < 2 ->
  exists r c, bn_add_words a b (length a) ll = Ret (r, c) /\ all_u32 r /\ length r = length a /\ 0 <= c < 2 /\
    bval r + B ^ zlen a * c = bval a + bval b + ll.
Proof.
  induction a as [|x a IH]; intros [|y b] ll Ha Hb Hl Hll; try discriminate.
  { exists [], ll. split_and!; [done|apply Forall_nil_2|done|lia|lia|]. rewrite (@zlen_nil Z). cbn [bval]. lia. }
  inversion Ha as [|? ? Hx Ha']; inversion Hb as [|? ? Hy Hb']; subst. unfold is_u32 in Hx, Hy. cbn [length bn_add_words].
  assert (Hu : u64 (ll + (x + y)) = ll + (x + y)) by (apply Z.mod_small; lia). rewrite Hu. set (t := ll + (x + y)) in *.
  pose proof B_pos. assert (Hdm : t = B * (t / B) + t mod B) by (apply Z.div_mod; lia). pose proof (Z.mod_pos_bound t B ltac:(lia)) as Hmb.
  assert (Hsh : t .>> BN_BITS2 = t / B) by (unfold BN_BITS2; rewrite Z.shiftr_div_pow2, B_val by lia; done).
  assert (Hlow : u32 (t .& BN_MASK2) = t mod B).
  { unfold BN_MASK2. change 0xffffffff with (Z.ones 32). rewrite Z.land_ones by lia. rewrite B_val in *. apply Z.mod_small. exact Hmb. }
  assert (Hq : 0 <= t / B < 2) by (rewrite B_val in *; split; [apply Z.div_pos; lia|apply Z.div_lt_upper_bound; lia]).
  rewrite Hsh, Hlow. destruct (IH b (t / B)) as (r & c & E1 & Hr & Hlr & Hc & Hv); [done|done|by injection Hl|done|].
  rewrite E1. cbn [obind]. exists (t mod B :: r), c. split_and!; [done| |cbn [length]; lia|lia|lia|].
  - constructor; [unfold is_u32; rewrite B_val in *; lia|done].
  - cbn [bval]. rewrite zlen_cons, Z.pow_add_r, Z.pow_1_r by (pose proof (zlen_nonneg a); lia). nia.
Qed.

(** The sum of the squares of the words, and of the products of different words. *)
Fixpoint diag (a : list Z) : Z := match a with [] => 0 | x :: a => x * x + B * B * diag a end.
Fixpoint cross (a : list Z) : Z := match a with [] => 0 | x :: a => x * bval a + B * B * cross a end.

Lemma square_split a : bval a * bval a = diag a + 2 * B * cross a.
Proof. induction a as [|x a IH]; [done|]. cbn [bval diag cross]. nia. Qed.

Lemma sqr_words_run a :
  all_u32 a -> all_u32 (bn_sqr_words a) /\ length (bn_sqr_words a) = (2 * length a)%nat /\ bval (bn_sqr_words a) = diag a.
Proof.
  induction 1 as [|x a Hx Ha (IH1 & IH2 & IH3)]; [by split; [apply Forall_nil_2|]|]. unfold bn_sqr_words in *. cbn [map concat app].
  destruct (mul_step x x 0 0 Hx Hx) as (H1 & H2 & H3); [done|done|]. rewrite !Z.add_0_r in *. set (t := u64 (x * x)) in *.
  split_and!; [by repeat (apply Forall_cons; split)|cbn [length]; lia|]. cbn [bval diag]. rewrite IH3. nia.
Qed.

(** One row: the words below the carry. *)
Lemma row_run first cur rest ap w :
  all_u32 ap -> length cur = length ap -> is_u32 w -> (first = false -> all_u32 cur) ->
  exists r c, (if first then bn_mul_words (cur ++ rest) ap (length ap) w 0 else bn_mul_add_words (cur ++ rest) ap (length ap) w 0) = Ret (r ++ rest, c) /\
    all_u32 r /\ length r = length ap /\ is_u32 c /\ bval r + B ^ zlen ap * c = (if first then 0 else bval cur) + w * bval ap.
Proof.
  intros Ha Hl Hw Hc. assert (Hz : zlen cur = zlen ap) by (unfold zlen; lia). destruct first.
  - destruct (mul_words_run ap cur rest w 0) as (r & c & E1 & H1 & H2 & H3 & H4); [done..|]. exists r, c. rewrite Hz in H4. split_and!; [done..|lia|done|lia].
  - destruct (mul_add_words_run ap cur rest w 0) as (r & c & E1 & H1 & H2 & H3 & H4); [by auto..|]. exists r, c. rewrite Hz in H4. split_and!; [done..|lia|done|lia].
Qed.

Lemma sqr_rows_run ap : forall first cur g,
  all_u32 ap -> S (length cur) = length ap -> length g = length cur -> (first = false -> all_u32 cur) ->
  exists r, sqr_rows first (cur ++ g ++ [0]) ap = Ret r /\ all_u32 r /\ length r = (2 * length ap - 1)%nat /\
    bval r = (if first then 0 else bval cur) + cross ap.
Proof.
  induction ap as [|w ap IH]; intros first cur g Ha Hl Hg Hc; [discriminate|]. inversion Ha as [|? ? Hw Ha']; subst. cbn [sqr_rows length] in *.
  destruct (Z.eqb_spec (zlen ap) 0) as [E0|E0].
  { destruct ap; [|rewrite zlen_cons in E0; pose proof (zlen_nonneg ap); lia]. destruct cur; [|discriminate]. destruct g; [|discriminate].
    exists [0]. split_and!; [done|by apply Forall_singleton|done|]. cbn [bval cross]. destruct first; lia. }
  destruct (row_run first cur (g ++ [0]) ap w) as (r1 & c & E1 & Hr1 & Hl1 & Hc1 & Hv1); [done|lia|done|done|]. rewrite E1. cbn [obind].
  destruct g as [|z g]; [unfold zlen in E0; cbn [length] in *; lia|]. cbn [app length] in *.
  replace (zlen ap) with (zlen r1) by (unfold zlen; lia). rewrite buf_set_mid. cbn [obind].
  assert (Hrc : exists x y cur', r1 ++ [c] = x :: y :: cur').
  { destruct r1 as [|x [|y k]]; [unfold zlen in E0; cbn [length] in *; lia|by exists x, c, []|by exists x, y, (k ++ [c])]. }
  destruct Hrc as (x & y & cur' & Erc). replace (r1 ++ c :: g ++ [0]) with ((r1 ++ [c]) ++ g ++ [0]) by (by rewrite <- app_assoc).
  rewrite Erc. cbn [app]. assert (Hu : all_u32 (x :: y :: cur')) by (rewrite <- Erc; apply Forall_app; split; [done|by apply Forall_singleton]).
  inversion Hu as [|? ? Hx Hu1]; inversion Hu1 as [|? ? Hy Hu2]; subst.
  assert (Hlen : length cur' = length g) by (apply (f_equal length) in Erc; rewrite length_app in Erc; cbn [length] in Erc; lia).
  destruct (IH false cur' g) as (r & E2 & Hr & Hlr & Hv); [done| |lia|done|].
  { apply (f_equal length) in Erc. rewrite length_app in Erc. cbn [length] in Erc. lia. }
  rewrite E2. cbn [obind]. exists (x :: y :: r). split_and!; [done|by repeat (apply Forall_cons; split)|cbn [length]; lia|].
  assert (Ev : bval (r1 ++ [c]) = bval (x :: y :: cur')) by (by rewrite Erc). rewrite bval_app in Ev. cbn [bval cross] in *.
  replace (zlen r1) with (zlen ap) in Ev by (unfold zlen; lia). rewrite Hv. lia.
Qed.

Lemma diag_nonneg a : all_u32 a -> 0 <= diag a /\ 0 <= cross a.
Proof.
  induction 1 as [|x a Hx Ha (IH1 & IH2)]; [done|]. cbn [diag cross]. pose proof (bval_range a Ha). unfold is_u32 in Hx. pose proof B_pos. nia.
Qed.

(** A sum that fits has no carry. *)
Lemma add_words_fits a b :
  all_u32 a -> all_u32 b -> length a = length b -> bval a + bval b < B ^ zlen a ->
  exists r, bn_add_words a b (length a) 0 = Ret (r, 0) /\ all_u32 r /\ length r = length a /\ bval r = bval a + bval b.
Proof.
  intros Ha Hb Hl Hs. destruct (add_words_run a b 0 Ha Hb Hl) as (r & c & E1 & Hr & Hlr & Hc & Hv); [lia|].
  pose proof (bval_range r Hr). pose proof (B_pow_pos (zlen a) (zlen_nonneg a)). assert (c = 0) as -> by nia.
  exists r. split_and!; [done..|lia].
Qed.

Lemma sqr_normal_run r a :
  all_u32 a -> a <> [] -> length r = (2 * length a)%nat ->
  exists r', bn_sqr_normal r a = Ret r' /\ all_u32 r' /\ length r' = length r /\ bval r' = bval a * bval a.
Proof.
  intros Ha Hne Hl. unfold bn_sqr_normal. assert (Hn : (1 <= length a)%nat) by (destruct a; [done|cbn [length]; lia]).
  destruct (decide (r = [])) as [->|Hr]; [cbn [length] in Hl; lia|]. destruct (exists_last Hr) as (ini & z & ->).
  rewrite length_app in Hl. cbn [length] in Hl. replace (zlen a * 2 - 1) with (zlen ini) by (unfold zlen; lia). rewrite buf_set_mid. cbn [obind].
  destruct ini as [|x mid]; [cbn [length] in Hl; lia|]. cbn [length app] in *.
  change (buf_set (x :: mid ++ [0]) 0 0) with (buf_set ([] ++ x :: mid ++ [0]) (zlen (@nil Z)) 0). rewrite buf_set_mid. cbn [obind app].
  replace (mid ++ [0]) with (take (length a - 1) mid ++ drop (length a - 1) mid ++ [0]) by (by rewrite app_assoc, take_drop).
  destruct (sqr_rows_run a true (take (length a - 1) mid) (drop (length a - 1) mid)) as (rp & E1 & Hrp & Hlp & Hv1);
    [done|rewrite length_take; lia|rewrite length_take, length_drop; lia|done|]. rewrite E1. cbn [obind].
  assert (Hu1 : all_u32 (0 :: rp)) by (by apply Forall_cons). assert (Hl1 : length (0 :: rp) = (2 * length a)%nat) by (cbn [length]; lia).
  assert (Hz1 : zlen (0 :: rp) = zlen a + zlen a) by (unfold zlen; lia). assert (Hb1 : bval (0 :: rp) = B * cross a) by (cbn [bval]; lia).
  replace (Z.to_nat (zlen a * 2)) with (length (0 :: rp)) by (unfold zlen; lia).
  pose proof (bval_range a Ha) as Har. pose proof (square_split a) as Hsq. destruct (diag_nonneg a Ha) as [Hd Hc]. pose proof B_pos.
  assert (Hpow : bval a * bval a < B ^ zlen (0 :: rp)) by (rewrite Hz1, Z.pow_add_r by apply zlen_nonneg; apply Z.mul_lt_mono_nonneg; lia).
  destruct (add_words_fits (0 :: rp) (0 :: rp)) as (r2 & E2 & Hr2 & Hl2 & Hv2); [done|done|done|nia|]. rewrite E2. cbn [obind].
  destruct (sqr_words_run a Ha) as (Hsu & Hsl & Hsv). rewrite <- Hl2.
  destruct (add_words_fits r2 (bn_sqr_words a)) as (r3 & E3 & Hr3 & Hl3 & Hv3); [done|done|lia| |].
  { replace (zlen r2) with (zlen (0 :: rp)) by (unfold zlen; lia). nia. }
  rewrite E3. cbn [obind]. exists r3. split_and!; [done|done|rewrite length_app; cbn [length] in *; lia|nia].
Qed.

(** ** The instance *)

(** The number of words that are needed. *)
Lemma normal_of_lower w k : all_u32 w -> zlen w = k + 1 -> 0 <= k -> B ^ k <= bval w -> normal w.
Proof.
  intros Hw Hz Hk Hv. destruct (decide (w = [])) as [->|Hne]; [rewrite (@zlen_nil Z) in Hz; lia|]. destruct (exists_last Hne) as (l & x & ->).
  apply normal_snoc. intros ->. rewrite bval_app in Hv. cbn [bval] in Hv. apply Forall_app in Hw as [Hl _].
  pose proof (bval_range l Hl). rewrite zlen_app in Hz. change (zlen [0]) with 1 in Hz. replace (zlen l) with k in * by lia. lia.
Qed.

Lemma bval_take_fits d k : all_u32 d -> zlen d = k + 1 -> 0 <= k -> bval d < B ^ k -> bval (take (Z.to_nat k) d) = bval d.
Proof.
  intros Hd Hz Hk Hv. rewrite <- (take_drop (Z.to_nat k) d) at 2. rewrite bval_app, zlen_take, Z2Nat.id, Z.min_l by lia.
  rewrite <- (take_drop (Z.to_nat k) d), bval_app, zlen_take, Z2Nat.id, Z.min_l in Hv by lia.
  pose proof (bval_range (take (Z.to_nat k) d) ltac:(by apply Forall_take)). pose proof (bval_range (drop (Z.to_nat k) d) ltac:(by apply Forall_drop)).
  pose proof (B_pow_pos k Hk). assert (bval (drop (Z.to_nat k) d) = 0) as -> by nia. lia.
Qed.

(** The square has two words for each word, or one less when the upper half of the
    highest word is zero. *)
Lemma square_top a d : bn_ok a -> 0 < top a -> all_u32 d -> zlen d = 2 * top a -> bval d = bn_val a * bn_val a ->
  let x := znth (words a) (top a - 1) in
  let w := take (Z.to_nat (if x =? x .& 0xffff then 2 * top a - 1 else 2 * top a)) d in
  all_u32 w /\ normal w /\ bval w = bval d.
Proof.
  intros [Hw Hn _ _] Ht Hd Hz Hv. unfold top, bn_val in *. destruct (decide (words a = [])) as [E0|Hne]; [rewrite E0, (@zlen_nil Z) in Ht; lia|].
  destruct (exists_last Hne) as (l & y & Ew). rewrite Ew in *. apply Forall_app in Hw as [Hl Hy]. inversion Hy as [|? ? Hyu _]; subst. apply normal_last in Hn.
  rewrite zlen_app in *. change (zlen [y]) with 1 in *. pose proof (zlen_nonneg l) as Hzl.
  cbn zeta. assert (Ex : znth (l ++ [y]) (zlen l + 1 - 1) = y) by (unfold znth; replace (Z.to_nat (zlen l + 1 - 1)) with (length l) by (unfold zlen; lia); apply nth_middle).
  rewrite bval_app in Hv. cbn [bval] in Hv. rewrite Z.mul_0_r, Z.add_0_r in Hv. pose proof (bval_range l Hl) as Hlr. unfold is_u32 in Hyu. rewrite <- B_val in Hyu.
  set (P := B ^ zlen l) in *. assert (HP : 0 < P) by (apply B_pow_pos; lia). assert (Hd2 : B ^ (2 * (zlen l + 1)) = P * P * (B * B)).
  { replace (2 * (zlen l + 1)) with (zlen l + zlen l + 1 + 1) by lia. rewrite !Z.pow_add_r, Z.pow_1_r by lia. fold P. lia. }
  assert (Hland : y .& 0xffff = y mod 2 ^ 16) by (change 0xffff with (Z.ones 16); apply Z.land_ones; lia).
  assert (Hcase : (y =? y .& 0xffff) = (y <? 2 ^ 16)).
  { rewrite Hland. destruct (Z.ltb_spec y (2 ^ 16)); [rewrite Z.mod_small by lia; apply Z.eqb_refl|].
    apply Z.eqb_neq. pose proof (Z.mod_pos_bound y (2 ^ 16)). lia. }
  set (v := bval l) in *. assert (Hk : B ^ (2 * zlen l) = P * P) by (replace (2 * zlen l) with (zlen l + zlen l) by lia; rewrite Z.pow_add_r; lia).
  assert (Hk1 : B ^ (2 * zlen l + 1) = P * P * B) by (rewrite Z.pow_add_r, Z.pow_1_r by lia; rewrite Hk; done). rewrite Ex, Hcase.
  destruct (Z.ltb_spec y (2 ^ 16)) as [Hlt|Hge].
  - replace (2 * (zlen l + 1) - 1) with (2 * zlen l + 1) by lia. assert (Hsmall : bval d < B ^ (2 * zlen l + 1)).
    { rewrite Hk1, Hv, B_val. assert (Hle : v + P * y < P * 65536) by nia. replace (P * P * 4294967296) with (P * 65536 * (P * 65536)) by lia.
      apply Z.mul_lt_mono_nonneg; nia. }
    assert (Hval : bval (take (Z.to_nat (2 * zlen l + 1)) d) = bval d) by (apply bval_take_fits; [done|lia|lia|done]).
    split_and!; [by apply Forall_take| |done]. apply (normal_of_lower _ (2 * zlen l)); [by apply Forall_take|rewrite zlen_take; lia|lia|].
    rewrite Hval, Hv, Hk. assert (P <= v + P * y) by nia. apply Z.mul_le_mono_nonneg; lia.
  - rewrite take_ge by (unfold zlen in Hz |- *; lia). split_and!; [done| |done]. apply (normal_of_lower _ (2 * zlen l + 1)); [done|lia|lia|].
    rewrite Hk1, Hv, B_val. assert (P * 65536 <= v + P * y) by nia. replace (P * P * 4294967296) with (P * 65536 * (P * 65536)) by lia.
    apply Z.mul_le_mono_nonneg; lia.
Qed.

#[export] Instance small_multiplier_ok {E : Env} {T : Temporaries} {TO : TemporariesOk T} : MultiplierOk small_multiplier.
Proof.
  split; cbn [BN_mul BN_sqr small_multiplier].
  - intros Hmem r a b [Hrn Hrd] Ha Hb Hta Htb. unfold BN_mul_small.
    assert (Hz : forall c, bn_ok c -> top c = 0 -> bn_val c = 0).
    { intros c _ Hc. unfold bn_val, top in *. destruct (words c); [done|]. rewrite zlen_cons in Hc. pose proof (zlen_nonneg l). lia. }
    destruct ((top a =? 0) || (top b =? 0)) eqn:E0.
    { apply (runs_bind _ _ _ _ (zero_runs r Hmem (conj Hrn Hrd))). intros z (Hzok & Hzw). apply runs_ret. exists z. split_and!; [done|done|].
      assert (Hzv : bn_val z = 0) by (unfold bn_val; rewrite Hzw; done). rewrite Hzv.
      apply orb_true_iff in E0 as [?%Z.eqb_eq|?%Z.eqb_eq]; [rewrite (Hz a)|rewrite (Hz b)]; try done; lia. }
    apply orb_false_iff in E0 as [?%Z.eqb_neq ?%Z.eqb_neq]. pose proof (zlen_nonneg (words a)). pose proof (zlen_nonneg (words b)). unfold top in *.
    apply (runs_do _ _ _ _ (wexpand_runs r (zlen (words a) + zlen (words b)) Hmem ltac:(change (INT_MAX / 128) with 16777215; lia))).
    intros r1 (_ & _ & _ & Hd1).
    destruct (mul_normal_run (resize (Z.to_nat (zlen (words a) + zlen (words b))) 0 (words r1)) (words a) (words b)) as (d & E1 & Hd & Hl & Hv);
      [apply Ha|apply Hb|rewrite length_resize; unfold zlen; lia|by intros E0; rewrite E0 in *|by intros E0; rewrite E0 in *|].
    eapply runs_bind_lift; [exact E1|]. apply runs_ret. eexists. split; [done|]. unfold bn_correct_top. split.
    + constructor; cbn [words dmax neg]; [by apply all_u32_correct_top|apply correct_top_idem| |by rewrite (ok_neg _ Ha), (ok_neg _ Hb)].
      unfold top. cbn [words]. pose proof (zlen_correct_top d). rewrite length_resize in Hl. unfold zlen in *. lia.
    + unfold bn_val at 1. cbn [words]. by rewrite bval_correct_top.
  - intros Hmem r a [Hrn Hrd] Ha Hta. unfold BN_sqr_small. destruct (Z.leb_spec (top a) 0) as [Hle|Hgt].
    { apply runs_ret. eexists. split; [done|]. split; [constructor; [apply Forall_nil_2|done|done|done]|].
      unfold top, bn_val in *. destruct (words a); [done|]. rewrite zlen_cons in Hle. pose proof (zlen_nonneg l). lia. }
    apply (runs_do _ _ _ _ (tmp_get Hmem)). intros tmp (Htmp & _).
    apply (runs_do _ _ _ _ (wexpand_runs r (2 * top a) Hmem ltac:(change (INT_MAX / 128) with 16777215; lia))). intros r1 (_ & _ & _ & Hd1).
    apply (runs_do _ _ _ _ (wexpand_runs tmp (2 * top a) Hmem ltac:(change (INT_MAX / 128) with 16777215; lia))). intros tmp1 _.
    destruct (sqr_normal_run (resize (Z.to_nat (2 * top a)) 0 (words r1)) (words a)) as (d & E1 & Hd & Hl & Hv);
      [apply Ha|by intros E0; unfold top in Hgt; rewrite E0 in Hgt|rewrite length_resize; unfold top, zlen; lia|].
    eapply runs_bind_lift; [exact E1|]. apply runs_ret. eexists. split; [done|]. rewrite length_resize in Hl.
    destruct (square_top a d) as (H1 & H2 & H3); [done|done|done|unfold zlen; lia|done|]. cbn zeta in *. split.
    + constructor; cbn [words dmax neg]; [done|done| |done]. unfold top at 1. cbn [words]. rewrite zlen_take. unfold zlen. lia.
    + unfold bn_val at 1. cbn [words]. by rewrite H3.
Qed.
