(* ===== verification/ModExp.v ===== *)
(** * ModExp: the modular power

    The theorem on [BN_mod_exp_mont], against the interfaces of [BnMont], and simple
    functions with which the interfaces are inhabited: temporaries that are always new,
    and division of the values. *)

From S2P Require Import Prelude Sys Runs Modular Bn BnProofs BnMont BnMontProofs BnExpProofs BnMul.

(** C4: [BN_mod_exp_mont] computes the power.  For an odd modulus above 1, any base and
    any exponent (not negative; up to 32 million bits each), with a prepared Montgomery
    context or without, and whatever multiplication, temporaries and division keep to
    their contracts, the function returns the remainder of the power, in normal form,
    and ends: the windows cover the exponent, no table entry outside of the table is
    read, and no carry leaves the array. *)
Theorem mod_exp_mont_correct {E : Env} {T : Temporaries} {TO : TemporariesOk T} {Mul : Multiplier} {MO : MultiplierOk Mul}
    {D : Division} {DO : DivisionOk D} rr a p m in_mont s :
  mem_available -> slot rr -> bn_ok a -> bn_ok p -> bn_ok m -> Z.odd (bn_val m) = true -> 1 < bn_val m ->
  top m < 2 ^ 20 -> top a < 2 ^ 20 -> mont_for in_mont m ->
  exists c tr, BN_mod_exp_mont rr a p m in_mont s = Ret (Some c, with_trace tr s) /\ bn_ok c /\
    bn_val c = bn_val a ^ bn_val p mod bn_val m.
Proof.
  intros Hmem Hrr Ha Hp Hm Hodd Hm1 Htm Hta Hin.
  destruct (mod_exp_runs Hmem rr a p m in_mont Hrr Ha Hp Hm Hodd Hm1 Htm Hta Hin s) as (o & tr & E1 & c & -> & Hc & Hv). by exists c, tr.
Qed.

(** ** Inhabitants of the interfaces *)

(** The number with a value. *)
Fixpoint words_of (n : nat) (v : Z) : list Z :=
  match n with O => [] | S n => v mod B :: words_of n (v / B) end.

Definition bn_of (v : Z) : BIGNUM :=
  let w := correct_top (words_of (Z.to_nat (Z.log2 v + 1)) v) in Bignum w (zlen w) 0.

Lemma words_of_val n : forall v, 0 <= v < B ^ Z.of_nat n -> all_u32 (words_of n v) /\ bval (words_of n v) = v.
Proof.
  induction n as [|n IH]; intros v Hv.
  { split; [apply Forall_nil_2|]. change (Z.of_nat 0) with 0 in Hv. cbn [words_of bval]. lia. }
  cbn [words_of bval]. pose proof B_pos. rewrite Nat2Z.inj_succ, Z.pow_succ_r in Hv by lia.
  destruct (IH (v / B)) as [H1 H2]; [split; [apply Z.div_pos; lia|apply Z.div_lt_upper_bound; lia]|].
  pose proof (Z.mod_pos_bound v B ltac:(lia)) as Hmb. split.
  - apply Forall_cons. split; [unfold is_u32; rewrite B_val in *; lia|done].
  - rewrite H2. pose proof (Z.div_mod v B). lia.
Qed.

Lemma bn_of_ok v : 0 <= v -> bn_ok (bn_of v) /\ bn_val (bn_of v) = v.
Proof.
  intros Hv. destruct (words_of_val (Z.to_nat (Z.log2 v + 1)) v) as [H1 H2].
  { split; [done|]. pose proof (Z.log2_nonneg v). rewrite Z2Nat.id by lia. destruct (Z.eq_dec v 0) as [->|]; [apply B_pow_pos; lia|].
    pose proof (Z.log2_spec v ltac:(lia)) as [_ Hs]. rewrite <- Z.add_1_r in Hs. eapply Z.lt_le_trans; [exact Hs|].
    apply Z.pow_le_mono_l. rewrite B_val. lia. }
  unfold bn_of. split.
  - constructor; cbn [words dmax neg]; [by apply all_u32_correct_top|apply correct_top_idem|done|done].
  - unfold bn_val. cbn [words]. by rewrite bval_correct_top.
Qed.

#[export] Instance new_temporaries {E : Env} : Temporaries := BN_new.

#[export] Instance new_temporaries_ok {E : Env} : TemporariesOk new_temporaries.
Proof.
  intros Hmem st. eexists _, _. split; [reflexivity|]. rewrite (proj2 (Z.eqb_neq _ 0)) by apply Hmem.
  eexists. split; [done|]. split; [|done]. constructor; [apply Forall_nil_2|done|done|done].
Qed.

(** The inverse by trying all residues. *)
Definition inverse_of (a n : Z) : option Z := List.find (fun s => (a * s) mod n =? 1 mod n) (seqZ 0 n).

#[export] Instance value_division {E : Env} : Division := {|
  BN_mod_inverse _ a n := ret (option_map bn_of (inverse_of (bn_val a) (bn_val n)));
  BN_div _ a d := ret (Some (bn_of (bn_val a / bn_val d)));
  BN_mod _ a d := ret (Some (bn_of (bn_val a mod bn_val d)));
  BN_nnmod _ a d := ret (Some (bn_of (bn_val a mod bn_val d)))
|}.

#[export] Instance value_division_ok {E : Env} : DivisionOk value_division.
Proof.
  split; intros _ r a n _ Ha Hn Hpos _ _; pose proof (bn_val_nonneg a Ha) as Ha0; cbn [BN_mod_inverse BN_div BN_mod BN_nnmod value_division].
  - intros [s Hs]. unfold inverse_of. destruct (List.find _ _) as [t|] eqn:Ef.
    + apply find_some in Ef as [Hin He%Z.eqb_eq]. apply list_elem_of_In, elem_of_seqZ in Hin. apply runs_ret. exists (bn_of t).
      destruct (bn_of_ok t) as [H1 H2]; [lia|]. rewrite H2. split_and!; [done|done|lia|]. apply cong_iff; [lia|done].
    + exfalso. pose proof (Z.mod_pos_bound s (bn_val n) Hpos) as Hmb. apply find_none with (x := s mod bn_val n) in Ef.
      * apply Z.eqb_neq in Ef. apply Ef. apply cong_iff; [lia|]. rewrite cong_mod by lia. done.
      * apply list_elem_of_In, elem_of_seqZ. lia.
  - apply runs_ret. exists (bn_of (bn_val a / bn_val n)). split; [done|]. apply bn_of_ok, Z.div_pos; lia.
  - apply runs_ret. exists (bn_of (bn_val a mod bn_val n)). split; [done|]. apply bn_of_ok. by apply Z.mod_pos_bound.
  - apply runs_ret. exists (bn_of (bn_val a mod bn_val n)). split; [done|]. apply bn_of_ok. by apply Z.mod_pos_bound.
Qed.

(** 5 ^ 100000007 modulo 3 ^ 50, with the multiplication of the small build: three words,
    and windows of three bits. *)
Lemma mod_exp_mont_correct_witness :
  exists c tr, @BN_mod_exp_mont (env_lib 1) small_multiplier new_temporaries value_division
      (Bignum [] 0 0) (bn_of 5) (bn_of 100000007) (bn_of (3 ^ 50)) None proc0 = Ret (Some c, with_trace tr proc0) /\ bn_ok c /\
    bn_val c = 5 ^ 100000007 mod 3 ^ 50.
Proof.
  assert (H5 := bn_of_ok 5 ltac:(discriminate)). assert (Hp := bn_of_ok 100000007 ltac:(discriminate)).
  assert (Hm := bn_of_ok (3 ^ 50) ltac:(discriminate)).
  destruct (@mod_exp_mont_correct (env_lib 1) new_temporaries _ small_multiplier _ value_division _
    (Bignum [] 0 0) (bn_of 5) (bn_of 100000007) (bn_of (3 ^ 50)) None proc0) as (c & tr & E & Hc & Hv).
  - apply env_lib_mem.
  - split; reflexivity || discriminate.
  - apply H5.
  - apply Hp.
  - apply Hm.
  - rewrite (proj2 Hm). reflexivity.
  - rewrite (proj2 Hm). reflexivity.
  - vm_compute. reflexivity.
  - vm_compute. reflexivity.
  - exact I.
  - exists c, tr. split; [exact E|]. split; [exact Hc|]. rewrite (proj2 H5), (proj2 Hp), (proj2 Hm) in Hv. exact Hv.
Defined.
