(* ===== verification/RsaEay.v ===== *)
(** * RsaEay: RSA with OAEP padding

    src/jni/openssl/crypto/rsa/rsa_eay.c with the key structure of rsa.h and rsa_lib.c:
    the built-in method, whose [bn_mod_exp] is [BN_mod_exp_mont].  The functions are
    those for [padding == RSA_PKCS1_OAEP_PADDING]; the other paddings are not used by the
    program.  A key has the fields that these functions read; a number that is NULL, as
    all are in a new key, is the empty one.  The private operation is written for a key
    with its exponent alone and the flags that turn blinding and the constant-time
    exponentiation off; how other keys are used is the interface [PrivateModes]. *)

From S2P Require Import Prelude Sys Sha1 RsaOaep Bn BnMont.

(** [p], [q], [dmp1], [dmq1] and [iqmp] *)
Record factors : Type := Factors { rsa_p : BIGNUM; rsa_q : BIGNUM; rsa_dmp1 : BIGNUM; rsa_dmq1 : BIGNUM; rsa_iqmp : BIGNUM }.

(** [rsa_factors] is [None] when one of the five is NULL. *)
Record RSA : Type := Rsa {
  rsa_n : BIGNUM; rsa_e : BIGNUM; rsa_d : BIGNUM; rsa_factors : option factors;
  rsa_flags : Z; method_mod_n : option BN_MONT_CTX }.

Definition RSA_FLAG_CACHE_PUBLIC : Z := 0x2.
Definition RSA_FLAG_CACHE_PRIVATE : Z := 0x4.
Definition RSA_FLAG_EXT_PKEY : Z := 0x20.
Definition RSA_FLAG_NO_BLINDING : Z := 0x80.
Definition RSA_FLAG_NO_CONSTTIME : Z := 0x100.
Definition OPENSSL_RSA_MAX_MODULUS_BITS : Z := 16384.
Definition OPENSSL_RSA_SMALL_MODULUS_BITS : Z := 3072.
Definition OPENSSL_RSA_MAX_PUBEXP_BITS : Z := 64.

Definition set_mod_n (mont : option BN_MONT_CTX) (r : RSA) : RSA :=
  Rsa r.(rsa_n) r.(rsa_e) r.(rsa_d) r.(rsa_factors) r.(rsa_flags) mont.

(** The private power of [f] with blinding (bn_blind.c), with the factors
    ([RSA_eay_mod_exp]) or in constant time ([BN_mod_exp_mont_consttime]): [ret], or
    [None] for the error exit, and the key. *)
Class PrivateModes {E : Env} : Type := rsa_private_modes : RSA -> BIGNUM -> BIGNUM -> M (option BIGNUM * RSA).

Section Rsa.
Context {E : Env} {Mul : Multiplier} {Tmp : Temporaries} {Div : Division} (b : build).

(** [BN_MONT_CTX_set_locked(pmont, lock, mod, ctx)]: what [*pmont] is afterwards. *)
Definition BN_MONT_CTX_set_locked (pmont : option BN_MONT_CTX) (mod_ : BIGNUM) : M (option BN_MONT_CTX) :=
  match pmont with
  | Some mont => ret (Some mont)
  | None => do? mont <- BN_MONT_CTX_new; BN_MONT_CTX_set mont mod_
  end.

(** The macro [MONT_HELPER] for [_method_mod_n]; [None] is its error exit. *)
Definition mont_helper (rsa : RSA) : M (option RSA) :=
  match rsa.(method_mod_n) with
  | None =>
      if negb (rsa.(rsa_flags) .& RSA_FLAG_CACHE_PUBLIC =? 0) then
        do? mont <- BN_MONT_CTX_set_locked None rsa.(rsa_n); ret (Some (set_mod_n (Some mont) rsa))
      else ret (Some rsa)
  | Some _ => ret (Some rsa)
  end.

(** [RSA_eay_public_encrypt] from the padding to the label [err]: the return value, [to]
    and the key. *)
Definition eay_encrypt (flen : Z) (from to : list Z) (rsa : RSA) (f rt : BIGNUM) (num : Z) (buf : list Z) : M (Z * list Z * RSA) :=
  do! '(i, buf) <- RSA_padding_add_PKCS1_OAEP b buf num from flen [] 0;
  if i <=? 0 then ret (-1, to, rsa)
  else
    do! o <- BN_bin2bn buf num f;
    match o with
    | None => ret (-1, to, rsa)
    | Some f =>
        if 0 <=? BN_ucmp f rsa.(rsa_n) then ret (-1, to, rsa)
        else
          do! o <- mont_helper rsa;
          match o with
          | None => ret (-1, to, rsa)
          | Some rsa =>
              do! o <- BN_mod_exp_mont rt f rsa.(rsa_e) rsa.(rsa_n) rsa.(method_mod_n);
              match o with
              | None => ret (-1, to, rsa)
              | Some rt =>
                  let j := BN_num_bytes rt in
                  do! to <- lift (buf_write to (num - j) (BN_bn2bin rt));
                  do! to <- lift (buf_write to 0 (repeat 0 (Z.to_nat (num - j))));
                  ret (num, to, rsa)
              end
          end
    end.

(** [RSA_eay_public_encrypt(flen, from, to, rsa, RSA_PKCS1_OAEP_PADDING)] *)
Definition RSA_eay_public_encrypt (flen : Z) (from to : list Z) (rsa : RSA) : M (Z * list Z * RSA) :=
  if OPENSSL_RSA_MAX_MODULUS_BITS <? BN_num_bits rsa.(rsa_n) then ret (-1, to, rsa)
  else if BN_ucmp rsa.(rsa_n) rsa.(rsa_e) <=? 0 then ret (-1, to, rsa)
  else if (OPENSSL_RSA_SMALL_MODULUS_BITS <? BN_num_bits rsa.(rsa_n)) && (OPENSSL_RSA_MAX_PUBEXP_BITS <? BN_num_bits rsa.(rsa_e))
  then ret (-1, to, rsa)
  else
    do! ctx <- malloc_struct 44;
    if negb ctx then ret (-1, to, rsa)
    else
      do! f <- BN_CTX_get;
      do! rt <- BN_CTX_get;
      let num := BN_num_bytes rsa.(rsa_n) in
      do! p <- malloc num;
      do! r <- (match f, rt with
                | Some f, Some rt =>
                    if decide (p = Null) then ret (-1, to, rsa)
                    else do! buf <- view p; eay_encrypt flen from to rsa f rt num buf
                | _, _ => ret (-1, to, rsa)
                end);
      do! _ <- free p;
      ret r.

(** None of the three applies. *)
Definition plain_private (rsa : RSA) : bool :=
  negb (rsa.(rsa_flags) .& RSA_FLAG_NO_BLINDING =? 0) &&
  negb (negb (rsa.(rsa_flags) .& RSA_FLAG_EXT_PKEY =? 0) || bool_decide (is_Some rsa.(rsa_factors))) &&
  negb (rsa.(rsa_flags) .& RSA_FLAG_NO_CONSTTIME =? 0).

(** From the test of [RSA_FLAG_NO_BLINDING] to [rsa_blinding_invert]: [ret], or [None] for
    the error exit, and the key. *)
Definition private_power {PM : PrivateModes} (rsa : RSA) (f rt : BIGNUM) : M (option BIGNUM * RSA) :=
  if plain_private rsa then
    do! o <- mont_helper rsa;
    match o with
    | None => ret (None, rsa)
    | Some rsa =>
        do! o <- BN_mod_exp_mont rt f rsa.(rsa_d) rsa.(rsa_n) rsa.(method_mod_n);
        ret (o, rsa)
    end
  else rsa_private_modes rsa f rt.

(** [RSA_eay_private_decrypt] from the length check to [err]. *)
Definition eay_decrypt {PM : PrivateModes} (flen : Z) (from to : list Z) (rsa : RSA) (f rt : BIGNUM) (num : Z) (buf : list Z) : M (Z * list Z * RSA) :=
  if num <? flen then ret (-1, to, rsa)
  else
    do! o <- BN_bin2bn from flen f;
    match o with
    | None => ret (-1, to, rsa)
    | Some f =>
        if 0 <=? BN_ucmp f rsa.(rsa_n) then ret (-1, to, rsa)
        else
          do! '(o, rsa) <- private_power rsa f rt;
          match o with
          | None => ret (-1, to, rsa)
          | Some rt =>
              do! buf <- lift (buf_write buf 0 (BN_bn2bin rt));
              let j := BN_num_bytes rt in
              do! '(r, to) <- RSA_padding_check_PKCS1_OAEP b to num buf j num [] 0;
              ret (r, to, rsa)
          end
    end.

(** [RSA_eay_private_decrypt(flen, from, to, rsa, RSA_PKCS1_OAEP_PADDING)] *)
Definition RSA_eay_private_decrypt {PM : PrivateModes} (flen : Z) (from to : list Z) (rsa : RSA) : M (Z * list Z * RSA) :=
  do! ctx <- malloc_struct 44;
  if negb ctx then ret (-1, to, rsa)
  else
    do! f <- BN_CTX_get;
    do! br <- BN_CTX_get;
    do! rt <- BN_CTX_get;
    let num := BN_num_bytes rsa.(rsa_n) in
    do! p <- malloc num;
    do! r <- (match f, rt with
              | Some f, Some rt =>
                  if decide (p = Null) then ret (-1, to, rsa)
                  else do! buf <- view p; eay_decrypt flen from to rsa f rt num buf
              | _, _ => ret (-1, to, rsa)
              end);
    do! _ <- free p;
    ret r.

(** [RSA_new()] with the built-in method: [RSA_new_method] and [RSA_eay_init]. *)
Definition RSA_new : M (option RSA) :=
  do! ok <- malloc_struct 88;
  ret (if ok then Some (Rsa (Bignum [] 0 0) (Bignum [] 0 0) (Bignum [] 0 0) None
                          (RSA_FLAG_CACHE_PUBLIC .| RSA_FLAG_CACHE_PRIVATE) None)
       else None).

End Rsa.
