(* ===== verification/RsaEayProofs.v ===== *)
(** * RsaEayProofs: what RSA with OAEP computes

    The encryption is the power of the encoded message, as many bytes as the modulus
    has; the decryption with the inverse exponent gives the message back. *)

From S2P Require Import Prelude Sys Runs Sha1 RsaOaep RsaOaepProofs Modular Bn BnProofs BnMont BnMontProofs.
From S2P Require Import BnExpProofs RsaEay.

(** A public key that the functions accept, with a cached context for its modulus or
    none. *)
Record key_ok (rsa : RSA) : Prop := KeyOk {
  key_n : bn_ok rsa.(rsa_n);
  key_e : bn_ok rsa.(rsa_e);
  key_odd : Z.odd (bn_val rsa.(rsa_n)) = true;
  key_bits : nbits (bn_val rsa.(rsa_n)) <= OPENSSL_RSA_MAX_MODULUS_BITS;
  key_e_lt : bn_val rsa.(rsa_e) < bn_val rsa.(rsa_n);
  key_e_bits : OPENSSL_RSA_SMALL_MODULUS_BITS < nbits (bn_val rsa.(rsa_n)) -> nbits (bn_val rsa.(rsa_e)) <= OPENSSL_RSA_MAX_PUBEXP_BITS;
  key_mont : mont_for rsa.(method_mod_n) rsa.(rsa_n)
}.

(** The length of the modulus, in bytes. *)
Definition key_len (rsa : RSA) : Z := BN_num_bytes rsa.(rsa_n).

Lemma num_bytes_le x k : 0 <= x < 256 ^ k -> 0 <= k -> (nbits x + 7) / 8 <= k.
Proof.
  intros Hx Hk. unfold nbits. destruct (Z.eqb_spec x 0) as [|Hx0]; [done|]. change 256 with (2 ^ 8) in Hx. rewrite <- Z.pow_mul_r in Hx by lia.
  assert (Z.log2 x < 8 * k) by (apply Z.log2_lt_pow2; lia). assert ((Z.log2 x + 1 + 7) / 8 < k + 1); [|lia]. apply Z.div_lt_upper_bound; lia.
Qed.

Lemma num_bytes_lower x : 0 < x -> 256 ^ ((nbits x + 7) / 8 - 1) <= x.
Proof.
  intros Hx. unfold nbits. rewrite (proj2 (Z.eqb_neq x 0)) by lia. pose proof (Z.log2_spec x Hx) as [Hlo _]. pose proof (Z.log2_nonneg x).
  replace ((Z.log2 x + 1 + 7) / 8 - 1) with (Z.log2 x / 8) by (replace (Z.log2 x + 1 + 7) with (Z.log2 x + 1 * 8) by lia; rewrite Z.div_add by lia; lia).
  change 256 with (2 ^ 8). rewrite <- Z.pow_mul_r by (try apply Z.div_pos; lia). etransitivity; [|exact Hlo]. apply Z.pow_le_mono_r; [lia|].
  apply Z.mul_div_le. lia.
Qed.

(** A modulus in range: its size in bytes and in words. *)
Lemma modulus_size n : bn_ok n -> 1 < bn_val n -> nbits (bn_val n) <= OPENSSL_RSA_MAX_MODULUS_BITS ->
  let num := BN_num_bytes n in
  1 <= num <= 2048 /\ top n < 2 ^ 20 /\ 256 ^ (num - 1) <= bn_val n < 256 ^ num.
Proof.
  intros Hn Hv Hb num. unfold OPENSSL_RSA_MAX_MODULUS_BITS in Hb. unfold num, BN_num_bytes. rewrite num_bits_spec by done.
  pose proof (nbits_bound (bn_val n) ltac:(lia)) as [Hub Hnn]. pose proof (num_bytes_bound (bn_val n) ltac:(lia)). pose proof (num_bytes_lower (bn_val n) ltac:(lia)).
  assert (1 <= nbits (bn_val n)) by (unfold nbits; rewrite (proj2 (Z.eqb_neq _ 0)) by lia; pose proof (Z.log2_nonneg (bn_val n)); lia).
  split_and!; [apply Z.div_le_lower_bound; lia|apply Z.lt_succ_r, Z.div_lt_upper_bound; lia| |done|done].
  assert (top n <= 512); [|lia]. apply top_le; [done|lia|]. rewrite B_pow2 by lia. eapply Z.lt_le_trans; [exact Hub|]. apply Z.pow_le_mono_r; lia.
Qed.

Section Rsa.
Context {E : Env} {T : Temporaries} {TO : TemporariesOk T} {Mul : Multiplier} {MO : MultiplierOk Mul} {D : Division} {DO : DivisionOk D}.
Context (b : build) (Hmem : mem_available).

(** The same key, with a context. *)
Definition same_key (rsa rsa' : RSA) : Prop :=
  rsa'.(rsa_n) = rsa.(rsa_n) /\ rsa'.(rsa_e) = rsa.(rsa_e) /\ rsa'.(rsa_d) = rsa.(rsa_d) /\ mont_for rsa'.(method_mod_n) rsa.(rsa_n).

Lemma mont_helper_runs rsa :
  bn_ok rsa.(rsa_n) -> Z.odd (bn_val rsa.(rsa_n)) = true -> top rsa.(rsa_n) < 2 ^ 20 -> mont_for rsa.(method_mod_n) rsa.(rsa_n) ->
  runs (mont_helper rsa) (fun o => exists rsa', o = Some rsa' /\ same_key rsa rsa').
Proof.
  intros Hn Hodd Ht Hm. unfold mont_helper, same_key. destruct (method_mod_n rsa) as [mont|] eqn:Em.
  { apply runs_ret. exists rsa. rewrite Em. by split_and!. }
  destruct (negb _); [|apply runs_ret; exists rsa; rewrite Em; by split_and!]. unfold BN_MONT_CTX_set_locked.
  apply (runs_do _ _ (fun mont => mont_ok mont /\ bn_val (N mont) = bn_val (rsa_n rsa))).
  - apply (runs_do _ _ (fun c => c = MontCtx 0 (Bignum [] 0 0) (Bignum [] 0 0) 0)); [|intros c ->; by apply mont_set_runs].
    intros st. eexists _, _. split; [reflexivity|]. rewrite (proj2 (Z.eqb_neq _ 0)) by apply Hmem. by eexists.
  - intros mont Hmont. apply runs_ret. eexists. split; [done|]. by split_and!.
Qed.

(** The bytes of a number below the modulus, with the leading zeros of the modulus'
    length. *)
Lemma store_number_run {C} (K : list Z -> M C) to num c s :
  bn_ok c -> bn_val c < 256 ^ num -> 0 <= num <= zlen to ->
  exists cs, bytes cs /\ zlen cs = num /\ be_val cs = bn_val c /\
    (do! to <- lift (buf_write to (num - BN_num_bytes c) (BN_bn2bin c));
     do! to <- lift (buf_write to 0 (repeat 0 (Z.to_nat (num - BN_num_bytes c))));
     K to) s = K (splice to 0 cs) s.
Proof.
  intros Hc Hlt Hnum. destruct (bn2bin_val c Hc) as (Hb & Hz & Hv). pose proof (bn_val_nonneg c Hc). pose proof (zlen_nonneg (BN_bn2bin c)).
  assert (Hj : BN_num_bytes c <= num) by (unfold BN_num_bytes; rewrite num_bits_spec by done; apply num_bytes_le; lia).
  set (j := BN_num_bytes c) in *. set (bs := BN_bn2bin c) in *. set (z := Z.to_nat (num - j)).
  exists (repeat 0 z ++ bs). split_and!.
  - apply Forall_app. split; [apply bytes_zeros|done].
  - rewrite zlen_app, zlen_repeat. lia.
  - rewrite be_val_app, be_val_zeros. lia.
  - assert (Et : to = take z to ++ drop z to) by (symmetry; apply take_drop). assert (Hzt : zlen (take z to) = num - j) by (rewrite zlen_take; lia).
    rewrite (bindM_lift _ (take z to ++ bs ++ drop (length bs) (drop z to))).
    2: { rewrite Et at 1. rewrite <- Hzt. apply buf_write_at. rewrite zlen_drop. lia. }
    rewrite (bindM_lift _ (repeat 0 z ++ bs ++ drop (length bs) (drop z to))).
    2: { change 0 with (zlen (@nil Z)) at 1. rewrite <- (app_nil_l (take z to ++ _)). rewrite buf_write_at.
      - cbn [app]. rewrite repeat_length, drop_app_length' by (unfold zlen in *; lia). done.
      - rewrite !zlen_app, zlen_repeat. pose proof (zlen_nonneg (drop (length bs) (drop z to))). lia. }
    rewrite splice_0, length_app, repeat_length, <- drop_drop, <- app_assoc. done.
Qed.

Lemma eay_encrypt_run flen from to rsa f rt buf s :
  rand_available -> key_ok rsa -> 1 < bn_val rsa.(rsa_n) -> let num := key_len rsa in
  bytes from -> 0 <= flen <= zlen from -> flen + 42 <= num -> num <= zlen to -> zlen buf = num -> slot f -> slot rt -> heap_ok s ->
  exists seed cs rsa' tr, bytes seed /\ zlen seed = 20 /\ bytes cs /\ zlen cs = num /\
    be_val cs = be_val (oaep_encode num seed (take (Z.to_nat flen) from) []) ^ bn_val rsa.(rsa_e) mod bn_val rsa.(rsa_n) /\
    same_key rsa rsa' /\
    eay_encrypt b flen from to rsa f rt num buf s =
    Ret ((num, splice to 0 cs, rsa'), Proc (heap s) (fresh s + 1) tr (fds s) (vars s)).
Proof.
  intros Hrand Hkey Hn1 num Hf Hflen Hfit Hto Hbuf Hsf Hsr Hok. destruct Hkey as [Hn He Hodd Hbits Helt Heb Hmont].
  destruct (modulus_size _ Hn Hn1 Hbits) as (Hnum & Htop & Hlo & Hhi). fold (key_len rsa) num in Hnum, Hlo, Hhi.
  assert (Hadd : add_ok buf num from flen [] 0) by (split; [done|lia|done|lia|split; [apply Forall_nil_2|split; [done|lia]]]).
  destruct (oaep_add_encodes b buf num from flen [] 0 s Hmem Hrand Hadd Hok) as (seed & tr1 & Hsb & Hsl & E1).
  change (take (Z.to_nat 0) []) with (@nil Z) in E1. set (msg := take (Z.to_nat flen) from) in *. set (em := oaep_encode num seed msg []) in *.
  assert (Hzm : zlen msg = flen) by (unfold msg; rewrite zlen_take; lia).
  assert (Hem : zlen em = num) by (apply zlen_oaep_encode; [done|lia]). assert (Hbem : bytes em) by (apply bytes_oaep_encode; [done|by apply Forall_take]).
  assert (Hev : be_val em < 256 ^ (num - 1)).
  { unfold em, oaep_encode. rewrite be_val_cons, Z.mul_0_l, Z.add_0_l. apply Forall_cons in Hbem as [_ Hb']. unfold em, oaep_encode in Hem. rewrite zlen_cons in Hem.
    pose proof (be_val_range _ Hb'). replace (num - 1) with (zlen (mask_db seed (oaep_db num msg []))) by lia. lia. }
  set (s1 := Proc _ _ _ _ _) in E1. exists seed. unfold eay_encrypt. rewrite (bindM_Ret _ _ _ _ _ E1). cbn [Z.leb Z.compare].
  pose proof (bin2bn_runs em num f Hmem Hbem ltac:(lia) ltac:(lia) (proj1 Hsf) (proj2 Hsf)) as Hbin.
  destruct (Hbin s1) as (o & tr2 & E2 & f1 & -> & Hf1 & Hvf). rewrite (bindM_Ret _ _ _ _ _ E2). clear E2 Hbin.
  rewrite take_ge in Hvf by (unfold zlen in Hem; lia). pose proof (ucmp_spec f1 _ Hf1 Hn) as Hcmp. rewrite (proj2 (Z.leb_gt 0 (BN_ucmp _ _))) by lia.
  destruct (mont_helper_runs rsa Hn Hodd Htop Hmont (with_trace tr2 s1)) as (o & tr3 & E3 & rsa' & -> & Hsame).
  rewrite (bindM_Ret _ _ _ _ _ E3). clear E3.
  pose proof Hsame as (En & Ee & Ed & Hm'). rewrite En, Ee.
  assert (Htf : top f1 < 2 ^ 20).
  { assert (top f1 <= top (rsa_n rsa)); [|lia]. apply top_le; [done|apply zlen_nonneg|]. pose proof (bval_range _ (ok_words _ Hn)) as HB.
    fold (bn_val (rsa_n rsa)) (top (rsa_n rsa)) in HB. lia. }
  destruct (mod_exp_runs Hmem rt f1 _ _ _ Hsr Hf1 He Hn Hodd Hn1 Htop Htf Hm' (with_trace tr3 (with_trace tr2 s1)))
    as (o & tr4 & E4 & c & -> & Hc & Hvc).
  rewrite (bindM_Ret _ _ _ _ _ E4). clear E4. pose proof (Z.mod_pos_bound (bn_val f1 ^ bn_val (rsa_e rsa)) (bn_val (rsa_n rsa)) ltac:(lia)) as Hmb.
  edestruct (fun K => @store_number_run (Z * list Z * RSA) K to num c) as (cs & Hcb & Hcz & Hcv & E5); [done|lia|lia|]. cbv zeta. rewrite E5.
  exists cs, rsa'. eexists. split_and!; [done|done|done|done|by rewrite Hcv, Hvc, Hvf|done|reflexivity].
Qed.

(** A block that is allocated around a computation and freed afterwards. *)
Lemma scratch_run {C} (K : list Z -> M C) (X : C) num s (Q : C -> Prop) :
  0 <= num -> heap_ok s ->
  (forall buf s1, zlen buf = num -> heap_ok s1 ->
    exists v tr, K buf s1 = Ret (v, Proc (heap s1) (fresh s1 + 1) tr (fds s1) (vars s1)) /\ Q v) ->
  exists v tr,
    (do! p <- malloc num;
     do! r <- (if decide (p = Null) then ret X else do! buf <- view p; K buf);
     do! _ <- free p;
     ret r) s = Ret (v, Proc (heap s) (fresh s + 2) tr (fds s) (vars s)) /\ Q v.
Proof.
  intros Hnum Hok HK. destruct (malloc_run num s Hnum) as [[Hnull _]|[_ (mem & Hm & Ea)]]; [by destruct (Hmem _ _ Hnull)|].
  rewrite (bindM_Ret _ _ _ _ _ Ea). set (s1 := Proc _ _ _ _ _). destruct (decide _) as [|_]; [done|].
  assert (Hl : heap s1 !! fresh s = Some (Bytes mem)) by apply lookup_insert_eq.
  destruct (HK mem s1 Hm) as (v & tr & E1 & Hv).
  { intros l Hlt. cbn in Hlt |- *. rewrite lookup_insert_ne by lia. apply Hok. lia. }
  exists v. eexists. split; [|exact Hv]. erewrite bindM_Ret; [|rewrite (bindM_Ret _ _ s1 mem s1) by (by apply view_run); exact E1].
  erewrite bindM_Ret by (eapply free_run; exact Hl). unfold ret, set_heap. cbn. do 3 f_equal; [|lia].
  apply delete_insert_id, Hok. lia.
Qed.

(** The result of an encryption: [cs] is stored. *)
Definition encrypted (from to : list Z) (flen : Z) (rsa : RSA) (v : Z * list Z * RSA) : Prop :=
  exists seed cs rsa', bytes seed /\ zlen seed = 20 /\ bytes cs /\ zlen cs = key_len rsa /\ same_key rsa rsa' /\
    be_val cs = be_val (oaep_encode (key_len rsa) seed (take (Z.to_nat flen) from) []) ^ bn_val rsa.(rsa_e) mod bn_val rsa.(rsa_n) /\
    v = (key_len rsa, splice to 0 cs, rsa').

Lemma temporary s : exists a tr, BN_CTX_get s = Ret (Some a, with_trace tr s) /\ slot a.
Proof. destruct (tmp_get Hmem s) as (o & tr & E1 & a & -> & Ha & _). exists a, tr. split; [done|]. by apply ok_slot. Qed.

Lemma struct_run k s : exists tr, malloc_struct k s = Ret (true, with_trace tr s).
Proof. eexists. unfold malloc_struct, bindM, sys, ret. rewrite (proj2 (Z.eqb_neq _ 0)) by apply Hmem. reflexivity. Qed.

Lemma public_encrypt_run flen from to rsa s :
  rand_available -> key_ok rsa -> 1 < bn_val rsa.(rsa_n) -> bytes from -> 0 <= flen <= zlen from -> flen + 42 <= key_len rsa ->
  key_len rsa <= zlen to -> heap_ok s ->
  exists v tr, RSA_eay_public_encrypt b flen from to rsa s = Ret (v, Proc (heap s) (fresh s + 2) tr (fds s) (vars s)) /\
    encrypted from to flen rsa v.
Proof.
  intros Hrand Hkey Hn1 Hf Hflen Hfit Hto Hok. pose proof Hkey as [Hn He Hodd Hbits Helt Heb Hmont]. unfold RSA_eay_public_encrypt.
  rewrite !num_bits_spec by done. rewrite (proj2 (Z.ltb_ge _ (nbits _))) by done.
  pose proof (ucmp_spec _ _ Hn He) as Hcmp. rewrite (proj2 (Z.leb_gt (BN_ucmp _ _) 0)) by lia.
  destruct (_ && _) eqn:Eg; [apply andb_true_iff in Eg as [H1%Z.ltb_lt H2%Z.ltb_lt]; specialize (Heb H1); lia|]. clear Eg.
  destruct (struct_run 44 s) as (tr1 & E1). rewrite (bindM_Ret _ _ _ _ _ E1). cbn [negb].
  destruct (temporary (with_trace tr1 s)) as (f & tr2 & E2 & Hsf). rewrite (bindM_Ret _ _ _ _ _ E2).
  destruct (temporary (with_trace tr2 (with_trace tr1 s))) as (rt & tr3 & E3 & Hsr). rewrite (bindM_Ret _ _ _ _ _ E3). cbv zeta.
  destruct (modulus_size _ Hn Hn1 Hbits) as (Hnum & _).
  apply (scratch_run (eay_encrypt b flen from to rsa f rt (BN_num_bytes (rsa_n rsa))) (-1, to, rsa) _
           (with_trace tr3 (with_trace tr2 (with_trace tr1 s)))); [lia|exact Hok|].
  intros buf s1 Hbuf Hok1.
  destruct (eay_encrypt_run flen from to rsa f rt buf s1 Hrand Hkey Hn1 Hf Hflen Hfit Hto Hbuf Hsf Hsr Hok1)
    as (seed & cs & rsa' & tr & Hs1 & Hs2 & Hc1 & Hc2 & Hv & Hsame & E4).
  eexists _, tr. split; [exact E4|]. by exists seed, cs, rsa'.
Qed.

(** ** Decryption *)

Lemma pad_zeros l num : zlen l = num - 1 ->
  0 :: repeat 0 (Z.to_nat (num - 1 - zlen (drop_zeros l))) ++ drop_zeros l = 0 :: l /\ zlen (drop_zeros l) < num.
Proof.
  intros Hl. destruct (drop_zeros_app l) as [k Ek]. apply (f_equal zlen) in Ek as Hk. rewrite zlen_app, zlen_repeat in Hk.
  split; [|lia]. f_equal. rewrite Ek at 3. do 2 f_equal. lia.
Qed.

(** The power, for a key that none of the other ways applies to. *)
Lemma private_power_runs {PM : PrivateModes} rsa f rt :
  plain_private rsa = true -> bn_ok rsa.(rsa_n) -> bn_ok rsa.(rsa_d) -> Z.odd (bn_val rsa.(rsa_n)) = true ->
  1 < bn_val rsa.(rsa_n) -> top rsa.(rsa_n) < 2 ^ 20 -> top f < 2 ^ 20 -> mont_for rsa.(method_mod_n) rsa.(rsa_n) ->
  bn_ok f -> slot rt ->
  runs (private_power rsa f rt) (fun v => same_key rsa v.2 /\ exists c, v.1 = Some c /\ bn_ok c /\
    bn_val c = bn_val f ^ bn_val rsa.(rsa_d) mod bn_val rsa.(rsa_n)).
Proof.
  intros Hplain Hn Hd Hodd Hn1 Htop Htf Hmont Hf Hrt s. unfold private_power. rewrite Hplain.
  destruct (mont_helper_runs rsa Hn Hodd Htop Hmont s) as (o & tr & E1 & rsa' & -> & Hsame). rewrite (bindM_Ret _ _ _ _ _ E1).
  pose proof Hsame as (En & Ee & Ed & Hm'). rewrite En, Ed.
  destruct (mod_exp_runs Hmem rt f _ _ _ Hrt Hf Hd Hn Hodd Hn1 Htop Htf Hm' (with_trace tr s)) as (o & tr' & E2 & c & -> & Hc).
  rewrite (bindM_Ret _ _ _ _ _ E2). eexists _, _. split; [reflexivity|]. split; [exact Hsame|]. by exists c.
Qed.

(** The message comes back from any bytes whose power is an encoding of it. *)
Lemma eay_decrypt_run {PM : PrivateModes} flen from to rsa f rt seed msg buf s :
  plain_private rsa = true ->
  bn_ok rsa.(rsa_n) -> bn_ok rsa.(rsa_d) -> Z.odd (bn_val rsa.(rsa_n)) = true -> nbits (bn_val rsa.(rsa_n)) <= OPENSSL_RSA_MAX_MODULUS_BITS ->
  mont_for rsa.(method_mod_n) rsa.(rsa_n) -> 1 < bn_val rsa.(rsa_n) -> let num := key_len rsa in
  bytes from -> 0 <= flen <= zlen from -> flen <= num -> num <= zlen to -> zlen buf = num -> slot f -> slot rt -> heap_ok s ->
  bytes seed -> zlen seed = 20 -> bytes msg -> zlen msg + 42 <= num ->
  be_val (take (Z.to_nat flen) from) < bn_val rsa.(rsa_n) ->
  be_val (take (Z.to_nat flen) from) ^ bn_val rsa.(rsa_d) mod bn_val rsa.(rsa_n) = be_val (oaep_encode num seed msg []) ->
  exists rsa' tr, same_key rsa rsa' /\
    eay_decrypt b flen from to rsa f rt num buf s =
    Ret ((zlen msg, splice to 0 msg, rsa'), Proc (heap s) (fresh s + 1) tr (fds s) (vars s)).
Proof.
  intros Hplain Hn Hd Hodd Hbits Hmont Hn1 num Hf Hflen Hfl Hto Hbuf Hsf Hsr Hok Hsb Hsl Hmb Hfit Hlt Hpow.
  destruct (modulus_size _ Hn Hn1 Hbits) as (Hnum & Htop & Hlo & Hhi). fold (key_len rsa) num in Hnum, Hlo, Hhi. unfold eay_decrypt.
  rewrite (proj2 (Z.ltb_ge num flen)) by lia.
  destruct (bin2bn_runs from flen f Hmem Hf Hflen ltac:(lia) (proj1 Hsf) (proj2 Hsf) s) as (o & tr2 & E2 & f1 & -> & Hf1 & Hvf).
  rewrite (bindM_Ret _ _ _ _ _ E2). clear E2. pose proof (ucmp_spec f1 _ Hf1 Hn) as Hcmp. rewrite (proj2 (Z.leb_gt 0 (BN_ucmp _ _))) by lia.
  assert (Htf : top f1 < 2 ^ 20).
  { assert (top f1 <= top (rsa_n rsa)); [|lia]. apply top_le; [done|apply zlen_nonneg|]. pose proof (bval_range _ (ok_words _ Hn)) as HB.
    fold (bn_val (rsa_n rsa)) (top (rsa_n rsa)) in HB. lia. }
  destruct (private_power_runs rsa f1 rt Hplain Hn Hd Hodd Hn1 Htop Htf Hmont Hf1 Hsr (with_trace tr2 s)) as ([o rsa'] & tr4 & E4 & Hsame & c & Eo & Hc & Hvc).
  cbn [fst snd] in Hsame, Eo. subst o. rewrite (bindM_Ret _ _ _ _ _ E4). clear E4. set (em := oaep_encode num seed msg []) in *.
  assert (Hbem : bytes em) by (by apply bytes_oaep_encode). assert (Hzem : zlen em = num) by (by apply zlen_oaep_encode).
  rewrite Hvf, Hpow in Hvc. destruct (bn2bin_val c Hc) as (Hb & Hz & Hv). rewrite (bn2bin_drop_zeros c em Hc Hbem Hvc) in *.
  set (bs := drop_zeros em) in *. pose proof (zlen_nonneg bs) as Hbs0.
  assert (Hpad : 0 :: repeat 0 (Z.to_nat (num - 1 - zlen bs)) ++ bs = em /\ zlen bs < num).
  { apply (pad_zeros (mask_db seed (oaep_db num msg []))). unfold em, oaep_encode in Hzem. rewrite zlen_cons in Hzem. lia. }
  destruct Hpad as [Hpad Hbl]. rewrite (bindM_lift _ (bs ++ drop (length bs) buf)) by (apply (buf_write_at [] buf bs); lia). cbv zeta. rewrite <- Hz.
  assert (Htk : take (Z.to_nat (zlen bs)) (bs ++ drop (length bs) buf) = bs) by (unfold zlen; rewrite Nat2Z.id; apply take_app_length).
  destruct (oaep_check_spec b to num (bs ++ drop (length bs) buf) (zlen bs) num [] 0 (with_trace tr4 (with_trace tr2 s)) Hmem)
    as (r & to' & tr & E5 & Hres).
  { pose proof (zlen_nonneg msg). split; [lia|lia| |split; [apply Forall_nil_2|split; [done|lia]]]. rewrite Htk. split; [done|]. rewrite zlen_app. pose proof (zlen_nonneg (drop (length bs) buf)). lia. }
  { exact Hok. }
  rewrite (bindM_Ret _ _ _ _ _ E5). exists rsa', tr. split; [done|]. change (take (Z.to_nat 0) []) with (@nil Z) in Hres.
  assert (Henc : exists sd, zlen bs < num /\ zlen sd = 20 /\ zlen msg + 42 <= num /\
    0 :: padded (bs ++ drop (length bs) buf) (zlen bs) num = oaep_encode num sd msg []).
  { exists seed. split_and!; [done|done|done|]. unfold padded. by rewrite Htk. }
  destruct Hres as [(m' & (sd & _ & Hsd & Hml & He) & _ & -> & ->)|(Hno & _)].
  - assert (m' = msg) as ->; [|reflexivity]. unfold padded in He. rewrite Htk, Hpad in He. unfold em in He. by apply oaep_encode_inj in He.
  - specialize (Hno msg Henc). lia.
Qed.

(** The exponents are inverse to each other. *)
Definition inverse_exponents (rsa : RSA) : Prop :=
  forall x, 0 <= x < bn_val rsa.(rsa_n) -> x ^ (bn_val rsa.(rsa_e) * bn_val rsa.(rsa_d)) mod bn_val rsa.(rsa_n) = x.

(** What was encrypted with a key is decrypted with it, also by another copy of the key. *)
Lemma private_decrypt_run {PM : PrivateModes} flen from to0 rsa v rsa2 to s :
  plain_private rsa2 = true ->
  key_ok rsa -> 1 < bn_val rsa.(rsa_n) -> bytes from -> 0 <= flen <= zlen from -> flen + 42 <= key_len rsa ->
  encrypted from to0 flen rsa v -> same_key rsa rsa2 -> bn_ok rsa2.(rsa_d) -> inverse_exponents rsa2 -> key_len rsa <= zlen to -> heap_ok s ->
  exists r tr, RSA_eay_private_decrypt b (key_len rsa) (take (Z.to_nat (key_len rsa)) v.1.2) to rsa2 s =
    Ret (r, Proc (heap s) (fresh s + 2) tr (fds s) (vars s)) /\
    r.1 = (flen, splice to 0 (take (Z.to_nat flen) from)).
Proof.
  intros Hplain [Hn He Hodd Hbits Helt Heb Hmont] Hn1 Hf Hflen Hfit (seed & cs & rsa' & Hsb & Hsl & Hcb & Hcz & _ & Hcv & ->) (En & Ee & _ & Hm2) Hd Hinv Hto Hok.
  destruct (modulus_size _ Hn Hn1 Hbits) as (Hnum & Htop & Hlo & Hhi). fold (key_len rsa) in Hnum, Hlo, Hhi.
  cbn [fst snd]. rewrite splice_0, take_app_length' by (unfold zlen in Hcz; lia).
  assert (Ek : key_len rsa2 = key_len rsa) by (unfold key_len; by rewrite En). set (num := key_len rsa) in *. set (msg := take (Z.to_nat flen) from) in *.
  assert (Hzm : zlen msg = flen) by (unfold msg; rewrite zlen_take; lia).
  assert (Hbm : bytes msg) by (by apply Forall_take). set (em := oaep_encode num seed msg []) in *.
  assert (Hev : 0 <= be_val em < bn_val (rsa_n rsa)).
  { assert (Hbem : bytes em) by (by apply bytes_oaep_encode). assert (Hzem : zlen em = num) by (apply zlen_oaep_encode; [done|lia]).
    unfold em, oaep_encode in *. rewrite be_val_cons, Z.mul_0_l, Z.add_0_l. apply Forall_cons in Hbem as [_ Hb']. rewrite zlen_cons in Hzem.
    pose proof (be_val_range _ Hb') as Hr. replace (zlen (mask_db seed (oaep_db num msg []))) with (num - 1) in Hr by lia. lia. }
  assert (Htk : take (Z.to_nat num) cs = cs) by (apply take_ge; unfold zlen in Hcz; lia).
  assert (Hlt : be_val (take (Z.to_nat num) cs) < bn_val (rsa_n rsa2)) by (rewrite Htk, Hcv, En; apply Z.mod_pos_bound; lia).
  assert (Hpow : be_val (take (Z.to_nat num) cs) ^ bn_val (rsa_d rsa2) mod bn_val (rsa_n rsa2) = be_val (oaep_encode (key_len rsa2) seed msg [])).
  { rewrite Htk, Hcv, Ek. fold em. etransitivity; [|apply (Hinv (be_val em)); rewrite En; lia]. rewrite Ee, En. apply cong_iff; [lia|].
    rewrite Z.pow_mul_r by (apply bn_val_nonneg; done). apply cong_pow; [by apply bn_val_nonneg|]. apply cong_mod. lia. }
  unfold RSA_eay_private_decrypt. fold (key_len rsa2). rewrite Ek.
  destruct (struct_run 44 s) as (tr1 & E1). rewrite (bindM_Ret _ _ _ _ _ E1). cbn [negb].
  destruct (temporary (with_trace tr1 s)) as (f & tr2 & E2 & Hsf). rewrite (bindM_Ret _ _ _ _ _ E2).
  destruct (temporary (with_trace tr2 (with_trace tr1 s))) as (br & tr3 & E3 & _). rewrite (bindM_Ret _ _ _ _ _ E3).
  destruct (temporary (with_trace tr3 (with_trace tr2 (with_trace tr1 s)))) as (rt & tr4 & E4 & Hsr). rewrite (bindM_Ret _ _ _ _ _ E4). cbv zeta.
  apply (scratch_run (eay_decrypt b num cs to rsa2 f rt num) (-1, to, rsa2) _
           (with_trace tr4 (with_trace tr3 (with_trace tr2 (with_trace tr1 s))))); [lia|exact Hok|].
  intros buf s1 Hbuf Hok1. rewrite <- En in Hn, Hodd, Hbits, Hm2, Hn1.
  destruct (eay_decrypt_run num cs to rsa2 f rt seed msg buf s1 Hplain Hn Hd Hodd Hbits Hm2 Hn1) as (rsa3 & tr & _ & E5); try done; try lia.
  rewrite Ek, Hzm in E5. eexists _, tr. split; [exact E5|]. done.
Qed.

End Rsa.

(** C6: RSA with OAEP gives the message back, on the path of the decryption that uses the
    private exponent alone.  The key has no prime factors and its flags turn blinding and
    the constant-time exponentiation off ([plain_private]; the code for other keys is the
    interface [PrivateModes]); its modulus is odd and within the library's limits and its
    exponents are inverse to each other.  With memory and random bytes, for every message
    that fits: encryption stores as many bytes as the modulus has and returns their
    number, and decryption of those bytes returns the length of the message and stores
    the message; both leave the heap as it was. *)
Theorem rsa_oaep_roundtrip {E : Env} {T : Temporaries} {TO : TemporariesOk T} {Mul : Multiplier} {MO : MultiplierOk Mul}
    {D : Division} {DO : DivisionOk D} {PM : PrivateModes} b b' flen from res out rsa s s' :
  mem_available -> rand_available -> plain_private rsa = true -> key_ok rsa -> 1 < bn_val rsa.(rsa_n) -> bn_ok rsa.(rsa_d) -> inverse_exponents rsa ->
  bytes from -> 0 <= flen <= zlen from -> flen + 42 <= key_len rsa -> key_len rsa <= zlen res -> key_len rsa <= zlen out ->
  heap_ok s -> heap_ok s' ->
  exists cs rsa1 rsa2 tr tr', zlen cs = key_len rsa /\
    RSA_eay_public_encrypt b flen from res rsa s =
      Ret ((key_len rsa, splice res 0 cs, rsa1), Proc (heap s) (fresh s + 2) tr (fds s) (vars s)) /\
    RSA_eay_private_decrypt b' (key_len rsa) cs out rsa s' =
      Ret ((flen, splice out 0 (take (Z.to_nat flen) from), rsa2), Proc (heap s') (fresh s' + 2) tr' (fds s') (vars s')).
Proof.
  intros Hmem Hrand Hplain Hkey Hn1 Hd Hinv Hf Hflen Hfit Hres Hout Hok Hok'.
  destruct (public_encrypt_run b Hmem flen from res rsa s Hrand Hkey Hn1 Hf Hflen Hfit Hres Hok) as (v & tr & E1 & Hv).
  destruct (private_decrypt_run b' Hmem flen from res rsa v rsa out s' Hplain Hkey Hn1 Hf Hflen Hfit Hv) as (r & tr' & E2 & Hr); [|done..|].
  { split_and!; [done..|apply Hkey]. }
  destruct Hv as (seed & cs & rsa1 & _ & _ & _ & Hcz & _ & _ & ->). destruct r as [rv2 rsa2]. cbn [fst snd] in Hr, E2. subst rv2.
  rewrite splice_0, take_app_length' in E2 by (unfold zlen in Hcz; lia). by exists cs, rsa1, rsa2, tr, tr'.
Qed.
