(* ===== verification/RsaKey.v ===== *)
(** * RsaKey: a key

    A modulus that is the product of the odd primes below 350, with the exponent 65537
    and its inverse: the hypotheses of the round trip hold for it. *)

From Stdlib Require Import Zpow_facts.
From S2P Require Import Prelude Sys Runs Sha1 RsaOaep RsaOaepProofs Modular Bn BnProofs BnMont BnMontProofs.
From S2P Require Import BnExpProofs BnMul ModExp RsaEay RsaEayProofs.

(** The odd primes up to a bound. *)
Definition is_prime (p : Z) : bool := forallb (fun q => negb (p mod q =? 0)) (seqZ 2 (p - 2)).
Definition primes : list Z := List.filter is_prime (seqZ 3 347).

Definition product : list Z -> Z := fold_right Z.mul 1.

Definition key_modulus : Z := product primes.
Definition key_exponent : Z := 65537.
Definition key_inverse : Z := 90154503468770883209448768489307147977473.

Fixpoint coprime (l : list Z) : bool := match l with [] => true | p :: l => (Z.gcd p (product l) =? 1) && coprime l end.

(** A number that divides by pairwise coprime factors divides by their product. *)
Lemma product_divides ps a :
  (forall p, In p ps -> Z.divide p a) ->
  coprime ps = true -> Z.divide (product ps) a.
Proof.
  induction ps as [|p ps IH]; intros Hd Hc; [apply Z.divide_1_l|]. apply andb_true_iff in Hc as [Hg%Z.eqb_eq Hc].
  destruct (IH (fun q Hq => Hd q (or_intror Hq)) Hc) as [k ->]. cbn [product fold_right]. fold (product ps).
  assert (Hp : Z.divide p k).
  { apply Z.gauss with (product ps); [|done]. rewrite Z.mul_comm. apply Hd. by left. }
  by apply Z.mul_divide_mono_r.
Qed.

(** Fermat's theorem for one modulus, by evaluation on the residues. *)
Definition fermat (p : Z) : bool :=
  (0 <? p) && forallb (fun x => (x =? 0) || (Zpow_mod x (p - 1) p =? 1)) (seqZ 0 p) && ((key_exponent * key_inverse) mod (p - 1) =? 1 mod (p - 1)) && (1 <? p - 1).

Lemma fermat_power p x : fermat p = true -> 0 <= x -> x ^ (key_exponent * key_inverse) ≡[p] x.
Proof.
  unfold fermat. rewrite !andb_true_iff. intros [[[Hp%Z.ltb_lt Hx] Hm%Z.eqb_eq] Hp1%Z.ltb_lt] H0.
  rewrite forallb_forall in Hx. rewrite (Z.mod_small 1) in Hm by lia. set (k := key_exponent * key_inverse) in *.
  assert (Hr : x mod p ≡[p] x) by (apply cong_mod; lia). pose proof (Z.mod_pos_bound x p Hp) as Hb.
  specialize (Hx (x mod p) ltac:(apply list_elem_of_In, elem_of_seqZ; lia)). apply orb_true_iff in Hx.
  assert (Hk : k = (p - 1) * (k / (p - 1)) + 1) by (pose proof (Z.div_mod k (p - 1)); lia). assert (Hq : 0 <= k / (p - 1)) by (apply Z.div_pos; [done|lia]).
  rewrite Hk, Z.pow_add_r, Z.pow_1_r, Z.pow_mul_r by (try apply Z.mul_nonneg_nonneg; lia). destruct Hx as [E0%Z.eqb_eq|E1%Z.eqb_eq]; [|rewrite Zpow_mod_correct in E1 by lia].
  - assert (Hx0 : x ≡[p] 0) by (rewrite <- Hr, E0; done).
    etransitivity; [apply cong_mul; [reflexivity|exact Hx0]|]. rewrite Z.mul_0_r. by symmetry.
  - transitivity (1 * x); [|by rewrite Z.mul_1_l]. apply cong_mul; [|done]. transitivity (1 ^ (k / (p - 1))); [|by rewrite Z.pow_1_l]. apply cong_pow; [done|].
    rewrite <- (cong_pow p _ _ (p - 1) ltac:(lia) Hr). apply cong_iff; [lia|]. rewrite E1. symmetry. apply Z.mod_small. lia.
Qed.

Lemma primes_coprime : coprime primes = true.
Proof. vm_compute. reflexivity. Qed.

Lemma primes_fermat p : In p primes -> fermat p = true.
Proof. assert (H : forallb fermat primes = true) by (vm_compute; reflexivity). rewrite forallb_forall in H. apply H. Qed.

Lemma key_power x : 0 <= x -> x ^ (key_exponent * key_inverse) ≡[key_modulus] x.
Proof.
  intros Hx. unfold cong, key_modulus. apply (product_divides primes); [|exact primes_coprime].
  intros p Hp. exact (fermat_power p x (primes_fermat p Hp) Hx).
Qed.

Lemma key_inverse_ok x : 0 <= x < key_modulus -> x ^ (key_exponent * key_inverse) mod key_modulus = x.
Proof. intros Hx. symmetry. apply cong_small; [symmetry; apply key_power, Hx|exact Hx]. Qed.

(** The key, and a message of 16 bytes. *)
Definition example_key : RSA :=
  Rsa (bn_of key_modulus) (bn_of key_exponent) (bn_of key_inverse) None (RSA_FLAG_NO_BLINDING .| RSA_FLAG_NO_CONSTTIME) None.

(** No other way to use a key: an error. *)
#[export] Instance no_private_modes {E : Env} : PrivateModes := fun rsa _ _ => ret (None, rsa).

Lemma example_n : bn_ok (bn_of key_modulus) /\ bn_val (bn_of key_modulus) = key_modulus.
Proof. apply bn_of_ok. vm_compute. discriminate. Qed.
Lemma example_e : bn_ok (bn_of key_exponent) /\ bn_val (bn_of key_exponent) = key_exponent.
Proof. apply bn_of_ok. discriminate. Qed.
Lemma example_d : bn_ok (bn_of key_inverse) /\ bn_val (bn_of key_inverse) = key_inverse.
Proof. apply bn_of_ok. discriminate. Qed.

Lemma example_key_ok : key_ok example_key.
Proof.
  split; cbn [rsa_n rsa_e method_mod_n example_key];
    [apply example_n|apply example_e|rewrite (proj2 example_n)..|exact I]; rewrite ?(proj2 example_e); vm_compute; reflexivity || discriminate.
Qed.

Lemma example_inverse : inverse_exponents example_key.
Proof.
  intros x. cbn [rsa_n rsa_e rsa_d example_key]. rewrite (proj2 example_n), (proj2 example_e), (proj2 example_d). apply key_inverse_ok.
Qed.

Lemma rsa_oaep_roundtrip_witness :
  exists cs rsa1 rsa2 tr tr', zlen cs = 59 /\
    @RSA_eay_public_encrypt (env_lib 1) small_multiplier new_temporaries value_division Unrolled 16 wit_key (repeat 0 64) example_key proc0 =
      Ret ((59, splice (repeat 0 64) 0 cs, rsa1), Proc ∅ 3 tr [] statics0) /\
    @RSA_eay_private_decrypt (env_lib 1) small_multiplier new_temporaries value_division SmallFootprint no_private_modes 59 cs (repeat 0 64) example_key proc0 =
      Ret ((16, splice (repeat 0 64) 0 wit_key, rsa2), Proc ∅ 3 tr' [] statics0).
Proof.
  assert (Hk : key_len example_key = 59) by (vm_compute; reflexivity).
  destruct (@rsa_oaep_roundtrip (env_lib 1) new_temporaries _ small_multiplier _ value_division _ no_private_modes Unrolled SmallFootprint 16 wit_key
    (repeat 0 64) (repeat 0 64) example_key proc0 proc0) as (cs & rsa1 & rsa2 & tr & tr' & H1 & H2 & H3).
  - apply env_lib_mem.
  - intros tr n. reflexivity.
  - reflexivity.
  - apply example_key_ok.
  - cbn [rsa_n example_key]. rewrite (proj2 example_n). vm_compute. reflexivity.
  - apply example_d.
  - apply example_inverse.
  - apply (bool_decide_eq_true_1 (bytes wit_key)). vm_compute. reflexivity.
  - split; discriminate.
  - rewrite Hk. discriminate.
  - rewrite Hk. discriminate.
  - rewrite Hk. discriminate.
  - apply heap_ok_0.
  - apply heap_ok_0.
  - rewrite Hk in H1, H2, H3. exists cs, rsa1, rsa2, tr, tr'. split; [exact H1|]. split; [exact H2|exact H3].
Defined.
