(* ===== verification/KeyExchange.v ===== *)
(** * KeyExchange: the key that the client sends

    [rsa_encrypt] of src/jni/raop_play/raop_client.c down to the arithmetic: the model of
    the client ([RaopClient]) makes one call to OpenSSL there; here the function is
    written with the functions of OpenSSL that the call runs. *)

From S2P Require Import RaopClient RaopCrypto.
From S2P Require Import Prelude Base64 Sys Runs Sha1 RsaOaep RsaOaepProofs Modular Bn BnProofs BnMont BnMontProofs.
From S2P Require Import BnExpProofs BnMul ModExp RsaEay RsaEayProofs.

Section Exchange.
Context {E : Env} {Mul : Multiplier} {Tmp : Temporaries} {Div : Division} (b : build).

(** [rsa_encrypt(text, len, res)]: no result of OpenSSL is checked, so without memory a
    null pointer is used.  Big numbers and keys are values here, so the call of
    [RSA_free] at the end, which releases the key and does not touch [res] or the return
    value, has nothing to do. *)
Definition rsa_encrypt_openssl (text : list Z) (len : Z) (res : list Z) : M (Z * list Z) :=
  do! rsa <- RSA_new;
  do! '(size, modules) <- lift (base64_decode (RaopClient.rsa_n ++ [0]) (repeat 0 256));
  do! n <- BN_bin2bn_new modules size;
  do! '(size, exponent) <- lift (base64_decode (RaopClient.rsa_e ++ [0]) (repeat 0 8));
  do! e <- BN_bin2bn_new exponent size;
  match rsa, n, e with
  | Some rsa, Some n, Some e =>
      do! r <- RSA_eay_public_encrypt b len text res (Rsa n e rsa.(rsa_d) rsa.(rsa_factors) rsa.(rsa_flags) rsa.(method_mod_n));
      ret r.1
  | _, _, _ => undef NullDeref
  end.

End Exchange.

Lemma map_u8_id l : bytes l -> map u8 l = l.
Proof. induction 1 as [|x l Hx _ IH]; [done|]. cbn [map]. by rewrite IH, u8_id. Qed.

(** The modulus of the device. *)
Definition device_modulus : Z := be_val RaopCrypto.rsa_modulus.

Lemma device_modulus_bytes : bytes RaopCrypto.rsa_modulus.
Proof. apply (bool_decide_eq_true_1 (bytes RaopCrypto.rsa_modulus)). vm_compute. reflexivity. Qed.

Lemma device_modulus_facts :
  Z.odd device_modulus = true /\ (nbits device_modulus =? 2048) = true /\ (65537 <? device_modulus) = true /\ zlen RaopCrypto.rsa_modulus = 256.
Proof. split_and!; vm_compute; reflexivity. Qed.

Lemma device_modulus_eq : be_val RaopCrypto.rsa_modulus = device_modulus.
Proof. reflexivity. Qed.

#[local] Opaque device_modulus RaopCrypto.rsa_modulus.

(** The key structure that is passed to OpenSSL. *)
Lemma device_key_ok n e d fc fl :
  bn_ok n -> bn_val n = device_modulus -> bn_ok e -> bn_val e = 65537 -> key_ok (Rsa n e d fc fl None) /\ 1 < bn_val n /\ key_len (Rsa n e d fc fl None) = 256.
Proof.
  intros Hn Hvn He Hve. destruct device_modulus_facts as (Hodd & Hb%Z.eqb_eq & Hlt%Z.ltb_lt & _). split; [|split].
  - split; cbn [rsa_n rsa_e method_mod_n]; rewrite ?Hvn, ?Hve, ?Hb; [exact Hn|exact He|exact Hodd|discriminate|exact Hlt|discriminate|exact I].
  - rewrite Hvn. lia.
  - unfold key_len, BN_num_bytes. cbn [rsa_n]. rewrite num_bits_spec, Hvn, Hb by exact Hn. reflexivity.
Qed.

(** The numbers of the key. *)
Lemma exponent_runs {E : Env} : mem_available ->
  runs (BN_bin2bn_new [1; 0; 1; 0; 0; 0; 0; 0] 3) (fun r => exists e, r = Some e /\ bn_ok e /\ bn_val e = 65537).
Proof.
  intros Hmem. apply (bin2bn_new_runs [1; 0; 1; 0; 0; 0; 0; 0] 3 Hmem); [|split; discriminate|reflexivity].
  apply (bool_decide_eq_true_1 (bytes [1; 0; 1; 0; 0; 0; 0; 0])). vm_compute. reflexivity.
Qed.

Lemma modulus_runs {E : Env} : mem_available ->
  runs (BN_bin2bn_new RaopCrypto.rsa_modulus 256) (fun r => exists n, r = Some n /\ bn_ok n /\ bn_val n = device_modulus).
Proof.
  intros Hmem. destruct device_modulus_facts as (_ & _ & _ & Hz). rewrite <- device_modulus_eq.
  pose proof (bin2bn_new_runs RaopCrypto.rsa_modulus 256 Hmem device_modulus_bytes) as Hr. rewrite Hz in Hr.
  assert (Ht : take (Z.to_nat 256) RaopCrypto.rsa_modulus = RaopCrypto.rsa_modulus) by (apply take_ge; unfold zlen in Hz; lia). rewrite Ht in Hr.
  apply Hr; [split; discriminate|reflexivity].
Qed.

Lemma RSA_new_run {E : Env} s : mem_available -> exists rsa tr, RSA_new s = Ret (Some rsa, with_trace tr s) /\ method_mod_n rsa = None.
Proof.
  intros Hmem. destruct (struct_run Hmem 88 s) as (tr & E1). eexists _, tr. unfold RSA_new. rewrite (bindM_Ret _ _ _ _ _ E1).
  split; reflexivity.
Qed.

(** The function after the key is decoded. *)
Lemma rsa_encrypt_calls {E : Env} {T : Temporaries} {Mul : Multiplier} {D : Division} b text len res s :
  rsa_encrypt_openssl b text len res s =
  (do! rsa <- RSA_new;
   do! n <- BN_bin2bn_new RaopCrypto.rsa_modulus 256;
   do! e <- BN_bin2bn_new [1; 0; 1; 0; 0; 0; 0; 0] 3;
   match rsa, n, e with
   | Some rsa, Some n, Some e =>
       do! r <- RSA_eay_public_encrypt b len text res (Rsa n e rsa.(rsa_d) rsa.(rsa_factors) rsa.(rsa_flags) rsa.(method_mod_n)); ret r.1
   | _, _, _ => undef NullDeref
   end) s.
Proof.
  unfold rsa_encrypt_openssl. rewrite RaopCrypto.rsa_n_decodes, RaopCrypto.rsa_e_decodes. reflexivity.
Qed.

(** C3: what [rsa_encrypt] sends is the RSAES-OAEP encryption of the AES key under the
    device's public key.  With memory and random bytes, for any text of up to 214 bytes,
    it returns 256 and stores a ciphertext of 256 bytes, the encoded text to the power
    65537 modulo the device's modulus; the heap is as before.  The function of the
    client's model, given this reply of OpenSSL, stores the same bytes. *)
Theorem rsa_encrypt_sends {E : Env} {T : Temporaries} {TO : TemporariesOk T} {Mul : Multiplier} {MO : MultiplierOk Mul}
    {D : Division} {DO : DivisionOk D} b text len res s :
  mem_available -> rand_available -> bytes text -> 0 <= len <= zlen text -> len <= 214 -> 256 <= zlen res -> heap_ok s ->
  exists seed cs tr, zlen seed = 20 /\ bytes cs /\ zlen cs = 256 /\
    be_val cs = be_val (oaep_encode 256 seed (take (Z.to_nat len) text) []) ^ 65537 mod device_modulus /\
    rsa_encrypt_openssl b text len res s = Ret ((256, splice res 0 cs), Proc (heap s) (fresh s + 2) tr (fds s) (vars s)) /\
    forall E' s', let c := CRsaPublicEncrypt RaopCrypto.rsa_modulus [1; 0; 1] (take (Z.to_nat len) text) RaopClient.RSA_PKCS1_OAEP_PADDING in
      @env_reply E' (trace s') c = Reply 256 cs 0 ->
      @RaopClient.rsa_encrypt E' text len 512 s' = Ret ((256, splice (repeat 0 512) 0 cs), with_trace (c :: trace s') s').
Proof.
  intros Hmem Hrand Ht Hlen H214 Hres Hok. rewrite rsa_encrypt_calls.
  destruct (RSA_new_run s Hmem) as (rsa & tr1 & E1 & Hmn). rewrite (bindM_Ret _ _ _ _ _ E1).
  destruct (modulus_runs Hmem (with_trace tr1 s)) as (o & tr2 & E2 & n & -> & Hn & Hvn). rewrite (bindM_Ret _ _ _ _ _ E2).
  destruct (exponent_runs Hmem (with_trace tr2 (with_trace tr1 s))) as (o & tr3 & E3 & e & -> & He & Hve). rewrite (bindM_Ret _ _ _ _ _ E3), Hmn.
  destruct (device_key_ok n e (rsa_d rsa) (rsa_factors rsa) (rsa_flags rsa) Hn Hvn He Hve) as (Hkey & H1n & Hlk). set (key := Rsa _ _ _ _ _ _) in *.
  destruct (public_encrypt_run b Hmem len text res key (with_trace tr3 (with_trace tr2 (with_trace tr1 s)))) as (v & tr & E4 & Hv);
    [exact Hrand|exact Hkey|exact H1n|exact Ht|exact Hlen|lia|lia|exact Hok|]. rewrite (bindM_Ret _ _ _ _ _ E4).
  destruct Hv as (seed & cs & rsa' & _ & Hs & Hcb & Hcz & _ & Hcv & ->). rewrite Hlk in *.
  change (rsa_n key) with n in Hcv. change (rsa_e key) with e in Hcv. rewrite Hvn, Hve in Hcv.
  exists seed, cs, tr. split; [exact Hs|]. split; [exact Hcb|]. split; [exact Hcz|]. split; [exact Hcv|]. split; [reflexivity|].
  intros E' s' c Hr. pose proof (@RaopCrypto.rsa_encrypt_run E' text len 512 s') as Hrun. cbv zeta in Hrun. fold c in Hrun. rewrite Hr in Hrun.
  cbn [rv rdata] in Hrun. rewrite map_u8_id in Hrun by exact Hcb. rewrite resize_all_alt in Hrun by (unfold zlen in Hcz; lia).
  apply Hrun; discriminate.
Qed.

Lemma rsa_encrypt_sends_witness :
  exists seed cs tr, zlen seed = 20 /\
    be_val cs = be_val (oaep_encode 256 seed wit_key []) ^ 65537 mod device_modulus /\
    @rsa_encrypt_openssl (env_lib 1) small_multiplier new_temporaries value_division Unrolled wit_key 16 (repeat 0 512) proc0 =
      Ret ((256, splice (repeat 0 512) 0 cs), Proc ∅ 3 tr [] statics0).
Proof.
  destruct (@rsa_encrypt_sends (env_lib 1) new_temporaries _ small_multiplier _ value_division _ Unrolled wit_key 16 (repeat 0 512) proc0)
    as (seed & cs & tr & H1 & _ & _ & H4 & H5 & _).
  - apply env_lib_mem.
  - intros tr n. reflexivity.
  - apply (bool_decide_eq_true_1 (bytes wit_key)). vm_compute. reflexivity.
  - split; discriminate.
  - discriminate.
  - discriminate.
  - apply heap_ok_0.
  - exists seed, cs, tr. split; [exact H1|]. split; [exact H4|exact H5].
Defined.
